(* ===== verification/_CoqProject ===== *)
-Q . S2P
Prelude.v
Threads.v
PyStd.v
Messages.v
Env.v
DataBlockManager.v
RawData.v
DataIterators.v
DataBlockMaker.v
DataJoiner.v
DataBlockSaver.v
Consumer.v
DataBlockConsumer.v
ExampleIdConsumer.v
DataJoinServer.v
ExampleIdProducer.v
DataBlockProducer.v
Processors.v
System.v
JoinSteps.v
Interleaving.v
JoinChannel.v
Stubs.v
DataBase.v
DataCenter.v
RouteServer.v
MnistData.v
PsiConfig.v
PsiFlow.v
PsiThreads.v
PsiRegister.v
PsiFiles.v
PsiDispatch.v
PsiActor.v
PsiApp.v
PsiMain.v
PsiBuckets.v
PsiRuns.v
Trainer.v
TrainerOps.v
TrainerRun.v
MnistModel.v
MnistInput.v
TrainerSession.v
Bridge.v
BridgeAgent.v
Coordinator.v
Start.v
LossyLink.v
Federation.v
