(* ===== verification/Prelude.v ===== *)
(** * 9n-mpc: the data join, the private set intersection, the data center and the trainer

    9n-mpc is a system for vertical federated learning between two companies, a
    leader and a follower.  Before training, the two find the samples they both
    have (the data join, or a private set intersection when ids must not be
    shown); the blocks of a join are registered at a data center; then workers on
    both sides train a model together, over a bridge between them.  This
    development models the Python code of these parts, under [src/src/DataJoin],
    [src/src/PSI] and [src/src/Trainer], the bridge of the trainer and the coordinator
    (C++, under [src/src/Trainer/rpc] and [src/src/Coordinator]) and the MNIST example of [src/example], and proves what
    it is for.

    ** The files

    Shared by all:
    - [Prelude] (this file): exceptions, outcomes, the state-and-exception monad
      [M], its laws for running programs, tactics and hints.
    - [PyStd]: what the sources use of Python: insertion-ordered dictionaries
      ([Dict]), strings, paths and numerals ([Str]), sorting, ranges.
    - [Threads]: threads as step functions, schedules, the two arguments about
      schedules (an invariant; a measure that one thread lowers).

    The data join ([src/src/DataJoin/data_join]):
    - [Messages]: the protobuf messages, with the range checks of the fields.
    - [Env]: interfaces to the outside, with their laws and a concrete instance
      of each: [GFile] (TensorFlow's gfile and TFRecord), [Utils] (names of
      files, codecs, the status service) and [PeerClient] (the gRPC stub).
    - [DataBlockManager]: data_block_manager.py, the store of the block metas.
    - [RawData]: raw_data_loader.py, data_iterator.py, tf_data_iterator.py, a file
      read at once; [DataIterators]: the iterators as objects with their generator,
      which load the same ([iterator_loads_the_file]).
    - [DataBlockMaker]: data_block_maker.py, the writer of one block.
    - [DataJoiner]: data_joiner.py and memory_data_joiner.py.
    - [DataBlockSaver]: data_block_saver.py.
    - [Consumer]: the interface of the two consumers and what the server may
      rely on; [DataBlockConsumer] (data_block_consumer.py, leader) and
      [ExampleIdConsumer] (example_id_consumer.py, example_id_appender.py,
      follower) are its instances.
    - [DataJoinServer]: the handlers of data_join_manager.py, over any consumer.
      A server is a [PeerClient] of the other side.
    - [ExampleIdProducer] (example_id_producer.py, leader) and
      [DataBlockProducer] (data_block_producer.py, follower), over any peer;
      [Processors]: the start, the stop and the builder of the joiner around the
      follower's rounds, under any schedule ([rounds_run_on_the_first_joiner]).
    - [System]: the node of data_join_manager.py in both roles, the service and
      command line of data_join_server.py, the whole join.
    - [JoinSteps], [Interleaving]: the four threads of the join cut into steps
      that any schedule may interleave, each thread alone being its routine.
    - [LossyLink]: the two senders over a link that loses calls or answers, round
      after round.
    - [JoinChannel]: proxy/data_join_channel.py, the channel to the peer.
    - [Stubs]: the generated *_pb2_grpc.py of the four services: the stub of a
      servicer, over any transport and codec that keep their promises, is the
      [PeerClient] that the senders are proved against.

    The data flow is: the leader's [ExampleIdProducer] sends its ids to the
    follower's [DataJoinServer], whose [ExampleIdConsumer] queues them; the
    follower's [DataJoiner] keeps those that its own [RawData] has, cuts them
    into blocks with a [DataBlockMaker] and stores them in its
    [DataBlockManager]; the follower's [DataBlockProducer] sends the metas to the
    leader's server, whose [DataBlockConsumer] hands them to the
    [DataBlockSaver], which writes the same blocks of the leader's records.

    The data center's client ([src/src/DataJoin]):
    - [DataBase]: db/db_models.py, manager/data_managers.py,
      controller/data_controller.py and db/redis_manager.py: tables, the rows
      that requests write, singletons, redis.
    - [DataCenter]: controller/parse_data_block_meta.py and
      sync_convert_data_block.py, routine/parse_data_block_meta_routine.py: the
      route that takes a directory of blocks, the processes it starts, what each
      posts; the conversion of a block to text.
    - [RouteServer]: route_server.py with [init_db] of db_models.py: the tables, the
      order in which the servers start, the ends of the process.

    The private set intersection ([src/src/PSI]):
    - [PsiConfig]: psi/interconnection_psi/base.py and config.py, the handshake.
    - [PsiFlow]: cipher_store.py, flow.py and api.py with the dispatch and framing
      of crypto/src/{curve,hash,hash_set}.rs, the Diffie-Hellman protocol, its
      stages run one after the other.
    - [PsiThreads]: the same parties as four threads each, over queues, under any
      schedule; they end with what the stages return.
    - [PsiRegister]: register_uuid.py and its use in api.py.
    - [PsiFiles], [PsiDispatch], [PsiActor], [PsiApp], [PsiMain]: psi_actors.py, the
      batch join: files and tables, the dispatcher actor, the worker actors, the
      split into buckets with the run, the main program with its log and the states
      that it posts.
    - [PsiBuckets]: the batch join over the protocol of [PsiFlow].
    - [PsiRuns]: two programs with the protocol between their workers, from the
      input files to the output files.

    The trainer ([src/src/Trainer/fl_comm_libs] and [src/src/Trainer/rpc]):
    - [Trainer]: the configuration of flenv.py, fl_rpc_utils.py and the order of
      the bridge operations in a training session of fl_estimator.py.
    - [TrainerOps]: the one-time load of the operators in fl_ops.py, by any number
      of threads.
    - [TrainerRun]: the wrapper of flenv.py around a program (pairing, directories,
      checkpoint), util.py, the evaluation of fl_estimator.py.
    - [TrainerSession]: FLEstimator with its cluster configuration, feeds, hooks,
      the session that ends with the data, and the report.
    - [Bridge]: rpc_bridge_agent_service.cc, the receive cache of
      rpc_bridge_agent.cc and rpc_bridge_mgr: what a worker does with the messages
      and the blocks of its peer.
    - [BridgeAgent]: the agent of rpc_bridge_agent.cc with its retry thread, and
      the transition system of agent, network, service and operators.

    The coordinator ([src/src/Coordinator], C++):
    - [Coordinator]: internal_service_impl.cc, common.cc, check_app_status.cc,
      invoke_module.cc and hiredis_executor.cc: registration of the workers, start
      and check of the applications, the lock in redis; registrations made at the
      same time as threads whose steps are commands to redis.
    - [Start]: mnist_demo/write_redis.py, which puts the configuration in redis, the
      commands of common.cc to the shell, and the start of an application from the
      upload to the last worker.

    The example ([src/example]):
    - [MnistData]: mnist_data/make_data.py, the data of both sides.
    - [MnistModel]: mnist_demo/mnist_leader.py, mnist_follower.py and baseline.py:
      the model in two halves and in one place, and what a training step
      exchanges.
    - [MnistInput]: the input pipelines, the driver of baseline.py, the datasets of
      fl_ops.py, export and serving.
    - [Federation]: the join of both sides' data followed by the training on the
      joined blocks.

    Definitions have the names of the code (a leading underscore is dropped, a
    prefix such as [ec_] or [bp_] is added where two classes use one name).  An
    object is a record, a method is a value of [M], in which an exception keeps
    the state that it leaves behind, as in Python.  Each file goes from the data
    over the operations and the specification to lemmas, properties (the theorems
    with a number C1 to C40) and instances at which they are evaluated (the
    witnesses).

    ** The theorems

    - The whole: the data of two sides, joined under any schedule and trained on in
      two halves, gives the model that central training has after the full batches
      of the common samples (C1).
    - The join as a whole: with enough turns for each thread all common ids are
      joined (C2), under every interleaving nothing fails
      and the leader's blocks are the first of the follower's
      (C3); the services run in turn align the blocks
      (C6).
    - The intersection as a whole: the threads of both parties end with the common
      rows (C4), as the stages do
      (C7), also when both sides split their tables
      ([buckets_join_the_tables]); two programs started on their files write the
      join of the files (C5); a batch run writes every part of its output, in
      any order of the workers (C8,
      C9).
    - Training as a whole: the two halves train the model that one place would
      train (C10), and what they export predicts
      alike (C11).
    - The bridge: every message is delivered once and in order
      (C12), what the agent has taken gets through as long as
      the retry thread hears of it (C13), and the blocks of
      the leader are loaded once and in order (C23).
    - The coordinator: a configured application starts with all its workers
      (C17); registrations made at the same time are kept as if made
      one after the other, when the lock holds (C18).
    - Components against their specifications: the block store is an append-only
      log (C19) that survives a restart (C20) and
      an interrupted save ([interrupted_save_is_settled]); maker, joiner and saver
      (C21, C16, by any clock
      C35, C25); the server (C28); the stubs
      (C29).
    - The senders over a link that loses calls: metas arrive once
      (C14), ids at least once (C15).
    - The data center: a directory is registered block by block
      (C22), a request updates one row
      (C24), tables stay typed (C30),
      progress is never undone (C33).
    - The intersection's parts: the handshake (C26), the framing of
      the batches (C27).
    - The trainer's parts: the load of the operators (C31,
      C32), the session (C34).
    - The example's data: aligned sets (C36), the bound of
      the hash (C37).
    - What the code does in its bad cases, where that is not what it means to do:
      C38, C39 (a schedule of any two
      workers), C40.  Many more such theorems carry
      no number ([memory_joiner_spins], [misaddressed_requests_change_nothing], [malformed_record_stops_load],
      [empty_part_stops_the_worker], [trailing_slash_loses_the_root],
      [leader_cannot_evaluate], [sender_never_finishes] and others), like
      theorems about the parts ([negotiation_decides_compatibility],
      [workers_register_under_different_names], [only_workers_keep_the_checkpoint],
      [session_is_registered_while_it_runs], [calls_reach_the_peer],
      [main_posts_its_end], [route_server_ends]).

    ** Bounds and fuel

    - Integers of messages have the range of their field: a value outside is a
      [ValueError] of the setter, so the theorems carry the bounds ([2^32] for
      partitions, [2^63] for times) as hypotheses.
    - The binary search over the block indices is a loop in the code.  The model
      gives it [search_fuel], 56 turns; the interval is [0, 2^53] and each turn
      halves it, so the fuel is never used up ([search_saved_prefix]).
    - Emptying the meta buffer pops at most 1024 items, as the code does.
    - The loops [memory_joiner_algo] and [send_loop] have no bound in the code.
      They take fuel; the theorems that they return hold for any fuel above a
      bound given in the statement (two more than the queue, the number of metas
      to send), and [memory_joiner_spins] and
      [sender_never_finishes] show the cases that never end.
    - The main loop of the batch join takes what happens meanwhile as a list
      [sched]: [TimeLimit] when [ray.wait] ends without a result, [Ready c] for the
      completion of one of the open jobs, chosen by [c], and [Handle a] when the
      dispatcher actor handles the next call that worker [a] has sent it and that
      nobody waits for.  The theorems about the
      run (C8, C9) hold for
      every such list with as many completions as the input has parts, and so for
      every order of the workers and of their reports; what is not handled before
      the results are asked for is missing in the report.
    - The connection loop of the trainer takes the answers of the peer
      ([attempts]) as a list; when it is used up, the model stops with [NoFuel].
    - Schedules are lists of threads; C2 asks that each
      thread has had a number of turns that the statement gives,
      C32 bounds the steps of a load by five for each thread.
    - The follower asks the data center for a block eleven times, as the code does
      ([fetch_loop]); the retry thread of the bridge has no bound and no fuel, since
      it is a part of a transition system.
    - Clocks are functions from the number of the reading to a time.

    ** Parameters

    Code outside the repository is an argument of the model with its documented
    behaviour as laws, and every interface has an instance that satisfies them:
    gfile and TFRecord files, the helpers of [DataJoin.utils], [tf.train.Example],
    [time.time], the gRPC link with the codecs of its messages, elliptic-curve
    scalar multiplication and hashing (lengths and commutation; that neither the
    hash nor the multiplications by the two keys identify two of the items at hand is
    a hypothesis of the theorems, [good_keys]: the primitive does identify some
    strings, as the instance does), pyarrow's tables and file
    systems, Ray's sort (a part without rows has no columns) and the calls between its
    actors (those of one actor are handled in order), blake2b, redis, the shell and the directories of a trainer,
    TensorFlow's operations and gradients (the laws are those of the chain rule; the
    instance differentiates over the integers), tf.data and the parser of examples,
    random draws.  Of the bridge, the outside are gRPC (a call is handled at most
    once, and callbacks come in the order of the calls), the kernels of the
    operators, which are not in the repository, and the data center.  The route of
    the data center that receives the posts is not in the repository either:
    C22 takes it to reach the update of the
    status.  The assumptions in the theorems are: the status service answers (it
    is a request to another process; [post_ok]); the input files of a batch run do
    not change during the run; the link between the two parties of the
    intersection delivers in order; the messages that the operators give to the
    bridge are numbered by its counters.  Outside [Interleaving], a round of a
    thread of the data join is one call.  Where a Python object is shared (the meta
    at the head of the saver's buffer, which the maker fills), the model writes the
    change back.

    ** What is not modelled

    - Of the coordinator, the service that the other side calls
      (external_service_impl.cc, not in the repository) and the start of the
      process; the link library (C++ binding), the Proxy (nginx and Lua) and the
      deployment files.
    - SHAKE-256, the curve arithmetic and the parallel hash set of the Rust module.
    - The serialised descriptors in the generated *_pb2.py files, beyond the
      messages that the code reads or writes.
    - The routes of routine/data_routine.py, which is not in the repository; peewee
      and the SQL server behind the tables.
    - The metric helpers of util.py, the file of the timeline, logging hooks and
      set-up, the download of the data set, and what nothing calls:
      check_auth and add_hash_mod of psi_actors.py, close_connect and to_json of
      db_models.py. *)

From stdpp Require Import base tactics list gmap strings.
From Stdlib Require Import ZArith Lia.

(** ** Python exceptions and outcomes

    A Python call either returns, raises, ends the process ([os._exit]) or, in
    the model only, runs out of the fuel given to a loop that the code writes
    without a bound. *)
Inductive exn :=
  | AssertionError | RuntimeError | IndexError | KeyError | ValueError
  | TypeError | AttributeError | StopIteration | NotImplementedError
  | SyntaxError | NameError | UnboundLocalError | NotFoundError | AlreadyExistsError | ParseError
  | RpcError | UnicodeDecodeError | OverflowError | ZeroDivisionError
  | PsiException (code : Z) | PanicException | IntegrityError | FileNotFoundError | ArrowInvalid
  | CalledProcessError | InvalidArgumentError | OutOfRangeError
  | GenericException.

Inductive stop :=
  | Raise (e : exn)
  | Exit (code : Z)
  | NoFuel.

Inductive outcome (A : Type) :=
  | Ret (a : A)
  | Stop (r : stop).
Arguments Ret {_} a.
Arguments Stop {_} r.

#[export] Instance exn_eq_dec : EqDecision exn.
Proof. solve_decision. Defined.
#[export] Instance stop_eq_dec : EqDecision stop.
Proof. solve_decision. Defined.

#[export] Instance outcome_ret : MRet outcome := λ A a, Ret a.
#[export] Instance outcome_bind : MBind outcome := λ A B f c,
  match c with Ret a => f a | Stop r => Stop r end.

Definition raise {A} (e : exn) : outcome A := Stop (Raise e).

Definition is_ret {A} (o : outcome A) : bool :=
  match o with Ret _ => true | Stop _ => false end.

(** ** Stateful computations

    [M S A]: a computation that reads and changes a state [S].  An exception
    keeps the state reached when it was raised, as Python does: nothing is
    rolled back. *)
Definition M (S A : Type) : Type := S → outcome A * S.

#[export] Instance M_ret S : MRet (M S) := λ A a s, (Ret a, s).
#[export] Instance M_bind S : MBind (M S) := λ A B f c s,
  match c s with
  | (Ret a, s') => f a s'
  | (Stop r, s') => (Stop r, s')
  end.

Section operations.
Context {S : Type}.

Definition getM : M S S := λ s, (Ret s, s).
Definition gets {A} (f : S → A) : M S A := λ s, (Ret (f s), s).
Definition putM (s : S) : M S unit := λ _, (Ret tt, s).
Definition modify (f : S → S) : M S unit := λ s, (Ret tt, f s).
Definition stopM {A} (r : stop) : M S A := λ s, (Stop r, s).
Definition raiseM {A} (e : exn) : M S A := stopM (Raise e).
Definition liftO {A} (o : outcome A) : M S A := λ s, (o, s).

(** [assert b], and the guards the code writes as [if not b: raise e]. *)
Definition require (b : bool) (e : exn) : M S unit :=
  if b then mret tt else raiseM e.
Definition assertM (b : bool) : M S unit := require b AssertionError.

(** [try: c  except Exception: h].  [os._exit] cannot be caught. *)
Definition catchM {A} (c : M S A) (h : exn → M S A) : M S A := λ s,
  match c s with
  | (Stop (Raise e), s') => h e s'
  | r => r
  end.

(** [for x in l: f x] *)
Fixpoint forM {A} (l : list A) (f : A → M S unit) : M S unit :=
  match l with
  | [] => mret tt
  | x :: l' => f x ;; forM l' f
  end.

(** [while c: body], with fuel *)
Fixpoint whileM (fuel : nat) (c : M S bool) (body : M S unit) : M S unit :=
  match fuel with
  | O => stopM NoFuel
  | Datatypes.S n => b ← c; if (b : bool) then body ;; whileM n c body else mret tt
  end.
End operations.

(** Running a computation on a part of a larger state. *)
Definition zoom {S T A} (get : S → T) (set : T → S → S) (c : M T A) : M S A := λ s,
  match c (get s) with (o, t) => (o, set t s) end.

(** ** Running equations *)
Lemma bind_Ret {A B} (a : A) (f : A → outcome B) : (Ret a ≫= f) = f a.
Proof. reflexivity. Qed.
Lemma bind_Stop {A B} r (f : A → outcome B) : (Stop r ≫= f) = Stop r.
Proof. reflexivity. Qed.

Section running.
Context {S : Type}.

Lemma run_bind {A B} (c : M S A) (f : A → M S B) s :
  (c ≫= f) s = match c s with
               | (Ret a, s') => f a s'
               | (Stop r, s') => (Stop r, s')
               end.
Proof. reflexivity. Qed.

Lemma run_bind_ret {A B} (c : M S A) (f : A → M S B) s s' a :
  c s = (Ret a, s') → (c ≫= f) s = f a s'.
Proof. intros H. by rewrite run_bind, H. Qed.

Lemma run_bind_stop {A B} (c : M S A) (f : A → M S B) s s' r :
  c s = (Stop r, s') → (c ≫= f) s = (Stop r, s').
Proof. intros H. by rewrite run_bind, H. Qed.

Lemma run_bind_inv {A B} (c : M S A) (f : A → M S B) s s' b :
  (c ≫= f) s = (Ret b, s') → ∃ a s1, c s = (Ret a, s1) ∧ f a s1 = (Ret b, s').
Proof. rewrite run_bind. destruct (c s) as [[a|r] s1]; [eauto|done]. Qed.

Lemma forM_app {A} (l1 l2 : list A) (f : A → M S unit) s :
  forM (l1 ++ l2) f s = (forM l1 f ;; forM l2 f) s.
Proof.
  revert s. induction l1 as [|x l1 IH]; intros s; [done|]. simpl.
  rewrite !run_bind. destruct (f x s) as [[[]|r] s1]; [|done].
  by rewrite IH, run_bind.
Qed.

(** A loop invariant carries through [forM] when every iteration returns. *)
Lemma forM_ind {A} (P : list A → S → Prop) (f : A → M S unit) l s :
  P [] s →
  (∀ done x s, P done s → x ∈ l → ∃ s', f x s = (Ret tt, s') ∧ P (done ++ [x]) s') →
  ∃ s', forM l f s = (Ret tt, s') ∧ P l s'.
Proof.
  intros H0 Hstep.
  cut (∀ todo done s, P done s → done ++ todo = l →
         ∃ s', forM todo f s = (Ret tt, s') ∧ P l s').
  { intros H. by apply (H l []). }
  clear s H0. induction todo as [|x todo IH]; intros done s HP Hl; simpl.
  - rewrite app_nil_r in Hl. subst. by exists s.
  - destruct (Hstep done x s HP) as (s1 & Hf & HP1); [set_solver|].
    destruct (IH (done ++ [x]) s1 HP1) as (s2 & Hl2 & HP2).
    { by rewrite <- (assoc_L (++)). }
    exists s2. by rewrite (run_bind_ret _ _ _ _ _ Hf).
Qed.
End running.

(** ** Automation

    [mrun] evaluates a computation as far as the state allows; the rewrite
    database [py] holds the running equations of the components. *)
Create HintDb py.
#[export] Hint Unfold mret mbind M_ret M_bind getM gets putM modify stopM raiseM
  liftO require assertM catchM zoom outcome_ret outcome_bind raise : py.

Ltac mrun := repeat (autounfold with py in *; simpl in *).
Ltac mcases := repeat (mrun; case_match; simplify_eq; try done).

(** ** Lists and integers *)
Section lists.
Context {A : Type}.

Definition last_opt (l : list A) : option A := last l.

Definition zlen (l : list A) : Z := Z.of_nat (length l).

Lemma zlen_nil : zlen [] = 0%Z.
Proof. done. Qed.
Lemma zlen_cons x l : zlen (x :: l) = (zlen l + 1)%Z.
Proof. unfold zlen. simpl. lia. Qed.
Lemma zlen_app l1 l2 : zlen (l1 ++ l2) = (zlen l1 + zlen l2)%Z.
Proof. unfold zlen. rewrite length_app. lia. Qed.
Lemma zlen_nonneg l : (0 ≤ zlen l)%Z.
Proof. unfold zlen. lia. Qed.
Lemma zlen_pos l : l ≠ [] → (0 < zlen l)%Z.
Proof. unfold zlen. destruct l; simpl; [done|lia]. Qed.
Lemma zlen_zero l : zlen l = 0%Z ↔ l = [].
Proof. unfold zlen. destruct l; simpl; split; [done|done|lia|done]. Qed.
End lists.

(** Two's complement ranges of the protobuf and Arrow integer types. *)
Definition in_int64 (z : Z) : bool := ((-2 ^ 63 <=? z) && (z <? 2 ^ 63))%Z.
Definition in_int32 (z : Z) : bool := ((-2 ^ 31 <=? z) && (z <? 2 ^ 31))%Z.
Definition in_int16 (z : Z) : bool := ((-2 ^ 15 <=? z) && (z <? 2 ^ 15))%Z.
Definition in_uint64 (z : Z) : bool := ((0 <=? z) && (z <? 2 ^ 64))%Z.

Arguments in_int64 : simpl never.
Arguments in_int32 : simpl never.
Arguments in_int16 : simpl never.
Arguments in_uint64 : simpl never.
Arguments zlen : simpl never.
