(* ===== verification/Threads.v ===== *)
(** * Threads

    The services of the data join run their routines in threads that repeat
    them ([ProcessorManager]).  Here a thread is a step function over a program
    counter, its round is what the routine does when nobody else runs, and a
    schedule says which thread takes the next step.  The lemmas are the two
    arguments about schedules: an invariant holds at the end of each, and a
    measure that one thread lowers is zero after enough visits to it. *)

From stdpp Require Import base tactics list.
From Stdlib Require Import ZArith Lia.
From S2P Require Import Prelude.

Lemma run_ret {S A} (a : A) (s : S) : mret (M := M S) a s = (Ret a, s).
Proof. reflexivity. Qed.

(** ** Rounds *)
Section round.
Context {S PC : Type} (is_idle : PC → bool) (step : PC → M S PC).

(** Steps until the program counter is idle again. *)
Fixpoint round (fuel : nat) (pc : PC) : M S unit :=
  match fuel with
  | O => stopM NoFuel
  | Datatypes.S f =>
      pc' ← step pc;
      if is_idle pc' then mret tt else round f pc'
  end.

Lemma round_S fuel pc s :
  round (Datatypes.S fuel) pc s
  = match step pc s with
    | (Ret pc', s') => if is_idle pc' then (Ret tt, s') else round fuel pc' s'
    | (Stop r, s') => (Stop r, s')
    end.
Proof. simpl. rewrite run_bind. by destruct (step pc s) as [[pc'|r] s']; [case_match|]. Qed.
End round.

(** ** Schedules *)
Section schedules.
Context {T S : Type} `{EqDecision T} (step : T → M S unit).

Definition run (sched : list T) : M S unit := forM sched step.

Lemma run_app_ret l1 l2 s s' :
  run l1 s = (Ret tt, s') → run (l1 ++ l2) s = run l2 s'.
Proof. intros Hr. unfold run in *. by rewrite forM_app, run_bind, Hr. Qed.

(** The visits of a schedule to a thread. *)
Definition visits (t : T) (sched : list T) : nat := length (filter (λ u, u = t) sched).

Lemma visits_app t l1 l2 : visits t (l1 ++ l2) = (visits t l1 + visits t l2)%nat.
Proof. unfold visits. by rewrite filter_app, length_app. Qed.
Lemma visits_pos t l : t ∈ l → (0 < visits t l)%nat.
Proof.
  intros Ht. unfold visits. destruct (filter (λ u, u = t) l) eqn:E; [|simpl; lia].
  assert (t ∈ filter (λ u, u = t) l) as Hin by (by apply list_elem_of_filter).
  rewrite E in Hin. by apply not_elem_of_nil in Hin.
Qed.

(** [n] times, every thread has had a turn. *)
Definition rounds (n : nat) (sched : list T) : Prop :=
  ∃ pieces, sched = concat pieces ∧ (n ≤ length pieces)%nat ∧
            Forall (λ p, ∀ t, t ∈ p) pieces.

Lemma rounds_split n m sched :
  rounds (n + m) sched → ∃ s1 s2, sched = s1 ++ s2 ∧ rounds n s1 ∧ rounds m s2.
Proof.
  intros (ps & -> & Hl & Hall). exists (concat (take n ps)), (concat (drop n ps)).
  split_and!.
  - by rewrite <- concat_app, take_drop.
  - exists (take n ps). split_and!; [done|rewrite length_take; lia|by apply Forall_take].
  - exists (drop n ps). split_and!; [done|rewrite length_drop; lia|by apply Forall_drop].
Qed.

(** Round after round of the same turns. *)
Lemma rounds_repeat n p : (∀ t, t ∈ p) → rounds n (concat (repeat p n)).
Proof.
  intros Hp. exists (repeat p n). split_and!; [done|by rewrite repeat_length|].
  apply Forall_forall. intros q Hq%list_elem_of_In%repeat_spec. by subst.
Qed.

Lemma rounds_visits n sched t : rounds n sched → (n ≤ visits t sched)%nat.
Proof.
  intros (ps & -> & Hl & Hall). etrans; [exact Hl|]. clear Hl.
  induction Hall as [|p ps Hp Hall IH]; simpl; [lia|].
  rewrite visits_app. pose proof (visits_pos t p (Hp t)). lia.
Qed.

Section invariant.
Context (I : S → Prop).
Context (keep : ∀ t s, I s → ∃ s', step t s = (Ret tt, s') ∧ I s').

(** An invariant of the steps holds at the end of every schedule. *)
Lemma run_keeps sched s : I s → ∃ s', run sched s = (Ret tt, s') ∧ I s'.
Proof.
  intros Hs. apply (forM_ind (λ _, I) step sched s Hs).
  intros _ t s1 Hs1 _. by apply keep.
Qed.

End invariant.

(** From [k] down to [k'], for sure when [P] holds. *)
Definition lowers (P : Prop) (k k' : nat) : Prop :=
  (k' ≤ k)%nat ∧ (P → k' = 0 ∨ k' < k)%nat.

Lemma lowers_refl (P : Prop) k : ¬ P → lowers P k k.
Proof. by split. Qed.
Lemma lowers_to (P : Prop) k k' : (k' = 0 ∨ k' < k)%nat → lowers P k k'.
Proof. split; [lia|done]. Qed.

(** An invariant with a measure that no step raises, and that a step of [t]
    lowers unless it is zero: it is zero once [t] was visited often enough. *)
Lemma run_progress (I : nat → S → Prop) (t : T) sched k s :
  (∀ u k s, I k s → ∃ k' s', step u s = (Ret tt, s') ∧ I k' s' ∧ lowers (u = t) k k') →
  I k s → (k ≤ visits t sched)%nat →
  ∃ s', run sched s = (Ret tt, s') ∧ I 0%nat s'.
Proof.
  intros Hstep. revert k s. induction sched as [|u sched IH]; intros k s Hs Hv.
  - assert (k = 0%nat) as -> by (unfold visits in Hv; simpl in Hv; lia). by exists s.
  - destruct (Hstep u k s Hs) as (k1 & s1 & Hr & Hs1 & Hle & Hlt).
    destruct (IH k1 s1 Hs1) as (s2 & Hr2 & Hs2).
    + change (u :: sched) with ([u] ++ sched) in Hv. rewrite visits_app in Hv.
      unfold visits at 1 in Hv. rewrite filter_cons, filter_nil in Hv.
      destruct (decide (u = t)) as [Hu|Hu]; simpl in Hv; [destruct (Hlt Hu)|]; lia.
    + exists s2. split; [|done]. unfold run in *. simpl. by rewrite run_bind, Hr.
Qed.
End schedules.

(** ** What a computation leaves alone *)
Section keeps.
Context {S X : Type} (f : S → X).

Definition keeps {A} (c : M S A) : Prop := ∀ s, f (c s).2 = f s.

Lemma keeps_ret {A} (a : A) : keeps (mret a).
Proof. done. Qed.
Lemma keeps_bind {A B} (c : M S A) (g : A → M S B) :
  keeps c → (∀ a, keeps (g a)) → keeps (c ≫= g).
Proof.
  intros Hc Hg s. rewrite run_bind. specialize (Hc s). destruct (c s) as [[a|r] s1]; simpl in *.
  - by rewrite Hg.
  - done.
Qed.
Lemma keeps_stop {A} r : keeps (@stopM S A r).
Proof. done. Qed.
Lemma keeps_lift {A} (o : outcome A) : keeps (liftO o).
Proof. done. Qed.
Lemma keeps_gets {A} (g : S → A) : keeps (gets g).
Proof. done. Qed.
Lemma keeps_get : keeps getM.
Proof. done. Qed.
Lemma keeps_modify g : (∀ s, f (g s) = f s) → keeps (modify g).
Proof. by intros Hg s; simpl. Qed.
Lemma keeps_zoom {T A} (get : S → T) set (c : M T A) :
  (∀ t s, f (set t s) = f s) → keeps (zoom get set c).
Proof. intros Hs s. unfold zoom. destruct (c (get s)) as [o t]. apply Hs. Qed.
Lemma keeps_zoom_in {T A} (g : T → X) (get : S → T) set (c : M T A) :
  (∀ s, f s = g (get s)) → (∀ t s, f (set t s) = g t) → (∀ t, g (c t).2 = g t) →
  keeps (zoom get set c).
Proof.
  intros Hg Hs Hc s. unfold zoom. specialize (Hc (get s)).
  destruct (c (get s)) as [o t]. simpl in *. by rewrite Hs, Hg.
Qed.
Lemma keeps_forM {A} (l : list A) (g : A → M S unit) :
  (∀ a, keeps (g a)) → keeps (forM l g).
Proof.
  intros Hg. induction l as [|a l IH]; [by apply keeps_ret|]. simpl. by apply keeps_bind.
Qed.
End keeps.

Create HintDb keeps.
#[export] Hint Resolve keeps_ret keeps_stop keeps_lift keeps_gets keeps_get : keeps.

(** Goes through a computation; what is left are the changes of the state. *)
Ltac keeping :=
  repeat match goal with
    | |- keeps _ (_ ≫= _) => apply keeps_bind; [|intros]
    | |- keeps _ (mret _) => apply keeps_ret
    | |- keeps _ (raiseM _) => apply keeps_stop
    | |- keeps _ (forM _ _) => apply keeps_forM; intros
    | |- keeps _ (modify _) => apply keeps_modify; intros
    | |- keeps _ (zoom _ _ _) => apply keeps_zoom; intros
    | |- keeps _ (match _ with _ => _ end) => case_match
    | |- keeps _ _ => solve [auto with keeps]
    end.

(** ** Threads that do not disturb one another

    A step that a thread cannot take (it waits, or has come to its end) is
    [None].  When two threads that can both go on reach the same state in
    either order, every schedule leads to the one end that a schedule leads to. *)
Section diamond.
Context {T S : Type} `{EqDecision T} (step : T → S → option S).

Fixpoint play (sched : list T) (s : S) : option S :=
  match sched with
  | [] => Some s
  | t :: l => s' ← step t s; play l s'
  end.
Definition stuck (s : S) : Prop := ∀ t, step t s = None.

Lemma play_app l1 l2 s s' : play l1 s = Some s' → play (l1 ++ l2) s = play l2 s'.
Proof.
  revert s. induction l1 as [|t l1 IH]; intros s Hp; [by injection Hp as ->|].
  apply bind_Some in Hp as (s1 & Hs & Hp). simpl. rewrite Hs. by apply IH.
Qed.
Lemma play_S t l s s1 s' : step t s = Some s1 → play l s1 = Some s' → play (t :: l) s = Some s'.
Proof. intros Hs Hp. simpl. by rewrite Hs. Qed.

Context (I : S → Prop).
Context (keep : ∀ t s s', I s → step t s = Some s' → I s').

Lemma play_keeps l s s' : I s → play l s = Some s' → I s'.
Proof.
  revert s. induction l as [|t l IH]; intros s Hs Hp; [by injection Hp as <-|].
  apply bind_Some in Hp as (s1 & Hst & Hp). eapply IH; [|exact Hp]. by eapply keep.
Qed.

Context (commute : ∀ t u s st su, I s → t ≠ u → step t s = Some st → step u s = Some su →
  ∃ s', step u st = Some s' ∧ step t su = Some s').

(** A step taken first is a step of the schedule saved. *)
Lemma play_absorb l t s s1 e :
  I s → play l s = Some e → stuck e → step t s = Some s1 →
  ∃ l', play l' s1 = Some e ∧ length l = Datatypes.S (length l').
Proof.
  revert s s1. induction l as [|u l IH]; intros s s1 Hs Hp He Ht.
  - injection Hp as ->. by rewrite (He t) in Ht.
  - apply bind_Some in Hp as (su & Hu & Hp). destruct (decide (t = u)) as [->|Hne].
    + assert (s1 = su) as -> by congruence. by exists l.
    + destruct (commute t u s s1 su Hs Hne Ht Hu) as (s' & Hu' & Ht').
      destruct (IH su s') as (l' & Hl' & Hlen); [by eapply keep|done|done|done|].
      exists (u :: l'). split; [by eapply play_S|]. simpl. by rewrite Hlen.
Qed.

Lemma play_to_end l1 l2 s e s2 :
  I s → play l1 s = Some e → stuck e → play l2 s = Some s2 →
  ∃ l3, play l3 s2 = Some e ∧ length l1 = (length l2 + length l3)%nat.
Proof.
  revert l1 s. induction l2 as [|t l2 IH]; intros l1 s Hs H1 He H2.
  - injection H2 as <-. by exists l1.
  - apply bind_Some in H2 as (s1 & Ht & H2).
    destruct (play_absorb l1 t s s1 e Hs H1 He Ht) as (l' & Hl' & Hlen).
    destruct (IH l' s1) as (l3 & H3 & Hlen3); [by eapply keep|done|done|done|].
    exists l3. split; [done|]. simpl. lia.
Qed.

(** Every schedule is at most as long as one that gets to an end, and one that
    can go no further is at that end. *)
Lemma one_end l1 s e :
  I s → play l1 s = Some e → stuck e →
  ∀ l2 s2, play l2 s = Some s2 → (length l2 ≤ length l1)%nat ∧ (stuck s2 → s2 = e).
Proof.
  intros Hs H1 He l2 s2 H2. destruct (play_to_end l1 l2 s e s2 Hs H1 He H2) as (l3 & H3 & Hlen).
  split; [lia|]. intros Hst. destruct l3 as [|t l3]; [by injection H3 as ->|].
  apply bind_Some in H3 as (s3 & Ht & _). by rewrite (Hst t) in Ht.
Qed.
End diamond.
