(* ===== verification/PyStd.v ===== *)
(** * Python's standard data and string functions

    What the modelled sources use of the language and of its standard library:
    insertion-ordered dictionaries, [os.path.join], [str] methods, [int(...)]
    on a byte string, [range] and slices. *)

From stdpp Require Import base tactics list gmap strings pretty.
From Stdlib Require Import ZArith Lia Ascii Sorted.
From S2P Require Import Prelude.

(** ** Dictionaries

    A Python [dict] keeps the insertion order of its keys: storing under a
    present key keeps the key's place, a new key goes to the end, [popitem]
    takes the last one. *)
Module Dict.
Section dict.
Context {K V : Type} `{EqDecision K}.

Fixpoint get (k : K) (d : list (K * V)) : option V :=
match d with
| [] => None
| (k', v) :: d' => if decide (k = k') then Some v else get k d'
end.

Definition mem (k : K) (d : list (K * V)) : bool :=
match get k d with Some _ => true | None => false end.

Fixpoint set (k : K) (v : V) (d : list (K * V)) : list (K * V) :=
match d with
| [] => [(k, v)]
| (k', v') :: d' => if decide (k = k') then (k', v) :: d' else (k', v') :: set k v d'
end.

(** [d.popitem()] on a non-empty dictionary. *)
Definition popitem (d : list (K * V)) : list (K * V) := removelast d.

Definition keys (d : list (K * V)) : list K := d.*1.

Lemma get_set_eq k v d : get k (set k v d) = Some v.
Proof.
induction d as [|[k' v'] d IH]; simpl; [by rewrite decide_True|].
case_decide; simpl; [by rewrite decide_True|]. by rewrite decide_False.
Qed.

Lemma get_set_ne k k' v d : k ≠ k' → get k' (set k v d) = get k' d.
Proof.
intros Hne. induction d as [|[k1 v1] d IH]; simpl.
- by rewrite decide_False.
- repeat (case_decide; simplify_eq/=; try done).
Qed.

Lemma get_set k k' v d :
get k' (set k v d) = if decide (k = k') then Some v else get k' d.
Proof. case_decide; subst; auto using get_set_eq, get_set_ne. Qed.

Lemma get_app k d1 d2 :
get k (d1 ++ d2) = match get k d1 with Some v => Some v | None => get k d2 end.
Proof. induction d1 as [|[k' v'] d1 IH]; simpl; [done|]. by case_decide. Qed.

Lemma get_None k d : get k d = None ↔ k ∉ keys d.
Proof.
unfold keys. induction d as [|[k' v'] d IH]; simpl; [set_solver|].
case_decide; set_solver.
Qed.

Lemma get_Some_In k v d : get k d = Some v → (k, v) ∈ d.
Proof.
induction d as [|[k' v'] d IH]; simpl; [done|].
case_decide; intros; simplify_eq; set_solver.
Qed.

Lemma mem_true k d : mem k d = true ↔ k ∈ keys d.
Proof.
unfold mem. destruct (get k d) eqn:E.
- split; [|done]. intros _. apply get_Some_In in E.
  apply list_elem_of_fmap. by exists (k, v).
- apply get_None in E. split; [done|]. intros. done.
Qed.

Lemma mem_false k d : mem k d = false ↔ k ∉ keys d.
Proof. rewrite <- mem_true. by destruct (mem k d). Qed.

Lemma mem_get k d : mem k d = true → ∃ v, get k d = Some v.
Proof. unfold mem. destruct (get k d); [eauto|done]. Qed.

Lemma set_fresh k v d : k ∉ keys d → set k v d = d ++ [(k, v)].
Proof.
unfold keys. induction d as [|[k' v'] d IH]; simpl; intros Hk; [done|].
rewrite decide_False by set_solver. by rewrite IH by set_solver.
Qed.

Lemma keys_set k v d :
keys (set k v d) = if decide (k ∈ keys d) then keys d else keys d ++ [k].
Proof.
unfold keys. induction d as [|[k' v'] d IH]; simpl; [done|].
destruct (decide (k = k')); simplify_eq/=.
- rewrite decide_True; set_solver.
- rewrite IH. repeat case_decide; set_solver.
Qed.

Lemma set_NoDup k v d : NoDup (keys d) → NoDup (keys (set k v d)).
Proof.
intros Hd. rewrite keys_set. case_decide; [done|].
apply NoDup_app. split_and!; [done|set_solver|apply NoDup_singleton].
Qed.

Lemma removelast_sublist {X} (l : list X) : sublist (removelast l) l.
Proof.
induction l as [|x [|y l] IH]; [apply sublist_nil|apply sublist_nil_l|].
simpl. by apply sublist_skip.
Qed.

Lemma popitem_NoDup d : NoDup (keys d) → NoDup (keys (popitem d)).
Proof.
intros Hd. eapply sublist_NoDup; [exact Hd|].
unfold keys. apply fmap_sublist, removelast_sublist.
Qed.

Lemma popitem_length d : length (popitem d) = pred (length d).
Proof.
unfold popitem. induction d as [|x [|y d] IH]; [done|done|].
change (removelast (x :: y :: d)) with (x :: removelast (y :: d)).
simpl length in *. lia.
Qed.

Lemma get_removelast k v d : get k (popitem d) = Some v → get k d = Some v.
Proof.
unfold popitem. induction d as [|[k1 v1] [|y d] IH]; [done|done|].
change (removelast ((k1, v1) :: y :: d)) with ((k1, v1) :: removelast (y :: d)).
simpl. case_decide; [done|]. apply IH.
Qed.
End dict.
End Dict.

(** A dictionary with distinct keys is a finite map in insertion order: storing
    in the one is inserting in the other. *)
Section dict_map.
Context {K V : Type} `{Countable K}.

Lemma dict_get_map (d : list (K * V)) k :
  NoDup (Dict.keys d) → (list_to_map d : gmap K V) !! k = Dict.get k d.
Proof.
  induction d as [|[k' v'] d IH]; intros Hd; [done|]. simpl.
  apply NoDup_cons in Hd as [Hk Hd].
  case_decide; simplify_map_eq; [done|]. by apply IH.
Qed.

Lemma dict_set_map (d : list (K * V)) k v :
  NoDup (Dict.keys d) →
  (list_to_map (Dict.set k v d) : gmap K V) = <[k := v]> (list_to_map d).
Proof.
  intros Hd. apply map_eq. intros k'.
  rewrite dict_get_map by (by apply Dict.set_NoDup). rewrite Dict.get_set.
  case_decide; simplify_map_eq; [done|]. by rewrite dict_get_map.
Qed.
End dict_map.

(** ** Strings *)
Module Str.
(** [s.startswith(p)] *)
Fixpoint startswith (p s : string) : bool :=
  match p, s with
  | EmptyString, _ => true
  | String a p', String b s' => bool_decide (a = b) && startswith p' s'
  | _, _ => false
  end.

(** [s.endswith(p)] *)
Definition endswith (p s : string) : bool :=
  startswith (String.rev p) (String.rev s).

(** [os.path.join(a, b)] on POSIX *)
Definition path_join (a b : string) : string :=
  if startswith "/" b then b
  else if bool_decide (a = "") || endswith "/" a then a +:+ b
  else a +:+ "/" +:+ b.

(** [s.split(sep)] for a one-character separator; never the empty list. *)
Fixpoint split (sep : Ascii.ascii) (s : string) : list string :=
  match s with
  | EmptyString => [EmptyString]
  | String c s' =>
      if bool_decide (c = sep) then EmptyString :: split sep s'
      else match split sep s' with
           | [] => [String c EmptyString]
           | w :: ws => String c w :: ws
           end
  end.

(** [sep.join(l)] *)
Fixpoint join (sep : string) (l : list string) : string :=
  match l with
  | [] => ""
  | [x] => x
  | x :: l' => x +:+ sep +:+ join sep l'
  end.

(** [b''.join(l)] *)
Fixpoint concat (l : list string) : string :=
  match l with [] => "" | x :: l' => x +:+ concat l' end.

(** The C order on strings, as [list.sort] uses it on [str] and [bytes]. *)
Fixpoint ltb (s t : string) : bool :=
  match s, t with
  | _, EmptyString => false
  | EmptyString, String _ _ => true
  | String a s', String b t' =>
      let m := Ascii.N_of_ascii a in let n := Ascii.N_of_ascii b in
      if (m <? n)%N then true else if (n <? m)%N then false else ltb s' t'
  end.
Definition leb (s t : string) : bool := negb (ltb t s).

Definition digit_val (c : Ascii.ascii) : option Z :=
  let n := Z.of_N (Ascii.N_of_ascii c) in
  if ((48 <=? n) && (n <=? 57))%Z then Some (n - 48)%Z else None.

(** ASCII white space, as [bytes.strip] and [int] skip it. *)
Definition is_space (c : Ascii.ascii) : bool :=
  let n := Ascii.N_of_ascii c in ((n =? 32) || ((9 <=? n) && (n <=? 13)))%N.

Fixpoint lstrip (s : string) : string :=
  match s with
  | String c s' => if is_space c then lstrip s' else s
  | EmptyString => EmptyString
  end.
Definition strip (s : string) : string := String.rev (lstrip (String.rev (lstrip s))).

(** Digits, single underscores between digits allowed; [prev] says whether
    the previous character was a digit. *)
Fixpoint digits (acc : Z) (prev : bool) (s : string) : option Z :=
  match s with
  | EmptyString => if prev then Some acc else None
  | String c s' =>
      match digit_val c with
      | Some v => digits (10 * acc + v) true s'
      | None => if bool_decide (c = "_"%char) && prev
                then match s' with EmptyString => None | _ => digits acc false s' end
                else None
      end
  end.

(** [int(s)]: [ValueError] when [s] is not a decimal literal. *)
Definition to_int (s : string) : outcome Z :=
  let t := strip s in
  let r := match t with
           | String "-"%char t' => Z.opp <$> digits 0 false t'
           | String "+"%char t' => digits 0 false t'
           | _ => digits 0 false t
           end in
  match r with Some z => Ret z | None => raise ValueError end.

(** [str(z)], and ["{:08}".format(z)] on naturals. *)
Definition of_int (z : Z) : string := pretty z.
Fixpoint zeros (n : nat) : string :=
  match n with O => "" | S n' => String "0"%char (zeros n') end.
Definition zfill (w : nat) (s : string) : string :=
  zeros (w - String.length s) +:+ s.

Lemma to_int_cases s : (∃ z, to_int s = Ret z) ∨ to_int s = raise ValueError.
Proof. unfold to_int. by case_match; eauto. Qed.

Lemma append_nil_l (s : string) : "" +:+ s = s.
Proof. reflexivity. Qed.
Lemma append_cons c (s t : string) : String c s +:+ t = String c (s +:+ t).
Proof. reflexivity. Qed.

Lemma append_nil_r s : s +:+ "" = s.
Proof. induction s as [|c s IH]; [done|]. by rewrite append_cons, IH. Qed.

Lemma append_assoc (s t u : string) : s +:+ (t +:+ u) = (s +:+ t) +:+ u.
Proof.
  induction s as [|c s IH]; [done|]. by rewrite !append_cons, IH.
Qed.

Lemma length_append (s t : string) :
  String.length (s +:+ t) = (String.length s + String.length t)%nat.
Proof. induction s as [|c s IH]; [done|]. rewrite append_cons. simpl. by rewrite IH. Qed.

Lemma append_inj_l (s t u : string) : s +:+ t = s +:+ u → t = u.
Proof.
  induction s as [|c s IH]; [done|]. rewrite !append_cons. intros H. apply IH.
  by simplify_eq.
Qed.

Arguments to_int : simpl never.

Lemma split_not_nil sep s : split sep s ≠ [].
Proof.
  destruct s as [|c s]; simpl; [done|]. by repeat case_match.
Qed.

(** Splitting a join of separator-free pieces gives the pieces back. *)
Fixpoint mem (c : Ascii.ascii) (s : string) : bool :=
  match s with
  | EmptyString => false
  | String d s' => bool_decide (d = c) || mem c s'
  end.

Lemma split_no_sep sep s : mem sep s = false → split sep s = [s].
Proof.
  induction s as [|c s IH]; simpl; [done|]. intros [H1 H2]%orb_false_iff.
  rewrite H1. by rewrite IH.
Qed.

Lemma split_app_sep sep s t :
  mem sep s = false → split sep (s +:+ String sep t) = s :: split sep t.
Proof.
  induction s as [|c s IH].
  - intros _. rewrite append_nil_l. simpl. by rewrite bool_decide_true.
  - rewrite append_cons. simpl. intros [H1 H2]%orb_false_iff. rewrite H1. by rewrite IH.
Qed.

Lemma append_inj_r (s t u : string) : s +:+ u = t +:+ u → s = t.
Proof.
  revert t. induction s as [|c s IH]; intros [|d t] H; [done|..].
  - apply (f_equal String.length) in H. rewrite !length_append in H. simpl in H. lia.
  - apply (f_equal String.length) in H. rewrite !length_append in H. simpl in H. lia.
  - rewrite !append_cons in H. injection H as -> H. by rewrite (IH t).
Qed.

(** The value of a digit string tells padded numbers apart. *)
Fixpoint value (acc : N) (s : string) : N :=
  match s with
  | EmptyString => acc
  | String c s' => value (10 * acc + (Ascii.N_of_ascii c - 48)) s'
  end.
Lemma value_zeros n s : value 0 (zeros n +:+ s) = value 0 s.
Proof. induction n as [|n IH]; [done|]. simpl zeros. rewrite append_cons. exact IH. Qed.
Lemma char_value d : (d < 10)%N → Ascii.N_of_ascii (pretty_N_char d) = (48 + d)%N.
Proof.
  intros Hd. assert (∃ n, (n < 10)%nat ∧ d = N.of_nat n) as (n & Hn & ->)
    by (exists (N.to_nat d); lia).
  by do 10 (destruct n as [|n]; [done|]); lia.
Qed.
Lemma value_go x s : value 0 (pretty_N_go x s) = value x s.
Proof.
  revert s. induction (N.lt_wf_0 x) as [x _ IH]; intros s.
  destruct (N.eq_0_gt_0_cases x) as [->|Hx]; [by rewrite pretty_N_go_0|].
  rewrite pretty_N_go_step by done. rewrite IH by (by apply N.div_lt). cbn [value]. f_equal.
  pose proof (N.mod_lt x 10 ltac:(done)) as Hm.
  rewrite (char_value (x `mod` 10)) by done.
  rewrite (N.add_comm 48), N.add_sub. symmetry. by apply N.div_mod.
Qed.
Lemma value_of_int z : (0 <= z)%Z → value 0 (of_int z) = Z.to_N z.
Proof.
  intros Hz. destruct z as [|p|p]; [done| |lia].
  change (of_int (Z.pos p)) with (pretty_N_go (Npos p) ""). by rewrite value_go.
Qed.
Lemma zfill_of_int_inj w a b :
  (0 <= a)%Z → (0 <= b)%Z → zfill w (of_int a) = zfill w (of_int b) → a = b.
Proof.
  intros Ha Hb H. apply (f_equal (value 0)) in H. unfold zfill in H.
  rewrite !value_zeros, !value_of_int in H by done. by apply Z2N.inj in H.
Qed.
Lemma startswith_spec p s : startswith p s = true ↔ ∃ r, s = p +:+ r.
Proof.
  revert s. induction p as [|a p IH]; intros s; simpl.
  - split; [by exists s|done].
  - destruct s as [|b s]; [split; [done|by intros [r Hr]]|].
    rewrite andb_true_iff, bool_decide_eq_true, IH. split.
    + intros [-> [r ->]]. by exists r.
    + intros [r Hr]. rewrite append_cons in Hr. injection Hr as -> ->. naive_solver.
Qed.
Lemma rev_append s t : String.rev (s +:+ t) = String.rev t +:+ String.rev s.
Proof.
  assert (∀ s u, String.rev_app s u = String.rev s +:+ u) as Hr.
  { clear. unfold String.rev. intros s. induction s as [|c s IH]; intros u; [done|]. simpl.
    rewrite IH, (IH (String c "")). by rewrite <- append_assoc. }
  induction s as [|c s IH]; [by rewrite append_nil_r|].
  rewrite append_cons. unfold String.rev at 1 3. simpl. rewrite !Hr, IH.
  by rewrite <- append_assoc.
Qed.

Lemma endswith_append p s : endswith p (s +:+ p) = true.
Proof. unfold endswith. apply startswith_spec. rewrite rev_append. by eexists. Qed.

Lemma rev_involutive s : String.rev (String.rev s) = s.
Proof.
  induction s as [|c s IH]; [done|].
  change (String c s) with (String c "" +:+ s) at 1. by rewrite !rev_append, IH.
Qed.

Lemma mem_append c s t : mem c (s +:+ t) = mem c s || mem c t.
Proof.
  induction s as [|d s IH]; [done|]. rewrite append_cons. simpl. by rewrite IH, orb_assoc.
Qed.
Lemma mem_zeros n : mem "/"%char (zeros n) = false.
Proof. by induction n. Qed.
(** A character that is neither a digit nor a sign is not in a numeral. *)
Definition no_digit (c : Ascii.ascii) : Prop := (N_of_ascii c < 48 ∨ 57 < N_of_ascii c)%N.
Lemma mem_digits_ne c x s :
  no_digit c → mem c s = false → mem c (pretty_N_go x s) = false.
Proof.
  intros Hd. revert s. induction (N.lt_wf_0 x) as [x _ IH]; intros s Hs.
  destruct (N.eq_0_gt_0_cases x) as [->|Hx]; [by rewrite pretty_N_go_0|].
  rewrite pretty_N_go_step by done. apply IH; [by apply N.div_lt|].
  cbn [mem]. rewrite bool_decide_false; [done|]. intros Hc.
  assert (x mod 10 < 10)%N as Hx10 by (by apply N.mod_lt).
  apply (f_equal N_of_ascii) in Hc. rewrite char_value in Hc by done.
  unfold no_digit in Hd. revert Hc Hx10. generalize (x mod 10)%N. intros n Hn Hlt. lia.
Qed.
Lemma mem_of_int_ne c z : no_digit c → c ≠ "-"%char → mem c (of_int z) = false.
Proof.
  intros Hd Hc. destruct z as [|p|p].
  - cbn. rewrite bool_decide_false; [done|]. intros <-. destruct Hd as [Hd|Hd]; vm_compute in Hd; done.
  - by apply (mem_digits_ne c (Npos p)).
  - change (of_int (Z.neg p)) with ("-" +:+ pretty_N_go (Npos p) "").
    rewrite mem_append. cbn [mem]. rewrite bool_decide_false by done. by apply mem_digits_ne.
Qed.
Lemma mem_of_int z : mem "/"%char (of_int z) = false.
Proof. apply mem_of_int_ne; [by left|done]. Qed.
End Str.

(** ** Sorting

    [list.sort] is stable; [leb] is the order of the sort keys. *)
Section sorting.
Context {A : Type} (leb : A → A → bool).

Fixpoint insert_sorted (x : A) (l : list A) : list A :=
  match l with
  | [] => [x]
  | y :: l' => if leb x y then x :: l else y :: insert_sorted x l'
  end.
Definition py_sort (l : list A) : list A := foldr insert_sorted [] l.

Lemma insert_sorted_perm x l : insert_sorted x l ≡ₚ x :: l.
Proof.
  induction l as [|y l IH]; simpl; [done|]. case_match; [done|].
  rewrite IH. apply Permutation_swap.
Qed.
Lemma py_sort_perm l : py_sort l ≡ₚ l.
Proof.
  induction l as [|x l IH]; simpl; [done|]. by rewrite insert_sorted_perm, IH.
Qed.

Context (leb_total : ∀ x y, leb x y = true ∨ leb y x = true).

Lemma insert_sorted_sorted x l :
  Sorted (λ a b, leb a b = true) l → Sorted (λ a b, leb a b = true) (insert_sorted x l).
Proof.
  induction 1 as [|y l Hs IH Hhd]; simpl; [by repeat constructor|].
  destruct (leb x y) eqn:E; [by repeat constructor|].
  constructor; [done|]. destruct l as [|z l]; simpl in *.
  - constructor. destruct (leb_total x y); [congruence|done].
  - destruct (leb x z); constructor.
    + destruct (leb_total x y); [congruence|done].
    + by inversion Hhd.
Qed.
Lemma py_sort_sorted l : Sorted (λ a b, leb a b = true) (py_sort l).
Proof. induction l; simpl; [constructor|by apply insert_sorted_sorted]. Qed.
End sorting.

Lemma str_ltb_antisym s t : Str.ltb s t = true → Str.ltb t s = false.
Proof.
  revert t. induction s as [|a s IH]; intros [|b t]; simpl; try done.
  destruct (N.ltb_spec (Ascii.N_of_ascii a) (Ascii.N_of_ascii b)),
    (N.ltb_spec (Ascii.N_of_ascii b) (Ascii.N_of_ascii a)); try done; [lia|]. apply IH.
Qed.
Lemma str_leb_total s t : Str.leb s t = true ∨ Str.leb t s = true.
Proof.
  unfold Str.leb. destruct (Str.ltb t s) eqn:E; [|by left].
  right. by rewrite (str_ltb_antisym _ _ E).
Qed.

Lemma str_leb_trans s t u : Str.leb s t = true → Str.leb t u = true → Str.leb s u = true.
Proof.
  unfold Str.leb. rewrite !negb_true_iff. revert t u.
  induction s as [|a s IH]; intros [|b t] [|c u]; simpl; try done.
  generalize (N_of_ascii a), (N_of_ascii b), (N_of_ascii c). intros x y z.
  destruct (N.ltb_spec x y), (N.ltb_spec y x), (N.ltb_spec y z), (N.ltb_spec z y),
    (N.ltb_spec x z), (N.ltb_spec z x); try done; try lia. apply IH.
Qed.
Lemma str_leb_antisym s t : Str.leb s t = true → Str.leb t s = true → s = t.
Proof.
  unfold Str.leb. rewrite !negb_true_iff. revert t.
  induction s as [|a s IH]; intros [|b t]; simpl; try done.
  destruct (N.ltb_spec (N_of_ascii a) (N_of_ascii b)), (N.ltb_spec (N_of_ascii b) (N_of_ascii a));
    try done; try lia. intros Hst Hts.
  assert (a = b) as ->; [|f_equal; by apply IH].
  rewrite <- (ascii_N_embedding a), <- (ascii_N_embedding b). f_equal. lia.
Qed.
(** Sorting by a key that tells the elements apart forgets their order. *)
Lemma py_sort_unique {A} (leb : A → A → bool) l1 l2 :
  (∀ x y, leb x y = true ∨ leb y x = true) →
  (∀ x y z, leb x y = true → leb y z = true → leb x z = true) →
  (∀ x y, x ∈ l1 → y ∈ l1 → leb x y = true → leb y x = true → x = y) →
  l1 ≡ₚ l2 → py_sort leb l1 = py_sort leb l2.
Proof.
  intros Ht Htr Ha Hp. pose proof (py_sort_perm leb l1) as P1.
  assert (py_sort leb l1 ≡ₚ py_sort leb l2) as Hpp by (by rewrite !py_sort_perm).
  assert (∀ l, StronglySorted (λ a b, leb a b = true) (py_sort leb l)) as Hs.
  { intros l. apply Sorted_StronglySorted; [intros x y z; apply Htr|by apply py_sort_sorted]. }
  pose proof (Hs l1) as S1. pose proof (Hs l2) as S2.
  assert (∀ x y, x ∈ py_sort leb l1 → y ∈ py_sort leb l1 → leb x y = true → leb y x = true → x = y) as Hin.
  { intros x y Hx Hy. apply Ha; by rewrite <- P1. }
  clear -S1 S2 Hpp Hin. revert S1 S2 Hpp Hin. generalize (py_sort leb l1) (py_sort leb l2). clear.
  induction l as [|x l IH]; intros l' S1 S2 Hp Hin.
  { by apply Permutation_nil_l in Hp as ->. }
  destruct l' as [|y l']; [by apply Permutation_nil_r in Hp|].
  assert (x = y) as ->.
  { apply StronglySorted_inv in S1 as [_ F1]. apply StronglySorted_inv in S2 as [_ F2].
    assert (x ∈ y :: l') as [->|Hx]%elem_of_cons by (rewrite <- Hp; left); [done|].
    assert (y ∈ x :: l) as Hy by (rewrite Hp; left).
    pose proof (proj1 (Forall_forall _ _) F2 x Hx) as Hyx.
    apply elem_of_cons in Hy as [->|Hy']; [done|].
    pose proof (proj1 (Forall_forall _ _) F1 y Hy') as Hxy. apply Hin; [left|by right|done..]. }
  f_equal. apply Permutation_cons_inv in Hp. apply StronglySorted_inv in S1 as [S1 _].
  apply StronglySorted_inv in S2 as [S2 _]. apply IH; [done..|]. intros a b Ha Hb. by apply Hin; right.
Qed.

(** ** Sequences *)
Section seqs.
Context {A : Type}.

(** [l[i]]: a negative index counts from the end; out of range raises. *)
Definition py_index (l : list A) (i : Z) : outcome A :=
  let j := if (i <? 0)%Z then (zlen l + i)%Z else i in
  if (j <? 0)%Z then raise IndexError
  else match l !! Z.to_nat j with Some x => Ret x | None => raise IndexError end.

(** [l[i:j]] for [0 <= i] and [0 <= j]. *)
Definition py_slice (l : list A) (i j : nat) : list A := take (j - i) (drop i l).
End seqs.

(** [range(0, n, step)] for [0 < step], the loop indices in order. *)
Fixpoint range_step_from (fuel i n step : nat) : list nat :=
  match fuel with
  | O => []
  | S f => if (i <? n)%nat then i :: range_step_from f (i + step) n step else []
  end.
Definition range_step (n step : nat) : list nat := range_step_from n 0 n step.
