(* ===== verification/Messages.v ===== *)
(** * Protocol messages of the data join service

    The protobuf messages (common_pb2.py, data_join_service_pb2.py) that the
    leader and the follower of a data join exchange, and the field checks of
    their setters: a proto3 scalar takes its default when unset, an [int64] or
    [uint32] field refuses a value out of its range ([ValueError]) and
    refuses [None] ([TypeError]).  Byte strings are Rocq strings. *)

From stdpp Require Import base tactics list strings.
From Stdlib Require Import ZArith Lia.
From S2P Require Import Prelude.

Open Scope Z_scope.

(** ** Field setters *)

(** Assigning to, or appending to, an [int64] field. *)
Definition pb_int64 (v : option Z) : outcome Z :=
  match v with
  | None => raise TypeError
  | Some z => if in_int64 z then Ret z else raise ValueError
  end.

(** Assigning to a [uint32] field. *)
Definition pb_uint32 (z : Z) : outcome Z :=
  if (0 <=? z) && (z <? 2 ^ 32) then Ret z else raise ValueError.

(** ** common.proto *)
Inductive FLRole := Leader | Follower.

Record Status := mkStatus {
  code : Z;
  error_message : string;
}.

Record DataSource := mkDataSource {
  ds_data_source_name : string;
  ds_data_block_dir : string;
  ds_raw_data_dir : string;
  ds_partition_id : Z;
  ds_mode : string;
  ds_role : FLRole;
}.

(** ** data_join_service.proto *)
Record DataBlockMeta := mkMeta {
  block_id : string;
  partition_id : Z;
  file_version : Z;
  start_time : Z;
  end_time : Z;
  example_ids : list string;
  leader_start_index : Z;
  leader_end_index : Z;
  follower_restart_index : Z;
  data_block_index : Z;
}.

Record StartPartitionRequest := mkStartReq {
  spr_rank_id : Z;
  spr_partition_id : Z;
}.

Record StartPartitionResponse := mkStartRsp {
  spr_status : Status;
  spr_next_index : Z;
  spr_finished : bool;
}.

Record LiteExampleIds := mkLite {
  le_partition_id : Z;
  le_begin_index : Z;
  le_example_id : list string;
  le_event_time : list Z;
  le_finished : bool;
}.

(** The [oneof msg] of [SyncContent]. *)
Inductive SyncContent :=
  | SC_none
  | SC_data_block_meta (m : DataBlockMeta)
  | SC_lite_example_ids (l : LiteExampleIds).

Record SyncPartitionRequest := mkSyncReq {
  sy_rank_id : Z;
  sy_partition_id : Z;
  sy_content_bytes : string;
  sy_compressed : bool;
}.

Record FinishPartitionRequest := mkFinReq {
  fp_rank_id : Z;
  fp_partition_id : Z;
}.

Record FinishPartitionResponse := mkFinRsp {
  fp_status : Status;
  fp_finished : bool;
}.

Record RawDataOptions := mkRawOpt {
  raw_data_iter : string;
  compressed_type : string;
}.

Record ExampleJoinerOptions := mkJoinOpt {
  example_joiner : string;
  min_matching_window : Z;
  max_matching_window : Z;
  dump_data_block_time_span : Z;
  dump_data_block_threshold : Z;
}.

Record DataJoinOptions := mkOptions {
  raw_data_options : RawDataOptions;
  example_joiner_options : ExampleJoinerOptions;
}.

#[export] Instance meta_eq_dec : EqDecision DataBlockMeta.
Proof. solve_decision. Defined.
#[export] Instance lite_eq_dec : EqDecision LiteExampleIds.
Proof. solve_decision. Defined.
#[export] Instance role_eq_dec : EqDecision FLRole.
Proof. solve_decision. Defined.

Definition status_ok : Status := mkStatus 0 "".

(** A fresh [DataBlockMeta()]: every field at its default. *)
Definition empty_meta : DataBlockMeta := mkMeta "" 0 0 0 0 [] 0 0 0 0.

(** Field assignments of [DataBlockMeta]. *)
Definition set_block_id (b : string) (m : DataBlockMeta) : DataBlockMeta :=
  mkMeta b (partition_id m) (file_version m) (start_time m) (end_time m)
    (example_ids m) (leader_start_index m) (leader_end_index m)
    (follower_restart_index m) (data_block_index m).
Definition set_partition_id (p : Z) (m : DataBlockMeta) : DataBlockMeta :=
  mkMeta (block_id m) p (file_version m) (start_time m) (end_time m)
    (example_ids m) (leader_start_index m) (leader_end_index m)
    (follower_restart_index m) (data_block_index m).
Definition set_times (s e : Z) (m : DataBlockMeta) : DataBlockMeta :=
  mkMeta (block_id m) (partition_id m) (file_version m) s e
    (example_ids m) (leader_start_index m) (leader_end_index m)
    (follower_restart_index m) (data_block_index m).
Definition set_example_ids (l : list string) (m : DataBlockMeta) : DataBlockMeta :=
  mkMeta (block_id m) (partition_id m) (file_version m) (start_time m) (end_time m)
    l (leader_start_index m) (leader_end_index m)
    (follower_restart_index m) (data_block_index m).
Definition set_follower_restart_index (i : Z) (m : DataBlockMeta) : DataBlockMeta :=
  mkMeta (block_id m) (partition_id m) (file_version m) (start_time m) (end_time m)
    (example_ids m) (leader_start_index m) (leader_end_index m) i (data_block_index m).
Definition set_data_block_index (i : Z) (m : DataBlockMeta) : DataBlockMeta :=
  mkMeta (block_id m) (partition_id m) (file_version m) (start_time m) (end_time m)
    (example_ids m) (leader_start_index m) (leader_end_index m)
    (follower_restart_index m) i.

Arguments pb_int64 : simpl never.
Arguments pb_uint32 : simpl never.

Lemma pb_int64_Some z : in_int64 z = true → pb_int64 (Some z) = Ret z.
Proof. unfold pb_int64. by intros ->. Qed.
