(* ===== verification/Env.v ===== *)
(** * The environment of the data join service

    Interfaces to the code that is not in the repository, with the documented
    behaviour the development relies on as laws:
    - [GFile]: TensorFlow's [gfile] and TFRecord files, as a store of record
      lists by path;
    - [Utils]: the naming functions of [DataJoin.utils.process_manager] (absent
      from the repository), protobuf's text and binary codecs, [zlib], [uuid1];
    - [PeerClient]: the gRPC stub of the peer's data join service.

    Concrete instances ([MemFs], [test_utils]) are the models in which the
    witnesses evaluate. *)

From stdpp Require Import base tactics list gmap strings pretty.
From Stdlib Require Import ZArith Lia Ascii.
From S2P Require Import Prelude PyStd Messages.

(** ** Files *)
Class GFile (F : Type) := {
  gf_exists : string → F → bool;
  gf_is_directory : string → F → bool;
  gf_make_dirs : string → F → F;
  (** [gfile.ListDirectory(path)] *)
  gf_list_directory : string → M F (list string);
  (** [os.system("hadoop fs -get src/* dst")] *)
  hadoop_get : string → string → F → F;
  (** [gfile.Rename(old, new, overwrite)] *)
  gf_rename : string → string → bool → M F unit;
  (** [gfile.Remove(path)] *)
  gf_remove : string → M F unit;
  (** A [TFRecordWriter] on [path] closed after writing these records. *)
  tfr_write : string → list string → M F unit;
  (** [tf_record_iterator_factory(path)], all its records. *)
  tfr_read : string → M F (list string);
  (** Specification view: the files with their records, and the paths that can
      be written (the parent directory exists, the path is no directory). *)
  gf_files : F → gmap string (list string);
  gf_writable : F → string → Prop;
}.

Class GFileLaws (F : Type) `{GFile F} := {
  exists_law p fs :
    gf_writable fs p → gf_exists p fs = bool_decide (is_Some (gf_files fs !! p));
  rename_law src dst (ow : bool) c fs :
    gf_files fs !! src = Some c → src ≠ dst → gf_writable fs dst →
    ow = true ∨ gf_files fs !! dst = None →
    ∃ fs', gf_rename src dst ow fs = (Ret tt, fs') ∧
           gf_files fs' = <[dst := c]> (delete src (gf_files fs)) ∧
           (∀ p, gf_writable fs p → gf_writable fs' p);
  rename_exists_law src dst c c' fs :
    gf_files fs !! src = Some c → gf_files fs !! dst = Some c' →
    gf_rename src dst false fs = (Stop (Raise AlreadyExistsError), fs);
  remove_law p c fs :
    gf_files fs !! p = Some c →
    ∃ fs', gf_remove p fs = (Ret tt, fs') ∧
           gf_files fs' = delete p (gf_files fs) ∧
           (∀ q, gf_writable fs q → gf_writable fs' q);
  write_law p rs fs :
    gf_writable fs p →
    ∃ fs', tfr_write p rs fs = (Ret tt, fs') ∧
           gf_files fs' = <[p := rs]> (gf_files fs) ∧
           (∀ q, gf_writable fs q → gf_writable fs' q);
  read_law p rs fs :
    gf_files fs !! p = Some rs → tfr_read p fs = (Ret rs, fs);
}.

(** An in-memory file system. *)
Record MemFs := mkMemFs {
  mf_files : gmap string (list string);
  mf_dirs : gset string;
}.

(** The name of [q] in the directory [p]. *)
Definition child_name (p q : string) : option string :=
  if Str.startswith (p +:+ "/") q then
    let name := String.substring (String.length p + 1) (String.length q) q in
    if Str.mem "/"%char name then None else Some name
  else None.

#[export] Instance mem_gfile : GFile MemFs := {
  gf_exists p fs := bool_decide (is_Some (mf_files fs !! p)) || bool_decide (p ∈ mf_dirs fs);
  gf_is_directory p fs := bool_decide (p ∈ mf_dirs fs);
  gf_make_dirs p fs := mkMemFs (mf_files fs) ({[p]} ∪ mf_dirs fs);
  gf_list_directory p := λ fs,
    if bool_decide (p ∈ mf_dirs fs)
    then (Ret (omap (child_name p) ((map_to_list (mf_files fs)).*1 ++ elements (mf_dirs fs))), fs)
    else (raise NotFoundError, fs);
  hadoop_get _ _ fs := fs;
  gf_rename src dst ow := λ fs,
    match mf_files fs !! src with
    | None => (raise NotFoundError, fs)
    | Some c =>
        if bool_decide (dst ∈ mf_dirs fs) then (raise AlreadyExistsError, fs)
        else if bool_decide (is_Some (mf_files fs !! dst)) && negb ow
        then (raise AlreadyExistsError, fs)
        else (Ret tt, mkMemFs (<[dst := c]> (delete src (mf_files fs))) (mf_dirs fs))
    end;
  gf_remove p := λ fs,
    match mf_files fs !! p with
    | None => (raise NotFoundError, fs)
    | Some _ => (Ret tt, mkMemFs (delete p (mf_files fs)) (mf_dirs fs))
    end;
  tfr_write p rs := λ fs,
    if bool_decide (p ∈ mf_dirs fs) then (raise NotFoundError, fs)
    else (Ret tt, mkMemFs (<[p := rs]> (mf_files fs)) (mf_dirs fs));
  tfr_read p := λ fs,
    match mf_files fs !! p with
    | None => (raise NotFoundError, fs)
    | Some rs => (Ret rs, fs)
    end;
  gf_files := mf_files;
  gf_writable fs p := p ∉ mf_dirs fs;
}.

#[export] Instance mem_gfile_laws : GFileLaws MemFs.
Proof.
  split; simpl.
  - intros p fs Hp. rewrite (bool_decide_false (p ∈ _)) by done.
    by rewrite orb_false_r.
  - intros src dst ow c fs Hs Hne Hd How. rewrite Hs.
    rewrite bool_decide_false by done.
    assert ((bool_decide (is_Some (mf_files fs !! dst)) && negb ow) = false) as ->.
    { destruct How as [->| ->]; [by rewrite andb_false_r|].
      rewrite bool_decide_false; [done|]. by intros [? ?]. }
    eexists. split_and!; [done|done|simpl; naive_solver].
  - intros src dst c c' fs Hs Hd. rewrite Hs, Hd. case_bool_decide; [done|].
    by rewrite bool_decide_true by eauto.
  - intros p c fs Hp. rewrite Hp. eexists. split_and!; [done|done|simpl; naive_solver].
  - intros p rs fs Hp. rewrite bool_decide_false by done.
    eexists. split_and!; [done|done|simpl; naive_solver].
  - intros p rs fs Hp. by rewrite Hp.
Qed.

(** ** Naming functions and codecs *)
Class Utils := {
  partition_id_wrap : Z → string;
  data_block_meta_file_name_wrap : string → Z → Z → string;
  data_block_file_name_wrap : string → DataBlockMeta → string;
  block_id_wrap : string → DataBlockMeta → string;
  (** [str(uuid.uuid1())], the n-th one drawn by a process *)
  uuid1 : nat → string;
  (** [text_format.MessageToString(m).encode()] and [text_format.Parse] *)
  meta_to_text : DataBlockMeta → string;
  meta_of_text : string → option DataBlockMeta;
  (** [SyncContent.SerializeToString] and [ParseFromString] *)
  sync_serialize : SyncContent → string;
  sync_parse : string → option SyncContent;
  zlib_compress : string → string;
  zlib_decompress : string → option string;
  (** [requests.post(url, json=data)] and the read of its JSON answer *)
  http_post : string → list (string * string) → outcome unit;
  (** [get_host_ip()] *)
  host_ip : string;
}.

(** The name of a temporary file: [str(uuid.uuid1()) + '-{}.tmp'.format(counter)]. *)
Definition tmp_name `{Utils} (n : nat) (counter : Z) : string :=
  uuid1 n +:+ "-" +:+ Str.of_int counter +:+ ".tmp".

Class UtilsLaws `{Utils} := {
  meta_name_inj n p i j :
    data_block_meta_file_name_wrap n p i = data_block_meta_file_name_wrap n p j → i = j;
  (** file names are relative *)
  meta_name_relative n p i :
    Str.startswith "/" (data_block_meta_file_name_wrap n p i) = false;
  data_name_relative n m : Str.startswith "/" (data_block_file_name_wrap n m) = false;
  tmp_name_relative k c : Str.startswith "/" (tmp_name k c) = false;
  (** different blocks have different files, and the three kinds of names differ *)
  data_name_inj n m m' :
    data_block_file_name_wrap n m = data_block_file_name_wrap n m' →
    data_block_index m = data_block_index m';
  data_not_meta n m p i :
    data_block_file_name_wrap n m ≠ data_block_meta_file_name_wrap n p i;
  tmp_not_meta k c n p i : tmp_name k c ≠ data_block_meta_file_name_wrap n p i;
  tmp_not_data k c n m : tmp_name k c ≠ data_block_file_name_wrap n m;
  meta_text_roundtrip m : meta_of_text (meta_to_text m) = Some m;
  sync_roundtrip c : sync_parse (sync_serialize c) = Some c;
  zlib_roundtrip s : zlib_decompress (zlib_compress s) = Some s;
}.

(** The paths the data join writes, under the directory [dir]. *)
Section paths.
Context `{Utils}.

Definition block_dir (dir : string) (pid : Z) : string :=
  Str.path_join dir (partition_id_wrap pid).
Definition meta_path (dir name : string) (pid i : Z) : string :=
  Str.path_join (block_dir dir pid) (data_block_meta_file_name_wrap name pid i).
Definition data_path (dir name : string) (pid : Z) (m : DataBlockMeta) : string :=
  Str.path_join (block_dir dir pid) (data_block_file_name_wrap name m).
Definition tmp_path (dir : string) (pid : Z) (n : nat) (counter : Z) : string :=
  Str.path_join (block_dir dir pid) (tmp_name n counter).
End paths.

Lemma path_join_inj (a b c : string) :
  Str.startswith "/" b = false → Str.startswith "/" c = false →
  Str.path_join a b = Str.path_join a c → b = c.
Proof.
  unfold Str.path_join. intros -> ->. case_match; [apply Str.append_inj_l|].
  intros H1%Str.append_inj_l. by apply Str.append_inj_l in H1.
Qed.

Lemma meta_path_inj `{UtilsLaws} dir name pid i j :
  meta_path dir name pid i = meta_path dir name pid j → i = j.
Proof.
  intros Hp. eapply meta_name_inj, path_join_inj, Hp; apply meta_name_relative.
Qed.

Lemma path_join_ne (a b c : string) :
  Str.startswith "/" b = false → Str.startswith "/" c = false →
  b ≠ c → Str.path_join a b ≠ Str.path_join a c.
Proof. intros Hb Hc Hne Heq. by apply Hne, (path_join_inj a). Qed.

Lemma path_join_ne_self (a b : string) :
  Str.startswith "/" b = false → b ≠ "" → Str.path_join a b ≠ a.
Proof.
  intros Hb Hne Heq. apply (f_equal String.length) in Heq. revert Heq. unfold Str.path_join.
  rewrite Hb. destruct b as [|c b]; [done|].
  case_match; rewrite !Str.length_append; simpl; lia.
Qed.

Section path_laws.
Context `{UtilsLaws}.

Lemma data_path_ne_meta dir n pid m i : data_path dir n pid m ≠ meta_path dir n pid i.
Proof.
  apply path_join_ne; [apply data_name_relative|apply meta_name_relative|apply data_not_meta].
Qed.
Lemma tmp_path_ne_meta dir n pid k c i : tmp_path dir pid k c ≠ meta_path dir n pid i.
Proof.
  apply path_join_ne; [apply tmp_name_relative|apply meta_name_relative|apply tmp_not_meta].
Qed.
Lemma tmp_path_ne_data dir n pid k c m : tmp_path dir pid k c ≠ data_path dir n pid m.
Proof.
  apply path_join_ne; [apply tmp_name_relative|apply data_name_relative|apply tmp_not_data].
Qed.
Lemma data_path_inj dir n pid m m' :
  data_path dir n pid m = data_path dir n pid m' → data_block_index m = data_block_index m'.
Proof.
  intros Hp. eapply data_name_inj, path_join_inj, Hp; apply data_name_relative.
Qed.
End path_laws.

(** *** A concrete instance *)
Module TestUtils.
Fixpoint pos_to_string (p : positive) : string :=
  match p with
  | xH => ""
  | xO p' => String "0"%char (pos_to_string p')
  | xI p' => String "1"%char (pos_to_string p')
  end.
Fixpoint pos_of_string (s : string) : positive :=
  match s with
  | EmptyString => xH
  | String c s' => if bool_decide (c = "0"%char) then xO (pos_of_string s')
                   else xI (pos_of_string s')
  end.
Lemma pos_roundtrip p : pos_of_string (pos_to_string p) = p.
Proof. induction p; simpl; by rewrite ?IHp. Qed.

Definition meta_tuple (m : DataBlockMeta) :=
  (block_id m, partition_id m, file_version m, start_time m, end_time m,
   example_ids m, leader_start_index m, leader_end_index m,
   follower_restart_index m, data_block_index m).
Definition meta_untuple (t : string * Z * Z * Z * Z * list string * Z * Z * Z * Z) :=
  let '(b, p, v, s, e, l, ls, le, r, i) := t in mkMeta b p v s e l ls le r i.
#[export] Instance meta_countable : Countable DataBlockMeta.
Proof. apply (inj_countable' meta_tuple meta_untuple). by intros []. Defined.

Definition lite_tuple (l : LiteExampleIds) :=
  (le_partition_id l, le_begin_index l, le_example_id l, le_event_time l, le_finished l).
Definition lite_untuple (t : Z * Z * list string * list Z * bool) :=
  let '(p, b, i, e, f) := t in mkLite p b i e f.
#[export] Instance lite_countable : Countable LiteExampleIds.
Proof. apply (inj_countable' lite_tuple lite_untuple). by intros []. Defined.

Definition sync_sum (c : SyncContent) : option (DataBlockMeta + LiteExampleIds) :=
  match c with
  | SC_none => None
  | SC_data_block_meta m => Some (inl m)
  | SC_lite_example_ids l => Some (inr l)
  end.
Definition sync_unsum (c : option (DataBlockMeta + LiteExampleIds)) : SyncContent :=
  match c with
  | None => SC_none
  | Some (inl m) => SC_data_block_meta m
  | Some (inr l) => SC_lite_example_ids l
  end.

#[export] Instance test_utils : Utils := {
  partition_id_wrap p := "partition_" +:+ Str.of_int p;
  data_block_meta_file_name_wrap n p i := "meta." +:+ n +:+ "." +:+ Str.of_int i;
  data_block_file_name_wrap n m := "data." +:+ n +:+ "." +:+ Str.of_int (data_block_index m);
  block_id_wrap n m := n +:+ "." +:+ Str.of_int (data_block_index m);
  uuid1 n := "uuid" +:+ Str.of_int (Z.of_nat n);
  meta_to_text m := pos_to_string (encode m);
  meta_of_text s := decode (pos_of_string s);
  sync_serialize c := pos_to_string (encode (sync_sum c));
  sync_parse s := sync_unsum <$> decode (pos_of_string s);
  zlib_compress s := s;
  zlib_decompress s := Some s;
  http_post _ _ := Ret tt;
  host_ip := "127.0.0.1";
}.

#[export] Instance test_utils_laws : UtilsLaws.
Proof.
  split; simpl.
  - intros n _ i j H1%Str.append_inj_l. apply Str.append_inj_l in H1.
    apply Str.append_inj_l in H1. by apply (inj pretty).
  - done.
  - done.
  - done.
  - intros n m m' H1%Str.append_inj_l. apply Str.append_inj_l in H1.
    apply Str.append_inj_l in H1. by apply (inj pretty).
  - done.
  - done.
  - done.
  - intros m. by rewrite pos_roundtrip, decode_encode.
  - intros c. rewrite pos_roundtrip, decode_encode. by destruct c.
  - done.
Qed.

Lemma test_post_ok u l : http_post u l = Ret tt.
Proof. done. Qed.
End TestUtils.

(** An empty partition directory. *)
Section fresh.
Context `{UtilsLaws}.

Definition fresh_fs (dir : string) (pid : Z) : MemFs := mkMemFs ∅ {[block_dir dir pid]}.

Lemma fresh_writable dir pid f :
  Str.startswith "/" f = false → f ≠ "" →
  gf_writable (fresh_fs dir pid) (Str.path_join (block_dir dir pid) f).
Proof. intros Hf Hne. simpl. rewrite not_elem_of_singleton. by apply path_join_ne_self. Qed.
End fresh.

(** ** The peer *)
Class PeerClient (P : Type) := {
  rpc_StartPartition : StartPartitionRequest → M P StartPartitionResponse;
  rpc_SyncPartition : SyncPartitionRequest → M P Status;
  rpc_FinishPartition : FinishPartitionRequest → M P FinishPartitionResponse;
}.
