(* ===== verification/DataBlockManager.v ===== *)
(** * DataBlockManager (data_join/data_block_manager.py)

    The store of the data block metas of one partition: the metas live in
    files named by their index, the manager keeps the last saved index, the
    index being saved and a bounded buffer of metas.  Specification: an
    append-only log of metas ([rep]). *)

From stdpp Require Import base tactics list gmap strings.
From Stdlib Require Import ZArith Lia.
From S2P Require Import Prelude PyStd Messages Env.

Open Scope Z_scope.

(** config.py *)
Definition removed_items_nums_from_buffer : Z := 1024.
Definition data_block_index_threshold : Z := Z.shiftl 1 53.

Record manager := mkMgr {
  mg_partition_id : Z;
  mg_dir : string;
  mg_source : string;
  mg_buffer : list (Z * DataBlockMeta);
  mg_saved : option Z;
  mg_saving : option Z;
}.

Definition set_buffer b (m : manager) : manager :=
  mkMgr (mg_partition_id m) (mg_dir m) (mg_source m) b (mg_saved m) (mg_saving m).
Definition set_saved s (m : manager) : manager :=
  mkMgr (mg_partition_id m) (mg_dir m) (mg_source m) (mg_buffer m) s (mg_saving m).
Definition set_saving s (m : manager) : manager :=
  mkMgr (mg_partition_id m) (mg_dir m) (mg_source m) (mg_buffer m) (mg_saved m) s.

(** The binary search for the last index whose meta file exists. *)
Fixpoint search_saved (fuel : nat) (exists_meta : Z → bool) (low_index high_index : Z)
    : outcome Z :=
  match fuel with
  | O => Stop NoFuel
  | S fuel' =>
      if low_index <=? high_index then
        let data_index := (low_index + high_index) / 2 in
        if exists_meta data_index
        then search_saved fuel' exists_meta (data_index + 1) high_index
        else search_saved fuel' exists_meta low_index (data_index - 1)
      else Ret high_index
  end.

(** [2 ^ 53 + 1] candidates are halved at each turn. *)
Definition search_fuel : nat := 56.

(** [while len(buffer) > 1024: buffer.popitem()] *)
Fixpoint remove_items (fuel : nat) (b : list (Z * DataBlockMeta)) : list (Z * DataBlockMeta) :=
  match fuel with
  | O => b
  | S f => if removed_items_nums_from_buffer <? zlen b
           then remove_items f (Dict.popitem b) else b
  end.
Definition remove_item_from_data_block_memory_buffer (b : list (Z * DataBlockMeta)) :=
  remove_items (length b) b.

Section manager.
Context {F : Type} `{GFile F} `{Utils}.

Definition data_block_dir_wrap (m : manager) : string :=
  block_dir (mg_dir m) (mg_partition_id m).

Definition acquire_data_block_meta_path (m : manager) (i : Z) : string :=
  Str.path_join (data_block_dir_wrap m)
    (data_block_meta_file_name_wrap (mg_source m) (mg_partition_id m) i).

Definition create_data_block_dir_if_need : M (manager * F) unit := λ st,
  let '(m, fs) := st in
  let d := data_block_dir_wrap m in
  let fs1 := if gf_exists d fs then fs else gf_make_dirs d fs in
  if gf_is_directory d fs1 then (Ret tt, (m, fs1)) else (Stop (Exit (-1)), (m, fs1)).

Definition sync_saved_data_block_index : M (manager * F) unit := λ st,
  let '(m, fs) := st in
  match mg_saved m, mg_saving m with
  | None, Some _ => (raise AssertionError, st)
  | None, None =>
      match search_saved search_fuel
              (λ i, gf_exists (acquire_data_block_meta_path m i) fs)
              0 data_block_index_threshold with
      | Ret high => (Ret tt, (set_saved (Some high) m, fs))
      | Stop r => (Stop r, st)
      end
  | Some _, None => (Ret tt, st)
  | Some saved, Some saving =>
      if negb (saving =? saved + 1) then (raise AssertionError, st)
      else if gf_exists (acquire_data_block_meta_path m saving) fs
      then (Ret tt, (set_saving None (set_saved (Some saving) m), fs))
      else (Ret tt, (set_saving None m, fs))
  end.

(** The read of [self._saved_data_block_index] in arithmetic. *)
Definition saved_index : M (manager * F) Z := λ st,
  match mg_saved st.1 with
  | Some z => (Ret z, st)
  | None => (raise TypeError, st)
  end.

Definition read_meta (path : string) : M (manager * F) DataBlockMeta := λ st,
  let '(m, fs) := st in
  match tfr_read path fs with
  | (Ret [], fs') => (raise StopIteration, (m, fs'))
  | (Ret (r :: _), fs') =>
      match meta_of_text r with
      | Some meta => (Ret meta, (m, fs'))
      | None => (raise ParseError, (m, fs'))
      end
  | (Stop r, fs') => (Stop r, (m, fs'))
  end.

Definition set_buffer_item (i : Z) (meta : DataBlockMeta) : M (manager * F) unit :=
  modify (λ st, (set_buffer (Dict.set i meta (mg_buffer st.1)) st.1, st.2)).
Definition remove_from_buffer : M (manager * F) unit :=
  modify (λ st, (set_buffer (remove_item_from_data_block_memory_buffer (mg_buffer st.1)) st.1,
                 st.2)).

Definition sync_data_block_meta (i : Z) : M (manager * F) (option DataBlockMeta) :=
  saved ← saved_index;
  if (saved <? 0) || (saved <? i) then mret None
  else
    b ← gets (λ st : manager * F, mg_buffer st.1);
    (if Dict.mem i b then mret tt
     else
       path ← gets (λ st : manager * F, acquire_data_block_meta_path st.1 i);
       meta ← read_meta path;
       set_buffer_item i meta;;
       remove_from_buffer);;
    b' ← gets (λ st : manager * F, mg_buffer st.1);
    match Dict.get i b' with
    | Some meta => mret (Some meta)
    | None => raiseM KeyError
    end.

Definition acquire_produced_data_block_number : M (manager * F) Z :=
  sync_saved_data_block_index;;
  saved ← saved_index;
  mret (saved + 1).

Definition acquire_data_block_meta_by_index (i : Z) : M (manager * F) (option DataBlockMeta) :=
  require (negb (i <? 0)) IndexError;;
  sync_saved_data_block_index;;
  sync_data_block_meta i.

Definition update_data_block_meta (meta_file_path_tmp : string) (meta : DataBlockMeta)
    : M (manager * F) string :=
  ex ← gets (λ st : manager * F, gf_exists meta_file_path_tmp st.2);
  require ex RuntimeError;;
  saving ← gets (λ st : manager * F, mg_saving st.1);
  require (bool_decide (saving = None)) RuntimeError;;
  saved ← saved_index;
  require (data_block_index meta =? saved + 1) IndexError;;
  modify (λ st : manager * F, (set_saving (Some (data_block_index meta)) st.1, st.2));;
  path ← gets (λ st : manager * F, acquire_data_block_meta_path st.1 (data_block_index meta));
  zoom snd (λ fs st, (st.1, fs)) (gf_rename meta_file_path_tmp path false);;
  modify (λ st : manager * F,
            (set_saved (Some (data_block_index meta)) (set_saving None st.1), st.2));;
  remove_from_buffer;;
  set_buffer_item (data_block_index meta) meta;;
  mret path.

(** [DataBlockManager(partition_id, data_block_dir, data_source_name)] *)
Definition new_manager (pid : Z) (dir name : string) : M F manager := λ fs,
  let m := mkMgr pid dir name [] None None in
  match (create_data_block_dir_if_need;; sync_saved_data_block_index) (m, fs) with
  | (Ret _, (m', fs')) => (Ret m', fs')
  | (Stop r, (_, fs')) => (Stop r, fs')
  end.
End manager.

(** ** The binary search *)
Section search.
Context (ex : Z → bool).

(** It ends: halving [n] times exhausts fewer than [2 ^ n] candidates. *)
Lemma search_saved_returns n low high :
  0 ≤ high - low + 1 < 2 ^ Z.of_nat n →
  ∃ i, search_saved (S n) ex low high = Ret i.
Proof.
  revert low high. induction n as [|n IH]; intros low high Hb.
  - simpl in *. destruct (Z.leb_spec low high); [lia|eauto].
  - cbn [search_saved]. destruct (Z.leb_spec low high); [|eauto].
    rewrite Nat2Z.inj_succ, Z.pow_succ_r in Hb by lia.
    pose proof (Z.div_mod (low + high) 2 ltac:(lia)).
    pose proof (Z.mod_pos_bound (low + high) 2 ltac:(lia)).
    case_match; apply IH; lia.
Qed.

(** What it returns: an index at the border of the existing ones. *)
Lemma search_saved_border n low high i :
  search_saved n ex low high = Ret i →
  low ≤ high + 1 →
  low - 1 ≤ i ≤ high ∧
  (i = low - 1 ∨ ex i = true) ∧ (i = high ∨ ex (i + 1) = false).
Proof.
  revert low high. induction n as [|n IH]; intros low high; [done|].
  cbn [search_saved]. destruct (Z.leb_spec low high) as [Hle|Hlt].
  - pose proof (Z.div_mod (low + high) 2 ltac:(lia)).
    pose proof (Z.mod_pos_bound (low + high) 2 ltac:(lia)).
    destruct (ex ((low + high) / 2)) eqn:E; intros Hs Hlh.
    + apply IH in Hs as (? & Hl & Hh); [|lia]. split_and!; [lia|lia| |done].
      destruct Hl as [->|]; [|by right]. right.
      by replace ((low + high) / 2 + 1 - 1) with ((low + high) / 2) by lia.
    + apply IH in Hs as (? & Hl & Hh); [|lia]. split_and!; [lia|lia|done|].
      destruct Hh as [->|]; [|by right]. right.
      by replace ((low + high) / 2 - 1 + 1) with ((low + high) / 2) by lia.
  - intros [= <-] ?. split_and!; [lia|lia| |by left]. left. lia.
Qed.
End search.

Lemma threshold_val : data_block_index_threshold = 2 ^ 53.
Proof. reflexivity. Qed.

Lemma search_saved_prefix ex n :
  0 ≤ n ≤ 2 ^ 53 →
  (∀ i, 0 ≤ i ≤ 2 ^ 53 → ex i = (i <? n)) →
  search_saved search_fuel ex 0 data_block_index_threshold = Ret (n - 1).
Proof.
  intros Hn Hex. rewrite threshold_val.
  destruct (search_saved_returns ex 55 0 (2 ^ 53)) as [i Hi]; [by split|].
  change (S 55) with search_fuel in Hi. rewrite Hi. f_equal.
  apply search_saved_border in Hi as (Hr & Hl & Hh); [|lia].
  assert (i < n) as Hlt.
  { destruct Hl as [->|Hl]; [lia|]. destruct (decide (i = -1)); [lia|].
    rewrite Hex in Hl by lia. lia. }
  destruct Hh as [->|Hh]; [lia|]. destruct (decide (i = 2 ^ 53)); [lia|].
  rewrite Hex in Hh by lia. lia.
Qed.

Arguments search_saved : simpl never.
Arguments remove_item_from_data_block_memory_buffer : simpl never.

(** ** The buffer *)
Lemma remove_items_spec fuel b :
  (length b ≤ fuel)%nat →
  zlen (remove_items fuel b) = Z.min (zlen b) removed_items_nums_from_buffer ∧
  (∀ i m, Dict.get i (remove_items fuel b) = Some m → Dict.get i b = Some m) ∧
  (NoDup (Dict.keys b) → NoDup (Dict.keys (remove_items fuel b))) ∧
  (zlen b ≤ removed_items_nums_from_buffer → remove_items fuel b = b).
Proof.
  unfold removed_items_nums_from_buffer.
  revert b. induction fuel as [|f IH]; intros b Hf.
  { destruct b; simpl in *; [|lia]. split_and!; auto. }
  simpl. destruct (Z.ltb_spec removed_items_nums_from_buffer (zlen b)) as [Hlt|Hge];
    unfold removed_items_nums_from_buffer in *.
  - pose proof (Dict.popitem_length b) as Hl.
    destruct (IH (Dict.popitem b)) as (H1 & H2 & H3 & H4); [lia|].
    split_and!.
    + rewrite H1. unfold zlen in *. lia.
    + intros i m Hg. by apply Dict.get_removelast, H2.
    + intros Hd. by apply H3, Dict.popitem_NoDup.
    + lia.
  - split_and!; auto. lia.
Qed.

Lemma remove_item_length b :
  zlen (remove_item_from_data_block_memory_buffer b)
  = Z.min (zlen b) removed_items_nums_from_buffer.
Proof. by apply remove_items_spec. Qed.
Lemma remove_item_get b i m :
  Dict.get i (remove_item_from_data_block_memory_buffer b) = Some m → Dict.get i b = Some m.
Proof. by apply remove_items_spec. Qed.
Lemma remove_item_NoDup b :
  NoDup (Dict.keys b) → NoDup (Dict.keys (remove_item_from_data_block_memory_buffer b)).
Proof. by apply remove_items_spec. Qed.
Lemma remove_item_small b :
  zlen b ≤ removed_items_nums_from_buffer →
  remove_item_from_data_block_memory_buffer b = b.
Proof. by apply remove_items_spec. Qed.

(** Storing one more entry in a full buffer and trimming it drops that entry. *)
Lemma remove_item_full b i m :
  removed_items_nums_from_buffer ≤ zlen b →
  i ∉ Dict.keys b →
  Dict.get i (remove_item_from_data_block_memory_buffer (Dict.set i m b)) = None.
Proof.
  intros Hfull Hi. rewrite Dict.set_fresh by done.
  unfold remove_item_from_data_block_memory_buffer.
  rewrite length_app, Nat.add_comm. simpl.
  destruct (Z.ltb_spec removed_items_nums_from_buffer (zlen (b ++ [(i, m)]))) as [_|Hge].
  2:{ rewrite zlen_app in Hge. unfold zlen at 2 in Hge. simpl in Hge. lia. }
  unfold Dict.popitem. rewrite removelast_last.
  destruct (Dict.get i (remove_items (length b) b)) as [m'|] eqn:E; [|done].
  apply (remove_item_get b) in E. apply Dict.get_None in Hi. congruence.
Qed.

(** ** Refinement of the append-only log *)
Section refinement.
Context {F : Type} `{GFileLaws F} `{UtilsLaws}.

Definition meta_file (x : DataBlockMeta) : list string := [meta_to_text x].

(** [rep m fs log]: the manager [m] over the files [fs] stands for [log]. *)
Record rep (m : manager) (fs : F) (log : list DataBlockMeta) : Prop := mkRep {
  rep_saved : mg_saved m = Some (zlen log - 1);
  rep_saving : mg_saving m = None;
  rep_bound : zlen log ≤ 2 ^ 53;
  rep_files i : 0 ≤ i ≤ 2 ^ 53 →
    gf_files fs !! acquire_data_block_meta_path m i = meta_file <$> log !! Z.to_nat i;
  rep_writable i : gf_writable fs (acquire_data_block_meta_path m i);
  rep_buffer i x : Dict.get i (mg_buffer m) = Some x → 0 ≤ i ∧ log !! Z.to_nat i = Some x;
  rep_index i x : log !! i = Some x → data_block_index x = Z.of_nat i;
  rep_keys : NoDup (Dict.keys (mg_buffer m));
}.

Lemma rep_exists m fs log i :
  rep m fs log → 0 ≤ i ≤ 2 ^ 53 →
  gf_exists (acquire_data_block_meta_path m i) fs = (i <? zlen log).
Proof.
  intros Hr Hi. rewrite exists_law by apply Hr. rewrite (rep_files _ _ _ Hr) by done.
  unfold zlen. destruct (log !! Z.to_nat i) eqn:E.
  - apply lookup_lt_Some in E. rewrite bool_decide_true by (simpl; eauto).
    symmetry. apply Z.ltb_lt. lia.
  - apply lookup_ge_None in E. rewrite bool_decide_false by (by intros [? ?]).
    symmetry. apply Z.ltb_ge. lia.
Qed.

Lemma rep_path m i : acquire_data_block_meta_path m i
  = meta_path (mg_dir m) (mg_source m) (mg_partition_id m) i.
Proof. done. Qed.

Lemma rep_set_buffer m fs log b :
  rep m fs log →
  (∀ i x, Dict.get i b = Some x → 0 ≤ i ∧ log !! Z.to_nat i = Some x) →
  NoDup (Dict.keys b) →
  rep (set_buffer b m) fs log.
Proof. intros [] Hb Hd. by split. Qed.

(** The buffer holds no more metas than the log, so that a log that fits in
    the buffer always leaves room. *)
Lemma rep_room m fs log i x :
  rep m fs log → zlen log ≤ removed_items_nums_from_buffer →
  0 ≤ i → log !! Z.to_nat i = Some x →
  Dict.mem i (mg_buffer m) = true ∨ zlen (mg_buffer m) < removed_items_nums_from_buffer.
Proof.
  intros Hr Hl Hi Hx. destruct (Dict.mem i (mg_buffer m)) eqn:Hm; [by left|right].
  apply Dict.mem_false in Hm.
  assert (NoDup (i :: Dict.keys (mg_buffer m))) as Hd
    by (constructor; [done|apply (rep_keys _ _ _ Hr)]).
  assert (i :: Dict.keys (mg_buffer m) ⊆ Z.of_nat <$> seq 0 (length log)) as Hsub.
  { intros k [->|Hk]%elem_of_cons; apply list_elem_of_fmap.
    - exists (Z.to_nat i). apply lookup_lt_Some in Hx. rewrite elem_of_seq. lia.
    - apply Dict.mem_true, Dict.mem_get in Hk as [y Hy].
      apply (rep_buffer _ _ _ Hr) in Hy as [Hk Hy]. apply lookup_lt_Some in Hy.
      exists (Z.to_nat k). rewrite elem_of_seq. lia. }
  pose proof (submseteq_length _ _ (NoDup_submseteq _ _ Hd Hsub)) as Hlen.
  simpl in Hlen. unfold Dict.keys in Hlen.
  rewrite !length_fmap, length_seq in Hlen. unfold zlen in *. lia.
Qed.

Lemma rep_frame m (fs fs' : F) log :
  rep m fs log →
  (∀ i, gf_files fs' !! acquire_data_block_meta_path m i
        = gf_files fs !! acquire_data_block_meta_path m i) →
  (∀ p, gf_writable fs p → gf_writable fs' p) →
  rep m fs' log.
Proof.
  intros [] Hf Hw. split; try done.
  - intros i Hi. rewrite Hf. auto.
  - intros i. auto.
Qed.

(** The file names are frozen by the immutable fields. *)
Definition same_names (m m' : manager) : Prop :=
  mg_dir m' = mg_dir m ∧ mg_source m' = mg_source m ∧ mg_partition_id m' = mg_partition_id m.

Lemma sync_saved_rep m fs log :
  rep m fs log → sync_saved_data_block_index (m, fs) = (Ret tt, (m, fs)).
Proof. intros Hr. simpl. by rewrite (rep_saved _ _ _ Hr), (rep_saving _ _ _ Hr). Qed.

Lemma acquire_produced_rep m fs log :
  rep m fs log →
  acquire_produced_data_block_number (m, fs) = (Ret (zlen log), (m, fs)).
Proof.
  intros Hr. unfold acquire_produced_data_block_number.
  rewrite (run_bind_ret _ _ _ _ _ (sync_saved_rep _ _ _ Hr)).
  mrun. unfold saved_index. simpl. rewrite (rep_saved _ _ _ Hr).
  do 2 f_equal. lia.
Qed.

Lemma read_meta_rep m fs log i x :
  rep m fs log → 0 ≤ i → log !! Z.to_nat i = Some x →
  read_meta (acquire_data_block_meta_path m i) (m, fs) = (Ret x, (m, fs)).
Proof.
  intros Hr Hi Hx. unfold read_meta.
  assert (i ≤ 2 ^ 53).
  { pose proof (rep_bound _ _ _ Hr). apply lookup_lt_Some in Hx. unfold zlen in *. lia. }
  rewrite (read_law _ (meta_file x)).
  - simpl. by rewrite meta_text_roundtrip.
  - rewrite (rep_files _ _ _ Hr) by lia. by rewrite Hx.
Qed.

(** Inside the log: the manager returns the log's entry, unless the buffer
    is full and does not hold it. *)
Lemma by_index_rep m fs log i x :
  rep m fs log → 0 ≤ i → log !! Z.to_nat i = Some x →
  Dict.mem i (mg_buffer m) = true ∨ zlen (mg_buffer m) < removed_items_nums_from_buffer →
  ∃ m', acquire_data_block_meta_by_index i (m, fs) = (Ret (Some x), (m', fs)) ∧
        rep m' fs log ∧ same_names m m' ∧
        zlen (mg_buffer m') ≤ zlen (mg_buffer m) + 1.
Proof.
  intros Hr Hi Hx Hroom.
  assert (i < zlen log) as Hlt by (apply lookup_lt_Some in Hx; unfold zlen; lia).
  unfold acquire_data_block_meta_by_index.
  rewrite (proj2 (Z.ltb_ge i 0)) by lia.
  rewrite run_bind. simpl.
  rewrite (run_bind_ret _ _ _ _ _ (sync_saved_rep _ _ _ Hr)).
  unfold sync_data_block_meta. rewrite run_bind. unfold saved_index.
  simpl. rewrite (rep_saved _ _ _ Hr). simpl.
  rewrite (proj2 (Z.ltb_ge (zlen log - 1) 0)) by lia.
  rewrite (proj2 (Z.ltb_ge (zlen log - 1) i)) by lia. simpl.
  rewrite run_bind. simpl. destruct (Dict.mem i (mg_buffer m)) eqn:Hm.
  - apply Dict.mem_get in Hm as [y Hy]. rewrite run_bind. simpl.
    rewrite run_bind. simpl. rewrite Hy. exists m.
    pose proof (rep_buffer _ _ _ Hr _ _ Hy) as [_ ?]. simplify_eq.
    split_and!; [done|done|done|lia].
  - destruct Hroom as [|Hroom]; [done|].
    apply Dict.mem_false in Hm.
    rewrite !run_bind. simpl. rewrite !run_bind.
    rewrite (read_meta_rep _ _ _ _ _ Hr Hi Hx). mrun.
    rewrite remove_item_small.
    2:{ rewrite Dict.set_fresh, zlen_app by done. unfold zlen in *. simpl. lia. }
    rewrite Dict.get_set_eq. eexists. split_and!; [done| |done|].
    2:{ simpl. rewrite Dict.set_fresh by done. rewrite zlen_app. done. }
    apply (rep_set_buffer m fs log (Dict.set i x (mg_buffer m)) Hr);
      [|by apply Dict.set_NoDup, Hr].
    intros j y. rewrite Dict.get_set. case_decide; intros; simplify_eq; [done|].
    by apply (rep_buffer _ _ _ Hr).
Qed.

Lemma by_index_past_rep m fs log i :
  rep m fs log → zlen log ≤ i →
  acquire_data_block_meta_by_index i (m, fs) = (Ret None, (m, fs)).
Proof.
  intros Hr Hi. pose proof (zlen_nonneg log).
  unfold acquire_data_block_meta_by_index.
  rewrite (proj2 (Z.ltb_ge i 0)) by lia.
  rewrite run_bind. simpl.
  rewrite (run_bind_ret _ _ _ _ _ (sync_saved_rep _ _ _ Hr)).
  unfold sync_data_block_meta. rewrite run_bind. unfold saved_index.
  simpl. rewrite (rep_saved _ _ _ Hr). simpl.
  rewrite (proj2 (Z.ltb_lt (zlen log - 1) i)) by lia. by rewrite orb_true_r.
Qed.

(** The buffer is full and does not hold the meta: the lookup that follows
    the trimming fails, although the meta is on disk. *)
Lemma by_index_full_buffer m fs log i x :
  rep m fs log → 0 ≤ i → log !! Z.to_nat i = Some x →
  removed_items_nums_from_buffer ≤ zlen (mg_buffer m) →
  Dict.mem i (mg_buffer m) = false →
  (acquire_data_block_meta_by_index i (m, fs)).1 = raise KeyError.
Proof.
  intros Hr Hi Hx Hfull Hm.
  assert (i < zlen log) as Hlt by (apply lookup_lt_Some in Hx; unfold zlen; lia).
  unfold acquire_data_block_meta_by_index.
  rewrite (proj2 (Z.ltb_ge i 0)) by lia.
  rewrite run_bind. simpl.
  rewrite (run_bind_ret _ _ _ _ _ (sync_saved_rep _ _ _ Hr)).
  unfold sync_data_block_meta. rewrite run_bind. unfold saved_index.
  simpl. rewrite (rep_saved _ _ _ Hr). simpl.
  rewrite (proj2 (Z.ltb_ge (zlen log - 1) 0)) by lia.
  rewrite (proj2 (Z.ltb_ge (zlen log - 1) i)) by lia. simpl.
  rewrite run_bind. simpl. rewrite Hm.
  rewrite !run_bind. simpl. rewrite !run_bind.
  rewrite (read_meta_rep _ _ _ _ _ Hr Hi Hx). mrun.
  rewrite remove_item_full; [done|done|]. by apply Dict.mem_false.
Qed.

(** Appending: the tmp file becomes the next meta file and the log grows. *)
Lemma update_rep m fs log x tmp :
  rep m fs log → zlen log < 2 ^ 53 →
  data_block_index x = zlen log →
  gf_files fs !! tmp = Some (meta_file x) → gf_writable fs tmp →
  (∀ i, tmp ≠ acquire_data_block_meta_path m i) →
  ∃ m' fs',
    update_data_block_meta tmp x (m, fs)
      = (Ret (acquire_data_block_meta_path m (zlen log)), (m', fs')) ∧
    rep m' fs' (log ++ [x]) ∧ same_names m m' ∧
    mg_buffer m' = Dict.set (zlen log) x
      (remove_item_from_data_block_memory_buffer (mg_buffer m)) ∧
    gf_files fs' = <[acquire_data_block_meta_path m (zlen log) := meta_file x]>
                     (delete tmp (gf_files fs)) ∧
    (∀ p, gf_writable fs p → gf_writable fs' p).
Proof.
  intros Hr Hb Hx Htmp Hwt Hne. pose proof (zlen_nonneg log) as Hpos.
  destruct (rename_law tmp (acquire_data_block_meta_path m (zlen log)) false
              (meta_file x) fs) as (fs' & Hren & Hfs' & Hw); try done.
  { by apply Hr. }
  { right. rewrite (rep_files _ _ _ Hr) by lia.
    rewrite lookup_ge_None_2; [done|]. unfold zlen. lia. }
  eexists _, fs'. split_and!.
  - unfold update_data_block_meta. rewrite run_bind. simpl.
    rewrite exists_law, bool_decide_true by (rewrite ?Htmp; eauto).
    rewrite run_bind. simpl. rewrite run_bind. simpl.
    rewrite (rep_saving _ _ _ Hr), run_bind. simpl.
    rewrite run_bind. unfold saved_index. simpl. rewrite (rep_saved _ _ _ Hr).
    rewrite Hx, (proj2 (Z.eqb_eq _ _)) by lia.
    rewrite run_bind. simpl. rewrite run_bind. simpl. rewrite run_bind. simpl.
    rewrite run_bind. unfold zoom. simpl.
    change (acquire_data_block_meta_path (set_saving _ m) (zlen log))
      with (acquire_data_block_meta_path m (zlen log)).
    rewrite Hren. reflexivity.
  - split; simpl.
    + rewrite zlen_app. unfold zlen at 3. simpl. do 2 f_equal. lia.
    + done.
    + rewrite zlen_app. unfold zlen at 2. simpl. lia.
    + intros i Hi. change (acquire_data_block_meta_path _ i)
        with (acquire_data_block_meta_path m i). rewrite Hfs'.
      destruct (decide (i = zlen log)) as [->|Hin].
      * rewrite lookup_insert_eq. unfold zlen. rewrite Nat2Z.id.
        by rewrite lookup_app_r, Nat.sub_diag by done.
      * rewrite lookup_insert_ne.
        2:{ intros Heq. apply Hin. symmetry. rewrite !rep_path in Heq.
            by apply meta_path_inj in Heq. }
        rewrite lookup_delete_ne by done. rewrite (rep_files _ _ _ Hr) by done.
        destruct (decide (i < zlen log)).
        -- by rewrite lookup_app_l by (unfold zlen in *; lia).
        -- rewrite !lookup_ge_None_2; [done| |]; rewrite ?length_app; simpl;
             unfold zlen in *; lia.
    + intros i. apply Hw, Hr.
    + intros i y. rewrite Dict.get_set. case_decide as Hd.
      * intros [= <-]. subst i. split; [done|]. unfold zlen. rewrite Nat2Z.id.
        by rewrite lookup_app_r, Nat.sub_diag by done.
      * intros Hy%remove_item_get. apply (rep_buffer _ _ _ Hr) in Hy as [? Hy].
        split; [done|]. by apply lookup_app_l_Some.
    + intros i y [Hy|[Hge Hy]]%lookup_app_Some; [by eapply Hr|].
      apply list_lookup_singleton_Some in Hy as [Hi <-]. rewrite Hx. unfold zlen. lia.
    + apply Dict.set_NoDup, remove_item_NoDup, Hr.
  - done.
  - done.
  - done.
  - done.
Qed.

Lemma update_wrong_index m fs log x tmp :
  rep m fs log → gf_exists tmp fs = true → data_block_index x ≠ zlen log →
  update_data_block_meta tmp x (m, fs) = (raise IndexError, (m, fs)).
Proof.
  intros Hr Ht Hx. unfold update_data_block_meta. rewrite run_bind. simpl. rewrite Ht.
  rewrite run_bind. simpl. rewrite run_bind. simpl.
  rewrite (rep_saving _ _ _ Hr), run_bind. simpl.
  rewrite run_bind. unfold saved_index. simpl. rewrite (rep_saved _ _ _ Hr).
  rewrite (proj2 (Z.eqb_neq _ _)) by lia. done.
Qed.

Lemma update_no_tmp m fs x tmp :
  gf_exists tmp fs = false →
  update_data_block_meta tmp x (m, fs) = (raise RuntimeError, (m, fs)).
Proof. intros Ht. unfold update_data_block_meta. rewrite run_bind. simpl. by rewrite Ht. Qed.

(** A save that was interrupted after [_saving_data_block_index] was set is
    settled by the next synchronisation, by the presence of the file. *)
Lemma sync_interrupted m fs log :
  rep (set_saving None m) fs log → zlen log < 2 ^ 53 →
  mg_saving m = Some (zlen log) →
  sync_saved_data_block_index (m, fs) = (Ret tt, (set_saving None m, fs)).
Proof.
  intros Hr Hb Hs. simpl. pose proof (rep_saved _ _ _ Hr) as Hsv. simpl in Hsv.
  rewrite Hsv, Hs, (proj2 (Z.eqb_eq _ _)) by lia. simpl.
  pose proof (zlen_nonneg log).
  change (acquire_data_block_meta_path m (zlen log))
    with (acquire_data_block_meta_path (set_saving None m) (zlen log)).
  rewrite (rep_exists _ _ _ _ Hr) by lia.
  by rewrite Z.ltb_irrefl.
Qed.

Lemma sync_interrupted_after_rename m fs log x :
  rep (set_saving None (set_saved (Some (zlen log)) m)) fs (log ++ [x]) →
  mg_saved m = Some (zlen log - 1) → mg_saving m = Some (zlen log) →
  sync_saved_data_block_index (m, fs)
    = (Ret tt, (set_saving None (set_saved (Some (zlen log)) m), fs)).
Proof.
  intros Hr Hsv Hs. simpl. rewrite Hsv, Hs, (proj2 (Z.eqb_eq _ _)) by lia. simpl.
  pose proof (zlen_nonneg log). pose proof (rep_bound _ _ _ Hr) as Hb.
  rewrite zlen_app in Hb. unfold zlen at 2 in Hb. simpl in Hb.
  change (acquire_data_block_meta_path m (zlen log)) with
    (acquire_data_block_meta_path (set_saving None (set_saved (Some (zlen log)) m)) (zlen log)).
  rewrite (rep_exists _ _ _ _ Hr) by lia.
  rewrite zlen_app, (proj2 (Z.ltb_lt _ _)); [done|]. unfold zlen at 3. simpl. lia.
Qed.

(** A restarted process finds the log that the files hold. *)
Lemma new_manager_rep pid dir name fs log :
  gf_exists (block_dir dir pid) fs = true →
  gf_is_directory (block_dir dir pid) fs = true →
  zlen log ≤ 2 ^ 53 →
  (∀ i, 0 ≤ i ≤ 2 ^ 53 →
     gf_files fs !! meta_path dir name pid i = meta_file <$> log !! Z.to_nat i) →
  (∀ i, gf_writable fs (meta_path dir name pid i)) →
  (∀ i x, log !! i = Some x → data_block_index x = Z.of_nat i) →
  ∃ m, new_manager pid dir name fs = (Ret m, fs) ∧ rep m fs log ∧ mg_buffer m = [] ∧
       mg_partition_id m = pid ∧ mg_dir m = dir ∧ mg_source m = name.
Proof.
  intros Hex Hdir Hb Hf Hw Hi. unfold new_manager, create_data_block_dir_if_need.
  rewrite run_bind. unfold data_block_dir_wrap. simpl. rewrite Hex, Hdir.
  assert (rep (mkMgr pid dir name [] (Some (zlen log - 1)) None) fs log) as Hr.
  { split; simpl; try done. apply NoDup_nil_2. }
  unfold sync_saved_data_block_index. cbn [mg_saved mg_saving].
  rewrite (search_saved_prefix _ (zlen log)).
  - eexists. split; [done|]. by split_and!.
  - pose proof (zlen_nonneg log). lia.
  - intros i Hi'. apply (rep_exists _ _ _ _ Hr Hi').
Qed.
End refinement.

(** Stores of any size in a concrete directory, for the witnesses. *)
Module TestStore.
Import TestUtils.

Definition fs0 : MemFs := fresh_fs "blocks" 0.
Definition mgr_with (n : Z) (b : list (Z * DataBlockMeta)) : manager :=
  mkMgr 0 "blocks" "src" b (Some (n - 1)) None.
Definition mgr0 : manager := mgr_with 0 [].

Definition meta_at (i : nat) : DataBlockMeta := set_data_block_index (Z.of_nat i) empty_meta.

(** [n] metas, with their numbers as indices, and the directory that holds
    them. *)
Definition log_of (n : nat) : list DataBlockMeta := meta_at <$> seq 0 n.
Fixpoint files_of (n : nat) : gmap string (list string) :=
  match n with
  | O => ∅
  | S n' => <[meta_path "blocks" "src" 0 (Z.of_nat n') := meta_file (meta_at n')]> (files_of n')
  end.
Definition fs_of (n : nat) : MemFs := mkMemFs (files_of n) (mf_dirs fs0).

Lemma log_of_lookup n i : log_of n !! i = if decide (i < n)%nat then Some (meta_at i) else None.
Proof.
  unfold log_of. rewrite list_lookup_fmap. case_decide.
  - by rewrite lookup_seq_lt.
  - rewrite lookup_seq_ge by lia. done.
Qed.

Lemma log_of_length n : zlen (log_of n) = Z.of_nat n.
Proof. unfold zlen, log_of. by rewrite length_fmap, length_seq. Qed.

Lemma files_of_lookup n i :
  0 ≤ i → files_of n !! meta_path "blocks" "src" 0 i = meta_file <$> log_of n !! Z.to_nat i.
Proof.
  intros Hi. rewrite log_of_lookup. induction n as [|n IH]; [done|].
  cbn [files_of]. destruct (decide (i = Z.of_nat n)) as [->|Hne].
  - rewrite lookup_insert_eq, Nat2Z.id. by rewrite decide_True by lia.
  - rewrite lookup_insert_ne; [|by intros Heq%meta_path_inj].
    rewrite IH. do 2 case_decide; try done; lia.
Qed.


Lemma rep_of n k :
  (k ≤ n)%nat → Z.of_nat n ≤ 2 ^ 53 →
  rep (mgr_with (Z.of_nat n) ((λ i, (Z.of_nat i, meta_at i)) <$> seq 0 k)) (fs_of n) (log_of n).
Proof.
  intros Hk Hn. split; simpl; try done.
  - by rewrite log_of_length.
  - by rewrite log_of_length.
  - intros i Hi. apply files_of_lookup. lia.
  - intros i x Hx%Dict.get_Some_In. apply list_elem_of_fmap in Hx as (j & [= -> ->] & Hj).
    apply elem_of_seq in Hj. split; [lia|]. rewrite log_of_lookup, Nat2Z.id.
    by rewrite decide_True by lia.
  - intros i x Hx. rewrite log_of_lookup in Hx. case_decide; [|done]. by injection Hx as <-.
  - unfold Dict.keys. rewrite <- list_fmap_compose. simpl.
    apply NoDup_fmap; [|apply NoDup_seq]. intros a b. simpl. lia.
Qed.
End TestStore.

(** ** Properties *)
Section properties.
Context {F : Type} `{GFileLaws F} `{UtilsLaws}.

(** What a read of index [i] comes to when the log is stored: the entry, when it is
    buffered or the buffer has room for it; a stored meta that a full buffer does not
    hold is inserted and trimmed away before it is looked up. *)
Definition read_spec (buffer : list (Z * DataBlockMeta)) (log : list DataBlockMeta) (i : Z)
    : outcome (option DataBlockMeta) :=
  if i <? 0 then raise IndexError
  else match log !! Z.to_nat i with
       | None => Ret None
       | Some x =>
           if Dict.mem i buffer || (zlen buffer <? removed_items_nums_from_buffer)
           then Ret (Some x) else raise KeyError
       end.
Lemma reads_spec m fs log i :
  rep m fs log → (acquire_data_block_meta_by_index i (m, fs)).1 = read_spec (mg_buffer m) log i.
Proof.
  intros Hr. unfold read_spec. destruct (Z.ltb_spec i 0) as [Hi|Hi].
  { unfold acquire_data_block_meta_by_index. by rewrite (proj2 (Z.ltb_lt i 0)). }
  destruct (log !! Z.to_nat i) as [x|] eqn:Hx.
  - destruct (Dict.mem i (mg_buffer m)) eqn:Hm; cbn [orb].
    { destruct (by_index_rep m fs log i x Hr Hi Hx) as (m' & -> & _); [by left|done]. }
    destruct (Z.ltb_spec (zlen (mg_buffer m)) removed_items_nums_from_buffer) as [Hroom|Hfull].
    + destruct (by_index_rep m fs log i x Hr Hi Hx) as (m' & -> & _); [by right|done].
    + by eapply by_index_full_buffer.
  - rewrite (by_index_past_rep m fs log); [done|done|].
    apply lookup_ge_None in Hx. unfold zlen. lia.
Qed.

(** C19.  The store is an append-only log.  [update_data_block_meta] refuses a temporary
    file that is not there and a meta whose index is not the next one, and changes
    nothing then; with the next index it moves the temporary file into the log, where
    the meta is what its index reads back, and the next number to produce grows by one.
    A read of any index gives what [read_spec] says: an error below 0, nothing past
    the end of the log, the entry when it is buffered or the buffer has room, and
    otherwise, with 1024 metas in the buffer and this one not among them, a
    [KeyError]. *)
Theorem store_appends m fs log x tmp :
  rep m fs log → zlen log < 2 ^ 53 →
  (gf_exists tmp fs = false → update_data_block_meta tmp x (m, fs) = (raise RuntimeError, (m, fs))) ∧
  (gf_exists tmp fs = true → data_block_index x ≠ zlen log →
   update_data_block_meta tmp x (m, fs) = (raise IndexError, (m, fs))) ∧
  (gf_files fs !! tmp = Some (meta_file x) → gf_writable fs tmp →
   (∀ i, tmp ≠ acquire_data_block_meta_path m i) → data_block_index x = zlen log →
   ∃ m' fs' m'',
     update_data_block_meta tmp x (m, fs)
       = (Ret (acquire_data_block_meta_path m (zlen log)), (m', fs')) ∧
     rep m' fs' (log ++ [x]) ∧ gf_files fs' !! tmp = None ∧
     acquire_produced_data_block_number (m', fs') = (Ret (zlen log + 1), (m', fs')) ∧
     acquire_data_block_meta_by_index (zlen log) (m', fs') = (Ret (Some x), (m'', fs'))) ∧
  ∀ i, (acquire_data_block_meta_by_index i (m, fs)).1 = read_spec (mg_buffer m) log i.
Proof.
  intros Hr Hb. split_and!; [apply update_no_tmp|by apply update_wrong_index| |by intros; apply reads_spec].
  intros Ht Hw Hne Hx.
  destruct (update_rep m fs log x tmp) as (m' & fs' & Hu & Hr' & _ & Hbuf & Hf & _); try done.
  assert (Dict.mem (zlen log) (mg_buffer m') = true) as Hmem.
  { rewrite Hbuf. unfold Dict.mem. by rewrite Dict.get_set_eq. }
  destruct (by_index_rep m' fs' (log ++ [x]) (zlen log) x Hr') as (m'' & Hby & _).
  { apply zlen_nonneg. }
  { unfold zlen. by rewrite Nat2Z.id, lookup_app_r, Nat.sub_diag by done. }
  { by left. }
  exists m', fs', m''. split_and!; try done.
  - rewrite Hf, lookup_insert_ne by (symmetry; apply Hne). apply lookup_delete_eq.
  - rewrite (acquire_produced_rep _ _ _ Hr'), zlen_app, zlen_cons. done.
Qed.

(** C20.  A restarted manager finds, by binary search over the meta files,
    exactly the log that the previous manager had stored. *)
Theorem store_survives_restart m fs log :
  rep m fs log →
  gf_exists (data_block_dir_wrap m) fs = true →
  gf_is_directory (data_block_dir_wrap m) fs = true →
  ∃ m', new_manager (mg_partition_id m) (mg_dir m) (mg_source m) fs = (Ret m', fs) ∧
        rep m' fs log ∧ mg_buffer m' = [] ∧ same_names m m'.
Proof.
  intros Hr He Hd.
  destruct (new_manager_rep (mg_partition_id m) (mg_dir m) (mg_source m) fs log)
    as (m' & Hn & Hr' & Hb & ? & ? & ?); try done; try apply Hr.
  exists m'. by split_and!.
Qed.

(** A save interrupted before or after the rename of its temporary file
    is settled by the next synchronisation: the log is the old one when the
    meta file is absent, and has the new meta when it is present. *)
Theorem interrupted_save_is_settled m fs log log' :
  mg_saved m = Some (zlen log - 1) → mg_saving m = Some (zlen log) → zlen log < 2 ^ 53 →
  (log' = log ∧ rep (set_saving None m) fs log' ∨
   (∃ x, log' = log ++ [x]) ∧
     rep (set_saving None (set_saved (Some (zlen log)) m)) fs log') →
  ∃ m', sync_saved_data_block_index (m, fs) = (Ret tt, (m', fs)) ∧ rep m' fs log'.
Proof.
  intros Hsd Hsg Hb [[-> Hr]|[[x ->] Hr]].
  - exists (set_saving None m). by rewrite (sync_interrupted m fs log).
  - exists (set_saving None (set_saved (Some (zlen log)) m)).
    by rewrite (sync_interrupted_after_rename m fs log x).
Qed.
End properties.

Section witnesses.
Import TestUtils TestStore.

Lemma store_appends_witness :
  let tmp := tmp_path "blocks" 0 0 0 in
  let fs := mkMemFs (<[tmp := meta_file (meta_at 0)]> ∅) (mf_dirs fs0) in
  (∃ m' fs' m'',
    update_data_block_meta tmp (meta_at 0) (mgr0, fs)
      = (Ret (meta_path "blocks" "src" 0 0), (m', fs')) ∧
    rep m' fs' [meta_at 0] ∧ gf_files fs' !! tmp = None ∧
    acquire_produced_data_block_number (m', fs') = (Ret 1, (m', fs')) ∧
    acquire_data_block_meta_by_index 0 (m', fs') = (Ret (Some (meta_at 0)), (m'', fs'))) ∧
  update_data_block_meta tmp (meta_at 1) (mgr0, fs) = (raise IndexError, (mgr0, fs)) ∧
  (acquire_data_block_meta_by_index 2 (mgr_with 3 [], fs_of 3)).1 = Ret (Some (meta_at 2)) ∧
  (acquire_data_block_meta_by_index 1024
     (mgr_with 1025 ((λ i, (Z.of_nat i, meta_at i)) <$> seq 0 1024), fs_of 1025)).1 = raise KeyError.
Proof.
  intros tmp fs.
  assert (rep mgr0 fs []) as Hr.
  { apply (rep_frame mgr0 (fs_of 0)); [by apply (rep_of 0 0)| |done].
    intros i. simpl. rewrite lookup_insert_ne; [done|]. apply tmp_path_ne_meta. }
  split_and!.
  - apply (store_appends mgr0 fs [] (meta_at 0) tmp); [exact Hr|done|apply lookup_insert_eq|
      by apply (fresh_writable "blocks" 0)|intros i; apply tmp_path_ne_meta|done].
  - apply (store_appends mgr0 fs [] (meta_at 1) tmp); [exact Hr|done|by vm_compute|done].
  - destruct (store_appends (mgr_with 3 []) (fs_of 3) (log_of 3) (meta_at 0) tmp) as (_ & _ & _ & Hread);
      [apply (rep_of 3 0); lia|done|]. rewrite Hread. reflexivity.
  - destruct (store_appends (mgr_with 1025 ((λ i, (Z.of_nat i, meta_at i)) <$> seq 0 1024)) (fs_of 1025)
      (log_of 1025) (meta_at 0) tmp) as (_ & _ & _ & Hread); [apply (rep_of 1025 1024); lia|done|].
    rewrite Hread. vm_compute. reflexivity.
Defined.

Lemma store_survives_restart_witness :
  ∃ m', new_manager 0 "blocks" "src" (fs_of 3) = (Ret m', fs_of 3) ∧
        rep m' (fs_of 3) (log_of 3) ∧ mg_buffer m' = [] ∧ same_names (mgr_with 3 []) m'.
Proof.
  apply (store_survives_restart (mgr_with 3 []) (fs_of 3) (log_of 3)).
  - apply (rep_of 3 0); lia.
  - reflexivity.
  - reflexivity.
Defined.

Lemma interrupted_save_is_settled_witness :
  ∃ m', sync_saved_data_block_index (set_saving (Some 2) (mgr_with 2 []), fs_of 3)
          = (Ret tt, (m', fs_of 3)) ∧ rep m' (fs_of 3) (log_of 3).
Proof.
  apply (interrupted_save_is_settled _ (fs_of 3) (log_of 2)).
  - reflexivity.
  - reflexivity.
  - reflexivity.
  - right. split; [by exists (meta_at 2)|]. apply (rep_of 3 0); lia.
Defined.
End witnesses.
