(* ===== verification/RawData.v ===== *)
(** * Raw data: data_iterator.py, tf_data_iterator.py, raw_data_loader.py

    The raw records of one partition are read into memory as an
    insertion-ordered dictionary from example id to record. *)

From stdpp Require Import base tactics list gmap strings.
From Stdlib Require Import ZArith Lia.
From S2P Require Import Prelude PyStd Messages Env.

Open Scope Z_scope.

(** config.py *)
Definition Invalid_EventTime : Z := -8223372020784275321.

(** An example id as the code handles it: the [bytes] of a record, or the
    [str] [Invalid_ExampleId]; a [bytes] never equals a [str]. *)
Inductive pyid :=
  | PyBytes (b : string)
  | PyStr (s : string).
#[export] Instance pyid_eq_dec : EqDecision pyid.
Proof. solve_decision. Defined.
#[export] Instance pyid_countable : Countable pyid.
Proof.
  refine (inj_countable' (λ i, match i with PyBytes b => inl b | PyStr s => inr s end)
            (λ s, match s with inl b => PyBytes b | inr s => PyStr s end) _).
  by intros [].
Defined.
Definition Invalid_ExampleId : pyid := PyStr "".

(** ** tf.train.Example *)
Inductive feature :=
  | BytesList (l : list string)
  | Int64List (l : list Z)
  | FloatList
  | FeatureNotSet.

(** [tf.train.Example.ParseFromString]: the features by name; an absent name
    reads as the default feature. *)
Class TFExample := { parse_example : string → option (string → feature) }.

(** [traceback.print_exc(str(e))]: the first parameter is [limit], an int; a
    [str] is compared with 0 and the comparison raises. *)
Definition print_exc_with_str : outcome unit := raise TypeError.

Section item.
Context `{TFExample}.

(** [TfRecordDataItemParser]: the record and the memoised fields. *)
Record item_parser := mkItem {
  it_record : string;
  it_example : option (string → feature);
  it_example_id : option pyid;
  it_event_time : option Z;
}.
Definition new_item (r : string) : item_parser := mkItem r None None None.

Definition example_parser : M item_parser (string → feature) := λ p,
  match it_example p with
  | Some e => (Ret e, p)
  | None =>
      match parse_example (it_record p) with
      | Some e => (Ret e, mkItem (it_record p) (Some e) (it_example_id p) (it_event_time p))
      | None => (raise ParseError, p)
      end
  end.

Definition set_event_time (t : Z) : M item_parser unit :=
  modify (λ p, mkItem (it_record p) (it_example p) (it_example_id p) (Some t)).
Definition set_example_id (i : pyid) : M item_parser unit :=
  modify (λ p, mkItem (it_record p) (it_example p) (Some i) (it_event_time p)).

(** [value[0]] of a repeated field *)
Definition first_value {A} (l : list A) : outcome A :=
  match l with [] => raise IndexError | x :: _ => Ret x end.

Definition event_time : M item_parser (option Z) :=
  cached ← gets it_event_time;
  (match cached with
   | Some _ => mret tt
   | None =>
       catchM
         (feats ← example_parser;
          (match feats "event_time" with
           | Int64List l => t ← liftO (first_value l); set_event_time t
           | _ => mret tt
           end);;
          (match feats "event_time" with
           | BytesList l => b ← liftO (first_value l); t ← liftO (Str.to_int b);
                            set_event_time t
           | _ => mret tt
           end))
         (λ _, liftO print_exc_with_str;; set_event_time Invalid_EventTime)
   end);;
  gets it_event_time.

Definition example_id : M item_parser (option pyid) :=
  cached ← gets it_example_id;
  (match cached with
   | Some _ => mret tt
   | None =>
       catchM
         (feats ← example_parser;
          match feats "example_id" with
          | BytesList l => b ← liftO (first_value l); set_example_id (PyBytes b)
          | _ => raiseM IndexError
          end)
         (λ _, liftO print_exc_with_str;; set_example_id Invalid_ExampleId)
   end);;
  gets it_example_id.

(** What the properties answer on a freshly read record. *)
Definition event_time_of (r : string) : outcome (option Z) := (event_time (new_item r)).1.
Definition example_id_of (r : string) : outcome (option pyid) := (example_id (new_item r)).1.
End item.

(** ** Iterators *)

(** The metaclass registry of data_iterator.py. *)
Inductive iterator_class := DataIterator | TfRecordDataIterator.
Definition iterator_name (c : iterator_class) : string :=
  match c with
  | DataIterator => "BASE_DATA_ITERATOR"
  | TfRecordDataIterator => "TF_RECORD_ITERATOR"
  end.
Definition iterator_registry : list (string * iterator_class) :=
  [(iterator_name DataIterator, DataIterator);
   (iterator_name TfRecordDataIterator, TfRecordDataIterator)].

Definition build_iterator (opts : RawDataOptions) : outcome iterator_class :=
  match Dict.get (raw_data_iter opts) iterator_registry with
  | Some c => Ret c
  | None => Stop (Exit (-1))
  end.

Section loader.
Context {F : Type} `{GFile F} `{Utils} `{TFExample}.

(** [reset_data_iterator(path)]: the first record and the records left.  The
    base class's [_reset_data_iterator] takes no path: the call is a
    [TypeError]. *)
Definition reset_data_iterator (c : iterator_class) (path : string)
    : M F (option (string * list string)) :=
  match c with
  | DataIterator => raiseM TypeError
  | TfRecordDataIterator =>
      if bool_decide (path = "") then mret None
      else
        rs ← tfr_read path;
        match rs with
        | [] => raiseM StopIteration
        | r :: rs' => mret (Some (r, rs'))
        end
  end.

Record loader := mkLoader {
  rd_dir : string;
  rd_options : RawDataOptions;
  rd_mode : string;
  rd_local_dir : string;
  rd_all_fpath : list string;
  rd_item_dict : list (pyid * string);
  rd_stale : bool;
}.

Definition rd_set_items d (l : loader) : loader :=
  mkLoader (rd_dir l) (rd_options l) (rd_mode l) (rd_local_dir l) (rd_all_fpath l) d (rd_stale l).

(** [item_dict[item.example_id] = item], the id being evaluated first. *)
Definition store_item (r : string) (d : list (pyid * string)) : outcome (list (pyid * string)) :=
  i ← example_id_of r;
  match i with
  | Some i => Ret (Dict.set i r d)
  | None => raise TypeError
  end.

(** [if first_item.example_id != Invalid_ExampleId: item_dict[...] = item] *)
Definition store_if_first_valid (first r : string) (d : list (pyid * string))
    : outcome (list (pyid * string)) :=
  i ← example_id_of first;
  if decide (i = Some Invalid_ExampleId) then Ret d else store_item r d.

Fixpoint store_rest (first : string) (rs : list string) (d : list (pyid * string))
    : outcome (list (pyid * string)) :=
  match rs with
  | [] => Ret d
  | r :: rs' => d' ← store_if_first_valid first r d; store_rest first rs' d'
  end.

Definition load_file (opts : RawDataOptions) (path : string) (d : list (pyid * string))
    : M F (list (pyid * string)) :=
  c ← liftO (build_iterator opts);
  got ← reset_data_iterator c path;
  match got with
  | None => raiseM AttributeError
  | Some (first, rest) =>
      d1 ← liftO (store_if_first_valid first first d);
      liftO (store_rest first rest d1)
  end.

Fixpoint load_files (opts : RawDataOptions) (paths : list string) (d : list (pyid * string))
    : M F (list (pyid * string)) :=
  match paths with
  | [] => mret d
  | p :: ps => d' ← load_file opts p d; load_files opts ps d'
  end.

Definition load_raw_data_to_mem (opts : RawDataOptions) (paths : list string)
    : M F (list (pyid * string)) :=
  assertM (negb (bool_decide (paths = [])));;
  d ← load_files opts paths [];
  assertM (negb (bool_decide (d = [])));;
  mret d.

Definition encode_local_raw_data_dir (dir mode : string) (uuid : nat) : string :=
  if bool_decide (mode = "local") then dir else Str.path_join "/tmp" (uuid1 uuid).

Definition preload_raw_data_file_path (dir mode local_dir : string) : M F (list string) :=
  (if bool_decide (mode = "distribute") then
     ex ← gets (gf_exists local_dir);
     (if (ex : bool) then mret tt else modify (gf_make_dirs local_dir));;
     modify (hadoop_get dir local_dir)
   else mret tt);;
  names ← gf_list_directory local_dir;
  fs ← getM;
  mret (py_sort Str.leb
          (filter (λ p, gf_is_directory p fs = false)
                  (Str.path_join local_dir <$> names))).

(** [RawDataLoader(raw_data_dir, raw_data_options, mode)] *)
Definition new_loader (dir : string) (opts : RawDataOptions) (mode : string) (uuid : nat)
    : M F loader :=
  let local_dir := encode_local_raw_data_dir dir mode uuid in
  paths ← preload_raw_data_file_path dir mode local_dir;
  d ← load_raw_data_to_mem opts paths;
  mret (mkLoader dir opts mode local_dir paths d true).
End loader.

(** ** InitRawDataLoading *)
Record init_loading := mkInit {
  il_loader : loader;
  il_partition_finished : bool;
  il_follower_finished : bool;
  il_stale_with_sender : bool;
  il_partition_id : Z;
}.
Definition new_init_loading (l : loader) (pid : Z) : init_loading :=
  mkInit l false false true pid.
Definition il_item_dict (i : init_loading) : list (pyid * string) := rd_item_dict (il_loader i).
Definition il_set_partition_finished b (i : init_loading) : init_loading :=
  mkInit (il_loader i) b (il_follower_finished i) (il_stale_with_sender i) (il_partition_id i).
Definition il_set_follower_finished b (i : init_loading) : init_loading :=
  mkInit (il_loader i) (il_partition_finished i) b (il_stale_with_sender i) (il_partition_id i).
Definition acquire_stale_with_sender (i : init_loading) : init_loading :=
  mkInit (il_loader i) (il_partition_finished i) (il_follower_finished i) true (il_partition_id i).
Definition release_stale_with_sender (i : init_loading) : init_loading :=
  mkInit (il_loader i) (il_partition_finished i) (il_follower_finished i) false (il_partition_id i).

(** ** Properties of the items *)
Section item_lemmas.
Context `{TFExample}.

(** The id a well-formed record carries. *)
Definition record_id (r : string) : option string :=
  match parse_example r with
  | Some feats => match feats "example_id" with BytesList (b :: _) => Some b | _ => None end
  | None => None
  end.

Lemma example_id_of_spec r :
  example_id_of r = match record_id r with
                    | Some b => Ret (Some (PyBytes b))
                    | None => raise TypeError
                    end.
Proof.
  unfold example_id_of, example_id, record_id, example_parser. mrun.
  destruct (parse_example r) as [feats|]; mrun; [|done].
  destruct (feats "example_id") as [[|b l]|?| |]; mrun; done.
Qed.

(** The event time a record carries: an [int64_list] first, then the decimal
    text of a [bytes_list]; [None] when neither is set. *)
Definition record_time (r : string) : option (option Z) :=
  match parse_example r with
  | Some feats =>
      match feats "event_time" with
      | Int64List (t :: _) => Some (Some t)
      | BytesList (b :: _) => match Str.to_int b with Ret t => Some (Some t) | _ => None end
      | Int64List [] | BytesList [] => None
      | _ => Some None
      end
  | None => None
  end.

Lemma event_time_of_spec r :
  event_time_of r = match record_time r with
                    | Some t => Ret t
                    | None => raise TypeError
                    end.
Proof.
  unfold event_time_of, event_time, record_time, example_parser. mrun.
  destruct (parse_example r) as [feats|]; mrun; [|done].
  destruct (feats "event_time") as [[|b l]|[|t l]| |] eqn:E; mrun; rewrite ?E; mrun; try done.
  by destruct (Str.to_int_cases b) as [[z ->]| ->]; mrun.
Qed.

(** A parser in use: its memoised fields are what the properties computed. *)
Record coherent (p : item_parser) : Prop := mkCoherent {
  coh_example e : it_example p = Some e → parse_example (it_record p) = Some e;
  coh_id i : it_example_id p = Some i → example_id_of (it_record p) = Ret (Some i);
  coh_time t : it_event_time p = Some t → event_time_of (it_record p) = Ret (Some t);
}.

Lemma new_item_coherent r : coherent (new_item r).
Proof. by split. Qed.

Lemma example_parser_coherent p :
  coherent p →
  match example_parser p with
  | (Ret e, p') => parse_example (it_record p) = Some e ∧ coherent p' ∧
                   p' = mkItem (it_record p) (Some e) (it_example_id p) (it_event_time p)
  | (Stop r, p') => parse_example (it_record p) = None ∧ r = Raise ParseError ∧ p' = p
  end.
Proof.
  intros Hc. destruct p as [r [e|] i t]; unfold example_parser; simpl.
  - split_and!; [by apply (coh_example _ Hc)|done|done].
  - destruct (parse_example r) as [e|] eqn:Ep; [|done].
    split_and!; [done| |done]. destruct Hc as [He Hi Ht]. split; simpl in *; [|done|done].
    intros e' He'. by simplify_eq.
Qed.

Lemma example_id_coherent p :
  coherent p →
  (example_id p).1 = example_id_of (it_record p) ∧ coherent (example_id p).2 ∧
  it_record (example_id p).2 = it_record p.
Proof.
  intros Hc. pose proof (example_parser_coherent p Hc) as Hp.
  unfold example_id. mrun. destruct (it_example_id p) as [i|] eqn:E; mrun.
  { rewrite E. split_and!; [|done|done]. symmetry. by apply Hc. }
  rewrite example_id_of_spec. unfold record_id.
  destruct (example_parser p) as [[e|r] p'].
  - destruct Hp as (He & Hc' & ->). rewrite He.
    destruct (e "example_id") as [[|b l]|?| |] eqn:Ee; mrun; try (by split_and!).
    split_and!; [done| |done]. split; simpl; [|intros ? [= <-]|apply Hc].
    + intros ? [= <-]. done.
    + rewrite example_id_of_spec. unfold record_id. by rewrite He, Ee.
  - destruct Hp as (He & -> & ->). rewrite He. mrun. by split_and!.
Qed.
End item_lemmas.

(** ** Properties of loading *)
Section loader_lemmas.
Context {F : Type} `{GFileLaws F} `{Utils} `{TFExample}.

(** The dictionary of a sequence of well-formed records: the last record of
    an id is kept, at the place of the first. *)
Definition index_record (d : list (pyid * string)) (r : string) : list (pyid * string) :=
  match record_id r with
  | Some b => Dict.set (PyBytes b) r d
  | None => d
  end.
Definition index_records (rs : list string) (d : list (pyid * string)) :=
  foldl index_record d rs.

Lemma index_records_app rs rs' d :
  index_records (rs ++ rs') d = index_records rs' (index_records rs d).
Proof. apply foldl_app. Qed.

Lemma index_records_NoDup rs d :
  NoDup (Dict.keys d) → NoDup (Dict.keys (index_records rs d)).
Proof.
  revert d. induction rs as [|r rs IH]; intros d Hd; simpl; [done|]. apply IH.
  unfold index_record. case_match; [by apply Dict.set_NoDup|done].
Qed.

Lemma index_records_get rs d b :
  Dict.get (PyBytes b) (index_records rs d)
  = match last (filter (λ r, record_id r = Some b) rs) with
    | Some r => Some r
    | None => Dict.get (PyBytes b) d
    end.
Proof.
  induction rs as [|r rs IH] using rev_ind; [done|].
  rewrite index_records_app, filter_app, last_app. simpl. unfold index_record at 1.
  rewrite filter_cons, filter_nil.
  destruct (record_id r) as [b'|] eqn:E.
  - rewrite Dict.get_set. case_decide as Hb.
    + simplify_eq. rewrite decide_True by done. done.
    + rewrite decide_False by congruence. done.
  - rewrite decide_False by done. done.
Qed.

Lemma index_records_not_nil r rs d :
  record_id r ≠ None → index_records (r :: rs) d ≠ [].
Proof.
  intros Hr Hnil. destruct (record_id r) as [b|] eqn:Eb; [|done].
  pose proof (index_records_get (r :: rs) d b) as Hg. rewrite Hnil in Hg.
  rewrite filter_cons, decide_True in Hg by done.
  destruct (last (r :: _)) eqn:E in Hg; [done|]. by apply last_None in E.
Qed.

Lemma store_if_valid first r d :
  record_id first ≠ None → record_id r ≠ None →
  store_if_first_valid first r d = Ret (index_record d r).
Proof.
  unfold store_if_first_valid, store_item, index_record.
  rewrite !example_id_of_spec. intros Hf Hr.
  destruct (record_id first); [|done]. destruct (record_id r); [|done].
  rewrite !bind_Ret. by case_decide.
Qed.

Lemma store_rest_valid first rs d :
  record_id first ≠ None → Forall (λ r, record_id r ≠ None) rs →
  store_rest first rs d = Ret (index_records rs d).
Proof.
  intros Hf Hall. revert d. induction Hall as [|r rs Hr Hall IH]; intros d; [done|].
  simpl. rewrite store_if_valid by done. simpl. apply IH.
Qed.

Lemma store_rest_malformed first rs1 r rs2 d :
  record_id first ≠ None → Forall (λ r, record_id r ≠ None) rs1 → record_id r = None →
  store_rest first (rs1 ++ r :: rs2) d = raise TypeError.
Proof.
  intros Hf Hall Hr. revert d. induction Hall as [|r1 rs1 Hr1 Hall IH]; intros d; simpl.
  - unfold store_if_first_valid, store_item. rewrite !example_id_of_spec, Hr.
    destruct (record_id first); [|done]. rewrite bind_Ret. by case_decide.
  - rewrite store_if_valid by done. simpl. apply IH.
Qed.

Definition tf_record (opts : RawDataOptions) : Prop :=
  raw_data_iter opts = "TF_RECORD_ITERATOR".

Lemma build_iterator_tf opts : tf_record opts → build_iterator opts = Ret TfRecordDataIterator.
Proof. unfold build_iterator. by intros ->. Qed.

Lemma load_file_valid opts p r rs (fs : F) d :
  tf_record opts → p ≠ "" → tfr_read p fs = (Ret (r :: rs), fs) →
  Forall (λ r, record_id r ≠ None) (r :: rs) →
  load_file opts p d fs = (Ret (index_records (r :: rs) d), fs).
Proof.
  intros Ho Hp Hread [Hr Hall]%Forall_cons. unfold load_file.
  rewrite build_iterator_tf by done. unfold reset_data_iterator.
  rewrite (bool_decide_false (p = "")) by done.
  mrun. rewrite Hread. mrun. rewrite store_if_valid by done. mrun.
  by rewrite store_rest_valid.
Qed.

Lemma load_files_valid opts (files : list (string * list string)) (fs : F) d :
  tf_record opts →
  Forall (λ pr, pr.1 ≠ "" ∧ tfr_read pr.1 fs = (Ret pr.2, fs) ∧ pr.2 ≠ [] ∧
                Forall (λ r, record_id r ≠ None) pr.2) files →
  load_files opts files.*1 d fs = (Ret (index_records (concat files.*2) d), fs).
Proof.
  intros Ho Hall. revert d. induction Hall as [|[p rs] files (Hp & Hread & Hne & Hv) Hall IH];
    intros d; [done|]. destruct rs as [|r rs]; [done|].
  simpl load_files. rewrite run_bind, (load_file_valid _ _ r rs) by done.
  rewrite IH. simpl concat. by rewrite <- index_records_app.
Qed.
End loader_lemmas.

(** An id that the items know, and the record they hold for it. *)
Definition known (items : list (pyid * string)) (id : string) : bool :=
  Dict.mem (PyBytes id) items.
Definition record_of (items : list (pyid * string)) (id : string) : string :=
  default "" (Dict.get (PyBytes id) items).

Lemma known_get items id :
  known items id = true → Dict.get (PyBytes id) items = Some (record_of items id).
Proof. unfold known, record_of. intros Hk. by apply Dict.mem_get in Hk as [r ->]. Qed.

(** The event time of a record that has one. *)
Definition record_event_time `{TFExample} (r : string) : Z :=
  match event_time_of r with Ret (Some t) => t | _ => 0 end.
Definition has_event_time `{TFExample} (r : string) : Prop :=
  ∃ t, event_time_of r = Ret (Some t) ∧ in_int64 t = true.

Lemma has_event_time_get `{TFExample} r :
  has_event_time r →
  event_time_of r = Ret (Some (record_event_time r)) ∧ in_int64 (record_event_time r) = true.
Proof. unfold record_event_time. by intros (t & -> & Ht). Qed.

(** Records that are their own example id, with their length as event time;
    the empty record does not parse. *)
Module TestRecords.
#[export] Instance test_example : TFExample := {
  parse_example r :=
    if bool_decide (r = "") then None
    else Some (λ name, if bool_decide (name = "example_id") then BytesList [r]
                       else if bool_decide (name = "event_time")
                       then Int64List [Z.of_nat (String.length r)]
                       else FeatureNotSet)
}.
Definition tf_options : RawDataOptions := mkRawOpt "TF_RECORD_ITERATOR" "".
Definition two_files : MemFs :=
  mkMemFs (<["raw/a" := ["x"; "y"]]> (<["raw/b" := ["z"; "x"]]> ∅)) {["raw"]}.
End TestRecords.

(** ** Properties *)
Section properties.
Context {F : Type} `{GFileLaws F} `{Utils} `{TFExample}.

(** Loading well-formed files indexes every record: the dictionary has no
    duplicate key, and an example id reads the last record that carries it in
    the order of the files and of the records in them. *)
Theorem loader_indexes_records opts (files : list (string * list string)) (fs : F) :
  tf_record opts → files ≠ [] →
  Forall (λ pr, pr.1 ≠ "" ∧ tfr_read pr.1 fs = (Ret pr.2, fs) ∧ pr.2 ≠ [] ∧
                Forall (λ r, record_id r ≠ None) pr.2) files →
  ∃ d, load_raw_data_to_mem opts files.*1 fs = (Ret d, fs) ∧
    NoDup (Dict.keys d) ∧
    ∀ b, Dict.get (PyBytes b) d
         = last (filter (λ r, record_id r = Some b) (concat files.*2)).
Proof.
  intros Ho Hne Hall. exists (index_records (concat files.*2) []). split_and!.
  - unfold load_raw_data_to_mem. rewrite run_bind.
    rewrite (bool_decide_false (files.*1 = [])) by (by destruct files).
    simpl. rewrite run_bind, load_files_valid by done. rewrite run_bind.
    rewrite bool_decide_false; [done|].
    destruct files as [|[p rs] files]; [done|]. apply Forall_cons in Hall as [(_ & _ & Hr & Hv) _].
    destruct rs as [|r rs]; [done|]. apply Forall_cons in Hv as [Hv _]. simpl in *.
    by apply index_records_not_nil.
  - apply index_records_NoDup, NoDup_nil_2.
  - intros b. rewrite index_records_get. by destruct (last _).
Qed.

(** A record without a readable id stops the load of its file with a
    [TypeError]: the handler meant to give it the invalid id raises itself. *)
Theorem malformed_record_stops_load opts path r rs1 bad rs2 (fs : F) d :
  tf_record opts → path ≠ "" →
  tfr_read path fs = (Ret (r :: rs1 ++ bad :: rs2), fs) →
  Forall (λ r, record_id r ≠ None) (r :: rs1) → record_id bad = None →
  load_file opts path d fs = (raise TypeError, fs).
Proof.
  intros Ho Hp Hread [Hr Hall]%Forall_cons Hbad. unfold load_file.
  rewrite build_iterator_tf by done. unfold reset_data_iterator.
  rewrite (bool_decide_false (path = "")) by done.
  mrun. rewrite Hread. mrun. rewrite store_if_valid by done. mrun.
  by rewrite store_rest_malformed.
Qed.
End properties.

Section witnesses.
Import TestUtils TestRecords.

Lemma loader_indexes_records_witness :
  ∃ d, load_raw_data_to_mem tf_options ["raw/a"; "raw/b"] two_files = (Ret d, two_files) ∧
    NoDup (Dict.keys d) ∧
    ∀ b, Dict.get (PyBytes b) d
         = last (filter (λ r, record_id r = Some b) ["x"; "y"; "z"; "x"]).
Proof.
  apply (loader_indexes_records tf_options [("raw/a", ["x"; "y"]); ("raw/b", ["z"; "x"])]).
  - reflexivity.
  - discriminate.
  - repeat (apply Forall_cons_2 || apply Forall_nil_2); split_and!;
      try discriminate; try (vm_compute; reflexivity);
      repeat (apply Forall_cons_2 || apply Forall_nil_2); vm_compute; discriminate.
Defined.

Lemma malformed_record_stops_load_witness :
  let fs := mkMemFs (<["raw/a" := ["x"; ""; "y"]]> ∅) {["raw"]} in
  load_file tf_options "raw/a" [] fs = (raise TypeError, fs).
Proof.
  intros fs. apply (malformed_record_stops_load tf_options "raw/a" "x" [] "" ["y"] fs []).
  - reflexivity.
  - discriminate.
  - vm_compute. reflexivity.
  - repeat (apply Forall_cons_2 || apply Forall_nil_2). vm_compute. discriminate.
  - reflexivity.
Defined.
End witnesses.
