(* ===== verification/DataIterators.v ===== *)
(** * The iterators over raw data as objects

    data_iterator.py and tf_data_iterator.py with their state: the base class, the
    generator that reads a file when it is first asked, and the [for] loop of the
    loader over it.  [RawData] reads a file at once; the two agree. *)

From stdpp Require Import base tactics list gmap strings.
From Stdlib Require Import ZArith Lia.
From S2P Require Import Prelude PyStd Messages Env RawData.
Open Scope Z_scope.

(** A generator object of [_data_iterator_factory]: it has not run yet, it waits at
    its [yield] with the records left, or it has ended. *)
Inductive generator :=
  | Suspended (file_path : string)
  | Yielded (left : list string)
  | Finished.

Section iterator.
Context {F : Type} `{GFile F} `{TFExample}.

(** [next(generator)] *)
Definition resume (rs : list string) (fs : F) : outcome item_parser * (generator * F) :=
  match rs with
  | [] => (raise StopIteration, (Finished, fs))
  | r :: rs' => (Ret (new_item r), (Yielded rs', fs))
  end.
Definition generator_next : M (generator * F) item_parser := λ s,
  match s.1 with
  | Suspended file_path =>
      match tfr_read file_path s.2 with
      | (Ret rs, fs) => resume rs fs
      | (Stop e, fs) => (Stop e, (Finished, fs))
      end
  | Yielded rs => resume rs s.2
  | Finished => (raise StopIteration, s)
  end.

(** [DataIterator]: the class of the object and its attributes. *)
Record data_iterator := mkIterator {
  di_class : iterator_class;
  di_data_iterator : option generator;
  di_data_path : option string;
  di_data_item : option item_parser;
  di_options : RawDataOptions;
}.
Definition new_iterator (c : iterator_class) (options : RawDataOptions) : data_iterator :=
  mkIterator c None None None options.
Definition di_set_iterator g (i : data_iterator) : data_iterator :=
  mkIterator (di_class i) g (di_data_path i) (di_data_item i) (di_options i).
Definition di_set_path p (i : data_iterator) : data_iterator :=
  mkIterator (di_class i) (di_data_iterator i) p (di_data_item i) (di_options i).
Definition di_set_item x (i : data_iterator) : data_iterator :=
  mkIterator (di_class i) (di_data_iterator i) (di_data_path i) x (di_options i).

Abbreviation S_ := (data_iterator * F)%type.
Definition on_iterator (f : data_iterator → data_iterator) : M S_ unit :=
  modify (λ s, (f s.1, s.2)).
Definition get_iterator : M S_ data_iterator := gets fst.
Definition in_fs {A} (c : M F A) : M S_ A := zoom snd (λ fs s, (s.1, fs)) c.

(** [_reset_data_iterator(data_path)]: the base class's takes no path.  The generator
    and the first item, or twice [None]. *)
Definition reset_generator (data_path : string) : M S_ (option generator * option item_parser) :=
  i ← get_iterator;
  match di_class i with
  | DataIterator => raiseM TypeError
  | TfRecordDataIterator =>
      if bool_decide (data_path = "") then mret (None, None)
      else λ s,
        match generator_next (Suspended data_path, s.2) with
        | (Ret first_item, (g, fs)) => (Ret (Some g, Some first_item), (s.1, fs))
        | (Stop e, (_, fs)) => (Stop e, (s.1, fs))
        end
  end.
Definition reset_data_iterator (data_path : string) : M S_ (option item_parser) :=
  on_iterator (λ i, di_set_path None (di_set_iterator None (di_set_item None i)));;
  '(g, item) ← reset_generator data_path;
  on_iterator (λ i, di_set_item item (di_set_iterator g i));;
  on_iterator (di_set_path (Some data_path));;
  mret item.

(** A generator object is always true. *)
Definition visit_next_item : M S_ item_parser :=
  i ← get_iterator;
  match di_class i with
  | DataIterator => raiseM NotImplementedError
  | TfRecordDataIterator =>
      match di_data_iterator i with
      | None => raiseM AssertionError
      | Some g => λ s,
          match generator_next (g, s.2) with
          | (o, (g', fs)) => (o, (di_set_iterator (Some g') s.1, fs))
          end
      end
  end.
Definition next_item : M S_ item_parser :=
  item ← visit_next_item;
  on_iterator (di_set_item (Some item));;
  mret item.

(** [for item in iterator: body]; the iterator is its own iterator.  Only the
    iterator's own [StopIteration] ends the loop. *)
Fixpoint for_items {A} (fuel : nat) (body : A → item_parser → outcome A) (acc : A) : M S_ A :=
  match fuel with
  | O => stopM NoFuel
  | S fuel' => λ s,
      match next_item s with
      | (Ret item, s') => (acc' ← liftO (body acc item); for_items fuel' body acc') s'
      | (Stop (Raise StopIteration), s') => (Ret acc, s')
      | (Stop e, s') => (Stop e, s')
      end
  end.

(** The properties of the base class's item. *)
Definition base_record : outcome string := raise NotImplementedError.
Definition base_event_time : outcome (option Z) := raise NotImplementedError.
Definition base_example_id : outcome (option pyid) := raise NotImplementedError.

(** [if first_item.example_id != Invalid_ExampleId: item_dict[item.example_id] = item],
    the objects with their memoised fields; the dictionary is that of [RawData]. *)
Abbreviation items := (item_parser * list (pyid * string))%type.
Definition store_object (acc : items) (item : item_parser) : outcome items :=
  match example_id acc.1 with
  | (Stop e, _) => Stop e
  | (Ret i, first) =>
      if decide (i = Some Invalid_ExampleId) then Ret (first, acc.2)
      else match (example_id item).1 with
           | Stop e => Stop e
           | Ret None => raise TypeError
           | Ret (Some i) => Ret (first, Dict.set i (it_record item) acc.2)
           end
  end.
(** One turn of [_load_raw_data_to_mem]. *)
Definition load_with_iterator (fuel : nat) (opts : RawDataOptions) (path : string)
    (d : list (pyid * string)) : M F (list (pyid * string)) := λ fs,
  match build_iterator opts with
  | Stop e => (Stop e, fs)
  | Ret c =>
      let body : M S_ (list (pyid * string)) :=
        first ← reset_data_iterator path;
        match first with
        | None => raiseM AttributeError
        | Some first_item =>
            acc ← liftO (store_object (first_item, d) first_item);
            acc' ← for_items fuel store_object acc;
            mret acc'.2
        end in
      let r := body (new_iterator c opts, fs) in
      (r.1, r.2.2)
  end.
End iterator.

(** ** Properties *)
Section lemmas.
Context {F : Type} `{GFile F} `{TFExample}.

(** A reset that fails leaves nothing of an earlier file. *)
Lemma failed_reset_forgets path e (s s' : data_iterator * F) :
  reset_data_iterator path s = (Stop e, s') →
  s'.1 = new_iterator (di_class s.1) (di_options s.1).
Proof.
  destruct s as [[c g p x o] fs]. unfold reset_data_iterator, reset_generator, get_iterator, on_iterator.
  rewrite run_bind. cbn [modify]. rewrite !run_bind. cbn [gets]. cbn [fst snd di_class di_set_item
    di_set_iterator di_set_path]. destruct c; [by intros [= <- <-]|].
  case_bool_decide; [done|]. destruct (generator_next _) as [[y|e'] [g' fs']]; [done|].
  by intros [= <- <-].
Qed.

Lemma reset_reads path r rs (i : data_iterator) (fs fs' : F) :
  di_class i = TfRecordDataIterator → path ≠ "" → tfr_read path fs = (Ret (r :: rs), fs') →
  reset_data_iterator path (i, fs)
  = (Ret (Some (new_item r)),
     (mkIterator TfRecordDataIterator (Some (Yielded rs)) (Some path) (Some (new_item r)) (di_options i), fs')).
Proof.
  destruct i as [c g p x o]. cbn. intros -> Hp Hr.
  unfold reset_data_iterator, reset_generator, get_iterator, on_iterator. rewrite run_bind. cbn [modify].
  rewrite !run_bind. cbn [gets fst snd di_class di_set_item di_set_iterator di_set_path].
  rewrite bool_decide_false by done. unfold generator_next. cbn [fst snd]. by rewrite Hr.
Qed.

Lemma next_yields r rs p x o (fs : F) :
  next_item (mkIterator TfRecordDataIterator (Some (Yielded (r :: rs))) p x o, fs)
  = (Ret (new_item r), (mkIterator TfRecordDataIterator (Some (Yielded rs)) p (Some (new_item r)) o, fs)).
Proof. done. Qed.
(** At the end, and however often it is asked after it, the iterator stops and keeps
    its last item. *)
Lemma next_stops g p x o (fs : F) :
  g = Yielded [] ∨ g = Finished →
  next_item (mkIterator TfRecordDataIterator (Some g) p x o, fs)
  = (raise StopIteration, (mkIterator TfRecordDataIterator (Some Finished) p x o, fs)).
Proof. by intros [-> | ->]. Qed.

(** The loop is the fold of its body over the records left. *)
Fixpoint fold_outcome {A B} (f : A → B → outcome A) (acc : A) (l : list B) : outcome A :=
  match l with [] => Ret acc | x :: l' => acc' ← f acc x; fold_outcome f acc' l' end.

Lemma for_items_run {A} fuel (body : A → item_parser → outcome A) acc rs p x o (fs : F) :
  (length rs < fuel)%nat →
  ∃ i, for_items fuel body acc (mkIterator TfRecordDataIterator (Some (Yielded rs)) p x o, fs)
       = (fold_outcome body acc (new_item <$> rs), (i, fs)) ∧
    (∀ r, fold_outcome body acc (new_item <$> rs) = Ret r →
       i = mkIterator TfRecordDataIterator (Some Finished) p
             (match last rs with Some r => Some (new_item r) | None => x end) o).
Proof.
  revert fuel acc x. induction rs as [|r rs IH]; intros [|fuel] acc x Hf; cbn in Hf; try lia;
    cbn [for_items fold_outcome fmap list_fmap].
  - rewrite next_stops by auto. by eexists.
  - rewrite next_yields, run_bind. unfold liftO.
    destruct (body acc (new_item r)) as [acc'|e]; [|by eexists].
    destruct (IH fuel acc' (Some (new_item r)) ltac:(lia)) as (i & Hi & Hl). exists i.
    split; [done|]. intros a Ha. rewrite (Hl a Ha). f_equal. rewrite last_cons. by destruct (last rs).
Qed.

(** The objects store what the records say. *)
Lemma store_object_spec first d item :
  coherent first → coherent item →
  match store_object (first, d) item with
  | Ret (first', d') => coherent first' ∧ it_record first' = it_record first ∧
      store_if_first_valid (it_record first) (it_record item) d = Ret d'
  | Stop e => store_if_first_valid (it_record first) (it_record item) d = Stop e
  end.
Proof.
  intros Hc Hi. unfold store_object, store_if_first_valid, store_item. cbn [fst snd].
  destruct (example_id_coherent first Hc) as (H1 & H2 & H3).
  destruct (example_id_coherent item Hi) as (H4 & _ & _).
  destruct (example_id first) as [[i|e] first']; cbn in H1, H2, H3; rewrite <- H1; [|done].
  rewrite bind_Ret. destruct (decide _); [by split_and!|]. rewrite H4.
  destruct (example_id_of (it_record item)) as [[i'|]|e]; try done.
Qed.

Lemma fold_store first d rs :
  coherent first →
  (acc ← fold_outcome store_object (first, d) (new_item <$> rs); Ret acc.2)
  = store_rest (it_record first) rs d.
Proof.
  revert first d. induction rs as [|r rs IH]; intros first d Hc; [done|].
  cbn [fmap list_fmap fold_outcome store_rest].
  pose proof (store_object_spec first d (new_item r) Hc (new_item_coherent r)) as Hs.
  change (it_record (new_item r)) with r in Hs.
  destruct (store_object _ _) as [[first' d']|e]; [|by rewrite Hs].
  destruct Hs as (Hc' & Hr & ->). rewrite !bind_Ret, <- Hr. by apply IH.
Qed.

(** Loading a file through the iterator is loading all its records, whatever the
    class, the path, the file and the errors on the way. *)
Theorem iterator_loads_the_file fuel opts path d (fs : F) :
  (∀ rs fs', tfr_read path fs = (Ret rs, fs') → (length rs ≤ fuel)%nat) →
  load_with_iterator (S fuel) opts path d fs = load_file opts path d fs.
Proof.
  intros Hfuel. unfold load_with_iterator, load_file. rewrite run_bind. unfold liftO at 3.
  destruct (build_iterator opts) as [c|e]; [|done]. rewrite !run_bind.
  unfold RawData.reset_data_iterator. destruct c; [done|].
  destruct (decide (path = "")) as [->|Hp]; [done|].
  rewrite bool_decide_false by done. rewrite run_bind.
  destruct (tfr_read path fs) as [[rs|e] fs'] eqn:Hr.
  2: { unfold reset_data_iterator, reset_generator, get_iterator, on_iterator. rewrite run_bind.
       cbn [modify]. rewrite !run_bind. cbn [gets fst snd di_class di_set_item di_set_iterator di_set_path new_iterator].
       rewrite bool_decide_false by done. unfold generator_next. cbn [fst snd]. by rewrite Hr. }
  destruct rs as [|r rs].
  { unfold reset_data_iterator, reset_generator, get_iterator, on_iterator. rewrite run_bind.
    cbn [modify]. rewrite !run_bind. cbn [gets fst snd di_class di_set_item di_set_iterator di_set_path new_iterator].
    rewrite bool_decide_false by done. unfold generator_next. cbn [fst snd]. by rewrite Hr. }
  specialize (Hfuel _ _ eq_refl). cbn in Hfuel.
  rewrite (reset_reads path r rs _ fs fs') by done. cbn [mret M_ret]. rewrite !run_bind. unfold liftO.
  pose proof (store_object_spec (new_item r) d (new_item r) (new_item_coherent r) (new_item_coherent r)) as Hs.
  change (it_record (new_item r)) with r in Hs.
  destruct (store_object _ _) as [[first d1]|e]; [|by rewrite Hs].
  destruct Hs as (Hc & Hf & ->). rewrite run_bind.
  destruct (for_items_run (S fuel) store_object (first, d1) rs (Some path) (Some (new_item r)) opts fs')
    as (i & Hi & _); [lia|]. change (di_options (new_iterator TfRecordDataIterator opts)) with opts.
  pose proof (fold_store first d1 rs Hc) as Hfold. rewrite Hf in Hfold.
  change (it_record (new_item r)) with r in Hfold. rewrite Hi, <- Hfold.
  by destruct (fold_outcome store_object (first, d1) (new_item <$> rs)) as [[? ?]|].
Qed.
End lemmas.

Module TestIterators.
Import TestUtils TestRecords.

Example iterator_reads :
  load_with_iterator 2 tf_options "raw/a" [] two_files
  = (Ret [(PyBytes "x", "x"); (PyBytes "y", "y")], two_files).
Proof. by vm_compute. Qed.
(** After the end the iterator stops again, and a reset starts over. *)
Example iterator_starts_over :
  let s := (reset_data_iterator "raw/a";; next_item;; mret tt)
             (new_iterator TfRecordDataIterator tf_options, two_files) in
  (next_item s.2).1 = raise StopIteration ∧
  (reset_data_iterator "raw/b" (next_item s.2).2).1 = Ret (Some (new_item "z")).
Proof. by vm_compute. Qed.
(** The base class cannot be used: its reset is called with an argument too many. *)
Example base_class_is_refused :
  (load_with_iterator 2 (mkRawOpt "BASE_DATA_ITERATOR" "") "raw/a" [] two_files).1 = raise TypeError.
Proof. by vm_compute. Qed.
End TestIterators.
