(* ===== verification/DataBlockMaker.v ===== *)
(** * DataBlockMaker (data_join/data_block_maker.py)

    Writes one data block: the records go to a temporary file, the meta
    collects example ids and the event-time span, and [data_block_finalizer]
    renames both files into place through the [DataBlockManager]. *)

From stdpp Require Import base tactics list gmap strings.
From Stdlib Require Import ZArith Lia.
From S2P Require Import Prelude PyStd Messages Env DataBlockManager.

Open Scope Z_scope.

(** What a process's makers share: the files, the UUIDs drawn, the partition's
    [DataBlockManager], the POSTs made, and [os.environ["MODE"] == "distribute"]. *)
Record world (F : Type) := mkWorld {
  w_fs : F;
  w_uuid : nat;
  w_mgr : manager;
  w_posts : list (string * string);
  w_distribute : bool;
}.
Arguments mkWorld {_}.
Arguments w_fs {_}.
Arguments w_uuid {_}.
Arguments w_mgr {_}.
Arguments w_posts {_}.
Arguments w_distribute {_}.

Definition w_set_fs {F} (fs : F) (w : world F) : world F :=
  mkWorld fs (w_uuid w) (w_mgr w) (w_posts w) (w_distribute w).
Definition w_set_mf {F} (mf : manager * F) (w : world F) : world F :=
  mkWorld mf.2 (w_uuid w) mf.1 (w_posts w) (w_distribute w).
Definition w_next_uuid {F} (w : world F) : world F :=
  mkWorld (w_fs w) (S (w_uuid w)) (w_mgr w) (w_posts w) (w_distribute w).

Record maker := mkMaker {
  mk_source : string;
  mk_has_manager : bool;
  mk_saved_example_num : Z;
  mk_partition_id : Z;
  mk_meta : DataBlockMeta;
  mk_threshold : option Z;
  mk_dir : string;
  mk_tmp_path : string;
  mk_tmp_counter : Z;
  mk_written : list string;
}.

Definition mk_set_meta x (m : maker) : maker :=
  mkMaker (mk_source m) (mk_has_manager m) (mk_saved_example_num m) (mk_partition_id m) x
    (mk_threshold m) (mk_dir m) (mk_tmp_path m) (mk_tmp_counter m) (mk_written m).
Definition mk_set_num x (m : maker) : maker :=
  mkMaker (mk_source m) (mk_has_manager m) x (mk_partition_id m) (mk_meta m)
    (mk_threshold m) (mk_dir m) (mk_tmp_path m) (mk_tmp_counter m) (mk_written m).
Definition mk_set_written x (m : maker) : maker :=
  mkMaker (mk_source m) (mk_has_manager m) (mk_saved_example_num m) (mk_partition_id m)
    (mk_meta m) (mk_threshold m) (mk_dir m) (mk_tmp_path m) (mk_tmp_counter m) x.
Definition mk_set_tmp p c (m : maker) : maker :=
  mkMaker (mk_source m) (mk_has_manager m) (mk_saved_example_num m) (mk_partition_id m)
    (mk_meta m) (mk_threshold m) (mk_dir m) p c (mk_written m).

Section maker.
Context {F : Type} `{GFile F} `{Utils}.
Local Abbreviation W := (world F).
Local Abbreviation S := (maker * world F)%type.

Definition with_fs {A} (c : M F A) : M S A :=
  zoom (λ s : S, w_fs s.2) (λ fs s, (s.1, w_set_fs fs s.2)) c.
Definition with_mgr {A} (c : M (manager * F) A) : M S A :=
  zoom (λ s : S, (w_mgr s.2, w_fs s.2)) (λ mf s, (s.1, w_set_mf mf s.2)) c.
Definition on_maker (f : maker → maker) : M S unit := modify (λ s, (f s.1, s.2)).
Definition on_meta (f : DataBlockMeta → DataBlockMeta) : M S unit :=
  on_maker (λ m, mk_set_meta (f (mk_meta m)) m).

Definition obtain_data_block_dir (m : maker) : string :=
  block_dir (mk_dir m) (mk_partition_id m).

(** Draws a UUID; [self.tmp_file_path_counter] counts the instance's files. *)
Definition make_tmp_file_path : M S string := λ s,
  let '(m, w) := s in
  let name := tmp_name (w_uuid w) (mk_tmp_counter m) in
  let m' := mk_set_tmp (mk_tmp_path m) (mk_tmp_counter m + 1) m in
  (Ret (Str.path_join (obtain_data_block_dir m) name), (m', w_next_uuid w)).

(** [DataBlockMaker(dir, name, partition_id, index, threshold)] *)
Definition new_maker (dir name : string) (pid index : Z) (threshold : option Z) : M W maker := λ w,
  match pb_int64 (Some pid), pb_int64 (Some index) with
  | Ret p, Ret i =>
      let meta := set_follower_restart_index 0
                    (set_data_block_index i (set_partition_id p empty_meta)) in
      let m0 := mkMaker name false 0 pid meta threshold dir "" 0 [] in
      match (path ← make_tmp_file_path;
             on_maker (λ m, mk_set_tmp path (mk_tmp_counter m) m);;
             with_fs (tfr_write path [])) (m0, w) with
      | (Ret _, (m, w')) => (Ret m, w')
      | (Stop r, (_, w')) => (Stop r, w')
      end
  | Stop r, _ => (Stop r, w)
  | _, Stop r => (Stop r, w)
  end.

Definition build_data_block_manager : M S unit :=
  on_maker (λ m, mkMaker (mk_source m) true (mk_saved_example_num m) (mk_partition_id m)
                   (mk_meta m) (mk_threshold m) (mk_dir m) (mk_tmp_path m)
                   (mk_tmp_counter m) (mk_written m)).

Definition init_maker_by_input_meta (meta : DataBlockMeta) : M S unit :=
  on_maker (λ m, mkMaker (mk_source m) (mk_has_manager m) (mk_saved_example_num m)
                   (partition_id meta) meta None (mk_dir m) (mk_tmp_path m)
                   (mk_tmp_counter m) (mk_written m)).

Definition set_restart_data_join_index (i : Z) : M S unit :=
  z ← liftO (pb_int64 (Some i)); on_meta (set_follower_restart_index z).

Definition is_data_block_exceed_threshold (m : maker) : bool :=
  match mk_threshold m with
  | Some t => t <=? zlen (example_ids (mk_meta m))
  | None => false
  end.

Definition write_record (r : string) : M S unit :=
  on_maker (λ m, mk_set_written (mk_written m ++ [r]) m).
Definition count_saved : M S unit :=
  on_maker (λ m, mk_set_num (mk_saved_example_num m + 1) m).

(** The time span of the block; an absent event time cannot be compared or
    assigned. *)
Definition assign_start (t : option Z) : M S unit :=
  z ← liftO (pb_int64 t); on_meta (λ x, set_times z (end_time x) x).
Definition assign_end (t : option Z) : M S unit :=
  z ← liftO (pb_int64 t); on_meta (λ x, set_times (start_time x) z x).
Definition compare_time (cmp : Z → Z → bool) (t : option Z) (bound : DataBlockMeta → Z)
    : M S bool :=
  x ← gets (λ s : S, mk_meta s.1);
  match t with
  | None => raiseM TypeError
  | Some z => mret (cmp z (bound x))
  end.

Definition save (data_record example_id : string) (event_time : option Z) : M S unit :=
  write_record data_record;;
  on_meta (λ x, set_example_ids (example_ids x ++ [example_id]) x);;
  n ← gets (λ s : S, mk_saved_example_num s.1);
  (if n =? 0 then assign_start event_time;; assign_end event_time
   else
     lt ← compare_time Z.ltb event_time start_time;
     (if (lt : bool) then assign_start event_time else mret tt);;
     gt ← compare_time Z.gtb event_time end_time;
     (if (gt : bool) then assign_end event_time else mret tt));;
  count_saved.

Definition save_data_record (r : string) : M S unit :=
  write_record r;; count_saved.

Definition make_data_block_meta : M S string :=
  tmp ← make_tmp_file_path;
  x ← gets (λ s : S, mk_meta s.1);
  with_fs (tfr_write tmp [meta_to_text x]);;
  m ← gets (λ s : S, s.1);
  if mk_has_manager m
  then with_mgr (update_data_block_meta tmp x)
  else
    let path := Str.path_join (obtain_data_block_dir m)
                  (data_block_meta_file_name_wrap (mk_source m) (mk_partition_id m)
                     (data_block_index x)) in
    with_fs (gf_rename tmp path false);; mret path.

Definition save_data_block_info (meta_path block_path : string) : M S unit := λ s,
  let '(m, w) := s in
  let url := "http://" +:+ host_ip +:+ ":6380/v1/parse/data/block/meta" in
  match http_post url [("dfs_data_block_meta", meta_path); ("dfs_data_block", block_path)] with
  | Ret _ => (Ret tt, (m, mkWorld (w_fs w) (w_uuid w) (w_mgr w)
                            (w_posts w ++ [(meta_path, block_path)]) (w_distribute w)))
  | Stop r => (Stop r, s)
  end.

Definition data_block_finalizer : M S (option DataBlockMeta) :=
  m ← gets (λ s : S, s.1);
  assertM (mk_saved_example_num m =? zlen (example_ids (mk_meta m)));;
  with_fs (tfr_write (mk_tmp_path m) (mk_written m));;
  if 0 <? zlen (example_ids (mk_meta m)) then
    on_meta (λ x, set_block_id (block_id_wrap (mk_source m) x) x);;
    x ← gets (λ s : S, mk_meta s.1);
    let data_block_path := Str.path_join (obtain_data_block_dir m)
                             (data_block_file_name_wrap (mk_source m) x) in
    with_fs (gf_rename (mk_tmp_path m) data_block_path true);;
    meta_path ← make_data_block_meta;
    distribute ← gets (λ s : S, w_distribute s.2);
    (if (distribute : bool) then save_data_block_info meta_path data_block_path else mret tt);;
    x' ← gets (λ s : S, mk_meta s.1);
    mret (Some x')
  else
    with_fs (gf_remove (mk_tmp_path m));;
    mret None.
End maker.

(** ** Collecting a block *)

(** The least and the greatest event time. *)
Definition span_step (acc : option (Z * Z)) (t : Z) : option (Z * Z) :=
  match acc with
  | None => Some (t, t)
  | Some (s, e) => Some (Z.min t s, Z.max t e)
  end.
Definition time_span (ts : list Z) : option (Z * Z) := fold_left span_step ts None.

Lemma time_span_snoc ts t : time_span (ts ++ [t]) = span_step (time_span ts) t.
Proof. unfold time_span. by rewrite fold_left_app. Qed.
Lemma time_span_None ts : time_span ts = None → ts = [].
Proof.
  destruct ts as [|t ts] using rev_ind; [done|]. rewrite time_span_snoc.
  by destruct (time_span ts) as [[]|].
Qed.
Lemma time_span_bounds ts s e :
  time_span ts = Some (s, e) → s ∈ ts ∧ e ∈ ts ∧ ∀ t, t ∈ ts → s ≤ t ≤ e.
Proof.
  revert s e. induction ts as [|t ts IH] using rev_ind; [done|]. intros s e.
  rewrite time_span_snoc. destruct (time_span ts) as [[s' e']|] eqn:E; intros [= <- <-].
  - destruct (IH _ _ eq_refl) as (Hs & He & Hb). split_and!.
    + destruct (Z.min_spec t s') as [[_ ->]|[_ ->]]; set_solver.
    + destruct (Z.max_spec t e') as [[_ ->]|[_ ->]]; set_solver.
    + intros x [Hx|Hx]%elem_of_app; [apply Hb in Hx; lia|].
      apply list_elem_of_singleton in Hx. lia.
  - apply time_span_None in E. subst ts. split_and!; [set_solver|set_solver|].
    intros x Hx. apply list_elem_of_singleton in Hx. lia.
Qed.
Section block.
Context {F : Type} `{GFile F} `{Utils}.

(** The effect of [save] on the maker, for an event time that fits. *)
Definition saved_maker (r id : string) (t : Z) (m : maker) : maker :=
  let x := set_example_ids (example_ids (mk_meta m) ++ [id]) (mk_meta m) in
  let span := if mk_saved_example_num m =? 0 then (t, t)
              else (Z.min t (start_time x), Z.max t (end_time x)) in
  mk_set_num (mk_saved_example_num m + 1)
    (mk_set_meta (set_times span.1 span.2 x) (mk_set_written (mk_written m ++ [r]) m)).

Lemma assign_start_run t m (w : world F) :
  in_int64 t = true →
  assign_start (Some t) (m, w)
    = (Ret tt, (mk_set_meta (set_times t (end_time (mk_meta m)) (mk_meta m)) m, w)).
Proof. intros Ht%pb_int64_Some. unfold assign_start. mrun. by rewrite Ht. Qed.

Lemma assign_end_run t m (w : world F) :
  in_int64 t = true →
  assign_end (Some t) (m, w)
    = (Ret tt, (mk_set_meta (set_times (start_time (mk_meta m)) t (mk_meta m)) m, w)).
Proof. intros Ht%pb_int64_Some. unfold assign_end. mrun. by rewrite Ht. Qed.

Lemma save_run r id t m (w : world F) :
  in_int64 t = true →
  save r id (Some t) (m, w) = (Ret tt, (saved_maker r id t m, w)).
Proof.
  intros Ht. unfold save, saved_maker. mrun.
  destruct (mk_saved_example_num m =? 0).
  - mrun. rewrite assign_start_run by done. mrun. by rewrite assign_end_run.
  - mrun. assert (∀ b, (t >? b) = (b <? t)) as Hgt by (intros; apply Z.gtb_ltb).
    destruct (Z.ltb_spec t (start_time (mk_meta m))).
    + rewrite assign_start_run by done. mrun. rewrite Hgt.
      destruct (Z.ltb_spec (end_time (mk_meta m)) t).
      * rewrite assign_end_run by done. mrun. by rewrite Z.min_l, Z.max_l by lia.
      * mrun. by rewrite Z.min_l, Z.max_r by lia.
    + mrun. rewrite Hgt. destruct (Z.ltb_spec (end_time (mk_meta m)) t).
      * rewrite assign_end_run by done. mrun. by rewrite Z.min_r, Z.max_l by lia.
      * mrun. rewrite Z.min_r, Z.max_r by lia. by destruct m as [? ? ? ? [] ? ? ? ? ?].
Qed.

(** [collected m ids recs ts]: the maker holds these examples. *)
Record collected (m : maker) (ids recs : list string) (ts : list Z) : Prop := mkCollected {
  col_num : mk_saved_example_num m = zlen ids;
  col_ids : example_ids (mk_meta m) = ids;
  col_written : mk_written m = recs;
  col_span s e : time_span ts = Some (s, e) →
    start_time (mk_meta m) = s ∧ end_time (mk_meta m) = e;
  col_len : length ts = length ids;
}.

(** The part of it that finishing a block relies on. *)
Record holding (m : maker) (ids recs : list string) : Prop := mkHolding {
  hd_num : mk_saved_example_num m = zlen ids;
  hd_ids : example_ids (mk_meta m) = ids;
  hd_written : mk_written m = recs;
}.

Lemma collected_holding m ids recs ts : collected m ids recs ts → holding m ids recs.
Proof. intros []. by split. Qed.

Lemma saved_collected r id t m ids recs ts :
  collected m ids recs ts →
  collected (saved_maker r id t m) (ids ++ [id]) (recs ++ [r]) (ts ++ [t]).
Proof.
  intros [Hn Hi Hw Hs Hl]. split; simpl.
  - rewrite zlen_app, Hn. done.
  - by rewrite Hi.
  - by rewrite Hw.
  - intros s e. rewrite time_span_snoc, Hn.
    destruct ids as [|i ids], ts as [|u ts]; try done; simpl; [naive_solver|].
    destruct (time_span (u :: ts)) as [[s' e']|] eqn:Et;
      [|by apply time_span_None in Et].
    destruct (Hs _ _ eq_refl) as [-> ->].
    simpl. naive_solver.
  - rewrite !length_app, Hl. done.
Qed.
End block.

(** ** Finishing a block *)
Section finalizer.
Context {F : Type} `{GFileLaws F} `{UtilsLaws}.

(** The directory of the partition can be written. *)
Definition dir_writable (dir name : string) (pid : Z) (fs : F) : Prop :=
  (∀ k c, gf_writable fs (tmp_path dir pid k c)) ∧
  (∀ x, gf_writable fs (data_path dir name pid x)).

(** A path of the partition that is neither a temporary file nor a meta. *)
Definition not_tmp_or_meta (dir name : string) (pid : Z) (p : string) : Prop :=
  (∀ k c, p ≠ tmp_path dir pid k c) ∧ (∀ i, p ≠ meta_path dir name pid i).

(** No temporary file of the partition is in [fs'] that was not already in
    [fs], with that content. *)
Definition no_new_tmp (dir : string) (pid : Z) (fs fs' : F) : Prop := ∀ k c,
  gf_files fs' !! tmp_path dir pid k c = None ∨
  gf_files fs' !! tmp_path dir pid k c = gf_files fs !! tmp_path dir pid k c.

(** The maker [m] writes a block of the partition its manager stores. *)
Record maker_of (m : maker) (w : world F) : Prop := mkMakerOf {
  mo_manager : mk_has_manager m = true;
  mo_dir : mk_dir m = mg_dir (w_mgr w);
  mo_source : mk_source m = mg_source (w_mgr w);
  mo_pid : mk_partition_id m = mg_partition_id (w_mgr w);
  mo_tmp : ∃ k c, mk_tmp_path m = tmp_path (mk_dir m) (mk_partition_id m) k c;
  mo_writable : dir_writable (mk_dir m) (mk_source m) (mk_partition_id m) (w_fs w);
}.

Lemma make_data_block_meta_rep m w log :
  maker_of m w → rep (w_mgr w) (w_fs w) log → zlen log < 2 ^ 53 →
  data_block_index (mk_meta m) = zlen log →
  ∃ m' w', make_data_block_meta (m, w)
      = (Ret (meta_path (mk_dir m) (mk_source m) (mk_partition_id m) (zlen log)), (m', w')) ∧
    mk_meta m' = mk_meta m ∧
    rep (w_mgr w') (w_fs w') (log ++ [mk_meta m]) ∧ same_names (w_mgr w) (w_mgr w') ∧
    (∀ p, not_tmp_or_meta (mk_dir m) (mk_source m) (mk_partition_id m) p →
          gf_files (w_fs w') !! p = gf_files (w_fs w) !! p) ∧
    (∀ p, gf_writable (w_fs w) p → gf_writable (w_fs w') p) ∧
    w_distribute w' = w_distribute w ∧
    no_new_tmp (mk_dir m) (mk_partition_id m) (w_fs w) (w_fs w').
Proof.
  intros [Hm Hdir Hsrc Hpid Htmp [Hwt Hwd]] Hr Hb Hx.
  set (tmp := tmp_path (mk_dir m) (mk_partition_id m) (w_uuid w) (mk_tmp_counter m)).
  assert (∀ i, acquire_data_block_meta_path (w_mgr w) i
               = meta_path (mk_dir m) (mk_source m) (mk_partition_id m) i) as Hpath.
  { intros i. by rewrite rep_path, Hdir, Hsrc, Hpid. }
  destruct (write_law tmp [meta_to_text (mk_meta m)] (w_fs w)) as (fs1 & Hwr & Hf1 & Hw1).
  { apply Hwt. }
  destruct (update_rep (w_mgr w) fs1 log (mk_meta m) tmp)
    as (mgr' & fs2 & Hup & Hr2 & Hsame & _ & Hf2 & Hw2); try done.
  { apply (rep_frame _ _ _ _ Hr); [|done]. intros i. rewrite Hf1, lookup_insert_ne; [done|].
    rewrite Hpath. apply tmp_path_ne_meta. }
  { by rewrite Hf1, lookup_insert_eq. }
  { apply Hw1, Hwt. }
  { intros i. rewrite Hpath. apply tmp_path_ne_meta. }
  rewrite Hpath in Hup, Hf2.
  eexists _, (w_set_mf (mgr', fs2) (w_set_fs fs1 (w_next_uuid w))). split_and!.
  - unfold make_data_block_meta. rewrite run_bind. simpl. rewrite run_bind. simpl.
    rewrite run_bind. unfold with_fs at 1, zoom. simpl.
    change (Str.path_join _ (tmp_name (w_uuid w) (mk_tmp_counter m))) with tmp.
    rewrite Hwr. rewrite run_bind. simpl. rewrite Hm.
    unfold with_mgr, zoom. simpl. rewrite Hup. reflexivity.
  - done.
  - done.
  - done.
  - intros p [Hp1 Hp2]. simpl. rewrite Hf2, lookup_insert_ne by (symmetry; apply Hp2).
    rewrite lookup_delete_ne by (symmetry; apply Hp1).
    by rewrite Hf1, lookup_insert_ne by (symmetry; apply Hp1).
  - intros p Hp. simpl. auto.
  - done.
  - intros k c. simpl. rewrite Hf2, lookup_insert_ne by (symmetry; apply tmp_path_ne_meta).
    destruct (decide (tmp_path (mk_dir m) (mk_partition_id m) k c = tmp)) as [->|Hne];
      [left; apply lookup_delete_eq|right].
    by rewrite lookup_delete_ne, Hf1, lookup_insert_ne by done.
Qed.

Lemma finalizer_rep m w log ids recs :
  holding m ids recs → maker_of m w → rep (w_mgr w) (w_fs w) log →
  zlen log < 2 ^ 53 → data_block_index (mk_meta m) = zlen log → ids ≠ [] →
  (∀ u l, http_post u l = Ret tt) →
  let x := set_block_id (block_id_wrap (mk_source m) (mk_meta m)) (mk_meta m) in
  let block := data_path (mk_dir m) (mk_source m) (mk_partition_id m) x in
  ∃ m' w', data_block_finalizer (m, w) = (Ret (Some x), (m', w')) ∧ mk_meta m' = x ∧
    rep (w_mgr w') (w_fs w') (log ++ [x]) ∧ same_names (w_mgr w) (w_mgr w') ∧
    gf_files (w_fs w') !! block = Some recs ∧
    (∀ p, not_tmp_or_meta (mk_dir m) (mk_source m) (mk_partition_id m) p → p ≠ block →
          gf_files (w_fs w') !! p = gf_files (w_fs w) !! p) ∧
    (∀ p, gf_writable (w_fs w) p → gf_writable (w_fs w') p) ∧
    w_distribute w' = w_distribute w ∧
    gf_files (w_fs w') !! mk_tmp_path m = None ∧
    no_new_tmp (mk_dir m) (mk_partition_id m) (w_fs w) (w_fs w').
Proof.
  intros Hc Hmo Hr Hb Hx Hne Hpost x block.
  pose proof Hmo as [Hm Hdir Hsrc Hpid (k & c & Htmp) [Hwt Hwd]].
  assert (∀ i, acquire_data_block_meta_path (w_mgr w) i
               = meta_path (mk_dir m) (mk_source m) (mk_partition_id m) i) as Hpath.
  { intros i. by rewrite rep_path, Hdir, Hsrc, Hpid. }
  destruct (write_law (mk_tmp_path m) (mk_written m) (w_fs w)) as (fs1 & Hwr & Hf1 & Hw1).
  { rewrite Htmp. apply Hwt. }
  destruct (rename_law (mk_tmp_path m) block true (mk_written m) fs1)
    as (fs2 & Hren & Hf2 & Hw2).
  { by rewrite Hf1, lookup_insert_eq. }
  { rewrite Htmp. apply tmp_path_ne_data. }
  { apply Hw1, Hwd. }
  { by left. }
  set (m1 := mk_set_meta x m). set (w1 := w_set_fs fs2 (w_set_fs fs1 w)).
  assert (∀ p, p ≠ block → p ≠ mk_tmp_path m →
            gf_files fs2 !! p = gf_files (w_fs w) !! p) as Hfr.
  { intros p Hp1 Hp2. by rewrite Hf2, lookup_insert_ne, lookup_delete_ne, Hf1, lookup_insert_ne. }
  destruct (make_data_block_meta_rep m1 w1 log) as (m2 & w2 & Hrun & Hmeta & Hr2 & Hs2 & Hf3 & Hw3 & Hd2 & Ht2).
  { split; try done; simpl; [by eauto|]. split; intros; apply Hw2, Hw1; auto. }
  { apply (rep_frame _ _ _ _ Hr); [|simpl; auto]. intros i. simpl.
    apply Hfr; rewrite Hpath.
    - symmetry. apply data_path_ne_meta.
    - rewrite Htmp. symmetry. apply tmp_path_ne_meta. }
  { done. }
  { done. }
  assert (not_tmp_or_meta (mk_dir m) (mk_source m) (mk_partition_id m) block) as Hblock.
  { split; intros; [symmetry; apply tmp_path_ne_data|apply data_path_ne_meta]. }
  assert (∃ m3 w3, data_block_finalizer (m, w) = (Ret (Some x), (m3, w3)) ∧
            mk_meta m3 = x ∧ w_mgr w3 = w_mgr w2 ∧ w_fs w3 = w_fs w2 ∧ w_distribute w3 = w_distribute w2)
    as (m3 & w3 & Hfin & Hm3 & Hmgr & Hfs & Hdist).
  { unfold data_block_finalizer. rewrite run_bind. simpl. rewrite run_bind.
    rewrite (hd_num _ _ _ Hc), (hd_ids _ _ _ Hc), Z.eqb_refl. simpl.
    rewrite run_bind. unfold with_fs, zoom. simpl. rewrite Hwr. simpl.
    rewrite (proj2 (Z.ltb_lt 0 _)) by (by apply zlen_pos).
    rewrite run_bind. simpl. rewrite run_bind. simpl. rewrite run_bind. simpl.
    change (Str.path_join _ _) with block. rewrite Hren. simpl.
    change (mk_set_meta _ m) with m1. change (w_set_fs fs2 _) with w1.
    rewrite run_bind, Hrun. simpl. rewrite run_bind. simpl.
    destruct (w_distribute w2) eqn:Ed; rewrite run_bind; simpl.
    - rewrite Hpost. mrun. eexists _, _. by rewrite Hmeta.
    - mrun. eexists _, _. by rewrite Hmeta. }
  assert (gf_files (w_fs w2) !! mk_tmp_path m = None) as Hgone.
  { rewrite Htmp. destruct (Ht2 k c) as [E|E]; [exact E|]. etrans; [exact E|].
    simpl. change (mk_dir m1) with (mk_dir m). change (mk_partition_id m1) with (mk_partition_id m).
    rewrite Hf2, lookup_insert_ne, <-Htmp; [apply lookup_delete_eq|].
    symmetry. apply tmp_path_ne_data. }
  exists m3, w3. rewrite Hmgr, Hfs, Hdist. split_and!; try done.
  - rewrite Hf3 by done. simpl. rewrite Hf2, lookup_insert_eq.
    by rewrite (hd_written _ _ _ Hc).
  - intros p Hp Hpb. rewrite Hf3 by done. simpl. apply Hfr; [done|].
    rewrite Htmp. apply Hp.
  - intros p Hp. apply Hw3. simpl. auto.
  - intros k' c'.
    destruct (decide (tmp_path (mk_dir m) (mk_partition_id m) k' c' = mk_tmp_path m)) as [->|Hk];
      [by left|].
    destruct (Ht2 k' c') as [E|E]; [by left|]. right. etrans; [exact E|].
    apply Hfr; [apply tmp_path_ne_data|done].
Qed.

Lemma in_int64_small z : 0 ≤ z ≤ 2 ^ 53 → in_int64 z = true.
Proof.
  unfold in_int64. intros Hz. apply andb_true_iff. split; [apply Z.leb_le|apply Z.ltb_lt]; lia.
Qed.

Lemma new_maker_run dir name pid index thr (w : world F) :
  in_int64 pid = true → in_int64 index = true →
  dir_writable dir name pid (w_fs w) →
  ∃ fs', let tmp := tmp_path dir pid (w_uuid w) 0 in
    new_maker dir name pid index thr w
      = (Ret (mkMaker name false 0 pid
                (set_follower_restart_index 0
                   (set_data_block_index index (set_partition_id pid empty_meta)))
                thr dir tmp 1 []),
         w_set_fs fs' (w_next_uuid w)) ∧
    gf_files fs' = <[tmp := []]> (gf_files (w_fs w)) ∧
    (∀ p, gf_writable (w_fs w) p → gf_writable fs' p).
Proof.
  intros Hp Hi [Hwt _].
  destruct (write_law (tmp_path dir pid (w_uuid w) 0) [] (w_fs w)) as (fs' & Hwr & Hf & Hw).
  { apply Hwt. }
  exists fs'. split_and!; [|done|done]. unfold new_maker.
  rewrite !pb_int64_Some by done. rewrite run_bind. simpl. rewrite run_bind. simpl.
  unfold with_fs, zoom. simpl. unfold tmp_path, block_dir in Hwr.
  unfold obtain_data_block_dir, block_dir. simpl. by rewrite Hwr.
Qed.

(** A block with no example leaves no file behind. *)
Lemma finalizer_empty m (w : world F) :
  holding m [] (mk_written m) →
  gf_writable (w_fs w) (mk_tmp_path m) →
  ∃ w', data_block_finalizer (m, w) = (Ret None, (m, w')) ∧
    gf_files (w_fs w') = delete (mk_tmp_path m) (gf_files (w_fs w)).
Proof.
  intros Hc Hwr.
  destruct (write_law (mk_tmp_path m) (mk_written m) (w_fs w)) as (fs1 & Hr1 & Hf1 & Hw1);
    [done|].
  destruct (remove_law (mk_tmp_path m) (mk_written m) fs1) as (fs2 & Hr2 & Hf2 & Hw2).
  { by rewrite Hf1, lookup_insert_eq. }
  exists (w_set_fs fs2 (w_set_fs fs1 w)). split.
  - unfold data_block_finalizer. rewrite run_bind. simpl. rewrite run_bind.
    rewrite (hd_num _ _ _ Hc), (hd_ids _ _ _ Hc). simpl.
    rewrite run_bind. unfold with_fs, zoom. simpl. rewrite Hr1. simpl.
    rewrite run_bind. simpl. by rewrite Hr2.
  - simpl. rewrite Hf2, Hf1. apply delete_insert_eq.
Qed.

(** A maker whose record count differs from its id count refuses to finish. *)
Lemma finalizer_mismatch m (w : world F) :
  mk_saved_example_num m ≠ zlen (example_ids (mk_meta m)) →
  data_block_finalizer (m, w) = (raise AssertionError, (m, w)).
Proof.
  intros Hn. unfold data_block_finalizer. rewrite run_bind. simpl.
  rewrite run_bind. by rewrite (proj2 (Z.eqb_neq _ _)).
Qed.
End finalizer.

(** ** A block from its first example to its files *)
Section saving.
Context {F : Type} `{GFileLaws F} `{UtilsLaws}.

Definition example : Type := string * string * Z.
Definition ex_id (e : example) : string := e.1.1.
Definition ex_record (e : example) : string := e.1.2.
Definition ex_time (e : example) : Z := e.2.

Definition save_example (e : example) : M (maker * world F) unit :=
  save (ex_record e) (ex_id e) (Some (ex_time e)).
Definition save_all (m : maker) (l : list example) : maker :=
  foldl (λ m e, saved_maker (ex_record e) (ex_id e) (ex_time e) m) m l.

Lemma save_all_run l m (w : world F) :
  Forall (λ e, in_int64 (ex_time e) = true) l →
  forM l save_example (m, w) = (Ret tt, (save_all m l, w)).
Proof.
  intros Hl. revert m. induction Hl as [|e l He Hl IH]; intros m; [done|].
  cbn [forM]. rewrite run_bind. change (save_example e) with
    (save (F := F) (ex_record e) (ex_id e) (Some (ex_time e))).
  by rewrite save_run, IH.
Qed.

Lemma save_all_collected l m ids recs ts :
  collected m ids recs ts →
  collected (save_all m l) (ids ++ (ex_id <$> l)) (recs ++ (ex_record <$> l))
    (ts ++ (ex_time <$> l)).
Proof.
  revert m ids recs ts. induction l as [|e l IH]; intros m ids recs ts Hc; simpl.
  - by rewrite !app_nil_r.
  - rewrite (cons_middle (ex_id e)), (cons_middle (ex_record e)), (cons_middle (ex_time e)),
      !(assoc_L (++)).
    by apply IH, saved_collected.
Qed.

(** [save] only touches the examples of the maker. *)
Lemma save_all_frame l m :
  mk_has_manager (save_all m l) = mk_has_manager m ∧ mk_dir (save_all m l) = mk_dir m ∧
  mk_source (save_all m l) = mk_source m ∧
  mk_partition_id (save_all m l) = mk_partition_id m ∧
  mk_tmp_path (save_all m l) = mk_tmp_path m ∧
  data_block_index (mk_meta (save_all m l)) = data_block_index (mk_meta m).
Proof.
  revert m. induction l as [|e l IH]; intros m; [done|].
  destruct (IH (saved_maker (ex_record e) (ex_id e) (ex_time e) m)) as (A & B & C & D & E & G).
  simpl in *. by rewrite A, B, C, D, E, G.
Qed.
End saving.

(** The world of a follower or leader over a concrete store of [n] blocks. *)
Module TestWorld.
Import TestUtils TestStore.

Definition w_of (n : nat) : world MemFs :=
  mkWorld (fs_of n) 0 (mgr_with (Z.of_nat n) []) [] false.

Lemma writable_of n : dir_writable "blocks" "src" 0 (fs_of n).
Proof.
  split; intros;
    (apply (fresh_writable "blocks" 0); [reflexivity|discriminate]).
Qed.
End TestWorld.

(** ** Properties *)
Section properties.
Context {F : Type} `{GFileLaws F} `{UtilsLaws}.
Context (post_ok : ∀ u l, http_post u l = Ret tt).

(** C21.  A block is written whole: a maker made for the next index, given
    examples one by one and finished, leaves a data file with exactly their
    records in order, appends to the store a meta with exactly their ids, the
    least and greatest event time and the index, and touches no other data
    file. The two temporary files it writes on the way (of the records and of
    the meta) are gone at the end: the one of the records by name, and no
    temporary file of the partition is left that was not there before. *)
Theorem maker_writes_block dir name pid thr log (l : list example) (w : world F) :
  rep (w_mgr w) (w_fs w) log → mg_dir (w_mgr w) = dir → mg_source (w_mgr w) = name →
  mg_partition_id (w_mgr w) = pid → in_int64 pid = true →
  dir_writable dir name pid (w_fs w) → zlen log < 2 ^ 53 →
  l ≠ [] → Forall (λ e, in_int64 (ex_time e) = true) l →
  ∃ m w1 x m' w',
    new_maker dir name pid (zlen log) thr w = (Ret m, w1) ∧
    (build_data_block_manager;; forM l save_example;; data_block_finalizer) (m, w1)
      = (Ret (Some x), (m', w')) ∧
    rep (w_mgr w') (w_fs w') (log ++ [x]) ∧
    gf_files (w_fs w') !! data_path dir name pid x = Some (ex_record <$> l) ∧
    example_ids x = ex_id <$> l ∧ data_block_index x = zlen log ∧
    time_span (ex_time <$> l) = Some (start_time x, end_time x) ∧
    (∀ y, data_block_index y ≠ zlen log →
      gf_files (w_fs w') !! data_path dir name pid y
      = gf_files (w_fs w) !! data_path dir name pid y) ∧
    gf_files (w_fs w1) !! mk_tmp_path m = Some [] ∧
    gf_files (w_fs w') !! mk_tmp_path m = None ∧
    no_new_tmp dir pid (w_fs w) (w_fs w').
Proof.
  intros Hr Hd Hs Hp H64 Hwr Hb Hne Ht. pose proof (zlen_nonneg log).
  destruct (new_maker_run dir name pid (zlen log) thr w) as (fs1 & Hrun & Hf1 & Hw1);
    [done|apply in_int64_small; lia|done|].
  set (w1 := w_set_fs fs1 (w_next_uuid w)) in *. set (m := mkMaker _ _ _ _ _ _ _ _ _ _) in Hrun.
  set (m1 := mkMaker name true 0 pid (mk_meta m) thr dir (mk_tmp_path m) 1 []).
  assert (collected m1 [] [] []) as Hc0 by (by split).
  pose proof (save_all_collected l m1 _ _ _ Hc0) as Hc. simpl in Hc.
  destruct (save_all_frame l m1) as (E1 & E2 & E3 & E4 & E5 & E6).
  assert (∀ p, (∀ k c, p ≠ tmp_path dir pid k c) →
            gf_files fs1 !! p = gf_files (w_fs w) !! p) as Hfr.
  { intros p Hp'. rewrite Hf1, lookup_insert_ne; [done|]. symmetry. apply Hp'. }
  destruct (finalizer_rep (save_all m1 l) w1 log _ _ (collected_holding _ _ _ _ Hc))
    as (m' & w' & Hfin & _ & Hr' & _ & Hdata & Hother & _ & _ & Hgone & Htmps);
    try done.
  { split; rewrite ?E1, ?E2, ?E3, ?E4, ?E5; simpl; try done; [by eauto|].
    destruct Hwr. split; intros; apply Hw1; auto. }
  { apply (rep_frame _ _ _ _ Hr); [|done]. intros i. apply Hfr. intros k c.
    rewrite rep_path, Hd, Hp. symmetry. apply tmp_path_ne_meta. }
  { by destruct l. }
  set (x := set_block_id _ _) in *. rewrite E2, E3, E4, ?E5 in *. simpl in *.
  exists m, w1, x, m', w'. split_and!; try done.
  - rewrite run_bind. unfold build_data_block_manager, on_maker, modify.
    change (mkMaker _ _ _ _ _ _ _ _ _ _) with m1. simpl fst.
    by rewrite run_bind, save_all_run.
  - apply (col_ids _ _ _ _ Hc).
  - destruct (time_span (ex_time <$> l)) as [[s e]|] eqn:Et.
    + by destruct (col_span _ _ _ _ Hc _ _ Et) as [<- <-].
    + apply time_span_None in Et. by destruct l.
  - intros y Hy. rewrite Hother.
    + apply Hfr. intros k c. symmetry. apply tmp_path_ne_data.
    + split; intros; [apply not_eq_sym, tmp_path_ne_data|apply data_path_ne_meta].
    + intros Heq%data_path_inj. simpl in Heq. congruence.
  - simpl. rewrite Hf1. apply lookup_insert_eq.
  - intros k c. destruct (Htmps k c) as [E|E]; [by left|].
    destruct (decide (tmp_path dir pid k c = mk_tmp_path m)) as [Hk|Hk].
    + left. by rewrite Hk.
    + right. etrans; [exact E|]. simpl. rewrite Hf1. by apply lookup_insert_ne, not_eq_sym.
Qed.

(** Finishing a block that has no example leaves no file behind and
    yields no meta. *)
Theorem empty_block_leaves_no_file m (w : world F) :
  holding m [] (mk_written m) → gf_writable (w_fs w) (mk_tmp_path m) →
  ∃ w', data_block_finalizer (m, w) = (Ret None, (m, w')) ∧
    gf_files (w_fs w') = delete (mk_tmp_path m) (gf_files (w_fs w)).
Proof. apply finalizer_empty. Qed.
End properties.

Section witnesses.
Import TestUtils TestStore TestWorld.

Lemma maker_writes_block_witness :
  ∃ m w1 x m' w',
    new_maker "blocks" "src" 0 2 (Some 5) (w_of 2) = (Ret m, w1) ∧
    (build_data_block_manager;;
     forM [("a", "ra", 7); ("b", "rb", 3)] save_example;; data_block_finalizer) (m, w1)
      = (Ret (Some x), (m', w')) ∧
    rep (w_mgr w') (w_fs w') (log_of 2 ++ [x]) ∧
    gf_files (w_fs w') !! data_path "blocks" "src" 0 x = Some ["ra"; "rb"] ∧
    example_ids x = ["a"; "b"] ∧ data_block_index x = 2 ∧
    Some (3, 7) = Some (start_time x, end_time x) ∧
    (∀ y, data_block_index y ≠ 2 →
      gf_files (w_fs w') !! data_path "blocks" "src" 0 y
      = gf_files (w_fs (w_of 2)) !! data_path "blocks" "src" 0 y) ∧
    gf_files (w_fs w1) !! mk_tmp_path m = Some [] ∧
    gf_files (w_fs w') !! mk_tmp_path m = None ∧
    no_new_tmp "blocks" 0 (w_fs (w_of 2)) (w_fs w').
Proof.
  apply (maker_writes_block test_post_ok "blocks" "src" 0 (Some 5) (log_of 2)
           [("a", "ra", 7); ("b", "rb", 3)] (w_of 2)).
  - apply (rep_of 2 0); lia.
  - reflexivity.
  - reflexivity.
  - reflexivity.
  - reflexivity.
  - apply writable_of.
  - reflexivity.
  - discriminate.
  - repeat (apply Forall_cons_2 || apply Forall_nil_2); reflexivity.
Defined.

Lemma empty_block_leaves_no_file_witness :
  let m := mkMaker "src" true 0 0 (meta_at 0) None "blocks" (tmp_path "blocks" 0 0 0) 1 [] in
  ∃ w', data_block_finalizer (m, w_of 0) = (Ret None, (m, w')) ∧
    gf_files (w_fs w') = delete (mk_tmp_path m) (gf_files (w_fs (w_of 0))).
Proof.
  intros m. apply (empty_block_leaves_no_file m (w_of 0)).
  - by split.
  - apply writable_of.
Defined.
End witnesses.
