(* ===== verification/DataJoiner.v ===== *)
(** * DataJoiner and MemoryDataJoiner (data_join/data_joiner_builder)

    The follower takes batches of the leader's example ids from a queue, keeps
    those of its own item dictionary in the leader's order, and cuts them into
    data blocks: at [dump_data_block_threshold] examples, at the last batch, or
    when [dump_data_block_time_span] has passed. *)

From stdpp Require Import base tactics list gmap strings.
From Stdlib Require Import ZArith QArith Lia.
From S2P Require Import Prelude PyStd Messages Env DataBlockManager DataBlockMaker RawData.

Open Scope Z_scope.

(** [time.time()], the n-th reading of the clock. *)
Class Clock := { time_at : nat → Q }.

(** The metaclass registry of data_joiner.py. *)
Inductive joiner_class := BaseDataJoiner | MemoryDataJoiner.
Definition joiner_name (c : joiner_class) : string :=
  match c with
  | BaseDataJoiner => "BASE_DATA_JOINER"
  | MemoryDataJoiner => "MEMORY_JOINER"
  end.
Definition joiner_registry : list (string * joiner_class) :=
  [(joiner_name BaseDataJoiner, BaseDataJoiner);
   (joiner_name MemoryDataJoiner, MemoryDataJoiner)].

Record joiner (F : Type) := mkJoiner {
  jn_world : world F;
  jn_options : ExampleJoinerOptions;
  jn_partition_id : Z;
  jn_dir : string;
  jn_source : string;
  jn_items : list (pyid * string);
  jn_stale : bool;
  jn_queue : list LiteExampleIds;
  jn_last : option LiteExampleIds;
  jn_maker : option maker;
  jn_restart_index : Z;
  jn_finished : bool;
  jn_timestamp : Q;
  jn_clock : nat;
  jn_yields : list (option DataBlockMeta);
}.
Arguments mkJoiner {_}.
Arguments jn_world {_}.
Arguments jn_options {_}.
Arguments jn_partition_id {_}.
Arguments jn_dir {_}.
Arguments jn_source {_}.
Arguments jn_items {_}.
Arguments jn_stale {_}.
Arguments jn_queue {_}.
Arguments jn_last {_}.
Arguments jn_maker {_}.
Arguments jn_restart_index {_}.
Arguments jn_finished {_}.
Arguments jn_timestamp {_}.
Arguments jn_clock {_}.
Arguments jn_yields {_}.

Section setters.
Context {F : Type}.

Definition jn_set_world x (j : joiner F) : joiner F := mkJoiner x (jn_options j) (jn_partition_id j) (jn_dir j)
  (jn_source j) (jn_items j) (jn_stale j) (jn_queue j) (jn_last j) (jn_maker j)
  (jn_restart_index j) (jn_finished j) (jn_timestamp j) (jn_clock j) (jn_yields j).
Definition jn_set_queue x l (j : joiner F) := mkJoiner (jn_world j) (jn_options j) (jn_partition_id j)
  (jn_dir j) (jn_source j) (jn_items j) (jn_stale j) x l (jn_maker j)
  (jn_restart_index j) (jn_finished j) (jn_timestamp j) (jn_clock j) (jn_yields j).
Definition jn_set_maker x (j : joiner F) := mkJoiner (jn_world j) (jn_options j) (jn_partition_id j)
  (jn_dir j) (jn_source j) (jn_items j) (jn_stale j) (jn_queue j) (jn_last j) x
  (jn_restart_index j) (jn_finished j) (jn_timestamp j) (jn_clock j) (jn_yields j).
Definition jn_set_finished x (j : joiner F) := mkJoiner (jn_world j) (jn_options j) (jn_partition_id j)
  (jn_dir j) (jn_source j) (jn_items j) (jn_stale j) (jn_queue j) (jn_last j) (jn_maker j)
  (jn_restart_index j) x (jn_timestamp j) (jn_clock j) (jn_yields j).
Definition jn_set_time t c (j : joiner F) := mkJoiner (jn_world j) (jn_options j) (jn_partition_id j)
  (jn_dir j) (jn_source j) (jn_items j) (jn_stale j) (jn_queue j) (jn_last j) (jn_maker j)
  (jn_restart_index j) (jn_finished j) t c (jn_yields j).
Definition jn_set_yields y (j : joiner F) := mkJoiner (jn_world j) (jn_options j) (jn_partition_id j)
  (jn_dir j) (jn_source j) (jn_items j) (jn_stale j) (jn_queue j) (jn_last j) (jn_maker j)
  (jn_restart_index j) (jn_finished j) (jn_timestamp j) (jn_clock j) y.
End setters.

Section joiner.
Context {F : Type} `{GFile F} `{Utils} `{TFExample} `{Clock}.
Local Abbreviation J := (joiner F).

Definition in_world {A} (c : M (world F) A) : M J A := zoom jn_world jn_set_world c.

(** Running an operation of the current maker, if there is one. *)
Definition in_maker {A} (m : maker) (c : M (maker * world F) A) : M J A := λ j,
  match c (m, jn_world j) with
  | (o, (m', w')) => (o, jn_set_maker (Some m') (jn_set_world w' j))
  end.

Definition read_clock : M J Q := λ j,
  (Ret (time_at (jn_clock j)), jn_set_time (jn_timestamp j) (S (jn_clock j)) j).

Definition produced_number : M J Z :=
  in_world (zoom (λ w, (w_mgr w, w_fs w)) w_set_mf acquire_produced_data_block_number).

Definition acquire_data_block_maker (is_create : bool) : M J (option maker) :=
  cur ← gets jn_maker;
  match cur with
  | Some m => mret (Some m)
  | None =>
      if is_create then
        index ← produced_number;
        j ← getM;
        m ← in_world (new_maker (jn_dir j) (jn_source j) (jn_partition_id j) index
                        (Some (dump_data_block_threshold (jn_options j))));
        in_maker m (build_data_block_manager;;
                    set_restart_data_join_index (jn_restart_index j));;
        gets jn_maker
      else mret None
  end.

Definition is_data_joiner_finished : M J bool := gets jn_finished.
Definition set_data_joiner_finished : M J unit := modify (jn_set_finished true).
Definition reset_data_block_maker : M J unit := modify (jn_set_maker None).
Definition update_data_block_produced_timestamp : M J unit :=
  t ← read_clock; modify (λ j, jn_set_time t (jn_clock j) j).

(** [0 < time_span <= time.time() - timestamp] *)
Definition data_block_finalizer_if_time_span : M J bool :=
  now ← read_clock;
  j ← getM;
  let span := dump_data_block_time_span (jn_options j) in
  mret ((0 <? span) && Qle_bool (inject_Z span) (now - jn_timestamp j)%Q).

Definition data_join_finalizer (is_data_joiner_finished : bool) : M J (option DataBlockMeta) :=
  cur ← gets jn_maker;
  match cur with
  | Some m =>
      meta ← in_maker m data_block_finalizer;
      (if is_data_joiner_finished then set_data_joiner_finished else mret tt);;
      reset_data_block_maker;;
      update_data_block_produced_timestamp;;
      mret meta
  | None => mret None
  end.

(** [yield self._data_join_finalizer(...)] *)
Definition yield_finalizer (is_data_joiner_finished : bool) : M J unit :=
  meta ← data_join_finalizer is_data_joiner_finished;
  modify (λ j, jn_set_yields (jn_yields j ++ [meta]) j).

(** The body of [for example_id in lite_example_ids.example_id]. *)
Definition join_example (finished : bool) (id : string) : M J unit :=
  items ← gets jn_items;
  match Dict.get (PyBytes id) items with
  | None => mret tt
  | Some record =>
      cur ← acquire_data_block_maker true;
      match cur with
      | None => raiseM AttributeError
      | Some m =>
          t ← liftO (event_time_of record);
          in_maker m (save record id t);;
          cur' ← gets jn_maker;
          match cur' with
          | Some m' => if is_data_block_exceed_threshold m' then yield_finalizer finished
                       else mret tt
          | None => raiseM AttributeError
          end
      end
  end.

Definition finish_if_maker (finished : bool) : M J unit :=
  if finished then
    cur ← acquire_data_block_maker false;
    match cur with
    | Some _ => yield_finalizer finished
    | None => mret tt
    end
  else mret tt.

Definition join_batch (lite : LiteExampleIds) : M J unit :=
  (if 0 <? zlen (le_example_id lite)
   then forM (le_example_id lite) (join_example (le_finished lite))
   else mret tt);;
  finish_if_maker (le_finished lite).

(** [lite_example_ids.finished] after the batch of this or of an earlier turn *)
Definition last_finished : M J bool :=
  l ← gets jn_last;
  match l with
  | Some lite => mret (le_finished lite)
  | None => raiseM NameError
  end.

Definition take_batch : M J unit :=
  q ← gets jn_queue;
  match q with
  | [] => mret tt
  | lite :: q' => modify (jn_set_queue q' (Some lite));; join_batch lite
  end.

Definition time_span_check : M J unit :=
  cur ← acquire_data_block_maker false;
  match cur with
  | None => mret tt
  | Some _ =>
      due ← data_block_finalizer_if_time_span;
      if (due : bool) then f ← last_finished; yield_finalizer f else mret tt
  end.

(** One turn of [while True] in [_data_joiner_algo]; [false] is the break. *)
Definition joiner_turn : M J bool :=
  fin ← is_data_joiner_finished;
  if (fin : bool) then mret false
  else take_batch;; time_span_check;; mret true.

(** The generator, with fuel for its unbounded loop. *)
Fixpoint memory_joiner_algo (fuel : nat) : M J unit :=
  match fuel with
  | O => stopM NoFuel
  | S f => go ← joiner_turn; if (go : bool) then memory_joiner_algo f else mret tt
  end.

Definition data_joiner_algo (c : joiner_class) (fuel : nat) : M J unit :=
  match c with
  | BaseDataJoiner => raiseM NotImplementedError
  | MemoryDataJoiner => memory_joiner_algo fuel
  end.

Definition data_join_switch : M J bool :=
  j ← getM; mret (jn_stale j).

Definition joiner_meta_by_index (i : Z) : M J (bool * option DataBlockMeta) :=
  fin ← gets jn_finished;
  meta ← in_world (zoom (λ w, (w_mgr w, w_fs w)) w_set_mf
                     (acquire_data_block_meta_by_index i));
  mret (fin, meta).

(** [DataJoiner.build_data_joiner(options, ...)] over the follower's files. *)
Definition build_data_joiner (opts : ExampleJoinerOptions) (raw : RawDataOptions)
    (dir name raw_dir : string) (pid : Z) (mode : string) (distribute : bool)
    (queue : list LiteExampleIds) (uuid clock : nat) : M F (joiner_class * J) :=
  match Dict.get (example_joiner opts) joiner_registry with
  | None => stopM (Exit (-1))
  | Some c =>
      l ← new_loader raw_dir raw mode uuid;
      mgr ← new_manager pid dir name;
      fs ← getM;
      mret (c, mkJoiner (mkWorld fs (if bool_decide (mode = "local") then uuid else S uuid)
                           mgr [] distribute) opts pid dir name
                 (rd_item_dict l) (rd_stale l) queue None None 0 false
                 (time_at clock) (S clock) [])
  end.
End joiner.

(** ** Specification: cutting the matched ids into blocks *)
Section spec.
Context (threshold : Z) (known : string → bool).

Definition matched (ids : list string) : list string := filter (λ id, known id = true) ids.

(** One matched id: it joins the pending block, which is cut when full. *)
Definition cut (st : list (list string) * list string) (id : string)
    : list (list string) * list string :=
  let p := st.2 ++ [id] in
  if threshold <=? zlen p then (st.1 ++ [p], []) else (st.1, p).
Definition cuts (pending : list string) (ids : list string) :=
  foldl cut ([], pending) ids.

(** A batch: the blocks it completes and what stays pending. *)
Definition flush (finished : bool) (st : list (list string) * list string) :=
  if finished && negb (bool_decide (st.2 = [])) then (st.1 ++ [st.2], []) else st.
Definition batch_spec (pending ids : list string) (finished : bool) :=
  flush finished (cuts pending (matched ids)).

Lemma matched_app l1 l2 : matched (l1 ++ l2) = matched l1 ++ matched l2.
Proof. apply filter_app. Qed.

Lemma cuts_app pending l1 l2 :
  cuts pending (l1 ++ l2) = foldl cut (cuts pending l1) l2.
Proof. apply foldl_app. Qed.

Lemma foldl_cut_blocks bs p l :
  foldl cut (bs, p) l = (bs ++ (foldl cut ([], p) l).1, (foldl cut ([], p) l).2).
Proof.
  revert bs p. induction l as [|x l IH]; intros bs p; simpl.
  - by rewrite app_nil_r.
  - unfold cut at 2 4 6. simpl. case_match.
    + rewrite IH, (IH [_]). by rewrite <- (assoc_L (++)).
    + apply IH.
Qed.

(** No id is lost, duplicated or moved. *)
Lemma cuts_concat pending l :
  concat (cuts pending l).1 ++ (cuts pending l).2 = pending ++ l.
Proof.
  induction l as [|x l IH] using rev_ind; [by rewrite app_nil_r|].
  rewrite cuts_app. simpl. unfold cut at 1 2.
  rewrite (assoc_L (++)), <- IH. case_match; simpl.
  - rewrite concat_app. simpl. rewrite !app_nil_r. by rewrite (assoc_L (++)).
  - by rewrite (assoc_L (++)).
Qed.

Lemma batch_concat pending ids finished :
  concat (batch_spec pending ids finished).1 ++ (batch_spec pending ids finished).2
  = pending ++ matched ids.
Proof.
  unfold batch_spec, flush. rewrite <- (cuts_concat pending (matched ids)).
  destruct (_ && _); [|done]. simpl. rewrite concat_app. simpl. by rewrite !app_nil_r.
Qed.
End spec.

(** ** Refinement *)
Section refinement.
Context {F : Type} `{GFileLaws F} `{UtilsLaws} `{TFExample} `{Clock}.
Context (post_ok : ∀ u l, http_post u l = Ret tt).
Local Abbreviation J := (joiner F).

Definition time_of (items : list (pyid * string)) (id : string) : Z :=
  match event_time_of (record_of items id) with Ret (Some t) => t | _ => 0 end.

(** Every item has an event time that an [int64] field can hold. *)
Definition items_ok (items : list (pyid * string)) : Prop :=
  ∀ id r, Dict.get (PyBytes id) items = Some r →
          ∃ t, event_time_of r = Ret (Some t) ∧ in_int64 t = true.

(** A finished block: its data file holds the items' records in the order of
    its example ids, its meta has their time span. *)
Record block_ok (j : J) (fs : F) (x : DataBlockMeta) : Prop := mkBlockOk {
  bo_data : gf_files fs !! data_path (jn_dir j) (jn_source j) (jn_partition_id j) x
            = Some (record_of (jn_items j) <$> example_ids x);
  bo_span s e : time_span (time_of (jn_items j) <$> example_ids x) = Some (s, e) →
            start_time x = s ∧ end_time x = e;
  bo_nonempty : example_ids x ≠ [];
  bo_id : ∃ y, x = set_block_id (block_id_wrap (jn_source j) y) y;
  bo_pid : partition_id x = jn_partition_id j;
}.

(** What an operation of the joiner leaves alone. *)
Definition config (j : J) :=
  (jn_options j, jn_partition_id j, jn_dir j, jn_source j, jn_items j, jn_restart_index j,
   jn_queue j, jn_last j).

Lemma config_inv (j' j : J) : config j' = config j →
  jn_options j' = jn_options j ∧ jn_partition_id j' = jn_partition_id j ∧
  jn_dir j' = jn_dir j ∧ jn_source j' = jn_source j ∧ jn_items j' = jn_items j ∧
  jn_restart_index j' = jn_restart_index j ∧ jn_queue j' = jn_queue j ∧
  jn_last j' = jn_last j.
Proof. unfold config. intros Hc. injection Hc as -> -> -> -> -> -> -> ->. done. Qed.

(** The joiner over the log [base ++ new] of its manager, [new] being the
    blocks it has made. *)
Record core (j : J) (base new : list DataBlockMeta) : Prop := mkCore {
  co_rep : rep (w_mgr (jn_world j)) (w_fs (jn_world j)) (base ++ new);
  co_dir : mg_dir (w_mgr (jn_world j)) = jn_dir j;
  co_source : mg_source (w_mgr (jn_world j)) = jn_source j;
  co_pid : mg_partition_id (w_mgr (jn_world j)) = jn_partition_id j;
  co_writable : dir_writable (jn_dir j) (jn_source j) (jn_partition_id j) (w_fs (jn_world j));
  co_pid64 : in_int64 (jn_partition_id j) = true;
  co_restart64 : in_int64 (jn_restart_index j) = true;
  co_items : items_ok (jn_items j);
  co_blocks : Forall (block_ok j (w_fs (jn_world j))) new;
}.

Lemma core_config j j' base new :
  config j' = config j → jn_world j' = jn_world j → core j base new → core j' base new.
Proof.
  intros (Eo & Ep & Ed & Es & Ei & Er & _)%config_inv Ew [C1 C2 C3 C4 C5 C6 C7 C8 C9].
  split; rewrite ?Ew, ?Ep, ?Ed, ?Es, ?Ei, ?Er; try done.
  eapply Forall_impl; [exact C9|]. intros x [B1 B2 B3 B4 B5].
  split; rewrite ?Ep, ?Ed, ?Es, ?Ei; done.
Qed.

(** The maker [m] holds the [pending] ids. *)
Record open_maker (j : J) (m : maker) (n : Z) (pending : list string) : Prop := mkOpen {
  om_collected : collected m pending (record_of (jn_items j) <$> pending)
                   (time_of (jn_items j) <$> pending);
  om_of : maker_of m (jn_world j);
  om_threshold : mk_threshold m = Some (dump_data_block_threshold (jn_options j));
  om_dir : mk_dir m = jn_dir j;
  om_source : mk_source m = jn_source j;
  om_pid : mk_partition_id m = jn_partition_id j;
  om_index : data_block_index (mk_meta m) = n;
  om_meta_pid : partition_id (mk_meta m) = jn_partition_id j;
}.

(** [jrep j base new pending]: the joiner stands for the blocks [new] and the
    [pending] ids. *)
Definition jrep (j : J) (base new : list DataBlockMeta) (pending : list string) : Prop :=
  core j base new ∧
  match jn_maker j with
  | None => pending = []
  | Some m => pending ≠ [] ∧ open_maker j m (zlen (base ++ new)) pending
  end.

Lemma produced_number_run j base new :
  core j base new →
  produced_number j = (Ret (zlen (base ++ new)), j).
Proof.
  intros [Hr _ _ _ _ _ _ _ _]. unfold produced_number, in_world, zoom.
  rewrite (acquire_produced_rep _ _ _ Hr). by destruct j as [[]].
Qed.

(** Getting the maker, a fresh one being made when there is none. *)
Lemma acquire_maker_run j base new pending :
  jrep j base new pending → zlen (base ++ new) < 2 ^ 53 →
  ∃ m j', acquire_data_block_maker true j = (Ret (Some m), j') ∧
    core j' base new ∧ jn_maker j' = Some m ∧
    open_maker j' m (zlen (base ++ new)) pending ∧
    config j' = config j ∧ jn_yields j' = jn_yields j ∧ jn_finished j' = jn_finished j.
Proof.
  intros [Hc Hm] Hb. unfold acquire_data_block_maker.
  destruct (jn_maker j) as [m|] eqn:Em.
  { destruct Hm as [_ Hm]. exists m, j. rewrite run_bind. simpl. rewrite Em.
    by split_and!. }
  subst pending. pose proof (zlen_nonneg (base ++ new)).
  destruct (new_maker_run (jn_dir j) (jn_source j) (jn_partition_id j) (zlen (base ++ new))
              (Some (dump_data_block_threshold (jn_options j))) (jn_world j))
    as (fs' & Hrun & Hfs & Hw).
  { apply Hc. } { apply in_int64_small. lia. } { apply Hc. }
  rewrite run_bind. simpl. rewrite Em. rewrite run_bind, (produced_number_run _ _ _ Hc).
  rewrite run_bind. simpl. rewrite run_bind. unfold in_world, zoom. rewrite Hrun.
  rewrite run_bind. unfold in_maker at 1. simpl. rewrite run_bind. simpl.
  unfold set_restart_data_join_index. rewrite run_bind. unfold liftO.
  rewrite pb_int64_Some by apply Hc. simpl.
  eexists _, _. split; [reflexivity|].
  pose proof Hc as [Hr Hd Hs Hp Hwr H64 Hr64 Hit Hbl].
  assert (∀ p, (∀ k c, p ≠ tmp_path (jn_dir j) (jn_partition_id j) k c) →
            gf_files fs' !! p = gf_files (w_fs (jn_world j)) !! p) as Hfr.
  { intros p Hp'. rewrite Hfs, lookup_insert_ne; [done|]. symmetry. apply Hp'. }
  split_and!; try done.
  - split; simpl; try done.
    + apply (rep_frame _ _ _ _ Hr); [|done]. intros i. apply Hfr. intros k c.
      rewrite rep_path, Hd, Hp. symmetry. apply tmp_path_ne_meta.
    + destruct Hwr. split; intros; apply Hw; auto.
    + eapply Forall_impl; [exact Hbl|]. intros x [Hx1 Hx2 Hx3 Hx4 Hx5]. split; try done.
      simpl in *. rewrite Hfr; [done|]. intros k c. symmetry. apply tmp_path_ne_data.
  - split; simpl; try done.
    split; simpl; try done; try congruence; [by eauto|].
    destruct Hwr. split; intros; apply Hw; auto.
Qed.

(** Finishing the current block. *)
Lemma finalizer_run j base new m pending b :
  core j base new → jn_maker j = Some m →
  open_maker j m (zlen (base ++ new)) pending → pending ≠ [] →
  zlen (base ++ new) < 2 ^ 53 →
  ∃ x j', yield_finalizer b j = (Ret tt, j') ∧
    example_ids x = pending ∧ jrep j' base (new ++ [x]) [] ∧ config j' = config j ∧
    jn_yields j' = jn_yields j ++ [Some x] ∧ jn_finished j' = (b || jn_finished j).
Proof.
  intros Hc Em Ho Hne Hb.
  destruct (finalizer_rep m (jn_world j) (base ++ new) pending
              (record_of (jn_items j) <$> pending))
    as (m' & w' & Hfin & _ & Hr' & (Hs1 & Hs2 & Hs3) & Hblk & Hfr & Hw & Hdist & _); try done;
    try apply Ho; try apply Hc; try (by eapply collected_holding, Ho).
  set (x := set_block_id _ _) in *.
  exists x. unfold yield_finalizer, data_join_finalizer.
  rewrite run_bind, run_bind. simpl. rewrite Em, run_bind. unfold in_maker. rewrite Hfin.
  simpl. destruct Ho as [Hcol Hof Hthr Hdir Hsrc Hpid Hidx Hmpid].
  assert (example_ids x = pending) as Hids by apply Hcol.
  rewrite Hdir, Hsrc, Hpid in *.
  assert (∀ y, y ∈ new → data_block_index y < zlen (base ++ new)) as Hlt.
  { intros y Hy. apply list_elem_of_lookup in Hy as [i Hi].
    rewrite (rep_index _ _ _ (co_rep _ _ _ Hc) (length base + i)).
    - apply lookup_lt_Some in Hi. unfold zlen. rewrite length_app. lia.
    - rewrite lookup_app_r by lia. rewrite <- Hi. f_equal. lia. }
  assert (∀ st : J, config st = config j →
            Forall (block_ok st (w_fs w')) (new ++ [x])) as Hblocks.
  { intros st (Eo & Ep & Ed & Es & Ei & _)%config_inv.
    apply Forall_app. split; [|apply Forall_singleton].
    - pose proof (co_blocks _ _ _ Hc) as Hbl. rewrite Forall_forall in Hbl |- *.
      intros y Hy. destruct (Hbl y Hy) as [Hy1 Hy2 Hy3 Hy4 Hy5].
      split; rewrite ?Ep, ?Ed, ?Es, ?Ei; try done.
      rewrite <- Hy1. apply Hfr.
      + split; intros; [apply not_eq_sym, tmp_path_ne_data|apply data_path_ne_meta].
      + intros Heq%data_path_inj. specialize (Hlt y Hy). simpl in Heq. lia.
    - split; rewrite ?Ep, ?Ed, ?Es, ?Ei, ?Hids; try done.
      + intros s e Hsp. apply (col_span _ _ _ _ Hcol _ _ Hsp).
      + exists (mk_meta m). unfold x. by rewrite Hsrc. }
  assert (∀ st : J, config st = config j → jn_world st = w' → jn_maker st = None →
            jrep st base (new ++ [x]) []) as Hjrep.
  { intros st Hcf Hst Hmk. split; [|by rewrite Hmk]. specialize (Hblocks st Hcf).
    apply config_inv in Hcf as (Eo & Ep & Ed & Es & Ei & Er & _).
    destruct Hc as [Hr Hd Hs Hp [Hw1 Hw2] H64 Hr64 Hit Hbl].
    split; rewrite ?Hst, ?Ep, ?Ed, ?Es, ?Ei, ?Er; try congruence.
    - by rewrite (assoc_L (++)).
    - split; intros; apply Hw; auto.
    - done. }
  destruct b; simpl; eexists; (split; [reflexivity|]);
    (split_and!; [done|by apply Hjrep|done|done|done]).
Qed.

(** From [j] to [j'] the blocks [new'] are made and yielded; [fin] is the
    flag of the batch they come from. *)
Record stepped (j j' : J) (base new new' : list DataBlockMeta) (pending' : list string)
    (fin : bool) : Prop := mkStepped {
  st_rep : jrep j' base (new ++ new') pending';
  st_config : config j' = config j;
  st_yields : jn_yields j' = jn_yields j ++ (Some <$> new');
  st_finished : jn_finished j' = jn_finished j || (fin && negb (bool_decide (new' = [])));
}.

Lemma stepped_refl j base new pending fin :
  jrep j base new pending → stepped j j base new [] pending fin.
Proof.
  intros Hj. split; simpl; rewrite ?app_nil_r; try done.
  by rewrite andb_false_r, orb_false_r.
Qed.

Lemma stepped_trans j1 j2 j3 base new n1 n2 p2 p3 fin :
  stepped j1 j2 base new n1 p2 fin → stepped j2 j3 base (new ++ n1) n2 p3 fin →
  stepped j1 j3 base new (n1 ++ n2) p3 fin.
Proof.
  intros [A1 A2 A3 A4] [B1 B2 B3 B4]. split.
  - by rewrite (assoc_L (++)).
  - by rewrite B2.
  - by rewrite B3, A3, fmap_app, (assoc_L (++)).
  - rewrite B4, A4. destruct n1, n2; simpl; by destruct (jn_finished j1), fin.
Qed.

Lemma finalizer_stepped j base new m pending b :
  core j base new → jn_maker j = Some m →
  open_maker j m (zlen (base ++ new)) pending → pending ≠ [] →
  zlen (base ++ new) < 2 ^ 53 →
  ∃ x j', yield_finalizer b j = (Ret tt, j') ∧ example_ids x = pending ∧
          stepped j j' base new [x] [] b.
Proof.
  intros Hc Hm Ho Hne Hb.
  destruct (finalizer_run j base new m pending b) as (x & j' & Hr & Hx & Hj & Hcf & Hy & Hf);
    try done.
  exists x, j'. split_and!; [done|done|]. split; try done.
  rewrite Hf. simpl. by destruct b, (jn_finished j).
Qed.

Lemma join_example_unknown j fin id :
  known (jn_items j) id = false → join_example fin id j = (Ret tt, j).
Proof.
  unfold known, Dict.mem. intros Hk. unfold join_example. rewrite run_bind. simpl.
  by destruct (Dict.get (PyBytes id) (jn_items j)).
Qed.

Lemma join_example_run j base new pending fin id :
  jrep j base new pending → zlen (base ++ new) < 2 ^ 53 →
  known (jn_items j) id = true →
  ∃ new' j', join_example fin id j = (Ret tt, j') ∧
    cut (dump_data_block_threshold (jn_options j)) ([], pending) id
      = (example_ids <$> new', (cut (dump_data_block_threshold (jn_options j))
                                  ([], pending) id).2) ∧
    stepped j j' base new new'
      (cut (dump_data_block_threshold (jn_options j)) ([], pending) id).2 fin ∧
    zlen new' ≤ 1.
Proof.
  intros Hj Hb Hk. apply Dict.mem_get in Hk as [r Hr].
  destruct (co_items _ _ _ (proj1 Hj) _ _ Hr) as (t & Ht & Ht64).
  destruct (acquire_maker_run j base new pending Hj Hb)
    as (m & j1 & Hacq & Hc1 & Hm1 & Ho1 & Hcf1 & Hy1 & Hf1).
  pose proof (config_inv _ _ Hcf1) as (Eo & Ep & Ed & Es & Ei & Er & Eq & El).
  set (m2 := saved_maker r id t m).
  set (j2 := jn_set_maker (Some m2) (jn_set_world (jn_world j1) j1)).
  assert (record_of (jn_items j1) id = r ∧ time_of (jn_items j1) id = t) as [Hrec Htim].
  { unfold time_of, record_of. rewrite Ei, Hr. simpl. by rewrite Ht. }
  assert (jn_world j2 = jn_world j1 ∧ config j2 = config j1) as [Hw2 Hcf2] by done.
  assert (open_maker j2 m2 (zlen (base ++ new)) (pending ++ [id])) as Ho2.
  { destruct Ho1 as [Hcol Hof Hthr Hd Hs Hp Hi Hmp]. split; simpl; try done.
    - rewrite !fmap_app. simpl. rewrite Hrec, Htim. by apply saved_collected.
    - destruct Hof. by split. }
  assert (core j2 base new) as Hc2 by (by apply (core_config j1)).
  assert (join_example fin id j
          = (if is_data_block_exceed_threshold m2 then yield_finalizer fin else mret tt) j2)
    as Hrun.
  { unfold join_example. rewrite run_bind. simpl. rewrite Hr, run_bind, Hacq.
    rewrite run_bind. unfold liftO. rewrite Ht. rewrite run_bind. unfold in_maker.
    rewrite save_run by done. rewrite run_bind. simpl. done. }
  rewrite Hrun. unfold is_data_block_exceed_threshold.
  rewrite (om_threshold _ _ _ _ Ho2), (col_ids _ _ _ _ (om_collected _ _ _ _ Ho2)).
  change (jn_options j2) with (jn_options j1). rewrite Eo. unfold cut. simpl.
  assert (jn_yields j2 = jn_yields j ∧ jn_finished j2 = jn_finished j) as [Hy2 Hf2]
    by (simpl; split; assumption).
  destruct (dump_data_block_threshold (jn_options j) <=? zlen (pending ++ [id])).
  - destruct (finalizer_stepped j2 base new m2 (pending ++ [id]) fin)
      as (x & j3 & Hfin & Hx & [S1 S2 S3 S4]); try done; [by destruct pending|].
    exists [x], j3. simpl. rewrite Hx. split_and!; [done|done| |done].
    split; [done|congruence|congruence|by rewrite S4, Hf2].
  - exists [], j2. split_and!; [done|done| |done]. split; simpl; rewrite ?app_nil_r.
    + split; [done|]. simpl. split; [by destruct pending|done].
    + congruence.
    + congruence.
    + by rewrite andb_false_r, orb_false_r.
Qed.

(** A list of ids: the matched ones are cut in order. *)
Lemma join_examples_run ids j base new pending fin :
  jrep j base new pending → zlen (base ++ new) + zlen ids ≤ 2 ^ 53 →
  let spec := cuts (dump_data_block_threshold (jn_options j)) pending
                (matched (known (jn_items j)) ids) in
  ∃ new' j', forM ids (join_example fin) j = (Ret tt, j') ∧
    example_ids <$> new' = spec.1 ∧ stepped j j' base new new' spec.2 fin ∧
    zlen new' ≤ zlen ids.
Proof.
  revert j new pending. induction ids as [|id ids IH]; intros j new pending Hj Hb spec.
  { exists [], j. split_and!; [done|done|by apply stepped_refl|done]. }
  rewrite zlen_cons in Hb. pose proof (zlen_nonneg ids).
  subst spec. cbn [forM]. unfold matched. rewrite filter_cons. fold (matched (known (jn_items j)) ids).
  destruct (known (jn_items j) id) eqn:Hk.
  - rewrite decide_True by done.
    destruct (join_example_run j base new pending fin id Hj ltac:(lia) Hk)
      as (n1 & j1 & Hr1 & Hcut & Hs1 & Hl1).
    destruct (IH j1 (new ++ n1)
                (cut (dump_data_block_threshold (jn_options j)) ([], pending) id).2)
      as (n2 & j2 & Hr2 & Hn2 & Hs2 & Hl2).
    { apply Hs1. }
    { rewrite !zlen_app in *. lia. }
    pose proof (config_inv _ _ (st_config _ _ _ _ _ _ _ Hs1))
      as (Eo & _ & _ & _ & Ei & _). rewrite Eo, Ei in *.
    exists (n1 ++ n2), j2. rewrite run_bind, Hr1.
    assert (cuts (dump_data_block_threshold (jn_options j)) pending
              (id :: matched (known (jn_items j)) ids)
            = ((example_ids <$> n1) ++ (example_ids <$> n2),
               (cuts (dump_data_block_threshold (jn_options j))
                  (cut (dump_data_block_threshold (jn_options j)) ([], pending) id).2
                  (matched (known (jn_items j)) ids)).2)) as Hspec.
    { unfold cuts. simpl. rewrite Hcut. rewrite foldl_cut_blocks. by rewrite Hn2. }
    rewrite Hspec. split_and!; [done|by rewrite fmap_app|by eapply stepped_trans|].
    rewrite zlen_app, zlen_cons. lia.
  - rewrite decide_False by congruence.
    destruct (IH j new pending Hj ltac:(lia)) as (n2 & j2 & Hr2 & Hn2 & Hs2 & Hl2).
    exists n2, j2. rewrite run_bind, (join_example_unknown _ _ _ Hk). rewrite zlen_cons.
    split_and!; [done|done|done|lia].
Qed.

Lemma flush_parts b pending :
  flush b ([], pending) = (if b && negb (bool_decide (pending = [])) then [pending] else [],
                           if b && negb (bool_decide (pending = [])) then [] else pending).
Proof. unfold flush. simpl. by destruct (_ && _). Qed.

(** Finishing the pending block, if there is one and [b] asks for it. *)
Lemma flush_run j base new pending (b fin : bool) :
  jrep j base new pending → zlen (base ++ new) < 2 ^ 53 →
  ∃ new' j', (if b then
                cur ← acquire_data_block_maker false;
                match cur with Some _ => yield_finalizer fin | None => mret tt end
              else mret tt) j = (Ret tt, j') ∧
    example_ids <$> new' = (flush b ([], pending)).1 ∧
    stepped j j' base new new' (flush b ([], pending)).2 fin ∧ zlen new' ≤ 1.
Proof.
  intros Hj Hb. rewrite flush_parts. simpl.
  pose proof Hj as [Hc Hm]. destruct b; simpl.
  - rewrite run_bind. unfold acquire_data_block_maker. rewrite run_bind. simpl.
    destruct (jn_maker j) as [m|] eqn:Em; simpl.
    + destruct Hm as [Hne Ho]. rewrite bool_decide_eq_false_2 by done. simpl.
      destruct (finalizer_stepped j base new m pending fin) as (x & j' & Hr & Hx & Hs);
        try done.
      exists [x], j'. simpl. by rewrite Hx.
    + subst pending. simpl. exists [], j. split_and!; try done. by apply stepped_refl.
  - exists [], j. split_and!; try done. by apply stepped_refl.
Qed.

Lemma join_batch_run lite j base new pending :
  jrep j base new pending → zlen (base ++ new) + zlen (le_example_id lite) < 2 ^ 53 →
  let spec := batch_spec (dump_data_block_threshold (jn_options j)) (known (jn_items j))
                pending (le_example_id lite) (le_finished lite) in
  ∃ new' j', join_batch lite j = (Ret tt, j') ∧ example_ids <$> new' = spec.1 ∧
    stepped j j' base new new' spec.2 (le_finished lite) ∧
    zlen new' ≤ zlen (le_example_id lite) + 1.
Proof.
  intros Hj Hb spec.
  destruct (join_examples_run (le_example_id lite) j base new pending (le_finished lite) Hj)
    as (n1 & j1 & Hr1 & Hn1 & Hs1 & Hl1); [lia|].
  destruct (flush_run j1 base (new ++ n1) _ (le_finished lite) (le_finished lite)
              (st_rep _ _ _ _ _ _ _ Hs1)) as (n2 & j2 & Hr2 & Hn2 & Hs2 & Hl2).
  { rewrite (assoc_L (++)), zlen_app. lia. }
  exists (n1 ++ n2), j2.
  assert (spec = ((example_ids <$> n1) ++ (example_ids <$> n2),
                  (flush (le_finished lite)
                     ([], (cuts (dump_data_block_threshold (jn_options j)) pending
                             (matched (known (jn_items j)) (le_example_id lite))).2)).2)) as ->.
  { rewrite Hn1, Hn2. unfold spec, batch_spec.
    destruct (cuts _ _ _) as [bs p]. rewrite flush_parts. unfold flush. simpl.
    destruct (_ && _); simpl; by rewrite ?app_nil_r. }
  split_and!.
  - unfold join_batch. rewrite run_bind.
    assert ((if 0 <? zlen (le_example_id lite)
             then forM (le_example_id lite) (join_example (le_finished lite)) else mret tt) j
            = (Ret tt, j1)) as ->; [|exact Hr2].
    destruct (Z.ltb_spec 0 (zlen (le_example_id lite))); [done|].
    pose proof (zlen_nonneg (le_example_id lite)).
    assert (le_example_id lite = []) as Hnil by (apply zlen_zero; lia).
    by rewrite Hnil in Hr1.
  - by rewrite fmap_app.
  - by eapply stepped_trans.
  - rewrite zlen_app. lia.
Qed.

(** The clock cuts a block, or not; without a time span it never does. *)
Lemma time_span_check_run j base new pending fin :
  jrep j base new pending → zlen (base ++ new) < 2 ^ 53 →
  (jn_maker j ≠ None → ∃ l, jn_last j = Some l ∧ le_finished l = fin) →
  ∃ b new' j', time_span_check j = (Ret tt, j') ∧
    (dump_data_block_time_span (jn_options j) ≤ 0 → b = false) ∧
    example_ids <$> new' = (flush b ([], pending)).1 ∧
    stepped j j' base new new' (flush b ([], pending)).2 fin ∧ zlen new' ≤ 1.
Proof.
  intros Hj Hb Hl. unfold time_span_check. rewrite run_bind.
  unfold acquire_data_block_maker at 1. rewrite run_bind. simpl.
  destruct (jn_maker j) as [m|] eqn:Em; simpl.
  - destruct Hl as (l & Hl & Hf); [done|]. rewrite run_bind.
    unfold data_block_finalizer_if_time_span, read_clock. rewrite run_bind. simpl.
    set (j1 := jn_set_time _ _ j).
    set (b := (0 <? dump_data_block_time_span (jn_options j)) && _).
    assert (jrep j1 base new pending) as Hj1.
    { destruct Hj as [Hc Hm]. split; [by apply (core_config j)|]. simpl. rewrite Em in *.
      destruct Hm as [? [? ? ? ? ? ? ? ?]]. by split. }
    destruct (flush_run j1 base new pending b fin Hj1 Hb)
      as (n & j2 & Hr & Hn & [S1 S2 S3 S4] & Hln).
    exists b, n, j2. split_and!; [|by unfold b; destruct (Z.ltb_spec 0 (dump_data_block_time_span (jn_options j))); [lia|]|done| |done].
    + rewrite <- Hr. destruct b; [|done]. rewrite run_bind. unfold last_finished.
      rewrite run_bind. simpl. rewrite Hl. simpl. rewrite run_bind. simpl.
      unfold acquire_data_block_maker. rewrite run_bind. simpl. by rewrite Em, Hf.
    + split; try done.
  - exists false, [], j. split_and!; try done. by apply stepped_refl.
Qed.

(** The batch that a turn takes, and the state in which it joins it. *)
Definition turn_ids (j : J) : list string :=
  match jn_queue j with [] => [] | l :: _ => le_example_id l end.
Definition turn_last (j : J) : option LiteExampleIds :=
  match jn_queue j with [] => jn_last j | l :: _ => Some l end.
Definition turn_spec (j : J) (pending : list string) :=
  match jn_queue j with
  | [] => ([], pending)
  | l :: _ => batch_spec (dump_data_block_threshold (jn_options j)) (known (jn_items j))
                pending (le_example_id l) (le_finished l)
  end.
Definition is_finished (l : option LiteExampleIds) : bool :=
  match l with Some l => le_finished l | None => false end.

(** What survives a turn: all but the queue. *)
Definition settings (j : J) :=
  (jn_options j, jn_partition_id j, jn_dir j, jn_source j, jn_items j, jn_restart_index j).

Lemma config_settings j' j : config j' = config j → settings j' = settings j.
Proof.
  intros (A & B & C & D & E & G & _)%config_inv. unfold settings. by rewrite A, B, C, D, E, G.
Qed.

Lemma jrep_settings j j' base new pending :
  settings j' = settings j → jn_world j' = jn_world j → jn_maker j' = jn_maker j →
  jrep j base new pending → jrep j' base new pending.
Proof.
  intros Hs Ew Em [[C1 C2 C3 C4 C5 C6 C7 C8 C9] Hm]. unfold settings in Hs.
  injection Hs as Eo Ep Ed Es Ei Er. split.
  - split; rewrite ?Ew, ?Ep, ?Ed, ?Es, ?Ei, ?Er; try done.
    eapply Forall_impl; [exact C9|]. intros x [B1 B2 B3 B4 B5].
    split; rewrite ?Ep, ?Ed, ?Es, ?Ei; done.
  - rewrite Em. destruct (jn_maker j); [|done].
    destruct Hm as [? [? ? ? ? ? ? ? ?]]. split; [done|].
    split; rewrite ?Ew, ?Eo, ?Ep, ?Ed, ?Es, ?Ei; done.
Qed.

Lemma take_batch_run j base new pending :
  jrep j base new pending → zlen (base ++ new) + zlen (turn_ids j) < 2 ^ 53 →
  ∃ new' j', take_batch j = (Ret tt, j') ∧ example_ids <$> new' = (turn_spec j pending).1 ∧
    jrep j' base (new ++ new') (turn_spec j pending).2 ∧ settings j' = settings j ∧
    jn_queue j' = tail (jn_queue j) ∧ jn_last j' = turn_last j ∧
    jn_yields j' = jn_yields j ++ (Some <$> new') ∧
    jn_finished j' = jn_finished j
      || (is_finished (turn_last j) && negb (bool_decide (new' = []))) ∧
    zlen new' ≤ zlen (turn_ids j) + 1.
Proof.
  intros Hj Hb. unfold take_batch, turn_spec, turn_ids, turn_last in *.
  rewrite run_bind. simpl. destruct (jn_queue j) as [|l q] eqn:Eq.
  - exists [], j. simpl. rewrite !app_nil_r, andb_false_r, orb_false_r. by split_and!.
  - rewrite run_bind. simpl. set (j1 := jn_set_queue q (Some l) j).
    destruct (join_batch_run l j1 base new pending) as (n & j2 & Hr & Hn & [S1 S2 S3 S4] & Hln).
    { by apply (jrep_settings j). } { done. }
    exists n, j2. pose proof (config_inv _ _ S2) as (_ & _ & _ & _ & _ & _ & Q & L).
    split_and!; try done. by rewrite (config_settings _ _ S2).
Qed.

(** One turn of the loop, from [j] to [j']. *)
Record turned (j j' : J) (base new new' : list DataBlockMeta) (pending' : list string) : Prop :=
  mkTurned {
  tu_rep : jrep j' base (new ++ new') pending';
  tu_settings : settings j' = settings j;
  tu_queue : jn_queue j' = tail (jn_queue j);
  tu_last : jn_last j' = turn_last j;
  tu_yields : jn_yields j' = jn_yields j ++ (Some <$> new');
  tu_finished : jn_finished j' = jn_finished j
    || (is_finished (turn_last j) && negb (bool_decide (new' = [])));
  tu_ready : jn_maker j' ≠ None → jn_last j' ≠ None;
  tu_count : zlen new' ≤ zlen (turn_ids j) + 2;
}.

Lemma joiner_turn_run j base new pending :
  jrep j base new pending → zlen (base ++ new) + zlen (turn_ids j) + 1 < 2 ^ 53 →
  jn_finished j = false → (jn_maker j ≠ None → jn_last j ≠ None) →
  ∃ b new' pending' j', joiner_turn j = (Ret true, j') ∧
    (dump_data_block_time_span (jn_options j) ≤ 0 → b = false) ∧
    (example_ids <$> new', pending') = flush b (turn_spec j pending) ∧
    turned j j' base new new' pending'.
Proof.
  intros Hj Hb Hnf Hready.
  destruct (take_batch_run j base new pending Hj)
    as (n1 & j1 & Hr1 & Hn1 & Hj1 & Hs1 & Hq1 & Hl1 & Hy1 & Hf1 & Hc1); [lia|].
  assert (jn_maker j1 ≠ None → jn_last j1 ≠ None) as Hready1.
  { rewrite Hl1. unfold turn_last. destruct (jn_queue j) eqn:Eq; [|done].
    unfold take_batch in Hr1. rewrite run_bind in Hr1. simpl in Hr1. rewrite Eq in Hr1.
    injection Hr1 as <-. done. }
  destruct (time_span_check_run j1 base (new ++ n1) (turn_spec j pending).2
              (is_finished (jn_last j1)) Hj1)
    as (b & n2 & j2 & Hr2 & Hb2 & Hn2 & [S1 S2 S3 S4] & Hc2).
  { rewrite (assoc_L (++)), zlen_app. lia. }
  { intros Hm. specialize (Hready1 Hm). destruct (jn_last j1) as [l|]; [|done]. by exists l. }
  exists b, (n1 ++ n2), (flush b ([], (turn_spec j pending).2)).2, j2.
  pose proof (config_inv _ _ S2) as (_ & _ & _ & _ & _ & _ & Q & L).
  split_and!.
  - unfold joiner_turn. rewrite run_bind. unfold is_data_joiner_finished. simpl. rewrite Hnf.
    by rewrite run_bind, Hr1, run_bind, Hr2.
  - intros Hsp. apply Hb2.
    assert (jn_options j1 = jn_options j) as -> by (unfold settings in Hs1; congruence).
    done.
  - rewrite fmap_app, Hn1, Hn2. destruct (turn_spec j pending) as [bs p].
    rewrite flush_parts. unfold flush. simpl.
    destruct b; simpl; repeat case_bool_decide; simpl; by rewrite ?app_nil_r.
  - split.
    + by rewrite (assoc_L (++)).
    + by rewrite (config_settings _ _ S2).
    + by rewrite Q.
    + by rewrite L.
    + by rewrite S3, Hy1, fmap_app, (assoc_L (++)).
    + rewrite S4, Hf1, Hnf, Hl1. destruct n1, n2; simpl; by destruct (is_finished _).
    + intros Hm. rewrite L. destruct (jn_maker j1) eqn:Em; [by apply Hready1|].
      destruct Hj1 as [_ Hp1]. rewrite Em in Hp1.
      rewrite Hp1, flush_parts in S1. simpl in S1. rewrite andb_false_r in S1.
      unfold time_span_check in Hr2. rewrite run_bind in Hr2.
      unfold acquire_data_block_maker in Hr2. rewrite run_bind in Hr2. simpl in Hr2.
      rewrite Em in Hr2. injection Hr2 as <-. done.
    + rewrite zlen_app. lia.
Qed.

Lemma turned_trans_rep j j' base new new' pending' :
  turned j j' base new new' pending' →
  known (jn_items j') = known (jn_items j) ∧ jn_options j' = jn_options j ∧
  jn_items j' = jn_items j.
Proof.
  intros [_ Hs _ _ _ _ _ _].
  assert (jn_items j' = jn_items j ∧ jn_options j' = jn_options j) as [-> ->]
    by (unfold settings in Hs; split; congruence).
  done.
Qed.

(** ** The whole run *)
Definition batches_ids (q : list LiteExampleIds) : list string := q ≫= le_example_id.
Arguments batches_ids : simpl never.

(** The specification of a queue: every batch in turn. *)
Definition queue_spec (threshold : Z) (known : string → bool) (pending : list string)
    (q : list LiteExampleIds) : list (list string) * list string :=
  foldl (λ st l, let r := batch_spec threshold known st.2 (le_example_id l) (le_finished l) in
                 (st.1 ++ r.1, r.2)) ([], pending) q.

Lemma queue_spec_cons thr kn pending l q :
  queue_spec thr kn pending (l :: q)
  = let r := batch_spec thr kn pending (le_example_id l) (le_finished l) in
    let s := queue_spec thr kn r.2 q in (r.1 ++ s.1, s.2).
Proof.
  unfold queue_spec. simpl.
  generalize (batch_spec thr kn pending (le_example_id l) (le_finished l)) as r.
  intros [bs p]. simpl. clear l pending. revert bs p.
  induction q as [|l q IH]; intros bs p; simpl; [by rewrite app_nil_r|].
  rewrite IH. rewrite (IH (batch_spec _ _ _ _ _).1). simpl.
  by rewrite (assoc_L (++)).
Qed.

Lemma queue_spec_concat thr kn pending q :
  concat (queue_spec thr kn pending q).1 ++ (queue_spec thr kn pending q).2
  = pending ++ matched kn (batches_ids q).
Proof.
  revert pending. induction q as [|l q IH]; intros pending; [by rewrite app_nil_r|].
  rewrite queue_spec_cons. cbv zeta. simpl. rewrite concat_app, <- (assoc_L (++)), IH.
  rewrite (assoc_L (++)), batch_concat, <- (assoc_L (++)), <- matched_app. done.
Qed.

Lemma queue_spec_finished thr kn pending q l :
  le_finished l = true → (queue_spec thr kn pending (q ++ [l])).2 = [].
Proof.
  intros Hl. unfold queue_spec. rewrite foldl_app. simpl. rewrite Hl. unfold batch_spec.
  by destruct (cuts _ _ _) as [bs [|]].
Qed.

Lemma batches_ids_cons l q : batches_ids (l :: q) = le_example_id l ++ batches_ids q.
Proof. done. Qed.

(** A turn keeps the ids of its batch. *)
Lemma turn_concat j pending b bs p :
  (bs, p) = flush b (turn_spec j pending) →
  concat bs ++ p = pending ++ matched (known (jn_items j)) (turn_ids j).
Proof.
  intros Hb. transitivity (concat (turn_spec j pending).1 ++ (turn_spec j pending).2).
  - destruct (turn_spec j pending) as [bs' p']. unfold flush in Hb.
    destruct (_ && _); injection Hb as -> ->; [|done].
    simpl. rewrite concat_app. simpl. by rewrite !app_nil_r.
  - unfold turn_spec, turn_ids. destruct (jn_queue j); [|apply batch_concat].
    simpl. by rewrite app_nil_r.
Qed.

(** Whatever the clock does, the loop keeps the matched ids in their order. *)
Lemma memory_joiner_conserves_aux fuel j base new pending :
  jrep j base new pending → (jn_maker j ≠ None → jn_last j ≠ None) →
  zlen (base ++ new) + zlen (batches_ids (jn_queue j)) + 2 * Z.of_nat fuel < 2 ^ 53 →
  ∃ o new' pending' taken j', memory_joiner_algo fuel j = (o, j') ∧
    (o = Stop NoFuel ∨ o = Ret tt ∧ jn_finished j' = true) ∧
    jrep j' base (new ++ new') pending' ∧
    jn_queue j = taken ++ jn_queue j' ∧
    concat (example_ids <$> new') ++ pending'
      = pending ++ matched (known (jn_items j)) (batches_ids taken) ∧
    jn_yields j' = jn_yields j ++ (Some <$> new').
Proof.
  revert j new pending. induction fuel as [|fuel IH]; intros j new pending Hj Hready Hb.
  { exists (Stop NoFuel), [], pending, [], j. simpl. rewrite !app_nil_r. split_and!; eauto. }
  destruct (jn_finished j) eqn:Hf.
  { exists (Ret tt), [], pending, [], j. simpl. rewrite !app_nil_r.
    split_and!; try done; [|by right]. rewrite run_bind. unfold joiner_turn, is_data_joiner_finished.
    rewrite run_bind. simpl. by rewrite Hf. }
  assert (zlen (batches_ids (jn_queue j))
          = zlen (turn_ids j) + zlen (batches_ids (tail (jn_queue j)))) as Hids.
  { unfold turn_ids. destruct (jn_queue j); [done|]. by rewrite batches_ids_cons, zlen_app. }
  pose proof (zlen_nonneg (batches_ids (tail (jn_queue j)))).
  destruct (joiner_turn_run j base new pending Hj)
    as (b & n1 & p1 & j1 & Hr1 & _ & Hn1 & Ht1); [lia|done|done|].
  pose proof Ht1 as [T1 T2 T3 T4 T5 T6 T7 T8].
  destruct (turned_trans_rep _ _ _ _ _ _ Ht1) as (Ekn & _ & _).
  destruct (IH j1 (new ++ n1) p1 T1 T7)
    as (o & n2 & p2 & taken & j2 & Hr2 & Ho & Hj2 & Hq2 & Hc2 & Hy2).
  { rewrite (assoc_L (++)), zlen_app, T3. lia. }
  pose proof (turn_concat _ _ _ _ _ Hn1) as Hc1.
  exists o, (n1 ++ n2), p2,
    (match jn_queue j with [] => taken | l :: _ => l :: taken end), j2.
  split_and!.
  - simpl. by rewrite run_bind, Hr1.
  - done.
  - by rewrite (assoc_L (++)).
  - rewrite T3 in Hq2. destruct (jn_queue j); simpl in *; [done|]. by rewrite Hq2.
  - rewrite fmap_app, concat_app, <- (assoc_L (++)), Hc2, Ekn, (assoc_L (++)), Hc1.
    unfold turn_ids. destruct (jn_queue j); simpl.
    + by rewrite app_nil_r.
    + by rewrite batches_ids_cons, matched_app, (assoc_L (++)).
  - by rewrite Hy2, T5, fmap_app, (assoc_L (++)).
Qed.

(** Without a time span, the blocks are those of the specification. *)
Lemma memory_joiner_queue_aux q l rest fuel j base new pending :
  jrep j base new pending → (jn_maker j ≠ None → jn_last j ≠ None) →
  jn_queue j = q ++ l :: rest → Forall (λ x, le_finished x = false) q →
  le_finished l = true → dump_data_block_time_span (jn_options j) ≤ 0 →
  jn_finished j = false →
  zlen (base ++ new) + zlen (batches_ids (q ++ [l])) + 2 * zlen (q ++ [l]) < 2 ^ 53 →
  let thr := dump_data_block_threshold (jn_options j) in
  let kn := known (jn_items j) in
  (batch_spec thr kn (queue_spec thr kn pending q).2 (le_example_id l) true).1 ≠ [] →
  (length q + 2 ≤ fuel)%nat →
  ∃ new' j', memory_joiner_algo fuel j = (Ret tt, j') ∧
    example_ids <$> new' = (queue_spec thr kn pending (q ++ [l])).1 ∧
    jrep j' base (new ++ new') [] ∧ jn_queue j' = rest ∧
    jn_yields j' = jn_yields j ++ (Some <$> new') ∧ jn_finished j' = true ∧
    settings j' = settings j.
Proof.
  revert fuel j new pending.
  induction q as [|l0 q IH]; intros fuel j new pending Hj Hready Hq Hunf Hfin Hspan Hnf Hb
    thr kn Hne Hfuel; destruct fuel as [|fuel]; simpl in Hfuel; try lia.
  - simpl in Hb, Hq. rewrite batches_ids_cons, !zlen_app, zlen_cons in Hb.
    pose proof (zlen_nonneg (batches_ids [])). pose proof (zlen_nonneg (@nil LiteExampleIds)).
    destruct (joiner_turn_run j base new pending Hj)
      as (b & n1 & p1 & j1 & Hr1 & Hb1 & Hn1 & [T1 T2 T3 T4 T5 T6 T7 T8]); try done.
    { unfold turn_ids. rewrite Hq. simpl. rewrite zlen_app. lia. }
    rewrite (Hb1 Hspan) in Hn1. unfold flush, turn_spec in Hn1. simpl in Hn1.
    rewrite Hq, Hfin in Hn1. fold thr kn in Hn1. rewrite Hq in T3. simpl in T3.
    unfold queue_spec in *. simpl. simpl in Hne. rewrite Hfin.
    assert (example_ids <$> n1 = (batch_spec thr kn pending (le_example_id l) true).1) as Hn1'
      by (by rewrite <- Hn1).
    assert (jn_finished j1 = true) as Hf1.
    { rewrite T6, Hnf. unfold turn_last. rewrite Hq. simpl. rewrite Hfin. simpl.
      rewrite bool_decide_eq_false_2; [done|]. intros ->. by rewrite <- Hn1' in Hne. }
    assert (p1 = []) as ->.
    { apply (f_equal snd) in Hn1. simpl in Hn1. rewrite Hn1. unfold batch_spec.
      destruct (cuts _ _ _) as [bs [|]]; done. }
    destruct fuel as [|fuel]; [lia|].
    exists n1, j1. split_and!; try done.
    rewrite run_bind, Hr1. simpl. rewrite run_bind. unfold joiner_turn, is_data_joiner_finished.
    rewrite run_bind. simpl. by rewrite Hf1.
  - apply Forall_cons in Hunf as [Hunf0 Hunf].
    simpl app in Hb. rewrite batches_ids_cons, zlen_app in Hb.
    rewrite (zlen_app (le_example_id l0)), zlen_cons in Hb.
    pose proof (zlen_nonneg (batches_ids (q ++ [l]))). pose proof (zlen_nonneg (q ++ [l])).
    destruct (joiner_turn_run j base new pending Hj)
      as (b & n1 & p1 & j1 & Hr1 & Hb1 & Hn1 & Ht1); try done.
    { unfold turn_ids. rewrite Hq. simpl. rewrite zlen_app. lia. }
    pose proof Ht1 as [T1 T2 T3 T4 T5 T6 T7 T8].
    destruct (turned_trans_rep _ _ _ _ _ _ Ht1) as (Ekn & Eopt & Eit).
    rewrite (Hb1 Hspan) in Hn1. unfold flush, turn_spec in Hn1. simpl in Hn1.
    rewrite Hq in Hn1, T3. simpl in Hn1, T3. rewrite Hunf0 in Hn1. fold thr kn in Hn1.
    assert (jn_finished j1 = false) as Hf1.
    { rewrite T6, Hnf. unfold turn_last. rewrite Hq. simpl. by rewrite Hunf0. }
    simpl app. rewrite queue_spec_cons in Hne |- *. rewrite Hunf0 in *. rewrite <- Hn1 in *.
    cbv zeta in *. simpl in Hne |- *.
    destruct (IH fuel j1 (new ++ n1) p1) as (n2 & j2 & Hr2 & Hn2 & Hj2 & Hq2 & Hy2 & Hf2 & Hs2);
      try done; try (rewrite ?Eopt, ?Ekn; done).
    { unfold turn_ids in T8. rewrite Hq in T8. simpl in T8.
      rewrite (assoc_L (++)), !zlen_app in *. lia. }
    { lia. }
    rewrite Eopt, Ekn in Hn2. fold thr kn in Hn2.
    exists (n1 ++ n2), j2. split_and!; try done.
    + by rewrite run_bind, Hr1.
    + by rewrite fmap_app, Hn2.
    + by rewrite (assoc_L (++)).
    + by rewrite Hy2, T5, fmap_app, (assoc_L (++)).
    + by rewrite Hs2, T2.
Qed.
End refinement.

(** A joiner over three records and an empty store. *)
Module TestJoiner.
Import TestUtils TestStore TestRecords TestWorld.

#[export] Instance test_clock : Clock := { time_at n := inject_Z (Z.of_nat n) }.

Definition options (span threshold : Z) : ExampleJoinerOptions :=
  mkJoinOpt "MEMORY_JOINER" 0 0 span threshold.
Definition batch (ids : list string) (finished : bool) : LiteExampleIds :=
  mkLite 0 0 ids [] finished.
Definition items : list (pyid * string) :=
  [(PyBytes "a", "a"); (PyBytes "b", "b"); (PyBytes "c", "c")].
Definition start (span threshold : Z) (q : list LiteExampleIds) : joiner MemFs :=
  mkJoiner (w_of 0) (options span threshold) 0 "blocks" "src" items true q None None 0 false
    (time_at 0) 1 [].

Lemma start_rep span threshold q : jrep (start span threshold q) [] [] [].
Proof.
  split; [|done]. split; [by apply (rep_of 0 0)|done|done|done|apply writable_of|done|done| |done].
  intros id r Hr%Dict.get_Some_In. apply list_elem_of_In in Hr.
  destruct Hr as [Hr|[Hr|[Hr|[]]]];
    simplify_eq; exists 1; split; reflexivity.
Qed.
End TestJoiner.

(** ** Properties *)
Section properties.
Context {F : Type} `{GFileLaws F} `{UtilsLaws} `{TFExample} `{Clock}.
Context (post_ok : ∀ u l, http_post u l = Ret tt).

(** C16.  The memory joiner computes its specification, when no time span is
    set: over a queue of batches of which the last alone is finished, and which
    leaves that batch something to write (an id that the joiner knows or a block
    still open), the loop ends and has written, in order, the blocks that cut the
    matched ids of the leader's batches at the threshold and at the last batch,
    every one with the records of its ids and stored in the log; nothing is left
    pending and later batches stay in the queue.  When the last batch leaves
    nothing to write the joiner does not end at all ([memory_joiner_spins]). *)
Theorem memory_joiner_cuts_the_queue q l rest fuel (j : joiner F) base new pending :
  jrep j base new pending → (jn_maker j ≠ None → jn_last j ≠ None) →
  jn_queue j = q ++ l :: rest → Forall (λ x, le_finished x = false) q →
  le_finished l = true → dump_data_block_time_span (jn_options j) ≤ 0 →
  jn_finished j = false →
  zlen (base ++ new) + zlen (batches_ids (q ++ [l])) + 2 * zlen (q ++ [l]) < 2 ^ 53 →
  let thr := dump_data_block_threshold (jn_options j) in
  let kn := known (jn_items j) in
  (batch_spec thr kn (queue_spec thr kn pending q).2 (le_example_id l) true).1 ≠ [] →
  (length q + 2 ≤ fuel)%nat →
  ∃ new' j', memory_joiner_algo fuel j = (Ret tt, j') ∧
    example_ids <$> new' = (queue_spec thr kn pending (q ++ [l])).1 ∧
    jrep j' base (new ++ new') [] ∧ jn_queue j' = rest ∧
    jn_yields j' = jn_yields j ++ (Some <$> new') ∧ jn_finished j' = true.
Proof.
  intros. edestruct memory_joiner_queue_aux as (new' & j' & R); [eassumption..|].
  exists new', j'. by destruct R as (? & ? & ? & ? & ? & ? & _).
Qed.

(** C35.  Whatever the clock says, the joiner loses, repeats and reorders
    nothing: after any number of turns the ids of the blocks it has written
    followed by the pending ones are exactly the matched ids of the batches it
    has taken, and it has either run out of turns or finished. *)
Theorem memory_joiner_conserves_ids fuel (j : joiner F) base new pending :
  jrep j base new pending → (jn_maker j ≠ None → jn_last j ≠ None) →
  zlen (base ++ new) + zlen (batches_ids (jn_queue j)) + 2 * Z.of_nat fuel < 2 ^ 53 →
  ∃ o new' pending' taken j', memory_joiner_algo fuel j = (o, j') ∧
    (o = Stop NoFuel ∨ o = Ret tt ∧ jn_finished j' = true) ∧
    jrep j' base (new ++ new') pending' ∧
    jn_queue j = taken ++ jn_queue j' ∧
    concat (example_ids <$> new') ++ pending'
      = pending ++ matched (known (jn_items j)) (batches_ids taken) ∧
    jn_yields j' = jn_yields j ++ (Some <$> new').
Proof. apply memory_joiner_conserves_aux; done. Qed.

(** The joiner never ends when the finished batch leaves nothing to
    write: with the queue empty, no block open and the flag not set, every
    turn leaves the state as it is. *)
Theorem memory_joiner_spins fuel (j : joiner F) :
  jn_queue j = [] → jn_maker j = None → jn_finished j = false →
  memory_joiner_algo fuel j = (Stop NoFuel, j).
Proof.
  intros Hq Hm Hf. induction fuel as [|fuel IH]; [done|]. cbn [memory_joiner_algo].
  assert (joiner_turn j = (Ret true, j)) as Ht; [|by rewrite run_bind, Ht].
  unfold joiner_turn, is_data_joiner_finished, take_batch, time_span_check,
    acquire_data_block_maker.
  mrun. rewrite Hf. mrun. rewrite Hq. mrun. rewrite Hm. by mrun.
Qed.
End properties.

Section witnesses.
Import TestUtils TestStore TestRecords TestWorld TestJoiner.

Lemma memory_joiner_cuts_the_queue_witness :
  let j := start 0 2 [batch ["b"; "x"; "a"; "c"] false; batch ["c"] true] in
  ∃ new' j', memory_joiner_algo 3 j = (Ret tt, j') ∧
    example_ids <$> new' = [["b"; "a"]; ["c"; "c"]] ∧
    jrep j' [] new' [] ∧ jn_queue j' = [] ∧
    jn_yields j' = Some <$> new' ∧ jn_finished j' = true.
Proof.
  intros j.
  apply (memory_joiner_cuts_the_queue test_post_ok [batch ["b"; "x"; "a"; "c"] false]
           (batch ["c"] true) [] 3 j [] [] []).
  - apply start_rep.
  - done.
  - reflexivity.
  - by repeat (apply Forall_cons_2 || apply Forall_nil_2).
  - reflexivity.
  - reflexivity.
  - reflexivity.
  - reflexivity.
  - vm_compute. discriminate.
  - simpl. lia.
Defined.

Lemma memory_joiner_conserves_ids_witness :
  let j := start 1 5 [batch ["b"; "x"; "a"] false; batch ["c"] true] in
  ∃ o new' pending' taken j', memory_joiner_algo 4 j = (o, j') ∧
    (o = Stop NoFuel ∨ o = Ret tt ∧ jn_finished j' = true) ∧
    jrep j' [] ([] ++ new') pending' ∧
    jn_queue j = taken ++ jn_queue j' ∧
    concat (example_ids <$> new') ++ pending'
      = [] ++ matched (known (jn_items j)) (batches_ids taken) ∧
    jn_yields j' = [] ++ (Some <$> new').
Proof.
  intros j. apply (memory_joiner_conserves_ids test_post_ok 4 j [] [] []).
  - apply start_rep.
  - done.
  - reflexivity.
Defined.

(** The finished batch matches nothing: the loop has taken it and spins. *)
Lemma memory_joiner_spins_witness :
  (memory_joiner_algo 1 (start 0 2 [batch ["x"] true])).1 = Stop NoFuel ∧
  (let j := (memory_joiner_algo 1 (start 0 2 [batch ["x"] true])).2 in
   memory_joiner_algo 100 j = (Stop NoFuel, j)).
Proof. split; [reflexivity|apply memory_joiner_spins; reflexivity]. Defined.
End witnesses.
