(* ===== verification/DataBlockSaver.v ===== *)
(** * DataBlockSaver (data_join/data_block_saver.py)

    The leader's side of a data block: it buffers the metas that the follower
    sends, in the order of their indices, and writes the block of each meta from
    its own raw data.  Specification: the buffer continues the log of the store
    ([srep]), and saving moves the metas of the buffer to the log. *)

From stdpp Require Import base tactics list gmap strings.
From Stdlib Require Import ZArith Lia.
From S2P Require Import Prelude PyStd Messages Env DataBlockManager DataBlockMaker RawData.

Open Scope Z_scope.

Record saver (F : Type) := mkSaver {
  sv_world : world F;
  sv_partition_id : Z;
  sv_dir : string;
  sv_source : string;
  sv_items : list (pyid * string);
  sv_finish : bool;
  sv_next : Z;
  sv_buffer : list DataBlockMeta;
  sv_switch : bool;
}.
Arguments mkSaver {_}.
Arguments sv_world {_}.
Arguments sv_partition_id {_}.
Arguments sv_dir {_}.
Arguments sv_source {_}.
Arguments sv_items {_}.
Arguments sv_finish {_}.
Arguments sv_next {_}.
Arguments sv_buffer {_}.
Arguments sv_switch {_}.

Section setters.
Context {F : Type}.

Definition sv_set_world x (s : saver F) : saver F :=
  mkSaver x (sv_partition_id s) (sv_dir s) (sv_source s) (sv_items s) (sv_finish s)
    (sv_next s) (sv_buffer s) (sv_switch s).
Definition sv_set_finish x (s : saver F) : saver F :=
  mkSaver (sv_world s) (sv_partition_id s) (sv_dir s) (sv_source s) (sv_items s) x
    (sv_next s) (sv_buffer s) (sv_switch s).
Definition sv_set_buffer n b (s : saver F) : saver F :=
  mkSaver (sv_world s) (sv_partition_id s) (sv_dir s) (sv_source s) (sv_items s) (sv_finish s)
    n b (sv_switch s).
Definition sv_set_switch x (s : saver F) : saver F :=
  mkSaver (sv_world s) (sv_partition_id s) (sv_dir s) (sv_source s) (sv_items s) (sv_finish s)
    (sv_next s) (sv_buffer s) x.
End setters.

Section saver.
Context {F : Type} `{GFile F} `{Utils}.
Local Abbreviation S := (saver F).

Definition sv_in_world {A} (c : M (world F) A) : M S A := zoom sv_world sv_set_world c.
Definition sv_in_manager {A} (c : M (manager * F) A) : M S A :=
  sv_in_world (zoom (λ w, (w_mgr w, w_fs w)) w_set_mf c).

(** [DataBlockSaver(partition_id, init_raw_data_loading, dir, name)] *)
Definition new_saver (pid : Z) (items : list (pyid * string)) (dir name : string)
    (uuid : nat) (distribute : bool) : M F S := λ fs,
  match new_manager pid dir name fs with
  | (Stop r, fs') => (Stop r, fs')
  | (Ret mgr, fs') =>
      match acquire_produced_data_block_number (mgr, fs') with
      | (Stop r, (_, fs'')) => (Stop r, fs'')
      | (Ret n, (mgr', fs'')) =>
          (Ret (mkSaver (mkWorld fs'' uuid mgr' [] distribute) pid dir name items
                  false n [] false), fs'')
      end
  end.

Definition append_sent_data_block_meta_to_buffer (meta : DataBlockMeta) : M S (bool * Z) :=
  s ← getM;
  require (negb (sv_finish s)) RuntimeError;;
  if negb (sv_next s =? data_block_index meta) then mret (false, sv_next s)
  else
    modify (sv_set_buffer (sv_next s + 1) (sv_buffer s ++ [meta]));;
    mret (true, sv_next s + 1).

Definition finish_sent_data_block_meta : M S unit := modify (sv_set_finish true).
Definition fetch_next_data_block_index : M S Z := gets sv_next.
Definition is_need_save : M S bool := gets (λ s, 0 <? zlen (sv_buffer s)).
Definition is_finish_sent_data_block_meta : M S bool := gets sv_finish.
Definition get_switch_state : M S unit := modify (sv_set_switch true).
Definition free_switch_state : M S unit := modify (sv_set_switch false).
Definition is_switch_state : M S bool := gets sv_switch.
Definition get_next_data_block_meta_from_buffer : M S (option DataBlockMeta) :=
  gets (λ s, head (sv_buffer s)).

(** Running an operation of a maker whose meta is the head of the buffer: the
    maker changes that object in place. *)
Definition set_head {A} (x : A) (l : list A) : list A :=
  match l with [] => [] | _ :: l' => x :: l' end.
Definition in_shared_maker {A} (m : maker) (c : M (maker * world F) A) : M S A := λ s,
  match c (m, sv_world s) with
  | (o, (m', w')) =>
      (o, sv_set_buffer (sv_next s) (set_head (mk_meta m') (sv_buffer s)) (sv_set_world w' s))
  end.

(** The loop over the ids, for the records that are found. *)
Definition save_known_record (items : list (pyid * string)) (id : string)
    : M (maker * world F) unit :=
  match Dict.get (PyBytes id) items with
  | Some r => save_data_record r
  | None => mret tt
  end.

(** [with self._build_data_block_maker(meta) as maker: ...] for the head of
    the buffer.  Every exception is handled by a [print_exc] that raises. *)
Definition save_data_block_with_meta (meta : DataBlockMeta) : M S unit :=
  s ← getM;
  assertM (sv_partition_id s =? partition_id meta);;
  catchM
    (m ← sv_in_world (new_maker (sv_dir s) (sv_source s) (sv_partition_id s)
                        (data_block_index meta) None);
     saved ← in_shared_maker m
       (init_maker_by_input_meta meta;;
        build_data_block_manager;;
        forM (example_ids meta) (save_known_record (sv_items s));;
        saved ← data_block_finalizer;
        cur ← gets (λ st : maker * world F, mk_meta st.1);
        mret (saved, cur));
     assertM (bool_decide (saved.1 = Some saved.2));;
     b ← gets sv_buffer;
     match b with
     | [] => raiseM IndexError
     | x :: b' =>
         assertM (bool_decide (x = saved.2));;
         modify (λ s, sv_set_buffer (sv_next s) b' s)
     end)
    (λ _, liftO print_exc_with_str).

Definition save_next : M S unit :=
  next ← get_next_data_block_meta_from_buffer;
  match next with
  | Some meta => save_data_block_with_meta meta
  | None => mret tt
  end.

(** Every turn drops one meta or raises: the buffer's length is enough fuel. *)
Definition save_data_blocks : M S unit :=
  s ← getM;
  whileM (Datatypes.S (length (sv_buffer s))) is_need_save save_next.

(** [buffer[removed_number:]]: the metas before the first that is not stored *)
Fixpoint drop_saved (next : Z) (b : list DataBlockMeta) : list DataBlockMeta :=
  match b with
  | [] => []
  | x :: b' => if next <=? data_block_index x then b else drop_saved next b'
  end.
Definition remove_saved_data_block_meta_from_buffer : M S unit :=
  n ← sv_in_manager acquire_produced_data_block_number;
  modify (λ s, sv_set_buffer (sv_next s) (drop_saved n (sv_buffer s)) s).

Definition notify_data_block_manager_sync_state : M S unit :=
  sw ← is_switch_state;
  if (sw : bool) then remove_saved_data_block_meta_from_buffer else mret tt.

(** [with wrap.build_data_block_saver() as saver: saver()]: the state switch
    stays on when the body raises. *)
Definition build_data_block_saver : M S unit :=
  notify_data_block_manager_sync_state;;
  get_switch_state;;
  save_data_blocks;;
  free_switch_state.
End saver.

(** ** Refinement *)
Section refinement.
Context {F : Type} `{GFileLaws F} `{UtilsLaws}.
Context (post_ok : ∀ u l, http_post u l = Ret tt).
Local Abbreviation S := (saver F).

(** [srep s log]: the store of [s] holds [log], and its buffer continues it. *)
Record srep (s : S) (log : list DataBlockMeta) : Prop := mkSrep {
  sp_rep : rep (w_mgr (sv_world s)) (w_fs (sv_world s)) log;
  sp_dir : mg_dir (w_mgr (sv_world s)) = sv_dir s;
  sp_source : mg_source (w_mgr (sv_world s)) = sv_source s;
  sp_pid : mg_partition_id (w_mgr (sv_world s)) = sv_partition_id s;
  sp_pid64 : in_int64 (sv_partition_id s) = true;
  sp_writable : dir_writable (sv_dir s) (sv_source s) (sv_partition_id s) (w_fs (sv_world s));
  sp_buffer i x : sv_buffer s !! i = Some x →
    data_block_index x = zlen log + Z.of_nat i ∧ partition_id x = sv_partition_id s;
  sp_next : sv_next s = zlen log + zlen (sv_buffer s);
}.

Lemma append_in_turn s log x :
  srep s log → sv_finish s = false → data_block_index x = sv_next s →
  partition_id x = sv_partition_id s →
  let s' := sv_set_buffer (sv_next s + 1) (sv_buffer s ++ [x]) s in
  append_sent_data_block_meta_to_buffer x s = (Ret (true, sv_next s + 1), s') ∧ srep s' log.
Proof.
  intros [A1 A2 A3 A4 A5 A6 A7 A8] Hf Hx Hp s'. split.
  - unfold append_sent_data_block_meta_to_buffer. rewrite run_bind. simpl. rewrite Hf.
    rewrite run_bind. simpl. by rewrite Hx, Z.eqb_refl.
  - split; try done; simpl.
    + intros i y [Hy|[Hi Hy]]%lookup_app_Some; [by apply A7|].
      apply list_lookup_singleton_Some in Hy as [Hi' <-]. split; [|done].
      rewrite Hx, A8. unfold zlen. lia.
    + rewrite zlen_app, zlen_cons, A8. unfold zlen. simpl. lia.
Qed.

(** A meta whose examples the raw data has. *)
Definition savable (items : list (pyid * string)) (x : DataBlockMeta) : Prop :=
  example_ids x ≠ [] ∧ Forall (λ id, known items id = true) (example_ids x).

Definition with_id (s : S) (x : DataBlockMeta) : DataBlockMeta :=
  set_block_id (block_id_wrap (sv_source s) x) x.

Definition block_file (s : S) (x : DataBlockMeta) : string :=
  data_path (sv_dir s) (sv_source s) (sv_partition_id s) x.

Definition sv_settings (s : S) :=
  (sv_partition_id s, sv_dir s, sv_source s, sv_items s, sv_finish s, sv_next s, sv_switch s).

Definition put_record (r : string) (m : maker) : maker :=
  mk_set_num (mk_saved_example_num m + 1) (mk_set_written (mk_written m ++ [r]) m).

Lemma save_records_run items ids m (w : world F) :
  Forall (λ id, known items id = true) ids →
  forM ids (save_known_record items) (m, w)
    = (Ret tt, (mk_set_num (mk_saved_example_num m + zlen ids)
                  (mk_set_written (mk_written m ++ (record_of items <$> ids)) m), w)).
Proof.
  intros Hall. revert m. induction Hall as [|id ids Hid Hall IH]; intros m.
  - simpl. rewrite app_nil_r. change (zlen []) with 0. rewrite Z.add_0_r. by destruct m.
  - cbn [forM]. rewrite run_bind. unfold save_known_record at 1.
    rewrite (known_get _ _ Hid). unfold save_data_record, write_record, count_saved, on_maker.
    rewrite run_bind. cbn [modify fst snd]. unfold modify. rewrite IH. simpl.
    rewrite zlen_cons, <- (assoc_L (++)). simpl.
    by replace (mk_saved_example_num m + 1 + zlen ids)
      with (mk_saved_example_num m + (zlen ids + 1)) by lia.
Qed.

(** Saving the head of the buffer. *)
Lemma save_head_run s log x b :
  srep s log → sv_buffer s = x :: b → savable (sv_items s) x → zlen log < 2 ^ 53 →
  ∃ s', save_data_block_with_meta x s = (Ret tt, s') ∧ srep s' (log ++ [with_id s x]) ∧
    sv_buffer s' = b ∧ sv_settings s' = sv_settings s ∧
    gf_files (w_fs (sv_world s')) !! block_file s (with_id s x)
      = Some (record_of (sv_items s) <$> example_ids x) ∧
    (∀ y, data_block_index y ≠ data_block_index x →
      gf_files (w_fs (sv_world s')) !! block_file s y
      = gf_files (w_fs (sv_world s)) !! block_file s y).
Proof.
  intros [A1 A2 A3 A4 A5 A6 A7 A8] Hb [Hne Hall] Hlt. pose proof (zlen_nonneg log).
  destruct (A7 0%nat x) as [Hx Hp]; [by rewrite Hb|]. rewrite Z.add_0_r in Hx.
  destruct (new_maker_run (sv_dir s) (sv_source s) (sv_partition_id s) (zlen log) None
              (sv_world s)) as (fs1 & Hnew & Hf1 & Hw1).
  { done. } { apply in_int64_small. lia. } { done. }
  set (m0 := mkMaker _ _ _ _ _ _ _ _ _ _) in Hnew.
  set (w1 := w_set_fs fs1 (w_next_uuid (sv_world s))) in *.
  set (ids := example_ids x) in *. set (recs := record_of (sv_items s) <$> ids).
  set (m1 := mkMaker (sv_source s) true (0 + zlen ids) (sv_partition_id s) x None (sv_dir s)
               (mk_tmp_path m0) 1 ([] ++ recs)).
  assert (∀ p, (∀ k c, p ≠ tmp_path (sv_dir s) (sv_partition_id s) k c) →
            gf_files fs1 !! p = gf_files (w_fs (sv_world s)) !! p) as Hfr.
  { intros p Hp'. rewrite Hf1, lookup_insert_ne; [done|]. symmetry. apply Hp'. }
  destruct (finalizer_rep m1 w1 log ids recs)
    as (m2 & w2 & Hfin & Hm2 & Hr2 & (S1 & S2 & S3) & Hdata & Hother & Hwr & _); try done.
  { split; try done. simpl. by eauto. simpl. destruct A6. split; intros; apply Hw1; auto. }
  { apply (rep_frame _ _ _ _ A1); [|done]. intros i. apply Hfr. intros k c.
    rewrite rep_path, A2, A4. symmetry. apply tmp_path_ne_meta. }
  change (set_block_id _ _) with (with_id s x) in *.
  exists (sv_set_buffer (sv_next s) b (sv_set_world w2 s)). split_and!.
  - unfold save_data_block_with_meta. rewrite run_bind. simpl. rewrite Hp, Z.eqb_refl.
    rewrite run_bind. simpl. unfold catchM. rewrite run_bind. unfold sv_in_world at 1, zoom.
    rewrite Hx. rewrite Hnew. rewrite run_bind. unfold in_shared_maker at 1. simpl.
    change (maker * world F)%type with (maker * world F)%type.
    rewrite run_bind. unfold init_maker_by_input_meta, on_maker, modify. simpl.
    rewrite run_bind. unfold build_data_block_manager, on_maker, modify. simpl.
    rewrite run_bind, save_records_run by done. simpl.
    change (mk_set_num _ _) with (mkMaker (sv_source s) true (0 + zlen ids) (partition_id x) x
      None (sv_dir s) (mk_tmp_path m0) 1 ([] ++ recs)).
    rewrite Hp. fold m1. rewrite run_bind. rewrite Hfin. simpl. rewrite Hm2.
    rewrite bool_decide_true by done. rewrite Hb, run_bind. simpl.
    rewrite run_bind. simpl. by rewrite bool_decide_true.
  - change (w_mgr w1) with (w_mgr (sv_world s)) in *.
    split; simpl; try congruence; try done.
    + split; intros; apply Hwr, Hw1; apply A6.
    + intros i y Hy. rewrite zlen_app, zlen_cons. change (zlen []) with 0.
      destruct (A7 (Datatypes.S i) y) as [-> ->]; [by rewrite Hb|]. split; [lia|done].
    + rewrite zlen_app, zlen_cons, A8, Hb, zlen_cons. change (zlen []) with 0. lia.
  - done.
  - done.
  - done.
  - intros y Hy. simpl. rewrite Hother.
    + apply Hfr. intros k c. symmetry. apply tmp_path_ne_data.
    + split; intros; [apply not_eq_sym, tmp_path_ne_data|apply data_path_ne_meta].
    + intros Heq%data_path_inj. simpl in Heq. congruence.
Qed.

Lemma sv_settings_inv (s' s : S) : sv_settings s' = sv_settings s →
  sv_partition_id s' = sv_partition_id s ∧ sv_dir s' = sv_dir s ∧
  sv_source s' = sv_source s ∧ sv_items s' = sv_items s.
Proof. unfold sv_settings. intros Hs. split_and!; congruence. Qed.

(** Saving the whole buffer. *)
Lemma save_loop_run b : ∀ s log n,
  srep s log → sv_buffer s = b → Forall (savable (sv_items s)) b →
  zlen log + zlen b ≤ 2 ^ 53 → (length b < n)%nat →
  ∃ s', whileM n is_need_save save_next s = (Ret tt, s') ∧
    srep s' (log ++ (with_id s <$> b)) ∧ sv_buffer s' = [] ∧ sv_settings s' = sv_settings s ∧
    (∀ x, x ∈ b → gf_files (w_fs (sv_world s')) !! block_file s (with_id s x)
                  = Some (record_of (sv_items s) <$> example_ids x)) ∧
    (∀ y, data_block_index y < zlen log →
      gf_files (w_fs (sv_world s')) !! block_file s y
      = gf_files (w_fs (sv_world s)) !! block_file s y).
Proof.
  induction b as [|x b IH]; intros s log [|n] Hr Hb Hall Hlen Hn; simpl in Hn; try lia;
    cbn [whileM]; rewrite run_bind; simpl; rewrite Hb.
  { exists s. simpl. rewrite app_nil_r. split_and!; try done. intros y Hy. by apply elem_of_nil in Hy. }
  apply Forall_cons in Hall as [Hx Hall]. rewrite zlen_cons in *. pose proof (zlen_nonneg b).
  destruct (save_head_run s log x b Hr Hb Hx) as (s1 & Hrun & Hr1 & Hb1 & Hs1 & Hd1 & Ho1);
    [lia|].
  rewrite (proj2 (Z.ltb_lt _ _)) by lia.
  assert (save_next s = (Ret tt, s1)) as Hnext.
  { unfold save_next. rewrite run_bind. simpl. by rewrite Hb. }
  rewrite run_bind, Hnext. destruct (sv_settings_inv _ _ Hs1) as (E1 & E2 & E3 & E4).
  assert (with_id s1 = with_id s ∧ block_file s1 = block_file s) as [Ew Ef].
  { unfold with_id, block_file. by rewrite E1, E2, E3. }
  destruct (IH s1 (log ++ [with_id s x]) n Hr1 Hb1) as (s2 & Hrun2 & Hr2 & Hb2 & Hs2 & Hd2 & Ho2).
  { by rewrite E4. } { rewrite zlen_app, zlen_cons. change (zlen []) with 0. lia. } { lia. }
  rewrite Ew, Ef, E4 in *. destruct (sp_buffer _ _ Hr 0 x) as [Hxi _]; [by rewrite Hb|].
  rewrite zlen_app, zlen_cons in Ho2. change (zlen []) with 0 in Ho2.
  exists s2. split_and!; try done.
  - simpl. by rewrite (cons_middle (with_id s x)), (assoc_L (++)).
  - by rewrite Hs2.
  - intros y [->|Hy]%elem_of_cons; [|by apply Hd2].
    rewrite Ho2; [done|]. simpl. lia.
  - intros y Hy. rewrite Ho2 by lia. apply Ho1. lia.
Qed.

(** A meta with an unknown id cannot be saved, now or later: the head of the
    buffer stays, with its block id written in. *)
Lemma save_unknown_run s log x b :
  srep s log → sv_buffer s = x :: b →
  Exists (λ id, known (sv_items s) id = false) (example_ids x) → zlen log < 2 ^ 53 →
  ∃ s', save_data_block_with_meta x s = (raise TypeError, s') ∧
    sv_buffer s' = sv_buffer s ∧ w_mgr (sv_world s') = w_mgr (sv_world s) ∧
    sv_switch s' = sv_switch s.
Proof.
  intros [A1 A2 A3 A4 A5 A6 A7 A8] Hb Hex Hlt. pose proof (zlen_nonneg log).
  destruct (A7 0%nat x) as [Hx Hp]; [by rewrite Hb|]. rewrite Z.add_0_r in Hx.
  destruct (new_maker_run (sv_dir s) (sv_source s) (sv_partition_id s) (zlen log) None
              (sv_world s)) as (fs1 & Hnew & Hf1 & Hw1).
  { done. } { apply in_int64_small. lia. } { done. }
  assert (∀ ids (m : maker) (w : world F), ∃ m',
      forM ids (save_known_record (sv_items s)) (m, w) = (Ret tt, (m', w)) ∧
      mk_meta m' = mk_meta m ∧
      mk_saved_example_num m' = mk_saved_example_num m
        + zlen (filter (λ id, known (sv_items s) id = true) ids)) as Hloop.
  { induction ids as [|id ids IH]; intros m w.
    - exists m. change (zlen (filter _ [])) with 0. rewrite Z.add_0_r. done.
    - cbn [forM]. rewrite filter_cons, run_bind. unfold save_known_record at 1.
      destruct (known (sv_items s) id) eqn:Hk.
      + rewrite (known_get _ _ Hk), decide_True, zlen_cons by done.
        destruct (IH (put_record (record_of (sv_items s) id) m) w) as (m' & Hr & Hm & Hn).
        exists m'. split_and!; [exact Hr|done|]. simpl in Hn. lia.
      + rewrite decide_False by congruence. unfold known, Dict.mem in Hk.
        destruct (Dict.get (PyBytes id) (sv_items s)); [done|]. apply IH. }
  assert (zlen (filter (λ id, known (sv_items s) id = true) (example_ids x))
          < zlen (example_ids x)) as Hless.
  { apply Exists_exists in Hex as (id & Hin & Hid). unfold zlen.
    assert (length (filter (λ id, known (sv_items s) id = true) (example_ids x))
            < length (example_ids x))%nat; [|lia].
    apply (length_filter_lt _ _ id Hin). congruence. }
  eexists. split_and!.
  - unfold save_data_block_with_meta. rewrite run_bind. simpl. rewrite Hp, Z.eqb_refl.
    rewrite run_bind. simpl. unfold catchM. rewrite run_bind. unfold sv_in_world at 1, zoom.
    rewrite Hx, Hnew. rewrite run_bind. unfold in_shared_maker at 1. simpl.
    rewrite run_bind. unfold init_maker_by_input_meta, on_maker, modify. simpl.
    rewrite run_bind. unfold build_data_block_manager, on_maker, modify. simpl.
    rewrite run_bind.
    match goal with |- context [forM _ _ ?st] => destruct st as [m1 w1] eqn:Est end.
    destruct (Hloop (example_ids x) m1 w1) as (m2 & -> & Hm2 & Hn2).
    injection Est as <- <-. simpl in Hm2, Hn2. rewrite run_bind.
    rewrite finalizer_mismatch by (rewrite Hm2, Hn2; lia). simpl. rewrite Hm2, Hb. reflexivity.
  - simpl. done.
  - done.
  - done.
Qed.

Lemma srep_switch (s : S) log b : srep s log → srep (sv_set_switch b s) log.
Proof. intros []. by split. Qed.

(** The next block goes to an index that the store does not hold yet, so the
    buffer has nothing to drop. *)
Lemma drop_saved_prefix n saved b :
  Forall (λ x, data_block_index x < n) saved → Forall (λ x, n ≤ data_block_index x) b →
  drop_saved n (saved ++ b) = b.
Proof.
  intros Hs Hb. induction Hs as [|x saved Hx Hs IH]; simpl.
  - destruct Hb as [|x b Hx Hb]; simpl; [done|]. by rewrite (proj2 (Z.leb_le _ _)).
  - by rewrite (proj2 (Z.leb_gt _ _)) by lia.
Qed.

Lemma notify_off (s : S) :
  sv_switch s = false → notify_data_block_manager_sync_state s = (Ret tt, s).
Proof.
  intros Hs. unfold notify_data_block_manager_sync_state. rewrite run_bind. simpl. by rewrite Hs.
Qed.

Lemma notify_run s log saved b :
  srep (sv_set_buffer (sv_next s) b s) log → sv_buffer s = saved ++ b →
  Forall (λ x, data_block_index x < zlen log) saved →
  notify_data_block_manager_sync_state s
    = (Ret tt, if sv_switch s then sv_set_buffer (sv_next s) b s else s).
Proof.
  intros Hr Hb Hs. unfold notify_data_block_manager_sync_state. rewrite run_bind. simpl.
  destruct (sv_switch s); [|done].
  unfold remove_saved_data_block_meta_from_buffer, sv_in_manager, sv_in_world.
  rewrite run_bind. unfold zoom.
  rewrite (acquire_produced_rep _ _ log) by apply (sp_rep _ _ Hr).
  assert (sv_set_world (w_set_mf (w_mgr (sv_world s), w_fs (sv_world s)) (sv_world s)) s = s)
    as -> by (by destruct s as [[]]).
  unfold modify. rewrite Hb, (drop_saved_prefix _ saved b); [done|done|].
  apply Forall_lookup_2. intros i x Hx. destruct (sp_buffer _ _ Hr i x) as [-> _]; [done|]. lia.
Qed.
(** A round of the saver that finds every id. *)
Lemma saver_round_run (s : S) log :
  srep s log → sv_switch s = false → Forall (savable (sv_items s)) (sv_buffer s) →
  zlen log + zlen (sv_buffer s) ≤ 2 ^ 53 →
  ∃ s', build_data_block_saver s = (Ret tt, s') ∧
    srep s' (log ++ (with_id s <$> sv_buffer s)) ∧ sv_buffer s' = [] ∧ sv_switch s' = false ∧
    (∀ x, x ∈ sv_buffer s → gf_files (w_fs (sv_world s')) !! block_file s (with_id s x)
                            = Some (record_of (sv_items s) <$> example_ids x)) ∧
    (∀ y, data_block_index y < zlen log →
      gf_files (w_fs (sv_world s')) !! block_file s y
      = gf_files (w_fs (sv_world s)) !! block_file s y).
Proof.
  intros Hr Hsw Hall Hlen.
  destruct (save_loop_run (sv_buffer s) (sv_set_switch true s) log
              (Datatypes.S (length (sv_buffer s))))
    as (s' & Hrun & Hr' & Hb' & _ & Hd & Ho); try done; [by apply srep_switch|lia|].
  exists (sv_set_switch false s'). split_and!; try done; [|by apply srep_switch].
  unfold build_data_block_saver. rewrite run_bind, notify_off by done.
  rewrite run_bind. simpl. rewrite run_bind. unfold save_data_blocks at 1.
  rewrite run_bind. cbn [getM sv_buffer sv_set_switch]. by rewrite Hrun.
Qed.
End refinement.

(** A saver over a store of [n] blocks and the records of [TestRecords]. *)
Module TestSaver.
Import TestUtils TestStore TestRecords TestWorld.

Definition items : list (pyid * string) :=
  [(PyBytes "a", "a"); (PyBytes "b", "b"); (PyBytes "c", "c")].
Definition meta_with (i : nat) (ids : list string) : DataBlockMeta :=
  set_example_ids ids (meta_at i).
Definition saver_of (n : nat) (b : list DataBlockMeta) (switch : bool) : saver MemFs :=
  mkSaver (w_of n) 0 "blocks" "src" items false (Z.of_nat n + zlen b) b switch.

Lemma saver_rep n b sw :
  Z.of_nat n ≤ 2 ^ 53 →
  (∀ i x, b !! i = Some x → data_block_index x = Z.of_nat n + Z.of_nat i ∧ partition_id x = 0) →
  srep (saver_of n b sw) (log_of n).
Proof.
  intros Hn Hb. split; try done.
  - apply (rep_of n 0); lia.
  - intros i x Hx. rewrite log_of_length. by apply Hb.
  - simpl. by rewrite log_of_length.
Qed.
End TestSaver.

(** ** Properties *)
Section properties.
Context {F : Type} `{GFileLaws F} `{UtilsLaws}.
Context (post_ok : ∀ u l, http_post u l = Ret tt).

(** The saver takes metas in the order of their indices and once each: it
    refuses with [RuntimeError] after the finish mark, answers the expected
    index and changes nothing when the meta is not the next one, and otherwise
    buffers it and expects the next index. *)
Theorem saver_takes_metas_in_turn (s : saver F) log x :
  srep s log → partition_id x = sv_partition_id s →
  match append_sent_data_block_meta_to_buffer x s with
  | (Stop (Raise RuntimeError), s') => sv_finish s = true ∧ s' = s
  | (Ret (true, next), s') =>
      sv_finish s = false ∧ data_block_index x = zlen log + zlen (sv_buffer s) ∧
      next = data_block_index x + 1 ∧ srep s' log ∧ sv_buffer s' = sv_buffer s ++ [x]
  | (Ret (false, next), s') =>
      sv_finish s = false ∧ data_block_index x ≠ next ∧
      next = zlen log + zlen (sv_buffer s) ∧ s' = s
  | _ => False
  end.
Proof.
  intros Hr Hp. pose proof (sp_next _ _ Hr) as Hn.
  destruct (sv_finish s) eqn:Ef.
  { unfold append_sent_data_block_meta_to_buffer. rewrite run_bind. simpl. rewrite Ef. done. }
  destruct (decide (data_block_index x = sv_next s)) as [Hx|Hx].
  - destruct (append_in_turn s log x Hr Ef Hx Hp) as [-> Hr']. split_and!; try done; lia.
  - unfold append_sent_data_block_meta_to_buffer. rewrite run_bind. simpl. rewrite Ef.
    rewrite run_bind. simpl. rewrite (proj2 (Z.eqb_neq _ _)) by lia. done.
Qed.

(** C25.  The saver writes the blocks it is told: when its raw data has every
    id of the buffered metas, one round saves them all, in order: the store
    grows by these metas, and the data file of each holds its own records of
    the ids in the meta's order; older data files stay. *)
Theorem saver_writes_the_buffer (s : saver F) log :
  srep s log → sv_switch s = false → Forall (savable (sv_items s)) (sv_buffer s) →
  zlen log + zlen (sv_buffer s) ≤ 2 ^ 53 →
  ∃ s', build_data_block_saver s = (Ret tt, s') ∧
    srep s' (log ++ (with_id s <$> sv_buffer s)) ∧ sv_buffer s' = [] ∧ sv_switch s' = false ∧
    (∀ x, x ∈ sv_buffer s → gf_files (w_fs (sv_world s')) !! block_file s (with_id s x)
                            = Some (record_of (sv_items s) <$> example_ids x)) ∧
    (∀ y, data_block_index y < zlen log →
      gf_files (w_fs (sv_world s')) !! block_file s y
      = gf_files (w_fs (sv_world s)) !! block_file s y).
Proof. by apply saver_round_run. Qed.

(** A meta with an id that the raw data lacks blocks the saver for good:
    the round ends in a [TypeError], the meta stays at the head of the buffer,
    the store gets nothing and the state switch is left on. *)
Theorem saver_blocked_by_unknown_id (s : saver F) log x b :
  srep s log → sv_switch s = false → sv_buffer s = x :: b →
  Exists (λ id, known (sv_items s) id = false) (example_ids x) → zlen log < 2 ^ 53 →
  ∃ s', build_data_block_saver s = (raise TypeError, s') ∧
    sv_buffer s' = sv_buffer s ∧ w_mgr (sv_world s') = w_mgr (sv_world s) ∧
    sv_switch s' = true.
Proof.
  intros Hr Hsw Hb Hex Hlt.
  destruct (save_unknown_run (sv_set_switch true s) log x b) as (s' & Hrun & Hb' & Hm & Hs'); try done.
  { by apply srep_switch. }
  exists s'. split_and!; try done.
  unfold build_data_block_saver. rewrite run_bind, notify_off by done.
  rewrite run_bind. simpl. rewrite run_bind. unfold save_data_blocks at 1.
  rewrite run_bind. cbn [getM sv_buffer sv_set_switch whileM].
  assert (save_next (sv_set_switch true s) = (raise TypeError, s')) as Hnext.
  { unfold save_next. rewrite run_bind. simpl. by rewrite Hb. }
  rewrite run_bind. cbn [is_need_save gets sv_buffer sv_set_switch]. rewrite Hb, zlen_cons.
  pose proof (zlen_nonneg b). rewrite (proj2 (Z.ltb_lt _ _)) by lia.
  by rewrite run_bind, Hnext.
Qed.

(** A round that follows an interrupted one first drops the metas that
    the store already holds, so that no block is written twice. *)
Theorem saver_resumes_after_interrupt (s : saver F) log saved b :
  srep (sv_set_buffer (sv_next s) b s) log → sv_buffer s = saved ++ b → sv_switch s = true →
  Forall (λ x, data_block_index x < zlen log) saved →
  Forall (savable (sv_items s)) b → zlen log + zlen b ≤ 2 ^ 53 →
  ∃ s', build_data_block_saver s = (Ret tt, s') ∧
    srep s' (log ++ (with_id s <$> b)) ∧ sv_buffer s' = [] ∧ sv_switch s' = false.
Proof.
  intros Hr Hb Hsw Hs Hall Hlen.
  set (s1 := sv_set_buffer (sv_next s) b s) in *.
  destruct (save_loop_run post_ok b (sv_set_switch true s1) log (Datatypes.S (length b)))
    as (s' & Hrun & Hr' & Hb' & _ & _ & _); try done; [by apply srep_switch|lia|].
  exists (sv_set_switch false s'). split_and!; try done; [|by apply srep_switch].
  unfold build_data_block_saver. rewrite run_bind, (notify_run s log saved b) by done.
  rewrite Hsw. fold s1. rewrite run_bind. simpl. rewrite run_bind.
  unfold save_data_blocks at 1. rewrite run_bind. cbn [getM].
  change (sv_buffer (sv_set_switch true s1)) with b.
  by rewrite Hrun.
Qed.
End properties.

Section witnesses.
Import TestUtils TestStore TestRecords TestWorld TestSaver.

Lemma saver_takes_metas_in_turn_witness :
  let s := saver_of 2 [meta_with 2 ["b"]] false in
  let x := meta_with 3 ["a"] in
  (append_sent_data_block_meta_to_buffer x s).1 = Ret (true, 4) ∧
  match append_sent_data_block_meta_to_buffer x s with
  | (Stop (Raise RuntimeError), s') => sv_finish s = true ∧ s' = s
  | (Ret (true, next), s') =>
      sv_finish s = false ∧ data_block_index x = zlen (log_of 2) + zlen (sv_buffer s) ∧
      next = data_block_index x + 1 ∧ srep s' (log_of 2) ∧ sv_buffer s' = sv_buffer s ++ [x]
  | (Ret (false, next), s') =>
      sv_finish s = false ∧ data_block_index x ≠ next ∧
      next = zlen (log_of 2) + zlen (sv_buffer s) ∧ s' = s
  | _ => False
  end.
Proof.
  intros s x. split; [reflexivity|]. apply saver_takes_metas_in_turn; [|reflexivity].
  apply saver_rep; [lia|]. intros [|i] y [= <-]. split; reflexivity.
Defined.

Lemma saver_writes_the_buffer_witness :
  let s := saver_of 2 [meta_with 2 ["b"; "a"]; meta_with 3 ["c"]] false in
  ∃ s', build_data_block_saver s = (Ret tt, s') ∧
    srep s' (log_of 2 ++ (with_id s <$> sv_buffer s)) ∧ sv_buffer s' = [] ∧
    sv_switch s' = false ∧
    (∀ x, x ∈ sv_buffer s → gf_files (w_fs (sv_world s')) !! block_file s (with_id s x)
                            = Some (record_of (sv_items s) <$> example_ids x)) ∧
    (∀ y, data_block_index y < zlen (log_of 2) →
      gf_files (w_fs (sv_world s')) !! block_file s y
      = gf_files (w_fs (sv_world s)) !! block_file s y).
Proof.
  intros s. apply (saver_writes_the_buffer test_post_ok s (log_of 2)).
  - apply saver_rep; [lia|]. intros [|[|i]] x [= <-]; split; reflexivity.
  - reflexivity.
  - repeat (apply Forall_cons_2 || apply Forall_nil_2); (split; [discriminate|]);
      repeat (apply Forall_cons_2 || apply Forall_nil_2); reflexivity.
  - vm_compute. discriminate.
Defined.

Lemma saver_blocked_by_unknown_id_witness :
  let s := saver_of 2 [meta_with 2 ["b"; "z"]] false in
  ∃ s', build_data_block_saver s = (raise TypeError, s') ∧
    sv_buffer s' = sv_buffer s ∧ w_mgr (sv_world s') = w_mgr (sv_world s) ∧
    sv_switch s' = true.
Proof.
  intros s.
  apply (saver_blocked_by_unknown_id s (log_of 2) (meta_with 2 ["b"; "z"]) []).
  - apply saver_rep; [lia|]. intros [|i] x [= <-]; split; reflexivity.
  - reflexivity.
  - reflexivity.
  - apply Exists_cons_tl, Exists_cons_hd. reflexivity.
  - reflexivity.
Defined.

Lemma saver_resumes_after_interrupt_witness :
  let s := mkSaver (w_of 3) 0 "blocks" "src" items false 4
             [meta_with 2 ["b"]; meta_with 3 ["c"; "a"]] true in
  ∃ s', build_data_block_saver s = (Ret tt, s') ∧
    srep s' (log_of 3 ++ (with_id s <$> [meta_with 3 ["c"; "a"]])) ∧
    sv_buffer s' = [] ∧ sv_switch s' = false.
Proof.
  intros s. apply (saver_resumes_after_interrupt test_post_ok s (log_of 3) [meta_with 2 ["b"]]).
  - apply (saver_rep 3 [meta_with 3 ["c"; "a"]] true); [lia|].
    intros [|i] x [= <-]; split; reflexivity.
  - reflexivity.
  - reflexivity.
  - repeat (apply Forall_cons_2 || apply Forall_nil_2). reflexivity.
  - repeat (apply Forall_cons_2 || apply Forall_nil_2). split; [discriminate|].
    repeat (apply Forall_cons_2 || apply Forall_nil_2); reflexivity.
  - vm_compute. discriminate.
Defined.
End witnesses.
