(* ===== verification/Consumer.v ===== *)
(** * The consumer of a partition

    The interface between the data join server (data_join_manager.py) and the
    object that takes in what the peer sends: [DataBlockConsumer] on the leader,
    [ExampleIdConsumer] on the follower. *)

From stdpp Require Import base tactics list gmap strings.
From Stdlib Require Import ZArith Lia.
From S2P Require Import Prelude PyStd Messages.

Open Scope Z_scope.

Class Consumer (C : Type) := {
  fetch_partition_id : M C Z;
  partition_syncer_to_consumer : Z → M C (Z * bool);
  append_data_items_from_producer : SyncContent → M C (bool * Z);
  finish_partition_transmit : Z → M C bool;
  reset_consumer_wrap : Z → M C unit;
}.

(** The partition a message is about. *)
Definition content_partition (c : SyncContent) : option Z :=
  match c with
  | SC_none => None
  | SC_data_block_meta m => Some (partition_id m)
  | SC_lite_example_ids l => Some (le_partition_id l)
  end.

Class ConsumerLaws (C : Type) `{Consumer C} := {
  (** the partition being consumed; [None] once it was reset *)
  consuming : C → option Z;
  fetch_law c p : consuming c = Some p → fetch_partition_id c = (Ret p, c);
  fetch_retired_law c :
    consuming c = None → ∃ e, fetch_partition_id c = (raise e, c);
  syncer_law c p : consuming c = Some p →
    ∃ next fin, partition_syncer_to_consumer p c = (Ret (next, fin), c);
  syncer_mismatch_law c p q : consuming c = Some p → p ≠ q →
    partition_syncer_to_consumer q c = (raise RuntimeError, c);
  append_mismatch_law c p q x : consuming c = Some p → content_partition x = Some q → p ≠ q →
    ∃ e, append_data_items_from_producer x c = (raise e, c);
  append_consuming_law c x o c' :
    append_data_items_from_producer x c = (o, c') → consuming c' = consuming c;
  finish_mismatch_law c p q : consuming c = Some p → p ≠ q →
    finish_partition_transmit q c = (raise RuntimeError, c);
  finish_law c p : consuming c = Some p →
    ∃ b c', finish_partition_transmit p c = (Ret b, c') ∧ consuming c' = Some p;
  (** a partition whose transmission has ended can be reset, and then is gone *)
  reset_law c c' p : consuming c = Some p →
    finish_partition_transmit p c = (Ret true, c') →
    ∃ c'', reset_consumer_wrap p c' = (Ret tt, c'') ∧ consuming c'' = None;
}.
