(* ===== verification/DataBlockConsumer.v ===== *)
(** * DataBlockConsumer (data_join/data_block_consumer.py)

    The leader's consumer: a saver behind a lock and the check of the partition;
    it is dropped when the partition is finished and saved. *)

From stdpp Require Import base tactics list gmap strings.
From Stdlib Require Import ZArith Lia.
From S2P Require Import Prelude PyStd Messages Env DataBlockManager DataBlockMaker RawData.
From S2P Require Import DataBlockSaver Consumer.

Open Scope Z_scope.

Record data_block_consumer (F : Type) := mkConsumer {
  dc_wrap : option (saver F);
  dc_routine : bool;
  dc_started : bool;
}.
Arguments mkConsumer {_}.
Arguments dc_wrap {_}.
Arguments dc_routine {_}.
Arguments dc_started {_}.

Section consumer.
Context {F : Type} `{GFile F} `{Utils}.
Local Abbreviation C := (data_block_consumer F).

Definition dc_set_wrap w (c : C) : C := mkConsumer w (dc_routine c) (dc_started c).
Definition dc_set_processor r s (c : C) : C := mkConsumer (dc_wrap c) r s.

(** An attribute of the wrapper; [None] has none of them. *)
Definition in_wrap {A} (op : M (saver F) A) : M C A := λ c,
  match dc_wrap c with
  | None => (raise AttributeError, c)
  | Some s => match op s with (o, s') => (o, dc_set_wrap (Some s') c) end
  end.

Definition new_data_block_consumer (pid : Z) (items : list (pyid * string))
    (dir name : string) (uuid : nat) (distribute : bool) : M F C :=
  s ← new_saver pid items dir name uuid distribute;
  mret (mkConsumer (Some s) false false).

Definition dc_is_synced_partition (pid : Z) : M C bool :=
  p ← in_wrap (gets sv_partition_id);
  require (pid =? p) RuntimeError;; mret true.

Definition dc_fetch_partition_id : M C Z := in_wrap (gets sv_partition_id).

Definition dc_append_data_items_from_producer (req : SyncContent) : M C (bool * Z) :=
  match req with
  | SC_data_block_meta meta =>
      dc_is_synced_partition (partition_id meta);;
      in_wrap (append_sent_data_block_meta_to_buffer meta)
  | _ => raiseM AssertionError
  end.

Definition dc_finish_partition_transmit (pid : Z) : M C bool :=
  dc_is_synced_partition pid;;
  in_wrap finish_sent_data_block_meta;;
  need ← in_wrap is_need_save;
  mret (negb need).

Definition dc_partition_syncer_to_consumer (pid : Z) : M C (Z * bool) :=
  w ← gets dc_wrap;
  (match w with
   | Some s => require (sv_partition_id s =? pid) RuntimeError
   | None => mret tt
   end);;
  next ← in_wrap fetch_next_data_block_index;
  fin ← in_wrap is_finish_sent_data_block_meta;
  mret (next, fin).

Definition dc_reset_consumer_wrap (pid : Z) : M C unit :=
  dc_is_synced_partition pid;;
  fin ← in_wrap is_finish_sent_data_block_meta;
  busy ← (if negb fin then mret true else in_wrap is_need_save);
  require (negb busy) RuntimeError;;
  modify (dc_set_wrap None).

Definition dc_start_processors : M C unit :=
  c ← getM;
  if dc_started c then mret tt
  else assertM (negb (dc_routine c));; modify (dc_set_processor true true).

(** The condition under which the processor runs. *)
Definition dc_processor_factor : M C bool :=
  w ← gets dc_wrap;
  match w with
  | None => mret false
  | Some s => mret (0 <? zlen (sv_buffer s))
  end.

Definition dc_processor : M C unit := in_wrap build_data_block_saver.

Definition dc_stop_processors : M C unit :=
  modify (λ c, dc_set_processor false (dc_started c) c).

(** One round of the processor: its condition, then its routine. *)
Definition dc_round : M C unit :=
  go ← dc_processor_factor; if (go : bool) then dc_processor else mret tt.

#[export] Instance data_block_consumer_ops : Consumer C := {
  fetch_partition_id := dc_fetch_partition_id;
  partition_syncer_to_consumer := dc_partition_syncer_to_consumer;
  append_data_items_from_producer := dc_append_data_items_from_producer;
  finish_partition_transmit := dc_finish_partition_transmit;
  reset_consumer_wrap := dc_reset_consumer_wrap;
}.

Lemma in_wrap_Some {A} (op : M (saver F) A) (c : C) s :
  dc_wrap c = Some s → in_wrap op c = ((op s).1, dc_set_wrap (Some (op s).2) c).
Proof. unfold in_wrap. intros ->. by destruct (op s). Qed.

Lemma in_wrap_gets {A} (f : saver F → A) (c : C) s :
  dc_wrap c = Some s → in_wrap (gets f) c = (Ret (f s), c).
Proof. intros Hw. rewrite (in_wrap_Some _ _ _ Hw). simpl. rewrite <- Hw. by destruct c. Qed.

Lemma dc_synced_run (c : C) s p :
  dc_wrap c = Some s → sv_partition_id s = p → dc_is_synced_partition p c = (Ret true, c).
Proof.
  intros Hw Hp. unfold dc_is_synced_partition. rewrite run_bind, (in_wrap_gets _ _ _ Hw), Hp.
  by rewrite Z.eqb_refl.
Qed.

Lemma dc_synced_mismatch (c : C) s p :
  dc_wrap c = Some s → sv_partition_id s ≠ p →
  dc_is_synced_partition p c = (raise RuntimeError, c).
Proof.
  intros Hw Hp. unfold dc_is_synced_partition. rewrite run_bind, (in_wrap_gets _ _ _ Hw).
  by rewrite (proj2 (Z.eqb_neq _ _)).
Qed.

Definition dc_consuming (c : C) : option Z := sv_partition_id <$> dc_wrap c.

Lemma dc_finish_run (c : C) s :
  dc_wrap c = Some s →
  dc_finish_partition_transmit (sv_partition_id s) c
    = (Ret (negb (0 <? zlen (sv_buffer s))), dc_set_wrap (Some (sv_set_finish true s)) c).
Proof.
  intros Hw. unfold dc_finish_partition_transmit.
  rewrite run_bind, (dc_synced_run c s) by done.
  rewrite run_bind, (in_wrap_Some _ _ _ Hw). simpl. rewrite run_bind.
  unfold is_need_save. by rewrite (in_wrap_gets _ _ (sv_set_finish true s)).
Qed.

Lemma dc_append_consuming (c : C) x o c' :
  dc_append_data_items_from_producer x c = (o, c') → dc_consuming c' = dc_consuming c.
Proof.
  unfold dc_append_data_items_from_producer. destruct x as [|m|l]; [by intros [= _ <-]| |by intros [= _ <-]].
  unfold dc_is_synced_partition, append_sent_data_block_meta_to_buffer, dc_consuming.
  destruct c as [[s|] r st]; mrun; [|by intros [= _ <-]].
  destruct (partition_id m =? sv_partition_id s); mrun; [|by intros [= _ <-]].
  unfold in_wrap. simpl. destruct (sv_finish s); mrun; [by intros [= _ <-]|].
  destruct (sv_next s =? data_block_index m); mrun; by intros [= _ <-].
Qed.

#[export] Instance data_block_consumer_laws : ConsumerLaws C.
Proof.
  refine {| consuming := dc_consuming |}.
  - intros c p. unfold dc_consuming. intros (s & Hw & ->)%fmap_Some.
    apply (in_wrap_gets _ _ _ Hw).
  - intros c Hc%fmap_None. exists AttributeError. unfold fetch_partition_id. simpl.
    unfold dc_fetch_partition_id, in_wrap. by rewrite Hc.
  - intros c p (s & Hw & ->)%fmap_Some. exists (sv_next s), (sv_finish s). simpl.
    unfold dc_partition_syncer_to_consumer. rewrite run_bind. simpl. rewrite Hw, Z.eqb_refl.
    rewrite run_bind. simpl. rewrite run_bind. unfold fetch_next_data_block_index.
    rewrite (in_wrap_gets _ _ _ Hw), run_bind. unfold is_finish_sent_data_block_meta.
    by rewrite (in_wrap_gets _ _ _ Hw).
  - intros c p q (s & Hw & ->)%fmap_Some Hne. simpl.
    unfold dc_partition_syncer_to_consumer. rewrite run_bind. simpl.
    by rewrite Hw, (proj2 (Z.eqb_neq _ _)).
  - intros c p q x (s & Hw & ->)%fmap_Some Hq Hne. simpl.
    destruct x as [|m|l]; simpl in *; simplify_eq; [exists RuntimeError|by exists AssertionError].
    by rewrite run_bind, (dc_synced_mismatch c s).
  - intros c x o c'. apply dc_append_consuming.
  - intros c p q (s & Hw & ->)%fmap_Some Hne. simpl. unfold dc_finish_partition_transmit.
    by rewrite run_bind, (dc_synced_mismatch c s).
  - intros c p (s & Hw & ->)%fmap_Some. eexists _, _. split; [by apply dc_finish_run|done].
  - intros c c' p (s & Hw & ->)%fmap_Some. simpl. rewrite (dc_finish_run c s) by done.
    intros [= Hb <-].
    set (s' := sv_set_finish true s). set (c' := dc_set_wrap (Some s') c).
    exists (dc_set_wrap None c'). split; [|reflexivity].
    unfold dc_reset_consumer_wrap. rewrite run_bind, (dc_synced_run c' s') by done.
    rewrite run_bind. unfold is_finish_sent_data_block_meta.
    rewrite (in_wrap_gets _ c' s') by done. simpl. rewrite run_bind. unfold is_need_save.
    rewrite (in_wrap_gets _ c' s') by done. simpl. by rewrite Hb.
Defined.
End consumer.
