(* ===== verification/ExampleIdConsumer.v ===== *)
(** * ExampleIdConsumer (data_join/example_id_consumer.py, example_id_appender.py)

    The follower's consumer: batches of the leader's example ids go into the
    queue from which the joiner takes them. *)

From stdpp Require Import base tactics list gmap strings.
From Stdlib Require Import ZArith Lia.
From S2P Require Import Prelude PyStd Messages Consumer.

Open Scope Z_scope.

(** [AppendExamplesManager] *)
Record appender := mkAppender {
  ap_queue : list LiteExampleIds;
  ap_partition_id : Z;
  ap_finished : bool;
  ap_next : Z;
}.
Definition new_appender (queue : list LiteExampleIds) (pid : Z) : appender :=
  mkAppender queue pid false 0.
Definition ap_set_queue q (a : appender) : appender :=
  mkAppender q (ap_partition_id a) (ap_finished a) (ap_next a).

Definition get_next_example_index : M appender Z := gets ap_next.

Definition append_batch_examples_into_queue (batch : LiteExampleIds) : M appender bool :=
  a ← getM;
  assertM (le_partition_id batch =? ap_partition_id a);;
  putM (mkAppender (ap_queue a ++ [batch]) (ap_partition_id a) (ap_finished a)
          (ap_next a + (zlen (le_example_id batch) - 1)));;
  mret true.

Definition finish_send_examples : M appender unit :=
  modify (λ a, mkAppender (ap_queue a) (ap_partition_id a) true (ap_next a)).
Definition is_send_example_finished : M appender bool := gets ap_finished.
Definition need_append_into_queue : M appender bool :=
  gets (λ a, negb (bool_decide (ap_queue a = []))).

Record example_id_consumer := mkIdConsumer {
  ec_appender : appender;
  ec_partition_id : option Z;
}.
Definition new_example_id_consumer (pid : Z) (queue : list LiteExampleIds) : example_id_consumer :=
  mkIdConsumer (new_appender queue pid) (Some pid).

Local Abbreviation C := example_id_consumer.

Definition in_appender {A} (c : M appender A) : M C A :=
  zoom ec_appender (λ a c, mkIdConsumer a (ec_partition_id c)) c.

Definition ec_is_synced_partition (pid : Z) : M C bool :=
  p ← gets ec_partition_id;
  require (bool_decide (p = Some pid)) RuntimeError;; mret true.

Definition ec_partition_syncer_to_consumer (pid : Z) : M C (Z * bool) :=
  p ← gets ec_partition_id;
  require (bool_decide (p = Some pid)) RuntimeError;;
  next ← in_appender get_next_example_index;
  fin ← in_appender is_send_example_finished;
  mret (next, fin).

Definition ec_reset_consumer_wrap (pid : Z) : M C unit :=
  ec_is_synced_partition pid;;
  fin ← in_appender is_send_example_finished;
  busy ← (if negb fin then mret true else in_appender need_append_into_queue);
  require (negb busy) RuntimeError;;
  modify (λ c, mkIdConsumer (ec_appender c) None).

Definition ec_fetch_partition_id : M C Z :=
  p ← gets ec_partition_id;
  match p with
  | Some p => mret p
  | None => raiseM AssertionError
  end.

Definition ec_append_data_items_from_producer (req : SyncContent) : M C (bool * Z) :=
  match req with
  | SC_lite_example_ids l =>
      ec_is_synced_partition (le_partition_id l);;
      in_appender (append_batch_examples_into_queue l);;
      next ← in_appender get_next_example_index;
      mret (true, next)
  | _ => raiseM AssertionError
  end.

Definition ec_finish_partition_transmit (pid : Z) : M C bool :=
  ec_is_synced_partition pid;;
  in_appender finish_send_examples;;
  need ← in_appender need_append_into_queue;
  mret (negb need).

#[export] Instance example_id_consumer_ops : Consumer C := {
  fetch_partition_id := ec_fetch_partition_id;
  partition_syncer_to_consumer := ec_partition_syncer_to_consumer;
  append_data_items_from_producer := ec_append_data_items_from_producer;
  finish_partition_transmit := ec_finish_partition_transmit;
  reset_consumer_wrap := ec_reset_consumer_wrap;
}.

(** ** Lemmas *)
Lemma ec_synced_run c p :
  ec_partition_id c = Some p → ec_is_synced_partition p c = (Ret true, c).
Proof.
  intros Hc. unfold ec_is_synced_partition. rewrite run_bind. simpl.
  by rewrite bool_decide_true.
Qed.

Lemma ec_synced_mismatch c p :
  ec_partition_id c ≠ Some p → ec_is_synced_partition p c = (raise RuntimeError, c).
Proof.
  intros Hc. unfold ec_is_synced_partition. rewrite run_bind. simpl.
  by rewrite bool_decide_false.
Qed.

Lemma in_appender_gets {A} (f : appender → A) c :
  in_appender (gets f) c = (Ret (f (ec_appender c)), c).
Proof. by destruct c. Qed.

(** A batch of the partition goes to the end of the queue. *)
Lemma ec_append_run c l :
  ec_partition_id c = Some (le_partition_id l) →
  ap_partition_id (ec_appender c) = le_partition_id l →
  let a := ec_appender c in
  let next := ap_next a + (zlen (le_example_id l) - 1) in
  ec_append_data_items_from_producer (SC_lite_example_ids l) c
    = (Ret (true, next),
       mkIdConsumer (mkAppender (ap_queue a ++ [l]) (ap_partition_id a) (ap_finished a) next)
         (ec_partition_id c)).
Proof.
  intros Hc Ha. simpl. rewrite run_bind, ec_synced_run by done.
  unfold in_appender, append_batch_examples_into_queue. mrun.
  by rewrite Ha, Z.eqb_refl.
Qed.

Lemma ec_finish_run c p :
  ec_partition_id c = Some p →
  let a := ec_appender c in
  ec_finish_partition_transmit p c
    = (Ret (bool_decide (ap_queue a = [])),
       mkIdConsumer (mkAppender (ap_queue a) (ap_partition_id a) true (ap_next a)) (Some p)).
Proof.
  intros Hc. unfold ec_finish_partition_transmit.
  rewrite run_bind, ec_synced_run by done. mrun. by rewrite negb_involutive, Hc.
Qed.

(** A partition without batches left is dropped. *)
Lemma ec_reset_run c p :
  ec_partition_id c = Some p → ap_finished (ec_appender c) = true →
  ap_queue (ec_appender c) = [] →
  ec_reset_consumer_wrap p c = (Ret tt, mkIdConsumer (ec_appender c) None).
Proof.
  intros Hc Hf Hq. unfold ec_reset_consumer_wrap. rewrite run_bind, ec_synced_run by done.
  unfold is_send_example_finished, need_append_into_queue.
  rewrite run_bind, in_appender_gets, Hf. simpl. rewrite run_bind, in_appender_gets, Hq. done.
Qed.

Lemma ec_append_consuming c x o c' :
  ec_append_data_items_from_producer x c = (o, c') → ec_partition_id c' = ec_partition_id c.
Proof.
  destruct x as [|m|l]; [by intros [= _ <-]|by intros [= _ <-]|]. simpl.
  rewrite run_bind. destruct (decide (ec_partition_id c = Some (le_partition_id l))) as [Hc|Hc].
  - rewrite ec_synced_run by done. unfold in_appender, append_batch_examples_into_queue. mrun.
    destruct (le_partition_id l =? _); mrun; by intros [= _ <-].
  - rewrite ec_synced_mismatch by done. by intros [= _ <-].
Qed.

#[export] Instance example_id_consumer_laws : ConsumerLaws C.
Proof.
  refine {| consuming := ec_partition_id |}; simpl.
  - intros c p Hc. unfold ec_fetch_partition_id. rewrite run_bind. simpl. by rewrite Hc.
  - intros c Hc. exists AssertionError. unfold ec_fetch_partition_id. rewrite run_bind. simpl.
    by rewrite Hc.
  - intros c p Hc. eexists _, _. unfold ec_partition_syncer_to_consumer. rewrite run_bind. simpl.
    rewrite bool_decide_true by done. rewrite run_bind. simpl. rewrite run_bind.
    unfold get_next_example_index. rewrite in_appender_gets, run_bind.
    unfold is_send_example_finished. by rewrite in_appender_gets.
  - intros c p q Hc Hne. unfold ec_partition_syncer_to_consumer. rewrite run_bind. simpl.
    by rewrite bool_decide_false by congruence.
  - intros c p q x Hc Hq Hne. destruct x as [|m|l]; simpl in *; simplify_eq;
      [by exists AssertionError|exists RuntimeError].
    by rewrite run_bind, ec_synced_mismatch by congruence.
  - intros c x o c'. apply ec_append_consuming.
  - intros c p q Hc Hne. unfold ec_finish_partition_transmit.
    by rewrite run_bind, ec_synced_mismatch by congruence.
  - intros c p Hc. eexists _, _. split; [by apply ec_finish_run|done].
  - intros c c' p Hc. rewrite (ec_finish_run c p) by done. intros [= Hb <-].
    exists (mkIdConsumer (mkAppender (ap_queue (ec_appender c)) (ap_partition_id (ec_appender c))
                            true (ap_next (ec_appender c))) None).
    split; [|reflexivity]. apply (ec_reset_run (mkIdConsumer _ (Some p))); [done|done|].
    by apply bool_decide_eq_true in Hb.
Defined.

(** ** Properties *)

(** The appender is a queue: appending batches of its partition one after
    the other puts them all, in order, behind those already queued, and the
    index it answers is off by one per batch (it adds the length of the batch
    less one), so that it drops below zero after an empty batch. *)
Theorem appender_queues_batches c p (l : list LiteExampleIds) :
  ec_partition_id c = Some p → ap_partition_id (ec_appender c) = p →
  Forall (λ b, le_partition_id b = p) l →
  ∃ c', forM l (λ b, ec_append_data_items_from_producer (SC_lite_example_ids b);; mret tt) c
          = (Ret tt, c') ∧
    ec_partition_id c' = Some p ∧
    ap_queue (ec_appender c') = ap_queue (ec_appender c) ++ l ∧
    ap_next (ec_appender c') + zlen l
      = ap_next (ec_appender c) + zlen (l ≫= le_example_id).
Proof.
  intros Hc Ha Hl. revert c Hc Ha. induction Hl as [|b l Hb Hl IH]; intros c Hc Ha.
  - exists c. simpl. by rewrite app_nil_r.
  - cbn [forM]. rewrite run_bind. rewrite run_bind, ec_append_run by congruence.
    set (c1 := mkIdConsumer _ _). simpl.
    destruct (IH c1) as (c' & Hr & Hp & Hq & Hn); [done|done|].
    exists c'. split_and!; [exact Hr|done| |].
    + rewrite Hq. simpl. by rewrite <- (assoc_L (++)).
    + rewrite zlen_cons. cbn [mbind list_bind]. rewrite zlen_app.
      change (list_bind _ _ _ l) with (l ≫= le_example_id). simpl in Hn. lia.
Qed.

Lemma appender_queues_batches_witness :
  let bs := [mkLite 4 0 ["a"; "b"] [1; 2] false; mkLite 4 0 [] [] true] in
  ∃ c', forM bs (λ b, ec_append_data_items_from_producer (SC_lite_example_ids b);; mret tt)
          (new_example_id_consumer 4 []) = (Ret tt, c') ∧
    ec_partition_id c' = Some 4 ∧ ap_queue (ec_appender c') = [] ++ bs ∧
    ap_next (ec_appender c') + 2 = 0 + 2.
Proof.
  intros bs. apply (appender_queues_batches (new_example_id_consumer 4 []) 4 bs).
  - reflexivity.
  - reflexivity.
  - repeat (apply Forall_cons_2 || apply Forall_nil_2); reflexivity.
Defined.
