(* ===== verification/DataJoinServer.v ===== *)
(** * The data join server (data_join/data_join_manager.py)

    The three handlers of the service, over any consumer of the partition.  A
    handler that raises reaches the peer as an [RpcError]. *)

From stdpp Require Import base tactics list gmap strings.
From Stdlib Require Import ZArith Lia.
From S2P Require Import Prelude PyStd Messages Env Consumer ExampleIdConsumer.

Open Scope Z_scope.

Record data_join (C : Type) := mkDataJoin {
  dj_partition_id : Z;
  dj_rank_id : Z;
  dj_consumer : C;
}.
Arguments mkDataJoin {_}.
Arguments dj_partition_id {_}.
Arguments dj_rank_id {_}.
Arguments dj_consumer {_}.

Definition dj_set_consumer {C} c (d : data_join C) : data_join C :=
  mkDataJoin (dj_partition_id d) (dj_rank_id d) c.

Section server.
Context {C : Type} `{Consumer C} `{Utils}.
Local Abbreviation D := (data_join C).

Definition on_consumer {A} (op : M C A) : M D A := zoom dj_consumer dj_set_consumer op.

(** The decorators [rank_id_wrap] and [partition_id_wrap]. *)
Definition check_rank_id (rank : Z) : M D unit :=
  d ← getM; assertM (dj_rank_id d =? rank).
Definition check_partition_id (pid : Z) : M D unit :=
  assertM (0 <=? pid);;
  d ← getM; assertM (dj_partition_id d =? pid).

Definition StartPartition (req : StartPartitionRequest) : M D StartPartitionResponse :=
  check_rank_id (spr_rank_id req);;
  check_partition_id (spr_partition_id req);;
  pid ← on_consumer fetch_partition_id;
  if negb (spr_partition_id req =? pid) then
    mret (mkStartRsp (mkStatus (-2) ("partition_id :" +:+ Str.of_int pid
            +:+ " is not same with peer partition_id:"
            +:+ Str.of_int (spr_partition_id req))) 0 false)
  else
    r ← on_consumer (partition_syncer_to_consumer (spr_partition_id req));
    next ← liftO (pb_int64 (Some r.1));
    mret (mkStartRsp status_ok next r.2).

Definition FinishPartition (req : FinishPartitionRequest) : M D FinishPartitionResponse :=
  check_rank_id (fp_rank_id req);;
  check_partition_id (fp_partition_id req);;
  pid ← on_consumer fetch_partition_id;
  assertM (pid =? fp_partition_id req);;
  finished ← on_consumer (finish_partition_transmit (fp_partition_id req));
  (if (finished : bool) then on_consumer (reset_consumer_wrap (fp_partition_id req))
   else mret tt);;
  mret (mkFinRsp status_ok finished).

Definition decode_content (req : SyncPartitionRequest) : outcome SyncContent :=
  bytes ← (if sy_compressed req then
             match zlib_decompress (sy_content_bytes req) with
             | Some b => Ret b
             | None => raise GenericException
             end
           else Ret (sy_content_bytes req));
  match sync_parse bytes with
  | Some c => Ret c
  | None => raise ParseError
  end.

Definition SyncPartition (req : SyncPartitionRequest) : M D Status :=
  check_rank_id (sy_rank_id req);;
  check_partition_id (sy_partition_id req);;
  content ← liftO (decode_content req);
  r ← on_consumer (append_data_items_from_producer content);
  mret (if r.1 : bool then status_ok else mkStatus (-1) "example id is enough").
End server.

(** ** The handlers over any lawful consumer *)
Section lemmas.
Context {C : Type} `{ConsumerLaws C} `{UtilsLaws}.
Local Abbreviation D := (data_join C).

(** The server is consuming its own partition. *)
Definition serving (d : D) : Prop :=
  0 ≤ dj_partition_id d ∧ consuming (dj_consumer d) = Some (dj_partition_id d).

(** A request addresses this server. *)
Definition addressed (d : D) (rank pid : Z) : bool :=
  (rank =? dj_rank_id d) && (pid =? dj_partition_id d) && (0 <=? pid).

Lemma on_consumer_run {A} (op : M C A) d o c' :
  op (dj_consumer d) = (o, c') → on_consumer op d = (o, dj_set_consumer c' d).
Proof. unfold on_consumer, zoom. by intros ->. Qed.

Lemma on_consumer_pure {A} (op : M C A) (d : D) o :
  op (dj_consumer d) = (o, dj_consumer d) → on_consumer op d = (o, d).
Proof. intros Hop. rewrite (on_consumer_run _ _ _ _ Hop). by destruct d. Qed.

Lemma checks_run {A} (d : D) rank pid (k : M D A) :
  (check_rank_id rank;; check_partition_id pid;; k) d
  = if addressed d rank pid then k d else (raise AssertionError, d).
Proof.
  unfold check_rank_id, check_partition_id, addressed. mrun.
  rewrite (Z.eqb_sym rank), (Z.eqb_sym pid).
  destruct (dj_rank_id d =? rank); mrun; [|done].
  destruct (0 <=? pid); mrun; [|by rewrite andb_false_r].
  destruct (dj_partition_id d =? pid); by mrun.
Qed.

(** What [decode_content] gives on what a producer sends. *)
Lemma decode_plain rank pid c :
  decode_content (mkSyncReq rank pid (sync_serialize c) false) = Ret c.
Proof. unfold decode_content. simpl. by rewrite sync_roundtrip. Qed.
Lemma decode_compressed rank pid c :
  decode_content (mkSyncReq rank pid (zlib_compress (sync_serialize c)) true) = Ret c.
Proof. unfold decode_content. simpl. rewrite zlib_roundtrip. simpl. by rewrite sync_roundtrip. Qed.

Lemma start_partition_run d rank :
  serving d → rank = dj_rank_id d →
  ∃ next fin, partition_syncer_to_consumer (dj_partition_id d) (dj_consumer d)
                = (Ret (next, fin), dj_consumer d) ∧
    StartPartition (mkStartReq rank (dj_partition_id d)) d
      = (next' ← pb_int64 (Some next); Ret (mkStartRsp status_ok next' fin), d).
Proof.
  intros [Hp Hc] ->. destruct (syncer_law _ _ Hc) as (next & fin & Hs).
  exists next, fin. split; [done|]. unfold StartPartition. rewrite checks_run. simpl.
  unfold addressed. rewrite !Z.eqb_refl, (proj2 (Z.leb_le _ _)) by done. simpl.
  rewrite run_bind, (on_consumer_pure _ d _ (fetch_law _ _ Hc)), Z.eqb_refl. simpl.
  rewrite run_bind, (on_consumer_pure _ d _ Hs), run_bind. unfold liftO. simpl.
  by destruct (pb_int64 _).
Qed.

Lemma finish_false_run d c' :
  serving d → finish_partition_transmit (dj_partition_id d) (dj_consumer d) = (Ret false, c') →
  FinishPartition (mkFinReq (dj_rank_id d) (dj_partition_id d)) d
    = (Ret (mkFinRsp status_ok false), dj_set_consumer c' d).
Proof.
  intros [Hp Hc] Hf. unfold FinishPartition. rewrite checks_run. simpl.
  unfold addressed. rewrite !Z.eqb_refl, (proj2 (Z.leb_le _ _)) by done. simpl.
  rewrite run_bind, (on_consumer_pure _ d _ (fetch_law _ _ Hc)), Z.eqb_refl. simpl.
  rewrite run_bind. simpl. by rewrite run_bind, (on_consumer_run _ _ _ _ Hf).
Qed.

Lemma finish_true_run d c' c'' :
  serving d → finish_partition_transmit (dj_partition_id d) (dj_consumer d) = (Ret true, c') →
  reset_consumer_wrap (dj_partition_id d) c' = (Ret tt, c'') →
  FinishPartition (mkFinReq (dj_rank_id d) (dj_partition_id d)) d
    = (Ret (mkFinRsp status_ok true), dj_set_consumer c'' d).
Proof.
  intros [Hp Hc] Hf Hr. unfold FinishPartition. rewrite checks_run. simpl.
  unfold addressed. rewrite !Z.eqb_refl, (proj2 (Z.leb_le _ _)) by done. simpl.
  rewrite run_bind, (on_consumer_pure _ d _ (fetch_law _ _ Hc)), Z.eqb_refl. simpl.
  rewrite run_bind. simpl. rewrite run_bind, (on_consumer_run _ _ _ _ Hf), run_bind.
  by rewrite (on_consumer_run _ (dj_set_consumer c' d) _ _ Hr).
Qed.

Lemma finish_run d rank :
  serving d → rank = dj_rank_id d →
  ∃ b d', FinishPartition (mkFinReq rank (dj_partition_id d)) d
            = (Ret (mkFinRsp status_ok b), d') ∧
    dj_partition_id d' = dj_partition_id d ∧ dj_rank_id d' = dj_rank_id d ∧
    consuming (dj_consumer d') = (if b then None else Some (dj_partition_id d)).
Proof.
  intros [Hp Hc] ->. destruct (finish_law _ _ Hc) as (b & c' & Hf & Hc').
  exists b. destruct b.
  - destruct (reset_law _ _ _ Hc Hf) as (c'' & Hr & Hc'').
    eexists. split; [by eapply finish_true_run|done].
  - eexists. split; [by eapply finish_false_run|done].
Qed.
Lemma sync_decoded_run (d : D) req c :
  addressed d (sy_rank_id req) (sy_partition_id req) = true → decode_content req = Ret c →
  SyncPartition req d
  = match append_data_items_from_producer c (dj_consumer d) with
    | (Ret (b, _), c') =>
        (Ret (if b : bool then status_ok else mkStatus (-1) "example id is enough"),
         dj_set_consumer c' d)
    | (Stop r, c') => (Stop r, dj_set_consumer c' d)
    end.
Proof.
  intros Ha Hd. unfold SyncPartition. rewrite checks_run, Ha, run_bind. unfold liftO.
  rewrite Hd, run_bind. unfold on_consumer, zoom.
  by destruct (append_data_items_from_producer c (dj_consumer d)) as [[[[] ?]|] c'].
Qed.

Lemma addressed_self (d : D) :
  0 ≤ dj_partition_id d → addressed d (dj_rank_id d) (dj_partition_id d) = true.
Proof. intros Hp. unfold addressed. by rewrite !Z.eqb_refl, (proj2 (Z.leb_le _ _)). Qed.

Lemma sync_partition_run (d : D) c (compressed : bool) :
  0 ≤ dj_partition_id d →
  let bytes := if compressed then zlib_compress (sync_serialize c) else sync_serialize c in
  SyncPartition (mkSyncReq (dj_rank_id d) (dj_partition_id d) bytes compressed) d
  = match append_data_items_from_producer c (dj_consumer d) with
    | (Ret (b, _), c') =>
        (Ret (if b : bool then status_ok else mkStatus (-1) "example id is enough"),
         dj_set_consumer c' d)
    | (Stop r, c') => (Stop r, dj_set_consumer c' d)
    end.
Proof.
  intros Hp bytes. apply sync_decoded_run; [by apply addressed_self|].
  destruct compressed; [apply decode_compressed|apply decode_plain].
Qed.
End lemmas.

(** ** The server as the peer of a client

    A gRPC call runs the handler; an exception of the handler reaches the
    client as an [RpcError]. *)
Definition rpc {S A} (h : M S A) : M S A := λ s,
  match h s with
  | (Stop (Raise _), s') => (raise RpcError, s')
  | r => r
  end.

#[export] Instance server_peer {C} `{Consumer C} `{Utils} : PeerClient (data_join C) := {
  rpc_StartPartition req := rpc (StartPartition req);
  rpc_SyncPartition req := rpc (SyncPartition req);
  rpc_FinishPartition req := rpc (FinishPartition req);
}.

Lemma rpc_ret {S A} (h : M S A) s a s' : h s = (Ret a, s') → rpc h s = (Ret a, s').
Proof. unfold rpc. by intros ->. Qed.

(** ** Properties *)
Section properties.
Context {C : Type} `{ConsumerLaws C} `{UtilsLaws}.
Local Abbreviation D := (data_join C).

(** Requests that name another rank, another partition or a negative
    partition are refused by an [AssertionError] in all three handlers, and
    leave the server as it was. *)
Theorem misaddressed_requests_change_nothing (d : D) rank pid bytes compressed :
  addressed d rank pid = false →
  StartPartition (mkStartReq rank pid) d = (raise AssertionError, d) ∧
  FinishPartition (mkFinReq rank pid) d = (raise AssertionError, d) ∧
  SyncPartition (mkSyncReq rank pid bytes compressed) d = (raise AssertionError, d).
Proof.
  intros Ha. unfold StartPartition, FinishPartition, SyncPartition.
  rewrite !checks_run. simpl. by rewrite Ha.
Qed.

(** A partition is finished once: when [FinishPartition] answers that the
    partition is finished, the consumer is retired and every later request,
    a repeated [FinishPartition] included, raises. *)
Theorem finish_retires_the_partition (d d' : D) rank st :
  serving d → FinishPartition (mkFinReq rank (dj_partition_id d)) d
              = (Ret (mkFinRsp st true), d') →
  st = status_ok ∧ consuming (dj_consumer d') = None ∧
  ∀ rank' pid', ∃ e1 e2,
    StartPartition (mkStartReq rank' pid') d' = (raise e1, d') ∧
    FinishPartition (mkFinReq rank' pid') d' = (raise e2, d').
Proof.
  intros Hs Hf. destruct (decide (rank = dj_rank_id d)) as [Hr|Hr].
  2:{ unfold FinishPartition in Hf. rewrite checks_run in Hf. simpl in Hf.
      unfold addressed in Hf. by rewrite (proj2 (Z.eqb_neq _ _)) in Hf. }
  destruct (finish_run d rank Hs Hr) as (b & d1 & Hf' & _ & _ & Hc).
  rewrite Hf' in Hf. injection Hf as <- -> <-. simpl in Hc. split_and!; [done|done|].
  intros rank' pid'. destruct (fetch_retired_law _ Hc) as [e He].
  exists (if addressed d1 rank' pid' then e else AssertionError),
         (if addressed d1 rank' pid' then e else AssertionError).
  unfold StartPartition, FinishPartition. rewrite !checks_run. simpl.
  destruct (addressed d1 rank' pid'); [|done].
  by rewrite !run_bind, !(on_consumer_pure _ d1 _ He).
Qed.

(** C28.  What a producer serialises, compressed or not, is what the consumer
    is given: the handler has the effect of appending that content, and
    answers 0 or -1 by whether the consumer took it. *)
Theorem sync_delivers_the_content (d : D) c (compressed : bool) :
  0 ≤ dj_partition_id d →
  let bytes := if compressed then zlib_compress (sync_serialize c) else sync_serialize c in
  SyncPartition (mkSyncReq (dj_rank_id d) (dj_partition_id d) bytes compressed) d
  = match append_data_items_from_producer c (dj_consumer d) with
    | (Ret (b, _), c') =>
        (Ret (if b : bool then status_ok else mkStatus (-1) "example id is enough"),
         dj_set_consumer c' d)
    | (Stop r, c') => (Stop r, dj_set_consumer c' d)
    end.
Proof. apply sync_partition_run. Qed.
End properties.

Section witnesses.
Import TestUtils.

Definition follower0 : data_join example_id_consumer :=
  mkDataJoin 3 7 (new_example_id_consumer 3 []).

Lemma misaddressed_requests_change_nothing_witness :
  StartPartition (mkStartReq 7 4) follower0 = (raise AssertionError, follower0) ∧
  FinishPartition (mkFinReq 7 4) follower0 = (raise AssertionError, follower0) ∧
  SyncPartition (mkSyncReq 7 4 "" false) follower0 = (raise AssertionError, follower0).
Proof. apply misaddressed_requests_change_nothing. reflexivity. Defined.

Lemma finish_retires_the_partition_witness :
  let d' := (FinishPartition (mkFinReq 7 3) follower0).2 in
  status_ok = status_ok ∧ consuming (dj_consumer d') = None ∧
  ∀ rank' pid', ∃ e1 e2,
    StartPartition (mkStartReq rank' pid') d' = (raise e1, d') ∧
    FinishPartition (mkFinReq rank' pid') d' = (raise e2, d').
Proof.
  intros d'. apply (finish_retires_the_partition follower0 d' 7 status_ok).
  - split; [by simpl|reflexivity].
  - reflexivity.
Defined.

Lemma sync_delivers_the_content_witness :
  let l := mkLite 3 0 ["a"] [1] true in
  SyncPartition (mkSyncReq 7 3 (sync_serialize (SC_lite_example_ids l)) false) follower0
  = (Ret status_ok,
     dj_set_consumer (mkIdConsumer (mkAppender [l] 3 false 0) (Some 3)) follower0).
Proof.
  intros l.
  exact (sync_delivers_the_content follower0 (SC_lite_example_ids l) false (ltac:(by simpl))).
Defined.
End witnesses.
