(* ===== verification/ExampleIdProducer.v ===== *)
(** * ExampleIdProducer (data_join/example_id_producer.py)

    The leader sends the ids and event times of its raw data, in the order of
    its item dictionary, in batches of which the last is marked finished. *)

From stdpp Require Import base tactics list gmap strings.
From Stdlib Require Import ZArith Lia.
From S2P Require Import Prelude PyStd Messages Env RawData Consumer ExampleIdConsumer.
From S2P Require Import DataJoinServer.

Open Scope Z_scope.

(** config.py *)
Definition sync_example_id_nums : Z := 2048.

Record id_producer (P : Type) := mkIdProducer {
  ip_peer : P;
  ip_rank_id : Z;
  ip_init : init_loading;
  ip_start : bool;
}.
Arguments mkIdProducer {_}.
Arguments ip_peer {_}.
Arguments ip_rank_id {_}.
Arguments ip_init {_}.
Arguments ip_start {_}.

Section producer.
Context {P : Type} `{PeerClient P} `{Utils} `{TFExample}.
Local Abbreviation S := (id_producer P).

Definition ip_set_peer x (s : S) : S := mkIdProducer x (ip_rank_id s) (ip_init s) (ip_start s).
Definition ip_on_init (f : init_loading → init_loading) : M S unit :=
  modify (λ s, mkIdProducer (ip_peer s) (ip_rank_id s) (f (ip_init s)) (ip_start s)).
Definition call {A} (c : M P A) : M S A := zoom ip_peer ip_set_peer c.

Definition start_notify_consumer_to_sync_partition : M S (Z * bool) :=
  s ← getM;
  rsp ← call (rpc_StartPartition (mkStartReq (ip_rank_id s) (il_partition_id (ip_init s))));
  require (code (spr_status rsp) =? 0) RuntimeError;;
  mret (spr_next_index rsp, spr_finished rsp).

(** Appending the id and the event time of every example to the message. *)
Fixpoint collect (examples : list (pyid * string)) (l : LiteExampleIds) : outcome LiteExampleIds :=
  match examples with
  | [] => Ret l
  | (i, r) :: examples' =>
      match i with
      | PyStr _ => raise TypeError
      | PyBytes b =>
          t ← event_time_of r;
          z ← pb_int64 t;
          collect examples'
            (mkLite (le_partition_id l) (le_begin_index l) (le_example_id l ++ [b])
               (le_event_time l ++ [z]) (le_finished l))
      end
  end.

Definition send_example_ids_to_consumer (examples : list (pyid * string)) (finished : bool)
    : M S unit :=
  s ← getM;
  let pid := il_partition_id (ip_init s) in
  lite ← liftO (collect examples (mkLite pid 0 [] [] finished));
  let req := mkSyncReq (ip_rank_id s) pid (sync_serialize (SC_lite_example_ids lite)) false in
  rsp ← call (rpc_SyncPartition req);
  require (code rsp =? 0) RuntimeError.

(** The loop over the item dictionary; the result is the last, open batch. *)
Fixpoint send_items (items examples_list : list (pyid * string))
    : M S (list (pyid * string)) :=
  match items with
  | [] => mret examples_list
  | x :: items' =>
      let l := examples_list ++ [x] in
      if sync_example_id_nums <? zlen l
      then send_example_ids_to_consumer l false;; send_items items' []
      else send_items items' l
  end.

Definition sender : M S bool :=
  r ← start_notify_consumer_to_sync_partition;
  if r.2 : bool then mret true
  else
    items ← gets (λ s : S, il_item_dict (ip_init s));
    last ← send_items items [];
    send_example_ids_to_consumer last true;;
    ip_on_init (il_set_partition_finished true);;
    mret false.

Definition finish_send_example_id_to_consumer : M S bool :=
  s ← getM;
  (if il_follower_finished (ip_init s) then mret tt
   else
     rsp ← call (rpc_FinishPartition (mkFinReq (ip_rank_id s) (il_partition_id (ip_init s))));
     require (code (fp_status rsp) =? 0) RuntimeError;;
     ip_on_init (il_set_follower_finished (fp_finished rsp)));;
  gets (λ s : S, il_follower_finished (ip_init s)).

(** [_send_example_id_processor]: what follows the [yield] of the context
    manager is skipped when the body raises. *)
Definition send_example_id_processor : M S unit :=
  s ← getM;
  (if il_follower_finished (ip_init s) then mret tt
   else
     ip_on_init acquire_stale_with_sender;;
     fin ← sender;
     ip_on_init (il_set_follower_finished fin);;
     ip_on_init release_stale_with_sender);;
  s' ← getM;
  if il_partition_finished (ip_init s')
  then finish_send_example_id_to_consumer;; mret tt
  else mret tt.

Definition ip_start_processors : M S unit :=
  modify (λ s, mkIdProducer (ip_peer s) (ip_rank_id s) (ip_init s) true).
Definition ip_stop_processors : M S unit :=
  modify (λ s, mkIdProducer (ip_peer s) (ip_rank_id s) (ip_init s) false).
End producer.

(** ** Specification: cutting the items into batches *)
Fixpoint id_batches (n : Z) (open items : list (pyid * string))
    : list (list (pyid * string)) * list (pyid * string) :=
  match items with
  | [] => ([], open)
  | x :: items' =>
      let l := open ++ [x] in
      if n <? zlen l
      then let r := id_batches n [] items' in (l :: r.1, r.2)
      else id_batches n l items'
  end.

Lemma id_batches_concat n open items :
  concat (id_batches n open items).1 ++ (id_batches n open items).2 = open ++ items.
Proof.
  revert open. induction items as [|x items IH]; intros open; simpl; [by rewrite app_nil_r|].
  case_match; simpl; rewrite <- ?(assoc_L (++)), IH; simpl; by rewrite <- ?(assoc_L (++)).
Qed.

Lemma id_batches_sizes n open items :
  0 ≤ n → zlen open ≤ n →
  Forall (λ b, zlen b = n + 1) (id_batches n open items).1 ∧
  zlen (id_batches n open items).2 ≤ n.
Proof.
  intros Hn. revert open. induction items as [|x items IH]; intros open Ho; simpl; [done|].
  assert (zlen (open ++ [x]) = zlen open + 1) as Hl by (by rewrite zlen_app).
  destruct (Z.ltb_spec n (zlen (open ++ [x]))); simpl.
  - destruct (IH []) as [IH1 IH2]; [done|]. split; [|done]. constructor; [lia|done].
  - apply IH. lia.
Qed.

(** ** Sending to the follower's server *)
Section follower.
Context `{UtilsLaws} `{TFExample}.
Local Abbreviation P := (data_join example_id_consumer).
Local Abbreviation S := (id_producer P).

(** Every item can be sent. *)
Definition sendable (items : list (pyid * string)) : Prop :=
  Forall (λ x, (∃ b, x.1 = PyBytes b) ∧ has_event_time x.2) items.

Definition id_bytes (x : pyid * string) : string :=
  match x.1 with PyBytes b => b | PyStr s => s end.
Definition lite_of (pid : Z) (examples : list (pyid * string)) (finished : bool)
    : LiteExampleIds :=
  mkLite pid 0 (id_bytes <$> examples) ((λ x, record_event_time x.2) <$> examples) finished.

Lemma collect_run examples l :
  sendable examples →
  collect examples l
    = Ret (mkLite (le_partition_id l) (le_begin_index l)
             (le_example_id l ++ (id_bytes <$> examples))
             (le_event_time l ++ ((λ x, record_event_time x.2) <$> examples))
             (le_finished l)).
Proof.
  intros Hs. revert l. induction Hs as [|[i r] ex [[b Hb] Ht] Hs IH]; intros l; simpl.
  - rewrite !app_nil_r. by destruct l.
  - simpl in Hb. subst i. apply has_event_time_get in Ht as [Ht H64].
    simpl in Ht, H64. rewrite Ht. simpl. rewrite pb_int64_Some by done. simpl. rewrite IH. simpl.
    by rewrite <- !(assoc_L (++)).
Qed.

Lemma collect_lite pid examples b :
  sendable examples → collect examples (mkLite pid 0 [] [] b) = Ret (lite_of pid examples b).
Proof. intros Hs. by rewrite collect_run. Qed.

(** The follower is consuming, and its server holds the batches [q]. *)
Record following (d : P) (q : list LiteExampleIds) (fin : bool) : Prop := mkFollowing {
  fo_pid : 0 ≤ dj_partition_id d;
  fo_consuming : ec_partition_id (dj_consumer d) = Some (dj_partition_id d);
  fo_appender : ap_partition_id (ec_appender (dj_consumer d)) = dj_partition_id d;
  fo_queue : ap_queue (ec_appender (dj_consumer d)) = q;
  fo_finished : ap_finished (ec_appender (dj_consumer d)) = fin;
}.

(** The producer of the same rank and partition as that follower. *)
Definition paired (s : S) : Prop :=
  ip_rank_id s = dj_rank_id (ip_peer s) ∧
  il_partition_id (ip_init s) = dj_partition_id (ip_peer s).

(** What a step that only calls the peer leaves alone. *)
Definition ip_frame (s s' : S) : Prop :=
  ip_rank_id s' = ip_rank_id s ∧ ip_init s' = ip_init s ∧ ip_start s' = ip_start s ∧
  dj_partition_id (ip_peer s') = dj_partition_id (ip_peer s) ∧
  dj_rank_id (ip_peer s') = dj_rank_id (ip_peer s).

Lemma ip_frame_paired s s' : ip_frame s s' → paired s → paired s'.
Proof. intros (A & B & _ & C & D) [E G]. split; congruence. Qed.

(** The three calls at a follower that is consuming. *)
Definition same_server (d d' : P) : Prop :=
  dj_partition_id d' = dj_partition_id d ∧ dj_rank_id d' = dj_rank_id d.

Lemma sync_ids_run (d : P) q fin examples b :
  following d q fin →
  let l := lite_of (dj_partition_id d) examples b in
  ∃ d', rpc_SyncPartition (mkSyncReq (dj_rank_id d) (dj_partition_id d)
                             (sync_serialize (SC_lite_example_ids l)) false) d
          = (Ret status_ok, d') ∧
    following d' (q ++ [l]) fin ∧ same_server d d' ∧
    ap_next (ec_appender (dj_consumer d')) = ap_next (ec_appender (dj_consumer d)) + (zlen examples - 1).
Proof.
  intros [Hp Hc Ha Hq Hf] l.
  pose proof (sync_partition_run d (SC_lite_example_ids l) false Hp) as Hsync.
  cbv zeta in Hsync.
  change (append_data_items_from_producer (SC_lite_example_ids l) (dj_consumer d))
    with (ec_append_data_items_from_producer (SC_lite_example_ids l) (dj_consumer d)) in Hsync.
  rewrite (ec_append_run (dj_consumer d) l Hc Ha) in Hsync. cbv zeta in Hsync.
  eexists. split_and!; [exact (rpc_ret _ _ _ _ Hsync)| |done|].
  - simpl. split; simpl; try done. by rewrite Hq.
  - simpl. unfold zlen. by rewrite length_fmap.
Qed.

Lemma start_ids_run (d : P) q fin :
  following d q fin → in_int64 (ap_next (ec_appender (dj_consumer d))) = true →
  rpc_StartPartition (mkStartReq (dj_rank_id d) (dj_partition_id d)) d
  = (Ret (mkStartRsp status_ok (ap_next (ec_appender (dj_consumer d))) fin), d).
Proof.
  intros Hf H64.
  destruct (start_partition_run d (dj_rank_id d)) as (next & fin' & Hsy & Hst).
  { split; apply Hf. } { done. }
  simpl in Hsy. unfold ec_partition_syncer_to_consumer in Hsy. mrun.
  rewrite bool_decide_true in Hsy by apply Hf. mrun. simplify_eq.
  rewrite pb_int64_Some in Hst by done. simpl in Hst.
  rewrite (fo_finished _ _ _ Hf) in Hst. exact (rpc_ret _ _ _ _ Hst).
Qed.

Lemma finish_ids_run (d : P) q fin :
  following d q fin → q ≠ [] →
  ∃ d', rpc_FinishPartition (mkFinReq (dj_rank_id d) (dj_partition_id d)) d
          = (Ret (mkFinRsp status_ok false), d') ∧
    following d' q true ∧ same_server d d' ∧
    ap_next (ec_appender (dj_consumer d')) = ap_next (ec_appender (dj_consumer d)).
Proof.
  intros Hf Hq.
  assert (serving d) as Hserv by (split; apply Hf).
  pose proof (ec_finish_run (dj_consumer d) _ (fo_consuming _ _ _ Hf)) as Hfin.
  cbv zeta in Hfin. rewrite (fo_queue _ _ _ Hf), bool_decide_false in Hfin by done.
  pose proof (finish_false_run d _ Hserv Hfin) as Hrpc.
  eexists. split_and!; [exact (rpc_ret _ _ _ _ Hrpc)| |done|done].
  destruct Hf. by split.
Qed.

Lemma send_run s q fin examples b :
  paired s → following (ip_peer s) q fin → sendable examples →
  ∃ s', send_example_ids_to_consumer examples b s = (Ret tt, s') ∧
    following (ip_peer s') (q ++ [lite_of (dj_partition_id (ip_peer s)) examples b]) fin ∧
    ip_frame s s' ∧
    ap_next (ec_appender (dj_consumer (ip_peer s')))
      = ap_next (ec_appender (dj_consumer (ip_peer s))) + (zlen examples - 1).
Proof.
  intros [Hrank Hpid] Hf Hs.
  destruct (sync_ids_run (ip_peer s) q fin examples b Hf) as (d' & Hr & Hf' & [Hp Hk] & Hn).
  exists (ip_set_peer d' s). split_and!; [|done|by split_and!|done].
  unfold send_example_ids_to_consumer. rewrite run_bind. cbn [getM]. rewrite run_bind.
  unfold liftO. rewrite collect_lite by done. rewrite Hrank, Hpid.
  rewrite run_bind. unfold call, zoom. by rewrite Hr.
Qed.

Lemma ip_frame_refl s : ip_frame s s.
Proof. by split_and!. Qed.
Lemma ip_frame_trans s1 s2 s3 : ip_frame s1 s2 → ip_frame s2 s3 → ip_frame s1 s3.
Proof. intros (A & B & C & D & E) (A' & B' & C' & D' & E'). split_and!; congruence. Qed.

Lemma sendable_app l1 l2 : sendable (l1 ++ l2) ↔ sendable l1 ∧ sendable l2.
Proof. apply Forall_app. Qed.

Lemma send_items_run items : ∀ s q fin open,
  paired s → following (ip_peer s) q fin → sendable (open ++ items) →
  let r := id_batches sync_example_id_nums open items in
  ∃ s', send_items items open s = (Ret r.2, s') ∧
    following (ip_peer s')
      (q ++ ((λ b, lite_of (dj_partition_id (ip_peer s)) b false) <$> r.1)) fin ∧
    ip_frame s s'.
Proof.
  induction items as [|x items IH]; intros s q fin open Hp Hf Hs.
  - exists s. simpl. rewrite app_nil_r. by split_and!.
  - cbn [send_items id_batches].
    assert (sendable ((open ++ [x]) ++ items)) as Hs' by (by rewrite <- (assoc_L (++))).
    destruct (sync_example_id_nums <? zlen (open ++ [x])).
    + apply sendable_app in Hs' as [Hs1 Hs2].
      destruct (send_run s q fin (open ++ [x]) false Hp Hf Hs1) as (s1 & Hr1 & Hf1 & Hfr1 & _).
      destruct (IH s1 _ fin [] (ip_frame_paired _ _ Hfr1 Hp) Hf1 Hs2)
        as (s2 & Hr2 & Hf2 & Hfr2).
      exists s2. rewrite run_bind, Hr1. split_and!; [done| |by eapply ip_frame_trans].
      destruct Hfr1 as (_ & _ & _ & Epid & _). rewrite Epid in Hf2. simpl.
      by rewrite <- (assoc_L (++)) in Hf2.
    + by apply IH.
Qed.

(** The batches of one round of the sender. *)
Definition round_batches (pid : Z) (items : list (pyid * string)) : list LiteExampleIds :=
  let r := id_batches sync_example_id_nums [] items in
  ((λ b, lite_of pid b false) <$> r.1) ++ [lite_of pid r.2 true].

(** A field of the batches, along the items. *)
Lemma round_batches_field {A} (f : LiteExampleIds → list A) (g : pyid * string → A) pid items :
  (∀ l b, f (lite_of pid l b) = g <$> l) →
  round_batches pid items ≫= f = g <$> items.
Proof.
  intros Hf. unfold round_batches.
  pose proof (id_batches_concat sync_example_id_nums [] items) as Hc.
  destruct (id_batches _ [] items) as [bs l]. simpl in *. rewrite <- Hc. clear Hc.
  induction bs as [|b bs IH]; simpl; [by rewrite Hf, app_nil_r|].
  transitivity ((g <$> b) ++ (g <$> concat bs ++ l)); [by rewrite Hf, <- IH|].
  by rewrite !fmap_app, (assoc_L (++)).
Qed.

Lemma round_batches_ids pid items :
  round_batches pid items ≫= le_example_id = id_bytes <$> items.
Proof. by apply round_batches_field. Qed.
Lemma round_batches_times pid items :
  round_batches pid items ≫= le_event_time = (λ x, record_event_time x.2) <$> items.
Proof. by apply (round_batches_field le_event_time (λ x, record_event_time x.2)). Qed.

Lemma round_batches_marks pid items :
  ∃ q l, round_batches pid items = q ++ [l] ∧ Forall (λ x, le_finished x = false) q ∧
         le_finished l = true.
Proof.
  eexists _, _. split; [reflexivity|]. split; [|done].
  apply Forall_fmap, Forall_true. done.
Qed.

Lemma start_notify_run s q fin :
  paired s → following (ip_peer s) q fin →
  in_int64 (ap_next (ec_appender (dj_consumer (ip_peer s)))) = true →
  start_notify_consumer_to_sync_partition s
    = (Ret (ap_next (ec_appender (dj_consumer (ip_peer s))), fin), s).
Proof.
  intros [Hrank Hpid] Hf H64.
  unfold start_notify_consumer_to_sync_partition. rewrite run_bind. cbn [getM].
  rewrite run_bind. unfold call, zoom. rewrite Hrank, Hpid, (start_ids_run _ _ _ Hf H64).
  simpl. rewrite run_bind. simpl. by destruct s.
Qed.

Lemma finish_send_run s q fin :
  paired s → following (ip_peer s) q fin → q ≠ [] →
  il_follower_finished (ip_init s) = false →
  ∃ s', finish_send_example_id_to_consumer s = (Ret false, s') ∧
    following (ip_peer s') q true ∧ paired s' ∧
    ip_init s' = il_set_follower_finished false (ip_init s) ∧
    dj_partition_id (ip_peer s') = dj_partition_id (ip_peer s) ∧
    ap_next (ec_appender (dj_consumer (ip_peer s')))
      = ap_next (ec_appender (dj_consumer (ip_peer s))).
Proof.
  intros [Hrank Hpid] Hf Hq Hff.
  destruct (finish_ids_run (ip_peer s) q fin Hf Hq) as (d' & Hr & Hf' & [Hp Hk] & Hn).
  eexists. split.
  - unfold finish_send_example_id_to_consumer. rewrite run_bind. cbn [getM].
    rewrite Hff, run_bind, run_bind. unfold call, zoom. rewrite Hrank, Hpid, Hr. reflexivity.
  - split_and!; [exact Hf'|split; simpl; congruence|done|done|done].
Qed.

(** With its queue drained, the follower drops the partition. *)
Lemma finish_drained_run s fin :
  paired s → following (ip_peer s) [] fin → il_follower_finished (ip_init s) = false →
  ∃ s', finish_send_example_id_to_consumer s = (Ret true, s') ∧ paired s' ∧
    dj_partition_id (ip_peer s') = dj_partition_id (ip_peer s) ∧
    ap_queue (ec_appender (dj_consumer (ip_peer s'))) = [] ∧
    ap_next (ec_appender (dj_consumer (ip_peer s')))
      = ap_next (ec_appender (dj_consumer (ip_peer s))) ∧
    ip_init s' = il_set_follower_finished true (ip_init s).
Proof.
  intros [Hrank Hpid] Hf Hff.
  assert (serving (ip_peer s)) as Hserv by (split; apply Hf).
  pose proof (ec_finish_run (dj_consumer (ip_peer s)) _ (fo_consuming _ _ _ Hf)) as Hfin.
  cbv zeta in Hfin. rewrite (fo_queue _ _ _ Hf) in Hfin.
  match type of Hfin with _ = (_, ?c) =>
    pose proof (ec_reset_run c _ eq_refl eq_refl eq_refl) as Hreset
  end.
  pose proof (finish_true_run (ip_peer s) _ _ Hserv Hfin Hreset) as Hrpc.
  eexists. split; [|split].
  - unfold finish_send_example_id_to_consumer. rewrite run_bind. cbn [getM].
    rewrite Hff, run_bind, run_bind. unfold call, zoom. rewrite Hrank, Hpid.
    cbn [rpc_FinishPartition server_peer]. rewrite (rpc_ret _ _ _ _ Hrpc). reflexivity.
  - by split.
  - done.
Qed.

Lemma round_run s q :
  paired s → following (ip_peer s) q false →
  il_partition_finished (ip_init s) = false → il_follower_finished (ip_init s) = false →
  in_int64 (ap_next (ec_appender (dj_consumer (ip_peer s)))) = true →
  sendable (il_item_dict (ip_init s)) →
  ∃ s', send_example_id_processor s = (Ret tt, s') ∧
    following (ip_peer s')
      (q ++ round_batches (dj_partition_id (ip_peer s)) (il_item_dict (ip_init s))) true ∧
    paired s' ∧ il_partition_finished (ip_init s') = true ∧
    il_follower_finished (ip_init s') = false ∧
    il_item_dict (ip_init s') = il_item_dict (ip_init s).
Proof.
  intros Hp Hf Hpf Hff H64 Hs.
  set (s0 := mkIdProducer (ip_peer s) (ip_rank_id s) (acquire_stale_with_sender (ip_init s))
               (ip_start s)).
  assert (paired s0) as Hp0 by (destruct Hp; by split).
  destruct (send_items_run (il_item_dict (ip_init s)) s0 q false [])
    as (s1 & Hr1 & Hf1 & Hfr1); [done|done|done|].
  assert (sendable (id_batches sync_example_id_nums [] (il_item_dict (ip_init s))).2) as Hs1.
  { pose proof (id_batches_concat sync_example_id_nums [] (il_item_dict (ip_init s))) as Hc.
    simpl in Hc. rewrite <- Hc in Hs. by apply sendable_app in Hs as [_ ?]. }
  destruct (send_run s1 _ false _ true (ip_frame_paired _ _ Hfr1 Hp0) Hf1 Hs1)
    as (s2 & Hr2 & Hf2 & Hfr2 & _).
  pose proof (ip_frame_trans _ _ _ Hfr1 Hfr2) as Hfr.
  destruct Hfr1 as (_ & _ & _ & Epid1 & _). rewrite Epid1, <- (assoc_L (++)) in Hf2.
  change (ip_peer s0) with (ip_peer s) in Hf2.
  fold (round_batches (dj_partition_id (ip_peer s)) (il_item_dict (ip_init s))) in Hf2.
  pose proof (ip_frame_paired _ _ Hfr Hp0) as Hp2. destruct Hfr as (_ & Ei & _).
  set (s3 := mkIdProducer (ip_peer s2) (ip_rank_id s2)
               (release_stale_with_sender (il_set_follower_finished false
                  (il_set_partition_finished true (ip_init s2)))) (ip_start s2)).
  destruct (finish_send_run s3
              (q ++ round_batches (dj_partition_id (ip_peer s)) (il_item_dict (ip_init s))) false)
    as (s4 & Hr4 & Hf4 & Hp4 & Ei4 & _).
  { destruct Hp2. by split. } { exact Hf2. }
  { destruct (round_batches_marks (dj_partition_id (ip_peer s)) (il_item_dict (ip_init s)))
      as (q' & l & -> & _). by destruct q, q'. }
  { done. }
  exists s4. split_and!; [|exact Hf4|done|by rewrite Ei4|by rewrite Ei4|].
  2:{ rewrite Ei4. simpl. by rewrite Ei. }
  unfold send_example_id_processor. rewrite run_bind. cbn [getM]. rewrite Hff.
  rewrite run_bind, run_bind. unfold ip_on_init, modify. fold s0.
  rewrite run_bind. unfold sender. rewrite run_bind.
  rewrite (start_notify_run s0 q false) by done. simpl. rewrite run_bind. simpl.
  change (il_item_dict (acquire_stale_with_sender (ip_init s)))
    with (il_item_dict (ip_init s)).
  rewrite run_bind, Hr1, run_bind, Hr2. rewrite run_bind. simpl.
  rewrite run_bind. unfold ip_on_init, modify. simpl. fold s3.
  by rewrite run_bind, Hr4.
Qed.
End follower.

(** ** Properties *)
Section properties.
Context `{UtilsLaws} `{TFExample}.

(** A round of the leader's sender puts all its ids on the follower's
    queue: over a follower that is consuming, the batches appended carry
    exactly the ids and event times of the leader's dictionary in its order,
    every batch but the last has 2049 ids, only the last is marked finished,
    and the follower is told that the sending is over.  The index answered by
    the follower is not used: a round repeated after a failure appends all
    ids again behind the batches [q] already queued. *)
Theorem leader_sends_every_id (s : id_producer (data_join example_id_consumer)) q :
  paired s → following (ip_peer s) q false →
  il_partition_finished (ip_init s) = false → il_follower_finished (ip_init s) = false →
  in_int64 (ap_next (ec_appender (dj_consumer (ip_peer s)))) = true →
  sendable (il_item_dict (ip_init s)) →
  ∃ s' full last, send_example_id_processor s = (Ret tt, s') ∧
    following (ip_peer s') (q ++ full ++ [last]) true ∧
    (full ++ [last]) ≫= le_example_id = id_bytes <$> il_item_dict (ip_init s) ∧
    (full ++ [last]) ≫= le_event_time
      = (λ x, record_event_time x.2) <$> il_item_dict (ip_init s) ∧
    Forall (λ b, le_finished b = false ∧ zlen (le_example_id b) = 2049) full ∧
    le_finished last = true ∧ zlen (le_example_id last) ≤ 2048.
Proof.
  intros Hp Hf Hpf Hff H64 Hs.
  destruct (round_run s q Hp Hf Hpf Hff H64 Hs) as (s' & Hr & Hf' & _).
  pose proof (round_batches_ids (dj_partition_id (ip_peer s)) (il_item_dict (ip_init s))) as Hids.
  pose proof (round_batches_times (dj_partition_id (ip_peer s)) (il_item_dict (ip_init s))) as Htms.
  unfold round_batches in *.
  destruct (id_batches_sizes sync_example_id_nums [] (il_item_dict (ip_init s)))
    as [Hsz1 Hsz2]; [done|done|].
  eexists s', _, _. split; [done|]. split; [exact Hf'|]. split; [done|]. split; [done|].
  split; [|split; [done|]].
  - apply Forall_fmap. eapply Forall_impl; [exact Hsz1|]. intros b Hb. simpl.
    split; [done|]. unfold zlen in *. by rewrite length_fmap.
  - simpl. unfold zlen in *. by rewrite length_fmap.
Qed.
End properties.

Section witnesses.
Import TestUtils TestRecords.

Definition leader0 : id_producer (data_join example_id_consumer) :=
  mkIdProducer follower0 7
    (new_init_loading
       (mkLoader "raw" tf_options "local" "raw" ["raw/a"]
          [(PyBytes "b", "b"); (PyBytes "a", "a")] true) 3) true.

Lemma leader_sends_every_id_witness :
  ∃ s' full last, send_example_id_processor leader0 = (Ret tt, s') ∧
    following (ip_peer s') ([] ++ full ++ [last]) true ∧
    (full ++ [last]) ≫= le_example_id = ["b"; "a"] ∧
    (full ++ [last]) ≫= le_event_time
      = (λ x, record_event_time x.2) <$> il_item_dict (ip_init leader0) ∧
    Forall (λ b, le_finished b = false ∧ zlen (le_example_id b) = 2049) full ∧
    le_finished last = true ∧ zlen (le_example_id last) ≤ 2048.
Proof.
  apply (leader_sends_every_id leader0 []).
  - split; reflexivity.
  - split; try reflexivity. by simpl.
  - reflexivity.
  - reflexivity.
  - reflexivity.
  - repeat (apply Forall_cons_2 || apply Forall_nil_2);
      (split; [eexists; reflexivity|]); eexists; split; reflexivity.
Defined.
End witnesses.
