(* ===== verification/DataBlockProducer.v ===== *)
(** * DataBlockProducer (data_join/data_block_producer.py)

    The follower's producer: it builds the joiner, runs it over the queue of the
    leader's ids, and sends the metas of the finished blocks to the leader, from
    the index the leader asks for. *)

From stdpp Require Import base tactics list gmap strings.
From Stdlib Require Import ZArith QArith Lia.
From S2P Require Import Prelude PyStd Messages Env DataBlockManager DataBlockMaker RawData.
From S2P Require Import DataJoiner DataBlockSaver Consumer DataBlockConsumer ExampleIdConsumer.
From S2P Require Import DataJoinServer.

Open Scope Z_scope.

(** [DataJoinerWrapper] *)
Record joiner_wrap (F : Type) := mkWrap {
  dw_class : joiner_class;
  dw_joiner : joiner F;
  dw_next : Z;
  dw_finished : bool;
}.
Arguments mkWrap {_}.
Arguments dw_class {_}.
Arguments dw_joiner {_}.
Arguments dw_next {_}.
Arguments dw_finished {_}.

Record block_producer (F P : Type) := mkProducer {
  bp_peer : P;
  bp_rank_id : Z;
  bp_partition_id : Z;
  bp_wrap : joiner_wrap F;
}.
Arguments mkProducer {_ _}.
Arguments bp_peer {_ _}.
Arguments bp_rank_id {_ _}.
Arguments bp_partition_id {_ _}.
Arguments bp_wrap {_ _}.

Section producer.
Context {F P : Type} `{GFile F} `{PeerClient P} `{Utils} `{TFExample} `{Clock}.
Local Abbreviation S := (block_producer F P).

Definition bp_set_peer x (s : S) : S :=
  mkProducer x (bp_rank_id s) (bp_partition_id s) (bp_wrap s).
Definition bp_set_wrap x (s : S) : S :=
  mkProducer (bp_peer s) (bp_rank_id s) (bp_partition_id s) x.
Definition dw_set_joiner x (w : joiner_wrap F) : joiner_wrap F :=
  mkWrap (dw_class w) x (dw_next w) (dw_finished w).
Definition dw_set_status n f (w : joiner_wrap F) : joiner_wrap F :=
  mkWrap (dw_class w) (dw_joiner w) n f.

Definition bp_call {A} (c : M P A) : M S A := zoom bp_peer bp_set_peer c.
Definition in_joiner {A} (c : M (joiner F) A) : M S A :=
  zoom (λ s, dw_joiner (bp_wrap s))
       (λ j s, bp_set_wrap (dw_set_joiner j (bp_wrap s)) s) c.
Definition set_status (n : Z) (f : bool) : M S unit :=
  modify (λ s, bp_set_wrap (dw_set_status n f (bp_wrap s)) s).

Definition get_next_data_block_meta : M S (bool * option DataBlockMeta) :=
  w ← gets bp_wrap;
  assertM (0 <=? dw_next w);;
  in_joiner (joiner_meta_by_index (dw_next w)).

(** [_build_data_joiner_processor]: the wrapper over a new joiner. *)
Definition build_data_joiner_processor (opts : ExampleJoinerOptions) (raw : RawDataOptions)
    (dir name raw_dir : string) (pid : Z) (mode : string) (distribute : bool)
    (queue : list LiteExampleIds) (uuid clock : nat) : M F (joiner_wrap F) :=
  r ← build_data_joiner opts raw dir name raw_dir pid mode distribute queue uuid clock;
  mret (mkWrap r.1 r.2 0 false).

(** [_data_join_processor], with fuel for the joiner's loop; the metas it
    yields only wake the sender. *)
Definition data_join_processor (fuel : nat) : M S unit :=
  sw ← in_joiner data_join_switch;
  w ← gets bp_wrap;
  if (sw : bool) then in_joiner (data_joiner_algo (dw_class w) fuel) else mret tt.

(** Compression pays when it saves a fifth: [len(c) < len(s) * 0.8]. *)
Definition compress_content (bytes : string) : string * bool :=
  let len s := Z.of_nat (String.length s) in
  if Z.shiftl 2 20 <? len bytes then
    let c := zlib_compress bytes in
    if 5 * len c <? 4 * len bytes then (c, true) else (bytes, false)
  else (bytes, false).

Definition send_data_block_meta_to_consumer (meta : DataBlockMeta) : M S unit :=
  s ← getM;
  let r := compress_content (sync_serialize (SC_data_block_meta meta)) in
  rsp ← bp_call (rpc_SyncPartition (mkSyncReq (bp_rank_id s) (bp_partition_id s) r.1 r.2));
  require (code rsp =? 0) RuntimeError.

Definition sync_data_block_meta_sender_status : M S (Z * bool) :=
  s ← getM;
  let pid := jn_partition_id (dw_joiner (bp_wrap s)) in
  rsp ← bp_call (rpc_StartPartition (mkStartReq (bp_rank_id s) pid));
  require (code (spr_status rsp) =? 0) RuntimeError;;
  mret (spr_next_index rsp, spr_finished rsp).

(** [while not data_block_producer_finished], with fuel *)
Fixpoint send_loop (fuel : nat) : M S unit :=
  match fuel with
  | O => stopM NoFuel
  | Datatypes.S f =>
      w ← gets bp_wrap;
      if dw_finished w then mret tt
      else
        r ← get_next_data_block_meta;
        match r.2 with
        | None => mret tt
        | Some meta =>
            send_data_block_meta_to_consumer meta;;
            w' ← gets bp_wrap;
            set_status (dw_next w' + 1) (dw_finished w');;
            send_loop f
        end
  end.

(** [send_executor]: [join_state] is never assigned again. *)
Definition send_executor (fuel : nat) : M S bool :=
  r ← sync_data_block_meta_sender_status;
  set_status r.1 r.2;;
  send_loop fuel;;
  mret false.

Definition notify_consumer_finish_send_meta : M S bool :=
  fin ← in_joiner is_data_joiner_finished;
  assertM fin;;
  s ← getM;
  let w := bp_wrap s in
  (if dw_finished w then mret tt
   else
     let req := mkFinReq (bp_rank_id s) (jn_partition_id (dw_joiner w)) in
     rsp ← bp_call (rpc_FinishPartition req);
     require (code (fp_status rsp) =? 0) RuntimeError;;
     set_status (dw_next w) (fp_finished rsp));;
  gets (λ s : S, dw_finished (bp_wrap s)).

Definition send_data_block_meta_processor (fuel : nat) : M S unit :=
  w ← gets bp_wrap;
  joined ← (if dw_finished w then mret false else send_executor fuel);
  w' ← gets bp_wrap;
  if joined || dw_finished w' then notify_consumer_finish_send_meta;; mret tt
  else mret tt.
End producer.

(** ** Sending to the leader's server *)
Section leader.
Context {F G : Type} `{GFileLaws F} `{GFileLaws G} `{UtilsLaws} `{TFExample} `{Clock}.
Local Abbreviation P := (data_join (data_block_consumer G)).
Local Abbreviation S := (block_producer F P).

Lemma compress_decodes c rank pid :
  let r := compress_content (sync_serialize c) in
  decode_content (mkSyncReq rank pid r.1 r.2) = Ret c.
Proof.
  unfold compress_content. destruct (Z.shiftl 2 20 <? _); [|apply decode_plain].
  destruct (5 * _ <? _); [apply decode_compressed|apply decode_plain].
Qed.

(** The leader's server [d] runs the saver [v], of which the store holds
    [log]. *)
Record leading (d : P) (v : saver G) (log : list DataBlockMeta) : Prop := mkLeading {
  ld_pid : 0 ≤ dj_partition_id d;
  ld_wrap : dc_wrap (dj_consumer d) = Some v;
  ld_saver : srep v log;
  ld_same : sv_partition_id v = dj_partition_id d;
}.

(** The follower's producer [s], whose joiner's store holds [log], is paired
    with that server. *)
Record producing (s : S) (log : list DataBlockMeta) : Prop := mkProducing {
  pd_rank : bp_rank_id s = dj_rank_id (bp_peer s);
  pd_pid : bp_partition_id s = dj_partition_id (bp_peer s);
  pd_joiner_pid : jn_partition_id (dw_joiner (bp_wrap s)) = dj_partition_id (bp_peer s);
  pd_rep : rep (w_mgr (jn_world (dw_joiner (bp_wrap s))))
             (w_fs (jn_world (dw_joiner (bp_wrap s)))) log;
  pd_metas x : x ∈ log → partition_id x = bp_partition_id s;
}.

Definition v_with (v : saver G) (b : list DataBlockMeta) : saver G :=
  sv_set_buffer (sv_next v + zlen b) (sv_buffer v ++ b) v.

(** The leader takes the next meta. *)
Lemma sync_meta_run (d : P) v log x :
  leading d v log → sv_finish v = false → data_block_index x = sv_next v →
  partition_id x = dj_partition_id d →
  let r := compress_content (sync_serialize (SC_data_block_meta x)) in
  ∃ d', rpc_SyncPartition (mkSyncReq (dj_rank_id d) (dj_partition_id d) r.1 r.2) d
          = (Ret status_ok, d') ∧
    leading d' (v_with v [x]) log ∧ dj_partition_id d' = dj_partition_id d ∧
    dj_rank_id d' = dj_rank_id d.
Proof.
  intros [Hp Hw Hsv Hsame] Hf Hx Hpx r.
  destruct (append_in_turn v log x Hsv Hf Hx) as [Happ Hsv']; [by rewrite Hsame|].
  assert (append_data_items_from_producer (SC_data_block_meta x) (dj_consumer d)
          = (Ret (true, sv_next v + 1), dc_set_wrap (Some (v_with v [x])) (dj_consumer d)))
    as Hcons.
  { simpl. rewrite run_bind, (dc_synced_run _ v) by congruence.
    rewrite (in_wrap_Some _ _ v) by done. by rewrite Happ. }
  eexists. split; [|split].
  - cbn [rpc_SyncPartition server_peer]. apply rpc_ret.
    rewrite (sync_decoded_run d _ (SC_data_block_meta x)).
    + by rewrite Hcons.
    + by apply addressed_self.
    + apply compress_decodes.
  - by split.
  - done.
Qed.

Lemma send_meta_run (s : S) log v logL x :
  producing s log → leading (bp_peer s) v logL → sv_finish v = false →
  data_block_index x = sv_next v → x ∈ log →
  ∃ d', send_data_block_meta_to_consumer x s = (Ret tt, bp_set_peer d' s) ∧
    leading d' (v_with v [x]) logL ∧ producing (bp_set_peer d' s) log.
Proof.
  intros [P1 P2 P3 P4 P5] Hl Hf Hx Hin.
  destruct (sync_meta_run (bp_peer s) v logL x Hl Hf Hx) as (d' & Hr & Hl' & Hp' & Hk').
  { rewrite <- P2. by apply P5. }
  exists d'. split_and!; [|done|].
  - unfold send_data_block_meta_to_consumer. rewrite run_bind. cbn [getM].
    rewrite P1, P2, run_bind. unfold bp_call, zoom. by rewrite Hr.
  - split; simpl; congruence || done.
Qed.

(** Reading the next meta of the joiner's store. *)
Definition joiner_with (m : manager) (j : joiner F) : joiner F :=
  jn_set_world (w_set_mf (m, w_fs (jn_world j)) (jn_world j)) j.

Lemma next_meta_run (s : S) log x :
  let j := dw_joiner (bp_wrap s) in
  producing s log → 0 ≤ dw_next (bp_wrap s) →
  log !! Z.to_nat (dw_next (bp_wrap s)) = Some x →
  zlen log ≤ removed_items_nums_from_buffer →
  ∃ m', get_next_data_block_meta s
          = (Ret (jn_finished j, Some x),
             bp_set_wrap (dw_set_joiner (joiner_with m' j) (bp_wrap s)) s) ∧
    producing (bp_set_wrap (dw_set_joiner (joiner_with m' j) (bp_wrap s)) s) log ∧
    same_names (w_mgr (jn_world j)) m'.
Proof.
  intros j [P1 P2 P3 P4 P5] Hn Hx Hb.
  destruct (by_index_rep _ _ _ _ _ P4 Hn Hx (rep_room _ _ _ _ _ P4 Hb Hn Hx))
    as (m' & Hby & Hr' & Hsame & _).
  exists m'. split_and!; [|by split|exact Hsame].
  unfold get_next_data_block_meta. rewrite run_bind. simpl.
  rewrite (proj2 (Z.leb_le _ _)) by done. rewrite run_bind. simpl.
  unfold in_joiner, zoom, joiner_meta_by_index. rewrite run_bind. simpl. rewrite run_bind.
  unfold in_world, zoom. by rewrite Hby.
Qed.

Lemma no_more_meta_run (s : S) log :
  producing s log → dw_next (bp_wrap s) = zlen log →
  get_next_data_block_meta s = (Ret (jn_finished (dw_joiner (bp_wrap s)), None), s).
Proof.
  intros [P1 P2 P3 P4 P5] Hn. pose proof (zlen_nonneg log).
  unfold get_next_data_block_meta. rewrite run_bind. simpl.
  rewrite (proj2 (Z.leb_le _ _)) by lia. rewrite run_bind. simpl.
  unfold in_joiner, zoom, joiner_meta_by_index. rewrite run_bind. simpl. rewrite run_bind.
  unfold in_world, zoom. rewrite (by_index_past_rep _ _ _ _ P4) by lia.
  by destruct s as [? ? ? [? [[]] ? ?]].
Qed.

Lemma v_with_app v a b : v_with (v_with v a) b = v_with v (a ++ b).
Proof.
  unfold v_with, sv_set_buffer. simpl. rewrite zlen_app, <- (assoc_L (++)).
  f_equal. lia.
Qed.
Lemma v_with_nil v : v_with v [] = v.
Proof.
  unfold v_with, sv_set_buffer. rewrite app_nil_r. change (zlen []) with 0.
  rewrite Z.add_0_r. by destruct v.
Qed.

(** What sending leaves of the follower: all but the buffer of its store. *)
Definition follower_view (s : S) :=
  let j := dw_joiner (bp_wrap s) in
  (bp_rank_id s, bp_partition_id s, dw_class (bp_wrap s), dw_finished (bp_wrap s),
   w_fs (jn_world j), jn_items j, jn_dir j, jn_source j, jn_partition_id j, jn_finished j).

Lemma send_loop_run k : ∀ (s : S) log v logL fuel,
  producing s log → leading (bp_peer s) v logL → sv_finish v = false →
  dw_finished (bp_wrap s) = false → dw_next (bp_wrap s) = sv_next v → 0 ≤ sv_next v →
  sv_next v + Z.of_nat k = zlen log →
  zlen log ≤ removed_items_nums_from_buffer →
  (k < fuel)%nat →
  ∃ s', send_loop fuel s = (Ret tt, s') ∧
    leading (bp_peer s') (v_with v (drop (Z.to_nat (sv_next v)) log)) logL ∧
    producing s' log ∧ dw_next (bp_wrap s') = zlen log ∧ follower_view s' = follower_view s.
Proof.
  induction k as [|k IH]; intros s log v logL [|fuel] Hp Hl Hf Hd Hn Hpos Hlen Hbuf Hfuel;
    try lia; cbn [send_loop]; rewrite run_bind; cbn [gets]; rewrite Hd.
  - exists s. rewrite run_bind, (no_more_meta_run s log Hp) by lia.
    rewrite drop_ge by (unfold zlen in *; lia). rewrite v_with_nil. split_and!; try done. lia.
  - destruct (lookup_lt_is_Some_2 log (Z.to_nat (sv_next v))) as [x Hx].
    { unfold zlen in *. lia. }
    destruct (next_meta_run s log x) as (m' & Hrun & Hp1 & _); try done.
    { lia. } { by rewrite Hn. }
    set (s1 := bp_set_wrap _ s) in *.
    assert (data_block_index x = sv_next v) as Hxi.
    { rewrite (rep_index _ _ _ (pd_rep _ _ Hp) _ _ Hx). lia. }
    destruct (send_meta_run s1 log v logL x Hp1 Hl Hf Hxi) as (d' & Hsend & Hl2 & Hp2).
    { by eapply list_elem_of_lookup_2. }
    set (s2 := bp_set_wrap (dw_set_status (dw_next (bp_wrap s) + 1) false
                 (bp_wrap (bp_set_peer d' s1))) (bp_set_peer d' s1)).
    assert (zlen [x] = 1) as Hx1 by done.
    destruct (IH s2 log (v_with v [x]) logL fuel) as (s3 & Hr3 & Hl3 & Hp3 & Hn3 & Hv3).
    { destruct Hp2. by split. } { exact Hl2. } { done. } { done. }
    { simpl. rewrite Hn. done. } { simpl. lia. } { simpl. lia. } { done. } { lia. }
    exists s3. rewrite run_bind, Hrun. cbn [snd]. rewrite run_bind, Hsend, run_bind.
    cbn [gets]. rewrite run_bind. unfold set_status, modify.
    change (dw_finished (bp_wrap (bp_set_peer d' s1))) with (dw_finished (bp_wrap s)).
    rewrite Hd. change (dw_next (bp_wrap (bp_set_peer d' s1))) with (dw_next (bp_wrap s)).
    fold s2. rewrite Hr3. split_and!; try done.
    + rewrite v_with_app in Hl3. rewrite (drop_S _ x) by done.
      replace (Z.to_nat (sv_next (v_with v [x]))) with (Datatypes.S (Z.to_nat (sv_next v)))
        in Hl3; [done|]. simpl. rewrite zlen_cons. change (zlen []) with 0. lia.
    + rewrite Hv3. unfold follower_view. simpl. by rewrite Hd.
Qed.

Lemma start_metas_run (d : P) v log :
  leading d v log → in_int64 (sv_next v) = true →
  rpc_StartPartition (mkStartReq (dj_rank_id d) (dj_partition_id d)) d
  = (Ret (mkStartRsp status_ok (sv_next v) (sv_finish v)), d).
Proof.
  intros [L1 L2 L3 L4] H64.
  assert (serving d) as Hserv.
  { split; [done|]. simpl. unfold dc_consuming. rewrite L2. simpl. by rewrite L4. }
  destruct (start_partition_run d (dj_rank_id d) Hserv eq_refl) as (next & fin & Hsy & Hst).
  simpl in Hsy. unfold dc_partition_syncer_to_consumer in Hsy. rewrite run_bind in Hsy.
  simpl in Hsy. rewrite L2, L4, Z.eqb_refl, run_bind in Hsy. simpl in Hsy.
  rewrite run_bind in Hsy. unfold fetch_next_data_block_index in Hsy.
  rewrite (in_wrap_gets _ _ _ L2), run_bind in Hsy.
  unfold is_finish_sent_data_block_meta in Hsy. rewrite (in_wrap_gets _ _ _ L2) in Hsy.
  injection Hsy as <- <-. rewrite pb_int64_Some in Hst by done. exact (rpc_ret _ _ _ _ Hst).
Qed.

Lemma sender_status_run (s : S) log v logL :
  producing s log → leading (bp_peer s) v logL → in_int64 (sv_next v) = true →
  sync_data_block_meta_sender_status s = (Ret (sv_next v, sv_finish v), s).
Proof.
  intros [P1 P2 P3 P4 P5] Hl H64.
  unfold sync_data_block_meta_sender_status. rewrite run_bind. cbn [getM].
  rewrite P1, P3, run_bind. unfold bp_call, zoom. rewrite (start_metas_run _ _ _ Hl H64).
  simpl. by destruct s.
Qed.

(** A round of the sender, while the leader is still taking metas. *)
Lemma send_round_run (s : S) log v logL fuel :
  producing s log → leading (bp_peer s) v logL → sv_finish v = false →
  dw_finished (bp_wrap s) = false → 0 ≤ sv_next v ≤ zlen log →
  zlen log ≤ removed_items_nums_from_buffer →
  zlen log - sv_next v < Z.of_nat fuel →
  ∃ s', send_data_block_meta_processor fuel s = (Ret tt, s') ∧
    leading (bp_peer s') (v_with v (drop (Z.to_nat (sv_next v)) log)) logL ∧
    producing s' log ∧ follower_view s' = follower_view s.
Proof.
  intros Hp Hl Hf Hd Hn Hbuf Hfuel.
  pose proof (rep_bound _ _ _ (pd_rep _ _ Hp)) as Hb.
  set (s1 := bp_set_wrap (dw_set_status (sv_next v) false (bp_wrap s)) s).
  destruct (send_loop_run (Z.to_nat (zlen log - sv_next v)) s1 log v logL fuel)
    as (s' & Hr & Hl' & Hp' & _ & Hv'); try done; try (simpl; lia).
  { destruct Hp. by split. }
  exists s'. split_and!; try done.
  - unfold send_data_block_meta_processor. rewrite run_bind. cbn [gets]. rewrite Hd.
    rewrite run_bind. unfold send_executor. rewrite run_bind.
    rewrite (sender_status_run s log v logL) by (done || apply in_int64_small; lia).
    rewrite Hf, run_bind. unfold set_status, modify. cbn [fst snd]. fold s1.
    rewrite run_bind, Hr. simpl. rewrite run_bind. cbn [gets].
    assert (dw_finished (bp_wrap s') = false) as ->; [|done].
    unfold follower_view in Hv'. simpl in Hv'. congruence.
  - rewrite Hv'. unfold follower_view. simpl. by rewrite Hd.
Qed.

(** A round with nothing to send. *)
Lemma idle_round_run (s : S) log v logL fuel :
  producing s log → leading (bp_peer s) v logL → sv_finish v = false →
  dw_finished (bp_wrap s) = false → sv_next v = zlen log → (0 < fuel)%nat →
  send_data_block_meta_processor fuel s
    = (Ret tt, bp_set_wrap (dw_set_status (zlen log) false (bp_wrap s)) s).
Proof.
  intros Hp Hl Hf Hd Hn Hfuel. pose proof (zlen_nonneg log).
  pose proof (rep_bound _ _ _ (pd_rep _ _ Hp)) as Hb. destruct fuel as [|fuel]; [lia|].
  set (s1 := bp_set_wrap (dw_set_status (zlen log) false (bp_wrap s)) s).
  assert (producing s1 log) as Hp1 by (destruct Hp; by split).
  unfold send_data_block_meta_processor. rewrite run_bind. cbn [gets]. rewrite Hd.
  rewrite run_bind. unfold send_executor. rewrite run_bind.
  rewrite (sender_status_run s log v logL) by (done || apply in_int64_small; lia).
  rewrite Hf, Hn, run_bind. unfold set_status, modify. cbn [fst snd]. fold s1.
  rewrite run_bind. cbn [send_loop]. rewrite run_bind. cbn [gets].
  change (dw_finished (bp_wrap s1)) with false. cbv iota.
  by rewrite run_bind, (no_more_meta_run s1 log Hp1).
Qed.
End leader.

(** A follower with [n] blocks and a leader that has taken [k] of them. *)
Module TestProducer.
Import TestUtils TestStore TestRecords TestWorld TestJoiner TestSaver.

Definition leader_server (k : nat) : data_join (data_block_consumer MemFs) :=
  mkDataJoin 0 7 (mkConsumer (Some (saver_of k [] false)) true true).
Definition producer (n k : nat) (finished : bool)
    : block_producer MemFs (data_join (data_block_consumer MemFs)) :=
  mkProducer (leader_server k) 7 0
    (mkWrap MemoryDataJoiner
       (mkJoiner (w_of n) (options 0 2) 0 "blocks" "src" TestJoiner.items true [] None None 0
          finished (time_at 0) 1 []) 0 false).

Lemma producer_producing n k fin :
  Z.of_nat n ≤ 2 ^ 53 → producing (producer n k fin) (log_of n).
Proof.
  intros Hn. split; try done.
  - apply (rep_of n 0); lia.
  - intros x [i Hx]%list_elem_of_lookup. rewrite log_of_lookup in Hx.
    case_decide; [|done]. by injection Hx as <-.
Qed.

Lemma leader_leading k :
  Z.of_nat k ≤ 2 ^ 53 → leading (leader_server k) (saver_of k [] false) (log_of k).
Proof. intros Hk. split; try done. by apply saver_rep. Qed.
End TestProducer.

(** ** Properties *)
Section properties.
Context {F G : Type} `{GFileLaws F} `{GFileLaws G} `{UtilsLaws} `{TFExample} `{Clock}.
Local Abbreviation P := (data_join (data_block_consumer G)).

(** A round of the follower's sender brings the leader up to date: the
    leader, asked which index it expects, is sent every later meta of the
    follower's store, in order and whether compressed or not, and buffers
    exactly these; the follower's files and its progress mark do not change.
    The store must fit in the follower's buffer of 1024 metas. *)
Theorem sender_brings_leader_up_to_date (s : block_producer F P) log v logL fuel :
  producing s log → leading (bp_peer s) v logL → sv_finish v = false →
  dw_finished (bp_wrap s) = false → 0 ≤ sv_next v ≤ zlen log →
  zlen log ≤ removed_items_nums_from_buffer →
  zlen log - sv_next v < Z.of_nat fuel →
  ∃ s' v', send_data_block_meta_processor fuel s = (Ret tt, s') ∧
    leading (bp_peer s') v' logL ∧
    sv_buffer v' = sv_buffer v ++ drop (Z.to_nat (sv_next v)) log ∧
    sv_next v' = zlen log ∧ producing s' log ∧ follower_view s' = follower_view s.
Proof.
  intros Hp Hl Hf Hd Hn Hb Hfuel.
  destruct (send_round_run s log v logL fuel) as (s' & Hr & Hl' & Hp' & Hv'); try done.
  exists s', (v_with v (drop (Z.to_nat (sv_next v)) log)). split_and!; try done.
  simpl. unfold zlen in *. rewrite length_drop. lia.
Qed.

(** The follower never tells the leader that it has finished: even when
    its joiner has finished and the leader has every meta, any number of
    rounds of the sender sends no [FinishPartition], so the leader's finish
    mark and the follower's stay unset. *)
Theorem sender_never_finishes (s : block_producer F P) log v logL fuel rounds :
  producing s log → leading (bp_peer s) v logL → sv_finish v = false →
  dw_finished (bp_wrap s) = false → sv_next v = zlen log → (0 < fuel)%nat →
  ∃ s', forM (repeat tt rounds) (λ _, send_data_block_meta_processor fuel) s = (Ret tt, s') ∧
    bp_peer s' = bp_peer s ∧ leading (bp_peer s') v logL ∧ sv_finish v = false ∧
    dw_finished (bp_wrap s') = false.
Proof.
  intros Hp Hl Hf Hd Hn Hfuel. revert s Hp Hl Hd.
  induction rounds as [|n IH]; intros s Hp Hl Hd; [by exists s|].
  cbn [repeat forM]. rewrite run_bind, (idle_round_run s log v logL) by done.
  apply (IH (bp_set_wrap (dw_set_status (zlen log) false (bp_wrap s)) s)); [|done|done].
  destruct Hp. by split.
Qed.
End properties.

Section witnesses.
Import TestUtils TestStore TestRecords TestWorld TestJoiner TestSaver TestProducer.

Lemma sender_brings_leader_up_to_date_witness :
  ∃ s' v', send_data_block_meta_processor 4 (producer 3 1 false) = (Ret tt, s') ∧
    leading (bp_peer s') v' (log_of 1) ∧
    sv_buffer v' = [] ++ drop 1 (log_of 3) ∧
    sv_next v' = zlen (log_of 3) ∧ producing s' (log_of 3) ∧
    follower_view s' = follower_view (producer 3 1 false).
Proof.
  apply (sender_brings_leader_up_to_date (producer 3 1 false) (log_of 3)
           (saver_of 1 [] false) (log_of 1) 4).
  - apply producer_producing. lia.
  - apply leader_leading. lia.
  - reflexivity.
  - reflexivity.
  - vm_compute. split; discriminate.
  - vm_compute. discriminate.
  - reflexivity.
Defined.

Lemma sender_never_finishes_witness :
  ∃ s', forM (repeat tt 10) (λ _, send_data_block_meta_processor 1) (producer 3 3 true)
          = (Ret tt, s') ∧
    bp_peer s' = bp_peer (producer 3 3 true) ∧
    leading (bp_peer s') (saver_of 3 [] false) (log_of 3) ∧
    sv_finish (saver_of 3 [] false) = false ∧ dw_finished (bp_wrap s') = false.
Proof.
  apply (sender_never_finishes (producer 3 3 true) (log_of 3)).
  - apply producer_producing. lia.
  - apply leader_leading. lia.
  - reflexivity.
  - reflexivity.
  - reflexivity.
  - lia.
Defined.
End witnesses.
