(* ===== verification/Processors.v ===== *)
(** * The processors of the follower's producer

    What data_block_producer.py does around the rounds of its threads: start and stop,
    the processor that builds the joiner, and the factors that decide whether a round
    runs.  [ProcessorManager] is not in the repository: it is an interface without
    laws, and a schedule may run a round whenever its factor allows it.  Many builders
    may be under way at once, as after a stop and a start. *)

From stdpp Require Import base tactics list gmap strings.
From Stdlib Require Import ZArith Lia.
From S2P Require Import Prelude PyStd Messages Env RawData DataJoiner DataBlockProducer.
Open Scope Z_scope.

(** [W] is the type of the wrapper of the joiner. *)
Class ProcessorManager (R W : Type) := {
  new_processor : string → Z → R;
  active_processor : R → R;
  inactive_processor : R → R;
  enable_processor : R → R;
  build_impl_processor_parameter : W → R → R;
}.

Section processors.
Context {R W P : Type} `{!ProcessorManager R W}.
(** What the k-th construction of a wrapper ends with; the rounds of the joiner and of
    the sender, over the peer and the wrapper. *)
Context (build : nat → outcome W) (join_round send_round : M (P * W) unit).

Record life := mkLife {
  lf_peer : P;
  lf_data_join_wrap : option W;
  lf_processor_start : bool;
  lf_processor_routine : list (string * R);
  lf_builders : nat;
}.
Definition new_life (peer : P) : life := mkLife peer None false [] 0.
Definition lf_set_routine r (s : life) : life :=
  mkLife (lf_peer s) (lf_data_join_wrap s) (lf_processor_start s) r (lf_builders s).
Definition lf_set_start b (s : life) : life :=
  mkLife (lf_peer s) (lf_data_join_wrap s) b (lf_processor_routine s) (lf_builders s).
Definition lf_set_wrap w (s : life) : life :=
  mkLife (lf_peer s) w (lf_processor_start s) (lf_processor_routine s) (lf_builders s).

Definition on_processors (f : R → R) : M life unit :=
  modify (λ s, lf_set_routine ((λ kr, (kr.1, f kr.2)) <$> lf_processor_routine s) s).
(** [self._processor_routine.get(name).method()]: [get] answers [None] for a name that
    is not there. *)
Definition on_processor (name : string) (f : R → R) : M life unit :=
  s ← getM;
  match Dict.get name (lf_processor_routine s) with
  | Some r => putM (lf_set_routine (Dict.set name (f r) (lf_processor_routine s)) s)
  | None => raiseM AttributeError
  end.

Definition new_routine : list (string * R) :=
  (λ ki, (ki.1, new_processor ki.1 ki.2))
    <$> [("build_data_joiner", 6); ("data_joiner", 5); ("data_block_meta_sender", 5)].
Definition start_processors : M life unit :=
  s ← getM;
  if lf_processor_start s then mret tt
  else
    modify (lf_set_routine
      (foldl (λ d kr, Dict.set kr.1 kr.2 d) (lf_processor_routine s) new_routine));;
    on_processors active_processor;;
    modify (lf_set_start true).
(** [wait_stop] is true on both paths. *)
Definition stop_processors : M life unit :=
  s ← getM;
  (if lf_processor_start s then modify (lf_set_start false) else mret tt);;
  on_processors inactive_processor.

Definition enable_data_join_processor : M life unit := on_processor "data_joiner" enable_processor.
Definition enable_data_block_meta_sender : M life unit :=
  on_processor "data_block_meta_sender" enable_processor.

(** Nothing calls this one, and it takes no lock. *)
Definition enable_build_data_joiner_processor : M life unit :=
  modify (lf_set_wrap None);;
  on_processor "build_data_joiner" enable_processor.

Definition impl_build_data_joiner_factor : M life bool :=
  gets (λ s, bool_decide (lf_data_join_wrap s = None)).
Definition impl_factor (name : string) : M life bool :=
  s ← getM;
  match lf_data_join_wrap s with
  | Some w => on_processor name (build_impl_processor_parameter w);; mret true
  | None => mret false
  end.
Definition impl_data_join_factor : M life bool := impl_factor "data_joiner".
Definition impl_send_data_block_meta_factor : M life bool := impl_factor "data_block_meta_sender".

(** The part of [_build_data_joiner_processor] under the lock. *)
Definition take_wrap (w : W) : M life unit :=
  s ← getM;
  assertM (bool_decide (lf_data_join_wrap s = None));;
  modify (lf_set_wrap (Some w));;
  enable_data_join_processor;;
  enable_data_block_meta_sender.

(** A round on the wrapper that the factor handed over. *)
Definition round_of (factor : M life bool) (round : M (P * W) unit) : M life unit :=
  go ← factor;
  s ← getM;
  match (go : bool), lf_data_join_wrap s with
  | true, Some w =>
      match round (lf_peer s, w) with
      | (o, (p, w')) =>
          putM (mkLife p (Some w') (lf_processor_start s) (lf_processor_routine s) (lf_builders s));;
          liftO o
      end
  | _, _ => mret tt
  end.

(** ** Schedules *)
Inductive event :=
  | Start
  | Stop_
  | CheckBuild                (** the factor of the builder is asked *)
  | EndBuild (k : nat)        (** the k-th construction ends *)
  | JoinRound
  | SendRound.

(** [lf_builders] counts the constructions that were begun; a processor that was never
    made has no thread. *)
Definition act (e : event) : M life unit :=
  match e with
  | Start => start_processors
  | Stop_ => stop_processors
  | CheckBuild =>
      made ← gets (λ s, bool_decide (is_Some (Dict.get "build_data_joiner" (lf_processor_routine s))));
      go ← impl_build_data_joiner_factor;
      if (made : bool) && go
      then modify (λ s, mkLife (lf_peer s) (lf_data_join_wrap s) (lf_processor_start s)
                          (lf_processor_routine s) (S (lf_builders s)))
      else mret tt
  | EndBuild k =>
      s ← getM;
      if Nat.ltb k (lf_builders s) then w ← liftO (build k); take_wrap w else mret tt
  | JoinRound => round_of impl_data_join_factor join_round
  | SendRound => round_of impl_send_data_block_meta_factor send_round
  end.
(** An exception ends the round of its thread, not the thread. *)
Definition after (e : event) (s : life) : life := (act e s).2.
Definition run (l : list event) (s : life) : life := foldl (λ s e, after e s) s l.

(** ** Specification: the rounds alone *)
Definition round_spec (e : event) (s : P * W) : P * W :=
  match e with JoinRound => (join_round s).2 | SendRound => (send_round s).2 | _ => s end.
Definition rounds (l : list event) (s : P * W) : P * W := foldl (λ s e, round_spec e s) s l.

(** ** Lemmas *)
Definition made (s : life) (name : string) : Prop := is_Some (Dict.get name (lf_processor_routine s)).
Definition all_made (s : life) : Prop :=
  made s "build_data_joiner" ∧ made s "data_joiner" ∧ made s "data_block_meta_sender".
(** Nothing was begun, or all processors are there. *)
Definition lives (s : life) : Prop :=
  all_made s ∨
  lf_processor_routine s = [] ∧ lf_processor_start s = false ∧ lf_builders s = 0%nat ∧
  lf_data_join_wrap s = None.
Lemma all_made_mono s s' : (∀ n, made s n → made s' n) → all_made s → all_made s'.
Proof. unfold all_made. naive_solver. Qed.

Lemma get_fmap k (f : R → R) l :
  Dict.get k ((λ kr : string * R, (kr.1, f kr.2)) <$> l) = f <$> Dict.get k l.
Proof.
  induction l as [|[k' r] l IH]; [done|]. cbn [fmap list_fmap Dict.get fst snd].
  by destruct (decide _).
Qed.

Lemma on_processor_made name f s :
  made s name → ∃ r', on_processor name f s = (Ret tt, lf_set_routine r' s) ∧
    ∀ n, is_Some (Dict.get n r') ↔ made s n.
Proof.
  intros [r Hr]. unfold on_processor. rewrite run_bind. cbn [getM]. rewrite Hr.
  eexists. split; [reflexivity|]. intros n. rewrite Dict.get_set. unfold made.
  case_decide as Hn; [|done]. subst. split; by eexists.
Qed.

Lemma start_run s :
  lives s →
  ∃ r', start_processors s = (Ret tt, lf_set_start true (lf_set_routine r' s)) ∧
    all_made (lf_set_routine r' s).
Proof.
  intros Hl. unfold start_processors. rewrite run_bind. cbn [getM].
  destruct (lf_processor_start s) eqn:E.
  - exists (lf_processor_routine s). destruct Hl as [Hl|(_ & ? & _)]; [|congruence].
    destruct s. cbn in *. by subst.
  - unfold on_processors. rewrite !run_bind. cbn [modify]. rewrite !run_bind. cbn [modify].
    eexists. split; [reflexivity|].
    unfold all_made, made. cbn [lf_set_routine lf_processor_routine]. rewrite !get_fmap.
    cbn. rewrite !Dict.get_set. by repeat (case_decide; try done); split_and!; eexists.
Qed.

Lemma stop_run s :
  ∃ r', stop_processors s = (Ret tt, lf_set_start false (lf_set_routine r' s)) ∧
    (∀ n, made s n → is_Some (Dict.get n r')) ∧ (lf_processor_routine s = [] → r' = []).
Proof.
  unfold stop_processors, on_processors. rewrite run_bind. cbn [getM]. rewrite run_bind.
  exists ((λ kr : string * R, (kr.1, inactive_processor kr.2)) <$> lf_processor_routine s).
  split_and!.
  - destruct (lf_processor_start s) eqn:E; cbn [modify]; [done|]. cbn. destruct s. cbn in *. by subst.
  - intros n Hn. rewrite get_fmap. by apply fmap_is_Some.
  - by intros ->.
Qed.

(** What a factor does: it hands the wrapper over. *)
Lemma factor_run name s :
  made s name →
  ∃ r', impl_factor name s = (Ret (bool_decide (lf_data_join_wrap s ≠ None)), lf_set_routine r' s) ∧
    ∀ n, made s n → is_Some (Dict.get n r').
Proof.
  intros Hm. unfold impl_factor. rewrite run_bind. cbn [getM].
  destruct (lf_data_join_wrap s) as [w|] eqn:Hw.
  - destruct (on_processor_made name (build_impl_processor_parameter w) s Hm) as (r' & Hr & Hn).
    exists r'. rewrite (run_bind_ret _ _ _ _ _ Hr). split; [done|]. intros n. by rewrite Hn.
  - exists (lf_processor_routine s). split; [|done]. by destruct s.
Qed.

(** A round is skipped without a wrapper, and is the round alone with one. *)
Lemma round_of_run name round s :
  made s name →
  let s' := (round_of (impl_factor name) round s).2 in
  (∀ n, made s n → made s' n) ∧
  (lf_peer s', lf_data_join_wrap s')
  = match lf_data_join_wrap s with
    | Some w => let q := (round (lf_peer s, w)).2 in (q.1, Some q.2)
    | None => (lf_peer s, None)
    end.
Proof.
  intros Hm. destruct (factor_run name s Hm) as (r' & Hr & Hn). cbv zeta. unfold round_of.
  rewrite (run_bind_ret _ _ _ _ _ Hr), run_bind. cbn [getM lf_set_routine lf_data_join_wrap lf_peer].
  destruct (lf_data_join_wrap s) as [w|] eqn:Hw.
  - rewrite bool_decide_true by done. destruct (round (lf_peer s, w)) as [o [p w']].
    rewrite run_bind. cbn. by split.
  - rewrite bool_decide_false by auto. cbn. split; [done|]. by rewrite Hw.
Qed.

Lemma round_case name round s :
  (all_made s → made s name) → lives s →
  let s' := (round_of (impl_factor name) round s).2 in
  lives s' ∧
  match lf_data_join_wrap s with
  | Some w => let q := (round (lf_peer s, w)).2 in
      lf_peer s' = q.1 ∧ lf_data_join_wrap s' = Some q.2
  | None => lf_peer s' = lf_peer s ∧ lf_data_join_wrap s' = None
  end.
Proof.
  intros Hm [Hall|Hfresh].
  - destruct (round_of_run name round s (Hm Hall)) as [Hk Hr]. split.
    { left. by eapply all_made_mono. }
    destruct (lf_data_join_wrap s); by injection Hr.
  - assert ((round_of (impl_factor name) round s).2 = s) as ->.
    { unfold round_of, impl_factor. rewrite run_bind, run_bind. cbn [getM].
      destruct Hfresh as (_ & _ & _ & Hw). rewrite Hw. cbn [mret M_ret]. rewrite run_bind. cbn.
      done. }
    split; [by right|]. destruct Hfresh as (_ & _ & _ & Hw). by rewrite Hw.
Qed.

Lemma take_wrap_run w s :
  all_made s →
  let s' := (take_wrap w s).2 in
  all_made s' ∧ lf_peer s' = lf_peer s ∧ lf_processor_start s' = lf_processor_start s ∧
  lf_data_join_wrap s' = match lf_data_join_wrap s with Some w0 => Some w0 | None => Some w end.
Proof.
  intros Hall. cbv zeta. unfold take_wrap. rewrite run_bind. cbn [getM]. rewrite run_bind.
  destruct (lf_data_join_wrap s) as [w0|] eqn:Hw.
  { rewrite bool_decide_false by done. cbn. by split_and!. }
  rewrite bool_decide_true by done. cbn [assertM require mret M_ret]. rewrite run_bind. cbn [modify].
  assert (all_made (lf_set_wrap (Some w) s)) as Hall1 by done.
  unfold enable_data_join_processor, enable_data_block_meta_sender.
  destruct (on_processor_made "data_joiner" enable_processor _ (proj1 (proj2 Hall1))) as (r1 & Hr1 & Hn1).
  rewrite (run_bind_ret _ _ _ _ _ Hr1).
  set (s1 := lf_set_routine r1 _).
  assert (all_made s1) as Hall2 by (eapply all_made_mono; [|exact Hall1]; intros n; apply Hn1).
  destruct (on_processor_made "data_block_meta_sender" enable_processor s1 (proj2 (proj2 Hall2)))
    as (r2 & Hr2 & Hn2).
  rewrite Hr2. cbn. split_and!; try done.
  eapply all_made_mono; [|exact Hall2]. intros n. apply Hn2.
Qed.

(** One event. *)
Lemma after_spec e s :
  lives s →
  lives (after e s) ∧
  match lf_data_join_wrap s with
  | Some w => let q := round_spec e (lf_peer s, w) in
      lf_peer (after e s) = q.1 ∧ lf_data_join_wrap (after e s) = Some q.2
  | None => lf_peer (after e s) = lf_peer s ∧
      (lf_data_join_wrap (after e s) = None ∨
       ∃ k w, e = EndBuild k ∧ build k = Ret w ∧ lf_data_join_wrap (after e s) = Some w)
  end.
Proof.
  intros Hl. unfold after. destruct e as [| | |k| |]; cbn [act].
  - destruct (start_run s Hl) as (r' & -> & Hall). split; [by left|].
    cbn. destruct (lf_data_join_wrap s); [by cbn|auto].
  - destruct (stop_run s) as (r' & -> & Hall & Hnil). split.
    + destruct Hl as [Hl|(Hr & Hs & Hb & Hw)]; [left|right].
      * eapply all_made_mono; [|exact Hl]. intros n. apply Hall.
      * cbn. by rewrite Hnil.
    + cbn. destruct (lf_data_join_wrap s); [by cbn|auto].
  - rewrite run_bind. cbn [gets]. unfold impl_build_data_joiner_factor. rewrite run_bind. cbn [gets].
    destruct (bool_decide (is_Some _)) eqn:E1; cbn [andb].
    2: { cbn. split; [done|]. destruct (lf_data_join_wrap s); [by cbn|auto]. }
    assert (all_made s) as Hall.
    { destruct Hl as [Hl|(Hr & _)]; [done|]. apply bool_decide_eq_true in E1. rewrite Hr in E1.
      by apply is_Some_None in E1. }
    destruct (bool_decide (lf_data_join_wrap s = None)) eqn:E2; cbn [modify mret M_ret snd].
    + split; [by left|]. apply bool_decide_eq_true in E2. rewrite E2. cbn. auto.
    + split; [done|]. destruct (lf_data_join_wrap s); [by cbn|auto].
  - rewrite run_bind. cbn [getM]. destruct (Nat.ltb_spec k (lf_builders s)) as [Hk|Hk].
    2: { cbn. split; [done|]. destruct (lf_data_join_wrap s); [by cbn|auto]. }
    assert (all_made s) as Hall by (destruct Hl as [Hl|(_ & _ & Hb & _)]; [done|lia]).
    rewrite run_bind. unfold liftO. destruct (build k) as [w|r] eqn:Hb.
    + destruct (take_wrap_run w s Hall) as (H1 & H2 & H3 & H4). split; [by left|]. rewrite H2, H4.
      destruct (lf_data_join_wrap s); [by cbn|]. split; [done|]. right. by exists k, w.
    + cbn. split; [done|]. destruct (lf_data_join_wrap s); [by cbn|auto].
  - destruct (round_case "data_joiner" join_round s ltac:(by intros (_ & ? & _)) Hl) as [H1 H2].
    split; [done|]. destruct (lf_data_join_wrap s); [done|]. destruct H2. auto.
  - destruct (round_case "data_block_meta_sender" send_round s ltac:(by intros (_ & _ & ?)) Hl) as [H1 H2].
    split; [done|]. destruct (lf_data_join_wrap s); [done|]. destruct H2. auto.
Qed.

(** ** Properties *)

(** Once there is a wrapper, the rest of the schedule is its rounds. *)
Lemma run_built l s w :
  lives s → lf_data_join_wrap s = Some w →
  let q := rounds l (lf_peer s, w) in
  lf_peer (run l s) = q.1 ∧ lf_data_join_wrap (run l s) = Some q.2.
Proof.
  revert s w. induction l as [|e l IH]; intros s w Hl Hw; [by cbn|].
  destruct (after_spec e s Hl) as [Hl' Ha]. rewrite Hw in Ha. destruct Ha as [Hp Hw'].
  cbn [run rounds foldl]. specialize (IH (after e s) _ Hl' Hw'). rewrite Hp in IH.
  by rewrite <- surjective_pairing in IH.
Qed.

(** The producer is its rounds on the first joiner that was built: under every
    schedule of starts, stops, constructions that end in any order and rounds, either no
    construction has succeeded and nothing was sent, or the peer and the joiner are as
    after the rounds that came later, run alone on the wrapper of the first construction
    that succeeded.  Starts, stops and late constructions do not disturb them. *)
Theorem rounds_run_on_the_first_joiner l peer :
  let s := run l (new_life peer) in
  (lf_peer s = peer ∧ lf_data_join_wrap s = None) ∨
  ∃ l1 k w l2, l = l1 ++ EndBuild k :: l2 ∧ build k = Ret w ∧
    lf_data_join_wrap (run l1 (new_life peer)) = None ∧
    lf_peer s = (rounds l2 (peer, w)).1 ∧ lf_data_join_wrap s = Some (rounds l2 (peer, w)).2.
Proof.
  cbv zeta.
  assert (∀ l s, lives s → lf_data_join_wrap s = None → lf_peer s = peer →
    (lf_peer (run l s) = peer ∧ lf_data_join_wrap (run l s) = None) ∨
    ∃ l1 k w l2, l = l1 ++ EndBuild k :: l2 ∧ build k = Ret w ∧
      lf_data_join_wrap (run l1 s) = None ∧
      lf_peer (run l s) = (rounds l2 (peer, w)).1 ∧
      lf_data_join_wrap (run l s) = Some (rounds l2 (peer, w)).2) as Hgo.
  { clear l. intros l. induction l as [|e l IH]; intros s Hl Hw Hp; [by left|].
    destruct (after_spec e s Hl) as [Hl' Ha]. rewrite Hw in Ha.
    destruct Ha as [Hp' [Hw'|(k & w & -> & Hb & Hw')]].
    - destruct (IH (after e s) Hl' Hw') as [?|(l1 & k & w & l2 & -> & H1 & H2 & H3)]; [congruence|by left|].
      right. by exists (e :: l1), k, w, l2.
    - right. exists [], k, w, l. split_and!; try done.
      + destruct (run_built l (after (EndBuild k) s) w Hl' Hw') as [H1 _]. by rewrite Hp', Hp in H1.
      + destruct (run_built l (after (EndBuild k) s) w Hl' Hw') as [_ H2]. by rewrite Hp', Hp in H2. }
  apply Hgo; [|done..]. by right.
Qed.

(** A started producer whose first construction succeeds has its wrapper. *)
Lemma first_construction_is_taken peer w :
  build 0 = Ret w →
  lf_data_join_wrap (run [Start; CheckBuild; EndBuild 0] (new_life peer)) = Some w.
Proof.
  intros Hb. cbn [run foldl].
  destruct (start_run (new_life peer) ltac:(by right)) as (r' & Hr & Hall).
  set (s1 := after Start (new_life peer)).
  assert (s1 = lf_set_start true (lf_set_routine r' (new_life peer))) as Hs1
    by (unfold s1, after, act; by rewrite Hr).
  set (s2 := after CheckBuild s1).
  assert (s2 = mkLife peer None true r' 1) as Hs2.
  { unfold s2, after, act. rewrite Hs1, run_bind. cbn [gets]. rewrite run_bind. cbn.
    rewrite bool_decide_true; [done|]. apply Hall. }
  unfold after, act. rewrite Hs2, run_bind. cbn [getM lf_builders Nat.ltb Nat.leb].
  rewrite run_bind. unfold liftO. rewrite Hb.
  destruct (take_wrap_run w (mkLife peer None true r' 1) Hall) as (_ & _ & _ & ->). done.
Qed.
End processors.

(** ** The producer of [DataBlockProducer] *)
Section producer.
Context {F P : Type} `{GFile F} `{PeerClient P} `{Utils} `{TFExample} `{Clock}.
Context {R : Type} `{!ProcessorManager R (joiner_wrap F)}.
Context (rank_id partition_id : Z) (fuel : nat) (build : nat → outcome (joiner_wrap F)).

Definition on_producer (c : M (block_producer F P) unit) : M (P * joiner_wrap F) unit := λ s,
  match c (mkProducer s.1 rank_id partition_id s.2) with
  | (o, p) => (o, (bp_peer p, bp_wrap p))
  end.
(** [build]: what each [build_data_joiner_processor] ends with. *)
Definition run_producer : list event → life (R := R) (W := joiner_wrap F) (P := P) → life :=
  run build (on_producer (data_join_processor fuel))
    (on_producer (send_data_block_meta_processor fuel)).

(** A round of the threads is the round of the producer with that joiner. *)
Lemma round_is_the_producers e (s : P * joiner_wrap F) :
  let p := mkProducer s.1 rank_id partition_id s.2 in
  round_spec (on_producer (data_join_processor fuel))
    (on_producer (send_data_block_meta_processor fuel)) e s
  = match e with
    | JoinRound => let p' := (data_join_processor fuel p).2 in (bp_peer p', bp_wrap p')
    | SendRound => let p' := (send_data_block_meta_processor fuel p).2 in (bp_peer p', bp_wrap p')
    | _ => s
    end.
Proof.
  unfold round_spec, on_producer. destruct e; try done.
  - by destruct (data_join_processor fuel _).
  - by destruct (send_data_block_meta_processor fuel _).
Qed.
End producer.

(** ** Two constructions at once *)
Module TestProcessors.
(** A processor that logs its calls; a wrapper is a number, and rounds count. *)
#[export] Instance logged : ProcessorManager (list string) nat := {
  new_processor name _ := [name];
  active_processor l := l ++ ["active"];
  inactive_processor l := l ++ ["inactive"];
  enable_processor l := l ++ ["enable"];
  build_impl_processor_parameter _ l := l;
}.
Definition built (k : nat) : outcome nat := Ret (100 * (k + 1))%nat.
Definition join_one : M (nat * nat) unit := modify (λ s, (s.1, S s.2)).
Definition send_one : M (nat * nat) unit := modify (λ s, (S s.1, s.2)).

(** A construction is under way when the producer is stopped and started again; the
    second one is done first, and the late one is refused. *)
Definition restarted : life (R := list string) (W := nat) (P := nat) :=
  run built join_one send_one
    [SendRound; Start; CheckBuild; Stop_; Start; CheckBuild; EndBuild 1; JoinRound; EndBuild 0; SendRound]
    (new_life 0%nat).
Example late_construction_is_refused :
  lf_peer restarted = 1%nat ∧ lf_data_join_wrap restarted = Some 201%nat ∧
  (act built join_one send_one (EndBuild 0) restarted).1 = raise AssertionError.
Proof. by vm_compute. Qed.
(** The processors of the second start are new ones, which were woken. *)
Example second_start_makes_new_processors :
  Dict.get "data_joiner" (lf_processor_routine restarted) = Some ["data_joiner"; "active"; "enable"].
Proof. by vm_compute. Qed.
End TestProcessors.
