(* ===== verification/System.v ===== *)
(** * The data join of a leader and a follower

    The node of data_join_manager.py in its two roles, the service and the
    command line of data_join_server.py, and the property the whole is for: the
    data blocks of the two sides are aligned. *)

From stdpp Require Import base tactics list gmap strings.
From Stdlib Require Import ZArith QArith Lia.
From S2P Require Import Prelude PyStd Messages Env DataBlockManager DataBlockMaker RawData.
From S2P Require Import DataJoiner DataBlockSaver Consumer DataBlockConsumer ExampleIdConsumer.
From S2P Require Import DataJoinServer ExampleIdProducer DataBlockProducer.

Open Scope Z_scope.

(** ** The node *)

(** What [DataJoin.__init__] builds in either role; the producers keep their
    start flag, the follower's wrapper is built later by its processor. *)
Inductive node (F : Type) :=
  | LeaderNode (init : init_loading) (producer_started : bool) (c : data_block_consumer F)
  | FollowerNode (init : init_loading) (producer_started : bool) (c : example_id_consumer).
Arguments LeaderNode {_}.
Arguments FollowerNode {_}.

Section node.
Context {F : Type} `{GFile F} `{Utils} `{TFExample}.

Definition new_data_join (opts : DataJoinOptions) (src : DataSource) (uuid : nat)
    (distribute : bool) : M F (node F) :=
  l ← new_loader (ds_raw_data_dir src) (raw_data_options opts) (ds_mode src) uuid;
  let init := new_init_loading l (ds_partition_id src) in
  let uuid' := if bool_decide (ds_mode src = "local") then uuid else S uuid in
  match ds_role src with
  | Leader =>
      c ← new_data_block_consumer (ds_partition_id src) (il_item_dict init)
            (ds_data_block_dir src) (ds_data_source_name src) uuid' distribute;
      mret (LeaderNode init false c)
  | Follower => mret (FollowerNode init false (new_example_id_consumer (ds_partition_id src) []))
  end.

Definition start_data_join_processor : M (node F) unit := λ n,
  match n with
  | LeaderNode i _ c =>
      match dc_start_processors c with (o, c') => (o, LeaderNode i true c') end
  | FollowerNode i _ c => (Ret tt, FollowerNode i true c)
  end.
Definition stop_data_join_processor : M (node F) unit := λ n,
  match n with
  | LeaderNode i _ c =>
      match dc_stop_processors c with (o, c') => (o, LeaderNode i false c') end
  | FollowerNode i _ c => (Ret tt, FollowerNode i false c)
  end.

(** [DataJoinService]: the worker and whether the server was started. *)
Record service := mkService { sc_node : node F; sc_started : bool }.

Definition start_data_join_service : M service unit :=
  s ← getM;
  if sc_started s then mret tt
  else
    zoom sc_node (λ n s, mkService n (sc_started s)) start_data_join_processor;;
    modify (λ s, mkService (sc_node s) true).

(** [self._data_join_worker.stop()]: the worker has no such method. *)
Definition stop_data_join_service : M service unit :=
  s ← getM;
  if sc_started s then raiseM AttributeError else mret tt.

(** [wait]: what [wait_for_termination] ends with. *)
Definition run_service (wait : outcome unit) : M service unit :=
  start_data_join_service;;
  liftO wait;;
  stop_data_join_service.

(** A service that was started never ends well: its stop raises. *)
Lemma run_never_ends s s' w : run_service w s ≠ (Ret tt, s').
Proof.
  unfold run_service. rewrite run_bind. destruct (start_data_join_service s) as [[[]|r] s1] eqn:Hs; [|done].
  rewrite run_bind. unfold liftO. destruct w as [[]|r]; [|done].
  unfold stop_data_join_service. rewrite run_bind. cbn [getM].
  assert (sc_started s1 = true) as ->; [|done].
  revert Hs. unfold start_data_join_service. rewrite run_bind. cbn [getM].
  destruct (sc_started s) eqn:E; [by intros [= <-]|]. rewrite run_bind. unfold zoom.
  destruct (start_data_join_processor (sc_node s)) as [[[]|r] n]; [|done].
  by intros [= <-].
Qed.
End node.

(** ** The command line *)
Record cli := mkCli {
  cl_peer_address : string;
  cl_rank_id : Z;
  cl_partition_id : Z;
  cl_data_source_name : string;
  cl_data_block_dir : string;
  cl_raw_data_dir : string;
  cl_role : string;
  cl_mode : string;
  cl_port : Z;
  cl_raw_data_iter : string;
  cl_compressed_type : string;
  cl_example_joiner : string;
  cl_time_span : Z;
  cl_threshold : Z;
}.

(** The positional arguments with the defaults of the options. *)
Definition default_cli (peer : string) (rank pid : Z) (name dir raw role : string) : cli :=
  mkCli peer rank pid name dir raw role "local" 8001 "TF_DATASET" "" "MEMORY_JOINER" (-1) 4096.

Definition run_task_options (a : cli) : outcome (DataJoinOptions * DataSource) :=
  if negb (bool_decide (cl_compressed_type a ∈ [""; "ZLIB"; "GZIP"])) then Stop (Exit 2)
  else
    span ← pb_int64 (Some (cl_time_span a));
    thr ← pb_int64 (Some (cl_threshold a));
    pid ← pb_int64 (Some (cl_partition_id a));
    role ← (if bool_decide (cl_role a = "leader") then Ret Leader
            else if bool_decide (cl_role a = "follower") then Ret Follower
            else raise AssertionError);
    Ret (mkOptions (mkRawOpt (cl_raw_data_iter a) (cl_compressed_type a))
           (mkJoinOpt (cl_example_joiner a) 0 0 span thr),
         mkDataSource (cl_data_source_name a) (cl_data_block_dir a) (cl_raw_data_dir a) pid
           (cl_mode a) role).

(** ** One data join, from the leader's ids to the blocks of both sides *)
Section join.
Context {F G : Type} `{GFileLaws F} `{GFileLaws G} `{UtilsLaws} `{TFExample} `{Clock}.
Context (post_ok : ∀ u l, http_post u l = Ret tt).

Local Abbreviation Fsrv := (data_join example_id_consumer).
Local Abbreviation Lsrv := (data_join (data_block_consumer G)).

(** The ids both sides know, in the leader's order. *)
Definition common_ids (leader follower : list (pyid * string)) : list string :=
  matched (known follower) (id_bytes <$> leader).

Lemma known_leader (items : list (pyid * string)) id :
  sendable items → id ∈ id_bytes <$> items → known items id = true.
Proof.
  intros Hs Hid. apply list_elem_of_fmap in Hid as ([i r] & -> & Hin).
  unfold sendable in Hs. rewrite Forall_forall in Hs. destruct (Hs _ Hin) as [[b Hb] _]. simpl in Hb.
  subst i. unfold known. apply Dict.mem_true. unfold Dict.keys, id_bytes. simpl.
  apply list_elem_of_fmap. by exists (PyBytes b, r).
Qed.

Lemma matched_elem kn ids id : id ∈ matched kn ids → id ∈ ids.
Proof. unfold matched. by intros [_ ?]%list_elem_of_filter. Qed.

(** The last batch leaves the joiner something to write. *)
Definition last_batch_writes (thr : Z) (kn : string → bool) (q : list LiteExampleIds) : Prop :=
  ∀ q' l, q = q' ++ [l] →
    (batch_spec thr kn (queue_spec thr kn [] q').2 (le_example_id l) true).1 ≠ [].

(** The follower's side: its joiner runs over the batches of one round. *)
Lemma join_round_run (j : joiner F) pid (items : list (pyid * string)) fuel :
  let q := round_batches pid items in
  let thr := dump_data_block_threshold (jn_options j) in
  let kn := known (jn_items j) in
  jrep j [] [] [] → jn_maker j = None → jn_finished j = false →
  dump_data_block_time_span (jn_options j) ≤ 0 →
  zlen items + 2 * zlen q < 2 ^ 53 → last_batch_writes thr kn q → (length q + 1 ≤ fuel)%nat →
  ∃ blocks j', memory_joiner_algo fuel (jn_set_queue q None j) = (Ret tt, j') ∧
    jrep j' [] blocks [] ∧ settings j' = settings j ∧ jn_finished j' = true ∧
    example_ids <$> blocks = (queue_spec thr kn [] q).1 ∧
    concat (example_ids <$> blocks) = common_ids items (jn_items j).
Proof.
  intros q thr kn Hj Hm Hf Hsp Hb Hlast Hfuel.
  destruct (round_batches_marks pid items) as (q' & l & Hq & Hq' & Hl). fold q in Hq.
  set (j1 := jn_set_queue q None j).
  destruct (memory_joiner_queue_aux post_ok q' l [] fuel j1 [] [] [])
    as (blocks & j' & Hr & Hids & Hj' & _ & _ & Hf' & Hs'); try done.
  { by apply (jrep_settings j). }
  { assert (batches_ids q = id_bytes <$> items) as Hbi by apply round_batches_ids.
    rewrite <- Hq, Hbi. change (zlen ([] ++ [])) with 0.
    assert (zlen (id_bytes <$> items) = zlen items) as -> by (unfold zlen; by rewrite length_fmap).
    lia. }
  { by apply Hlast. }
  { rewrite Hq, length_app in Hfuel. simpl in Hfuel. lia. }
  exists blocks, j'. split_and!; try done.
  - by rewrite Hq.
  - rewrite Hids, <- Hq. unfold common_ids. rewrite <- (round_batches_ids pid items). fold q.
    pose proof (queue_spec_concat thr kn [] q) as Hc.
    rewrite Hq in Hc at 2. rewrite queue_spec_finished, app_nil_r in Hc by done. done.
Qed.

(** The leader's side: it is sent the metas and saves them. *)
Lemma transfer_round_run (j : joiner F) (srv : Lsrv) (v : saver G) blocks fuel :
  core j [] blocks → leading srv v [] → sv_buffer v = [] → sv_finish v = false →
  sv_switch v = false → jn_partition_id j = dj_partition_id srv →
  Forall (savable (sv_items v)) blocks → zlen blocks ≤ 1024 → zlen blocks < Z.of_nat fuel →
  ∃ bp' v' v'',
    send_data_block_meta_processor fuel
      (mkProducer srv (dj_rank_id srv) (dj_partition_id srv) (mkWrap MemoryDataJoiner j 0 false))
      = (Ret tt, bp') ∧
    dc_wrap (dj_consumer (bp_peer bp')) = Some v' ∧ sv_buffer v' = blocks ∧
    w_fs (jn_world (dw_joiner (bp_wrap bp'))) = w_fs (jn_world j) ∧
    build_data_block_saver v' = (Ret tt, v'') ∧ srep v'' (with_id v <$> blocks) ∧
    (∀ x, x ∈ blocks → gf_files (w_fs (sv_world v'')) !! block_file v (with_id v x)
                       = Some (record_of (sv_items v) <$> example_ids x)).
Proof.
  intros Hc Hl Hbuf Hfin Hsw Hpid Hsav Hlen Hfuel. pose proof (zlen_nonneg blocks).
  set (bp := mkProducer _ _ _ _).
  pose proof (sp_next _ _ (ld_saver _ _ _ Hl)) as Hn. rewrite Hbuf in Hn.
  change (zlen [] + zlen []) with 0 in Hn.
  assert (producing bp blocks) as Hp.
  { split; simpl; try done; [exact (co_rep _ _ _ Hc)|]. intros x Hx.
    pose proof (co_blocks _ _ _ Hc) as Hb. rewrite Forall_forall in Hb.
    rewrite (bo_pid _ _ _ (Hb x Hx)). done. }
  destruct (send_round_run bp blocks v [] fuel) as (bp' & Hr & Hl' & _ & Hv'); try done;
    rewrite ?Hn; try lia.
  rewrite Hn in Hl'. change (drop (Z.to_nat 0) blocks) with blocks in Hl'.
  destruct (saver_round_run post_ok (v_with v blocks) []) as (v'' & Hsave & Hrep & _ & _ & Hd & _).
  { apply Hl'. } { done. } { simpl. by rewrite Hbuf. }
  { simpl. rewrite Hbuf. change (zlen []) with 0. simpl. lia. }
  simpl in Hrep, Hd. rewrite Hbuf in Hrep, Hd. simpl in Hrep, Hd.
  exists bp', (v_with v blocks), v''. split_and!; try done.
  - apply Hl'.
  - simpl. by rewrite Hbuf.
  - unfold follower_view in Hv'. simpl in Hv'. congruence.
Qed.
End join.

(** ** Properties *)
Section properties.
Context {F G : Type} `{GFileLaws F} `{GFileLaws G} `{UtilsLaws} `{TFExample} `{Clock}.
Context (post_ok : ∀ u l, http_post u l = Ret tt).

(** C6.  The data join aligns the two sides.  The leader sends its ids to the
    follower's server, the follower joins the batches that it got, sends the
    metas of its blocks to the leader's server, and the leader saves them.
    When every step has run, both sides hold the same sequence of blocks:
    the ids of the blocks, concatenated, are the ids that both sides know, in
    the leader's order, and the data file of a block holds, on either side,
    that side's own records of the same ids in the same order.

    This is so for a partition that neither side has begun, under three
    conditions.  The last batch of ids must leave the follower's joiner something
    to write ([last_batch_writes]: an id of it that the follower knows, or a block
    still open); otherwise the joiner turns for ever and the join does not end
    ([memory_joiner_spins]).  No time span is set, so only the threshold and the
    last batch cut a block.  And there are at most 1024 blocks, the room of the
    buffer of metas at the leader.  The bounds on
    [fuel] are no condition on the program: they say how many turns are enough. *)
Theorem data_join_aligns_blocks
    (ld : id_producer (data_join example_id_consumer)) (j : joiner F)
    (srv : data_join (data_block_consumer G)) (v : saver G) fuel :
  let items := il_item_dict (ip_init ld) in
  let q := round_batches (dj_partition_id srv) items in
  let thr := dump_data_block_threshold (jn_options j) in
  let kn := known (jn_items j) in
  paired ld → following (ip_peer ld) [] false →
  il_partition_finished (ip_init ld) = false → il_follower_finished (ip_init ld) = false →
  in_int64 (ap_next (ec_appender (dj_consumer (ip_peer ld)))) = true → sendable items →
  dj_partition_id (ip_peer ld) = dj_partition_id srv →
  jrep j [] [] [] → jn_maker j = None → jn_finished j = false →
  dump_data_block_time_span (jn_options j) ≤ 0 → jn_partition_id j = dj_partition_id srv →
  leading srv v [] → sv_buffer v = [] → sv_finish v = false → sv_switch v = false →
  sv_items v = items →
  zlen items + 2 * zlen q < 2 ^ 53 → last_batch_writes thr kn q →
  zlen (queue_spec thr kn [] q).1 ≤ 1024 →
  zlen (queue_spec thr kn [] q).1 < Z.of_nat fuel → (length q + 1 ≤ fuel)%nat →
  ∃ ld' j' bp' v' v'' blocks,
    send_example_id_processor ld = (Ret tt, ld') ∧
    memory_joiner_algo fuel
      (jn_set_queue (ap_queue (ec_appender (dj_consumer (ip_peer ld')))) None j) = (Ret tt, j') ∧
    send_data_block_meta_processor fuel
      (mkProducer srv (dj_rank_id srv) (dj_partition_id srv) (mkWrap MemoryDataJoiner j' 0 false))
      = (Ret tt, bp') ∧
    dc_wrap (dj_consumer (bp_peer bp')) = Some v' ∧
    build_data_block_saver v' = (Ret tt, v'') ∧
    concat (example_ids <$> blocks) = common_ids items (jn_items j) ∧
    rep (w_mgr (jn_world j')) (w_fs (jn_world j')) blocks ∧
    rep (w_mgr (sv_world v'')) (w_fs (sv_world v'')) (with_id v <$> blocks) ∧
    ∀ x, x ∈ blocks →
      gf_files (w_fs (jn_world j')) !! data_path (jn_dir j) (jn_source j) (jn_partition_id j) x
        = Some (record_of (jn_items j) <$> example_ids x) ∧
      gf_files (w_fs (sv_world v'')) !! block_file v (with_id v x)
        = Some (record_of items <$> example_ids x).
Proof.
  intros items q thr kn Hpair Hfol Hpf Hff H64 Hsend Hpid Hj Hmk Hnf Hspan Hjp Hlead Hvb Hvf
    Hvs Hvi Hbound Hlast Hcount Hfuel1 Hfuel2.
  destruct (round_run ld [] Hpair Hfol Hpf Hff H64 Hsend) as (ld' & Hld & Hfol' & _).
  rewrite Hpid in Hfol'. fold items q in Hfol'.
  destruct (join_round_run post_ok j (dj_partition_id srv) items fuel)
    as (blocks & j' & Hrun & Hj' & Hset & Hf' & Hids & Hcat); try done.
  fold q thr kn in Hids.
  assert (zlen blocks = zlen (queue_spec thr kn [] q).1) as Hzl.
  { rewrite <- Hids. unfold zlen. by rewrite length_fmap. }
  assert (jn_dir j' = jn_dir j ∧ jn_source j' = jn_source j ∧ jn_items j' = jn_items j ∧
          jn_partition_id j' = jn_partition_id j) as (Ed & Es & Ei & Ep)
    by (unfold settings in Hset; split_and!; congruence).
  pose proof (co_blocks _ _ _ (proj1 Hj')) as Hblk. rewrite Forall_forall in Hblk.
  destruct (transfer_round_run post_ok j' srv v blocks fuel)
    as (bp' & v' & v'' & Hsendm & Hw & _ & _ & Hsave & Hrep & Hd); try done.
  { apply Hj'. } { congruence. }
  { rewrite Hvi. apply Forall_forall. intros x Hx. split; [apply (bo_nonempty _ _ _ (Hblk x Hx))|].
    apply Forall_forall. intros id Hid. apply known_leader; [done|].
    apply (matched_elem kn). change (id ∈ common_ids items (jn_items j)). rewrite <- Hcat.
    apply list_elem_of_In, in_concat. exists (example_ids x).
    split; apply list_elem_of_In; [|done]. apply list_elem_of_fmap. by exists x. }
  { lia. } { lia. }
  exists ld', j', bp', v', v'', blocks. split_and!; try done.
  - by rewrite (fo_queue _ _ _ Hfol').
  - apply Hj'.
  - apply Hrep.
  - intros x Hx. split.
    + rewrite <- Ed, <- Es, <- Ep, <- Ei. apply (bo_data _ _ _ (Hblk x Hx)).
    + rewrite <- Hvi. by apply Hd.
Qed.

End properties.

Section options.
Context {F : Type} `{GFile F} `{UtilsLaws} `{TFExample}.

(** With its default options the service cannot start: the default raw
    data iterator is not a registered one, and loading the first raw data
    file ends the process with code -1. *)
Theorem default_options_end_the_process peer rank pid name dir raw role opts src
    (fs : F) names p ps uuid distribute :
  run_task_options (default_cli peer rank pid name dir raw role) = Ret (opts, src) →
  gf_list_directory raw fs = (Ret names, fs) →
  py_sort Str.leb (filter (λ p, gf_is_directory p fs = false) (Str.path_join raw <$> names))
    = p :: ps →
  (new_data_join opts src uuid distribute fs).1 = Stop (Exit (-1)).
Proof.
  unfold run_task_options, default_cli. cbn [cl_compressed_type cl_time_span cl_threshold
    cl_partition_id cl_role cl_raw_data_iter cl_example_joiner cl_mode cl_raw_data_dir].
  rewrite bool_decide_true by set_solver. simpl negb. cbv iota.
  change (pb_int64 (Some (-1))) with (Ret (-1)). change (pb_int64 (Some 4096)) with (Ret 4096).
  rewrite !bind_Ret. intros Ho Hl Hs.
  destruct (pb_int64 (Some pid)) as [pid'|]; [|done]. rewrite bind_Ret in Ho.
  assert (∃ r, (opts, src) = (mkOptions (mkRawOpt "TF_DATASET" "")
            (mkJoinOpt "MEMORY_JOINER" 0 0 (-1) 4096), mkDataSource name dir raw pid' "local" r))
    as [r Hr].
  { repeat case_bool_decide; simpl in Ho; try done; injection Ho as <- <-; eauto. }
  injection Hr as -> ->. unfold new_data_join, new_loader, preload_raw_data_file_path,
    encode_local_raw_data_dir. cbn [ds_raw_data_dir ds_mode raw_data_options].
  rewrite run_bind, run_bind, run_bind. rewrite bool_decide_false by done.
  rewrite bool_decide_true by done. simpl. rewrite run_bind, Hl. simpl. rewrite Hs. done.
Qed.
End options.


Section witnesses.
Import TestUtils TestStore TestRecords TestWorld TestJoiner TestSaver TestProducer.

Definition join_leader : id_producer (data_join example_id_consumer) :=
  mkIdProducer (mkDataJoin 0 7 (new_example_id_consumer 0 [])) 7
    (new_init_loading
       (mkLoader "raw" tf_options "local" "raw" ["raw/a"] TestSaver.items true) 0) true.
Definition join_follower : joiner MemFs :=
  mkJoiner (w_of 0) (options 0 2) 0 "blocks" "src"
    [(PyBytes "x", "x"); (PyBytes "c", "c"); (PyBytes "a", "a"); (PyBytes "b", "b")]
    true [] None None 0 false (time_at 0) 1 [].

Lemma join_follower_rep : jrep join_follower [] [] [].
Proof.
  split; [|done]. split; [by apply (rep_of 0 0)|done|done|done|apply writable_of|done|done| |done].
  intros id r Hr%Dict.get_Some_In. apply list_elem_of_In in Hr.
  destruct Hr as [Hr|[Hr|[Hr|[Hr|[]]]]]; simplify_eq; exists 1; split; reflexivity.
Qed.

Lemma data_join_aligns_blocks_witness :
  let v := saver_of 0 [] false in
  ∃ ld' j' bp' v' v'' blocks,
    send_example_id_processor join_leader = (Ret tt, ld') ∧
    memory_joiner_algo 3
      (jn_set_queue (ap_queue (ec_appender (dj_consumer (ip_peer ld')))) None join_follower)
      = (Ret tt, j') ∧
    send_data_block_meta_processor 3
      (mkProducer (leader_server 0) 7 0 (mkWrap MemoryDataJoiner j' 0 false)) = (Ret tt, bp') ∧
    dc_wrap (dj_consumer (bp_peer bp')) = Some v' ∧
    build_data_block_saver v' = (Ret tt, v'') ∧
    concat (example_ids <$> blocks) = common_ids TestSaver.items (jn_items join_follower) ∧
    rep (w_mgr (jn_world j')) (w_fs (jn_world j')) blocks ∧
    rep (w_mgr (sv_world v'')) (w_fs (sv_world v'')) (with_id v <$> blocks) ∧
    ∀ x, x ∈ blocks →
      gf_files (w_fs (jn_world j')) !! data_path "blocks" "src" 0 x
        = Some (record_of (jn_items join_follower) <$> example_ids x) ∧
      gf_files (w_fs (sv_world v'')) !! block_file v (with_id v x)
        = Some (record_of TestSaver.items <$> example_ids x).
Proof.
  intros v.
  apply (data_join_aligns_blocks test_post_ok join_leader join_follower (leader_server 0) v 3).
  - split; reflexivity.
  - split; try reflexivity.
  - reflexivity.
  - reflexivity.
  - reflexivity.
  - repeat (apply Forall_cons_2 || apply Forall_nil_2);
      (split; [eexists; reflexivity|]); eexists; split; reflexivity.
  - reflexivity.
  - apply join_follower_rep.
  - reflexivity.
  - reflexivity.
  - vm_compute. discriminate.
  - reflexivity.
  - apply leader_leading. lia.
  - reflexivity.
  - reflexivity.
  - reflexivity.
  - reflexivity.
  - reflexivity.
  - intros q' l Hq. change (round_batches _ _) with ([] ++ [lite_of 0 TestSaver.items true]) in Hq.
    apply app_inj_tail in Hq as [<- <-]. vm_compute. discriminate.
  - vm_compute. discriminate.
  - reflexivity.
  - simpl. lia.
Defined.

Lemma default_options_end_the_process_witness :
  (new_data_join (mkOptions (mkRawOpt "TF_DATASET" "") (mkJoinOpt "MEMORY_JOINER" 0 0 (-1) 4096))
     (mkDataSource "src" "blocks" "raw" 0 "local" Leader) 0 false two_files).1
  = Stop (Exit (-1)).
Proof.
  apply (default_options_end_the_process "peer" 7 0 "src" "blocks" "raw" "leader" _ _
           two_files (omap (λ q, if Str.startswith "raw/" q
                        then Some (String.substring 4 (String.length q) q) else None)
                  (map_to_list (mf_files two_files)).*1)
           "raw/a" ["raw/b"] 0 false).
  - reflexivity.
  - reflexivity.
  - vm_compute. reflexivity.
Defined.
End witnesses.
