(* ===== verification/JoinSteps.v ===== *)
(** * The threads of a data join

    What the threads of the two nodes do one step at a time, so that their steps
    can be interleaved: the sender of the ids on the leader
    (example_id_producer.py), the joiner and the sender of the metas on the
    follower (data_block_producer.py, memory_data_joiner.py), the saver of the
    blocks on the leader (data_block_consumer.py, data_block_saver.py).  A step
    makes at most one call to the other side, takes one batch, or saves one
    block.  Each thread alone does what its routine does. *)

From stdpp Require Import base tactics list gmap strings.
From Stdlib Require Import ZArith QArith Lia.
From S2P Require Import Prelude Threads PyStd Messages Env DataBlockManager DataBlockMaker RawData.
From S2P Require Import DataJoiner DataBlockSaver Consumer DataBlockConsumer ExampleIdConsumer.
From S2P Require Import DataJoinServer ExampleIdProducer DataBlockProducer.

Open Scope Z_scope.

(** ** The sender of the ids *)
Inductive id_pc :=
  | IdIdle
  | IdLoop (items examples_list : list (pyid * string))
  | IdFinish.
Definition id_idle (pc : id_pc) : bool := match pc with IdIdle => true | _ => false end.

Section id_thread.
Context {P : Type} `{PeerClient P} `{Utils} `{TFExample}.
Local Abbreviation S := (id_producer P).

(** [if init_loading.partition_finished: ...] at the end of the routine *)
Definition id_finish : M S unit :=
  s ← getM;
  if il_partition_finished (ip_init s)
  then finish_send_example_id_to_consumer;; mret tt
  else mret tt.
Definition id_mark : M S unit :=
  ip_on_init (il_set_partition_finished true);;
  ip_on_init (il_set_follower_finished false);;
  ip_on_init release_stale_with_sender.

Definition id_step (pc : id_pc) : M S id_pc :=
  match pc with
  | IdIdle =>
      s ← getM;
      if il_follower_finished (ip_init s) then mret IdFinish
      else
        ip_on_init acquire_stale_with_sender;;
        r ← start_notify_consumer_to_sync_partition;
        if r.2 : bool then
          ip_on_init (il_set_follower_finished true);;
          ip_on_init release_stale_with_sender;;
          mret IdFinish
        else
          items ← gets (λ s : S, il_item_dict (ip_init s));
          mret (IdLoop items [])
  | IdLoop (x :: items) examples_list =>
      let l := examples_list ++ [x] in
      if sync_example_id_nums <? zlen l
      then send_example_ids_to_consumer l false;; mret (IdLoop items [])
      else mret (IdLoop items l)
  | IdLoop [] examples_list =>
      send_example_ids_to_consumer examples_list true;;
      id_mark;;
      mret IdFinish
  | IdFinish => id_finish;; mret IdIdle
  end.

Lemma id_finish_round fuel (s : S) :
  round id_idle id_step (Datatypes.S fuel) IdFinish s = id_finish s.
Proof.
  rewrite round_S. cbn [id_step]. rewrite run_bind. by destruct (id_finish s) as [[[]|r] s1].
Qed.

(** The rest of the routine from the loop over the items on. *)
Lemma id_loop_round items : ∀ l fuel (s : S),
  (length items + 2 ≤ fuel)%nat →
  round id_idle id_step fuel (IdLoop items l) s
  = (last ← send_items items l;
     send_example_ids_to_consumer last true;; id_mark;; id_finish) s.
Proof.
  induction items as [|x items IH]; intros l [|fuel] s Hf; simpl in Hf; try lia.
  - rewrite round_S. cbn [id_step send_items]. rewrite !run_bind, run_ret.
    cbv iota. rewrite run_bind.
    destruct (send_example_ids_to_consumer l true s) as [[[]|r] s1]; [|done].
    rewrite !run_bind.
    destruct (id_mark s1) as [[[]|r] s2]; [|done]. simpl id_idle. cbv iota.
    destruct fuel as [|fuel]; [lia|]. apply id_finish_round.
  - rewrite round_S. cbn [id_step send_items]. rewrite !run_bind.
    destruct (sync_example_id_nums <? zlen (l ++ [x])).
    + rewrite !run_bind.
      destruct (send_example_ids_to_consumer (l ++ [x]) false s) as [[[]|r] s1]; [|done].
      rewrite run_ret. simpl id_idle. cbv iota. rewrite IH by lia. by rewrite run_bind.
    + rewrite run_ret. simpl id_idle. cbv iota. rewrite IH by lia. by rewrite run_bind.
Qed.

Lemma start_notify_keeps : keeps ip_init start_notify_consumer_to_sync_partition.
Proof.
  unfold start_notify_consumer_to_sync_partition, call, require. keeping. done.
Qed.

(** Alone, the steps are the routine. *)
Lemma id_round fuel (s : S) :
  (length (il_item_dict (ip_init s)) + 3 ≤ fuel)%nat →
  round id_idle id_step fuel IdIdle s = send_example_id_processor s.
Proof.
  destruct fuel as [|fuel]; [lia|]. intros Hf. rewrite round_S. cbn [id_step].
  change (send_example_id_processor s)
    with ((s ← getM;
           (if il_follower_finished (ip_init s) then mret tt
            else
              ip_on_init acquire_stale_with_sender;;
              fin ← sender;
              ip_on_init (il_set_follower_finished fin);;
              ip_on_init release_stale_with_sender);;
           id_finish) s).
  rewrite !run_bind. cbn [getM]. destruct (il_follower_finished (ip_init s)).
  { destruct fuel as [|fuel]; [lia|]. apply id_finish_round. }
  rewrite !run_bind. unfold ip_on_init at 1 4, modify at 1 2.
  set (s1 := mkIdProducer _ _ _ _). unfold sender. rewrite !run_bind.
  pose proof (start_notify_keeps s1) as Hk.
  destruct (start_notify_consumer_to_sync_partition s1) as [[[n []]|r] s2]; [| |done];
    cbn [snd] in *; rewrite !run_bind.
  - destruct fuel as [|fuel]; [lia|]. unfold ip_on_init, modify. cbv beta iota.
    rewrite !run_bind, run_ret. cbv beta iota. apply id_finish_round.
  - cbn [gets]. rewrite run_ret. cbn [id_idle]. rewrite id_loop_round.
    2:{ replace (il_item_dict (ip_init s2)) with (il_item_dict (ip_init s)) by (by rewrite Hk). lia. }
    rewrite !run_bind. destruct (send_items _ _ s2) as [[l|r] s3]; [|done].
    rewrite !run_bind. destruct (send_example_ids_to_consumer l true s3) as [[[]|r] s4]; [|done].
    unfold id_mark, ip_on_init, modify. cbv beta iota. by rewrite !run_bind.
Qed.
End id_thread.

(** ** The joiner *)
Inductive join_pc := JoinIdle | JoinLoop.
Definition join_idle (pc : join_pc) : bool := match pc with JoinIdle => true | _ => false end.

Section join_thread.
Context {F : Type} `{GFile F} `{Utils} `{TFExample} `{Clock}.
Local Abbreviation J := (joiner F).

Definition join_step (pc : join_pc) : M J join_pc :=
  match pc with
  | JoinIdle => sw ← data_join_switch; mret (if sw : bool then JoinLoop else JoinIdle)
  | JoinLoop => go ← joiner_turn; mret (if go : bool then JoinLoop else JoinIdle)
  end.

Lemma join_loop_round fuel (j : J) :
  round join_idle join_step fuel JoinLoop j = memory_joiner_algo fuel j.
Proof.
  revert j. induction fuel as [|fuel IH]; intros j; [done|].
  rewrite round_S. cbn [join_step memory_joiner_algo]. rewrite !run_bind.
  destruct (joiner_turn j) as [[[]|r] j1]; [apply IH|done|done].
Qed.

(** Alone, the steps are the routine of a [MemoryDataJoiner]. *)
Lemma join_round fuel (j : J) :
  round join_idle join_step (S fuel) JoinIdle j
  = (sw ← data_join_switch; if sw : bool then data_joiner_algo MemoryDataJoiner fuel else mret tt) j.
Proof.
  rewrite round_S. cbn [join_step data_joiner_algo]. unfold data_join_switch. rewrite !run_bind.
  cbn [getM]. rewrite !run_ret. destruct (jn_stale j); [apply join_loop_round|done].
Qed.
End join_thread.

(** ** The sender of the metas *)
Inductive meta_pc := MetaIdle | MetaLoop.
Definition meta_idle (pc : meta_pc) : bool := match pc with MetaIdle => true | _ => false end.

Section meta_thread.
Context {F P : Type} `{GFile F} `{PeerClient P} `{Utils} `{TFExample} `{Clock}.
Local Abbreviation S := (block_producer F P).

(** The end of the routine; [join_state] is always false. *)
Definition meta_finish : M S unit :=
  w ← gets bp_wrap;
  if dw_finished w then notify_consumer_finish_send_meta;; mret tt else mret tt.

Definition meta_step (pc : meta_pc) : M S meta_pc :=
  w ← gets bp_wrap;
  match pc with
  | MetaIdle =>
      if dw_finished w then meta_finish;; mret MetaIdle
      else
        r ← sync_data_block_meta_sender_status;
        set_status r.1 r.2;;
        mret MetaLoop
  | MetaLoop =>
      if dw_finished w then meta_finish;; mret MetaIdle
      else
        r ← get_next_data_block_meta;
        match r.2 with
        | None => meta_finish;; mret MetaIdle
        | Some meta =>
            send_data_block_meta_to_consumer meta;;
            w' ← gets bp_wrap;
            set_status (dw_next w' + 1) (dw_finished w');;
            mret MetaLoop
        end
  end.

Lemma meta_loop_round fuel (s : S) :
  round meta_idle meta_step fuel MetaLoop s = (send_loop fuel;; meta_finish) s.
Proof.
  revert s. induction fuel as [|fuel IH]; intros s; [done|].
  rewrite round_S. cbn [send_loop]. unfold meta_step at 1. rewrite !run_bind. cbn [gets].
  destruct (dw_finished (bp_wrap s)).
  { rewrite run_bind, !run_ret. by destruct (meta_finish s) as [[[]|r] s1]. }
  rewrite !run_bind. destruct (get_next_data_block_meta s) as [[[b [meta|]]|r] s1]; cbn [snd];
    [|rewrite run_bind, !run_ret; by destruct (meta_finish s1) as [[[]|r] s2]|done].
  rewrite !run_bind. destruct (send_data_block_meta_to_consumer meta s1) as [[[]|r] s2]; [|done].
  rewrite !run_bind. cbn [gets]. rewrite !run_bind.
  destruct (set_status _ _ s2) as [[[]|r] s3]; [|done].
  rewrite run_ret. simpl meta_idle. cbv iota. by rewrite IH, run_bind.
Qed.

(** Alone, the steps are the routine. *)
Lemma meta_round fuel (s : S) :
  round meta_idle meta_step (Datatypes.S fuel) MetaIdle s = send_data_block_meta_processor fuel s.
Proof.
  rewrite round_S. unfold meta_step at 1, send_data_block_meta_processor.
  rewrite !run_bind. cbn [gets]. destruct (dw_finished (bp_wrap s)) eqn:E.
  - rewrite !run_bind, run_ret. cbn [gets]. unfold meta_finish. rewrite run_bind. cbn [gets].
    rewrite E. simpl orb. cbv iota. rewrite !run_bind. cbn [gets]. rewrite E, run_bind.
    by destruct (notify_consumer_finish_send_meta s) as [[b|r] s1].
  - unfold send_executor. rewrite !run_bind.
    destruct (sync_data_block_meta_sender_status s) as [[r|r] s1]; [|done].
    rewrite !run_bind. destruct (set_status r.1 r.2 s1) as [[[]|r'] s2]; [|done].
    rewrite run_ret. simpl meta_idle. cbv iota. rewrite meta_loop_round, !run_bind.
    destruct (send_loop fuel s2) as [[[]|r'] s3]; [|done].
    rewrite run_ret, run_bind. unfold meta_finish. rewrite run_bind. done.
Qed.
End meta_thread.

(** ** The saver of the blocks *)
Inductive save_pc := SaveIdle | SaveLoop.
Definition save_idle (pc : save_pc) : bool := match pc with SaveIdle => true | _ => false end.

Section save_thread.
Context {F : Type} `{GFile F} `{Utils}.
Local Abbreviation C := (data_block_consumer F).

(** Before the loop, and one turn of it. *)
Definition save_enter : M (saver F) unit :=
  notify_data_block_manager_sync_state;; get_switch_state.
Definition save_turn : M (saver F) save_pc :=
  need ← is_need_save;
  if need : bool then save_next;; mret SaveLoop else free_switch_state;; mret SaveIdle.

Definition save_step (pc : save_pc) : M C save_pc :=
  match pc with
  | SaveIdle =>
      go ← dc_processor_factor;
      if go : bool then in_wrap save_enter;; mret SaveLoop else mret SaveIdle
  | SaveLoop => in_wrap save_turn
  end.

Lemma save_loop_round fuel (c : C) s :
  dc_wrap c = Some s →
  round save_idle save_step fuel SaveLoop c
  = in_wrap (whileM fuel is_need_save save_next;; free_switch_state) c.
Proof.
  revert c s. induction fuel as [|fuel IH]; intros c s Hc.
  { unfold in_wrap. rewrite Hc. simpl. unfold dc_set_wrap. destruct c; simpl in *. by subst. }
  rewrite round_S. cbn [save_step]. rewrite !(in_wrap_Some _ _ _ Hc).
  unfold save_turn. cbn [whileM]. rewrite !run_bind.
  destruct (is_need_save s) as [[need|r] s1]; [|done].
  destruct need; rewrite !run_bind.
  - destruct (save_next s1) as [[[]|r] s2]; [|done]. simpl.
    by rewrite (IH _ s2), (in_wrap_Some _ _ s2).
  - rewrite run_ret. by destruct (free_switch_state s1) as [[[]|r] s2].
Qed.

(** Alone, the steps are a round of the processor. *)
Lemma save_round (c : C) s :
  dc_wrap c = Some s →
  round save_idle save_step (2 + length (sv_buffer (save_enter s).2)) SaveIdle c = dc_round c.
Proof.
  intros Hc. cbn [plus]. rewrite round_S. cbn [save_step]. unfold dc_round, dc_processor.
  unfold dc_processor_factor. rewrite !run_bind. cbn [gets]. rewrite Hc, !run_ret.
  destruct (0 <? zlen (sv_buffer s)); [|done].
  rewrite run_bind, !(in_wrap_Some _ _ _ Hc).
  assert (build_data_block_saver s = (save_enter;; save_data_blocks;; free_switch_state) s) as ->.
  { unfold build_data_block_saver, save_enter. rewrite !run_bind.
    by destruct (notify_data_block_manager_sync_state s) as [[[]|r] s1]. }
  rewrite run_bind. destruct (save_enter s) as [[[]|r] s1]; [|done].
  cbn [fst snd]. rewrite run_ret. simpl save_idle. cbv iota.
  rewrite (save_loop_round _ _ s1) by done. rewrite (in_wrap_Some _ _ s1) by done.
  unfold save_data_blocks. rewrite !run_bind. cbn [getM]. done.
Qed.
End save_thread.
