(* ===== verification/Interleaving.v ===== *)
(** * The data join under any interleaving of its threads

    The four threads of a leader and a follower (JoinSteps) take their steps in
    any order.  The invariant says how far each has come and that the blocks of
    the two sides agree so far; when every thread is given enough turns, the
    join ends with the same blocks on both sides. *)

From stdpp Require Import base tactics list gmap strings.
From Stdlib Require Import ZArith QArith Lia.
From S2P Require Import Prelude Threads PyStd Messages Env DataBlockManager DataBlockMaker RawData.
From S2P Require Import DataJoiner DataBlockSaver Consumer DataBlockConsumer ExampleIdConsumer.
From S2P Require Import DataJoinServer ExampleIdProducer DataBlockProducer System JoinSteps.

Open Scope Z_scope.

(** ** The two nodes *)
Inductive thread := LeaderIds | FollowerJoin | FollowerMetas | LeaderSave.
#[export] Instance thread_eq_dec : EqDecision thread.
Proof. solve_decision. Defined.

Record net (F G : Type) := mkNet {
  nt_ids : id_producer (data_join example_id_consumer);
  nt_metas : block_producer F (data_join (data_block_consumer G));
  nt_id_pc : id_pc;
  nt_join_pc : join_pc;
  nt_meta_pc : meta_pc;
  nt_save_pc : save_pc;
}.
Arguments mkNet {_ _}.
Arguments nt_ids {_ _}.
Arguments nt_metas {_ _}.
Arguments nt_id_pc {_ _}.
Arguments nt_join_pc {_ _}.
Arguments nt_meta_pc {_ _}.
Arguments nt_save_pc {_ _}.

Definition queue_of (s : id_producer (data_join example_id_consumer)) : list LiteExampleIds :=
  ap_queue (ec_appender (dj_consumer (ip_peer s))).
Definition set_queue (q : list LiteExampleIds) (s : id_producer (data_join example_id_consumer)) :=
  let d := ip_peer s in
  let c := dj_consumer d in
  ip_set_peer (dj_set_consumer (mkIdConsumer (ap_set_queue q (ec_appender c)) (ec_partition_id c)) d)
    s.

Section net.
Context {F G : Type} `{GFile F} `{GFile G} `{Utils} `{TFExample} `{Clock}.
Local Abbreviation N := (net F G).

Definition nt_set_ids x (n : N) : N :=
  mkNet x (nt_metas n) (nt_id_pc n) (nt_join_pc n) (nt_meta_pc n) (nt_save_pc n).
Definition nt_set_metas x (n : N) : N :=
  mkNet (nt_ids n) x (nt_id_pc n) (nt_join_pc n) (nt_meta_pc n) (nt_save_pc n).
Definition nt_set_id_pc x (n : N) : N :=
  mkNet (nt_ids n) (nt_metas n) x (nt_join_pc n) (nt_meta_pc n) (nt_save_pc n).
Definition nt_set_join_pc x (n : N) : N :=
  mkNet (nt_ids n) (nt_metas n) (nt_id_pc n) x (nt_meta_pc n) (nt_save_pc n).
Definition nt_set_meta_pc x (n : N) : N :=
  mkNet (nt_ids n) (nt_metas n) (nt_id_pc n) (nt_join_pc n) x (nt_save_pc n).
Definition nt_set_save_pc x (n : N) : N :=
  mkNet (nt_ids n) (nt_metas n) (nt_id_pc n) (nt_join_pc n) (nt_meta_pc n) x.

(** The queue of the follower is one object for its server and its joiner. *)
Definition the_joiner (n : N) : joiner F :=
  let j := dw_joiner (bp_wrap (nt_metas n)) in
  jn_set_queue (queue_of (nt_ids n)) (jn_last j) j.
Definition set_joiner (j : joiner F) (n : N) : N :=
  nt_set_ids (set_queue (jn_queue j) (nt_ids n))
    (nt_set_metas (bp_set_wrap (dw_set_joiner j (bp_wrap (nt_metas n))) (nt_metas n)) n).
(** The leader's consumer, on the server that the follower calls. *)
Definition the_consumer (n : N) : data_block_consumer G := dj_consumer (bp_peer (nt_metas n)).
Definition set_consumer (c : data_block_consumer G) (n : N) : N :=
  nt_set_metas (bp_set_peer (dj_set_consumer c (bp_peer (nt_metas n))) (nt_metas n)) n.

Definition thread_step (t : thread) : M N unit :=
  match t with
  | LeaderIds =>
      pc ← gets nt_id_pc; pc' ← zoom nt_ids nt_set_ids (id_step pc); modify (nt_set_id_pc pc')
  | FollowerJoin =>
      pc ← gets nt_join_pc; pc' ← zoom the_joiner set_joiner (join_step pc);
      modify (nt_set_join_pc pc')
  | FollowerMetas =>
      pc ← gets nt_meta_pc; pc' ← zoom nt_metas nt_set_metas (meta_step pc);
      modify (nt_set_meta_pc pc')
  | LeaderSave =>
      pc ← gets nt_save_pc; pc' ← zoom the_consumer set_consumer (save_step pc);
      modify (nt_set_save_pc pc')
  end.
End net.

(** ** The sender of the ids *)
Section ids.
Context `{UtilsLaws} `{TFExample}.
Context (items : list (pyid * string)) (pid : Z).
Local Abbreviation P := (id_producer (data_join example_id_consumer)).

(** The batches still to be sent from within the loop. *)
Definition batches_left (rest open : list (pyid * string)) : list LiteExampleIds :=
  let r := id_batches sync_example_id_nums open rest in
  ((λ b, lite_of pid b false) <$> r.1) ++ [lite_of pid r.2 true].

Local Abbreviation all := (round_batches pid items).

(** The batches [sent] have gone to the follower, whose queue has [q]. *)
Record id_base (s : P) (sent q : list LiteExampleIds) : Prop := mkIdBase {
  ib_paired : paired s;
  ib_pid : dj_partition_id (ip_peer s) = pid;
  ib_items : il_item_dict (ip_init s) = items;
  ib_queue : queue_of s = q;
  ib_next : ap_next (ec_appender (dj_consumer (ip_peer s))) + zlen sent = zlen (batches_ids sent);
}.

(** Where the sender is, and whether it has marked its partition and the
    follower as finished. *)
Inductive id_phase (s : P) (q : list LiteExampleIds) : id_pc → list LiteExampleIds → Prop :=
  | IdFresh :
      il_partition_finished (ip_init s) = false → il_follower_finished (ip_init s) = false →
      following (ip_peer s) q false → id_phase s q IdIdle []
  | IdSending rest open sent :
      il_partition_finished (ip_init s) = false → il_follower_finished (ip_init s) = false →
      following (ip_peer s) q false → sendable (open ++ rest) →
      sent ++ batches_left rest open = all → id_phase s q (IdLoop rest open) sent
  | IdSent :
      il_partition_finished (ip_init s) = true → il_follower_finished (ip_init s) = false →
      following (ip_peer s) q false → id_phase s q IdFinish all
  | IdTold :
      il_partition_finished (ip_init s) = true → il_follower_finished (ip_init s) = false →
      following (ip_peer s) q true → id_phase s q IdIdle all
  | IdOver pc :
      il_follower_finished (ip_init s) = true → pc = IdIdle ∨ pc = IdFinish →
      id_phase s q pc all.

(** The steps that the sender has left. *)
Definition id_left (pc : id_pc) (s : P) : nat :=
  if il_follower_finished (ip_init s) then 0
  else match pc with
       | IdLoop rest _ => length rest + 4
       | IdFinish => 3
       | IdIdle => if il_partition_finished (ip_init s) then 2
                   else length (il_item_dict (ip_init s)) + 5
       end.

Lemma id_phase_sent s q pc sent : id_phase s q pc sent → sent `prefix_of` all.
Proof.
  inversion 1; subst; [apply prefix_nil| |done|done|done].
  eexists. by symmetry.
Qed.
Lemma id_phase_over s q pc sent : id_phase s q pc sent → id_left pc s = 0%nat → sent = all.
Proof.
  unfold id_left. inversion 1 as [? E1|? ? ? ? E2| | |]; subst; try done.
  - rewrite E1, H3. lia.
  - rewrite E2. simpl. lia.
Qed.

Lemma id_base_next64 s sent q :
  zlen items + 2 * zlen all < 2 ^ 53 → id_base s sent q → sent `prefix_of` all →
  in_int64 (ap_next (ec_appender (dj_consumer (ip_peer s)))) = true.
Proof.
  intros Hb [_ _ _ _ Hn] [rest Hp]. unfold in_int64.
  assert (zlen (batches_ids sent) + zlen (batches_ids rest) = zlen items) as Hi.
  { rewrite <- zlen_app. unfold batches_ids. rewrite <- bind_app, <- Hp.
    rewrite round_batches_ids. unfold zlen. by rewrite length_fmap. }
  assert (zlen sent + zlen rest = zlen all) as Hl by (by rewrite Hp, zlen_app).
  pose proof (zlen_nonneg (batches_ids rest)). pose proof (zlen_nonneg rest).
  pose proof (zlen_nonneg sent). pose proof (zlen_nonneg (batches_ids sent)).
  rewrite andb_true_iff, Z.leb_le, Z.ltb_lt. lia.
Qed.

Lemma id_base_init s s' sent q :
  id_base s sent q → ip_peer s' = ip_peer s → ip_rank_id s' = ip_rank_id s →
  il_partition_id (ip_init s') = il_partition_id (ip_init s) →
  il_item_dict (ip_init s') = il_item_dict (ip_init s) → id_base s' sent q.
Proof.
  intros [[P1 P2] B2 B3 B4 B5] Ep Er Ei Ed. split; [split; congruence|congruence|congruence| |].
  - unfold queue_of in *. by rewrite Ep.
  - by rewrite Ep.
Qed.

(** Sending one batch. *)
Lemma id_send_run s sent q examples b :
  id_base s sent q → following (ip_peer s) q false → sendable examples →
  ∃ s', send_example_ids_to_consumer examples b s = (Ret tt, s') ∧
    id_base s' (sent ++ [lite_of pid examples b]) (q ++ [lite_of pid examples b]) ∧
    following (ip_peer s') (q ++ [lite_of pid examples b]) false ∧ ip_init s' = ip_init s.
Proof.
  intros [B1 B2 B3 B4 B5] Hf Hs.
  destruct (send_run s q false examples b B1 Hf Hs) as (s' & Hr & Hf' & Hfr & Hn).
  pose proof (ip_frame_paired _ _ Hfr B1) as Hp'. rewrite B2 in Hf'.
  destruct Hfr as (E1 & E2 & E3 & E4 & E5).
  exists s'. split_and!; [done| |done|done].
  split; [done|congruence|congruence|by apply Hf'|].
  rewrite Hn, zlen_app. unfold batches_ids. rewrite bind_app, zlen_app.
  change (zlen [_]) with 1. unfold batches_ids in B5.
  cbn [mbind list_bind]. rewrite app_nil_r. simpl. unfold zlen in *. rewrite length_fmap. lia.
Qed.

Definition id_moves (pc : id_pc) (s : P) (sent q : list LiteExampleIds) : Prop :=
  ∃ pc' s' new, id_step pc s = (Ret pc', s') ∧
    id_base s' (sent ++ new) (q ++ new) ∧ id_phase s' (q ++ new) pc' (sent ++ new) ∧
    (id_left pc' s' = 0 ∨ id_left pc' s' < id_left pc s)%nat.

Lemma batches_left_cons x rest open :
  batches_left (x :: rest) open
  = if sync_example_id_nums <? zlen (open ++ [x])
    then lite_of pid (open ++ [x]) false :: batches_left rest []
    else batches_left rest (open ++ [x]).
Proof. unfold batches_left. cbn [id_batches]. by case_match. Qed.

Lemma id_loop_moves s sent q rest open :
  id_base s sent q → id_phase s q (IdLoop rest open) sent → id_moves (IdLoop rest open) s sent q.
Proof.
  intros Hb Hph. inversion Hph as [|? ? ? Epf Eff Hf Hs Hall| | |? ? []]; subst; try done.
  unfold id_moves. destruct rest as [|x rest]; cbn [id_step].
  - rewrite app_nil_r in Hs.
    destruct (id_send_run s sent q open true Hb Hf Hs) as (s1 & Hr & Hb1 & Hf1 & Ei).
    rewrite run_bind, Hr. unfold id_mark, ip_on_init, modify. rewrite run_bind. cbv beta iota.
    eexists _, _, _. split; [reflexivity|]. split; [|split].
    + by eapply id_base_init; [exact Hb1|..].
    + change (sent ++ [lite_of pid open true]) with (sent ++ batches_left [] open).
      rewrite Hall. by apply IdSent.
    + right. unfold id_left. rewrite Eff. simpl. lia.
  - rewrite batches_left_cons in Hall. rewrite cons_middle, (assoc_L (++)) in Hs.
    destruct (sync_example_id_nums <? zlen (open ++ [x])).
    + apply sendable_app in Hs as [Hs1 Hs2].
      destruct (id_send_run s sent q _ false Hb Hf Hs1) as (s1 & Hr & Hb1 & Hf1 & Ei).
      rewrite run_bind, Hr. eexists _, _, _. split; [reflexivity|]. split; [exact Hb1|].
      split; [|right; unfold id_left; rewrite Ei, Eff; simpl; lia].
      apply IdSending; rewrite ?Ei; try done. by rewrite <- (assoc_L (++)).
    + eexists _, _, []. rewrite !app_nil_r. split; [reflexivity|]. split; [exact Hb|].
      split; [by apply IdSending|]. right. unfold id_left. rewrite Eff. simpl. lia.
Qed.

Lemma id_idle_moves s sent q :
  zlen items + 2 * zlen all < 2 ^ 53 → sendable items →
  id_base s sent q → id_phase s q IdIdle sent → id_moves IdIdle s sent q.
Proof.
  intros Hz Hsend Hb Hph. pose proof (id_phase_sent _ _ _ _ Hph) as Hpre.
  pose proof (id_base_next64 _ _ _ Hz Hb Hpre) as H64.
  unfold id_moves. cbn [id_step]. rewrite run_bind. cbn [getM].
  inversion Hph as [Epf Eff Hf| | |Epf Eff Hf|? Eff]; subst; rewrite Eff.
  3:{ eexists _, _, []. rewrite !app_nil_r. split; [reflexivity|]. split; [exact Hb|].
      split; [|left; unfold id_left; by rewrite Eff]. apply IdOver; [done|by right]. }
  all: set (s0 := mkIdProducer (ip_peer s) (ip_rank_id s)
                    (acquire_stale_with_sender (ip_init s)) (ip_start s)).
  all: assert (id_base s0 (if il_partition_finished (ip_init s) then all else []) q) as Hb0
      by (rewrite Epf; by eapply id_base_init; [exact Hb|..]).
  all: rewrite run_bind; unfold ip_on_init, modify; cbv beta iota; fold s0.
  all: rewrite run_bind, (start_notify_run s0 q _ (ib_paired _ _ _ Hb0) Hf H64); cbn [snd];
    rewrite ?run_bind; rewrite Epf in Hb0.
  - eexists _, s0, []. rewrite !app_nil_r. split; [reflexivity|]. split; [exact Hb0|].
    assert (il_item_dict (ip_init s0) = items) as Ei by apply Hb0.
    split; [|right; unfold id_left; simpl; rewrite Eff, Epf;
                change (il_item_dict (acquire_stale_with_sender (ip_init s)))
                  with (il_item_dict (ip_init s)); lia].
    rewrite Ei. by apply IdSending.
  - eexists _, _, []. rewrite !app_nil_r. split; [reflexivity|].
    split; [by eapply id_base_init; [exact Hb0|..]|]. split; [|by left].
    apply IdOver; [done|by right].
Qed.

Lemma id_finish_moves s sent q :
  id_base s sent q → id_phase s q IdFinish sent → id_moves IdFinish s sent q.
Proof.
  intros Hb Hph. unfold id_moves. cbn [id_step]. rewrite run_bind.
  unfold id_finish. rewrite run_bind. cbn [getM].
  inversion Hph as [| |Epf Eff Hf| |? Eff]; subst.
  - rewrite Epf. destruct Hb as [B1 B2 B3 B4 B5]. destruct q as [|l q].
    + destruct (finish_drained_run s false B1 Hf Eff) as (s' & Hr & Hp & Ep & Eq & En & Ei).
      rewrite run_bind, Hr. eexists _, s', []. rewrite !app_nil_r. split; [reflexivity|].
      split; [split; try done; rewrite ?Ei; try done; congruence|].
      split; [apply IdOver; [by rewrite Ei|by left]|left; unfold id_left; by rewrite Ei].
    + destruct (finish_send_run s (l :: q) false B1 Hf) as (s' & Hr & Hf' & Hp & Ei & Ep & En);
        [done|done|].
      rewrite run_bind, Hr. eexists _, s', []. rewrite !app_nil_r. split; [reflexivity|].
      split; [split; try done; rewrite ?Ei; try done; [congruence|by apply Hf'|congruence]|].
      split; [by apply IdTold; rewrite ?Ei|right; unfold id_left; rewrite Ei; simpl; rewrite Eff, Epf; lia].
  - eexists _, s, []. rewrite !app_nil_r. split.
    { destruct (il_partition_finished (ip_init s)); [|reflexivity].
      unfold finish_send_example_id_to_consumer. rewrite run_bind, run_bind. cbn [getM].
      by rewrite Eff. }
    split; [exact Hb|]. split; [apply IdOver; [done|by left]|left; unfold id_left; by rewrite Eff].
Qed.

(** A step of the sender. *)
Lemma id_step_run pc s sent q :
  zlen items + 2 * zlen all < 2 ^ 53 → sendable items →
  id_base s sent q → id_phase s q pc sent → id_moves pc s sent q.
Proof.
  intros. destruct pc; [by apply id_idle_moves|by apply id_loop_moves|by apply id_finish_moves].
Qed.
End ids.

(** ** The joiner *)
Section join.
Context {F : Type} `{GFileLaws F} `{UtilsLaws} `{TFExample} `{Clock}.
Context (post_ok : ∀ u l, http_post u l = Ret tt).
Local Abbreviation J := (joiner F).

Lemma keeps_in_maker {A} (m : maker) (c : M (maker * world F) A) : keeps jn_stale (in_maker m c).
Proof. intros j. unfold in_maker. by destruct (c (m, jn_world j)) as [o [m' w']]. Qed.
Lemma keeps_in_world {A} (c : M (world F) A) : keeps jn_stale (in_world c).
Proof. unfold in_world. keeping. done. Qed.
Lemma keeps_read_clock : keeps jn_stale (@read_clock F _).
Proof. done. Qed.

(** A turn does not reload the raw data. *)
Lemma joiner_turn_stale : keeps jn_stale (@joiner_turn F _ _ _ _).
Proof.
  Local Hint Resolve keeps_in_maker keeps_in_world keeps_read_clock : keeps.
  assert (∀ b, keeps jn_stale (@acquire_data_block_maker F _ _ b)) as Hacq.
  { intros b. unfold acquire_data_block_maker, produced_number. keeping. }
  assert (∀ b, keeps jn_stale (@yield_finalizer F _ _ _ b)) as Hyield.
  { intros b. unfold yield_finalizer, data_join_finalizer, set_data_joiner_finished,
      reset_data_block_maker, update_data_block_produced_timestamp. keeping; done. }
  assert (∀ b, keeps jn_stale (@finish_if_maker F _ _ _ b)) as Hfin.
  { intros b. unfold finish_if_maker. keeping. }
  assert (∀ b id, keeps jn_stale (@join_example F _ _ _ _ b id)) as Hex.
  { intros b id. unfold join_example. keeping. }
  unfold joiner_turn, is_data_joiner_finished, take_batch, join_batch, time_span_check,
    data_block_finalizer_if_time_span, last_finished.
  keeping; done.
Qed.

(** The batches [all] end with the only finished one. *)
Definition well_marked (all : list LiteExampleIds) : Prop :=
  ∃ q l, all = q ++ [l] ∧ Forall (λ x, le_finished x = false) q ∧ le_finished l = true.

Lemma marked_end all taken q :
  well_marked all → taken ++ q `prefix_of` all → is_finished (last taken) = true →
  taken = all ∧ q = [].
Proof.
  intros (q' & l & -> & Hq & Hl) [rest Hp] Hf.
  destruct taken as [|x taken _] using rev_ind; [done|].
  rewrite last_snoc in Hf. simpl in Hf.
  destruct (decide (q ++ rest = [])) as [[-> ->]%app_nil|Hne].
  { by rewrite Hp, !app_nil_r. }
  exfalso. destruct (q ++ rest) as [|y r _] eqn:E using rev_ind; [done|].
  rewrite <- (assoc_L (++)) in Hp.
  assert (q' ++ [l] = (taken ++ [x] ++ r) ++ [y]) as [-> ->]%app_inj_tail.
  { rewrite Hp. rewrite <- !(assoc_L (++)). do 2 f_equal. done. }
  apply Forall_app in Hq as [_ Hq]. inversion Hq. congruence.
Qed.

Context (j0 : J) (all : list LiteExampleIds).
Local Abbreviation thr := (dump_data_block_threshold (jn_options j0)).
Local Abbreviation kn := (known (jn_items j0)).
Local Abbreviation span := (dump_data_block_time_span (jn_options j0)).

(** [queue_spec] one batch at a time. *)
Lemma queue_spec_snoc pending q l :
  queue_spec thr kn pending (q ++ [l])
  = let s := queue_spec thr kn pending q in
    let r := batch_spec thr kn s.2 (le_example_id l) (le_finished l) in (s.1 ++ r.1, r.2).
Proof. unfold queue_spec. by rewrite foldl_app. Qed.

(** The joiner has taken the batches [taken] and made the blocks [blocks] of
    them, whatever the clock. *)
Record join_inv (j : J) (taken : list LiteExampleIds) (blocks : list DataBlockMeta)
    (pending : list string) : Prop := mkJoinInv {
  ji_rep : jrep j [] blocks pending;
  ji_settings : settings j = settings j0;
  ji_stale : jn_stale j = true;
  ji_ready : jn_maker j ≠ None → jn_last j ≠ None;
  ji_last : jn_last j = last taken;
  ji_ids : concat (example_ids <$> blocks) ++ pending = matched kn (batches_ids taken);
  ji_done : is_finished (last taken) = true → pending = [];
  ji_finished : jn_finished j = true → is_finished (last taken) = true;
  ji_spec : span ≤ 0 → (example_ids <$> blocks, pending) = queue_spec thr kn [] taken;
}.

Definition join_left (pc : join_pc) (q : list LiteExampleIds) : nat :=
  match q with
  | [] => 0
  | _ => 2 * length q + match pc with JoinIdle => 1 | JoinLoop => 0 end
  end.

Lemma join_inv_count j taken blocks pending :
  join_inv j taken blocks pending → zlen blocks ≤ zlen (matched kn (batches_ids taken)).
Proof.
  intros [Hj _ _ _ _ <- _ _ _]. rewrite zlen_app. pose proof (zlen_nonneg pending).
  enough (zlen blocks ≤ zlen (concat (example_ids <$> blocks))) by lia.
  pose proof (co_blocks _ _ _ (proj1 Hj)) as Hb. clear Hj.
  induction Hb as [|x blocks Hx Hb IH]; [done|].
  rewrite fmap_cons. cbn [concat]. rewrite zlen_cons, zlen_app.
  pose proof (zlen_pos _ (bo_nonempty _ _ _ Hx)). lia.
Qed.
Lemma zlen_matched (k : string → bool) ids : zlen (matched k ids) ≤ zlen ids.
Proof. unfold zlen, matched. pose proof (length_filter (λ id, k id = true) ids). lia. Qed.

Lemma settings_inv (j j' : J) : settings j' = settings j →
  jn_options j' = jn_options j ∧ jn_partition_id j' = jn_partition_id j ∧
  jn_dir j' = jn_dir j ∧ jn_source j' = jn_source j ∧ jn_items j' = jn_items j.
Proof. unfold settings. by intros [= -> -> -> -> -> _]. Qed.

(** The batches taken after a turn. *)
Definition taken_after (taken q : list LiteExampleIds) : list LiteExampleIds :=
  match q with [] => taken | l :: _ => taken ++ [l] end.

Lemma taken_after_prefix taken q : taken_after taken q `prefix_of` taken ++ q.
Proof.
  unfold taken_after. destruct q as [|l q]; [by rewrite app_nil_r|].
  exists q. by rewrite <- (assoc_L (++)).
Qed.
Lemma zlen_batches_prefix a b : a `prefix_of` b → zlen (batches_ids a) ≤ zlen (batches_ids b).
Proof.
  intros [r ->]. unfold batches_ids. rewrite bind_app, zlen_app.
  pose proof (zlen_nonneg (r ≫= le_example_id)). lia.
Qed.

Lemma taken_after_ids taken (j : J) :
  batches_ids (taken_after taken (jn_queue j)) = batches_ids taken ++ turn_ids j.
Proof.
  unfold taken_after, turn_ids. destruct (jn_queue j); [by rewrite app_nil_r|].
  unfold batches_ids. rewrite bind_app. simpl. by rewrite app_nil_r.
Qed.
Lemma turn_last_taken taken (j : J) :
  jn_last j = last taken → turn_last j = last (taken_after taken (jn_queue j)).
Proof. unfold turn_last, taken_after. destruct (jn_queue j); [done|]. by rewrite last_snoc. Qed.

(** A finished batch leaves nothing pending, and neither does a later cut. *)
Lemma turn_spec_done (j : J) taken pending b bs p :
  jn_last j = last taken → (is_finished (last taken) = true → pending = []) →
  (bs, p) = flush b (turn_spec j pending) →
  is_finished (last (taken_after taken (jn_queue j))) = true → p = [].
Proof.
  intros Hl Hd Hb Hf. rewrite <- (turn_last_taken taken j Hl) in Hf. unfold turn_last in Hf.
  assert ((turn_spec j pending).2 = []) as E.
  { unfold turn_spec. destruct (jn_queue j) as [|l q]; [by apply Hd; rewrite <- Hl|].
    simpl in Hf. rewrite Hf. unfold batch_spec. by destruct (cuts _ _ _) as [? [|]]. }
  unfold flush in Hb. rewrite E, bool_decide_true, andb_false_r in Hb by done.
  destruct (turn_spec j pending). simpl in *. congruence.
Qed.

Lemma turn_inv j taken blocks pending :
  join_inv j taken blocks pending → jn_finished j = false →
  zlen (batches_ids (taken_after taken (jn_queue j))) + 1 < 2 ^ 53 →
  ∃ new pending' j', joiner_turn j = (Ret true, j') ∧
    join_inv j' (taken_after taken (jn_queue j)) (blocks ++ new) pending' ∧
    jn_queue j' = tail (jn_queue j) ∧
    (jn_queue j = [] → pending = [] → new = []).
Proof.
  intros Hinv Hf Hb. pose proof (join_inv_count _ _ _ _ Hinv) as Hcount.
  pose proof Hinv as [I1 I2 I3 I4 I5 I6 I7 I8 I9].
  destruct (settings_inv _ _ I2) as (Eo & Ep & Ed & Es & Ei).
  rewrite taken_after_ids, zlen_app in Hb. pose proof (zlen_matched kn (batches_ids taken)).
  destruct (joiner_turn_run post_ok j [] blocks pending I1)
    as (b & new & pending' & j' & Hr & Hspan & Hnew & [T1 T2 T3 T4 T5 T6 T7 T8]);
    [simpl; lia|done|done|].
  exists new, pending', j'. split_and!; [done| |done|].
  2:{ intros Hq ->. unfold turn_spec in Hnew. rewrite Hq in Hnew.
      unfold flush in Hnew. rewrite bool_decide_true, andb_false_r in Hnew by done.
      injection Hnew as Hn _. by apply fmap_nil_inv in Hn. }
  split; try done.
  - congruence.
  - pose proof (joiner_turn_stale j) as Hs. by rewrite Hr, I3 in Hs.
  - by rewrite T4, (turn_last_taken taken).
  - rewrite fmap_app, concat_app, <- (assoc_L (++)), (turn_concat _ _ _ _ _ Hnew), (assoc_L (++)).
    by rewrite I6, taken_after_ids, matched_app, Ei.
  - intros Hfin. by eapply turn_spec_done.
  - rewrite T6, Hf, (turn_last_taken taken) by done. simpl.
    intros [Hfin _]%andb_true_iff. done.
  - intros Hs. rewrite (Hspan ltac:(by rewrite Eo)) in Hnew. unfold flush in Hnew. simpl in Hnew.
    specialize (I9 Hs). unfold turn_spec in Hnew. unfold taken_after.
    destruct (jn_queue j) as [|l q].
    + injection Hnew as Hn ->. apply fmap_nil_inv in Hn as ->. by rewrite app_nil_r.
    + rewrite queue_spec_snoc, <- I9, fmap_app. simpl. rewrite <- Eo, <- Ei, <- Hnew. done.
Qed.

Lemma join_step_run pc j taken blocks pending :
  join_inv j taken blocks pending → well_marked all → taken ++ jn_queue j `prefix_of` all →
  zlen (batches_ids all) + 1 < 2 ^ 53 →
  ∃ pc' j' taken' new pending', join_step pc j = (Ret pc', j') ∧
    join_inv j' taken' (blocks ++ new) pending' ∧
    taken' ++ jn_queue j' = taken ++ jn_queue j ∧
    (jn_queue j = [] → jn_queue j' = []) ∧
    (jn_queue j = [] → pending = [] → new = []) ∧
    (join_left pc' (jn_queue j') = 0 ∨
     join_left pc' (jn_queue j') < join_left pc (jn_queue j))%nat.
Proof.
  intros Hinv Hmark Hpre Hb. destruct pc; cbn [join_step].
  - exists JoinLoop, j, taken, [], pending. rewrite app_nil_r. split_and!; try done.
    + unfold data_join_switch. rewrite !run_bind. cbn [getM]. rewrite run_ret.
      by rewrite (ji_stale _ _ _ _ Hinv).
    + destruct (jn_queue j); [by left|right; simpl; lia].
  - destruct (jn_finished j) eqn:Hf.
    + destruct (marked_end all taken (jn_queue j) Hmark Hpre) as [-> Hq].
      { by eapply ji_finished. }
      exists JoinIdle, j, all, [], pending. rewrite app_nil_r, Hq. split_and!; try done; [|by left].
      rewrite run_bind. unfold joiner_turn, is_data_joiner_finished. rewrite run_bind.
      cbn [gets]. by rewrite Hf.
    + destruct (turn_inv j taken blocks pending Hinv Hf)
        as (new & pending' & j' & Hr & Hinv' & Hq & Hnew).
      { pose proof (zlen_batches_prefix (taken_after taken (jn_queue j)) all) as Hz.
        enough (taken_after taken (jn_queue j) `prefix_of` all) by (specialize (Hz ltac:(done)); lia).
        etrans; [|exact Hpre]. apply taken_after_prefix. }
      exists JoinLoop, j', (taken_after taken (jn_queue j)), new, pending'.
      rewrite run_bind, Hr, Hq. split_and!; try done.
      * unfold taken_after. destruct (jn_queue j); [done|]. by rewrite <- (assoc_L (++)).
      * by intros ->.
      * unfold taken_after. destruct (jn_queue j) as [|l [|l' q]]; [by left|by left|right].
        simpl. lia.
Qed.
End join.

(** ** The sender of the metas *)
Section metas.
Context {F G : Type} `{GFileLaws F} `{GFileLaws G} `{UtilsLaws} `{TFExample} `{Clock}.
Local Abbreviation S := (block_producer F (data_join (data_block_consumer G))).
Context (j0 : joiner F) (v0 : saver G).

(** A read of the store changes its buffer alone. *)
Lemma join_inv_manager j taken blocks pending m :
  join_inv j0 j taken blocks pending →
  rep m (w_fs (jn_world j)) blocks → same_names (w_mgr (jn_world j)) m →
  join_inv j0 (joiner_with m j) taken blocks pending.
Proof.
  intros [[[C1 C2 C3 C4 C5 C6 C7 C8 C9] Hm] I2 I3 I4 I5 I6 I7 I8 I9] Hrep (N1 & N2 & N3).
  split; try done. split.
  - split; simpl; try done; try congruence.
    eapply Forall_impl; [exact C9|]. intros x [B1 B2 B3 B4 B5]. by split.
  - simpl. destruct (jn_maker j) as [mk|]; [|done]. destruct Hm as [Hp [O1 O2 O3 O4 O5 O6 O7 O8]].
    split; [done|]. split; try done. destruct O2 as [M1 M2 M3 M4 M5 M6].
    split; simpl; try done; congruence.
Qed.

(** The leader has saved the blocks [saved] and been sent the metas [buffer]. *)
Record lead_inv (v : saver G) (saved buffer : list DataBlockMeta) : Prop := mkLeadInv {
  li_rep : srep v (with_id v0 <$> saved);
  li_buffer : sv_buffer v = buffer;
  li_finish : sv_finish v = false;
  li_pid : sv_partition_id v = sv_partition_id v0;
  li_dir : sv_dir v = sv_dir v0;
  li_source : sv_source v = sv_source v0;
  li_items : sv_items v = sv_items v0;
  li_files x : x ∈ saved → gf_files (w_fs (sv_world v)) !! block_file v0 (with_id v0 x)
                           = Some (record_of (sv_items v0) <$> example_ids x);
}.

Lemma lead_inv_next v saved buffer :
  lead_inv v saved buffer → sv_next v = zlen saved + zlen buffer.
Proof.
  intros [Hr Hb _ _ _ _ _ _]. rewrite (sp_next _ _ Hr), Hb. unfold zlen. by rewrite length_fmap.
Qed.

(** The follower's sender, which has still to send [unsent]. *)
Record meta_inv (s : S) (pc : meta_pc) (v : saver G) (saved buffer unsent : list DataBlockMeta)
    : Prop := mkMetaInv {
  mi_producing : producing s (saved ++ buffer ++ unsent);
  mi_leading : leading (bp_peer s) v (with_id v0 <$> saved);
  mi_lead : lead_inv v saved buffer;
  mi_finished : dw_finished (bp_wrap s) = false;
  mi_next : pc = MetaLoop → dw_next (bp_wrap s) = sv_next v;
}.

Definition meta_left (pc : meta_pc) (unsent : list DataBlockMeta) : nat :=
  match unsent with
  | [] => 0
  | _ => 2 * length unsent + match pc with MetaIdle => 1 | MetaLoop => 0 end
  end.

(** What a step of the sender does: it sends the first metas of [unsent], one
    at most, and leaves the joiner as it is but for the buffer of its store. *)
Definition meta_moves (pc : meta_pc) (s : S) (v : saver G) saved buffer unsent : Prop :=
  ∃ pc' s' v' sent unsent', meta_step pc s = (Ret pc', s') ∧ unsent = sent ++ unsent' ∧
    meta_inv s' pc' v' saved (buffer ++ sent) unsent' ∧
    (∀ taken pending,
       join_inv j0 (dw_joiner (bp_wrap s)) taken (saved ++ buffer ++ unsent) pending →
       join_inv j0 (dw_joiner (bp_wrap s')) taken (saved ++ buffer ++ unsent) pending) ∧
    (meta_left pc' unsent' = 0 ∨ meta_left pc' unsent' < meta_left pc unsent)%nat.

Lemma meta_idle_moves s v saved buffer unsent :
  zlen (saved ++ buffer ++ unsent) ≤ 1024 →
  meta_inv s MetaIdle v saved buffer unsent → meta_moves MetaIdle s v saved buffer unsent.
Proof.
  intros Hc [M1 M2 M3 M4 M5]. pose proof (lead_inv_next _ _ _ M3) as Hn.
  rewrite !zlen_app in Hc. pose proof (zlen_nonneg saved). pose proof (zlen_nonneg buffer).
  pose proof (zlen_nonneg unsent).
  exists MetaLoop, (bp_set_wrap (dw_set_status (sv_next v) false (bp_wrap s)) s), v, [], unsent.
  rewrite app_nil_r. split_and!; [|done| |done|destruct unsent; [by left|right; simpl; lia]].
  - unfold meta_step. rewrite run_bind. cbn [gets]. rewrite M4, run_bind.
    rewrite (sender_status_run s _ v _ M1 M2).
    + cbn [fst snd]. by rewrite (li_finish _ _ _ M3).
    + unfold in_int64. rewrite andb_true_iff, Z.leb_le, Z.ltb_lt. lia.
  - split; try done. by destruct M1.
Qed.

Lemma meta_loop_moves s v saved buffer unsent :
  zlen (saved ++ buffer ++ unsent) ≤ 1024 →
  meta_inv s MetaLoop v saved buffer unsent → meta_moves MetaLoop s v saved buffer unsent.
Proof.
  intros Hc [M1 M2 M3 M4 M5]. specialize (M5 eq_refl). pose proof (lead_inv_next _ _ _ M3) as Hn.
  unfold meta_moves. unfold meta_step. rewrite run_bind. cbn [gets]. rewrite M4, run_bind.
  destruct unsent as [|x unsent].
  - rewrite (no_more_meta_run s _ M1) by (rewrite M5, Hn, !zlen_app, zlen_nil; lia).
    cbn [snd]. unfold meta_finish. rewrite !run_bind. cbn [gets]. rewrite M4, !run_ret.
    exists MetaIdle, s, v, [], []. rewrite !app_nil_r in *. split_and!; [done|done| |done|by left].
    split; rewrite ?app_nil_r; done.
  - assert ((saved ++ buffer ++ x :: unsent) !! Z.to_nat (dw_next (bp_wrap s)) = Some x) as Hx.
    { rewrite M5, Hn, (assoc_L (++)). unfold zlen.
      rewrite Z2Nat.inj_add, !Nat2Z.id, <- length_app by lia. apply list_lookup_middle. done. }
    assert (data_block_index x = sv_next v) as Hxi.
    { rewrite (rep_index _ _ _ (pd_rep _ _ M1) _ _ Hx), M5. pose proof (zlen_nonneg saved).
      pose proof (zlen_nonneg buffer). lia. }
    destruct (next_meta_run s _ x M1) as (m & Hrun & Hp1 & Hsame); [|done|done|].
    { rewrite M5, Hn. pose proof (zlen_nonneg saved). pose proof (zlen_nonneg buffer). lia. }
    rewrite Hrun. cbn [snd]. set (s1 := bp_set_wrap _ s) in *.
    destruct (send_meta_run s1 _ v _ x Hp1 M2 (li_finish _ _ _ M3) Hxi)
      as (d' & Hsend & Hl2 & Hp2).
    { by eapply list_elem_of_lookup_2. }
    rewrite run_bind, Hsend, run_bind. cbn [gets]. rewrite run_bind. unfold set_status, modify.
    cbv beta iota. eexists MetaLoop, _, (v_with v [x]), [x], unsent.
    split_and!; [reflexivity|done| | |].
    + split; try done.
      * rewrite <- !(assoc_L (++)). by destruct Hp2.
      * destruct M3 as [L1 L2 L3 L4 L5 L6 L7 L8]. split; try done; [apply Hl2|]. simpl. by rewrite L2.
      * intros _. simpl. by rewrite M5.
    + intros taken pending Hj. apply join_inv_manager; [done|apply Hp1|done].
    + destruct unsent; [by left|right; simpl; lia].
Qed.

Lemma meta_step_run pc s v saved buffer unsent :
  zlen (saved ++ buffer ++ unsent) ≤ 1024 →
  meta_inv s pc v saved buffer unsent → meta_moves pc s v saved buffer unsent.
Proof. destruct pc; [apply meta_idle_moves|apply meta_loop_moves]. Qed.
End metas.

(** ** The saver *)
Section save.
Context {G : Type} `{GFileLaws G} `{UtilsLaws}.
Context (post_ok : ∀ u l, http_post u l = Ret tt).
Context (v0 : saver G).

Definition save_left (pc : save_pc) (buffer : list DataBlockMeta) : nat :=
  match buffer with
  | [] => 0
  | _ => 2 * length buffer + match pc with SaveIdle => 1 | SaveLoop => 0 end
  end.

Lemma with_id_source (v : saver G) x : sv_source v = sv_source v0 → with_id v x = with_id v0 x.
Proof. unfold with_id. by intros ->. Qed.
Lemma block_file_settings (v : saver G) x :
  sv_dir v = sv_dir v0 → sv_source v = sv_source v0 → sv_partition_id v = sv_partition_id v0 →
  block_file v x = block_file v0 x.
Proof. unfold block_file. by intros -> -> ->. Qed.

(** Saving the head of the buffer. *)
Lemma lead_save v saved x buffer :
  lead_inv v0 v saved (x :: buffer) → savable (sv_items v0) x → zlen saved < 2 ^ 53 →
  ∃ v', save_next v = (Ret tt, v') ∧ lead_inv v0 v' (saved ++ [x]) buffer ∧
        sv_settings v' = sv_settings v.
Proof.
  intros [L1 L2 L3 L4 L5 L6 L7 L8] Hs Hz.
  assert (zlen (with_id v0 <$> saved) = zlen saved) as Hl by (unfold zlen; by rewrite length_fmap).
  destruct (save_head_run post_ok v _ x buffer L1 L2) as (v' & Hr & Hrep & Hb & Hset & Hf & Hold);
    [by rewrite L7|by rewrite Hl|].
  pose proof Hset as Hset'. unfold sv_settings in Hset'. injection Hset' as E1 E2 E3 E4 E5 E6 E7.
  exists v'. split_and!; [|split|done]; try congruence.
  - unfold save_next, get_next_data_block_meta_from_buffer. rewrite run_bind. cbn [gets].
    by rewrite L2.
  - rewrite fmap_app. cbn. by rewrite <- (with_id_source v).
  - intros y [Hy|Hy]%elem_of_app.
    + rewrite <- (block_file_settings v) by done. rewrite Hold.
      { rewrite block_file_settings by done. by apply L8. }
      pose proof (sp_buffer _ _ L1 0%nat x) as Hx. rewrite L2 in Hx. destruct (Hx eq_refl) as [-> _].
      apply list_elem_of_lookup in Hy as [i Hi].
      assert ((with_id v0 <$> saved) !! i = Some (with_id v0 y)) as Hi'
        by (by rewrite list_lookup_fmap, Hi).
      rewrite (rep_index _ _ _ (sp_rep _ _ L1) _ _ Hi'), Hl.
      apply lookup_lt_Some in Hi. unfold zlen. lia.
    + apply list_elem_of_singleton in Hy as ->.
      rewrite <- (block_file_settings v), <- (with_id_source v), Hf by done. by rewrite L7.
Qed.

Lemma lead_enter v saved buffer :
  lead_inv v0 v saved buffer →
  save_enter v = (Ret tt, sv_set_switch true v) ∧ lead_inv v0 (sv_set_switch true v) saved buffer.
Proof.
  intros [L1 L2 L3 L4 L5 L6 L7 L8]. split.
  - unfold save_enter. rewrite run_bind.
    assert (sv_set_buffer (sv_next v) (sv_buffer v) v = v) as Hv by (by destruct v).
    rewrite (notify_run v (with_id v0 <$> saved) [] (sv_buffer v)); [|by rewrite Hv|done|done].
    rewrite Hv. by destruct (sv_switch v).
  - split; try done. by apply srep_switch.
Qed.

Lemma save_step_run pc (c : data_block_consumer G) v saved buffer :
  dc_wrap c = Some v → lead_inv v0 v saved buffer → Forall (savable (sv_items v0)) buffer →
  zlen saved + zlen buffer ≤ 1024 →
  ∃ pc' c' v' new buffer', save_step pc c = (Ret pc', c') ∧ dc_wrap c' = Some v' ∧
    buffer = new ++ buffer' ∧ lead_inv v0 v' (saved ++ new) buffer' ∧ sv_next v' = sv_next v ∧
    (save_left pc' buffer' = 0 ∨ save_left pc' buffer' < save_left pc buffer)%nat.
Proof.
  intros Hc Hl Hs Hz. pose proof (li_buffer _ _ _ _ Hl) as Hb. destruct pc; cbn [save_step].
  - rewrite run_bind. unfold dc_processor_factor. rewrite run_bind. cbn [gets].
    rewrite Hc, run_ret, Hb. destruct buffer as [|x buffer].
    + exists SaveIdle, c, v, [], []. rewrite (app_nil_r saved). split_and!; try done. by left.
    + destruct (lead_enter _ _ _ Hl) as [He Hl'].
      assert ((0 <? zlen (x :: buffer)) = true) as ->.
      { apply Z.ltb_lt, zlen_pos. done. }
      rewrite run_bind, (in_wrap_Some _ _ _ Hc), He.
      eexists SaveLoop, _, _, [], (x :: buffer). rewrite (app_nil_r saved).
      split_and!; [reflexivity|reflexivity|done|done|done|right; simpl; lia].
  - rewrite (in_wrap_Some _ _ _ Hc). unfold save_turn. rewrite run_bind.
    unfold is_need_save. cbn [gets]. rewrite Hb. destruct buffer as [|x buffer].
    + eexists SaveIdle, _, _, [], []. rewrite (app_nil_r saved).
      split_and!; [reflexivity|reflexivity|done| |done|by left].
      destruct Hl as [L1 L2 L3 L4 L5 L6 L7 L8]. split; try done. by apply srep_switch.
    + assert ((0 <? zlen (x :: buffer)) = true) as ->.
      { apply Z.ltb_lt, zlen_pos. done. }
      inversion Hs as [|? ? Hx Hs']; subst. rewrite zlen_cons in Hz.
      pose proof (zlen_nonneg buffer).
      destruct (lead_save _ _ _ _ Hl Hx) as (v' & Hr & Hl' & Hset); [lia|].
      rewrite run_bind, Hr. eexists SaveLoop, _, v', [x], buffer.
      split_and!; [reflexivity|reflexivity|done|done| |].
      * unfold sv_settings in Hset. congruence.
      * destruct buffer; [by left|right; simpl; lia].
Qed.
End save.

(** ** The whole *)
Section whole.
Context {F G : Type} `{GFileLaws F} `{GFileLaws G} `{UtilsLaws} `{TFExample} `{Clock}.
Context (post_ok : ∀ u l, http_post u l = Ret tt).
Context (items : list (pyid * string)) (pid : Z) (j0 : joiner F) (v0 : saver G).
Local Abbreviation N := (net F G).
Local Abbreviation all := (round_batches pid items).
Local Abbreviation thr := (dump_data_block_threshold (jn_options j0)).
Local Abbreviation kn := (known (jn_items j0)).
Local Abbreviation span := (dump_data_block_time_span (jn_options j0)).

(** A bound on the number of the blocks. *)
Definition max_blocks : Z :=
  if span <=? 0 then zlen (queue_spec thr kn [] all).1
  else zlen (common_ids items (jn_items j0)).

(** What the join needs: ids that can be sent, fewer blocks than the buffer of
    the follower's store holds, the same items in the leader's two places. *)
Record join_bounds : Prop := mkBounds {
  jb_sendable : sendable items;
  jb_size : zlen items + 2 * zlen all < 2 ^ 53;
  jb_blocks : max_blocks ≤ 1024;
  jb_items : sv_items v0 = items;
  jb_jpid : jn_partition_id j0 = sv_partition_id v0;
}.
Context (bounds : join_bounds).

Record ghost := mkGhost {
  gh_taken : list LiteExampleIds;
  gh_pending : list string;
  gh_saver : saver G;
  gh_saved : list DataBlockMeta;
  gh_buffer : list DataBlockMeta;
  gh_unsent : list DataBlockMeta;
}.
Definition gh_blocks (x : ghost) : list DataBlockMeta := gh_saved x ++ gh_buffer x ++ gh_unsent x.
Local Abbreviation queue n := (queue_of (nt_ids n)).

Record net_inv (x : ghost) (n : N) : Prop := mkNetInv {
  ni_base : id_base items pid (nt_ids n) (gh_taken x ++ queue n) (queue n);
  ni_phase : id_phase items pid (nt_ids n) (queue n) (nt_id_pc n) (gh_taken x ++ queue n);
  ni_join : join_inv j0 (dw_joiner (bp_wrap (nt_metas n))) (gh_taken x) (gh_blocks x)
              (gh_pending x);
  ni_meta : meta_inv v0 (nt_metas n) (nt_meta_pc n) (gh_saver x) (gh_saved x) (gh_buffer x)
              (gh_unsent x);
}.

Lemma all_marked : well_marked all.
Proof. destruct (round_batches_marks pid items) as (q & l & ? & ? & ?). by exists q, l. Qed.

Lemma all_ids : matched kn (batches_ids all) = common_ids items (jn_items j0).
Proof. unfold common_ids. f_equal. apply round_batches_ids. Qed.
Lemma all_size : zlen (batches_ids all) + 1 < 2 ^ 53.
Proof.
  assert (zlen (batches_ids all) = zlen items) as ->.
  { unfold batches_ids. rewrite round_batches_ids. unfold zlen. by rewrite length_fmap. }
  pose proof (jb_size bounds). destruct all_marked as (q & l & E & _).
  assert (0 < zlen all); [|lia]. apply zlen_pos. rewrite E. by destruct q.
Qed.

Lemma net_prefix x n : net_inv x n → gh_taken x ++ queue n `prefix_of` all.
Proof. intros Hn. eapply id_phase_sent. exact (ni_phase _ _ Hn). Qed.

(** There are never more blocks than the bound. *)
Lemma net_max x n : net_inv x n → zlen (gh_blocks x) ≤ max_blocks.
Proof.
  intros Hn. pose proof (ni_join _ _ Hn) as Hj.
  destruct (net_prefix _ _ Hn) as [rest Hp]. rewrite <- (assoc_L (++)) in Hp.
  unfold max_blocks. destruct (Z.leb_spec span 0) as [Hs|Hs].
  - pose proof (ji_spec _ _ _ _ _ Hj Hs) as Hq.
    assert (zlen (gh_blocks x) = zlen (queue_spec thr kn [] (gh_taken x)).1) as ->.
    { rewrite <- Hq. unfold zlen. simpl. by rewrite length_fmap. }
    rewrite Hp. clear. generalize (queue n ++ rest) as r. intros r.
    induction r as [|l r IH] using rev_ind; [by rewrite app_nil_r|].
    rewrite (assoc_L (++)), queue_spec_snoc. simpl. rewrite zlen_app.
    pose proof (zlen_nonneg (batch_spec thr kn (queue_spec thr kn [] (gh_taken x ++ r)).2
                               (le_example_id l) (le_finished l)).1). lia.
  - etrans; [exact (join_inv_count _ _ _ _ _ Hj)|]. rewrite <- all_ids, Hp. unfold batches_ids.
    rewrite (bind_app _ (gh_taken x)), matched_app, zlen_app.
    pose proof (zlen_nonneg (matched kn ((queue n ++ rest) ≫= le_example_id))). lia.
Qed.
Lemma net_count x n : net_inv x n → zlen (gh_blocks x) ≤ 1024.
Proof. intros Hn. etrans; [by eapply net_max|apply bounds]. Qed.

(** What a step of the thread [t] does to the four measures. *)
Record moved (t : thread) (x : ghost) (n : N) (x' : ghost) (n' : N) : Prop := mkMoved {
  mv_ids : lowers (t = LeaderIds) (id_left (nt_id_pc n) (nt_ids n))
             (id_left (nt_id_pc n') (nt_ids n'));
  mv_join : id_left (nt_id_pc n) (nt_ids n) = 0%nat →
    lowers (t = FollowerJoin) (join_left (nt_join_pc n) (queue n))
      (join_left (nt_join_pc n') (queue n'));
  mv_queue : id_left (nt_id_pc n) (nt_ids n) = 0%nat → queue n = [] → queue n' = [];
  mv_meta : id_left (nt_id_pc n) (nt_ids n) = 0%nat → queue n = [] →
    lowers (t = FollowerMetas) (meta_left (nt_meta_pc n) (gh_unsent x))
      (meta_left (nt_meta_pc n') (gh_unsent x'));
  mv_unsent : id_left (nt_id_pc n) (nt_ids n) = 0%nat → queue n = [] → gh_unsent x = [] →
    gh_unsent x' = [];
  mv_save : id_left (nt_id_pc n) (nt_ids n) = 0%nat → queue n = [] → gh_unsent x = [] →
    lowers (t = LeaderSave) (save_left (nt_save_pc n) (gh_buffer x))
      (save_left (nt_save_pc n') (gh_buffer x'));
}.

Lemma net_over x n :
  net_inv x n → id_left (nt_id_pc n) (nt_ids n) = 0%nat → gh_taken x ++ queue n = all.
Proof. intros Hn. eapply id_phase_over. exact (ni_phase _ _ Hn). Qed.

(** All batches taken: nothing is pending. *)
Lemma net_drained x n :
  net_inv x n → id_left (nt_id_pc n) (nt_ids n) = 0%nat → queue n = [] →
  gh_taken x = all ∧ gh_pending x = [].
Proof.
  intros Hn Hz Hq. pose proof (net_over _ _ Hn Hz) as Ht. rewrite Hq, app_nil_r in Ht.
  split; [done|]. apply (ji_done _ _ _ _ _ (ni_join _ _ Hn)). rewrite Ht.
  destruct all_marked as (q & l & -> & _ & Hl). by rewrite last_snoc.
Qed.

Lemma ids_moves x n :
  net_inv x n → ∃ n', thread_step LeaderIds n = (Ret tt, n') ∧ net_inv x n' ∧
    moved LeaderIds x n x n'.
Proof.
  intros Hn. pose proof Hn as [N1 N2 N3 N4].
  destruct (id_step_run items pid (nt_id_pc n) (nt_ids n) _ _ (jb_size bounds)
              (jb_sendable bounds) N1 N2) as (pc' & s' & new & Hr & Hb & Hph & Hlow).
  pose proof (ib_queue _ _ _ _ _ Hb) as Hq. rewrite <- (assoc_L (++)) in Hb, Hph.
  exists (nt_set_id_pc pc' (nt_set_ids s' n)). split_and!.
  - unfold thread_step. rewrite run_bind. cbn [gets]. rewrite run_bind. unfold zoom. by rewrite Hr.
  - split; simpl; rewrite ?Hq; done.
  - assert (id_left (nt_id_pc n) (nt_ids n) = 0%nat → new = []) as Hnew.
    { intros Hz. pose proof (id_phase_over _ _ _ _ _ _ N2 Hz) as E.
      apply id_phase_sent in Hph. rewrite (assoc_L (++)), E in Hph. destruct Hph as [r Hp].
      rewrite <- (assoc_L (++)) in Hp. rewrite <- (app_nil_r all) in Hp at 1.
      apply app_inv_head in Hp. symmetry in Hp. by apply app_nil in Hp as [-> _]. }
    split; simpl; rewrite ?Hq; try done.
    + by apply lowers_to.
    + intros Hz. rewrite (Hnew Hz), app_nil_r. by apply lowers_refl.
    + intros Hz ->. by rewrite (Hnew Hz).
Qed.

(** The follower's queue after a step of the joiner. *)
Lemma set_queue_base s sent q q' :
  id_base items pid s sent q → id_base items pid (set_queue q' s) sent q'.
Proof. intros [B1 B2 B3 B4 B5]. by split. Qed.
Lemma set_queue_phase s q q' pc sent :
  id_phase items pid s q pc sent → id_phase items pid (set_queue q' s) q' pc sent.
Proof.
  assert (∀ fin, following (ip_peer s) q fin → following (ip_peer (set_queue q' s)) q' fin) as Hf
    by (intros fin []; by split).
  destruct 1; econstructor; eauto.
Qed.

(** The store of the joiner is the one the sender of the metas reads. *)
Lemma producing_blocks s log v saved j' new taken pending :
  producing s log → leading (bp_peer s) v saved →
  settings (dw_joiner (bp_wrap s)) = settings j0 →
  join_inv j0 j' taken (log ++ new) pending →
  producing (bp_set_wrap (dw_set_joiner j' (bp_wrap s)) s) (log ++ new).
Proof.
  intros [P1 P2 P3 P4 P5] [L1 L2 L3 L4] Hs Hj.
  destruct (settings_inv j0 _ Hs) as (_ & E1 & _).
  destruct (settings_inv j0 _ (ji_settings _ _ _ _ _ Hj)) as (_ & E2 & _).
  pose proof (proj1 (ji_rep _ _ _ _ _ Hj)) as [C1 C2 C3 C4 C5 C6 C7 C8 C9].
  split; simpl; try done; try congruence.
  rewrite Forall_forall in C9. intros y Hy. rewrite (bo_pid _ _ _ (C9 y Hy)). congruence.
Qed.

Lemma join_moves x n :
  net_inv x n → ∃ x' n', thread_step FollowerJoin n = (Ret tt, n') ∧ net_inv x' n' ∧
    moved FollowerJoin x n x' n'.
Proof.
  intros Hn. pose proof Hn as [N1 N2 N3 N4].
  assert (join_inv j0 (the_joiner n) (gh_taken x) (gh_blocks x) (gh_pending x)) as Hj.
  { destruct N3. split; try done. by eapply jrep_settings; [..|exact ji_rep0]. }
  destruct (join_step_run post_ok j0 all (nt_join_pc n) (the_joiner n) _ _ _ Hj all_marked
              (net_prefix _ _ Hn) all_size)
    as (pc' & j' & taken' & new & pending' & Hr & Hj' & Hq & Hq0 & Hnew & Hlow).
  change (jn_queue (the_joiner n)) with (queue n) in *.
  exists (mkGhost taken' pending' (gh_saver x) (gh_saved x) (gh_buffer x) (gh_unsent x ++ new)),
    (nt_set_join_pc pc' (set_joiner j' n)). split_and!.
  - unfold thread_step. rewrite run_bind. cbn [gets]. rewrite run_bind. unfold zoom. by rewrite Hr.
  - assert ((gh_saved x ++ gh_buffer x ++ gh_unsent x) ++ new
            = gh_saved x ++ gh_buffer x ++ gh_unsent x ++ new) as Hblk
      by (by rewrite <- !(assoc_L (++))).
    unfold gh_blocks in Hj'. split; simpl.
    + change (queue_of (set_queue _ _)) with (jn_queue j'). rewrite Hq. by eapply set_queue_base.
    + change (queue_of (set_queue _ _)) with (jn_queue j'). rewrite Hq. by eapply set_queue_phase.
    + unfold gh_blocks. simpl. by rewrite <- Hblk.
    + destruct N4 as [M1 M2 M3 M4 M5]. split; try done. rewrite <- Hblk.
      eapply producing_blocks; try done. apply N3.
  - split; simpl; change (queue_of (set_queue _ _)) with (jn_queue j').
    + by apply lowers_refl.
    + intros _. by apply lowers_to.
    + intros _. apply Hq0.
    + intros Hz Hqz. destruct (net_drained _ _ Hn Hz Hqz) as [_ Hp].
      rewrite (Hnew Hqz Hp), app_nil_r. by apply lowers_refl.
    + intros Hz Hqz ->. destruct (net_drained _ _ Hn Hz Hqz) as [_ Hp]. by rewrite (Hnew Hqz Hp).
    + intros _ _ _. by apply lowers_refl.
Qed.

Lemma metas_moves x n :
  net_inv x n → ∃ x' n', thread_step FollowerMetas n = (Ret tt, n') ∧ net_inv x' n' ∧
    moved FollowerMetas x n x' n'.
Proof.
  intros Hn. pose proof Hn as [N1 N2 N3 N4].
  destruct (meta_step_run j0 v0 (nt_meta_pc n) (nt_metas n) _ _ _ _ (net_count _ _ Hn) N4)
    as (pc' & s' & v' & sent & unsent' & Hr & Hu & Hm & Hj & Hlow).
  exists (mkGhost (gh_taken x) (gh_pending x) v' (gh_saved x) (gh_buffer x ++ sent) unsent'),
    (nt_set_meta_pc pc' (nt_set_metas s' n)).
  assert (gh_saved x ++ (gh_buffer x ++ sent) ++ unsent' = gh_blocks x) as Hblk
    by (unfold gh_blocks; by rewrite Hu, <- !(assoc_L (++))).
  split_and!.
  - unfold thread_step. rewrite run_bind. cbn [gets]. rewrite run_bind. unfold zoom. by rewrite Hr.
  - split; simpl; try done. unfold gh_blocks at 1. simpl. rewrite Hblk. by apply Hj.
  - split; simpl.
    + by apply lowers_refl.
    + intros _. by apply lowers_refl.
    + done.
    + intros _ _. by apply lowers_to.
    + intros _ _ E. rewrite E in Hu. symmetry in Hu. by apply app_nil in Hu as [_ ->].
    + intros _ _ E. rewrite E in Hu. symmetry in Hu. apply app_nil in Hu as [-> _].
      rewrite app_nil_r. by apply lowers_refl.
Qed.

(** The blocks have ids that the leader knows. *)
Lemma blocks_savable x n : net_inv x n → Forall (savable (sv_items v0)) (gh_blocks x).
Proof.
  intros Hn. rewrite (jb_items bounds). apply Forall_forall. intros y Hy.
  pose proof (ni_join _ _ Hn) as Hj.
  pose proof (co_blocks _ _ _ (proj1 (ji_rep _ _ _ _ _ Hj))) as Hb. rewrite Forall_forall in Hb.
  split; [exact (bo_nonempty _ _ _ (Hb y Hy))|]. apply Forall_forall. intros id Hid.
  apply known_leader; [exact (jb_sendable bounds)|].
  apply (matched_elem kn). change (id ∈ common_ids items (jn_items j0)). rewrite <- all_ids.
  destruct (net_prefix _ _ Hn) as [rest Hp]. rewrite Hp, <- (assoc_L (++)). unfold batches_ids.
  rewrite (bind_app _ (gh_taken x)), matched_app. apply elem_of_app. left.
  change (gh_taken x ≫= le_example_id) with (batches_ids (gh_taken x)).
  rewrite <- (ji_ids _ _ _ _ _ Hj). apply elem_of_app. left.
  apply list_elem_of_In, in_concat. exists (example_ids y).
  split; apply list_elem_of_In; [|done]. apply list_elem_of_fmap. by exists y.
Qed.

Lemma save_moves x n :
  net_inv x n → ∃ x' n', thread_step LeaderSave n = (Ret tt, n') ∧ net_inv x' n' ∧
    moved LeaderSave x n x' n'.
Proof.
  intros Hn. pose proof Hn as [N1 N2 N3 [M1 M2 M3 M4 M5]].
  pose proof (blocks_savable _ _ Hn) as Hs. unfold gh_blocks in Hs.
  apply Forall_app in Hs as [_ [Hs _]%Forall_app].
  pose proof (net_count _ _ Hn) as Hc. unfold gh_blocks in Hc. rewrite !zlen_app in Hc.
  pose proof (zlen_nonneg (gh_unsent x)).
  destruct (save_step_run post_ok v0 (nt_save_pc n) (the_consumer n) (gh_saver x) (gh_saved x)
              (gh_buffer x) (ld_wrap _ _ _ M2) M3 Hs)
    as (pc' & c' & v' & new & buffer' & Hr & Hw & Hb & Hl & Hnext & Hlow); [lia|].
  exists (mkGhost (gh_taken x) (gh_pending x) v' (gh_saved x ++ new) buffer' (gh_unsent x)),
    (nt_set_save_pc pc' (set_consumer c' n)).
  assert ((gh_saved x ++ new) ++ buffer' ++ gh_unsent x = gh_blocks x) as Hblk
    by (unfold gh_blocks; by rewrite Hb, <- !(assoc_L (++))).
  split_and!.
  - unfold thread_step. rewrite run_bind. cbn [gets]. rewrite run_bind. unfold zoom. by rewrite Hr.
  - split; simpl; try done.
    + unfold gh_blocks at 1. simpl. by rewrite Hblk.
    + split; simpl; try done.
      * rewrite Hblk. destruct M1. by split.
      * destruct M2 as [L1 L2 L3 L4]. split; try done; [apply Hl|].
        rewrite (li_pid _ _ _ _ Hl), <- (li_pid _ _ _ _ M3). done.
      * intros E. rewrite Hnext. by apply M5.
  - split; simpl; try done. intros _ _ _. by apply lowers_to.
Qed.

Lemma thread_moves t x n :
  net_inv x n → ∃ x' n', thread_step t n = (Ret tt, n') ∧ net_inv x' n' ∧ moved t x n x' n'.
Proof.
  intros Hn. destruct t; [|by apply join_moves|by apply metas_moves|by apply save_moves].
  destruct (ids_moves x n Hn) as (n' & Hr & Hn' & Hm). by exists x, n'.
Qed.

(** *** Phases

    First all ids are sent, then all batches are taken, then all metas are sent,
    then all blocks are saved. *)
Definition ids_left (k : nat) (n : N) : Prop :=
  ∃ x, net_inv x n ∧ id_left (nt_id_pc n) (nt_ids n) = k.
Definition batches_to_take (k : nat) (n : N) : Prop :=
  ∃ x, net_inv x n ∧ id_left (nt_id_pc n) (nt_ids n) = 0%nat ∧
       join_left (nt_join_pc n) (queue n) = k.
Definition metas_to_send (k : nat) (n : N) : Prop :=
  ∃ x, net_inv x n ∧ id_left (nt_id_pc n) (nt_ids n) = 0%nat ∧ queue n = [] ∧
       meta_left (nt_meta_pc n) (gh_unsent x) = k.
Definition blocks_to_save (k : nat) (n : N) : Prop :=
  ∃ x, net_inv x n ∧ id_left (nt_id_pc n) (nt_ids n) = 0%nat ∧ queue n = [] ∧
       gh_unsent x = [] ∧ save_left (nt_save_pc n) (gh_buffer x) = k.

Lemma lowers_zero (P : Prop) k : lowers P 0 k → k = 0%nat.
Proof. intros [Hk _]. lia. Qed.

Lemma ids_phase sched n k :
  ids_left k n → (k ≤ visits LeaderIds sched)%nat →
  ∃ n', run thread_step sched n = (Ret tt, n') ∧ ids_left 0 n'.
Proof.
  apply run_progress. intros t k' m (x & Hn & <-).
  destruct (thread_moves t x m Hn) as (x' & m' & Hr & Hn' & [V1 V2 V3 V4 V5 V6]).
  eexists _, m'. split; [exact Hr|]. split; [by exists x'|done].
Qed.
Lemma batches_phase sched n k :
  batches_to_take k n → (k ≤ visits FollowerJoin sched)%nat →
  ∃ n', run thread_step sched n = (Ret tt, n') ∧ batches_to_take 0 n'.
Proof.
  apply run_progress. intros t k' m (x & Hn & Hz & <-).
  destruct (thread_moves t x m Hn) as (x' & m' & Hr & Hn' & [V1 V2 V3 V4 V5 V6]).
  rewrite Hz in V1. eexists _, m'. split; [exact Hr|].
  split; [exists x'; split_and!; try done; by eapply lowers_zero|by apply V2].
Qed.
Lemma metas_phase sched n k :
  metas_to_send k n → (k ≤ visits FollowerMetas sched)%nat →
  ∃ n', run thread_step sched n = (Ret tt, n') ∧ metas_to_send 0 n'.
Proof.
  apply run_progress. intros t k' m (x & Hn & Hz & Hq & <-).
  destruct (thread_moves t x m Hn) as (x' & m' & Hr & Hn' & [V1 V2 V3 V4 V5 V6]).
  rewrite Hz in V1. eexists _, m'. split; [exact Hr|].
  split; [exists x'; split_and!; try done; [by eapply lowers_zero|by apply V3]|by apply V4].
Qed.
Lemma blocks_phase sched n k :
  blocks_to_save k n → (k ≤ visits LeaderSave sched)%nat →
  ∃ n', run thread_step sched n = (Ret tt, n') ∧ blocks_to_save 0 n'.
Proof.
  apply run_progress. intros t k' m (x & Hn & Hz & Hq & Hu & <-).
  destruct (thread_moves t x m Hn) as (x' & m' & Hr & Hn' & [V1 V2 V3 V4 V5 V6]).
  rewrite Hz in V1. eexists _, m'. split; [exact Hr|].
  split; [|by apply V6].
  exists x'. split_and!; try done; [by eapply lowers_zero|by apply V3|by apply V5].
Qed.

(** *** The start and the end *)

(** The two nodes before the join: nothing sent, taken or stored. *)
Record join_start (n : N) : Prop := mkStart {
  js_idle : (nt_id_pc n, nt_join_pc n, nt_meta_pc n, nt_save_pc n)
            = (IdIdle, JoinIdle, MetaIdle, SaveIdle);
  js_ids : paired (nt_ids n) ∧ following (ip_peer (nt_ids n)) [] false;
  js_pid : dj_partition_id (ip_peer (nt_ids n)) = pid;
  js_items : il_item_dict (ip_init (nt_ids n)) = items;
  js_flags : il_partition_finished (ip_init (nt_ids n)) = false ∧
             il_follower_finished (ip_init (nt_ids n)) = false;
  js_next : ap_next (ec_appender (dj_consumer (ip_peer (nt_ids n)))) = 0;
  js_joiner : dw_joiner (bp_wrap (nt_metas n)) = j0;
  js_rep : jrep j0 [] [] [];
  js_fresh : jn_last j0 = None ∧ jn_maker j0 = None ∧ jn_finished j0 = false ∧ jn_stale j0 = true;
  js_metas : bp_rank_id (nt_metas n) = dj_rank_id (bp_peer (nt_metas n)) ∧
             bp_partition_id (nt_metas n) = dj_partition_id (bp_peer (nt_metas n)) ∧
             dw_finished (bp_wrap (nt_metas n)) = false;
  js_leader : leading (bp_peer (nt_metas n)) v0 [];
  js_saver : sv_buffer v0 = [] ∧ sv_finish v0 = false;
}.

Lemma start_inv n : join_start n → net_inv (mkGhost [] [] v0 [] [] []) n.
Proof.
  intros [E [S1 S2] S3 S4 [S5 S6] S7 S8 S9 (S10 & S11 & S12 & S13) (S14 & S15 & S16) S17 [S18 S19]].
  injection E as E1 E2 E3 E4. pose proof S9 as [S91 _].
  assert (queue n = []) as Hq by apply S2.
  split; simpl; rewrite ?Hq, ?E1, ?E3.
  - split; try done. by rewrite S7.
  - by apply IdFresh.
  - rewrite S8. split; try done; try congruence.
  - split; simpl; try done.
    + split; try done; [|rewrite S8; by apply S91|by intros ? ?%not_elem_of_nil].
      rewrite S8, (jb_jpid bounds). apply S17.
    + split; try done; [apply S17|by intros ? ?%not_elem_of_nil].
Qed.

(** Both sides after a schedule: the follower has stored [blocks], the leader
    the first of them. *)
Record joined (n : N) (v : saver G) (blocks saved : list DataBlockMeta) : Prop := mkJoined {
  jd_leader : dc_wrap (the_consumer n) = Some v;
  jd_follower_log : rep (w_mgr (jn_world (dw_joiner (bp_wrap (nt_metas n)))))
                      (w_fs (jn_world (dw_joiner (bp_wrap (nt_metas n))))) blocks;
  jd_leader_log : rep (w_mgr (sv_world v)) (w_fs (sv_world v)) (with_id v0 <$> saved);
  jd_prefix : saved `prefix_of` blocks;
  jd_ids : concat (example_ids <$> blocks) `prefix_of` common_ids items (jn_items j0);
  jd_follower_files x : x ∈ blocks →
    gf_files (w_fs (jn_world (dw_joiner (bp_wrap (nt_metas n)))))
      !! data_path (jn_dir j0) (jn_source j0) (jn_partition_id j0) x
    = Some (record_of (jn_items j0) <$> example_ids x);
  jd_leader_files x : x ∈ saved →
    gf_files (w_fs (sv_world v)) !! block_file v0 (with_id v0 x)
    = Some (record_of items <$> example_ids x);
}.

Lemma inv_joined x n : net_inv x n → joined n (gh_saver x) (gh_blocks x) (gh_saved x).
Proof.
  intros Hn. pose proof Hn as [N1 N2 N3 [M1 M2 M3 M4 M5]].
  pose proof (ji_rep _ _ _ _ _ N3) as [[C1 C2 C3 C4 C5 C6 C7 C8 C9] _].
  destruct (settings_inv j0 _ (ji_settings _ _ _ _ _ N3)) as (_ & E1 & E2 & E3 & E4).
  split; try done.
  - apply M2.
  - apply M3.
  - by eexists.
  - rewrite <- all_ids. destruct (net_prefix _ _ Hn) as [rest Hp].
    rewrite Hp, <- (assoc_L (++)). unfold batches_ids. rewrite (bind_app _ (gh_taken x)), matched_app.
    apply prefix_app_r. exists (gh_pending x). symmetry. apply (ji_ids _ _ _ _ _ N3).
  - intros y Hy. rewrite Forall_forall in C9. pose proof (bo_data _ _ _ (C9 y Hy)) as Hd.
    by rewrite E1, E2, E3, E4 in Hd.
  - rewrite <- (jb_items bounds). apply M3.
Qed.

Definition rounds_needed : nat :=
  (length items + 5) + (2 * length all + 1)
  + ((2 * Z.to_nat max_blocks + 1) + (2 * Z.to_nat max_blocks + 1)).

Lemma all_phases sched n :
  join_start n → rounds rounds_needed sched →
  ∃ n', run thread_step sched n = (Ret tt, n') ∧ blocks_to_save 0 n'.
Proof.
  intros Hs Hr. apply rounds_split in Hr as (s12 & s34 & -> & Hr12 & Hr34).
  apply rounds_split in Hr12 as (s1 & s2 & -> & Hr1 & Hr2).
  apply rounds_split in Hr34 as (s3 & s4 & -> & Hr3 & Hr4).
  pose proof (start_inv _ Hs) as Hn.
  assert (id_left (nt_id_pc n) (nt_ids n) ≤ length items + 5)%nat as Hk1.
  { pose proof (js_idle _ Hs) as [= -> _ _ _]. unfold id_left.
    rewrite (js_items _ Hs), (proj1 (js_flags _ Hs)), (proj2 (js_flags _ Hs)). done. }
  destruct (ids_phase s1 n _ ltac:(by eexists)
              (Nat.le_trans _ _ _ Hk1 (rounds_visits _ _ LeaderIds Hr1)))
    as (n1 & Hrun1 & x1 & Hn1 & Hz1).
  destruct (batches_phase s2 n1 _ ltac:(by eexists)) as (n2 & Hrun2 & x2 & Hn2 & Hz2 & Hq2).
  { etrans; [|exact (rounds_visits _ _ FollowerJoin Hr2)].
    rewrite <- (net_over _ _ Hn1 Hz1), length_app. unfold join_left.
    destruct (queue n1); [lia|]. destruct (nt_join_pc n1); lia. }
  assert (queue n2 = []) as Hq2' by (destruct (queue n2); [done|simpl in Hq2; lia]).
  pose proof (net_max _ _ Hn2) as Hc2. unfold gh_blocks, zlen in Hc2. rewrite !length_app in Hc2.
  destruct (metas_phase s3 n2 _ ltac:(by eexists)) as (n3 & Hrun3 & x3 & Hn3 & Hz3 & Hq3 & Hu3).
  { etrans; [|exact (rounds_visits _ _ FollowerMetas Hr3)]. unfold meta_left.
    destruct (gh_unsent x2); [lia|]. destruct (nt_meta_pc n2); lia. }
  assert (gh_unsent x3 = []) as Hu3' by (destruct (gh_unsent x3); [done|simpl in Hu3; lia]).
  pose proof (net_max _ _ Hn3) as Hc3. unfold gh_blocks, zlen in Hc3. rewrite !length_app in Hc3.
  destruct (blocks_phase s4 n3 _ ltac:(by eexists)) as (n4 & Hrun4 & Hb4).
  { etrans; [|exact (rounds_visits _ _ LeaderSave Hr4)]. unfold save_left.
    destruct (gh_buffer x3); [lia|]. destruct (nt_save_pc n3); lia. }
  exists n4. split; [|done].
  rewrite <- (assoc_L (++)), (run_app_ret _ _ _ _ _ Hrun1), (run_app_ret _ _ _ _ _ Hrun2).
  by rewrite (run_app_ret _ _ _ _ _ Hrun3).
Qed.

Lemma any_schedule sched n :
  join_start n → ∃ n', run thread_step sched n = (Ret tt, n') ∧ ∃ x, net_inv x n'.
Proof.
  intros Hs. apply (run_keeps thread_step (λ n, ∃ x, net_inv x n)).
  - intros t m [x Hn]. destruct (thread_moves t x m Hn) as (x' & m' & Hr & Hn' & _).
    exists m'. split; [done|by exists x'].
  - eexists. by apply start_inv.
Qed.
End whole.

(** Once every thread has had its turns, all has been sent, joined and saved. *)
Lemma join_drained {F G : Type} `{GFileLaws F} `{GFileLaws G} `{UtilsLaws} `{TFExample} `{Clock}
    (post_ok : ∀ u l, http_post u l = Ret tt) items pid (j0 : joiner F) (v0 : saver G) (n : net F G) sched :
  join_bounds items pid j0 v0 → join_start items pid j0 v0 n →
  rounds (rounds_needed items pid j0) sched →
  ∃ n' x, run thread_step sched n = (Ret tt, n') ∧ net_inv items pid j0 v0 x n' ∧
    gh_taken x = round_batches pid items ∧ gh_buffer x = [] ∧
    joined items j0 v0 n' (gh_saver x) (gh_blocks x) (gh_blocks x) ∧
    concat (example_ids <$> gh_blocks x) = common_ids items (jn_items j0).
Proof.
  intros Hb Hs Hr.
  destruct (all_phases post_ok items pid j0 v0 Hb sched n Hs Hr)
    as (n' & Hrun & x & Hn & Hz & Hq & Hu & Hk).
  destruct (net_drained items pid j0 v0 x n' Hn Hz Hq) as [Ht Hp].
  pose proof (inv_joined items pid j0 v0 Hb x n' Hn) as Hj.
  assert (gh_buffer x = []) as Hbuf by (destruct (gh_buffer x); [done|simpl in Hk; lia]).
  assert (gh_saved x = gh_blocks x) as Hsb by (unfold gh_blocks; by rewrite Hbuf, Hu, !app_nil_r).
  rewrite Hsb in Hj. exists n', x. split_and!; try done.
  pose proof (ji_ids _ _ _ _ _ (ni_join _ _ _ _ _ _ Hn)) as Hids.
  by rewrite Hp, Ht, app_nil_r, all_ids in Hids.
Qed.

(** ** Properties *)
Section properties.
Context {F G : Type} `{GFileLaws F} `{GFileLaws G} `{UtilsLaws} `{TFExample} `{Clock}.
Context (post_ok : ∀ u l, http_post u l = Ret tt).

(** C2.  The data join completes under every interleaving.  Let the four threads
    of the leader and the follower take their steps in any order, and let the
    clock cut blocks as it will: once every thread has had [rounds_needed] turns
    no step has failed, every id of the leader was joined, and both sides hold
    the same blocks, ids in the leader's order, each side with its own records;
    nothing is left to save.  Without a time span the blocks are those that the
    threshold cuts. *)
Theorem interleaved_join_completes items pid (j0 : joiner F) (v0 : saver G) (n : net F G) sched :
  join_bounds items pid j0 v0 → join_start items pid j0 v0 n →
  rounds (rounds_needed items pid j0) sched →
  ∃ n' v blocks, run thread_step sched n = (Ret tt, n') ∧
    joined items j0 v0 n' v blocks blocks ∧
    concat (example_ids <$> blocks) = common_ids items (jn_items j0) ∧
    sv_buffer v = [] ∧
    (dump_data_block_time_span (jn_options j0) ≤ 0 →
     example_ids <$> blocks
     = (queue_spec (dump_data_block_threshold (jn_options j0)) (known (jn_items j0)) []
          (round_batches pid items)).1).
Proof.
  intros Hb Hs Hr. destruct (join_drained post_ok items pid j0 v0 n sched Hb Hs Hr)
    as (n' & x & Hrun & Hn & Ht & Hbuf & Hj & Hids).
  exists n', (gh_saver x), (gh_blocks x). split_and!; [done|done|done| |].
  - rewrite <- Hbuf. apply (ni_meta _ _ _ _ _ _ Hn).
  - intros Hspan. pose proof (ji_spec _ _ _ _ _ (ni_join _ _ _ _ _ _ Hn) Hspan) as Hspec.
    rewrite Ht in Hspec. by rewrite <- Hspec.
Qed.

(** C3.  The two sides agree at every moment.  After any schedule whatever, fair
    or not, no step has failed, the leader has stored the first of the blocks
    that the follower has stored, and these hold the first of the common ids,
    each once and in order, with the right records on either side. *)
Theorem interleaved_join_agrees items pid (j0 : joiner F) (v0 : saver G) (n : net F G) sched :
  join_bounds items pid j0 v0 → join_start items pid j0 v0 n →
  ∃ n' v blocks saved, run thread_step sched n = (Ret tt, n') ∧
    joined items j0 v0 n' v blocks saved.
Proof.
  intros Hb Hs. destruct (any_schedule post_ok items pid j0 v0 Hb sched n Hs) as (n' & Hr & x & Hn).
  exists n', (gh_saver x), (gh_blocks x), (gh_saved x). split; [done|].
  exact (inv_joined items pid j0 v0 Hb x n' Hn).
Qed.
End properties.

Section witnesses.
Import TestUtils TestStore TestRecords TestWorld TestJoiner TestSaver TestProducer.

Definition start_net : net MemFs MemFs :=
  mkNet join_leader
    (mkProducer (leader_server 0) 7 0 (mkWrap MemoryDataJoiner join_follower 0 false))
    IdIdle JoinIdle MetaIdle SaveIdle.
Definition turns : list thread := [LeaderSave; FollowerMetas; FollowerJoin; LeaderIds].

Lemma start_net_bounds : join_bounds TestSaver.items 0 join_follower (saver_of 0 [] false).
Proof.
  split; try done.
  repeat (apply Forall_cons_2; [split; [eexists; reflexivity|by exists 1]|]); apply Forall_nil_2.
Qed.

Lemma start_net_start : join_start TestSaver.items 0 join_follower (saver_of 0 [] false) start_net.
Proof. split; try done. apply join_follower_rep. by apply (leader_leading 0). Qed.

(** The blocks that the two sides hold after a schedule. *)
Definition blocks_after (sched : list thread) : list (list string) * list (list string) :=
  let n := (run thread_step sched start_net).2 in
  let metas (m : manager) := example_ids <$> (mg_buffer m).*2 in
  (metas (w_mgr (jn_world (dw_joiner (bp_wrap (nt_metas n))))),
   match dc_wrap (the_consumer n) with
   | Some v => metas (w_mgr (sv_world v))
   | None => []
   end).

Example blocks_after_some_turns :
  blocks_after (concat (repeat turns 10)) = ([["a"; "b"]; ["c"]], [["a"; "b"]]) ∧
  blocks_after (concat (repeat turns 11)) = ([["a"; "b"]; ["c"]], [["a"; "b"]; ["c"]]).
Proof. vm_compute. split; reflexivity. Qed.

Lemma interleaved_join_completes_witness :
  ∃ n' v blocks,
    run thread_step (concat (repeat turns (rounds_needed TestSaver.items 0 join_follower))) start_net
      = (Ret tt, n') ∧
    joined TestSaver.items join_follower (saver_of 0 [] false) n' v blocks blocks ∧
    concat (example_ids <$> blocks) = common_ids TestSaver.items (jn_items join_follower) ∧
    sv_buffer v = [] ∧
    (dump_data_block_time_span (jn_options join_follower) ≤ 0 →
     example_ids <$> blocks
     = (queue_spec (dump_data_block_threshold (jn_options join_follower))
          (known (jn_items join_follower)) [] (round_batches 0 TestSaver.items)).1).
Proof.
  apply (interleaved_join_completes test_post_ok TestSaver.items 0 join_follower (saver_of 0 [] false)).
  - exact start_net_bounds.
  - exact start_net_start.
  - apply rounds_repeat. intros []; vm_compute; set_solver.
Defined.

Lemma interleaved_join_agrees_witness :
  ∃ n' v blocks saved,
    run thread_step [LeaderIds; LeaderIds; FollowerJoin; FollowerMetas; LeaderIds] start_net
      = (Ret tt, n') ∧
    joined TestSaver.items join_follower (saver_of 0 [] false) n' v blocks saved.
Proof.
  apply (interleaved_join_agrees test_post_ok TestSaver.items 0).
  - exact start_net_bounds.
  - exact start_net_start.
Defined.
End witnesses.
