(* ===== verification/JoinChannel.v ===== *)
(** * The channel to the peer

    [src/src/DataJoin/proxy/data_join_channel.py]: the address of a peer is
    called directly; the uuid of a peer goes to the inner proxy, with the uuid in a
    header of every call, by which the proxy finds the peer. *)

From stdpp Require Import base tactics list gmap strings.
From Stdlib Require Import ZArith Lia.
From S2P Require Import Prelude Threads.

(** [_ClientCallDetails] *)
Record call_details := mkDetails {
  cd_method : string;
  cd_timeout : option Z;
  cd_metadata : option (list (string * string));
  cd_credentials : option string;
}.

(** [ModeType] of config.py *)
Inductive mode_type := UNKNOWN | REMOTE.
#[export] Instance mode_type_eq_dec : EqDecision mode_type.
Proof. solve_decision. Defined.

Section channel.
(** Requests, responses, and the world that a call changes.  A stream is the list
    of its items. *)
Context {Req Resp W : Type}.

Definition postprocess : Type := option (Resp → Resp).
Definition intercept_fn : Type :=
  call_details → list Req → bool → bool → call_details * list Req * postprocess.

(** The four kinds of calls, on a channel or through an interceptor. *)
Definition continuation (A B : Type) : Type := call_details → A → M W B.

(** [next(it)] *)
Definition next (it : list Req) : M W Req :=
  match it with r :: _ => mret r | [] => raiseM StopIteration end.

Section interceptor.
(** [_GenericClientInterceptor(fn)]: the response of a streaming call is its
    stream, which [post] would transform as a whole. *)
Context (fn : intercept_fn) (post_stream : (Resp → Resp) → list Resp → list Resp).

Definition intercept_unary_unary (k : continuation Req Resp) (d : call_details) (request : Req)
    : M W Resp :=
  let '(new_details, new_request_iterator, post) := fn d [request] false false in
  r ← next new_request_iterator;
  response ← k new_details r;
  mret (match post with Some p => p response | None => response end).
Definition intercept_unary_stream (k : continuation Req (list Resp)) (d : call_details)
    (request : Req) : M W (list Resp) :=
  let '(new_details, new_request_iterator, post) := fn d [request] false true in
  r ← next new_request_iterator;
  response_it ← k new_details r;
  mret (match post with Some p => post_stream p response_it | None => response_it end).
Definition intercept_stream_unary (k : continuation (list Req) Resp) (d : call_details)
    (request_iterator : list Req) : M W Resp :=
  let '(new_details, new_request_iterator, post) := fn d request_iterator true false in
  response ← k new_details new_request_iterator;
  mret (match post with Some p => p response | None => response end).
Definition intercept_stream_stream (k : continuation (list Req) (list Resp)) (d : call_details)
    (request_iterator : list Req) : M W (list Resp) :=
  let '(new_details, new_request_iterator, post) := fn d request_iterator true true in
  response_it ← k new_details new_request_iterator;
  mret (match post with Some p => post_stream p response_it | None => response_it end).
End interceptor.

Definition add_header_interceptor (add_header add_value : string) : intercept_fn :=
  λ d request_iterator _ _,
    (mkDetails (cd_method d) (cd_timeout d)
       (Some (default [] (cd_metadata d) ++ [(add_header, add_value)])) (cd_credentials d),
     request_iterator, None).

(** [grpc.insecure_channel] and [grpc.intercept_channel] *)
Inductive channel :=
  | insecure_channel (target : string)
  | intercept_channel (c : channel) (fn : intercept_fn).

(** [address_valid_checker] of [DataJoin.utils], and the environment variable
    [INTERNAL_PROXY]. *)
Context (address_valid_checker : string → bool) (inner_proxy : option string).

Definition create_data_join_channel (uuid : string) (mode : mode_type) : outcome channel :=
  if address_valid_checker uuid then Ret (insecure_channel uuid)
  else if bool_decide (mode = REMOTE) then
    match inner_proxy with
    | Some "" | None => raise GenericException
    | Some proxy =>
        Ret (intercept_channel (insecure_channel proxy) (add_header_interceptor "uuid" uuid))
    end
  else raise GenericException.

(** A call on a channel: [transport] carries a call to a target. *)
Fixpoint call_unary (transport : string → continuation Req Resp) (c : channel)
    : continuation Req Resp :=
  match c with
  | insecure_channel target => transport target
  | intercept_channel c' fn => intercept_unary_unary fn (call_unary transport c')
  end.

(** The call with a header more. *)
Definition with_header (name value : string) (d : call_details) : call_details :=
  mkDetails (cd_method d) (cd_timeout d) (Some (default [] (cd_metadata d) ++ [(name, value)]))
    (cd_credentials d).

(** The header interceptor adds its header, last, to calls of all four kinds, and
    changes nothing else. *)
Lemma header_on_every_kind post name value (d : call_details) :
  let fn := add_header_interceptor name value in
  (∀ k r w, intercept_unary_unary fn k d r w = k (with_header name value d) r w) ∧
  (∀ k r w, intercept_unary_stream fn post k d r w = k (with_header name value d) r w) ∧
  (∀ k rs w, intercept_stream_unary fn k d rs w = k (with_header name value d) rs w) ∧
  (∀ k rs w, intercept_stream_stream fn post k d rs w = k (with_header name value d) rs w).
Proof.
  split; [|split; [|split]]; intros k r w;
    unfold intercept_unary_unary, intercept_unary_stream, intercept_stream_unary,
      intercept_stream_stream; cbn [add_header_interceptor next].
  all: rewrite ?run_bind, ?run_ret; unfold with_header; rewrite ?run_bind.
  all: by destruct (k _ r w) as [[b|s] w'].
Qed.

(** A call to a peer arrives.  When the peer is given by an address, the call
    goes there as it is; when it is given by a uuid, it goes to the inner proxy,
    the same but for the header [uuid] after the headers it had; without a proxy,
    or in another mode, there is no channel. *)
Theorem calls_reach_the_peer transport uuid mode (d : call_details) (r : Req) (w : W) :
  match create_data_join_channel uuid mode with
  | Ret c =>
      (address_valid_checker uuid = true ∧ call_unary transport c d r w = transport uuid d r w) ∨
      (∃ proxy, address_valid_checker uuid = false ∧ mode = REMOTE ∧ inner_proxy = Some proxy ∧
         proxy ≠ "" ∧ call_unary transport c d r w = transport proxy (with_header "uuid" uuid d) r w)
  | Stop s => s = Raise GenericException ∧ address_valid_checker uuid = false ∧
      (mode ≠ REMOTE ∨ inner_proxy = None ∨ inner_proxy = Some "")
  end.
Proof.
  unfold create_data_join_channel. destruct (address_valid_checker uuid) eqn:E; [by left|].
  case_bool_decide as Hm; [|by split_and!; auto].
  destruct inner_proxy as [[|c p]|]; [by split_and!; auto| |by split_and!; auto].
  right. exists (String c p). split_and!; try done. cbn [call_unary].
  by rewrite (proj1 (header_on_every_kind (λ _ l, l) _ _ _)).
Qed.
End channel.
