(* ===== verification/Stubs.v ===== *)
(** * The gRPC stubs and servicers

    [src/src/DataJoin/common/data_join_service_pb2_grpc.py] and
    [src/src/Trainer/fl_comm_libs/proto/{co_proxy,dc_agent}_pb2_grpc.py]: for each
    service the stub of the client, the servicer whose methods are not
    implemented, and its registration at a server; the service of
    data_join_server.py over them.  gRPC itself is an interface: a call of a
    target reaches the handler that is registered there for its method.  Through
    the channel of [JoinChannel] and its stub, the server of [DataJoinServer] is
    the peer ([PeerClient]) that the producers are proved against. *)

From stdpp Require Import base tactics list gmap strings.
From Stdlib Require Import ZArith Lia.
From S2P Require Import Prelude PyStd Messages Env Consumer ExampleIdConsumer DataJoinServer JoinChannel.

Open Scope Z_scope.

(** ** gRPC *)

(** [SerializeToString] and [FromString] of a message *)
Class Codec (A : Type) := {
  SerializeToString : A → string;
  FromString : string → option A;
}.
Class CodecLaws (A : Type) `{Codec A} := {
  codec_roundtrip (a : A) : FromString (SerializeToString a) = Some a;
}.

(** What a method sets on its context. *)
Inductive StatusCode := UNIMPLEMENTED.
Record rpc_context := mkContext { rc_code : option StatusCode; rc_details : option string }.
Definition fresh_context : rpc_context := mkContext None None.

Section grpc.
Context {W : Type}.

(** A method of a servicer, on the server's state and the context of the call. *)
Definition method (A B : Type) : Type := A → M (W * rpc_context) B.
Definition set_code (c : StatusCode) : M (W * rpc_context) unit :=
  modify (λ s, (s.1, mkContext (Some c) (rc_details s.2))).
Definition set_details (t : string) : M (W * rpc_context) unit :=
  modify (λ s, (s.1, mkContext (rc_code s.2) (Some t))).

(** [grpc.unary_unary_rpc_method_handler] *)
Inductive method_handler :=
  | unary_unary_rpc_method_handler {A B} (behavior : method A B)
      (request_deserializer : string → option A) (response_serializer : B → string).
(** [grpc.method_handlers_generic_handler], and the handlers of a server in the
    order in which they were added *)
Record generic_handler := method_handlers_generic_handler {
  gh_service : string;
  gh_handlers : list (string * method_handler);
}.
Definition server : Type := list generic_handler.
Definition add_generic_rpc_handlers (h : generic_handler) (s : server) : server := s ++ [h].

(** The handler of a full method name. *)
Fixpoint find_handler (full : string) (s : server) : option method_handler :=
  match s with
  | [] => None
  | h :: s' =>
      match list_find (λ kv, "/" +:+ gh_service h +:+ "/" +:+ kv.1 = full) (gh_handlers h) with
      | Some (_, kv) => Some kv.2
      | None => find_handler full s'
      end
  end.

(** A call served: a request that does not parse, and an exception of the method,
    reach the client as an [RpcError]. *)
Definition serve_call (h : method_handler) (request : string) : M W string :=
  match h with
  | unary_unary_rpc_method_handler behavior request_deserializer response_serializer =>
      match request_deserializer request with
      | None => raiseM RpcError
      | Some r => λ w,
          match behavior r (w, fresh_context) with
          | (Ret b, (w', _)) => (Ret (response_serializer b), w')
          | (Stop (Raise _), (w', _)) => (raise RpcError, w')
          | (Stop t, (w', _)) => (Stop t, w')
          end
      end
  end.
End grpc.
Arguments method_handler : clear implicits.
Arguments generic_handler : clear implicits.
Arguments server : clear implicits.

(** The network, over the states [W] of the servers that listen; as a
    specification view, the server that listens at a target, if one does (a proxy
    is not a server). *)
Class Grpc (W : Type) := {
  grpc_transport : string → continuation (W := W) string string;
  grpc_servers : string → option (server W);
}.
Class GrpcLaws (W : Type) `{Grpc W} := {
  served_law target srv d request h :
    grpc_servers target = Some srv → find_handler (cd_method d) srv = Some h →
    ∀ w, grpc_transport target d request w = serve_call h request w;
  unserved_law target srv d request :
    grpc_servers target = Some srv → find_handler (cd_method d) srv = None →
    ∀ w, grpc_transport target d request w = (raise RpcError, w);
}.

Section stubs.
Context {W : Type} `{Grpc W}.
Local Abbreviation channel := (channel (Req := string) (Resp := string)).

(** [channel.unary_unary(method, request_serializer, response_deserializer)] *)
Definition unary_unary {A B} (c : channel) (name : string) (request_serializer : A → string)
    (response_deserializer : string → option B) (request : A) : M W B :=
  bytes ← call_unary grpc_transport c (mkDetails name None None None) (request_serializer request);
  match response_deserializer bytes with
  | Some b => mret b
  | None => raiseM RpcError
  end.

(** A method of a servicer that is not overridden *)
Definition not_implemented {A B} : method (W := W) A B := λ _,
  set_code UNIMPLEMENTED;;
  set_details "Method not implemented!";;
  raiseM NotImplementedError.

(** *** DataJoinService *)
Section DataJoinService.
Context `{Codec StartPartitionRequest} `{Codec StartPartitionResponse} `{Codec SyncPartitionRequest}
  `{Codec Status} `{Codec FinishPartitionRequest} `{Codec FinishPartitionResponse}.

Record DataJoinServiceStub := mkJoinStub {
  st_StartPartition : StartPartitionRequest → M W StartPartitionResponse;
  st_SyncPartition : SyncPartitionRequest → M W Status;
  st_FinishPartition : FinishPartitionRequest → M W FinishPartitionResponse;
}.
Definition new_DataJoinServiceStub (c : channel) : DataJoinServiceStub := {|
  st_StartPartition := unary_unary c "/DataJoin.common.DataJoinService/StartPartition"
    SerializeToString FromString;
  st_SyncPartition := unary_unary c "/DataJoin.common.DataJoinService/SyncPartition"
    SerializeToString FromString;
  st_FinishPartition := unary_unary c "/DataJoin.common.DataJoinService/FinishPartition"
    SerializeToString FromString;
|}.

Record DataJoinServiceServicer := mkJoinServicer {
  sv_StartPartition : method (W := W) StartPartitionRequest StartPartitionResponse;
  sv_SyncPartition : method (W := W) SyncPartitionRequest Status;
  sv_FinishPartition : method (W := W) FinishPartitionRequest FinishPartitionResponse;
}.
Definition unimplemented_DataJoinService : DataJoinServiceServicer :=
  mkJoinServicer not_implemented not_implemented not_implemented.

Definition add_DataJoinServiceServicer_to_server (servicer : DataJoinServiceServicer) (s : server W) :
    server W :=
  let rpc_method_handlers := [
    ("StartPartition", unary_unary_rpc_method_handler (sv_StartPartition servicer)
       FromString SerializeToString);
    ("SyncPartition", unary_unary_rpc_method_handler (sv_SyncPartition servicer)
       FromString SerializeToString);
    ("FinishPartition", unary_unary_rpc_method_handler (sv_FinishPartition servicer)
       FromString SerializeToString)] in
  let generic_handler :=
    method_handlers_generic_handler "DataJoin.common.DataJoinService" rpc_method_handlers in
  add_generic_rpc_handlers generic_handler s.

(** A stub is a client of its peer. *)
Definition stub_peer (stub : DataJoinServiceStub) : PeerClient W := {|
  rpc_StartPartition := st_StartPartition stub;
  rpc_SyncPartition := st_SyncPartition stub;
  rpc_FinishPartition := st_FinishPartition stub;
|}.
End DataJoinService.

(** *** DataJoinMasterService; no part of the program implements it or calls it. *)
Section DataJoinMasterService.
Context {Empty DataSourceRequest DataSourceStatus RawDataRequest RawDataResponse RawDataManifest : Type}.
Context `{Codec Empty} `{Codec DataSource} `{Codec DataSourceRequest} `{Codec DataSourceStatus}
  `{Codec RawDataRequest} `{Codec RawDataResponse} `{Codec RawDataManifest} `{Codec Status}.

Record DataJoinMasterServiceStub := mkMasterStub {
  st_GetDataSource : Empty → M W DataSource;
  st_GetDataSourceStatus : DataSourceRequest → M W DataSourceStatus;
  st_AbortDataSource : DataSourceRequest → M W Status;
  st_RequestJoinPartition : RawDataRequest → M W RawDataResponse;
  st_FinishJoinPartition : RawDataRequest → M W Status;
  st_QueryRawDataManifest : RawDataRequest → M W RawDataManifest;
  st_FinishRawData : RawDataRequest → M W Status;
  st_AddRawData : RawDataRequest → M W Status;
}.
Definition new_DataJoinMasterServiceStub (c : channel) : DataJoinMasterServiceStub := {|
  st_GetDataSource := unary_unary c "/DataJoin.common.DataJoinMasterService/GetDataSource"
    SerializeToString FromString;
  st_GetDataSourceStatus := unary_unary c "/DataJoin.common.DataJoinMasterService/GetDataSourceStatus"
    SerializeToString FromString;
  st_AbortDataSource := unary_unary c "/DataJoin.common.DataJoinMasterService/AbortDataSource"
    SerializeToString FromString;
  st_RequestJoinPartition := unary_unary c "/DataJoin.common.DataJoinMasterService/RequestJoinPartition"
    SerializeToString FromString;
  st_FinishJoinPartition := unary_unary c "/DataJoin.common.DataJoinMasterService/FinishJoinPartition"
    SerializeToString FromString;
  st_QueryRawDataManifest := unary_unary c "/DataJoin.common.DataJoinMasterService/QueryRawDataManifest"
    SerializeToString FromString;
  st_FinishRawData := unary_unary c "/DataJoin.common.DataJoinMasterService/FinishRawData"
    SerializeToString FromString;
  st_AddRawData := unary_unary c "/DataJoin.common.DataJoinMasterService/AddRawData"
    SerializeToString FromString;
|}.

Record DataJoinMasterServiceServicer := mkMasterServicer {
  sv_GetDataSource : method (W := W) Empty DataSource;
  sv_GetDataSourceStatus : method (W := W) DataSourceRequest DataSourceStatus;
  sv_AbortDataSource : method (W := W) DataSourceRequest Status;
  sv_RequestJoinPartition : method (W := W) RawDataRequest RawDataResponse;
  sv_FinishJoinPartition : method (W := W) RawDataRequest Status;
  sv_QueryRawDataManifest : method (W := W) RawDataRequest RawDataManifest;
  sv_FinishRawData : method (W := W) RawDataRequest Status;
  sv_AddRawData : method (W := W) RawDataRequest Status;
}.
Definition unimplemented_DataJoinMasterService : DataJoinMasterServiceServicer :=
  mkMasterServicer not_implemented not_implemented not_implemented not_implemented
    not_implemented not_implemented not_implemented not_implemented.

Definition add_DataJoinMasterServiceServicer_to_server (servicer : DataJoinMasterServiceServicer)
    (s : server W) : server W :=
  let rpc_method_handlers := [
    ("GetDataSource", unary_unary_rpc_method_handler (sv_GetDataSource servicer)
       FromString SerializeToString);
    ("GetDataSourceStatus", unary_unary_rpc_method_handler (sv_GetDataSourceStatus servicer)
       FromString SerializeToString);
    ("AbortDataSource", unary_unary_rpc_method_handler (sv_AbortDataSource servicer)
       FromString SerializeToString);
    ("RequestJoinPartition", unary_unary_rpc_method_handler (sv_RequestJoinPartition servicer)
       FromString SerializeToString);
    ("FinishJoinPartition", unary_unary_rpc_method_handler (sv_FinishJoinPartition servicer)
       FromString SerializeToString);
    ("QueryRawDataManifest", unary_unary_rpc_method_handler (sv_QueryRawDataManifest servicer)
       FromString SerializeToString);
    ("FinishRawData", unary_unary_rpc_method_handler (sv_FinishRawData servicer)
       FromString SerializeToString);
    ("AddRawData", unary_unary_rpc_method_handler (sv_AddRawData servicer)
       FromString SerializeToString)] in
  let generic_handler :=
    method_handlers_generic_handler "DataJoin.common.DataJoinMasterService" rpc_method_handlers in
  add_generic_rpc_handlers generic_handler s.
End DataJoinMasterService.

(** *** PairService, of the trainer's coordinator *)
Section PairService.
Context {Request PairStatus PairInfoResponse : Type}.
Context `{Codec Request} `{Codec PairStatus} `{Codec PairInfoResponse}.

Record PairServiceStub := mkPairStub {
  st_RegisterUUID : Request → M W PairStatus;
  st_GetPairInfo : Request → M W PairInfoResponse;
}.
Definition new_PairServiceStub (c : channel) : PairServiceStub := {|
  st_RegisterUUID := unary_unary c "/jdfl.PairService/RegisterUUID" SerializeToString FromString;
  st_GetPairInfo := unary_unary c "/jdfl.PairService/GetPairInfo" SerializeToString FromString;
|}.
Record PairServiceServicer := mkPairServicer {
  sv_RegisterUUID : method (W := W) Request PairStatus;
  sv_GetPairInfo : method (W := W) Request PairInfoResponse;
}.
Definition unimplemented_PairService : PairServiceServicer :=
  mkPairServicer not_implemented not_implemented.
Definition add_PairServiceServicer_to_server (servicer : PairServiceServicer) (s : server W) : server W :=
  let rpc_method_handlers := [
    ("RegisterUUID", unary_unary_rpc_method_handler (sv_RegisterUUID servicer)
       FromString SerializeToString);
    ("GetPairInfo", unary_unary_rpc_method_handler (sv_GetPairInfo servicer)
       FromString SerializeToString)] in
  let generic_handler := method_handlers_generic_handler "jdfl.PairService" rpc_method_handlers in
  add_generic_rpc_handlers generic_handler s.
End PairService.

(** *** DataBlockQueryService, of the data center *)
Section DataBlockQueryService.
Context {FetchDataBlockRequest FetchDataBlockResponse : Type}.
Context `{Codec FetchDataBlockRequest} `{Codec FetchDataBlockResponse}.

Record DataBlockQueryServiceStub := mkQueryStub {
  st_QueryDataBlock : FetchDataBlockRequest → M W FetchDataBlockResponse;
}.
Definition new_DataBlockQueryServiceStub (c : channel) : DataBlockQueryServiceStub := {|
  st_QueryDataBlock := unary_unary c "/jdfl.DataBlockQueryService/QueryDataBlock"
    SerializeToString FromString;
|}.
Record DataBlockQueryServiceServicer := mkQueryServicer {
  sv_QueryDataBlock : method (W := W) FetchDataBlockRequest FetchDataBlockResponse;
}.
Definition unimplemented_DataBlockQueryService : DataBlockQueryServiceServicer :=
  mkQueryServicer not_implemented.
Definition add_DataBlockQueryServiceServicer_to_server (servicer : DataBlockQueryServiceServicer)
    (s : server W) : server W :=
  let rpc_method_handlers := [
    ("QueryDataBlock", unary_unary_rpc_method_handler (sv_QueryDataBlock servicer)
       FromString SerializeToString)] in
  let generic_handler :=
    method_handlers_generic_handler "jdfl.DataBlockQueryService" rpc_method_handlers in
  add_generic_rpc_handlers generic_handler s.
End DataBlockQueryService.
End stubs.

(** ** The service of data_join_server.py

    [DataJoin] is a servicer whose methods do not use the context. *)
Section join_service.
Context {C : Type} `{Consumer C} `{Utils}.
Local Abbreviation D := (data_join C).

Definition servicer_method {A B} (h : A → M D B) : method (W := D) A B := λ a,
  zoom fst (λ d s, (d, s.2)) (h a).
Definition data_join_servicer : DataJoinServiceServicer (W := D) :=
  mkJoinServicer (servicer_method StartPartition) (servicer_method SyncPartition)
    (servicer_method FinishPartition).

Context `{Codec StartPartitionRequest} `{Codec StartPartitionResponse} `{Codec SyncPartitionRequest}
  `{Codec Status} `{Codec FinishPartitionRequest} `{Codec FinishPartitionResponse}.
Definition join_server : server D := add_DataJoinServiceServicer_to_server data_join_servicer [].

Definition peer_client `{Grpc W} (address_valid_checker : string → bool) (inner_proxy : option string)
    (peer_address : string) : outcome (DataJoinServiceStub (W := W)) :=
  peer_channel ← create_data_join_channel address_valid_checker inner_proxy peer_address REMOTE;
  Ret (new_DataJoinServiceStub peer_channel).
End join_service.

(** ** Calls *)
Section calls.
Context {W : Type} `{GrpcLaws W}.
Local Abbreviation channel := (channel (Req := string) (Resp := string)).

(** Calls on [c] go to [target]. *)
Definition leads_to (target : string) (c : channel) : Prop :=
  ∀ d r (w : W), call_unary grpc_transport c d r w = grpc_transport target d r w.

(** A call of a method that is registered, of a servicer that answers as [f] does. *)
Lemma unary_unary_served {A B} `{CodecLaws A} `{CodecLaws B} target srv c name
    (behavior : method (W := W) A B) (f : A → M W B) a w :
  leads_to target c → grpc_servers target = Some srv →
  find_handler name srv = Some (unary_unary_rpc_method_handler behavior FromString SerializeToString) →
  behavior a (w, fresh_context) = ((f a w).1, ((f a w).2, (behavior a (w, fresh_context)).2.2)) →
  unary_unary c name SerializeToString FromString a w = rpc (f a) w.
Proof.
  intros Hc Hs Hh Hb. unfold unary_unary. rewrite run_bind, Hc.
  rewrite (served_law target srv (mkDetails name None None None) _ _ Hs Hh).
  unfold serve_call. rewrite codec_roundtrip, Hb.
  unfold rpc. destruct (f a w) as [[b|[]] w']; try done. cbn [fst snd]. by rewrite codec_roundtrip.
Qed.

(** A call of a method that is registered for a servicer without it, or not
    registered. *)
Lemma unary_unary_unimplemented {A B} `{CodecLaws A} `{CodecLaws B} target srv c name (a : A) w :
  leads_to target c → grpc_servers target = Some srv →
  find_handler name srv = None ∨
  find_handler name srv
    = Some (unary_unary_rpc_method_handler (@not_implemented W A B) FromString SerializeToString) →
  unary_unary c name SerializeToString (FromString (A := B)) a w = (raise RpcError, w).
Proof.
  intros Hc Hs [Hh|Hh]; unfold unary_unary; rewrite run_bind, Hc.
  - by rewrite (unserved_law target srv (mkDetails name None None None) _ Hs Hh).
  - rewrite (served_law target srv (mkDetails name None None None) _ _ Hs Hh).
    unfold serve_call. by rewrite codec_roundtrip.
Qed.

(** The channel of a peer leads to it, when the inner proxy forwards a call with
    the peer's uuid in its header. *)
Lemma channel_leads address_valid_checker inner_proxy uuid (c : channel) :
  (∀ proxy d r (w : W), inner_proxy = Some proxy → proxy ≠ "" →
     grpc_transport proxy (with_header "uuid" uuid d) r w = grpc_transport uuid d r w) →
  create_data_join_channel address_valid_checker inner_proxy uuid REMOTE = Ret c →
  leads_to uuid c.
Proof.
  intros Hp. unfold create_data_join_channel. destruct (address_valid_checker uuid).
  { intros [= <-] d r w. done. }
  rewrite bool_decide_true by done. destruct inner_proxy as [[|x p]|]; [done| |done].
  intros [= <-] d r w. cbn [call_unary].
  rewrite (proj1 (header_on_every_kind (λ _ l, l) _ _ _)). by apply (Hp (String x p)).
Qed.
End calls.

(** ** Properties *)
Section properties.
Context {C : Type} `{Consumer C} `{Utils} `{GrpcLaws (data_join C)}.
Context `{CodecLaws StartPartitionRequest} `{CodecLaws StartPartitionResponse}
  `{CodecLaws SyncPartitionRequest} `{CodecLaws Status} `{CodecLaws FinishPartitionRequest}
  `{CodecLaws FinishPartitionResponse}.
Context (address_valid_checker : string → bool) (inner_proxy : option string).
Local Abbreviation D := (data_join C).

Lemma servicer_served {A B} `{CodecLaws A} `{CodecLaws B} target c name (h : A → M D B) a w :
  leads_to target c → grpc_servers target = Some join_server →
  find_handler name join_server
    = Some (unary_unary_rpc_method_handler (servicer_method h) FromString SerializeToString) →
  unary_unary c name SerializeToString FromString a w = rpc (h a) w.
Proof.
  intros Hc Hs Hh. apply (unary_unary_served target _ c name (servicer_method h) h a w Hc Hs Hh).
  unfold servicer_method, zoom. cbn [fst snd]. by destruct (h a w).
Qed.

(** C29.  The stub is the peer.  When the peer's process has registered its
    [DataJoin] at the server that it listens with, and the inner proxy, if there
    is one, forwards by the header [uuid], then [DataJoinService] gets a stub
    whose calls do on the peer's server exactly what the handlers do, the
    exceptions of a handler arriving as [RpcError]s: serializers, method names,
    interceptor and dispatch together implement the interface that the senders
    of the join are proved against.  A stub is got unless the peer is neither
    an address nor reachable through a proxy. *)
Theorem stub_is_the_peer peer_address :
  grpc_servers peer_address = Some join_server →
  (∀ proxy d r (w : D), inner_proxy = Some proxy → proxy ≠ "" →
     grpc_transport proxy (with_header "uuid" peer_address d) r w = grpc_transport peer_address d r w) →
  match peer_client address_valid_checker inner_proxy peer_address with
  | Ret stub =>
      (∀ req w, rpc_StartPartition (PeerClient := stub_peer stub) req w = rpc_StartPartition req w) ∧
      (∀ req w, rpc_SyncPartition (PeerClient := stub_peer stub) req w = rpc_SyncPartition req w) ∧
      (∀ req w, rpc_FinishPartition (PeerClient := stub_peer stub) req w = rpc_FinishPartition req w)
  | Stop s =>
      s = Raise GenericException ∧ address_valid_checker peer_address = false ∧
      (inner_proxy = None ∨ inner_proxy = Some "")
  end.
Proof.
  intros Hsrv Hproxy. unfold peer_client.
  destruct (create_data_join_channel address_valid_checker inner_proxy peer_address REMOTE) as [c|r] eqn:Ec.
  - pose proof (channel_leads _ _ _ c Hproxy Ec) as Hc.
    split_and!; intros req w; by apply (servicer_served peer_address c _ _ _ _ Hc Hsrv).
  - revert Ec. unfold create_data_join_channel. destruct (address_valid_checker peer_address); [done|].
    destruct inner_proxy as [[|x p]|]; cbn; intros [= <-]; auto.
Qed.

(** The master service of the stubs is not there: no class implements it, and
    whether its empty servicer is registered or not, each of its eight calls is an
    [RpcError] and changes nothing. *)
Theorem master_service_is_not_there
    {Empty DataSourceRequest DataSourceStatus RawDataRequest RawDataResponse RawDataManifest : Type}
    `{CodecLaws Empty} `{CodecLaws DataSource} `{CodecLaws DataSourceRequest}
    `{CodecLaws DataSourceStatus} `{CodecLaws RawDataRequest} `{CodecLaws RawDataResponse}
    `{CodecLaws RawDataManifest} target c :
  leads_to target c →
  grpc_servers target = Some join_server ∨
  grpc_servers target
    = Some (add_DataJoinMasterServiceServicer_to_server
        (unimplemented_DataJoinMasterService (W := D) (Empty := Empty)
           (DataSourceRequest := DataSourceRequest) (DataSourceStatus := DataSourceStatus)
           (RawDataRequest := RawDataRequest) (RawDataResponse := RawDataResponse)
           (RawDataManifest := RawDataManifest)) join_server) →
  let stub := new_DataJoinMasterServiceStub c in
  (∀ (r : Empty) (w : D), st_GetDataSource stub r w = (raise RpcError, w)) ∧
  (∀ (r : DataSourceRequest) (w : D),
     (st_GetDataSourceStatus stub r w : outcome DataSourceStatus * D) = (raise RpcError, w) ∧
     st_AbortDataSource stub r w = (raise RpcError, w)) ∧
  (∀ (r : RawDataRequest) (w : D),
     (st_RequestJoinPartition stub r w : outcome RawDataResponse * D) = (raise RpcError, w) ∧
     st_FinishJoinPartition stub r w = (raise RpcError, w) ∧
     (st_QueryRawDataManifest stub r w : outcome RawDataManifest * D) = (raise RpcError, w) ∧
     st_FinishRawData stub r w = (raise RpcError, w) ∧ st_AddRawData stub r w = (raise RpcError, w)).
Proof.
  intros Hc Hs stub. split_and!; intros r w; try split_and!;
    destruct Hs as [Hs|Hs]; apply (unary_unary_unimplemented target _ c _ _ _ Hc Hs); auto.
Qed.
End properties.

(** ** Witness: one server, behind a proxy *)
#[export] Instance status_eq_dec : EqDecision Status.
Proof. solve_decision. Defined.
#[export] Instance status_countable : Countable Status.
Proof.
  refine (inj_countable' (λ s, (code s, error_message s)) (λ t, mkStatus t.1 t.2) _). by intros [].
Defined.
#[export] Instance start_req_eq_dec : EqDecision StartPartitionRequest.
Proof. solve_decision. Defined.
#[export] Instance start_req_countable : Countable StartPartitionRequest.
Proof.
  refine (inj_countable' (λ r, (spr_rank_id r, spr_partition_id r)) (λ t, mkStartReq t.1 t.2) _).
  by intros [].
Defined.
#[export] Instance start_rsp_eq_dec : EqDecision StartPartitionResponse.
Proof. solve_decision. Defined.
#[export] Instance start_rsp_countable : Countable StartPartitionResponse.
Proof.
  refine (inj_countable' (λ r, (spr_status r, spr_next_index r, spr_finished r))
    (λ t, mkStartRsp t.1.1 t.1.2 t.2) _). by intros [].
Defined.
#[export] Instance sync_req_eq_dec : EqDecision SyncPartitionRequest.
Proof. solve_decision. Defined.
#[export] Instance sync_req_countable : Countable SyncPartitionRequest.
Proof.
  refine (inj_countable' (λ r, (sy_rank_id r, sy_partition_id r, sy_content_bytes r, sy_compressed r))
    (λ t, mkSyncReq t.1.1.1 t.1.1.2 t.1.2 t.2) _). by intros [].
Defined.
#[export] Instance fin_req_eq_dec : EqDecision FinishPartitionRequest.
Proof. solve_decision. Defined.
#[export] Instance fin_req_countable : Countable FinishPartitionRequest.
Proof.
  refine (inj_countable' (λ r, (fp_rank_id r, fp_partition_id r)) (λ t, mkFinReq t.1 t.2) _).
  by intros [].
Defined.
#[export] Instance fin_rsp_eq_dec : EqDecision FinishPartitionResponse.
Proof. solve_decision. Defined.
#[export] Instance fin_rsp_countable : Countable FinishPartitionResponse.
Proof.
  refine (inj_countable' (λ r, (fp_status r, fp_finished r)) (λ t, mkFinRsp t.1 t.2) _). by intros [].
Defined.

Module TestNet.
Import TestUtils.
Definition countable_codec {A} `{Countable A} : Codec A :=
  {| SerializeToString a := pos_to_string (encode a); FromString s := decode (pos_of_string s) |}.
Lemma countable_codec_laws {A} `{Countable A} : @CodecLaws A countable_codec.
Proof. constructor. intros a. cbn. by rewrite pos_roundtrip, decode_encode. Qed.
#[export] Existing Instances countable_codec countable_codec_laws.
Local Abbreviation W := (data_join example_id_consumer).

(** The server of the peer with the uuid ["peer"]; the proxy at ["proxy"] sends a
    call on by the last [uuid] in its headers. *)
Definition net_servers (target : string) : option (server W) :=
  if bool_decide (target = "peer") then Some join_server else None.
Definition net_direct (target : string) (d : call_details) (r : string) : M W string :=
  match net_servers target with
  | Some srv =>
      match find_handler (cd_method d) srv with
      | Some h => serve_call h r
      | None => raiseM RpcError
      end
  | None => raiseM RpcError
  end.
#[export] Instance net : Grpc W := {
  grpc_transport target d r :=
    if bool_decide (target = "proxy") then
      match list_find (λ kv, kv.1 = "uuid") (rev (default [] (cd_metadata d))) with
      | Some (_, (_, uuid)) => net_direct uuid d r
      | None => raiseM RpcError
      end
    else net_direct target d r;
  grpc_servers := net_servers;
}.
Lemma net_run target srv d r w :
  net_servers target = Some srv →
  grpc_transport target d r w
  = match find_handler (cd_method d) srv with Some h => serve_call h r w | None => (raise RpcError, w) end.
Proof.
  intros Hs. cbn [grpc_transport net]. rewrite bool_decide_false by (by intros ->).
  unfold net_direct. rewrite Hs. by destruct (find_handler (cd_method d) srv).
Qed.
#[export] Instance net_laws : GrpcLaws W.
Proof.
  split; intros target srv d r; [intros h Hs Hh w|intros Hs Hh w];
    rewrite (net_run target srv d r w Hs); by rewrite Hh.
Qed.
End TestNet.

Section witnesses.
Import TestUtils TestNet.
Local Abbreviation W := (data_join example_id_consumer).

Lemma stub_is_the_peer_witness :
  match peer_client (λ _, false) (Some "proxy") "peer" with
  | Ret stub =>
      (∀ req w, rpc_StartPartition (PeerClient := stub_peer stub) req w
                = rpc_StartPartition (P := W) req w) ∧
      (∀ req w, rpc_SyncPartition (PeerClient := stub_peer stub) req w
                = rpc_SyncPartition (P := W) req w) ∧
      (∀ req w, rpc_FinishPartition (PeerClient := stub_peer stub) req w
                = rpc_FinishPartition (P := W) req w)
  | Stop s => s = Raise GenericException ∧ false = false ∧ (Some "proxy" = None ∨ Some "proxy" = Some "")
  end.
Proof.
  apply (stub_is_the_peer (λ _, false) (Some "proxy") "peer").
  - reflexivity.
  - intros proxy d r w [= <-] _. cbn. unfold with_header. cbn [cd_metadata].
    rewrite rev_app_distr. reflexivity.
Defined.
End witnesses.
