(* ===== verification/DataBase.v ===== *)
(** * The tables of the data center and its redis pool

    [src/src/DataJoin/db/db_models.py]: the tables and the [save] of a row;
    [manager/data_managers.py] and [controller/data_controller.py]: the upsert of
    a block; [db/redis_manager.py]: the pool, one per process, and the guarded
    access to redis.  The rows are kept as the values that the code gives them:
    peewee's conversions and the SQL server are outside. *)

From stdpp Require Import base tactics list gmap strings pretty.
From Stdlib Require Import ZArith Lia Ascii.
From S2P Require Import Prelude Threads PyStd.

Open Scope Z_scope.

(** ** Values *)

(** The JSON values that the requests carry. *)
Inductive jval := JNull | JBool (b : bool) | JInt (z : Z) | JStr (s : string).
#[export] Instance jval_eq_dec : EqDecision jval.
Proof. solve_decision. Defined.

(** [v == w]: a bool is the int 0 or 1. *)
Definition as_int (v : jval) : option Z :=
  match v with JInt z => Some z | JBool b => Some (if b then 1 else 0) | _ => None end.
Definition py_eq (v w : jval) : bool :=
  match as_int v, as_int w with
  | Some a, Some b => a =? b
  | None, None => bool_decide (v = w)
  | _, _ => false
  end.

(** ** db_models.py *)

(** A column: its name, whether it may be null, its default ([None] is null). *)
Record column := mkColumn { co_name : string; co_null : bool; co_default : jval }.
#[export] Instance column_eq_dec : EqDecision column.
Proof. solve_decision. Defined.
Record model := mkModel { md_table : string; md_key : string; md_columns : list column }.

Definition char (n : string) : column := mkColumn n false JNull.
Definition int (n : string) : column := mkColumn n true JNull.
Definition int0 (n : string) : column := mkColumn n true (JInt 0).

Definition DataBlockMeta : model := mkModel "data_block_meta" "block_id"
  [char "block_id"; char "dfs_data_block_dir"; int0 "partition_id"; int0 "file_version";
   int "start_time"; int "end_time"; mkColumn "example_ids" true (JStr ""); int "leader_start_index";
   int "leader_end_index"; int "follower_start_index"; int "follower_end_index";
   int "data_block_index"; int "follower_restart_index"; int "create_time"; int "update_time";
   int0 "create_status"; int0 "consumed_status"; char "data_source_name"].
Definition DataSourceMeta : model := mkModel "data_source_meta" "data_source_name"
  [char "data_source_name"; int0 "partition_num"; int "matching_window"; int "data_source_type";
   int "max_example_in_data_block"; char "inherit_data_source"; int "start_time"; int "end_time";
   int "create_time"; int "update_time"].
Definition DataSource : model := mkModel "data_source" "data_source_name"
  [char "data_source_name"; char "dfs_data_block_dir"; char "dfs_raw_data_dir";
   int0 "data_source_role"; int0 "data_source_state"; int "start_time"; int "end_time";
   int "create_time"; int "update_time"].
Definition Coordinator : model := mkModel "register_coordinator" "local_uuid"
  [char "ip_port"; int0 "register_code"; int0 "query_code"; char "local_uuid"; char "remote_uuid";
   int "create_time"; int "update_time"].

(** [getattr(Model, k)]: the column, if there is one. *)
Definition find_column (m : model) (k : string) : option column :=
  list_find (λ c, co_name c = k) (md_columns m) ≫= λ ic, Some ic.2.

Abbreviation row := (gmap string jval).

(** The rows of all tables, by table and key; [current_timestamp()] draws from
    [now]; there is only a connection in the process of the route server. *)
Record db := mkDb {
  db_rows : gmap (string * string) row;
  db_clock : nat;
  db_connected : bool;
}.
Definition set_rows r (d : db) : db := mkDb r (db_clock d) (db_connected d).

Definition connect (main_file : string) (d : db) : db :=
  mkDb (db_rows d) (db_clock d) (Str.endswith "route_server.py" main_file).

(** A new instance has the defaults that are not null. *)
Definition new_instance (m : model) : row :=
  list_to_map ((λ c, (co_name c, co_default c)) <$>
    filter (λ c, co_default c ≠ JNull) (md_columns m)).

Class Timestamps := { now : nat → Z }.

Section models.
Context `{Timestamps}.

Definition current_timestamp : M db Z := λ d,
  (Ret (now (db_clock d)), mkDb (db_rows d) (S (db_clock d)) (db_connected d)).

(** [DB.connection_context()] of [None] *)
Definition connection_context : M db unit :=
  d ← getM; require (db_connected d) AttributeError.

Definition key_of (m : model) (data : row) : option string :=
  match data !! md_key m with Some (JStr k) => Some k | _ => None end.
(** The columns that may not be null have a value. *)
Definition complete_row (m : model) (data : row) : bool :=
  forallb (λ c, co_null c || match data !! co_name c with
                             | None | Some JNull => false | Some _ => true end) (md_columns m).

(** [DataBaseModel.save]: an insert of a new key, or an update of the columns of
    the row with the key of the instance. *)
Definition save (m : model) (force_insert : bool) (data : row) : M db unit :=
  t ← (if bool_decide (is_Some (find_column m "update_time"))
       then t ← current_timestamp; mret (Some t) else mret None);
  let data := match t with Some t => <["update_time" := JInt t]> data | None => data end in
  d ← getM;
  if force_insert then
    match key_of m data with
    | Some k =>
        require (complete_row m data && bool_decide (db_rows d !! (md_table m, k) = None))
          IntegrityError;;
        putM (set_rows (<[(md_table m, k) := data]> (db_rows d)) d)
    | None => raiseM IntegrityError
    end
  else
    match key_of m data with
    | Some k => putM (set_rows (alter (λ old, data ∪ old) (md_table m, k) (db_rows d)) d)
    | None => mret tt
    end.

(** [Model.select().where(Model.k == v)], the first row; the code only selects by
    the key of a table, or by a column that is not there. *)
Definition select_first (m : model) (k : string) (v : option string) : M db (option row) :=
  match find_column m k with
  | None => raiseM AttributeError
  | Some _ =>
      d ← getM;
      mret (match v with Some v => db_rows d !! (md_table m, v) | None => None end)
  end.

(** ** data_managers.py *)
Record managers := mkManagers {
  dm_block_id : option string;
  dm_partition_id : option string;
  dm_file_version : option string;
  dm_data_source_name : option string;
  dm_dfs_data_block_dir : option string;
  dm_dfs_raw_data_dir : option string;
  dm_data_source_state : jval;
}.

Definition opt (s : option string) : jval := match s with Some s => JStr s | None => JNull end.

(** The loop over the fields of a request: reserved fields, fields that the
    table lacks and values equal to the default are passed over. *)
Definition set_field (m : model) (reserved : list string) (data : row) (kv : string * jval) : row :=
  if bool_decide (kv.1 ∈ reserved) then data
  else
    match find_column m kv.1 with
    | None => data
    | Some c => if py_eq kv.2 (co_default c) then data else <[kv.1 := kv.2]> data
    end.
Definition set_fields (m : model) (reserved : list string) (info : list (string * jval)) (data : row)
    : row := foldl (set_field m reserved) data info.

(** The row to change: the one there is, or, on demand, a new one. *)
Definition row_to_save (m : model) (found : option row) (create : bool) : M db (option (row * bool)) :=
  match found with
  | Some r => mret (Some (r, false))
  | None =>
      if create then
        t1 ← current_timestamp;
        t2 ← current_timestamp;
        mret (Some (<["update_time" := JInt t2]> (<["create_time" := JInt t1]> (new_instance m)), true))
      else mret None
  end.

Definition block_fields (s : managers) (data : row) : row :=
  <["file_version" := opt (dm_file_version s)]>
    (<["partition_id" := opt (dm_partition_id s)]>
      (<["block_id" := opt (dm_block_id s)]> data)).
Definition source_fields (s : managers) (data : row) : row :=
  <["dfs_raw_data_dir" := opt (dm_dfs_raw_data_dir s)]>
    (<["dfs_data_block_dir" := opt (dm_dfs_data_block_dir s)]>
      (<["data_source_state" := dm_data_source_state s]> data)).

Definition save_info (m : model) (key_column : string) (s : managers) (own : row → row)
    (reserved : list string) (info : list (string * jval)) (create : bool) : M db unit :=
  connection_context;;
  found ← select_first m key_column (dm_block_id s);
  r ← row_to_save m found create;
  match r with
  | None => mret tt
  | Some (data, is_insert) => save m is_insert (set_fields m reserved info (own data))
  end.

Definition block_reserved : list string := ["block_id"; "partition_id"; "file_version"].
Definition save_data_block_meta_info (s : managers) (info : list (string * jval)) (create : bool)
    : M db unit :=
  save_info DataBlockMeta "block_id" s (block_fields s) block_reserved info create.
Definition save_data_source_meta_info (s : managers) (info : list (string * jval)) (create : bool)
    : M db unit :=
  save_info DataSourceMeta "block_id" s id ["data_source_name"] info create.
Definition save_data_source_info (s : managers) (info : list (string * jval)) (create : bool)
    : M db unit :=
  save_info DataSource "block_id" s (source_fields s) ["data_source_name"] info create.

(** ** data_controller.py *)
Definition update_data_block_meta_status (block_id partition_id file_version : option string)
    (info : list (string * jval)) (create : bool) : M db unit :=
  save_data_block_meta_info
    (mkManagers block_id partition_id file_version None None None JNull) info create.
End models.

(** ** redis_manager.py *)

(** [singleton]: the registry of a decorated class, by class and process. *)
Section singleton.
Context {A S : Type}.
Definition singleton_key (cls : string) (pid : Z) : string := cls +:+ Str.of_int pid.
Definition singleton (cls : string) (make : M S A) (pid : Z) : M (gmap string A * S) A := λ s,
  match s.1 !! singleton_key cls pid with
  | Some a => (Ret a, s)
  | None =>
      match make s.2 with
      | (Ret a, s') => (Ret a, (<[singleton_key cls pid := a]> s.1, s'))
      | (Stop r, s') => (Stop r, (s.1, s'))
      end
  end.
End singleton.

(** The calls of a redis connection. *)
Class Redis (R : Type) := {
  redis_get : string → M R (option string);
  redis_setex : string → Z → string → M R unit;
  redis_delete : list string → M R unit;
}.

Section redis.
Context {R : Type} `{Redis R}.

(** [None] when the call fails: the caller gets no pair. *)
Definition rm_get (key : string) : M R (option (bool * option string)) :=
  catchM (v ← redis_get key;
          mret (Some (match v with Some "" | None => (false, v) | Some _ => (true, v) end)))
    (λ _, mret None).
Definition expire_seconds : Z := 108000 * 24 * 5.
Definition rm_set (key value : string) : M R unit :=
  catchM (redis_setex key expire_seconds value) (λ _, mret tt).
(** The message of the handler is formatted with the keys: without keys it raises. *)
Definition rm_delete (keys : list string) : M R unit :=
  catchM (redis_delete keys)
    (λ _, match keys with [] => raiseM IndexError | _ => mret tt end).
End redis.

(** ** Lemmas *)
Section fields.
Context (m : model) (reserved : list string).

(** The value is not passed over. *)
Definition settable (kv : string * jval) : bool :=
  negb (bool_decide (kv.1 ∈ reserved)) &&
  match find_column m kv.1 with Some c => negb (py_eq kv.2 (co_default c)) | None => false end.

Lemma py_eq_refl v : py_eq v v = true.
Proof. destruct v; unfold py_eq; simpl; [done|apply Z.eqb_refl..|by apply bool_decide_eq_true]. Qed.

Lemma find_column_Some k c : find_column m k = Some c → c ∈ md_columns m ∧ co_name c = k.
Proof.
  unfold find_column. intros ([i c'] & Hf & [= ->])%bind_Some.
  apply list_find_Some in Hf as (Hl & Hn & _). split; [|done]. by eapply list_elem_of_lookup_2.
Qed.

Lemma set_field_lookup data kv k :
  set_field m reserved data kv !! k
  = if bool_decide (k = kv.1) && settable kv then Some kv.2 else data !! k.
Proof.
  unfold set_field, settable. destruct (bool_decide (kv.1 ∈ reserved)); cbn [negb andb].
  { by rewrite andb_false_r. }
  destruct (find_column m kv.1) as [c|]; [|by rewrite andb_false_r].
  destruct (py_eq kv.2 (co_default c)); cbn [negb]; [by rewrite andb_false_r|].
  rewrite andb_true_r. case_bool_decide as Hk; [by rewrite Hk, lookup_insert_eq|].
  by rewrite lookup_insert_ne.
Qed.

Lemma settable_true kv :
  settable kv = true ↔
  (kv.1 ∉ reserved) ∧ ∃ c, find_column m kv.1 = Some c ∧ py_eq kv.2 (co_default c) = false.
Proof.
  unfold settable. rewrite andb_true_iff, negb_true_iff, bool_decide_eq_false.
  destruct (find_column m kv.1) as [c|]; [rewrite negb_true_iff|]; naive_solver.
Qed.

(** Whatever holds of a column under each of the values that the loop may give it
    holds afterwards. *)
Lemma set_fields_keeps (P : option jval → Prop) k info : ∀ data,
  P (data !! k) →
  (∀ v c, k ∉ reserved → find_column m k = Some c → py_eq v (co_default c) = false → P (Some v)) →
  P (set_fields m reserved info data !! k).
Proof.
  induction info as [|kv info IH]; intros data Hd Hv; [done|].
  cbn [set_fields foldl]. apply IH; [|done]. rewrite set_field_lookup.
  destruct (bool_decide (k = kv.1) && settable kv) eqn:E; [|done].
  apply andb_true_iff in E as [->%bool_decide_eq_true (Hr & c & Hf & Hq)%settable_true].
  by eapply Hv.
Qed.

Lemma set_fields_reserved k info data :
  k ∈ reserved → set_fields m reserved info data !! k = data !! k.
Proof.
  intros Hk. apply (set_fields_keeps (λ o, o = data !! k)); [done|]. intros v c Hn. done.
Qed.
End fields.

(** A field has been given a value other than its default. *)
Definition is_set (m : model) (k : string) (o : option jval) : Prop :=
  ∃ v c, o = Some v ∧ find_column m k = Some c ∧ py_eq v (co_default c) = false.

Lemma set_fields_set m reserved k info data :
  is_set m k (data !! k) → is_set m k (set_fields m reserved info data !! k).
Proof.
  intros Hd. apply set_fields_keeps; [done|]. intros v c _ Hf Hq. by exists v, c.
Qed.

(** A row of the table: only columns of the table, and all of those that may not
    be null. *)
Definition typed_row (m : model) (r : row) : Prop :=
  (∀ k, is_Some (r !! k) → is_Some (find_column m k)) ∧ complete_row m r = true.

Lemma complete_row_spec m r :
  complete_row m r = true ↔
  ∀ c, c ∈ md_columns m → co_null c = false → ∃ v, r !! co_name c = Some v ∧ v ≠ JNull.
Proof.
  unfold complete_row. rewrite forallb_forall. split.
  - intros Hf c Hc Hn. specialize (Hf c). rewrite Hn in Hf. cbn in Hf.
    destruct (r !! co_name c) as [v|]; [|by rewrite list_elem_of_In in Hc; apply Hf in Hc].
    exists v. split; [done|]. rewrite list_elem_of_In in Hc. apply Hf in Hc. by destruct v.
  - intros Hf c Hc. apply list_elem_of_In in Hc. destruct (co_null c) eqn:Hn; [done|]. cbn.
    destruct (Hf c Hc Hn) as (v & -> & Hv). by destruct v.
Qed.

(** The columns have different names, and those that may not be null no default. *)
Record model_ok (m : model) : Prop := mkOk {
  ok_columns : Forall (λ c, find_column m (co_name c) = Some c) (md_columns m);
  ok_defaults : Forall (λ c, co_null c = false → co_default c = JNull) (md_columns m);
  ok_key : ∃ c, find_column m (md_key m) = Some c ∧ co_null c = false;
}.
Lemma models_ok : Forall model_ok [DataBlockMeta; DataSourceMeta; DataSource; Coordinator].
Proof.
  repeat constructor; try (by eexists (char _)); intros; done.
Qed.

Lemma set_fields_typed m reserved info data :
  model_ok m → typed_row m data → typed_row m (set_fields m reserved info data).
Proof.
  intros [Hcol Hdef _] [Hc Hn]. split.
  - intros k. apply (set_fields_keeps m reserved (λ o, is_Some o → is_Some (find_column m k)));
      [apply Hc|]. intros v c _ Hf _ _. by exists c.
  - apply complete_row_spec. intros c Hin Hnull. rewrite Forall_forall in Hcol, Hdef.
    apply (set_fields_keeps m reserved (λ o, ∃ v, o = Some v ∧ v ≠ JNull)).
    + by apply (proj1 (complete_row_spec m data) Hn).
    + intros v c' _ Hf Hq. exists v. split; [done|]. intros ->.
      rewrite (Hcol c Hin) in Hf. injection Hf as <-. by rewrite (Hdef c Hin Hnull), py_eq_refl in Hq.
Qed.

Definition models : list model := [DataBlockMeta; DataSourceMeta; DataSource; Coordinator].
Lemma models_by_table m m' : m ∈ models → m' ∈ models → md_table m = md_table m' → m = m'.
Proof.
  rewrite !list_elem_of_In. simpl.
  intros [<-|[<-|[<-|[<-|[]]]]] [<-|[<-|[<-|[<-|[]]]]]; done.
Qed.

(** Every row is a row of its table, under its key. *)
Definition typed_db (d : db) : Prop :=
  ∀ t k r, db_rows d !! (t, k) = Some r →
    ∃ m, m ∈ models ∧ md_table m = t ∧ key_of m r = Some k ∧ typed_row m r.

Lemma typed_insert m k r (d : db) :
  m ∈ models → key_of m r = Some k → typed_row m r → typed_db d →
  typed_db (set_rows (<[(md_table m, k) := r]> (db_rows d)) d).
Proof.
  intros Hm Hk Hr Hd t k' r'. cbn. destruct (decide ((md_table m, k) = (t, k'))) as [[= <- <-]|Hne].
  - rewrite lookup_insert_eq. intros [= <-]. by exists m.
  - rewrite lookup_insert_ne by done. apply Hd.
Qed.
Lemma typed_clock (d : db) n c : typed_db d → typed_db (mkDb (db_rows d) n c).
Proof. done. Qed.

Lemma typed_union m (r r' : row) : typed_row m r → typed_row m r' → typed_row m (r ∪ r').
Proof.
  intros [Hc Hn] [Hc' Hn']. split.
  - intros k [v Hv]. apply lookup_union_Some_raw in Hv as [Hv|[_ Hv]]; eauto.
  - apply complete_row_spec. intros c Hin Hnull.
    destruct (proj1 (complete_row_spec m r) Hn c Hin Hnull) as (v & Hv & Hne).
    exists v. split; [|done]. by apply lookup_union_Some_raw; left.
Qed.
Lemma models_all_ok m : m ∈ models → model_ok m.
Proof. pose proof models_ok as Hok. rewrite Forall_forall in Hok. apply Hok. Qed.
Lemma typed_set m k v c r :
  m ∈ models → find_column m k = Some c → co_null c = true ∨ v ≠ JNull →
  typed_row m r → typed_row m (<[k := v]> r).
Proof.
  intros Hm Hk Hv [Hc Hn]. destruct (models_all_ok m Hm) as [Hcol _ _]. split.
  - intros k' Hs. destruct (decide (k = k')) as [<-|]; [by eexists|].
    rewrite lookup_insert_ne in Hs by done. by apply Hc.
  - apply complete_row_spec. intros c' Hin Hnull.
    destruct (proj1 (complete_row_spec m r) Hn c' Hin Hnull) as (w & Hw & Hne).
    destruct (decide (k = co_name c')) as [->|].
    + rewrite Forall_forall in Hcol. rewrite (Hcol c' Hin) in Hk. injection Hk as <-.
      exists v. rewrite lookup_insert_eq. split; [done|]. destruct Hv; congruence.
    + exists w. by rewrite lookup_insert_ne.
Qed.

Section saving.
Context `{Timestamps}.

Definition stamped (t : Z) (data : row) : row := <["update_time" := JInt t]> data.
Lemma key_stamped m t data : md_key m ≠ "update_time" → key_of m (stamped t data) = key_of m data.
Proof. intros Hk. unfold key_of, stamped. by rewrite lookup_insert_ne. Qed.

(** [save], for a table with a time of update. *)
Lemma save_row_run m force_insert data (d : db) :
  is_Some (find_column m "update_time") →
  let d1 := mkDb (db_rows d) (S (db_clock d)) (db_connected d) in
  let data1 := stamped (now (db_clock d)) data in
  save m force_insert data d
  = match key_of m data1 with
    | Some k =>
        if force_insert then
          if complete_row m data1 && bool_decide (db_rows d !! (md_table m, k) = None)
          then (Ret tt, set_rows (<[(md_table m, k) := data1]> (db_rows d)) d1)
          else (raise IntegrityError, d1)
        else (Ret tt, set_rows (alter (λ old, data1 ∪ old) (md_table m, k) (db_rows d)) d1)
    | None => if force_insert then (raise IntegrityError, d1) else (Ret tt, d1)
    end.
Proof.
  intros Hu d1 data1. unfold save. rewrite bool_decide_true by done.
  unfold current_timestamp. rewrite run_bind, run_bind, run_ret. cbv beta iota zeta.
  rewrite run_bind. cbn [getM]. fold d1.
  change (<["update_time" := JInt (now (db_clock d))]> data) with data1.
  destruct force_insert, (key_of m data1) as [k|]; try done.
  rewrite run_bind. unfold require. change (db_rows d1) with (db_rows d).
  by destruct (complete_row m data1 && _).
Qed.

End saving.

Section blocks.
Context `{Timestamps}.

(** The row of a block that a request leaves. *)
Definition block_row (s : managers) (info : list (string * jval)) (base : row) (t : Z) : row :=
  stamped t (set_fields DataBlockMeta block_reserved info (block_fields s base)).
(** A block that is new at the [c]-th reading of the clock. *)
Definition new_block (c : nat) : row :=
  stamped (now (S c)) (<["create_time" := JInt (now c)]> (new_instance DataBlockMeta)).

Definition block_key (b : string) : string * string := ("data_block_meta", b).

Lemma block_row_id s info base t b :
  dm_block_id s = Some b → key_of DataBlockMeta (block_row s info base t) = Some b.
Proof.
  intros Hb. unfold block_row. rewrite key_stamped by done. unfold key_of. cbn [md_key DataBlockMeta].
  rewrite set_fields_reserved by by left. unfold block_fields.
  by rewrite !lookup_insert_ne, lookup_insert_eq, Hb by done.
Qed.

Lemma set_fields_dom m reserved info data : dom data ⊆ dom (set_fields m reserved info data).
Proof.
  intros k Hk. apply elem_of_dom. apply elem_of_dom in Hk.
  apply set_fields_keeps; [done|]. intros. by eexists.
Qed.
Lemma block_row_over s info base t : block_row s info base t ∪ base = block_row s info base t.
Proof.
  apply map_eq. intros k. rewrite lookup_union.
  destruct (base !! k) as [v|] eqn:Hb; [|by destruct (block_row s info base t !! k)].
  assert (is_Some (block_row s info base t !! k)) as [w ->]; [|done].
  apply elem_of_dom. unfold block_row, stamped. rewrite dom_insert_L.
  apply elem_of_union_r, set_fields_dom. unfold block_fields. rewrite !dom_insert_L.
  do 3 apply elem_of_union_r. by apply elem_of_dom_2 in Hb.
Qed.

(** An update or insert of a block, on each of its branches. *)
Lemma save_block_run s info create b (d : db) :
  dm_block_id s = Some b → db_connected d = true →
  save_data_block_meta_info s info create d
  = match db_rows d !! block_key b with
    | Some r =>
        (Ret tt, mkDb (<[block_key b := block_row s info r (now (db_clock d))]> (db_rows d))
                   (S (db_clock d)) true)
    | None =>
        if create then
          let r := block_row s info (new_block (db_clock d)) (now (S (S (db_clock d)))) in
          if complete_row DataBlockMeta r
          then (Ret tt, mkDb (<[block_key b := r]> (db_rows d)) (S (S (S (db_clock d)))) true)
          else (raise IntegrityError, mkDb (db_rows d) (S (S (S (db_clock d)))) true)
        else (Ret tt, d)
    end.
Proof.
  intros Hb Hc. unfold save_data_block_meta_info, save_info, connection_context, select_first.
  rewrite run_bind, run_bind. cbn [getM]. rewrite Hc. unfold require. rewrite run_ret.
  change (find_column DataBlockMeta "block_id") with (Some (char "block_id")).
  rewrite run_bind, run_bind. cbn [getM]. rewrite run_ret, Hb.
  change (md_table DataBlockMeta, b) with (block_key b).
  destruct (db_rows d !! block_key b) as [r|] eqn:Er; cbn [row_to_save].
  - rewrite run_bind, run_ret. cbv beta iota. rewrite save_row_run by by eexists (int _). cbv zeta.
    fold (block_row s info r (now (db_clock d))). rewrite (block_row_id _ _ _ _ _ Hb).
    change (md_table DataBlockMeta, b) with (block_key b). unfold set_rows. cbn. rewrite Hc.
    f_equal. f_equal. apply map_eq. intros i. destruct (decide (block_key b = i)) as [<-|].
    + rewrite lookup_alter_eq, lookup_insert_eq, Er. cbn. by rewrite block_row_over.
    + by rewrite lookup_alter_ne, lookup_insert_ne.
  - destruct create; [|by rewrite run_bind, run_ret].
    rewrite run_bind, run_bind. unfold current_timestamp at 1. rewrite run_bind.
    unfold current_timestamp at 1. rewrite run_ret. cbv beta iota.
    rewrite save_row_run by by eexists (int _). cbn [db_rows db_clock db_connected]. cbv zeta.
    change (<["update_time":=JInt (now (S (db_clock d)))]>
              (<["create_time":=JInt (now (db_clock d))]> (new_instance DataBlockMeta)))
      with (new_block (db_clock d)).
    fold (block_row s info (new_block (db_clock d)) (now (S (S (db_clock d))))).
    rewrite (block_row_id _ _ _ _ _ Hb). change (md_table DataBlockMeta, b) with (block_key b).
    rewrite (bool_decide_true (db_rows d !! block_key b = None)), andb_true_r by done.
    rewrite Hc. by destruct (complete_row _ _).
Qed.

Lemma save_info_sources m (own : row → row) reserved s info create (d : db) :
  find_column m "block_id" = None → save_info m "block_id" s own reserved info create d
                                    = (raise AttributeError, d).
Proof.
  intros Hm. unfold save_info, connection_context, select_first, require.
  rewrite run_bind, run_bind. cbn [getM]. destruct (db_connected d); [|done].
  by rewrite run_ret, run_bind, Hm.
Qed.

(** A request to one of the three tables. *)
Inductive request :=
  | SaveBlock (s : managers) (info : list (string * jval)) (create : bool)
  | SaveSourceMeta (s : managers) (info : list (string * jval)) (create : bool)
  | SaveSource (s : managers) (info : list (string * jval)) (create : bool).
Definition serve (q : request) : M db unit :=
  match q with
  | SaveBlock s info create => save_data_block_meta_info s info create
  | SaveSourceMeta s info create => save_data_source_meta_info s info create
  | SaveSource s info create => save_data_source_info s info create
  end.
(** The requests are served one after the other; one that fails ends alone. *)
Definition serve_all (qs : list request) (d : db) : db := foldl (λ d q, (serve q d).2) d qs.

Lemma no_connection s info create (d : db) :
  db_connected d = false → save_data_block_meta_info s info create d = (raise AttributeError, d).
Proof.
  intros Hc. unfold save_data_block_meta_info, save_info, connection_context, require.
  rewrite run_bind, run_bind. cbn [getM]. by rewrite Hc.
Qed.

Lemma block_row_columns s info base t :
  (∀ k, is_Some (base !! k) → is_Some (find_column DataBlockMeta k)) →
  ∀ k, is_Some (block_row s info base t !! k) → is_Some (find_column DataBlockMeta k).
Proof.
  intros Hb k. unfold block_row, stamped.
  destruct (decide ("update_time" = k)) as [<-|]; [by eexists (int _)|].
  rewrite lookup_insert_ne by done.
  apply (set_fields_keeps DataBlockMeta block_reserved
           (λ o, is_Some o → is_Some (find_column DataBlockMeta k))).
  - unfold block_fields.
    destruct (decide ("file_version" = k)) as [<-|]; [by eexists (int0 _)|].
    rewrite lookup_insert_ne by done.
    destruct (decide ("partition_id" = k)) as [<-|]; [by eexists (int0 _)|].
    rewrite lookup_insert_ne by done.
    destruct (decide ("block_id" = k)) as [<-|]; [by eexists (char _)|].
    rewrite lookup_insert_ne by done. apply Hb.
  - intros v c _ Hf _ _. by exists c.
Qed.

Lemma new_block_columns c k : is_Some (new_block c !! k) → is_Some (find_column DataBlockMeta k).
Proof.
  unfold new_block, stamped. destruct (decide ("update_time" = k)) as [<-|]; [by eexists (int _)|].
  rewrite lookup_insert_ne by done.
  destruct (decide ("create_time" = k)) as [<-|]; [by eexists (int _)|].
  rewrite lookup_insert_ne by done. intros [v Hv]. unfold new_instance in Hv.
  apply elem_of_list_to_map_2, list_elem_of_fmap in Hv as (col & [= -> ->] & Hcol).
  apply list_elem_of_filter in Hcol as [_ Hcol].
  pose proof models_ok as Hok. apply Forall_cons in Hok as [[Hf _ _] _].
  rewrite Forall_forall in Hf. exists col. by apply Hf.
Qed.

Lemma block_row_typed s info base t b :
  dm_block_id s = Some b → typed_row DataBlockMeta base → typed_row DataBlockMeta (block_row s info base t).
Proof.
  intros Hb Hr. assert (DataBlockMeta ∈ models) as Hm by by left. unfold block_row, stamped.
  apply (typed_set _ _ _ (int "update_time")); [done|done|by right|].
  apply set_fields_typed; [by apply models_all_ok|]. unfold block_fields.
  apply (typed_set _ _ _ (int0 "file_version")); [done|done|by left|].
  apply (typed_set _ _ _ (int0 "partition_id")); [done|done|by left|].
  apply (typed_set _ _ _ (char "block_id")); [done|done|by right; rewrite Hb|done].
Qed.

Lemma save_block_without_id s info create (d : db) :
  dm_block_id s = None → db_rows (save_data_block_meta_info s info create d).2 = db_rows d.
Proof.
  intros Hb. destruct (db_connected d) eqn:Hc; [|by rewrite no_connection].
  unfold save_data_block_meta_info, save_info, connection_context, select_first, require.
  rewrite run_bind, run_bind. cbn [getM]. rewrite Hc, run_ret.
  change (find_column DataBlockMeta "block_id") with (Some (char "block_id")).
  rewrite run_bind, run_bind. cbn [getM]. rewrite run_ret, Hb. cbn [row_to_save].
  destruct create; [|by rewrite run_bind, run_ret].
  rewrite run_bind, run_bind. unfold current_timestamp at 1. rewrite run_bind.
  unfold current_timestamp at 1. rewrite run_ret. cbv beta iota.
  rewrite save_row_run by by eexists (int _). cbv zeta. rewrite key_stamped by done.
  unfold key_of. rewrite set_fields_reserved by by left. unfold block_fields.
  by rewrite !lookup_insert_ne, lookup_insert_eq, Hb by done.
Qed.

Lemma typed_block (d : db) b r :
  typed_db d → db_rows d !! block_key b = Some r → typed_row DataBlockMeta r.
Proof.
  intros Hd Hr. destruct (Hd _ _ _ Hr) as (m & Hm & Ht & _ & Hty).
  by rewrite (models_by_table DataBlockMeta m) by (done || by left).
Qed.

Lemma save_block_typed s info create (d : db) :
  typed_db d → typed_db (save_data_block_meta_info s info create d).2.
Proof.
  intros Hd. destruct (dm_block_id s) as [b|] eqn:Hb.
  2:{ intros t k r. rewrite save_block_without_id by done. apply Hd. }
  destruct (db_connected d) eqn:Hc; [|by rewrite no_connection].
  rewrite (save_block_run _ _ _ _ _ Hb Hc).
  destruct (db_rows d !! block_key b) as [r|] eqn:Er; [|destruct create; [|done]].
  - apply (typed_insert DataBlockMeta b _ (mkDb (db_rows d) _ _)); [by left| | |done].
    + by apply block_row_id.
    + eapply block_row_typed; [done|]. by eapply typed_block.
  - cbv zeta. destruct (complete_row _ _) eqn:E; [|done].
    apply (typed_insert DataBlockMeta b _ (mkDb (db_rows d) _ _)); [by left| | |done].
    + by apply block_row_id.
    + split; [|done]. apply block_row_columns, new_block_columns.
Qed.

Lemma serve_sources_run q (d : db) :
  match q with SaveBlock _ _ _ => True | _ => serve q d = (raise AttributeError, d) end.
Proof. destruct q; [done|by apply save_info_sources..]. Qed.

Lemma serve_typed q (d : db) : typed_db d → typed_db (serve q d).2.
Proof.
  intros Hd. pose proof (serve_sources_run q d) as Hq.
  destruct q; [by apply save_block_typed|by rewrite Hq..].
Qed.

(** A field that was given a value other than its default keeps one. *)
Lemma serve_keeps_set q (d : db) b k r :
  k ∉ block_reserved → db_rows d !! block_key b = Some r → is_set DataBlockMeta k (r !! k) →
  ∃ r', db_rows (serve q d).2 !! block_key b = Some r' ∧ is_set DataBlockMeta k (r' !! k).
Proof.
  intros Hk Hr Hs. pose proof (serve_sources_run q d) as Hq.
  destruct q as [s info create| |]; [|rewrite Hq; by exists r..]. clear Hq. cbn [serve].
  destruct (dm_block_id s) as [b'|] eqn:Hb.
  2:{ rewrite save_block_without_id by done. by exists r. }
  destruct (db_connected d) eqn:Hc; [|rewrite no_connection by done; by exists r].
  rewrite (save_block_run _ _ _ _ _ Hb Hc).
  destruct (decide (b' = b)) as [->|Hne].
  - rewrite Hr. eexists. split; [by apply lookup_insert_eq|]. unfold block_row, stamped.
    destruct (decide ("update_time" = k)) as [<-|].
    { rewrite lookup_insert_eq. by eexists _, (int _). }
    rewrite lookup_insert_ne by done. apply set_fields_set. unfold block_fields.
    unfold block_reserved in Hk. rewrite !lookup_insert_ne by set_solver. done.
  - assert (block_key b' ≠ block_key b) as Hkey by (by intros [= ->]).
    destruct (db_rows d !! block_key b'); [|destruct create; [cbv zeta; destruct (complete_row _ _)|]];
      cbn [snd db_rows]; rewrite ?lookup_insert_ne by done; by exists r.
Qed.

Lemma set_fields_get m reserved info data k :
  NoDup info.*1 →
  set_fields m reserved info data !! k
  = match Dict.get k info with
    | Some v => if settable m reserved (k, v) then Some v else data !! k
    | None => data !! k
    end.
Proof.
  revert data. induction info as [|[k' v'] info IH]; intros data Hnd; [done|].
  rewrite fmap_cons in Hnd. apply NoDup_cons in Hnd as [Hk' Hnd].
  cbn [set_fields foldl Dict.get]. unfold set_fields in IH. rewrite IH by done.
  rewrite set_field_lookup. cbn [fst snd].
  destruct (decide (k' = k)) as [->|Hne].
  - rewrite !bool_decide_true by done. cbn [andb]. 
    rewrite (proj2 (Dict.get_None k info) Hk'). by rewrite decide_True.
  - rewrite bool_decide_false, decide_False by done. done.
Qed.
End blocks.

(** ** The pool *)
Section pool.
Context {A S : Type} (cls : string) (make : M S A).

Lemma singleton_key_inj c pid pid' : singleton_key c pid = singleton_key c pid' → pid = pid'.
Proof. unfold singleton_key. intros Hk%Str.append_inj_l. by apply (inj pretty) in Hk. Qed.

(** The instances that a sequence of calls, each by some process, returns. *)
Fixpoint instances (pids : list Z) (s : gmap string A * S) : list (Z * A) :=
  match pids with
  | [] => []
  | pid :: pids' =>
      match singleton cls make pid s with
      | (Ret a, s') => (pid, a) :: instances pids' s'
      | (Stop _, s') => instances pids' s'
      end
  end.

Lemma instances_known pids : ∀ s pid a,
  s.1 !! singleton_key cls pid = Some a →
  ∀ a', (pid, a') ∈ instances pids s → a' = a.
Proof.
  induction pids as [|p pids IH]; intros s pid a Ha a' Hin; [by apply not_elem_of_nil in Hin|].
  cbn [instances] in Hin. unfold singleton in Hin.
  destruct (s.1 !! singleton_key cls p) as [b|] eqn:Eb.
  - apply elem_of_cons in Hin as [[= -> ->]|Hin]; [congruence|by eapply IH].
  - destruct (make s.2) as [[b|r] s'].
    + assert (pid ≠ p) as Hne by (intros ->; congruence).
      assert (singleton_key cls p ≠ singleton_key cls pid) as Hk
        by (intros Hk%singleton_key_inj; congruence).
      apply elem_of_cons in Hin as [[= -> ->]|Hin]; [done|].
      eapply IH, Hin. cbn. by rewrite lookup_insert_ne.
    + by eapply IH, Hin.
Qed.

(** Whatever the interleaving of the processes, all calls that one process makes
    get one and the same instance. *)
Lemma one_instance_per_process pids s pid a a' :
  (pid, a) ∈ instances pids s → (pid, a') ∈ instances pids s → a = a'.
Proof.
  revert s. induction pids as [|p pids IH]; intros s; [by intros ?%not_elem_of_nil|].
  cbn [instances]. unfold singleton. destruct (s.1 !! singleton_key cls p) as [b|] eqn:Eb.
  - rewrite !elem_of_cons. intros [Ha|Ha] [Ha'|Ha']; simplify_eq; [done|..|by eapply IH];
      [symmetry|]; by eapply instances_known.
  - destruct (make s.2) as [[b|r] s']; [|by apply IH].
    rewrite !elem_of_cons. intros [Ha|Ha] [Ha'|Ha']; simplify_eq; [done|..|by eapply IH];
      [symmetry|]; (eapply instances_known; [|eassumption]); apply lookup_insert_eq.
Qed.
End pool.

(** Reads and writes never raise; they hide a failure of the connection. *)
Lemma rm_get_total {R} `{Redis R} key (r : R) :
  (∀ k r, ∃ o r', redis_get k r = (o, r') ∧ (∀ s, o = Stop s → ∃ e, s = Raise e)) →
  ∃ v r', rm_get key r = (Ret v, r').
Proof.
  intros Hg. destruct (Hg key r) as (o & r' & Hr & Hs). unfold rm_get, catchM.
  rewrite run_bind, Hr. destruct o as [v|s].
  - destruct v as [[|c v]|]; by eexists _, r'.
  - destruct (Hs s eq_refl) as [e ->]. by eexists _, r'.
Qed.

(** ** Properties *)
Section properties.
Context `{Timestamps}.

(** C24.  A request to create the status of a block updates the row of the block
    or inserts one.  The row gets the partition and version of the request, each
    given field whose value is not the default of its column, and a new time of
    update; every other column, and every other row, stays.  A new row starts
    from the defaults of the table, and is refused when a column that must not be
    null is missing. *)
Theorem request_upserts_block b p v info (d : db) :
  db_connected d = true → NoDup info.*1 →
  let base := match db_rows d !! block_key b with
              | Some r => r | None => new_block (db_clock d) end in
  let s := mkManagers (Some b) p v None None None JNull in
  ∃ t clock, let r := block_row s info base t in
    update_data_block_meta_status (Some b) p v info true d
    = (if bool_decide (is_Some (db_rows d !! block_key b)) || complete_row DataBlockMeta r
       then (Ret tt, mkDb (<[block_key b := r]> (db_rows d)) clock true)
       else (raise IntegrityError, mkDb (db_rows d) clock true)) ∧
    r !! "partition_id" = Some (opt p) ∧ r !! "file_version" = Some (opt v) ∧
    r !! "update_time" = Some (JInt t) ∧
    ∀ k, k ∉ ["block_id"; "partition_id"; "file_version"; "update_time"] →
      r !! k = match Dict.get k info with
               | Some w => if settable DataBlockMeta block_reserved (k, w) then Some w else base !! k
               | None => base !! k
               end.
Proof.
  intros Hc Hnd base s.
  set (t := now (match db_rows d !! block_key b with
                 | Some _ => db_clock d | None => S (S (db_clock d)) end)).
  exists t, (match db_rows d !! block_key b with
             | Some _ => S (db_clock d) | None => S (S (S (db_clock d))) end).
  cbv zeta. split; [|split; [|split; [|split]]].
  - unfold update_data_block_meta_status. rewrite (save_block_run s info true b d) by done.
    unfold t, base. destruct (db_rows d !! block_key b); [done|]. cbv zeta.
    rewrite bool_decide_false by (by intros [? ?]). cbn [orb]. by destruct (complete_row _ _).
  - unfold block_row, stamped. rewrite lookup_insert_ne, set_fields_reserved; [|set_solver|done].
    unfold block_fields. by rewrite lookup_insert_ne, lookup_insert_eq.
  - unfold block_row, stamped. rewrite lookup_insert_ne, set_fields_reserved; [|set_solver|done].
    unfold block_fields. by rewrite lookup_insert_eq.
  - apply lookup_insert_eq.
  - intros k Hk. unfold block_row, stamped. rewrite lookup_insert_ne by set_solver.
    rewrite set_fields_get by done. unfold block_fields. by rewrite !lookup_insert_ne by set_solver.
Qed.

(** C30.  The tables stay well typed: whatever is requested, with any fields and
    values, every row has only columns of its table, no null where the column
    must not be null, and stands under its own key. *)
Theorem requests_keep_tables_typed qs (d : db) : typed_db d → typed_db (serve_all qs d).
Proof.
  unfold serve_all. revert d. induction qs as [|q qs IH]; intros d Hd; [done|].
  apply IH. by apply serve_typed.
Qed.

(** C33.  A registered block stays registered, and its progress cannot be undone:
    a field that was once given a value other than its default, such as the
    status, may change but never goes back to the default, whatever is
    requested.  Any field but the three that name the block and that every request
    sets: its id, the partition and the file version ([block_reserved]). *)
Theorem fields_never_go_back_to_default qs (d : db) b k r :
  k ∉ block_reserved → db_rows d !! block_key b = Some r → is_set DataBlockMeta k (r !! k) →
  ∃ r', db_rows (serve_all qs d) !! block_key b = Some r' ∧ is_set DataBlockMeta k (r' !! k).
Proof.
  intros Hk. unfold serve_all. revert d r. induction qs as [|q qs IH]; intros d r Hr Hs; [by exists r|].
  destruct (serve_keeps_set q d b k r Hk Hr Hs) as (r' & Hr' & Hs'). by eapply IH.
Qed.

(** Data sources and their metas cannot be saved at all: the rows are looked
    up by a column that only the table of blocks has. *)
Theorem data_sources_cannot_be_saved s info create (d : db) :
  save_data_source_meta_info s info create d = (raise AttributeError, d) ∧
  save_data_source_info s info create d = (raise AttributeError, d).
Proof.
  exact (conj (save_info_sources DataSourceMeta _ _ _ _ _ _ eq_refl)
           (save_info_sources DataSource _ _ _ _ _ _ eq_refl)).
Qed.
End properties.

Section witnesses.
#[local] Instance test_timestamps : Timestamps := { now n := 1000 + Z.of_nat n }.

Definition test_info (status : Z) : list (string * jval) :=
  [("start_time", JInt 3); ("dfs_data_block_dir", JStr "d"); ("create_status", JInt status);
   ("data_source_name", JStr "s"); ("junk", JInt 1)].
Definition empty_db : db := mkDb ∅ 0 true.
Definition test_db : db :=
  (update_data_block_meta_status (Some "b0") (Some "1") (Some "2") (test_info 2) true empty_db).2.
Definition row_status (d : db) : option jval :=
  db_rows d !! block_key "b0" ≫= lookup "create_status".

(** An update to status 0 has no effect, one to 3 has. *)
Example status_updates :
  let update n d :=
    (update_data_block_meta_status (Some "b0") (Some "1") (Some "2") (test_info n) true d).2 in
  (row_status test_db, row_status (update 0 test_db), row_status (update 3 test_db))
  = (Some (JInt 2), Some (JInt 2), Some (JInt 3)).
Proof. vm_compute. reflexivity. Qed.

Lemma test_info_NoDup n : NoDup (test_info n).*1.
Proof.
  unfold test_info. rewrite !fmap_cons. cbn [fst fmap list_fmap].
  repeat (apply NoDup_cons_2; [set_solver|]). apply NoDup_nil_2.
Qed.

Lemma request_upserts_block_witness :
  let s := mkManagers (Some "b0") (Some "1") (Some "2") None None None JNull in
  ∃ t clock, let r := block_row s (test_info 2) (new_block 0) t in
    update_data_block_meta_status (Some "b0") (Some "1") (Some "2") (test_info 2) true empty_db
    = (Ret tt, mkDb (<[block_key "b0" := r]> ∅) clock true) ∧
    r !! "create_status" = Some (JInt 2).
Proof.
  destruct (request_upserts_block "b0" (Some "1") (Some "2") (test_info 2) empty_db eq_refl
              (test_info_NoDup 2)) as (t & clock & Hr & _ & _ & _ & Hk).
  exists t, clock. split; [exact Hr|]. rewrite Hk; [reflexivity|].
  intros Hin%list_elem_of_In. simpl in Hin. by repeat destruct Hin as [Hin|Hin].
Defined.

(** A new block with fields, of which one is unknown and one the default; the same
    block again with another version and status; one without the directory that must
    not be null; a block without an id; a data source. *)
Definition test_managers (b v : string) : managers :=
  mkManagers (Some b) (Some "1") (Some v) None None None JNull.
Definition test_requests : list request :=
  [SaveBlock (test_managers "b0" "2") (test_info 2) true;
   SaveBlock (test_managers "b0" "3") (test_info 3) true;
   SaveBlock (test_managers "b1" "2") [("start_time", JInt 3)] true;
   SaveBlock (mkManagers None None None None None None JNull) (test_info 2) true;
   SaveSource (test_managers "b0" "2") (test_info 2) true;
   SaveBlock (test_managers "b2" "2") (test_info 0) true].

Lemma empty_db_typed : typed_db empty_db.
Proof. by intros t k r Hr. Qed.

(** Two rows are left, and what is in them. *)
Lemma requests_keep_tables_typed_witness :
  let d := serve_all test_requests empty_db in
  typed_db d ∧ size (db_rows d) = 2%nat ∧
  (λ r : row, (r !! "file_version", r !! "create_status", r !! "dfs_data_block_dir", r !! "junk"))
    <$> db_rows d !! block_key "b0"
  = Some (Some (JStr "3"), Some (JInt 3), Some (JStr "d"), None) ∧
  db_rows d !! block_key "b1" = None ∧
  (db_rows d !! block_key "b2" ≫= lookup "create_status") = Some (JInt 0).
Proof.
  intros d. split_and!; [|by vm_compute..].
  apply (requests_keep_tables_typed test_requests empty_db), empty_db_typed.
Defined.

Definition one_block : db :=
  mkDb {[block_key "b0" := {["create_status" := JInt 2]}]} 0 true.
Lemma fields_never_go_back_to_default_witness :
  ∃ r', db_rows (serve_all [SaveBlock (mkManagers (Some "b0") None None None None None JNull)
                              [("create_status", JInt 0)] true] one_block) !! block_key "b0" = Some r' ∧
        is_set DataBlockMeta "create_status" (r' !! "create_status").
Proof.
  apply (fields_never_go_back_to_default _ one_block "b0" "create_status"
           {["create_status" := JInt 2]}).
  - intros Hin%list_elem_of_In. simpl in Hin. by repeat destruct Hin as [Hin|Hin].
  - apply lookup_singleton_eq.
  - exists (JInt 2), (int0 "create_status"). by rewrite lookup_singleton_eq.
Defined.
End witnesses.
