(* ===== verification/DataCenter.v ===== *)
(** * Registering the blocks with the data center

    [routine/parse_data_block_meta_routine.py] takes a request for a directory of
    blocks and starts [controller/parse_data_block_meta.py], which pairs the meta
    and data files of each partition and starts
    [controller/sync_convert_data_block.py] for each pair, which posts the block to
    the data center, whose row is saved by [DataBase].  A started process is a
    command line in a log; [exec] runs one.  The route of the data center that the
    post reaches is not in the repository. *)

From stdpp Require Import base tactics list gmap strings pretty.
From Stdlib Require Import ZArith Lia Ascii.
From S2P Require Import Prelude Threads PyStd DataBase Messages Env RawData.

Open Scope Z_scope.

(** ** Command lines *)

(** argparse: a word that may not stand for the value of an option. *)
Fixpoint all_digits (s : string) : bool :=
  match s with
  | EmptyString => true
  | String c s' => bool_decide (is_Some (Str.digit_val c)) && all_digits s'
  end.
Definition negative_number (v : string) : bool :=
  match Str.split "."%char v with
  | [String "-"%char (String c a)] => all_digits (String c a)
  | [String "-"%char a; String c b] => all_digits a && all_digits (String c b)
  | _ => false
  end.
Definition option_like (options : list string) (v : string) : bool :=
  Str.startswith "-" v && negb (bool_decide (v = "-")) &&
  (existsb (λ o, Str.startswith o v || Str.startswith v o) options ||
   (negb (negative_number v) && negb (Str.mem " "%char v))).

(** [parser.parse_args()] for options that each take a string: their values, by
    destination.  An error ends the process with code 2. *)
Fixpoint parse_args (options : list (string * string)) (argv : list string)
    : outcome (list (string * string)) :=
  match argv with
  | [] => Ret []
  | o :: v :: argv' =>
      match Dict.get o options with
      | Some dest =>
          if option_like options.*1 v then Stop (Exit 2)
          else l ← parse_args options argv'; Ret ((dest, v) :: l)
      | None => Stop (Exit 2)
      end
  | [_] => Stop (Exit 2)
  end.
(** The last value given, or the default; a required option has none. *)
Definition arg (dest : string) (def : option string) (l : list (string * string)) : outcome string :=
  match Dict.get dest (reverse l), def with
  | Some v, _ => Ret v
  | None, Some v => Ret v
  | None, None => Stop (Exit 2)
  end.

(** ** The processes *)

(** A process sees the file system, starts other processes and reaches the data
    center. *)
Record host (F D : Type) := mkHost {
  ho_fs : F;
  ho_spawned : list (list string);
  ho_center : D;
}.
Arguments mkHost {_ _}.
Arguments ho_fs {_ _}.
Arguments ho_spawned {_ _}.
Arguments ho_center {_ _}.

(** [wrap_data_transfer_api(method, endpoint, json_body)] *)
Class DataApi (D : Type) := {
  wrap_data_transfer_api : string → string → list (string * jval) → M D unit;
}.

Section processes.
Context {F D : Type} `{GFile F} `{DataApi D} `{Utils}.
(** The paths of the scripts, and the time at which the process started. *)
Context (parse_script sync_script time_stamp : string).
Local Abbreviation S := (host F D).

Definition on_fs {A} (c : M F A) : M S A :=
  zoom ho_fs (λ fs h, mkHost fs (ho_spawned h) (ho_center h)) c.
Definition on_center {A} (c : M D A) : M S A :=
  zoom ho_center (λ d h, mkHost (ho_fs h) (ho_spawned h) d) c.

Definition run_subprocess (process_cmd : list string) : M S unit :=
  modify (λ h, mkHost (ho_fs h) (ho_spawned h ++ [process_cmd]) (ho_center h)).
Definition sync_command (meta_path data_path : string) : list string :=
  ["python"; sync_script; "-d"; time_stamp; "-m"; meta_path; "-p"; data_path].

(** The plain files of a directory with a suffix, as paths. *)
Definition files_with (dir suffix : string) : M S (list string) :=
  names ← on_fs (gf_list_directory dir);
  h ← getM;
  mret ((λ f, Str.path_join dir f) <$>
    filter (λ f, negb (gf_is_directory (Str.path_join dir f) (ho_fs h)) && Str.endswith suffix f
                 = true) names).

(** [{str(path.split(".")[k]): path}] *)
Definition path_dict (k : Z) (paths : list string) : outcome (list (string * string)) :=
  foldl (λ d path, d ← d; index ← py_index (Str.split "."%char path) k; Ret (Dict.set index path d))
    (Ret []) paths.
Definition dict_item (k : string) (d : list (string * string)) : outcome string :=
  match Dict.get k d with Some v => Ret v | None => raise KeyError end.
Definition pad8 (i : Z) : string := Str.zfill 8 (Str.of_int i).

Definition data_block_controller (dfs_data_block_dir : string) : M S unit :=
  data_meta_fpaths ← files_with dfs_data_block_dir ".meta";
  let data_meta_fpaths := py_sort Str.leb data_meta_fpaths in
  data_block_fpaths ← files_with dfs_data_block_dir ".data";
  assertM (zlen data_meta_fpaths =? zlen data_block_fpaths);;
  metas ← liftO (path_dict (-2) data_meta_fpaths);
  datas ← liftO (path_dict (-3) data_block_fpaths);
  forM (Z.of_nat <$> seq 0 (length datas)) (λ i,
    meta_path ← liftO (dict_item (pad8 i) metas);
    data_path ← liftO (dict_item (pad8 i) datas);
    run_subprocess (sync_command meta_path data_path)).

(** [s.strip('/')] *)
Fixpoint lstrip_slash (s : string) : string :=
  match s with String "/"%char s' => lstrip_slash s' | _ => s end.
Definition strip_slash (s : string) : string :=
  String.rev (lstrip_slash (String.rev (lstrip_slash s))).

(** [StartParseDataBlockMeta.run_task] *)
Definition parse_options : list (string * string) :=
  [("-d", "dir"); ("--dfs_data_block_dir", "dir"); ("-mt", "meta");
   ("--dfs_data_block_meta", "meta"); ("-db", "block"); ("--dfs_data_block", "block")].
Definition parse_data_block_meta_task (dir meta block : string) : M S unit :=
  if negb (bool_decide (dir = "")) then
    let dir := if Str.endswith "/" dir then strip_slash dir else dir in
    names ← on_fs (gf_list_directory dir);
    h ← getM;
    forM (filter (λ p, gf_is_directory p (ho_fs h) = true) ((λ f, Str.path_join dir f) <$> names))
      data_block_controller
  else
    assertM (negb (bool_decide (meta = "")) && negb (bool_decide (block = "")));;
    run_subprocess (sync_command meta block).
Definition parse_run_task (argv : list string) : M S unit :=
  args ← liftO (parse_args parse_options argv);
  dir ← liftO (arg "dir" (Some "") args);
  meta ← liftO (arg "meta" (Some "") args);
  block ← liftO (arg "block" (Some "") args);
  parse_data_block_meta_task dir meta block.

(** ** sync_convert_data_block.py *)
Definition source_name (data_path : string) : outcome string :=
  base ← py_index (Str.split "/"%char data_path) (-1);
  py_index (Str.split "."%char base) 0.
Definition json_body (m : DataBlockMeta) (data_path data_source_name : string)
    : list (string * jval) :=
  [("start_time", JInt (start_time m)); ("end_time", JInt (end_time m));
   ("leader_start_index", JInt (leader_start_index m));
   ("leader_end_index", JInt (leader_end_index m));
   ("follower_restart_index", JInt (follower_restart_index m));
   ("data_block_index", JInt (data_block_index m)); ("dfs_data_block_dir", JStr data_path);
   ("create_status", JInt 2); ("consumed_status", JInt 1);
   ("data_source_name", JStr data_source_name)].
Definition create_url (block_id partition_id file_version : string) : string :=
  "/v1/data/" +:+ block_id +:+ "/" +:+ partition_id +:+ "/" +:+ file_version
    +:+ "/create/data/block".

Definition sync_convert_data_block (meta_path data_path : string) : M S unit :=
  data_source_name ← liftO (source_name data_path);
  records ← on_fs (tfr_read meta_path);
  text ← liftO (match records with r :: _ => Ret r | [] => raise StopIteration end);
  m ← liftO (match meta_of_text text with Some m => Ret m | None => raise ParseError end);
  on_center (wrap_data_transfer_api "POST"
    (create_url (block_id m) (Str.of_int (partition_id m)) (Str.of_int (file_version m)))
    (json_body m data_path data_source_name)).

Definition sync_options : list (string * string) :=
  [("-d", "time"); ("--time_stamp", "time"); ("-m", "meta"); ("--meta_path", "meta");
   ("-p", "data"); ("--data_path", "data")].
Definition sync_run_task (argv : list string) : M S unit :=
  args ← liftO (parse_args sync_options argv);
  _time ← liftO (arg "time" None args);
  meta_path ← liftO (arg "meta" None args);
  data_path ← liftO (arg "data" None args);
  sync_convert_data_block meta_path data_path.

(** A started process runs the script that it names. *)
Definition exec (cmd : list string) : M S unit :=
  match cmd with
  | python :: script :: argv =>
      if bool_decide (script = parse_script) then parse_run_task argv
      else if bool_decide (script = sync_script) then sync_run_task argv
      else mret tt
  | _ => mret tt
  end.

(** ** parse_data_block_meta_routine.py *)

(** [bool(v)] *)
Definition truthy (v : jval) : bool :=
  match v with
  | JNull => false
  | JBool b => b
  | JInt z => negb (z =? 0)
  | JStr s => negb (bool_decide (s = ""))
  end.
Inductive retmsg := Text (s : string) | OfException (e : exn).
Definition response : Type := Z * retmsg.

(** [Popen] takes strings only. *)
Fixpoint strings (l : list jval) : outcome (list string) :=
  match l with
  | [] => Ret []
  | JStr s :: l' => r ← strings l'; Ret (s :: r)
  | _ => raise TypeError
  end.

(** The route; [None] is a request whose body is not JSON. *)
Definition parse_data_block_meta (body : option (list (string * jval))) : M S response :=
  body ← liftO (match body with Some b => Ret b | None => raise AttributeError end);
  let get k := default (JStr "") (Dict.get k body) in
  let dir := get "dfs_data_block_dir" in
  let meta := get "dfs_data_block_meta" in
  let block := get "dfs_data_block" in
  if negb (truthy dir) && negb (truthy meta) && negb (truthy block)
  then mret (500, Text "args is null")
  else
    cmd ← liftO (strings [JStr "python"; JStr parse_script; JStr "-d"; dir; JStr "-mt"; meta;
                          JStr "-db"; block]);
    run_subprocess cmd;;
    mret (0, Text "success").
(** With the error handler of the application. *)
Definition parse_route (body : option (list (string * jval))) : M S response :=
  catchM (parse_data_block_meta body) (λ e, mret (100, OfException e)).
End processes.

(** ** The conversion to text *)
Section convert.

Definition hex_digit (n : N) : Ascii.ascii :=
  ascii_of_N (if (n <? 10)%N then 48 + n else 87 + n)%N.
Fixpoint repr_chars (quote : Ascii.ascii) (s : string) : string :=
  match s with
  | EmptyString => EmptyString
  | String c s' =>
      let n := N_of_ascii c in
      let rest := repr_chars quote s' in
      if bool_decide (c = quote) || bool_decide (c = "\"%char) then String "\"%char (String c rest)
      else if (n =? 9)%N then String "\"%char (String "t"%char rest)
      else if (n =? 10)%N then String "\"%char (String "n"%char rest)
      else if (n =? 13)%N then String "\"%char (String "r"%char rest)
      else if ((n <? 32) || (127 <=? n))%N
      then String "\"%char (String "x"%char
             (String (hex_digit (n / 16)) (String (hex_digit (n mod 16)) rest)))
      else String c rest
  end.
(** [repr] of bytes *)
Definition repr_bytes (s : string) : string :=
  let quote := if Str.mem "'"%char s && negb (Str.mem (ascii_of_N 34) s)
               then ascii_of_N 34 else "'"%char in
  "b" +:+ String quote (repr_chars quote s +:+ String quote EmptyString).

(** [str(b, encoding='utf-8')], kept in UTF-8; whether the bytes are valid is
    [valid]. *)
Context (valid : string → bool).

(** A name space or a value: text, or bytes that were left as they are. *)
Definition text_of (v : string + string) : string :=
  match v with inl s => s | inr b => repr_bytes b end.

(** [for val in f_dict[ns]]: a value that is not UTF-8 makes the loop encode the
    name instead, which works once. *)
Fixpoint convert_values (ns : string + string) (vals : list string) : outcome (list string) :=
  match vals with
  | [] => Ret []
  | v :: vals' =>
      '(ns, v) ← (if valid v then Ret (ns, inl v)
                  else match ns with
                       | inl s => Ret (inr s, inr v)
                       | inr _ => raise AttributeError
                       end);
      l ← convert_values ns vals';
      Ret ((text_of ns +:+ " " +:+ text_of v) :: l)
  end.
Fixpoint convert_spaces (f_dict : list (string * list string)) : outcome (list string) :=
  match f_dict with
  | [] => Ret []
  | (ns, vals) :: d =>
      l ← convert_values (inl ns) vals;
      r ← convert_spaces d;
      Ret (l ++ r)
  end.

Definition EXAMPLE_ID_NS : string := "%X".
(** The bytes of a feature, by its name in the output. *)
Definition bytes_of (f : feature) : list string :=
  match f with BytesList l => l | _ => [] end.
Fixpoint feature_dict (features : list (string * feature)) (f_dict : list (string * list string))
    : list (string * list string) :=
  match features with
  | [] => f_dict
  | (feat, f) :: l =>
      feature_dict l
        (if bool_decide (feat = "event_time") then f_dict
         else if bool_decide (feat = "example_id") then Dict.set EXAMPLE_ID_NS (bytes_of f) f_dict
         else Dict.set feat (bytes_of f) f_dict)
  end.

Definition map_fn (features : list (string * feature)) : outcome string :=
  let f_dict := feature_dict features [] in
  '(label, f_dict) ←
    (match Dict.get "label" f_dict with
     | Some l =>
         v ← py_index l 0;
         if valid v then Ret (v, filter (λ x, x.1 ≠ "label") f_dict) else raise UnicodeDecodeError
     | None => Ret ("0 0", f_dict)
     end);
  res ← convert_spaces f_dict;
  Ret (Str.join "|" (label :: res)).

(** [write_data]: the batches until the data set ends or fails, which looks the
    same to the loop; the lines that are written. *)
Fixpoint write_data (batches : list (list (list (string * feature)))) : M (list string) bool :=
  match batches with
  | [] => mret true
  | b :: batches' =>
      forM b (λ item, s ← liftO (map_fn item); modify (λ lines, lines ++ [s +:+ String (ascii_of_N 10) ""]));;
      write_data batches'
  end.
End convert.

(** ** Lemmas *)
Lemma dict_get_In (k v : string) (d : list (string * string)) :
  NoDup d.*1 → (k, v) ∈ d → Dict.get k d = Some v.
Proof.
  induction d as [|[k' v'] d IH]; [by intros _ ?%not_elem_of_nil|].
  rewrite fmap_cons. intros [Hk Hd]%NoDup_cons Hin. cbn [Dict.get].
  apply elem_of_cons in Hin as [[= -> ->]|Hin]; [by rewrite decide_True|].
  rewrite decide_False; [by apply IH|]. intros <-. apply Hk. apply list_elem_of_fmap. by exists (k, v).
Qed.

Lemma pad8_inj i j : 0 ≤ i → 0 ≤ j → pad8 i = pad8 j → i = j.
Proof. apply Str.zfill_of_int_inj. Qed.

Lemma path_dict_run k (idx : string → string) paths :
  NoDup (idx <$> paths) →
  (∀ p, p ∈ paths → py_index (Str.split "."%char p) k = Ret (idx p)) →
  path_dict k paths = Ret ((λ p, (idx p, p)) <$> paths).
Proof.
  unfold path_dict.
  cut (∀ d : list (string * string),
         NoDup (d.*1 ++ (idx <$> paths)) →
         (∀ p, p ∈ paths → py_index (Str.split "."%char p) k = Ret (idx p)) →
         foldl (λ d path, d ← d; index ← py_index (Str.split "."%char path) k;
                          Ret (Dict.set index path d)) (Ret d) paths
         = Ret (d ++ ((λ p, (idx p, p)) <$> paths))).
  { intros Hc. apply (Hc []). }
  induction paths as [|p paths IH]; intros d Hnd Hi; [by rewrite app_nil_r|].
  cbn [foldl]. rewrite bind_Ret, (Hi p) by by left. rewrite bind_Ret.
  rewrite fmap_cons in Hnd. rewrite Dict.set_fresh.
  2:{ apply NoDup_app in Hnd as (_ & Hn & _). intros Hin. apply (Hn _ Hin). by left. }
  rewrite IH.
  - by rewrite <- (assoc_L (++)).
  - rewrite fmap_app, <- (assoc_L (++)). exact Hnd.
  - intros q Hq. apply Hi. by right.
Qed.

Section lemmas.
Context {F : Type} `{GFile F} `{DataApi db} `{Utils} `{Timestamps}.
Context (parse_script sync_script time_stamp : string).
Local Abbreviation S := (host F db).
Local Abbreviation block := (string * string * DataBlockMeta)%type.
Local Abbreviation cmd b := (sync_command sync_script time_stamp b.1.1 b.1.2).

Definition spawn (cmds : list (list string)) (h : S) : S :=
  mkHost (ho_fs h) (ho_spawned h ++ cmds) (ho_center h).
Lemma spawn_spawn a b h : spawn b (spawn a h) = spawn (a ++ b) h.
Proof. unfold spawn. cbn. by rewrite (assoc_L (++)). Qed.
Lemma spawn_nil h : spawn [] h = h.
Proof. destruct h. unfold spawn. cbn. by rewrite app_nil_r. Qed.

(** The plain files of a directory with a suffix. *)
Definition suffixed (fs : F) (dir suffix : string) (names : list string) : list string :=
  (λ f, Str.path_join dir f) <$>
    filter (λ f, negb (gf_is_directory (Str.path_join dir f) fs) && Str.endswith suffix f = true) names.

(** A directory of blocks: for each its meta file, its data file and the meta.
    The index of a block is the last part but one of the name of its meta file,
    and the last but two of the name of its data file. *)
Record block_dir (fs : F) (dir : string) (blocks : list block) : Prop := mkBlockDir {
  bd_files : ∃ names, gf_list_directory dir fs = (Ret names, fs) ∧
    suffixed fs dir ".meta" names ≡ₚ (λ b, b.1.1) <$> blocks ∧
    suffixed fs dir ".data" names ≡ₚ (λ b, b.1.2) <$> blocks;
  bd_index i b : blocks !! i = Some b →
    py_index (Str.split "."%char b.1.1) (-2) = Ret (pad8 (Z.of_nat i)) ∧
    py_index (Str.split "."%char b.1.2) (-3) = Ret (pad8 (Z.of_nat i));
  bd_meta b : b ∈ blocks →
    ∃ text rest, tfr_read b.1.1 fs = (Ret (text :: rest), fs) ∧ meta_of_text text = Some b.2;
}.

Lemma on_fs_run {A} (c : M F A) (h : S) a :
  c (ho_fs h) = (Ret a, ho_fs h) → on_fs c h = (Ret a, h).
Proof. intros Hc. unfold on_fs, zoom. rewrite Hc. by destruct h. Qed.

Lemma files_with_run dir suffix (h : S) names :
  gf_list_directory dir (ho_fs h) = (Ret names, ho_fs h) →
  files_with dir suffix h = (Ret (suffixed (ho_fs h) dir suffix names), h).
Proof.
  intros Hl. unfold files_with. rewrite (run_bind_ret _ _ _ _ _ (on_fs_run _ _ _ Hl)).
  by rewrite run_bind.
Qed.

(** The dictionary of the paths of one kind, whatever the order in which the
    files are listed. *)
Lemma path_dict_blocks (k : Z) (path : block → string) blocks paths :
  (∀ i b, blocks !! i = Some b → py_index (Str.split "."%char (path b)) k = Ret (pad8 (Z.of_nat i))) →
  paths ≡ₚ path <$> blocks →
  ∃ d, path_dict k paths = Ret d ∧ length d = length blocks ∧
    ∀ i b, blocks !! i = Some b → dict_item (pad8 (Z.of_nat i)) d = Ret (path b).
Proof.
  intros Hi Hp.
  set (idx := λ p, match py_index (Str.split "."%char p) k with Ret x => x | Stop _ => "" end).
  assert (idx <$> (path <$> blocks) = (λ i, pad8 (Z.of_nat i)) <$> seq 0 (length blocks)) as Hidx.
  { apply list_eq. intros i. rewrite !list_lookup_fmap. destruct (blocks !! i) as [b|] eqn:Eb.
    - rewrite lookup_seq_lt by by eapply lookup_lt_Some. cbn. unfold idx. by rewrite (Hi i b Eb).
    - rewrite lookup_seq_ge by by apply lookup_ge_None. done. }
  assert (NoDup (idx <$> paths)) as Hnd.
  { rewrite Hp, Hidx. apply NoDup_fmap_2_strong; [|apply NoDup_seq].
    intros i j _ _ Heq. apply pad8_inj in Heq; lia. }
  exists ((λ p, (idx p, p)) <$> paths). split; [|split].
  - apply path_dict_run; [done|]. intros p Hin. rewrite Hp in Hin.
    apply list_elem_of_fmap in Hin as (b & -> & Hb). apply list_elem_of_lookup in Hb as [i Hb].
    unfold idx. by rewrite (Hi i b Hb).
  - by rewrite length_fmap, Hp, length_fmap.
  - intros i b Hb. unfold dict_item. rewrite (dict_get_In _ (path b)); [done|..].
    + by rewrite <- list_fmap_compose.
    + apply list_elem_of_fmap. exists (path b). split.
      * unfold idx. by rewrite (Hi i b Hb).
      * rewrite Hp. apply list_elem_of_fmap. exists b. split; [done|]. by eapply list_elem_of_lookup_2.
Qed.

Lemma controller_run dir blocks (h : S) :
  block_dir (ho_fs h) dir blocks →
  data_block_controller sync_script time_stamp dir h = (Ret tt, spawn ((λ b, cmd b) <$> blocks) h).
Proof.
  intros [(names & Hl & Hm & Hd) Hi _]. unfold data_block_controller.
  rewrite (run_bind_ret _ _ _ _ _ (files_with_run _ _ _ _ Hl)). cbv zeta.
  rewrite (run_bind_ret _ _ _ _ _ (files_with_run _ _ _ _ Hl)).
  assert (zlen (py_sort Str.leb (suffixed (ho_fs h) dir ".meta" names))
          = zlen (suffixed (ho_fs h) dir ".data" names)) as ->.
  { unfold zlen. by rewrite py_sort_perm, Hm, Hd, !length_fmap. }
  rewrite Z.eqb_refl. cbn [assertM require]. rewrite run_bind, run_ret.
  destruct (path_dict_blocks (-2) (λ b, b.1.1) blocks
              (py_sort Str.leb (suffixed (ho_fs h) dir ".meta" names)))
    as (dm & Rm & Lm & Gm); [by intros i b Hb; apply (Hi i b Hb)|by rewrite py_sort_perm|].
  destruct (path_dict_blocks (-3) (λ b, b.1.2) blocks (suffixed (ho_fs h) dir ".data" names))
    as (dd & Rd & Ld & Gd); [by intros i b Hb; apply (Hi i b Hb)|done|].
  rewrite run_bind. unfold liftO at 1. rewrite Rm, run_bind. unfold liftO at 1. rewrite Rd, Ld.
  cut (∀ todo done, done ++ todo = blocks →
         forM (Z.of_nat <$> seq (length done) (length todo))
           (λ i, meta_path ← liftO (dict_item (pad8 i) dm);
                 data_path ← liftO (dict_item (pad8 i) dd);
                 run_subprocess (sync_command sync_script time_stamp meta_path data_path))
           (spawn ((λ b, cmd b) <$> done) h)
         = (Ret tt, spawn ((λ b, cmd b) <$> done ++ todo) h)).
  { intros Hc. specialize (Hc blocks [] eq_refl). cbn [app fmap list_fmap length] in Hc.
    by rewrite spawn_nil in Hc. }
  induction todo as [|b todo IH]; intros done Hb; [by rewrite app_nil_r|].
  assert (blocks !! length done = Some b) as Hlk.
  { rewrite <- Hb. by apply list_lookup_middle. }
  cbn [length seq]. rewrite fmap_cons. cbn [forM]. rewrite run_bind, run_bind. unfold liftO at 1.
  rewrite (Gm _ _ Hlk), run_bind. unfold liftO at 1. rewrite (Gd _ _ Hlk).
  unfold run_subprocess at 1, modify. cbv beta iota.
  specialize (IH (done ++ [b])). rewrite <- (assoc_L (++)) in IH. specialize (IH Hb).
  rewrite length_app, Nat.add_1_r, fmap_app in IH. cbn [app] in IH. rewrite <- IH. f_equal.
  unfold spawn. cbn. by rewrite <- (assoc_L (++)).
Qed.

(** The parser over the directories of the partitions. *)
Lemma controllers_run dirs : ∀ blockss (h : S),
  Forall2 (block_dir (ho_fs h)) dirs blockss →
  forM dirs (data_block_controller sync_script time_stamp) h
  = (Ret tt, spawn ((λ b, cmd b) <$> concat blockss) h).
Proof.
  induction dirs as [|dir dirs IH]; intros blockss h Hall.
  - apply Forall2_nil_inv_l in Hall as ->. cbn. by rewrite spawn_nil.
  - apply Forall2_cons_inv_l in Hall as (bs & bss & Hd & Hall & ->). cbn [forM concat].
    rewrite (run_bind_ret _ _ _ _ _ (controller_run _ _ _ Hd)).
    rewrite (IH _ (spawn _ h) Hall).
    by rewrite spawn_spawn, fmap_app.
Qed.

(** The name of the data source: the start of the name of the data file. *)
Definition source_of (data_path : string) : string :=
  match source_name data_path with Ret n => n | Stop _ => "" end.
Lemma py_index_ret {A} (l : list A) i :
  l ≠ [] → i = 0 ∨ i = -1 → ∃ x, py_index l i = Ret x.
Proof.
  intros Hl Hi. unfold py_index.
  assert (0 < zlen l) as Hp by by apply zlen_pos.
  set (j := if i <? 0 then zlen l + i else i).
  assert (0 ≤ j < zlen l) as Hj by (unfold j; destruct Hi as [-> | ->]; cbn; lia).
  rewrite (proj2 (Z.ltb_ge j 0)) by lia.
  destruct (lookup_lt_is_Some_2 l (Z.to_nat j)) as [x ->]; [unfold zlen in Hj; lia|by exists x].
Qed.
Lemma source_name_ret p : source_name p = Ret (source_of p).
Proof.
  assert (∃ n, source_name p = Ret n) as [n Hn].
  { unfold source_name.
    destruct (py_index_ret (Str.split "/"%char p) (-1) (Str.split_not_nil _ _)) as [b ->]; [by right|].
    rewrite bind_Ret. apply py_index_ret; [apply Str.split_not_nil|by left]. }
  unfold source_of. by rewrite Hn.
Qed.

(** A word that is not taken for an option. *)
Definition plain (v : string) : Prop := Str.startswith "-" v = false.
Lemma plain_not_option options v : plain v → option_like options v = false.
Proof. unfold plain, option_like. by intros ->. Qed.

Lemma sync_args meta_path data_path :
  plain time_stamp → plain meta_path → plain data_path →
  parse_args sync_options ["-d"; time_stamp; "-m"; meta_path; "-p"; data_path]
  = Ret [("time", time_stamp); ("meta", meta_path); ("data", data_path)].
Proof.
  intros Ht Hm Hd. cbn [parse_args].
  change (Dict.get "-d" sync_options) with (Some "time").
  change (Dict.get "-m" sync_options) with (Some "meta").
  change (Dict.get "-p" sync_options) with (Some "data").
  cbv beta iota. by rewrite !plain_not_option.
Qed.

(** The route of the data center that the post reaches. *)
Context (api : ∀ b (p v : Z) info (d : db), Str.mem "/"%char b = false →
  wrap_data_transfer_api "POST" (create_url b (Str.of_int p) (Str.of_int v)) info d
  = update_data_block_meta_status (Some b) (Some (Str.of_int p)) (Some (Str.of_int v)) info true d).

(** What the row of a block has when it is registered. *)
Definition registered (d : db) (b : block) : Prop :=
  ∃ r, db_rows d !! block_key (block_id b.2) = Some r ∧
    r !! "partition_id" = Some (JStr (Str.of_int (partition_id b.2))) ∧
    r !! "file_version" = Some (JStr (Str.of_int (file_version b.2))) ∧
    ∀ k v, Dict.get k (json_body b.2 b.1.2 (source_of b.1.2)) = Some v → r !! k = Some v.

(** The paths and the id of a block can be passed on. *)
Definition sendable (b : block) : Prop :=
  plain b.1.1 ∧ plain b.1.2 ∧ Str.mem "/"%char (block_id b.2) = false.
Definition readable (fs : F) (b : block) : Prop :=
  ∃ text rest, tfr_read b.1.1 fs = (Ret (text :: rest), fs) ∧ meta_of_text text = Some b.2.

Lemma json_body_NoDup m p s : NoDup (json_body m p s).*1.
Proof.
  unfold json_body. rewrite !fmap_cons. cbn [fst fmap list_fmap].
  repeat (apply NoDup_cons_2; [intros Hin%list_elem_of_In; simpl in Hin;
    by repeat destruct Hin as [Hin|Hin]|]). apply NoDup_nil_2.
Qed.
Lemma json_body_settable m p s k v :
  Dict.get k (json_body m p s) = Some v →
  settable DataBase.DataBlockMeta block_reserved (k, v) = true ∧
  k ∉ ["block_id"; "partition_id"; "file_version"; "update_time"].
Proof.
  intros Hin%Dict.get_Some_In%list_elem_of_In. simpl in Hin.
  repeat destruct Hin as [[= <- <-]|Hin]; try done;
    (split; [vm_compute; reflexivity|intros Hk%list_elem_of_In; simpl in Hk;
      by repeat destruct Hk as [Hk|Hk]]).
Qed.

Lemma block_row_body q m p n base t k v :
  Dict.get k (json_body m p n) = Some v → block_row q (json_body m p n) base t !! k = Some v.
Proof.
  intros Hg. destruct (json_body_settable _ _ _ _ _ Hg) as [Hs Hk].
  unfold block_row, stamped. rewrite lookup_insert_ne.
  2:{ intros <-. apply Hk. by do 3 right; left. }
  rewrite set_fields_get by apply json_body_NoDup. by rewrite Hg, Hs.
Qed.
Lemma block_row_own q info base t k v :
  k ∈ block_reserved → block_fields q base !! k = Some v → block_row q info base t !! k = Some v.
Proof.
  intros Hk Hv. unfold block_row, stamped. rewrite lookup_insert_ne.
  - by rewrite set_fields_reserved.
  - intros <-. apply list_elem_of_In in Hk. simpl in Hk. by repeat destruct Hk as [Hk|Hk].
Qed.
Lemma block_row_complete q m p n base t b :
  dm_block_id q = Some b → complete_row DataBase.DataBlockMeta (block_row q (json_body m p n) base t) = true.
Proof.
  intros Hb. apply complete_row_spec. intros c Hc Hn. apply list_elem_of_In in Hc. simpl in Hc.
  repeat destruct Hc as [<-|Hc]; try done.
  - exists (JStr b). split; [|done]. apply block_row_own; [by left|]. unfold block_fields.
    by rewrite !lookup_insert_ne, lookup_insert_eq, Hb by done.
  - exists (JStr p). split; [|done]. by apply block_row_body.
  - exists (JStr n). split; [|done]. by apply block_row_body.
Qed.

Lemma registered_run b (d : db) :
  db_connected d = true → Str.mem "/"%char (block_id b.2) = false →
  ∃ d', wrap_data_transfer_api "POST"
          (create_url (block_id b.2) (Str.of_int (partition_id b.2)) (Str.of_int (file_version b.2)))
          (json_body b.2 b.1.2 (source_of b.1.2)) d = (Ret tt, d') ∧
    db_connected d' = true ∧ registered d' b ∧
    ∀ k, k ≠ block_key (block_id b.2) → db_rows d' !! k = db_rows d !! k.
Proof.
  intros Hc Hid. rewrite api by done. unfold update_data_block_meta_status.
  set (q := mkManagers _ _ _ _ _ _ _). set (body := json_body _ _ _).
  assert (∃ base t n, save_data_block_meta_info q body true d
            = (Ret tt, mkDb (<[block_key (block_id b.2) := block_row q body base t]> (db_rows d)) n true))
    as (base & t & n & ->).
  { rewrite (save_block_run q body true (block_id b.2) d eq_refl Hc).
    destruct (db_rows d !! block_key (block_id b.2)) as [r|]; [by do 3 eexists|].
    cbv zeta. unfold body. rewrite (block_row_complete q _ _ _ _ _ (block_id b.2)) by done.
    by do 3 eexists. }
  eexists. split; [done|]. split; [done|]. cbn [db_rows]. split.
  - eexists. split; [apply lookup_insert_eq|]. split; [|split].
    + apply block_row_own; [by right; left|]. unfold block_fields.
      by rewrite lookup_insert_ne, lookup_insert_eq.
    + apply block_row_own; [by do 2 right; left|]. unfold block_fields. by rewrite lookup_insert_eq.
    + intros k v. apply block_row_body.
  - intros k Hk. by rewrite lookup_insert_ne.
Qed.

Lemma registered_frame b (d d' : db) :
  db_rows d' !! block_key (block_id b.2) = db_rows d !! block_key (block_id b.2) →
  registered d b → registered d' b.
Proof. unfold registered. by intros ->. Qed.

Context (scripts : parse_script ≠ sync_script) (plain_time : plain time_stamp).

(** A process for a block registers it. *)
Lemma exec_sync_run b (h : S) :
  db_connected (ho_center h) = true → sendable b → readable (ho_fs h) b →
  ∃ d', exec parse_script sync_script time_stamp (cmd b) h = (Ret tt, mkHost (ho_fs h) (ho_spawned h) d') ∧
    db_connected d' = true ∧ registered d' b ∧
    ∀ k, k ≠ block_key (block_id b.2) → db_rows d' !! k = db_rows (ho_center h) !! k.
Proof.
  intros Hc (Hm & Hd & Hid) (text & rest & Hr & Ht).
  destruct (registered_run b (ho_center h) Hc Hid) as (d' & Hpost & Hrest).
  exists d'. split; [|done]. unfold exec, sync_command. rewrite bool_decide_false by done.
  rewrite bool_decide_true by done. unfold sync_run_task. rewrite run_bind. unfold liftO at 1.
  rewrite sync_args by done. set (args := [_; _; _]).
  rewrite (run_bind_ret (liftO (arg "time" None args)) _ h h time_stamp eq_refl).
  rewrite (run_bind_ret (liftO (arg "meta" None args)) _ h h b.1.1 eq_refl).
  rewrite (run_bind_ret (liftO (arg "data" None args)) _ h h b.1.2 eq_refl).
  unfold sync_convert_data_block. rewrite run_bind. unfold liftO at 1. rewrite source_name_ret.
  rewrite (run_bind_ret _ _ _ _ _ (on_fs_run _ _ _ Hr)), run_bind. unfold liftO at 1.
  rewrite run_bind. unfold liftO at 1. rewrite Ht. unfold on_center, zoom. by rewrite Hpost.
Qed.

(** The processes for blocks with different ids, in any order. *)
Lemma exec_syncs_run bs : ∀ h : S,
  db_connected (ho_center h) = true → Forall sendable bs → Forall (readable (ho_fs h)) bs →
  NoDup ((λ b, block_id b.2) <$> bs) →
  ∃ d', forM ((λ b, cmd b) <$> bs) (exec parse_script sync_script time_stamp) h
          = (Ret tt, mkHost (ho_fs h) (ho_spawned h) d') ∧
    (∀ b, b ∈ bs → registered d' b) ∧
    ∀ k, (∀ b, b ∈ bs → k ≠ block_key (block_id b.2)) → db_rows d' !! k = db_rows (ho_center h) !! k.
Proof.
  induction bs as [|b bs IH]; intros h Hc Hs Hr Hnd.
  - exists (ho_center h). split; [by destruct h|]. split; [by intros ? ?%not_elem_of_nil|done].
  - apply Forall_cons in Hs as [Hb Hs]. apply Forall_cons in Hr as [Hrb Hr].
    rewrite fmap_cons in Hnd. apply NoDup_cons in Hnd as [Hnew Hnd].
    destruct (exec_sync_run b h Hc Hb Hrb) as (d1 & R1 & C1 & G1 & K1).
    destruct (IH (mkHost (ho_fs h) (ho_spawned h) d1) C1 Hs Hr Hnd) as (d2 & R2 & G2 & K2).
    exists d2. rewrite fmap_cons. cbn [forM]. rewrite (run_bind_ret _ _ _ _ _ R1).
    split; [exact R2|]. split.
    + intros b' [->|Hin]%elem_of_cons; [|by apply G2].
      apply (registered_frame b d1); [|done]. apply K2. intros b' Hin [= Heq].
      apply Hnew. apply list_elem_of_fmap. by exists b'.
    + intros k Hk. rewrite K2 by (intros b' Hin; apply Hk; by right). apply K1, Hk. by left.
Qed.

Definition parse_command (dir : string) : list string :=
  ["python"; parse_script; "-d"; dir; "-mt"; ""; "-db"; ""].
(** The partition directories of a directory, as listed. *)
Definition partition_dirs (fs : F) (dir : string) (names : list string) : list string :=
  filter (λ p, gf_is_directory p fs = true) ((λ f, Str.path_join dir f) <$> names).

Lemma exec_parse_run dir names blockss (h : S) :
  plain dir → dir ≠ "" → Str.endswith "/" dir = false →
  gf_list_directory dir (ho_fs h) = (Ret names, ho_fs h) →
  Forall2 (block_dir (ho_fs h)) (partition_dirs (ho_fs h) dir names) blockss →
  exec parse_script sync_script time_stamp (parse_command dir) h
  = (Ret tt, spawn ((λ b, cmd b) <$> concat blockss) h).
Proof.
  intros Hp Hne Hs Hl Hall. unfold exec, parse_command. rewrite bool_decide_true by done.
  unfold parse_run_task.
  assert (parse_args parse_options ["-d"; dir; "-mt"; ""; "-db"; ""]
          = Ret [("dir", dir); ("meta", ""); ("block", "")]) as Ha.
  { cbn [parse_args]. change (Dict.get "-d" parse_options) with (Some "dir").
    change (Dict.get "-mt" parse_options) with (Some "meta").
    change (Dict.get "-db" parse_options) with (Some "block").
    cbv beta iota. by rewrite !plain_not_option. }
  rewrite run_bind. unfold liftO at 1. rewrite Ha. set (args := [_; _; _]).
  rewrite (run_bind_ret (liftO (arg "dir" (Some "") args)) _ h h dir eq_refl).
  rewrite (run_bind_ret (liftO (arg "meta" (Some "") args)) _ h h "" eq_refl).
  rewrite (run_bind_ret (liftO (arg "block" (Some "") args)) _ h h "" eq_refl).
  unfold parse_data_block_meta_task. rewrite bool_decide_false by done. cbn [negb].
  rewrite Hs. rewrite (run_bind_ret _ _ _ _ _ (on_fs_run _ _ _ Hl)), run_bind. cbn [getM].
  by apply controllers_run.
Qed.

Lemma lstrip_slash_other s :
  Str.startswith "/" s = false → lstrip_slash s = s.
Proof.
  destruct s as [|c s]; [done|]. simpl. destruct (decide ("/"%char = c)) as [<-|Hc]; [done|].
  intros _. destruct c as [[] [] [] [] [] [] [] []]; try done.
Qed.
End lemmas.

Lemma strip_slash_both d :
  d ≠ "" → Str.startswith "/" d = false → Str.endswith "/" d = false →
  strip_slash ("/" +:+ d +:+ "/") = d.
Proof.
  intros Hne Hs He. unfold strip_slash.
  change (lstrip_slash ("/" +:+ d +:+ "/")) with (lstrip_slash (d +:+ "/")).
  rewrite (lstrip_slash_other (d +:+ "/")) by by destruct d.
  rewrite Str.rev_append. change (lstrip_slash (String.rev "/" +:+ String.rev d))
    with (lstrip_slash (String.rev d)).
  rewrite lstrip_slash_other by done. apply Str.rev_involutive.
Qed.

Lemma strings_spec l :
  match strings l with
  | Ret r => l = JStr <$> r
  | Stop r => r = Raise TypeError ∧ ¬ ∃ r, l = JStr <$> r
  end.
Proof.
  induction l as [|v l IH]; [done|]. cbn [strings].
  destruct v as [| | |s];
    [split; [done|]; intros [[|? ?] Hr]; by rewrite ?fmap_cons in Hr..|].
  destruct (strings l) as [r|r]; cbn [mbind outcome_bind]; [by rewrite fmap_cons, IH|].
  destruct IH as [-> Hno]. split; [done|]. intros [[|? r] Hr]; [done|]. apply Hno. exists r.
  by injection Hr.
Qed.

(** ** Properties *)
Section properties.
Context {F : Type} `{GFile F} `{DataApi db} `{Utils} `{Timestamps}.
Context (parse_script sync_script time_stamp : string).

(** C22.  A request for a directory registers its blocks.  The route starts one
    process, which starts one process per block, with the meta file and the data
    file of the block however the directories list them; in whatever order these
    run, each block gets its row at the data center, with its times and indices,
    the path of its data file and the status "created", and no other row
    changes.  The post is taken to reach the update of the status. *)
Theorem directory_request_registers_blocks dir names blockss (h : host F db) :
  (∀ b (p v : Z) info (d : db), Str.mem "/"%char b = false →
     wrap_data_transfer_api "POST" (create_url b (Str.of_int p) (Str.of_int v)) info d
     = update_data_block_meta_status (Some b) (Some (Str.of_int p)) (Some (Str.of_int v)) info true d) →
  parse_script ≠ sync_script → plain time_stamp →
  plain dir → dir ≠ "" → Str.endswith "/" dir = false →
  gf_list_directory dir (ho_fs h) = (Ret names, ho_fs h) →
  Forall2 (block_dir (ho_fs h)) (partition_dirs (ho_fs h) dir names) blockss →
  Forall sendable (concat blockss) → NoDup ((λ b, block_id b.2) <$> concat blockss) →
  db_connected (ho_center h) = true →
  ∃ cmds,
    parse_route parse_script (Some [("dfs_data_block_dir", JStr dir)]) h
      = (Ret (0, Text "success"), spawn [parse_command parse_script dir] h) ∧
    exec parse_script sync_script time_stamp (parse_command parse_script dir)
        (spawn [parse_command parse_script dir] h)
      = (Ret tt, spawn cmds (spawn [parse_command parse_script dir] h)) ∧
    length cmds = length (concat blockss) ∧
    ∀ order, order ≡ₚ cmds → ∃ h',
      forM order (exec parse_script sync_script time_stamp)
          (spawn cmds (spawn [parse_command parse_script dir] h)) = (Ret tt, h') ∧
      (∀ b, b ∈ concat blockss → registered (ho_center h') b) ∧
      ∀ k, (∀ b, b ∈ concat blockss → k ≠ block_key (block_id b.2)) →
        db_rows (ho_center h') !! k = db_rows (ho_center h) !! k.
Proof.
  intros Hapi Hscripts Htime Hp Hne Hs Hl Hall Hsend Hnd Hc.
  exists ((λ b, sync_command sync_script time_stamp b.1.1 b.1.2) <$> concat blockss).
  split; [|split; [|split]].
  - unfold parse_route, catchM, parse_data_block_meta. rewrite run_bind. unfold liftO at 1.
    change (Dict.get "dfs_data_block_dir" [("dfs_data_block_dir", JStr dir)]) with (Some (JStr dir)).
    change (Dict.get "dfs_data_block_meta" [("dfs_data_block_dir", JStr dir)]) with (@None jval).
    change (Dict.get "dfs_data_block" [("dfs_data_block_dir", JStr dir)]) with (@None jval).
    cbn [default from_option truthy]. unfold id. cbn [truthy]. by rewrite bool_decide_false by done.
  - by apply (exec_parse_run parse_script sync_script time_stamp dir names).
  - by rewrite length_fmap.
  - intros order Hperm. apply Permutation_map_inv in Hperm as (bs & -> & Hbs).
    destruct (exec_syncs_run parse_script sync_script time_stamp Hapi Hscripts Htime bs
                (spawn ((λ b, sync_command sync_script time_stamp b.1.1 b.1.2) <$> concat blockss)
                   (spawn [parse_command parse_script dir] h)))
      as (d' & Hr & Hreg & Hk); [done|by rewrite <- Hbs| |by rewrite <- Hbs|].
    + rewrite <- Hbs. apply Forall_concat, Forall_forall. intros bl Hbl.
      apply list_elem_of_lookup in Hbl as [i Hi].
      destruct (Forall2_lookup_r _ _ _ _ _ Hall Hi) as (dd & _ & [_ _ Hm]).
      apply Forall_forall. intros b Hb. by apply Hm.
    + eexists. split; [exact Hr|]. split.
      * intros b Hb. apply Hreg. by rewrite <- Hbs.
      * intros k Hkk. apply Hk. intros b Hb. apply Hkk. by rewrite Hbs.
Qed.

(** The route always answers.  Either nothing is started, and the answer is
    500 when none of the three arguments has a value and 100 when the body is no
    JSON or an argument is no string; or the answer is 0 and exactly the process
    with the given arguments is started. *)
Theorem parse_route_answers body (h : host F db) :
  let get k := default (JStr "") (body ≫= Dict.get k) in
  let args := [get "dfs_data_block_dir"; get "dfs_data_block_meta"; get "dfs_data_block"] in
  ∃ code msg h', parse_route parse_script body h = (Ret (code, msg), h') ∧
    match code with
    | 0 => ∃ dir meta block, args = [JStr dir; JStr meta; JStr block] ∧
             h' = spawn [["python"; parse_script; "-d"; dir; "-mt"; meta; "-db"; block]] h
    | 500 => h' = h ∧ Forall (λ v, truthy v = false) args
    | _ => code = 100 ∧ h' = h ∧ (body = None ∨ ¬ ∃ l, args = JStr <$> l)
    end.
Proof.
  intros get args. unfold parse_route, catchM, parse_data_block_meta. rewrite run_bind.
  unfold liftO at 1. destruct body as [body|].
  2:{ exists 100, (OfException AttributeError), h. split; [done|]. auto. }
  subst args get. cbn [option_bind mbind]. cbv beta zeta.
  set (dir := default _ (Dict.get "dfs_data_block_dir" body)) in *.
  set (meta := default _ (Dict.get "dfs_data_block_meta" body)) in *.
  set (block := default _ (Dict.get "dfs_data_block" body)) in *.
  destruct (negb (truthy dir) && negb (truthy meta) && negb (truthy block)) eqn:E.
  { exists 500, (Text "args is null"), h. split; [done|]. split; [done|].
    rewrite !andb_true_iff, !negb_true_iff in E. destruct E as [[??]?]. by repeat constructor. }
  rewrite run_bind. unfold liftO at 1.
  pose proof (strings_spec [JStr "python"; JStr parse_script; JStr "-d"; dir; JStr "-mt"; meta;
                            JStr "-db"; block]) as Hsp.
  destruct (strings _) as [cmd|r].
  - exists 0, (Text "success"), (spawn [cmd] h). split; [done|].
    do 8 (destruct cmd as [|? cmd]; [done|]). destruct cmd; [|done].
    injection Hsp as <- <- <- -> <- -> <- ->. by do 3 eexists.
  - destruct Hsp as [-> Hno]. exists 100, (OfException TypeError), h. split; [done|].
    split; [done|]. split; [done|]. right. intros [l Hl]. apply Hno.
    do 3 (destruct l as [|? l]; [done|]). destruct l; [|done]. injection Hl as -> -> ->.
    by eexists ["python"; parse_script; "-d"; _; "-mt"; _; "-db"; _].
Qed.

(** A trailing slash costs the root: the slashes are stripped at both ends,
    so the absolute directory ["/d/"] is read as ["d"], relative to the place
    where the service was started. *)
Theorem trailing_slash_loses_the_root d meta block (h : host F db) :
  d ≠ "" → Str.startswith "/" d = false → Str.endswith "/" d = false →
  parse_data_block_meta_task sync_script time_stamp ("/" +:+ d +:+ "/") meta block h
  = parse_data_block_meta_task sync_script time_stamp d meta block h.
Proof.
  intros Hne Hs He. unfold parse_data_block_meta_task.
  rewrite (bool_decide_false (d = "")), (bool_decide_false ("/" +:+ d +:+ "/" = "")) by done.
  cbn [negb]. rewrite He.
  assert (Str.endswith "/" ("/" +:+ d +:+ "/") = true) as ->.
  { unfold Str.endswith. rewrite Str.append_assoc, Str.rev_append. done. }
  by rewrite strip_slash_both.
Qed.
End properties.

Section witnesses.
Import TestUtils.
#[local] Existing Instance test_timestamps.

(** A data center whose route saves the status of the block in its path. *)
#[local] Instance test_center : DataApi db := {
  wrap_data_transfer_api method endpoint body :=
    match Str.split "/"%char endpoint with
    | [_; _; _; b; p; v; _; _; _] => update_data_block_meta_status (Some b) (Some p) (Some v) body true
    | _ => raiseM NotFoundError
    end;
}.
Lemma test_center_route b (p v : Z) info (d : db) : Str.mem "/"%char b = false →
  wrap_data_transfer_api "POST" (create_url b (Str.of_int p) (Str.of_int v)) info d
  = update_data_block_meta_status (Some b) (Some (Str.of_int p)) (Some (Str.of_int v)) info true d.
Proof.
  intros Hb. cbn [wrap_data_transfer_api test_center].
  assert (Str.split "/"%char (create_url b (Str.of_int p) (Str.of_int v))
          = ["" ; "v1"; "data"; b; Str.of_int p; Str.of_int v; "create"; "data"; "block"]) as ->; [|done].
  unfold create_url. cbn [Str.split]. 
  change ("/" +:+ Str.of_int p +:+ "/" +:+ Str.of_int v +:+ "/create/data/block")
    with (String "/" (Str.of_int p +:+ String "/" (Str.of_int v +:+ String "/" "create/data/block"))).
  change (Str.split "/"%char ("/v1/data/" +:+ b +:+ String "/" (Str.of_int p +:+ String "/"
            (Str.of_int v +:+ String "/" "create/data/block"))))
    with ("" :: "v1" :: "data" :: Str.split "/"%char (b +:+ String "/" (Str.of_int p +:+ String "/"
            (Str.of_int v +:+ String "/" "create/data/block")))).
  rewrite Str.split_app_sep by done. rewrite !Str.split_app_sep by apply Str.mem_of_int. done.
Qed.

Definition meta_of (i : Z) : DataBlockMeta :=
  mkMeta ("s." +:+ Str.of_int i) 0 1 10 20 ["a"] 0 5 0 i.
Definition test_files : MemFs :=
  mkMemFs
    {["data/p0/s.00000001.meta" := [meta_to_text (meta_of 1)];
      "data/p0/s.00000000.meta" := [meta_to_text (meta_of 0)];
      "data/p0/s.00000000.1-2.data" := ["r"]; "data/p0/s.00000001.3-4.data" := ["r"]]}
    {["data"; "data/p0"]}.
Definition test_blocks : list (string * string * DataBlockMeta) :=
  [("data/p0/s.00000000.meta", "data/p0/s.00000000.1-2.data", meta_of 0);
   ("data/p0/s.00000001.meta", "data/p0/s.00000001.3-4.data", meta_of 1)].
Definition test_host : host MemFs db := mkHost test_files [] empty_db.

Lemma test_readable i p d :
  mf_files test_files !! p = Some [meta_to_text (meta_of i)] →
  readable test_files (p, d, meta_of i).
Proof.
  intros Hl. exists (meta_to_text (meta_of i)), []. split; [|apply meta_text_roundtrip].
  cbn [fst snd tfr_read mem_gfile]. by rewrite Hl.
Qed.
Lemma test_block_dir : block_dir test_files "data/p0" test_blocks.
Proof.
  split.
  - eexists. split; [vm_compute; reflexivity|]. split; vm_compute; first [reflexivity|apply perm_swap].
  - intros [|[|i]] b Hb; [injection Hb as <-..|by destruct i]; by vm_compute.
  - intros b Hb. apply elem_of_cons in Hb as [->|Hb]; [|apply list_elem_of_singleton in Hb as ->].
    + apply (test_readable 0). by vm_compute.
    + apply (test_readable 1). by vm_compute.
Qed.

Abbreviation test_parse := (parse_command "parse.py" "data").
Abbreviation test_exec := (exec "parse.py" "sync.py" "1600000000").

Lemma directory_request_registers_blocks_witness :
  ∃ cmds,
    parse_route "parse.py" (Some [("dfs_data_block_dir", JStr "data")]) test_host
      = (Ret (0, Text "success"), spawn [test_parse] test_host) ∧
    test_exec test_parse (spawn [test_parse] test_host)
      = (Ret tt, spawn cmds (spawn [test_parse] test_host)) ∧
    length cmds = 2%nat ∧
    ∃ h', forM (reverse cmds) test_exec (spawn cmds (spawn [test_parse] test_host)) = (Ret tt, h') ∧
      ∀ b, b ∈ test_blocks → registered (ho_center h') b.
Proof.
  assert ("parse.py" ≠ "sync.py" ∧ "data" ≠ "") as [Hne Hne'] by done.
  assert (gf_list_directory "data" test_files = (Ret ["p0"], test_files)) as Hlist
    by (vm_compute; reflexivity).
  assert (Forall2 (block_dir test_files) (partition_dirs test_files "data" ["p0"]) [test_blocks])
    as Hdirs.
  { assert (partition_dirs test_files "data" ["p0"] = ["data/p0"]) as -> by (vm_compute; reflexivity).
    apply Forall2_cons_2; [exact test_block_dir|apply Forall2_nil_2]. }
  assert (Forall sendable (concat [test_blocks])) as Hsend by by repeat constructor.
  assert (NoDup ((λ b, block_id b.2) <$> concat [test_blocks])) as Hnd.
  { assert ((λ b, block_id b.2) <$> concat [test_blocks] = ["s.0"; "s.1"]) as ->
      by (vm_compute; reflexivity).
    apply NoDup_cons_2; [by rewrite list_elem_of_singleton|apply NoDup_singleton]. }
  destruct (directory_request_registers_blocks "parse.py" "sync.py" "1600000000" "data" ["p0"]
              [test_blocks] test_host test_center_route Hne eq_refl eq_refl Hne' eq_refl Hlist Hdirs
              Hsend Hnd eq_refl) as (cmds & Hr & He & Hl & Ho).
  exists cmds. split; [exact Hr|]. split; [exact He|]. split; [exact Hl|].
  destruct (Ho (reverse cmds)) as (h' & Hf & Hb & _); [apply reverse_Permutation|].
  exists h'. split; [exact Hf|]. intros b Hin. apply Hb. cbn [concat]. by rewrite app_nil_r.
Defined.

Lemma trailing_slash_loses_the_root_witness :
  parse_data_block_meta_task "sync.py" "0" "/data/" "" "" test_host
  = parse_data_block_meta_task "sync.py" "0" "data" "" "" test_host.
Proof. by apply (trailing_slash_loses_the_root "sync.py" "0" "data"). Defined.

(** One value that is not UTF-8 turns up as text of bytes, a second one of the
    same feature ends the conversion. *)
Example odd_values :
  let valid s := negb (Str.startswith "x" s) in
  (map_fn valid [("example_id", BytesList ["7"]); ("event_time", BytesList ["1"]);
                 ("label", BytesList ["1"]); ("f", BytesList ["a"; "xb"])],
   map_fn valid [("f", BytesList ["xa"; "xb"])],
   map_fn valid [("n", Int64List [3])])
  = (Ret "1|%X 7|f a|b'f' b'xb'", raise AttributeError, Ret "0 0").
Proof. vm_compute. reflexivity. Qed.
End witnesses.
