(* ===== verification/RouteServer.v ===== *)
(** * The process of the data center

    [src/src/DataJoin/route_server.py] with [init_db] and the connection of
    db_models.py: the tables that are created, the order in which the two servers
    start, and how the process ends.  The servers themselves, peewee and the routes of
    data_routine.py (not in the repository) are outside. *)

From stdpp Require Import base tactics list gmap strings.
From Stdlib Require Import ZArith Lia.
From S2P Require Import Prelude PyStd DataBase.
Open Scope Z_scope.

(** ** config.py *)
Inductive setting := SText (s : string) | SNum (z : Z).
Definition DATABASE : list (string * setting) :=
  [("name", SText ""); ("user", SText ""); ("passwd", SText ""); ("host", SText "");
   ("port", SNum 3306); ("max_connections", SNum 100); ("stale_timeout", SNum 30)].
Definition api_version : string := "v1".
Definition SLEEP_TIME : Z := 60 * 60 * 24.
Definition HTTP_SERVICE_HOST : string := "0.0.0.0".
Definition HTTP_SERVICE_PORT : Z := 6380.
Definition PROXY_SERVICE_HOST : string := "localhost".
Definition PROXY_SERVICE_PORT : Z := 3700.

(** ** db_models.py *)

(** [DataBase.__init__]: the name and the keyword arguments of the database. *)
Definition database_arguments : outcome (setting * list (string * setting)) :=
  match Dict.get "name" DATABASE with
  | Some db_name => Ret (db_name, filter (λ kv, kv.1 ≠ "name") DATABASE)
  | None => raise KeyError
  end.

(** What the members of the module are that are classes, by name and in the order of
    the names: [DataBase] is none, since its decorator makes it a function. *)
Inductive component :=
  | LibraryClass
  | DataBaseModel
  | TableModel (m : model).
Definition components : list (string * component) :=
  [("BigIntegerField", LibraryClass); ("CharField", LibraryClass); ("CompositeKey", LibraryClass);
   ("Coordinator", TableModel Coordinator); ("DataBaseModel", DataBaseModel);
   ("DataBlockMeta", TableModel DataBlockMeta); ("DataSource", TableModel DataSource);
   ("DataSourceMeta", TableModel DataSourceMeta); ("IntegerField", LibraryClass);
   ("Model", LibraryClass); ("PooledMySQLDatabase", LibraryClass); ("TextField", LibraryClass)].
Definition issubclass (c : component) : bool :=
  match c with LibraryClass => false | DataBaseModel | TableModel _ => true end.
Definition is_base (c : component) : bool := match c with DataBaseModel => true | _ => false end.
Fixpoint components_list (l : list (string * component)) : list component :=
  match l with
  | [] => []
  | (_, c) :: l' => (if negb (is_base c) && issubclass c then [c] else []) ++ components_list l'
  end.

(** ** The process *)
Inductive call :=
  | AddServicer
  | AddPort (address : string)
  | StartGrpc
  | RunHttp (host : string) (port : Z) (mounts : list string)
  | Kill
  | Sleep (seconds : Z)
  | StopGrpc.
(** [ct_tables]: the tables that the database has. *)
Record center := mkCenter { ct_db : db; ct_tables : gset string; ct_calls : list call }.
Definition do_call (c : call) : M center unit :=
  modify (λ s, mkCenter (ct_db s) (ct_tables s) (ct_calls s ++ [c])).

Definition table_of (c : component) : gset string :=
  match c with TableModel m => {[ md_table m ]} | _ => ∅ end.
(** [DB.create_tables]: a table that is there is left alone. *)
Definition create_tables (l : list component) : M center unit :=
  modify (λ s, mkCenter (ct_db s) (ct_tables s ∪ ⋃ (table_of <$> l)) (ct_calls s)).
Definition init_db : M center unit :=
  zoom ct_db (λ d s, mkCenter d (ct_tables s) (ct_calls s)) connection_context;;
  create_tables (components_list components).

(** [while True: time.sleep(SLEEP_TIME)]; [sleeps]: how often it has slept when the
    interrupt comes, [None] when none comes. *)
Definition sleep_loop (sleeps : option nat) : M center unit :=
  match sleeps with
  | Some n => forM (replicate n (Sleep SLEEP_TIME)) do_call;; do_call StopGrpc;; stopM (Exit 0)
  | None => stopM NoFuel
  end.
Definition mounts : list string := ["/" +:+ api_version +:+ "/data"; "/" +:+ api_version +:+ "/parse"].
(** [served]: what [run_simple] ends with. *)
Definition serve_http (served : outcome unit) : M center unit :=
  do_call (RunHttp HTTP_SERVICE_HOST HTTP_SERVICE_PORT mounts);; liftO served.
(** [main_file]: the script; [mode]: the variable MODE.  A killed process has no
    result; it is given the code of the signal. *)
Definition route_server (main_file : string) (mode : option string) (served : outcome unit)
    (sleeps : option nat) : M center unit :=
  modify (λ s, mkCenter (connect main_file (ct_db s)) (ct_tables s) (ct_calls s));;
  (if bool_decide (default "local" mode = "distribute") then init_db else mret tt);;
  do_call AddServicer;;
  do_call (AddPort (PROXY_SERVICE_HOST +:+ ":" +:+ Str.of_int PROXY_SERVICE_PORT));;
  do_call StartGrpc;;
  catchM (serve_http served) (λ _, do_call Kill;; stopM (Exit (-9)));;
  sleep_loop sleeps.

(** ** Properties *)

(** The tables of the four models, and no other. *)
Definition model_tables : gset string :=
  {[ md_table Coordinator; md_table DataBlockMeta; md_table DataSource; md_table DataSourceMeta ]}.

Lemma init_db_run s :
  db_connected (ct_db s) = true →
  init_db s = (Ret tt, mkCenter (ct_db s) (ct_tables s ∪ model_tables) (ct_calls s)).
Proof.
  intros Hc. unfold init_db, zoom, connection_context. rewrite run_bind, run_bind. cbn [getM].
  rewrite Hc. cbn [require]. unfold create_tables, modify. cbn.
  reflexivity.
Qed.

(** Where another program imports the module there is no connection, and the tables
    are not touched. *)
Lemma init_db_unconnected s :
  db_connected (ct_db s) = false → init_db s = (raise AttributeError, s).
Proof.
  intros Hc. unfold init_db, zoom, connection_context. rewrite run_bind, run_bind. cbn [getM].
  rewrite Hc. by destruct s.
Qed.

(** The calls of a start: the tables are there before either server takes a call. *)
Definition start_calls : list call :=
  [AddServicer; AddPort "localhost:3700"; StartGrpc; RunHttp "0.0.0.0" 6380 ["/v1/data"; "/v1/parse"]].

Lemma sleep_calls n s :
  forM (replicate n (Sleep SLEEP_TIME)) do_call s
  = (Ret tt, mkCenter (ct_db s) (ct_tables s) (ct_calls s ++ replicate n (Sleep SLEEP_TIME))).
Proof.
  revert s. induction n as [|n IH]; intros s; cbn [replicate forM].
  - rewrite app_nil_r. by destruct s.
  - rewrite run_bind. unfold do_call at 1. cbn [modify]. rewrite IH. cbn.
    by rewrite <- (assoc_L (++)).
Qed.

(** The route server connects, creates the four tables where it is distributed,
    starts the proxy service and serves requests.  When the HTTP server fails, the
    process kills itself and the gRPC server is not stopped; when it ends, the process
    sleeps until it is interrupted, stops the gRPC server and exits. *)
Theorem route_server_ends prefix mode served n s :
  let distributed := bool_decide (default "local" mode = "distribute") in
  let tables := if distributed then ct_tables s ∪ model_tables else ct_tables s in
  let db := mkDb (db_rows (ct_db s)) (db_clock (ct_db s)) true in
  route_server (prefix +:+ "route_server.py") mode served (Some n) s
  = match served with
    | Ret _ => (Stop (Exit 0), mkCenter db tables
                 (ct_calls s ++ start_calls ++ replicate n (Sleep SLEEP_TIME) ++ [StopGrpc]))
    | Stop (Raise _) => (Stop (Exit (-9)), mkCenter db tables (ct_calls s ++ start_calls ++ [Kill]))
    | Stop r => (Stop r, mkCenter db tables (ct_calls s ++ start_calls))
    end.
Proof.
  intros distributed tables db. unfold route_server. rewrite run_bind. cbn [modify].
  assert (connect (prefix +:+ "route_server.py") (ct_db s) = db) as ->.
  { unfold connect, db. f_equal. apply Str.endswith_append. }
  rewrite run_bind.
  assert ((if bool_decide (default "local" mode = "distribute") then init_db else mret tt)
            (mkCenter db (ct_tables s) (ct_calls s)) = (Ret tt, mkCenter db tables (ct_calls s))) as ->.
  { unfold tables, distributed. case_bool_decide; [by rewrite init_db_run|done]. }
  rewrite !run_bind. unfold do_call at 1. cbn [modify ct_db ct_tables ct_calls].
  rewrite !run_bind. unfold do_call at 1. cbn [modify ct_db ct_tables ct_calls].
  rewrite !run_bind. unfold do_call at 1. cbn [modify ct_db ct_tables ct_calls].
  rewrite run_bind. unfold catchM, serve_http. rewrite run_bind. unfold do_call at 1.
  cbn [modify ct_db ct_tables ct_calls]. unfold liftO.
  rewrite <- !(assoc_L (++)).
  destruct served as [[]|[e| |]]; cbn [app].
  - cbn [sleep_loop]. rewrite run_bind, sleep_calls. rewrite run_bind. cbn. by rewrite <- !(assoc_L (++)).
  - rewrite run_bind. cbn. by rewrite <- !(assoc_L (++)).
  - done.
  - done.
Qed.

(** The rows that requests save are then typed rows of tables that there are. *)
Lemma every_model_has_its_table s m :
  m ∈ [DataBlockMeta; DataSourceMeta; DataSource; Coordinator] → db_connected (ct_db s) = true →
  md_table m ∈ ct_tables (init_db s).2.
Proof.
  intros Hm Hc. rewrite init_db_run by done. cbn [snd ct_tables].
  apply elem_of_union_r. unfold model_tables.
  repeat (apply elem_of_cons in Hm as [->|Hm]; [set_solver|]). by apply elem_of_nil in Hm.
Qed.

(** Where the mode is not set, a new database stays without tables. *)
Example local_mode_creates_no_tables :
  ct_tables (route_server "route_server.py" None (raise GenericException) (Some 0%nat)
               (mkCenter (mkDb ∅ 0 false) ∅ [])).2 = ∅.
Proof. by vm_compute. Qed.
