(* ===== verification/MnistData.v ===== *)
(** * The example data of the demo

    [src/example/mnist_data/make_data.py] cuts each MNIST image into a leader and
    a follower half, gives the rows ids, splits the rows into a training and a
    test set and writes, for each side and set, one TFRecord file per partition.
    Rows go to the partition of the hash of their id and are sorted there by id,
    so that the files of the two sides are aligned row by row. *)

From stdpp Require Import base tactics list gmap strings pretty.
From Stdlib Require Import ZArith QArith Lia Ascii SpecFloat Sorted.
From S2P Require Import Prelude Threads PyStd Messages Env.

Open Scope Z_scope.

(** ** The hash of an id *)

(** [ord(c)] of the characters of an id *)
Definition ords (s : string) : list Z := (λ c, Z.of_N (N_of_ascii c)) <$> String.list_ascii_of_string s.

Definition convert_n_bytes (n b : Z) : Z :=
  let bits := b * 8 in
  Z.land ((n + 2 ^ (bits - 1)) `mod` 2 ^ bits - 2 ^ (bits - 1)) 268435455.
Definition convert_4_bytes (n : Z) : Z := convert_n_bytes n 4.

(** [for i, c in enumerate(s): h = h + ord(c) * 31 ** (n - 1 - i)] *)
Fixpoint hash_loop (n i h : Z) (s : list Z) : Z :=
  match s with
  | [] => h
  | c :: s' => hash_loop n (i + 1) (h + c * 31 ^ (n - 1 - i)) s'
  end.
Definition getHashCode (s : list Z) : Z := convert_4_bytes (hash_loop (zlen s) 0 0 s).

(** ** Records *)
Section records.
(** [R] is numpy's [float32] *)
Context {R : Type}.

(** What the callers pass as values of a feature, and the feature, a protobuf
    [oneof]. *)
Inductive values := VBytes (l : list string) | VFloats (l : list R) | VInts (l : list Z).
Inductive pb_feature :=
  | BytesList (l : list string) | FloatList (l : list R) | Int64List (l : list Z).

(** [tf.train.Example(...).SerializeToString()] and the cast of an int to float
    that [FloatList] makes. *)
Class Serialize := {
  example_to_string : list (string * pb_feature) → string;
  float_of_int : Z → R;
}.
Context `{Serialize}.

Definition FLOAT_TYPE := "float".
Definition INT64_TYPE := "int64".
Definition BYTES_TYPE := "bytes".

(** The protobuf lists check the type and the range of their values. *)
Definition float_list (v : values) : outcome pb_feature :=
  match v with
  | VFloats l => Ret (FloatList l)
  | VInts l => Ret (FloatList (float_of_int <$> l))
  | VBytes [] => Ret (FloatList [])
  | VBytes _ => raise TypeError
  end.
Definition int64_list (v : values) : outcome pb_feature :=
  match v with
  | VInts l => if forallb in_int64 l then Ret (Int64List l) else raise ValueError
  | VFloats [] | VBytes [] => Ret (Int64List [])
  | _ => raise TypeError
  end.
Definition bytes_list (v : values) : outcome pb_feature :=
  match v with
  | VBytes l => Ret (BytesList l)
  | VFloats [] | VInts [] => Ret (BytesList [])
  | _ => raise TypeError
  end.

Definition get_feature (v : values) (f_type : string) : outcome pb_feature :=
  if bool_decide (f_type = FLOAT_TYPE) then float_list v
  else if bool_decide (f_type = INT64_TYPE) then int64_list v
  else if bool_decide (f_type = BYTES_TYPE) then bytes_list v
  else raise ValueError.

(** [if yy:] tests that the list is there and not empty. *)
Definition item_2_tf_record (example_id : list string) (xx : list R) (yy : option (list Z))
    : outcome string :=
  e ← get_feature (VBytes example_id) BYTES_TYPE;
  t ← get_feature (VBytes ["20191001042452"]) BYTES_TYPE;
  x ← get_feature (VFloats xx) FLOAT_TYPE;
  let pb_dict := Dict.set "x" x (Dict.set "event_time" t (Dict.set "example_id" e [])) in
  match yy with
  | Some ((_ :: _) as l) =>
      y ← get_feature (VInts l) INT64_TYPE;
      Ret (example_to_string (Dict.set "y" y pb_dict))
  | _ => Ret (example_to_string pb_dict)
  end.

(** [s.encode('utf-8')] for a string of characters below 256 *)
Fixpoint utf8 (s : string) : string :=
  match s with
  | EmptyString => EmptyString
  | String c s' =>
      let n := N_of_ascii c in
      if (n <? 128)%N then String c (utf8 s')
      else String (ascii_of_N (192 + n / 64)) (String (ascii_of_N (128 + n mod 64)) (utf8 s'))
  end.

Definition index {A} (l : list A) (i : nat) : outcome A := py_index l (Z.of_nat i).

Definition dataset_item (eids : list string) (x : list (list R)) (y : option (list Z)) (i : nat)
    : outcome (string * string) :=
  match y with
  | Some y =>
      e ← index eids i; xi ← index x i; yi ← index y i;
      pb_str ← item_2_tf_record [utf8 e] xi (Some [yi]);
      Ret (e, pb_str)
  | None =>
      e ← index eids i; xi ← index x i;
      pb_str ← item_2_tf_record [utf8 e] xi None;
      Ret (e, pb_str)
  end.
Definition get_pb_dataset (eids : list string) (x : list (list R)) (y : option (list Z))
    : outcome (list (string * string)) :=
  foldr (λ i acc, item ← dataset_item eids x y i; l ← acc; Ret (item :: l)) (Ret [])
    (seq 0 (length x)).
End records.
Arguments values : clear implicits.
Arguments pb_feature : clear implicits.
Arguments Serialize : clear implicits.

(** ** Partitions *)
Section partitions.
Context {B : Type}.
Local Abbreviation item := (string * B)%type.

Definition by_id (a b : item) : bool := Str.leb a.1 b.1.

(** [output[partition_id].append(item)] *)
Definition add_item (n_partition : Z) (output : list (list item)) (x : item)
    : outcome (list (list item)) :=
  if n_partition =? 0 then raise ZeroDivisionError
  else
    let partition_id := getHashCode (ords x.1) `mod` n_partition in
    p ← py_index output partition_id;
    Ret (<[Z.to_nat partition_id := p ++ [x]]> output).
Fixpoint add_items (n_partition : Z) (output : list (list item)) (dataset : list item)
    : outcome (list (list item)) :=
  match dataset with
  | [] => Ret output
  | x :: d => output ← add_item n_partition output x; add_items n_partition output d
  end.

Definition repartition_and_sort (dataset : list item) (n_partition : Z)
    : outcome (list (list item)) :=
  output ← add_items n_partition (replicate (Z.to_nat n_partition) []) dataset;
  Ret (fmap (M:=list) (py_sort by_id) output).
End partitions.

(** ** Files

    gfile's [exists], [rmtree] and [makedirs], a [TFRecordWriter] that is closed
    after writing some records, a text file opened for writing that gets some
    lines. *)
Inductive content := Records (l : list string) | Lines (l : list string).

(** [q] is a path under the directory [p]. *)
Definition below (p q : string) : bool := Str.startswith (p +:+ "/") q.

Class Tree (F : Type) := {
  tr_exists : string → F → bool;
  tr_rmtree : string → M F unit;
  tr_makedirs : string → M F unit;
  tr_write_records : string → list string → M F unit;
  tr_write_lines : string → list string → M F unit;
  (** Specification view: the files, and the paths that can be written. *)
  tr_files : F → gmap string content;
  tr_writable : F → string → Prop;
}.

(** [random.random()], the n-th draw *)
Class Random := { random : nat → Q }.

Record gen (F : Type) := mkGen { gn_fs : F; gn_draws : nat; gn_uuids : nat }.
Arguments mkGen {_}.
Arguments gn_fs {_}.
Arguments gn_draws {_}.
Arguments gn_uuids {_}.

Section save.
Context {F : Type} `{Tree F} `{Random}.
Local Abbreviation S := (gen F).

Definition set_gn_fs (fs : F) (s : S) : S := mkGen fs (gn_draws s) (gn_uuids s).
Definition on_files {A} (c : M F A) : M S A := zoom gn_fs set_gn_fs c.
Definition next_random : M S Q := λ s,
  (Ret (random (gn_draws s)), mkGen (gn_fs s) (Datatypes.S (gn_draws s)) (gn_uuids s)).

(** [if exists(d): rmtree(d)] and [makedirs(d)] *)
Definition empty_dir (dir : string) : M S unit :=
  ex ← gets (λ s : S, tr_exists dir (gn_fs s));
  (if ex : bool then on_files (tr_rmtree dir) else mret tt);;
  on_files (tr_makedirs dir).

Definition Qlt_bool (a b : Q) : bool := negb (Qle_bool b a).

(** The records of a partition that are written, with their ids. *)
Fixpoint keep (drop_rate : Q) (part : list (string * string)) : M S (list (string * string)) :=
  match part with
  | [] => mret []
  | x :: part' =>
      k ← (if Qlt_bool 0 drop_rate
           then r ← next_random; mret (Qlt_bool drop_rate r)
           else mret true);
      l ← keep drop_rate part';
      mret (if k : bool then x :: l else l)
  end.

Definition pad5 (i : Z) : string := Str.zfill 5 (Str.of_int i).
Definition record_path (dir : string) (i : Z) : string :=
  Str.path_join dir (pad5 i +:+ ".tfrecord").
Definition lines_path (dir : string) (i : Z) : string := Str.path_join dir (pad5 i +:+ ".meta").

(** One turn of the loop over the partitions; [save_meta_dir] is a local variable
    that is only bound when [need_meta]. *)
Definition save_partition (data : list (list (string * string))) (save_dir : string)
    (save_meta_dir : option string) (drop_rate : Q) (need_meta : bool) (i : Z) : M S unit :=
  let fpath := record_path save_dir i in
  meta_fpath ← liftO (match save_meta_dir with
                      | Some d => Ret (lines_path d i)
                      | None => raise UnboundLocalError
                      end);
  part ← liftO (py_index data i);
  kept ← keep drop_rate part;
  on_files (tr_write_records fpath kept.*2);;
  (if need_meta then on_files (tr_write_lines meta_fpath kept.*1) else mret tt).

Definition save_local (ori_data : list (string * string)) (save_dir : string) (n_partition : Z)
    (drop_rate : Q) (need_meta : bool) : M S unit :=
  empty_dir save_dir;;
  save_meta_dir ←
    (if need_meta then empty_dir (save_dir +:+ "_meta");; mret (Some (save_dir +:+ "_meta"))
     else mret None);
  data ← liftO (repartition_and_sort ori_data n_partition);
  forM (Z.of_nat <$> seq 0 (Z.to_nat n_partition))
    (save_partition data save_dir save_meta_dir drop_rate need_meta).
End save.

(** ** The program *)
Section main.
Context {F R : Type} `{Tree F} `{Random} `{Serialize R} `{Utils}.
(** [v / 255.0] as a [float32] *)
Context (scale : Z → R).
Local Abbreviation S := (gen F).

Definition next_uuid : M S string := λ s,
  (Ret (uuid1 (gn_uuids s)), mkGen (gn_fs s) (gn_draws s) (Datatypes.S (gn_uuids s))).
Fixpoint draw_uuids (n : nat) : M S (list string) :=
  match n with
  | O => mret []
  | Datatypes.S n' => u ← next_uuid; us ← draw_uuids n'; mret (u :: us)
  end.

(** [x.shape[1]] of a matrix with rows of one length *)
Definition width {A} (x : list (list A)) : nat := length (default [] (head x)).

(** [mnist_x.npy] has an image of rows of pixels per sample; without samples the
    second dimension cannot be inferred. *)
Definition load_data (mnist_x : list (list (list Z))) (mnist_y : list Z)
    : M S (list (list R) * list (list R) * list Z * list string) :=
  (if bool_decide (mnist_x = []) then raiseM ValueError else mret tt);;
  let x := (λ image : list (list Z), fmap (M:=list) scale (concat image)) <$> mnist_x in
  e_ids ← draw_uuids (length mnist_y);
  let half := (width x / 2)%nat in
  mret (take half <$> x, drop half <$> x, mnist_y, e_ids).

(** Python's [int(n * 0.8)]: the product of the nearest floats, rounded to the
    nearest float, cut to an integer. *)
Definition TRAIN_PERCENT : spec_float := S754_finite false 7205759403792794 (-53).
Definition float_of (n : Z) : spec_float := binary_normalize 53 1024 n 0 false.
Definition int_of_float (f : spec_float) : outcome Z :=
  match f with
  | S754_zero _ => Ret 0
  | S754_finite s m e =>
      let a := if 0 <=? e then Zpos m * 2 ^ e else Zpos m / 2 ^ (- e) in
      Ret (if s : bool then - a else a)
  | S754_infinity _ => raise OverflowError
  | S754_nan => raise ValueError
  end.
Definition train_length (len_all : Z) : outcome Z :=
  n ← int_of_float (SFmul 53 1024 (float_of len_all) TRAIN_PERCENT);
  Ret (Z.min n (len_all - 1)).

(** [l[:k]] and [l[k:]] *)
Definition slice_pos {A} (l : list A) (k : Z) : nat :=
  Z.to_nat (if k <? 0 then zlen l + k else k).
Definition slice_to {A} (l : list A) (k : Z) : list A := take (slice_pos l k) l.
Definition slice_from {A} (l : list A) (k : Z) : list A := drop (slice_pos l k) l.

Record gen_args := mkGenArgs {
  ga_output_dir : string;
  ga_partition_num : Z;
  ga_drop_rate : Q;
  ga_need_meta : Z;
}.
Definition default_gen_args (output_dir : string) : gen_args := mkGenArgs output_dir 10 0 1.

Definition save_set (eids : list string) (x : list (list R)) (y : option (list Z)) (dir : string)
    (args : gen_args) : M S unit :=
  d ← liftO (get_pb_dataset eids x y);
  save_local d (ga_output_dir args +:+ dir) (ga_partition_num args) (ga_drop_rate args)
    (ga_need_meta args =? 1).

Definition main (mnist_x : list (list (list Z))) (mnist_y : list Z) (args : gen_args) : M S unit :=
  r ← load_data mnist_x mnist_y;
  let '(xl, xf, y, e_ids) := r in
  let len_all := zlen xl in
  assertM (len_all =? zlen y);;
  len_train ← liftO (train_length len_all);
  save_set (slice_to e_ids len_train) (slice_to xl len_train) (Some (slice_to y len_train))
    "/leader_train" args;;
  save_set (slice_to e_ids len_train) (slice_to xf len_train) None "/follower_train" args;;
  save_set (slice_from e_ids len_train) (slice_from xl len_train)
    (Some (slice_from y len_train)) "/leader_test" args;;
  save_set (slice_from e_ids len_train) (slice_from xf len_train) None "/follower_test" args.
End main.

Example hash_abc : getHashCode (ords "abc") = 96354.
Proof. reflexivity. Qed.
Example train_of_mnist : train_length 60000 = Ret 48000.
Proof. vm_compute. reflexivity. Qed.
Example train_of_small : train_length <$> [1; 2; 3; 5; 7; 10] = Ret <$> [0; 1; 2; 4; 5; 8].
Proof. vm_compute. reflexivity. Qed.

(** ** The hash *)

(** Java's [String.hashCode] over the same characters, on 32-bit integers. *)
Definition wrap32 (x : Z) : Z := (x + 2 ^ 31) `mod` 2 ^ 32 - 2 ^ 31.
Definition java_hash (s : list Z) : Z := foldl (λ h c, wrap32 (31 * h + c)) 0 s.

Fixpoint poly (s : list Z) : Z :=
  match s with [] => 0 | c :: s' => c * 31 ^ zlen s' + poly s' end.

Lemma hash_loop_poly s : ∀ n i h, n = i + zlen s → hash_loop n i h s = h + poly s.
Proof.
  induction s as [|c s IH]; intros n i h Hn; cbn [hash_loop poly]; [lia|].
  rewrite zlen_cons in Hn. rewrite IH by lia. replace (n - 1 - i) with (zlen s) by lia. lia.
Qed.

Lemma wrap32_eqm x : wrap32 x `mod` 2 ^ 32 = x `mod` 2 ^ 32.
Proof.
  unfold wrap32. rewrite Zminus_mod_idemp_l. f_equal. lia.
Qed.
Lemma wrap32_cong x y : x `mod` 2 ^ 32 = y `mod` 2 ^ 32 → wrap32 x = wrap32 y.
Proof.
  intros H. unfold wrap32. f_equal.
  by rewrite <- (Zplus_mod_idemp_l x), H, Zplus_mod_idemp_l.
Qed.

Lemma java_hash_from s : ∀ h,
  foldl (λ h c, wrap32 (31 * h + c)) (wrap32 h) s = wrap32 (h * 31 ^ zlen s + poly s).
Proof.
  induction s as [|c s IH]; intros h; cbn [foldl poly].
  - f_equal. change (zlen []) with 0. lia.
  - rewrite zlen_cons, Z.pow_add_r, Z.pow_1_r by (pose proof (zlen_nonneg s); lia).
    rewrite <- (wrap32_cong (31 * h + c)).
    + rewrite IH. f_equal. ring.
    + rewrite <- (Zplus_mod_idemp_l (31 * wrap32 h)), <- (Zmult_mod_idemp_r (wrap32 h)),
        wrap32_eqm, Zmult_mod_idemp_r. by rewrite Zplus_mod_idemp_l.
Qed.
Lemma java_hash_poly s : java_hash s = wrap32 (poly s).
Proof. apply (java_hash_from s 0). Qed.

Lemma convert_4_bytes_low n : convert_4_bytes n = wrap32 n `mod` 2 ^ 28.
Proof.
  unfold convert_4_bytes, convert_n_bytes. change 268435455 with (Z.ones 28).
  rewrite Z.land_ones by lia. done.
Qed.

Lemma getHashCode_java s : getHashCode s = java_hash s `mod` 2 ^ 28.
Proof.
  unfold getHashCode. rewrite hash_loop_poly, convert_4_bytes_low by lia.
  by rewrite java_hash_poly.
Qed.

(** ** Repartition *)
Lemma py_index_nat {A} (l : list A) i x : l !! i = Some x → py_index l (Z.of_nat i) = Ret x.
Proof.
  intros Hl. unfold py_index. rewrite (proj2 (Z.ltb_ge (Z.of_nat i) 0)) by lia.
  rewrite (proj2 (Z.ltb_ge (Z.of_nat i) 0)) by lia. by rewrite Nat2Z.id, Hl.
Qed.

Lemma py_sort_fmap {A B} (f : A → B) (r : A → A → bool) (r' : B → B → bool) l :
  (∀ a b, r' (f a) (f b) = r a b) → py_sort r' (f <$> l) = f <$> py_sort r l.
Proof.
  intros Hr.
  assert (∀ x l, insert_sorted r' (f x) (f <$> l) = f <$> insert_sorted r x l) as Hi.
  { intros x m. induction m as [|y m IH]; [done|]. rewrite fmap_cons. cbn [insert_sorted].
    rewrite Hr. case_match; [done|]. by rewrite IH. }
  induction l as [|x l IH]; [done|]. rewrite fmap_cons. cbn. unfold py_sort in IH.
  by rewrite IH, Hi.
Qed.

Section repartition.
Context {B : Type} (n : Z) (Hn : 0 < n).
Local Abbreviation item := (string * B)%type.

Definition part_index (id : string) : Z := getHashCode (ords id) `mod` n.
Definition in_part (i : nat) (d : list item) : list item :=
  filter (λ x : item, part_index x.1 = Z.of_nat i) d.
Arguments in_part : simpl never.

Lemma part_index_bound id : 0 ≤ part_index id < n.
Proof. by apply Z.mod_pos_bound. Qed.

Lemma in_part_cons i (x : item) d :
  in_part i (x :: d)
  = if decide (i = Z.to_nat (part_index x.1)) then x :: in_part i d else in_part i d.
Proof.
  pose proof (part_index_bound x.1) as Hb. unfold in_part. case_decide as Hi.
  - rewrite filter_cons_True; [done|]. rewrite Hi, Z2Nat.id by lia. done.
  - rewrite filter_cons_False; [done|]. intros Heq. apply Hi. by rewrite Heq, Nat2Z.id.
Qed.

Lemma add_item_run (output : list (list item)) (x : item) :
  zlen output = n →
  add_item n output x = Ret (imap (λ i p, p ++ in_part i [x]) output).
Proof.
  intros Hl. unfold add_item. rewrite (proj2 (Z.eqb_neq n 0)) by lia.
  fold (part_index x.1). pose proof (part_index_bound x.1) as Hb.
  destruct (lookup_lt_is_Some_2 output (Z.to_nat (part_index x.1))) as [p Hp].
  { unfold zlen in Hl. lia. }
  rewrite <- (Z2Nat.id (part_index x.1)) at 1 by lia. rewrite (py_index_nat _ _ _ Hp).
  cbn. f_equal. apply list_eq. intros j. rewrite list_lookup_imap.
  destruct (decide (j = Z.to_nat (part_index x.1))) as [->|Hj].
  - rewrite list_lookup_insert_eq by (by eapply lookup_lt_Some). rewrite Hp. cbn. f_equal.
    by rewrite in_part_cons, decide_True by done.
  - rewrite list_lookup_insert_ne by done. destruct (output !! j); [|done]. cbn. f_equal.
    by rewrite in_part_cons, decide_False, app_nil_r by done.
Qed.

Lemma add_items_run (d : list item) : ∀ output,
  zlen output = n →
  add_items n output d = Ret (imap (λ i p, p ++ in_part i d) output).
Proof.
  induction d as [|x d IH]; intros output Hl; cbn [add_items].
  - f_equal. apply list_eq. intros j. rewrite list_lookup_imap.
    destruct (output !! j); [|done]. cbn. unfold in_part. by rewrite filter_nil, app_nil_r.
  - rewrite add_item_run by done. cbn [mbind outcome_bind]. rewrite IH.
    2:{ unfold zlen. by rewrite length_imap. }
    f_equal. apply list_eq. intros j. rewrite !list_lookup_imap.
    destruct (output !! j); [|done]. cbn. f_equal. rewrite <- (assoc_L (++)).
    unfold in_part. by rewrite <- filter_app.
Qed.

(** The partitions, in closed form. *)
Definition parts (d : list item) : list (list item) :=
  (λ i, py_sort by_id (in_part i d)) <$> seq 0 (Z.to_nat n).

Lemma repartition_run (d : list item) : repartition_and_sort d n = Ret (parts d).
Proof.
  unfold repartition_and_sort. rewrite add_items_run.
  2:{ unfold zlen. rewrite length_replicate. lia. }
  cbn [mbind outcome_bind]. f_equal. unfold parts. apply list_eq. intros j.
  rewrite !list_lookup_fmap, list_lookup_imap.
  destruct (decide (j < Z.to_nat n)%nat) as [Hj|Hj].
  - rewrite lookup_replicate_2, lookup_seq_lt by done. done.
  - rewrite lookup_seq_ge by lia. by rewrite lookup_ge_None_2 by (rewrite length_replicate; lia).
Qed.

Lemma parts_sorted d i p : parts d !! i = Some p →
  Sorted (λ a b, by_id a b = true) p ∧ p ≡ₚ in_part i d.
Proof.
  unfold parts. rewrite list_lookup_fmap_Some. intros (j & -> & Hj%lookup_seq). cbn in Hj.
  destruct Hj as [-> Hj]. split; [|apply py_sort_perm].
  apply py_sort_sorted. intros x y. apply str_leb_total.
Qed.

(** Every item is in one partition. *)
Lemma parts_perm d : concat (parts d) ≡ₚ d.
Proof.
  assert (∀ ks : list nat, NoDup ks → (∀ x, x ∈ d → Z.to_nat (part_index x.1) ∈ ks) →
            concat ((λ i, py_sort by_id (in_part i d)) <$> ks) ≡ₚ d) as Hall.
  { induction d as [|x d IH]; intros ks Hnd Hin.
    - induction ks as [|i ks IHks]; [done|]. rewrite fmap_cons. cbn [concat].
      inversion Hnd; subst. rewrite IHks; [done|done|set_solver].
    - assert (∃ a b, ks = a ++ Z.to_nat (part_index x.1) :: b) as (a & b & ->).
      { apply list_elem_of_split. apply Hin. set_solver. }
      pose proof (IH (a ++ Z.to_nat (part_index x.1) :: b) Hnd ltac:(set_solver)) as IHd.
      rewrite !fmap_app, !fmap_cons, !concat_app in *. cbn [concat] in *.
      assert (∀ l : list nat, Z.to_nat (part_index x.1) ∉ l →
                (λ i, py_sort by_id (in_part i (x :: d))) <$> l
                = (λ i, py_sort by_id (in_part i d)) <$> l) as Hsame.
      { intros l Hl. apply list_fmap_ext. intros k i Hi. rewrite in_part_cons, decide_False; [done|].
        intros ->. apply Hl. by eapply list_elem_of_lookup_2. }
      apply NoDup_app in Hnd as (_ & Hna & [Hnb _]%NoDup_cons).
      rewrite !Hsame by set_solver.
      assert (py_sort by_id (in_part (Z.to_nat (part_index x.1)) (x :: d))
              ≡ₚ x :: py_sort by_id (in_part (Z.to_nat (part_index x.1)) d)) as ->.
      { by rewrite !py_sort_perm, in_part_cons, decide_True by done. }
      cbn [app]. by rewrite <- Permutation_middle, IHd. }
  unfold parts. apply Hall; [apply NoDup_seq|]. intros x _. apply elem_of_seq.
  pose proof (part_index_bound x.1). lia.
Qed.
End repartition.

(** Partitions depend on the ids only. *)
Lemma parts_fmap {A B} (n : Z) (f : string * A → string * B) (d : list (string * A)) :
  (∀ x, (f x).1 = x.1) → parts n (f <$> d) = fmap (M:=list) f <$> parts n d.
Proof.
  intros Hf. unfold parts. rewrite <- list_fmap_compose. apply list_fmap_ext.
  intros _ i _. cbn. rewrite <- (py_sort_fmap f by_id by_id).
  - f_equal. unfold in_part. induction d as [|x d IH]; [done|]. rewrite fmap_cons.
    destruct (decide (part_index n x.1 = Z.of_nat i)) as [Hi|Hi].
    + rewrite !filter_cons_True by (rewrite ?Hf; done). rewrite fmap_cons. by rewrite IH.
    + rewrite !filter_cons_False by (rewrite ?Hf; done). done.
  - intros a b. unfold by_id. by rewrite !Hf.
Qed.

(** ** The rows *)
Record row := mkRow { rw_id : string; rw_pixels : list Z; rw_label : Z }.

Section datasets.
Context {R : Type} `{Serialize R}.

(** The record of a row, for either side. *)
Definition base_dict (id : string) (x : list R) : list (string * pb_feature R) :=
  [("example_id", BytesList [utf8 id]); ("event_time", BytesList ["20191001042452"]);
   ("x", FloatList x)].
Definition labelled_record (x : row → list R) (r : row) : string :=
  example_to_string (base_dict (rw_id r) (x r) ++ [("y", Int64List [rw_label r])]).
Definition plain_record (x : row → list R) (r : row) : string :=
  example_to_string (base_dict (rw_id r) (x r)).

Lemma dataset_run (f : nat → outcome (string * string)) (rec : row → string) rows : ∀ k,
  (∀ i r, rows !! i = Some r → f (k + i)%nat = Ret (rw_id r, rec r)) →
  foldr (λ i acc, item ← f i; l ← acc; Ret (item :: l)) (Ret []) (seq k (length rows))
  = Ret ((λ r, (rw_id r, rec r)) <$> rows).
Proof.
  induction rows as [|r rows IH]; intros k Hf; [done|]. cbn [length seq foldr].
  rewrite IH.
  - pose proof (Hf 0%nat r eq_refl) as H0. rewrite Nat.add_0_r in H0. by rewrite H0.
  - intros i r' Hi. rewrite <- (Hf (S i) r' Hi). f_equal. lia.
Qed.

Lemma index_fmap {A B} (g : A → B) (l : list A) i x :
  l !! i = Some x → index (g <$> l) i = Ret (g x).
Proof. intros Hl. apply py_index_nat. by rewrite list_lookup_fmap, Hl. Qed.

Lemma labelled_dataset_run (x : row → list R) rows :
  Forall (λ r, in_int64 (rw_label r) = true) rows →
  get_pb_dataset (rw_id <$> rows) (x <$> rows) (Some (rw_label <$> rows))
  = Ret ((λ r, (rw_id r, labelled_record x r)) <$> rows).
Proof.
  intros Hy. unfold get_pb_dataset. rewrite length_fmap. apply dataset_run. intros i r Hi.
  cbn [dataset_item]. rewrite !(index_fmap _ _ _ _ Hi). cbn [mbind outcome_bind].
  assert (item_2_tf_record [utf8 (rw_id r)] (x r) (Some [rw_label r]) = Ret (labelled_record x r))
    as ->; [|done].
  pose proof (Forall_lookup_1 _ _ _ _ Hy Hi) as Hr. cbn beta in Hr.
  unfold item_2_tf_record, get_feature. cbn. by rewrite Hr.
Qed.
Lemma plain_dataset_run (x : row → list R) rows :
  get_pb_dataset (rw_id <$> rows) (x <$> rows) None
  = Ret ((λ r, (rw_id r, plain_record x r)) <$> rows).
Proof.
  unfold get_pb_dataset. rewrite length_fmap. apply dataset_run. intros i r Hi.
  cbn [dataset_item]. by rewrite !(index_fmap _ _ _ _ Hi).
Qed.
End datasets.

(** The rows of a partition, in the order of the ids. *)
Definition row_parts (n : Z) (rows : list row) : list (list row) :=
  fmap (M:=list) snd <$> parts n ((λ r, (rw_id r, r)) <$> rows).

Lemma row_parts_perm n rows : 0 < n → concat (row_parts n rows) ≡ₚ rows.
Proof.
  intros Hn. unfold row_parts.
  assert (∀ l : list (list (string * row)),
            concat (fmap (M:=list) snd <$> l) = snd <$> concat l) as ->.
  { induction l as [|p l IH]; [done|]. rewrite fmap_cons. cbn [concat]. by rewrite fmap_app, IH. }
  rewrite parts_perm by done. rewrite <- list_fmap_compose. by rewrite list_fmap_id.
Qed.

Lemma parts_of_rows n (rec : row → string) rows :
  parts n ((λ r, (rw_id r, rec r)) <$> rows)
  = fmap (M:=list) (λ r, (rw_id r, rec r)) <$> row_parts n rows.
Proof.
  unfold row_parts.
  set (d := (λ r, (rw_id r, r)) <$> rows).
  replace ((λ r, (rw_id r, rec r)) <$> rows) with ((λ x : string * row, (x.1, rec x.2)) <$> d)
    by (unfold d; by rewrite <- list_fmap_compose).
  rewrite parts_fmap by done. rewrite <- list_fmap_compose. apply list_fmap_ext.
  intros i p Hp. cbn. rewrite <- list_fmap_compose. apply list_fmap_ext. intros j x Hx. cbn.
  apply parts_sorted in Hp as [_ Hp]. apply list_elem_of_lookup_2 in Hx. rewrite Hp in Hx.
  apply list_elem_of_filter in Hx as [_ Hx]. unfold d in Hx.
  by apply list_elem_of_fmap in Hx as (r & -> & _).
Qed.

(** ** Paths *)
Lemma startswith_app d p s : Str.startswith (d +:+ p) (d +:+ s) = Str.startswith p s.
Proof.
  induction d as [|c d IH]; [done|]. rewrite !Str.append_cons. simpl.
  by rewrite bool_decide_true.
Qed.
(** Two starts of one string: one is a start of the other. *)
Lemma startswith_both p q s :
  Str.startswith p s = true → Str.startswith q s = true →
  Str.startswith p q = true ∨ Str.startswith q p = true.
Proof.
  revert q s. induction p as [|a p IH]; intros [|b q] [|c s]; simpl; auto; try done.
  rewrite !andb_true_iff, !bool_decide_eq_true. intros [-> Hp] [-> Hq].
  destruct (IH q s Hp Hq); auto.
Qed.

Lemma below_trans p q r : below p q = true → below q r = true → below p r = true.
Proof.
  unfold below. rewrite !Str.startswith_spec. intros [a ->] [b ->].
  exists (a +:+ "/" +:+ b). by rewrite <- !Str.append_assoc.
Qed.

(** Under [d], different names lead to different subtrees. *)
Definition apart (a b : string) : bool :=
  negb (Str.startswith (a +:+ "/") (b +:+ "/") || Str.startswith (b +:+ "/") (a +:+ "/")).

Lemma below_apart d a b q :
  apart a b = true → below (d +:+ a) q = true → below (d +:+ b) q = false.
Proof.
  unfold apart, below. intros Hab Ha. apply not_true_is_false. intros Hb.
  rewrite <- !Str.append_assoc in Ha, Hb. apply negb_true_iff, orb_false_iff in Hab as [H1 H2].
  destruct (startswith_both _ _ _ Ha Hb) as [Hs|Hs]; rewrite startswith_app in Hs; congruence.
Qed.
Lemma above_apart d a b q :
  apart a b = true → q = d +:+ b ∨ below q (d +:+ b) = true → below (d +:+ a) q = false.
Proof.
  intros Hab Hq. apply not_true_is_false. intros Ha.
  assert (below (d +:+ a) (d +:+ b) = true) as Hb.
  { destruct Hq as [->|Hq]; [done|by eapply below_trans]. }
  unfold below in Hb. rewrite <- Str.append_assoc, startswith_app in Hb.
  unfold apart in Hab. apply negb_true_iff, orb_false_iff in Hab as [H1 _].
  apply Str.startswith_spec in Hb as [r ->].
  rewrite (proj2 (Str.startswith_spec (a +:+ "/") _)) in H1; [done|].
  exists (r +:+ "/"). by rewrite !Str.append_assoc.
Qed.

(** The names of the directories that the program writes. *)
Definition plain_name (a : string) : bool :=
  negb (bool_decide (a = "")) && negb (Str.endswith "/" a).

Lemma path_join_name d a f :
  plain_name a = true → Str.startswith "/" f = false →
  Str.path_join (d +:+ a) f = (d +:+ a) +:+ "/" +:+ f.
Proof.
  unfold plain_name, Str.path_join. rewrite andb_true_iff, !negb_true_iff, bool_decide_eq_false.
  intros [Hne Ha] ->.
  assert (d +:+ a ≠ "") as Hda.
  { intros Hda. apply (f_equal String.length) in Hda. rewrite Str.length_append in Hda.
    destruct a; [done|simpl in Hda; lia]. }
  rewrite bool_decide_false by done. cbn [orb].
  assert (Str.endswith "/" (d +:+ a) = false) as ->; [|done].
  unfold Str.endswith in *. rewrite Str.rev_append.
  destruct (String.rev a) as [|c r] eqn:E.
  - apply (f_equal String.rev) in E.
    by rewrite Str.rev_involutive in E.
  - rewrite Str.append_cons. simpl in *. destruct (bool_decide ("/"%char = c)); done.
Qed.

(** The files of a directory. *)
Lemma pad5_inj i j : 0 ≤ i → 0 ≤ j → pad5 i = pad5 j → i = j.
Proof. apply Str.zfill_of_int_inj. Qed.
Lemma mem_pad5 i : 0 ≤ i → Str.mem "/"%char (pad5 i) = false.
Proof.
  intros Hi. unfold pad5, Str.zfill. by rewrite Str.mem_append, Str.mem_zeros, Str.mem_of_int.
Qed.

(** [name] is the name of one file, without a directory. *)
Definition file_name (name : string) : Prop := Str.mem "/"%char name = false ∧ name ≠ "".
Lemma file_name_relative name : file_name name → Str.startswith "/" name = false.
Proof.
  intros [Hm Hn]. destruct name as [|c name]; [done|]. simpl in *.
  apply orb_false_iff in Hm as [Hc _]. rewrite bool_decide_eq_false in Hc.
  by rewrite bool_decide_false.
Qed.
Lemma file_name_pad5 i ext : 0 ≤ i → Str.mem "/"%char ext = false → ext ≠ "" →
  file_name (pad5 i +:+ ext).
Proof.
  intros Hi Hm Hn. split; [by rewrite Str.mem_append, mem_pad5|].
  intros Hp. apply (f_equal String.length) in Hp. rewrite Str.length_append in Hp.
  destruct ext; [done|simpl in Hp; lia].
Qed.

Section paths.
Context (d a : string) (Ha : plain_name a = true).
Local Abbreviation dir := (d +:+ a).

Lemma record_path_eq i : 0 ≤ i → record_path dir i = dir +:+ "/" +:+ (pad5 i +:+ ".tfrecord").
Proof. intros Hi. by apply path_join_name, file_name_relative, file_name_pad5. Qed.
Lemma lines_path_eq i : 0 ≤ i → lines_path dir i = dir +:+ "/" +:+ (pad5 i +:+ ".meta").
Proof. intros Hi. by apply path_join_name, file_name_relative, file_name_pad5. Qed.
Lemma record_path_below i : 0 ≤ i → below dir (record_path dir i) = true.
Proof.
  intros Hi. rewrite record_path_eq by done. apply Str.startswith_spec. eexists. apply Str.append_assoc.
Qed.
Lemma lines_path_below i : 0 ≤ i → below dir (lines_path dir i) = true.
Proof.
  intros Hi. rewrite lines_path_eq by done. apply Str.startswith_spec. eexists. apply Str.append_assoc.
Qed.
Lemma record_path_inj i j : 0 ≤ i → 0 ≤ j → record_path dir i = record_path dir j → i = j.
Proof.
  intros Hi Hj. rewrite !record_path_eq by done. intros Hp%Str.append_inj_l.
  apply Str.append_inj_l, Str.append_inj_r in Hp. by apply pad5_inj.
Qed.
Lemma lines_path_inj i j : 0 ≤ i → 0 ≤ j → lines_path dir i = lines_path dir j → i = j.
Proof.
  intros Hi Hj. rewrite !lines_path_eq by done. intros Hp%Str.append_inj_l.
  apply Str.append_inj_l, Str.append_inj_r in Hp. by apply pad5_inj.
Qed.
End paths.

(** ** The laws of the file tree *)
Class TreeLaws (F : Type) `{Tree F} := {
  exists_law p q fs :
    tr_exists p fs = false → q = p ∨ below p q = true → tr_files fs !! q = None;
  rmtree_law p fs :
    tr_files fs !! p = None → tr_exists p fs = true →
    ∃ fs', tr_rmtree p fs = (Ret tt, fs') ∧ tr_exists p fs' = false ∧
           (∀ q, tr_files fs' !! q = if below p q then None else tr_files fs !! q) ∧
           (∀ q, below p q = false → tr_writable fs q → tr_writable fs' q);
  makedirs_law p fs :
    tr_exists p fs = false →
    (∀ q, q = p ∨ below q p = true → tr_files fs !! q = None) →
    ∃ fs', tr_makedirs p fs = (Ret tt, fs') ∧ tr_files fs' = tr_files fs ∧
           (∀ name, file_name name → tr_writable fs' (p +:+ "/" +:+ name)) ∧
           (∀ q, q ≠ p → below q p = false → tr_writable fs q → tr_writable fs' q);
  write_records_law p l fs :
    tr_writable fs p →
    ∃ fs', tr_write_records p l fs = (Ret tt, fs') ∧
           tr_files fs' = <[p := Records l]> (tr_files fs) ∧
           (∀ q, tr_writable fs q → tr_writable fs' q);
  write_lines_law p l fs :
    tr_writable fs p →
    ∃ fs', tr_write_lines p l fs = (Ret tt, fs') ∧
           tr_files fs' = <[p := Lines l]> (tr_files fs) ∧
           (∀ q, tr_writable fs q → tr_writable fs' q);
}.

(** No plain file is in the way of the directory [p]. *)
Definition clear_path {F} `{Tree F} (fs : F) (p : string) : Prop :=
  ∀ q, q = p ∨ below q p = true → tr_files fs !! q = None.

Section saving.
Context {F : Type} `{TreeLaws F} `{Random}.
Local Abbreviation S := (gen F).
Local Abbreviation files s := (tr_files (gn_fs s)).

Lemma run_on_files (c : M F unit) (s : S) fs' :
  c (gn_fs s) = (Ret tt, fs') → on_files c s = (Ret tt, set_gn_fs fs' s).
Proof. intros Hc. unfold on_files, zoom. by rewrite Hc. Qed.

Lemma empty_dir_run p (s : S) :
  clear_path (gn_fs s) p →
  ∃ s', empty_dir p s = (Ret tt, s') ∧ gn_uuids s' = gn_uuids s ∧
    (∀ q, files s' !! q = if below p q then None else files s !! q) ∧
    (∀ name, file_name name → tr_writable (gn_fs s') (p +:+ "/" +:+ name)) ∧
    (∀ q, q ≠ p → below q p = false → below p q = false →
          tr_writable (gn_fs s) q → tr_writable (gn_fs s') q).
Proof.
  intros Hc. unfold empty_dir. rewrite run_bind. cbn [gets].
  destruct (tr_exists p (gn_fs s)) eqn:E.
  - destruct (rmtree_law p (gn_fs s)) as (fs1 & R1 & E1 & F1 & W1); [by apply Hc; left|done|].
    rewrite (run_bind_ret _ _ _ _ _ (run_on_files _ _ _ R1)).
    destruct (makedirs_law p fs1 E1) as (fs2 & R2 & F2 & W2 & W2').
    { intros q Hq. rewrite F1. case_match; [done|by apply Hc]. }
    exists (set_gn_fs fs2 (set_gn_fs fs1 s)). split; [by apply run_on_files|].
    split; [done|]. cbn. rewrite F2. split; [done|]. split; [done|]. auto.
  - rewrite run_bind, run_ret. destruct (makedirs_law p (gn_fs s) E Hc) as (fs2 & R2 & F2 & W2 & W2').
    exists (set_gn_fs fs2 s). split; [by apply run_on_files|]. split; [done|]. cbn. rewrite F2.
    split; [|by auto]. intros q. case_match; [|done]. eapply exists_law; eauto.
Qed.

(** What is written of a partition: all of it, without a drop rate. *)
Definition kept_of {B} (drop_rate : Q) (kept part : list B) : Prop :=
  kept `sublist_of` part ∧ ((drop_rate <= 0)%Q → kept = part).

Lemma keep_run drop_rate part : ∀ s : S, ∃ kept k,
  keep drop_rate part s = (Ret kept, mkGen (gn_fs s) k (gn_uuids s)) ∧
  kept_of drop_rate kept part.
Proof.
  induction part as [|x part IH]; intros s; cbn [keep].
  - exists [], (gn_draws s). by destruct s.
  - rewrite run_bind. destruct (Qlt_bool 0 drop_rate) eqn:E.
    + rewrite run_bind. cbn [next_random]. rewrite run_ret, run_bind.
      set (s1 := mkGen _ _ _). destruct (IH s1) as (kept & k & -> & Hs & _).
      exists (if Qlt_bool drop_rate (random (gn_draws s)) then x :: kept else kept), k.
      split; [done|]. split; [case_match; by constructor|].
      intros Hd. unfold Qlt_bool in E. apply Qle_bool_iff in Hd. by rewrite Hd in E.
    + rewrite run_ret, run_bind. destruct (IH s) as (kept & k & -> & Hs & Hk).
      exists (x :: kept), k. split; [done|]. split; [by constructor|].
      intros Hd. by rewrite Hk.
Qed.
End saving.

Section save_local.
Context {F : Type} `{TreeLaws F} `{Random}.
Context (d a : string) (Ha : plain_name a = true) (Hm : plain_name (a +:+ "_meta") = true).
Local Abbreviation S := (gen F).
Local Abbreviation files s := (tr_files (gn_fs s)).
Local Abbreviation dir := (d +:+ a).
Local Abbreviation dirm := (dir +:+ "_meta").
Local Abbreviation item := (string * string)%type.

Lemma meta_apart : apart a (a +:+ "_meta") = true.
Proof. unfold apart. by rewrite <- !Str.append_assoc, !startswith_app. Qed.
Lemma meta_dir : dirm = d +:+ (a +:+ "_meta").
Proof. symmetry. apply Str.append_assoc. Qed.
Lemma dir_not_meta q : below dir q = true → below dirm q = false.
Proof. rewrite meta_dir. apply below_apart, meta_apart. Qed.
Lemma meta_not_dir q : below dirm q = true → below dir q = false.
Proof. intros Hq. apply not_true_is_false. intros Hd%dir_not_meta. congruence. Qed.

Lemma dirm_not_below : below dir (d +:+ (a +:+ "_meta")) = false.
Proof. apply (above_apart d a (a +:+ "_meta")); [apply meta_apart|by left]. Qed.

Lemma record_below i : 0 ≤ i → below dir (record_path dir i) = true.
Proof. by apply record_path_below. Qed.
Lemma lines_below i : 0 ≤ i → below dirm (lines_path dirm i) = true.
Proof. rewrite meta_dir. by apply lines_path_below. Qed.
Lemma record_not_lines i j : 0 ≤ i → 0 ≤ j → record_path dir i ≠ lines_path dirm j.
Proof.
  intros Hi Hj Heq. pose proof (lines_below j Hj) as Hl. rewrite <- Heq in Hl.
  apply meta_not_dir in Hl. by rewrite record_below in Hl.
Qed.

Lemma lines_inj i j : 0 ≤ i → 0 ≤ j → lines_path dirm i = lines_path dirm j → i = j.
Proof. rewrite meta_dir. by apply lines_path_inj. Qed.

Ltac differ :=
  intros Heq;
  first [apply (record_path_inj d a Ha) in Heq; lia
        |apply lines_inj in Heq; lia
        |apply record_not_lines in Heq; [done|lia..]
        |symmetry in Heq; apply record_not_lines in Heq; [done|lia..]].

(** The files after the first [k] partitions, from the files [fs1] on. *)
Record written (fs1 : gmap string content) (kept : list (list item)) (s : S) : Prop := mkWritten {
  wr_files i p : kept !! i = Some p →
    files s !! record_path dir (Z.of_nat i) = Some (Records p.*2) ∧
    files s !! lines_path dirm (Z.of_nat i) = Some (Lines p.*1);
  wr_same q :
    (∀ i, (i < length kept)%nat →
      q ≠ record_path dir (Z.of_nat i) ∧ q ≠ lines_path dirm (Z.of_nat i)) →
    files s !! q = fs1 !! q;
  wr_writable i : 0 ≤ i → tr_writable (gn_fs s) (record_path dir i) ∧
                          tr_writable (gn_fs s) (lines_path dirm i);
}.

Lemma save_partition_run data drop_rate fs1 kept (s : S) part :
  written fs1 kept s → data !! length kept = Some part →
  ∃ s' k, save_partition data dir (Some dirm) drop_rate true (Z.of_nat (length kept)) s
            = (Ret tt, s') ∧
    gn_uuids s' = gn_uuids s ∧ kept_of drop_rate k part ∧ written fs1 (kept ++ [k]) s'.
Proof.
  intros [W1 W2 W3] Hp. unfold save_partition. rewrite run_bind. cbn [liftO].
  rewrite run_bind. unfold liftO at 1. rewrite (py_index_nat _ _ _ Hp), run_bind.
  destruct (keep_run drop_rate part s) as (k & n & -> & Hk). set (s1 := mkGen _ _ _).
  set (i := Z.of_nat (length kept)). assert (0 ≤ i) as Hi by lia.
  destruct (W3 i Hi) as [Wr Wl].
  destruct (write_records_law _ k.*2 (gn_fs s1) Wr) as (fs2 & R2 & F2 & P2).
  rewrite (run_bind_ret _ _ _ _ _ (run_on_files _ s1 _ R2)).
  destruct (write_lines_law _ k.*1 fs2 (P2 _ Wl)) as (fs3 & R3 & F3 & P3).
  exists (set_gn_fs fs3 (set_gn_fs fs2 s1)), k. split; [by apply run_on_files|].
  split; [done|]. split; [done|]. split; cbn; rewrite ?F3, ?F2; cbn.
  - intros j p Hj. apply lookup_app_Some in Hj. destruct Hj as [Hj|[Hge Hj]].
    + pose proof (lookup_lt_Some _ _ _ Hj) as Hlt.
      rewrite !lookup_insert_ne by differ. by apply W1.
    + apply list_lookup_singleton_Some in Hj as [Hj <-]. replace (Z.of_nat j) with i by lia.
      rewrite lookup_insert_ne by differ. by rewrite !lookup_insert_eq.
  - intros q Hq. rewrite length_app in Hq. simpl in Hq. destruct (Hq (length kept)) as [Hq1 Hq2]; [lia|].
    rewrite !lookup_insert_ne by done. apply W2. intros j Hj. apply Hq. lia.
  - intros j Hj. destruct (W3 j Hj). auto.
Qed.

Lemma save_partitions_run data drop_rate fs1 todo : ∀ kept (s : S),
  written fs1 kept s → drop (length kept) data = todo →
  ∃ s' ks, forM (Z.of_nat <$> seq (length kept) (length todo))
             (save_partition data dir (Some dirm) drop_rate true) s = (Ret tt, s') ∧
    gn_uuids s' = gn_uuids s ∧ Forall2 (kept_of drop_rate) ks todo ∧
    written fs1 (kept ++ ks) s'.
Proof.
  induction todo as [|part todo IH]; intros kept s Hw Hd.
  - exists s, []. rewrite app_nil_r. by split_and!.
  - assert (data !! length kept = Some part) as Hp.
    { rewrite <- (Nat.add_0_r (length kept)), <- lookup_drop, Hd. done. }
    destruct (save_partition_run data drop_rate fs1 kept s part Hw Hp)
      as (s1 & k & R1 & U1 & Hk & Hw1).
    destruct (IH (kept ++ [k]) s1 Hw1) as (s2 & ks & R2 & U2 & Hks & Hw2).
    { rewrite length_app. simpl. rewrite <- drop_drop, Hd. done. }
    rewrite length_app in R2. simpl in R2. rewrite Nat.add_1_r in R2.
    exists s2, (k :: ks). cbn [length seq]. rewrite fmap_cons. cbn [forM].
    rewrite (run_bind_ret _ _ _ _ _ R1). split; [done|]. split; [congruence|].
    split; [by constructor|]. by rewrite <- (assoc_L (++)) in Hw2.
Qed.

Lemma save_local_run n data drop_rate (s : S) :
  0 < n → clear_path (gn_fs s) dir → clear_path (gn_fs s) dirm →
  ∃ s' kept, save_local data dir n drop_rate true s = (Ret tt, s') ∧
    gn_uuids s' = gn_uuids s ∧ Forall2 (kept_of drop_rate) kept (parts n data) ∧
    (∀ i p, kept !! i = Some p →
      files s' !! record_path dir (Z.of_nat i) = Some (Records p.*2) ∧
      files s' !! lines_path dirm (Z.of_nat i) = Some (Lines p.*1)) ∧
    (∀ q, below dir q = false → below dirm q = false → files s' !! q = files s !! q).
Proof.
  intros Hn Hc Hcm. unfold save_local.
  destruct (empty_dir_run dir s Hc) as (s1 & R1 & U1 & F1 & W1 & P1).
  rewrite (run_bind_ret _ _ _ _ _ R1).
  destruct (empty_dir_run dirm s1) as (s2 & R2 & U2 & F2 & W2 & P2).
  { intros q Hq. rewrite F1. case_match; [done|by apply Hcm]. }
  rewrite run_bind, (run_bind_ret _ _ _ _ _ R2), run_ret, run_bind.
  unfold liftO. rewrite repartition_run by done.
  assert (written (files s2) [] s2) as Hw.
  { split; [done|done|]. intros i Hi. split.
    - rewrite record_path_eq by done. pose proof (record_path_below d a Ha i Hi) as Hb.
      rewrite record_path_eq in Hb by done. apply P2.
      + intros Heq. rewrite Heq, meta_dir in Hb. by rewrite dirm_not_below in Hb.
      + apply not_true_is_false. intros Hb'. pose proof (below_trans _ _ _ Hb Hb') as Hd.
        rewrite meta_dir in Hd. by rewrite dirm_not_below in Hd.
      + by apply dir_not_meta.
      + apply W1. by apply file_name_pad5.
    - rewrite meta_dir, lines_path_eq, <- meta_dir by done. apply W2. by apply file_name_pad5. }
  destruct (save_partitions_run (parts n data) drop_rate (files s2) (parts n data) [] s2 Hw eq_refl)
    as (s3 & ks & R3 & U3 & Hks & [Wf Ws _]).
  cbn [length app] in *. unfold parts in R3 at 1. rewrite length_fmap, length_seq in R3.
  exists s3, ks. split; [done|]. split; [congruence|]. split; [done|]. split; [done|].
  intros q Hq Hqm. rewrite Ws, F2, F1, Hq, Hqm; [done|].
  intros i _. split; intros ->; [by rewrite record_below in Hq by lia|].
  by rewrite lines_below in Hqm by lia.
Qed.
End save_local.

(** ** The whole program *)
Lemma fmap_zip_with_snd {A B C D} (f : A → B → C) (g : C → D) (h : B → D) l k :
  (∀ x y, g (f x y) = h y) → (length k ≤ length l)%nat → g <$> zip_with f l k = h <$> k.
Proof.
  intros Hg. revert l. induction k as [|y k IH]; intros [|x l] Hl; simpl in Hl; try done; [lia|].
  cbn [zip_with]. rewrite !fmap_cons, Hg. f_equal. apply IH. lia.
Qed.

Section main_run.
Context {F R : Type} `{TreeLaws F} `{Random} `{Serialize R} `{Utils}.
Context (scale : Z → R).
Local Abbreviation S := (gen F).
Local Abbreviation files s := (tr_files (gn_fs s)).

(** The samples with the ids they are given. *)
Definition rows_of (first_uuid : nat) (mnist_x : list (list (list Z))) (mnist_y : list Z)
    : list row :=
  zip_with (λ u xy, mkRow u (concat xy.1) xy.2)
    (uuid1 <$> seq first_uuid (length mnist_y)) (zip mnist_x mnist_y).
(** The two halves of an image. *)
Definition half_of (mnist_x : list (list (list Z))) : nat :=
  (length (concat (default [] (head mnist_x))) / 2)%nat.
Definition leader_half (half : nat) (r : row) : list R := take half (scale <$> rw_pixels r).
Definition follower_half (half : nat) (r : row) : list R := drop half (scale <$> rw_pixels r).

Lemma halves_rejoin half r : leader_half half r ++ follower_half half r = scale <$> rw_pixels r.
Proof. apply take_drop. Qed.

Lemma draw_uuids_run n : ∀ s : S,
  draw_uuids n s
  = (Ret (uuid1 <$> seq (gn_uuids s) n), mkGen (gn_fs s) (gn_draws s) (gn_uuids s + n)).
Proof.
  induction n as [|n IH]; intros s; cbn [draw_uuids].
  - rewrite Nat.add_0_r. by destruct s.
  - rewrite run_bind. cbn [next_uuid]. rewrite run_bind, IH. cbn. by rewrite Nat.add_succ_r.
Qed.

Lemma load_data_run mnist_x mnist_y (s : S) :
  mnist_x ≠ [] → length mnist_y = length mnist_x →
  let rows := rows_of (gn_uuids s) mnist_x mnist_y in
  let half := half_of mnist_x in
  load_data scale mnist_x mnist_y s
  = (Ret (leader_half half <$> rows, follower_half half <$> rows, rw_label <$> rows,
          rw_id <$> rows),
     mkGen (gn_fs s) (gn_draws s) (gn_uuids s + length mnist_y)).
Proof.
  intros Hx Hl rows half. unfold load_data. rewrite bool_decide_false by done.
  rewrite run_bind, run_ret, run_bind, draw_uuids_run, run_ret.
  assert (width ((λ image : list (list Z), fmap (M:=list) scale (concat image)) <$> mnist_x) = length (concat (default [] (head mnist_x))))
    as Hw by (unfold width; destruct mnist_x; [done|by rewrite fmap_cons; cbn; rewrite length_fmap]).
  rewrite Hw. fold (half_of mnist_x). fold half.
  assert (length (uuid1 <$> seq (gn_uuids s) (length mnist_y)) = length (zip mnist_x mnist_y)) as Hlen.
  { rewrite length_fmap, length_seq, length_zip_with. lia. }
  assert (rw_id <$> rows = uuid1 <$> seq (gn_uuids s) (length mnist_y)) as Eid.
  { unfold rows, rows_of. rewrite fmap_zip_with_l; [done|done|lia]. }
  assert (∀ {B} (f : list Z * Z → B), (λ r, f (rw_pixels r, rw_label r)) <$> rows
            = (λ xy, f (concat xy.1, xy.2)) <$> zip mnist_x mnist_y) as Exy.
  { intros B f. unfold rows, rows_of. apply fmap_zip_with_snd; [done|lia]. }
  f_equal. f_equal. f_equal; [|done]. f_equal; [f_equal|].
  - rewrite <- list_fmap_compose. unfold leader_half.
    rewrite (Exy _ (λ p, take half (scale <$> p.1))).
    transitivity ((λ image : list (list Z), take half (fmap (M:=list) scale (concat image))) <$> (zip mnist_x mnist_y).*1).
    + rewrite fst_zip by lia. done.
    + by rewrite <- list_fmap_compose.
  - rewrite <- list_fmap_compose. unfold follower_half.
    rewrite (Exy _ (λ p, drop half (scale <$> p.1))).
    transitivity ((λ image : list (list Z), drop half (fmap (M:=list) scale (concat image))) <$> (zip mnist_x mnist_y).*1).
    + rewrite fst_zip by lia. done.
    + by rewrite <- list_fmap_compose.
  - symmetry. etrans; [exact (Exy _ snd)|]. apply snd_zip. lia.
Qed.

(** The files of one of the four sets: in each partition the records of its rows
    and the list of their ids, in one order; all of the rows, without a drop
    rate. *)
Definition set_saved (args : gen_args) (dir : string) (rec : row → string) (rows : list row)
    (s : S) : Prop :=
  ∀ i part, row_parts (ga_partition_num args) rows !! i = Some part →
    ∃ kept, kept_of (ga_drop_rate args) kept part ∧
      files s !! record_path dir (Z.of_nat i) = Some (Records (rec <$> kept)) ∧
      files s !! lines_path (dir +:+ "_meta") (Z.of_nat i) = Some (Lines (rw_id <$> kept)).

Lemma kept_of_fmap {A B} drop_rate (f : A → B) kept part :
  kept_of drop_rate kept (f <$> part) → ∃ kept', kept = f <$> kept' ∧ kept_of drop_rate kept' part.
Proof.
  intros [Hs Hd].
  destruct (decide (Qle_bool drop_rate 0 = true)) as [E|E].
  { exists part. split; [apply Hd; by apply Qle_bool_iff|]. by split. }
  assert (∃ kept', kept = f <$> kept' ∧ kept' `sublist_of` part) as (kept' & -> & Hk).
  { clear Hd. remember (f <$> part) as fp eqn:Efp. revert part Efp.
    induction Hs as [|x l k Hs IH|x l k Hs IH]; intros part Efp.
    - exists []. by destruct part.
    - destruct part as [|y part]; [done|]. injection Efp as -> ->.
      destruct (IH part eq_refl) as (k' & -> & Hk'). exists (y :: k'). split; [done|by constructor].
    - destruct part as [|y part]; [done|]. injection Efp as -> ->.
      destruct (IH part eq_refl) as (k' & -> & Hk'). exists k'. split; [done|by constructor]. }
  exists kept'. split; [done|]. split; [done|]. intros Hle%Qle_bool_iff. congruence.
Qed.

Section sets.
Context (args : gen_args) (n_pos : 0 < ga_partition_num args) (need : ga_need_meta args = 1).
Local Abbreviation d := (ga_output_dir args).

(** The subtree that belongs to the set [a]. *)
Definition set_tree (a q : string) : bool :=
  below (d +:+ a) q || below ((d +:+ a) +:+ "_meta") q.
Definition set_clear (a : string) (s : S) : Prop :=
  clear_path (gn_fs s) (d +:+ a) ∧ clear_path (gn_fs s) ((d +:+ a) +:+ "_meta").
Definition set_name (a : string) : bool := plain_name a && plain_name (a +:+ "_meta").
Definition sets_apart (a b : string) : bool :=
  apart a b && apart a (b +:+ "_meta") && apart (a +:+ "_meta") b
  && apart (a +:+ "_meta") (b +:+ "_meta").

Lemma save_set_run eids x y a rec rows (s : S) :
  set_name a = true → set_clear a s →
  get_pb_dataset eids x y = Ret ((λ r, (rw_id r, rec r)) <$> rows) →
  ∃ s', save_set eids x y a args s = (Ret tt, s') ∧
    set_saved args (d +:+ a) rec rows s' ∧
    (∀ q, set_tree a q = false → files s' !! q = files s !! q).
Proof.
  intros [Ha Hm]%andb_true_iff [C1 C2] Hd. unfold save_set. rewrite run_bind, need.
  unfold liftO at 1. rewrite Hd. cbn [Z.eqb Pos.eqb].
  destruct (save_local_run d a Ha Hm (ga_partition_num args) ((λ r, (rw_id r, rec r)) <$> rows)
              (ga_drop_rate args) s n_pos C1 C2) as (s' & kept & Hr & _ & Hk & Hf & Hq).
  exists s'. split; [done|]. split.
  - intros i part Hp. rewrite parts_of_rows in Hk.
    destruct (Forall2_lookup_r _ _ _ i (fmap (λ r, (rw_id r, rec r)) part) Hk) as (k & Hi & Hki).
    { by rewrite list_lookup_fmap, Hp. }
    apply kept_of_fmap in Hki as (k' & -> & Hk'). exists k'. split; [done|].
    destruct (Hf _ _ Hi) as [-> ->]. by rewrite <- !list_fmap_compose.
  - intros q [Hq1 Hq2]%orb_false_iff. by apply Hq.
Qed.

Lemma set_tree_apart a b q : sets_apart a b = true → set_tree b q = true → set_tree a q = false.
Proof.
  unfold sets_apart, set_tree. rewrite !andb_true_iff, orb_true_iff, orb_false_iff.
  intros [[[H1' H2'] H3'] H4'] Hq. rewrite <- !Str.append_assoc in *.
  assert (∀ u v, apart u v = true → below (d +:+ v) q = true → below (d +:+ u) q = false) as Hbe.
  { intros u v Huv Hv. apply not_true_is_false. intros Hu. by rewrite (below_apart _ u v q Huv Hu) in Hv. }
  destruct Hq; split; eauto.
Qed.
Lemma set_clear_frame a b (s s' : S) :
  sets_apart a b = true → (∀ q, set_tree a q = false → files s' !! q = files s !! q) →
  set_clear b s → set_clear b s'.
Proof.
  unfold sets_apart, set_clear, set_tree. rewrite !andb_true_iff. intros [[[H1' H2'] H3'] H4'] Hs [C1 C2].
  rewrite <- !Str.append_assoc in *.
  split; intros q Hq; (rewrite Hs; [first [by apply C1|by apply C2]|]);
    apply orb_false_iff; split; eauto using above_apart.
Qed.
Lemma set_saved_frame a b rec rows (s s' : S) :
  set_name a = true → sets_apart b a = true →
  (∀ q, set_tree b q = false → files s' !! q = files s !! q) →
  set_saved args (d +:+ a) rec rows s → set_saved args (d +:+ a) rec rows s'.
Proof.
  intros [Ha Hm]%andb_true_iff Hab Hs Hsv i part Hp.
  destruct (Hsv i part Hp) as (kept & Hk & Hr & Hl). exists kept. split; [done|].
  rewrite !Hs; [done|apply (set_tree_apart b a)|apply (set_tree_apart b a)]; try done;
    apply orb_true_iff; [right|left].
  - apply lines_below; [done|lia].
  - apply record_path_below; [done|lia].
Qed.

Ltac keep_clear :=
  repeat (eapply set_clear_frame; [|eassumption|]; [reflexivity|]); assumption.
Ltac keep_saved :=
  repeat (eapply set_saved_frame; [| |eassumption|]; [reflexivity..|]); assumption.

(** The four sets, one after the other. *)
Lemma four_sets_run train test xl xf (s : S) :
  Forall (λ r, in_int64 (rw_label r) = true) train →
  Forall (λ r, in_int64 (rw_label r) = true) test →
  Forall (λ a, set_clear a s)
    ["/leader_train"; "/follower_train"; "/leader_test"; "/follower_test"] →
  ∃ s', (save_set (rw_id <$> train) (xl <$> train) (Some (rw_label <$> train)) "/leader_train" args;;
         save_set (rw_id <$> train) (xf <$> train) None "/follower_train" args;;
         save_set (rw_id <$> test) (xl <$> test) (Some (rw_label <$> test)) "/leader_test" args;;
         save_set (rw_id <$> test) (xf <$> test) None "/follower_test" args) s = (Ret tt, s') ∧
    set_saved args (d +:+ "/leader_train") (labelled_record xl) train s' ∧
    set_saved args (d +:+ "/follower_train") (plain_record xf) train s' ∧
    set_saved args (d +:+ "/leader_test") (labelled_record xl) test s' ∧
    set_saved args (d +:+ "/follower_test") (plain_record xf) test s'.
Proof.
  intros Htr Hte Hc.
  rewrite !Forall_cons in Hc. destruct Hc as (C1 & C2 & C3 & C4 & _).
  destruct (save_set_run _ _ _ "/leader_train" _ train s eq_refl C1
              (labelled_dataset_run xl _ Htr)) as (s1 & R1 & S1 & F1).
  destruct (save_set_run _ _ _ "/follower_train" _ train s1 eq_refl ltac:(keep_clear)
              (plain_dataset_run xf train)) as (s2 & R2 & S2 & F2).
  destruct (save_set_run _ _ _ "/leader_test" _ test s2 eq_refl ltac:(keep_clear)
              (labelled_dataset_run xl _ Hte)) as (s3 & R3 & S3 & F3).
  destruct (save_set_run _ _ _ "/follower_test" _ test s3 eq_refl ltac:(keep_clear)
              (plain_dataset_run xf test)) as (s4 & R4 & S4 & F4).
  exists s4. rewrite (run_bind_ret _ _ _ _ _ R1), (run_bind_ret _ _ _ _ _ R2).
  rewrite (run_bind_ret _ _ _ _ _ R3). split; [done|].
  split; [keep_saved|]. split; [keep_saved|]. split; [keep_saved|done].
Qed.
End sets.

Lemma slice_to_fmap {A B} (f : A → B) l k : slice_to (f <$> l) k = f <$> slice_to l k.
Proof. unfold slice_to, slice_pos, zlen. by rewrite length_fmap, <- fmap_take. Qed.
Lemma slice_from_fmap {A B} (f : A → B) l k : slice_from (f <$> l) k = f <$> slice_from l k.
Proof. unfold slice_from, slice_pos, zlen. by rewrite length_fmap, <- fmap_drop. Qed.

Lemma length_rows_of u mnist_x mnist_y :
  length mnist_y = length mnist_x → length (rows_of u mnist_x mnist_y) = length mnist_x.
Proof.
  intros Hl. unfold rows_of. rewrite length_zip_with, length_fmap, length_seq, length_zip_with. lia.
Qed.
Lemma labels_of_rows u mnist_x mnist_y :
  length mnist_y = length mnist_x → rw_label <$> rows_of u mnist_x mnist_y = mnist_y.
Proof.
  intros Hl. unfold rows_of. etrans; [|apply (snd_zip mnist_x); lia].
  apply fmap_zip_with_snd; [done|]. rewrite length_fmap, length_seq, length_zip_with. lia.
Qed.
End main_run.

(** ** Properties *)

Section properties.
Context {F R : Type} `{TreeLaws F} `{Random} `{Serialize R} `{Utils}.
Context (scale : Z → R).

(** C36.  The program writes the training and the test set of both sides, aligned.
    Every image goes to one of the two sets and there to one partition; partition
    [i] of the leader holds, in the order of the ids, the labelled left halves of
    its images, that of the follower the right halves of the same images, row by
    row, and the meta file of each the ids.  With a drop rate each side leaves out
    rows of its own, keeping the order. *)
Theorem main_writes_aligned_sets mnist_x mnist_y args (s : gen F) k :
  mnist_x ≠ [] → length mnist_y = length mnist_x →
  Forall (λ y, in_int64 y = true) mnist_y →
  train_length (zlen mnist_x) = Ret k →
  0 < ga_partition_num args → ga_need_meta args = 1 →
  Forall (λ a, set_clear args a s)
    ["/leader_train"; "/follower_train"; "/leader_test"; "/follower_test"] →
  let d := ga_output_dir args in
  let rows := rows_of (gn_uuids s) mnist_x mnist_y in
  let train := slice_to rows k in
  let test := slice_from rows k in
  let leader := labelled_record (leader_half scale (half_of mnist_x)) in
  let follower := plain_record (follower_half scale (half_of mnist_x)) in
  train ++ test = rows ∧
  concat (row_parts (ga_partition_num args) train) ≡ₚ train ∧
  concat (row_parts (ga_partition_num args) test) ≡ₚ test ∧
  ∃ s', main scale mnist_x mnist_y args s = (Ret tt, s') ∧
    set_saved args (d +:+ "/leader_train") leader train s' ∧
    set_saved args (d +:+ "/follower_train") follower train s' ∧
    set_saved args (d +:+ "/leader_test") leader test s' ∧
    set_saved args (d +:+ "/follower_test") follower test s'.
Proof.
  intros Hx Hl Hy Hk Hn Hm Hc d rows train test leader follower.
  split; [apply take_drop|]. split; [by apply row_parts_perm|]. split; [by apply row_parts_perm|].
  assert (Forall (λ r, in_int64 (rw_label r) = true) rows) as Hlab.
  { apply (Forall_fmap rw_label (λ y, in_int64 y = true)). unfold rows. by rewrite labels_of_rows. }
  destruct (four_sets_run args Hn Hm train test (leader_half scale (half_of mnist_x))
              (follower_half scale (half_of mnist_x))
              (mkGen (gn_fs s) (gn_draws s) (gn_uuids s + length mnist_y))
              ltac:(by apply Forall_take) ltac:(by apply Forall_drop) Hc) as (s' & Hr & Hs).
  exists s'. split; [|exact Hs]. rewrite <- Hr.
  unfold main. rewrite run_bind, load_data_run by done. fold rows. cbv beta iota zeta.
  unfold zlen. rewrite !length_fmap, Z.eqb_refl. cbn [assertM require].
  rewrite run_bind, run_ret, run_bind. unfold rows at 1. rewrite length_rows_of by done.
  fold (zlen mnist_x). unfold liftO at 1. rewrite Hk.
  by rewrite !slice_to_fmap, !slice_from_fmap.
Qed.

(** Without meta files nothing can be saved: the path of the meta file is
    built from a variable that is then not bound.  Each set ends in an
    [UnboundLocalError], after its earlier files have been removed. *)
Theorem save_without_meta_fails data dir n drop_rate (s : gen F) :
  0 < n → clear_path (gn_fs s) dir →
  ∃ s', save_local data dir n drop_rate false s = (raise UnboundLocalError, s') ∧
    ∀ q, tr_files (gn_fs s') !! q = if below dir q then None else tr_files (gn_fs s) !! q.
Proof.
  intros Hn Hc. destruct (empty_dir_run dir s Hc) as (s1 & R1 & _ & F1 & _).
  exists s1. split; [|done]. unfold save_local.
  rewrite (run_bind_ret _ _ _ _ _ R1), run_bind, run_ret, run_bind.
  unfold liftO. rewrite repartition_run by done.
  replace (Z.to_nat n) with (S (Z.to_nat (n - 1))) by lia. done.
Qed.
End properties.

(** C37.  The hash of an id fits in 28 bits: it is the low 28 bits of Java's
    [hashCode] of the string, which is what the code means to compute, and agrees
    with it exactly when that is neither negative nor too large. *)
Theorem hash_is_cut_to_28_bits s :
  0 ≤ getHashCode s < 2 ^ 28 ∧
  getHashCode s = java_hash s `mod` 2 ^ 28 ∧
  (getHashCode s = java_hash s ↔ 0 ≤ java_hash s < 2 ^ 28).
Proof.
  rewrite getHashCode_java. pose proof (Z.mod_pos_bound (java_hash s) (2 ^ 28) ltac:(done)) as Hb.
  split; [done|]. split; [done|]. split; [intros <-; exact Hb|intros Hj; by apply Z.mod_small].
Qed.

(** ** A file tree in memory *)
Record MemTree := mkMemTree { mt_files : gmap string content; mt_dirs : gset string }.

Definition entries (fs : MemTree) : list string :=
  (map_to_list (mt_files fs)).*1 ++ elements (mt_dirs fs).
Definition mt_exists (p : string) (fs : MemTree) : bool :=
  existsb (λ q, bool_decide (q = p) || below p q) (entries fs).

Lemma mt_exists_spec p fs :
  mt_exists p fs = true ↔ ∃ q, (q = p ∨ below p q = true) ∧
                               (is_Some (mt_files fs !! q) ∨ q ∈ mt_dirs fs).
Proof.
  unfold mt_exists, entries. rewrite existsb_exists. split.
  - intros (q & Hq & Hp). exists q. rewrite orb_true_iff, bool_decide_eq_true in Hp. split; [done|].
    apply list_elem_of_In, elem_of_app in Hq as [Hq|Hq]; [left|right; by apply elem_of_elements].
    apply list_elem_of_fmap in Hq as ([? c] & -> & Hq). apply elem_of_map_to_list in Hq. by exists c.
  - intros (q & Hp & Hq). exists q. rewrite orb_true_iff, bool_decide_eq_true. split; [|done].
    apply list_elem_of_In, elem_of_app. destruct Hq as [[c Hq]|Hq]; [left|right; by apply elem_of_elements].
    apply list_elem_of_fmap. exists (q, c). split; [done|]. by apply elem_of_map_to_list.
Qed.

Definition mt_write (p : string) (c : content) : M MemTree unit := λ fs,
  if bool_decide (p ∈ mt_dirs fs) then (raise NotFoundError, fs)
  else (Ret tt, mkMemTree (<[p := c]> (mt_files fs)) (mt_dirs fs)).

#[export] Instance mem_tree : Tree MemTree := {
  tr_exists := mt_exists;
  tr_rmtree p := λ fs,
    if bool_decide (is_Some (mt_files fs !! p)) || negb (mt_exists p fs)
    then (raise NotFoundError, fs)
    else (Ret tt, mkMemTree (filter (λ x, below p x.1 = false) (mt_files fs))
                    (filter (λ q, q ≠ p ∧ below p q = false) (mt_dirs fs)));
  tr_makedirs p := λ fs,
    if bool_decide (is_Some (mt_files fs !! p)) then (raise AlreadyExistsError, fs)
    else (Ret tt, mkMemTree (mt_files fs) ({[p]} ∪ mt_dirs fs));
  tr_write_records p l := mt_write p (Records l);
  tr_write_lines p l := mt_write p (Lines l);
  tr_files := mt_files;
  tr_writable fs p := p ∉ mt_dirs fs;
}.

Lemma below_irrefl p : below p p = false.
Proof.
  apply not_true_is_false. intros [r Hr]%Str.startswith_spec.
  apply (f_equal String.length) in Hr. rewrite !Str.length_append in Hr. simpl in Hr. lia.
Qed.

#[export] Instance mem_tree_laws : TreeLaws MemTree.
Proof.
  assert (∀ p c fs, p ∉ mt_dirs fs → ∃ fs', mt_write p c fs = (Ret tt, fs') ∧
            mt_files fs' = <[p := c]> (mt_files fs) ∧ (∀ q, q ∉ mt_dirs fs → q ∉ mt_dirs fs')) as Hw.
  { intros p c fs Hp. unfold mt_write. rewrite bool_decide_false by done. by eexists. }
  split; simpl; [..|by intros; apply Hw|by intros; apply Hw].
  - intros p q fs He Hq. apply eq_None_not_Some. intros Hs.
    assert (mt_exists p fs = true) by (apply mt_exists_spec; eauto). congruence.
  - intros p fs Hp He. rewrite bool_decide_false by (rewrite Hp; by intros [? ?]).
    rewrite He. eexists. split; [done|]. split; [|split].
    + apply not_true_is_false. intros (q & Hq & Hs)%mt_exists_spec. simpl in Hs.
      destruct Hs as [[c Hs]|Hs].
      * apply map_lookup_filter_Some in Hs as [Hs Hb]. simpl in Hb.
        destruct Hq as [->|Hq]; congruence.
      * apply elem_of_filter in Hs as [[Hne Hb] _]. destruct Hq; congruence.
    + intros q. simpl. destruct (below p q) eqn:E.
      * apply map_lookup_filter_None. right. intros c _. simpl. congruence.
      * destruct (mt_files fs !! q) as [c|] eqn:Hq.
        -- by apply map_lookup_filter_Some.
        -- apply map_lookup_filter_None. by left.
    + intros q Hb Hq. simpl. set_solver.
  - intros p fs He Hc. rewrite bool_decide_false.
    2:{ rewrite Hc by (by left). by intros [? ?]. }
    eexists. split; [done|]. split; [done|]. split; simpl.
    + intros name Hn [Hp%elem_of_singleton|Hp]%elem_of_union.
      * assert (below p p = true); [|by rewrite below_irrefl in *].
        rewrite <- Hp at 2. apply Str.startswith_spec. eexists. apply Str.append_assoc.
      * assert (mt_exists p fs = true); [|congruence]. apply mt_exists_spec. eexists.
        split; [|by right]. right. apply Str.startswith_spec. eexists. apply Str.append_assoc.
    + set_solver.
Qed.

(** ** Witnesses *)
Section witnesses.
Import TestUtils.

Definition feature_string (f : pb_feature Z) : string :=
  match f with
  | BytesList l => Str.join "," l
  | FloatList l | Int64List l => Str.join "," (Str.of_int <$> l)
  end.
#[local] Instance test_serialize : Serialize Z := {
  example_to_string d := Str.join ";" ((λ x, x.1 +:+ "=" +:+ feature_string x.2) <$> d);
  float_of_int z := z;
}.
#[local] Instance test_random : Random := { random n := (1 # 2)%Q }.

Definition test_images : list (list (list Z)) := [[[1; 2]]; [[3; 4]]; [[5; 6]]].
Definition test_args : gen_args := mkGenArgs "data" 2 0 1.
(** A file of an earlier run is there. *)
Definition test_gen : gen MemTree :=
  mkGen (mkMemTree {["data/leader_train/00007.tfrecord" := Records ["old"]]}
           {["data"; "data/leader_train"]}) 0 0.

Example mnist_files :
  let fs := (main (λ z, z) test_images [7; 8; 9] test_args test_gen).2 in
  (λ p, mt_files (gn_fs fs) !! p) <$>
    ["data/leader_train/00000.tfrecord"; "data/follower_train/00000.tfrecord";
     "data/leader_train_meta/00000.meta"; "data/leader_test/00000.tfrecord";
     "data/leader_train/00007.tfrecord"]
  = [Some (Records ["example_id=uuid1;event_time=20191001042452;x=3;y=8"]);
     Some (Records ["example_id=uuid1;event_time=20191001042452;x=4"]);
     Some (Lines ["uuid1"]); Some (Records []); None].
Proof. vm_compute. reflexivity. Qed.

Lemma test_gen_clear :
  Forall (λ a, set_clear test_args a test_gen)
    ["/leader_train"; "/follower_train"; "/leader_test"; "/follower_test"].
Proof.
  repeat constructor;
    (intros q Hq; apply lookup_singleton_ne; intros <-; by destruct Hq as [Hq|Hq]).
Qed.

Lemma main_writes_aligned_sets_witness :
  let d := ga_output_dir test_args in
  let rows := rows_of 0 test_images [7; 8; 9] in
  let train := slice_to rows 2 in
  let test := slice_from rows 2 in
  let leader := labelled_record (leader_half (λ z, z) (half_of test_images)) in
  let follower := plain_record (follower_half (λ z, z) (half_of test_images)) in
  train ++ test = rows ∧
  concat (row_parts 2 train) ≡ₚ train ∧
  concat (row_parts 2 test) ≡ₚ test ∧
  ∃ s', main (λ z, z) test_images [7; 8; 9] test_args test_gen = (Ret tt, s') ∧
    set_saved test_args (d +:+ "/leader_train") leader train s' ∧
    set_saved test_args (d +:+ "/follower_train") follower train s' ∧
    set_saved test_args (d +:+ "/leader_test") leader test s' ∧
    set_saved test_args (d +:+ "/follower_test") follower test s'.
Proof.
  apply (main_writes_aligned_sets (λ z, z) test_images [7; 8; 9] test_args test_gen 2);
    try done; [by repeat constructor|exact test_gen_clear].
Defined.

Lemma save_without_meta_fails_witness :
  ∃ s', save_local [("a", "r")] "data/leader_train" 2 0 false test_gen
          = (raise UnboundLocalError, s') ∧
    ∀ q, tr_files (gn_fs s') !! q
         = if below "data/leader_train" q then None else tr_files (gn_fs test_gen) !! q.
Proof.
  apply (save_without_meta_fails [("a", "r")] "data/leader_train" 2 0 test_gen); [done|].
  intros q Hq. apply lookup_singleton_ne. intros <-. by destruct Hq as [Hq|Hq].
Defined.
End witnesses.
