(* ===== verification/PsiConfig.v ===== *)
(** * The handshake of the private set intersection (psi/interconnection_psi)

    base.py and config.py: the messages of the handshake, the helpers that
    compare what the two parties propose, the [Context] of a party and the
    negotiation by the receiver. *)

From stdpp Require Import base tactics list sets strings.
From Stdlib Require Import ZArith Lia.
From S2P Require Import Prelude PyStd.

Open Scope Z_scope.

(** ** Enumerations (entry.proto, ecc.proto, header.proto) *)
Definition PROTOCOL_FAMILY_ECC : Z := 1.
Definition ALGO_TYPE_ECDH_PSI : Z := 1.
Definition CURVE_TYPE_CURVE25519 : Z := 1.
Definition HASH_TYPE_SHAKE_256 : Z := 30.
Definition HASH_TO_CURVE_STRATEGY_DIRECT_HASH_AS_POINT_X : Z := 3.
Definition POINT_OCTET_FORMAT_UNCOMPRESSED : Z := 1.
Definition UNSUPPORTED_VERSION : Z := 31100201.
Definition UNSUPPORTED_ALGO : Z := 31100202.
Definition UNSUPPORTED_PARAMS : Z := 31100203.
Definition SENDER_RANK : Z := 0.
Definition RECEIVER_RANK : Z := 1.

(** ** Messages *)
Record EcSuit := mkEcSuit {
  curve : Z;
  hash : Z;
  hash2curve_strategy : Z;
}.
#[export] Instance ec_suit_eq_dec : EqDecision EcSuit.
Proof. solve_decision. Defined.

Record EccProtocolProposal := mkEccProposal {
  ecc_supported_versions : list Z;
  ec_suits : list EcSuit;
  point_octet_formats : list Z;
  support_point_truncation : bool;
}.
Record EccProtocolResult := mkEccResult {
  ecc_version : Z;
  ecc_ec_suit : EcSuit;
  ecc_point_octet_format : Z;
  bit_length_after_truncated : Z;
  ecc_result_to_rank : Z;
}.
Record PsiDataInfoProposal := mkPsiProposal {
  psi_supported_versions : list Z;
  item_num : Z;
  psi_result_to_rank : Z;
}.
Record PsiDataInfoResult := mkPsiResult {
  psi_version : Z;
  psi_res_result_to_rank : Z;
}.

(** [google.protobuf.Any] with the messages of the handshake in it. *)
Inductive Any :=
  | AnyNone
  | AnyOther
  | AnyEccProposal (m : EccProtocolProposal)
  | AnyEccResult (m : EccProtocolResult)
  | AnyPsiProposal (m : PsiDataInfoProposal)
  | AnyPsiResult (m : PsiDataInfoResult).

Record HandshakeRequest := mkHsReq {
  hq_version : Z;
  hq_requester_rank : Z;
  hq_supported_algos : list Z;
  hq_protocol_families : list Z;
  hq_protocol_family_params : list Any;
  hq_io_param : Any;
}.
Record HandshakeResponse := mkHsRsp {
  hr_algo : Z;
  hr_protocol_families : list Z;
  hr_protocol_family_params : list Any;
  hr_io_param : Any;
}.

(** ** base.py *)

(** [raise_exception(code, msg, input, filedpos)]: with an input the field
    path, a list, is spliced into the evaluated text, which is no Python. *)
Definition raise_exception {A B} (error_code : Z) (input : list A) : outcome B :=
  match input with
  | [] => raise (PsiException error_code)
  | _ :: _ => raise SyntaxError
  end.

Section intersection.
Context {M : Type}.

(** [sum([lst.f for lst in input]) == input[0].f * len(input)] *)
Definition intersection_int (input : list M) (f : M → Z) : outcome bool :=
  match input with
  | [] => raise IndexError
  | x :: _ => Ret (foldr Z.add 0 (f <$> input) =? f x * zlen input)
  end.

Definition intersection_bool (input : list M) (f : M → bool) : outcome bool :=
  match input with
  | [] => raise IndexError
  | _ => Ret (forallb f input)
  end.

(** The elements of the first list that all the others have: the branch for
    unhashable elements. *)
Definition intersection_list {A} `{EqDecision A} (input : list M) (f : M → list A)
    : outcome (list A) :=
  match input with
  | [] => raise IndexError
  | x :: rest =>
      match f x with
      | [] => raise IndexError
      | l => Ret (filter (λ a, Forall (λ y, a ∈ f y) rest) l)
      end
  end.
End intersection.

(** The branch for hashable elements goes through sets: [order] is the order
    in which [list] enumerates a set. *)
Definition intersection_set {M} (order : list Z → list Z) (input : list M) (f : M → list Z)
    : outcome (list Z) :=
  l ← intersection_list input f; Ret (order (remove_dups l)).

(** [unpack_params] with [prototyp] as a partial view of [Any]. *)
Definition unpack_params {M A} (input : list M) (f : M → Any) (view : Any → option A) : list A :=
  omap (λ m, view (f m)) input.
Definition unpack_params_list {M A} (input : list M) (f : M → list Any) (view : Any → option A)
    : list A :=
  input ≫= λ m, omap view (f m).
(** On a single message: [ret[0]]. *)
Definition unpack_single {M A} (m : M) (f : M → list Any) (view : Any → option A) : outcome A :=
  match unpack_params_list [m] f view with
  | [] => raise IndexError
  | x :: _ => Ret x
  end.

Definition as_ecc_proposal (a : Any) := match a with AnyEccProposal m => Some m | _ => None end.
Definition as_ecc_result (a : Any) := match a with AnyEccResult m => Some m | _ => None end.
Definition as_psi_proposal (a : Any) := match a with AnyPsiProposal m => Some m | _ => None end.

(** [typ.DESCRIPTOR.values_by_number[value].name], for the one name of each
    enumeration that the [crypto] module supports. *)
Inductive enum_name := Curve25519 | Shake256 | DirectHash | Uncompressed | OtherName.
Definition enum_type : Type := list (Z * enum_name).
Definition CurveType : enum_type := [(0, OtherName); (1, Curve25519); (2, OtherName)].
Definition HashType : enum_type :=
  [(0, OtherName); (1, OtherName); (10, OtherName); (11, OtherName); (12, OtherName);
   (13, OtherName); (20, OtherName); (21, OtherName); (22, OtherName); (23, OtherName);
   (30, Shake256)].
Definition HashToCurveStrategy : enum_type :=
  [(0, OtherName); (1, OtherName); (2, OtherName); (3, DirectHash); (10, OtherName);
   (11, OtherName); (12, OtherName); (13, OtherName)].
Definition PointOctetFormat : enum_type :=
  [(0, OtherName); (1, Uncompressed); (2, OtherName); (3, OtherName); (4, OtherName)].

Definition int_to_proto_enum_name (value : Z) (typ : enum_type) : outcome enum_name :=
  match Dict.get value typ with
  | Some n => Ret n
  | None => raise KeyError
  end.

(** [crypto_func]: a function of [crypto], called with the name first. *)
Definition crypto_func {A B} (value : Z) (typ : enum_type) (func : enum_name → A → outcome B)
    (x : A) : outcome B :=
  n ← int_to_proto_enum_name value typ; func n x.

(** ** Context *)
Record Context := mkContext {
  cx_version : Z;
  cx_protocol_families : list Z;
  cx_protocol_family_params : list EccProtocolProposal;
  cx_supported_algos : list Z;
  cx_supported_versions : list Z;
  cx_need_recv_cipher : bool;
  cx_need_send_cipher : bool;
  cx_rank : Z;
  cx_item_num : Z;
  cx_result_to_rank : Z;
  cx_ecc_param : option EccProtocolResult;
  cx_key : option string;
}.

Definition new_context (rank item_num result_to_rank : Z) : Context :=
  mkContext 1 [PROTOCOL_FAMILY_ECC]
    [mkEccProposal [1]
       [mkEcSuit CURVE_TYPE_CURVE25519 HASH_TYPE_SHAKE_256
          HASH_TO_CURVE_STRATEGY_DIRECT_HASH_AS_POINT_X]
       [POINT_OCTET_FORMAT_UNCOMPRESSED] false]
    [ALGO_TYPE_ECDH_PSI] [1] false false rank item_num result_to_rank None None.

Definition make_handshake_request (c : Context) : HandshakeRequest :=
  mkHsReq (cx_version c) (cx_rank c) (cx_supported_algos c) (cx_protocol_families c)
    (AnyEccProposal <$> cx_protocol_family_params c)
    (AnyPsiProposal (mkPsiProposal (cx_supported_versions c) (cx_item_num c)
                       (cx_result_to_rank c))).

(** [reset_from_response]: the parameters, a random key ([os.urandom(32)]) and
    the directions; building the [Curve] looks its name up and panics on a
    curve that the [crypto] module lacks. *)
Definition reset_from_response (key : string) (rsp : HandshakeResponse) : M Context unit :=
  ecc ← liftO (unpack_single rsp hr_protocol_family_params as_ecc_result);
  name ← liftO (int_to_proto_enum_name (curve (ecc_ec_suit ecc)) CurveType);
  require (match name with Curve25519 => true | _ => false end) GenericException;;
  modify (λ c,
    let all := cx_result_to_rank c =? -1 in
    let sender := cx_rank c =? SENDER_RANK in
    mkContext (cx_version c) (cx_protocol_families c) (cx_protocol_family_params c)
      (cx_supported_algos c) (cx_supported_versions c)
      (all || negb sender || cx_need_recv_cipher c) (all || sender || cx_need_send_cipher c)
      (cx_rank c) (cx_item_num c) (cx_result_to_rank c) (Some ecc) (Some key)).

(** A check of the negotiation, with the inputs of its error message. *)
Definition refuse_unless {A} (b : bool) (error_code : Z) (input : list A) : outcome unit :=
  if b then Ret tt else raise_exception error_code input.

Definition head_of {A} (l : list A) : outcome A :=
  match l with [] => raise IndexError | x :: _ => Ret x end.

Definition negotiate (order : list Z → list Z) (own req : HandshakeRequest) (result_to_rank : Z)
    : outcome HandshakeResponse :=
  let reqs := [own; req] in
  same ← intersection_int reqs hq_version;
  refuse_unless same UNSUPPORTED_VERSION reqs;;
  algos ← intersection_set order reqs hq_supported_algos;
  refuse_unless (bool_decide (ALGO_TYPE_ECDH_PSI ∈ algos)) UNSUPPORTED_ALGO reqs;;
  let io := unpack_params reqs hq_io_param as_psi_proposal in
  versions ← intersection_set order io psi_supported_versions;
  refuse_unless (negb (bool_decide (versions = []))) UNSUPPORTED_VERSION io;;
  algo_version ← head_of versions;
  same_rank ← intersection_int io psi_result_to_rank;
  refuse_unless same_rank UNSUPPORTED_PARAMS io;;
  families ← intersection_set order reqs hq_protocol_families;
  refuse_unless (bool_decide (PROTOCOL_FAMILY_ECC ∈ families)) UNSUPPORTED_PARAMS reqs;;
  let params := unpack_params_list reqs hq_protocol_family_params as_ecc_proposal in
  refuse_unless (negb (bool_decide (params = []))) UNSUPPORTED_PARAMS reqs;;
  eccv ← intersection_set order params ecc_supported_versions;
  refuse_unless (negb (bool_decide (eccv = []))) UNSUPPORTED_VERSION params;;
  ecc_versions ← head_of eccv;
  suits ← intersection_list params ec_suits;
  refuse_unless (negb (bool_decide (suits = []))) UNSUPPORTED_PARAMS params;;
  formats ← intersection_set order params point_octet_formats;
  refuse_unless (negb (bool_decide (formats = []))) UNSUPPORTED_PARAMS params;;
  trunc ← intersection_bool params support_point_truncation;
  refuse_unless (negb trunc) UNSUPPORTED_PARAMS (@nil EccProtocolProposal);;
  suit ← head_of suits;
  format ← head_of formats;
  Ret (mkHsRsp ALGO_TYPE_ECDH_PSI [PROTOCOL_FAMILY_ECC]
         [AnyEccResult (mkEccResult ecc_versions suit format 0 result_to_rank)]
         (AnyPsiResult (mkPsiResult algo_version result_to_rank))).

Definition negotiate_handshake (order : list Z → list Z) (key : string) (req : HandshakeRequest)
    : M Context HandshakeResponse :=
  c ← getM;
  rsp ← liftO (negotiate order (make_handshake_request c) req (cx_result_to_rank c));
  reset_from_response key rsp;;
  mret rsp.

(** ** Lemmas *)
Section lemmas.
Context (order : list Z → list Z) (order_perm : ∀ l, order l ≡ₚ l).

Lemma intersection_list_single {M A} `{EqDecision A} (x : M) rest (f : M → list A) a :
  f x = [a] →
  intersection_list (x :: rest) f
  = Ret (if bool_decide (Forall (λ y, a ∈ f y) rest) then [a] else []).
Proof.
  intros Hx. unfold intersection_list. rewrite Hx, filter_cons, filter_nil.
  by case_decide; [rewrite bool_decide_true|rewrite bool_decide_false].
Qed.

Lemma intersection_set_single {M} (x : M) rest (f : M → list Z) a :
  f x = [a] →
  intersection_set order (x :: rest) f
  = Ret (if bool_decide (Forall (λ y, a ∈ f y) rest) then [a] else []).
Proof.
  intros Hx. unfold intersection_set. rewrite (intersection_list_single x rest f a) by done.
  rewrite bind_Ret. case_bool_decide; f_equal.
  - apply Permutation_singleton_r, order_perm.
  - apply Permutation_nil_r, order_perm.
Qed.

Lemma intersection_int_pair {M} (x y : M) f :
  intersection_int [x; y] f = Ret (f x =? f y).
Proof.
  unfold intersection_int. f_equal. simpl. change (zlen [x; y]) with 2.
  destruct (Z.eqb_spec (f x) (f y)); [apply Z.eqb_eq|apply Z.eqb_neq]; lia.
Qed.

(** What the receiver accepts.  A proposal that is absent, or of another
    type, is not compared at all. *)
Definition compatible (result_to_rank : Z) (req : HandshakeRequest) : bool :=
  (hq_version req =? 1) &&
  bool_decide (ALGO_TYPE_ECDH_PSI ∈ hq_supported_algos req) &&
  match as_psi_proposal (hq_io_param req) with
  | Some p => bool_decide (1 ∈ psi_supported_versions p)
              && (psi_result_to_rank p =? result_to_rank)
  | None => true
  end &&
  bool_decide (PROTOCOL_FAMILY_ECC ∈ hq_protocol_families req) &&
  bool_decide (Forall (λ p,
    1 ∈ ecc_supported_versions p ∧
    mkEcSuit CURVE_TYPE_CURVE25519 HASH_TYPE_SHAKE_256
      HASH_TO_CURVE_STRATEGY_DIRECT_HASH_AS_POINT_X ∈ ec_suits p ∧
    POINT_OCTET_FORMAT_UNCOMPRESSED ∈ point_octet_formats p)
    (omap as_ecc_proposal (hq_protocol_family_params req))).

Definition agreed_ecc (result_to_rank : Z) : EccProtocolResult :=
  mkEccResult 1 (mkEcSuit CURVE_TYPE_CURVE25519 HASH_TYPE_SHAKE_256
                   HASH_TO_CURVE_STRATEGY_DIRECT_HASH_AS_POINT_X)
    POINT_OCTET_FORMAT_UNCOMPRESSED 0 result_to_rank.
Definition agreed_response (result_to_rank : Z) : HandshakeResponse :=
  mkHsRsp ALGO_TYPE_ECDH_PSI [PROTOCOL_FAMILY_ECC] [AnyEccResult (agreed_ecc result_to_rank)]
    (AnyPsiResult (mkPsiResult 1 result_to_rank)).

Lemma refuse_step {A B} b e (x : A) l (k : unit → outcome B) :
  refuse_unless b e (x :: l) ≫= k = if b then k tt else raise SyntaxError.
Proof. by destruct b. Qed.
Lemma head_step {A B} (x : A) (k : A → outcome B) : head_of [x] ≫= k = k x.
Proof. done. Qed.

(** The comparison of the curve parameters. *)
Definition negotiate_params (reqs : list HandshakeRequest) (params : list EccProtocolProposal)
    (algo_version result_to_rank : Z) : outcome HandshakeResponse :=
  refuse_unless (negb (bool_decide (params = []))) UNSUPPORTED_PARAMS reqs;;
  eccv ← intersection_set order params ecc_supported_versions;
  refuse_unless (negb (bool_decide (eccv = []))) UNSUPPORTED_VERSION params;;
  ecc_versions ← head_of eccv;
  suits ← intersection_list params ec_suits;
  refuse_unless (negb (bool_decide (suits = []))) UNSUPPORTED_PARAMS params;;
  formats ← intersection_set order params point_octet_formats;
  refuse_unless (negb (bool_decide (formats = []))) UNSUPPORTED_PARAMS params;;
  trunc ← intersection_bool params support_point_truncation;
  refuse_unless (negb trunc) UNSUPPORTED_PARAMS (@nil EccProtocolProposal);;
  suit ← head_of suits;
  format ← head_of formats;
  Ret (mkHsRsp ALGO_TYPE_ECDH_PSI [PROTOCOL_FAMILY_ECC]
         [AnyEccResult (mkEccResult ecc_versions suit format 0 result_to_rank)]
         (AnyPsiResult (mkPsiResult algo_version result_to_rank))).

Lemma negotiate_ecc own req ps r :
  negotiate_params [own; req] (mkEccProposal [1] [mkEcSuit 1 30 3] [1] false :: ps) 1 r
  = if bool_decide (Forall (λ p,
      1 ∈ ecc_supported_versions p ∧ mkEcSuit 1 30 3 ∈ ec_suits p ∧
      1 ∈ point_octet_formats p) ps)
    then Ret (agreed_response r) else raise SyntaxError.
Proof.
  set (E0 := mkEccProposal _ _ _ _). unfold negotiate_params.
  rewrite refuse_step. rewrite (bool_decide_false (E0 :: ps = [])) by done. cbn [negb].
  rewrite (intersection_set_single E0 ps ecc_supported_versions 1), bind_Ret, refuse_step by done.
  destruct (decide (Forall (λ p, 1 ∈ ecc_supported_versions p) ps)) as [H1|H1].
  2:{ rewrite (bool_decide_false _ H1), (bool_decide_true ([] = [])) by done. cbn [negb].
      rewrite bool_decide_false; [done|]. intros Hall. apply H1.
      eapply Forall_impl; [exact Hall|]. naive_solver. }
  rewrite (bool_decide_true _ H1). cbn [negb].
  rewrite (bool_decide_false ([1] = [])) by done. cbn [negb]. rewrite head_step.
  rewrite (intersection_list_single E0 ps ec_suits (mkEcSuit 1 30 3)), bind_Ret, refuse_step
    by done.
  destruct (decide (Forall (λ p, mkEcSuit 1 30 3 ∈ ec_suits p) ps)) as [H2|H2].
  2:{ rewrite (bool_decide_false _ H2), (bool_decide_true ([] = [])) by done. cbn [negb].
      rewrite bool_decide_false; [done|]. intros Hall. apply H2.
      eapply Forall_impl; [exact Hall|]. naive_solver. }
  rewrite (bool_decide_true _ H2). cbn [negb].
  rewrite (bool_decide_false ([_] = [])) by done. cbn [negb].
  rewrite (intersection_set_single E0 ps point_octet_formats 1), bind_Ret, refuse_step by done.
  destruct (decide (Forall (λ p, 1 ∈ point_octet_formats p) ps)) as [H3|H3].
  2:{ rewrite (bool_decide_false _ H3), (bool_decide_true ([] = [])) by done. cbn [negb].
      rewrite bool_decide_false; [done|]. intros Hall. apply H3.
      eapply Forall_impl; [exact Hall|]. naive_solver. }
  rewrite (bool_decide_true _ H3). cbn [negb].
  rewrite (bool_decide_false ([_] = [])) by done. cbn [negb].
  rewrite (bool_decide_true (Forall _ ps)); [done|].
  rewrite !Forall_and. done.
Qed.

Lemma negotiate_spec rank n r req :
  negotiate order (make_handshake_request (new_context rank n r)) req r
  = if compatible r req then Ret (agreed_response r) else raise SyntaxError.
Proof.
  unfold negotiate, compatible. set (own := make_handshake_request _).
  rewrite intersection_int_pair, bind_Ret, refuse_step.
  change (hq_version own) with 1. rewrite (Z.eqb_sym 1).
  destruct (hq_version req =? 1); [|done]. rewrite andb_true_l.
  rewrite (intersection_set_single own [req] hq_supported_algos 1), bind_Ret by done.
  rewrite refuse_step.
  rewrite (bool_decide_ext (Forall (λ y, 1 ∈ hq_supported_algos y) [req])
             (ALGO_TYPE_ECDH_PSI ∈ hq_supported_algos req)) by (by rewrite Forall_singleton).
  destruct (bool_decide (ALGO_TYPE_ECDH_PSI ∈ hq_supported_algos req)); [|done].
  rewrite bool_decide_true by set_solver. rewrite andb_true_l.
  set (p0 := mkPsiProposal [1] n r).
  set (E0 := mkEccProposal [1] [mkEcSuit 1 30 3] [1] false).
  assert (unpack_params [own; req] hq_io_param as_psi_proposal
          = p0 :: omap (λ m, as_psi_proposal (hq_io_param m)) [req]) as -> by done.
  assert (unpack_params_list [own; req] hq_protocol_family_params as_ecc_proposal
          = E0 :: omap as_ecc_proposal (hq_protocol_family_params req)) as ->.
  { unfold unpack_params_list. simpl. by rewrite app_nil_r. }
  set (ps := omap as_ecc_proposal (hq_protocol_family_params req)).
  rewrite (intersection_set_single p0 _ psi_supported_versions 1), bind_Ret by done.
  rewrite refuse_step.
  assert (bool_decide (Forall (λ y, 1 ∈ psi_supported_versions y)
            (omap (λ m, as_psi_proposal (hq_io_param m)) [req]))
          = match as_psi_proposal (hq_io_param req) with
            | Some p => bool_decide (1 ∈ psi_supported_versions p) | None => true end) as ->.
  { simpl. destruct (as_psi_proposal _); [|done]. apply bool_decide_ext.
    by rewrite Forall_singleton. }
  assert (intersection_int (p0 :: omap (λ m, as_psi_proposal (hq_io_param m)) [req])
            psi_result_to_rank
          = Ret match as_psi_proposal (hq_io_param req) with
                | Some p => psi_result_to_rank p =? r | None => true end) as Hrank.
  { simpl omap. destruct (as_psi_proposal _); [by rewrite intersection_int_pair, Z.eqb_sym|].
    unfold intersection_int. simpl. change (zlen [p0]) with 1. f_equal. apply Z.eqb_eq. lia. }
  destruct (as_psi_proposal (hq_io_param req)) as [p|] eqn:Ep;
    [destruct (bool_decide (1 ∈ psi_supported_versions p)); [|done]|];
    cbn [negb]; rewrite (bool_decide_false ([1] = [])), head_step, Hrank, bind_Ret, refuse_step
      by done;
    [destruct (psi_result_to_rank p =? r); [|done]|];
    cbn [negb andb].
  all: rewrite (intersection_set_single own [req] hq_protocol_families 1), bind_Ret, refuse_step
    by done.
  all: rewrite (bool_decide_ext (Forall (λ y, 1 ∈ hq_protocol_families y) [req])
             (PROTOCOL_FAMILY_ECC ∈ hq_protocol_families req)) by (by rewrite Forall_singleton).
  all: destruct (bool_decide (PROTOCOL_FAMILY_ECC ∈ hq_protocol_families req)); [|done].
  all: rewrite (bool_decide_true (PROTOCOL_FAMILY_ECC ∈ [1])) by set_solver; cbn [andb].
  all: apply (negotiate_ecc own req).
Qed.
End lemmas.

Lemma reset_agreed_run key r (c : Context) :
  reset_from_response key (agreed_response r) c
  = (Ret tt,
     let all := cx_result_to_rank c =? -1 in
     let sender := cx_rank c =? SENDER_RANK in
     mkContext (cx_version c) (cx_protocol_families c) (cx_protocol_family_params c)
       (cx_supported_algos c) (cx_supported_versions c)
       (all || negb sender || cx_need_recv_cipher c) (all || sender || cx_need_send_cipher c)
       (cx_rank c) (cx_item_num c) (cx_result_to_rank c) (Some (agreed_ecc r)) (Some key)).
Proof. done. Qed.

(** [shakehand_flow] of flow.py, both sides over their channel. *)
Definition shakehand_flow (order : list Z → list Z) (key_s key_r : string)
    : M (Context * Context) unit :=
  req ← gets (λ cs : Context * Context, make_handshake_request cs.1);
  rsp ← zoom snd (λ r cs, (cs.1, r)) (negotiate_handshake order key_r req);
  zoom fst (λ s cs, (s, cs.2)) (reset_from_response key_s rsp).

(** The context of a party after the handshake. *)
Definition agreed_context (key : string) (rank n r : Z) : Context :=
  (reset_from_response key (agreed_response r) (new_context rank n r)).2.

Lemma agreed_contexts_compatible n r_s r_r :
  compatible r_r (make_handshake_request (new_context SENDER_RANK n r_s)) = (r_s =? r_r).
Proof. unfold compatible. simpl. by destruct (r_s =? r_r). Qed.

Lemma shakehand_run order (order_perm : ∀ l, order l ≡ₚ l) key_s key_r n_s n_r r_s r_r :
  shakehand_flow order key_s key_r
    (new_context SENDER_RANK n_s r_s, new_context RECEIVER_RANK n_r r_r)
  = if r_s =? r_r
    then (Ret tt, (agreed_context key_s SENDER_RANK n_s r_s,
                   agreed_context key_r RECEIVER_RANK n_r r_r))
    else (raise SyntaxError, (new_context SENDER_RANK n_s r_s, new_context RECEIVER_RANK n_r r_r)).
Proof.
  unfold shakehand_flow. rewrite run_bind. cbn [gets fst]. rewrite run_bind. unfold zoom at 1.
  cbn [snd]. unfold negotiate_handshake. rewrite run_bind. cbn [getM]. rewrite run_bind.
  unfold liftO. change (cx_result_to_rank (new_context RECEIVER_RANK n_r r_r)) with r_r.
  rewrite (negotiate_spec order order_perm), agreed_contexts_compatible.
  destruct (Z.eqb_spec r_s r_r) as [->|Hne]; [|done]. done.
Qed.

(** ** Properties *)
Section properties.
Context (order : list Z → list Z) (order_perm : ∀ l, order l ≡ₚ l).

(** The receiver accepts exactly the compatible requests, with one and
    the same answer, and refuses all others with a [SyntaxError]: the
    [PsiException] with its error code that the code means to raise is never
    raised.  A request whose proposals are missing passes their checks. *)
Theorem negotiation_decides_compatibility key n r req :
  let c := new_context RECEIVER_RANK n r in
  negotiate_handshake order key req c
  = if compatible r req
    then (Ret (agreed_response r), (reset_from_response key (agreed_response r) c).2)
    else (raise SyntaxError, c).
Proof.
  intros c. unfold negotiate_handshake. rewrite run_bind. cbn [getM]. rewrite run_bind.
  unfold liftO. change (cx_result_to_rank c) with r. unfold c at 1.
  rewrite (negotiate_spec order order_perm). destruct (compatible r req); [|done].
  rewrite run_bind, reset_agreed_run. done.
Qed.

(** C26.  The handshake of two parties of this code succeeds exactly when they
    ask for the same result rank; then both hold the same curve parameters
    and their own keys, and the directions fit: each sends its doubly
    encrypted ciphers exactly when the other waits for them, and the receiver
    always gets the result. *)
Theorem handshake_agrees key_s key_r n_s n_r r_s r_r :
  match shakehand_flow order key_s key_r
          (new_context SENDER_RANK n_s r_s, new_context RECEIVER_RANK n_r r_r) with
  | (Ret _, (s, r)) =>
      r_s = r_r ∧ cx_ecc_param s = Some (agreed_ecc r_r) ∧
      cx_ecc_param r = Some (agreed_ecc r_r) ∧
      cx_key s = Some key_s ∧ cx_key r = Some key_r ∧
      cx_need_send_cipher s = cx_need_recv_cipher r ∧
      cx_need_recv_cipher s = cx_need_send_cipher r ∧
      cx_need_recv_cipher r = true ∧
      cx_need_recv_cipher s = (r_s =? -1)
  | (Stop e, _) => r_s ≠ r_r ∧ e = Raise SyntaxError
  end.
Proof.
  rewrite (shakehand_run order order_perm).
  destruct (Z.eqb_spec r_s r_r) as [->|Hne]; [|done].
  unfold agreed_context. rewrite !reset_agreed_run. cbn.
  rewrite !orb_true_r, !orb_false_r. by destruct (r_r =? -1).
Qed.
End properties.

Lemma negotiation_decides_compatibility_witness :
  let req := mkHsReq 1 0 [1; 3] [2; 1] [] AnyNone in
  let c := new_context RECEIVER_RANK 10 1 in
  negotiate_handshake (λ l, l) "k" req c
  = (Ret (agreed_response 1), (reset_from_response "k" (agreed_response 1) c).2).
Proof.
  intros req c. exact (negotiation_decides_compatibility (λ l, l) (λ l, reflexivity l) "k" 10 1 req).
Defined.

Lemma handshake_agrees_witness :
  match shakehand_flow (λ l, l) "s" "r"
          (new_context SENDER_RANK 5 1, new_context RECEIVER_RANK 7 (-1)) with
  | (Ret _, _) => False
  | (Stop e, _) => 1 ≠ -1 ∧ e = Raise SyntaxError
  end.
Proof. exact (handshake_agrees (λ l, l) (λ l, reflexivity l) "s" "r" 5 7 1 (-1)). Defined.
