(* ===== verification/PsiFlow.v ===== *)
(** * The Diffie-Hellman flow of the private set intersection

    cipher_store.py, flow.py and api.py: both parties send their items hashed
    and encrypted in batches, encrypt what they get once more, send it back, and
    keep the items whose double encryption the other party has too.  The hash
    and the scalar multiplication are the primitives of the [crypto] module. *)

From stdpp Require Import base tactics list sets strings.
From Stdlib Require Import ZArith Lia Ascii.
From S2P Require Import Prelude PyStd PsiConfig.

Open Scope Z_scope.

(** SHAKE-256 to 32 bytes and the multiplication of a Curve25519 point, by its
    32 byte coordinate, with a key. *)
Class Ecdh := {
  shake256 : string → string;
  point_mul : string → string → string;
}.

Class EcdhLaws `{Ecdh} := {
  shake256_length s : String.length (shake256 s) = 32%nat;
  point_mul_length k p : String.length p = 32%nat → String.length (point_mul k p) = 32%nat;
  point_mul_comm a b p : point_mul a (point_mul b p) = point_mul b (point_mul a p);
}.

(** [EcdhPsiCipherBatch] *)
Record CipherBatch := mkBatch {
  cb_type : string;
  cb_batch_index : Z;
  cb_is_last_batch : bool;
  cb_count : Z;
  cb_ciphertext : string;
}.

Section crypto.
Context `{Ecdh}.

(** A panic of the native module. *)
Definition panic {A} : outcome A := raise PanicException.

Definition crypto_hash (typ : enum_name) (array : list string) : outcome (list string) :=
  match typ with Shake256 => Ret (shake256 <$> array) | _ => panic end.
Definition crypto_hash_to_curve (typ : enum_name) (array : list string) : outcome (list string) :=
  match typ with DirectHash => Ret array | _ => panic end.
Definition crypto_marshal (typ : enum_name) (array : list string) : outcome (list string) :=
  match typ with Uncompressed => Ret array | _ => panic end.

(** [data[i*n : i*n+n]] for [i < count] *)
Fixpoint blocks_of (count n : nat) (data : string) : list string :=
  match count with
  | O => []
  | S c => String.substring 0 n data
             :: blocks_of c n (String.substring n (String.length data - n) data)
  end.
Definition crypto_unmarshal (typ : enum_name) (arg : string * Z) : outcome (list string) :=
  let '(data, count) := arg in
  match typ with
  | Uncompressed =>
      if count <? 0 then raise OverflowError
      else if count =? 0 then Ret []
      else Ret (blocks_of (Z.to_nat count) (String.length data / Z.to_nat count) data)
  | _ => panic
  end.

(** [Curve.encrypt] and [Curve.diffie_hellman]: the elements must have 32 bytes. *)
Definition curve_apply (key : string) (array : list string) : outcome (list string) :=
  if forallb (λ p, Nat.eqb (String.length p) 32) array
  then Ret (point_mul key <$> array) else panic.

(** The functions that [reset_from_response] stores in the context. *)
Definition ecc_of (c : Context) : outcome EccProtocolResult :=
  match cx_ecc_param c with Some e => Ret e | None => raise AttributeError end.
Definition key_of (c : Context) : outcome string :=
  match cx_key c with Some k => Ret k | None => raise AttributeError end.

Definition ctx_marshal (c : Context) (array : list string) : outcome (list string) :=
  e ← ecc_of c; crypto_func (ecc_point_octet_format e) PointOctetFormat crypto_marshal array.
Definition ctx_unmarshal (c : Context) (data : string) (count : Z) : outcome (list string) :=
  e ← ecc_of c;
  crypto_func (ecc_point_octet_format e) PointOctetFormat crypto_unmarshal (data, count).
Definition ctx_diffie_hellman (c : Context) (array : list string) : outcome (list string) :=
  k ← key_of c; curve_apply k array.
Definition hash_and_encrypt (c : Context) (array : list string) : outcome (list string) :=
  e ← ecc_of c;
  a1 ← crypto_func (hash (ecc_ec_suit e)) HashType crypto_hash array;
  a2 ← crypto_func (hash2curve_strategy (ecc_ec_suit e)) HashToCurveStrategy
         crypto_hash_to_curve a1;
  k ← key_of c;
  curve_apply k a2.
End crypto.

(** ** CipherStore *)
Record CipherStore := mkStore {
  peer_cipher : list (option (list string));
  peer_cipher_set : list string;
  peer_cipher_set_done : bool;
  local_index_record : Z;
  local_take_index : list Z;
}.
Definition new_store : CipherStore := mkStore [] [] false 0 [].

(** [BATCH = 10*10000] *)
Definition BATCH : nat := N.to_nat (10 * 10000).
Arguments BATCH : simpl never.

Section flow.
Context `{Ecdh}.

(** The [None] goes before the last array. *)
Definition calcu_add_peer_cipher (array : list string) (ctx : Context) (done : bool)
    : M CipherStore unit :=
  arr ← liftO (ctx_diffie_hellman ctx array);
  modify (λ s, mkStore (peer_cipher s ++ (if done then [None] else []) ++ [Some arr])
                 (if cx_need_recv_cipher ctx then peer_cipher_set s ++ arr
                  else peer_cipher_set s)
                 (cx_need_recv_cipher ctx && done || peer_cipher_set_done s)
                 (local_index_record s) (local_take_index s)).

Definition dual_batch (ctx : Context) (i : Z) (last : bool) (arr : list string)
    : outcome CipherBatch :=
  a ← ctx_marshal ctx arr;
  Ret (mkBatch "dual.enc" i last (zlen a) (Str.concat a)).

(** [send_dualenc] over all that the queue will ever hold; reading past it
    waits for ever. *)
Fixpoint send_dualenc (ctx : Context) (i : Z) (q : list (option (list string)))
    : outcome (list CipherBatch) :=
  match q with
  | [] => Stop NoFuel
  | None :: q' =>
      match q' with
      | [] => Stop NoFuel
      | None :: _ => raise TypeError
      | Some arr :: _ => m ← dual_batch ctx i true arr; Ret [m]
      end
  | Some arr :: q' =>
      m ← dual_batch ctx i false arr;
      ms ← send_dualenc ctx (i + 1) q';
      Ret (m :: ms)
  end.

(** Waiting on an event that is never set. *)
Definition recv_duaenc_local_cipher (array : list string) (ctx : Context) (done : bool)
    : M CipherStore unit :=
  s ← getM;
  (if peer_cipher_set_done s then mret tt else stopM NoFuel);;
  forM array (λ cipher,
    modify (λ s, mkStore (peer_cipher s) (peer_cipher_set s) (peer_cipher_set_done s)
                   (local_index_record s + 1)
                   (local_take_index s ++
                      (if bool_decide (cipher ∈ peer_cipher_set s)
                       then [local_index_record s] else [])))).

(** One batch of [calcucipher_and_send], from index [i]. *)
Definition enc_batch (array : list string) (batch : nat) (ctx : Context) (batch_index : Z)
    (i : nat) : outcome CipherBatch :=
  let arr := py_slice array i (i + batch) in
  arr' ← hash_and_encrypt ctx arr;
  Ret (mkBatch "enc" batch_index (length array <=? i + batch)%nat (zlen arr)
         (Str.concat arr')).
Fixpoint enc_batches (array : list string) (batch : nat) (ctx : Context) (batch_index : Z)
    (l : list nat) : outcome (list CipherBatch) :=
  match l with
  | [] => Ret []
  | i :: l' =>
      m ← enc_batch array batch ctx batch_index i;
      ms ← enc_batches array batch ctx (batch_index + 1) l';
      Ret (m :: ms)
  end.
Definition calcucipher_and_send (array : list string) (batch : nat) (ctx : Context)
    : outcome (list CipherBatch) :=
  match array with
  | [] => Ret [mkBatch "enc" 0 true 0 ""]
  | _ => enc_batches array batch ctx 0 (range_step (length array) batch)
  end.

Fixpoint recv_and_calcu (ctx : Context) (msgs : list CipherBatch)
    (process : list string → Context → bool → M CipherStore unit) : M CipherStore unit :=
  match msgs with
  | [] => stopM NoFuel
  | m :: msgs' =>
      arr ← liftO (ctx_unmarshal ctx (cb_ciphertext m) (cb_count m));
      process arr ctx (cb_is_last_batch m);;
      if cb_is_last_batch m then mret tt else recv_and_calcu ctx msgs' process
  end.

(** [psi_in.take(local_take_index)] *)
Fixpoint take_rows {A} (rows : list A) (l : list Z) : outcome (list A) :=
  match l with
  | [] => Ret []
  | i :: l' => x ← py_index rows i; xs ← take_rows rows l'; Ret (x :: xs)
  end.

(** [diffie_hellman_flow] of one party: the batches it sends first, its store
    once the peer's batches are in, what it sends back, and its result from
    what it is sent back.  The four threads of a party only meet in the
    queues and the event of the store, so that the stages can be run in
    this order. *)
Definition first_store (ctx : Context) (peer_msgs : list CipherBatch) : outcome CipherStore :=
  match recv_and_calcu ctx peer_msgs calcu_add_peer_cipher new_store with
  | (Ret _, s) => Ret s
  | (Stop r, _) => Stop r
  end.
Definition dual_messages (ctx : Context) (s : CipherStore) : outcome (list CipherBatch) :=
  if cx_need_send_cipher ctx then send_dualenc ctx 0 (peer_cipher s) else Ret [].
Definition flow_result {A} (rows : list A) (ctx : Context) (s : CipherStore)
    (dual : list CipherBatch) : outcome (option (list A)) :=
  if cx_need_recv_cipher ctx then
    match recv_and_calcu ctx dual recv_duaenc_local_cipher s with
    | (Ret _, s') => r ← take_rows rows (local_take_index s'); Ret (Some r)
    | (Stop r, _) => Stop r
    end
  else Ret None.

(** Both parties of the flow; [id_a] and [id_b] read the first column. *)
Definition diffie_hellman_flow {A B} (batch : nat) (rows_a : list A) (id_a : A → string)
    (ctx_a : Context) (rows_b : list B) (id_b : B → string) (ctx_b : Context)
    : outcome (option (list A) * option (list B)) :=
  enc_a ← calcucipher_and_send (id_a <$> rows_a) batch ctx_a;
  enc_b ← calcucipher_and_send (id_b <$> rows_b) batch ctx_b;
  store_a ← first_store ctx_a enc_b;
  store_b ← first_store ctx_b enc_a;
  dual_a ← dual_messages ctx_a store_a;
  dual_b ← dual_messages ctx_b store_b;
  res_a ← flow_result rows_a ctx_a store_a dual_b;
  res_b ← flow_result rows_b ctx_b store_b dual_a;
  Ret (res_a, res_b).

(** [psi_sender] and [psi_receiver] of api.py: the contexts, the handshake
    and the flow. *)
Definition psi_run {A B} (order : list Z → list Z) (key_s key_r : string)
    (rows_s : list A) (id_s : A → string) (send_back_s : bool)
    (rows_r : list B) (id_r : B → string) (send_back_r : bool)
    : outcome (option (list A) * option (list B)) :=
  let rank b := if b : bool then -1 else RECEIVER_RANK in
  match shakehand_flow order key_s key_r
          (new_context SENDER_RANK (zlen rows_s) (rank send_back_s),
           new_context RECEIVER_RANK (zlen rows_r) (rank send_back_r)) with
  | (Ret _, (ctx_s, ctx_r)) =>
      diffie_hellman_flow BATCH rows_s id_s ctx_s rows_r id_r ctx_r
  | (Stop r, _) => Stop r
  end.
End flow.

Lemma filter_ext_in {A} (P Q : A → Prop) `{∀ x, Decision (P x)} `{∀ x, Decision (Q x)} (l : list A) :
  (∀ x, x ∈ l → P x ↔ Q x) → filter P l = filter Q l.
Proof.
  induction l as [|x l IH]; intros Hl; [done|]. rewrite !filter_cons.
  rewrite IH by set_solver. destruct (Hl x) as [HPQ HQP]; [set_solver|].
  repeat case_decide; naive_solver.
Qed.

(** ** Strings of 32 bytes *)
Lemma substring_prefix (s t : string) : String.substring 0 (String.length s) (s +:+ t) = s.
Proof.
  induction s as [|c s IH]; [by destruct t|]. rewrite Str.append_cons. simpl. by rewrite IH.
Qed.
Lemma substring_all (t : string) : String.substring 0 (String.length t) t = t.
Proof. rewrite <- (Str.append_nil_r t) at 2. apply substring_prefix. Qed.
Lemma substring_suffix (s t : string) :
  String.substring (String.length s) (String.length t) (s +:+ t) = t.
Proof.
  induction s as [|c s IH]; [apply substring_all|]. rewrite Str.append_cons. simpl. done.
Qed.

Definition is32 (p : string) : Prop := String.length p = 32%nat.

Lemma concat_length l :
  Forall is32 l → String.length (Str.concat l) = (32 * length l)%nat.
Proof.
  induction 1 as [|p l Hp Hl IH]; [done|]. cbn [Str.concat length].
  rewrite Str.length_append, IH. unfold is32 in Hp. lia.
Qed.

Lemma blocks_of_concat l :
  Forall is32 l → blocks_of (length l) 32 (Str.concat l) = l.
Proof.
  induction 1 as [|p l Hp Hl IH]; [done|]. cbn [Str.concat length blocks_of].
  unfold is32 in Hp. f_equal.
  - rewrite <- Hp. apply substring_prefix.
  - rewrite Str.length_append, Hp, Nat.add_comm, Nat.add_sub. rewrite <- Hp at 2.
    by rewrite substring_suffix.
Qed.

(** ** The flow of two agreed parties *)
Section lemmas.
Context `{EcdhLaws}.

(** A context after the handshake, with the key [k]. *)
Definition agreed (c : Context) (k : string) : Prop :=
  (∃ r, cx_ecc_param c = Some (agreed_ecc r)) ∧ cx_key c = Some k.

Definition enc (k : string) (s : string) : string := point_mul k (shake256 s).

Lemma enc_is32 k l : Forall is32 (enc k <$> l).
Proof.
  apply Forall_fmap, Forall_true. intros s. apply point_mul_length, shake256_length.
Qed.
Lemma mul_is32 k l : Forall is32 l → Forall is32 (point_mul k <$> l).
Proof.
  intros Hl. apply Forall_fmap. eapply Forall_impl; [exact Hl|].
  intros p. apply point_mul_length.
Qed.

Lemma curve_apply_run k l : Forall is32 l → curve_apply k l = Ret (point_mul k <$> l).
Proof.
  intros Hl. unfold curve_apply. rewrite (proj2 (forallb_forall _ _)); [done|].
  intros p Hp%list_elem_of_In. apply Nat.eqb_eq. rewrite Forall_forall in Hl. by apply Hl.
Qed.

Lemma marshal_run c k l : agreed c k → ctx_marshal c l = Ret l.
Proof. intros [[r Hr] _]. unfold ctx_marshal, ecc_of. by rewrite Hr. Qed.

Lemma unmarshal_run c k l :
  agreed c k → Forall is32 l → ctx_unmarshal c (Str.concat l) (zlen l) = Ret l.
Proof.
  intros [[r Hr] _] Hl.
  assert (ctx_unmarshal c (Str.concat l) (zlen l)
          = crypto_unmarshal Uncompressed (Str.concat l, zlen l)) as ->
    by (unfold ctx_unmarshal, ecc_of; by rewrite Hr).
  unfold crypto_unmarshal.
  rewrite (proj2 (Z.ltb_ge (zlen l) 0)) by apply zlen_nonneg.
  destruct (Z.eqb_spec (zlen l) 0) as [Hz|Hz]; [by apply zlen_zero in Hz as ->|].
  unfold zlen. rewrite Nat2Z.id, concat_length by done.
  assert (length l ≠ 0)%nat by (unfold zlen in Hz; lia).
  rewrite Nat.div_mul by done. by rewrite blocks_of_concat.
Qed.

Lemma dh_run c k l :
  agreed c k → Forall is32 l → ctx_diffie_hellman c l = Ret (point_mul k <$> l).
Proof.
  intros [_ Hk] Hl. unfold ctx_diffie_hellman, key_of. rewrite Hk. by apply curve_apply_run.
Qed.

Lemma hash_and_encrypt_run c k l :
  agreed c k → hash_and_encrypt c l = Ret (enc k <$> l).
Proof.
  intros [[r Hr] Hk]. unfold hash_and_encrypt, ecc_of, key_of. rewrite Hr, Hk. simpl.
  rewrite curve_apply_run; [by rewrite <- list_fmap_compose|].
  apply Forall_fmap, Forall_true. intros s. apply shake256_length.
Qed.

(** [stream msgs arrs]: messages that carry these arrays, the last marked. *)
Inductive stream : list CipherBatch → list (list string) → Prop :=
  | stream_last m a :
      cb_ciphertext m = Str.concat a → cb_count m = zlen a → Forall is32 a →
      cb_is_last_batch m = true → stream [m] [a]
  | stream_more m a ms arrs :
      cb_ciphertext m = Str.concat a → cb_count m = zlen a → Forall is32 a →
      cb_is_last_batch m = false → stream ms arrs → stream (m :: ms) (a :: arrs).

Lemma enc_batches_stream array batch c k :
  agreed c k → (0 < batch)%nat → ∀ fuel i j,
  (i < length array)%nat → (length array - i ≤ fuel)%nat →
  ∃ ms arrs, enc_batches array batch c j (range_step_from fuel i (length array) batch) = Ret ms ∧
    stream ms arrs ∧ concat arrs = enc k <$> drop i array.
Proof.
  intros Hc Hb. induction fuel as [|fuel IH]; intros i j Hi Hf; [lia|].
  cbn [range_step_from]. rewrite (proj2 (Nat.ltb_lt i _)) by done. cbn [enc_batches].
  unfold enc_batch. rewrite (hash_and_encrypt_run c k), !bind_Ret by done.
  set (a := py_slice array i (i + batch)).
  assert (zlen a = zlen (enc k <$> a)) as Hz by (unfold zlen; by rewrite length_fmap).
  assert (a = take batch (drop i array)) as Ha.
  { unfold a, py_slice. f_equal. lia. }
  destruct (Nat.leb_spec (length array) (i + batch)) as [Hl|Hl].
  - assert (range_step_from fuel (i + batch) (length array) batch = []) as ->.
    { destruct fuel; [done|]. cbn [range_step_from]. by rewrite (proj2 (Nat.ltb_ge _ _)). }
    eexists _, [enc k <$> a]. split; [reflexivity|]. split.
    + constructor; [done|done|apply enc_is32|done].
    + simpl. rewrite app_nil_r, Ha, take_ge; [done|]. rewrite length_drop. lia.
  - destruct (IH (i + batch)%nat (j + 1)) as (ms & arrs & Hr & Hs & Hcat); [lia|lia|].
    rewrite Hr. eexists _, ((enc k <$> a) :: arrs). split; [reflexivity|]. split.
    + constructor; [done|done|apply enc_is32|done|done].
    + simpl. rewrite Hcat, Ha, <- fmap_app. f_equal.
      rewrite <- (take_drop batch (drop i array)) at 2. by rewrite drop_drop.
Qed.

Lemma calcucipher_stream array batch c k :
  agreed c k → (0 < batch)%nat →
  ∃ ms arrs, calcucipher_and_send array batch c = Ret ms ∧ stream ms arrs ∧
    concat arrs = enc k <$> array.
Proof.
  intros Hc Hb. destruct array as [|x array].
  - exists [mkBatch "enc" 0 true 0 ""], [[]]. split; [done|]. split; [by constructor|done].
  - unfold calcucipher_and_send, range_step.
    apply (enc_batches_stream (x :: array) batch c k Hc Hb (length (x :: array)) 0 0);
      simpl; lia.
Qed.

Lemma enc_batches_nth array batch c k :
  agreed c k → (0 < batch)%nat → ∀ fuel i j,
  (i < length array)%nat → (length array - i ≤ fuel)%nat →
  ∃ ms, enc_batches array batch c j (range_step_from fuel i (length array) batch) = Ret ms ∧
    (0 < length ms)%nat ∧ (length array - i ≤ length ms * batch)%nat ∧
    ((length ms - 1) * batch < length array - i)%nat ∧
    (∀ n m, ms !! n = Some m →
       ctx_unmarshal c (cb_ciphertext m) (cb_count m)
         = Ret (enc k <$> take batch (drop (i + n * batch) array)) ∧
       cb_batch_index m = j + Z.of_nat n ∧
       cb_is_last_batch m = bool_decide (S n = length ms)).
Proof.
  intros Hc Hb. induction fuel as [|fuel IH]; intros i j Hi Hf; [lia|].
  cbn [range_step_from]. rewrite (proj2 (Nat.ltb_lt i _)) by done. cbn [enc_batches].
  unfold enc_batch. rewrite (hash_and_encrypt_run c k), !bind_Ret by done.
  set (a := py_slice array i (i + batch)).
  assert (zlen a = zlen (enc k <$> a)) as Hz by (unfold zlen; by rewrite length_fmap).
  assert (a = take batch (drop i array)) as Ha.
  { unfold a, py_slice. f_equal. lia. }
  assert (ctx_unmarshal c (Str.concat (enc k <$> a)) (zlen a) = Ret (enc k <$> a)) as Hu.
  { rewrite Hz. apply (unmarshal_run c k); [done|apply enc_is32]. }
  destruct (Nat.leb_spec (length array) (i + batch)) as [Hl|Hl].
  - assert (range_step_from fuel (i + batch) (length array) batch = []) as ->.
    { destruct fuel; [done|]. cbn [range_step_from]. by rewrite (proj2 (Nat.ltb_ge _ _)). }
    eexists. split; [reflexivity|]. simpl length. do 3 (split; [lia|]).
    intros [|n] m Hm; [|done]. injection Hm as <-. cbn.
    rewrite Nat.add_0_r, <- Ha. split; [exact Hu|]. split; [lia|done].
  - destruct (IH (i + batch)%nat (j + 1)) as (ms & Hr & H0' & Hle & Hlt & Hms); [lia|lia|].
    rewrite Hr. eexists. split; [reflexivity|]. simpl length. do 3 (split; [nia|]).
    intros [|n] m Hm.
    + injection Hm as <-. cbn. rewrite Nat.add_0_r, <- Ha. split; [exact Hu|]. split; [lia|].
      symmetry. apply bool_decide_eq_false. lia.
    + destruct (Hms n m Hm) as (Hu' & Hi' & Hl'). rewrite Hu', Hi', Hl'.
      replace (i + S n * batch)%nat with (i + batch + n * batch)%nat by lia.
      split; [done|]. split; [lia|]. apply bool_decide_ext. lia.
Qed.

(** The queue of the store after arrays of which the last ends the stream. *)
Fixpoint marks (arrs : list (list string)) : list (option (list string)) :=
  match arrs with
  | [] => []
  | [a] => [None; Some a]
  | a :: arrs' => Some a :: marks arrs'
  end.

Lemma stream_not_nil ms arrs : stream ms arrs → arrs ≠ [].
Proof. by destruct 1. Qed.
Lemma marks_cons a arrs : arrs ≠ [] → marks (a :: arrs) = Some a :: marks arrs.
Proof. by destruct arrs. Qed.

Definition mul_all (k : string) (arrs : list (list string)) : list (list string) :=
  (λ a : list string, (point_mul k <$> a : list string)) <$> arrs.

Lemma mul_all_concat k arrs : concat (mul_all k arrs) = point_mul k <$> concat arrs.
Proof. induction arrs as [|a arrs IH]; [done|]. simpl. by rewrite IH, fmap_app. Qed.
Lemma mul_all_is32 k arrs : Forall (Forall is32) arrs → Forall (Forall is32) (mul_all k arrs).
Proof.
  intros Ha. apply Forall_fmap. eapply Forall_impl; [exact Ha|]. intros a. apply mul_is32.
Qed.
Lemma stream_all32 ms arrs : stream ms arrs → Forall (Forall is32) arrs.
Proof. induction 1; by repeat constructor. Qed.

Lemma stream_is32 ms arrs : stream ms arrs → Forall is32 (concat arrs).
Proof. induction 1; simpl; rewrite ?app_nil_r; [done|]. by apply Forall_app. Qed.

Lemma calcu_add_run c k a done s :
  agreed c k → Forall is32 a →
  calcu_add_peer_cipher a c done s
  = (Ret tt, mkStore (peer_cipher s ++ (if done then [None] else []) ++ [Some (point_mul k <$> a)])
               (if cx_need_recv_cipher c then peer_cipher_set s ++ (point_mul k <$> a)
                else peer_cipher_set s)
               (cx_need_recv_cipher c && done || peer_cipher_set_done s)
               (local_index_record s) (local_take_index s)).
Proof.
  intros Hc Ha. unfold calcu_add_peer_cipher. rewrite run_bind. unfold liftO.
  by rewrite (dh_run c k) by done.
Qed.

Lemma recv_first_run c k ms arrs : agreed c k → stream ms arrs → ∀ s,
  recv_and_calcu c ms calcu_add_peer_cipher s
  = (Ret tt, mkStore (peer_cipher s ++ marks (mul_all k arrs))
               (if cx_need_recv_cipher c
                then peer_cipher_set s ++ (point_mul k <$> concat arrs) else peer_cipher_set s)
               (cx_need_recv_cipher c || peer_cipher_set_done s)
               (local_index_record s) (local_take_index s)).
Proof.
  intros Hc. induction 1 as [m a Ht Hn Ha Hl|m a ms arrs Ht Hn Ha Hl Hs IH]; intros s;
    cbn [recv_and_calcu]; rewrite run_bind; unfold liftO; rewrite Ht, Hn, (unmarshal_run c k) by done;
    rewrite run_bind, (calcu_add_run c k) by done; rewrite Hl.
  - simpl. rewrite app_nil_r, andb_true_r. done.
  - rewrite IH. cbn [peer_cipher peer_cipher_set peer_cipher_set_done local_index_record
      local_take_index mul_all concat].
    change (mul_all k (a :: arrs)) with ((point_mul k <$> a) :: mul_all k arrs).
    rewrite marks_cons by (destruct arrs; [by apply stream_not_nil in Hs|done]).
    rewrite andb_false_r, fmap_app, <- !(assoc_L (++)). simpl app.
    destruct (cx_need_recv_cipher c); [|done]. by rewrite <- (assoc_L (++) (peer_cipher_set s)).
Qed.

Lemma send_dualenc_stream c k arrs : agreed c k → arrs ≠ [] → Forall (Forall is32) arrs → ∀ i,
  ∃ ms, send_dualenc c i (marks arrs) = Ret ms ∧ stream ms arrs.
Proof.
  intros Hc. induction arrs as [|a arrs IH]; [done|]. intros _ [Ha Hall]%Forall_cons i.
  destruct arrs as [|b arrs].
  - cbn [marks send_dualenc]. unfold dual_batch. rewrite (marshal_run c k) by done.
    eexists. split; [reflexivity|]. by constructor.
  - rewrite marks_cons by done. cbn [send_dualenc]. unfold dual_batch.
    rewrite (marshal_run c k), bind_Ret by done.
    destruct (IH ltac:(done) Hall (i + 1)) as (ms & Hr & Hs). rewrite bind_Ret, Hr.
    eexists. split; [reflexivity|]. by constructor.
Qed.

(** The indices, from [i] on, of the ciphers that the set has. *)
Fixpoint hits (set : list string) (i : Z) (l : list string) : list Z :=
  match l with
  | [] => []
  | x :: l' => (if bool_decide (x ∈ set) then [i] else []) ++ hits set (i + 1) l'
  end.

Lemma hits_app set i l1 l2 : hits set i (l1 ++ l2) = hits set i l1 ++ hits set (i + zlen l1) l2.
Proof.
  revert i. induction l1 as [|x l1 IH]; intros i.
  - simpl. change (zlen []) with 0. by rewrite Z.add_0_r.
  - simpl. rewrite IH, zlen_cons, <- (assoc_L (++)). by rewrite <- Z.add_assoc, (Z.add_comm 1).
Qed.

Lemma recv_local_run a c done s :
  peer_cipher_set_done s = true →
  recv_duaenc_local_cipher a c done s
  = (Ret tt, mkStore (peer_cipher s) (peer_cipher_set s) true (local_index_record s + zlen a)
               (local_take_index s ++ hits (peer_cipher_set s) (local_index_record s) a)).
Proof.
  intros Hd. unfold recv_duaenc_local_cipher. rewrite run_bind. cbn [getM]. rewrite Hd, run_bind.
  cbn [mret M_ret]. revert s Hd. induction a as [|x a IH]; intros s Hd; cbn [forM].
  - change (zlen []) with 0. rewrite Z.add_0_r. simpl. rewrite app_nil_r, <- Hd. by destruct s.
  - rewrite run_bind. unfold modify at 1. rewrite IH by done. simpl. rewrite zlen_cons.
    rewrite <- (assoc_L (++)), <- Z.add_assoc, (Z.add_comm 1). done.
Qed.

Lemma recv_dual_run c k ms arrs : agreed c k → stream ms arrs → ∀ s,
  peer_cipher_set_done s = true →
  recv_and_calcu c ms recv_duaenc_local_cipher s
  = (Ret tt, mkStore (peer_cipher s) (peer_cipher_set s) true
               (local_index_record s + zlen (concat arrs))
               (local_take_index s
                  ++ hits (peer_cipher_set s) (local_index_record s) (concat arrs))).
Proof.
  intros Hc. induction 1 as [m a Ht Hn Ha Hl|m a ms arrs Ht Hn Ha Hl Hs IH]; intros s Hd;
    cbn [recv_and_calcu]; rewrite run_bind; unfold liftO; rewrite Ht, Hn, (unmarshal_run c k) by done;
    rewrite run_bind, recv_local_run by done; rewrite Hl.
  - simpl. by rewrite app_nil_r.
  - rewrite IH by done. simpl. rewrite hits_app, zlen_app, Z.add_assoc.
    by rewrite <- (assoc_L (++)).
Qed.

Lemma py_index_mid {A} (pre : list A) x l : py_index (pre ++ x :: l) (zlen pre) = Ret x.
Proof.
  unfold py_index. pose proof (zlen_nonneg pre).
  rewrite (proj2 (Z.ltb_ge (zlen pre) 0)) by done. rewrite (proj2 (Z.ltb_ge (zlen pre) 0)) by done.
  unfold zlen. rewrite Nat2Z.id, list_lookup_middle by done. done.
Qed.

Lemma take_rows_hits {A} (f : A → string) (rows : list A) set : ∀ pre,
  take_rows (pre ++ rows) (hits set (zlen pre) (f <$> rows))
  = Ret (filter (λ x, f x ∈ set) rows).
Proof.
  induction rows as [|x rows IH]; intros pre; [done|].
  assert (zlen (pre ++ [x]) = zlen pre + 1) as Hz by (by rewrite zlen_app).
  specialize (IH (pre ++ [x])). rewrite Hz, <- (assoc_L (++)) in IH. simpl in IH.
  cbn [fmap list_fmap hits]. rewrite filter_cons. case_bool_decide as Hx; simpl app.
  - rewrite decide_True by done. cbn [take_rows]. by rewrite py_index_mid, bind_Ret, IH.
  - rewrite decide_False by done. exact IH.
Qed.

(** Multiplication by the two keys does not identify the points of two of the items.
    It does identify some 32-byte strings, for instance those that differ in the last
    bit only; the condition is on the hashes of the items at hand. *)
Definition good_keys (ka kb : string) (l : list string) : Prop :=
  ∀ x y, x ∈ l → y ∈ l →
    point_mul ka (point_mul kb (shake256 x)) = point_mul ka (point_mul kb (shake256 y)) →
    shake256 x = shake256 y.
Lemma good_keys_sym ka kb l : good_keys ka kb l → good_keys kb ka l.
Proof. intros Hg x y Hx Hy. rewrite !(point_mul_comm kb). by apply Hg. Qed.
Lemma good_keys_mono ka kb l l' : good_keys ka kb l → l' ⊆ l → good_keys ka kb l'.
Proof. unfold good_keys. set_solver. Qed.
Lemma good_keys_forall ka kb l :
  Forall (λ x, Forall (λ y,
    point_mul ka (point_mul kb (shake256 x)) = point_mul ka (point_mul kb (shake256 y)) →
    shake256 x = shake256 y) l) l → good_keys ka kb l.
Proof. rewrite Forall_forall. intros Hl x y Hx Hy. specialize (Hl x Hx). rewrite Forall_forall in Hl. by apply Hl. Qed.

(** The hash does not identify an item of one side with another of the other. *)
Definition no_collision (la lb : list string) : Prop :=
  ∀ x y, x ∈ la → y ∈ lb → shake256 x = shake256 y → x = y.

Lemma double_enc_hit ka kb la lb x :
  good_keys ka kb (la ++ lb) → no_collision la lb → x ∈ la →
  point_mul kb (enc ka x) ∈ point_mul ka <$> (enc kb <$> lb) ↔ x ∈ lb.
Proof.
  intros Hk Hc Hx. unfold enc. rewrite point_mul_comm, <- list_fmap_compose.
  rewrite list_elem_of_fmap. split; [|intros Hl; by exists x].
  intros (y & Heq & Hy). simpl in Heq.
  apply Hk, Hc in Heq; [by subst|done|done|set_solver|set_solver].
Qed.

(** One direction: what [a] finds of its rows. *)
Lemma result_run {A} (rows : list A) (f : A → string) ca ka kb lb arrs_a store dual :
  agreed ca ka → cx_need_recv_cipher ca = true →
  good_keys ka kb ((f <$> rows) ++ lb) → no_collision (f <$> rows) lb →
  concat arrs_a = enc ka <$> (f <$> rows) →
  peer_cipher_set store = point_mul ka <$> (enc kb <$> lb) →
  peer_cipher_set_done store = true → local_index_record store = 0 →
  local_take_index store = [] →
  stream dual (mul_all kb arrs_a) →
  flow_result rows ca store dual = Ret (Some (filter (λ x, f x ∈ lb) rows)).
Proof.
  intros Hca Hrecv Hkeys Hcol Harrs Hset Hdone Hrec Htake Hs. unfold flow_result.
  rewrite Hrecv, (recv_dual_run ca ka dual _ Hca Hs store Hdone). cbn [local_take_index].
  rewrite Htake, Hrec, Hset, mul_all_concat, Harrs. simpl app.
  set (g := λ x, point_mul kb (enc ka (f x))).
  assert (point_mul kb <$> (enc ka <$> (f <$> rows)) = g <$> rows) as ->
    by (by rewrite <- !list_fmap_compose).
  pose proof (take_rows_hits g rows (point_mul ka <$> (enc kb <$> lb)) []) as Ht.
  change (zlen []) with 0 in Ht. simpl app in Ht. rewrite Ht, bind_Ret. do 2 f_equal.
  apply filter_ext_in. intros x Hx.
  apply (double_enc_hit ka kb (f <$> rows) lb); try done.
  apply list_elem_of_fmap. by exists x.
Qed.

Lemma flow_result_none {A} (rows : list A) c s dual :
  cx_need_recv_cipher c = false → flow_result rows c s dual = Ret None.
Proof. unfold flow_result. by intros ->. Qed.

Lemma flow_run {A B} batch (rows_a : list A) (fa : A → string) ca ka
    (rows_b : list B) (fb : B → string) cb kb :
  agreed ca ka → agreed cb kb → (0 < batch)%nat →
  cx_need_send_cipher ca = cx_need_recv_cipher cb →
  cx_need_send_cipher cb = cx_need_recv_cipher ca →
  good_keys ka kb ((fa <$> rows_a) ++ (fb <$> rows_b)) → no_collision (fa <$> rows_a) (fb <$> rows_b) →
  diffie_hellman_flow batch rows_a fa ca rows_b fb cb
  = Ret (if cx_need_recv_cipher ca
         then Some (filter (λ x, fa x ∈ fb <$> rows_b) rows_a) else None,
         if cx_need_recv_cipher cb
         then Some (filter (λ x, fb x ∈ fa <$> rows_a) rows_b) else None).
Proof.
  intros Hca Hcb Hb Hab Hba Hkeys Hcol. unfold diffie_hellman_flow.
  destruct (calcucipher_stream (fa <$> rows_a) batch ca ka Hca Hb) as (ma & aa & Hma & Hsa & Hca').
  destruct (calcucipher_stream (fb <$> rows_b) batch cb kb Hcb Hb) as (mb & ab & Hmb & Hsb & Hcb').
  rewrite Hma, Hmb, !bind_Ret. unfold first_store.
  rewrite (recv_first_run ca ka mb ab Hca Hsb), (recv_first_run cb kb ma aa Hcb Hsa), !bind_Ret.
  cbn [new_store peer_cipher peer_cipher_set peer_cipher_set_done local_index_record
       local_take_index app]. rewrite !orb_false_r.
  assert (no_collision (fb <$> rows_b) (fa <$> rows_a)) as Hcol'.
  { intros x y Hx Hy Heq. symmetry. by apply Hcol. }
  assert (good_keys kb ka ((fb <$> rows_b) ++ (fa <$> rows_a))) as Hkeys'
    by (apply good_keys_sym; eapply good_keys_mono; [exact Hkeys|set_solver]).
  destruct (send_dualenc_stream ca ka (mul_all ka ab) Hca) with (i := 0) as (da & Hda & Hsda).
  { destruct ab; [by apply stream_not_nil in Hsb|done]. }
  { eapply mul_all_is32, stream_all32, Hsb. }
  destruct (send_dualenc_stream cb kb (mul_all kb aa) Hcb) with (i := 0) as (db & Hdb & Hsdb).
  { destruct aa; [by apply stream_not_nil in Hsa|done]. }
  { eapply mul_all_is32, stream_all32, Hsa. }
  unfold dual_messages. cbn [peer_cipher]. rewrite Hda, Hdb, Hab, Hba.
  rewrite Hca', Hcb'.
  destruct (cx_need_recv_cipher cb) eqn:Eb, (cx_need_recv_cipher ca) eqn:Ea; rewrite !bind_Ret.
  - rewrite (result_run rows_a fa ca ka kb (fb <$> rows_b) aa) by done.
    rewrite (result_run rows_b fb cb kb ka (fa <$> rows_a) ab) by done. done.
  - rewrite (flow_result_none rows_a ca), bind_Ret by done.
    rewrite (result_run rows_b fb cb kb ka (fa <$> rows_a) ab) by done. done.
  - rewrite (result_run rows_a fa ca ka kb (fb <$> rows_b) aa) by done.
    by rewrite (flow_result_none rows_b cb) by done.
  - by rewrite (flow_result_none rows_a ca), (flow_result_none rows_b cb) by done.
Qed.

Lemma psi_run_agreed {A B} order key_s key_r
    (rows_s : list A) (id_s : A → string) (rows_r : list B) (id_r : B → string) (back : bool) :
  (∀ l, order l ≡ₚ l) → good_keys key_s key_r ((id_s <$> rows_s) ++ (id_r <$> rows_r)) →
  no_collision (id_s <$> rows_s) (id_r <$> rows_r) →
  psi_run order key_s key_r rows_s id_s back rows_r id_r back
  = Ret (if back then Some (filter (λ x, id_s x ∈ id_r <$> rows_r) rows_s) else None,
         Some (filter (λ y, id_r y ∈ id_s <$> rows_s) rows_r)).
Proof.
  intros Hord Hkeys Hcol. unfold psi_run. rewrite (shakehand_run order Hord).
  assert (∀ k rank n r, agreed (agreed_context k rank n r) k) as Hag
    by (intros; split; [by exists r|done]).
  destruct back; simpl Z.eqb; cbv iota;
    by rewrite (flow_run BATCH rows_s id_s _ key_s rows_r id_r _ key_r)
      by (done || apply Hag || (unfold BATCH; lia)).
Qed.
End lemmas.

(** A toy group: the key's first byte is added, bit by bit, to every byte; as on the
    curve, the last bit of a point is dropped. *)
Module TestEcdh.
Definition xor_ascii (a b : ascii) : ascii :=
  match a, b with
  | Ascii a0 a1 a2 a3 a4 a5 a6 a7, Ascii b0 b1 b2 b3 b4 b5 b6 b7 =>
      Ascii (xorb a0 b0) (xorb a1 b1) (xorb a2 b2) (xorb a3 b3)
            (xorb a4 b4) (xorb a5 b5) (xorb a6 b6) (xorb a7 b7)
  end.
Fixpoint xor_all (a : ascii) (s : string) : string :=
  match s with EmptyString => EmptyString | String c s' => String (xor_ascii a c) (xor_all a s') end.
Definition key_byte (k : string) : ascii :=
  match k with EmptyString => zero | String c _ => c end.
Fixpoint pad (n : nat) (s : string) : string :=
  match n, s with
  | O, _ => EmptyString
  | S n', EmptyString => String "0" (pad n' EmptyString)
  | S n', String c s' => String c (pad n' s')
  end.

Lemma pad_length n s : String.length (pad n s) = n.
Proof. revert s. induction n as [|n IH]; intros s; destruct s; simpl; by rewrite ?IH. Qed.

Definition drop_bit (a : ascii) : ascii :=
  match a with Ascii a0 a1 a2 a3 a4 a5 a6 _ => Ascii a0 a1 a2 a3 a4 a5 a6 false end.
Fixpoint drop_last_bit (s : string) : string :=
  match s with
  | EmptyString => EmptyString
  | String c EmptyString => String (drop_bit c) EmptyString
  | String c s' => String c (drop_last_bit s')
  end.

#[export] Instance test_ecdh : Ecdh := {
  shake256 := pad 32;
  point_mul k p := drop_last_bit (xor_all (key_byte k) p);
}.

Lemma xor_comm a b c : xor_ascii a (xor_ascii b c) = xor_ascii b (xor_ascii a c).
Proof.
  destruct a, b, c. simpl. rewrite <- !xorb_assoc.
  f_equal; (f_equal; apply xorb_comm).
Qed.
Lemma xor_all_comm a b s : xor_all a (xor_all b s) = xor_all b (xor_all a s).
Proof. induction s as [|c s IH]; simpl; [done|]. by rewrite xor_comm, IH. Qed.
Lemma xor_all_length a s : String.length (xor_all a s) = String.length s.
Proof. induction s as [|c s IH]; simpl; [done|]. by rewrite IH. Qed.
Lemma drop_last_length s : String.length (drop_last_bit s) = String.length s.
Proof. induction s as [|c [|c' s] IH]; [done|done|]. cbn in *. by rewrite IH. Qed.
Lemma drop_last_xor a s :
  drop_last_bit (xor_all a (drop_last_bit s)) = drop_last_bit (xor_all a s).
Proof.
  induction s as [|c [|c' s] IH]; [done|by destruct a, c|].
  cbn [drop_last_bit xor_all] in *. destruct s; cbn [drop_last_bit xor_all] in *; by rewrite IH.
Qed.

#[export] Instance test_ecdh_laws : EcdhLaws.
Proof.
  split.
  - intros s. apply (pad_length 32 s).
  - intros k p Hp. unfold point_mul. simpl. by rewrite drop_last_length, xor_all_length.
  - intros a b p. unfold point_mul. simpl. by rewrite !drop_last_xor, xor_all_comm.
Qed.

(** No key keeps all points apart. *)
Example two_points_are_identified k :
  point_mul k (String (ascii_of_N 1) "") = point_mul k (String (ascii_of_N 129) "").
Proof. unfold point_mul. cbn. by destruct (key_byte k). Qed.
End TestEcdh.

(** ** Properties *)
Section properties.
Context `{EcdhLaws}.

(** C7.  The protocol computes the intersection.  When both parties ask for
    the same direction, multiplication by the two keys does not identify the points
    of two of their items ([good_keys]) and the hash does not identify an item of one
    with another of the other ([no_collision]), the receiver gets
    exactly its rows whose item the sender has, in its order and with their
    repetitions; the sender gets the same of its own rows when the result is
    sent back and nothing otherwise; this for any number of batches, none of
    the waits being endless.  Parties that ask for different directions end
    in the refusal of the handshake. *)
Theorem psi_computes_the_intersection {A B} order key_s key_r
    (rows_s : list A) (id_s : A → string) back_s (rows_r : list B) (id_r : B → string) back_r :
  (∀ l, order l ≡ₚ l) → good_keys key_s key_r ((id_s <$> rows_s) ++ (id_r <$> rows_r)) →
  no_collision (id_s <$> rows_s) (id_r <$> rows_r) →
  psi_run order key_s key_r rows_s id_s back_s rows_r id_r back_r
  = if Bool.eqb back_s back_r
    then Ret (if back_s : bool then Some (filter (λ x, id_s x ∈ id_r <$> rows_r) rows_s) else None,
              Some (filter (λ y, id_r y ∈ id_s <$> rows_s) rows_r))
    else raise SyntaxError.
Proof.
  intros Hord Hkeys Hcol.
  destruct back_s, back_r;
    [exact (psi_run_agreed order key_s key_r rows_s id_s rows_r id_r true Hord Hkeys Hcol)| |
    |exact (psi_run_agreed order key_s key_r rows_s id_s rows_r id_r false Hord Hkeys Hcol)];
    unfold psi_run; by rewrite (shakehand_run order Hord).
Qed.

(** C27.  Splitting into batches loses nothing: whatever the batch size, the
    [i]-th message a party sends has index [i] and decodes to its items from
    [i * batch] on, encrypted, at most [batch] of them; there are as many
    messages as it takes, at least one, and only the last is marked. *)
Theorem batches_carry_the_items array batch c k :
  agreed c k → (0 < batch)%nat →
  ∃ msgs, calcucipher_and_send array batch c = Ret msgs ∧
    (0 < length msgs)%nat ∧ (length array ≤ length msgs * batch)%nat ∧
    (array = [] ∨ (length msgs - 1) * batch < length array)%nat ∧
    (∀ i m, msgs !! i = Some m →
       ctx_unmarshal c (cb_ciphertext m) (cb_count m)
         = Ret (enc k <$> take batch (drop (i * batch) array)) ∧
       cb_batch_index m = Z.of_nat i ∧
       cb_is_last_batch m = bool_decide (S i = length msgs)).
Proof.
  intros Hc Hb. destruct array as [|x array].
  - eexists. split; [reflexivity|]. split; [simpl; lia|]. split; [simpl; lia|].
    split; [by left|]. intros [|i] m Hm; [|done]. injection Hm as <-.
    split; [|done]. rewrite drop_nil, take_nil.
    exact (unmarshal_run c k [] Hc (Forall_nil_2 _)).
  - destruct (enc_batches_nth (x :: array) batch c k Hc Hb (length (x :: array)) 0 0)
      as (ms & Hr & Hne & Hle & Hlt & Hms); [simpl; lia|lia|].
    exists ms. rewrite Nat.sub_0_r in *. repeat (split; [done || by right|]).
    intros i m Hm. destruct (Hms i m Hm) as (Hu & Hi & Hl). done.
Qed.
End properties.

Section witnesses.
Import TestEcdh.

Definition sample_a : list string := ["ann"; "bob"; "ann"; "eve"].
Definition sample_b : list string := ["eve"; "joe"; "ann"].

Lemma samples_do_not_collide : no_collision (id <$> sample_a) (id <$> sample_b).
Proof.
  intros x y Hx Hy. unfold sample_a, sample_b in *. rewrite !list_fmap_id in *.
  rewrite list_elem_of_In in Hx, Hy. simpl in Hx, Hy.
  repeat (destruct Hx as [<-|Hx]; [|try done]); repeat (destruct Hy as [<-|Hy]; [|try done]);
    vm_compute; congruence.
Qed.

Lemma samples_are_kept_apart : good_keys "sk" "rk" ((id <$> sample_a) ++ (id <$> sample_b)).
Proof. apply good_keys_forall, (bool_decide_unpack _). by vm_compute. Qed.

Lemma psi_computes_the_intersection_witness :
  psi_run id "sk" "rk" sample_a id true sample_b id true
  = Ret (Some ["ann"; "ann"; "eve"], Some ["eve"; "ann"])
  ∧ psi_run id "sk" "rk" sample_a id true sample_b id false = raise SyntaxError.
Proof.
  split.
  - etrans; [apply (psi_computes_the_intersection id "sk" "rk" sample_a id true sample_b id true)|
      vm_compute; reflexivity];
      [done|apply samples_are_kept_apart|apply samples_do_not_collide].
  - etrans; [apply (psi_computes_the_intersection id "sk" "rk" sample_a id true sample_b id false)|
      vm_compute; reflexivity];
      [done|apply samples_are_kept_apart|apply samples_do_not_collide].
Defined.

Lemma batches_carry_the_items_witness :
  let c := agreed_context "k" 1 4 1 in
  agreed c "k" ∧ ∃ msgs, calcucipher_and_send sample_a 3 c = Ret msgs ∧ length msgs = 2%nat.
Proof.
  intros c. assert (agreed c "k") as Hc by (split; [by eexists|done]).
  split; [exact Hc|].
  destruct (batches_carry_the_items sample_a 3 c "k" Hc ltac:(lia)) as (msgs & Hr & H0 & Hle & Hlt & _).
  exists msgs. split; [exact Hr|]. destruct Hlt as [Hlt|Hlt]; [done|].
  change (length sample_a) with 4%nat in *. lia.
Defined.
End witnesses.
