(* ===== verification/PsiThreads.v ===== *)
(** * The threads of the intersection

    flow.py and cipher_store.py once more, now with the four threads that each
    party starts ([calcu_send_task], [recv_calcu_task], [send_dualenc_task],
    [recv_dualenc_task]) as step functions that any schedule may interleave with
    those of the other party.  A step is one message, one put or get of the queue
    [peer_cipher], one element of the set, one element of an array looked up, the
    event set or found set.  A queue or channel is what was put into it, in order,
    with the number of items its one reader has taken.  The end of every schedule is
    the one that [PsiFlow] computes stage by stage. *)

From stdpp Require Import base tactics list sets strings relations.
From Stdlib Require Import ZArith Lia Ascii.
From S2P Require Import Prelude Threads PyStd PsiConfig PsiFlow.

Open Scope Z_scope.

Inductive task := calcu_send_task | recv_calcu_task | send_dualenc_task | recv_dualenc_task.
#[export] Instance task_eq_dec : EqDecision task.
Proof. solve_decision. Defined.

(** ** The state of each thread *)

(** [calcucipher_and_send]: the index of the next batch and where the batches left
    start; what was sent. *)
Inductive send_pc :=
  | SendEmpty
  | SendBatches (batch_index : Z) (starts : list nat)
  | SendFailed (r : stop).
Record sender := mkSender { se_pc : send_pc; se_sent : list CipherBatch }.

(** [recv_and_calcu] with [calcu_add_peer_cipher]: a message to take, [None] to put,
    an array to put, ciphers to insert in the set; then what the store has of it. *)
Inductive recv_pc :=
  | RecvMsg
  | PutNone (array : list string)
  | PutArray (done : bool) (array : list string)
  | Insert (done : bool) (ciphers : list string)
  | RecvOver
  | RecvFailed (r : stop).
Record receiver := mkReceiver {
  re_pc : recv_pc;
  re_taken : nat;
  re_puts : list (option (list string));
  re_set : list string;
  re_event : bool;
}.

(** [send_dualenc]: an array to take, or the one after the [None]. *)
Inductive dual_pc :=
  | GetArray (batch_index : Z)
  | GetLast (batch_index : Z)
  | DualOver
  | DualFailed (r : stop).
Record dualer := mkDualer { du_pc : dual_pc; du_taken : nat; du_sent : list CipherBatch }.

(** [recv_and_calcu] with [recv_duaenc_local_cipher]: a message to take, the event
    to wait for, ciphers to look up. *)
Inductive match_pc :=
  | RecvDual
  | WaitSet (done : bool) (array : list string)
  | Look (done : bool) (ciphers : list string)
  | MatchOver
  | MatchFailed (r : stop).
Record matcher := mkMatcher {
  ma_pc : match_pc;
  ma_taken : nat;
  ma_index : Z;
  ma_take : list Z;
}.

(** ** Their steps *)
Section steps.
Context `{Ecdh}.
Context (array : list string) (batch : nat) (ctx : Context).

Definition send_step (x : sender) : option sender :=
  match se_pc x with
  | SendEmpty => Some (mkSender (SendBatches 1 []) (se_sent x ++ [mkBatch "enc" 0 true 0 ""]))
  | SendBatches j (i :: l) =>
      Some (match enc_batch array batch ctx j i with
            | Ret m => mkSender (SendBatches (j + 1) l) (se_sent x ++ [m])
            | Stop r => mkSender (SendFailed r) (se_sent x)
            end)
  | SendBatches _ [] | SendFailed _ => None
  end.

Definition recv_next (done : bool) : recv_pc := if done then RecvOver else RecvMsg.
Definition recv_step (inbox : list CipherBatch) (x : receiver) : option receiver :=
  match re_pc x with
  | RecvMsg =>
      m ← inbox !! re_taken x;
      let pc := match ctx_unmarshal ctx (cb_ciphertext m) (cb_count m) ≫= ctx_diffie_hellman ctx with
                | Ret arr => if cb_is_last_batch m then PutNone arr else PutArray false arr
                | Stop r => RecvFailed r
                end in
      Some (mkReceiver pc (S (re_taken x)) (re_puts x) (re_set x) (re_event x))
  | PutNone arr =>
      Some (mkReceiver (PutArray true arr) (re_taken x) (re_puts x ++ [None]) (re_set x) (re_event x))
  | PutArray done arr =>
      Some (mkReceiver (if cx_need_recv_cipher ctx then Insert done arr else recv_next done)
              (re_taken x) (re_puts x ++ [Some arr]) (re_set x) (re_event x))
  | Insert done (c :: l) =>
      Some (mkReceiver (Insert done l) (re_taken x) (re_puts x) (re_set x ++ [c]) (re_event x))
  | Insert done [] =>
      Some (mkReceiver (recv_next done) (re_taken x) (re_puts x) (re_set x) (done || re_event x))
  | RecvOver | RecvFailed _ => None
  end.

Definition dual_step (queue : list (option (list string))) (x : dualer) : option dualer :=
  match du_pc x with
  | GetArray i =>
      item ← queue !! du_taken x;
      Some (match item with
            | None => mkDualer (GetLast i) (S (du_taken x)) (du_sent x)
            | Some arr =>
                match dual_batch ctx i false arr with
                | Ret m => mkDualer (GetArray (i + 1)) (S (du_taken x)) (du_sent x ++ [m])
                | Stop r => mkDualer (DualFailed r) (S (du_taken x)) (du_sent x)
                end
            end)
  | GetLast i =>
      item ← queue !! du_taken x;
      Some (match item with
            | None => mkDualer (DualFailed (Raise TypeError)) (S (du_taken x)) (du_sent x)
            | Some arr =>
                match dual_batch ctx i true arr with
                | Ret m => mkDualer DualOver (S (du_taken x)) (du_sent x ++ [m])
                | Stop r => mkDualer (DualFailed r) (S (du_taken x)) (du_sent x)
                end
            end)
  | DualOver | DualFailed _ => None
  end.

Definition match_step (inbox : list CipherBatch) (event : bool) (set : list string) (x : matcher)
    : option matcher :=
  match ma_pc x with
  | RecvDual =>
      m ← inbox !! ma_taken x;
      let pc := match ctx_unmarshal ctx (cb_ciphertext m) (cb_count m) with
                | Ret arr => WaitSet (cb_is_last_batch m) arr
                | Stop r => MatchFailed r
                end in
      Some (mkMatcher pc (S (ma_taken x)) (ma_index x) (ma_take x))
  | WaitSet done arr =>
      if event then Some (mkMatcher (Look done arr) (ma_taken x) (ma_index x) (ma_take x)) else None
  | Look done (c :: l) =>
      Some (mkMatcher (Look done l) (ma_taken x) (ma_index x + 1)
              (ma_take x ++ (if bool_decide (c ∈ set) then [ma_index x] else [])))
  | Look done [] =>
      Some (mkMatcher (if done then MatchOver else RecvDual) (ma_taken x) (ma_index x) (ma_take x))
  | MatchOver | MatchFailed _ => None
  end.
End steps.

(** ** The two parties *)
Record party := mkParty {
  pa_array : list string;
  pa_ctx : Context;
  pa_send : sender;
  pa_recv : receiver;
  pa_dual : dualer;
  pa_match : matcher;
}.
Definition set_send (x : sender) (p : party) : party :=
  mkParty (pa_array p) (pa_ctx p) x (pa_recv p) (pa_dual p) (pa_match p).
Definition set_recv (x : receiver) (p : party) : party :=
  mkParty (pa_array p) (pa_ctx p) (pa_send p) x (pa_dual p) (pa_match p).
Definition set_dual (x : dualer) (p : party) : party :=
  mkParty (pa_array p) (pa_ctx p) (pa_send p) (pa_recv p) x (pa_match p).
Definition set_match (x : matcher) (p : party) : party :=
  mkParty (pa_array p) (pa_ctx p) (pa_send p) (pa_recv p) (pa_dual p) x.

(** The start of [diffie_hellman_flow]: a thread that is not started is over. *)
Definition start_party (array : list string) (batch : nat) (ctx : Context) : party :=
  mkParty array ctx
    (mkSender (match array with [] => SendEmpty | _ => SendBatches 0 (range_step (length array) batch) end) [])
    (mkReceiver RecvMsg 0 [] [] false)
    (mkDualer (if cx_need_send_cipher ctx then GetArray 0 else DualOver) 0 [])
    (mkMatcher (if cx_need_recv_cipher ctx then RecvDual else MatchOver) 0 0 []).

Section flow.
Context `{Ecdh} (batch : nat).

(** A step of one of [me]'s threads; the channels come from the other party. *)
Definition party_step (t : task) (peer me : party) : option party :=
  match t with
  | calcu_send_task =>
      x ← send_step (pa_array me) batch (pa_ctx me) (pa_send me); Some (set_send x me)
  | recv_calcu_task =>
      x ← recv_step (pa_ctx me) (se_sent (pa_send peer)) (pa_recv me); Some (set_recv x me)
  | send_dualenc_task =>
      x ← dual_step (pa_ctx me) (re_puts (pa_recv me)) (pa_dual me); Some (set_dual x me)
  | recv_dualenc_task =>
      x ← match_step (pa_ctx me) (du_sent (pa_dual peer)) (re_event (pa_recv me))
            (re_set (pa_recv me)) (pa_match me);
      Some (set_match x me)
  end.

Definition net : Type := party * party.
Definition net_step (t : bool * task) (n : net) : option net :=
  if t.1 then p ← party_step t.2 n.2 n.1; Some (p, n.2)
  else p ← party_step t.2 n.1 n.2; Some (n.1, p).

(** The end of [diffie_hellman_flow] of a party. *)
Definition party_result {A} (rows : list A) (p : party) : outcome (option (list A)) :=
  if cx_need_recv_cipher (pa_ctx p)
  then r ← take_rows rows (ma_take (pa_match p)); Ret (Some r)
  else Ret None.
End flow.

(** ** No thread disturbs another *)
Section commute.
Context `{Ecdh}.

Lemma send_grows array batch c x y :
  send_step array batch c x = Some y → ∃ l, se_sent y = se_sent x ++ l.
Proof.
  unfold send_step. intros Hs. destruct (se_pc x) as [|j [|i l]|r]; simplify_eq/=; [by eexists|].
  destruct (enc_batch array batch c j i); [by eexists|exists []; by rewrite app_nil_r].
Qed.
Lemma recv_grows c inbox x y : recv_step c inbox x = Some y → ∃ l, re_puts y = re_puts x ++ l.
Proof.
  unfold recv_step. intros Hs. destruct (re_pc x) as [|a|d a|d [|e l]| |r]; try done.
  - apply bind_Some in Hs as (m & _ & [= <-]). exists []. by rewrite app_nil_r.
  - injection Hs as <-. by eexists.
  - injection Hs as <-. by eexists.
  - injection Hs as <-. exists []. by rewrite app_nil_r.
  - injection Hs as <-. exists []. by rewrite app_nil_r.
Qed.
Lemma dual_grows c queue x y : dual_step c queue x = Some y → ∃ l, du_sent y = du_sent x ++ l.
Proof.
  unfold dual_step. intros Hs. destruct (du_pc x) as [i|i| |r]; try done;
    apply bind_Some in Hs as (m & _ & [= <-]); destruct m as [a|]; try destruct (dual_batch _ _ _ _);
    cbn; first [by eexists|exists []; by rewrite app_nil_r].
Qed.

(** More in a channel does not change what is read from it. *)
Lemma recv_stable c inbox l x y : recv_step c inbox x = Some y → recv_step c (inbox ++ l) x = Some y.
Proof.
  unfold recv_step. destruct (re_pc x); try done.
  intros (m & Hm & Hs)%bind_Some. by rewrite (lookup_app_l_Some _ _ _ _ Hm).
Qed.
Lemma dual_stable c queue l x y : dual_step c queue x = Some y → dual_step c (queue ++ l) x = Some y.
Proof.
  unfold dual_step. destruct (du_pc x); try done;
    intros (m & Hm & Hs)%bind_Some; by rewrite (lookup_app_l_Some _ _ _ _ Hm).
Qed.
Lemma match_stable c inbox l e s x y :
  match_step c inbox e s x = Some y → match_step c (inbox ++ l) e s x = Some y.
Proof.
  unfold match_step. destruct (ma_pc x); try done.
  intros (m & Hm & Hs)%bind_Some. by rewrite (lookup_app_l_Some _ _ _ _ Hm).
Qed.

(** The event is set at the end of the thread that inserts, and looked up in the
    set is only after it. *)
Definition looking (pc : match_pc) : bool := match pc with Look _ _ => true | _ => false end.
Definition party_inv (p : party) : Prop :=
  (re_event (pa_recv p) = true → re_pc (pa_recv p) = RecvOver) ∧
  (looking (ma_pc (pa_match p)) = true → re_event (pa_recv p) = true).
Definition net_inv (n : net) : Prop := party_inv n.1 ∧ party_inv n.2.

Lemma party_inv_step batch t peer p q :
  party_inv p → party_step batch t peer p = Some q → party_inv q.
Proof.
  intros [I1 I2] Hs. unfold party_step in Hs.
  destruct t; apply bind_Some in Hs as (x & Hx & [= <-]); split; cbn; try done.
  - unfold recv_step in Hx. intros He. destruct (re_event (pa_recv p)) eqn:E.
    { by rewrite (I1 eq_refl) in Hx. }
    destruct (re_pc (pa_recv p)) as [|a|d a|d [|e l]| |r]; try done.
    + apply bind_Some in Hx as (m & _ & [= <-]). cbn in He. congruence.
    + injection Hx as <-. cbn in He. congruence.
    + injection Hx as <-. cbn in He. congruence.
    + injection Hx as <-. cbn in He. rewrite orb_false_r in He. by subst d.
    + injection Hx as <-. cbn in He. congruence.
  - intros Hl. specialize (I2 Hl). unfold recv_step in Hx. by rewrite (I1 I2) in Hx.
  - intros Hl. unfold match_step in Hx. destruct (ma_pc (pa_match p)) as [|d a|d [|e l]| |r]; try done.
    + apply bind_Some in Hx as (m & _ & [= <-]). cbn in Hl.
      by destruct (ctx_unmarshal _ _ _).
    + by destruct (re_event (pa_recv p)).
    + by apply I2.
    + by apply I2.
Qed.

Lemma net_inv_step batch t n n' : net_inv n → net_step batch t n = Some n' → net_inv n'.
Proof.
  intros [Ia Ib] Hs. unfold net_step in Hs.
  destruct t as [[] t]; apply bind_Some in Hs as (p & Hp & [= <-]); split; cbn [fst snd]; try done.
  - exact (party_inv_step _ _ _ _ _ Ia Hp).
  - exact (party_inv_step _ _ _ _ _ Ib Hp).
Qed.

(** A step of the thread that looks up does not depend on the set before the event. *)
Lemma match_before_event p c inbox e s y :
  party_inv p → re_pc (pa_recv p) ≠ RecvOver →
  match_step c inbox (re_event (pa_recv p)) (re_set (pa_recv p)) (pa_match p) = Some y →
  match_step c inbox e s (pa_match p) = Some y.
Proof.
  intros [I1 I2] Hover. destruct (re_event (pa_recv p)) eqn:E; [by destruct Hover, I1|].
  unfold match_step. destruct (ma_pc (pa_match p)) as [|d a|d l| |r]; try done.
  by specialize (I2 eq_refl).
Qed.
Lemma recv_not_over c inbox x y : recv_step c inbox x = Some y → re_pc x ≠ RecvOver.
Proof. unfold recv_step. by destruct (re_pc x). Qed.

(** What the other party does only adds to the channels. *)
Lemma party_step_peer batch t u me peer q p' :
  party_step batch t peer me = Some q → party_step batch u me peer = Some p' →
  party_step batch t p' me = Some q.
Proof.
  intros Ht Hu. assert ((∃ l, se_sent (pa_send p') = se_sent (pa_send peer) ++ l) ∧
    (∃ l, du_sent (pa_dual p') = du_sent (pa_dual peer) ++ l)) as [[l1 E1] [l2 E2]].
  { unfold party_step in Hu. destruct u; apply bind_Some in Hu as (x & Hx & [= <-]); cbn;
      split; try (exists []; by rewrite app_nil_r); eauto using send_grows, dual_grows. }
  unfold party_step in *. destruct t; [done|..|done|]; apply bind_Some in Ht as (x & Hx & [= <-]).
  - by rewrite E1, (recv_stable _ _ _ _ _ Hx).
  - by rewrite E2, (match_stable _ _ _ _ _ _ _ Hx).
Qed.

(** Two threads of one party. *)
Lemma party_step_commute batch t u peer p pt pu :
  party_inv p → t ≠ u → party_step batch t peer p = Some pt → party_step batch u peer p = Some pu →
  ∃ q, party_step batch u peer pt = Some q ∧ party_step batch t peer pu = Some q.
Proof.
  intros I Hne Ht Hu. unfold party_step in Ht, Hu.
  assert (∀ x y, recv_step (pa_ctx p) (se_sent (pa_send peer)) (pa_recv p) = Some x →
    match_step (pa_ctx p) (du_sent (pa_dual peer)) (re_event (pa_recv p)) (re_set (pa_recv p))
      (pa_match p) = Some y →
    match_step (pa_ctx p) (du_sent (pa_dual peer)) (re_event x) (re_set x) (pa_match p) = Some y) as Hrm.
  { intros x y Hx Hy. by apply (match_before_event p); [|apply recv_not_over in Hx|]. }
  assert (∀ x y, recv_step (pa_ctx p) (se_sent (pa_send peer)) (pa_recv p) = Some x →
    dual_step (pa_ctx p) (re_puts (pa_recv p)) (pa_dual p) = Some y →
    dual_step (pa_ctx p) (re_puts x) (pa_dual p) = Some y) as Hrd.
  { intros x y [l ->]%recv_grows Hy. by apply dual_stable. }
  destruct t, u; try done; apply bind_Some in Ht as (x & Hx & [= <-]);
    apply bind_Some in Hu as (y & Hy & [= <-]); unfold party_step; cbn; eexists; split;
    first [by rewrite Hx|by rewrite Hy|by rewrite (Hrd _ _ Hx Hy)|by rewrite (Hrd _ _ Hy Hx)
          |by rewrite (Hrm _ _ Hx Hy)|by rewrite (Hrm _ _ Hy Hx)].
Qed.

Lemma net_step_commute batch t u n nt nu :
  net_inv n → t ≠ u → net_step batch t n = Some nt → net_step batch u n = Some nu →
  ∃ n', net_step batch u nt = Some n' ∧ net_step batch t nu = Some n'.
Proof.
  intros [Ia Ib] Hne Ht Hu. unfold net_step in *.
  destruct t as [[] t], u as [[] u]; cbn [fst snd] in *;
    apply bind_Some in Ht as (p & Hp & [= <-]); apply bind_Some in Hu as (q & Hq & [= <-]); cbn [fst snd].
  - destruct (party_step_commute batch t u _ _ _ _ Ia ltac:(congruence) Hp Hq) as (r & -> & ->).
    by eexists.
  - rewrite (party_step_peer _ _ _ _ _ _ _ Hp Hq), (party_step_peer _ _ _ _ _ _ _ Hq Hp). by eexists.
  - rewrite (party_step_peer _ _ _ _ _ _ _ Hp Hq), (party_step_peer _ _ _ _ _ _ _ Hq Hp). by eexists.
  - destruct (party_step_commute batch t u _ _ _ _ Ib ltac:(congruence) Hp Hq) as (r & -> & ->).
    by eexists.
Qed.
End commute.

(** ** A thread alone is its stage of [PsiFlow] *)
Section alone.
Context `{Ecdh} (batch : nat) (peer : party).

Definition runs : party → party → Prop := rtc (λ p q, ∃ t, party_step batch t peer p = Some q).

Lemma runs_step t p q r : party_step batch t peer p = Some q → runs q r → runs p r.
Proof. intros Hs Hr. eapply rtc_l; [by exists t|exact Hr]. Qed.
Lemma runs_once t p q : party_step batch t peer p = Some q → runs p q.
Proof. intros Hs. by eapply runs_step; [|apply rtc_refl]. Qed.

Lemma send_runs p j l sent ms :
  enc_batches (pa_array p) batch (pa_ctx p) j l = Ret ms →
  ∃ j', runs (set_send (mkSender (SendBatches j l) sent) p)
             (set_send (mkSender (SendBatches j' []) (sent ++ ms)) p).
Proof.
  revert j sent ms. induction l as [|i l IH]; intros j sent ms He; cbn [enc_batches] in He.
  - injection He as <-. exists j. rewrite app_nil_r. apply rtc_refl.
  - destruct (enc_batch (pa_array p) batch (pa_ctx p) j i) as [m|] eqn:Em; [|done].
    rewrite bind_Ret in He. destruct (enc_batches (pa_array p) batch (pa_ctx p) (j + 1) l) as [ms'|] eqn:E; [|done].
    injection He as <-. destruct (IH (j + 1) (sent ++ [m]) ms' E) as (j' & Hr). exists j'.
    rewrite <- (assoc_L (++)) in Hr. eapply (runs_step calcu_send_task); [|exact Hr].
    cbn. by rewrite Em.
Qed.

Lemma insert_runs p d l taken puts set ev :
  runs (set_recv (mkReceiver (Insert d l) taken puts set ev) p)
       (set_recv (mkReceiver (Insert d []) taken puts (set ++ l) ev) p).
Proof.
  revert set. induction l as [|c l IH]; intros set; [rewrite app_nil_r; apply rtc_refl|].
  specialize (IH (set ++ [c])). rewrite <- (assoc_L (++)) in IH.
  by eapply (runs_step recv_calcu_task).
Qed.

(** One message of [recv_calcu_task]. *)
Lemma receive_runs p m s s' taken :
  se_sent (pa_send peer) !! taken = Some m →
  (arr ← liftO (ctx_unmarshal (pa_ctx p) (cb_ciphertext m) (cb_count m));
   calcu_add_peer_cipher arr (pa_ctx p) (cb_is_last_batch m)) s = (Ret tt, s') →
  runs (set_recv (mkReceiver RecvMsg taken (peer_cipher s) (peer_cipher_set s) (peer_cipher_set_done s)) p)
       (set_recv (mkReceiver (recv_next (cb_is_last_batch m)) (S taken) (peer_cipher s')
                    (peer_cipher_set s') (peer_cipher_set_done s')) p).
Proof.
  intros Hm Hs. unfold calcu_add_peer_cipher in Hs. rewrite run_bind in Hs.
  destruct (ctx_unmarshal (pa_ctx p) (cb_ciphertext m) (cb_count m)) as [arr|] eqn:Eu; [|done].
  cbn in Hs. destruct (ctx_diffie_hellman (pa_ctx p) arr) as [dh|] eqn:Ed; [|done].
  injection Hs as <-. cbn [peer_cipher peer_cipher_set peer_cipher_set_done].
  eapply (runs_step recv_calcu_task).
  { cbn. rewrite Hm. cbn. rewrite Eu. cbn. by rewrite Ed. }
  assert (∀ d puts,
    runs (set_recv (mkReceiver (PutArray d dh) (S taken) puts (peer_cipher_set s) (peer_cipher_set_done s)) p)
      (set_recv (mkReceiver (recv_next d) (S taken) (puts ++ [Some dh])
        (if cx_need_recv_cipher (pa_ctx p) then peer_cipher_set s ++ dh else peer_cipher_set s)
        (cx_need_recv_cipher (pa_ctx p) && d || peer_cipher_set_done s)) p)) as Hput.
  { intros d puts. eapply (runs_step recv_calcu_task); [reflexivity|]. cbn.
    destruct (cx_need_recv_cipher (pa_ctx p)); [|apply rtc_refl].
    etrans; [apply insert_runs|]. by eapply (runs_once recv_calcu_task). }
  destruct (cb_is_last_batch m); [|apply (Hput false (peer_cipher s))].
  eapply (runs_step recv_calcu_task); [reflexivity|].
  rewrite (assoc_L (++)). apply (Hput true (peer_cipher s ++ [None])).
Qed.

Lemma recv_runs p msgs pre s s' :
  se_sent (pa_send peer) = pre ++ msgs →
  recv_and_calcu (pa_ctx p) msgs calcu_add_peer_cipher s = (Ret tt, s') →
  ∃ taken, runs
    (set_recv (mkReceiver RecvMsg (length pre) (peer_cipher s) (peer_cipher_set s) (peer_cipher_set_done s)) p)
    (set_recv (mkReceiver RecvOver taken (peer_cipher s') (peer_cipher_set s') (peer_cipher_set_done s')) p).
Proof.
  revert pre s. induction msgs as [|m msgs IH]; intros pre s Hpre Hs; cbn [recv_and_calcu] in Hs; [done|].
  assert (se_sent (pa_send peer) !! length pre = Some m) as Hm by (rewrite Hpre; by apply list_lookup_middle).
  rewrite run_bind in Hs.
  destruct (ctx_unmarshal (pa_ctx p) (cb_ciphertext m) (cb_count m)) as [arr|] eqn:Eu; [|done].
  cbn [liftO] in Hs. rewrite run_bind in Hs.
  destruct (calcu_add_peer_cipher arr (pa_ctx p) (cb_is_last_batch m) s) as [[[]|] s1] eqn:Ec; [|done].
  assert (runs (set_recv (mkReceiver RecvMsg (length pre) (peer_cipher s) (peer_cipher_set s)
                 (peer_cipher_set_done s)) p)
    (set_recv (mkReceiver (recv_next (cb_is_last_batch m)) (S (length pre)) (peer_cipher s1)
                 (peer_cipher_set s1) (peer_cipher_set_done s1)) p)) as Hone.
  { apply (receive_runs p m s s1); [done|]. rewrite run_bind, Eu. exact Ec. }
  destruct (cb_is_last_batch m).
  - injection Hs as <-. by exists (S (length pre)).
  - destruct (IH (pre ++ [m]) s1) as (taken & Hr); [by rewrite <- (assoc_L (++))|done|].
    exists taken. etrans; [exact Hone|].
    rewrite length_app, Nat.add_1_r in Hr. exact Hr.
Qed.

Lemma dual_runs p i q pre sent ms :
  re_puts (pa_recv p) = pre ++ q → send_dualenc (pa_ctx p) i q = Ret ms →
  ∃ taken, runs (set_dual (mkDualer (GetArray i) (length pre) sent) p)
                (set_dual (mkDualer DualOver taken (sent ++ ms)) p).
Proof.
  revert i pre sent ms. induction q as [|item q IH]; intros i pre sent ms Hpre Hs; [done|].
  assert (re_puts (pa_recv p) !! length pre = Some item) as Hm by (rewrite Hpre; by apply list_lookup_middle).
  destruct item as [arr|]; cbn [send_dualenc] in Hs.
  - destruct (dual_batch (pa_ctx p) i false arr) as [m|] eqn:Em; [|done]. rewrite bind_Ret in Hs.
    destruct (send_dualenc (pa_ctx p) (i + 1) q) as [ms'|] eqn:E; [|done]. injection Hs as <-.
    destruct (IH (i + 1) (pre ++ [Some arr]) (sent ++ [m]) ms') as (taken & Hr); [by rewrite <- (assoc_L (++))|done|].
    exists taken. rewrite length_app, Nat.add_1_r, <- (assoc_L (++)) in Hr.
    eapply (runs_step send_dualenc_task); [|exact Hr]. cbn. rewrite Hm. cbn. by rewrite Em.
  - destruct q as [|[arr|] q]; try done.
    destruct (dual_batch (pa_ctx p) i true arr) as [m|] eqn:Em; [|done]. injection Hs as <-.
    assert (re_puts (pa_recv p) !! S (length pre) = Some (Some arr)) as Hm2.
    { rewrite Hpre, lookup_app_r by lia. by replace (S (length pre) - length pre)%nat with 1%nat by lia. }
    exists (S (S (length pre))). eapply (runs_step send_dualenc_task).
    + cbn. rewrite Hm. cbn. reflexivity.
    + eapply (runs_once send_dualenc_task). cbn. rewrite Hm2. cbn. by rewrite Em.
Qed.

Lemma look_runs p d l taken s :
  let r := forM l (λ cipher,
    modify (λ s, mkStore (peer_cipher s) (peer_cipher_set s) (peer_cipher_set_done s)
                   (local_index_record s + 1)
                   (local_take_index s ++
                      (if bool_decide (cipher ∈ peer_cipher_set s)
                       then [local_index_record s] else [])))) s in
  re_set (pa_recv p) = peer_cipher_set s →
  r.1 = Ret tt ∧ peer_cipher_set r.2 = peer_cipher_set s ∧
  peer_cipher_set_done r.2 = peer_cipher_set_done s ∧
  runs (set_match (mkMatcher (Look d l) taken (local_index_record s) (local_take_index s)) p)
       (set_match (mkMatcher (Look d []) taken (local_index_record r.2) (local_take_index r.2)) p).
Proof.
  revert s. induction l as [|c l IH]; intros s r Hset; subst r; cbn [forM].
  - split_and!; [done..|apply rtc_refl].
  - rewrite run_bind. unfold modify at 1.
    destruct (IH (mkStore (peer_cipher s) (peer_cipher_set s) (peer_cipher_set_done s)
      (local_index_record s + 1) (local_take_index s ++ (if bool_decide (c ∈ peer_cipher_set s)
        then [local_index_record s] else []))) Hset) as (E1 & E2 & E3 & Hr).
    split_and!; [exact E1|exact E2|exact E3|].
    eapply (runs_step recv_dualenc_task); [|exact Hr]. cbn. by rewrite Hset.
Qed.

Lemma match_runs p msgs pre s s' :
  du_sent (pa_dual peer) = pre ++ msgs →
  re_set (pa_recv p) = peer_cipher_set s → re_event (pa_recv p) = peer_cipher_set_done s →
  recv_and_calcu (pa_ctx p) msgs recv_duaenc_local_cipher s = (Ret tt, s') →
  ∃ taken, runs
    (set_match (mkMatcher RecvDual (length pre) (local_index_record s) (local_take_index s)) p)
    (set_match (mkMatcher MatchOver taken (local_index_record s') (local_take_index s')) p).
Proof.
  revert pre s. induction msgs as [|m msgs IH]; intros pre s Hpre Hset Hev Hs; cbn [recv_and_calcu] in Hs; [done|].
  assert (du_sent (pa_dual peer) !! length pre = Some m) as Hm by (rewrite Hpre; by apply list_lookup_middle).
  rewrite run_bind in Hs.
  destruct (ctx_unmarshal (pa_ctx p) (cb_ciphertext m) (cb_count m)) as [arr|] eqn:Eu; [|done].
  cbn [liftO] in Hs. rewrite run_bind in Hs. unfold recv_duaenc_local_cipher at 1 in Hs.
  rewrite run_bind in Hs. cbn [getM] in Hs.
  destruct (peer_cipher_set_done s) eqn:Ed; [|done]. rewrite run_bind in Hs. cbn [mret M_ret] in Hs.
  destruct (look_runs p (cb_is_last_batch m) arr (S (length pre)) s Hset) as (E1 & E2 & E3 & Hr).
  destruct (forM arr _ s) as [o s1] eqn:Ef. cbn [fst snd] in *. subst o.
  assert (runs (set_match (mkMatcher RecvDual (length pre) (local_index_record s) (local_take_index s)) p)
    (set_match (mkMatcher (if cb_is_last_batch m then MatchOver else RecvDual) (S (length pre))
      (local_index_record s1) (local_take_index s1)) p)) as Hone.
  { eapply (runs_step recv_dualenc_task); [cbn; rewrite Hm; cbn; by rewrite Eu|].
    eapply (runs_step recv_dualenc_task); [cbn; by rewrite Hev|].
    etrans; [exact Hr|]. by eapply (runs_once recv_dualenc_task). }
  destruct (cb_is_last_batch m).
  - injection Hs as <-. by exists (S (length pre)).
  - destruct (IH (pre ++ [m]) s1) as (taken & Hr'); [by rewrite <- (assoc_L (++))|congruence|congruence|done|].
    exists taken. etrans; [exact Hone|]. rewrite length_app, Nat.add_1_r in Hr'. exact Hr'.
Qed.
End alone.

(** ** All threads together *)
Section together.
Context `{Ecdh} (batch : nat).

Definition reach (n n' : net) : Prop := ∃ sched, play (net_step batch) sched n = Some n'.

Lemma reach_trans n1 n2 n3 : reach n1 n2 → reach n2 n3 → reach n1 n3.
Proof. intros [l1 H1] [l2 H2]. exists (l1 ++ l2). by rewrite (play_app _ _ _ _ _ H1). Qed.
Lemma runs_left p q peer : runs batch peer p q → reach (p, peer) (q, peer).
Proof.
  induction 1 as [p|p q r [t Ht] _ IH]; [by exists []|].
  eapply reach_trans; [|exact IH]. exists [(true, t)]. cbn. by rewrite Ht.
Qed.
Lemma runs_right p q peer : runs batch peer p q → reach (peer, p) (peer, q).
Proof.
  induction 1 as [p|p q r [t Ht] _ IH]; [by exists []|].
  eapply reach_trans; [|exact IH]. exists [(false, t)]. cbn. by rewrite Ht.
Qed.

(** The stages of one party, from how it starts. *)
Lemma send_stage peer array ctx ms :
  calcucipher_and_send array batch ctx = Ret ms →
  ∃ j, runs batch peer (start_party array batch ctx)
         (set_send (mkSender (SendBatches j []) ms) (start_party array batch ctx)).
Proof.
  destruct array as [|x array]; intros Hs.
  - injection Hs as <-. exists 1. by eapply (runs_once _ _ calcu_send_task).
  - exact (send_runs batch peer (start_party (x :: array) batch ctx) 0 _ [] ms Hs).
Qed.

Lemma recv_stage peer p msgs s :
  first_store (pa_ctx p) msgs = Ret s → se_sent (pa_send peer) = msgs →
  pa_recv p = mkReceiver RecvMsg 0 [] [] false →
  ∃ taken, runs batch peer p
    (set_recv (mkReceiver RecvOver taken (peer_cipher s) (peer_cipher_set s) (peer_cipher_set_done s)) p).
Proof.
  unfold first_store. intros Hs Hm Hp.
  destruct (recv_and_calcu (pa_ctx p) msgs calcu_add_peer_cipher new_store) as [[[]|] s'] eqn:E; [|done].
  injection Hs as ->. destruct (recv_runs batch peer p msgs [] new_store s Hm E) as (taken & Hr).
  exists taken. destruct p. cbn in Hp. subst. exact Hr.
Qed.

Lemma dual_stage peer p s ms :
  dual_messages (pa_ctx p) s = Ret ms → re_puts (pa_recv p) = peer_cipher s →
  pa_dual p = mkDualer (if cx_need_send_cipher (pa_ctx p) then GetArray 0 else DualOver) 0 [] →
  ∃ taken, runs batch peer p (set_dual (mkDualer DualOver taken ms) p).
Proof.
  unfold dual_messages. intros Hs Hq Hp. destruct (cx_need_send_cipher (pa_ctx p)).
  - destruct (dual_runs batch peer p 0 _ [] [] ms Hq Hs) as (taken & Hr).
    exists taken. destruct p. cbn in Hp. subst. exact Hr.
  - injection Hs as <-. exists 0%nat. destruct p. cbn in Hp. subst. apply rtc_refl.
Qed.

Lemma match_stage {A} (rows : list A) peer p s dual r :
  flow_result rows (pa_ctx p) s dual = Ret r → du_sent (pa_dual peer) = dual →
  re_set (pa_recv p) = peer_cipher_set s → re_event (pa_recv p) = peer_cipher_set_done s →
  local_index_record s = 0 → local_take_index s = [] →
  pa_match p = mkMatcher (if cx_need_recv_cipher (pa_ctx p) then RecvDual else MatchOver) 0 0 [] →
  ∃ x, runs batch peer p (set_match x p) ∧ ma_pc x = MatchOver ∧
       party_result rows (set_match x p) = Ret r.
Proof.
  unfold flow_result, party_result. intros Hs Hd Hset Hev Hi Ht Hp. cbn [pa_ctx set_match pa_match].
  destruct (cx_need_recv_cipher (pa_ctx p)).
  - destruct (recv_and_calcu (pa_ctx p) dual recv_duaenc_local_cipher s) as [[[]|] s'] eqn:E; [|done].
    destruct (match_runs batch peer p dual [] s s' Hd Hset Hev E) as (taken & Hr).
    rewrite Hi, Ht in Hr.
    exists (mkMatcher MatchOver taken (local_index_record s') (local_take_index s')).
    split; [|split; [done|exact Hs]]. destruct p. cbn in Hp. subst. exact Hr.
  - injection Hs as <-. exists (pa_match p). split; [destruct p; apply rtc_refl|]. by rewrite Hp.
Qed.

(** The receiving thread leaves the other thread's part of the store alone. *)
Lemma first_store_fresh ctx msgs s :
  first_store ctx msgs = Ret s → local_index_record s = 0 ∧ local_take_index s = [].
Proof.
  unfold first_store. assert (∀ msgs s0 o s1, recv_and_calcu ctx msgs calcu_add_peer_cipher s0 = (o, s1) →
    local_index_record s1 = local_index_record s0 ∧ local_take_index s1 = local_take_index s0) as Hk.
  { clear. induction msgs as [|m msgs IH]; intros s0 o s1; cbn [recv_and_calcu]; [by intros [= _ <-]|].
    rewrite run_bind. destruct (ctx_unmarshal ctx (cb_ciphertext m) (cb_count m)) as [arr|];
      [|by intros [= _ <-]]. cbn [liftO]. rewrite run_bind.
    unfold calcu_add_peer_cipher at 1. rewrite run_bind.
    destruct (ctx_diffie_hellman ctx arr) as [dh|]; cbn [liftO]; [|by intros [= _ <-]].
    unfold modify. destruct (cb_is_last_batch m); [by intros [= _ <-]|].
    intros Hrec. exact (IH _ _ _ Hrec). }
  destruct (recv_and_calcu ctx msgs calcu_add_peer_cipher new_store) as [[[]|] s1] eqn:E; [|done].
  intros [= <-]. exact (Hk _ _ _ _ E).
Qed.

(** A thread that an exception has ended. *)
Definition failed (t : task) (p : party) : bool :=
  match t with
  | calcu_send_task => match se_pc (pa_send p) with SendFailed _ => true | _ => false end
  | recv_calcu_task => match re_pc (pa_recv p) with RecvFailed _ => true | _ => false end
  | send_dualenc_task => match du_pc (pa_dual p) with DualFailed _ => true | _ => false end
  | recv_dualenc_task => match ma_pc (pa_match p) with MatchFailed _ => true | _ => false end
  end.
Definition over (t : task) (p : party) : bool :=
  match t with
  | calcu_send_task => match se_pc (pa_send p) with SendBatches _ [] => true | _ => false end
  | recv_calcu_task => match re_pc (pa_recv p) with RecvOver => true | _ => false end
  | send_dualenc_task => match du_pc (pa_dual p) with DualOver => true | _ => false end
  | recv_dualenc_task => match ma_pc (pa_match p) with MatchOver => true | _ => false end
  end.

Lemma over_not_failed t p : over t p = true → failed t p = false.
Proof.
  destruct t; cbn; [destruct (se_pc (pa_send p))|destruct (re_pc (pa_recv p))|
    destruct (du_pc (pa_dual p))|destruct (ma_pc (pa_match p))]; done.
Qed.
Lemma over_stuck t peer p : over t p = true → party_step batch t peer p = None.
Proof.
  destruct t; cbn; unfold send_step, recv_step, dual_step, match_step.
  - by destruct (se_pc (pa_send p)) as [|j [|i l]|r].
  - by destruct (re_pc (pa_recv p)).
  - by destruct (du_pc (pa_dual p)).
  - by destruct (ma_pc (pa_match p)).
Qed.
Lemma failed_stays t u peer p q :
  failed t p = true → party_step batch u peer p = Some q → failed t q = true.
Proof.
  intros Hf Hs. destruct (decide (t = u)) as [->|Hne].
  - exfalso. revert Hf Hs. destruct u; cbn; unfold send_step, recv_step, dual_step, match_step.
    + by destruct (se_pc (pa_send p)).
    + by destruct (re_pc (pa_recv p)).
    + by destruct (du_pc (pa_dual p)).
    + by destruct (ma_pc (pa_match p)).
  - unfold party_step in Hs. destruct t, u; try done; by apply bind_Some in Hs as (x & _ & [= <-]).
Qed.
Lemma play_failed t sched n n' :
  play (net_step batch) sched n = Some n' →
  (failed t n.1 = true → failed t n'.1 = true) ∧ (failed t n.2 = true → failed t n'.2 = true).
Proof.
  revert n. induction sched as [|[[] u] sched IH]; intros n Hp; [by injection Hp as <-| |];
    apply bind_Some in Hp as (n1 & Hs & Hp); apply IH in Hp as [Ha Hb];
    unfold net_step in Hs; cbn [fst snd] in Hs; apply bind_Some in Hs as (p & Hs & [= <-]); cbn in *;
    split; intros Hf; eauto using failed_stays.
Qed.
End together.

Section theorem.
Context `{EcdhLaws}.

(** The stages one after the other are a schedule, and no thread goes on after it. *)
Lemma stages_reach {A B} batch (rows_a : list A) (fa : A → string) ca (rows_b : list B) (fb : B → string) cb ra rb :
  diffie_hellman_flow batch rows_a fa ca rows_b fb cb = Ret (ra, rb) →
  ∃ e, reach batch (start_party (fa <$> rows_a) batch ca, start_party (fb <$> rows_b) batch cb) e ∧
    (∀ t, over t e.1 = true ∧ over t e.2 = true) ∧
    party_result rows_a e.1 = Ret ra ∧ party_result rows_b e.2 = Ret rb.
Proof.
  unfold diffie_hellman_flow. set (a0 := start_party (fa <$> rows_a) batch ca).
  set (b0 := start_party (fb <$> rows_b) batch cb).
  destruct (calcucipher_and_send (fa <$> rows_a) batch ca) as [ma|] eqn:Ema; [rewrite bind_Ret|done].
  destruct (calcucipher_and_send (fb <$> rows_b) batch cb) as [mb|] eqn:Emb; [rewrite bind_Ret|done].
  destruct (first_store ca mb) as [sa|] eqn:Esa; [rewrite bind_Ret|done].
  destruct (first_store cb ma) as [sb|] eqn:Esb; [rewrite bind_Ret|done].
  destruct (dual_messages ca sa) as [da|] eqn:Eda; [rewrite bind_Ret|done].
  destruct (dual_messages cb sb) as [db|] eqn:Edb; [rewrite bind_Ret|done].
  destruct (flow_result rows_a ca sa db) as [ra'|] eqn:Era; [rewrite bind_Ret|done].
  destruct (flow_result rows_b cb sb da) as [rb'|] eqn:Erb; [rewrite bind_Ret|done].
  intros [= -> ->].
  destruct (first_store_fresh _ _ _ Esa) as [Ia Ta]. destruct (first_store_fresh _ _ _ Esb) as [Ib Tb].
  destruct (send_stage batch b0 _ _ _ Ema) as (ja & R1). fold a0 in R1. set (a1 := set_send _ a0) in R1.
  destruct (send_stage batch a1 _ _ _ Emb) as (jb & R2). fold b0 in R2. set (b1 := set_send _ b0) in R2.
  destruct (recv_stage batch b1 a1 mb sa Esa eq_refl eq_refl) as (ka & R3). set (a2 := set_recv _ a1) in R3.
  destruct (recv_stage batch a2 b1 ma sb Esb eq_refl eq_refl) as (kb & R4). set (b2 := set_recv _ b1) in R4.
  destruct (dual_stage batch b2 a2 sa da Eda eq_refl eq_refl) as (la & R5). set (a3 := set_dual _ a2) in R5.
  destruct (dual_stage batch a3 b2 sb db Edb eq_refl eq_refl) as (lb & R6). set (b3 := set_dual _ b2) in R6.
  destruct (match_stage batch rows_a b3 a3 sa db ra Era eq_refl eq_refl eq_refl Ia Ta eq_refl)
    as (xa & R7 & Oa & Pa).
  destruct (match_stage batch rows_b (set_match xa a3) b3 sb da rb Erb eq_refl eq_refl eq_refl Ib Tb eq_refl)
    as (xb & R8 & Ob & Pb).
  exists (set_match xa a3, set_match xb b3). split_and!; [|intros []; cbn; by rewrite ?Oa, ?Ob|done|done].
  eapply reach_trans; [exact (runs_left batch _ _ _ R1)|].
  eapply reach_trans; [exact (runs_right batch _ _ _ R2)|].
  eapply reach_trans; [exact (runs_left batch _ _ _ R3)|].
  eapply reach_trans; [exact (runs_right batch _ _ _ R4)|].
  eapply reach_trans; [exact (runs_left batch _ _ _ R5)|].
  eapply reach_trans; [exact (runs_right batch _ _ _ R6)|].
  eapply reach_trans; [exact (runs_left batch _ _ _ R7)|exact (runs_right batch _ _ _ R8)].
Qed.

Lemma start_party_inv array batch c : party_inv (start_party array batch c).
Proof. split; cbn; [done|]. by destruct (cx_need_recv_cipher c). Qed.

(** C4. The threads of the two parties compute the intersection.  However the
    four threads of each party are interleaved, as long as neither multiplication by
    the two keys nor the hash identifies two of the items at hand, no thread ends in an
    exception and none waits for ever: there is a number of steps that no schedule exceeds, and
    when no thread can go on, each party that asked for the result has exactly its
    rows whose item the other party has, in order. *)
Theorem threads_compute_the_intersection {A B} batch (rows_a : list A) (fa : A → string) ca ka
    (rows_b : list B) (fb : B → string) cb kb :
  agreed ca ka → agreed cb kb → (0 < batch)%nat →
  cx_need_send_cipher ca = cx_need_recv_cipher cb →
  cx_need_send_cipher cb = cx_need_recv_cipher ca →
  good_keys ka kb ((fa <$> rows_a) ++ (fb <$> rows_b)) →
  no_collision (fa <$> rows_a) (fb <$> rows_b) →
  ∃ steps, ∀ sched n,
    play (net_step batch) sched
      (start_party (fa <$> rows_a) batch ca, start_party (fb <$> rows_b) batch cb) = Some n →
    (length sched ≤ steps)%nat ∧
    (∀ t, failed t n.1 = false ∧ failed t n.2 = false) ∧
    (stuck (net_step batch) n →
     party_result rows_a n.1
     = Ret (if cx_need_recv_cipher ca then Some (filter (λ x, fa x ∈ fb <$> rows_b) rows_a) else None) ∧
     party_result rows_b n.2
     = Ret (if cx_need_recv_cipher cb then Some (filter (λ y, fb y ∈ fa <$> rows_a) rows_b) else None)).
Proof.
  intros Ha Hb Hbatch Hab Hba Hkeys Hcol.
  pose proof (flow_run batch rows_a fa ca ka rows_b fb cb kb Ha Hb Hbatch Hab Hba Hkeys Hcol) as Hf.
  destruct (stages_reach _ _ _ _ _ _ _ _ _ Hf) as (e & [l Hl] & Hover & Hra & Hrb).
  assert (stuck (net_step batch) e) as He.
  { intros [[] t]; unfold net_step; cbn; by rewrite over_stuck by apply Hover. }
  set (n0 := (start_party (fa <$> rows_a) batch ca, start_party (fb <$> rows_b) batch cb)) in *.
  assert (net_inv n0) as Hi by (split; apply start_party_inv).
  exists (length l). intros sched n Hn.
  destruct (play_to_end (net_step batch) net_inv (λ t n n', net_inv_step batch t n n')
    (λ t u n nt nu, net_step_commute batch t u n nt nu) l sched n0 e n Hi Hl He Hn) as (l3 & H3 & Hlen).
  split_and!; [lia| |].
  - intros t. destruct (play_failed batch t l3 n e H3) as [F1 F2]. destruct (Hover t) as [O1 O2].
    apply over_not_failed in O1. apply over_not_failed in O2.
    split; apply not_true_iff_false; intros Hc; [rewrite F1 in O1|rewrite F2 in O2]; done.
  - intros Hst. destruct l3 as [|t l3]; [by injection H3 as ->|].
    apply bind_Some in H3 as (n1 & Ht & _). by rewrite (Hst t) in Ht.
Qed.
End theorem.

Section witnesses.
Import TestEcdh.

Definition ctx_a : Context := agreed_context "sk" SENDER_RANK 4 (-1).
Definition ctx_b : Context := agreed_context "rk" RECEIVER_RANK 3 (-1).
Definition sample_start : net :=
  (start_party (id <$> sample_a) 2 ctx_a, start_party (id <$> sample_b) 2 ctx_b).

Lemma threads_compute_the_intersection_witness :
  ∃ steps, ∀ sched n,
    play (net_step 2) sched sample_start = Some n →
    (length sched ≤ steps)%nat ∧
    (∀ t, failed t n.1 = false ∧ failed t n.2 = false) ∧
    (stuck (net_step 2) n →
     party_result sample_a n.1 = Ret (Some (filter (λ x, id x ∈ id <$> sample_b) sample_a)) ∧
     party_result sample_b n.2 = Ret (Some (filter (λ y, id y ∈ id <$> sample_a) sample_b))).
Proof.
  apply (threads_compute_the_intersection 2 sample_a id ctx_a "sk" sample_b id ctx_b "rk");
    [split; [by eexists|done]|split; [by eexists|done]|lia|done|done|apply samples_are_kept_apart|
     apply samples_do_not_collide].
Defined.

(** Threads visited in turn, those that wait passed over. *)
Definition visit (n : net) (t : bool * task) : net := default n (net_step 2 t n).
Definition turn : list (bool * task) :=
  [(false, recv_dualenc_task); (true, recv_dualenc_task); (true, send_dualenc_task);
   (false, send_dualenc_task); (true, recv_calcu_task); (false, calcu_send_task);
   (false, recv_calcu_task); (true, calcu_send_task)].
Example turns_compute :
  let n := foldl visit sample_start (concat (repeat turn 30)) in
  party_result sample_a n.1 = Ret (Some ["ann"; "ann"; "eve"]) ∧
  party_result sample_b n.2 = Ret (Some ["eve"; "ann"]) ∧
  forallb (λ t, bool_decide (net_step 2 t n = None)) turn = true.
Proof. vm_compute. done. Qed.
End witnesses.
