(* ===== verification/PsiRegister.v ===== *)
(** * The registration of a party

    register_uuid.py, and its use in api.py: for the time of a run the redis
    server holds the address of the party under the name of its task, for the
    proxy.  The server is a map of strings; the address of the host is what the
    socket layer says. *)

From stdpp Require Import base tactics list gmap strings.
From Stdlib Require Import ZArith Lia Ascii.
From S2P Require Import Prelude PyStd.

Open Scope Z_scope.

Definition store : Type := gmap string string.

Record register := mkRegister {
  rg_host : string;
  rg_port : Z;
  rg_password : option string;
  rg_role_port : Z;
  rg_app_id : string;
}.

Section register.
(** What [get_host_ip] finds, and whether the redis server answers. *)
Context (host_ip : string) (reachable : bool).

(** The address is host and port, with one colon. *)
Definition new_redis (redis_address redis_password : string) (role_port : Z) (app_id : string)
    : outcome register :=
  match Str.split ":"%char redis_address with
  | [host; port] =>
      p ← Str.to_int port;
      Ret (mkRegister host p (if (0 <? String.length redis_password)%nat then Some redis_password
                              else None) role_port app_id)
  | _ => raise ValueError
  end.

Definition uuid_of (r : register) : string := "network:" +:+ rg_app_id r.
Definition address_of (r : register) : string :=
  host_ip +:+ ":" +:+ Str.of_int (rg_role_port r).

Definition register_uuid (r : register) : M store unit :=
  require reachable GenericException;;
  modify (λ s, <[uuid_of r := address_of r]> s).
Definition unregister_uuid (r : register) : M store unit :=
  require reachable GenericException;;
  modify (λ s, delete (uuid_of r) s).

(** [local_address.split(':')[1]] *)
Definition local_port (local_address : string) : outcome Z :=
  p ← py_index (Str.split ":"%char local_address) 1;
  Str.to_int p.

(** The object is deleted when the call is left, normally or by an exception;
    an error of the deletion is ignored. *)
Definition registered {A} (reg : register) (run : M store A) : M store A := λ s,
  match (register_uuid reg;; run) s with
  | (r, s') => (r, (unregister_uuid reg s').2)
  end.

Definition psi_session {A} (redis_address redis_password local_address task_id : string)
    (run : M store A) : M store A :=
  port ← liftO (local_port local_address);
  reg ← liftO (new_redis redis_address redis_password port task_id);
  registered reg run.
End register.

Section properties.
(** A run is registered while it lasts and no longer: with a reachable
    server and addresses of the form host and port, the run sees the address
    of the party under the name of its task, and whatever the run does and
    however it ends, the name is gone afterwards and nothing else of the
    server is touched by the registration. *)
Theorem session_is_registered_while_it_runs {A} ip host port rport pw lhost lp lport task
    (run : M store A) s :
  Str.mem ":"%char host = false → Str.mem ":"%char port = false → Str.to_int port = Ret rport →
  Str.mem ":"%char lhost = false → Str.mem ":"%char lp = false → Str.to_int lp = Ret lport →
  let key := "network:" +:+ task in
  let s0 := <[key := ip +:+ ":" +:+ Str.of_int lport]> s in
  psi_session ip true (host +:+ ":" +:+ port) pw (lhost +:+ ":" +:+ lp) task run s
  = ((run s0).1, delete key (run s0).2).
Proof.
  intros Hh Hpc Hp Hl Hlc Hli key s0. unfold psi_session.
  assert (local_port (lhost +:+ ":" +:+ lp) = Ret lport) as Hlp.
  { unfold local_port. change (":" +:+ lp) with (String ":"%char lp).
    rewrite (Str.split_app_sep ":"%char) by done.
    by rewrite (Str.split_no_sep ":"%char lp) by done. }
  assert (new_redis (host +:+ ":" +:+ port) pw lport task
          = Ret (mkRegister host rport (if (0 <? String.length pw)%nat then Some pw else None)
                   lport task)) as Hn.
  { unfold new_redis. change (":" +:+ port) with (String ":"%char port).
    rewrite (Str.split_app_sep ":"%char) by done. rewrite (Str.split_no_sep ":"%char port) by done.
    by rewrite Hp. }
  rewrite run_bind. unfold liftO. rewrite Hlp, run_bind, Hn.
  unfold registered. rewrite run_bind. unfold register_uuid at 1. rewrite run_bind.
  cbn [require mret M_ret modify]. change (uuid_of _) with key. unfold address_of.
  cbn [rg_role_port]. fold s0. by destruct (run s0) as [r s'].
Qed.

Lemma session_is_registered_while_it_runs_witness :
  psi_session "10.0.0.7" true ("redis" +:+ ":" +:+ "6379") "" ("0.0.0.0" +:+ ":" +:+ "22020")
    "app_0" (gets (λ s : store, s !! "network:app_0")) ∅
  = (Ret (Some "10.0.0.7:22020"), ∅).
Proof.
  etrans; [apply (session_is_registered_while_it_runs "10.0.0.7" "redis" "6379" 6379 "" "0.0.0.0"
                    "22020" 22020 "app_0" (gets (λ s : store, s !! "network:app_0")) ∅);
           vm_compute; reflexivity|].
  vm_compute. reflexivity.
Defined.

(** The default of psi_actors.py is no address at all. *)
Lemma default_address_is_refused {A} ip b pw local task (run : M store A) s :
  is_ret (local_port local) = true →
  psi_session ip b "" pw local task run s = (raise ValueError, s).
Proof.
  intros Hl. unfold psi_session. rewrite run_bind. unfold liftO.
  by destruct (local_port local) as [p|r].
Qed.
End properties.
