(* ===== verification/PsiFiles.v ===== *)
(** * Files and tables of the batch join

    The first part of psi_actors.py: protocols, formats, the listing of the
    input files, reading and writing.  Tables, their codecs and the file systems
    are pyarrow's; the class [Arrow] has what the code uses of a table, by the
    names of its columns and the rows that [to_pylist] shows, [FileSystem] has
    the input files, which do not change during a run.  What a run writes is a
    map from paths to bytes. *)

From stdpp Require Import base tactics list gmap strings sorting.
From Stdlib Require Import ZArith Lia Ascii.
From S2P Require Import Prelude PyStd.

Open Scope Z_scope.

(** A value of [column.to_pylist()]. *)
Inductive cell :=
  | CNull
  | CStr (s : string)
  | CInt (z : Z)
  | CBytes (s : string)
  | CFloat (packed : string)
  | COther.
#[export] Instance cell_eq_dec : EqDecision cell.
Proof. solve_decision. Defined.

(** The types of columns that the code tells from others. *)
Inductive arrow_type :=
  | TString
  | TBinary
  | TLargeString
  | TLargeBinary
  | TOther (name : string).
#[export] Instance arrow_type_eq_dec : EqDecision arrow_type.
Proof. solve_decision. Defined.
Abbreviation schema := (list (string * arrow_type)).

(** The type with offsets of 64 bits in the place of 32. *)
Definition large (t : arrow_type) : arrow_type :=
  match t with TString => TLargeString | TBinary => TLargeBinary | t => t end.

Class Arrow (T : Type) := {
  schema_of : T → schema;
  column_names : T → list string;
  rows_of : T → list (list cell);
  drop_columns : list string → T → outcome T;
  add_column0 : string → list cell → T → outcome T;
  concat_tables : list T → outcome T;
  cast : schema → T → outcome T;
  combine_chunks : T → T;
  to_batches : T → list T;
  empty_batch : T → T;
  parse_csv : string → string → outcome T;
  parse_parquet : string → outcome T;
  csv_bytes : string → bool → string → T → string;
  parquet_bytes : bool → T → string;
}.

(** [table.num_rows], [num_columns] and [column(name)] *)
Section tables.
Context `{Arrow T}.

Definition num_rows (t : T) : Z := zlen (rows_of t).
Definition num_columns (t : T) : Z := zlen (column_names t).

Definition column_index (t : T) (name : string) : option nat :=
  fst <$> list_find (λ n, n = name) (column_names t).
Definition column (t : T) (name : string) : outcome (list cell) :=
  match column_index t name with
  | Some i => Ret ((λ r, default CNull (r !! i)) <$> rows_of t)
  | None => raise KeyError
  end.
Definition null_count (col : list cell) : Z := zlen (filter (λ c, c = CNull) col).
End tables.

(** A row without the cells of the columns [l]. *)
Definition mask {A} (l names : list string) (row : list A) : list A :=
  snd <$> filter (λ p : string * A, p.1 ∉ l) (zip names row).

(** pyarrow's documentation: dropping raises [KeyError] on an unknown column and
    keeps the others; a cast gives the table the schema, and one to wider offsets
    keeps the values; a combined table is one batch, or none without rows; the
    header of a CSV stream comes before the rows. *)
Class ArrowLaws (T : Type) `{Arrow T} := {
  drop_columns_known l t : Forall (.∈ column_names t) l →
    ∃ t', drop_columns l t = Ret t' ∧ column_names t' = filter (.∉ l) (column_names t) ∧
      rows_of t' = mask l (column_names t) <$> rows_of t;
  drop_columns_unknown n l t : n ∈ l → n ∉ column_names t → drop_columns l t = raise KeyError;
  add_column0_names n col t t' : add_column0 n col t = Ret t' →
    column_names t' = n :: column_names t ∧ length col = length (rows_of t) ∧
    rows_of t' = zip_with cons col (rows_of t);
  schema_names t : fst <$> schema_of t = column_names t;
  cast_schema s t t' : cast s t = Ret t' → schema_of t' = s ∧ length (rows_of t') = length (rows_of t);
  cast_large t : ∃ t', cast (prod_map id large <$> schema_of t) t = Ret t' ∧ rows_of t' = rows_of t;
  combine_chunks_same t : column_names (combine_chunks t) = column_names t ∧
    rows_of (combine_chunks t) = rows_of t;
  to_batches_combined t : to_batches (combine_chunks t)
    = match rows_of t with [] => [] | _ => [combine_chunks t] end;
  empty_batch_spec t : column_names (empty_batch t) = column_names t ∧ rows_of (empty_batch t) = [];
  csv_bytes_header path delim t :
    ∃ h, csv_bytes path true delim t = h +:+ csv_bytes path false delim t;
}.

Inductive FileType := NotFound | File | Directory.
#[export] Instance file_type_eq_dec : EqDecision FileType.
Proof. solve_decision. Defined.
Record FileInfo := mkInfo { fi_path : string; fi_type : FileType; fi_extension : string }.

(** [net] is ["hdfs://host"] or empty for the local file system. *)
Class FileSystem := {
  get_file_type (net path : string) : FileType;
  list_files (net path : string) (recursive : bool) : list FileInfo;
  input_stream (net path : string) : option string;
}.

(** [str.lower] on ASCII *)
Definition lower_ascii (c : ascii) : ascii :=
  let n := N_of_ascii c in
  if ((65 <=? n) && (n <=? 90))%N then ascii_of_N (n + 32) else c.
Fixpoint lower (s : string) : string :=
  match s with EmptyString => EmptyString | String c s' => String (lower_ascii c) (lower s') end.

Definition infer_protocol (file_path : string) : string :=
  if Str.startswith "https://" file_path || Str.startswith "http://" file_path then "http"
  else if Str.startswith "hdfs://" file_path then "hdfs"
  else "nfs".

Definition infer_format (file_path : string) : string :=
  let l := lower file_path in
  if Str.endswith ".csv" l then "csv"
  else if Str.endswith ".txt" l then "csv"
  else if Str.endswith ".csv.gz" l then "csv.gz"
  else if Str.endswith ".gz.parquet" l then "gz.parquet"
  else if Str.endswith ".parquet" l then "parquet"
  else "csv".

(** [urlparse] of an ["hdfs://"] address: network location and path, without
    query and fragment; tabs and line ends are removed first. *)
Fixpoint strip_unsafe (s : string) : string :=
  match s with
  | EmptyString => EmptyString
  | String c s' =>
      let n := N_of_ascii c in
      if ((n =? 9) || (n =? 10) || (n =? 13))%N then strip_unsafe s' else String c (strip_unsafe s')
  end.
(** The prefix before the first of the delimiters, and the rest from it on. *)
Fixpoint span_until (delims : list ascii) (s : string) : string * string :=
  match s with
  | EmptyString => (EmptyString, EmptyString)
  | String c s' =>
      if bool_decide (c ∈ delims) then (EmptyString, s)
      else let '(a, b) := span_until delims s' in (String c a, b)
  end.
Definition urlparse_hdfs (url : string) : outcome (string * string) :=
  let u := strip_unsafe url in
  let rest := String.substring 7 (String.length u - 7) u in
  let '(netloc, tail) := span_until ["/"; "?"; "#"]%char rest in
  if negb (Bool.eqb (Str.mem "[" netloc) (Str.mem "]" netloc)) then raise ValueError
  else Ret ("hdfs://" +:+ netloc, (span_until ["?"; "#"]%char tail).1).

Section files.
Context `{Arrow T, !FileSystem}.

(** [csv.ParseOptions] has no parameter [autogenerate_column_names]. *)
Definition read_data_from_filesystem (net file_path : string) (with_head : bool)
    (csv_delimiter : string) : outcome T :=
  let infered_format := infer_format file_path in
  if bool_decide (infered_format ∈ ["csv"; "txt"; "csv.gz"]) then
    if with_head then
      match input_stream net file_path with
      | Some bytes => parse_csv csv_delimiter bytes
      | None => raise FileNotFoundError
      end
    else raise TypeError
  else if bool_decide (infered_format ∈ ["parquet"; "gz.parquet"]) then
    match input_stream net file_path with
    | Some bytes => parse_parquet bytes
    | None => raise FileNotFoundError
    end
  else raise ValueError.
Definition read_data_from_hdfs (abs_file_path : string) (with_head : bool) (csv_delimiter : string)
    : outcome T :=
  '(net, path) ← urlparse_hdfs abs_file_path;
  read_data_from_filesystem net path with_head csv_delimiter.
Definition read_data_from_file (abs_file_path : string) (with_head : bool) (csv_delimiter : string)
    : outcome T :=
  read_data_from_filesystem "" abs_file_path with_head csv_delimiter.

(** The bytes written, by network location and path. *)
Definition outputs : Type := gmap (string * string) string.

Definition write_data_to_filesystem (net : string) (data : T) (file_path : string)
    (append with_head : bool) (csv_delimiter : string) : M outputs unit :=
  let infered_format := infer_format file_path in
  if bool_decide (infered_format ∈ ["csv"; "txt"; "csv.gz"]) then
    let bytes := csv_bytes file_path with_head csv_delimiter data in
    modify (λ fs, <[(net, file_path) :=
                     (if append then default "" (fs !! (net, file_path)) else "") +:+ bytes]> fs)
  else if bool_decide (infered_format ∈ ["parquet"; "gz.parquet"]) then
    modify (λ fs, <[(net, file_path) :=
                     parquet_bytes (bool_decide (infered_format = "gz.parquet")) data]> fs)
  else raiseM ValueError.
Definition write_data_to_hdfs (data : T) (abs_file_path : string) (append with_head : bool)
    (csv_delimiter : string) : M outputs unit :=
  '(net, path) ← liftO (urlparse_hdfs abs_file_path);
  write_data_to_filesystem net data path append with_head csv_delimiter.
Definition write_data_to_file (data : T) (abs_file_path : string) (append with_head : bool)
    (csv_delimiter : string) : M outputs unit :=
  write_data_to_filesystem "" data abs_file_path append with_head csv_delimiter.
End files.

(** The listing, with the file types. *)
Definition accepted_extensions : list string := ["csv"; "txt"; "csv.gz"; "parquet"; "gz.parquet"].
Definition path_leb (a b : string * FileType) : bool := Str.leb a.1 b.1.
Fixpoint filter_paths (prefix : string) (file_infos : list FileInfo) (with_directory : bool)
    : list (string * FileType) :=
  match file_infos with
  | [] => []
  | i :: l =>
      (match fi_type i with
       | File => if bool_decide (fi_extension i ∈ accepted_extensions)
                 then [(prefix +:+ fi_path i, fi_type i)] else []
       | _ => if with_directory then [(prefix +:+ fi_path i, fi_type i)] else []
       end) ++ filter_paths prefix l with_directory
  end.
Definition filter_data_paths (prefix : string) (file_infos : list FileInfo) (with_directory : bool)
    : list (string * FileType) :=
  py_sort path_leb (filter_paths prefix file_infos with_directory).

(** An element of [data_paths]: a path, or the paths of a sub-directory. *)
Inductive data_path := PStr (s : string) | PList (l : list string).
#[export] Instance data_path_eq_dec : EqDecision data_path.
Proof. solve_decision. Defined.

Section listing.
Context `{!FileSystem}.

Definition get_actual_data_files_from_filesystem (net prefix path : string) : list string :=
  (filter_data_paths (prefix +:+ "/") (list_files net path true) false).*1.
Definition get_actual_data_files_from_hdfs (abs_file_path : string) : outcome (list string) :=
  '(net, path) ← urlparse_hdfs abs_file_path;
  Ret (get_actual_data_files_from_filesystem net net path).
Definition get_actual_data_files_from_file (abs_file_path : string) : list string :=
  get_actual_data_files_from_filesystem "" "" abs_file_path.

Fixpoint refetch_if_has_directory (data_protocol : string) (l : list (string * FileType))
    : outcome (list data_path) :=
  match l with
  | [] => Ret []
  | (file_path, file_type) :: l' =>
      x ← (match file_type with
           | File => Ret (PStr file_path)
           | _ =>
               sub_list ← (if bool_decide (data_protocol = "hdfs")
                           then get_actual_data_files_from_hdfs file_path
                           else Ret (get_actual_data_files_from_file file_path));
               Ret (PList (py_sort Str.leb sub_list))
           end);
      xs ← refetch_if_has_directory data_protocol l';
      Ret (x :: xs)
  end.
End listing.

(** ** Lemmas on the listing *)
Definition listed (with_directory : bool) (i : FileInfo) : bool :=
  match fi_type i with
  | File => bool_decide (fi_extension i ∈ accepted_extensions)
  | _ => with_directory
  end.

Lemma filter_paths_spec prefix infos wd :
  filter_paths prefix infos wd
  = (λ i, (prefix +:+ fi_path i, fi_type i)) <$> filter (λ i, listed wd i = true) infos.
Proof.
  induction infos as [|i infos IH]; [done|]. cbn [filter_paths]. rewrite filter_cons, IH.
  unfold listed. destruct (fi_type i) eqn:E; cbn.
  - destruct wd; [rewrite decide_True by done|rewrite decide_False by done]; cbn; by rewrite ?E.
  - destruct (bool_decide_reflect (fi_extension i ∈ accepted_extensions)) as [Ha|Ha];
      [rewrite decide_True by done|rewrite decide_False by done]; cbn; by rewrite ?E.
  - destruct wd; [rewrite decide_True by done|rewrite decide_False by done]; cbn; by rewrite ?E.
Qed.

Lemma filter_data_paths_perm prefix infos wd :
  filter_data_paths prefix infos wd
  ≡ₚ (λ i, (prefix +:+ fi_path i, fi_type i)) <$> filter (λ i, listed wd i = true) infos.
Proof. unfold filter_data_paths. by rewrite py_sort_perm, filter_paths_spec. Qed.

Lemma filter_data_paths_sorted prefix infos wd :
  Sorted (λ a b, path_leb a b = true) (filter_data_paths prefix infos wd).
Proof. apply py_sort_sorted. intros x y. apply str_leb_total. Qed.

Section refetch.
Context `{!FileSystem}.

Lemma refetch_files p l :
  Forall (λ x : string * FileType, x.2 = File) l →
  refetch_if_has_directory p l = Ret (PStr <$> l.*1).
Proof.
  induction 1 as [|[a t] l Ht Hl IH]; [done|]. simpl in Ht. subst t. simpl. by rewrite IH.
Qed.

(** The kinds of the paths follow the kinds of the entries. *)
Lemma refetch_kinds l r :
  refetch_if_has_directory "nfs" l = Ret r →
  Forall2 (λ x y, match x.2 with File => y = PStr x.1 | _ => ∃ s, y = PList s end) l r.
Proof.
  revert r. induction l as [|[a t] l IH]; intros r Hr; simpl in Hr.
  - injection Hr as <-. constructor.
  - destruct (refetch_if_has_directory "nfs" l) as [r'|] eqn:E; destruct t; simpl in Hr; try done;
      injection Hr as <-; (constructor; [simpl; by eauto|by apply IH]).
Qed.
Lemma refetch_local l : ∃ r, refetch_if_has_directory "nfs" l = Ret r.
Proof.
  induction l as [|[a t] l [r IH]]; [by exists []|]. simpl. rewrite IH.
  destruct t; simpl; eauto.
Qed.
End refetch.

(** A table as a header and rows, with a plain CSV codec. *)
Module TestTables.
(** All columns are texts, with wide or with narrow offsets. *)
Record Table := mkTyped { t_names : list string; t_rows : list (list cell); t_large : bool }.
Abbreviation mkTable names rows := (mkTyped names rows true).

Definition nl : ascii := ascii_of_N 10.
Definition show_cell (c : cell) : string :=
  match c with CStr s => s | CInt z => Str.of_int z | _ => "" end.
Definition line (delim : string) (l : list string) : string := Str.join delim l +:+ String nl "".
Definition delim_char (d : string) : ascii := match d with String c _ => c | _ => ","%char end.
Definition body (delim : string) (t : Table) : string :=
  Str.concat ((λ r, line delim (show_cell <$> r)) <$> t_rows t).

#[export] Instance test_arrow : Arrow Table := {
  schema_of t := (λ n, (n, if t_large t then TLargeString else TString)) <$> t_names t;
  column_names := t_names;
  rows_of := t_rows;
  drop_columns l t :=
    if bool_decide (Forall (.∈ t_names t) l)
    then Ret (mkTable (filter (.∉ l) (t_names t)) (mask l (t_names t) <$> t_rows t))
    else raise KeyError;
  add_column0 n col t :=
    if Nat.eqb (length col) (length (t_rows t))
    then Ret (mkTable (n :: t_names t) (zip_with cons col (t_rows t))) else raise ArrowInvalid;
  concat_tables ts :=
    match ts with
    | [] => raise ValueError
    | t :: _ => Ret (mkTable (t_names t) (concat (t_rows <$> ts)))
    end;
  cast s t :=
    if bool_decide (fst <$> s = t_names t) then
      if bool_decide (Forall (λ f, f.2 = TLargeString) s) then Ret (mkTyped (t_names t) (t_rows t) true)
      else if bool_decide (Forall (λ f, f.2 = TString) s) then Ret (mkTyped (t_names t) (t_rows t) false)
      else raise ArrowInvalid
    else raise ValueError;
  combine_chunks t := t;
  to_batches t := match t_rows t with [] => [] | _ => [t] end;
  empty_batch t := mkTable (t_names t) [];
  parse_csv delim bytes :=
    match removelast (Str.split nl bytes) with
    | [] => raise ArrowInvalid
    | h :: rs => Ret (mkTable (Str.split (delim_char delim) h)
                        ((λ r, CStr <$> Str.split (delim_char delim) r) <$> rs))
    end;
  parse_parquet _ := raise ArrowInvalid;
  csv_bytes _ head delim t :=
    (if head then line delim (t_names t) else "") +:+ body delim t;
  parquet_bytes _ t := body "," t;
}.

#[export] Instance test_arrow_laws : ArrowLaws Table.
Proof.
  split.
  - intros l t Hl. unfold drop_columns. simpl. rewrite bool_decide_true by done.
    by eexists.
  - intros n l t Hn Hnot. unfold drop_columns. simpl. rewrite bool_decide_false; [done|].
    rewrite Forall_forall. eauto.
  - intros n col t t'. unfold add_column0. simpl. destruct (Nat.eqb_spec (length col) (length (t_rows t)));
      [|done]. by intros [= <-].
  - intros t. cbn. rewrite <- list_fmap_compose. apply list_fmap_id.
  - intros s t t'. unfold cast. cbn. case_bool_decide as Hn; [|done].
    assert (∀ ty, Forall (λ f : string * arrow_type, f.2 = ty) s → (λ n, (n, ty)) <$> t_names t = s) as Hs.
    { intros ty Hty. rewrite <- Hn. clear Hn. induction Hty as [|[n ty'] l Hx Hl IH]; [done|].
      cbn in *. subst ty'. by f_equal. }
    repeat case_bool_decide; try done; intros [= <-]; cbn; split; auto.
  - intros t. unfold cast. cbn. rewrite bool_decide_true.
    + rewrite bool_decide_true; [by eexists|]. rewrite <- list_fmap_compose. apply Forall_fmap, Forall_true.
      intros n. cbn. by destruct (t_large t).
    + rewrite <- !list_fmap_compose. apply list_fmap_id.
  - done.
  - done.
  - done.
  - intros path delim t. by exists (line delim (t_names t)).
Qed.
End TestTables.

(** ** Properties *)
Definition data_entry (with_directory : bool) (i : FileInfo) : bool :=
  match fi_type i with
  | File => bool_decide (fi_extension i ∈ ["csv"; "txt"; "parquet"])
  | _ => with_directory
  end.

Lemma filter_ext_bool {A} (f g : A → bool) (l : list A) :
  (∀ x, x ∈ l → f x = g x) → filter (λ x, f x = true) l = filter (λ x, g x = true) l.
Proof.
  induction l as [|x l IH]; intros Hl; [done|]. rewrite !filter_cons.
  rewrite IH by (intros y Hy; apply Hl; by right). by rewrite (Hl x) by by left.
Qed.

(** The listing of a directory is complete and sorted: every plain CSV,
    text or Parquet file, and every directory when these are asked for, is
    listed once, by path.  An extension is what follows the last dot of a name,
    so a compressed CSV file, whose extension is [gz], is never listed although
    the code names its double extension. *)
Theorem listing_takes_each_data_file prefix infos with_directory :
  (∀ i, i ∈ infos → Str.mem "." (fi_extension i) = false) →
  let l := filter_data_paths prefix infos with_directory in
  Sorted (λ a b, path_leb a b = true) l ∧
  l ≡ₚ (λ i, (prefix +:+ fi_path i, fi_type i))
         <$> filter (λ i, data_entry with_directory i = true) infos.
Proof.
  intros Hdot l. split; [apply filter_data_paths_sorted|].
  unfold l. rewrite filter_data_paths_perm. apply fmap_Permutation.
  rewrite (filter_ext_bool (listed with_directory) (data_entry with_directory)); [done|].
  intros i Hi. pose proof (Hdot i Hi) as Hd. unfold listed, data_entry.
  destruct (fi_type i); [done| |done]. apply bool_decide_ext. unfold accepted_extensions.
  rewrite !list_elem_of_In. simpl. split; [|naive_solver].
  intros [He|[He|[He|[He|[He|[]]]]]]; rewrite <- He in Hd |- *; try done; auto.
Qed.

Lemma listing_takes_each_data_file_witness :
  filter_data_paths "hdfs://h"
    [mkInfo "/d/b.csv" File "csv"; mkInfo "/d/x.csv.gz" File "gz"; mkInfo "/d/a.txt" File "txt"] false
  ≡ₚ [("hdfs://h/d/b.csv", File); ("hdfs://h/d/a.txt", File)].
Proof.
  destruct (listing_takes_each_data_file "hdfs://h"
    [mkInfo "/d/b.csv" File "csv"; mkInfo "/d/x.csv.gz" File "gz"; mkInfo "/d/a.txt" File "txt"] false)
    as [_ Hp]; [|exact Hp].
  intros i Hi. apply list_elem_of_In in Hi. simpl in Hi.
  by repeat (destruct Hi as [<-|Hi]; [done|]).
Defined.
