(* ===== verification/PsiDispatch.v ===== *)
(** * The dispatcher of the batch join

    [BlockDispatchActor] of psi_actors.py: it lists the input, hands out its
    blocks one after the other, keeps the status of every block and writes the
    joint output file.  Ray runs the calls to an actor one at a time. *)

From stdpp Require Import base tactics list gmap strings sorting.
From Stdlib Require Import ZArith Lia Ascii.
From S2P Require Import Prelude PyStd PsiFiles.

Open Scope Z_scope.

Inductive BlockStatus := INIT | PREPARED | PROCSSING | PROCESSED | FAILED.
#[export] Instance block_status_eq_dec : EqDecision BlockStatus.
Proof. solve_decision. Defined.

(** rows, feature values, null values *)
Definition counts : Type := Z * Z * Z.
Definition block_row : Type := BlockStatus * option counts * option counts.

(** [R]: what the blocks of a single file are, references to tables. *)
Record dispatcher (R : Type) := mkDispatcher {
  bd_data_protocol : option string;
  bd_base_path : string;
  bd_with_head : bool;
  bd_data_paths : list data_path;
  bd_data_format : option string;
  bd_data_block_count : Z;
  bd_data_blocks : list (option R);
  bd_data_status : list block_row;
  bd_data_type : FileType;
}.
Arguments mkDispatcher {R}.
Arguments bd_data_protocol {R}.
Arguments bd_base_path {R}.
Arguments bd_with_head {R}.
Arguments bd_data_paths {R}.
Arguments bd_data_format {R}.
Arguments bd_data_block_count {R}.
Arguments bd_data_blocks {R}.
Arguments bd_data_status {R}.
Arguments bd_data_type {R}.

(** What [get_next_unprocessed_data_and_use] returns with the index. *)
Inductive block_data (R : Type) := BRef (r : option R) | BPath (p : data_path).
Arguments BRef {R}.
Arguments BPath {R}.

Section setters.
Context {R : Type}.
Definition bd_set_protocol x (d : dispatcher R) : dispatcher R :=
  mkDispatcher x (bd_base_path d) (bd_with_head d) (bd_data_paths d) (bd_data_format d)
    (bd_data_block_count d) (bd_data_blocks d) (bd_data_status d) (bd_data_type d).
Definition bd_set_listing paths typ (d : dispatcher R) : dispatcher R :=
  mkDispatcher (bd_data_protocol d) (bd_base_path d) (bd_with_head d) paths (bd_data_format d)
    (bd_data_block_count d) (bd_data_blocks d) (bd_data_status d) typ.
Definition bd_set_format x (d : dispatcher R) : dispatcher R :=
  mkDispatcher (bd_data_protocol d) (bd_base_path d) (bd_with_head d) (bd_data_paths d) x
    (bd_data_block_count d) (bd_data_blocks d) (bd_data_status d) (bd_data_type d).
Definition bd_set_blocks x (d : dispatcher R) : dispatcher R :=
  mkDispatcher (bd_data_protocol d) (bd_base_path d) (bd_with_head d) (bd_data_paths d)
    (bd_data_format d) (bd_data_block_count d) x (bd_data_status d) (bd_data_type d).
Definition bd_set_status x (d : dispatcher R) : dispatcher R :=
  mkDispatcher (bd_data_protocol d) (bd_base_path d) (bd_with_head d) (bd_data_paths d)
    (bd_data_format d) (bd_data_block_count d) (bd_data_blocks d) x (bd_data_type d).
End setters.

Section dispatcher.
Context {R : Type} `{Arrow T} `{!FileSystem}.
Abbreviation S := (dispatcher R).

Definition new_dispatcher (base_path : string) (with_head : bool)
    (protocol format : option string) (count : Z) : S :=
  mkDispatcher protocol base_path with_head []
    (match format with Some "" | None => None | Some f => Some (lower f) end)
    count [] [] File.

Definition is_data_single_file (d : S) : bool := bool_decide (bd_data_type d = File).

Definition prepare_data_protocol_and_format : M S unit :=
  d ← getM;
  let infered_protocol := infer_protocol (bd_base_path d) in
  (match bd_data_protocol d with
   | None | Some "" => mret tt
   | Some p =>
       let ind_protocol := lower p in
       require (bool_decide (ind_protocol ∈ ["hdfs"; "nfs"; "http"])) ValueError;;
       require (bool_decide (ind_protocol = infered_protocol)) ValueError
   end);;
  modify (bd_set_protocol (Some infered_protocol)).

(** [data_paths.sort()]: lists sort by their elements, a string and a list
    cannot be compared. *)
Fixpoint list_leb (a b : list string) : bool :=
  match a, b with
  | [], _ => true
  | _, [] => false
  | x :: a', y :: b' => if bool_decide (x = y) then list_leb a' b' else Str.leb x y
  end.
Fixpoint all_strs (l : list data_path) : option (list string) :=
  match l with
  | [] => Some []
  | PStr s :: l' => cons s <$> all_strs l'
  | PList _ :: _ => None
  end.
Fixpoint all_lists (l : list data_path) : option (list (list string)) :=
  match l with
  | [] => Some []
  | PList s :: l' => cons s <$> all_lists l'
  | PStr _ :: _ => None
  end.
Definition sort_paths (l : list data_path) : outcome (list data_path) :=
  match all_strs l with
  | Some ss => Ret (PStr <$> py_sort Str.leb ss)
  | None =>
      match all_lists l with
      | Some ls => Ret (PList <$> py_sort list_leb ls)
      | None => raise TypeError
      end
  end.

(** The format of the first path; the list of paths must not be empty. *)
Definition first_path : M S data_path :=
  ps ← gets bd_data_paths;
  match ps with [] => raiseM ValueError | p :: _ => mret p end.
Definition format_if_str (p : data_path) : M S unit :=
  match p with PStr s => modify (bd_set_format (Some (infer_format s))) | PList _ => mret tt end.
Definition format_if_list (p : data_path) : M S unit :=
  match p with
  | PStr _ => mret tt
  | PList (s :: _) => modify (bd_set_format (Some (infer_format s)))
  | PList [] => raiseM IndexError
  end.
Definition sort_data_paths : M S unit :=
  d ← getM;
  ps ← liftO (sort_paths (bd_data_paths d));
  modify (bd_set_listing ps (bd_data_type d)).

Definition init_status : M S unit :=
  modify (λ d, bd_set_status
    (replicate (if is_data_single_file d then Z.to_nat (bd_data_block_count d)
                else length (bd_data_paths d)) (INIT, None, None)) d).

Definition init_data_path_and_format_with_hdfs : M S unit :=
  d ← getM;
  '(net, path) ← liftO (urlparse_hdfs (bd_base_path d));
  (match get_file_type net path with
   | File => modify (bd_set_listing [PStr path] File)
   | _ =>
       ps ← liftO (refetch_if_has_directory (default "" (bd_data_protocol d))
                     (filter_data_paths net (list_files net path false) true));
       modify (bd_set_listing ps Directory)
   end);;
  p ← first_path;
  (match p with PStr _ => format_if_str p;; sort_data_paths | PList _ => mret tt end);;
  p' ← first_path;
  format_if_list p';;
  init_status.

Definition init_data_path_and_format_with_locals : M S unit :=
  d ← getM;
  (match get_file_type "" (bd_base_path d) with
   | File => modify (bd_set_listing [PStr (bd_base_path d)] File)
   | _ =>
       ps ← liftO (refetch_if_has_directory (default "" (bd_data_protocol d))
                     (filter_data_paths "" (list_files "" (bd_base_path d) false) true));
       modify (bd_set_listing ps Directory)
   end);;
  p ← first_path;
  format_if_str p;;
  format_if_list p;;
  sort_data_paths;;
  init_status.

Definition init_data_path_and_format_with_http : M S unit := raiseM ValueError.

Definition init_data_path_and_format : M S unit :=
  p ← gets bd_data_protocol;
  if bool_decide (p = Some "hdfs") then init_data_path_and_format_with_hdfs
  else if bool_decide (p = Some "http") then init_data_path_and_format_with_http
  else init_data_path_and_format_with_locals.

Definition init_data : M S unit :=
  prepare_data_protocol_and_format;; init_data_path_and_format.

Definition update_blocks (data_blocks : list (option R)) : M S unit :=
  modify (bd_set_blocks data_blocks).
Definition get_data_protocol : M S (option string) := gets bd_data_protocol.
Definition get_data_format : M S (option string) := gets bd_data_format.
Definition get_data_type : M S FileType := gets bd_data_type.
Definition get_data_block_count : M S Z := gets (λ d, zlen (bd_data_status d)).

(** The totals of the blocks with counts. *)
Definition add_counts (a : counts) (o : option counts) : counts :=
  match o with
  | Some (r, f, n) => let '(r0, f0, n0) := a in (r0 + r, f0 + f, n0 + n)
  | None => a
  end.
Definition get_results (d : S) : counts * counts :=
  fold_left (λ acc e, (add_counts acc.1 e.1.2, add_counts acc.2 e.2))
    (bd_data_status d) ((0, 0, 0), (0, 0, 0)).

Definition find_init (l : list block_row) : option nat :=
  fst <$> list_find (λ r : block_row, r.1.1 = INIT) l.

Definition get_next_unprocessed_data_and_use : M S (option (Z * block_data R)) :=
  d ← getM;
  match find_init (bd_data_status d) with
  | None => mret None
  | Some i =>
      modify (bd_set_status (alter (λ r : block_row, (PREPARED, r.1.2, r.2)) i (bd_data_status d)));;
      if is_data_single_file d then
        data ← liftO (py_index (bd_data_blocks d) (Z.of_nat i));
        modify (λ d, bd_set_blocks (<[i := None]> (bd_data_blocks d)) d);;
        mret (Some (Z.of_nat i, BRef data))
      else
        p ← liftO (py_index (bd_data_paths d) (Z.of_nat i));
        mret (Some (Z.of_nat i, BPath p))
  end.

Definition change_data_status (block_id : Z) (status : BlockStatus)
    (original_data_status joined_data_status : option counts) : M S unit :=
  d ← getM;
  require (negb ((block_id <? 0) || (zlen (bd_data_status d) <=? block_id))) ValueError;;
  modify (bd_set_status (<[Z.to_nat block_id := (status, original_data_status,
                                                 joined_data_status)]> (bd_data_status d))).

(** The tables of the blocks in order; the header is written with block 0. *)
Fixpoint write_outputs (hdfs global_head : bool) (i : nat) (l : list (option T))
    (output_dir csv_delimiter : string) : M outputs unit :=
  match l with
  | [] => mret tt
  | None :: l' => write_outputs hdfs global_head (Datatypes.S i) l' output_dir csv_delimiter
  | Some data_output :: l' =>
      let append := negb (Nat.eqb i 0) in
      let with_head := Nat.eqb i 0 && global_head in
      (if hdfs then write_data_to_hdfs data_output output_dir append with_head csv_delimiter
       else write_data_to_file data_output output_dir append with_head csv_delimiter);;
      write_outputs hdfs global_head (Datatypes.S i) l' output_dir csv_delimiter
  end.
(** [ray.get] of a list that holds [None] raises. *)
Fixpoint get_refs (l : list (option T)) : outcome (list T) :=
  match l with
  | [] => Ret []
  | None :: _ => raise ValueError
  | Some t :: l' => ts ← get_refs l'; Ret (t :: ts)
  end.
Definition output_single_output_file (d : S) (data_output_refs : list (option T))
    (output_dir csv_delimiter : string) : M outputs unit :=
  match data_output_refs with
  | [] => mret tt
  | _ =>
      let hdfs := bool_decide (infer_protocol output_dir = "hdfs") in
      if bool_decide (bd_data_format d ∈ [Some "parquet"; Some "gz.parquet"]) then
        data_outputs ← liftO (get_refs data_output_refs);
        all_table ← liftO (concat_tables data_outputs);
        if hdfs then write_data_to_hdfs all_table output_dir false (bd_with_head d) csv_delimiter
        else write_data_to_file all_table output_dir false (bd_with_head d) csv_delimiter
      else write_outputs hdfs (bd_with_head d) 0 data_output_refs output_dir csv_delimiter
  end.
End dispatcher.

(** ** The order of the blocks *)
Section order.
Context {R : Type}.
Abbreviation S := (dispatcher R).

(** The calls the dispatcher gets once its data are set up. *)
Inductive event :=
  | Next
  | Report (block_id : Z) (status : BlockStatus) (orig joined : option counts).

Fixpoint play (evs : list event) : M S (list (option (Z * block_data R))) :=
  match evs with
  | [] => mret []
  | Next :: evs' =>
      r ← get_next_unprocessed_data_and_use; rs ← play evs'; mret (r :: rs)
  | Report b s o j :: evs' =>
      catchM (change_data_status b s o j) (λ _, mret tt);; play evs'
  end.

(** Only blocks that were handed out are reported on, and never as new. *)
Fixpoint well_reported (k : nat) (evs : list event) : Prop :=
  match evs with
  | [] => True
  | Next :: evs' => well_reported (k + 1) evs'
  | Report b s _ _ :: evs' => 0 ≤ b < Z.of_nat k ∧ s ≠ INIT ∧ well_reported k evs'
  end.
Definition nexts (evs : list event) : nat :=
  length (filter (λ e, match e with Next => true | _ => false end = true) evs).

Definition content (d : S) (i : nat) : option (block_data R) :=
  if is_data_single_file d then BRef <$> bd_data_blocks d !! i else BPath <$> bd_data_paths d !! i.
Definition answer (n : nat) (f : nat → option (block_data R)) (k : nat)
    : option (Z * block_data R) :=
  if (k <? n)%nat then (λ x, (Z.of_nat k, x)) <$> f k else None.

(** The first [k] of [n] blocks are handed out. *)
Record handed (n k : nat) (f : nat → option (block_data R)) (d : S) : Prop := mkHanded {
  hd_length : length (bd_data_status d) = n;
  hd_init i (r : block_row) : bd_data_status d !! i = Some r → r.1.1 = INIT ↔ (k ≤ i)%nat;
  hd_content i : (k ≤ i < n)%nat → is_Some (f i) ∧ content d i = f i;
}.

Lemma find_init_spec n k f d :
  handed n k f d → find_init (bd_data_status d) = if (k <? n)%nat then Some k else None.
Proof.
  intros [Hlen Hinit _]. unfold find_init. destruct (Nat.ltb_spec k n) as [Hk|Hk].
  - destruct (lookup_lt_is_Some_2 (bd_data_status d) k) as [r Hr]; [lia|].
    apply fmap_Some. exists (k, r). split; [|done]. apply list_find_Some. split; [done|].
    split; [by apply (Hinit k r)|]. intros j y Hj Hlt Hy.
    apply (Hinit j y Hj) in Hy. lia.
  - apply fmap_None, list_find_None, Forall_lookup. intros i r Hr Hi.
    apply (Hinit i r Hr) in Hi. apply lookup_lt_Some in Hr. lia.
Qed.

Lemma py_index_lookup {A} (l : list A) (i : nat) x :
  l !! i = Some x → py_index l (Z.of_nat i) = Ret x.
Proof.
  intros Hx. unfold py_index. rewrite (proj2 (Z.ltb_ge (Z.of_nat i) 0)) by lia.
  rewrite (proj2 (Z.ltb_ge (Z.of_nat i) 0)) by lia. by rewrite Nat2Z.id, Hx.
Qed.

Lemma next_run n k f d :
  handed n k f d →
  ∃ d', get_next_unprocessed_data_and_use d = (Ret (answer n f k), d') ∧
    handed n (if (k <? n)%nat then k + 1 else k) f d' ∧
    bd_data_status d' = (if (k <? n)%nat then alter (λ r : block_row, (PREPARED, r.1.2, r.2)) k (bd_data_status d)
                         else bd_data_status d) ∧
    bd_data_type d' = bd_data_type d ∧ bd_data_format d' = bd_data_format d ∧
    bd_with_head d' = bd_with_head d.
Proof.
  intros Hh. pose proof (find_init_spec n k f d Hh) as Hfind.
  destruct Hh as [Hlen Hinit Hcont].
  unfold get_next_unprocessed_data_and_use. rewrite run_bind. cbn [getM]. rewrite Hfind.
  unfold answer. destruct (Nat.ltb_spec k n) as [Hk|Hk].
  2:{ exists d. split; [done|]. split; [by split|done]. }
  destruct (Hcont k) as [[x Hx] Hc]; [lia|]. rewrite Hx in Hc |- *.
  rewrite run_bind. cbn [modify]. unfold content in Hc.
  assert (∀ i r, alter (λ r : block_row, (PREPARED, r.1.2, r.2)) k (bd_data_status d) !! i = Some r →
            r.1.1 = INIT ↔ (k + 1 ≤ i)%nat) as Hinit'.
  { intros i r Hi. destruct (decide (i = k)) as [->|Hne].
    - rewrite list_lookup_alter_eq in Hi. apply fmap_Some in Hi as (r0 & _ & ->).
      simpl. split; [done|lia].
    - rewrite list_lookup_alter_ne in Hi by done. rewrite (Hinit i r Hi). lia. }
  destruct (is_data_single_file d) eqn:Es.
  - apply fmap_Some in Hc as (y & Hy & ->).
    rewrite run_bind. unfold liftO. cbn [bd_data_blocks bd_set_status].
    rewrite (py_index_lookup _ _ _ Hy), run_bind. cbn [modify].
    eexists. split; [reflexivity|]. split; [|done]. split.
    + simpl. by rewrite length_alter.
    + exact Hinit'.
    + intros i Hi. destruct (Hcont i) as [Hs Hci]; [lia|]. split; [done|].
      rewrite <- Hci. unfold content, is_data_single_file in *. simpl. rewrite Es.
      by rewrite list_lookup_insert_ne by lia.
  - apply fmap_Some in Hc as (y & Hy & ->).
    rewrite run_bind. unfold liftO. cbn [bd_data_paths bd_set_status].
    rewrite (py_index_lookup _ _ _ Hy).
    eexists. split; [reflexivity|]. split; [|done]. split.
    + simpl. by rewrite length_alter.
    + exact Hinit'.
    + intros i Hi. destruct (Hcont i) as [Hs Hci]; [lia|]. split; [done|].
      rewrite <- Hci. unfold content, is_data_single_file in *. simpl. by rewrite Es.
Qed.

Lemma report_run (d : S) b s o j :
  0 ≤ b < zlen (bd_data_status d) →
  change_data_status b s o j d
  = (Ret tt, bd_set_status (<[Z.to_nat b := (s, o, j)]> (bd_data_status d)) d).
Proof.
  intros Hb. unfold change_data_status. rewrite run_bind. cbn [getM].
  rewrite (proj2 (Z.ltb_ge b 0)) by lia. rewrite (proj2 (Z.leb_gt _ b)) by lia. done.
Qed.

Lemma report_handed n k f d b s o j :
  handed n k f d → 0 ≤ b < Z.of_nat k → s ≠ INIT → (k ≤ n)%nat →
  handed n k f (bd_set_status (<[Z.to_nat b := (s, o, j)]> (bd_data_status d)) d).
Proof.
  intros [Hlen Hinit Hcont] Hb Hs Hk. split.
  - simpl. by rewrite length_insert.
  - simpl. intros i r Hi. destruct (decide (i = Z.to_nat b)) as [->|Hne].
    + rewrite list_lookup_insert_eq in Hi by lia. injection Hi as <-. simpl. split; [done|lia].
    + rewrite list_lookup_insert_ne in Hi by done. by apply Hinit.
  - intros i Hi. exact (Hcont i Hi).
Qed.

Lemma play_run n f evs : ∀ k d,
  handed n (k `min` n) f d → well_reported k evs →
  ∃ d', play evs d = (Ret (answer n f <$> seq k (nexts evs)), d').
Proof.
  induction evs as [|[|b s o j] evs IH]; intros k d Hh Hw; simpl in Hw.
  - by exists d.
  - destruct (next_run n (k `min` n) f d Hh) as (d' & Hrun & Hh' & _). cbn [play].
    rewrite (run_bind_ret _ _ _ _ _ Hrun).
    assert (answer n f (k `min` n) = answer n f k) as ->.
    { unfold answer. destruct (Nat.ltb_spec (k `min` n) n), (Nat.ltb_spec k n); try lia; [|done].
      by rewrite Nat.min_l by lia. }
    destruct (IH (k + 1)%nat d') as [d'' Hp]; [|done|].
    { destruct (Nat.ltb_spec (k `min` n) n).
      - replace ((k + 1) `min` n)%nat with (k `min` n + 1)%nat by lia. done.
      - replace ((k + 1) `min` n)%nat with (k `min` n)%nat by lia. done. }
    exists d''. rewrite (run_bind_ret _ _ _ _ _ Hp). cbn. by rewrite Nat.add_1_r.
  - destruct Hw as (Hb & Hs & Hw). cbn [play]. rewrite run_bind. unfold catchM.
    pose proof (hd_length _ _ _ _ Hh) as Hlen.
    destruct (decide (b < Z.of_nat n)).
    + rewrite report_run by (unfold zlen; lia).
      apply IH; [apply report_handed; try done; lia|done].
    + unfold change_data_status. rewrite run_bind. cbn [getM].
      rewrite (proj2 (Z.ltb_ge b 0)) by lia.
      rewrite (proj2 (Z.leb_le (zlen (bd_data_status d)) b)) by (unfold zlen; lia). cbn.
      by apply IH.
Qed.
End order.

(** ** Sorted lists *)
Lemma py_sort_id {A} (leb : A → A → bool) (l : list A) :
  Sorted (λ a b, leb a b = true) l → py_sort leb l = l.
Proof.
  induction 1 as [|x l Hs IH Hhd]; [done|]. unfold py_sort in *. simpl. rewrite IH.
  destruct Hhd as [|y l Hxy]; [done|]. simpl. by rewrite Hxy.
Qed.
Lemma sorted_paths (l : list (string * FileType)) :
  Sorted (λ a b, path_leb a b = true) l → Sorted (λ a b, Str.leb a b = true) l.*1.
Proof.
  induction 1 as [|x l Hs IH Hhd]; simpl; constructor; [done|].
  destruct Hhd as [|y l Hxy]; by constructor.
Qed.

Lemma all_strs_strs l : all_strs (PStr <$> l) = Some l.
Proof. induction l as [|x l IH]; [done|]. cbn. by rewrite IH. Qed.
Lemma all_strs_none l x : PList x ∈ l → all_strs l = None.
Proof.
  induction l as [|[s|s] l IH]; intros Hx; [by apply elem_of_nil in Hx| |done].
  apply elem_of_cons in Hx as [Hx|Hx]; [done|]. cbn. by rewrite IH.
Qed.
Lemma all_lists_none l x : PStr x ∈ l → all_lists l = None.
Proof.
  induction l as [|[s|s] l IH]; intros Hx; [by apply elem_of_nil in Hx|done|].
  apply elem_of_cons in Hx as [Hx|Hx]; [done|]. cbn. by rewrite IH.
Qed.
Lemma sort_paths_mixed l x y : PStr x ∈ l → PList y ∈ l → sort_paths l = raise TypeError.
Proof.
  intros Hx Hy. unfold sort_paths.
  by rewrite (all_strs_none l y), (all_lists_none l x).
Qed.

Lemma sort_paths_sorted l :
  Sorted (λ a b, Str.leb a b = true) l → sort_paths (PStr <$> l) = Ret (PStr <$> l).
Proof. intros Hl. unfold sort_paths. by rewrite all_strs_strs, py_sort_id. Qed.
Lemma sort_data_paths_run {R} (d : dispatcher R) ps :
  sort_paths (bd_data_paths d) = Ret ps →
  sort_data_paths d = (Ret tt, bd_set_listing ps (bd_data_type d) d).
Proof.
  intros Hp. unfold sort_data_paths. rewrite run_bind. cbn [getM].
  unfold liftO. by rewrite run_bind, Hp.
Qed.
Lemma sort_data_paths_stop {R} (d : dispatcher R) e :
  sort_paths (bd_data_paths d) = raise e → sort_data_paths d = (raise e, d).
Proof.
  intros Hp. unfold sort_data_paths. rewrite run_bind. cbn [getM].
  unfold liftO. by rewrite run_bind, Hp.
Qed.

#[local] Arguments sort_data_paths : simpl never.

Section listing.
Context {R : Type} `{!FileSystem}.

(** The entries of a local directory that are listed. *)
Definition entries (d : dispatcher R) : list (string * FileType) :=
  filter_data_paths "" (list_files "" (bd_base_path d) false) true.

Lemma prepare_run (d : dispatcher R) :
  bd_data_protocol d = None →
  prepare_data_protocol_and_format d
  = (Ret tt, bd_set_protocol (Some (infer_protocol (bd_base_path d))) d).
Proof.
  intros Hp. unfold prepare_data_protocol_and_format. rewrite run_bind. cbn [getM].
  by rewrite Hp.
Qed.

Definition local_directory (d : dispatcher R) : Prop :=
  bd_data_protocol d = None ∧ infer_protocol (bd_base_path d) = "nfs" ∧
  get_file_type "" (bd_base_path d) = Directory.

Lemma local_run (d : dispatcher R) :
  local_directory d →
  ∃ ps, refetch_if_has_directory "nfs" (entries d) = Ret ps ∧
    init_data d
    = (p ← first_path; format_if_str p;; format_if_list p;; sort_data_paths;; init_status)
        (bd_set_listing ps Directory (bd_set_protocol (Some "nfs") d)).
Proof.
  intros (Hp & Hi & Ht). destruct (refetch_local (entries d)) as [ps Hps].
  exists ps. split; [done|]. unfold init_data. rewrite run_bind, prepare_run by done.
  rewrite Hi. unfold init_data_path_and_format. rewrite run_bind. cbn [gets bd_data_protocol bd_set_protocol].
  rewrite bool_decide_false, bool_decide_false by done.
  unfold init_data_path_and_format_with_locals. rewrite run_bind. cbn [getM bd_base_path bd_set_protocol].
  rewrite Ht, run_bind, run_bind. unfold liftO. cbn [bd_data_protocol bd_set_protocol default].
  unfold entries in Hps. simpl default. change (id "nfs") with "nfs". by rewrite Hps.
Qed.

(** A local file: its format, and as many new blocks as buckets. *)
Lemma local_file_run (d : dispatcher R) :
  bd_data_protocol d = None → infer_protocol (bd_base_path d) = "nfs" →
  get_file_type "" (bd_base_path d) = File →
  ∃ d', init_data d = (Ret tt, d') ∧ bd_data_protocol d' = Some "nfs" ∧
    bd_data_format d' = Some (infer_format (bd_base_path d)) ∧ bd_with_head d' = bd_with_head d ∧
    bd_data_type d' = File ∧
    bd_data_status d' = replicate (Z.to_nat (bd_data_block_count d)) (INIT, None, None).
Proof.
  intros Hp Hi Ht. unfold init_data. rewrite run_bind, prepare_run by done.
  rewrite Hi. unfold init_data_path_and_format. rewrite run_bind.
  cbn [gets bd_data_protocol bd_set_protocol].
  rewrite bool_decide_false, bool_decide_false by done.
  unfold init_data_path_and_format_with_locals. rewrite run_bind.
  cbn [getM bd_base_path bd_set_protocol]. rewrite Ht, run_bind. cbn [modify].
  set (d1 := bd_set_format (Some (infer_format (bd_base_path d)))
               (bd_set_listing [PStr (bd_base_path d)] File (bd_set_protocol (Some "nfs") d))).
  eexists. split; [exact (run_bind_ret _ (λ _, init_status) d1 _ tt
                            (sort_data_paths_run d1 [PStr (bd_base_path d)] eq_refl))|].
  done.
Qed.
End listing.

(** ** Properties *)
Section properties.
Context {R : Type}.

(** Every block is handed out once, in order: when all blocks of a set-up
    dispatcher are new, then whatever reports on handed-out blocks come in
    between, the [k]-th request is answered with block [k] and its table or
    path, and with nothing when there are no more blocks. *)
Theorem blocks_are_handed_out_in_order (d : dispatcher R) n evs :
  bd_data_status d = replicate n (INIT, None, None) →
  (∀ i, (i < n)%nat → is_Some (content d i)) →
  well_reported 0 evs →
  (play evs d).1 = Ret (answer n (content d) <$> seq 0 (nexts evs)).
Proof.
  intros Hs Hc Hw. destruct (play_run n (content d) evs 0 d) as [d' ->]; [|done|done].
  split.
  - by rewrite Hs, length_replicate.
  - intros i r Hr. rewrite Hs in Hr. apply lookup_replicate in Hr as [-> _].
    split; [intros _; simpl; lia|done].
  - intros i Hi. split; [apply Hc; lia|done].
Qed.

(** The input of a local directory: nothing to process is an error; a
    directory of data files gives one new block per file, in the order of
    their names; a directory that has a sub-directory beside data files is
    refused by an exception of the sort. *)
Theorem local_directory_is_listed `{!FileSystem} (d : dispatcher R) :
  local_directory d →
  (entries d = [] → (init_data d).1 = raise ValueError) ∧
  (∀ p l, entries d = p :: l → Forall (λ e, e.2 = File) (entries d) →
     ∃ d', init_data d = (Ret tt, d') ∧ bd_data_paths d' = PStr <$> (entries d).*1 ∧
       Sorted (λ a b, Str.leb a b = true) (entries d).*1 ∧
       bd_data_status d' = replicate (length (entries d)) (INIT, None, None) ∧
       bd_data_format d' = Some (infer_format p.1) ∧ bd_data_type d' = Directory) ∧
  (∀ p q, p ∈ entries d → p.2 = File → q ∈ entries d → q.2 ≠ File →
     ∃ e, (init_data d).1 = raise e).
Proof.
  intros Hl. destruct (local_run d Hl) as (ps & Hps & Hrun). split; [|split].
  - intros He. rewrite He in Hps. injection Hps as <-. by rewrite Hrun.
  - intros p l He Hall. rewrite refetch_files in Hps by done. injection Hps as <-.
    assert (Sorted (λ a b, Str.leb a b = true) (entries d).*1) as Hsort
      by apply sorted_paths, filter_data_paths_sorted.
    set (d1 := bd_set_format (Some (infer_format p.1))
                 (bd_set_listing (PStr <$> (entries d).*1) Directory
                    (bd_set_protocol (Some "nfs") d))).
    assert (init_data d = (sort_data_paths;; init_status) d1) as ->
      by (rewrite Hrun; unfold d1; by rewrite He).
    rewrite run_bind, (sort_data_paths_run d1 _ (sort_paths_sorted _ Hsort)).
    eexists. split; [reflexivity|]. cbn. by rewrite !length_fmap.
  - intros p q Hp Hpf Hq Hqf. rewrite Hrun.
    pose proof (refetch_kinds _ _ Hps) as Hk.
    assert (PStr p.1 ∈ ps) as Hstr.
    { apply list_elem_of_lookup in Hp as [i Hi]. destruct (Forall2_lookup_l _ _ _ _ _ Hk Hi) as (y & Hy & He).
      rewrite Hpf in He. subst y. by apply list_elem_of_lookup_2 in Hy. }
    assert (∃ s, PList s ∈ ps) as [s Hlist].
    { apply list_elem_of_lookup in Hq as [i Hi]. destruct (Forall2_lookup_l _ _ _ _ _ Hk Hi) as (y & Hy & He).
      destruct (q.2) eqn:E; [|done|]; destruct He as [s ->]; exists s;
        by apply list_elem_of_lookup_2 in Hy. }
    pose proof (sort_paths_mixed ps _ _ Hstr Hlist) as Hsort.
    set (d1 := bd_set_listing ps Directory (bd_set_protocol (Some "nfs") d)) in *.
    assert (∀ f, ((sort_data_paths;; init_status) (bd_set_format f d1)).1 = raise TypeError) as Hst.
    { intros f. by rewrite run_bind, (sort_data_paths_stop (bd_set_format f d1) TypeError). }
    destruct ps as [|[x|[|x xs]] ps]; [by apply elem_of_nil in Hstr| |by eexists|];
      exists TypeError; exact (Hst (Some (infer_format x))).
Qed.
End properties.

Section witnesses.
#[local] Instance dir_fs : FileSystem := {|
  get_file_type _ _ := Directory;
  list_files _ p _ :=
    if bool_decide (p = "mixed") then [mkInfo "a.csv" File "csv"; mkInfo "b" Directory ""]
    else if bool_decide (p = "data")
    then [mkInfo "b.csv" File "csv"; mkInfo "c.csv.gz" File "gz"; mkInfo "a.csv" File "csv"]
    else [];
  input_stream _ _ := None;
|}.
Definition listing_of (path : string) : dispatcher string := new_dispatcher path true None None 1.
Definition two_blocks : dispatcher string :=
  mkDispatcher (Some "nfs") "x.csv" true [] (Some "csv") 2 [Some "t0"; Some "t1"]
    (replicate 2 (INIT, None, None)) File.

Lemma blocks_are_handed_out_in_order_witness :
  (play [Next; Report 0 PROCSSING None None; Next;
         Report 1 PROCESSED (Some (3, 0, 0)) (Some (1, 0, 0)); Next] two_blocks).1
  = Ret [Some (0, BRef (Some "t0")); Some (1, BRef (Some "t1")); None].
Proof.
  etrans; [apply (blocks_are_handed_out_in_order two_blocks 2)|reflexivity].
  - reflexivity.
  - intros [|[|i]] Hi; [by eexists|by eexists|lia].
  - by repeat split.
Defined.

Lemma local_directory_is_listed_witness :
  (∃ d', init_data (listing_of "data") = (Ret tt, d') ∧
     bd_data_paths d' = [PStr "a.csv"; PStr "b.csv"]) ∧
  (∃ e, (init_data (listing_of "mixed")).1 = raise e) ∧
  (init_data (listing_of "empty")).1 = raise ValueError.
Proof.
  assert (∀ p, infer_protocol p = "nfs" → local_directory (listing_of p)) as Hl by done.
  split; [|split].
  - destruct (local_directory_is_listed (listing_of "data") (Hl "data" eq_refl)) as (_ & H & _).
    destruct (H ("a.csv", File) [("b.csv", File)]) as (d' & Hd & Hp & _);
      [by vm_compute|by repeat constructor|].
    exists d'. split; [done|]. rewrite Hp. by vm_compute.
  - destruct (local_directory_is_listed (listing_of "mixed") (Hl "mixed" eq_refl)) as (_ & _ & H).
    apply (H ("a.csv", File) ("b", Directory)); try done; apply list_elem_of_In; vm_compute; auto.
  - destruct (local_directory_is_listed (listing_of "empty") (Hl "empty" eq_refl)) as (H & _).
    apply H. by vm_compute.
Defined.
End witnesses.
