(* ===== verification/PsiActor.v ===== *)
(** * The workers of the batch join

    The hash columns, the bucket split and [PsiPirActor] of psi_actors.py.
    blake2b and struct.pack are parameters; the intersection of a block with the
    peer's block is one too, [do_psi], which PsiFlow models. *)

From stdpp Require Import base tactics list gmap strings.
From Stdlib Require Import ZArith Lia Ascii.
From S2P Require Import Prelude PyStd PsiFiles PsiDispatch.

Open Scope Z_scope.

(** [hashlib.blake2b(digest_size=n)], updated with the data: the digest. *)
Class Blake := { blake2b : Z → string → string }.

Definition STATIC_HASHED_VALUE_COLUMN_NAMES : string := "___hashed_id".
Definition STATIC_HASHED_MOD_VALUE_COLUMN_NAMES : string := "___hashed_mod_id".

Inductive JoinType := PSI | PIR.
Inductive RoleType := SENDER | RECEIVER.
#[export] Instance join_type_eq_dec : EqDecision JoinType.
Proof. solve_decision. Defined.
#[export] Instance role_type_eq_dec : EqDecision RoleType.
Proof. solve_decision. Defined.

(** [x.to_bytes(8, byteorder='big', signed=False)] *)
Fixpoint be_bytes (n : nat) (z : Z) : string :=
  match n with
  | O => EmptyString
  | S n' => be_bytes n' (z / 256) +:+ String (ascii_of_N (Z.to_N (z mod 256))) EmptyString
  end.
Definition to_bytes8 (z : Z) : outcome string :=
  if in_uint64 z then Ret (be_bytes 8 z) else raise OverflowError.

(** [int(bytes.hex(x), 16)]; the empty string is no number. *)
Fixpoint be_value (acc : Z) (s : string) : Z :=
  match s with
  | EmptyString => acc
  | String c s' => be_value (256 * acc + Z.of_N (N_of_ascii c)) s'
  end.
Definition int_of_hex (s : string) : outcome Z :=
  match s with EmptyString => raise ValueError | _ => Ret (be_value 0 s) end.

(** [x % n] for [n] not zero has the sign of [n], as [Z.modulo] has. *)
Definition py_mod (x n : Z) : Z := x mod n.

Fixpoint map_outcome {A B} (f : A → outcome B) (l : list A) : outcome (list B) :=
  match l with
  | [] => Ret []
  | x :: l' => y ← f x; ys ← map_outcome f l'; Ret (y :: ys)
  end.

(** A column name, or a column index. *)
Inductive column_ref := ByName (s : string) | ByIndex (z : Z).

Section columns.
Context `{Arrow T}.

Definition has_column_by_name (data : T) (name : string) : bool :=
  bool_decide (name ∈ column_names data).
Definition get_column_name_by_index (data : T) (i : Z) : outcome string :=
  py_index (column_names data) i.
Definition get_actual_column_name (data : T) (c : column_ref) (added_columns : Z) : outcome string :=
  match c with
  | ByIndex i => get_column_name_by_index data (i + added_columns)
  | ByName s => Ret s
  end.
End columns.

(** [_convert_string_to_large_string]: the schema is set field by field; a field is
    compared as it was before. *)
Section large.
Context `{Arrow T}.

Fixpoint convert_fields (field_inds : list nat) (ori_schema : schema) : outcome schema :=
  match field_inds with
  | [] => Ret ori_schema
  | field_ind :: inds =>
      match ori_schema !! field_ind with
      | None => raise IndexError
      | Some (name, type) =>
          let s1 := if bool_decide (type = TString)
                    then <[field_ind := (name, TLargeString)]> ori_schema else ori_schema in
          let s2 := if bool_decide (type = TBinary)
                    then <[field_ind := (name, TLargeBinary)]> s1 else s1 in
          convert_fields inds s2
      end
  end.
Definition convert_string_to_large_string (ori_table : T) : outcome T :=
  s ← convert_fields (seq 0 (length (column_names ori_table))) (schema_of ori_table);
  cast s ori_table.

Lemma convert_fields_spec s2 s1 :
  convert_fields (seq (length s1) (length s2)) (s1 ++ s2) = Ret (s1 ++ (prod_map id large <$> s2)).
Proof.
  revert s1. induction s2 as [|[n ty] s2 IH]; intros s1; [done|].
  cbn [length seq convert_fields fmap list_fmap]. rewrite list_lookup_middle by done.
  assert (∀ f : string * arrow_type, <[length s1 := f]> (s1 ++ (n, ty) :: s2) = s1 ++ f :: s2) as Hi.
  { intros f. rewrite <- (Nat.add_0_r (length s1)). by rewrite insert_app_r. }
  assert (∀ f : string * arrow_type, s1 ++ f :: s2 = (s1 ++ [f]) ++ s2) as Ha
    by (intros f; by rewrite <- (assoc_L (++))).
  assert (∀ f : string * arrow_type, S (length s1) = length (s1 ++ [f])) as Hl
    by (intros f; rewrite length_app; cbn; lia).
  assert (∀ f : string * arrow_type, convert_fields (seq (S (length s1)) (length s2)) (s1 ++ f :: s2)
    = Ret (s1 ++ f :: (prod_map id large <$> s2))) as Hgo.
  { intros f. rewrite Ha, (Hl f), IH. by rewrite <- (assoc_L (++)). }
  destruct ty; repeat (rewrite bool_decide_true by done || rewrite bool_decide_false by done);
    rewrite ?Hi; apply Hgo.
Qed.
End large.

Section large_strings.
Context `{ArrowLaws T}.

(** The conversion keeps the values, and leaves no column with narrow offsets. *)
Lemma large_strings_keep_the_rows (t : T) :
  ∃ t', convert_string_to_large_string t = Ret t' ∧ rows_of t' = rows_of t ∧
    schema_of t' = prod_map id large <$> schema_of t ∧ column_names t' = column_names t.
Proof.
  destruct (cast_large t) as (t' & Hc & Hr). exists t'.
  assert (convert_string_to_large_string t = Ret t') as Ht.
  { unfold convert_string_to_large_string. rewrite <- schema_names, length_fmap.
    pose proof (convert_fields_spec (schema_of t) []) as Hf. cbn [length app] in Hf.
    by rewrite Hf, bind_Ret. }
  destruct (cast_schema _ _ _ Hc) as [Hs _]. split_and!; try done.
  rewrite <- !schema_names, Hs, <- list_fmap_compose. by apply list_fmap_ext.
Qed.
Lemma large_strings_once (t t' : T) :
  convert_string_to_large_string t = Ret t' →
  ∃ t'', convert_string_to_large_string t' = Ret t'' ∧ schema_of t'' = schema_of t' ∧ rows_of t'' = rows_of t'.
Proof.
  intros Hc. destruct (large_strings_keep_the_rows t) as (t1 & Hc1 & _ & Hs1 & _).
  rewrite Hc in Hc1. injection Hc1 as <-.
  destruct (large_strings_keep_the_rows t') as (t2 & Hc2 & Hr2 & Hs2 & _).
  exists t2. split_and!; try done. rewrite Hs2, Hs1, <- list_fmap_compose.
  apply list_fmap_ext. by intros i [n []] _.
Qed.
End large_strings.

Section hashing.
Context `{Blake} `{Arrow T}.

Definition hash16 (b : string) : string := blake2b 16 b.

(** An element that is not of the type of the first one. *)
Definition hash_str (c : cell) : outcome string :=
  match c with CStr s => Ret (hash16 s) | _ => raise TypeError end.
Definition hash_int (c : cell) : outcome string :=
  match c with
  | CInt z => b ← to_bytes8 z; Ret (hash16 b)
  | _ => raise AttributeError
  end.
Definition hash_bytes (c : cell) : outcome string :=
  match c with CBytes s => Ret (hash16 s) | _ => raise TypeError end.
Definition hash_float (c : cell) : outcome string :=
  match c with CFloat p => Ret (hash16 p) | _ => raise GenericException end.
Definition get_hash (array : list cell) (first : cell) : outcome (list string) :=
  match first with
  | CStr _ => map_outcome hash_str array
  | CInt _ => map_outcome hash_int array
  | CBytes _ => map_outcome hash_bytes array
  | CFloat _ => map_outcome hash_float array
  | _ => raise GenericException
  end.

(** [pa.array(hashed_mod, type=pa.int16())] *)
Definition int16_array (l : list Z) : outcome (list cell) :=
  if forallb in_int16 l then Ret (CInt <$> l) else raise ArrowInvalid.

Definition hash_mods (hashed_id : list string) (n : Z) : outcome (list Z) :=
  map_outcome (λ x, v ← int_of_hex x; Ret (py_mod v n)) hashed_id.

Definition add_hash_column (df : T) (hashed_column_name to_hash_column_name : string)
    (hashed_mod : option (string * Z)) : outcome T :=
  id_list ← column df to_hash_column_name;
  first ← py_index id_list 0;
  hashed_id ← get_hash id_list first;
  df1 ← (match hashed_mod with
         | Some (mod_name, n) =>
             if bool_decide (mod_name = "") || (n =? 0) then Ret df
             else ms ← hash_mods hashed_id n; a ← int16_array ms; add_column0 mod_name a df
         | None => Ret df
         end);
  add_column0 hashed_column_name (CBytes <$> hashed_id) df1.
End hashing.

(** The attributes of an actor that its work depends on. *)
Record psi_actor := mkActor {
  pa_actor_index : Z;
  pa_example_id_name : column_ref;
  pa_with_head : bool;
  pa_join_type : JoinType;
  pa_role : RoleType;
  pa_data_type : FileType;
  pa_app_id : string;
}.

(** A call of [change_data_status] that an actor has sent off. *)
Record update := mkUpdate {
  up_actor : Z;
  up_block : Z;
  up_status : BlockStatus;
  up_orig : option counts;
  up_joined : option counts;
}.

(** What the actors share: the dispatcher, the calls that it has not handled yet, and
    the written files. *)
Record cluster (T : Type) := mkCluster {
  cl_dispatch : dispatcher T;
  cl_sent : list update;
  cl_files : outputs;
}.
Arguments mkCluster {T}.
Arguments cl_dispatch {T}.
Arguments cl_sent {T}.
Arguments cl_files {T}.

(** The oldest call of an actor; Ray keeps the order of the calls of one actor. *)
Fixpoint take_call (a : Z) (l : list update) : option (update * list update) :=
  match l with
  | [] => None
  | u :: l' =>
      if up_actor u =? a then Some (u, l')
      else match take_call a l' with Some (v, r) => Some (v, u :: r) | None => None end
  end.

Section actor.
Context `{Blake} `{Arrow T} `{!FileSystem}.
(** [psi_sender] or [psi_receiver] on a block, by its task. *)
Context (psi : RoleType → string → T → outcome (option T)).
Abbreviation C := (cluster T).

Definition in_dispatch {A} (c : M (dispatcher T) A) : M C A :=
  zoom cl_dispatch (λ d c, mkCluster d (cl_sent c) (cl_files c)) c.
Definition in_files {A} (c : M outputs A) : M C A :=
  zoom cl_files (λ f c, mkCluster (cl_dispatch c) (cl_sent c) f) c.

Definition read_data (a : psi_actor) (data_protocol path csv_delimiter : string) : outcome T :=
  if bool_decide (data_protocol = "hdfs")
  then read_data_from_hdfs path (pa_with_head a) csv_delimiter
  else read_data_from_file path (pa_with_head a) csv_delimiter.

(** The tables of a list of paths, one appended to the other. *)
Fixpoint read_list (a : psi_actor) (data_protocol csv_delimiter : string) (data : option T)
    (l : list string) : outcome (option T) :=
  match l with
  | [] => Ret data
  | p :: l' =>
      sub_data ← read_data a data_protocol p csv_delimiter;
      data' ← (match data with
               | None => Ret sub_data
               | Some d => concat_tables [d; sub_data]
               end);
      read_list a data_protocol csv_delimiter (Some data') l'
  end.

(** Ray hands the actor the table behind a reference. *)
Definition load_block (a : psi_actor) (data_protocol : string) (block : block_data T)
    (csv_delimiter : string) : outcome (T * string) :=
  match block with
  | BPath (PStr p) =>
      data ← read_data a data_protocol p csv_delimiter;
      name ← get_actual_column_name data (pa_example_id_name a) 0;
      data' ← convert_string_to_large_string data;
      Ret (data', name)
  | BPath (PList l) =>
      r ← read_list a data_protocol csv_delimiter None l;
      match r with
      | None => raise NameError
      | Some data =>
          name ← get_actual_column_name data (pa_example_id_name a) 0;
          data' ← convert_string_to_large_string data;
          Ret (data', name)
      end
  | BRef None => raise AttributeError
  | BRef (Some data) =>
      name ← get_actual_column_name data (pa_example_id_name a) 2;
      Ret (data, name)
  end.

Definition read_block_data (a : psi_actor) (data_protocol : string) (block : block_data T)
    (csv_delimiter : string) : outcome (T * string) :=
  '(data, name) ← load_block a data_protocol block csv_delimiter;
  data1 ← (if (0 <? num_rows data) && (0 <? num_columns data) then
             d1 ← (if has_column_by_name data STATIC_HASHED_VALUE_COLUMN_NAMES then Ret data
                   else add_hash_column data STATIC_HASHED_VALUE_COLUMN_NAMES name None);
             if has_column_by_name d1 STATIC_HASHED_MOD_VALUE_COLUMN_NAMES
             then drop_columns [STATIC_HASHED_MOD_VALUE_COLUMN_NAMES] d1 else Ret d1
           else Ret data);
  Ret (combine_chunks data1, name).

(** [_count_values] *)
Fixpoint count_columns (data : T) (exludes_list names : list string) (total : counts)
    : outcome counts :=
  match names with
  | [] => Ret total
  | n :: l =>
      if bool_decide (n ∈ exludes_list) then count_columns data exludes_list l total
      else
        col ← column data n;
        let '(r, f, z) := total in
        count_columns data exludes_list l (r, f + num_rows data, z + null_count col)
  end.
Definition count_values (data : T) (exludes_list : list string) : outcome counts :=
  count_columns data exludes_list (column_names data) (num_rows data, 0, 0).

(** The call to the dispatcher is sent off; nobody waits for it. *)
Definition sync_block_status (a : psi_actor) (block_id : Z) (status : BlockStatus)
    (orig joined : option counts) : M C unit :=
  modify (λ c, mkCluster (cl_dispatch c)
                 (cl_sent c ++ [mkUpdate (pa_actor_index a) block_id status orig joined]) (cl_files c)).
(** The dispatcher handles the oldest call of an actor; its error is not seen. *)
Definition handle_call (actor : Z) : M C unit :=
  c ← getM;
  match take_call actor (cl_sent c) with
  | None => mret tt
  | Some (u, rest) =>
      modify (λ c, mkCluster (cl_dispatch c) rest (cl_files c));;
      catchM (in_dispatch (change_data_status (up_block u) (up_status u) (up_orig u) (up_joined u)))
        (λ _, mret tt)
  end.

Definition write_block_data (a : psi_actor) (block_id : Z) (data_format : string) (block : T)
    (output_path_type : FileType) (output_base_path : string) (append : bool)
    (csv_delimiter : string) : M C unit :=
  data ← liftO (drop_columns [STATIC_HASHED_VALUE_COLUMN_NAMES] block);
  let output_path :=
    if bool_decide (output_path_type = Directory)
    then output_base_path +:+ "/part_" +:+ Str.zfill 6 (Str.of_int block_id) +:+ "." +:+ data_format
    else output_base_path in
  let infered_protocol := infer_protocol output_path in
  if bool_decide (infered_protocol = "hdfs")
  then in_files (write_data_to_hdfs data output_path append (pa_with_head a) csv_delimiter)
  else if bool_decide (infered_protocol = "nfs")
  then in_files (write_data_to_file data output_path append (pa_with_head a) csv_delimiter)
  else raiseM ValueError.

Definition task_id (a : psi_actor) (block_id : Z) : string :=
  pa_app_id a +:+ "_" +:+ Str.of_int block_id.
Definition do_psi (a : psi_actor) (block_id : Z) (block : T) : outcome (option T) :=
  psi (pa_role a) (task_id a block_id) block.
Definition do_pir (a : psi_actor) (block_id : Z) (block : T) : outcome (option T) :=
  raise GenericException.

(** The join of a block, between the two status reports: the table, its
    counts, the result and its counts. *)
Definition join_block (a : psi_actor) (block_id : Z) (data_protocol : string) (block : block_data T)
    (csv_delimiter : string) : outcome (counts * T * counts) :=
  '(data, name) ← read_block_data a data_protocol block csv_delimiter;
  let empty := empty_batch data in
  data1 ← (if bool_decide (pa_role a = SENDER) && bool_decide (pa_join_type a = PIR)
           then drop_columns [name] data else Ret data);
  orig ← count_values data1 [STATIC_HASHED_VALUE_COLUMN_NAMES; name];
  let recBatchIn := match to_batches data1 with [] => empty | b :: _ => b end in
  out ← (match pa_join_type a with
         | PSI => do_psi a block_id recBatchIn
         | PIR => do_pir a block_id recBatchIn
         end);
  let recBatchOut := match out with None => empty | Some b => b end in
  joined ← count_values recBatchOut [STATIC_HASHED_VALUE_COLUMN_NAMES; name];
  Ret (orig, recBatchOut, joined).

Definition do_action (a : psi_actor) (block_id : Z) (data_protocol data_format : string)
    (block : block_data T) (output_path csv_delimiter : string) : M C (Z * Z * option T) :=
  sync_block_status a block_id PROCSSING None None;;
  '(orig, recBatchOut, joined) ← liftO (join_block a block_id data_protocol block csv_delimiter);
  ref ← (if bool_decide (pa_data_type a = Directory) then
           write_block_data a block_id data_format recBatchOut (pa_data_type a) output_path false
             csv_delimiter;;
           mret None
         else
           t ← liftO (drop_columns [STATIC_HASHED_VALUE_COLUMN_NAMES] recBatchOut);
           mret (Some t));
  sync_block_status a block_id PROCESSED (Some orig) (Some joined);;
  mret (pa_actor_index a, block_id, ref).
End actor.

(** ** Bytes of integers *)
Lemma be_value_app acc s t : be_value acc (s +:+ t) = be_value (be_value acc s) t.
Proof.
  revert acc. induction s as [|c s IH]; intros acc; [done|]. rewrite Str.append_cons. simpl. apply IH.
Qed.
Lemma be_bytes_length n z : String.length (be_bytes n z) = n.
Proof.
  revert z. induction n as [|n IH]; intros z; [done|]. cbn [be_bytes].
  rewrite Str.length_append, IH. simpl. lia.
Qed.
Lemma be_value_bytes n z : 0 ≤ z < 256 ^ Z.of_nat n → be_value 0 (be_bytes n z) = z.
Proof.
  revert z. induction n as [|n IH]; intros z Hz; [simpl in *; lia|].
  cbn [be_bytes]. rewrite be_value_app, IH.
  - cbn [be_value]. pose proof (Z.mod_pos_bound z 256).
    rewrite N_ascii_embedding by lia. rewrite Z2N.id by lia.
    pose proof (Z.div_mod z 256). lia.
  - rewrite Nat2Z.inj_succ, Z.pow_succ_r in Hz by lia.
    split; [apply Z.div_pos; lia|]. apply Z.div_lt_upper_bound; lia.
Qed.

Section action.
Context `{Blake} `{ArrowLaws T} `{!FileSystem}.
Context (psi : RoleType → string → T → outcome (option T)).

Lemma column_known (t : T) n : n ∈ column_names t → ∃ c, column t n = Ret c.
Proof.
  intros Hn. unfold column, column_index.
  destruct (list_find (λ m, m = n) (column_names t)) as [[i m]|] eqn:E; [by eexists|].
  apply list_find_None in E. rewrite Forall_forall in E. by destruct (E n Hn).
Qed.

Lemma count_columns_ok (t : T) ex names c :
  Forall (.∈ column_names t) names → ∃ c', count_columns t ex names c = Ret c'.
Proof.
  revert c. induction names as [|n l IH]; intros c Hl; [by eexists|].
  apply Forall_cons in Hl as [Hn Hl]. cbn [count_columns]. case_bool_decide; [by apply IH|].
  destruct (column_known t n Hn) as [col ->]. destruct c as [[r f] z]. rewrite bind_Ret. by apply IH.
Qed.
Lemma count_values_ok (t : T) ex : ∃ c, count_values t ex = Ret c.
Proof. apply count_columns_ok. by apply Forall_forall. Qed.

(** The counts say how many rows there are. *)
Lemma count_columns_rows (t : T) ex names c c' :
  count_columns t ex names c = Ret c' → c'.1.1 = c.1.1.
Proof.
  revert c. induction names as [|n l IH]; intros c; cbn [count_columns]; [by intros [= <-]|].
  case_bool_decide; [apply IH|]. destruct (column t n); [|done].
  destruct c as [[r f] z]. rewrite bind_Ret. by intros ->%IH.
Qed.
Lemma count_values_rows (t : T) ex c : count_values t ex = Ret c → c.1.1 = num_rows t.
Proof. by intros ->%count_columns_rows. Qed.

Definition part_path (base format : string) (block_id : Z) : string :=
  base +:+ "/part_" +:+ Str.zfill 6 (Str.of_int block_id) +:+ "." +:+ format.

(** The calls that an action leaves behind. *)
Definition calls_of (a b : Z) (o j : counts) : list update :=
  [mkUpdate a b PROCSSING None None; mkUpdate a b PROCESSED (Some o) (Some j)].

(** An action on a block of a directory, with a local output. *)
Lemma directory_action_run a b protocol format block base delim (d : dispatcher T) u f orig out joined t :
  pa_data_type a = Directory →
  join_block psi a b protocol block delim = Ret (orig, out, joined) →
  drop_columns [STATIC_HASHED_VALUE_COLUMN_NAMES] out = Ret t →
  infer_protocol (part_path base format b) = "nfs" →
  infer_format (part_path base format b) = "csv" →
  do_action psi a b protocol format block base delim (mkCluster d u f)
  = (Ret (pa_actor_index a, b, None),
     mkCluster d (u ++ calls_of (pa_actor_index a) b orig joined)
       (<[("", part_path base format b) :=
            csv_bytes (part_path base format b) (pa_with_head a) delim t]> f)).
Proof.
  intros Ht Hj Hd Hn Hf. unfold do_action.
  rewrite run_bind. unfold sync_block_status at 1. cbn [modify].
  rewrite run_bind, Hj. unfold liftO at 1. cbv beta iota.
  rewrite Ht. rewrite bool_decide_true by done. rewrite run_bind, run_bind.
  unfold write_block_data, liftO. rewrite run_bind, Hd. cbv beta iota zeta.
  rewrite (bool_decide_true (Directory = Directory)) by done.
  change (base +:+ "/part_" +:+ Str.zfill 6 (Str.of_int b) +:+ "." +:+ format)
    with (part_path base format b).
  rewrite Hn. rewrite bool_decide_false, bool_decide_true by done.
  unfold in_files, zoom, write_data_to_file, write_data_to_filesystem. rewrite Hf.
  rewrite bool_decide_true by (apply list_elem_of_In; simpl; auto).
  cbn [modify cl_files cl_dispatch cl_sent mret M_ret].
  rewrite run_bind. unfold sync_block_status. cbn. by rewrite <- (assoc_L (++)).
Qed.

(** An action on a block of a single file. *)
Lemma file_action_run a b protocol format block base delim (d : dispatcher T) u f orig out joined t :
  pa_data_type a = File →
  join_block psi a b protocol block delim = Ret (orig, out, joined) →
  drop_columns [STATIC_HASHED_VALUE_COLUMN_NAMES] out = Ret t →
  do_action psi a b protocol format block base delim (mkCluster d u f)
  = (Ret (pa_actor_index a, b, Some t),
     mkCluster d (u ++ calls_of (pa_actor_index a) b orig joined) f).
Proof.
  intros Ht Hj Hd. unfold do_action.
  rewrite run_bind. unfold sync_block_status at 1. cbn [modify].
  rewrite run_bind, Hj. unfold liftO at 1. cbv beta iota.
  rewrite Ht. rewrite bool_decide_false by done. rewrite run_bind, run_bind.
  unfold liftO. rewrite Hd. cbn [mret M_ret].
  rewrite run_bind. unfold sync_block_status. cbn. by rewrite <- (assoc_L (++)).
Qed.

(** The calls of one actor are handled in their order. *)
Lemma take_call_spec a l :
  match take_call a l with
  | None => Forall (λ u, up_actor u ≠ a) l
  | Some (u, r) => ∃ l1 l2, l = l1 ++ u :: l2 ∧ r = l1 ++ l2 ∧ up_actor u = a ∧
                     Forall (λ u, up_actor u ≠ a) l1
  end.
Proof.
  induction l as [|v l IH]; [by constructor|]. cbn [take_call].
  destruct (Z.eqb_spec (up_actor v) a) as [Ha|Ha]; [by exists [], l|].
  destruct (take_call a l) as [[u r]|].
  - destruct IH as (l1 & l2 & -> & -> & Hu & Hl). exists (v :: l1), l2. split_and!; try done. by constructor.
  - by constructor.
Qed.

(** Results of the intersection keep the columns. *)
Definition psi_keeps_columns : Prop :=
  ∀ r task t out, psi r task t = Ret (Some out) → column_names out = column_names t.
End action.

(** ** Properties *)
Section integers.
(** Integer ids are hashed by eight bytes that determine them: the bytes
    of an id read back as the id, so different ids never share their bytes;
    what does not fit in 64 bits without sign is refused. *)
Theorem int_ids_roundtrip z :
  match to_bytes8 z with
  | Ret b => String.length b = 8%nat ∧ int_of_hex b = Ret z
  | Stop r => r = Raise OverflowError ∧ ¬ (0 ≤ z < 2 ^ 64)
  end.
Proof.
  unfold to_bytes8, in_uint64.
  destruct (Z.leb_spec 0 z), (Z.ltb_spec z (2 ^ 64)); cbn [andb].
  - split; [apply be_bytes_length|].
    pose proof (be_value_bytes 8 z ltac:(lia)) as Hv. pose proof (be_bytes_length 8 z) as Hl.
    unfold int_of_hex. destruct (be_bytes 8 z); [done|]. by rewrite Hv.
  - split; [done|lia].
  - split; [done|lia].
  - split; [done|lia].
Qed.
End integers.

Section properties.
Context `{Blake} `{ArrowLaws T} `{!FileSystem}.
Context (psi : RoleType → string → T → outcome (option T)).

(** A part without rows stops its worker.  The hash column is only added
    to a table with rows, and the column is dropped before the output is
    written: an input file of a directory that holds only a header makes the
    action raise [KeyError] after the intersection, nothing is written and the
    block is never reported as processed. *)
Theorem empty_part_stops_the_worker a b (d : dispatcher T) u f protocol format p base delim data
    name out :
  psi_keeps_columns psi → pa_join_type a = PSI → pa_data_type a = Directory →
  load_block a protocol (BPath p) delim = Ret (data, name) → rows_of data = [] →
  STATIC_HASHED_VALUE_COLUMN_NAMES ∉ column_names data →
  psi (pa_role a) (task_id a b) (empty_batch (combine_chunks data)) = Ret out →
  do_action psi a b protocol format (BPath p) base delim (mkCluster d u f)
  = (raise KeyError,
     mkCluster d (u ++ [mkUpdate (pa_actor_index a) b PROCSSING None None]) f).
Proof.
  intros Hkeep Hj Ht Hload Hrows Hnot Hpsi.
  set (t := combine_chunks data) in *.
  destruct (combine_chunks_same data) as [Hn Hr].
  assert (to_batches t = []) as Hbatch by (unfold t; by rewrite to_batches_combined, Hrows).
  destruct (empty_batch_spec t) as [Hen Her].
  set (o := match out with Some b => b | None => empty_batch t end).
  assert (STATIC_HASHED_VALUE_COLUMN_NAMES ∉ column_names o) as Hno.
  { unfold o. destruct out as [x|].
    - rewrite (Hkeep _ _ _ _ Hpsi), Hen. unfold t. by rewrite Hn.
    - rewrite Hen. unfold t. by rewrite Hn. }
  destruct (count_values_ok t [STATIC_HASHED_VALUE_COLUMN_NAMES; name]) as [c1 Hc1].
  destruct (count_values_ok o [STATIC_HASHED_VALUE_COLUMN_NAMES; name]) as [c2 Hc2].
  assert (join_block psi a b protocol (BPath p) delim = Ret (c1, o, c2)) as Hjoin.
  { unfold join_block, read_block_data. rewrite Hload, bind_Ret.
    unfold num_rows. rewrite Hrows.
    change (0 <? zlen []) with false. cbn [andb]. rewrite !bind_Ret. fold t.
    rewrite Hj, (bool_decide_false (PSI = PIR)) by done. rewrite andb_false_r, !bind_Ret.
    rewrite Hc1, bind_Ret, Hbatch. unfold do_psi. rewrite Hpsi, bind_Ret. fold o.
    by rewrite Hc2. }
  unfold do_action. rewrite run_bind. unfold sync_block_status at 1. cbn [modify].
  rewrite run_bind, Hjoin. unfold liftO at 1. cbv beta iota.
  rewrite Ht, (bool_decide_true (Directory = Directory)) by done. rewrite run_bind, run_bind.
  unfold write_block_data, liftO. rewrite run_bind.
  by rewrite (drop_columns_unknown STATIC_HASHED_VALUE_COLUMN_NAMES) by (set_solver || done).
Qed.
End properties.

Module TestWorker.
Import TestTables.

#[export] Instance test_blake : Blake := { blake2b _ s := "h" +:+ s }.
#[export] Instance part_files : FileSystem := {|
  get_file_type _ _ := Directory;
  list_files _ _ _ := [];
  input_stream _ p :=
    if bool_decide (p = "in/0.csv") then Some ("id,v" +:+ String nl "")
    else if bool_decide (p = "in/1.csv") then
      Some ("id,v" +:+ String nl ("ann,3" +:+ String nl ("bob,4" +:+ String nl "")))
    else None;
|}.
Definition worker (typ : FileType) : psi_actor :=
  mkActor 0 (ByIndex 0) true PSI RECEIVER typ "app".
Definition parts (n : nat) : dispatcher Table :=
  mkDispatcher (Some "nfs") "in" true [] (Some "csv") 1 [] (replicate n (PREPARED, None, None))
    Directory.
End TestWorker.

Section witnesses.
Import TestTables TestWorker.

Lemma empty_part_stops_the_worker_witness :
  (do_action (λ _ _ t, Ret (Some t)) (worker Directory) 0 "nfs" "csv" (BPath (PStr "in/0.csv"))
     "out" "," (mkCluster (parts 2) [] ∅)).1 = raise KeyError.
Proof.
  rewrite (empty_part_stops_the_worker (λ _ _ t, Ret (Some t)) (worker Directory) 0 (parts 2) [] ∅
    "nfs" "csv" (PStr "in/0.csv") "out" "," (mkTable ["id"; "v"] []) "id"
    (Some (mkTable ["id"; "v"] []))); try done.
  - intros r task t out Ho. by injection Ho as <-.
  - vm_compute. intros Hin. apply list_elem_of_In in Hin. simpl in Hin. naive_solver.
Defined.
End witnesses.
