(* ===== verification/PsiApp.v ===== *)
(** * The batch join

    The split into buckets and [run_app] of psi_actors.py.
    Ray's sort by boundaries is a parameter.  An argument of the run says in which
    order the jobs of the actors complete and when the dispatcher handles the calls
    that the actors have sent off. *)

From stdpp Require Import base tactics list gmap strings sorting.
From Stdlib Require Import ZArith QArith Lia Ascii.
From S2P Require Import Prelude PyStd PsiFiles PsiDispatch PsiActor.

Open Scope Z_scope.

(** [SimpleSortOp] of Ray on one block: the rows by the value of an integer
    column, cut at the boundaries. *)
Class RaySort (T : Type) := { sort_op : string → list Z → T → list T }.

(** The index of the part that a key belongs to. *)
Definition part_of (boundaries : list Z) (k : Z) : nat := length (filter (λ b, b ≤ k) boundaries).

(** A row whose [j]-th cell is a key of part [i]. *)
Definition in_part (j : nat) (boundaries : list Z) (i : nat) (r : list cell) : bool :=
  match r !! j with Some (CInt k) => Nat.eqb (part_of boundaries k) i | _ => false end.

(** A part without rows need not have the columns of the table. *)
Class RaySortLaws (T : Type) `{Arrow T, !RaySort T} := {
  sort_op_length key bs t : length (sort_op key bs t) = S (length bs);
  sort_op_rows key j bs t i b :
    column_index t key = Some j → sort_op key bs t !! i = Some b →
    (rows_of b ≠ [] → column_names b = column_names t) ∧
    rows_of b ≡ₚ filter (λ r, in_part j bs i r = true) (rows_of t);
}.

Section split.
Context `{Blake} `{Arrow T, !FileSystem, !RaySort T}.

(** [list(range(1, n))] *)
Definition range1 (n : Z) : list Z := Z.of_nat <$> seq 1 (Z.to_nat n - 1).

Definition repartition_by_key_value (ds : T) (key : string) (boundaries : list Z) : list T :=
  sort_op key boundaries ds.

Definition repartition_by_hash (dataTable : T) (example_id_name : string) (partition_num : Z)
    : outcome (list T) :=
  t ← add_hash_column dataTable STATIC_HASHED_VALUE_COLUMN_NAMES example_id_name
        (Some (STATIC_HASHED_MOD_VALUE_COLUMN_NAMES, partition_num));
  Ret (repartition_by_key_value t STATIC_HASHED_MOD_VALUE_COLUMN_NAMES (range1 partition_num)).

Definition repartition_for_existed_data (data_protocol file_path : string) (with_head : bool)
    (example_id_name : column_ref) (data_block_count : Z) (csv_delimiter : string)
    : outcome (list T) :=
  dataTable ← (if bool_decide (data_protocol = "hdfs")
               then read_data_from_hdfs file_path with_head csv_delimiter
               else if bool_decide (data_protocol = "nfs")
               then read_data_from_file file_path with_head csv_delimiter
               else raise ValueError);
  name ← get_actual_column_name dataTable example_id_name 0;
  dataTable' ← convert_string_to_large_string dataTable;
  data_blocks ← repartition_by_hash dataTable' name data_block_count;
  _ ← py_index data_blocks 0;
  Ret data_blocks.

(** The last block with rows lends its schema to the blocks without. *)
Definition add_schema_to_all_empty_blocks (blocks : list T) : outcome (list T) :=
  match last (filter (λ b, rows_of b ≠ []) blocks) with
  | None => raise GenericException
  | Some b => Ret ((λ t, match rows_of t with [] => empty_batch b | _ => t end) <$> blocks)
  end.
End split.

(** A value of the report. *)
Inductive report_value := RInt (z : Z) | RQuot (a b : Z) | RStr (s : string).
Definition report : Type := list (string * report_value).

Definition percent (joined origin : counts) : report_value :=
  if origin.1.1 <=? 0 then RInt 0 else RQuot joined.1.1 origin.1.1.

(** [global_role] is the module's variable [role_type]. *)
Definition generate_result (global_role : option RoleType) (join_type : JoinType)
    (aggre_results : counts * counts) (output_dir : string) : outcome report :=
  let '(o, j) := aggre_results in
  r ← (match join_type with
       | PSI => Ret [("local", RInt o.1.1); ("join", RInt j.1.1); ("percent", percent j o)]
       | PIR =>
           match global_role with
           | None => raise NameError
           | Some SENDER =>
               Ret [("local", RInt o.1.1); ("local_all_values", RInt o.1.2);
                    ("local_null_values", RInt o.2); ("join", RInt 0); ("percent", RInt 0)]
           | Some RECEIVER =>
               Ret [("local", RInt o.1.1); ("local_all_values", RInt o.1.2);
                    ("local_null_values", RInt o.2); ("join", RInt j.1.1);
                    ("join_all_values", RInt j.1.2); ("join_null_values", RInt j.2);
                    ("percent", percent j o)]
           end
       end);
  Ret (r ++ [("output", RStr output_dir)]).

Record app_args := mkApp {
  aa_app_id : string;
  aa_join_type : JoinType;
  aa_data_path : string;
  aa_example_id_name : column_ref;
  aa_with_head : bool;
  aa_bucket_num : Z;
  aa_role_type : RoleType;
  aa_output_dir : string;
  aa_max_actors : Z;
  aa_csv_delimiter : string;
}.

(** A reference in [result_refs]: actor, block and the block's data. *)
Record job (T : Type) := mkJob { job_actor : nat; job_block : Z; job_data : block_data T }.
Arguments mkJob {T}.
Arguments job_actor {T}.
Arguments job_block {T}.
Arguments job_data {T}.

(** What happens next: a job is ready, the [c]-th of those that are left; the time limit
    of a wait is over; the dispatcher handles the oldest call of an actor. *)
Inductive turn := Ready (c : nat) | TimeLimit | Handle (a : nat).

Record run_state (T : Type) := mkRun {
  rs_cluster : cluster T;
  rs_result_refs : list (job T);
  rs_data_output_refs : list (option T);
  rs_completed_block_data : option T;
}.
Arguments mkRun {T}.
Arguments rs_cluster {T}.
Arguments rs_result_refs {T}.
Arguments rs_data_output_refs {T}.
Arguments rs_completed_block_data {T}.

Section app.
Context `{Blake} `{Arrow T, !FileSystem, !RaySort T}.
Context (psi : RoleType → string → T → outcome (option T)).
Context (args : app_args).
Abbreviation R := (run_state T).

Definition rs_set_cluster c (s : R) : R :=
  mkRun c (rs_result_refs s) (rs_data_output_refs s) (rs_completed_block_data s).
Definition rs_set_refs l (s : R) : R :=
  mkRun (rs_cluster s) l (rs_data_output_refs s) (rs_completed_block_data s).
Definition rs_set_output l x (s : R) : R := mkRun (rs_cluster s) (rs_result_refs s) l x.
Definition on_cluster {A} (c : M (cluster T) A) : M R A := zoom rs_cluster rs_set_cluster c.

Definition actor_at (data_type : FileType) (i : nat) : psi_actor :=
  mkActor (Z.of_nat i) (aa_example_id_name args) (aa_with_head args) (aa_join_type args)
    (aa_role_type args) data_type (aa_app_id args).

Definition next_block : M R (option (Z * block_data T)) :=
  on_cluster (in_dispatch get_next_unprocessed_data_and_use).

(** The first block of every actor. *)
Fixpoint start_actors (l : list nat) : M R unit :=
  match l with
  | [] => mret tt
  | i :: l' =>
      d ← next_block;
      match d with
      | None => raiseM TypeError
      | Some (b, x) =>
          modify (λ s, rs_set_refs (rs_result_refs s ++ [mkJob i b x]) s);;
          start_actors l'
      end
  end.

Definition run_job (data_type : FileType) (protocol format : string) (j : job T)
    : M R (Z * Z * option T) :=
  on_cluster (do_action psi (actor_at data_type (job_actor j)) (job_block j) protocol format
                (job_data j) (aa_output_dir args) (aa_csv_delimiter args)).

(** One ready reference, the [c]-th: its actor gets the next block, if any. *)
Definition complete_job (data_type : FileType) (protocol format : string) (c : nat) : M R unit :=
  s ← getM;
  let refs := rs_result_refs s in
  match refs !! c with
  | None => mret tt
  | Some j =>
      '(actor, block, data) ← run_job data_type protocol format j;
      modify (λ s, rs_set_output
                (match data_type, data with
                 | File, Some t => <[Z.to_nat block := Some t]> (rs_data_output_refs s)
                 | _, _ => rs_data_output_refs s
                 end) data s);;
      d ← next_block;
      modify (λ s, rs_set_refs
                (match d with
                 | Some (b, x) => <[Z.to_nat actor := mkJob (Z.to_nat actor) b x]> refs
                 | None => delete c refs
                 end) s)
  end.

(** [ray.wait] for one of the references, by the schedule.  When the last job is
    done the rest of the schedule is left. *)
Fixpoint wait_loop (data_type : FileType) (protocol format : string) (sched : list turn)
    : M R (list turn) :=
  refs ← gets rs_result_refs;
  match refs, sched with
  | [], _ => raiseM ValueError
  | _, [] => stopM NoFuel
  | _, TimeLimit :: sched' => wait_loop data_type protocol format sched'
  | _, Handle a :: sched' =>
      on_cluster (handle_call (Z.of_nat a));; wait_loop data_type protocol format sched'
  | _, Ready c :: sched' =>
      complete_job data_type protocol format (c mod length refs)%nat;;
      refs' ← gets rs_result_refs;
      match refs' with [] => mret sched' | _ => wait_loop data_type protocol format sched' end
  end.

(** What the dispatcher still handles before it is asked for the results. *)
Definition late_calls (sched : list turn) : M R unit :=
  forM sched (λ t, match t with Handle a => on_cluster (handle_call (Z.of_nat a)) | _ => mret tt end).

(** The jobs of [m] actors. *)
Definition run_jobs (data_type : FileType) (protocol format : string) (m : nat) (sched : list turn)
    : M R unit :=
  start_actors (seq 0 m);;
  rest ← wait_loop data_type protocol format sched;
  late_calls rest.

Definition run_app (sched : list turn) (global_role : option RoleType)
    : M outputs report := λ files,
  let d0 := new_dispatcher (aa_data_path args) (aa_with_head args) None None (aa_bucket_num args) in
  match init_data d0 with
  | (Stop r, _) => (Stop r, files)
  | (Ret _, d1) =>
      let data_type := bd_data_type d1 in
      let block_num := zlen (bd_data_status d1) in
      let format := default "None" (bd_data_format d1) in
      let protocol := default "" (bd_data_protocol d1) in
      let blocks :=
        (match data_type with
         | File =>
             bs ← repartition_for_existed_data protocol (aa_data_path args) (aa_with_head args)
                    (aa_example_id_name args) (aa_bucket_num args) (aa_csv_delimiter args);
             bs' ← add_schema_to_all_empty_blocks bs;
             Ret (bd_set_blocks (Some <$> bs') d1)
         | _ => Ret d1
         end) in
      match blocks with
      | Stop r => (Stop r, files)
      | Ret d2 =>
          let max_actors := if block_num <=? aa_max_actors args then block_num
                            else aa_max_actors args in
          let s0 := mkRun (mkCluster d2 [] files) [] (replicate (Z.to_nat block_num) None) None in
          match run_jobs data_type protocol format (Z.to_nat max_actors) sched s0 with
          | (Stop r, s) => (Stop r, cl_files (rs_cluster s))
          | (Ret _, s) =>
              ((if bool_decide (data_type = File) && bool_decide (is_Some (rs_completed_block_data s))
               then output_single_output_file (cl_dispatch (rs_cluster s))
                      (rs_data_output_refs s) (aa_output_dir args) (aa_csv_delimiter args)
                else mret tt);;
               liftO (generate_result global_role (aa_join_type args)
                        (get_results (cl_dispatch (rs_cluster s))) (aa_output_dir args)))
                (cl_files (rs_cluster s))
          end
      end
  end.
End app.

(** ** The run, for any schedule *)
Lemma filter_every {A} (P : A → Prop) `{∀ x, Decision (P x)} (l : list A) :
  (∀ x, x ∈ l → P x) → filter P l = l.
Proof.
  induction l as [|x l IH]; intros Hl; [done|]. rewrite filter_cons, decide_True by set_solver.
  f_equal. apply IH. set_solver.
Qed.
Lemma delete_insert {A} (l : list A) i x : delete i (<[i := x]> l) = delete i l.
Proof. revert i. induction l as [|y l IH]; intros [|i]; [done|done|done|]. simpl. by rewrite IH. Qed.
Lemma insert_swaps {A} (l : list A) i x y :
  l !! i = Some y → y :: <[i := x]> l ≡ₚ x :: l.
Proof.
  intros Hy. rewrite (delete_Permutation l i y Hy) at 2.
  rewrite (delete_Permutation (<[i := x]> l) i x), delete_insert.
  - apply Permutation_swap.
  - apply list_lookup_insert_eq. by eapply lookup_lt_Some.
Qed.

(** The turns of a schedule. *)
Definition is_ready (t : turn) : bool := match t with Ready _ => true | _ => false end.
Definition handles_of (a : nat) (t : turn) : bool := match t with Handle b => Nat.eqb a b | _ => false end.
Definition is_handle (t : turn) : bool := match t with Handle _ => true | _ => false end.
Definition readies (sched : list turn) : nat := length (filter (λ t, is_ready t = true) sched).
Definition handles (a : nat) (sched : list turn) : nat :=
  length (filter (λ t, handles_of a t = true) sched).

(** Every call of the [m] actors about the [n] blocks is handled after the last job:
    each actor has sent at most two calls for a block. *)
Definition all_handled (m n : nat) (sched : list turn) : Prop :=
  ∃ s1 s2, sched = s1 ++ s2 ∧ (n ≤ readies s1)%nat ∧ ∀ a, (a < m)%nat → (2 * n ≤ handles a s2)%nat.

(** The blocks whose counts have reached the dispatcher when it is asked for the
    results: all, when all calls are handled; none, when none is. *)
Record heard_in (m n : nat) (sched : list turn) (heard : list nat) : Prop := mkHeard {
  hi_blocks : heard `sublist_of` seq 0 n;
  hi_all : all_handled m n sched → heard = seq 0 n;
  hi_none : Forall (λ t, is_handle t = false) sched → heard = [];
}.

Lemma readies_cons t sched :
  readies (t :: sched) = ((if is_ready t then 1 else 0) + readies sched)%nat.
Proof. unfold readies. rewrite filter_cons. by destruct (is_ready t). Qed.
Lemma handles_cons a t sched :
  handles a (t :: sched) = ((if handles_of a t then 1 else 0) + handles a sched)%nat.
Proof. unfold handles. rewrite filter_cons. by destruct (handles_of a t). Qed.
Lemma handles_app a s1 s2 : handles a (s1 ++ s2) = (handles a s1 + handles a s2)%nat.
Proof. unfold handles. by rewrite filter_app, length_app. Qed.

(** The calls about a block, and those of an actor. *)
Definition about (i : nat) (l : list update) : list update := filter (λ u, up_block u = Z.of_nat i) l.
Definition calls_by (a : nat) (l : list update) : nat :=
  length (filter (λ u, up_actor u = Z.of_nat a) l).
Lemma about_app i l l' : about i (l ++ l') = about i l ++ about i l'.
Proof. apply filter_app. Qed.
Lemma about_calls i q a o j :
  about i (calls_of a (Z.of_nat q) o j) = if decide (q = i) then calls_of a (Z.of_nat q) o j else [].
Proof.
  unfold about, calls_of. rewrite !filter_cons. cbn [up_block].
  destruct (decide (q = i)) as [->|Hne]; [by rewrite !decide_True|].
  by rewrite !decide_False by lia.
Qed.

Section run.
Context `{Blake} `{Arrow T, !FileSystem, !RaySort T}.
Context (psi : RoleType → string → T → outcome (option T)).
Context (args : app_args).
Context (typ : FileType) (protocol format : string).
(** The [n] blocks, and what the action on each of them comes to. *)
Context (n : nat) (content_of : nat → option (block_data T)).
Context (orig joined : nat → counts) (ref_of : nat → option T) (effect : nat → outputs → outputs).

Definition job_runs : Prop := ∀ i x a d u fs,
  (i < n)%nat → content_of i = Some x →
  do_action psi (actor_at args typ a) (Z.of_nat i) protocol format x (aa_output_dir args)
    (aa_csv_delimiter args) (mkCluster d u fs)
  = (Ret (Z.of_nat a, Z.of_nat i, ref_of i),
     mkCluster d (u ++ calls_of (Z.of_nat a) (Z.of_nat i) (orig i) (joined i)) (effect i fs)).

(** [m] actors. *)
Context (m : nat) (fs0 : outputs) (d0 : dispatcher T).
Definition effects (D : list nat) : outputs := fold_left (λ fs i, effect i fs) D fs0.

(** A block is not done; or it is, and its actor's calls are on their way; or it is, and
    the dispatcher has its counts. *)
Definition no_counts (r : block_row) : Prop := r.1.2 = None ∧ r.2 = None.
Definition row_ok (D : list nat) (sent : list update) (i : nat) (r : block_row) : Prop :=
  ((i ∉ D) ∧ about i sent = [] ∧ no_counts r) ∨
  (i ∈ D ∧ no_counts r ∧ (∃ a k, (a < m)%nat ∧ (k < 2)%nat ∧
     about i sent = drop k (calls_of (Z.of_nat a) (Z.of_nat i) (orig i) (joined i)))) ∨
  (i ∈ D ∧ about i sent = [] ∧ r = (PROCESSED, Some (orig i), Some (joined i))).
Definition blocks_of_refs (l : list (job T)) : list nat := (λ j, Z.to_nat (job_block j)) <$> l.
Definition same_settings (d : dispatcher T) : Prop :=
  bd_data_format d = bd_data_format d0 ∧ bd_with_head d = bd_with_head d0 ∧
  bd_data_type d = bd_data_type d0.

(** The dispatcher, the calls to it and the files when the blocks of [D] are done;
    [quiet] while no call has been handled. *)
Record done_so_far (quiet : bool) (k : nat) (D : list nat) (c : cluster T) : Prop := mkDone {
  df_handed : handed n k content_of (cl_dispatch c);
  df_done i : i ∈ D → (i < k)%nat;
  df_bound : (k ≤ n)%nat;
  df_rows i (r : block_row) :
    bd_data_status (cl_dispatch c) !! i = Some r → row_ok D (cl_sent c) i r;
  df_sent u : u ∈ cl_sent c →
    ∃ a i, (a < m)%nat ∧ i ∈ D ∧ up_actor u = Z.of_nat a ∧ up_block u = Z.of_nat i;
  df_few : (length (cl_sent c) ≤ 2 * length D)%nat;
  df_quiet : quiet = true → ∀ i, i ∈ D → about i (cl_sent c) ≠ [];
  df_files : cl_files c = effects D;
  df_settings : same_settings (cl_dispatch c);
}.
(** The references: all blocks handed out and not done, each at its actor
    while there are blocks left. *)
Record pending (k : nat) (D : list nat) (l : list (job T)) : Prop := mkPending {
  pd_blocks : blocks_of_refs l ++ D ≡ₚ seq 0 k;
  pd_jobs j : j ∈ l → 0 ≤ job_block j ∧ content_of (Z.to_nat (job_block j)) = Some (job_data j);
  pd_known j : j ∈ l → (job_actor j < m)%nat;
  pd_actors : (k < n)%nat → length l = m ∧ (∀ i j, l !! i = Some j → job_actor j = i);
  pd_bound : (k ≤ n)%nat;
}.
Record collected (D : list nat) (outs : list (option T)) (last : option T) : Prop := mkCollected {
  cd_outputs i : (i < n)%nat →
    outs !! i = Some (if decide (i ∈ D ∧ typ = File) then ref_of i else None);
  cd_length : length outs = n;
  cd_last : D ≠ [] → ∃ i, i ∈ D ∧ last = ref_of i;
}.
Record progress (quiet : bool) (k : nat) (D : list nat) (s : run_state T) : Prop := mkProgress {
  pr_done : done_so_far quiet k D (rs_cluster s);
  pr_pending : pending k D (rs_result_refs s);
  pr_collected : collected D (rs_data_output_refs s) (rs_completed_block_data s);
}.

Lemma pending_lookup k D l c j :
  pending k D l → l !! c = Some j →
  ∃ i, job_block j = Z.of_nat i ∧ (i < k)%nat ∧ (i < n)%nat ∧ (i ∉ D) ∧
    content_of i = Some (job_data j) ∧ blocks_of_refs l !! c = Some i.
Proof.
  intros [Hb Hj _ Ha Hk] Hc. exists (Z.to_nat (job_block j)).
  destruct (Hj j) as [Hnn Hx]; [by eapply list_elem_of_lookup_2|].
  assert (blocks_of_refs l !! c = Some (Z.to_nat (job_block j))) as Hl
    by (unfold blocks_of_refs; by rewrite list_lookup_fmap, Hc).
  assert (Z.to_nat (job_block j) ∈ blocks_of_refs l) as Hin by (by eapply list_elem_of_lookup_2).
  assert (Z.to_nat (job_block j) ∈ seq 0 k) as Hs by (rewrite <- Hb; set_solver).
  apply elem_of_seq in Hs. assert (NoDup (blocks_of_refs l ++ D)) as Hnd
    by (rewrite Hb; apply NoDup_seq).
  apply NoDup_app in Hnd as (_ & Hdis & _).
  split; [lia|]. split; [lia|]. split; [lia|]. split; [by apply Hdis|done].
Qed.

Lemma pending_next k D l c j i x :
  pending k D l → l !! c = Some j → job_block j = Z.of_nat i → (k < n)%nat →
  content_of k = Some x →
  pending (k + 1) (D ++ [i]) (<[c := mkJob c (Z.of_nat k) x]> l).
Proof.
  intros Hp Hc Hi Hk Hx. destruct (pending_lookup k D l c j Hp Hc) as (i' & Hi' & _ & _ & _ & _ & Hl).
  assert (i' = i) as -> by lia. destruct Hp as [Hb Hj Hkn Ha Hn]. split.
  - assert (blocks_of_refs (<[c := mkJob c (Z.of_nat k) x]> l) = <[c := k]> (blocks_of_refs l)) as ->.
    { unfold blocks_of_refs. rewrite list_fmap_insert. simpl. by rewrite Nat2Z.id. }
    rewrite Nat.add_1_r, seq_S. simpl. rewrite <- Hb.
    rewrite (assoc_L (++)), <- !Permutation_cons_append, app_comm_cons.
    rewrite (insert_swaps _ _ _ _ Hl). done.
  - intros j' Hj'. apply list_elem_of_lookup in Hj' as [q Hq].
    destruct (decide (q = c)) as [->|Hne].
    + rewrite list_lookup_insert_eq in Hq by (by eapply lookup_lt_Some). injection Hq as <-. simpl.
      split; [lia|]. by rewrite Nat2Z.id.
    + rewrite list_lookup_insert_ne in Hq by done. apply Hj. by eapply list_elem_of_lookup_2.
  - destruct (Ha Hk) as [Hlen _]. apply lookup_lt_Some in Hc.
    intros j' Hj'. apply list_elem_of_lookup in Hj' as [q Hq]. destruct (decide (q = c)) as [->|Hne].
    + rewrite list_lookup_insert_eq in Hq by done. injection Hq as <-. cbn. lia.
    + rewrite list_lookup_insert_ne in Hq by done. apply Hkn. by eapply list_elem_of_lookup_2.
  - intros _. destruct (Ha Hk) as [Hlen Hact]. split; [by rewrite length_insert|].
    intros q j' Hq. destruct (decide (q = c)) as [->|Hne].
    + rewrite list_lookup_insert_eq in Hq by (by eapply lookup_lt_Some). by injection Hq as <-.
    + rewrite list_lookup_insert_ne in Hq by done. by apply Hact.
  - lia.
Qed.

Lemma pending_last D l c j i :
  pending n D l → l !! c = Some j → job_block j = Z.of_nat i →
  pending n (D ++ [i]) (delete c l).
Proof.
  intros Hp Hc Hi. destruct (pending_lookup n D l c j Hp Hc) as (i' & Hi' & _ & _ & _ & _ & Hl).
  assert (i' = i) as -> by lia. destruct Hp as [Hb Hj Hkn Ha Hn]. split; [|..|lia|done].
  - assert (blocks_of_refs l ≡ₚ i :: blocks_of_refs (delete c l)) as Hperm.
    { unfold blocks_of_refs. etrans; [apply fmap_Permutation, (delete_Permutation l c j Hc)|].
      simpl. by rewrite Hi, Nat2Z.id. }
    by rewrite <- Hb, Hperm, (assoc_L (++)), <- Permutation_cons_append.
  - intros j' Hj'. apply Hj. rewrite (delete_Permutation l c j Hc). by right.
  - intros j' Hj'. apply Hkn. rewrite (delete_Permutation l c j Hc). by right.
Qed.

Lemma done_called quiet k D c a i :
  done_so_far quiet k D c → i ∉ D → (i < k)%nat → (a < m)%nat →
  done_so_far quiet k (D ++ [i])
    (mkCluster (cl_dispatch c)
       (cl_sent c ++ calls_of (Z.of_nat a) (Z.of_nat i) (orig i) (joined i)) (effect i (cl_files c))).
Proof.
  intros [Hh Hd Hb Hr Hs Hf Hq Hfiles Hset] HiD Hi Ha.
  split; cbn [cl_dispatch cl_files cl_sent]; [done| |done| | | | | |done].
  - intros q [Hin|Hin]%elem_of_app; [by apply Hd|]. by apply list_elem_of_singleton in Hin as ->.
  - intros q r Hqr. specialize (Hr q r Hqr). unfold row_ok in *. rewrite about_app, about_calls.
    destruct (decide (i = q)) as [<-|Hne].
    + destruct Hr as [(_ & -> & Hn)|[(Hin & _)|(Hin & _)]]; [|done..].
      right; left. split_and!; [set_solver|done|]. exists a, 0%nat. split_and!; [done|lia|done].
    + rewrite app_nil_r. set_solver.
  - intros u [Hu|Hu]%elem_of_app; [destruct (Hs u Hu) as (b & q & ? & ? & ? & ?); exists b, q; set_solver|].
    exists a, i. split_and!; [done|set_solver|..];
      apply list_elem_of_In in Hu; destruct Hu as [<-|[<-|[]]]; done.
  - rewrite !length_app. cbn. lia.
  - intros Hquiet q Hin. rewrite about_app, about_calls. intros [Hnil Hc]%app_nil.
    destruct (decide (i = q)) as [<-|Hne]; [done|]. apply (Hq Hquiet q); [set_solver|done].
  - rewrite Hfiles. unfold effects. by rewrite fold_left_app.
Qed.

Lemma done_next quiet k D c :
  done_so_far quiet k D c →
  ∃ c', in_dispatch get_next_unprocessed_data_and_use c = (Ret (answer n content_of k), c') ∧
    done_so_far quiet (if (k <? n)%nat then k + 1 else k) D c'.
Proof.
  intros [Hh Hd Hb Hr Hs Hf Hq Hfiles Hset].
  destruct (next_run n k content_of (cl_dispatch c) Hh) as (d' & Hrun & Hh' & Hs' & Ht & Hfm & Hwh).
  exists (mkCluster d' (cl_sent c) (cl_files c)). split.
  { unfold in_dispatch, zoom. by rewrite Hrun. }
  split; cbn [cl_dispatch cl_files cl_sent]; [done| | | |done|done|done|done|].
  - intros i Hi. specialize (Hd i Hi). case_match; lia.
  - destruct (Nat.ltb_spec k n); lia.
  - intros i r Hir. rewrite Hs' in Hir. destruct (Nat.ltb_spec k n) as [Hk|Hk]; [|by apply Hr].
    destruct (decide (i = k)) as [->|Hne].
    + rewrite list_lookup_alter_eq in Hir. apply fmap_Some in Hir as (r0 & Hr0 & ->).
      destruct (Hr k r0 Hr0) as [(Hk1 & Hk2 & Hk3)|[(Hin & _)|(Hin & _)]];
        [by left|specialize (Hd k Hin); lia..].
    + rewrite list_lookup_alter_ne in Hir by done. by apply Hr.
  - destruct Hset as (Hs1 & Hs2 & Hs3). split; [congruence|]. split; congruence.
Qed.

(** The oldest call of an actor is the first one about its block. *)
Lemma first_about D i u l1 l2 r :
  row_ok D (l1 ++ u :: l2) i r → up_block u = Z.of_nat i →
  Forall (λ v, up_actor v ≠ up_actor u) l1 →
  about i l1 = [] ∧ no_counts r ∧ i ∈ D ∧
  ∃ a, (a < m)%nat ∧
    (u = mkUpdate (Z.of_nat a) (Z.of_nat i) PROCSSING None None ∧
     about i l2 = drop 1 (calls_of (Z.of_nat a) (Z.of_nat i) (orig i) (joined i)) ∨
     u = mkUpdate (Z.of_nat a) (Z.of_nat i) PROCESSED (Some (orig i)) (Some (joined i)) ∧ about i l2 = []).
Proof.
  intros Hr Hb Hl1.
  assert (about i (l1 ++ u :: l2) = about i l1 ++ u :: about i l2) as Ha.
  { rewrite about_app. unfold about at 2. by rewrite filter_cons, decide_True. }
  unfold row_ok in Hr. rewrite Ha in Hr.
  destruct Hr as [(_ & Hnil & _)|[(Hin & Hn & a & k & Ham & Hk & Heq)|(_ & Hnil & _)]];
    [by apply app_nil in Hnil as [_ ?]| |by apply app_nil in Hnil as [_ ?]].
  assert (∀ v, v ∈ about i l1 ++ u :: about i l2 → up_actor v = Z.of_nat a) as Hact.
  { intros v Hv. rewrite Heq in Hv. apply list_elem_of_In in Hv.
    destruct k as [|[|k]]; [| |lia]; cbn in Hv; naive_solver. }
  assert (about i l1 = []) as Hnil.
  { destruct (about i l1) as [|v l] eqn:E; [done|]. exfalso.
    assert (v ∈ about i l1) as Hv by (rewrite E; set_solver).
    apply list_elem_of_filter in Hv as [_ Hv]. rewrite Forall_forall in Hl1. apply (Hl1 v Hv).
    rewrite (Hact u), (Hact v); [done|set_solver..]. }
  rewrite Hnil in Heq. cbn [app] in Heq. split_and!; try done. exists a. split; [done|].
  destruct k as [|[|k]]; [left|right|lia]; cbn in Heq; by injection Heq as -> ->.
Qed.

Lemma done_handled quiet k D c a :
  done_so_far quiet k D c →
  ∃ c', handle_call (Z.of_nat a) c = (Ret tt, c') ∧ done_so_far false k D c' ∧
    ∀ b, calls_by b (cl_sent c')
         = (calls_by b (cl_sent c) - (if Nat.eqb b a then 1 else 0))%nat.
Proof.
  intros [Hh Hd Hb Hr Hs Hf Hq Hfiles Hset]. unfold handle_call. rewrite run_bind. cbn [getM].
  pose proof (take_call_spec (Z.of_nat a) (cl_sent c)) as Ht.
  destruct (take_call (Z.of_nat a) (cl_sent c)) as [[u rest]|]; cycle 1.
  { exists c. split_and!; [done|by split|]. intros b. destruct (Nat.eqb_spec b a) as [->|]; [|lia].
    unfold calls_by. assert (filter (λ u, up_actor u = Z.of_nat a) (cl_sent c) = []) as ->; [|done].
    apply elem_of_nil_inv. intros v [Hv Hin]%list_elem_of_filter. rewrite Forall_forall in Ht. by apply (Ht v). }
  destruct Ht as (l1 & l2 & Hsent & -> & Hua & Hl1).
  destruct (Hs u ltac:(rewrite Hsent; set_solver)) as (a' & i & Ha' & Hi & Hua' & Hub).
  pose proof (Hd i Hi) as Hik. pose proof (hd_length _ _ _ _ Hh) as Hlen.
  destruct (lookup_lt_is_Some_2 (bd_data_status (cl_dispatch c)) i) as [r Hir]; [lia|].
  pose proof (Hr i r Hir) as Hrow. rewrite Hsent in Hrow.
  destruct (first_about D i u l1 l2 r Hrow Hub) as (Hnil & Hno & _ & a1 & Ha1 & Hu).
  { by rewrite Hua. }
  assert (up_status u ≠ INIT) as Hst by (by destruct Hu as [[-> _]|[-> _]]).
  rewrite run_bind. cbn [modify]. unfold catchM, in_dispatch, zoom. cbn [cl_dispatch].
  rewrite report_run by (rewrite Hub; unfold zlen; lia). cbn [cl_sent cl_files].
  eexists. split; [reflexivity|]. split.
  - split; cbn [cl_dispatch cl_files cl_sent]; [|done|done| | | | |done|done].
    + apply report_handed; [done|lia|done|done].
    + intros q r' Hq'. cbn in Hq'. rewrite Hub, Nat2Z.id in Hq'.
      destruct (decide (q = i)) as [->|Hne].
      * rewrite list_lookup_insert_eq in Hq' by lia. injection Hq' as <-.
        unfold row_ok. rewrite about_app, Hnil. cbn [app].
        destruct Hu as [[-> Hl2]|[-> Hl2]]; rewrite Hl2.
        -- right; left. split_and!; [done|done|]. exists a1, 1%nat. split_and!; [done|lia|done].
        -- by right; right.
      * rewrite list_lookup_insert_ne in Hq' by done. pose proof (Hr q r' Hq') as Hrq.
        assert (about q (l1 ++ l2) = about q (cl_sent c)) as Hab.
        { rewrite Hsent, !about_app. f_equal. unfold about. by rewrite filter_cons, decide_False by lia. }
        unfold row_ok in *. by rewrite Hab.
    + intros v Hv. apply Hs. rewrite Hsent. set_solver.
    + rewrite Hsent in Hf. rewrite length_app in Hf |- *. cbn in Hf. lia.
    + done.
  - intros b. rewrite Hsent. unfold calls_by. cbn [cl_sent].
    rewrite !filter_app, !filter_cons, !length_app.
    destruct (Nat.eqb_spec b a) as [->|Hne]; [rewrite decide_True by done|rewrite decide_False by lia];
      cbn [length]; lia.
Qed.

Lemma collected_next D outs last i :
  collected D outs last → (i < n)%nat →
  collected (D ++ [i])
    (match typ, ref_of i with
     | File, Some t => <[i := Some t]> outs
     | _, _ => outs
     end) (ref_of i).
Proof.
  intros [Ho Hl Hla] Hi. split.
  - intros q Hq.
    assert (∀ x, x ∈ D ++ [i] ↔ x ∈ D ∨ x = i) as Hin by set_solver.
    destruct typ eqn:Et.
    + rewrite Ho by done. rewrite !decide_False by naive_solver. done.
    + destruct (ref_of i) as [t|] eqn:Er.
      * destruct (decide (q = i)) as [->|Hne].
        { rewrite list_lookup_insert_eq by lia. rewrite decide_True by set_solver. by rewrite Er. }
        rewrite list_lookup_insert_ne, Ho by done.
        destruct (decide (q ∈ D)); [rewrite !decide_True by set_solver|rewrite !decide_False by naive_solver];
          done.
      * rewrite Ho by done. destruct (decide (q = i)) as [->|Hne].
        { rewrite Er. by repeat case_decide. }
        destruct (decide (q ∈ D)); [rewrite !decide_True by set_solver|rewrite !decide_False by naive_solver];
          done.
    + rewrite Ho by done. rewrite !decide_False by naive_solver. done.
  - destruct typ, (ref_of i); by rewrite ?length_insert.
  - intros _. exists i. set_solver.
Qed.

Lemma complete_run quiet k D s c :
  job_runs → progress quiet k D s → (c < length (rs_result_refs s))%nat →
  ∃ s' i, complete_job psi args typ protocol format c s = (Ret tt, s') ∧
    progress quiet (if (k <? n)%nat then k + 1 else k) (D ++ [i]) s'.
Proof.
  intros Hjob [Hdone Hpend Hcol] Hc.
  destruct (lookup_lt_is_Some_2 _ _ Hc) as [j Hj].
  destruct (pending_lookup k D _ c j Hpend Hj) as (i & Hi & Hik & Hin & HiD & Hx & _).
  assert (job_actor j < m)%nat as Ha by (apply (pd_known _ _ _ Hpend); by eapply list_elem_of_lookup_2).
  set (c1 := mkCluster (cl_dispatch (rs_cluster s))
               (cl_sent (rs_cluster s)
                  ++ calls_of (Z.of_nat (job_actor j)) (Z.of_nat i) (orig i) (joined i))
               (effect i (cl_files (rs_cluster s)))).
  assert (run_job psi args typ protocol format j s
          = (Ret (Z.of_nat (job_actor j), Z.of_nat i, ref_of i), rs_set_cluster c1 s)) as Hrun.
  { unfold run_job, on_cluster, zoom. destruct (rs_cluster s) as [d u fs] eqn:E.
    rewrite Hi, (Hjob i _ _ d u fs Hin Hx). done. }
  pose proof (done_called quiet k D _ _ i Hdone HiD Hik Ha) as Hdone1. fold c1 in Hdone1.
  destruct (done_next quiet k _ c1 Hdone1) as (c2 & Hnext & Hdone2).
  unfold complete_job. rewrite run_bind. cbn [getM]. rewrite Hj.
  rewrite run_bind, Hrun. cbv beta iota.
  rewrite run_bind. cbn [modify]. rewrite run_bind. unfold next_block, on_cluster, zoom.
  cbn [rs_cluster rs_set_output rs_set_cluster]. rewrite Hnext. cbn [modify].
  eexists _, i. split; [reflexivity|].
  pose proof (collected_next D _ _ i Hcol Hin) as Hcol'. rewrite !Nat2Z.id.
  split; cbn [rs_cluster rs_result_refs rs_data_output_refs rs_completed_block_data rs_set_output
              rs_set_refs rs_set_cluster]; [done| |].
  - unfold answer. destruct (Nat.ltb_spec k n) as [Hk|Hk].
    + destruct (hd_content _ _ _ _ (df_handed _ _ _ _ Hdone) k) as [[x Hxk] _]; [lia|].
      rewrite Hxk. cbn [fmap option_fmap option_map].
      destruct (pd_actors _ _ _ Hpend Hk) as [_ Hact]. rewrite (Hact c j Hj) in *.
      by eapply pending_next.
    + assert (k = n) as -> by (pose proof (pd_bound _ _ _ Hpend); lia).
      by eapply pending_last.
  - clear -Hcol'. revert Hcol'. by destruct typ.
Qed.

Lemma progress_count quiet k D s :
  progress quiet k D s → (length (rs_result_refs s) + length D = k)%nat.
Proof.
  intros [_ [Hb _ _ _ _] _]. apply Permutation_length in Hb.
  rewrite length_app, length_seq in Hb. unfold blocks_of_refs in Hb. by rewrite length_fmap in Hb.
Qed.

(** No job is left when there are no references. *)
Lemma progress_over quiet k D s :
  (0 < m)%nat → progress quiet k D s → rs_result_refs s = [] → k = n ∧ D ≡ₚ seq 0 n.
Proof.
  intros Hm [_ Hp _] Hnil. rewrite Hnil in Hp. pose proof (pd_bound _ _ _ Hp) as Hb.
  assert (k = n) as ->.
  { destruct (decide (k = n)) as [|Hne]; [done|].
    destruct (pd_actors _ _ _ Hp) as [Hl _]; [lia|]. cbn in Hl. lia. }
  split; [done|]. exact (pd_blocks _ _ _ Hp).
Qed.

(** Handling a call in a run. *)
Lemma progress_handled quiet k D s a :
  progress quiet k D s →
  ∃ s', on_cluster (handle_call (Z.of_nat a)) s = (Ret tt, s') ∧ progress false k D s' ∧
    rs_result_refs s' = rs_result_refs s ∧
    ∀ b, calls_by b (cl_sent (rs_cluster s'))
         = (calls_by b (cl_sent (rs_cluster s)) - (if Nat.eqb b a then 1 else 0))%nat.
Proof.
  intros [Hd Hp Hc]. destruct (done_handled quiet k D _ a Hd) as (c' & Hrun & Hd' & Hby).
  exists (rs_set_cluster c' s). unfold on_cluster, zoom. rewrite Hrun. by split_and!.
Qed.

Lemma quiet_and quiet t sched :
  quiet && forallb (λ t, negb (is_handle t)) (t :: sched)
  = (quiet && negb (is_handle t)) && forallb (λ t, negb (is_handle t)) sched.
Proof. cbn [forallb]. by rewrite andb_assoc. Qed.
Lemma still_quiet quiet quiet' k D s :
  progress quiet k D s → (quiet' = true → quiet = true) → progress quiet' k D s.
Proof.
  intros [[Hh Hd Hb Hr Hs Hf Hq Hfiles Hset] Hp Hc] Hi.
  split; [split; try done; auto|done|done].
Qed.

(** The wait ends within [sched1]; what is left of it comes before [sched2]. *)
Lemma wait_run sched2 sched1 : job_runs → (0 < m)%nat → ∀ quiet k D s,
  progress quiet k D s → rs_result_refs s ≠ [] → (n ≤ length D + readies sched1)%nat →
  ∃ s' D' rest, wait_loop psi args typ protocol format (sched1 ++ sched2) s
                = (Ret (rest ++ sched2), s') ∧
    progress (quiet && forallb (λ t, negb (is_handle t)) sched1) n D' s' ∧ D' ≡ₚ seq 0 n ∧
    (Forall (λ t, is_handle t = false) sched1 → Forall (λ t, is_handle t = false) rest).
Proof.
  intros Hjob Hm. induction sched1 as [|t sched IH]; intros quiet k D s Hp Hne Hs.
  { exfalso. pose proof (progress_count _ _ _ _ Hp) as Hc.
    pose proof (pd_bound _ _ _ (pr_pending _ _ _ _ Hp)). destruct (rs_result_refs s); [done|].
    change (readies []) with 0%nat in Hs. simpl in Hc. lia. }
  rewrite readies_cons in Hs. rewrite quiet_and. cbn [app wait_loop]. rewrite run_bind. cbn [gets].
  destruct (rs_result_refs s) as [|j0 l0] eqn:El; [done|]. destruct t as [c| |a].
  - set (q := (c mod length (j0 :: l0))%nat).
    assert (q < length (rs_result_refs s))%nat as Hq by (rewrite El; by apply Nat.mod_upper_bound).
    destruct (complete_run quiet k D s q Hjob Hp Hq) as (s' & i & Hrun & Hp').
    rewrite run_bind, Hrun, run_bind. cbn [gets is_handle negb]. rewrite andb_true_r.
    destruct (rs_result_refs s') as [|j1 l1] eqn:El'.
    + destruct (progress_over _ _ _ _ Hm Hp' El') as [Hk HD]. rewrite Hk in Hp'.
      exists s', (D ++ [i]), sched. split_and!; [done| |done|by intros [_ ?]%Forall_cons].
      eapply still_quiet; [exact Hp'|]. by intros [? _]%andb_prop.
    + destruct (IH quiet _ _ s' Hp') as (s2 & D2 & rest & Hr2 & Hp2 & HD2 & Hq2);
        [by rewrite El'|rewrite length_app; cbn [is_ready] in Hs; cbn; lia|].
      exists s2, D2, rest. split_and!; [done|done|done|by intros [_ ?]%Forall_cons; auto].
  - destruct (IH quiet k D s Hp) as (s2 & D2 & rest & Hr2 & Hp2 & HD2 & Hq2); [by rewrite El|done|].
    exists s2, D2, rest. cbn [is_handle negb]. rewrite andb_true_r.
    split_and!; [done|done|done|by intros [_ ?]%Forall_cons; auto].
  - destruct (progress_handled quiet k D s a Hp) as (s' & Hrun & Hp' & Hrefs & _).
    rewrite run_bind, Hrun.
    destruct (IH false k D s' Hp') as (s2 & D2 & rest & Hr2 & Hp2 & HD2 & Hq2);
      [by rewrite Hrefs, El|done|].
    exists s2, D2, rest. cbn [is_handle negb]. rewrite andb_false_r.
    split_and!; [done|done|done|by intros [? _]%Forall_cons].
Qed.

Lemma late_run sched : ∀ quiet k D s,
  progress quiet k D s →
  ∃ s', late_calls sched s = (Ret tt, s') ∧
    progress (quiet && forallb (λ t, negb (is_handle t)) sched) k D s' ∧
    rs_result_refs s' = rs_result_refs s ∧
    ∀ b, calls_by b (cl_sent (rs_cluster s'))
         = (calls_by b (cl_sent (rs_cluster s)) - handles b sched)%nat.
Proof.
  unfold late_calls. induction sched as [|t sched IH]; intros quiet k D s Hp.
  { exists s. rewrite andb_true_r. split_and!; [done|done|done|]. intros b. change (handles b []) with 0%nat. lia. }
  rewrite quiet_and. cbn [forM]. rewrite run_bind. destruct t as [c| |a]; cbn [is_handle negb].
  1,2: cbn [mret M_ret]; destruct (IH quiet k D s Hp) as (s' & Hr & Hp' & Hl & Hb); exists s';
    rewrite andb_true_r; split_and!; try done; intros b; rewrite handles_cons; apply Hb.
  destruct (progress_handled quiet k D s a Hp) as (s1 & Hrun & Hp1 & Hl1 & Hb1). rewrite Hrun.
  destruct (IH false k D s1 Hp1) as (s' & Hr & Hp' & Hl & Hb). exists s'. rewrite andb_false_r.
  split_and!; [done|done|congruence|]. intros b. rewrite handles_cons, Hb, Hb1. cbn [handles_of]. lia.
Qed.

(** While the first blocks go out, there is one reference per actor. *)
Lemma start_actors_run quiet : (m ≤ n)%nat → ∀ l k s,
  (k + l = m)%nat → done_so_far quiet k [] (rs_cluster s) →
  rs_result_refs s = (λ i, mkJob i (Z.of_nat i) (default (BRef None) (content_of i))) <$> seq 0 k →
  (∀ i, (i < n)%nat → is_Some (content_of i)) →
  ∃ s', start_actors (seq k l) s = (Ret tt, s') ∧ done_so_far quiet m [] (rs_cluster s') ∧
    rs_result_refs s' = (λ i, mkJob i (Z.of_nat i) (default (BRef None) (content_of i))) <$> seq 0 m ∧
    rs_data_output_refs s' = rs_data_output_refs s.
Proof.
  intros Hm. induction l as [|l IH]; intros k s Hk Hdone Hrefs Hsome.
  - exists s. assert (k = m) as -> by lia. done.
  - destruct (done_next quiet k [] _ Hdone) as (c' & Hnext & Hdone').
    cbn [seq start_actors]. rewrite run_bind. unfold next_block, on_cluster, zoom. rewrite Hnext.
    unfold answer. rewrite (proj2 (Nat.ltb_lt k n)) in Hdone' |- * by lia.
    destruct (Hsome k) as [x Hx]; [lia|]. rewrite Hx. cbn [fmap option_fmap option_map].
    rewrite run_bind. cbn [modify].
    destruct (IH (S k) (rs_set_refs (rs_result_refs (rs_set_cluster c' s) ++ [mkJob k (Z.of_nat k) x])
                          (rs_set_cluster c' s))) as (s' & Hrun & Hd & Hr & Ho).
    + lia.
    + cbn. by rewrite Nat.add_1_r in Hdone'.
    + cbn [rs_result_refs rs_set_refs rs_set_cluster].
      rewrite Hrefs, (seq_S k 0), fmap_app. cbn. by rewrite Hx.
    + done.
    + by exists s'.
Qed.
End run.

(** ** A whole run *)
Section whole.
Context `{Blake} `{ArrowLaws T, !FileSystem, !RaySort T}.
Context (psi : RoleType → string → T → outcome (option T)) (args : app_args).

Definition fresh_status (n : nat) : list block_row := replicate n (INIT, None, None).
Definition sum_counts (l : list nat) (f : nat → counts) : counts :=
  fold_left (λ a i, add_counts a (Some (f i))) l (0, 0, 0).

Lemma fresh_handed (d : dispatcher T) n content_of :
  bd_data_status d = fresh_status n → (∀ i, (i < n)%nat → content d i = content_of i) →
  (∀ i, (i < n)%nat → is_Some (content_of i)) → handed n 0 content_of d.
Proof.
  intros Hs Hc Hsome. split.
  - by rewrite Hs; unfold fresh_status; rewrite length_replicate.
  - intros i r Hr. rewrite Hs in Hr. apply lookup_replicate in Hr as [-> _].
    split; [intros _; lia|done].
  - intros i Hi. split; [apply Hsome; lia|apply Hc; lia].
Qed.

(** The totals of rows of which some have counts. *)
Lemma rows_totals (orig joined : nat → counts) (P : nat → bool) (rows : list block_row) : ∀ k acc,
  (∀ i r, rows !! i = Some r →
     r.1.2 = (if P (k + i)%nat then Some (orig (k + i)%nat) else None) ∧
     r.2 = (if P (k + i)%nat then Some (joined (k + i)%nat) else None)) →
  let heard := filter (λ i, P i = true) (seq k (length rows)) in
  fold_left (λ acc (e : block_row), (add_counts acc.1 e.1.2, add_counts acc.2 e.2)) rows acc
  = (fold_left (λ a i, add_counts a (Some (orig i))) heard acc.1,
     fold_left (λ a i, add_counts a (Some (joined i))) heard acc.2).
Proof.
  induction rows as [|r rows IH]; intros k acc Hr; [by destruct acc|].
  cbn [length seq fold_left]. rewrite filter_cons.
  destruct (Hr 0%nat r eq_refl) as [Ho Hj]. rewrite Nat.add_0_r in Ho, Hj.
  rewrite (IH (S k)) by (intros i r' Hi; rewrite Nat.add_succ_comm; by apply (Hr (S i))).
  rewrite Ho, Hj. by destruct (P k).
Qed.

Section jobs.
Context (typ : FileType) (protocol format : string) (n : nat).
Context (content_of : nat → option (block_data T)) (orig joined : nat → counts).
Context (ref_of : nat → option T) (effect : nat → outputs → outputs).
Context (fs0 : outputs) (d : dispatcher T) (m : nat).
Context (Hjob : job_runs psi args typ protocol format n content_of orig joined ref_of effect).
Context (Hst : bd_data_status d = fresh_status n) (Hcont : ∀ i, (i < n)%nat → content d i = content_of i).
Context (Hsome : ∀ i, (i < n)%nat → is_Some (content_of i)) (Hm : (0 < m)%nat) (Hmn : (m ≤ n)%nat).
Local Abbreviation s0 := (mkRun (mkCluster d [] fs0) [] (replicate n None) None).
Local Abbreviation progress := (progress typ n content_of orig joined ref_of effect m fs0 d).

Lemma started_run :
  ∃ s, start_actors (seq 0 m) s0 = (Ret tt, s) ∧ progress true m [] s ∧ rs_result_refs s ≠ [].
Proof.
  assert (done_so_far n content_of orig joined effect m fs0 d true 0 [] (rs_cluster s0)) as Hd0.
  { split; cbn [rs_cluster cl_dispatch cl_sent cl_files]; try done.
    - by apply fresh_handed.
    - intros i Hi. by apply elem_of_nil in Hi.
    - lia.
    - intros i r Hr. rewrite Hst in Hr. apply lookup_replicate in Hr as [-> _].
      left. split_and!; [set_solver|done|done].
    - intros u Hu. by apply elem_of_nil in Hu.
    - intros _ i Hi. by apply elem_of_nil in Hi. }
  destruct (start_actors_run n content_of orig joined effect m fs0 d true Hmn m 0 s0)
    as (s1 & Hrun1 & Hd1 & Hr1 & Ho1); [done|done|done|done|].
  exists s1. split; [done|]. split; [|rewrite Hr1; destruct m; [lia|done]].
  split; [done|..].
  - rewrite Hr1. split.
    + unfold blocks_of_refs. rewrite app_nil_r, <- list_fmap_compose.
      rewrite (list_fmap_ext _ id); [by rewrite list_fmap_id|]. intros. simpl. by rewrite Nat2Z.id.
    + intros j Hj. apply list_elem_of_fmap in Hj as (i & -> & Hi). apply elem_of_seq in Hi. simpl.
      split; [lia|]. rewrite Nat2Z.id. destruct (Hsome i) as [x Hx]; [lia|]. by rewrite Hx.
    + intros j Hj. apply list_elem_of_fmap in Hj as (i & -> & Hi). apply elem_of_seq in Hi. simpl. lia.
    + intros _. rewrite length_fmap, length_seq. split; [done|]. intros i j Hj.
      rewrite list_lookup_fmap in Hj. apply fmap_Some in Hj as (q & Hq & ->).
      apply lookup_seq in Hq as [-> _]. done.
    + done.
  - rewrite Ho1. split.
    + intros i Hi. cbn. rewrite decide_False by (intros [Hin _]; by apply elem_of_nil in Hin).
      apply lookup_replicate. by split; [|lia].
    + apply length_replicate.
    + done.
Qed.

Lemma run_jobs_run s1 s2 :
  (n ≤ readies s1)%nat →
  ∃ s D, run_jobs psi args typ protocol format m (s1 ++ s2) s0 = (Ret tt, s) ∧
    D ≡ₚ seq 0 n ∧ (∃ quiet, progress quiet n D s ∧
      (Forall (λ t, is_handle t = false) (s1 ++ s2) → quiet = true)) ∧
    ∀ b, (calls_by b (cl_sent (rs_cluster s)) ≤ 2 * n - handles b s2)%nat.
Proof.
  intros Hs. destruct started_run as (sa & Hrun & Hp & Hne).
  destruct (wait_run psi args typ protocol format n content_of orig joined ref_of effect m fs0 d s2 s1
              Hjob Hm true m [] sa Hp Hne Hs) as (sb & D & rest & Hw & Hpb & HD & Hrest).
  destruct (late_run typ n content_of orig joined ref_of effect m fs0 d (rest ++ s2) _ _ _ _ Hpb)
    as (sc & Hl & Hpc & _ & Hby).
  exists sc, D. split; [unfold run_jobs; by rewrite run_bind, Hrun, run_bind, Hw|].
  split; [done|]. split.
  - eexists. split; [exact Hpc|]. intros [Hq1 Hq2]%Forall_app.
    assert (∀ l, Forall (λ t, is_handle t = false) l → forallb (λ t, negb (is_handle t)) l = true) as Hq.
    { intros l Hq. induction Hq as [|t l Ht _ IH]; [done|]. cbn. by rewrite Ht, IH. }
    rewrite !Hq; [done| |done]. apply Forall_app. auto.
  - intros b. rewrite Hby, handles_app.
    pose proof (df_few _ _ _ _ _ _ _ _ _ _ _ _ (pr_done _ _ _ _ _ _ _ _ _ _ _ _ _ _ Hpb)) as Hf.
    apply Permutation_length in HD. rewrite length_seq in HD.
    assert (calls_by b (cl_sent (rs_cluster sb)) ≤ length (cl_sent (rs_cluster sb)))%nat
      by apply length_filter. lia.
Qed.

(** All the blocks of a fresh dispatcher, for any schedule. *)
Lemma jobs_run sched :
  (n ≤ readies sched)%nat →
  ∃ s D heard, run_jobs psi args typ protocol format m sched s0 = (Ret tt, s) ∧
    D ≡ₚ seq 0 n ∧ heard_in m n sched heard ∧
    get_results (cl_dispatch (rs_cluster s)) = (sum_counts heard orig, sum_counts heard joined) ∧
    cl_files (rs_cluster s) = effects effect fs0 D ∧
    same_settings d (cl_dispatch (rs_cluster s)) ∧
    (typ = File → rs_data_output_refs s = ref_of <$> seq 0 n) ∧
    (∃ i, (i < n)%nat ∧ rs_completed_block_data s = ref_of i).
Proof.
  intros Hs. destruct (run_jobs_run sched [] Hs) as (s & D & Hrun & HD & (quiet & Hp & Hq) & _).
  rewrite app_nil_r in Hrun, Hq.
  pose proof Hp as [[Hh _ _ Hrows Hsent _ Hquiet Hf Hset] _ [Ho Hol Hla]].
  assert (∀ i, (i < n)%nat → i ∈ D) as Hin by (intros i Hi; rewrite HD; apply elem_of_seq; lia).
  set (sent := cl_sent (rs_cluster s)) in *. pose proof (hd_length _ _ _ _ Hh) as Hlen.
  set (P := λ i, bool_decide (length (about i sent) = 0)%nat).
  exists s, D, (filter (λ i, P i = true) (seq 0 n)). split_and!; try done.
  - split; [apply sublist_filter| |].
    + intros (t1 & t2 & -> & Hr & Hall).
      destruct (run_jobs_run t1 t2 Hr) as (s' & D' & Hrun' & _ & _ & Hby).
      rewrite Hrun in Hrun'. injection Hrun' as <-.
      assert (sent = []) as Hnil.
      { apply elem_of_nil_inv. intros u Hu. destruct (Hsent u Hu) as (a & i & Ha & _ & Hua & _).
        specialize (Hby a). specialize (Hall a Ha). fold sent in Hby. unfold calls_by in Hby.
        assert (u ∈ filter (λ u, up_actor u = Z.of_nat a) sent) as Hin' by (by apply list_elem_of_filter).
        destruct (filter (λ u, up_actor u = Z.of_nat a) sent); [by apply elem_of_nil in Hin'|].
        cbn in Hby. lia. }
      unfold P. rewrite Hnil. by apply filter_every.
    + intros Hno. apply elem_of_nil_inv. intros i [HP Hi]%list_elem_of_filter. apply elem_of_seq in Hi.
      apply bool_decide_eq_true in HP. apply nil_length_inv in HP.
      by apply (Hquiet (Hq Hno) i (Hin i ltac:(lia))).
  - unfold get_results. rewrite (rows_totals orig joined P _ 0 ((0, 0, 0), (0, 0, 0))).
    + by rewrite Hlen.
    + intros i r Hr. rewrite Nat.add_0_l.
      assert (i < n)%nat as Hi by (rewrite <- Hlen; by eapply lookup_lt_Some).
      unfold P. destruct (Hrows i r Hr) as [(Hn & _)|[(_ & [Hn1 Hn2] & a & k & _ & Hk & Ha)|(_ & Ha & ->)]].
      * by destruct (Hn (Hin i Hi)).
      * rewrite bool_decide_false; [done|]. fold sent in Ha. rewrite Ha. by destruct k as [|[|k]]; [..|lia].
      * fold sent in Ha. rewrite Ha. by rewrite bool_decide_true.
  - intros Ht. apply list_eq. intros i. rewrite list_lookup_fmap.
    destruct (decide (i < n)%nat) as [Hi|Hi].
    + rewrite lookup_seq_lt, Ho by done. cbn. by rewrite decide_True by auto.
    + rewrite lookup_seq_ge by lia. apply lookup_ge_None_2. rewrite Hol. lia.
  - destruct Hla as (i & Hi & Hl).
    + intros ->. apply Permutation_nil_l in HD. destruct n; [lia|done].
    + exists i. split; [|done]. rewrite HD in Hi. apply elem_of_seq in Hi. lia.
Qed.
End jobs.

(** The actor's number does not matter to its work. *)
Lemma read_list_actor typ a b protocol delim data l :
  read_list (actor_at args typ a) protocol delim data l
  = read_list (actor_at args typ b) protocol delim data l.
Proof.
  revert data. induction l as [|p l IH]; intros data; [done|]. cbn [read_list].
  change (read_data (actor_at args typ a) protocol p delim)
    with (read_data (actor_at args typ b) protocol p delim).
  destruct (read_data _ protocol p delim); [|done]. rewrite !bind_Ret.
  destruct data as [x|]; [destruct (concat_tables _); [|done]|]; rewrite !bind_Ret; apply IH.
Qed.
Lemma join_block_actor typ a b i protocol block delim :
  join_block psi (actor_at args typ a) i protocol block delim
  = join_block psi (actor_at args typ b) i protocol block delim.
Proof.
  unfold join_block.
  assert (read_block_data (actor_at args typ a) protocol block delim
          = read_block_data (actor_at args typ b) protocol block delim) as ->; [|done].
  unfold read_block_data.
  assert (load_block (actor_at args typ a) protocol block delim
          = load_block (actor_at args typ b) protocol block delim) as ->; [|done].
  destruct block as [[t|]|[p|l]]; [done|done|done|]. cbn [load_block].
  by rewrite (read_list_actor typ a b).
Qed.

Lemma init_data_shape (d d' : dispatcher T) :
  init_data d = (Ret tt, d') →
  bd_data_status d' = fresh_status (if is_data_single_file d' then Z.to_nat (bd_data_block_count d')
                                    else length (bd_data_paths d')).
Proof.
  intros Hrun. unfold init_data in Hrun.
  apply run_bind_inv in Hrun as ([] & d1 & _ & Hrun).
  assert (∀ (c : M (dispatcher T) unit) x, (c;; init_status) x = (Ret tt, d') →
            bd_data_status d' = fresh_status (if is_data_single_file d' then Z.to_nat (bd_data_block_count d')
                                              else length (bd_data_paths d'))) as Hlast.
  { intros c x Hc. apply run_bind_inv in Hc as ([] & d2 & _ & Hc).
    unfold init_status in Hc. cbn [modify] in Hc. injection Hc as <-. done. }
  unfold init_data_path_and_format in Hrun. rewrite run_bind in Hrun. cbn [gets] in Hrun.
  case_bool_decide; [|case_bool_decide; [done|]].
  - unfold init_data_path_and_format_with_hdfs in Hrun.
    apply run_bind_inv in Hrun as (d2 & d3 & _ & Hrun).
    apply run_bind_inv in Hrun as ([net path] & d4 & _ & Hrun).
    apply run_bind_inv in Hrun as ([] & d5 & _ & Hrun).
    apply run_bind_inv in Hrun as (p & d6 & _ & Hrun).
    apply run_bind_inv in Hrun as ([] & d7 & _ & Hrun).
    apply run_bind_inv in Hrun as (p' & d8 & _ & Hrun).
    by apply Hlast in Hrun.
  - unfold init_data_path_and_format_with_locals in Hrun.
    apply run_bind_inv in Hrun as (d2 & d3 & _ & Hrun).
    apply run_bind_inv in Hrun as ([] & d5 & _ & Hrun).
    apply run_bind_inv in Hrun as (p & d6 & _ & Hrun).
    apply run_bind_inv in Hrun as ([] & d7 & _ & Hrun).
    apply run_bind_inv in Hrun as ([] & d8 & _ & Hrun).
    by apply Hlast in Hrun.
Qed.
End whole.

Section results.
Context `{Blake} `{ArrowLaws T, !FileSystem, !RaySort T}.

Definition psi_report (o j : counts) (output_dir : string) : report :=
  [("local", RInt o.1.1); ("join", RInt j.1.1); ("percent", percent j o);
   ("output", RStr output_dir)].

(** Inserts under different keys, in any order. *)
Lemma effects_insert (key : nat → string * string) (v : nat → string) (fs : outputs) D :
  NoDup D → (∀ i j, i ∈ D → j ∈ D → key i = key j → i = j) →
  (∀ i, i ∈ D → effects (λ i fs, <[key i := v i]> fs) fs D !! key i = Some (v i)) ∧
  (∀ k, (∀ i, i ∈ D → k ≠ key i) → effects (λ i fs, <[key i := v i]> fs) fs D !! k = fs !! k).
Proof.
  unfold effects. revert fs. induction D as [|i D IH]; intros fs Hnd Hinj.
  - split; [by intros i Hi%elem_of_nil|done].
  - apply NoDup_cons in Hnd as [Hi Hnd]. cbn [fold_left].
    destruct (IH (<[key i := v i]> fs) Hnd) as [IH1 IH2].
    { intros p q Hp Hq. apply Hinj; set_solver. }
    split.
    + intros j [->|Hj]%elem_of_cons; [|by apply IH1].
      etrans; [apply IH2|apply lookup_insert_eq].
      intros q Hq Heq. apply Hinj in Heq; set_solver.
    + intros k Hk. etrans; [apply IH2; set_solver|]. apply lookup_insert_ne.
      intros Heq. apply (Hk i); [set_solver|done].
Qed.

Lemma effects_id (fs : outputs) D : effects (λ _ fs, fs) fs D = fs.
Proof. unfold effects. by induction D. Qed.

Lemma part_path_inj base format i j :
  part_path base format (Z.of_nat i) = part_path base format (Z.of_nat j) → i = j.
Proof.
  unfold part_path. intros Heq. do 2 apply Str.append_inj_l in Heq.
  apply Str.append_inj_r in Heq. apply Str.zfill_of_int_inj in Heq; lia.
Qed.

Lemma write_outputs_run (d : dispatcher T) head out delim (t : nat → T) l k fs b :
  infer_format out = "csv" → fs !! ("", out) = Some b → (0 < k)%nat →
  write_outputs false head k ((λ i, Some (t i)) <$> seq k l) out delim fs
  = (Ret tt, <[("", out) := b +:+ Str.concat ((λ i, csv_bytes out false delim (t i)) <$> seq k l)]> fs).
Proof.
  intros Hf. revert k fs b. induction l as [|l IH]; intros k fs b Hb Hk.
  - cbn [seq fmap list_fmap write_outputs Str.concat].
    rewrite Str.append_nil_r. unfold mret, M_ret. f_equal. symmetry. by apply insert_id.
  - cbn [seq fmap list_fmap write_outputs]. destruct k as [|k]; [lia|]. cbn [Nat.eqb negb andb].
    rewrite run_bind. unfold write_data_to_file, write_data_to_filesystem. rewrite Hf.
    rewrite bool_decide_true by (apply list_elem_of_In; simpl; auto). cbn [modify].
    rewrite Hb. cbn [default from_option id].
    erewrite IH; [|apply lookup_insert_eq|lia]. f_equal.
    cbn [Str.concat]. rewrite Str.append_assoc. apply insert_insert_eq.
Qed.
End results.

(** ** Properties *)
Section properties.
Context `{Blake} `{ArrowLaws T, !FileSystem, !RaySort T}.
Context (psi : RoleType → string → T → outcome (option T)) (args : app_args).
Context (orig joined : nat → counts) (out result : nat → T).

(** What the blocks of a run come to: the join of block [i], and the table
    that is written for it. *)
Definition block_joins (typ : FileType) (protocol : string) (i : nat) (x : block_data T) : Prop :=
  join_block psi (actor_at args typ 0) (Z.of_nat i) protocol x (aa_csv_delimiter args)
    = Ret (orig i, out i, joined i) ∧
  drop_columns [STATIC_HASHED_VALUE_COLUMN_NAMES] (out i) = Ret (result i).

(** The actors that are started. *)
Lemma actors_bounds n :
  (0 < n)%nat → 0 < aa_max_actors args →
  let m := if Z.of_nat n <=? aa_max_actors args then Z.of_nat n else aa_max_actors args in
  (0 < Z.to_nat m)%nat ∧ (Z.to_nat m ≤ n)%nat ∧ (Z.to_nat m ≤ Z.to_nat (aa_max_actors args))%nat.
Proof. intros Hn Hm m. unfold m. destruct (Z.leb_spec (Z.of_nat n) (aa_max_actors args)); lia. Qed.

Lemma heard_in_more m m' n sched heard :
  heard_in m n sched heard → (m ≤ m')%nat → heard_in m' n sched heard.
Proof.
  intros [Hb Ha Hn] Hm. split; [done| |done].
  intros (s1 & s2 & Hs & Hr & Hh). apply Ha. exists s1, s2. split_and!; [done|done|].
  intros a Ham. apply Hh. lia.
Qed.

Lemma directory_jobs protocol format n content_of :
  (∀ i x, (i < n)%nat → content_of i = Some x → block_joins Directory protocol i x) →
  (∀ i, (i < n)%nat →
     infer_protocol (part_path (aa_output_dir args) format (Z.of_nat i)) = "nfs" ∧
     infer_format (part_path (aa_output_dir args) format (Z.of_nat i)) = "csv") →
  job_runs psi args Directory protocol format n content_of orig joined (λ _, None)
    (λ i fs, <[("", part_path (aa_output_dir args) format (Z.of_nat i)) :=
                csv_bytes (part_path (aa_output_dir args) format (Z.of_nat i)) (aa_with_head args)
                  (aa_csv_delimiter args) (result i)]> fs).
Proof.
  intros Hj Ho i x a d u fs Hi Hx. destruct (Hj i x Hi Hx) as [Hjoin Hdrop].
  destruct (Ho i Hi) as [Hn Hf].
  rewrite (directory_action_run psi (actor_at args Directory a) _ _ _ _ _ _ d u fs (orig i) (out i)
    (joined i) (result i)); try done.
  by rewrite (join_block_actor psi args Directory a 0).
Qed.


Lemma file_jobs protocol format n content_of :
  (∀ i x, (i < n)%nat → content_of i = Some x → block_joins File protocol i x) →
  job_runs psi args File protocol format n content_of orig joined (λ i, Some (result i)) (λ _ fs, fs).
Proof.
  intros Hj i x a d u fs Hi Hx. destruct (Hj i x Hi Hx) as [Hjoin Hdrop].
  rewrite (file_action_run psi (actor_at args File a) _ _ _ _ _ _ d u fs (orig i) (out i) (joined i)
    (result i)); try done.
  by rewrite (join_block_actor psi args File a 0).
Qed.

(** The bytes of the joint output: one header, then the rows of the blocks in
    their order. *)
Definition joint_csv (n : nat) : string :=
  csv_bytes (aa_output_dir args) (aa_with_head args) (aa_csv_delimiter args) (result 0)
  +:+ Str.concat ((λ i, csv_bytes (aa_output_dir args) false (aa_csv_delimiter args) (result i))
                    <$> seq 1 (n - 1)).

Lemma output_single_run (d : dispatcher T) n fs :
  bd_data_format d = Some "csv" → bd_with_head d = aa_with_head args → (0 < n)%nat →
  infer_protocol (aa_output_dir args) = "nfs" → infer_format (aa_output_dir args) = "csv" →
  output_single_output_file d ((λ i, Some (result i)) <$> seq 0 n) (aa_output_dir args)
    (aa_csv_delimiter args) fs
  = (Ret tt, <[("", aa_output_dir args) := joint_csv n]> fs).
Proof.
  intros Hfmt Hhead Hn Hp Hf. destruct n as [|n]; [lia|].
  cbn [seq fmap list_fmap]. unfold output_single_output_file. rewrite Hp, Hfmt.
  rewrite (bool_decide_false ("nfs" = "hdfs")) by done.
  rewrite (bool_decide_false (Some "csv" ∈ _)) by (rewrite list_elem_of_In; simpl; naive_solver).
  cbn [write_outputs Nat.eqb negb andb]. rewrite run_bind.
  unfold write_data_to_file, write_data_to_filesystem at 1. rewrite Hf.
  rewrite bool_decide_true by (apply list_elem_of_In; simpl; auto). cbn [modify].
  rewrite Hhead, Str.append_nil_l.
  erewrite (write_outputs_run d _ _ _ result n 1); [|done|apply lookup_insert_eq|lia].
  f_equal. unfold joint_csv. rewrite Nat.sub_succ, Nat.sub_0_r. apply insert_insert_eq.
Qed.

Lemma file_run sched global_role files0 blocks blocks' :
  get_file_type "" (aa_data_path args) = File → infer_protocol (aa_data_path args) = "nfs" →
  infer_format (aa_data_path args) = "csv" →
  repartition_for_existed_data "nfs" (aa_data_path args) (aa_with_head args)
    (aa_example_id_name args) (aa_bucket_num args) (aa_csv_delimiter args) = Ret blocks →
  add_schema_to_all_empty_blocks blocks = Ret blocks' →
  let n := length blocks' in
  Z.of_nat n = aa_bucket_num args → (0 < n)%nat →
  aa_join_type args = PSI → 0 < aa_max_actors args → (n ≤ readies sched)%nat →
  (∀ i b, blocks' !! i = Some b → block_joins File "nfs" i (BRef (Some b))) →
  infer_protocol (aa_output_dir args) = "nfs" → infer_format (aa_output_dir args) = "csv" →
  ∃ heard, heard_in (Z.to_nat (aa_max_actors args)) n sched heard ∧
    run_app psi args sched global_role files0
    = (Ret (psi_report (sum_counts heard orig) (sum_counts heard joined) (aa_output_dir args)),
       <[("", aa_output_dir args) := joint_csv n]> files0).
Proof.
  intros Htype Hprot Hfmt Hrep Hschema n Hbucket Hn Hpsi Hmax Hsched Hblocks Hop Hof.
  set (d0 := new_dispatcher (R := T) (aa_data_path args) (aa_with_head args) None None (aa_bucket_num args)).
  destruct (local_file_run d0) as (d1 & Hinit & Hp1 & Hf1 & Hh1 & Ht1 & Hst1); [done|done|done|].
  assert (bd_data_status d1 = fresh_status n) as Hst.
  { rewrite Hst1. unfold fresh_status. f_equal. cbn. lia. }
  assert (zlen (bd_data_status d1) = Z.of_nat n) as Hz
    by (rewrite Hst; unfold zlen, fresh_status; by rewrite length_replicate).
  destruct (actors_bounds n Hn Hmax) as (Hm & Hmn & Hma).
  set (d2 := bd_set_blocks (Some <$> blocks') d1).
  set (content_of := λ i : nat, BRef (R := T) <$> (Some <$> blocks') !! i).
  assert (∀ i, (i < n)%nat → content d2 i = content_of i) as Hcont.
  { intros i Hi. unfold content, is_data_single_file. cbn. by rewrite Ht1, bool_decide_true. }
  assert (∀ i, (i < n)%nat → is_Some (content_of i)) as Hsome.
  { intros i Hi. apply fmap_is_Some, lookup_lt_is_Some_2. by rewrite length_fmap. }
  assert (∀ i x, (i < n)%nat → content_of i = Some x → block_joins File "nfs" i x) as Hjoins.
  { intros i x Hi Hx. apply fmap_Some in Hx as (p & Hp & ->).
    rewrite list_lookup_fmap in Hp. apply fmap_Some in Hp as (b & Hb & ->). by apply Hblocks. }
  pose proof (file_jobs "nfs" "csv" n content_of Hjoins) as Hjobs.
  destruct (jobs_run psi args File "nfs" "csv" n content_of orig joined _ _ files0 d2 _
              Hjobs Hst Hcont Hsome Hm Hmn sched Hsched)
    as (s & D & heard & Hrun & HD & Hheard & Hres & Hfiles & (Hs1 & Hs2 & Hs3) & Hrefs & (q & Hq & Hlast)).
  exists heard. split; [by eapply heard_in_more|].
  unfold run_app. fold d0. rewrite Hinit, Ht1, Hz, Hf1, Hp1. cbn [default from_option id].
  change (bd_base_path d0) with (aa_data_path args). rewrite Hfmt, Hrep, bind_Ret, Hschema, bind_Ret.
  fold d2. rewrite Nat2Z.id, Hrun. rewrite bool_decide_true by done.
  rewrite Hlast, (bool_decide_true (is_Some _)) by (by eexists). cbn [andb]. rewrite run_bind.
  rewrite (Hrefs eq_refl), output_single_run; try done.
  - unfold liftO. rewrite Hres, Hpsi, Hfiles.
    by rewrite effects_id.
  - rewrite Hs1. cbn. by rewrite Hf1, <- Hfmt.
  - rewrite Hs2. cbn. by rewrite Hh1.
Qed.

End properties.

(** ** A small cluster *)
Module TestApp.
Import TestTables.
#[export] Instance test_blake : Blake := { blake2b _ s := "h" +:+ s }.
(** As in Ray, a part without rows has no columns. *)
#[export] Instance test_sort : RaySort Table := {
  sort_op key bs t :=
    (λ i, match filter (λ r, in_part (default 0%nat (column_index t key)) bs i r = true) (t_rows t) with
          | [] => mkTable [] []
          | rows => mkTable (t_names t) rows
          end) <$> seq 0 (S (length bs));
}.
#[export] Instance test_sort_laws : RaySortLaws Table.
Proof.
  split.
  - intros key bs t. unfold sort_op. simpl. by rewrite length_fmap, length_seq.
  - intros key j bs t i b Hj Hi. unfold sort_op, test_sort in Hi.
    rewrite list_lookup_fmap in Hi. apply fmap_Some in Hi as (q & Hq & ->).
    apply lookup_seq in Hq as [-> _]. rewrite Hj. rewrite Nat.add_0_l in *. cbn [default from_option id].
    destruct (filter _ (t_rows t)) eqn:E; cbn; (split; [done|]); by rewrite E.
Qed.

Definition csv (l : list string) : string := Str.concat ((λ s, s +:+ String nl "") <$> l).
#[export] Instance test_files : FileSystem := {
  get_file_type _ p := if Str.endswith ".csv" p then File else Directory;
  list_files _ p _ :=
    if bool_decide (p = "in")
    then [mkInfo "in/b.csv" File "csv"; mkInfo "in/a.csv" File "csv"] else [];
  input_stream _ p :=
    if bool_decide (p = "in/a.csv") then Some (csv ["id,v"; "ann,3"; "bob,"])
    else if bool_decide (p = "in/b.csv") then Some (csv ["id,v"; "joe,5"])
    else if bool_decide (p = "all.csv") then Some (csv ["id,v"; "ann,3"; "bob,4"; "joe,5"])
    else None;
}.
(** A peer that has every id but one. *)
Definition peer : RoleType → string → Table → outcome (option Table) := λ _ _ t,
  Ret (Some (mkTable (t_names t) (filter (λ r, CStr "bob" ∉ r) (t_rows t)))).

Definition args (path out : string) (buckets : Z) : app_args :=
  mkApp "app" PSI path (ByIndex 0) true buckets RECEIVER out 2 ",".

Definition join_of (typ : FileType) (a : app_args) (i : nat) (x : block_data Table)
    : counts * Table * counts :=
  match join_block peer (actor_at a typ 0) (Z.of_nat i) "nfs" x "," with
  | Ret r => r
  | Stop _ => ((0, 0, 0), mkTable [] [], (0, 0, 0))
  end.
Definition dropped (t : Table) : Table :=
  match drop_columns [STATIC_HASHED_VALUE_COLUMN_NAMES] t with Ret r => r | Stop _ => t end.

Definition dir_block (i : nat) : block_data Table :=
  BPath (PStr (match i with O => "in/a.csv" | _ => "in/b.csv" end)).
Definition file_blocks : list Table :=
  match repartition_for_existed_data "nfs" "all.csv" true (ByIndex 0) 2 "," with
  | Ret l => match add_schema_to_all_empty_blocks l with Ret l' => l' | _ => [] end
  | _ => []
  end.
Definition file_block (i : nat) : block_data Table := BRef (file_blocks !! i).
End TestApp.

Section witnesses.
Import TestTables TestApp.

(** The second part is finished first; the first wait runs into the limit; every call
    is handled, one of them early.  When no call is handled the same files are written,
    and the report counts nothing. *)
Definition every_call : list turn := replicate 4 (Handle 0) ++ replicate 4 (Handle 1).
Definition jobs_first : list turn := [TimeLimit; Ready 1; Handle 1; Ready 0].
Lemma every_call_handled : all_handled 2 2 (jobs_first ++ every_call).
Proof.
  exists jobs_first, every_call. split; [done|]. split; [vm_compute; lia|].
  intros [|[|a]] Ha; [vm_compute; lia..|lia].
Qed.


End witnesses.
