(* ===== verification/PsiMain.v ===== *)
(** * The program of the batch join

    The main program of psi_actors.py: its settings, its log and the states that it
    posts to the status service, whose answers are a parameter. *)

From stdpp Require Import base tactics list gmap strings sorting.
From Stdlib Require Import ZArith Lia Ascii.
From S2P Require Import Prelude PyStd PsiFiles PsiDispatch PsiActor PsiApp.

Open Scope Z_scope.

(** The environment variables and the command line. *)
Record environment := mkEnv {
  ev_CPU : option string;
  ev_TASK_ID : option string;
  ev_LOCAL_DOMAIN : option string;
  ev_CLUSTER_ID : option string;
  ev_NODE_ID : option string;
}.
Record command_line := mkLine {
  cm_input : string;
  cm_output : string;
  cm_cluster_id : string;
  cm_input_col : string;
  cm_target : string;
  cm_status_server : string;
  cm_party_id : string;
  cm_parallels : Z;
  cm_work_mode : string;
  cm_buckets : Z;
  cm_csv_header : bool;
  cm_csv_delimiter : string;
}.
(** The defaults of [create_argment_parser]. *)
Definition default_line (input output cluster_id target status_server party_id : string)
    : command_line :=
  mkLine input output cluster_id "0" target status_server party_id 0 "pir" 0 true ",".

Definition env_or (o : option string) (x : string) : string :=
  match o with Some "" | None => x | Some y => y end.

Definition cpu_count (e : environment) : outcome Z :=
  match ev_CPU e with Some "" | None => Ret 1 | Some s => Str.to_int s end.

(** The division for [avg_parallel_cpus] fails without processors. *)
Definition parallels (e : environment) (a : command_line) : outcome Z :=
  cpus ← cpu_count e;
  let n := if cm_parallels a =? 0 then cpus else cm_parallels a in
  let n' := if cpus <? n then cpus else n in
  if n' =? 0 then raise ZeroDivisionError else Ret n'.

(** The role by the position in the targets; [None] when the variable is not
    assigned. *)
Definition role_of (targets : list string) (local_domain : string) : outcome (option RoleType) :=
  match targets with
  | [] => raise IndexError
  | t0 :: ts =>
      if bool_decide (t0 = local_domain) then
        match ts with [] => raise IndexError | _ => Ret (Some RECEIVER) end
      else
        match ts with
        | [] => raise IndexError
        | t1 :: _ => if bool_decide (t1 = local_domain) then Ret (Some SENDER) else Ret None
        end
  end.

Definition join_type_of (a : command_line) : JoinType :=
  if bool_decide (cm_work_mode a = "pir") then PIR else PSI.
Definition actual_buckets (a : command_line) (n_parallels : Z) : Z :=
  if cm_buckets a =? 0 then n_parallels else cm_buckets a.

(** [int(s)], and the text itself when that fails. *)
Definition column_of (s : string) : column_ref :=
  match Str.to_int s with Ret z => ByIndex z | Stop _ => ByName s end.
Definition input_column (a : command_line) : outcome column_ref :=
  match Str.split "," (cm_input_col a) with
  | [c] => Ret (column_of c)
  | _ => raise ValueError
  end.

(** ** Log and status *)

(** A handler of the root logger: its format and its level. *)
Record logger := mkLogger { lg_handlers : list (string * Z); lg_level : Z }.
(** A request to the status service; [ns_result] before [json.dumps]. *)
Record node_status := mkStatus {
  ns_url : string;
  ns_id : string;
  ns_type : Z;
  ns_status : Z;
  ns_clusterId : option string;
  ns_nodeId : option string;
  ns_result : option report;
}.
(** The process: directories that exist, log, requests that were made, files. *)
Record process := mkProcess {
  pc_dirs : list string;
  pc_log : logger;
  pc_posts : list node_status;
  pc_files : outputs;
}.
Definition pc_set_files f (p : process) : process := mkProcess (pc_dirs p) (pc_log p) (pc_posts p) f.

(** [logging.INFO] *)
Definition INFO : Z := 20.
Definition bracketed (l : list string) : string := Str.concat ((λ s, "[" +:+ s +:+ "] ") <$> l).
(** [None] is printed as a text. *)
Definition basic_format (platform_id : string) (task_id : option string) (app_id : string)
    (node_id custom_node_id : option string) : string :=
  "[%(asctime)s.%(msecs)03d] [%(levelname)s] "
  +:+ bracketed ([platform_id; default "None" task_id; app_id; default "None" node_id]
                   ++ option_list custom_node_id)
  +:+ "[%(filename)s:%(lineno)d] %(message)s ".
Definition init_logging (e : environment) (app_id : string) (level : Z) (logdir platform_id : string)
    (custom_node_id : option string) : M process unit :=
  modify (λ p, mkProcess
    (if bool_decide (logdir ∈ pc_dirs p) then pc_dirs p else pc_dirs p ++ [logdir])
    (mkLogger [(basic_format platform_id (ev_TASK_ID e) app_id (ev_NODE_ID e) custom_node_id, level)]
       level)
    (pc_posts p) (pc_files p)).

(** The method [response.json] is returned, not what it answers. *)
Inductive status_answer := StatusCode (code : Z) | JsonMethod.

Section status.
(** The status code of the answer to the n-th request, or the error of [requests]. *)
Context (answer : nat → outcome Z).

Definition set_node_status (e : environment) (status_host id : string) (type status : Z)
    (result : option report) : M process status_answer :=
  n ← gets (λ p, length (pc_posts p));
  let data := mkStatus ("http://" +:+ status_host +:+ "/coordinator/outer/set-worker-info")
                id type status (ev_CLUSTER_ID e) (ev_NODE_ID e) result in
  modify (λ p, mkProcess (pc_dirs p) (pc_log p) (pc_posts p ++ [data]) (pc_files p));;
  code ← liftO (answer n);
  mret (if code =? 200 then JsonMethod else StatusCode code).
End status.

Section main.
Context `{Blake} `{Arrow T, !FileSystem, !RaySort T}.
Context (psi : RoleType → string → T → outcome (option T)).
Context (answer : nat → outcome Z).

Definition actual_app_id (e : environment) (a : command_line) : string :=
  env_or (ev_TASK_ID e) (cm_cluster_id a).
Definition app_args_of (e : environment) (a : command_line) (n_parallels : Z) (role : RoleType)
    (col : column_ref) : app_args :=
  mkApp (actual_app_id e a) (join_type_of a) (cm_input a) col
    (cm_csv_header a) (actual_buckets a n_parallels) role (cm_output a) n_parallels
    (cm_csv_delimiter a).

(** The part under [try]. *)
Definition run_task (e : environment) (a : command_line) (n_parallels : Z)
    (role : option RoleType) (sched : list turn) : M outputs report :=
  col ← liftO (input_column a);
  match role with
  | None => raiseM NameError
  | Some r => run_app psi (app_args_of e a n_parallels r col) sched role
  end.

Definition post_status (e : environment) (a : command_line) (status : Z) (result : option report)
    : M process unit :=
  set_node_status answer e (cm_status_server a) (actual_app_id e a) 0 status result;; mret tt.

Definition main (e : environment) (a : command_line) (sched : list turn) : M process unit :=
  n_parallels ← liftO (parallels e a);
  init_logging e (actual_app_id e a) INFO "/mnt/logs" "9n-mpc" None;;
  post_status e a (-1) None;;
  let local_domain := env_or (ev_LOCAL_DOMAIN e) (cm_party_id a) in
  role ← liftO (role_of (Str.split "," (cm_target a)) local_domain);
  catchM
    (results ← zoom pc_files pc_set_files (run_task e a n_parallels role sched);
     post_status e a 0 (Some results))
    (λ _, post_status e a 500 None).
End main.

Section pir.
Context `{Blake} `{Arrow T, !FileSystem, !RaySort T}.
Context (psi : RoleType → string → T → outcome (option T)).

Lemma join_block_pir a b protocol (block : block_data T) delim :
  pa_join_type a = PIR → ∃ r, join_block psi a b protocol block delim = Stop r.
Proof.
  intros Hj. unfold join_block. destruct (read_block_data a protocol block delim) as [[t n]|r]; [|by exists r].
  rewrite bind_Ret, Hj. destruct (if _ : bool then _ else _) as [t1|r]; [|by exists r].
  rewrite bind_Ret. destruct (count_values t1 _) as [c|r]; [|by exists r].
  rewrite bind_Ret. by eexists.
Qed.
Lemma do_action_pir a b protocol format (block : block_data T) base delim c :
  pa_join_type a = PIR →
  ∃ r c', do_action psi a b protocol format block base delim c = (Stop r, c').
Proof.
  intros Hj. destruct (join_block_pir a b protocol block delim Hj) as [r Hr].
  unfold do_action. rewrite run_bind. destruct (sync_block_status a b PROCSSING None None c) as [[[]|r'] c'].
  - exists r, c'. rewrite run_bind, Hr. done.
  - by exists r', c'.
Qed.

Context (args : app_args).

Lemma wait_loop_pir typ protocol format sched s :
  aa_join_type args = PIR →
  ∃ r s', wait_loop psi args typ protocol format sched s = (Stop r, s').
Proof.
  intros Hj. revert s. induction sched as [|[c| |a] sched IH]; intros s; cbn [wait_loop];
    rewrite run_bind; cbn [gets]; destruct (rs_result_refs s) as [|j0 l0] eqn:El;
    try (by eexists _, _).
  - rewrite run_bind. unfold complete_job. rewrite run_bind. cbn [getM]. rewrite El.
    destruct (lookup_lt_is_Some_2 (j0 :: l0) (c mod length (j0 :: l0))%nat) as [j ->];
      [by apply Nat.mod_upper_bound|].
    rewrite run_bind. unfold run_job, on_cluster, zoom.
    destruct (do_action_pir (actor_at args typ (job_actor j)) (job_block j) protocol format
      (job_data j) (aa_output_dir args) (aa_csv_delimiter args) (rs_cluster s) Hj) as (r & c' & ->).
    by eexists _, _.
  - apply IH.
  - rewrite run_bind. destruct (on_cluster (handle_call (Z.of_nat a)) s) as [[[]|r] s']; [apply IH|].
    by eexists _, _.
Qed.

Lemma run_app_pir sched global_role files :
  aa_join_type args = PIR → ∃ r files', run_app psi args sched global_role files = (Stop r, files').
Proof.
  intros Hj. unfold run_app. destruct (init_data _) as [[[]|r] d1]; [|by eexists _, _].
  destruct (match bd_data_type d1 with File => _ | _ => _ end) as [d2|r]; [|by eexists _, _].
  unfold run_jobs. rewrite run_bind. destruct (start_actors _ _) as [[[]|r] s]; [|by eexists _, _].
  destruct (wait_loop_pir (bd_data_type d1) (default "" (bd_data_protocol d1))
    (default "None" (bd_data_format d1)) sched s Hj) as (r & s' & Hw).
  rewrite run_bind, Hw. by eexists _, _.
Qed.

End pir.

(** ** Properties *)
Section reports.
Context `{Blake} `{Arrow T, !FileSystem, !RaySort T}.
Context (psi : RoleType → string → T → outcome (option T)).
Context (answer : nat → outcome Z).

Definition status_of (e : environment) (a : command_line) (status : Z) (result : option report)
    : node_status :=
  mkStatus ("http://" +:+ cm_status_server a +:+ "/coordinator/outer/set-worker-info")
    (actual_app_id e a) 0 status (ev_CLUSTER_ID e) (ev_NODE_ID e) result.
Definition posted (l : list node_status) (p : process) : process :=
  mkProcess (pc_dirs p) (pc_log p) (pc_posts p ++ l) (pc_files p).
Definition logged (e : environment) (a : command_line) (p : process) : process :=
  (init_logging e (actual_app_id e a) INFO "/mnt/logs" "9n-mpc" None p).2.

Lemma posted_posted l l' p : posted l' (posted l p) = posted (l ++ l') p.
Proof. unfold posted. cbn. by rewrite (assoc_L (++)). Qed.
Lemma posted_files l f p : pc_set_files f (posted l p) = posted l (pc_set_files f p).
Proof. done. Qed.

Lemma post_status_run e a status result p :
  post_status answer e a status result p
  = ((_ ← answer (length (pc_posts p)); Ret tt), posted [status_of e a status result] p).
Proof.
  unfold post_status, set_node_status. rewrite !run_bind. cbn [gets]. rewrite !run_bind.
  cbn [modify]. rewrite !run_bind. unfold liftO. by destruct (answer _).
Qed.

(** A second call leaves one handler, with the format of that call. *)
Lemma init_logging_twice e app_id app_id' level level' dir pl pl' c c' p :
  (init_logging e app_id level dir pl c;; init_logging e app_id' level' dir pl' c') p
  = (Ret tt, (init_logging e app_id' level' dir pl' c' p).2).
Proof.
  rewrite run_bind. unfold init_logging. cbn [modify snd pc_dirs pc_log pc_posts pc_files].
  unfold modify. cbn. f_equal. f_equal.
  destruct (decide (dir ∈ pc_dirs p)).
  - by rewrite !(bool_decide_true (dir ∈ pc_dirs p)) by done.
  - rewrite (bool_decide_false (dir ∈ pc_dirs p)), bool_decide_true by (done || set_solver). done.
Qed.

(** The program in terms of its task. *)
Lemma main_run e a sched n role p :
  parallels e a = Ret n →
  role_of (Str.split "," (cm_target a)) (env_or (ev_LOCAL_DOMAIN e) (cm_party_id a)) = Ret role →
  let p1 := posted [status_of e a (-1) None] (logged e a p) in
  main psi answer e a sched p
  = match answer (length (pc_posts p)) with
    | Stop r => (Stop r, p1)
    | Ret _ =>
        catchM (results ← zoom pc_files pc_set_files (run_task psi e a n role sched);
                post_status answer e a 0 (Some results)) (λ _, post_status answer e a 500 None) p1
    end.
Proof.
  intros Hn Hrole p1. unfold main. rewrite run_bind. unfold liftO at 1. rewrite Hn.
  rewrite run_bind. unfold init_logging at 1. cbn [modify]. fold (logged e a p).
  rewrite run_bind.
  assert ((init_logging e (actual_app_id e a) INFO "/mnt/logs" "9n-mpc" None p).2 = logged e a p) as Hl by done.
  cbn [init_logging modify snd] in Hl. rewrite Hl. rewrite post_status_run.
  change (length (pc_posts (logged e a p))) with (length (pc_posts p)).
  destruct (answer (length (pc_posts p))) as [c|r]; [|done]. cbn [outcome_bind mbind].
  rewrite run_bind. unfold liftO. by rewrite Hrole.
Qed.

(** When the status service answers, whatever its codes, the program posts that it
    runs and then how it ended: success with the report of the task, or failure when
    the task raised an exception.  The files are those of the task. *)
Theorem main_posts_its_end e a sched n role p :
  parallels e a = Ret n →
  role_of (Str.split "," (cm_target a)) (env_or (ev_LOCAL_DOMAIN e) (cm_party_id a)) = Ret role →
  (∀ k, ∃ c, answer k = Ret c) →
  let ended r l f := (r, pc_set_files f (posted (status_of e a (-1) None :: l) (logged e a p))) in
  main psi answer e a sched p
  = match run_task psi e a n role sched (pc_files p) with
    | (Ret results, f) => ended (Ret tt) [status_of e a 0 (Some results)] f
    | (Stop (Raise _), f) => ended (Ret tt) [status_of e a 500 None] f
    | (Stop r, f) => ended (Stop r) [] f
    end.
Proof.
  intros Hn Hrole Hans ended. rewrite (main_run e a sched n role p Hn Hrole).
  destruct (Hans (length (pc_posts p))) as [c ->]. unfold catchM. rewrite run_bind. unfold zoom.
  change (pc_files (posted _ (logged e a p))) with (pc_files p).
  destruct (run_task psi e a n role sched (pc_files p)) as [[results|r] f].
  - rewrite post_status_run. destruct (Hans (length (pc_posts (pc_set_files f
      (posted [status_of e a (-1) None] (logged e a p)))))) as [c' ->]. cbn [outcome_bind mbind].
    unfold ended. by rewrite posted_files, posted_posted, <- posted_files.
  - destruct r as [x| |]; [|done..]. rewrite post_status_run.
    destruct (Hans (length (pc_posts (pc_set_files f
      (posted [status_of e a (-1) None] (logged e a p)))))) as [c' ->]. cbn [outcome_bind mbind].
    unfold ended. by rewrite posted_files, posted_posted, <- posted_files.
Qed.

(** The post of the success is under the same [try] as the task: when it fails, for
    instance because its answer is lost, a task that is done is posted as failed. *)
Theorem unheard_success_is_reported_as_failure e a sched n role p c c' err results f :
  parallels e a = Ret n →
  role_of (Str.split "," (cm_target a)) (env_or (ev_LOCAL_DOMAIN e) (cm_party_id a)) = Ret role →
  let k := length (pc_posts p) in
  answer k = Ret c → answer (S k) = raise err → answer (S (S k)) = Ret c' →
  run_task psi e a n role sched (pc_files p) = (Ret results, f) →
  main psi answer e a sched p
  = (Ret tt, pc_set_files f (posted [status_of e a (-1) None; status_of e a 0 (Some results);
                                     status_of e a 500 None] (logged e a p))).
Proof.
  intros Hn Hrole k Ha0 Ha1 Ha2 Hrun. rewrite (main_run e a sched n role p Hn Hrole). fold k.
  rewrite Ha0. unfold catchM. rewrite run_bind. unfold zoom.
  change (pc_files (posted _ (logged e a p))) with (pc_files p). rewrite Hrun, post_status_run.
  assert (length (pc_posts (pc_set_files f (posted [status_of e a (-1) None] (logged e a p)))) = S k) as ->
    by (cbn; rewrite length_app; cbn; lia).
  rewrite Ha1. cbn [outcome_bind mbind raise]. rewrite post_status_run.
  rewrite posted_files, posted_posted.
  assert (length (pc_posts (posted ([status_of e a (-1) None] ++ [status_of e a 0 (Some results)])
    (pc_set_files f (logged e a p)))) = S (S k)) as -> by (cbn; rewrite length_app; cbn; lia).
  rewrite Ha2. cbn [outcome_bind mbind]. by rewrite posted_posted.
Qed.
End reports.

Section pir_property.
Context `{Blake} `{Arrow T, !FileSystem, !RaySort T}.
Context (psi : RoleType → string → T → outcome (option T)) (answer : nat → outcome Z).

(** The private information retrieval mode only ever reports failure.
    Its worker step is not implemented, and it is the default of the command
    line: with that mode the program never posts the state of success, for any
    input, environment, answers of the status service and order of completion. *)
Theorem pir_mode_never_succeeds e a sched p r p' :
  cm_work_mode a = "pir" → pc_posts p = [] →
  main psi answer e a sched p = (r, p') → Forall (λ x, ns_status x ≠ 0) (pc_posts p').
Proof.
  intros Hmode Hp Hrun.
  assert (∀ q l, pc_posts q = [] → Forall (λ x, ns_status x ≠ 0) l →
    Forall (λ x, ns_status x ≠ 0) (pc_posts (posted l (logged e a q)))) as Hno
    by (intros q l Hq Hl; cbn; by rewrite Hq).
  destruct (parallels e a) as [n|r0] eqn:Hn; cycle 1.
  { unfold main in Hrun. rewrite run_bind in Hrun. unfold liftO in Hrun. rewrite Hn in Hrun.
    injection Hrun as <- <-. by rewrite Hp. }
  destruct (role_of (Str.split "," (cm_target a)) (env_or (ev_LOCAL_DOMAIN e) (cm_party_id a)))
    as [role|r0] eqn:Hrole; cycle 1.
  { revert Hrun. unfold main. rewrite run_bind. unfold liftO at 1. rewrite Hn, run_bind.
    unfold init_logging. cbn [modify]. rewrite run_bind, post_status_run.
    destruct (answer _) as [c|x]; cbn [outcome_bind mbind].
    - rewrite run_bind. unfold liftO. rewrite Hrole. intros [= <- <-]. cbn. rewrite Hp. by repeat constructor.
    - intros [= <- <-]. cbn. rewrite Hp. by repeat constructor. }
  rewrite (main_run psi answer e a sched n role p Hn Hrole) in Hrun.
  destruct (answer (length (pc_posts p))) as [c|x].
  2: { injection Hrun as <- <-. apply Hno; [done|]. by repeat constructor. }
  unfold catchM in Hrun. rewrite run_bind in Hrun. unfold zoom in Hrun.
  assert (∃ r1 f1, run_task psi e a n role sched
    (pc_files (posted [status_of e a (-1) None] (logged e a p))) = (Stop r1, f1)) as (r1 & f1 & Ht).
  { unfold run_task. rewrite run_bind. unfold liftO.
    destruct (input_column a) as [col|r1]; [|by eexists _, _].
    destruct role as [rl|]; [|by eexists _, _].
    apply run_app_pir. cbn. unfold join_type_of. by rewrite bool_decide_true. }
  rewrite Ht in Hrun.
  destruct r1 as [x| |]; [|injection Hrun as <- <-; apply Hno; [done|]; by repeat constructor..].
  rewrite post_status_run in Hrun.
  rewrite posted_files, posted_posted, <- posted_files in Hrun.
  injection Hrun as <- <-. cbn. rewrite Hp. by repeat constructor.
Qed.
End pir_property.

(** ** A run whose last answer is lost *)
Module TestMain.
Import TestTables TestApp.

Definition env : environment := mkEnv None None None (Some "cluster") None.
Definition fresh : process := mkProcess [] (mkLogger [] 30) [] ∅.
Definition psi_line : command_line :=
  mkLine "in" "out" "c" "0" "jd,cu" "status" "jd" 0 "psi" 2 true ",".
(** The second request gets no answer. *)
Definition lost_second (k : nat) : outcome Z := if Nat.eqb k 1 then raise GenericException else Ret 200.

(** The output is there, and the run is reported as failed. *)
Example joined_and_failed :
  let p := (main peer lost_second env psi_line [Ready 0; Ready 0] fresh).2 in
  (ns_status <$> pc_posts p) = [-1; 0; 500] ∧
  pc_files p !! ("", "out/part_000000.csv") = Some (csv ["id,v"; "ann,3"]).
Proof. split; vm_compute; reflexivity. Qed.

(** No answer of the service matters as long as there is one. *)
Example joined_and_refused :
  (ns_status <$> pc_posts (main peer (λ _, Ret 500) env psi_line [Ready 0; Ready 0] fresh).2)
  = [-1; 0].
Proof. by vm_compute. Qed.

Lemma main_posts_its_end_witness :
  main peer (λ _, Ret 200) env psi_line [Ready 0; Ready 0] fresh
  = match run_task peer env psi_line 1 (Some RECEIVER) [Ready 0; Ready 0] ∅ with
    | (Ret results, f) =>
        (Ret tt, pc_set_files f (posted [status_of env psi_line (-1) None;
                   status_of env psi_line 0 (Some results)] (logged env psi_line fresh)))
    | (Stop (Raise _), f) =>
        (Ret tt, pc_set_files f (posted [status_of env psi_line (-1) None;
                   status_of env psi_line 500 None] (logged env psi_line fresh)))
    | (Stop r, f) => (Stop r, pc_set_files f (posted [status_of env psi_line (-1) None]
                                                (logged env psi_line fresh)))
    end.
Proof.
  apply (main_posts_its_end peer (λ _, Ret 200) env psi_line [Ready 0; Ready 0] 1
           (Some RECEIVER) fresh).
  - reflexivity.
  - reflexivity.
  - intros k. exists 200. reflexivity.
Defined.
End TestMain.
