(* ===== verification/PsiBuckets.v ===== *)
(** * The join of the buckets is the join

    The two parties of the batch join split their tables by the hash of the id
    and intersect bucket by bucket, as [do_psi] of psi_actors.py pairs them by
    task.  With the protocol of PsiFlow in the place of the intersection, the
    buckets together give what the whole tables give. *)

From stdpp Require Import base tactics list sets gmap strings sorting.
From Stdlib Require Import ZArith Lia Ascii.
From S2P Require Import Prelude PyStd PsiConfig PsiFlow PsiFiles PsiDispatch PsiActor PsiApp.

Open Scope Z_scope.

Section buckets.
Context `{Blake} `{Arrow T, !RaySort T} `{Ecdh}.

(** The first column, that the protocol compares. *)
Definition row_id (r : list cell) : string :=
  match r with CBytes h :: _ => h | _ => "" end.

(** The tasks of both parties, block [i] with block [i]; both send the result
    back. *)
Fixpoint join_buckets (order : list Z → list Z) (key_s key_r : string) (blocks_s blocks_r : list T)
    : outcome (list (list cell) * list (list cell)) :=
  match blocks_s, blocks_r with
  | a :: s', b :: r' =>
      res ← psi_run order key_s key_r (rows_of a) row_id true (rows_of b) row_id true;
      rest ← join_buckets order key_s key_r s' r';
      Ret (default [] res.1 ++ rest.1, default [] res.2 ++ rest.2)
  | _, _ => Ret ([], [])
  end.
End buckets.

(** ** Parts of a list *)
Section parts.
Context {A : Type} (f : A → nat).

Lemma filter_below_S n (l : list A) :
  filter (λ x, (f x < n)%nat) l ++ filter (λ x, f x = n) l ≡ₚ filter (λ x, (f x < S n)%nat) l.
Proof.
  induction l as [|x l IH]; [done|]. rewrite !filter_cons.
  destruct (decide (f x < n)%nat), (decide (f x = n)), (decide (f x < S n)%nat); try lia; simpl.
  - by rewrite IH.
  - by rewrite <- Permutation_middle, IH.
  - done.
Qed.
Lemma concat_parts n (l : list A) :
  concat ((λ i, filter (λ x, f x = i) l) <$> seq 0 n) ≡ₚ filter (λ x, (f x < n)%nat) l.
Proof.
  induction n as [|n IH]; [by induction l|].
  rewrite seq_S, fmap_app, concat_app, IH. cbn. rewrite app_nil_r. apply filter_below_S.
Qed.
End parts.

Lemma filter_swap {A} (P Q : A → Prop) `{∀ x, Decision (P x)} `{∀ x, Decision (Q x)} (l : list A) :
  filter P (filter Q l) = filter Q (filter P l).
Proof.
  induction l as [|x l IH]; [done|]. rewrite !(filter_cons _ x l).
  destruct (decide (Q x)) eqn:EQ, (decide (P x)) eqn:EP; rewrite ?filter_cons, ?EP, ?EQ, ?IH; done.
Qed.

Section hashed.
Context `{Blake} `{ArrowLaws T}.

(** A row with its hash and its bucket in front. *)
Definition hashed_row (n : Z) (h : string) (r : list cell) : list cell :=
  CBytes h :: CInt (be_value 0 h mod n) :: r.
Definition is_hashed (n : Z) (r : list cell) : Prop := ∃ h r', r = hashed_row n h r'.

Lemma hash_mods_run hs n ms :
  hash_mods hs n = Ret ms → ms = (λ h, be_value 0 h mod n) <$> hs.
Proof.
  revert ms. induction hs as [|h hs IH]; intros ms Hm; cbn in Hm; [by injection Hm as <-|].
  destruct h as [|c h]; [done|]. cbn in Hm. unfold hash_mods in IH.
  destruct (map_outcome _ hs) as [ys|] eqn:E; [|done]. cbn in Hm. injection Hm as <-.
  by rewrite (IH ys).
Qed.

Lemma add_hash_column_rows (t t' : T) name n :
  0 < n →
  add_hash_column t STATIC_HASHED_VALUE_COLUMN_NAMES name
    (Some (STATIC_HASHED_MOD_VALUE_COLUMN_NAMES, n)) = Ret t' →
  column_index t' STATIC_HASHED_MOD_VALUE_COLUMN_NAMES = Some 1%nat ∧
  Forall (is_hashed n) (rows_of t').
Proof.
  intros Hn Ht. unfold add_hash_column in Ht.
  destruct (column t name) as [ids|]; [|done]. rewrite bind_Ret in Ht.
  destruct (py_index ids 0) as [first|]; [|done]. rewrite bind_Ret in Ht.
  destruct (get_hash ids first) as [hs|]; [|done]. rewrite bind_Ret in Ht.
  rewrite (proj2 (Z.eqb_neq n 0)) in Ht by lia. cbn [orb bool_decide] in Ht.
  rewrite bool_decide_false in Ht by done. cbn [orb] in Ht.
  destruct (hash_mods hs n) as [ms|] eqn:Em; [|done]. apply hash_mods_run in Em.
  rewrite bind_Ret in Ht. unfold int16_array in Ht. destruct (forallb in_int16 ms); [|done].
  rewrite bind_Ret in Ht.
  destruct (add_column0 _ _ t) as [t1|] eqn:E1; [|done]. rewrite bind_Ret in Ht.
  apply add_column0_names in E1 as (Hn1 & Hl1 & Hr1), Ht as (Hn2 & Hl2 & Hr2).
  split.
  - unfold column_index. rewrite Hn2, Hn1. done.
  - rewrite Hr2, Hr1, Em. clear. apply Forall_forall. intros r Hr.
    apply elem_of_lookup_zip_with in Hr as (i & c & r1 & -> & Hc & Hr1).
    rewrite list_lookup_fmap in Hc. apply fmap_Some in Hc as (h & Hh & ->).
    apply lookup_zip_with_Some in Hr1 as (m & r2 & -> & Hm & _).
    rewrite !list_lookup_fmap, Hh in Hm. injection Hm as <-. by exists h, r2.
Qed.

Lemma range1_part n k : 0 < n → 0 ≤ k < n → part_of (range1 n) k = Z.to_nat k.
Proof.
  intros Hn Hk. unfold part_of, range1.
  assert (∀ m a, (Z.of_nat a ≤ k + 1) → (k < Z.of_nat (a + m)) →
    length (filter (λ b, b ≤ k) (Z.of_nat <$> seq a m)) = (Z.to_nat (k + 1) - a)%nat) as Hl.
  { induction m as [|m IH]; intros a Ha Hb; [simpl in *; lia|].
    cbn [seq fmap list_fmap]. rewrite filter_cons.
    destruct (decide (Z.of_nat a ≤ k)).
    - simpl. rewrite IH; lia.
    - assert (filter (λ b, b ≤ k) (Z.of_nat <$> seq (S a) m) = []) as ->; [|simpl; lia].
      apply elem_of_nil_inv. intros x Hx. apply list_elem_of_filter in Hx as [Hle Hin].
      apply list_elem_of_fmap in Hin as (q & -> & Hq).
      apply elem_of_seq in Hq. lia. }
  rewrite Hl; lia.
Qed.
End hashed.

(** ** Properties *)
Section join.
Context `{Blake} `{ArrowLaws T} `{!RaySort T} `{!RaySortLaws T} `{EcdhLaws}.

Definition part_row (n : Z) (r : list cell) : nat := Z.to_nat (be_value 0 (row_id r) mod n).

Lemma hashed_in_part n i r :
  0 < n → is_hashed n r → in_part 1 (range1 n) i r = true ↔ part_row n r = i.
Proof.
  intros Hn (h & r' & ->). unfold in_part, part_row. cbn.
  rewrite range1_part by (done || apply Z.mod_pos_bound; lia). apply Nat.eqb_eq.
Qed.

(** The blocks of one party are the parts of its hashed table. *)
Lemma blocks_parts (t t' : T) name n blocks :
  0 < n →
  add_hash_column t STATIC_HASHED_VALUE_COLUMN_NAMES name
    (Some (STATIC_HASHED_MOD_VALUE_COLUMN_NAMES, n)) = Ret t' →
  repartition_by_hash t name n = Ret blocks →
  length blocks = Z.to_nat n ∧
  (∀ i b, blocks !! i = Some b → rows_of b ≡ₚ filter (λ r, part_row n r = i) (rows_of t')) ∧
  (∀ r, r ∈ rows_of t' → (part_row n r < Z.to_nat n)%nat).
Proof.
  intros Hn Ht Hb. unfold repartition_by_hash in Hb. rewrite Ht, bind_Ret in Hb.
  injection Hb as <-. destruct (add_hash_column_rows t t' name n Hn Ht) as [Hc Hrows].
  rewrite Forall_forall in Hrows.
  split; [|split].
  - unfold repartition_by_key_value. rewrite sort_op_length. unfold range1.
    rewrite length_fmap, length_seq. lia.
  - intros i b Hi. destruct (sort_op_rows _ 1 _ _ i b Hc Hi) as [_ ->].
    rewrite (filter_ext_in _ (λ r, part_row n r = i)); [done|].
    intros r Hr. apply hashed_in_part; auto.
  - intros r Hr. destruct (Hrows r Hr) as (h & r' & ->). unfold part_row. cbn.
    pose proof (Z.mod_pos_bound (be_value 0 h) n). lia.
Qed.

(** The rows of [l] whose id occurs in [l']. *)
Definition common (l l' : list (list cell)) : list (list cell) :=
  filter (λ r, row_id r ∈ row_id <$> l') l.

Lemma common_part n i (rows_a rows_b a b : list (list cell)) :
  a ≡ₚ filter (λ r, part_row n r = i) rows_a → b ≡ₚ filter (λ r, part_row n r = i) rows_b →
  common a b ≡ₚ filter (λ r, part_row n r = i) (common rows_a rows_b).
Proof.
  intros Ha Hb. unfold common.
  rewrite (filter_ext_in _ (λ r, row_id r ∈ row_id <$> rows_b) a).
  - by rewrite Ha, filter_swap.
  - intros r Hr. rewrite Ha in Hr. apply list_elem_of_filter in Hr as [Hr _].
    rewrite !list_elem_of_fmap. split; intros (q & Hq & Hin).
    + rewrite Hb in Hin. apply list_elem_of_filter in Hin as [_ Hin]. by exists q.
    + exists q. split; [done|]. rewrite Hb. apply list_elem_of_filter. split; [|done].
      unfold part_row in *. by rewrite <- Hq.
Qed.

Lemma no_collision_mono la lb la' lb' :
  no_collision la lb → la' ⊆ la → lb' ⊆ lb → no_collision la' lb'.
Proof. unfold no_collision. set_solver. Qed.

Lemma join_buckets_run order ks kr (rows_a rows_b : list (list cell)) n :
  (∀ l, order l ≡ₚ l) → good_keys ks kr ((row_id <$> rows_a) ++ (row_id <$> rows_b)) →
  no_collision (row_id <$> rows_a) (row_id <$> rows_b) →
  ∀ m k (A B : list T), length A = m → length B = m →
  (∀ i a, A !! i = Some a → rows_of a ≡ₚ filter (λ r, part_row n r = (k + i)%nat) rows_a) →
  (∀ i b, B !! i = Some b → rows_of b ≡ₚ filter (λ r, part_row n r = (k + i)%nat) rows_b) →
  ∃ ra rb, join_buckets order ks kr A B = Ret (ra, rb) ∧
    ra ≡ₚ concat ((λ i, filter (λ r, part_row n r = i) (common rows_a rows_b)) <$> seq k m) ∧
    rb ≡ₚ concat ((λ i, filter (λ r, part_row n r = i) (common rows_b rows_a)) <$> seq k m).
Proof.
  intros Hord Hkeys Hcol. induction m as [|m IH]; intros k A B HA HB Ha Hb.
  - apply nil_length_inv in HA as ->. exists [], []. by destruct B.
  - destruct A as [|a A], B as [|b B]; [done..|].
    pose proof (Ha 0%nat a eq_refl) as Ha0. pose proof (Hb 0%nat b eq_refl) as Hb0.
    rewrite Nat.add_0_r in Ha0, Hb0.
    destruct (IH (S k) A B) as (ra & rb & Hrun & Hra & Hrb);
      [by injection HA|by injection HB| | |].
    { intros i x Hi. rewrite Nat.add_succ_comm. by apply (Ha (S i)). }
    { intros i x Hi. rewrite Nat.add_succ_comm. by apply (Hb (S i)). }
    assert (∀ (x l : list (list cell)) q, x ≡ₚ filter (λ r, part_row n r = q) l →
      row_id <$> x ⊆ row_id <$> l) as Hsub.
    { intros x l q Hx y Hy. apply list_elem_of_fmap in Hy as (r & -> & Hr). rewrite Hx in Hr.
      apply list_elem_of_filter in Hr as [_ Hr]. apply list_elem_of_fmap. by exists r. }
    pose proof (Hsub _ _ _ Ha0) as Hsa. pose proof (Hsub _ _ _ Hb0) as Hsb.
    cbn [join_buckets]. rewrite (psi_run_agreed order ks kr _ _ _ _ true Hord).
    + rewrite bind_Ret, Hrun. eexists _, _. split; [reflexivity|].
      cbn [seq fmap list_fmap concat default from_option id fst snd].
      split; (f_equiv; [by apply common_part|done]).
    + eapply good_keys_mono; [exact Hkeys|]. intros x [Hx|Hx]%elem_of_app; apply elem_of_app; auto.
    + by eapply no_collision_mono.
Qed.

(** Joining bucket by bucket is joining the tables.  When both parties
    split into the same number of buckets, every pair of buckets is
    intersected by the protocol and the results put together are, for each
    party, exactly its hashed rows whose id hash the other party has: no
    common row is lost because its two sides went to different buckets. *)
Theorem buckets_join_the_tables order ks kr (ta tb ta' tb' : T) na nb n A B :
  (∀ l, order l ≡ₚ l) → good_keys ks kr ((row_id <$> rows_of ta') ++ (row_id <$> rows_of tb')) →
  0 < n →
  add_hash_column ta STATIC_HASHED_VALUE_COLUMN_NAMES na
    (Some (STATIC_HASHED_MOD_VALUE_COLUMN_NAMES, n)) = Ret ta' →
  add_hash_column tb STATIC_HASHED_VALUE_COLUMN_NAMES nb
    (Some (STATIC_HASHED_MOD_VALUE_COLUMN_NAMES, n)) = Ret tb' →
  repartition_by_hash ta na n = Ret A → repartition_by_hash tb nb n = Ret B →
  no_collision (row_id <$> rows_of ta') (row_id <$> rows_of tb') →
  ∃ ra rb, join_buckets order ks kr A B = Ret (ra, rb) ∧
    ra ≡ₚ common (rows_of ta') (rows_of tb') ∧ rb ≡ₚ common (rows_of tb') (rows_of ta').
Proof.
  intros Hord Hkeys Hn Hta Htb HA HB Hcol.
  destruct (blocks_parts ta ta' na n A Hn Hta HA) as (HlA & HpA & HbA).
  destruct (blocks_parts tb tb' nb n B Hn Htb HB) as (HlB & HpB & HbB).
  destruct (join_buckets_run order ks kr (rows_of ta') (rows_of tb') n Hord Hkeys Hcol
              (Z.to_nat n) 0 A B HlA HlB HpA HpB) as (ra & rb & Hrun & Hra & Hrb).
  exists ra, rb. split; [done|]. rewrite Hra, Hrb, !concat_parts.
  split; (rewrite (filter_every (λ x, (part_row n x < Z.to_nat n)%nat)); [reflexivity|]); intros r Hr; apply list_elem_of_filter in Hr as [_ Hr]; auto.
Qed.
End join.

Section witnesses.
Import TestTables TestApp TestEcdh.

Definition table_of (ids : list string) : Table :=
  mkTable ["id"] ((λ s, [CStr s]) <$> ids).
Definition hashed_of (t : Table) : Table :=
  match add_hash_column t STATIC_HASHED_VALUE_COLUMN_NAMES "id"
          (Some (STATIC_HASHED_MOD_VALUE_COLUMN_NAMES, 2)) with
  | Ret t' => t'
  | Stop _ => t
  end.
Definition split_of (t : Table) : list Table :=
  match repartition_by_hash t "id" 2 with Ret l => l | Stop _ => [] end.

Lemma buckets_join_the_tables_witness :
  let ta := table_of ["ann"; "bob"; "eve"] in
  let tb := table_of ["eve"; "joe"; "ann"; "bib"] in
  length (split_of ta) = 2%nat ∧
  ∃ ra rb, join_buckets id "sk" "rk" (split_of ta) (split_of tb) = Ret (ra, rb) ∧
    ra ≡ₚ common (rows_of (hashed_of ta)) (rows_of (hashed_of tb)) ∧
    row_id <$> common (rows_of (hashed_of ta)) (rows_of (hashed_of tb)) = ["hann"; "heve"].
Proof.
  intros ta tb. split; [vm_compute; reflexivity|].
  destruct (buckets_join_the_tables id "sk" "rk" ta tb (hashed_of ta) (hashed_of tb) "id" "id" 2
              (split_of ta) (split_of tb)) as (ra & rb & Hrun & Hra & _).
  - done.
  - apply good_keys_forall, (bool_decide_unpack _). by vm_compute.
  - lia.
  - vm_compute; reflexivity.
  - vm_compute; reflexivity.
  - vm_compute; reflexivity.
  - vm_compute; reflexivity.
  - intros x y Hx Hy. apply list_elem_of_In in Hx, Hy. vm_compute in Hx, Hy.
    repeat (destruct Hx as [<-|Hx]; [|try done]); repeat (destruct Hy as [<-|Hy]; [|try done]);
      vm_compute; congruence.
  - exists ra, rb. split; [exact Hrun|]. split; [exact Hra|]. vm_compute. reflexivity.
Defined.
End witnesses.
