(* ===== verification/PsiRuns.v ===== *)
(** * Two programs that join their files

    [run_app] of psi_actors.py at both parties, with the protocol of [PsiFlow] between
    the workers of the same task.  The single-file mode from the input files to the
    output files: what each party writes are its own rows whose id the other party
    has. *)

From stdpp Require Import base tactics list sets gmap strings sorting.
From Stdlib Require Import ZArith Lia Ascii.
From S2P Require Import Prelude PyStd PsiConfig PsiFlow PsiFiles PsiDispatch PsiActor PsiApp PsiBuckets.
Open Scope Z_scope.

(** [record_batch.take(indices)] *)
Class Take (T : Type) := { take_batch : list nat → T → T }.
Class TakeLaws (T : Type) `{Arrow T, !Take T} := {
  take_batch_spec l t : column_names (take_batch l t) = column_names t ∧
    rows_of (take_batch l t) = (λ i, default [] (rows_of t !! i)) <$> l;
}.

(** ** The protocol between two batches *)
Section protocol.
Context `{Arrow T, !Take T} `{Ecdh}.
(** The order of the answers and the keys, drawn anew for each task. *)
Context (order : string → list Z → list Z) (key_s key_r : string → string).

Definition row_at (t : T) (i : nat) : list cell := default [] (rows_of t !! i).
Definition indices (t : T) : list nat := seq 0 (length (rows_of t)).
(** [psi_sender] and [psi_receiver] of one task, each taking the rows of its batch that
    the other one has; both send the result back. *)
Definition psi_batches (tid : string) (s r : T) : outcome (option T * option T) :=
  match psi_run (order tid) (key_s tid) (key_r tid) (indices s) (λ i, row_id (row_at s i)) true
          (indices r) (λ i, row_id (row_at r i)) true with
  | Ret (ls, lr) => Ret ((λ l, take_batch l s) <$> ls, (λ l, take_batch l r) <$> lr)
  | Stop e => Stop e
  end.
(** The protocol as one party sees it: [other] has the batch of the other party's
    worker for each task.  Without one, the link is never connected. *)
Definition paired (other : string → option T) (role : RoleType) (tid : string) (block : T)
    : outcome (option T) :=
  match other tid with
  | None => Stop NoFuel
  | Some o =>
      match role with
      | SENDER => match psi_batches tid block o with Ret r => Ret r.1 | Stop e => Stop e end
      | RECEIVER => match psi_batches tid o block with Ret r => Ret r.2 | Stop e => Stop e end
      end
  end.
End protocol.

(** ** The batches of the workers *)
Section batches.
Context `{Blake} `{Arrow T, !FileSystem, !RaySort T}.

(** The batch that [_do_action] hands to the protocol. *)
Definition worker_batch (a : psi_actor) (protocol : string) (block : block_data T) (delim : string)
    : outcome T :=
  '(data, _) ← read_block_data a protocol block delim;
  Ret (match to_batches data with [] => empty_batch data | b :: _ => b end).
(** The blocks of a hashed table, as [run_app] hands them to the workers. *)
Definition blocks_of (args : app_args) (h : T) : outcome (list T) :=
  add_schema_to_all_empty_blocks
    (repartition_by_key_value h STATIC_HASHED_MOD_VALUE_COLUMN_NAMES (range1 (aa_bucket_num args))).
(** The batch for each task of a run over the blocks. *)
Definition batches_of (args : app_args) (blocks : list T) (tid : string) : option T :=
  i ← snd <$> list_find (λ i, task_id (actor_at args File 0) (Z.of_nat i) = tid) (seq 0 (length blocks));
  match worker_batch (actor_at args File 0) "nfs" (BRef (blocks !! i)) (aa_csv_delimiter args) with
  | Ret b => Some b
  | Stop _ => None
  end.
End batches.

(** ** Lemmas *)
Lemma index_filter {A} (P : A → Prop) `{∀ x, Decision (P x)} (d : A) (l : list A) k :
  (λ i, default d (l !! (i - k)%nat)) <$> filter (λ i, P (default d (l !! (i - k)%nat))) (seq k (length l))
  = filter P l.
Proof.
  revert k. induction l as [|x l IH]; intros k; [done|]. cbn [length seq].
  assert (∀ i, i ∈ seq (S k) (length l) → (x :: l) !! (i - k)%nat = l !! (i - S k)%nat) as Hs.
  { intros i Hi. apply elem_of_seq in Hi. by replace (i - k)%nat with (S (i - S k)) by lia. }
  assert ((λ i, default d ((x :: l) !! (i - k)%nat)) <$>
      filter (λ i, P (default d ((x :: l) !! (i - k)%nat))) (seq (S k) (length l)) = filter P l) as Htl.
  { rewrite <- (IH (S k)). rewrite (filter_ext_in _ (λ i, P (default d (l !! (i - S k)%nat)))).
    - apply list_fmap_ext. intros i y Hy. apply list_elem_of_lookup_2, list_elem_of_filter in Hy as [_ Hy].
      by rewrite Hs.
    - intros i Hi. by rewrite Hs. }
  rewrite !filter_cons, Nat.sub_diag. cbn [lookup list_lookup default from_option id].
  destruct (decide (P x)); [|done]. rewrite fmap_cons, Nat.sub_diag. cbn. by f_equal.
Qed.

Lemma list_find_unique {A} (P : A → Prop) `{∀ x, Decision (P x)} l i x :
  l !! i = Some x → P x → (∀ j y, l !! j = Some y → P y → j = i) → list_find P l = Some (i, x).
Proof.
  intros Hi Hx Hu. apply list_find_Some. split_and!; [done|done|]. intros j y Hj Hlt Hy.
  specialize (Hu j y Hj Hy). lia.
Qed.

Lemma filter_map {A B} (f : A → B) (P : B → Prop) `{∀ x, Decision (P x)} (l : list A) :
  filter P (f <$> l) = f <$> filter (λ x, P (f x)) l.
Proof.
  induction l as [|x l IH]; [done|]. cbn [fmap list_fmap]. rewrite !filter_cons.
  destruct (decide (P (f x))); cbn; by rewrite IH.
Qed.
Lemma concat_perm {A} (f g : nat → list A) l :
  (∀ i, i ∈ l → f i ≡ₚ g i) → concat (f <$> l) ≡ₚ concat (g <$> l).
Proof.
  induction l as [|i l IH]; intros Hfg; [done|]. cbn. by rewrite (Hfg i), IH by set_solver.
Qed.

Lemma concat_written (f k : nat → list (list cell)) n :
  (∀ i, (i < n)%nat → f i = drop 2 <$> k i) →
  concat (f <$> seq 0 n) = drop 2 <$> concat (k <$> seq 0 n).
Proof.
  intros Hf. assert (∀ l, (∀ i, i ∈ l → (i < n)%nat) →
    concat (f <$> l) = drop 2 <$> concat (k <$> l)) as Hl.
  { induction l as [|i l IH]; intros Hlt; [done|]. cbn. rewrite fmap_app, Hf by set_solver.
    f_equal. apply IH. set_solver. }
  apply Hl. intros i Hi. apply elem_of_seq in Hi. lia.
Qed.

Lemma sum_list_ext {A} (f g : A → nat) l :
  (∀ x, x ∈ l → f x = g x) → sum_list_with f l = sum_list_with g l.
Proof.
  induction l as [|x l IH]; intros Hfg; [done|]. cbn. rewrite (Hfg x), IH by set_solver. done.
Qed.

Section protocol_lemmas.
Context `{ArrowLaws T, !Take T, !TakeLaws T} `{EcdhLaws}.
Context (order : string → list Z → list Z) (key_s key_r : string → string).
Context (Hord : ∀ t l, order t l ≡ₚ l).

Lemma ids_of_indices (t : T) : (λ i, row_id (row_at t i)) <$> indices t = row_id <$> rows_of t.
Proof.
  unfold indices, row_at. pose proof (index_filter (λ _, True) [] (rows_of t) 0) as Hi.
  rewrite !(filter_every (λ _, True)) in Hi by done.
  assert ((λ i, default [] (rows_of t !! i)) <$> seq 0 (length (rows_of t)) = rows_of t) as Hr.
  { etrans; [|exact Hi]. apply list_fmap_ext. intros i y _. by rewrite Nat.sub_0_r. }
  etrans; [|by rewrite <- Hr, <- list_fmap_compose]. done.
Qed.
Lemma taken_rows (t : T) (P : string → Prop) `{∀ i, Decision (P (row_id (row_at t i)))}
    `{∀ r : list cell, Decision (P (row_id r))} :
  rows_of (take_batch (filter (λ i, P (row_id (row_at t i))) (indices t)) t)
  = filter (λ r, P (row_id r)) (rows_of t).
Proof.
  rewrite (proj2 (take_batch_spec _ t)). unfold indices, row_at.
  rewrite <- (index_filter (λ r, P (row_id r)) [] (rows_of t) 0).
  rewrite (filter_ext_in _ (λ i, P (row_id (default [] (rows_of t !! (i - 0)%nat))))).
  - apply list_fmap_ext. intros i y _. by rewrite Nat.sub_0_r.
  - intros i _. by rewrite Nat.sub_0_r.
Qed.

(** Each party of a task gets its rows whose id the other one has. *)
Lemma psi_batches_run tid (s r : T) :
  good_keys (key_s tid) (key_r tid) ((row_id <$> rows_of s) ++ (row_id <$> rows_of r)) →
  no_collision (row_id <$> rows_of s) (row_id <$> rows_of r) →
  ∃ ts tr, psi_batches order key_s key_r tid s r = Ret (Some ts, Some tr) ∧
    (column_names ts = column_names s ∧ rows_of ts = common (rows_of s) (rows_of r)) ∧
    (column_names tr = column_names r ∧ rows_of tr = common (rows_of r) (rows_of s)).
Proof.
  intros Hkeys Hcol. unfold psi_batches.
  rewrite (psi_run_agreed (order tid) (key_s tid) (key_r tid) _ _ _ _ true (Hord tid))
    by (by rewrite !ids_of_indices).
  eexists _, _. split; [reflexivity|]. rewrite !ids_of_indices.
  split; (split; [apply take_batch_spec|]).
  - apply (taken_rows s (λ x, x ∈ row_id <$> rows_of r)).
  - apply (taken_rows r (λ x, x ∈ row_id <$> rows_of s)).
Qed.
End protocol_lemmas.

(** ** From the file to the batches *)
Section preparation.
Context `{Blake} `{ArrowLaws T, !FileSystem, !RaySort T, !RaySortLaws T}.
Local Abbreviation HASH := STATIC_HASHED_VALUE_COLUMN_NAMES.
Local Abbreviation MOD := STATIC_HASHED_MOD_VALUE_COLUMN_NAMES.

(** A row with hash and bucket in front of [n] cells. *)
Definition wide (n : nat) (r : list cell) : Prop :=
  ∃ h m r', r = CBytes h :: CInt m :: r' ∧ length r' = n.
(** The row without its bucket. *)
Definition squeeze (r : list cell) : list cell := take 1 r ++ drop 2 r.

Lemma hashed_table (t h : T) name n :
  0 < n → add_hash_column t HASH name (Some (MOD, n)) = Ret h →
  column_names h = HASH :: MOD :: column_names t ∧ drop 2 <$> rows_of h = rows_of t ∧ rows_of t ≠ [].
Proof.
  intros Hn Ht. unfold add_hash_column in Ht.
  destruct (column t name) as [ids|] eqn:Eids; [|done]. rewrite bind_Ret in Ht.
  destruct (py_index ids 0) as [first|] eqn:Ef; [|done]. rewrite bind_Ret in Ht.
  destruct (get_hash ids first) as [hs|]; [|done]. rewrite bind_Ret in Ht.
  rewrite (proj2 (Z.eqb_neq n 0)) in Ht by lia.
  rewrite bool_decide_false in Ht by done. cbn [orb] in Ht.
  destruct (hash_mods hs n) as [ms|]; [|done].
  rewrite bind_Ret in Ht. unfold int16_array in Ht. destruct (forallb in_int16 ms); [|done].
  rewrite bind_Ret in Ht.
  destruct (add_column0 _ _ t) as [t1|] eqn:E1; [|done]. rewrite bind_Ret in Ht.
  apply add_column0_names in E1 as (Hn1 & Hl1 & Hr1), Ht as (Hn2 & Hl2 & Hr2).
  split_and!.
  - by rewrite Hn2, Hn1.
  - assert (∀ (l : list cell) rs, length l = length rs → drop 1 <$> zip_with cons l rs = rs) as Hz.
    { clear. intros l rs. revert l. induction rs as [|r rs IH]; intros [|c l] Hl; [done..|].
      cbn. rewrite drop_0. f_equal. apply IH. by injection Hl. }
    rewrite Hr2. rewrite <- (Hz (CInt <$> ms) (rows_of t)), <- Hr1 by done.
    rewrite <- (Hz (CBytes <$> hs) (rows_of t1)) at 2 by done.
    rewrite <- list_fmap_compose. apply list_fmap_ext. intros i r _. cbn. by rewrite drop_drop.
  - intros Hnil. unfold column in Eids. destruct (column_index t name); [|done].
    rewrite Hnil in Eids. injection Eids as <-. done.
Qed.

Lemma mask_other l names (row : list cell) :
  Forall (.∉ l) names → length row = length names → mask l names row = row.
Proof.
  intros Hl. revert row. induction Hl as [|n names Hn Hl IH]; intros [|c row] Hlen; [done..|].
  unfold mask in *. cbn [zip zip_with]. rewrite filter_cons, decide_True by done. cbn. f_equal.
  apply IH. by injection Hlen.
Qed.
Lemma mask_bucket cols r :
  MOD ∉ cols → wide (length cols) r → mask [MOD] (HASH :: MOD :: cols) r = squeeze r.
Proof.
  intros Hm (h & m & r' & -> & Hl). unfold mask. cbn [zip zip_with].
  rewrite filter_cons, decide_True by (cbn; set_solver).
  rewrite filter_cons, decide_False by (cbn; set_solver). cbn [fmap list_fmap snd].
  unfold squeeze. cbn. f_equal. apply (mask_other [MOD] cols); [|done].
  apply Forall_forall. set_solver.
Qed.
Lemma mask_hash cols r :
  HASH ∉ cols → wide (length cols) r → mask [HASH] (HASH :: cols) (squeeze r) = drop 2 r.
Proof.
  intros Hm (h & m & r' & -> & Hl). unfold mask, squeeze. cbn [zip zip_with take drop app].
  rewrite filter_cons, decide_False by (cbn; set_solver).
  apply (mask_other [HASH] cols); [|done]. apply Forall_forall. set_solver.
Qed.
Lemma squeeze_id r n : wide n r → row_id (squeeze r) = row_id r.
Proof. by intros (h & m & r' & -> & _). Qed.

(** What a worker makes of a block of a hashed table. *)
Lemma worker_batch_run a protocol delim (b : T) cols name :
  column_names b = HASH :: MOD :: cols → HASH ∉ cols → MOD ∉ cols →
  Forall (wide (length cols)) (rows_of b) →
  get_actual_column_name b (pa_example_id_name a) 2 = Ret name →
  ∃ data bt, read_block_data a protocol (BRef (Some b)) delim = Ret (data, name) ∧
    match to_batches data with [] => empty_batch data | b :: _ => b end = bt ∧
    length (rows_of data) = length (rows_of b) ∧
    rows_of bt = squeeze <$> rows_of b ∧
    column_names bt = HASH :: match rows_of b with [] => MOD :: cols | _ => cols end.
Proof.
  intros Hn Hh Hm Hw Hname. unfold read_block_data. cbn [load_block]. rewrite Hname, !bind_Ret.
  unfold num_rows, num_columns, zlen. rewrite Hn.
  destruct (rows_of b) as [|r rs] eqn:Hr.
  - rewrite (proj2 (Z.ltb_ge 0 _)) by (cbn; lia). cbn [andb].
    rewrite bind_Ret. eexists (combine_chunks b), _. split; [reflexivity|]. split; [reflexivity|].
    destruct (combine_chunks_same b) as [Hcn Hcr].
    rewrite to_batches_combined, Hr, Hcr, Hr.
    destruct (empty_batch_spec (combine_chunks b)) as [Hen Her].
    split_and!; [done|by rewrite Her|by rewrite Hen, Hcn, Hn].
  - rewrite (proj2 (Z.ltb_lt _ _)) by (cbn; lia). rewrite (proj2 (Z.ltb_lt _ _)) by (cbn; lia).
    cbn [andb]. unfold has_column_by_name. rewrite Hn.
    rewrite bool_decide_true by set_solver. rewrite bind_Ret, Hn, bool_decide_true by set_solver.
    destruct (drop_columns_known [MOD] b) as (d & Hd & Hdn & Hdr).
    { rewrite Hn. apply Forall_singleton. set_solver. }
    rewrite Hd, bind_Ret. eexists (combine_chunks d), _. split; [reflexivity|]. split; [reflexivity|].
    destruct (combine_chunks_same d) as [Hcn Hcr].
    assert (rows_of d = squeeze <$> r :: rs) as Hrows.
    { rewrite Hdr, Hr, Hn. apply list_fmap_ext. intros i x Hx.
      apply mask_bucket; [done|]. rewrite Forall_forall in Hw. apply Hw. by eapply list_elem_of_lookup_2. }
    rewrite to_batches_combined, Hrows, Hcr, Hrows. cbn [fmap list_fmap].
    split_and!; [cbn; by rewrite length_fmap|by rewrite Hcr, Hrows|].
    rewrite Hcn, Hdn, Hn. rewrite filter_cons, decide_True by set_solver.
    rewrite filter_cons, decide_False by set_solver. f_equal.
    apply filter_every. set_solver.
Qed.

Lemma worker_batch_of a protocol delim block data name :
  read_block_data a protocol block delim = Ret (data, name) →
  worker_batch a protocol block delim
  = Ret (match to_batches data with [] => empty_batch data | b :: _ => b end).
Proof. intros Hd. unfold worker_batch. by rewrite Hd. Qed.

(** The join of a block, once the protocol has answered. *)
Lemma join_run psi a i protocol delim (b bt out : T) cols name :
  column_names b = HASH :: MOD :: cols → HASH ∉ cols → MOD ∉ cols →
  Forall (wide (length cols)) (rows_of b) →
  get_actual_column_name b (pa_example_id_name a) 2 = Ret name →
  pa_join_type a = PSI →
  worker_batch a protocol (BRef (Some b)) delim = Ret bt →
  psi (pa_role a) (task_id a i) bt = Ret (Some out) →
  ∃ o j, join_block psi a i protocol (BRef (Some b)) delim = Ret (o, out, j) ∧
    o.1.1 = zlen (rows_of b) ∧ j.1.1 = zlen (rows_of out).
Proof.
  intros Hn Hh Hm Hw Hname Hpsi Hbt Hout.
  destruct (worker_batch_run a protocol delim b cols name Hn Hh Hm Hw Hname)
    as (data & bt' & Hread & Hb & Hlen & _).
  rewrite (worker_batch_of _ _ _ _ _ _ Hread), Hb in Hbt. injection Hbt as ->.
  destruct (count_values_ok data [HASH; name]) as [o Ho].
  destruct (count_values_ok out [HASH; name]) as [j Hj].
  exists o, j. split_and!.
  - unfold join_block. rewrite Hread, bind_Ret, Hpsi.
    rewrite (bool_decide_false (PSI = PIR)), andb_false_r, bind_Ret by done.
    rewrite Ho, bind_Ret, Hb. unfold do_psi. by rewrite Hout, bind_Ret, Hj, bind_Ret.
  - rewrite (count_values_rows _ _ _ Ho). unfold num_rows, zlen. by rewrite Hlen.
  - by rewrite (count_values_rows _ _ _ Hj).
Qed.

(** The blocks of a hashed table: one for each bucket, all with its columns. *)
Lemma blocks_of_run args (t h : T) name :
  0 < aa_bucket_num args →
  add_hash_column t HASH name (Some (MOD, aa_bucket_num args)) = Ret h →
  ∃ B, blocks_of args h = Ret B ∧ length B = Z.to_nat (aa_bucket_num args) ∧
    ∀ i b, B !! i = Some b → column_names b = column_names h ∧
      rows_of b ≡ₚ filter (λ r, part_row (aa_bucket_num args) r = i) (rows_of h).
Proof.
  intros Hn Hh. set (n := aa_bucket_num args) in *.
  set (bs := repartition_by_key_value h MOD (range1 n)).
  assert (repartition_by_hash t name n = Ret bs) as Hbs by (unfold repartition_by_hash; by rewrite Hh).
  destruct (blocks_parts t h name n bs Hn Hh Hbs) as (Hlen & Hparts & Hlt).
  destruct (add_hash_column_rows t h name n Hn Hh) as [Hc _].
  assert (∀ i b, bs !! i = Some b → rows_of b ≠ [] → column_names b = column_names h) as Hnames
    by (intros i b Hi; by apply (sort_op_rows _ 1 _ _ i b Hc Hi)).
  destruct (hashed_table t h name n Hn Hh) as (_ & Hrows & Hne).
  assert (rows_of h ≠ []) as Hne' by (intros Hnil; rewrite Hnil in Hrows; by destruct Hne).
  unfold blocks_of, add_schema_to_all_empty_blocks. fold n. fold bs.
  destruct (last (filter (λ b, rows_of b ≠ []) bs)) as [e|] eqn:El; cycle 1.
  { exfalso. destruct (rows_of h) as [|r rs] eqn:Er; [done|].
    specialize (Hlt r ltac:(set_solver)). rewrite <- Hlen in Hlt.
    apply lookup_lt_is_Some_2 in Hlt as [b Hb].
    apply last_None in El. assert (b ∈ filter (λ b, rows_of b ≠ []) bs) as Hin.
    { apply list_elem_of_filter. split; [|by eapply list_elem_of_lookup_2].
      intros Hnil. pose proof (Hparts _ _ Hb) as Hp. rewrite Hnil in Hp.
      assert (r ∈ filter (λ r0, part_row n r0 = part_row n r) (r :: rs)) as Hr
        by (apply list_elem_of_filter; set_solver).
      rewrite <- Hp in Hr. by apply elem_of_nil in Hr. }
    rewrite El in Hin. by apply elem_of_nil in Hin. }
  apply last_Some_elem_of, list_elem_of_filter in El as [Hnee He].
  apply list_elem_of_lookup in He as [ie He].
  eexists. split; [reflexivity|]. split; [by rewrite length_fmap|].
  intros i b Hi. rewrite list_lookup_fmap in Hi. apply fmap_Some in Hi as (b0 & Hb0 & ->).
  pose proof (Hparts _ _ Hb0) as Hp. destruct (rows_of b0) as [|r rs] eqn:Er.
  - destruct (empty_batch_spec e) as [Hen Her]. rewrite Hen, Her. split; [by apply (Hnames ie)|done].
  - rewrite Er. split; [by apply (Hnames i); [|rewrite Er]|done].
Qed.
End preparation.

(** ** One program *)
Section party.
Context `{Blake} `{ArrowLaws T, !FileSystem, !RaySort T, !RaySortLaws T}.
Local Abbreviation HASH := STATIC_HASHED_VALUE_COLUMN_NAMES.
Local Abbreviation MOD := STATIC_HASHED_MOD_VALUE_COLUMN_NAMES.

(** The program is started on a single local file with the table [t], whose hashed
    form is [h]; the output is a local CSV file. *)
Record prepares (args : app_args) (t h : T) : Prop := mkPrepares {
  pr_type : get_file_type "" (aa_data_path args) = File;
  pr_protocol : infer_protocol (aa_data_path args) = "nfs";
  pr_format : infer_format (aa_data_path args) = "csv";
  pr_read : ∃ t0 name,
    read_data_from_file (aa_data_path args) (aa_with_head args) (aa_csv_delimiter args) = Ret t0 ∧
    get_actual_column_name t0 (aa_example_id_name args) 0 = Ret name ∧
    convert_string_to_large_string t0 = Ret t ∧
    add_hash_column t HASH name (Some (MOD, aa_bucket_num args)) = Ret h;
  pr_name : ∃ name, get_actual_column_name h (aa_example_id_name args) 2 = Ret name;
  pr_columns : (HASH ∉ column_names t) ∧ (MOD ∉ column_names t);
  pr_width : Forall (λ r, length r = length (column_names t)) (rows_of t);
  pr_psi : aa_join_type args = PSI;
  pr_actors : 0 < aa_max_actors args;
  pr_buckets : 0 < aa_bucket_num args;
  pr_output : infer_protocol (aa_output_dir args) = "nfs" ∧ infer_format (aa_output_dir args) = "csv";
}.

Lemma prepares_hashed args t h :
  prepares args t h →
  column_names h = HASH :: MOD :: column_names t ∧ drop 2 <$> rows_of h = rows_of t ∧
  Forall (wide (length (column_names t))) (rows_of h).
Proof.
  intros Hp. destruct (pr_read _ _ _ Hp) as (t0 & name & _ & _ & _ & Hh).
  destruct (hashed_table t h name _ (pr_buckets _ _ _ Hp) Hh) as (Hn & Hr & _).
  split_and!; [done|done|]. destruct (add_hash_column_rows t h name _ (pr_buckets _ _ _ Hp) Hh) as [_ Hw].
  rewrite Forall_forall in Hw. apply Forall_forall. intros r Hin.
  destruct (Hw r Hin) as (x & r' & ->). unfold wide, hashed_row. eexists _, _, _. split; [reflexivity|].
  pose proof (pr_width _ _ _ Hp) as Hlen. rewrite Forall_forall in Hlen. apply Hlen.
  rewrite <- Hr. apply list_elem_of_fmap. by exists (hashed_row (aa_bucket_num args) x r').
Qed.

(** The blocks of the run, and what each is to its worker. *)
Lemma prepares_blocks args t h :
  prepares args t h →
  ∃ B, blocks_of args h = Ret B ∧ length B = Z.to_nat (aa_bucket_num args) ∧
    ∀ i b, B !! i = Some b →
      rows_of b ≡ₚ filter (λ r, part_row (aa_bucket_num args) r = i) (rows_of h) ∧
      column_names b = HASH :: MOD :: column_names t ∧
      Forall (wide (length (column_names t))) (rows_of b) ∧
      ∃ name, get_actual_column_name b (aa_example_id_name args) 2 = Ret name.
Proof.
  intros Hp. destruct (pr_read _ _ _ Hp) as (t0 & name & _ & _ & _ & Hh).
  destruct (blocks_of_run args t h name (pr_buckets _ _ _ Hp) Hh) as (B & HB & Hlen & Hb).
  destruct (prepares_hashed args t h Hp) as (Hn & _ & Hw).
  exists B. split_and!; [done|done|]. intros i b Hi. destruct (Hb i b Hi) as [Hcn Hrows].
  rewrite Hn in Hcn. split_and!; [done|done| |].
  - rewrite Hrows. apply Forall_forall. intros r Hr. apply list_elem_of_filter in Hr as [_ Hr].
    rewrite Forall_forall in Hw. by apply Hw.
  - destruct (pr_name _ _ _ Hp) as [nm Hnm]. exists nm. revert Hnm. unfold get_actual_column_name.
    unfold get_column_name_by_index. by rewrite Hn, Hcn.
Qed.

Lemma repartition_blocks args t h :
  prepares args t h →
  ∃ bs, repartition_for_existed_data "nfs" (aa_data_path args) (aa_with_head args)
          (aa_example_id_name args) (aa_bucket_num args) (aa_csv_delimiter args) = Ret bs ∧
    add_schema_to_all_empty_blocks bs = blocks_of args h.
Proof.
  intros Hp. destruct (pr_read _ _ _ Hp) as (t0 & name & Hr & Hname & Hc & Hh).
  eexists. split; [|reflexivity]. unfold repartition_for_existed_data.
  rewrite bool_decide_false, bool_decide_true by done. rewrite Hr, bind_Ret, Hname, bind_Ret, Hc, bind_Ret.
  unfold repartition_by_hash. rewrite Hh, !bind_Ret.
  set (bs := repartition_by_key_value _ _ _).
  assert (0 < zlen bs) as Hlen.
  { unfold zlen, bs, repartition_by_key_value. rewrite sort_op_length. lia. }
  destruct bs as [|b bs]; [done|]. done.
Qed.

(** What a run comes to, when the protocol answers for every block. *)
Lemma sum_counts_rows l f (g : nat → nat) :
  (∀ i, i ∈ l → (f i).1.1 = Z.of_nat (g i)) →
  (sum_counts l f).1.1 = Z.of_nat (sum_list_with g l).
Proof.
  unfold sum_counts.
  assert (∀ l (a : counts), (∀ i, i ∈ l → (f i).1.1 = Z.of_nat (g i)) →
    (fold_left (λ a i, add_counts a (Some (f i))) l a).1.1 = a.1.1 + Z.of_nat (sum_list_with g l)) as Hl.
  { clear l. induction l as [|i l IH]; intros a Ha; cbn [fold_left sum_list_with]; [lia|].
    rewrite IH by set_solver. destruct a as [[x y] z]. pose proof (Ha i ltac:(set_solver)) as Hi.
    destruct (f i) as [[u v] w]. cbn in *. lia. }
  intros Hf. by rewrite Hl.
Qed.
Lemma sum_list_sublist {A} (g : A → nat) l l' :
  l `sublist_of` l' → (sum_list_with g l ≤ sum_list_with g l')%nat.
Proof. induction 1; cbn; lia. Qed.
Lemma length_concat_seq {A} (f : nat → list A) n :
  length (concat (f <$> seq 0 n)) = sum_list_with (λ i, length (f i)) (seq 0 n).
Proof.
  generalize 0%nat. induction n as [|n IH]; intros k; [done|]. cbn [seq fmap list_fmap concat sum_list_with].
  by rewrite length_app, IH.
Qed.

(** The report of a run, with its numbers of rows. *)
Definition rows_report (local join : nat) (output_dir : string) : report :=
  psi_report (Z.of_nat local, 0, 0) (Z.of_nat join, 0, 0) output_dir.
(** A run ends with the files [files'].  It reports [local] rows of which [join] are
    joined, or fewer when the reports of some workers come too late. *)
Definition run_writes psi args sched global_role (files files' : outputs) (local join : nat) : Prop :=
  ∃ l j, run_app (T := T) psi args sched global_role files
         = (Ret (rows_report l j (aa_output_dir args)), files') ∧
    (l ≤ local)%nat ∧ (j ≤ join)%nat ∧
    (all_handled (Z.to_nat (aa_max_actors args)) (Z.to_nat (aa_bucket_num args)) sched →
     l = local ∧ j = join).

(** The buckets of a table are the table. *)
Lemma parts_whole m (l : list (list cell)) :
  0 < m → concat ((λ i, filter (λ r, part_row m r = i) l) <$> seq 0 (Z.to_nat m)) ≡ₚ l.
Proof.
  intros Hm. rewrite concat_parts. rewrite filter_every; [done|]. intros r _. unfold part_row.
  pose proof (Z.mod_pos_bound (be_value 0 (row_id r)) m Hm). lia.
Qed.

Context (psi : RoleType → string → T → outcome (option T)) (args : app_args) (t h : T) (B : list T).
Context (Hp : prepares args t h) (HB : blocks_of args h = Ret B).
Local Abbreviation worker := (actor_at args File 0).
Local Abbreviation n := (Z.to_nat (aa_bucket_num args)).

(** The table that the protocol gives for a block, and the one that is written. *)
Definition joined_block (i : nat) : T :=
  match worker_batch worker "nfs" (BRef (B !! i)) (aa_csv_delimiter args) with
  | Ret bt =>
      match psi (aa_role_type args) (task_id worker (Z.of_nat i)) bt with Ret (Some o) => o | _ => h end
  | Stop _ => h
  end.
Definition written_block (i : nat) : T :=
  match drop_columns [HASH] (joined_block i) with Ret r => r | Stop _ => h end.

(** The protocol keeps the rows [ks] of the block [b]. *)
Definition keeps_rows (i : nat) (b : T) (ks : list (list cell)) : Prop :=
  ∃ bt out, worker_batch worker "nfs" (BRef (Some b)) (aa_csv_delimiter args) = Ret bt ∧
    psi (aa_role_type args) (task_id worker (Z.of_nat i)) bt = Ret (Some out) ∧
    column_names out = column_names bt ∧ rows_of out = squeeze <$> ks ∧ ks ⊆ rows_of b.

Lemma block_run i b ks :
  B !! i = Some b → keeps_rows i b ks →
  rows_of (written_block i) = drop 2 <$> ks ∧
  drop_columns [HASH] (joined_block i) = Ret (written_block i) ∧
  ∃ o j, join_block psi worker (Z.of_nat i) "nfs" (BRef (Some b)) (aa_csv_delimiter args)
         = Ret (o, joined_block i, j) ∧
    o.1.1 = zlen (rows_of b) ∧ j.1.1 = zlen ks.
Proof.
  intros Hi (bt & out & Hbt & Hout & Hcn & Hrows & Hsub).
  destruct (prepares_blocks args t h Hp) as (B' & HB' & _ & Hblocks).
  rewrite HB in HB'. injection HB' as <-.
  destruct (pr_columns _ _ _ Hp) as [Hh Hm].
  destruct (Hblocks i b Hi) as (_ & Hn & Hw & name & Hname).
  assert (joined_block i = out) as Hj by (unfold joined_block; by rewrite Hi, Hbt, Hout).
  destruct (worker_batch_run worker "nfs" (aa_csv_delimiter args) b _ name Hn Hh Hm Hw Hname)
    as (data & bt' & Hread & Hb & _ & _ & Hbn).
  rewrite (worker_batch_of _ _ _ _ _ _ Hread), Hb in Hbt. injection Hbt as ->.
  destruct (drop_columns_known [HASH] out) as (w & Hd & _ & Hwr).
  { rewrite Hcn, Hbn. apply Forall_singleton. set_solver. }
  assert (written_block i = w) as Hwb by (unfold written_block; by rewrite Hj, Hd).
  rewrite Hj, Hwb. split_and!; [|done|].
  - rewrite Hwr, Hcn, Hbn, Hrows. destruct (rows_of b) as [|r rs] eqn:Er.
    { destruct ks as [|x ks]; [done|]. exfalso. specialize (Hsub x ltac:(set_solver)).
      by apply elem_of_nil in Hsub. }
    rewrite <- list_fmap_compose. apply list_fmap_ext. intros k x Hx.
    apply (mask_hash (column_names t)); [done|]. rewrite Forall_forall in Hw. apply Hw.
    apply Hsub. by eapply list_elem_of_lookup_2.
  - destruct (join_run psi worker (Z.of_nat i) "nfs" (aa_csv_delimiter args) b bt out _ name
                Hn Hh Hm Hw Hname) as (o & j & Hjoin & Ho & Hjn).
    + apply (pr_psi _ _ _ Hp).
    + rewrite (worker_batch_of _ _ _ _ _ _ Hread). by rewrite Hb.
    + done.
    + exists o, j. split_and!; [done|done|]. rewrite Hjn, Hrows. unfold zlen. by rewrite length_fmap.
Qed.

(** The blocks have the rows of the table, each once. *)
Lemma blocks_total :
  length B = n ∧
  sum_list_with (λ i, length (default [] (rows_of <$> B !! i))) (seq 0 n) = length (rows_of t).
Proof.
  destruct (prepares_blocks args t h Hp) as (B' & HB' & Hlen & Hblocks).
  rewrite HB in HB'. injection HB' as <-. split; [done|].
  destruct (prepares_hashed args t h Hp) as (_ & Hrows & _). rewrite <- Hrows, length_fmap.
  rewrite <- (parts_whole (aa_bucket_num args) (rows_of h)) by apply (pr_buckets _ _ _ Hp).
  rewrite length_concat_seq. apply sum_list_ext. intros i Hi. apply elem_of_seq in Hi.
  destruct (lookup_lt_is_Some_2 B i) as [b Hb]; [lia|]. rewrite Hb.
  destruct (Hblocks i b Hb) as (Hperm & _). cbn. by rewrite <- Hperm.
Qed.

(** [kept]: the rows of each block that the protocol keeps. *)
Lemma party_run (kept : nat → list (list cell)) :
  (∀ i b, B !! i = Some b → keeps_rows i b (kept i)) →
  (∀ i, (i < n)%nat → rows_of (written_block i) = drop 2 <$> kept i) ∧
  ∀ sched global_role files, (n ≤ readies sched)%nat →
    run_writes psi args sched global_role files
      (<[("", aa_output_dir args) := joint_csv args written_block n]> files)
      (length (rows_of t)) (length (concat (kept <$> seq 0 n))).
Proof.
  intros Hpsi. destruct blocks_total as [Hlen Htotal].
  assert (∀ i, (i < n)%nat → is_Some (B !! i)) as Hsome
    by (intros i Hi; apply lookup_lt_is_Some_2; lia).
  split.
  { intros i Hi. destruct (Hsome i Hi) as [b Hb]. by apply (block_run i b _ Hb (Hpsi i b Hb)). }
  intros sched g files Hsched.
  destruct (repartition_blocks args t h Hp) as (bs & Hbs & Hschema). rewrite HB in Hschema.
  set (run := λ i, join_block psi worker (Z.of_nat i) "nfs" (BRef (B !! i)) (aa_csv_delimiter args)).
  set (orig := λ i, match run i with Ret (o, _, _) => o | Stop _ => (0, 0, 0) end).
  set (joined := λ i, match run i with Ret (_, _, j) => j | Stop _ => (0, 0, 0) end).
  assert (∀ i b, B !! i = Some b →
    join_block psi worker (Z.of_nat i) "nfs" (BRef (Some b)) (aa_csv_delimiter args)
      = Ret (orig i, joined_block i, joined i) ∧
    (orig i).1.1 = Z.of_nat (length (default [] (rows_of <$> B !! i))) ∧
    (joined i).1.1 = Z.of_nat (length (kept i))) as Hcount.
  { intros i b Hb. destruct (block_run i b _ Hb (Hpsi i b Hb)) as (_ & _ & o & j & Hjoin & Ho & Hj).
    unfold orig, joined, run. by rewrite Hb, Hjoin. }
  destruct (file_run psi args orig joined joined_block written_block sched g files bs B
    (pr_type _ _ _ Hp) (pr_protocol _ _ _ Hp) (pr_format _ _ _ Hp) Hbs Hschema)
    as (heard & [Hsub Hall _] & Hrun).
  - rewrite Hlen. pose proof (pr_buckets _ _ _ Hp). lia.
  - rewrite Hlen. pose proof (pr_buckets _ _ _ Hp). lia.
  - apply (pr_psi _ _ _ Hp).
  - apply (pr_actors _ _ _ Hp).
  - by rewrite Hlen.
  - intros i b Hb. split; [apply (Hcount i b Hb)|apply (block_run i b _ Hb (Hpsi i b Hb))].
  - apply (pr_output _ _ _ Hp).
  - apply (pr_output _ _ _ Hp).
  - rewrite Hlen in Hsub, Hall, Hrun.
    assert (∀ i, i ∈ heard → is_Some (B !! i)) as Hheard.
    { intros i Hi. apply Hsome. apply (elem_of_submseteq _ (seq 0 n)), elem_of_seq in Hi; [lia|].
      by apply sublist_submseteq. }
    exists (sum_list_with (λ i, length (default [] (rows_of <$> B !! i))) heard),
      (sum_list_with (λ i, length (kept i)) heard).
    rewrite <- Htotal, length_concat_seq. split_and!.
    + rewrite Hrun. unfold rows_report, psi_report, percent.
      rewrite (sum_counts_rows heard orig (λ i, length (default [] (rows_of <$> B !! i))))
        by (intros i Hi; destruct (Hheard i Hi) as [b Hb]; apply (Hcount i b Hb)).
      by rewrite (sum_counts_rows heard joined (λ i, length (kept i)))
        by (intros i Hi; destruct (Hheard i Hi) as [b Hb]; apply (Hcount i b Hb)).
    + by apply sum_list_sublist.
    + by apply sum_list_sublist.
    + intros Hh. by rewrite (Hall Hh).
Qed.
End party.

(** ** Both programs *)
Section both.
Context `{Blake} `{ArrowLaws T, !FileSystem, !RaySort T, !RaySortLaws T, !Take T, !TakeLaws T} `{EcdhLaws}.
Context (order : string → list Z → list Z) (key_s key_r : string → string).

(** The workers of a task find each other. *)
Lemma batches_of_run args args' (B : list T) i b bt :
  aa_app_id args = aa_app_id args' → B !! i = Some b →
  worker_batch (actor_at args' File 0) "nfs" (BRef (Some b)) (aa_csv_delimiter args') = Ret bt →
  batches_of args' B (task_id (actor_at args File 0) (Z.of_nat i)) = Some bt.
Proof.
  intros Happ Hi Hbt. unfold batches_of.
  assert (i < length B)%nat as Hlt by (by eapply lookup_lt_Some).
  rewrite (list_find_unique _ _ i i).
  - cbn [fmap option_fmap option_map snd mbind option_bind]. by rewrite Hi, Hbt.
  - apply lookup_seq. lia.
  - unfold task_id. cbn. by rewrite Happ.
  - intros j y Hj Hy. apply lookup_seq in Hj as [-> _]. unfold task_id in Hy. cbn in Hy.
    rewrite Happ in Hy. do 2 apply Str.append_inj_l in Hy. apply (f_equal (Str.zfill 0)), Str.zfill_of_int_inj in Hy; lia.
Qed.

Lemma squeezed_ids m (l : list (list cell)) :
  Forall (wide m) l → row_id <$> (squeeze <$> l) = row_id <$> l.
Proof.
  intros Hl. rewrite <- list_fmap_compose. apply list_fmap_ext. intros i r Hr.
  rewrite Forall_forall in Hl. apply (squeeze_id r m), Hl. by eapply list_elem_of_lookup_2.
Qed.
Lemma common_squeeze m m' (l l' : list (list cell)) :
  Forall (wide m) l → Forall (wide m') l' →
  common (squeeze <$> l) (squeeze <$> l') = squeeze <$> common l l'.
Proof.
  intros Hl Hl'. unfold common. rewrite (filter_map squeeze). f_equal.
  apply filter_ext_in. intros r Hr. rewrite (squeezed_ids m' l' Hl').
  rewrite Forall_forall in Hl. by rewrite (squeeze_id r m (Hl r Hr)).
Qed.
(** The rows that a party keeps of each block, and of all. *)
Definition kept (B B' : list T) (i : nat) : list (list cell) :=
  common (default [] (rows_of <$> B !! i)) (default [] (rows_of <$> B' !! i)).

Lemma kept_all n (B B' : list T) (rows rows' : list (list cell)) :
  0 < n →
  (∀ i, (i < Z.to_nat n)%nat → ∃ b b', B !! i = Some b ∧ B' !! i = Some b' ∧
     rows_of b ≡ₚ filter (λ r, part_row n r = i) rows ∧
     rows_of b' ≡ₚ filter (λ r, part_row n r = i) rows') →
  concat (kept B B' <$> seq 0 (Z.to_nat n)) ≡ₚ common rows rows'.
Proof.
  intros Hn Hb. etrans; [apply (concat_perm _ (λ i, filter (λ r, part_row n r = i) (common rows rows')))|].
  - intros i Hi. apply elem_of_seq in Hi. destruct (Hb i ltac:(lia)) as (b & b' & Hi1 & Hi2 & Hr & Hr').
    unfold kept. rewrite Hi1, Hi2. cbn. by apply (common_part n i rows rows').
  - by apply parts_whole.
Qed.

(** A worker hands on the rows of its block. *)
Lemma party_batch args (t h : T) B i b :
  prepares args t h → blocks_of args h = Ret B → B !! i = Some b →
  ∃ bt, worker_batch (actor_at args File 0) "nfs" (BRef (Some b)) (aa_csv_delimiter args) = Ret bt ∧
    rows_of bt = squeeze <$> rows_of b ∧ Forall (wide (length (column_names t))) (rows_of b) ∧
    row_id <$> rows_of bt ⊆ row_id <$> rows_of h.
Proof.
  intros Hp HB Hi. destruct (prepares_blocks args t h Hp) as (B' & HB' & _ & Hb).
  rewrite HB in HB'. injection HB' as <-. destruct (Hb i b Hi) as (Hrows & Hn & Hw & name & Hname).
  destruct (pr_columns _ _ _ Hp) as [Hh Hm].
  destruct (worker_batch_run (actor_at args File 0) "nfs" (aa_csv_delimiter args) b _ name Hn Hh Hm Hw Hname)
    as (data & bt & Hread & Hbt & _ & Hr & _).
  exists bt. rewrite (worker_batch_of _ _ _ _ _ _ Hread), Hbt. split_and!; [done|done|done|].
  rewrite Hr, (squeezed_ids _ _ Hw). intros x Hx. apply list_elem_of_fmap in Hx as (r & -> & Hin).
  rewrite Hrows in Hin. apply list_elem_of_filter in Hin as [_ Hin]. apply list_elem_of_fmap. by exists r.
Qed.

Context (Hord : ∀ t l, order t l ≡ₚ l).

(** What the protocol answers to each of the two workers of a block. *)
Lemma paired_answers args_s args_r (ts tr hs hr : T) Bs Br i bs br :
  prepares args_s ts hs → prepares args_r tr hr →
  aa_app_id args_s = aa_app_id args_r →
  (∀ tid, good_keys (key_s tid) (key_r tid) ((row_id <$> rows_of hs) ++ (row_id <$> rows_of hr))) →
  no_collision (row_id <$> rows_of hs) (row_id <$> rows_of hr) →
  blocks_of args_s hs = Ret Bs → blocks_of args_r hr = Ret Br →
  Bs !! i = Some bs → Br !! i = Some br →
  let task args := task_id (actor_at args File 0) (Z.of_nat i) in
  let batch args b := worker_batch (actor_at args File 0) "nfs" (BRef (Some b)) (aa_csv_delimiter args) in
  (∃ bt out, batch args_s bs = Ret bt ∧
     paired order key_s key_r (batches_of args_r Br) SENDER (task args_s) bt = Ret (Some out) ∧
     column_names out = column_names bt ∧
     rows_of out = squeeze <$> kept Bs Br i ∧ kept Bs Br i ⊆ rows_of bs) ∧
  (∃ bt out, batch args_r br = Ret bt ∧
     paired order key_s key_r (batches_of args_s Bs) RECEIVER (task args_r) bt = Ret (Some out) ∧
     column_names out = column_names bt ∧
     rows_of out = squeeze <$> kept Br Bs i ∧ kept Br Bs i ⊆ rows_of br).
Proof.
  intros Hps Hpr Happ Hkeys Hcol HBs HBr Hi Hi' task batch.
  destruct (party_batch args_s ts hs Bs i bs Hps HBs Hi) as (bts & Hbts & Hrs & Hws & Hids).
  destruct (party_batch args_r tr hr Br i br Hpr HBr Hi') as (btr & Hbtr & Hrr & Hwr & Hidr).
  assert (no_collision (row_id <$> rows_of bts) (row_id <$> rows_of btr)) as Hcol'
    by (eapply no_collision_mono; [exact Hcol|done|done]).
  assert (∀ tid, good_keys (key_s tid) (key_r tid)
    ((row_id <$> rows_of bts) ++ (row_id <$> rows_of btr))) as Hkeys'.
  { intros tid. eapply good_keys_mono; [apply Hkeys|].
    intros x [Hx|Hx]%elem_of_app; apply elem_of_app; auto. }
  assert (task args_s = task args_r) as Htask by (unfold task, task_id; cbn; by rewrite Happ).
  destruct (psi_batches_run order key_s key_r Hord (task args_s) bts btr (Hkeys' _) Hcol')
    as (os & or & Hpsi & [Hns Hos] & [Hnr Hor]).
  rewrite Hrs, Hrr in Hos, Hor.
  rewrite (common_squeeze _ _ _ _ Hws Hwr) in Hos. rewrite (common_squeeze _ _ _ _ Hwr Hws) in Hor.
  assert (∀ l l' : list (list cell), common l l' ⊆ l) as Hsub
    by (intros l l' x Hx; by apply list_elem_of_filter in Hx as [_ Hx]).
  split.
  - exists bts, os. split_and!; [done| |done| |].
    + unfold paired. unfold task at 1. rewrite (batches_of_run args_s args_r Br i br btr Happ Hi' Hbtr).
      fold (task args_s). by rewrite Hpsi.
    + unfold kept. by rewrite Hi, Hi'.
    + unfold kept. rewrite Hi, Hi'. apply Hsub.
  - exists btr, or. split_and!; [done| |done| |].
    + unfold paired. unfold task at 1. rewrite (batches_of_run args_r args_s Bs i bs bts (eq_sym Happ) Hi Hbts).
      fold (task args_r). by rewrite <- Htask, Hpsi.
    + unfold kept. by rewrite Hi, Hi'.
    + unfold kept. rewrite Hi, Hi'. apply Hsub.
Qed.

End both.

(** ** Properties *)
Section properties.
Context `{Blake} `{ArrowLaws T, !FileSystem, !RaySort T, !RaySortLaws T, !Take T, !TakeLaws T} `{EcdhLaws}.

End properties.

(** ** Two small files *)
Module TestRuns.
Import TestTables TestApp TestEcdh.
#[export] Instance test_take : Take Table := {
  take_batch l t := mkTyped (t_names t) ((λ i, default [] (t_rows t !! i)) <$> l) (t_large t);
}.
#[export] Instance test_take_laws : TakeLaws Table.
Proof. done. Qed.
#[export] Instance two_files : FileSystem := {
  get_file_type _ _ := File;
  list_files _ _ _ := [];
  input_stream _ p :=
    if bool_decide (p = "a.csv") then Some (csv ["id,v"; "ann,3"; "bob,4"; "joe,5"])
    else if bool_decide (p = "b.csv") then Some (csv ["id"; "joe"; "eve"; "bob"; "bob"])
    else if bool_decide (p = "odd.csv") then Some (csv ["id,v"; "joe,5"])
    else None;
}.
Definition side (role : RoleType) (path out : string) : app_args :=
  mkApp "task" PSI path (ByName "id") true 2 role out 2 ",".
Definition sender : app_args := side SENDER "a.csv" "joined_a.csv".
Definition receiver : app_args := side RECEIVER "b.csv" "joined_b.csv".
Definition table_at (path : string) : Table :=
  match read_data_from_file path true "," with Ret t => t | Stop _ => mkTable [] [] end.
Definition hashed_at (path : string) : Table :=
  match add_hash_column (table_at path) STATIC_HASHED_VALUE_COLUMN_NAMES "id"
          (Some (STATIC_HASHED_MOD_VALUE_COLUMN_NAMES, 2)) with
  | Ret h => h
  | Stop _ => mkTable [] []
  end.

Lemma sides_prepare role path out :
  path ∈ ["a.csv"; "b.csv"] → out ∈ ["joined_a.csv"; "joined_b.csv"] →
  prepares (side role path out) (table_at path) (hashed_at path).
Proof.
  intros Hp Ho. apply list_elem_of_In in Hp, Ho. cbn in Hp, Ho.
  destruct Hp as [<-|[<-|[]]]; destruct Ho as [<-|[<-|[]]];
    (split; try reflexivity;
     [(by exists (table_at "a.csv"), "id"; split_and!; vm_compute)
      || (by exists (table_at "b.csv"), "id"; split_and!; vm_compute)
     |exists "id"; reflexivity
     |apply (bool_decide_unpack _); vm_compute; exact I
     |apply (bool_decide_unpack _); vm_compute; exact I
     |split; reflexivity]).
Qed.


(** Where the first bucket has no rows, its block keeps the column of the bucket numbers,
    and the header of the output has one column more than the rows. *)
Example empty_bucket_shifts_the_header :
  (run_app (λ _ _ t, Ret (Some t)) (side SENDER "odd.csv" "out.csv") [Ready 0; Ready 0] None ∅).2
    !! ("", "out.csv")
  = Some (csv ["___hashed_mod_id,id,v"; "joe,5"]).
Proof. by vm_compute. Qed.
End TestRuns.
