(* ===== verification/Trainer.v ===== *)
(** * The trainer

    src/Trainer/fl_comm_libs: the configuration of a worker from its flags and
    its environment (flenv.py), the pairing with the coordinator
    (fl_rpc_utils.py) and the order in which the estimator connects and trains
    (fl_estimator.py).  TensorFlow, the bridge and the stubs are the outside:
    their answers are given to the model as lists, in the order they come. *)

From stdpp Require Import base tactics list gmap strings pretty.
From Stdlib Require Import ZArith Lia Ascii.
From S2P Require Import Prelude PyStd.

Open Scope Z_scope.

(** ** flenv.py *)

(** [TF_CONFIG] once parsed. *)
Record tf_config := mkTf {
  tf_cluster : option (list (string * list string));
  tf_job_name : option string;
  tf_task_index : option Z;
}.

Record environ := mkEnviron {
  en_TF_CONFIG : option tf_config;
  en_app_id : option string;
  en_rpc_service_type : option string;
  en_worker_port : option string;
  en_coordinator : option string * option string;
  en_proxy : option string * option string;
  en_datacenter : option string * option string;
  en_model_dir : option string;
  en_export_dir : option string;
}.
Record flags := mkFlags {
  fl_role : string;
  fl_appli_id : string;
  fl_local_addr : option string;
  fl_peer_addr : option string;
  fl_dc_addr : option string;
  fl_coordinator_addr : option string;
  fl_proxy_addr : option string;
  fl_rpc_service_type : Z;
  fl_model_dir : string;
  fl_export_dir : string;
  fl_local_debug : Z;
  fl_check_exampleid : Z;
  fl_eval : Z;
  fl_checkpoint_hdfs_path : string;
}.
Definition default_flags : flags :=
  mkFlags "leader" "jdfl" None None None None None 1 "./models/model_dir/"
    "./models/export_savemodel/" 0 0 0 "".

(** The part of the configuration that the cluster decides. *)
Record cluster_conf := mkConf {
  cc_worker_replicas : Z;
  cc_worker_id : Z;
  cc_is_local : bool;
  cc_cluster : option (Z * string * Z * list (string * list string));
}.
Definition local_conf : cluster_conf := mkConf 1 0 true None.

(** [len(cluster_spec.as_dict().get(job, []))] *)
Definition tasks (cluster : list (string * list string)) (job : string) : Z :=
  zlen (default [] (Dict.get job cluster)).

Definition worker_id_of (cluster : list (string * list string)) (job_name : string) (task_index : Z)
    : Z :=
  if bool_decide (job_name = "master") then task_index
  else if bool_decide (job_name = "chief") then tasks cluster "master" + task_index
  else if bool_decide (job_name = "worker")
  then tasks cluster "chief" + tasks cluster "master" + task_index
  else 0.

Definition replicas (cluster : list (string * list string)) : Z :=
  tasks cluster "worker" + tasks cluster "master" + tasks cluster "chief".

Definition parse_tf_config (e : environ) : outcome cluster_conf :=
  match en_TF_CONFIG e with
  | None => Ret local_conf
  | Some t =>
      match tf_job_name t, tf_task_index t with
      | Some job_name, Some task_index =>
          match tf_cluster t with
          | None => raise TypeError
          | Some cluster =>
              let ps_tasks := tasks cluster "ps" in
              let worker_replicas := replicas cluster in
              is_local ← (if (1 <? worker_replicas) && (ps_tasks <? 1) then raise ValueError
                          else Ret (negb ((1 <=? worker_replicas) && (0 <? ps_tasks))));
              Ret (mkConf worker_replicas (worker_id_of cluster job_name task_index) is_local
                     (Some (ps_tasks, job_name, task_index, cluster)))
          end
      | _, _ => Ret local_conf
      end
  end.

Record mconfig := mkMconfig {
  mc_conf : cluster_conf;
  mc_local_debug : bool;
  mc_role : string;
  mc_appli_id : string;
  mc_channel_appli_id : string;
  mc_rpc_service_type : string + Z;
  mc_local_addr : option string;
  mc_bind_addr : option string;
  mc_peer_addr : option string;
  mc_coordinator_addr : option string;
  mc_proxy_addr : option string;
  mc_dc_addr : option string;
  mc_model_dir : string;
  mc_export_dir : string;
  mc_log_dir : Z + string;
  mc_eval : Z;
  mc_checkpoint_hdfs_path : string;
}.

(** An address from two variables of the environment, when both are set. *)
Definition env_addr (v : option string * option string) (other : option string) : option string :=
  match v with
  | (Some ip, Some port) => Some (ip +:+ ":" +:+ port)
  | _ => other
  end.
Definition or_peer (local_debug : bool) (addr peer : option string) : option string :=
  if local_debug && bool_decide (addr = None) then peer else addr.

Definition channel_appli_id (appli_id : string) (worker_id : Z) : string :=
  appli_id +:+ "_TrainerWorkerService_" +:+ Str.of_int worker_id.

(** [host_ip]: the address of the host name. *)
Definition parse_mconfig (host_ip : string) (e : environ) (f : flags) : outcome mconfig :=
  let local_debug := fl_local_debug f =? 1 in
  conf ← parse_tf_config e;
  let appli_id := default (fl_appli_id f) (en_app_id e) in
  bind0 ← (match fl_local_addr f with
           | None => Ret None
           | Some a => p ← py_index (Str.split ":"%char a) 1; Ret (Some ("[::]:" +:+ p))
           end);
  '(local_addr, bind_addr) ←
    (match en_worker_port e with
     | None => Ret (fl_local_addr f, bind0)
     | Some env_port =>
         p ← py_index (Str.split ","%char env_port) 0;
         Ret (Some (host_ip +:+ ":" +:+ p), Some ("[::]:" +:+ p))
     end);
  Ret (mkMconfig conf local_debug (fl_role f) appli_id
         (channel_appli_id appli_id (cc_worker_id conf))
         (match en_rpc_service_type e with Some s => inl s | None => inr (fl_rpc_service_type f) end)
         local_addr bind_addr (fl_peer_addr f)
         (env_addr (en_coordinator e) (or_peer local_debug (fl_coordinator_addr f) (fl_peer_addr f)))
         (env_addr (en_proxy e) (or_peer local_debug (fl_proxy_addr f) (fl_peer_addr f)))
         (env_addr (en_datacenter e) (fl_dc_addr f))
         (default (fl_model_dir f) (en_model_dir e)) (default (fl_export_dir f) (en_export_dir e))
         (if fl_local_debug f =? 0 then inr "logs" else inl (fl_local_debug f))
         (fl_eval f) (fl_checkpoint_hdfs_path f)).

(** What [run_cluster] starts. *)
Inductive start :=
  | RunFunction (is_chief : bool)
  | JoinServer
  | NothingStarted.
Definition run_cluster (m : mconfig) : outcome start :=
  if cc_is_local (mc_conf m) then Ret (RunFunction true)
  else
    match cc_cluster (mc_conf m) with
    | None => raise KeyError
    | Some (_, job_name, _, _) =>
        if bool_decide (job_name = "ps") then Ret JoinServer
        else if bool_decide (job_name ∈ ["master"; "worker"; "chief"])
        then Ret (RunFunction (negb (bool_decide (job_name = "worker"))))
        else Ret NothingStarted
    end.

(** ** fl_rpc_utils.py *)

(** An answer of the pair service: an error of the call, or a status and the
    pairs of local and remote names. *)
Inductive answer := CallError | Reply (status : Z) (service_map : list (string * string)).

Definition register_ok (a : answer) : bool :=
  match a with Reply 0 _ => true | _ => false end.
Definition getpairs (a : answer) : option (list (string * string)) :=
  match a with
  | Reply 0 (p :: _) => Some [p]
  | _ => None
  end.

(** The calls to the service, in order; every failed one is tried again. *)
Inductive pair_call := RegisterUUID | GetPairInfo.
Fixpoint wait_register (answers : list answer) : M (list pair_call) (list answer) :=
  match answers with
  | [] => stopM NoFuel
  | a :: l =>
      modify (λ t, t ++ [RegisterUUID]);;
      if register_ok a then mret l else wait_register l
  end.
Fixpoint wait_pairs (answers : list answer) : M (list pair_call) (list (string * string)) :=
  match answers with
  | [] => stopM NoFuel
  | a :: l =>
      modify (λ t, t ++ [GetPairInfo]);;
      match getpairs a with Some ps => mret ps | None => wait_pairs l end
  end.
Definition prepare_rpc_channel (answers : list answer) : M (list pair_call) (list string) :=
  rest ← wait_register answers;
  pairs ← wait_pairs rest;
  mret (pairs.*2).

(** ** fl_estimator.py *)
Inductive op :=
  | FlInit | ChannelInit | Connect | WaitPeer | FollowTrain | TrainStart | RunStep | TrainCommit.
#[export] Instance op_eq_dec : EqDecision op.
Proof. solve_decision. Defined.

(** The operations that a session ran, with their status codes. *)
Abbreviation trace := (list (op * Z)).
Definition ran (o : op) (code : Z) : M trace unit := modify (λ t, t ++ [(o, code)]).

(** The status codes met by one pass of the connection loop. *)
Record attempt := mkAttempt { at_connect : Z; at_wait : list Z; at_follow : list Z }.

Definition try_connect (a : attempt) : M trace bool :=
  ran Connect (at_connect a);; mret (at_connect a =? 0).

(** [for _ in range(n)]: run the operation until it returns 0. *)
Fixpoint try_times (n : nat) (o : op) (codes : list Z) : M trace bool :=
  match n, codes with
  | O, _ => mret false
  | S _, [] => stopM NoFuel
  | S n', c :: codes' =>
      ran o c;; if c =? 0 then mret true else try_times n' o codes'
  end.
Definition wait_connect (a : attempt) : M trace bool := try_times 3 WaitPeer (at_wait a).
Definition wait_train_ready (a : attempt) : M trace bool := try_times 3 FollowTrain (at_follow a).

Definition connect_pass (role : string) (a : attempt) : M trace bool :=
  c ← try_connect a;
  if negb c then mret false
  else
    w ← wait_connect a;
    if negb w then mret false
    else if bool_decide (role = "follower") then wait_train_ready a else mret true.

Fixpoint connect_loop (role : string) (attempts : list attempt) : M trace unit :=
  match attempts with
  | [] => stopM NoFuel
  | a :: l => ok ← connect_pass role a; if (ok : bool) then mret tt else connect_loop role l
  end.

(** [should_stop] answers [stops] one after the other. *)
Fixpoint train_loop (run_steps : Z) (stops : list bool) : M trace Z :=
  match stops with
  | [] => stopM NoFuel
  | true :: _ => mret run_steps
  | false :: l =>
      ran TrainStart 0;; ran RunStep 0;; ran TrainCommit 0;; train_loop (run_steps + 1) l
  end.

Definition train_or_eval (role : string) (attempts : list attempt) (stops : list bool) : M trace Z :=
  match stops with
  | [] => stopM NoFuel
  | stopped :: stops' =>
      (if stopped then mret tt
       else ran FlInit 0;; ran ChannelInit 0;; connect_loop role attempts);;
      train_loop 1 stops'
  end.

(** ** Lemmas on the connection *)
Definition complete (a : attempt) : Prop :=
  (3 ≤ length (at_wait a))%nat ∧ (3 ≤ length (at_follow a))%nat.
(** The peer answered in time, and for a follower the training was opened. *)
Definition ready (role : string) (a : attempt) : Prop :=
  at_connect a = 0 ∧ 0 ∈ take 3 (at_wait a) ∧ (role = "follower" → 0 ∈ take 3 (at_follow a)).
Definition only (o : op) (t : trace) : Prop := Forall (λ x, x.1 = o) t.
Definition ends_well (o : op) (t : trace) : Prop := ∃ t', t = t' ++ [(o, 0)].

Lemma try_times_run n o codes : ∀ t, (n ≤ length codes)%nat →
  ∃ tr, try_times n o codes t = (Ret (bool_decide (0 ∈ take n codes)), t ++ tr) ∧ only o tr ∧
    (0 ∈ take n codes → ends_well o tr).
Proof.
  revert codes. induction n as [|n IH]; intros codes t Hn.
  - exists []. rewrite app_nil_r. split; [done|]. split; [constructor|by intros ?%elem_of_nil].
  - destruct codes as [|c codes]; [simpl in Hn; lia|]. cbn [try_times take].
    rewrite run_bind. unfold ran. cbn [modify].
    destruct (Z.eqb_spec c 0) as [->|Hc].
    + exists [(o, 0)]. rewrite bool_decide_true by by left. split; [done|].
      split; [by repeat constructor|]. intros _. by exists [].
    + destruct (IH codes (t ++ [(o, c)])) as (tr & Hrun & Ho & He); [simpl in Hn; lia|].
      exists ((o, c) :: tr). rewrite Hrun, <- (assoc_L (++)). simpl. split; [|split].
      * do 2 f_equal. apply bool_decide_ext. rewrite elem_of_cons. naive_solver.
      * by constructor.
      * intros [Heq|Hin]%elem_of_cons; [done|]. destruct (He Hin) as [t' ->].
        by exists ((o, c) :: t').
Qed.

Definition is_ready (role : string) (a : attempt) : bool :=
  (at_connect a =? 0) && bool_decide (0 ∈ take 3 (at_wait a))
  && (negb (bool_decide (role = "follower")) || bool_decide (0 ∈ take 3 (at_follow a))).
Lemma is_ready_spec role a : is_ready role a = true ↔ ready role a.
Proof.
  unfold is_ready, ready. rewrite !andb_true_iff, orb_true_iff, negb_true_iff, Z.eqb_eq.
  rewrite bool_decide_eq_true, bool_decide_eq_false, bool_decide_eq_true.
  destruct (decide (role = "follower")); naive_solver.
Qed.

(** One pass: the connection is tried first; a pass that succeeds ends with the
    answers of the peer. *)
Lemma connect_pass_run role a t :
  complete a →
  ∃ ws fs, connect_pass role a t = (Ret (is_ready role a), t ++ (Connect, at_connect a) :: ws ++ fs) ∧
    only WaitPeer ws ∧ only FollowTrain fs ∧
    (is_ready role a = true → ends_well WaitPeer ws ∧
       if decide (role = "follower") then ends_well FollowTrain fs else fs = []).
Proof.
  intros [Hw Hf]. unfold connect_pass, try_connect. rewrite run_bind, run_bind. unfold ran.
  cbn [modify mret M_ret]. unfold is_ready.
  destruct (Z.eqb_spec (at_connect a) 0) as [Hc|Hc]; cbn [negb andb].
  2:{ exists [], []. repeat split; try done; constructor. }
  destruct (try_times_run 3 WaitPeer (at_wait a) (t ++ [(Connect, at_connect a)]) Hw)
    as (ws & Hrw & How & Hew).
  rewrite run_bind. unfold wait_connect. rewrite Hrw.
  destruct (bool_decide_reflect (0 ∈ take 3 (at_wait a))) as [Hin|Hin]; cbn [negb andb].
  2:{ exists ws, []. rewrite app_nil_r, <- (assoc_L (++)). repeat split; try done; constructor. }
  destruct (decide (role = "follower")) as [Hr|Hr].
  - rewrite (bool_decide_true (role = "follower")) by done. cbn [negb orb].
    destruct (try_times_run 3 FollowTrain (at_follow a) ((t ++ [(Connect, at_connect a)]) ++ ws) Hf)
      as (fs & Hrf & Hof & Hef).
    unfold wait_train_ready. rewrite Hrf. exists ws, fs. rewrite <- !(assoc_L (++)).
    repeat split; try done; [by apply Hew|]. apply Hef. by apply bool_decide_eq_true in H.
  - rewrite (bool_decide_false (role = "follower")) by done. cbn [negb orb].
    exists ws, []. rewrite app_nil_r, <- (assoc_L (++)). repeat split; try done; [constructor|].
    by apply Hew.
Qed.

Definition connects (t : trace) : nat := length (filter (λ x, x.1 = Connect) t).
Lemma connects_app t u : connects (t ++ u) = (connects t + connects u)%nat.
Proof. unfold connects. by rewrite filter_app, length_app. Qed.
Lemma connects_only o t : o ≠ Connect → only o t → connects t = 0%nat.
Proof.
  intros Ho. unfold connects. induction 1 as [|x t Hx Ht IH]; [done|].
  rewrite filter_cons, decide_False; [done|]. congruence.
Qed.

(** How the connection ended, for the role. *)
Definition connected (role : string) (t : trace) : Prop :=
  ∃ ws fs, t = (Connect, 0) :: ws ++ fs ∧ only WaitPeer ws ∧ ends_well WaitPeer ws ∧
    only FollowTrain fs ∧ if decide (role = "follower") then ends_well FollowTrain fs else fs = [].
Definition not_started (t : trace) : Prop := Forall (λ x, x.1 ≠ TrainStart) t.

Lemma only_not_started o t : o ≠ TrainStart → only o t → not_started t.
Proof. intros Ho Ht. eapply Forall_impl; [exact Ht|]. simpl. congruence. Qed.

Lemma connect_loop_run role atts : Forall complete atts → ∀ k a t,
  atts !! k = Some a → ready role a → (∀ i b, (i < k)%nat → atts !! i = Some b → ¬ ready role b) →
  ∃ pre fin, connect_loop role atts t = (Ret tt, t ++ pre ++ fin) ∧ connected role fin ∧
    not_started (pre ++ fin) ∧ connects (pre ++ fin) = (k + 1)%nat.
Proof.
  induction 1 as [|b atts Hb Hall IH]; intros k a t Ha Hr Hf; [done|].
  destruct (connect_pass_run role b t Hb) as (ws & fs & Hrun & Hw & Hfo & Hok).
  assert (not_started ((Connect, at_connect b) :: ws ++ fs)) as Hns.
  { constructor; [done|]. apply Forall_app.
    split; [by apply (only_not_started WaitPeer)|by apply (only_not_started FollowTrain)]. }
  assert (connects ((Connect, at_connect b) :: ws ++ fs) = 1%nat) as Hcn.
  { change (connects ([(Connect, at_connect b)] ++ ws ++ fs) = 1%nat). rewrite !connects_app.
    by rewrite (connects_only WaitPeer ws), (connects_only FollowTrain fs). }
  cbn [connect_loop]. rewrite run_bind, Hrun. destruct k as [|k].
  - injection Ha as ->. apply is_ready_spec in Hr as Hir. rewrite Hir in Hok |- *.
    exists [], ((Connect, at_connect a) :: ws ++ fs). split; [done|]. split; [|done].
    destruct Hr as (Hc & _). rewrite Hc. exists ws, fs. destruct (Hok eq_refl). done.
  - destruct (is_ready role b) eqn:Eb.
    { apply is_ready_spec in Eb. by destruct (Hf 0%nat b ltac:(lia) eq_refl). }
    destruct (IH k a (t ++ (Connect, at_connect b) :: ws ++ fs) Ha Hr) as (pre & fin & Hrun' & Hc & Hn & Hcc).
    { intros i x Hi Hx. apply (Hf (S i)); [lia|done]. }
    exists (((Connect, at_connect b) :: ws ++ fs) ++ pre), fin. rewrite Hrun'.
    split; [by rewrite <- !(assoc_L (++))|]. split; [done|]. rewrite <- (assoc_L (++)).
    split; [by apply Forall_app|]. rewrite connects_app, Hcn, Hcc. lia.
Qed.

Definition step : trace := [(TrainStart, 0); (RunStep, 0); (TrainCommit, 0)].
Lemma train_loop_run n : ∀ m t,
  train_loop m (replicate n false ++ [true]) t
  = (Ret (m + Z.of_nat n), t ++ concat (replicate n step)).
Proof.
  induction n as [|n IH]; intros m t; cbn [replicate app train_loop].
  - cbn. by rewrite Z.add_0_r, app_nil_r.
  - rewrite run_bind. unfold ran at 1. cbn [modify]. rewrite run_bind. unfold ran at 1. cbn [modify].
    rewrite run_bind. unfold ran at 1. cbn [modify]. rewrite IH.
    cbn [concat]. rewrite <- !(assoc_L (++)). f_equal. f_equal. lia.
Qed.

(** ** Properties *)

(** A task of the cluster that trains. *)
Definition training_task (cluster : list (string * list string)) (job : string) (i : Z) : Prop :=
  job ∈ ["master"; "chief"; "worker"] ∧ 0 ≤ i < tasks cluster job.

Lemma worker_id_bounds cluster job i :
  training_task cluster job i → 0 ≤ worker_id_of cluster job i < replicas cluster.
Proof.
  intros [Hj Hi]. unfold replicas, tasks in *. rewrite list_elem_of_In in Hj. simpl in Hj.
  pose proof (zlen_nonneg (default [] (Dict.get "master" cluster))).
  pose proof (zlen_nonneg (default [] (Dict.get "chief" cluster))).
  pose proof (zlen_nonneg (default [] (Dict.get "worker" cluster))).
  destruct Hj as [<-|[<-|[<-|[]]]]; unfold worker_id_of, tasks; simpl; lia.
Qed.
Lemma worker_id_inj cluster job i job' i' :
  training_task cluster job i → training_task cluster job' i' →
  worker_id_of cluster job i = worker_id_of cluster job' i' → job = job' ∧ i = i'.
Proof.
  intros [Hj Hi] [Hj' Hi']. rewrite list_elem_of_In in Hj, Hj'. simpl in Hj, Hj'. unfold tasks in *.
  pose proof (zlen_nonneg (default [] (Dict.get "master" cluster))).
  pose proof (zlen_nonneg (default [] (Dict.get "chief" cluster))).
  destruct Hj as [<-|[<-|[<-|[]]]], Hj' as [<-|[<-|[<-|[]]]];
    unfold worker_id_of, tasks; simpl; intros; split; try done; lia.
Qed.
Lemma channel_inj a i j : channel_appli_id a i = channel_appli_id a j → i = j.
Proof.
  unfold channel_appli_id. intros H. do 2 apply Str.append_inj_l in H.
  unfold Str.of_int in H. by apply (inj pretty) in H.
Qed.

Lemma parse_channel ip e f m cluster job i :
  parse_mconfig ip e f = Ret m → en_TF_CONFIG e = Some (mkTf (Some cluster) (Some job) (Some i)) →
  mc_channel_appli_id m
  = channel_appli_id (default (fl_appli_id f) (en_app_id e)) (worker_id_of cluster job i).
Proof.
  intros Hm He. unfold parse_mconfig, parse_tf_config in Hm. rewrite He in Hm.
  cbn [tf_job_name tf_task_index tf_cluster] in Hm.
  destruct (if (1 <? replicas cluster) && (tasks cluster "ps" <? 1) then _ else _) as [b|]; [|done].
  rewrite !bind_Ret in Hm. destruct (match fl_local_addr f with None => _ | Some a => _ end) as [b0|]; [|done].
  rewrite bind_Ret in Hm.
  destruct (match en_worker_port e with None => _ | Some env_port => _ end) as [[la ba]|]; [|done].
  rewrite bind_Ret in Hm. by injection Hm as <-.
Qed.

(** The training tasks of a cluster get different names at the coordinator:
    the worker ids of masters, chiefs and workers are different numbers below
    the number of replicas, so that two configurations of the same cluster and
    application register under the same name only for the same task. *)
Theorem workers_register_under_different_names ip ip' e e' f m m' cluster job i job' i' :
  parse_mconfig ip e f = Ret m → parse_mconfig ip' e' f = Ret m' →
  en_app_id e = en_app_id e' →
  en_TF_CONFIG e = Some (mkTf (Some cluster) (Some job) (Some i)) →
  en_TF_CONFIG e' = Some (mkTf (Some cluster) (Some job') (Some i')) →
  training_task cluster job i → training_task cluster job' i' →
  0 ≤ worker_id_of cluster job i < replicas cluster ∧
  (mc_channel_appli_id m = mc_channel_appli_id m' → job = job' ∧ i = i').
Proof.
  intros Hm Hm' Happ He He' Ht Ht'. split; [by apply worker_id_bounds|].
  rewrite (parse_channel _ _ _ _ _ _ _ Hm He), (parse_channel _ _ _ _ _ _ _ Hm' He'), Happ.
  intros Hc%channel_inj. by eapply worker_id_inj.
Qed.

(** Training starts when both sides are ready.  A session that is not asked
    to stop at once initialises the bridge, tries to connect until the first
    pass in which the connection, the wait for the peer and, for a follower, the
    start of the training are answered, the last two within three tries; no step
    is started before, and from then on every step is opened, run and committed
    until the session is asked to stop. *)
Theorem training_starts_when_ready role atts k a n :
  Forall complete atts → atts !! k = Some a → ready role a →
  (∀ i b, (i < k)%nat → atts !! i = Some b → ¬ ready role b) →
  ∃ pre fin, train_or_eval role atts (false :: replicate n false ++ [true]) []
    = (Ret (1 + Z.of_nat n), (FlInit, 0) :: (ChannelInit, 0) :: pre ++ fin ++ concat (replicate n step)) ∧
    connected role fin ∧ not_started (pre ++ fin) ∧ connects (pre ++ fin) = (k + 1)%nat.
Proof.
  intros Hall Ha Hr Hf.
  destruct (connect_loop_run role atts Hall k a [(FlInit, 0); (ChannelInit, 0)] Ha Hr Hf)
    as (pre & fin & Hrun & Hc & Hn & Hk).
  exists pre, fin. split; [|done]. unfold train_or_eval. rewrite run_bind, run_bind.
  unfold ran at 1. cbn [modify app]. rewrite run_bind. unfold ran at 1. cbn [modify app].
  rewrite Hrun, train_loop_run. simpl. by rewrite <- (assoc_L (++)).
Qed.

Section witnesses.
Definition cluster0 : list (string * list string) :=
  [("ps", ["p0"]); ("chief", ["c0"]); ("worker", ["w0"; "w1"])].
Definition environ_of (job : string) (i : Z) : environ :=
  mkEnviron (Some (mkTf (Some cluster0) (Some job) (Some i))) None None None (None, None)
    (None, None) (None, None) None None.
Definition mconfig_of (job : string) (i : Z) : option mconfig :=
  match parse_mconfig "10.0.0.7" (environ_of job i) default_flags with
  | Ret m => Some m
  | Stop _ => None
  end.

Lemma workers_register_under_different_names_witness :
  mc_channel_appli_id <$> mconfig_of "worker" 1 = Some "jdfl_TrainerWorkerService_2" ∧
  mc_channel_appli_id <$> mconfig_of "chief" 0 ≠ mc_channel_appli_id <$> mconfig_of "worker" 0.
Proof.
  split; [vm_compute; reflexivity|].
  destruct (mconfig_of "chief" 0) as [m|] eqn:E; [|by vm_compute in E].
  destruct (mconfig_of "worker" 0) as [m'|] eqn:E'; [|by vm_compute in E'].
  intros [= Heq].
  destruct (workers_register_under_different_names "10.0.0.7" "10.0.0.7" (environ_of "chief" 0)
    (environ_of "worker" 0) default_flags m m' cluster0 "chief" 0 "worker" 0) as [_ Hc].
  - unfold mconfig_of in E. by destruct (parse_mconfig _ _ _); simplify_eq.
  - unfold mconfig_of in E'. by destruct (parse_mconfig _ _ _); simplify_eq.
  - done.
  - done.
  - done.
  - split; [apply list_elem_of_In; simpl; auto|vm_compute; split; congruence].
  - split; [apply list_elem_of_In; simpl; auto|vm_compute; split; congruence].
  - by destruct (Hc Heq).
Defined.

Lemma training_starts_when_ready_witness :
  ∃ pre fin, train_or_eval "follower"
    [mkAttempt 1 [0; 0; 0] [0; 0; 0]; mkAttempt 0 [1; 0; 0] [1; 1; 0]] [false; false; true] []
  = (Ret 2, (FlInit, 0) :: (ChannelInit, 0) :: pre ++ fin ++ step) ∧ connected "follower" fin.
Proof.
  destruct (training_starts_when_ready "follower"
    [mkAttempt 1 [0; 0; 0] [0; 0; 0]; mkAttempt 0 [1; 0; 0] [1; 1; 0]] 1
    (mkAttempt 0 [1; 0; 0] [1; 1; 0]) 1) as (pre & fin & Hrun & Hc & _).
  - repeat constructor; simpl; lia.
  - done.
  - split; [done|]. split; [|intros _]; apply list_elem_of_In; simpl; auto.
  - intros [|i] b Hi Hb; [|lia]. injection Hb as <-. by intros [? _].
  - exists pre, fin. split; [|exact Hc]. exact Hrun.
Defined.
End witnesses.
