(* ===== verification/TrainerOps.v ===== *)
(** * The operator library of the trainer

    [src/src/Trainer/fl_comm_libs/fl_ops.py], [load_fl_ops_lib]: the library of
    operators is loaded once for all threads, by double-checked locking.  The
    threads are a step relation; one step is an access to [_fl_ops_so] or to the
    lock, or the call of [tf.load_op_library], whose results are a parameter.  The
    library is never replaced, so testing it and returning it is one step. *)

From stdpp Require Import base tactics list relations gmap strings.
From Stdlib Require Import ZArith Lia Ascii Sorted.
From S2P Require Import Prelude Threads PyStd.

Open Scope nat_scope.

(** ** [load_fl_ops_lib] *)
Section load.
(** The library, and what the n-th call of [tf.load_op_library] gives. *)
Context {L : Type} (load_op_library : nat → outcome L).

(** Where a thread is: before the first test, before the lock is taken, before
    the second test, before the call, before the lock is given back with a result,
    and back in its caller. *)
Inductive pc :=
  | Start | Acquire | Locked | Loading | Release (r : outcome L) | Returned (r : outcome L).

(** [_fl_ops_so], the holder of [_fl_ops_so_lock], the calls of
    [load_op_library] so far, the threads. *)
Record lib_state := mkLib {
  ls_so : option L;
  ls_lock : option nat;
  ls_calls : nat;
  ls_threads : list pc;
}.
Definition lib_init (n : nat) : lib_state := mkLib None None 0 (replicate n Start).

Definition set_pc (i : nat) (p : pc) (s : lib_state) : lib_state :=
  mkLib (ls_so s) (ls_lock s) (ls_calls s) (<[i := p]> (ls_threads s)).
Definition set_lock (l : option nat) (s : lib_state) : lib_state :=
  mkLib (ls_so s) l (ls_calls s) (ls_threads s).

(** A step of thread [i], unless it waits for the lock or has returned. *)
Definition lib_step (i : nat) (s : lib_state) : option lib_state :=
  match ls_threads s !! i with
  | Some Start =>
      Some (set_pc i (match ls_so s with Some l => Returned (Ret l) | None => Acquire end) s)
  | Some Acquire =>
      match ls_lock s with
      | None => Some (set_pc i Locked (set_lock (Some i) s))
      | Some _ => None
      end
  | Some Locked =>
      Some (set_pc i (match ls_so s with Some l => Release (Ret l) | None => Loading end) s)
  | Some Loading =>
      let r := load_op_library (ls_calls s) in
      Some (set_pc i (Release r)
              (mkLib (match r with Ret l => Some l | Stop _ => ls_so s end) (ls_lock s)
                 (S (ls_calls s)) (ls_threads s)))
  | Some (Release r) => Some (set_pc i (Returned r) (set_lock None s))
  | Some (Returned _) | None => None
  end.

Inductive lib_steps_to : lib_state → lib_state → Prop :=
  | lib_thread i s s' : lib_step i s = Some s' → lib_steps_to s s'.
Definition lib_reachable (n : nat) (s : lib_state) : Prop := rtc lib_steps_to (lib_init n) s.

(** *** The invariant *)
Definition holds_lock (p : pc) : bool :=
  match p with Locked | Loading | Release _ => true | _ => false end.

(** The calls so far: all failed while the library is not there; the last one
    gave the library, once it is. *)
Definition calls_ok (s : lib_state) : Prop :=
  match ls_so s with
  | None => ∀ k, k < ls_calls s → is_ret (load_op_library k) = false
  | Some l => ∃ k, ls_calls s = S k ∧ load_op_library k = Ret l ∧
                   ∀ j, j < k → is_ret (load_op_library j) = false
  end.
(** A result is the library, or the exception of a call that was made. *)
Definition result_ok (s : lib_state) (r : outcome L) : Prop :=
  match r with
  | Ret l => ls_so s = Some l
  | Stop e => ∃ k, k < ls_calls s ∧ load_op_library k = Stop e
  end.
Record lib_inv (s : lib_state) : Prop := mkLibInv {
  li_lock i p : ls_threads s !! i = Some p → (holds_lock p = true ↔ ls_lock s = Some i);
  li_holder i : ls_lock s = Some i → ∃ p, ls_threads s !! i = Some p ∧ holds_lock p = true;
  li_loading i : ls_threads s !! i = Some Loading → ls_so s = None;
  li_result i r : ls_threads s !! i = Some (Release r) ∨ ls_threads s !! i = Some (Returned r) →
    result_ok s r;
  li_calls : calls_ok s;
}.

Lemma lookup_set_pc i j p q s :
  ls_threads (set_pc i p s) !! j = Some q →
  (j = i ∧ q = p) ∨ (j ≠ i ∧ ls_threads s !! j = Some q).
Proof.
  cbn. intros Hj. destruct (decide (j = i)) as [->|Hne].
  - left. split; [done|]. apply list_lookup_insert_Some in Hj. naive_solver.
  - right. split; [done|]. by rewrite list_lookup_insert_ne in Hj.
Qed.

(** A thread moves without touching what is shared. *)
Lemma inv_move i p q s :
  lib_inv s → ls_threads s !! i = Some p → holds_lock p = holds_lock q →
  (q = Loading → ls_so s = None) →
  (∀ r, q = Release r ∨ q = Returned r → result_ok s r) →
  lib_inv (set_pc i q s).
Proof.
  intros [I1 I2 I3 I4 I5] Hp Hpq Hl Hr. split.
  - intros j x [[-> ->]|[Hne Hx]]%lookup_set_pc; [rewrite <- Hpq; by apply I1|by apply I1].
  - intros j Hj. destruct (I2 j Hj) as (x & Hx & Hh). destruct (decide (j = i)) as [->|Hne].
    + exists q. split; [|congruence]. cbn. apply list_lookup_insert_eq. by eapply lookup_lt_Some.
    + exists x. split; [|done]. cbn. by rewrite list_lookup_insert_ne.
  - intros j [[-> Heq]|[Hne Hx]]%lookup_set_pc; [by apply Hl|by eapply I3].
  - intros j r [Hx|Hx]; apply lookup_set_pc in Hx as [[-> Heq]|[Hne Hx]]; eauto.
  - done.
Qed.

Lemma lib_inv_init n : lib_inv (lib_init n).
Proof.
  split; cbn; try done.
  - intros i p Hp. apply lookup_replicate in Hp as [-> _]. done.
  - intros i r [Hx|Hx]; by apply lookup_replicate in Hx as [? _].
  - intros k Hk. lia.
Qed.

(** Only one thread is past the lock. *)
Lemma one_holder s i j p q :
  lib_inv s → ls_threads s !! i = Some p → ls_threads s !! j = Some q →
  holds_lock p = true → holds_lock q = true → i = j.
Proof.
  intros I Hp Hq Hhp Hhq. apply (li_lock s I i p Hp) in Hhp. apply (li_lock s I j q Hq) in Hhq.
  congruence.
Qed.

Lemma inv_acquire i s :
  lib_inv s → ls_threads s !! i = Some Acquire → ls_lock s = None →
  lib_inv (set_pc i Locked (set_lock (Some i) s)).
Proof.
  intros [I1 I2 I3 I4 I5] Hp Hl. split.
  - intros j x [[-> ->]|[Hne Hx]]%(lookup_set_pc i j Locked); [done|].
    cbn. rewrite (I1 j x Hx). split; congruence.
  - cbn. intros j [= <-]. exists Locked. split; [|done].
    apply list_lookup_insert_eq. by eapply lookup_lt_Some.
  - intros j [[-> ?]|[Hne Hx]]%(lookup_set_pc i j Locked); [done|by eapply I3].
  - intros j r [Hx|Hx]; apply (lookup_set_pc i j Locked) in Hx as [[-> ?]|[Hne Hx]]; try done;
      apply (I4 j r); auto.
  - exact I5.
Qed.

Lemma inv_call i s :
  lib_inv s → ls_threads s !! i = Some Loading →
  let r := load_op_library (ls_calls s) in
  lib_inv (set_pc i (Release r)
             (mkLib (match r with Ret l => Some l | Stop _ => ls_so s end) (ls_lock s)
                (S (ls_calls s)) (ls_threads s))).
Proof.
  intros I Hp r. pose proof I as [I1 I2 I3 I4 I5]. pose proof (I3 i Hp) as Hnone.
  unfold calls_ok in I5. rewrite Hnone in I5. split.
  - intros j x [[-> ->]|[Hne Hx]]%(lookup_set_pc i j (Release r)); [by apply (I1 i Loading)|by apply I1].
  - cbn. intros j Hj. destruct (I2 j Hj) as (x & Hx & Hh).
    assert (j = i) as -> by (apply (one_holder s j i x Loading); auto).
    exists (Release r). split; [|done]. apply list_lookup_insert_eq. by eapply lookup_lt_Some.
  - intros j [[-> ?]|[Hne Hx]]%(lookup_set_pc i j (Release r)); [done|].
    destruct Hne. by apply (one_holder s j i Loading Loading).
  - intros j x Hx. assert (Hor : x = r ∨ result_ok s x).
    { destruct Hx as [Hx|Hx]; apply (lookup_set_pc i j (Release r)) in Hx as [[-> Heq]|[Hne Hx]];
        try (right; apply (I4 j x); auto; fail).
      - left. congruence.
      - done. }
    destruct Hor as [->|Hok].
    + destruct r as [l|e] eqn:Er; [done|]. exists (ls_calls s). cbn. split; [lia|done].
    + destruct x as [l|e]; cbn in *; [congruence|]. destruct Hok as (k & Hk & He).
      exists k. split; [lia|done].
  - unfold calls_ok. cbn. destruct r as [l|e] eqn:Er; [by exists (ls_calls s)|].
    rewrite Hnone. intros k Hk. destruct (decide (k = ls_calls s)) as [->|Hne].
    + unfold r in Er. by rewrite Er.
    + apply I5. lia.
Qed.

Lemma inv_release i r s :
  lib_inv s → ls_threads s !! i = Some (Release r) →
  lib_inv (set_pc i (Returned r) (set_lock None s)).
Proof.
  intros I Hp. pose proof I as [I1 I2 I3 I4 I5]. split.
  - intros j x [[-> ->]|[Hne Hx]]%(lookup_set_pc i j (Returned r)); [done|].
    cbn. split; [|done]. intros Hh. destruct Hne. by apply (one_holder s j i x (Release r)).
  - done.
  - intros j [[-> ?]|[Hne Hx]]%(lookup_set_pc i j (Returned r)); [done|by eapply I3].
  - intros j x [Hx|Hx]; apply (lookup_set_pc i j (Returned r)) in Hx as [[-> Heq]|[Hne Hx]]; try done.
    + apply (I4 j x). auto.
    + injection Heq as ->. apply (I4 i r). auto.
    + apply (I4 j x). auto.
  - exact I5.
Qed.

(** What a test of [_fl_ops_so] sees can be returned. *)
Lemma test_ok (f : outcome L → pc) (p : pc) s r :
  (∀ x, f x = Release r ∨ f x = Returned r → x = r) → p ≠ Release r → p ≠ Returned r →
  let q := match ls_so s with Some l => f (Ret l) | None => p end in
  q = Release r ∨ q = Returned r → result_ok s r.
Proof.
  intros Hf Hp1 Hp2 q Hq. subst q. destruct (ls_so s) as [l|] eqn:El; [|naive_solver].
  apply Hf in Hq. by subst r.
Qed.

Lemma lib_inv_step s s' : lib_inv s → lib_steps_to s s' → lib_inv s'.
Proof.
  intros I Hst. revert I. destruct Hst as [i s0 s1 Hs]. intros I. unfold lib_step in Hs.
  destruct (ls_threads s0 !! i) as [p|] eqn:Hp; [|done]. destruct p as [| | | |r|r]; [..|done].
  - injection Hs as <-. eapply inv_move; [exact I|exact Hp|by destruct (ls_so s0)|by destruct (ls_so s0)|].
    intros r. apply (test_ok Returned); [naive_solver|done..].
  - destruct (ls_lock s0) eqn:El; [done|]. injection Hs as <-. by apply inv_acquire.
  - injection Hs as <-. eapply inv_move; [exact I|exact Hp|by destruct (ls_so s0)|by destruct (ls_so s0)|].
    intros r. apply (test_ok Release); [naive_solver|done..].
  - injection Hs as <-. by apply inv_call.
  - injection Hs as <-. by apply inv_release.
Qed.

Lemma lib_inv_reachable n s : lib_reachable n s → lib_inv s.
Proof.
  intros Hr. apply (rtc_ind_r (R := lib_steps_to) lib_inv (lib_init n)); [apply lib_inv_init| |exact Hr].
  intros y z _ Hyz Hy. by eapply lib_inv_step.
Qed.

(** *** Every thread comes back *)
Definition left (p : pc) : nat :=
  match p with
  | Start => 5 | Acquire => 4 | Locked => 3 | Loading => 2 | Release _ => 1 | Returned _ => 0
  end.
Definition to_do (s : lib_state) : nat := sum_list_with left (ls_threads s).

Lemma sum_list_insert (i : nat) (p q : pc) ts :
  ts !! i = Some p →
  sum_list_with left (<[i := q]> ts) + left p = sum_list_with left ts + left q.
Proof.
  revert i. induction ts as [|x ts IH]; intros [|i] Hi; simplify_eq/=; [lia|].
  specialize (IH i Hi). lia.
Qed.

Lemma lib_step_progress i s s' : lib_step i s = Some s' → to_do s' < to_do s.
Proof.
  unfold lib_step, to_do. destruct (ls_threads s !! i) as [p|] eqn:Hp; [|done].
  intros Hs. assert (∃ q, ls_threads s' = <[i := q]> (ls_threads s) ∧ left q < left p) as (q & -> & Hq).
  { destruct p; simplify_eq/=; [..|destruct (ls_lock s)| | |]; simplify_eq/=; eexists; (split; [done|]);
      try destruct (ls_so s); cbn; lia. }
  pose proof (sum_list_insert i p q _ Hp). lia.
Qed.

Lemma lib_steps_bound n k s : nsteps lib_steps_to k (lib_init n) s → k + to_do s ≤ 5 * n.
Proof.
  intros Hk. assert (to_do (lib_init n) = 5 * n) as Hn.
  { unfold to_do, lib_init. cbn [ls_threads]. clear. induction n as [|n IH]; [done|].
    cbn [replicate sum_list_with fmap left]. cbn in *. lia. }
  rewrite <- Hn. clear Hn. revert Hk. generalize (lib_init n). revert k s.
  induction k as [|k IH]; intros s s0 Hk; inversion Hk as [|? ? x ? [i ? ? Hx] Hr]; subst; [lia|].
  specialize (IH _ _ Hr). apply lib_step_progress in Hx. lia.
Qed.

(** A thread that waits waits for another one, which can go on. *)
Lemma someone_can_go s :
  lib_inv s → (∃ i p, ls_threads s !! i = Some p ∧ left p ≠ 0) → ∃ s', lib_steps_to s s'.
Proof.
  intros I (i & p & Hp & Hl).
  assert (∃ j s', lib_step j s = Some s') as (j & s' & Hj); [|exists s'; by apply (lib_thread j)].
  destruct (decide (holds_lock p = false ∧ ls_lock s ≠ None)) as [[_ Hlock]|Hnl].
  - destruct (ls_lock s) as [j|] eqn:El; [|done]. destruct (li_holder s I j El) as (q & Hq & Hh).
    exists j. unfold lib_step. rewrite Hq. destruct q; try done; eauto.
  - exists i. unfold lib_step. rewrite Hp. destruct p; try done; eauto.
    destruct (ls_lock s); [|eauto]. destruct Hnl. by split.
Qed.

(** C31. Whatever the threads and however they are interleaved, one thread at a
    time is past the lock, [tf.load_op_library] succeeds at most once, and every
    thread that comes back with a library has the one that is stored; a thread
    comes back with an exception only when a call of its own module raised it. *)
Theorem library_is_loaded_once n s :
  lib_reachable n s →
  (∀ i j p q, ls_threads s !! i = Some p → ls_threads s !! j = Some q →
     holds_lock p = true → holds_lock q = true → i = j) ∧
  (∀ j k, j < ls_calls s → k < ls_calls s →
     is_ret (load_op_library j) = true → is_ret (load_op_library k) = true → j = k) ∧
  (∀ i l, ls_threads s !! i = Some (Returned (Ret l)) → ls_so s = Some l) ∧
  (∀ i e, ls_threads s !! i = Some (Returned (Stop e)) →
     ∃ k, k < ls_calls s ∧ load_op_library k = Stop e).
Proof.
  intros I%lib_inv_reachable. split_and!.
  - intros i j p q. by apply one_holder.
  - pose proof (li_calls s I) as Hc. unfold calls_ok in Hc.
    destruct (ls_so s) as [l|]; [destruct Hc as (m & -> & Hm & Hb)|]; intros j k Hj Hk Rj Rk.
    + assert (∀ x, x < S m → is_ret (load_op_library x) = true → x = m) as Hx; [|by rewrite (Hx j), (Hx k)].
      intros x Hx Hr. destruct (decide (x = m)) as [->|Hne]; [done|]. rewrite Hb in Hr; [done|lia].
    + by rewrite Hc in Rj.
  - intros i l Hi. apply (li_result s I i (Ret l)). by right.
  - intros i e Hi. apply (li_result s I i (Stop e)). by right.
Qed.

(** C32. [n] threads that load the library make at most [5 n] steps, and when no
    thread can go on, all have come back with the library or with an exception:
    nothing waits for the lock for ever. *)
Theorem every_load_returns n k s :
  nsteps lib_steps_to k (lib_init n) s →
  k ≤ 5 * n ∧
  ((∀ s', ¬ lib_steps_to s s') → ∀ i, i < n → ∃ r, ls_threads s !! i = Some (Returned r)).
Proof.
  intros Hk. pose proof (lib_steps_bound n k s Hk). split; [lia|].
  intros Hstuck i Hi. assert (length (ls_threads s) = n) as Hlen.
  { assert (length (ls_threads (lib_init n)) = n) as <- by apply length_replicate.
    clear -Hk. revert Hk. generalize (lib_init n). induction k as [|k IH]; intros s0 Hk;
      inversion Hk as [|? ? x ? [j y y' Hj] Hr]; subst; [done|]. rewrite (IH _ Hr).
    unfold lib_step in Hj. destruct (ls_threads s0 !! j) as [[]|]; try done;
      try destruct (ls_lock s0); simplify_eq/=; by rewrite length_insert. }
  destruct (lookup_lt_is_Some_2 (ls_threads s) i) as [p Hp]; [lia|].
  destruct (decide (left p = 0)) as [Hl|Hl]; [destruct p; try done; by eexists|].
  destruct (someone_can_go s) as [s' Hs']; [|by exists i, p|by destruct (Hstuck s')].
  apply (lib_inv_reachable n). apply rtc_nsteps. by exists k.
Qed.
End load.

(** ** Witnesses: three threads, the first call fails *)
Lemma play_steps {L} (load_op_library : nat → outcome L) sched s s' :
  play (lib_step load_op_library) sched s = Some s' →
  nsteps (lib_steps_to load_op_library) (length sched) s s'.
Proof.
  revert s. induction sched as [|i l IH]; intros s Hr.
  - injection Hr as ->. constructor.
  - apply bind_Some in Hr as (s1 & Hs & Hr). apply (nsteps_l _ _ _ s1); [by apply (lib_thread _ i)|by apply IH].
Qed.

Definition second_time (n : nat) : outcome string := if decide (n = 0) then raise NotFoundError else Ret "so".
Definition sched0 : list nat := [0; 1; 2; 0; 0; 0; 0; 2; 2; 2; 2; 1; 1; 1].
Definition end0 : lib_state :=
  mkLib (Some "so") None 2 [Returned (raise NotFoundError); Returned (Ret "so"); Returned (Ret "so")].
Lemma sched0_run : play (lib_step second_time) sched0 (lib_init 3) = Some end0.
Proof. reflexivity. Qed.

Lemma library_is_loaded_once_witness :
  (∀ i j p q, ls_threads end0 !! i = Some p → ls_threads end0 !! j = Some q →
     holds_lock p = true → holds_lock q = true → i = j) ∧
  (∀ j k, j < 2 → k < 2 →
     is_ret (second_time j) = true → is_ret (second_time k) = true → j = k) ∧
  (∀ i l, ls_threads end0 !! i = Some (Returned (Ret l)) → ls_so end0 = Some l) ∧
  (∀ i e, ls_threads end0 !! i = Some (Returned (Stop e)) → ∃ k, k < 2 ∧ second_time k = Stop e).
Proof.
  apply (library_is_loaded_once second_time 3 end0).
  apply rtc_nsteps. exists 14. exact (play_steps second_time sched0 _ _ sched0_run).
Defined.

Lemma every_load_returns_witness :
  14 ≤ 15 ∧ ((∀ s', ¬ lib_steps_to second_time end0 s') →
    ∀ i, i < 3 → ∃ r, ls_threads end0 !! i = Some (Returned r)).
Proof.
  apply (every_load_returns second_time 3 14 end0).
  exact (play_steps second_time sched0 _ _ sched0_run).
Defined.
