(* ===== verification/TrainerRun.v ===== *)
(** * A run of the trainer

    [src/src/Trainer/fl_comm_libs/flenv.py]: the wrapper that [fl_run_generator]
    puts around the program's function (pairing, directories, checkpoint), the
    check of example ids; [util.py]: directories and shell commands;
    [fl_estimator.py]: what an evaluation prepares, its loop and its report, the
    timeline.  The files and the shell are the outside, an interface with laws. *)

From stdpp Require Import base tactics list gmap strings pretty.
From Stdlib Require Import ZArith Lia Ascii Sorted.
From S2P Require Import Prelude PyStd Trainer.

(** ** Files and the shell *)

(** [p] is the directory [d], or in it; a directory may be written with slashes
    at its end. *)
Fixpoint norm (p : string) : string :=
  match p with
  | EmptyString => EmptyString
  | String c p' =>
      let r := norm p' in
      if bool_decide (r = "") && bool_decide (c = "/"%char) then "" else String c r
  end.
Definition below (d p : string) : bool :=
  bool_decide (norm p = norm d) || Str.startswith (norm d +:+ "/") (norm p).

Class RunFs (W : Type) := {
  (** [tf.io.gfile.exists], [rmtree], [makedirs] *)
  rf_exists : string → W → bool;
  rf_rmtree : string → M W unit;
  rf_makedirs : string → M W unit;
  (** [os.path.exists] *)
  rf_os_exists : string → W → bool;
  (** [subprocess.check_output(cmd, shell=True)]; [CalledProcessError] when the
      command fails *)
  rf_check_output : string → M W string;
  (** Specification view, [rf_apart d p]: [p] is not [d] and not in [d]. *)
  rf_apart : string → string → Prop;
}.

(** Removing a tree removes what is in it and makes nothing; making a directory
    makes it and what it is in; both leave the rest. *)
Class RunFsLaws (W : Type) `{RunFs W} := {
  rmtree_law d w :
    rf_exists d w = true →
    ∃ w', rf_rmtree d w = (Ret tt, w') ∧ rf_exists d w' = false ∧
          (∀ p, rf_exists p w' = true → rf_exists p w = true ∧ below d p = false) ∧
          (∀ p, rf_apart d p → rf_apart p d → rf_os_exists p w' = rf_os_exists p w);
  makedirs_law d w :
    rf_exists d w = false →
    ∃ w', rf_makedirs d w = (Ret tt, w') ∧ rf_exists d w' = true ∧
          (∀ p, rf_apart p d → rf_exists p w' = rf_exists p w ∧ rf_os_exists p w' = rf_os_exists p w);
  exists_below_law d p w : below d p = true → rf_exists p w = true → rf_exists d w = true;
  os_exists_law p w : rf_os_exists p w = true → rf_exists p w = true;
}.

Section util.
Context `{RunFs W} (decode : string → outcome string).

Definition rm_dir (dir_name : string) : M W unit :=
  e ← gets (rf_exists dir_name);
  (if (e : bool) then rf_rmtree dir_name else mret tt);;
  rf_makedirs dir_name.

Definition mk_dir (dir_name : string) : M W unit :=
  e ← gets (rf_exists dir_name);
  if (e : bool) then mret tt else rf_makedirs dir_name.

(** The output is a byte string in Python 3. *)
Definition run (cmd : string) : M W string :=
  buff ← rf_check_output cmd;
  text ← liftO (decode buff);
  mret (Str.strip text).

Definition download_from_hdfs (src dest : string) : M W unit :=
  assertM (negb (bool_decide (src = "")));;
  assertM (negb (bool_decide (dest = "")));;
  run ("hadoop fs -get " +:+ src +:+ "/* " +:+ dest +:+ "/");;
  mret tt.

(** ** [fl_run_generator] *)

(** The name of this worker's channel: one string without a coordinator, the
    names of the pair otherwise. *)
Definition channel_comm_uuid (m : mconfig) (answers : list answer) :
    M (list pair_call) (string + list string) :=
  if mc_local_debug m
  then mret (inl ("jdfl_TrainerWorkerService_" +:+ Str.of_int (cc_worker_id (mc_conf m))))
  else
    u ← prepare_rpc_channel answers;
    mret (inr u).

Definition clean_dirs (is_chief : bool) (m : mconfig) : M W unit :=
  rm_dir "_tmp/";;
  if is_chief then rm_dir (mc_model_dir m);; rm_dir (mc_export_dir m) else mret tt.

Definition SUCCESS_FILE (m : mconfig) : string := Str.path_join (mc_model_dir m) "DOWNLOAD_SUCCESS".
Definition download (m : mconfig) : M W unit :=
  download_from_hdfs (mc_checkpoint_hdfs_path m) (mc_model_dir m);;
  run ("touch " +:+ SUCCESS_FILE m);;
  mret tt.
Definition fetch_checkpoint (m : mconfig) : M W unit :=
  if bool_decide (mc_checkpoint_hdfs_path m = "") then mret tt
  else
    e ← gets (rf_os_exists (SUCCESS_FILE m));
    if (e : bool) then mret tt else download m.

(** The program's own function, given [is_chief] and [run_config] with its
    ["channel_comm_uuid"]. *)
Context (fl_func : bool → mconfig → string + list string → M W unit).

Record proc := mkProc { pr_world : W; pr_calls : list pair_call }.
Definition with_world {A} (c : M W A) : M proc A :=
  zoom pr_world (λ w p, mkProc w (pr_calls p)) c.
Definition with_calls {A} (c : M (list pair_call) A) : M proc A :=
  zoom pr_calls (λ t p, mkProc (pr_world p) t) c.

Definition fl_run_generator (answers : list answer) (m : mconfig) (is_chief : bool) : M proc unit :=
  u ← with_calls (channel_comm_uuid m answers);
  with_world (clean_dirs is_chief m;; fetch_checkpoint m;; fl_func is_chief m u).

Definition set_role (role : string) (m : mconfig) : mconfig :=
  mkMconfig (mc_conf m) (mc_local_debug m) role (mc_appli_id m) (mc_channel_appli_id m)
    (mc_rpc_service_type m) (mc_local_addr m) (mc_bind_addr m) (mc_peer_addr m)
    (mc_coordinator_addr m) (mc_proxy_addr m) (mc_dc_addr m) (mc_model_dir m) (mc_export_dir m)
    (mc_log_dir m) (mc_eval m) (mc_checkpoint_hdfs_path m).

(** [main] of a program: the configuration, its role, the cluster. *)
Definition main (role host_ip : string) (e : environ) (f : flags) (answers : list answer) : M proc unit :=
  m ← liftO (parse_mconfig host_ip e f);
  let m := set_role role m in
  s ← liftO (run_cluster m);
  match s with
  | RunFunction is_chief => fl_run_generator answers m is_chief
  | JoinServer | NothingStarted => mret tt
  end.
End util.

(** *** Directories *)
Lemma endswith_cons p c s : s ≠ "" → Str.endswith (String p "") (String c s) = Str.endswith (String p "") s.
Proof.
  intros Hs. unfold Str.endswith. rewrite (Str.rev_append (String c "") s : String.rev (String c s) = _).
  destruct (String.rev s) as [|b r] eqn:Er; [|simpl; by destruct (bool_decide _)].
  destruct Hs. by rewrite <- (Str.rev_involutive s), Er.
Qed.

Lemma norm_cases d :
  d ≠ "" →
  (Str.endswith "/" d = true → ∃ r, d = norm d +:+ "/" +:+ r) ∧ (Str.endswith "/" d = false → norm d = d).
Proof.
  induction d as [|c d IH]; intros Hd; [done|].
  destruct (decide (d = "")) as [->|Hne].
  - cbn. destruct (decide (c = "/"%char)) as [->|Hc].
    + split; [by exists ""|done].
    + cbn. rewrite (bool_decide_false ("/"%char = c)), (bool_decide_false (c = "/"%char)) by congruence.
      by rewrite andb_false_r.
  - rewrite endswith_cons by done. destruct (IH Hne) as [IH1 IH2]. cbn [norm]. split; intros He.
    + destruct (IH1 He) as [r Hr]. destruct (bool_decide_reflect (norm d = "")) as [Hn|Hn]; cbn [andb].
      * case_bool_decide as Hc; [subst c; by exists d|]. exists r. exact (f_equal (String c) Hr).
      * exists r. exact (f_equal (String c) Hr).
    + rewrite (IH2 He). by rewrite (bool_decide_false (d = "")).
Qed.

Lemma norm_append s t : norm t ≠ "" → norm (s +:+ t) = s +:+ norm t.
Proof.
  intros Ht. induction s as [|c s IH]; [done|].
  change (norm (String c (s +:+ t)) = String c (s +:+ norm t)). cbn [norm]. rewrite IH.
  rewrite (bool_decide_false (s +:+ norm t = "")); [done|].
  destruct s; [exact Ht|done].
Qed.

Lemma path_join_below d n :
  d ≠ "" → Str.startswith "/" n = false → norm n ≠ "" → below d (Str.path_join d n) = true.
Proof.
  intros Hd Hn Hnn. unfold below, Str.path_join. rewrite Hn, (bool_decide_false (d = "")) by done.
  cbn [orb]. apply orb_true_iff. right. apply Str.startswith_spec.
  destruct (norm_cases d Hd) as [H1 H2]. destruct (Str.endswith "/" d).
  - destruct (H1 eq_refl) as [r Hr]. exists (r +:+ norm n). rewrite norm_append by done.
    rewrite Hr at 1. by rewrite !Str.append_assoc.
  - exists (norm n). rewrite Str.append_assoc, norm_append by done. by rewrite H2.
Qed.

Section directories.
Context `{RunFsLaws W} (decode : string → outcome string).

(** After [rm_dir d] the directory is there, and what is in it is gone. *)
Lemma rm_dir_spec d w :
  ∃ w', rm_dir d w = (Ret tt, w') ∧ rf_exists d w' = true ∧
    (∀ p, rf_apart p d → rf_exists p w' = true → rf_exists p w = true ∧ below d p = false) ∧
    (∀ p, rf_apart d p → rf_apart p d → rf_os_exists p w' = rf_os_exists p w).
Proof.
  unfold rm_dir. rewrite run_bind. cbn. destruct (rf_exists d w) eqn:Ed.
  - destruct (rmtree_law d w Ed) as (w1 & Hr & Hd & Hgone & Hkeep).
    destruct (makedirs_law d w1 Hd) as (w2 & Hm & Hd2 & Hsame).
    exists w2. rewrite (run_bind_ret _ _ _ _ _ Hr). split_and!; [done|done| |].
    + intros p Hp. rewrite (proj1 (Hsame p Hp)). apply Hgone.
    + intros p Hp1 Hp2. by rewrite (proj2 (Hsame p Hp2)), Hkeep.
  - destruct (makedirs_law d w Ed) as (w2 & Hm & Hd2 & Hsame).
    exists w2. rewrite run_bind. cbn. split_and!; [done|done| |].
    + intros p Hp Hex. rewrite (proj1 (Hsame p Hp)) in Hex. split; [done|].
      destruct (below d p) eqn:Eb; [|done]. by rewrite (exists_below_law d p w) in Ed.
    + intros p _ Hp2. by rewrite (proj2 (Hsame p Hp2)).
Qed.
End directories.

(** A chief starts from nothing: whatever an earlier run left, the mark
    [DOWNLOAD_SUCCESS] is not there when the wrapper tests it, for it is in the
    directory that the wrapper has just emptied, and the checkpoint is fetched
    again before the program's function runs.  A worker keeps the mark and does
    not fetch. *)
Theorem only_workers_keep_the_checkpoint `{RunFsLaws W} decode
    (fl_func : bool → mconfig → string + list string → M W unit) answers m u w c c' :
  mc_model_dir m ≠ "" → mc_checkpoint_hdfs_path m ≠ "" →
  rf_apart (SUCCESS_FILE m) (mc_model_dir m) → rf_apart (SUCCESS_FILE m) (mc_export_dir m) →
  rf_apart (SUCCESS_FILE m) "_tmp/" → rf_apart "_tmp/" (SUCCESS_FILE m) →
  channel_comm_uuid m answers c = (Ret u, c') →
  (∃ w1, rf_os_exists (SUCCESS_FILE m) w1 = false ∧
     fl_run_generator decode fl_func answers m true (mkProc w c)
     = with_world (download decode m;; fl_func true m u) (mkProc w1 c')) ∧
  (rf_os_exists (SUCCESS_FILE m) w = true →
   ∃ w2, fl_run_generator decode fl_func answers m false (mkProc w c)
         = with_world (fl_func false m u) (mkProc w2 c')).
Proof.
  intros Hm Hh Hsm Hse Hst Hts Hu.
  assert (∀ b, fl_run_generator decode fl_func answers m b (mkProc w c)
    = with_world (clean_dirs b m;; fetch_checkpoint decode m;; fl_func b m u) (mkProc w c')) as Hgen.
  { intros b. unfold fl_run_generator. rewrite run_bind. unfold with_calls, zoom. cbn. by rewrite Hu. }
  rewrite !Hgen. unfold with_world, zoom, clean_dirs, fetch_checkpoint. cbn [pr_world pr_calls].
  rewrite (bool_decide_false _ Hh).
  destruct (rm_dir_spec "_tmp/" w) as (w1 & E1 & _ & _ & K1). split.
  - destruct (rm_dir_spec (mc_model_dir m) w1) as (w2 & E2 & _ & G2 & _).
    destruct (rm_dir_spec (mc_export_dir m) w2) as (w3 & E3 & _ & G3 & _).
    assert (rf_os_exists (SUCCESS_FILE m) w3 = false) as Hno.
    { destruct (rf_os_exists (SUCCESS_FILE m) w3) eqn:E; [|done]. apply os_exists_law in E.
      apply (G3 _ Hse) in E as [E _]. apply (G2 _ Hsm) in E as [_ E].
      unfold SUCCESS_FILE in E. by rewrite path_join_below in E. }
    exists w3. split; [done|]. rewrite !run_bind, E1. rewrite run_bind, E2, E3.
    rewrite !run_bind. cbn. by rewrite Hno.
  - intros Hs. exists w1. rewrite !run_bind, E1. cbn. rewrite !run_bind. cbn.
    by rewrite K1, Hs by done.
Qed.

(** *** Files in memory *)

(** A path is there when it, or something in it, is listed; [touch] and
    [hadoop fs -get] make files. *)
Record Tree := mkTree { tr_paths : list string; tr_cmds : list string }.
Definition shell (cmd : string) (w : Tree) : Tree :=
  mkTree (match Str.split " "%char cmd with ["touch"; p] => [p] | _ => [] end ++ tr_paths w)
    (tr_cmds w ++ [cmd]).
#[export] Instance tree_fs : RunFs Tree := {
  rf_exists p w := existsb (below p) (tr_paths w);
  rf_rmtree d := λ w,
    (Ret tt, mkTree (List.filter (λ q, negb (below d q)) (tr_paths w)) (tr_cmds w));
  rf_makedirs d := λ w, (Ret tt, mkTree (d :: tr_paths w) (tr_cmds w));
  rf_os_exists p w := existsb (below p) (tr_paths w);
  rf_check_output cmd := λ w, (Ret "", shell cmd w);
  rf_apart d p := below d p = false;
}.

Lemma startswith_total x y q :
  Str.startswith x q = true → Str.startswith y q = true →
  Str.startswith x y = true ∨ Str.startswith y x = true.
Proof.
  revert y q. induction x as [|a x IH]; intros [|b y] [|c q]; simpl; try by auto.
  rewrite !andb_true_iff, !bool_decide_eq_true. intros [-> Hx] [-> Hy].
  destruct (IH _ _ Hx Hy); auto.
Qed.
Lemma startswith_slash a b :
  Str.startswith (a +:+ "/") (b +:+ "/") = true → b = a ∨ Str.startswith (a +:+ "/") b = true.
Proof.
  revert b. induction a as [|x a IH]; intros [|y b]; [by left|by right|..].
  - destruct a as [|z a]; simpl; intros Hs; apply andb_true_iff in Hs as [_ Hs]; done.
  - simpl. intros [->%bool_decide_eq_true Hs]%andb_true_iff. rewrite bool_decide_true by done.
    destruct (IH b Hs) as [->|Hp]; auto.
Qed.
Lemma below_spec d p : below d p = true ↔ norm p = norm d ∨ ∃ r, norm p = norm d +:+ "/" +:+ r.
Proof.
  unfold below. rewrite orb_true_iff, bool_decide_eq_true, Str.startswith_spec.
  split; (intros [?|[r Hr]]; [by left|right; exists r; by rewrite Hr, !Str.append_assoc]).
Qed.
Lemma in_tree_trans d p q : below d p = true → below p q = true → below d q = true.
Proof.
  rewrite !below_spec. intros [Hp|[r Hp]] [Hq|[s Hq]]; rewrite Hq, Hp; auto; right.
  - by exists s.
  - by exists r.
  - exists (r +:+ "/" +:+ s). by rewrite !Str.append_assoc.
Qed.
Lemma below_total d p q : below d q = true → below p q = true → below d p = true ∨ below p d = true.
Proof.
  unfold below. rewrite !orb_true_iff, !bool_decide_eq_true. intros [Hd|Hd] [Hp|Hp].
  - left; left. congruence.
  - right; right. by rewrite <- Hd.
  - left; right. by rewrite <- Hp.
  - destruct (startswith_total _ _ _ Hd Hp) as [Hs|Hs]; apply startswith_slash in Hs as [->|Hs]; auto.
Qed.

#[export] Instance tree_fs_laws : RunFsLaws Tree.
Proof.
  split; cbn.
  - intros d w _. eexists. split_and!; [done|..]; cbn.
    + apply not_true_iff_false. rewrite existsb_exists. setoid_rewrite filter_In.
      intros (q & [_ Hq] & Hb). by rewrite Hb in Hq.
    + intros p. rewrite !existsb_exists. setoid_rewrite filter_In. intros (q & [Hin Hq] & Hb). split.
      * by exists q.
      * destruct (below d p) eqn:E; [|done]. by rewrite (in_tree_trans d p q) in Hq.
    + intros p Hdp Hpd. apply eq_true_iff_eq. rewrite !existsb_exists. setoid_rewrite filter_In.
      split; [naive_solver|]. intros (q & Hin & Hb). exists q. split_and!; [done| |done].
      destruct (below d q) eqn:E; [|done]. destruct (below_total d p q E Hb); congruence.
  - intros d w _. eexists. split_and!; [done|..]; cbn.
    + apply orb_true_iff. left. apply below_spec. by left.
    + intros p Hpd. by rewrite Hpd.
  - intros d p w Hb. rewrite !existsb_exists. intros (q & Hin & Hq). exists q. split; [done|].
    by apply (in_tree_trans d p q).
  - done.
Qed.

Definition restarted : mconfig :=
  mkMconfig local_conf true "leader" "jdfl" "jdfl_TrainerWorkerService_0" (inr 1) None None None None
    None None "models/model_dir/" "models/export/" (inl 1) 1 "hdfs://ckpt".
Definition left_over : Tree :=
  mkTree ["models/model_dir/DOWNLOAD_SUCCESS"; "models/model_dir/model.ckpt-1000"] [].

Lemma only_workers_keep_the_checkpoint_witness :
  (∃ w1, rf_os_exists (SUCCESS_FILE restarted) w1 = false ∧
     fl_run_generator Ret (λ _ _ _, mret tt) [] restarted true (mkProc left_over [])
     = with_world (download Ret restarted;; mret tt) (mkProc w1 [])) ∧
  (rf_os_exists (SUCCESS_FILE restarted) left_over = true →
   ∃ w2, fl_run_generator Ret (λ _ _ _, mret tt) [] restarted false (mkProc left_over [])
         = with_world (mret tt) (mkProc w2 [])).
Proof.
  apply (only_workers_keep_the_checkpoint (W := Tree) Ret (λ _ _ _, mret tt) [] restarted
    (inl "jdfl_TrainerWorkerService_0")); done.
Defined.

(** What the shell was told, and what the restarted chief is left with. *)
Example restart_fetches_again :
  let '(o, p) := fl_run_generator Ret (λ _ _ _, mret tt) [] restarted true (mkProc left_over []) in
  o = Ret tt ∧
  tr_cmds (pr_world p) = ["hadoop fs -get hdfs://ckpt/* models/model_dir//";
                          "touch models/model_dir/DOWNLOAD_SUCCESS"] ∧
  rf_exists "models/model_dir/model.ckpt-1000" (pr_world p) = false.
Proof. vm_compute. done. Qed.

(** ** Checking example ids *)

(** The operation built: nothing to check; the hashes of the ids sent to the peer;
    the hashes received compared with one's own. *)
Inductive ids_chk := NoCheck | SendIds (printed : bool) | CompareIds (printed : bool).

(** The message of the last error names [role], which is not a variable there. *)
Definition verify_example_ids (check_exampleid : Z) (role : string) (debug_mode : bool) :
    outcome ids_chk :=
  if check_exampleid =? 0 then Ret NoCheck
  else if bool_decide (role = "leader") then Ret (SendIds debug_mode)
  else if bool_decide (role = "follower") then Ret (CompareIds debug_mode)
  else raise NameError.

(** ** Evaluation *)
Section evaluation.
(** The tensors and update operations of the metrics; the values at the end, how
    they print and which are byte strings. *)
Context {T U V : Type} (show : V → string) (is_bytes : V → bool).

(** [for name in sorted(eval_dict.keys())] *)
Fixpoint separate (names : list string) (eval_dict : list (string * (T * U)))
    (update_ops : list U) (value_ops : list (string * T)) : outcome (list U * list (string * T)) :=
  match names with
  | [] => Ret (update_ops, value_ops)
  | name :: l =>
      match Dict.get name eval_dict with
      | None => raise KeyError
      | Some (metric_tensor, update_op) =>
          separate l eval_dict (update_ops ++ [update_op]) (Dict.set name metric_tensor value_ops)
      end
  end.
Definition extract_metric_update_ops (eval_dict : list (string * (T * U))) :
    outcome (list U * list (string * T)) :=
  separate (py_sort Str.leb (Dict.keys eval_dict)) eval_dict [] [].

(** The branch of [train_or_eval] before the session of an evaluation: the update
    operations and what [FinalOpsHook] is given. *)
Definition prepare_eval (eval_metric_ops : option (list (string * (T * U)))) (loss_metric : T * U)
    (global_step : T) : outcome (list U * list (string * T)) :=
  let ops := default [] eval_metric_ops in
  let ops := if Dict.mem "loss" ops then ops else Dict.set "loss" loss_metric ops in
  '(update_ops, eval_dict) ← extract_metric_update_ops ops;
  if Dict.mem "global_step" eval_dict then raise ValueError
  else Ret (update_ops, Dict.set "global_step" global_step eval_dict).

(** [sorted(dictionary.items())]: the keys differ, so the values are not compared. *)
Definition by_key (a b : string * V) : bool := Str.leb a.1 b.1.
Definition dict_to_str (dictionary : list (string * V)) : string :=
  Str.join ", " (map (λ kv : string * V, kv.1 +:+ " = " +:+ show kv.2)
    (List.filter (λ kv : string * V, negb (is_bytes kv.2)) (py_sort by_key dictionary))).

(** [_update_timeline]: the first trace is kept, of the later ones the events that
    have a time. *)
Context {Ev : Type} (has_ts : Ev → bool).
Definition update_timeline (timeline : option (list Ev)) (traceEvents : list Ev) : option (list Ev) :=
  match timeline with
  | None => Some traceEvents
  | Some tl => Some (tl ++ List.filter has_ts traceEvents)
  end.
Definition timeline_path (path role : string) (rank : Z) : string :=
  path +:+ "/timeline_step_" +:+ role +:+ "_" +:+ Str.of_int rank +:+ ".json".

(** *** The order of the metrics *)
Lemma dict_get_perm {X} (d1 d2 : list (string * X)) k :
  NoDup (Dict.keys d1) → d1 ≡ₚ d2 → Dict.get k d1 = Dict.get k d2.
Proof.
  intros Hnd Hp. destruct (Dict.get k d1) as [v|] eqn:E1.
  - destruct (Dict.get k d2) as [v'|] eqn:E2.
    + apply Dict.get_Some_In in E1. apply Dict.get_Some_In in E2. rewrite <- Hp in E2.
      f_equal. clear -Hnd E1 E2. unfold Dict.keys in Hnd.
      apply list_elem_of_lookup in E1 as [i Hi]. apply list_elem_of_lookup in E2 as [j Hj].
      assert (i = j) as ->; [|congruence].
      apply (NoDup_lookup _ i j k Hnd); by rewrite list_lookup_fmap, ?Hi, ?Hj.
    + apply Dict.get_None in E2. destruct E2. unfold Dict.keys. rewrite <- Hp.
      apply Dict.get_Some_In in E1. apply list_elem_of_fmap. by exists (k, v).
  - symmetry. apply Dict.get_None in E1. apply Dict.get_None. unfold Dict.keys in *. by rewrite <- Hp.
Qed.

Lemma separate_ext names (d1 d2 : list (string * (T * U))) us vs :
  (∀ k, Dict.get k d1 = Dict.get k d2) → separate names d1 us vs = separate names d2 us vs.
Proof.
  intros Hd. revert us vs. induction names as [|n names IH]; intros us vs; [done|]. simpl.
  rewrite Hd. destruct (Dict.get n d2) as [[]|]; [apply IH|done].
Qed.

Lemma sort_keys_perm (l1 l2 : list string) : l1 ≡ₚ l2 → py_sort Str.leb l1 = py_sort Str.leb l2.
Proof.
  apply py_sort_unique; [apply str_leb_total|apply str_leb_trans|].
  intros x y _ _. apply str_leb_antisym.
Qed.

(** The metrics separated in the order of their names. *)
Lemma separate_ret names (d : list (string * (T * U))) us vs :
  (∀ k, k ∈ names → k ∈ Dict.keys d) → NoDup names → (∀ k, k ∈ names → k ∉ Dict.keys vs) →
  ∃ us' vs', separate names d us vs = Ret (us ++ us', vs ++ vs') ∧ Dict.keys vs' = names.
Proof.
  revert us vs. induction names as [|n names IH]; intros us vs Hin Hnd Hfr; simpl.
  { exists [], []. by rewrite !app_nil_r. }
  apply NoDup_cons in Hnd as [Hn Hnd].
  destruct (Dict.mem_get n d) as [[mt uo] Hg]; [apply Dict.mem_true, Hin; left|]. rewrite Hg.
  rewrite Dict.set_fresh by (apply Hfr; left).
  destruct (IH (us ++ [uo]) (vs ++ [(n, mt)])) as (us' & vs' & -> & Hk).
  - intros k Hk. apply Hin. by right.
  - done.
  - intros k Hk. unfold Dict.keys. rewrite fmap_app, elem_of_app. intros [Hc|Hc].
    + by apply (Hfr k); [right|].
    + apply list_elem_of_singleton in Hc. by simpl in Hc; subst k.
  - exists (uo :: us'), ((n, mt) :: vs'). rewrite <- !(assoc_L (++)). split; [done|exact (f_equal (cons n) Hk)].
Qed.

Lemma with_loss_perm (d1 d2 : list (string * (T * U))) loss :
  d1 ≡ₚ d2 →
  (if Dict.mem "loss" d1 then d1 else Dict.set "loss" loss d1)
  ≡ₚ (if Dict.mem "loss" d2 then d2 else Dict.set "loss" loss d2).
Proof.
  intros Hp. assert (Dict.mem "loss" d1 = Dict.mem "loss" d2) as Hmem.
  { apply eq_true_iff_eq. rewrite !Dict.mem_true. unfold Dict.keys. by rewrite Hp. }
  rewrite <- Hmem. destruct (Dict.mem "loss" d1) eqn:E; [done|].
  apply Dict.mem_false in E. apply eq_sym, Dict.mem_false in Hmem.
  rewrite !Dict.set_fresh by done. by rewrite Hp.
Qed.

Lemma with_loss_NoDup (d : list (string * (T * U))) loss :
  NoDup (Dict.keys d) →
  NoDup (Dict.keys (if Dict.mem "loss" d then d else Dict.set "loss" loss d)).
Proof. intros Hd. destruct (Dict.mem "loss" d); [done|by apply Dict.set_NoDup]. Qed.

Lemma extract_ret (d : list (string * (T * U))) :
  NoDup (Dict.keys d) →
  ∃ us vs, extract_metric_update_ops d = Ret (us, vs) ∧ Dict.keys vs = py_sort Str.leb (Dict.keys d).
Proof.
  intros Hd. destruct (separate_ret (py_sort Str.leb (Dict.keys d)) d [] []) as (us & vs & Hs & Hk).
  - intros k. by rewrite py_sort_perm.
  - by rewrite py_sort_perm.
  - intros k _ Hk. by apply not_elem_of_nil in Hk.
  - by exists us, vs.
Qed.

(** "Sort metrics lexicographically so graph is identical every time": whatever
    the order in which the model function put its metrics in the dictionary, the
    evaluation is prepared alike, with the same update operations in the same
    order; it is refused exactly when a metric is named [global_step]. *)
Theorem evaluation_graph_is_the_same (d1 d2 : list (string * (T * U))) loss step :
  NoDup (Dict.keys d1) → d1 ≡ₚ d2 →
  prepare_eval (Some d1) loss step = prepare_eval (Some d2) loss step ∧
  (prepare_eval (Some d1) loss step = raise ValueError ↔ "global_step" ∈ Dict.keys d1).
Proof.
  intros Hnd Hp. unfold prepare_eval. cbn [default from_option id].
  pose proof (with_loss_perm d1 d2 loss Hp) as Hpl. pose proof (with_loss_NoDup d1 loss Hnd) as Hnl.
  assert ("global_step" ∈ Dict.keys (if Dict.mem "loss" d1 then d1 else Dict.set "loss" loss d1)
    ↔ "global_step" ∈ Dict.keys d1) as Hgs.
  { destruct (Dict.mem "loss" d1); [done|]. rewrite Dict.keys_set. case_decide; [done|].
    rewrite elem_of_app, list_elem_of_singleton. naive_solver. }
  revert Hpl Hnl Hgs. generalize (if Dict.mem "loss" d1 then d1 else Dict.set "loss" loss d1),
    (if Dict.mem "loss" d2 then d2 else Dict.set "loss" loss d2). intros e1 e2 Hpl Hnl Hgs. split.
  - unfold extract_metric_update_ops.
    rewrite (sort_keys_perm (Dict.keys e1) (Dict.keys e2)) by (unfold Dict.keys; by rewrite Hpl).
    rewrite (separate_ext _ e1 e2); [done|]. intros k. by apply dict_get_perm.
  - destruct (extract_ret e1 Hnl) as (us & vs & -> & Hk). cbn. rewrite <- Hgs.
    rewrite <- (py_sort_perm Str.leb (Dict.keys e1)), <- Hk, <- Dict.mem_true.
    destruct (Dict.mem "global_step" vs); split; done.
Qed.
End evaluation.

Lemma evaluation_graph_is_the_same_witness :
  prepare_eval (Some [("auc", (1, 2)); ("acc", (3, 4))]) (5, 6) 7
  = prepare_eval (Some [("acc", (3, 4)); ("auc", (1, 2))]) (5, 6) 7 ∧
  (prepare_eval (Some [("auc", (1, 2)); ("acc", (3, 4))]) (5, 6) 7 = raise ValueError
   ↔ "global_step" ∈ ["auc"; "acc"]).
Proof.
  apply (evaluation_graph_is_the_same [("auc", (1, 2)); ("acc", (3, 4))] [("acc", (3, 4)); ("auc", (1, 2))]
    (5, 6) 7).
  - apply (bool_decide_unpack _). vm_compute. done.
  - apply Permutation_swap.
Defined.

Example prepared :
  prepare_eval (Some [("auc", (1, 2)); ("acc", (3, 4))]) (5, 6) 7
  = Ret ([4; 2; 6], [("acc", 3); ("auc", 1); ("loss", 5); ("global_step", 7)]) ∧
  dict_to_str Str.of_int (λ v, v =? 0) [("loss", 5); ("summary", 0); ("acc", 3)] = "acc = 3, loss = 5".
Proof. vm_compute. done. Qed.
