(* ===== verification/MnistModel.v ===== *)
(** * The MNIST demo: one model in two halves

    [src/example/mnist_demo]: the model functions of the leader and of the
    follower and what their [fl_run] does, and the model trained in one place
    (baseline.py).  A graph is an expression over variables, inputs and what the
    bridge receives; TensorFlow (what the operations compute, the gradients, Adam)
    is an interface whose laws are those of the chain rule.  The gradients that the
    leader sends are those of [FlTensorRecvWithFakeInput] in fl_ops.py. *)

From stdpp Require Import base tactics list gmap strings.
From Stdlib Require Import ZArith Lia Ascii.
From S2P Require Import Prelude PyStd Trainer TrainerRun.

Open Scope Z_scope.

(** ** Graphs *)

Inductive leaf := TfVariable (name : string) | Input (name : string) | Received (datamsg : string).
#[export] Instance leaf_eq_dec : EqDecision leaf.
Proof. solve_decision. Defined.

Inductive expr :=
  | Leaf (l : leaf)
  | Op1 (o : string) (a : expr)
  | Op2 (o : string) (a b : expr).

Fixpoint occurs (l : leaf) (e : expr) : bool :=
  match e with
  | Leaf l' => bool_decide (l = l')
  | Op1 _ a => occurs l a
  | Op2 _ a b => occurs l a || occurs l b
  end.
(** [e] with the expression [x] in the place of the leaf [z]. *)
Fixpoint plug (z : leaf) (x : expr) (e : expr) : expr :=
  match e with
  | Leaf l => if decide (l = z) then x else Leaf l
  | Op1 o a => Op1 o (plug z x a)
  | Op2 o a b => Op2 o (plug z x a) (plug z x b)
  end.

(** [tf.get_variable(name, shape, initializer)]; all are of [tf.float32]. *)
Inductive initializer := random_uniform (minval maxval : string) (seed : Z) | zeros.
Record variable := get_variable { v_name : string; v_shape : list Z; v_init : initializer }.

(** The operations of the bridge that a graph holds, with their [datamsg_sname],
    [datamsg_rname] and [grad_sname]. *)
Inductive bridge_op :=
  | fl_tensor_send (x : expr) (datamsg_sname : string)
  | fl_tensor_send_recv (x : expr) (datamsg_sname datamsg_rname : string)
  | fl_tensor_recv_with_fake_input (fake datamsg_rname grad_sname : string).

Inductive ModeKeys := TRAIN | EVAL | PREDICT.
(** What [minimize] is given: an expression, and the message with the gradient to
    start from, or ones. *)
Record train_op := minimize { to_minimize : expr; grad_loss : option string }.
Record EstimatorSpec := mkSpec {
  sp_mode : ModeKeys;
  sp_loss : option expr;
  sp_train : option train_op;
  sp_metrics : list (string * expr);
  sp_predictions : list (string * expr);
}.
Record graph := mkGraph {
  g_vars : list variable;
  g_check : ids_chk;
  g_bridge : list bridge_op;
  g_spec : EstimatorSpec;
}.
Definition var_names (g : graph) : list string := map v_name (g_vars g).

Definition SEED : Z := 1.
Definition weights (name : string) (shape : list Z) : variable :=
  get_variable name shape (random_uniform "-0.01" "0.01" SEED).
Definition bias (name : string) (shape : list Z) : variable := get_variable name shape zeros.
Definition var (v : variable) : expr := Leaf (TfVariable (v_name v)).

(** [tf.nn.relu(tf.nn.bias_add(tf.matmul(x, w), b))] and the layer without [relu] *)
Definition linear (x : expr) (w b : variable) : expr :=
  Op2 "bias_add" (Op2 "matmul" x (var w)) (var b).
Definition dense (x : expr) (w b : variable) : expr := Op1 "relu" (linear x w b).
Definition softmax_loss (labels logits : expr) : expr :=
  Op2 "sparse_softmax_cross_entropy" labels logits.

Definition feature (name : string) (features : list (string * expr)) : outcome expr :=
  match Dict.get name features with Some x => Ret x | None => raise KeyError end.

Definition w1l : variable := weights "w1l" [392; 128].
Definition b1l : variable := bias "b1l" [128].
Definition w1f : variable := weights "w1f" [392; 128].
Definition b1f : variable := bias "b1f" [128].
Definition w2 : variable := weights "w2" [256; 10].
Definition b2 : variable := bias "b2" [10].
Definition fake : variable := bias "fake" [].

(** *** baseline.py *)
Definition mnist_model (xl xf : expr) : list variable * expr :=
  let act1_l := dense xl w1l b1l in
  let act1_f := dense xf w1f b1f in
  let act1 := Op2 "concat" act1_l act1_f in
  ([w1l; b1l; w1f; b1f; w2; b2], linear act1 w2 b2).

Definition baseline_model_fn (features : list (string * expr)) (labels : expr) (mode : ModeKeys) :
    outcome graph :=
  xl ← feature "xl" features;
  xf ← feature "xf" features;
  let '(vars, logits) := mnist_model xl xf in
  let loss := softmax_loss labels logits in
  Ret (mkGraph vars NoCheck []
    match mode with
    | TRAIN => mkSpec TRAIN (Some loss) (Some (minimize loss None)) [] []
    | EVAL => mkSpec EVAL (Some loss) None [("accuracy", Op2 "accuracy" labels (Op1 "argmax" logits))] []
    | PREDICT => mkSpec PREDICT None None [] [("output", logits); ("predict", Op1 "argmax" logits)]
    end).

(** *** mnist_follower.py *)
Section model_fns.
Context (check_exampleid : Z) (role : string).

Definition follower_model_fn (features labels : list (string * expr)) (mode : ModeKeys) : outcome graph :=
  x ← feature "x" features;
  let vars := [w1f; b1f] in
  let act1_f := dense x w1f b1f in
  match mode with
  | PREDICT => Ret (mkGraph vars NoCheck [] (mkSpec PREDICT None None [] [("output", act1_f)]))
  | _ =>
      _ ← feature "example_id" features;
      ids_chk_op ← verify_example_ids check_exampleid role true;
      Ret (match mode with
           | TRAIN =>
               mkGraph vars ids_chk_op [fl_tensor_send_recv act1_f "act1_f" "act1_f_grad"]
                 (mkSpec TRAIN (Some (Leaf (Received "act1_f_grad")))
                    (Some (minimize act1_f (Some "act1_f_grad"))) [] [])
           | _ =>
               mkGraph vars ids_chk_op [fl_tensor_send act1_f "act1_f"]
                 (mkSpec EVAL (Some act1_f) None [] [])
           end)
  end.

(** *** mnist_leader.py

    In [EVAL] mode the dependency [xl] is a name that nothing defines. *)
Definition leader_model_fn (features labels : list (string * expr)) (mode : ModeKeys) : outcome graph :=
  x ← feature "x" features;
  let act1_l := dense x w1l b1l in
  '(more_vars, bridge, act1_f) ←
    (match mode with
     | TRAIN => Ret ([fake], [fl_tensor_recv_with_fake_input "fake" "act1_f" "act1_f_grad"],
                     Leaf (Received "act1_f"))
     | EVAL => raise NameError
     | PREDICT => act1_f ← feature "fl_inputs" features; Ret ([], [], act1_f)
     end);
  let vars := [w1l; b1l; w2; b2] ++ more_vars in
  let act1 := Op2 "concat" act1_l act1_f in
  let logits := linear act1 w2 b2 in
  match mode with
  | PREDICT => Ret (mkGraph vars NoCheck bridge (mkSpec PREDICT None None [] [("output", logits)]))
  | _ =>
      _ ← feature "example_id" features;
      ids_chk_op ← verify_example_ids check_exampleid role true;
      y ← feature "y" labels;
      let loss := softmax_loss y logits in
      Ret (mkGraph vars ids_chk_op bridge
             (mkSpec mode (Some loss)
                (match mode with TRAIN => Some (minimize loss None) | _ => None end) [] []))
  end.
End model_fns.

(** ** TensorFlow *)

(** What a graph computes with: the operations on tensors, [tf.gradients] of an
    expression for a leaf from a gradient of the expression, one Adam update of a
    variable with its slots at a step, the initial values, the hash of ids. *)
Class TF (T Slot : Type) := {
  tf_op1 : string → T → T;
  tf_op2 : string → T → T → T;
  tf_ones : T;
  tf_gradients : (leaf → T) → expr → leaf → T → T;
  tf_adam : nat → Slot → T → T → T * Slot;
  tf_slots : Slot;
  tf_initial : initializer → list Z → T;
  tf_reduce_min : T → T;
  tf_to_hash_bucket : T → T;
  tf_assert_equal : T → T → bool;
}.

Section values.
Context {T Slot : Type} `{TF T Slot}.
Fixpoint eval (env : leaf → T) (e : expr) : T :=
  match e with
  | Leaf l => env l
  | Op1 o a => tf_op1 o (eval env a)
  | Op2 o a b => tf_op2 o (eval env a) (eval env b)
  end.
Definition bind_leaf (z : leaf) (x : T) (env : leaf → T) : leaf → T :=
  λ l, if decide (l = z) then x else env l.

(** The variables of a process, with their optimizer. *)
Record party := mkParty { p_vals : string → T; p_slots : string → Slot; p_steps : nat }.
Definition initial (v : variable) : T := tf_initial (v_init v) (v_shape v).
(** [tf.global_variables_initializer]; what is not a variable has no meaning. *)
Definition start_party (vars : list variable) : party :=
  mkParty (λ n, match list_find (λ v, v_name v = n) vars with
                | Some (_, v) => initial v
                | None => tf_ones
                end) (λ _, tf_slots) 0.

Definition env_of (p : party) (inputs : list (string * T)) : leaf → T := λ l,
  match l with
  | TfVariable n => p_vals p n
  | Input n => default tf_ones (Dict.get n inputs)
  | Received _ => tf_ones
  end.

(** One [minimize]: every trainable variable of the graph, from the values before
    the step; [grad v] is its gradient. *)
Definition apply_gradients (names : list string) (grad : string → T) (p : party) : party :=
  let new n := tf_adam (p_steps p) (p_slots p n) (p_vals p n) (grad n) in
  mkParty (λ n, if decide (n ∈ names) then (new n).1 else p_vals p n)
    (λ n, if decide (n ∈ names) then (new n).2 else p_slots p n)
    (S (p_steps p)).

(** *** Training in one place *)
Definition baseline_step (g : graph) (inputs : list (string * T)) (p : party) : outcome party :=
  match sp_train (g_spec g) with
  | Some (minimize loss None) =>
      let env := env_of p inputs in
      Ret (apply_gradients (var_names g) (λ n, tf_gradients env loss (TfVariable n) tf_ones) p)
  | _ => raise ValueError
  end.

(** *** Training in two halves *)

(** A message that never comes is waited for. *)
Definition receive (name : string) (messages : list (string * T)) : outcome T :=
  match Dict.get name messages with Some t => Ret t | None => Stop NoFuel end.

Definition check_ids (g_l g_f : graph) (ids_l ids_f : T) : outcome unit :=
  match g_check g_l, g_check g_f with
  | NoCheck, NoCheck => Ret tt
  | SendIds _, CompareIds _ =>
      if tf_assert_equal (tf_to_hash_bucket ids_f) (tf_to_hash_bucket ids_l) then Ret tt
      else raise InvalidArgumentError
  | _, _ => Stop NoFuel
  end.

(** What the follower's graph sends when it runs. *)
Definition forward (g : graph) (env : leaf → T) : list (string * T) :=
  omap (λ op, match op with
              | fl_tensor_send x s | fl_tensor_send_recv x s _ => Some (s, eval env x)
              | fl_tensor_recv_with_fake_input _ _ _ => None
              end) (g_bridge g).

(** The leader: the activations come in, the gradient for them goes out, and its
    own variables are updated; the gradient registered for
    [FlTensorRecvWithFakeInput] is the [reduce_min] of what was sent. *)
Definition leader_step (g : graph) (inputs messages : list (string * T)) (p : party) :
    outcome (party * list (string * T)) :=
  match g_bridge g, sp_train (g_spec g) with
  | [fl_tensor_recv_with_fake_input fk rname grad_sname], Some (minimize loss None) =>
      act ← receive rname messages;
      let env := bind_leaf (Received rname) act (env_of p inputs) in
      let grad := tf_gradients env loss (Received rname) tf_ones in
      let grads n := if decide (n = fk) then tf_reduce_min grad
                     else tf_gradients env loss (TfVariable n) tf_ones in
      Ret (apply_gradients (var_names g) grads p, [(grad_sname, grad)])
  | _, _ => Stop NoFuel
  end.

Definition follower_step (g : graph) (inputs messages : list (string * T)) (p : party) : outcome party :=
  match sp_train (g_spec g) with
  | Some (minimize x (Some rname)) =>
      grad ← receive rname messages;
      let env := env_of p inputs in
      Ret (apply_gradients (var_names g) (λ n, tf_gradients env x (TfVariable n) grad) p)
  | _ => Stop NoFuel
  end.

(** A batch of each side: its example ids and its inputs. *)
Record batch := mkBatch { ba_ids : T; ba_inputs : list (string * T) }.

Definition split_step (g_l g_f : graph) (b : batch * batch) (s : party * party) :
    outcome (party * party) :=
  let '(bl, bf) := b in
  let '(l, f) := s in
  check_ids g_l g_f (ba_ids bl) (ba_ids bf) ;;
  let activations := forward g_f (env_of f (ba_inputs bf)) in
  '(l', gradients) ← leader_step g_l (ba_inputs bl) activations l;
  f' ← follower_step g_f (ba_inputs bf) gradients f;
  Ret (l', f').

Fixpoint split_train (g_l g_f : graph) (bs : list (batch * batch)) (s : party * party) :
    outcome (party * party) :=
  match bs with
  | [] => Ret s
  | b :: bs' => s' ← split_step g_l g_f b s; split_train g_l g_f bs' s'
  end.
Fixpoint baseline_train (g : graph) (bs : list (list (string * T))) (p : party) : outcome party :=
  match bs with
  | [] => Ret p
  | b :: bs' => p' ← baseline_step g b p; baseline_train g bs' p'
  end.
End values.

(** The chain rule, where an expression meets another one at a leaf. *)
Class TFLaws (T Slot : Type) `{TF T Slot} := {
  gradients_ext env env' y v d :
    (∀ l, occurs l y = true → env l = env' l) →
    tf_gradients env y v d = tf_gradients env' y v d;
  gradients_chain env y z e v d :
    occurs v y = false → occurs z e = false →
    tf_gradients env (plug z e y) v d
    = tf_gradients env e v (tf_gradients (bind_leaf z (eval env e) env) y z d);
  gradients_other env y z e v d :
    v ≠ z → occurs v e = false →
    tf_gradients env (plug z e y) v d = tf_gradients (bind_leaf z (eval env e) env) y v d;
}.

(** *** Leaves *)
Fixpoint leaves (e : expr) : list leaf :=
  match e with
  | Leaf l => [l]
  | Op1 _ a => leaves a
  | Op2 _ a b => leaves a ++ leaves b
  end.
Lemma occurs_leaves l e : occurs l e = true ↔ l ∈ leaves e.
Proof.
  induction e as [l'|o a IH|o a IHa b IHb]; cbn.
  - by rewrite bool_decide_eq_true, list_elem_of_singleton.
  - done.
  - by rewrite orb_true_iff, elem_of_app, IHa, IHb.
Qed.

Section training.
Context {T Slot : Type} `{TFLaws T Slot}.

Lemma eval_ext (env env' : leaf → T) e :
  Forall (λ l, env l = env' l) (leaves e) → eval env e = eval env' e.
Proof.
  induction e as [l|o a IH|o a IHa b IHb]; cbn; rewrite ?Forall_app.
  - by intros Hl%Forall_inv.
  - intros Hl. by rewrite IH.
  - intros [Ha Hb]. by rewrite IHa, IHb.
Qed.
Lemma gradients_leaves (env env' : leaf → T) y v d :
  Forall (λ l, env l = env' l) (leaves y) → tf_gradients env y v d = tf_gradients env' y v d.
Proof.
  intros Hl. apply gradients_ext. intros l Ho%occurs_leaves. by apply (proj1 (Forall_forall _ _) Hl).
Qed.

(** One set of examples: the halves of the picture, the label, the ids that the
    two sides have for them. *)
Record sample := mkSample { s_xl : T; s_xf : T; s_y : T; s_ids_l : T; s_ids_f : T }.
Definition both (s : sample) : list (string * T) := [("xl", s_xl s); ("xf", s_xf s); ("y", s_y s)].
Definition halves (s : sample) : batch * batch :=
  (mkBatch (s_ids_l s) [("xl", s_xl s); ("y", s_y s)], mkBatch (s_ids_f s) [("xf", s_xf s)]).

(** The tensors that the input functions give to the model functions. *)
Definition input (n : string) : expr := Leaf (Input n).
Definition leader_graph (check_exampleid : Z) : outcome graph :=
  leader_model_fn check_exampleid "leader" [("x", input "xl"); ("example_id", input "ids")]
    [("y", input "y")] TRAIN.
Definition follower_graph (check_exampleid : Z) : outcome graph :=
  follower_model_fn check_exampleid "follower" [("x", input "xf"); ("example_id", input "ids")] [] TRAIN.
Definition baseline_graph : outcome graph :=
  baseline_model_fn [("xl", input "xl"); ("xf", input "xf")] (input "y") TRAIN.

Definition LEADER_VARS : list string := ["w1l"; "b1l"; "w2"; "b2"].
Definition FOLLOWER_VARS : list string := ["w1f"; "b1f"].
Definition same_on (names : list string) (p q : party (T := T) (Slot := Slot)) : Prop :=
  Forall (λ n, p_vals p n = p_vals q n ∧ p_slots p n = p_slots q n) names ∧ p_steps p = p_steps q.

Lemma apply_same names names1 names2 grad1 grad2 p q :
  same_on names p q →
  Forall (λ n, n ∈ names1 ∧ n ∈ names2 ∧ grad1 n = grad2 n) names →
  same_on names (apply_gradients names1 grad1 p) (apply_gradients names2 grad2 q).
Proof.
  intros [Hs Hn] Hg. split; [|by cbn; rewrite Hn]. rewrite Forall_forall in *. intros n Hin. cbn.
  destruct (Hg n Hin) as (H1 & H2 & Hgr). destruct (Hs n Hin) as [Hv Hsl].
  by rewrite !decide_True, Hn, Hgr, Hv, Hsl.
Qed.

Definition ACT1_F : leaf := Received "act1_f".
Definition act1_f : expr := dense (input "xf") w1f b1f.
Definition leader_loss : expr :=
  softmax_loss (input "y") (linear (Op2 "concat" (dense (input "xl") w1l b1l) (Leaf ACT1_F)) w2 b2).

(** The loss of the baseline is that of the leader, with what the follower sends
    computed in place. *)
Lemma baseline_is_plugged :
  baseline_graph = Ret (mkGraph [w1l; b1l; w1f; b1f; w2; b2] NoCheck []
    (mkSpec TRAIN (Some (plug ACT1_F act1_f leader_loss))
       (Some (minimize (plug ACT1_F act1_f leader_loss) None)) [] [])).
Proof. reflexivity. Qed.

Section step.
Context (s : sample) (l f b : party (T := T) (Slot := Slot)).
Context (Hl : same_on LEADER_VARS l b) (Hf : same_on FOLLOWER_VARS f b).

Let env_b : leaf → T := env_of b (both s).
Let env_f : leaf → T := env_of f [("xf", s_xf s)].
Let env_l : leaf → T :=
  bind_leaf ACT1_F (eval env_f act1_f) (env_of l [("xl", s_xl s); ("y", s_y s)]).

Lemma follower_leaves : Forall (λ x, env_b x = env_f x) (leaves act1_f).
Proof.
  destruct Hf as [Hv _]. apply Forall_cons in Hv as [[W _] Hv]. apply Forall_cons in Hv as [[B _] _].
  repeat constructor; symmetry; assumption.
Qed.
Lemma leader_leaves :
  Forall (λ x, bind_leaf ACT1_F (eval env_b act1_f) env_b x = env_l x) (leaves leader_loss).
Proof.
  destruct Hl as [Hv _]. apply Forall_cons in Hv as [[W1 _] Hv]. apply Forall_cons in Hv as [[B1 _] Hv].
  apply Forall_cons in Hv as [[W2 _] Hv]. apply Forall_cons in Hv as [[B2 _] _].
  repeat constructor; try (symmetry; assumption).
  exact (eval_ext env_b env_f act1_f follower_leaves).
Qed.

Lemma leader_gradients n d :
  n ∈ LEADER_VARS →
  tf_gradients env_l leader_loss (TfVariable n) d
  = tf_gradients env_b (plug ACT1_F act1_f leader_loss) (TfVariable n) d.
Proof.
  intros Hn. rewrite gradients_other; [|done|].
  - symmetry. apply gradients_leaves, leader_leaves.
  - apply list_elem_of_In in Hn. simpl in Hn. by repeat destruct Hn as [<-|Hn].
Qed.
Lemma follower_gradients n d :
  n ∈ FOLLOWER_VARS →
  tf_gradients env_f act1_f (TfVariable n) (tf_gradients env_l leader_loss ACT1_F d)
  = tf_gradients env_b (plug ACT1_F act1_f leader_loss) (TfVariable n) d.
Proof.
  intros Hn. rewrite gradients_chain; [|by apply list_elem_of_In in Hn; simpl in Hn;
    repeat destruct Hn as [<-|Hn]|done].
  rewrite (gradients_leaves _ env_l leader_loss ACT1_F d leader_leaves).
  symmetry. apply gradients_leaves, follower_leaves.
Qed.
End step.

Definition ids_agree (s : sample) : Prop :=
  tf_assert_equal (tf_to_hash_bucket (s_ids_f s)) (tf_to_hash_bucket (s_ids_l s)) = true.
Definition agree (l f b : party (T := T) (Slot := Slot)) : Prop :=
  same_on LEADER_VARS l b ∧ same_on FOLLOWER_VARS f b.

(** The graphs of the three processes, with the check of ids or without. *)
Definition graph_l (chk : ids_chk) : graph :=
  mkGraph [w1l; b1l; w2; b2; fake] chk [fl_tensor_recv_with_fake_input "fake" "act1_f" "act1_f_grad"]
    (mkSpec TRAIN (Some leader_loss) (Some (minimize leader_loss None)) [] []).
Definition graph_f (chk : ids_chk) : graph :=
  mkGraph [w1f; b1f] chk [fl_tensor_send_recv act1_f "act1_f" "act1_f_grad"]
    (mkSpec TRAIN (Some (Leaf (Received "act1_f_grad"))) (Some (minimize act1_f (Some "act1_f_grad"))) [] []).
Definition chk_l (check_exampleid : Z) : ids_chk := if check_exampleid =? 0 then NoCheck else SendIds true.
Definition chk_f (check_exampleid : Z) : ids_chk := if check_exampleid =? 0 then NoCheck else CompareIds true.

Lemma leader_graph_ret c : leader_graph c = Ret (graph_l (chk_l c)).
Proof. unfold leader_graph, leader_model_fn, verify_example_ids, chk_l. cbn. by destruct (c =? 0). Qed.
Lemma follower_graph_ret c : follower_graph c = Ret (graph_f (chk_f c)).
Proof. unfold follower_graph, follower_model_fn, verify_example_ids, chk_f. cbn. by destruct (c =? 0). Qed.

Lemma check_ids_ret c s :
  (c ≠ 0 → ids_agree s) →
  check_ids (graph_l (chk_l c)) (graph_f (chk_f c)) (s_ids_l s) (s_ids_f s) = Ret tt.
Proof.
  intros Hids. unfold check_ids, chk_l, chk_f. cbn [g_check graph_l graph_f].
  destruct (Z.eqb_spec c 0) as [->|Hc]; [done|]. by rewrite (Hids Hc).
Qed.

(** One step of the two halves is the step of the whole. *)
Lemma split_step_agrees c gb s l f b :
  baseline_graph = Ret gb → (c ≠ 0 → ids_agree s) → agree l f b →
  ∃ l' f' b', split_step (graph_l (chk_l c)) (graph_f (chk_f c)) (halves s) (l, f) = Ret (l', f') ∧
              baseline_step gb (both s) b = Ret b' ∧ agree l' f' b'.
Proof.
  rewrite baseline_is_plugged. intros [= <-] Hids [Hl Hf]. unfold split_step, halves.
  cbn [ba_ids ba_inputs]. rewrite (check_ids_ret c s Hids).
  do 3 eexists. split_and!; [reflexivity|reflexivity|]. split; apply apply_same; try done.
  - apply Forall_forall. intros n Hn. split_and!.
    + apply list_elem_of_In in Hn. simpl in Hn. apply list_elem_of_In. simpl. tauto.
    + apply list_elem_of_In in Hn. simpl in Hn. apply list_elem_of_In. simpl. tauto.
    + rewrite decide_False by (intros ->; apply list_elem_of_In in Hn; simpl in Hn;
        by repeat destruct Hn as [Hn|Hn]).
      exact (leader_gradients s l f b Hl Hf n tf_ones Hn).
  - apply Forall_forall. intros n Hn. split_and!.
    + done.
    + apply list_elem_of_In in Hn. simpl in Hn. apply list_elem_of_In. simpl. tauto.
    + exact (follower_gradients s l f b Hl Hf n tf_ones Hn).
Qed.

Lemma split_train_agrees c gb samples l f b :
  baseline_graph = Ret gb → (c ≠ 0 → Forall ids_agree samples) → agree l f b →
  ∃ l' f' b', split_train (graph_l (chk_l c)) (graph_f (chk_f c)) (map halves samples) (l, f) = Ret (l', f') ∧
              baseline_train gb (map both samples) b = Ret b' ∧ agree l' f' b'.
Proof.
  intros Hb. revert l f b. induction samples as [|s samples IH]; intros l f b Hids Ha.
  { by exists l, f, b. }
  destruct (split_step_agrees c gb s l f b) as (l1 & f1 & b1 & E1 & E2 & Ha1); [done| |done|].
  { intros Hc. by apply Forall_inv in Hids. }
  destruct (IH l1 f1 b1) as (l2 & f2 & b2' & E3 & E4 & Ha2); [|done|].
  { intros Hc. by apply Forall_inv_tail in Hids. }
  exists l2, f2, b2'. cbn [split_train baseline_train map]. by rewrite E1, E2, !bind_Ret.
Qed.

(** C10. Training in two halves is training in one place: from the initial values,
    for every sequence of examples that the two sides have in the same order (the
    check of ids passes when it is on), the leader and the follower train to the
    end, and the variables of each, with the state of their optimizers, are those
    of the model that baseline.py trains on the whole pictures, although the leader
    never sees the follower's half nor the follower the labels: the gradient that
    comes back through the bridge is the one of the chain rule. *)
Theorem split_training_is_baseline_training c samples :
  (c ≠ 0 → Forall ids_agree samples) →
  ∃ gl gf gb, leader_graph c = Ret gl ∧ follower_graph c = Ret gf ∧ baseline_graph = Ret gb ∧
  ∃ l f b,
    split_train gl gf (map halves samples)
      (start_party (g_vars gl), start_party (g_vars gf)) = Ret (l, f) ∧
    baseline_train gb (map both samples) (start_party (g_vars gb)) = Ret b ∧
    (∀ n, n ∈ LEADER_VARS → p_vals l n = p_vals b n ∧ p_slots l n = p_slots b n) ∧
    (∀ n, n ∈ FOLLOWER_VARS → p_vals f n = p_vals b n ∧ p_slots f n = p_slots b n).
Proof.
  intros Hids. rewrite leader_graph_ret, follower_graph_ret.
  destruct baseline_graph as [gb|] eqn:Hb; [|done]. do 3 eexists. split_and!; [done..|].
  destruct (split_train_agrees c gb samples (start_party (g_vars (graph_l (chk_l c))))
    (start_party (g_vars (graph_f (chk_f c)))) (start_party (g_vars gb)) Hb Hids)
    as (l & f & b & E1 & E2 & [[H1 _] [H2 _]]).
  - rewrite baseline_is_plugged in Hb. injection Hb as <-. split; (split; [|done]); by repeat constructor.
  - exists l, f, b. split_and!; [done|done|by apply Forall_forall|by apply Forall_forall].
Qed.
End training.

Section serving.
Context {T Slot : Type} `{TF T Slot}.

Lemma eval_plug (env : leaf → T) z x e :
  eval env (plug z x e) = eval (bind_leaf z (eval env x) env) e.
Proof.
  induction e as [l|o a IH|o a IHa b IHb]; cbn.
  - unfold bind_leaf. by destruct (decide (l = z)).
  - by rewrite IH.
  - by rewrite IHa, IHb.
Qed.

(** The exported halves compose: the leader's model, given what the follower's
    model puts out, puts out what the model exported by the baseline does. *)
Lemma exported_halves_compose c env :
  ∃ gl gf gb out_l out_f out_b,
    leader_model_fn c "leader" [("x", input "xl"); ("fl_inputs", input "fl_inputs")] [] PREDICT = Ret gl ∧
    follower_model_fn c "follower" [("x", input "xf")] [] PREDICT = Ret gf ∧
    baseline_model_fn [("xl", input "xl"); ("xf", input "xf")] (input "y") PREDICT = Ret gb ∧
    Dict.get "output" (sp_predictions (g_spec gl)) = Some out_l ∧
    Dict.get "output" (sp_predictions (g_spec gf)) = Some out_f ∧
    Dict.get "output" (sp_predictions (g_spec gb)) = Some out_b ∧
    eval (bind_leaf (Input "fl_inputs") (eval env out_f) env) out_l = eval env out_b.
Proof. do 6 eexists. split_and!; [reflexivity..|]. rewrite <- eval_plug. reflexivity. Qed.

(** Ids that differ stop both processes before a variable has changed. *)
Lemma different_ids_stop c s l f :
  c ≠ 0 → tf_assert_equal (tf_to_hash_bucket (s_ids_f s)) (tf_to_hash_bucket (s_ids_l s)) = false →
  split_step (graph_l (chk_l c)) (graph_f (chk_f c)) (halves s) (l, f) = raise InvalidArgumentError.
Proof.
  intros Hc Hids. unfold split_step, halves, check_ids, chk_l, chk_f. cbn [ba_ids g_check graph_l graph_f].
  destruct (Z.eqb_spec c 0) as [?|_]; [done|]. by rewrite Hids.
Qed.
End serving.

(** ** [fl_run] *)
Inductive act :=
  | LoadOps
  | RunEval (checkpoint_path : string)
  | RunTraining (checkpoint_path : string) (save_checkpoint_steps : Z)
  | MakeDirs (dir : string)
  | Export (dir checkpoint_path : string)
  | Sleep (seconds : Z).
Definition does (a : act) : M (list act) unit := modify (λ t, t ++ [a]).

(** [model_fn]: the graph that the estimator builds first, in each mode. *)
Section fl_run.
Context (model_fn : ModeKeys → outcome graph).
Definition estimator_eval (m : mconfig) : M (list act) unit :=
  _ ← liftO (model_fn EVAL); does (RunEval (mc_model_dir m)).
Definition estimator_train (m : mconfig) : M (list act) unit :=
  _ ← liftO (model_fn TRAIN); does (RunTraining (mc_model_dir m) 1000).
Definition export_savedmodel (dir : string) (m : mconfig) : M (list act) unit :=
  _ ← liftO (model_fn PREDICT); does (Export dir (mc_model_dir m)).

(** [flenv.read_eval_detail] is not there. *)
Definition leader_fl_run (is_chief : bool) (m : mconfig) : M (list act) unit :=
  does LoadOps ;;
  if mc_eval m =? 1 then
    estimator_eval m ;;
    if is_chief then raiseM AttributeError else mret tt
  else
    estimator_train m ;;
    if is_chief then
      let ctr_model_dir := Str.path_join (mc_export_dir m) "ctr_model" in
      does (MakeDirs ctr_model_dir) ;;
      let tower_model_dir := Str.path_join (mc_export_dir m) "tower_model" in
      does (MakeDirs tower_model_dir) ;;
      export_savedmodel ctr_model_dir m ;;
      export_savedmodel tower_model_dir m
    else does (Sleep 30).

Definition follower_fl_run (is_chief : bool) (m : mconfig) : M (list act) unit :=
  does LoadOps ;;
  if mc_eval m =? 1 then estimator_eval m
  else
    estimator_train m ;;
    if is_chief then export_savedmodel (mc_export_dir m) m else does (Sleep 30).
End fl_run.

(** The leader cannot evaluate: whatever its features, labels and role, its
    model function raises in [EVAL] mode, so a run with [--eval=1] ends there, before
    the evaluation has started; the follower's evaluation goes on without it. *)
Theorem leader_cannot_evaluate c role features labels is_chief m t :
  is_Some (Dict.get "x" features) → mc_eval m = 1 →
  leader_fl_run (leader_model_fn c role features labels) is_chief m t = (raise NameError, t ++ [LoadOps]) ∧
  follower_fl_run (λ mode, follower_model_fn 0 role
    [("x", input "xf"); ("example_id", input "ids")] [] mode) is_chief m t
  = (Ret tt, t ++ [LoadOps; RunEval (mc_model_dir m)]).
Proof.
  intros [x Hx] Hm. unfold leader_fl_run, follower_fl_run, estimator_eval.
  rewrite !run_bind. cbn. rewrite Hm. cbn. split.
  - unfold leader_model_fn, feature. by rewrite Hx.
  - apply (f_equal (pair (Ret tt))). symmetry. exact (app_assoc t [LoadOps] [RunEval (mc_model_dir m)]).
Qed.

Lemma leader_cannot_evaluate_witness :
  leader_fl_run (leader_model_fn 1 "leader" [("x", input "xl")] []) true restarted [] = (raise NameError, [LoadOps]) ∧
  follower_fl_run (λ mode, follower_model_fn 0 "leader"
    [("x", input "xf"); ("example_id", input "ids")] [] mode) true restarted []
  = (Ret tt, [LoadOps; RunEval "models/model_dir/"]).
Proof. apply (leader_cannot_evaluate 1 "leader" _ _ true restarted []); [by eexists|reflexivity]. Defined.

(** ** Witness: numbers for tensors *)

(** An operation and its derivatives in its arguments. *)
Definition num_op1 (o : string) (a : Z) : Z * Z :=
  if bool_decide (o = "relu") then (Z.max 0 a, if 0 <? a then 1 else 0) else (a, 1).
Definition num_op2 (o : string) (a b : Z) : Z * (Z * Z) :=
  if bool_decide (o = "matmul") then (a * b, (b, a))
  else if bool_decide (o = "concat") then (3 * a + b, (3, 1))
  else if bool_decide (o = "sparse_softmax_cross_entropy")
       then ((a - b) * (a - b), (2 * (a - b), 2 * (b - a)))
       else (a + b, (1, 1)).
Fixpoint num_eval (env : leaf → Z) (e : expr) : Z :=
  match e with
  | Leaf l => env l
  | Op1 o a => (num_op1 o (num_eval env a)).1
  | Op2 o a b => (num_op2 o (num_eval env a) (num_eval env b)).1
  end.
Fixpoint num_gradients (env : leaf → Z) (e : expr) (v : leaf) (d : Z) : Z :=
  match e with
  | Leaf l => if decide (v = l) then d else 0
  | Op1 o a => num_gradients env a v (d * (num_op1 o (num_eval env a)).2)
  | Op2 o a b =>
      let ds := (num_op2 o (num_eval env a) (num_eval env b)).2 in
      num_gradients env a v (d * ds.1) + num_gradients env b v (d * ds.2)
  end.
#[export] Instance num_tf : TF Z Z := {
  tf_op1 o a := (num_op1 o a).1;
  tf_op2 o a b := (num_op2 o a b).1;
  tf_ones := 1;
  tf_gradients := num_gradients;
  tf_adam n momentum x g := let m := momentum + g in (x - m, m);
  tf_slots := 0;
  tf_initial i shape := match i with random_uniform _ _ seed => seed | zeros => 0 end;
  tf_reduce_min g := g;
  tf_to_hash_bucket i := i mod (2 ^ 31 - 1);
  tf_assert_equal := Z.eqb;
}.

Lemma num_gradients_linear env e v d d' :
  num_gradients env e v (d + d') = num_gradients env e v d + num_gradients env e v d'.
Proof.
  revert d d'. induction e as [l|o a IH|o a IHa b IHb]; intros d d'; cbn.
  - by destruct (decide (v = l)).
  - by rewrite Z.mul_add_distr_r, IH.
  - rewrite !Z.mul_add_distr_r, IHa, IHb. lia.
Qed.
Lemma num_gradients_0 env e v : num_gradients env e v 0 = 0.
Proof. pose proof (num_gradients_linear env e v 0 0) as H. rewrite Z.add_0_r in H. lia. Qed.
Lemma num_eval_ext env env' e :
  (∀ l, occurs l e = true → env l = env' l) → num_eval env e = num_eval env' e.
Proof.
  induction e as [l|o a IH|o a IHa b IHb]; cbn; intros Hl.
  - apply Hl. by apply bool_decide_eq_true.
  - by rewrite IH.
  - rewrite IHa, IHb; [done|..]; intros l Ho; apply Hl; rewrite Ho; auto using orb_true_r.
Qed.
Lemma num_eval_plug env z x e :
  num_eval env (plug z x e) = num_eval (bind_leaf z (num_eval env x) env) e.
Proof.
  induction e as [l|o a IH|o a IHa b IHb]; cbn.
  - unfold bind_leaf. by destruct (decide (l = z)).
  - by rewrite IH.
  - by rewrite IHa, IHb.
Qed.
Lemma eval_num env e : eval env e = num_eval env e.
Proof. induction e as [l|o a IH|o a IHa b IHb]; cbn; by rewrite ?IH, ?IHa, ?IHb. Qed.

#[export] Instance num_tf_laws : TFLaws Z Z.
Proof.
  split; intros env; cbn [tf_gradients num_tf].
  - intros env' y v d. revert d. induction y as [l|o a IH|o a IHa b IHb]; intros d Hl; cbn in *.
    + done.
    + by rewrite IH, (num_eval_ext env env' a).
    + assert (∀ l, occurs l a = true → env l = env' l) as Ha by (intros l Ho; apply Hl; by rewrite Ho).
      assert (∀ l, occurs l b = true → env l = env' l) as Hb
        by (intros l Ho; apply Hl; by rewrite Ho, orb_true_r).
      by rewrite IHa, IHb, (num_eval_ext env env' a), (num_eval_ext env env' b).
  - intros y z e v d. rewrite eval_num. revert d.
    induction y as [l|o a IH|o a IHa b IHb]; intros d Hv Hz; cbn in *.
    + destruct (decide (l = z)) as [->|Hne].
      * by rewrite decide_True.
      * rewrite (decide_False (P := z = l)) by congruence. rewrite num_gradients_0. cbn.
        apply bool_decide_eq_false in Hv. by rewrite decide_False.
    + by rewrite IH, num_eval_plug.
    + apply orb_false_iff in Hv as [Ha Hb].
      by rewrite IHa, IHb, !num_eval_plug, num_gradients_linear.
  - intros y z e v d Hvz Hv. rewrite eval_num. revert d.
    assert (∀ x d, occurs v x = false → num_gradients env x v d = 0) as H0.
    { induction x as [l|o a IH|o a IHa b IHb]; intros d Ho; cbn in *.
      - apply bool_decide_eq_false in Ho. by rewrite decide_False.
      - by rewrite IH.
      - apply orb_false_iff in Ho as [Ha Hb]. by rewrite IHa, IHb. }
    induction y as [l|o a IH|o a IHa b IHb]; intros d; cbn.
    + destruct (decide (l = z)) as [->|Hne]; [|done]. by rewrite H0, decide_False.
    + by rewrite IH, num_eval_plug.
    + by rewrite IHa, IHb, !num_eval_plug.
Qed.

Definition samples0 : list (sample (T := Z)) := [mkSample 5 7 3 11 11; mkSample 2 (-4) 1 12 12].
Lemma split_training_is_baseline_training_witness :
  ∃ gl gf gb, leader_graph 1 = Ret gl ∧ follower_graph 1 = Ret gf ∧ baseline_graph = Ret gb ∧
  ∃ l f b : party (T := Z) (Slot := Z),
    split_train gl gf (map halves samples0)
      (start_party (g_vars gl), start_party (g_vars gf)) = Ret (l, f) ∧
    baseline_train gb (map both samples0) (start_party (g_vars gb)) = Ret b ∧
    (∀ n, n ∈ LEADER_VARS → p_vals l n = p_vals b n ∧ p_slots l n = p_slots b n) ∧
    (∀ n, n ∈ FOLLOWER_VARS → p_vals f n = p_vals b n ∧ p_slots f n = p_slots b n).
Proof.
  apply (split_training_is_baseline_training (T := Z) (Slot := Z) 1 samples0).
  intros _. repeat constructor.
Defined.

(** The variables move. *)
Example trained :
  match split_train (graph_l (SendIds true)) (graph_f (CompareIds true)) (map halves samples0)
          (start_party [w1l; b1l; w2; b2; fake], start_party [w1f; b1f]) with
  | Ret (l, f) =>
      map (p_vals l) LEADER_VARS = [-1139; -228; 1744366325; 1706742] ∧
      map (p_vals f) FOLLOWER_VARS = [5700771589; -1425193106]
  | Stop _ => False
  end.
Proof. vm_compute. done. Qed.
