(* ===== verification/MnistInput.v ===== *)
(** * The MNIST demo: from the joined blocks to the training steps

    [src/src/Trainer/fl_comm_libs/fl_ops.py]: the datasets over the operators of
    the trainer; [src/example/mnist_demo]: the input functions of the leader and
    the follower, those of the exported models, and the input function and driver
    of baseline.py.  TensorFlow's datasets and its parser of examples and the
    operators are interfaces with laws; a dataset is known by the elements that it
    gives and by the error at its end.  The models are those of [MnistModel]. *)

From stdpp Require Import base tactics list gmap strings.
From Stdlib Require Import ZArith Lia Ascii.
From S2P Require Import Prelude PyStd Messages Env RawData Trainer TrainerRun MnistModel.

Open Scope Z_scope.

(** ** [tf.data] *)

(** What a dataset gives: elements, then its end or an error. *)
Record stream (A : Type) := mkStream { st_items : list A; st_error : option exn }.
Arguments mkStream {_}.
Arguments st_items {_}.
Arguments st_error {_}.

(** The batch of a list of elements, by their type. *)
Class Collate (A B : Type) := collate : list A → B.
#[export] Instance collate_strings : Collate string (list string) := λ l, l.

(** [l] in groups of [n]; the last one may be shorter, or is dropped. *)
Fixpoint chunks_from {A} (fuel n : nat) (drop_remainder : bool) (l : list A) : list (list A) :=
  match fuel with
  | O => []
  | S k =>
      if decide (l = []) then []
      else if decide (length l < n)%nat then (if drop_remainder then [] else [l])
      else take n l :: chunks_from k n drop_remainder (drop n l)
  end.
Definition chunks {A} (n : nat) (drop_remainder : bool) (l : list A) : list (list A) :=
  chunks_from (length l) n drop_remainder l.

(** An error ends the batch that meets it. *)
Definition batch_stream {A B} `{Collate A B} (n : nat) (drop_remainder : bool) (s : stream A) : stream B :=
  mkStream (collate <$> chunks n (match st_error s with Some _ => true | None => drop_remainder end) (st_items s)) (st_error s).

Fixpoint map_items {A B} (f : A → outcome B) (l : list A) (e : option exn) : stream B :=
  match l with
  | [] => mkStream [] e
  | x :: l' =>
      match f x with
      | Ret y => let s := map_items f l' e in mkStream (y :: st_items s) (st_error s)
      | Stop (Raise e') => mkStream [] (Some e')
      | Stop _ => mkStream [] (Some GenericException)
      end
  end.
Definition map_stream {A B} (f : A → outcome B) (s : stream A) : stream B :=
  map_items f (st_items s) (st_error s).

(** The first of a pair is asked first. *)
Definition zip_stream {A B} (s : stream A) (t : stream B) : stream (A * B) :=
  mkStream (zip (st_items s) (st_items t))
    (if decide (length (st_items s) ≤ length (st_items t))%nat then st_error s else st_error t).

Definition repeat_stream {A} (count : Z) (s : stream A) : stream A :=
  match st_error s with
  | Some e => mkStream (st_items s) (Some e)
  | None => mkStream (concat (replicate (Z.to_nat count) (st_items s))) None
  end.

Class TfData (D : Type → Type) := {
  ds_prefetch {A} : Z → D A → D A;
  ds_map {A B} : (A → outcome B) → D A → D B;
  ds_zip {A B} : D A → D B → D (A * B)%type;
  ds_repeat {A} : Z → D A → D A;
  ds_batch {A B} `{Collate A B} : nat → bool → D A → D B;
  (** Specification view: what it gives. *)
  ds_stream {A} : D A → stream A;
}.
(** Without an end to the repetition ([count] below 0) there is no law. *)
Class TfDataLaws (D : Type → Type) `{TfData D} := {
  prefetch_law A k (d : D A) : ds_stream (ds_prefetch k d) = ds_stream d;
  map_law A B (f : A → outcome B) (d : D A) : ds_stream (ds_map f d) = map_stream f (ds_stream d);
  zip_law A B (d : D A) (d' : D B) : ds_stream (ds_zip d d') = zip_stream (ds_stream d) (ds_stream d');
  repeat_law A k (d : D A) : 0 ≤ k → ds_stream (ds_repeat k d) = repeat_stream k (ds_stream d);
  batch_law A B `{Collate A B} n b (d : D A) :
    (0 < n)%nat → ds_stream (ds_batch n b d) = batch_stream n b (ds_stream d);
}.

(** ** fl_ops.py *)

(** The operators of [_fl_ops.so], and [tf.data.TFRecordDataset], in a world [W]
    that holds the files. *)
Class FlOpsLib (D : Type → Type) (W : Type) := {
  fl_grpc_fetch_dataset : string → W → D string;
  fl_tf_record_dataset : D string → string → Z → W → D string;
  fl_text_line_dataset : D string → string → Z → W → D string;
  TFRecordDataset : list string → W → D string;
}.
(** Files that are there are read one after the other. *)
Class FlOpsLaws (D : Type → Type) (W : Type) `{TfData D} `{GFile W} `{FlOpsLib D W} := {
  fl_tf_record_law d (w : W) paths rss :
    ds_stream d = mkStream paths None → Forall2 (λ p rs, gf_files w !! p = Some rs) paths rss →
    ds_stream (fl_tf_record_dataset d "" 0 w) = mkStream (concat rss) None;
  tf_record_law (w : W) paths rss :
    Forall2 (λ p rs, gf_files w !! p = Some rs) paths rss →
    ds_stream (TFRecordDataset paths w) = mkStream (concat rss) None;
}.

Section datasets.
Context {D : Type → Type} {W : Type} `{FlOpsLib D W}.

(** The two datasets over a dataset of paths. *)
Record unary_dataset := mkUnary {
  ud_input : D string;
  ud_compression_type : string;
  ud_buffer_size : Z;
  ud_variant : D string;
}.
Definition FlGrpcFetchDataset (role : string) (w : W) : D string := fl_grpc_fetch_dataset role w.
Definition FlTFRecordDataset (input : D string) (compression_type : string) (buffer_size : Z) (w : W) :
    unary_dataset :=
  mkUnary input compression_type buffer_size (fl_tf_record_dataset input compression_type buffer_size w).
Definition FlTextLineDataset (input : D string) (compression_type : string) (buffer_size : Z) (w : W) :
    unary_dataset :=
  mkUnary input compression_type buffer_size (fl_text_line_dataset input compression_type buffer_size w).
End datasets.

(** ** Parsing examples *)
Inductive dtype := tf_string | tf_float32 | tf_int64.
Record FixedLenFeature := mkFixed { ff_shape : list Z; ff_dtype : dtype }.
Definition feature_map : Type := list (string * FixedLenFeature).

Class TfParse (T : Type) := {
  tf_parse_single_example : string → feature_map → outcome (list (string * T));
  tf_parse_example : list string → feature_map → outcome (list (string * T));
  (** The tensors of a batch. *)
  tf_stack : list T → T;
  tf_scalar_string : string → T;
  (** Specification view: the tensor of a feature of a record that has it with
      this shape and type. *)
  tf_feature : string → string → FixedLenFeature → option T;
}.

Definition SCALAR_STRING : FixedLenFeature := mkFixed [] tf_string.
(** [28*28/2] *)
Definition HALF : FixedLenFeature := mkFixed [392] tf_float32.
Definition SCALAR_INT : FixedLenFeature := mkFixed [] tf_int64.

Section parsed.
Context `{TfParse T}.
Definition parses (fm : feature_map) (r : string) : Prop :=
  Forall (λ kv, is_Some (tf_feature r kv.1 kv.2)) fm.
Definition row (fm : feature_map) (r : string) : list (string * T) :=
  omap (λ kv, pair kv.1 <$> tf_feature r kv.1 kv.2) fm.
(** The column of a feature in a batch of records. *)
Definition column (n : string) (f : FixedLenFeature) (rs : list string) : T :=
  tf_stack (omap (λ r, tf_feature r n f) rs).
End parsed.

(** Every record must have every feature. *)
Class TfParseLaws (T : Type) `{TfParse T} `{TFExample} := {
  parse_single_law fm r : parses fm r → tf_parse_single_example r fm = Ret (row fm r);
  parse_single_fails fm r : ¬ parses fm r → tf_parse_single_example r fm = raise InvalidArgumentError;
  parse_batch_law fm rs :
    Forall (parses fm) rs → tf_parse_example rs fm = Ret (map (λ kv, (kv.1, column kv.1 kv.2 rs)) fm);
  parse_batch_fails fm rs :
    ¬ Forall (parses fm) rs → tf_parse_example rs fm = raise InvalidArgumentError;
  scalar_string_law r n feats b :
    parse_example r = Some feats → feats n = BytesList [b] →
    tf_feature r n SCALAR_STRING = Some (tf_scalar_string b);
}.

(** Examples with a label: the tensors of each feature are stacked. *)
#[export] Instance collate_examples `{TfParse T} :
    Collate (list (string * T) * T) (list (string * T) * T) := λ l,
  (match l with
   | [] => []
   | (x, _) :: _ => map (λ k, (k, tf_stack (omap (λ y, Dict.get k y.1) l))) (Dict.keys x)
   end, tf_stack l.*2).

(** ** The input functions *)

(** [d[k]] and [d.pop(k)] *)
Definition feature_value {V} (k : string) (d : list (string * V)) : outcome V :=
  match Dict.get k d with Some v => Ret v | None => raise KeyError end.
Definition dict_pop {V} (k : string) (d : list (string * V)) : outcome (V * list (string * V)) :=
  match Dict.get k d with
  | Some v => Ret (v, filter (λ kv, kv.1 ≠ k) d)
  | None => raise KeyError
  end.

Fixpoint contains (p s : string) : bool :=
  Str.startswith p s || match s with String _ s' => contains p s' | EmptyString => false end.

Section input_fns.
Context {D : Type → Type} {W T : Type} `{TfData D} `{GFile W} `{FlOpsLib D W} `{TfParse T}.
Local Abbreviation features := (list (string * T)).

(** What an input function puts in the graph: the dataset behind [get_next], and
    what is computed from a batch of it. *)
Record pipeline := mkPipeline {
  pl_dataset : D (list string);
  pl_parse : list string → outcome (features * features);
}.

Definition leader_feature_map : feature_map :=
  [("example_id", SCALAR_STRING); ("x", HALF); ("y", SCALAR_INT)].
Definition leader_input_fn (role : string) (w : W) : pipeline :=
  let grpc_ds := ds_prefetch 3 (FlGrpcFetchDataset role w) in
  let dataset := ds_batch 128 true (ds_prefetch 512 (ud_variant (FlTFRecordDataset grpc_ds "" 0 w))) in
  mkPipeline dataset (λ tfrecord_data,
    features ← tf_parse_example tfrecord_data leader_feature_map;
    '(y, features) ← dict_pop "y" features;
    Ret (features, [("y", y)])).

Definition follower_feature_map : feature_map := [("example_id", SCALAR_STRING); ("x", HALF)].
Definition follower_input_fn (role : string) (w : W) : pipeline :=
  let grpc_ds := ds_prefetch 3 (FlGrpcFetchDataset role w) in
  let dataset := ds_batch 128 true (ds_prefetch 512 (ud_variant (FlTFRecordDataset grpc_ds "" 0 w))) in
  mkPipeline dataset (λ tfrecord_data,
    features ← tf_parse_example tfrecord_data follower_feature_map;
    Ret (features, [])).

(** *** baseline.py *)
Definition l_feature_map : feature_map :=
  [("x", HALF); ("y", SCALAR_INT); ("example_id", SCALAR_STRING)].
Definition f_feature_map : feature_map := [("x", HALF); ("example_id", SCALAR_STRING)].

Definition tfrecord_files (data_dir : string) : M W (list string) :=
  names ← gf_list_directory data_dir;
  mret (py_sort Str.leb (Str.path_join data_dir <$> filter (λ f, contains "tfrecord" f = true) names)).
Definition load_dataset (data_dir : string) (fm : feature_map) : M W (D features) :=
  files ← tfrecord_files data_dir;
  w ← getM;
  mret (ds_map (λ proto, tf_parse_single_example proto fm) (TFRecordDataset files w)).

Definition pair_up (d : features * features) : outcome (features * T) :=
  let '(l_data, f_data) := d in
  xl ← feature_value "x" l_data;
  xf ← feature_value "x" f_data;
  y ← feature_value "y" l_data;
  Ret ([("xl", xl); ("xf", xf)], y).
Definition baseline_input_fn (l_dir f_dir : string) (batch_size : nat) (num_epochs : Z) :
    M W (D (features * T)) :=
  l_ds ← load_dataset l_dir l_feature_map;
  f_ds ← load_dataset f_dir f_feature_map;
  mret (ds_batch batch_size false (ds_repeat num_epochs (ds_map pair_up (ds_zip l_ds f_ds)))).
End input_fns.

(** ** Training on the pipelines *)
Section training.
Context {D : Type → Type} {W T Slot : Type}.
Context `{TfData D} `{GFile W} `{FlOpsLib D W} `{TfParse T} `{TF T Slot}.
Local Abbreviation features := (list (string * T)).

(** The values that a step feeds to the inputs of a graph of [MnistModel]. *)
Definition leader_feed (d : features * features) : outcome batch :=
  x ← feature_value "x" d.1; ids ← feature_value "example_id" d.1; y ← feature_value "y" d.2;
  Ret (mkBatch ids [("xl", x); ("y", y)]).
Definition follower_feed (d : features * features) : outcome batch :=
  x ← feature_value "x" d.1; ids ← feature_value "example_id" d.1;
  Ret (mkBatch ids [("xf", x)]).
Definition baseline_feed (d : features * T) : outcome features :=
  xl ← feature_value "xl" d.1; xf ← feature_value "xf" d.1;
  Ret [("xl", xl); ("xf", xf); ("y", d.2)].

(** Both sessions: each step of the two takes the next batch of each side; a
    session ends when its dataset does, and the other one waits for it then. *)
Section session.
Context (gl gf : graph) (parse_l parse_f : list string → outcome (features * features)).
Fixpoint train_batches (ls fs : list (list string)) (e_l e_f : option exn)
    (s : party (T := T) (Slot := Slot) * party (T := T) (Slot := Slot)) : outcome (party * party) :=
  match ls, fs with
  | l :: ls', f :: fs' =>
      bl ← (d ← parse_l l; leader_feed d);
      bf ← (d ← parse_f f; follower_feed d);
      s' ← split_step gl gf (bl, bf) s;
      train_batches ls' fs' e_l e_f s'
  | [], [] =>
      match e_l, e_f with
      | None, None => Ret s
      | Some e, _ | None, Some e => raise e
      end
  | [], _ :: _ => match e_l with Some e => raise e | None => Stop NoFuel end
  | _ :: _, [] => match e_f with Some e => raise e | None => Stop NoFuel end
  end.
End session.

Definition fl_train (gl gf : graph) (pl pf : pipeline (D := D) (T := T))
    (s : party (T := T) (Slot := Slot) * party (T := T) (Slot := Slot)) : outcome (party * party) :=
  let sl := ds_stream (pl_dataset pl) in
  let sf := ds_stream (pl_dataset pf) in
  train_batches gl gf (pl_parse pl) (pl_parse pf) (st_items sl) (st_items sf) (st_error sl) (st_error sf) s.

(** [estimator.train(input_fn)] of the baseline *)
Fixpoint estimate (g : graph) (ds : list (features * T)) (e : option exn)
    (p : party (T := T) (Slot := Slot)) : outcome party :=
  match ds with
  | [] => match e with None => Ret p | Some e => raise e end
  | d :: ds' => b ← baseline_feed d; p' ← baseline_step g b p; estimate g ds' e p'
  end.

(** [run_estimator]; the directory of the model, with its checkpoints, is apart
    from the data. *)
Record driver (X : Type) := mkDriver { dr_dirs : X; dr_data : W }.
Arguments mkDriver {_}.
Arguments dr_dirs {_}.
Arguments dr_data {_}.
Definition run_estimator {X} `{RunFs X} (data_dir : string) (n_epoch : Z) : M (driver X) party :=
  let l_train := Str.path_join data_dir "leader_train" in
  let f_train := Str.path_join data_dir "follower_train" in
  zoom dr_dirs (λ x d, mkDriver x (dr_data d)) (rm_dir "model_baseline");;
  ds ← zoom dr_data (λ w d, mkDriver (dr_dirs d) w) (baseline_input_fn (D := D) l_train f_train 128 n_epoch);
  g ← liftO baseline_graph;
  let s := ds_stream ds in
  liftO (estimate g (st_items s) (st_error s) (start_party (g_vars g))).
End training.
Arguments mkDriver {_ _}.
Arguments dr_dirs {_ _}.
Arguments dr_data {_ _}.

(** ** Groups of a list *)
Section chunks.
Context {A : Type} (n : nat) (Hn : (0 < n)%nat).

Lemma chunks_from_more k k' b (l : list A) :
  (length l ≤ k)%nat → (length l ≤ k')%nat → chunks_from k n b l = chunks_from k' n b l.
Proof.
  revert k' l. induction k as [|k IH]; intros [|k'] l Hk Hk'; cbn; try done.
  - destruct l; [done|cbn in Hk; lia].
  - destruct l; [done|cbn in Hk'; lia].
  - case_decide as Hl; [done|]. case_decide as Hs; [done|]. f_equal.
    assert (length l ≠ 0%nat) by (by destruct l).
    apply IH; rewrite length_drop; lia.
Qed.

Lemma chunks_nil b : chunks n b (@nil A) = [].
Proof. done. Qed.
Lemma chunks_short b (l : list A) :
  l ≠ [] → (length l < n)%nat → chunks n b l = if b then [] else [l].
Proof.
  intros Hl Hs. unfold chunks. destruct l as [|x l]; [done|]. cbn [length chunks_from].
  by rewrite decide_False, decide_True.
Qed.
Lemma chunks_step b (l : list A) :
  (n ≤ length l)%nat → chunks n b l = take n l :: chunks n b (drop n l).
Proof.
  intros Hl. unfold chunks. destruct l as [|x l]; [cbn in Hl; lia|].
  cbn [length chunks_from] in *. rewrite decide_False, decide_False by (done || lia).
  f_equal. apply chunks_from_more; rewrite length_drop; cbn; lia.
Qed.

(** The three cases of a list, each group shorter than what it is cut from. *)
Lemma chunks_ind (P : list A → Prop) :
  P [] → (∀ l, l ≠ [] → (length l < n)%nat → P l) →
  (∀ l, (n ≤ length l)%nat → P (drop n l) → P l) → ∀ l, P l.
Proof.
  intros H0 H1 H2 l. induction l as [l IH] using (well_founded_induction (well_founded_ltof _ length)).
  destruct (decide (l = [])) as [->|Hl]; [done|].
  destruct (decide (length l < n)%nat) as [Hs|Hs]; [by apply H1|]. apply H2; [lia|].
  apply IH. unfold ltof. rewrite length_drop. destruct l; [done|]. cbn. lia.
Qed.

Lemma chunks_Forall (P : A → Prop) b l : Forall P l → Forall (Forall P) (chunks n b l).
Proof.
  induction l as [|l Hl Hs|l Hl IH] using chunks_ind; intros HP.
  - constructor.
  - rewrite chunks_short by done. destruct b; by repeat constructor.
  - rewrite chunks_step by done. constructor; [by apply Forall_take|by apply IH, Forall_drop].
Qed.
Lemma chunks_not_nil b (l : list A) : Forall (λ c : list A, c ≠ []) (chunks n b l).
Proof.
  induction l as [|l Hl Hs|l Hl IH] using chunks_ind.
  - constructor.
  - rewrite chunks_short by done. destruct b; by repeat constructor.
  - rewrite chunks_step by done. constructor; [|done].
    intros Ht%(f_equal length). rewrite length_take in Ht. cbn in Ht. lia.
Qed.

(** Dropping the remainder drops at most one group. *)
Lemma chunks_remainder (l : list A) :
  ∃ rest, chunks n false l = chunks n true l ++ rest ∧
    length rest = (if decide (length l mod n = 0)%nat then 0 else 1)%nat.
Proof.
  induction l as [|l Hl Hs|l Hl (rest & IH & Hr)] using chunks_ind.
  - exists []. rewrite decide_True; [done|]. cbn. apply Nat.Div0.mod_0_l.
  - exists [l]. rewrite !chunks_short by done. split; [done|].
    rewrite decide_False; [done|]. rewrite Nat.mod_small by done. by intros ->%length_zero_iff_nil.
  - exists rest. rewrite (chunks_step false), (chunks_step true) by done. split; [cbn; by rewrite IH|]. rewrite Hr, length_drop.
    replace (length l mod n)%nat with ((length l - n) mod n)%nat; [done|].
    rewrite <- (Nat.Div0.mod_add (length l - n) 1 n). f_equal. lia.
Qed.
Lemma length_chunks (l : list A) : length (chunks n true l) = (length l / n)%nat.
Proof.
  induction l as [|l Hl Hs|l Hl IH] using chunks_ind.
  - symmetry. apply Nat.Div0.div_0_l.
  - rewrite chunks_short by done. symmetry. by apply Nat.div_small.
  - rewrite chunks_step by done. cbn [length]. rewrite IH, length_drop.
    replace (length l) with ((length l - n) + 1 * n)%nat at 2 by lia.
    rewrite Nat.div_add by lia. lia.
Qed.
End chunks.

Lemma chunks_fmap {A B} (f : A → B) n b (l : list A) :
  (0 < n)%nat → chunks n b (f <$> l) = (λ c : list A, f <$> c) <$> chunks n b l.
Proof.
  intros Hn. induction l as [|l Hl Hs|l Hl IH] using (chunks_ind n Hn).
  - done.
  - rewrite !chunks_short; [by destruct b|done|done| |by rewrite length_fmap].
    by destruct l.
  - rewrite (chunks_step n Hn b l) by done. rewrite chunks_step by (done || by rewrite length_fmap).
    by rewrite <- fmap_take, <- fmap_drop, IH.
Qed.

Lemma omap_total {A B} (f : A → option B) (d : B) l :
  Forall (λ x, is_Some (f x)) l → omap f l = (λ x, default d (f x)) <$> l.
Proof. induction 1 as [|x l [y Hy] Hl IH]; cbn; [done|]. by rewrite Hy, IH. Qed.

(** ** The records of the same examples on both sides *)
Section aligned.
Context {D : Type → Type} {T Slot : Type}.
Context `{TfDataLaws D} `{TfParseLaws T} `{TF T Slot}.

(** A pair of records that both sides can train on, of the same example. *)
Definition aligned (p : string * string) : Prop :=
  parses leader_feature_map p.1 ∧ parses follower_feature_map p.2 ∧
  tf_feature p.1 "example_id" SCALAR_STRING = tf_feature p.2 "example_id" SCALAR_STRING.

Definition sample_of (ps : list (string * string)) : sample :=
  mkSample (column "x" HALF ps.*1) (column "x" HALF ps.*2) (column "y" SCALAR_INT ps.*1)
    (column "example_id" SCALAR_STRING ps.*1) (column "example_id" SCALAR_STRING ps.*2).

Lemma aligned_leader ps : Forall aligned ps → Forall (parses leader_feature_map) ps.*1.
Proof. intros Ha. apply Forall_fmap. eapply Forall_impl; [exact Ha|]. by intros p (Hl & _). Qed.
Lemma aligned_follower ps : Forall aligned ps → Forall (parses follower_feature_map) ps.*2.
Proof. intros Ha. apply Forall_fmap. eapply Forall_impl; [exact Ha|]. by intros p (_ & Hf & _). Qed.

(** What the two sides feed is the two halves of one sample, with the same ids. *)
Lemma leader_fed {W} `{FlOpsLib D W} role (w : W) ps :
  Forall aligned ps →
  (d ← pl_parse (leader_input_fn (D := D) role w) ps.*1; leader_feed d) = Ret (halves (sample_of ps)).1.
Proof.
  intros Ha. unfold leader_input_fn. cbn [pl_parse].
  rewrite parse_batch_law by by apply aligned_leader. reflexivity.
Qed.
Lemma follower_fed {W} `{FlOpsLib D W} role (w : W) ps :
  Forall aligned ps →
  (d ← pl_parse (follower_input_fn (D := D) role w) ps.*2; follower_feed d) = Ret (halves (sample_of ps)).2.
Proof.
  intros Ha. unfold follower_input_fn. cbn [pl_parse].
  rewrite parse_batch_law by by apply aligned_follower. reflexivity.
Qed.
Lemma aligned_ids ps :
  Forall aligned ps → column "example_id" SCALAR_STRING ps.*1 = column "example_id" SCALAR_STRING ps.*2.
Proof.
  intros Ha. unfold column. f_equal. induction Ha as [|p ps (_ & _ & He) Ha IH]; cbn; [done|].
  by rewrite He, IH.
Qed.

Lemma train_batches_run {W W'} `{FlOpsLib D W} `{FlOpsLib D W'} role_l role_f (w : W) (w' : W') gl gf pss : ∀ s,
  Forall (Forall aligned) pss →
  train_batches gl gf (pl_parse (leader_input_fn (D := D) role_l w))
    (pl_parse (follower_input_fn (D := D) role_f w')) ((λ ps, ps.*1) <$> pss) ((λ ps, ps.*2) <$> pss) None None s
  = split_train gl gf (map halves (sample_of <$> pss)) s.
Proof.
  induction pss as [|ps pss IH]; intros s Ha; [done|]. apply Forall_cons in Ha as [Hp Ha].
  cbn [fmap list_fmap train_batches map split_train].
  rewrite (leader_fed role_l w ps Hp), bind_Ret, (follower_fed role_f w' ps Hp), bind_Ret.
  change ((halves (sample_of ps)).1, (halves (sample_of ps)).2) with (halves (sample_of ps)).
  destruct (split_step gl gf (halves (sample_of ps)) s) as [s'|]; [|done]. exact (IH s' Ha).
Qed.

(** The value of a feature that is there. *)
Definition value (r n : string) (f : FixedLenFeature) : T :=
  default (tf_scalar_string "") (tf_feature r n f).
Definition baseline_row (p : string * string) : list (string * T) * T :=
  ([("xl", value p.1 "x" HALF); ("xf", value p.2 "x" HALF)], value p.1 "y" SCALAR_INT).

Lemma parses_value fm r n f :
  parses fm r → (n, f) ∈ fm → tf_feature r n f = Some (value r n f).
Proof.
  intros Hp Hin. unfold value. destruct (proj1 (Forall_forall _ _) Hp (n, f) Hin) as [x Hx].
  cbn in Hx. by rewrite Hx.
Qed.

Lemma column_values fm n f rs :
  Forall (parses fm) rs → (n, f) ∈ fm → column n f rs = tf_stack ((λ r, value r n f) <$> rs).
Proof.
  intros Hp Hin. unfold column. rewrite (omap_total _ (tf_scalar_string "")); [done|].
  eapply Forall_impl; [exact Hp|]. intros r Hr. rewrite (parses_value fm) by done. by eexists.
Qed.

(** The rows of the baseline, from the same records. *)
Lemma pair_up_run p :
  aligned p → parses l_feature_map p.1 ∧ parses f_feature_map p.2 ∧
  pair_up (row l_feature_map p.1, row f_feature_map p.2) = Ret (baseline_row p).
Proof.
  intros (Hl & Hf & _).
  assert (parses l_feature_map p.1) as Hl'.
  { apply Forall_forall. intros kv Hkv. eapply (proj1 (Forall_forall _ _) Hl). revert Hkv.
    rewrite !list_elem_of_In. cbn. tauto. }
  assert (parses f_feature_map p.2) as Hf'.
  { apply Forall_forall. intros kv Hkv. eapply (proj1 (Forall_forall _ _) Hf). revert Hkv.
    rewrite !list_elem_of_In. cbn. tauto. }
  split_and!; [done|done|]. unfold row, l_feature_map, f_feature_map. cbn [omap list_omap fst snd].
  rewrite !(parses_value l_feature_map p.1), !(parses_value f_feature_map p.2);
    try done; apply list_elem_of_In; cbn; tauto.
Qed.

Lemma baseline_batch_fed ps :
  Forall aligned ps → ps ≠ [] → baseline_feed (collate (baseline_row <$> ps)) = Ret (both (sample_of ps)).
Proof.
  intros Ha Hne. unfold both, sample_of. cbn [s_xl s_xf s_y].
  rewrite (column_values leader_feature_map "x" HALF ps.*1), (column_values leader_feature_map "y"),
    (column_values follower_feature_map "x"); try (apply list_elem_of_In; cbn; tauto);
    try by (apply aligned_leader || apply aligned_follower).
  assert (∀ n (g : string * string → T) (qs : list (string * string)), (∀ q, Dict.get n (baseline_row q).1 = Some (g q)) →
    omap (λ y, Dict.get n y.1) (baseline_row <$> qs) = g <$> qs) as Hcol.
  { intros n g qs Hg. induction qs as [|q qs IH]; [done|]. cbn in *. by rewrite Hg, IH. }
  assert (collate (baseline_row <$> ps) =
    ([("xl", tf_stack (omap (λ y, Dict.get "xl" y.1) (baseline_row <$> ps)));
      ("xf", tf_stack (omap (λ y, Dict.get "xf" y.1) (baseline_row <$> ps)))],
     tf_stack (baseline_row <$> ps).*2)) as -> by (by destruct ps).
  rewrite (Hcol "xl" (λ q, value q.1 "x" HALF)), (Hcol "xf" (λ q, value q.2 "x" HALF)) by done.
  rewrite <- !list_fmap_compose. reflexivity.
Qed.

Lemma map_items_total {A B} (f : A → outcome B) (g : A → B) l e :
  Forall (λ x, f x = Ret (g x)) l → map_items f l e = mkStream (g <$> l) e.
Proof. induction 1 as [|x l Hx Hl IH]; cbn; [done|]. by rewrite Hx, IH. Qed.
Lemma concat_replicate_fmap {A B} (f : A → B) k l :
  concat (replicate k (f <$> l)) = f <$> concat (replicate k l).
Proof. induction k as [|k IH]; cbn; [done|]. by rewrite fmap_app, IH. Qed.
Lemma zip_pairs {A B A' B'} (f : A → A') (g : B → B') (ps : list (A * B)) :
  zip (f <$> ps.*1) (g <$> ps.*2) = (λ p, (f p.1, g p.2)) <$> ps.
Proof. induction ps as [|p ps IH]; cbn; [done|]. f_equal. exact IH. Qed.

(** The directory [dir] holds the TFRecord files with these records, in the order
    of their names. *)
Definition holds_records {W} `{GFile W} (w : W) (dir : string) (rs : list string) : Prop :=
  ∃ files rss, tfrecord_files dir w = (Ret files, w) ∧
    Forall2 (λ p rs, gf_files w !! p = Some rs) files rss ∧ concat rss = rs.

Lemma load_dataset_run {W} `{GFile W} `{!FlOpsLib D W} `{!FlOpsLaws D W} dir fm rs (w : W) :
  holds_records w dir rs → Forall (parses fm) rs →
  ∃ d, load_dataset (D := D) dir fm w = (Ret d, w) ∧ ds_stream d = mkStream (row fm <$> rs) None.
Proof.
  intros (files & rss & Hf & Hr & Hrs) Hp. unfold load_dataset.
  rewrite (run_bind_ret _ _ _ _ _ Hf). eexists. split; [reflexivity|].
  rewrite map_law, (tf_record_law w files rss) by done. rewrite Hrs. unfold map_stream. cbn.
  apply map_items_total. eapply Forall_impl; [exact Hp|]. intros r. apply parse_single_law.
Qed.

Lemma baseline_input_run {W} `{GFile W} `{!FlOpsLib D W} `{!FlOpsLaws D W} l_dir f_dir n_epoch ps (w : W) :
  Forall aligned ps → 0 ≤ n_epoch → holds_records w l_dir ps.*1 → holds_records w f_dir ps.*2 →
  ∃ d, baseline_input_fn (D := D) l_dir f_dir 128 n_epoch w = (Ret d, w) ∧
    ds_stream d = mkStream ((λ c, collate (baseline_row <$> c))
                    <$> chunks 128 false (concat (replicate (Z.to_nat n_epoch) ps))) None.
Proof.
  intros Ha Hn Hl Hf. unfold baseline_input_fn.
  destruct (load_dataset_run l_dir l_feature_map ps.*1 w Hl) as (dl & Edl & Sl).
  { apply Forall_fmap. eapply Forall_impl; [exact Ha|]. by intros p (? & _)%pair_up_run. }
  destruct (load_dataset_run f_dir f_feature_map ps.*2 w Hf) as (df & Edf & Sf).
  { apply Forall_fmap. eapply Forall_impl; [exact Ha|]. by intros p (_ & ? & _)%pair_up_run. }
  rewrite (run_bind_ret _ _ _ _ _ Edl), (run_bind_ret _ _ _ _ _ Edf).
  eexists. split; [reflexivity|].
  rewrite batch_law, repeat_law, map_law, zip_law, Sl, Sf by (done || lia).
  unfold zip_stream, map_stream. cbn [st_items st_error]. rewrite zip_pairs.
  rewrite (decide_True (P := (_ ≤ _)%nat)) by (by rewrite !length_fmap).
  replace (map_items pair_up _ None) with (mkStream (baseline_row <$> ps) None).
  - unfold repeat_stream, batch_stream. cbn [st_items st_error].
    rewrite concat_replicate_fmap, chunks_fmap by lia. by rewrite <- list_fmap_compose.
  - symmetry. rewrite (map_items_total _ (λ d, match pair_up d with Ret r => r | Stop _ => ([], tf_scalar_string "") end)).
    + f_equal. rewrite <- list_fmap_compose. apply list_fmap_ext.
      intros i p Hp%list_elem_of_lookup_2. unfold compose.
      by rewrite (proj2 (proj2 (pair_up_run p (proj1 (Forall_forall _ _) Ha p Hp)))).
    + apply Forall_fmap. eapply Forall_impl; [exact Ha|]. intros p (_ & _ & Hp)%pair_up_run.
      unfold compose. by rewrite Hp.
Qed.

Lemma estimate_run g pss : ∀ p,
  Forall (Forall aligned) pss → Forall (λ c : list (string * string), c ≠ []) pss →
  estimate g ((λ c, collate (baseline_row <$> c)) <$> pss) None p
  = baseline_train g (map both (sample_of <$> pss)) p.
Proof.
  induction pss as [|ps pss IH]; intros p Ha Hne; [done|]. apply Forall_cons in Ha as [Hp Ha].
  apply Forall_cons in Hne as [Hps Hne]. cbn [fmap list_fmap estimate map baseline_train].
  rewrite baseline_batch_fed, bind_Ret by done.
  destruct (baseline_step g (both (sample_of ps)) p) as [p'|]; [|done]. exact (IH p' Ha Hne).
Qed.
End aligned.

(** ** Properties *)
Section properties.
Context {D : Type → Type} {T Slot : Type}.
Context `{TfDataLaws D} `{TfParseLaws T} `{!TF T Slot} `{!TFLaws T Slot}.
Context (tf_assert_equal_refl : ∀ x : T, tf_assert_equal x x = true).
(** The processes of the leader and of the follower, and the one of the baseline. *)
Context {WL WF WB X : Type} `{!GFile WL} `{!GFile WF} `{!GFile WB} `{!RunFs X}.
Context `{!FlOpsLib D WL} `{!FlOpsLib D WF} `{!FlOpsLib D WB}.
Context `{!FlOpsLaws D WL} `{!FlOpsLaws D WF} `{!FlOpsLaws D WB}.

(** A side is handed the files [paths], once for each epoch, and the file of a
    block holds that side's records of the block's ids: what the data join leaves
    ([data_join_aligns_blocks]). *)
Definition handed {W} `{GFile W} `{FlOpsLib D W} (role : string) (items : list (pyid * string))
    (n_epoch : Z) (blocks : list (list string)) (w : W) : Prop :=
  ∃ paths, ds_stream (fl_grpc_fetch_dataset role w)
             = mkStream (concat (replicate (Z.to_nat n_epoch) paths)) None ∧
    Forall2 (λ p ids, gf_files w !! p = Some (record_of items <$> ids)) paths blocks.

(** The record that [items] has for [id] is an example of that id with the
    features of [fm]. *)
Definition trainable (fm : feature_map) (items : list (pyid * string)) (id : string) : Prop :=
  parses fm (record_of items id) ∧
  ∃ feats, parse_example (record_of items id) = Some feats ∧ feats "example_id" = BytesList [id].

Lemma handed_run {W} `{!GFile W} `{!FlOpsLib D W} `{!FlOpsLaws D W} role items n_epoch blocks (w : W) :
  handed role items n_epoch blocks w →
  ds_stream (ds_batch 128 true (ds_prefetch 512 (ud_variant (FlTFRecordDataset
    (ds_prefetch 3 (FlGrpcFetchDataset role w)) "" 0 w))))
  = mkStream (chunks 128 true (record_of items <$> concat (replicate (Z.to_nat n_epoch) (concat blocks)))) None.
Proof.
  intros (paths & Hs & Hf). unfold FlTFRecordDataset, FlGrpcFetchDataset. cbn [ud_variant].
  set (k := Z.to_nat n_epoch) in *.
  rewrite batch_law, prefetch_law by lia.
  rewrite (fl_tf_record_law _ w (concat (replicate k paths))
    (concat (replicate k ((λ ids : list string, record_of items <$> ids) <$> blocks)))).
  - unfold batch_stream. cbn [st_items st_error]. f_equal. rewrite (list_fmap_id (chunks _ _ _)). f_equal.
    clear Hs. induction k as [|k IH]; cbn; [done|]. rewrite concat_app, fmap_app, IH. f_equal.
    clear. induction blocks as [|ids blocks IH]; cbn; [done|]. by rewrite fmap_app, IH.
  - by rewrite prefetch_law.
  - clear Hs. induction k as [|k IH]; cbn; [constructor|]. apply Forall2_app; [|done].
    by apply Forall2_fmap_r.
Qed.

(** Every step of the baseline is a step. *)
Lemma baseline_step_run gb inputs (p : party (T := T) (Slot := Slot)) :
  baseline_graph = Ret gb → ∃ p', baseline_step gb inputs p = Ret p' ∧ p_steps p' = S (p_steps p).
Proof. rewrite baseline_is_plugged. intros [= <-]. by eexists. Qed.
Lemma baseline_train_run gb samples : baseline_graph = Ret gb → ∀ p : party (T := T) (Slot := Slot),
  ∃ p', baseline_train gb (map both samples) p = Ret p' ∧ p_steps p' = (p_steps p + length samples)%nat.
Proof.
  intros Hg. induction samples as [|s samples IH]; intros p.
  { exists p. by rewrite Nat.add_0_r. }
  cbn [map baseline_train]. destruct (baseline_step_run gb (both s) p Hg) as (p1 & -> & Hs1).
  destruct (IH p1) as (p' & Hp' & Hs). exists p'. split; [exact Hp'|]. rewrite Hs, Hs1. cbn. lia.
Qed.
Lemma baseline_train_app (gb : graph) l1 l2 : ∀ p p' : party (T := T) (Slot := Slot),
  baseline_train gb l1 p = Ret p' → baseline_train gb (l1 ++ l2) p = baseline_train gb l2 p'.
Proof.
  induction l1 as [|b l1 IH]; intros p p'; cbn; [by intros [= ->]|].
  destruct (baseline_step gb b p) as [p1|]; [exact (IH p1 p')|done].
Qed.

Definition record_pair (items_l items_f : list (pyid * string)) (id : string) : string * string :=
  (record_of items_l id, record_of items_f id).
Lemma trainable_aligned items_l items_f id :
  trainable leader_feature_map items_l id → trainable follower_feature_map items_f id →
  aligned (record_pair items_l items_f id).
Proof.
  intros [Hl (fl & El & Il)] [Hf (ff & Ef & If)]. split_and!; [done|done|]. cbn.
  by rewrite (scalar_string_law _ _ _ _ El Il), (scalar_string_law _ _ _ _ Ef If).
Qed.
Lemma pairs_left items_l items_f ids : (record_pair items_l items_f <$> ids).*1 = record_of items_l <$> ids.
Proof. by rewrite <- list_fmap_compose. Qed.
Lemma pairs_right items_l items_f ids : (record_pair items_l items_f <$> ids).*2 = record_of items_f <$> ids.
Proof. by rewrite <- list_fmap_compose. Qed.

(** The sessions of the two sides are the training of the samples that the pairs
    of records make. *)
Lemma fl_train_run items_l items_f n_epoch blocks (wl : WL) (wf : WF) gl gf s :
  handed "leader" items_l n_epoch blocks wl → handed "follower" items_f n_epoch blocks wf →
  let ps := record_pair items_l items_f <$> concat (replicate (Z.to_nat n_epoch) (concat blocks)) in
  Forall aligned ps →
  fl_train gl gf (leader_input_fn (D := D) "leader" wl) (follower_input_fn (D := D) "follower" wf) s
  = split_train gl gf (map halves (sample_of <$> chunks 128 true ps)) s.
Proof.
  intros Hl Hf ps Ha. unfold fl_train.
  pose proof (handed_run "leader" items_l n_epoch blocks wl Hl) as El.
  pose proof (handed_run "follower" items_f n_epoch blocks wf Hf) as Ef.
  replace (ds_stream (pl_dataset (leader_input_fn (D := D) (T := T) "leader" wl))) with
    (mkStream (chunks 128 true (ps.*1)) None) by (unfold ps; by rewrite pairs_left).
  replace (ds_stream (pl_dataset (follower_input_fn (D := D) (T := T) "follower" wf))) with
    (mkStream (chunks 128 true (ps.*2)) None) by (unfold ps; by rewrite pairs_right).
  cbn [st_items st_error].
  rewrite !chunks_fmap by lia. apply train_batches_run. apply chunks_Forall; [lia|done].
Qed.

(** Both sessions train to the end, one step for each full batch of 128 of the
    [examples], the check of example ids passes whether it is on or off, and the
    variables of the two halves are those of the baseline after as many steps.  When
    the examples fill their batches, that is what the driver of the baseline ends with;
    otherwise it takes one step more, on the examples that do not fill a batch, which
    the two sides drop. *)
Definition trains_like_the_baseline (c n_epoch : Z) (examples : nat) (wl : WL) (wf : WF)
    (data_dir : string) (d : driver (W := WB) X) (x' : X) : Prop :=
  ∃ gl gf gb (l f b : party (T := T) (Slot := Slot)) last,
    leader_graph c = Ret gl ∧ follower_graph c = Ret gf ∧ baseline_graph = Ret gb ∧
    fl_train gl gf (leader_input_fn (D := D) "leader" wl) (follower_input_fn (D := D) "follower" wf)
      (start_party (g_vars gl), start_party (g_vars gf)) = Ret (l, f) ∧
    agree l f b ∧ p_steps b = (examples / 128)%nat ∧
    run_estimator (D := D) data_dir n_epoch d
    = (baseline_train gb (map both last) b, mkDriver x' (dr_data d)) ∧
    length last = (if decide (examples mod 128 = 0)%nat then 0 else 1)%nat ∧
    ((examples mod 128 = 0)%nat →
     run_estimator (D := D) data_dir n_epoch d = (Ret b, mkDriver x' (dr_data d))).

(** From the blocks of the data join, training in two halves is training in one
    place: both sides are handed the files of the same blocks, in the same order
    and for as many epochs; each file holds that side's records of the block's ids,
    as the join leaves them; the baseline reads directories with the same
    records. *)
Theorem joined_blocks_train_like_the_baseline c n_epoch items_l items_f blocks (wl : WL) (wf : WF)
    data_dir (d : driver (W := WB) X) x' :
  0 ≤ n_epoch →
  handed "leader" items_l n_epoch blocks wl → handed "follower" items_f n_epoch blocks wf →
  (∀ id, id ∈ concat blocks →
     trainable leader_feature_map items_l id ∧ trainable follower_feature_map items_f id) →
  holds_records (dr_data d) (Str.path_join data_dir "leader_train") (record_of items_l <$> concat blocks) →
  holds_records (dr_data d) (Str.path_join data_dir "follower_train") (record_of items_f <$> concat blocks) →
  rm_dir "model_baseline" (dr_dirs d) = (Ret tt, x') →
  trains_like_the_baseline c n_epoch (Z.to_nat n_epoch * length (concat blocks)) wl wf data_dir d x'.
Proof.
  intros Hn Hl Hf Ht Dl Df Hx. set (k := Z.to_nat n_epoch).
  set (examples := (k * length (concat blocks))%nat). unfold trains_like_the_baseline.
  set (ids := concat (replicate k (concat blocks))).
  set (ps1 := record_pair items_l items_f <$> concat blocks).
  assert (Forall aligned ps1) as Ha1.
  { apply Forall_fmap, Forall_forall. intros id Hid. destruct (Ht id Hid). by apply trainable_aligned. }
  assert (record_pair items_l items_f <$> ids = concat (replicate k ps1)) as Eps
    by (symmetry; apply concat_replicate_fmap).
  assert (Forall aligned (concat (replicate k ps1))) as Ha.
  { apply Forall_concat. clear Eps. induction k; cbn; by constructor. }
  assert (length (concat (replicate k ps1)) = examples) as Hlen.
  { rewrite <- Eps, length_fmap. subst ids examples. clear. induction k as [|k IH]; cbn; [done|].
    by rewrite length_app, IH. }
  rewrite leader_graph_ret, follower_graph_ret. destruct baseline_graph as [gb|] eqn:Hb; [|done].
  set (samples := sample_of <$> chunks 128 true (concat (replicate k ps1))).
  assert (Forall (Forall aligned) (chunks 128 true (concat (replicate k ps1)))) as Hc
    by (apply chunks_Forall; [lia|done]).
  destruct (split_train_agrees c gb samples (start_party (g_vars (graph_l (chk_l c))))
    (start_party (g_vars (graph_f (chk_f c)))) (start_party (g_vars gb)) Hb) as (l & f & b & E1 & E2 & Hag).
  { intros _. apply Forall_fmap. eapply Forall_impl; [exact Hc|]. intros qs Hqs. unfold compose, ids_agree.
    cbn. rewrite (aligned_ids qs Hqs). apply tf_assert_equal_refl. }
  { rewrite baseline_is_plugged in Hb. injection Hb as <-. split; (split; [|done]); by repeat constructor. }
  destruct (chunks_remainder 128 ltac:(lia) (concat (replicate k ps1))) as (rest & Hrest & Hone).
  destruct (baseline_train_run gb samples Hb (start_party (g_vars gb))) as (b' & E2' & Hsteps).
  rewrite E2 in E2'. injection E2' as <-.
  exists (graph_l (chk_l c)), (graph_f (chk_f c)), gb, l, f, b, (sample_of <$> rest).
  assert (length (sample_of <$> rest) = (if decide (examples mod 128 = 0)%nat then 0 else 1)%nat) as Hlast
    by (rewrite length_fmap, Hone, Hlen; done).
  assert (run_estimator (D := D) data_dir n_epoch d
    = (baseline_train gb (map both (sample_of <$> rest)) b, mkDriver x' (dr_data d))) as Hdriver; cycle 1.
  { split_and!; [done|done|done| |done| |done|done|].
    - rewrite (fl_train_run items_l items_f n_epoch blocks wl wf _ _ _ Hl Hf); fold k ids; rewrite Eps; done.
    - rewrite Hsteps. unfold samples. rewrite length_fmap, length_chunks, Hlen by lia. done.
    - intros Hdiv. rewrite Hdriver. rewrite decide_True in Hlast by done.
      apply nil_length_inv in Hlast. by rewrite Hlast. }
  rewrite <- (pairs_left items_l items_f) in Dl. rewrite <- (pairs_right items_l items_f) in Df.
  destruct (baseline_input_run _ _ n_epoch ps1 (dr_data d) Ha1 Hn Dl Df) as (ds & Eds & Sds). fold k in Sds.
  unfold run_estimator. rewrite run_bind. unfold zoom. rewrite Hx, run_bind. cbn [dr_data dr_dirs].
  rewrite Eds. unfold liftO. rewrite run_bind, Hb, Sds. cbn [st_items st_error]. rewrite Hrest.
  rewrite estimate_run, fmap_app, map_app, (baseline_train_app gb _ _ _ b).
  - done.
  - exact E2.
  - rewrite <- Hrest. apply chunks_Forall; [lia|done].
  - rewrite <- Hrest. apply chunks_not_nil; lia.
Qed.
End properties.

(** ** The exported models *)

(** What a served model is given, from the placeholders. *)
Record ServingInputReceiver := mkReceiver {
  sr_features : list (string * expr);
  sr_receiver_tensors : list (string * expr);
}.
Definition placeholder (name : string) : expr := Leaf (Input name).
(** The feature ["x"] of [tf.parse_example(records, feature_map)] *)
Definition PARSE_X : string := "parse_example:x".
Definition leader_serving_input_receiver_fn : ServingInputReceiver :=
  let records := placeholder "records" in
  let fl_inputs := placeholder "fl_inputs" in
  mkReceiver [("x", Op1 PARSE_X records); ("fl_inputs", fl_inputs)]
    [("records", records); ("fl_inputs", fl_inputs)].
Definition follower_serving_input_receiver_fn : ServingInputReceiver :=
  let records := placeholder "records" in
  mkReceiver [("x", Op1 PARSE_X records)] [("records", records)].

Section export.
Context {T Slot : Type} `{TF T Slot}.

(** [simple_save]: the variables with their values, the inputs and outputs. *)
Record saved_model := mkSaved {
  sm_dir : string;
  sm_variables : list (string * T);
  sm_inputs : list (string * expr);
  sm_outputs : list (string * expr);
}.
(** [saver.restore]: a variable that the checkpoint does not have is an error. *)
Fixpoint restore (names : list string) (checkpoint : list (string * T)) : outcome (list (string * T)) :=
  match names with
  | [] => Ret []
  | n :: names' =>
      match Dict.get n checkpoint with
      | Some x => l ← restore names' checkpoint; Ret ((n, x) :: l)
      | None => raise NotFoundError
      end
  end.
(** [FLEstimator.export_savedmodel] over a model function in [PREDICT] mode;
    [latest_checkpoint] is [None] where the directory has none, which [restore]
    does not take. *)
Definition estimator_export (model_fn : list (string * expr) → outcome graph)
    (latest_checkpoint : option (list (string * T))) (export_dir_base : string)
    (receiver : ServingInputReceiver) : outcome saved_model :=
  model_spec ← model_fn (sr_features receiver);
  match latest_checkpoint with
  | None => raise ValueError
  | Some c =>
      vals ← restore (var_names model_spec) c;
      Ret (mkSaved export_dir_base vals (sr_receiver_tensors receiver) (sp_predictions (g_spec model_spec)))
  end.

(** A request to a served model: it must give the inputs. *)
Definition serve (m : saved_model) (inputs : list (string * T)) (output : string) : outcome T :=
  if forallb (λ kv, Dict.mem kv.1 inputs) (sm_inputs m) then
    e ← feature_value output (sm_outputs m);
    Ret (eval (λ l, match l with
                    | TfVariable n => default tf_ones (Dict.get n (sm_variables m))
                    | Input n => default tf_ones (Dict.get n inputs)
                    | Received _ => tf_ones
                    end) e)
  else raise InvalidArgumentError.

(** The checkpoint of a party has its variables. *)
Definition saves (names : list string) (p : party (T := T) (Slot := Slot)) (c : list (string * T)) : Prop :=
  Forall (λ n, Dict.get n c = Some (p_vals p n)) names.
Lemma restore_run names p c :
  saves names p c → restore names c = Ret (map (λ n, (n, p_vals p n)) names).
Proof. induction 1 as [|n names Hn Hs IH]; cbn; [done|]. by rewrite Hn, IH. Qed.

Lemma estimator_export_run names p c model_fn r g dir :
  model_fn (sr_features r) = Ret g → var_names g = names → saves names p c →
  estimator_export model_fn (Some c) dir r
  = Ret (mkSaved dir (map (λ n, (n, p_vals p n)) names) (sr_receiver_tensors r) (sp_predictions (g_spec g))).
Proof.
  intros Hg <- Hs. unfold estimator_export. by rewrite Hg, bind_Ret, (restore_run _ _ _ Hs).
Qed.

(** C11. The exported halves predict what the whole model does: the models that
    the leader and the follower export from the checkpoints of their training,
    the leader's given the output of the follower's, put out for every pair of
    batches of records what the baseline model with its own variables puts out
    for them. *)
Theorem exported_halves_predict_like_the_baseline c (l f b : party (T := T) (Slot := Slot)) cl cf dir_l dir_f :
  same_on LEADER_VARS l b → same_on FOLLOWER_VARS f b →
  saves LEADER_VARS l cl → saves FOLLOWER_VARS f cf →
  ∃ ml mf gb out,
    estimator_export (λ x, leader_model_fn c "leader" x [] PREDICT) (Some cl) dir_l
      leader_serving_input_receiver_fn = Ret ml ∧
    estimator_export (λ x, follower_model_fn c "follower" x [] PREDICT) (Some cf) dir_f
      follower_serving_input_receiver_fn = Ret mf ∧
    baseline_model_fn [("xl", input "xl"); ("xf", input "xf")] (input "y") PREDICT = Ret gb ∧
    Dict.get "output" (sp_predictions (g_spec gb)) = Some out ∧
    ∀ records_l records_f,
      (act ← serve mf [("records", records_f)] "output";
       serve ml [("records", records_l); ("fl_inputs", act)] "output")
      = Ret (eval (env_of b [("xl", tf_op1 PARSE_X records_l); ("xf", tf_op1 PARSE_X records_f)]) out).
Proof.
  intros [Hl _] [Hf _] Hcl Hcf. do 4 eexists.
  split_and!; [by eapply estimator_export_run|by eapply estimator_export_run|reflexivity|reflexivity|].
  intros records_l records_f.
  apply Forall_cons in Hl as [[W1 _] Hl]. apply Forall_cons in Hl as [[B1 _] Hl].
  apply Forall_cons in Hl as [[W2 _] Hl]. apply Forall_cons in Hl as [[B2 _] _].
  apply Forall_cons in Hf as [[WF _] Hf]. apply Forall_cons in Hf as [[BF _] _].
  cbn. by rewrite W1, B1, W2, B2, WF, BF.
Qed.
End export.

(** ** Witness: streams, files in memory, numbers for tensors *)
#[export] Instance stream_data : TfData stream := {
  ds_prefetch _ _ d := d;
  ds_map _ _ f d := map_stream f d;
  ds_zip _ _ d d' := zip_stream d d';
  ds_repeat _ k d := repeat_stream k d;
  ds_batch _ _ _ n b d := batch_stream n b d;
  ds_stream _ d := d;
}.
#[export] Instance stream_data_laws : TfDataLaws stream.
Proof. split; reflexivity. Qed.

Fixpoint read_files (paths : list string) (e : option exn) (w : MemFs) : stream string :=
  match paths with
  | [] => mkStream [] e
  | p :: paths' =>
      match mf_files w !! p with
      | Some rs => let s := read_files paths' e w in mkStream (rs ++ st_items s) (st_error s)
      | None => mkStream [] (Some NotFoundError)
      end
  end.
Lemma read_files_all paths rss (w : MemFs) :
  Forall2 (λ p rs, mf_files w !! p = Some rs) paths rss →
  read_files paths None w = mkStream (concat rss) None.
Proof. induction 1 as [|p rs paths rss Hp Hr IH]; cbn; [done|]. by rewrite Hp, IH. Qed.

(** The paths handed to a role are the lines of a file. *)
#[export] Instance mem_ops : FlOpsLib stream MemFs := {
  fl_grpc_fetch_dataset role w := mkStream (default [] (mf_files w !! (role +:+ ".paths"))) None;
  fl_tf_record_dataset d _ _ w := read_files (st_items d) (st_error d) w;
  fl_text_line_dataset d _ _ w := read_files (st_items d) (st_error d) w;
  TFRecordDataset paths w := read_files paths None w;
}.
#[export] Instance mem_ops_laws : FlOpsLaws stream MemFs.
Proof.
  split; cbn.
  - intros d w paths rss ->. apply read_files_all.
  - intros w paths rss. apply read_files_all.
Qed.

(** A string as a number *)
Definition string_code (s : string) : Z :=
  foldl (λ h c, h * 256 + Z.of_N (N_of_ascii c)) 0 (String.list_ascii_of_string s).
Import TestRecords.
#[export] Instance num_parse : TfParse Z :=
  let feat r n f :=
    if bool_decide (r = "") then None
    else match ff_dtype f with
         | tf_string => if bool_decide (n = "example_id") then Some (string_code r) else None
         | tf_float32 => if bool_decide (n = "x") then Some (Z.of_nat (String.length r)) else None
         | tf_int64 => if bool_decide (n = "y") then Some (string_code r mod 10) else None
         end in
  {| tf_parse_single_example r fm :=
       if decide (Forall (λ kv, is_Some (feat r kv.1 kv.2)) fm)
       then Ret (omap (λ kv, pair kv.1 <$> feat r kv.1 kv.2) fm) else raise InvalidArgumentError;
     tf_parse_example rs fm :=
       if decide (Forall (λ r, Forall (λ kv, is_Some (feat r kv.1 kv.2)) fm) rs)
       then Ret (map (λ kv, (kv.1, foldl (λ h x, h * 31 + x) 0 (omap (λ r, feat r kv.1 kv.2) rs))) fm)
       else raise InvalidArgumentError;
     tf_stack := foldl (λ h x, h * 31 + x) 0;
     tf_scalar_string := string_code;
     tf_feature := feat |}.
#[export] Instance num_parse_laws : TfParseLaws Z.
Proof.
  split.
  - intros fm r Hp. cbn. by rewrite decide_True.
  - intros fm r Hp. cbn. by rewrite decide_False.
  - intros fm rs Hp. cbn. by rewrite decide_True.
  - intros fm rs Hp. cbn. by rewrite decide_False.
  - intros r n feats b. cbn. case_bool_decide as Hr; [done|]. intros [= <-].
    case_bool_decide as Hn; [by intros [= <-]|]. by case_bool_decide.
Qed.

(** Thirteen blocks of ten examples: one batch and two examples more. *)
Definition ten : list string := ["a"; "b"; "c"; "d"; "e"; "f"; "g"; "h"; "i"; "j"].
Definition ten_items : list (pyid * string) := map (λ i, (PyBytes i, i)) ten.
Definition side_files (role : string) : MemFs :=
  mkMemFs (<[role +:+ ".paths" := replicate 13 "block"]> (<["block" := ten]> ∅)) ∅.
Definition baseline_files : MemFs :=
  let all := concat (replicate 13 ten) in
  mkMemFs (<["data/leader_train/0.tfrecord" := all]> (<["data/follower_train/0.tfrecord" := all]> ∅))
    {["data/leader_train"; "data/follower_train"]}.

Lemma joined_blocks_train_like_the_baseline_witness :
  trains_like_the_baseline (D := stream) (T := Z) (Slot := Z) 1 1 130 (side_files "leader")
    (side_files "follower") "data" (mkDriver (mkTree [] []) baseline_files) (mkTree ["model_baseline"] []).
Proof.
  apply (joined_blocks_train_like_the_baseline (D := stream) (TF0 := num_tf) Z.eqb_refl 1 1 ten_items ten_items
    (replicate 13 ten) (side_files "leader") (side_files "follower") "data"
    (mkDriver (mkTree [] []) baseline_files)).
  - done.
  - exists (replicate 13 "block"). split; [by vm_compute|]. repeat constructor.
  - exists (replicate 13 "block"). split; [by vm_compute|]. repeat constructor.
  - assert (Forall (λ id, trainable leader_feature_map ten_items id ∧
      trainable follower_feature_map ten_items id) ten) as Ht.
    { repeat constructor; try (eexists; by vm_compute); eexists; (split; [by vm_compute|done]). }
    intros id Hid. apply (proj1 (Forall_forall _ _) Ht). revert Hid. generalize 13%nat.
    intros n. induction n as [|n IH]; cbn [replicate concat]; [by rewrite elem_of_nil|].
    rewrite elem_of_app. intros [?|?]; auto.
  - exists ["data/leader_train/0.tfrecord"], [concat (replicate 13 ten)].
    split_and!; [by vm_compute|by repeat constructor|by vm_compute].
  - exists ["data/follower_train/0.tfrecord"], [concat (replicate 13 ten)].
    split_and!; [by vm_compute|by repeat constructor|by vm_compute].
  - reflexivity.
Defined.

Lemma exported_halves_predict_like_the_baseline_witness :
  ∃ ml mf gb out,
    estimator_export (λ x, leader_model_fn 1 "leader" x [] PREDICT)
      (Some [("b2", 1); ("w2", 2); ("b1l", 3); ("w1l", 4); ("fake", 5)]) "ctr_model"
      leader_serving_input_receiver_fn = Ret ml ∧
    estimator_export (λ x, follower_model_fn 1 "follower" x [] PREDICT)
      (Some [("w1f", 6); ("b1f", 7)]) "export" follower_serving_input_receiver_fn = Ret mf ∧
    baseline_model_fn [("xl", input "xl"); ("xf", input "xf")] (input "y") PREDICT = Ret gb ∧
    Dict.get "output" (sp_predictions (g_spec gb)) = Some out ∧
    ∀ records_l records_f,
      (act ← serve mf [("records", records_f)] "output";
       serve ml [("records", records_l); ("fl_inputs", act)] "output")
      = Ret (eval (env_of (mkParty (λ n, default 0 (Dict.get n
          [("b2", 1); ("w2", 2); ("b1l", 3); ("w1l", 4); ("w1f", 6); ("b1f", 7)])) (λ _, 0) 1)
          [("xl", tf_op1 PARSE_X records_l); ("xf", tf_op1 PARSE_X records_f)]) out).
Proof.
  set (whole := mkParty _ _ _).
  apply (exported_halves_predict_like_the_baseline 1 whole whole whole); try done; repeat constructor.
Defined.
