(* ===== verification/TrainerSession.v ===== *)
(** * The session of an estimator

    [src/src/Trainer/fl_comm_libs/fl_estimator.py], [FLEstimator.train_or_eval] as
    a whole: the cluster configuration, what is fetched and hooked in each mode,
    what the bridge and its channels are initialised with, the steps until the
    data or the session ends, the report.  How it connects is [Trainer]'s
    [connect_loop]; the end of the data, which TensorFlow raises as [OutOfRangeError]
    and the session's [with] block takes for its normal end, is in the model. *)

From stdpp Require Import base tactics list gmap strings.
From Stdlib Require Import ZArith Lia.
From S2P Require Import Prelude PyStd Trainer TrainerRun MnistModel.

Open Scope Z_scope.

(** ** The estimator *)
Abbreviation cluster := (list (string * list string)).
Record FLEstimator := mkEstimator {
  es_is_chief : bool;
  es_role : string;
  es_appli_id : string;
  es_local_address : option string;
  es_peer_address : option string;
  es_proxy_address : option string;
  es_dc_address : option string;
  es_proxy_comm_uuid : string + list string;
  es_rank_id : Z;
  es_rpc_serv_type : string + Z;
  es_cluster_spec : option cluster;
  es_job_name : option string;
  es_task_index : option Z;
}.

(** The estimator that [fl_run] makes from [run_config] and the arguments that
    [run_cluster] gives it. *)
Definition estimator_of (is_chief : bool) (m : mconfig) (comm_uuid : string + list string) : FLEstimator :=
  let cluster_args :=
    if cc_is_local (mc_conf m) then None else cc_cluster (mc_conf m) in
  mkEstimator is_chief (mc_role m) (mc_appli_id m) (mc_bind_addr m) (mc_peer_addr m) (mc_proxy_addr m)
    (mc_dc_addr m) comm_uuid (cc_worker_id (mc_conf m)) (mc_rpc_service_type m)
    ((λ c : Z * string * Z * cluster, c.2) <$> cluster_args)
    ((λ c : Z * string * Z * cluster, c.1.1.2) <$> cluster_args)
    ((λ c : Z * string * Z * cluster, c.1.2) <$> cluster_args).

(** *** The configuration of the session *)
Record session_config := mkSessionConfig {
  sc_target : string;
  (** [worker_device] of [replica_device_setter], over the cluster *)
  sc_device : option (string * cluster);
  sc_device_filters : list string;
}.

(** ["%s" % job_name] and ["%d" % task_index] *)
Definition task_device (e : FLEstimator) : outcome string :=
  match es_task_index e with
  | None => raise TypeError
  | Some i => Ret ("/job:" +:+ default "None" (es_job_name e) +:+ "/task:" +:+ Str.of_int i)
  end.

Section estimator.
(** [tf.train.Server(cluster, job_name, task_index).target] *)
Context (server_target : cluster → string → Z → string).

Definition configure (e : FLEstimator) : outcome session_config :=
  match es_cluster_spec e with
  | Some c =>
      worker_device ← task_device e;
      i ← (match es_task_index e with Some i => Ret i | None => raise TypeError end);
      Ret (mkSessionConfig (server_target c (default "None" (es_job_name e)) i) (Some (worker_device, c))
             ["/job:ps"; worker_device])
  | None => Ret (mkSessionConfig "" None [])
  end.

(** *** The model and what is run of it *)

(** Tensors, operations, hooks, values. *)
Context {T U H V : Type}.
Record model_spec := mkModelSpec {
  ms_loss : T;
  ms_train_op : U;
  ms_training_hooks : list H;
  ms_eval_metric_ops : option (list (string * (T * U)));
  ms_evaluation_hooks : list H;
}.
Inductive hook := ModelHook (h : H) | FinalOpsHook (eval_dict : list (string * T)).
Inductive fetch := FetchTensor (t : T) | FetchOp (u : U).

(** [tf.metrics.mean], [tf.group] and the global step *)
Context (metrics_mean : T → T * U) (group : list U → U) (global_step : T).

Definition hooks_and_fetches (mode : ModeKeys) (spec : model_spec) : outcome (list hook * list fetch) :=
  match mode with
  | TRAIN => Ret (map ModelHook (ms_training_hooks spec), [FetchOp (ms_train_op spec)])
  | _ =>
      '(update_ops, eval_dict) ←
        prepare_eval (ms_eval_metric_ops spec) (metrics_mean (ms_loss spec)) global_step;
      let hooks := map ModelHook (ms_evaluation_hooks spec) ++ [FinalOpsHook eval_dict] in
      Ret (hooks, match mode with
                  | EVAL => [FetchTensor (ms_loss spec); FetchOp (group update_ops)]
                  | _ => []
                  end)
  end.

(** *** The session *)
Inductive feed :=
  | FString (s : option string) | FInt (z : Z) | FType (t : string + Z) | FUuid (u : string + list string).

(** What ran, with its status code; what was fed, and what was fetched of the
    model, in the same order; the counter of the steps, once it is set. *)
Record sess := mkSess {
  se_trace : trace;
  se_feeds : list (op * list (string * feed));
  se_fetched : list (list fetch);
  se_run_steps : option Z;
}.
Definition on_trace {A} (c : M trace A) : M sess A :=
  zoom se_trace (λ t s, mkSess t (se_feeds s) (se_fetched s) (se_run_steps s)) c.
Definition run_fed (o : op) (feeds : list (string * feed)) : M sess unit :=
  on_trace (ran o 0);;
  modify (λ s, mkSess (se_trace s) (se_feeds s ++ [(o, feeds)]) (se_fetched s) (se_run_steps s)).
Definition set_run_steps (n : Z) : M sess unit :=
  modify (λ s, mkSess (se_trace s) (se_feeds s) (se_fetched s) (Some n)).

Definition init_feeds (e : FLEstimator) : list (string * feed) :=
  [("bridge_addr", FString (es_local_address e)); ("appli_id", FString (Some (es_appli_id e)));
   ("rank_id", FInt (es_rank_id e)); ("role", FString (Some (es_role e)));
   ("rpc_serv_type", FType (es_rpc_serv_type e)); ("comm_uuid", FUuid (es_proxy_comm_uuid e))].
Definition channel_feeds (e : FLEstimator) : list (string * feed) :=
  [("peer_addr", FString (es_proxy_address e)); ("dc_addr", FString (es_dc_address e))].
Definition TRAIN_START : list (string * feed) := [("train_start", FString (Some "/FlTrainStart"))].

(** What a step of the model meets: it is done, the data is at its end, or it
    fails.  An answer of [should_stop]: [None] to stop, or the step that follows. *)
Inductive step_result := StepDone | EndOfData | StepFails (e : exn).
Definition run_model (fetches : list fetch) (r : step_result) : M sess unit :=
  match r with
  | StepDone =>
      on_trace (ran RunStep 0);;
      modify (λ s, mkSess (se_trace s) (se_feeds s) (se_fetched s ++ [fetches]) (se_run_steps s))
  | EndOfData => raiseM OutOfRangeError
  | StepFails e => raiseM e
  end.
Fixpoint steps (fetches : list fetch) (run_steps : Z) (answers : list (option step_result)) : M sess unit :=
  match answers with
  | [] => stopM NoFuel
  | None :: _ => mret tt
  | Some r :: l =>
      run_fed TrainStart TRAIN_START;;
      run_model fetches r;;
      set_run_steps (run_steps + 1);;
      on_trace (ran TrainCommit 0);;
      steps fetches (run_steps + 1) l
  end.

Definition connect (e : FLEstimator) (attempts : list attempt) : M sess unit :=
  run_fed FlInit (init_feeds e);;
  run_fed ChannelInit (channel_feeds e);;
  on_trace (connect_loop (es_role e) attempts).

(** The [with] block: [OutOfRangeError] and [StopIteration] leave it as its end. *)
Definition session (e : FLEstimator) (attempts : list attempt) (stopped : bool)
    (fetches : list fetch) (answers : list (option step_result)) : M sess unit :=
  catchM
    ((if stopped then mret tt else connect e attempts);;
     set_run_steps 1;;
     steps fetches 1 answers)
    (λ x, if decide (x = OutOfRangeError ∨ x = StopIteration) then mret tt else raiseM x).

(** *** [train_or_eval] *)

(** The report at the end: of an evaluation, the counter and the metrics, from the
    values that the last hook computed. *)
Inductive report := Trained | Evaluated (iteration : Z) (metrics : string).
Context (show : V → string) (is_bytes : V → bool) (final_ops : list (string * T) → list (string * V)).
Context {Features Labels : Type}.

Definition final_values (hooks : list hook) : list (string * V) :=
  match last hooks with Some (FinalOpsHook d) => final_ops d | _ => [] end.
Definition report_of (mode : ModeKeys) (hooks : list hook) : M sess report :=
  match mode with
  | TRAIN => mret Trained
  | _ =>
      s ← getM;
      match se_run_steps s with
      | None => raiseM UnboundLocalError
      | Some n => mret (Evaluated n (dict_to_str show is_bytes (final_values hooks)))
      end
  end.

Definition run_estimator_session (e : FLEstimator) (input_fn : string → outcome (Features * Labels))
    (model_fn : Features → Labels → ModeKeys → outcome model_spec) (mode : ModeKeys)
    (attempts : list attempt) (stopped : bool) (answers : list (option step_result)) :
    M sess (session_config * report) :=
  config ← liftO (configure e);
  '(features, labels) ← liftO (input_fn (es_role e));
  spec ← liftO (model_fn features labels mode);
  '(hooks, fetches) ← liftO (hooks_and_fetches mode spec);
  session e attempts stopped fetches answers;;
  r ← report_of mode hooks;
  mret (config, r).

Definition es_train e input_fn model_fn := run_estimator_session e input_fn model_fn TRAIN.
Definition es_eval e input_fn model_fn := run_estimator_session e input_fn model_fn EVAL.

(** ** The steps *)
Definition fresh_sess : sess := mkSess [] [] [] None.

Lemma run_on_trace {A} (c : M trace A) s o t :
  c (se_trace s) = (o, t) → on_trace c s = (o, mkSess t (se_feeds s) (se_fetched s) (se_run_steps s)).
Proof. unfold on_trace, zoom. by intros ->. Qed.
Lemma run_fed_run o f s :
  run_fed o f s
  = (Ret tt, mkSess (se_trace s ++ [(o, 0)]) (se_feeds s ++ [(o, f)]) (se_fetched s) (se_run_steps s)).
Proof. reflexivity. Qed.

(** One step, in a state whose counter is set. *)
Lemma steps_done fetches m l s :
  steps fetches m (Some StepDone :: l) s
  = steps fetches (m + 1) l (mkSess (se_trace s ++ step) (se_feeds s ++ [(TrainStart, TRAIN_START)])
      (se_fetched s ++ [fetches]) (Some (m + 1))).
Proof.
  change (steps fetches (m + 1) l (mkSess
    (((se_trace s ++ [(TrainStart, 0)]) ++ [(RunStep, 0)]) ++ [(TrainCommit, 0)])
    (se_feeds s ++ [(TrainStart, TRAIN_START)]) (se_fetched s ++ [fetches]) (Some (m + 1)))
    = steps fetches (m + 1) l (mkSess (se_trace s ++ step) (se_feeds s ++ [(TrainStart, TRAIN_START)])
      (se_fetched s ++ [fetches]) (Some (m + 1)))).
  by rewrite <- !(assoc_L (++)).
Qed.

Lemma steps_end fetches m l s :
  steps fetches m (Some EndOfData :: l) s
  = (raise OutOfRangeError, mkSess (se_trace s ++ [(TrainStart, 0)])
       (se_feeds s ++ [(TrainStart, TRAIN_START)]) (se_fetched s) (se_run_steps s)).
Proof. reflexivity. Qed.

Lemma steps_run fetches n : ∀ m l s,
  steps fetches m (replicate n (Some StepDone) ++ l) s
  = steps fetches (m + Z.of_nat n) l
      (mkSess (se_trace s ++ concat (replicate n step)) (se_feeds s ++ replicate n (TrainStart, TRAIN_START))
         (se_fetched s ++ replicate n fetches)
         (if decide (n = 0%nat) then se_run_steps s else Some (m + Z.of_nat n))).
Proof.
  induction n as [|n IH]; intros m l s.
  - cbn. rewrite !app_nil_r, Z.add_0_r. by destruct s.
  - cbn [replicate app]. rewrite steps_done, IH. cbn [se_trace se_feeds se_fetched se_run_steps concat].
    rewrite <- !(assoc_L (++)). cbn [app]. rewrite <- Z.add_assoc.
    replace (1 + Z.of_nat n) with (Z.of_nat (S n)) by lia.
    destruct (decide (n = 0%nat)) as [->|Hn]; [done|]. done.
Qed.

(** C34. A session trains until its data ends.  It connects as [Trainer] says,
    after the bridge has been given the address, the application, the rank, the
    role, the kind of service and the uuid of this worker, and the channels those
    of the proxy and the data center; it opens, runs and commits one step for each
    batch, fetching what its mode asks for; the step that it opens at the end of
    the data is never committed, and the error there is the normal end of the
    session: the report follows, whose counter is one more than the steps. *)
Theorem session_runs_until_the_data_ends e (input_fn : string → outcome (Features * Labels)) model_fn mode
    config features labels spec hooks fetches atts k a n :
  configure e = Ret config → input_fn (es_role e) = Ret (features, labels) →
  model_fn features labels mode = Ret spec → hooks_and_fetches mode spec = Ret (hooks, fetches) →
  Forall complete atts → atts !! k = Some a → ready (es_role e) a →
  (∀ i b, (i < k)%nat → atts !! i = Some b → ¬ ready (es_role e) b) →
  ∃ pre fin,
    connected (es_role e) fin ∧ not_started (pre ++ fin) ∧ connects (pre ++ fin) = (k + 1)%nat ∧
    run_estimator_session e input_fn model_fn mode atts false
      (replicate n (Some StepDone) ++ [Some EndOfData]) fresh_sess
    = (Ret (config, match mode with
                    | TRAIN => Trained
                    | _ => Evaluated (1 + Z.of_nat n) (dict_to_str show is_bytes (final_values hooks))
                    end),
       mkSess ((FlInit, 0) :: (ChannelInit, 0) :: pre ++ fin ++ concat (replicate n step) ++ [(TrainStart, 0)])
         ((FlInit, init_feeds e) :: (ChannelInit, channel_feeds e)
          :: replicate n (TrainStart, TRAIN_START) ++ [(TrainStart, TRAIN_START)])
         (replicate n fetches) (Some (1 + Z.of_nat n))).
Proof.
  intros Hc Hi Hm Hh Hall Ha Hr Hf.
  destruct (connect_loop_run (es_role e) atts Hall k a [(FlInit, 0); (ChannelInit, 0)] Ha Hr Hf)
    as (pre & fin & Hrun & Hcon & Hn & Hk).
  exists pre, fin. split_and!; [done..|].
  unfold run_estimator_session, liftO. rewrite run_bind, Hc, run_bind, Hi, run_bind, Hm, run_bind, Hh, run_bind.
  unfold session, catchM. rewrite run_bind.
  assert (connect e atts fresh_sess = (Ret tt, mkSess (([(FlInit, 0); (ChannelInit, 0)] ++ pre ++ fin))
    [(FlInit, init_feeds e); (ChannelInit, channel_feeds e)] [] None)) as ->.
  { change (connect e atts fresh_sess)
      with (on_trace (connect_loop (es_role e) atts) (mkSess [(FlInit, 0); (ChannelInit, 0)]
          [(FlInit, init_feeds e); (ChannelInit, channel_feeds e)] [] None)).
    unfold on_trace, zoom. cbn [se_trace]. rewrite Hrun. done. }
  rewrite run_bind. unfold set_run_steps at 1, modify. cbn [se_trace se_feeds se_fetched].
  rewrite steps_run, steps_end. cbn [se_trace se_feeds se_fetched se_run_steps raise].
  rewrite decide_True by by left.
  assert ((if decide (n = 0%nat) then Some 1 else Some (1 + Z.of_nat n)) = Some (1 + Z.of_nat n)) as ->
    by (by destruct (decide (n = 0%nat)) as [->|]).
  rewrite <- !(assoc_L (++)). by destruct mode.
Qed.
End estimator.

(** ** Witness: a follower of two processes *)
Definition two_workers : cluster := [("ps", ["10.0.0.1:1"]); ("chief", ["10.0.0.2:1"]); ("worker", ["10.0.0.3:1"])].
Definition follower_config : mconfig :=
  mkMconfig (mkConf 2 1 false (Some (1, "worker", 0, two_workers))) false "follower" "app" "app_TrainerWorkerService_1"
    (inr 0) (Some "10.0.0.3:2") (Some "[::]:2") None (Some "coordinator:1") (Some "proxy:1") (Some "dc:1")
    "models" "export" (inr "logs") 0 "".
Definition follower_estimator : FLEstimator := estimator_of false follower_config (inr ["uuid-b"]).
Definition test_spec : model_spec (T := Z) (U := Z) (H := Z) := mkModelSpec 1 2 [3] None [].

Lemma session_runs_until_the_data_ends_witness :
  ∃ pre fin : trace,
    connected "follower" fin ∧ not_started (pre ++ fin) ∧ connects (pre ++ fin) = 2%nat ∧
    run_estimator_session (H := Z) (Features := unit) (Labels := unit) (λ _ j _, "grpc://" +:+ j)
      (λ t, (t + 1, t + 2)) (foldr Z.add 0) 9 Str.of_int (λ v, v =? 0) (λ d : list (string * Z), d)
      follower_estimator (λ _, Ret (tt, tt)) (λ _ _ _, Ret test_spec) EVAL
      [mkAttempt 1 [0; 0; 0] [0; 0; 0]; mkAttempt 0 [1; 0; 0] [1; 1; 0]] false (replicate 2 (Some StepDone) ++ [Some EndOfData]) fresh_sess
    = (Ret (mkSessionConfig "grpc://worker" (Some ("/job:worker/task:0", two_workers))
              ["/job:ps"; "/job:worker/task:0"], Evaluated 3 "global_step = 9, loss = 2"),
       mkSess ((FlInit, 0) :: (ChannelInit, 0) :: pre ++ fin ++ concat (replicate 2 step) ++ [(TrainStart, 0)])
         ((FlInit, init_feeds follower_estimator) :: (ChannelInit, channel_feeds follower_estimator)
          :: replicate 2 (TrainStart, TRAIN_START) ++ [(TrainStart, TRAIN_START)])
         (replicate 2 [FetchTensor 1; FetchOp 3]) (Some 3)).
Proof.
  apply (session_runs_until_the_data_ends (λ _ j _, "grpc://" +:+ j) (λ t, (t + 1, t + 2)) (foldr Z.add 0) 9
    Str.of_int (λ v, v =? 0) (λ d, d) follower_estimator (λ _, Ret (tt, tt)) (λ _ _ _, Ret test_spec) EVAL
    (mkSessionConfig "grpc://worker" (Some ("/job:worker/task:0", two_workers)) ["/job:ps"; "/job:worker/task:0"])
    tt tt test_spec [FinalOpsHook [("loss", 2); ("global_step", 9)]] [FetchTensor 1; FetchOp 3]
    [mkAttempt 1 [0; 0; 0] [0; 0; 0]; mkAttempt 0 [1; 0; 0] [1; 1; 0]] 1 (mkAttempt 0 [1; 0; 0] [1; 1; 0]) 2).
  - reflexivity.
  - reflexivity.
  - reflexivity.
  - reflexivity.
  - repeat constructor; simpl; lia.
  - done.
  - split; [done|]. split; [|intros _]; apply list_elem_of_In; simpl; auto.
  - intros [|i] b Hi Hb; [|lia]. injection Hb as <-. by intros [? _].
Defined.
