(* ===== verification/Bridge.v ===== *)
(** * The bridge of the trainers: the receiving side

    src/src/Trainer/rpc/rpc_bridge: the service that the workers of the other side
    call (rpc_bridge_agent_service.cc), the cache that its messages wait in
    (RpcBridgeRecvCache of rpc_bridge_agent.cc) and the counters of a run
    (rpc_bridge_mgr.h).  gRPC and the tensors are the outside.  A call that waits
    for a notification is two operations, before and after the wait, since the
    lock is free in between; a notification is a number, and the cache keeps the
    set of those that have been notified.  The sending side is [BridgeAgent]. *)

From stdpp Require Import base tactics list gmap strings.
From Stdlib Require Import ZArith Lia Ascii.
From S2P Require Import Prelude PyStd.
Open Scope Z_scope.

(** ** Messages of bridge_agent.proto and dc_agent.proto *)
Inductive ResultCode :=
  | SUCCESS | UNKNOWN_ERROR | INVALID_REQUEST | NO_MORE_DATA | DATA_FINISHED
  | MESSAGE_DUPLICATED | MESSAGE_MISSING.
#[export] Instance result_code_eq_dec : EqDecision ResultCode.
Proof. solve_decision. Defined.

Record ResultStatus := mkResult { result_code : ResultCode; error_message : string }.

(** The oneof of a message; [D] is the type of the tensors. *)
Inductive msg_body (D : Type) :=
  | PrefetchMessage (iter_id : Z) (example_ids : list Z)
  | StartMessage (iter_id : Z)
  | CommitMessage (iter_id : Z)
  | DataMessage (iter_id : Z) (name : string) (tensor : D)
  | MsgNotSet.
Arguments PrefetchMessage {_}. Arguments StartMessage {_}. Arguments CommitMessage {_}.
Arguments DataMessage {_}. Arguments MsgNotSet {_}.

Record TrainerWorkerMessage (D : Type) := mkMessage { seq_num : Z; msg : msg_body D }.
Arguments mkMessage {_}. Arguments seq_num {_}. Arguments msg {_}.
Record TrainerWorkerResponse := mkResponse { status : ResultStatus; next_seq_num : Z }.
#[export] Instance result_status_eq_dec : EqDecision ResultStatus.
Proof. solve_decision. Defined.
#[export] Instance response_eq_dec : EqDecision TrainerWorkerResponse.
Proof. solve_decision. Defined.
Record ConnectRequest := mkConnect { cr_app_id : string; cr_worker_rank : Z; cr_identifier : string }.

Inductive StatusCode := DC_OK | NOT_READY | FINISHED | NOT_FOUND | ERROR_ABORTED.
Record FetchDataBlockResponse := mkFetched { status_code : StatusCode; data_path : string }.

(** The status of TensorFlow, with the codes that the bridge gives or tests. *)
Inductive error_code := ABORTED | INVALID_ARGUMENT | UNAVAILABLE | UNKNOWN | CANCELLED | INTERNAL
  | DEADLINE_EXCEEDED.
#[export] Instance error_code_eq_dec : EqDecision error_code.
Proof. solve_decision. Defined.
Inductive Status := OK | Error (c : error_code) (m : string).
#[export] Instance status_eq_dec : EqDecision Status.
Proof. solve_decision. Defined.

Inductive BridgeMethodIndex :=
  | kRpcPrefetch | kRpcTrainStart | kRpcStepCommit | kRpcDataMessage | kRpcLoadDataBlock
  | kRpcConnect | kRpcHeartbeat.
Definition RpcAgentMethodRecvKey (id : BridgeMethodIndex) : string :=
  match id with
  | kRpcPrefetch => "/FlPrefetch"
  | kRpcTrainStart => "/FlTrainStart"
  | kRpcStepCommit => "/FlStepCommit"
  | kRpcDataMessage => "/FlDataMessage"
  | kRpcLoadDataBlock => "/FlLoadDatablock"
  | kRpcConnect => "/FlConnect"
  | kRpcHeartbeat => "/FlHeartbeat"
  end.

(** ** The counters of a run *)
Record RunStepStats := mkStats {
  st_iter_id : Z;
  st_seq_num : Z;
  st_next_seq_num : Z;
  st_next_recv_seq_num : Z;
}.
Definition new_stats : RunStepStats := mkStats 0 0 1 0.
Definition NextIterId : M RunStepStats Z := λ s,
  (Ret (st_iter_id s + 1),
   mkStats (st_iter_id s + 1) (st_seq_num s) (st_next_seq_num s) (st_next_recv_seq_num s)).
Definition SetIterId (sync_id : Z) : M RunStepStats Z := λ s,
  (Ret sync_id, mkStats sync_id (st_seq_num s) (st_next_seq_num s) (st_next_recv_seq_num s)).
Definition CurrentIterId : M RunStepStats Z := gets st_iter_id.
Definition CurrentSeqNum : M RunStepStats Z := gets st_seq_num.
Definition NextSeqNum : M RunStepStats Z := gets st_next_seq_num.
Definition CommitToNextSeqNum : M RunStepStats Z := λ s,
  (Ret (st_next_seq_num s),
   mkStats (st_iter_id s) (st_next_seq_num s) (st_next_seq_num s + 1) (st_next_recv_seq_num s)).
Definition CurrentRecvSeqNum : M RunStepStats Z := gets st_next_recv_seq_num.
Definition NextRecvSeqNum : M RunStepStats Z := λ s,
  (Ret (st_next_recv_seq_num s + 1),
   mkStats (st_iter_id s) (st_seq_num s) (st_next_seq_num s) (st_next_recv_seq_num s + 1)).

(** ** The receive cache *)
Inductive CacheState := IDLE | WAIT | ACTIVE.
#[export] Instance cache_state_eq_dec : EqDecision CacheState.
Proof. solve_decision. Defined.

Record RecvCacheEntry (D : Type) := mkEntry {
  ce_state : CacheState;
  ce_rdata : TrainerWorkerMessage D;
  ce_recv_status : Status;
  ce_callback : option nat;
}.
Arguments mkEntry {_}. Arguments ce_state {_}. Arguments ce_rdata {_}.
Arguments ce_recv_status {_}. Arguments ce_callback {_}.

Record TrainFilesCache := mkFiles {
  fc_state : CacheState;
  fc_recv_count : Z;
  fc_callback : option nat;
  fc_q_files : list string;
}.
Record PeerInfo := mkPeer {
  pi_state : CacheState;
  pi_callback : option nat;
  pi_peer_connected : bool;
  pi_rdata : ConnectRequest;
}.
(** The two maps of [recv_cache_] are one, from slot and content key; an entry that
    is not there is a fresh one, as with [operator[]]. *)
Record RpcBridgeRecvCache (D : Type) := mkCache {
  rc_recv_cache : gmap (string * string) (RecvCacheEntry D);
  rc_files_ready_cache : TrainFilesCache;
  rc_peer_info : PeerInfo;
  rc_notified : gset nat;
}.
Arguments mkCache {_}. Arguments rc_recv_cache {_}. Arguments rc_files_ready_cache {_}.
Arguments rc_peer_info {_}. Arguments rc_notified {_}.

Section cache.
Context {D : Type}.
Abbreviation cache := (RpcBridgeRecvCache D).
Abbreviation message := (TrainerWorkerMessage D).

Definition fresh_entry : RecvCacheEntry D := mkEntry IDLE (mkMessage 0 MsgNotSet) OK None.
Definition new_cache : cache :=
  mkCache ∅ (mkFiles IDLE 0 None []) (mkPeer IDLE None false (mkConnect "" 0 "")) ∅.

Definition entry_at (k : string * string) (c : cache) : RecvCacheEntry D :=
  default fresh_entry (rc_recv_cache c !! k).
Definition set_entry (k : string * string) (e : RecvCacheEntry D) (c : cache) : cache :=
  mkCache (<[k := e]> (rc_recv_cache c)) (rc_files_ready_cache c) (rc_peer_info c) (rc_notified c).
Definition set_files (f : TrainFilesCache) (c : cache) : cache :=
  mkCache (rc_recv_cache c) f (rc_peer_info c) (rc_notified c).
Definition set_peer (p : PeerInfo) (c : cache) : cache :=
  mkCache (rc_recv_cache c) (rc_files_ready_cache c) p (rc_notified c).

(** [callback_(s)], when there is one. *)
Definition notify (o : option nat) : M cache unit := modify (λ c,
  match o with
  | Some n => mkCache (rc_recv_cache c) (rc_files_ready_cache c) (rc_peer_info c)
                ({[n]} ∪ rc_notified c)
  | None => c
  end).

(** Where a message waits, and whether it may only replace one that was taken. *)
Definition slot_of (m : message) : option ((string * string) * bool) :=
  let same id := let s := RpcAgentMethodRecvKey id in Some ((s, s), false) in
  match msg m with
  | PrefetchMessage _ _ => same kRpcPrefetch
  | StartMessage _ => same kRpcTrainStart
  | CommitMessage _ => same kRpcStepCommit
  | DataMessage _ name _ => Some ((RpcAgentMethodRecvKey kRpcDataMessage, name), true)
  | MsgNotSet => None
  end.

Definition OnReceived (recvdata : message) : M cache Status :=
  match slot_of recvdata with
  | None => mret (Error INVALID_ARGUMENT "Invalid msg case:")
  | Some (k, wait_consumer) =>
      e ← gets (entry_at k);
      if wait_consumer && bool_decide (ce_state e = ACTIVE) then mret (Error ABORTED "Reject.")
      else
        modify (set_entry k (mkEntry ACTIVE recvdata OK (ce_callback e)));;
        (if bool_decide (ce_state e = WAIT) then notify (ce_callback e) else mret tt);;
        mret OK
  end.

(** The message that is there, or the notification [n] to wait for. *)
Definition QueryResult (n : nat) (slot_key content_key : string)
    : M cache (option (message * Status)) :=
  let k := (slot_key, content_key) in
  e ← gets (entry_at k);
  if bool_decide (ce_state e = ACTIVE) then
    modify (set_entry k (mkEntry IDLE (ce_rdata e) (ce_recv_status e) (ce_callback e)));;
    mret (Some (ce_rdata e, ce_recv_status e))
  else
    modify (set_entry k (mkEntry WAIT (ce_rdata e) (ce_recv_status e) (Some n)));;
    mret None.
(** After the wait, which ended with the notification ([ok]) or the time-out. *)
Definition QueryResult_woken (ok : bool) (slot_key content_key : string)
    : M cache (option message * Status) :=
  let k := (slot_key, content_key) in
  e ← gets (entry_at k);
  modify (set_entry k (mkEntry IDLE (ce_rdata e) (ce_recv_status e) None));;
  mret (if ok || bool_decide (ce_state e = ACTIVE) then (Some (ce_rdata e), OK)
        else (None, Error ABORTED "Timeout")).

Definition OnConnected (peerdata : ConnectRequest) : M cache Status :=
  p ← gets rc_peer_info;
  (if pi_peer_connected p then mret tt
   else
     modify (set_peer (mkPeer ACTIVE (pi_callback p) true peerdata));;
     notify (pi_callback p));;
  mret OK.
Definition WaitPeerReady (n : nat) : M cache (option ConnectRequest) :=
  p ← gets rc_peer_info;
  if pi_peer_connected p then mret (Some (pi_rdata p))
  else
    modify (set_peer (mkPeer WAIT (Some n) false (pi_rdata p)));;
    mret None.
Definition WaitPeerReady_woken (ok : bool) : M cache (option ConnectRequest * Status) :=
  p ← gets rc_peer_info;
  modify (set_peer (mkPeer IDLE None (pi_peer_connected p) (pi_rdata p)));;
  mret (if ok || bool_decide (pi_state p = ACTIVE) then (Some (pi_rdata p), OK)
        else (None, Error ABORTED "Timeout")).

Definition OnFile (fname : string) (end_of_files : bool) : M cache Status :=
  f ← gets rc_files_ready_cache;
  modify (set_files
    (if end_of_files then mkFiles ACTIVE (fc_recv_count f) (fc_callback f) (fc_q_files f)
     else mkFiles (fc_state f) (fc_recv_count f + 1) (fc_callback f) (fc_q_files f ++ [fname])));;
  notify (fc_callback f);;
  mret OK.
(** One turn of the loop of [QueryReadyFile]: the status, the file and the end, or
    the notification [n] to wait for. *)
Definition QueryReadyFile (n : nat) (retries : nat) : M cache (option (Status * string * bool)) :=
  f ← gets rc_files_ready_cache;
  match fc_q_files f with
  | fname :: fs =>
      modify (set_files (mkFiles (fc_state f) (fc_recv_count f) (fc_callback f) fs));;
      mret (Some (OK, fname, false))
  | [] =>
      if bool_decide (fc_state f = ACTIVE) then mret (Some (OK, "", true))
      else if bool_decide (1 < retries)%nat then
        mret (Some (Error ABORTED "Already Try max times ... ", "", false))
      else
        modify (set_files (mkFiles WAIT (fc_recv_count f) (Some n) []));;
        mret None
  end.
Definition QueryReadyFile_woken : M cache unit := modify (λ c,
  let f := rc_files_ready_cache c in
  set_files (mkFiles (fc_state f) (fc_recv_count f) None (fc_q_files f)) c).
End cache.

(** ** The service *)
Inductive BrState := NEW | STARTED | STOPPED.
#[export] Instance br_state_eq_dec : EqDecision BrState.
Proof. solve_decision. Defined.
Definition RoleDef_Follower : string := "follower".

(** The manager, its counters and cache, and the fields of the service:
    [link_up_] and the static [_RpcDataLoadNextId]. *)
Record bridge (D : Type) := mkBridge {
  br_appli_id : string;
  br_rank_id : Z;
  br_role_def : string;
  br_state : BrState;
  br_stats : RunStepStats;
  br_cache : RpcBridgeRecvCache D;
  br_link_up : bool;
  br_load_next_id : Z;
}.
Arguments mkBridge {_}. Arguments br_appli_id {_}. Arguments br_rank_id {_}.
Arguments br_role_def {_}. Arguments br_state {_}. Arguments br_stats {_}.
Arguments br_cache {_}. Arguments br_link_up {_}. Arguments br_load_next_id {_}.

(** What a handler sends back. *)
Inductive reply (A : Type) := Responded (a : A) | Refused.
Arguments Responded {_}. Arguments Refused {_}.

(** [PrepareFile]: the path itself, or where the script [cmd_path] of
    [_FILE_GET_CMD] has copied the file to; [local] makes the name of the copy in
    the local directory, [run_script] runs the script and gives its exit code. *)
Definition base_name (src : string) : string := default "" (last (Str.split "/" src)).
Definition PrepareFile (cmd_path : string) (local : string → string)
    (run_script : string → string → Z) (file_src : string) : Z * string :=
  if bool_decide (base_name file_src = "") then (-1, "")
  else if bool_decide (cmd_path = "") then (0, file_src)
  else
    let dst := local (base_name file_src) in
    let ret := run_script file_src dst in
    (ret, if ret =? 0 then dst else "").

(** [CleanFile]: a file that was read in place ([io_direct]) stays, a copy is
    removed, or the script of [_FILE_CLEAN_CMD] decides. *)
Definition CleanFile (cmd_path : string) (io_direct : bool) (exists_file : string → bool)
    (remove run_script : string → Z) (fname : string) : Z :=
  if bool_decide (cmd_path = "") then
    if io_direct then 0 else if exists_file fname then remove fname else -1
  else run_script fname.

Section service.
Context {D : Type}.
Abbreviation S := (bridge D).
Abbreviation message := (TrainerWorkerMessage D).
(** [PrepareFile] with the settings of this process. *)
Context (prepare : string → Z * string).

Definition on_stats {A} : M RunStepStats A → M S A :=
  zoom br_stats (λ st s, mkBridge (br_appli_id s) (br_rank_id s) (br_role_def s) (br_state s) st
    (br_cache s) (br_link_up s) (br_load_next_id s)).
Definition on_cache {A} : M (RpcBridgeRecvCache D) A → M S A :=
  zoom br_cache (λ c s, mkBridge (br_appli_id s) (br_rank_id s) (br_role_def s) (br_state s)
    (br_stats s) c (br_link_up s) (br_load_next_id s)).
Definition StateMove (to_state : BrState) : M S BrState := λ s,
  (Ret (br_state s), mkBridge (br_appli_id s) (br_rank_id s) (br_role_def s) to_state
    (br_stats s) (br_cache s) (br_link_up s) (br_load_next_id s)).
Definition set_link_up (b : bool) : M S unit := modify (λ s,
  mkBridge (br_appli_id s) (br_rank_id s) (br_role_def s) (br_state s) (br_stats s)
    (br_cache s) b (br_load_next_id s)).
Definition load_next : M S unit := modify (λ s,
  mkBridge (br_appli_id s) (br_rank_id s) (br_role_def s) (br_state s) (br_stats s)
    (br_cache s) (br_link_up s) (br_load_next_id s + 1)).

(** A message is taken when it is the next one and the cache has room for it. *)
Definition answer_message (request : message) : M S TrainerWorkerResponse :=
  StateMove STARTED;;
  want ← on_stats CurrentRecvSeqNum;
  if seq_num request =? want then
    s ← on_cache (OnReceived request);
    match s with
    | OK =>
        next ← on_stats NextRecvSeqNum;
        mret (mkResponse (mkResult SUCCESS "") next)
    | Error _ m =>
        next ← on_stats CurrentRecvSeqNum;
        mret (mkResponse (mkResult UNKNOWN_ERROR m) next)
    end
  else
    let ret_code := if want <? seq_num request then MESSAGE_MISSING else MESSAGE_DUPLICATED in
    next ← on_stats CurrentRecvSeqNum;
    mret (mkResponse (mkResult ret_code "") next).

Definition TransmitHandler (request : message) : M S (reply TrainerWorkerResponse) :=
  up ← gets br_link_up;
  if (up : bool) then r ← answer_message request; mret (Responded r) else mret Refused.
(** A stream is finished instead of answered when the link is down. *)
Definition StreamTransmitHandler (request : message) : M S (reply TrainerWorkerResponse) :=
  up ← gets br_link_up;
  if (up : bool) then r ← answer_message request; mret (Responded r) else mret Refused.

(** The attempts to get the path of a block from the data center; [fetch n] is its
    answer to attempt [n]. *)
Fixpoint fetch_loop (fetch : nat → Status * FetchDataBlockResponse) (retries left : nat)
    : Status * string :=
  match left with
  | O => (Error ABORTED "Fetch DataBlock, already Try max times ... ", "")
  | Datatypes.S left' =>
      match fetch retries with
      | (Error _ _, _) => fetch_loop fetch (Datatypes.S retries) left'
      | (OK, response) =>
          match status_code response with
          | FINISHED => (Error ABORTED "DataBlock FINISHED...", "")
          | ERROR_ABORTED => (Error ABORTED "DataBlock ERROR_ABORTED...", "")
          | NOT_READY => fetch_loop fetch (Datatypes.S retries) left'
          | DC_OK =>
              let (ret, out) := prepare (data_path response) in
              if ret =? 0 then (OK, out) else (Error ABORTED "DataBlock download failed.", "")
          | NOT_FOUND => (Error ABORTED "DataBlock request ABORTED, unknown code", "")
          end
      end
  end.

Definition LoadDataBlockHandler (db_api : option (nat → Status * FetchDataBlockResponse))
    (count : Z) (block_id : string) : M S (reply ResultStatus) :=
  up ← gets br_link_up;
  if negb up then mret Refused
  else
    StateMove STARTED;;
    role ← gets br_role_def;
    if bool_decide (role = RoleDef_Follower) then
      let finish s out end_of_blocks :=
        match s with
        | OK =>
            on_cache (OnFile out end_of_blocks);;
            load_next;;
            mret (Responded (mkResult SUCCESS ""))
        | Error _ m => mret (Responded (mkResult UNKNOWN_ERROR m))
        end in
      match db_api with
      | None => finish (Error ABORTED "DbAgent not initialized.") "" false
      | Some fetch =>
          if bool_decide (block_id = "") then finish OK "" true
          else
            next ← gets br_load_next_id;
            if count <? next then mret (Responded (mkResult SUCCESS ""))
            else let (s, out) := fetch_loop fetch 0 11 in finish s out false
      end
    else mret (Responded (mkResult INVALID_REQUEST
                            "Not follower, cannot handle dataload request...")).

Definition ConnectHandler (request : ConnectRequest) : M S (reply (string * Z)) :=
  state ← gets br_state;
  app_id ← gets br_appli_id;
  rank ← gets br_rank_id;
  if bool_decide (state = NEW) then
    if bool_decide (cr_app_id request = app_id) && (cr_worker_rank request =? rank) then
      on_cache (OnConnected request);;
      set_link_up true;;
      mret (Responded (app_id, rank))
    else mret Refused
  else
    set_link_up false;;
    stopM (Exit 138).

Definition HeartbeatHandler : M S (string * Z * Z) :=
  app_id ← gets br_appli_id;
  rank ← gets br_rank_id;
  iter ← on_stats CurrentIterId;
  mret (app_id, rank, iter).
End service.

(** ** What the operations do *)
Section specification.
Context {D : Type}.
Abbreviation message := (TrainerWorkerMessage D).
Abbreviation cache := (RpcBridgeRecvCache D).

(** The number of the message that the service wants. *)
Definition br_want (s : bridge D) : Z := st_next_recv_seq_num (br_stats s).

(** The cache after a message was taken into slot [k]. *)
Definition received (k : string * string) (m : message) (c : cache) : cache :=
  let e := entry_at k c in
  let c' := set_entry k (mkEntry ACTIVE m OK (ce_callback e)) c in
  if bool_decide (ce_state e = WAIT) then (notify (ce_callback e) c').2 else c'.

Lemma OnReceived_run m c :
  OnReceived m c =
    match slot_of m with
    | None => (Ret (Error INVALID_ARGUMENT "Invalid msg case:"), c)
    | Some (k, w) =>
        if w && bool_decide (ce_state (entry_at k c) = ACTIVE)
        then (Ret (Error ABORTED "Reject."), c) else (Ret OK, received k m c)
    end.
Proof.
  unfold OnReceived. destruct (slot_of m) as [[k w]|]; [|done].
  rewrite run_bind. cbn [gets]. destruct (w && _); [done|].
  unfold received. rewrite !run_bind. cbn [modify]. rewrite run_bind.
  by destruct (bool_decide (ce_state (entry_at k c) = WAIT)).
Qed.

(** What the service does with a message: drop it, reject it, take it. *)
Inductive served (m : message) (s s' : bridge D) : TrainerWorkerResponse → Prop :=
  | served_dropped r :
      seq_num m ≠ br_want s →
      result_code (status r) =
        (if br_want s <? seq_num m then MESSAGE_MISSING else MESSAGE_DUPLICATED) →
      br_cache s' = br_cache s → br_want s' = br_want s → served m s s' r
  | served_rejected r :
      seq_num m = br_want s → result_code (status r) = UNKNOWN_ERROR →
      (∀ k w, slot_of m = Some (k, w) → w = true ∧ ce_state (entry_at k (br_cache s)) = ACTIVE) →
      br_cache s' = br_cache s → br_want s' = br_want s → served m s s' r
  | served_accepted r k w :
      seq_num m = br_want s → result_code (status r) = SUCCESS →
      slot_of m = Some (k, w) →
      (w = true → ce_state (entry_at k (br_cache s)) ≠ ACTIVE) →
      br_cache s' = received k m (br_cache s) → br_want s' = br_want s + 1 → served m s s' r.

Lemma answer_message_run m s :
  ∃ r s', answer_message m s = (Ret r, s') ∧ br_link_up s' = br_link_up s ∧ served m s s' r.
Proof.
  unfold answer_message. do 2 (rewrite run_bind; cbn). fold (br_want s).
  destruct (seq_num m =? br_want s) eqn:Heq.
  - apply Z.eqb_eq in Heq. rewrite run_bind. unfold on_cache, zoom. cbn [br_cache].
    rewrite OnReceived_run. destruct (slot_of m) as [[k w]|] eqn:Hk.
    + destruct (w && _) eqn:Hw.
      * eexists _, _. split_and!; [reflexivity|done|]. apply served_rejected; try done.
        intros k' w' Hk'. rewrite Hk in Hk'. simplify_eq.
        apply andb_prop in Hw as [-> Hw]. split; [done|]. by apply bool_decide_eq_true in Hw.
      * eexists _, _. split_and!; [reflexivity|done|].
        apply served_accepted with k w; try done. intros ->. cbn in Hw.
        by apply bool_decide_eq_false in Hw.
    + eexists _, _. split_and!; [reflexivity|done|]. apply served_rejected; try done.
      intros k' w' Hk'. by rewrite Hk in Hk'.
  - apply Z.eqb_neq in Heq. eexists _, _. split_and!; [reflexivity|done|].
    by apply served_dropped.
Qed.

Lemma StreamTransmitHandler_run m s :
  if br_link_up s then
    ∃ r s', StreamTransmitHandler m s = (Ret (Responded r), s') ∧ br_link_up s' = true ∧
            served m s s' r
  else StreamTransmitHandler m s = (Ret Refused, s).
Proof.
  unfold StreamTransmitHandler. destruct (br_link_up s) eqn:Hup; rewrite run_bind; cbn [gets];
    rewrite Hup; [|done].
  destruct (answer_message_run m s) as (r & s' & Hr & Hl & Hs).
  exists r, s'. rewrite (run_bind_ret _ _ _ _ _ Hr). split_and!; [done|congruence|done].
Qed.

(** *** The entries of the cache *)
Lemma entry_set k k' e (c : cache) :
  entry_at k' (set_entry k e c) = if decide (k' = k) then e else entry_at k' c.
Proof.
  unfold entry_at, set_entry. cbn. case_decide as Hk.
  - subst. by rewrite lookup_insert_eq.
  - by rewrite lookup_insert_ne.
Qed.
Lemma entry_received k k' m (c : cache) :
  entry_at k' (received k m c)
  = if decide (k' = k) then mkEntry ACTIVE m OK (ce_callback (entry_at k c)) else entry_at k' c.
Proof.
  unfold received. rewrite <- entry_set.
  destruct (bool_decide _); [|done]. by destruct (ce_callback _).
Qed.
Lemma notified_received k m (c : cache) :
  rc_notified (received k m c)
  = match bool_decide (ce_state (entry_at k c) = WAIT), ce_callback (entry_at k c) with
    | true, Some n => {[n]} ∪ rc_notified c
    | _, _ => rc_notified c
    end.
Proof. unfold received. destruct (bool_decide _); [|done]. by destruct (ce_callback _). Qed.
End specification.

(** ** The blocks of the follower *)

(** What happens at the follower: a request for block [i] of the leader's, again or
    for the first time; the request that ends the files; a turn of the operator
    that asks for a file, and the end of its wait. *)
Inductive load_event :=
  | LoadRequest (i : nat) (fetch : nat → Status * FetchDataBlockResponse)
  | EndRequest
  | AskFile (n retries : nat)
  | AskAgain.

Section loading.
Context {D : Type} (prepare : string → Z * string).
(** The blocks that the leader asks for, in order. *)
Context (blocks : list string).
Abbreviation follower := (bridge D * list string)%type.

Definition on_bridge {A} : M (bridge D) A → M follower A := zoom fst (λ b s, (b, s.2)).

(** The leader counts its requests and goes on after an answer, so no request is
    ahead of the blocks that were loaded. *)
Definition load_step (e : load_event) : M follower unit :=
  match e with
  | LoadRequest i fetch =>
      next ← gets (λ s, br_load_next_id s.1);
      match blocks !! i with
      | Some b =>
          if Z.of_nat i <=? next then
            on_bridge (LoadDataBlockHandler prepare (Some fetch) (Z.of_nat i) b);; mret tt
          else mret tt
      | None => mret tt
      end
  | EndRequest =>
      next ← gets (λ s, br_load_next_id s.1);
      if Z.of_nat (length blocks) <=? next then
        on_bridge (LoadDataBlockHandler prepare (Some (λ _, (OK, mkFetched NOT_READY "")))
                     (Z.of_nat (length blocks)) "");; mret tt
      else mret tt
  | AskFile n retries =>
      r ← on_bridge (on_cache (QueryReadyFile n retries));
      match r with
      | Some (OK, fname, false) => modify (λ s, (s.1, s.2 ++ [fname]))
      | _ => mret tt
      end
  | AskAgain => on_bridge (on_cache QueryReadyFile_woken)
  end.
Definition load_run (es : list load_event) : M follower unit := forM es load_step.

(** The data center knows one path for each block. *)
Context (path : string → string).
Definition truthful (e : load_event) : Prop :=
  match e with
  | LoadRequest i fetch => ∀ b n r, blocks !! i = Some b → fetch n = (OK, r) →
      status_code r = DC_OK → data_path r = path b
  | _ => True
  end.
Definition local_file (b : string) : string := (prepare (path b)).2.

Lemma fetch_loop_file fetch b retries left out :
  (∀ n r, fetch n = (OK, r) → status_code r = DC_OK → data_path r = path b) →
  fetch_loop prepare fetch retries left = (OK, out) → out = local_file b.
Proof.
  intros Hf. revert retries. induction left as [|left IH]; intros retries; [done|]. cbn.
  destruct (fetch retries) as [[|c m] r] eqn:Hr; [|apply IH].
  specialize (Hf retries r Hr).
  destruct (status_code r); [|apply IH|done..].
  rewrite (Hf eq_refl). unfold local_file. destruct (prepare (path b)) as [ret o].
  destruct (ret =? 0); by intros [= <-].
Qed.

#[local] Arguments fetch_loop : simpl never.

(** What was handed out and what waits are the files of the blocks so far; the end
    is only announced after the last block. *)
Record loads_ok (s : follower) : Prop := mkLoadsOk {
  ld_next : 0 ≤ br_load_next_id s.1;
  ld_files : s.2 ++ fc_q_files (rc_files_ready_cache (br_cache s.1))
             = local_file <$> take (Z.to_nat (br_load_next_id s.1)) blocks;
  ld_end : fc_state (rc_files_ready_cache (br_cache s.1)) = ACTIVE →
    Z.of_nat (length blocks) ≤ br_load_next_id s.1;
}.

Lemma OnFile_run fname e (c : RpcBridgeRecvCache D) : ∃ c',
  OnFile fname e c = (Ret OK, c') ∧
  fc_q_files (rc_files_ready_cache c')
    = fc_q_files (rc_files_ready_cache c) ++ (if e then [] else [fname]) ∧
  fc_state (rc_files_ready_cache c')
    = (if e then ACTIVE else fc_state (rc_files_ready_cache c)).
Proof.
  unfold OnFile. rewrite !run_bind. cbn. rewrite !run_bind. cbn.
  destruct (fc_callback _); eexists; split_and!; try reflexivity; destruct e; cbn;
    by rewrite ?app_nil_r.
Qed.

(** The answer of the follower to a request, by what it did. *)
Lemma LoadDataBlockHandler_run fetch count block_id (s : bridge D) :
  (∃ r, LoadDataBlockHandler prepare (Some fetch) count block_id s = (Ret r, s)) ∨
  ∃ r s', LoadDataBlockHandler prepare (Some fetch) count block_id s = (Ret r, s') ∧
    ((br_cache s' = br_cache s ∧ br_load_next_id s' = br_load_next_id s) ∨
     ∃ out c', OnFile out (bool_decide (block_id = "")) (br_cache s) = (Ret OK, c') ∧
       br_cache s' = c' ∧ br_load_next_id s' = br_load_next_id s + 1 ∧
       (block_id ≠ "" → br_load_next_id s ≤ count ∧ fetch_loop prepare fetch 0 11 = (OK, out))).
Proof.
  unfold LoadDataBlockHandler. rewrite run_bind. cbn.
  destruct (br_link_up s) eqn:Hup; cbn; [|by left; eexists]. right.
  rewrite !run_bind. cbn. rewrite run_bind. cbn.
  destruct (bool_decide (br_role_def s = RoleDef_Follower)); [|by eexists _, _; split; [|left]].
  destruct (bool_decide (block_id = "")) eqn:Hb.
  - destruct (OnFile_run "" true (br_cache s)) as (c' & Hc & _). rewrite run_bind.
    unfold on_cache, zoom. cbn [br_cache]. rewrite Hc. eexists _, _. split; [reflexivity|].
    right. exists "", c'. split_and!; try done. intros Hne. by apply bool_decide_eq_true in Hb.
  - rewrite run_bind. cbn. destruct (count <? br_load_next_id s) eqn:Hlt;
      [by eexists _, _; split; [|left]|].
    destruct (fetch_loop prepare fetch 0 11) as [[|c m] out] eqn:Hf; [|by eexists _, _; split; [|left]].
    destruct (OnFile_run out false (br_cache s)) as (c' & Hc & _). rewrite run_bind.
    unfold on_cache, zoom. cbn [br_cache]. rewrite Hc. eexists _, _. split; [reflexivity|].
    right. exists out, c'. split_and!; try done. intros _. split; [|done]. lia.
Qed.

Lemma loads_ok_same (s : follower) b' :
  loads_ok s → br_load_next_id b' = br_load_next_id s.1 → br_cache b' = br_cache s.1 →
  loads_ok (b', s.2).
Proof. intros [L1 L2 L3] H1 H2. split; cbn; by rewrite ?H1, ?H2. Qed.

Lemma load_request_ok fetch i b (s : follower) :
  loads_ok s → blocks !! i = Some b → b ≠ "" → Z.of_nat i ≤ br_load_next_id s.1 →
  (∀ n r, fetch n = (OK, r) → status_code r = DC_OK → data_path r = path b) →
  ∃ r b', LoadDataBlockHandler prepare (Some fetch) (Z.of_nat i) b s.1 = (Ret r, b') ∧ loads_ok (b', s.2).
Proof.
  intros Hs Hi Hb Hle Hf.
  destruct (LoadDataBlockHandler_run fetch (Z.of_nat i) b s.1)
    as [[r Hr]|(r & b' & Hr & [[Hc Hn]|(out & c' & Hc & <- & Hn & Hne)])].
  - exists r, s.1. split; [done|]. by apply loads_ok_same.
  - exists r, b'. split; [done|]. by apply loads_ok_same.
  - exists r, b'. split; [done|]. destruct (Hne Hb) as [Hge Hout]. destruct Hs as [L1 L2 L3].
    rewrite bool_decide_false in Hc by done.
    destruct (OnFile_run out false (br_cache s.1)) as (c2 & Hc2 & Eq & Es). rewrite Hc in Hc2. simplify_eq.
    assert (br_load_next_id s.1 = Z.of_nat i) as Hni by lia.
    split; cbn; rewrite ?Hn, ?Hni in *.
    + lia.
    + rewrite Eq, (assoc_L (++)), L2. replace (Z.to_nat (Z.of_nat i + 1)) with (S i) by lia.
      rewrite Nat2Z.id, (take_S_r _ _ b) by done. rewrite fmap_app. cbn.
      by rewrite (fetch_loop_file fetch b 0 11 out).
    + rewrite Es. intros Ha%L3. apply lookup_lt_Some in Hi. lia.
Qed.

Lemma end_request_ok fetch count (s : follower) :
  loads_ok s → Z.of_nat (length blocks) ≤ br_load_next_id s.1 →
  ∃ r b', LoadDataBlockHandler prepare (Some fetch) count "" s.1 = (Ret r, b') ∧ loads_ok (b', s.2).
Proof.
  intros Hs Hle.
  destruct (LoadDataBlockHandler_run fetch count "" s.1)
    as [[r Hr]|(r & b' & Hr & [[Hc Hn]|(out & c' & Hc & <- & Hn & _)])].
  - exists r, s.1. split; [done|]. by apply loads_ok_same.
  - exists r, b'. split; [done|]. by apply loads_ok_same.
  - exists r, b'. split; [done|]. destruct Hs as [L1 L2 L3].
    rewrite bool_decide_true in Hc by done.
    destruct (OnFile_run out true (br_cache s.1)) as (c2 & Hc2 & Eq & Es). rewrite Hc in Hc2. simplify_eq.
    split; cbn; rewrite ?Hn in *; [lia| |intros _; lia].
    rewrite Eq, app_nil_r, L2. by rewrite !take_ge by lia.
Qed.

Lemma ask_file_ok n retries (s : follower) :
  loads_ok s → ∃ s', load_step (AskFile n retries) s = (Ret tt, s') ∧ loads_ok s'.
Proof.
  intros [L1 L2 L3]. cbn [load_step]. rewrite run_bind. unfold on_bridge, on_cache, zoom, QueryReadyFile.
  rewrite run_bind. cbn [gets fst].
  destruct (fc_q_files (rc_files_ready_cache (br_cache s.1))) as [|f fs] eqn:Hq.
  - destruct (bool_decide _) eqn:Ha; [eexists; split; [reflexivity|]; by split; cbn; rewrite ?Hq|].
    destruct (bool_decide (1 < retries)%nat); eexists; (split; [reflexivity|]); split; cbn; rewrite ?Hq; done.
  - eexists. split; [reflexivity|]. split; cbn; [done| |done].
    rewrite <- L2. by rewrite <- (assoc_L (++)).
Qed.

Lemma load_step_ok e (s : follower) :
  Forall (λ b, b ≠ "") blocks → truthful e → loads_ok s →
  ∃ s', load_step e s = (Ret tt, s') ∧ loads_ok s'.
Proof.
  intros Hne He Hs. destruct e as [i fetch| |n retries|].
  - cbn [load_step]. rewrite run_bind. cbn [gets].
    destruct (blocks !! i) as [b|] eqn:Hb; [|by eexists].
    destruct (Z.of_nat i <=? br_load_next_id s.1) eqn:Hle; [|by eexists].
    destruct (load_request_ok fetch i b s) as (r & b' & Hr & Hok); [done|done| |lia| |].
    + rewrite Forall_lookup in Hne. by eapply Hne.
    + intros n x. by apply (He b n x).
    + exists (b', s.2). unfold on_bridge, zoom. rewrite run_bind, Hr. done.
  - cbn [load_step]. rewrite run_bind. cbn [gets].
    destruct (Z.of_nat (length blocks) <=? br_load_next_id s.1) eqn:Hle; [|by eexists].
    destruct (end_request_ok (λ _, (OK, mkFetched NOT_READY "")) (Z.of_nat (length blocks)) s)
      as (r & b' & Hr & Hok); [done|lia|].
    exists (b', s.2). unfold on_bridge, zoom. rewrite run_bind, Hr. done.
  - by apply ask_file_ok.
  - eexists. split; [reflexivity|]. destruct Hs as [L1 L2 L3]. by split.
Qed.

(** A follower that has loaded nothing yet. *)
Definition nothing_loaded (b : bridge D) : Prop :=
  br_load_next_id b = 0 ∧ rc_files_ready_cache (br_cache b) = mkFiles IDLE 0 None [].

(** C23. The follower trains on the leader's blocks, each once and in order.
    However often a request is repeated and whichever attempts to fetch a block
    fail, as long as no request is ahead of the blocks that were loaded: the
    handlers never fail, the files that the operator was given are those of the
    first blocks in the order of the leader, and the end of the files is announced
    only when every block has been loaded. *)
Theorem blocks_are_loaded_once b es :
  nothing_loaded b → Forall (λ x, x ≠ "") blocks → Forall truthful es →
  ∃ b' handed, load_run es (b, []) = (Ret tt, (b', handed)) ∧
    handed `prefix_of` (local_file <$> take (Z.to_nat (br_load_next_id b')) blocks) ∧
    (∀ n r fname, (QueryReadyFile n r (br_cache b')).1 = Ret (Some (OK, fname, true)) →
       handed = local_file <$> blocks).
Proof.
  intros [Hn Hf] Hb. assert (loads_ok (b, [])) as Hs.
  { split; cbn; rewrite ?Hn, ?Hf; cbn; done. }
  revert Hs. generalize (b, @nil string). unfold load_run.
  induction es as [|e es IH]; intros s Hs Hes.
  - exists s.1, s.2. split_and!; [by destruct s|by eexists; symmetry; apply (ld_files _ Hs)|].
    intros n r fname. unfold QueryReadyFile. rewrite run_bind. cbn [gets].
    destruct Hs as [L1 L2 L3]. destruct (fc_q_files _) as [|f fs]; [|done].
    destruct (bool_decide _) eqn:Ha; [|by destruct (bool_decide (1 < r)%nat)].
    apply bool_decide_eq_true in Ha. intros _. rewrite app_nil_r in L2. rewrite L2.
    by rewrite take_ge by (specialize (L3 Ha); lia).
  - inversion_clear Hes as [|? ? He Hes']. destruct (load_step_ok e s Hb He Hs) as (s' & Hst & Hok).
    cbn [forM]. rewrite (run_bind_ret _ _ _ _ _ Hst). by apply IH.
Qed.
End loading.

(** ** Starting and stopping *)

(** The manager with the flags of [InitServer] and [InitRpcChannel], and whether the
    agents of the two channels exist. *)
Record manager (D : Type) := mkManager {
  mg_bridge : bridge D;
  mg_service_initialized : bool;
  mg_train_channel_initialized : bool;
  mg_data_channel_initialized : bool;
  mg_bridge_impl : bool;
  mg_dc_impl : bool;
}.
Arguments mkManager {_}. Arguments mg_bridge {_}. Arguments mg_service_initialized {_}.
Arguments mg_train_channel_initialized {_}. Arguments mg_data_channel_initialized {_}.
Arguments mg_bridge_impl {_}. Arguments mg_dc_impl {_}.

Section manager.
Context {D : Type}.

(** [built]: whether the gRPC server could be started. *)
Definition InitServer (appli_id : string) (rank_id : Z) (role_def : string) (built : bool)
    : M (manager D) Status := λ g,
  if mg_service_initialized g then (Ret OK, g)
  else
    let b := mg_bridge g in
    let b' := mkBridge appli_id rank_id role_def (br_state b) new_stats (br_cache b) false
                (br_load_next_id b) in
    (Ret (if built then OK else Error UNKNOWN "Could not start gRPC server:"),
     mkManager b' built (mg_train_channel_initialized g) (mg_data_channel_initialized g)
       (mg_bridge_impl g) (mg_dc_impl g)).

Definition InitRpcChannel (channel_type : string) (created : bool) : M (manager D) Status := λ g,
  if bool_decide (channel_type = "TRAIN") then
    if mg_train_channel_initialized g then (Ret OK, g)
    else if created then
      (Ret OK, mkManager (mg_bridge g) (mg_service_initialized g) true
                 (mg_data_channel_initialized g) true (mg_dc_impl g))
    else (Ret (Error UNKNOWN "Could not create gRPC Channel"), g)
  else if bool_decide (channel_type = "DATA") then
    if mg_data_channel_initialized g then (Ret OK, g)
    else if created then
      (Ret OK, mkManager (mg_bridge g) (mg_service_initialized g) (mg_train_channel_initialized g)
                 true (mg_bridge_impl g) true)
    else (Ret (Error UNKNOWN "Could not create DC gRPC Channel"), g)
  else (Ret (Error UNKNOWN "Channel type invalid: "), g).

Definition Stop_mgr : M (manager D) Status := λ g,
  (Ret OK, mkManager (mg_bridge g) (mg_service_initialized g) (mg_train_channel_initialized g)
             (mg_data_channel_initialized g) false false).

(** After a stop the channel counts as initialised, so asking for it again succeeds
    and leaves the agent missing. *)
Lemma stopped_channel_is_not_created (g g1 g2 : manager D) created :
  mg_train_channel_initialized g = true → Stop_mgr g = (Ret OK, g1) →
  InitRpcChannel "TRAIN" created g1 = (Ret OK, g2) → mg_bridge_impl g2 = false.
Proof.
  intros Hg [= <-]. unfold InitRpcChannel. cbn. rewrite Hg. by intros [= <-].
Qed.
End manager.

(** ** An example *)
Module TestLoad.
Definition follower : bridge Z := mkBridge "app" 0 "follower" STARTED new_stats new_cache true 0.
Definition prepare : string → Z * string := PrepareFile "" id (λ _ _, 0).
Definition fetched (b : string) (n : nat) : Status * FetchDataBlockResponse :=
  if bool_decide (n = 0%nat) then (OK, mkFetched NOT_READY "") else (OK, mkFetched DC_OK ("/data/" +:+ b)).
Definition blocks : list string := ["b0"; "b1"].
(** The answer to the first request is lost and it is made again; the end comes twice. *)
Definition es : list load_event :=
  [AskFile 0 0; LoadRequest 0 (fetched "b0"); LoadRequest 0 (fetched "b0"); AskAgain; AskFile 1 1;
   LoadRequest 1 (fetched "b1"); EndRequest; EndRequest; AskFile 2 0].

(** A request that is ahead is taken, and the block between is missing. *)
Example gap_is_not_noticed :
  (load_run prepare ["b0"] [LoadRequest 0 (fetched "b0")] (follower, [])).1 = Ret tt ∧
  (LoadDataBlockHandler prepare (Some (fetched "b5")) 5 "b5" follower).1
    = Ret (Responded (mkResult SUCCESS "")).
Proof. split; vm_compute; reflexivity. Qed.
End TestLoad.

Section witnesses.
Import TestLoad.
Lemma blocks_are_loaded_once_witness : ∃ b' handed,
  load_run prepare blocks es (follower, []) = (Ret tt, (b', handed)) ∧
  handed `prefix_of` ["/data/b0"; "/data/b1"].
Proof.
  assert (∀ i x, blocks !! i = Some x → truthful blocks (λ b, "/data/" +:+ b) (LoadRequest i (fetched x)))
    as Ht.
  { intros i x Hx b n r Hb. rewrite Hx in Hb. injection Hb as <-. unfold fetched.
    destruct (bool_decide _); intros [= <-]; [discriminate|reflexivity]. }
  destruct (blocks_are_loaded_once prepare blocks (λ b, "/data/" +:+ b) follower es)
    as (b' & h & H1 & H2 & _).
  - split; reflexivity.
  - repeat constructor; discriminate.
  - unfold es. rewrite !Forall_cons. split_and!; try exact I; try (by apply Ht). constructor.
  - exists b', h. split; [exact H1|]. etrans; [exact H2|]. rewrite fmap_take. apply prefix_take.
Defined.
Example both_files : (load_run prepare blocks es (follower, [])).2.2 = ["/data/b0"; "/data/b1"].
Proof. vm_compute. reflexivity. Qed.
End witnesses.
