(* ===== verification/BridgeAgent.v ===== *)
(** * The bridge of the trainers: the sending side and the link

    src/src/Trainer/rpc/rpc_bridge/rpc_bridge_agent.cc: the agent that numbers of
    threads give their messages to, with its retry thread, and fl_rpc_state.h under
    it.  The agent, the network and the service of [Bridge] on the other side are
    one transition system: a step is what one thread does between two points where
    another may run.  Every message that the agent takes is delivered once and in
    order, whatever calls fail; the retry thread can miss its wake-up. *)

From stdpp Require Import base tactics list gmap strings sorting.
From Stdlib Require Import ZArith Lia.
From S2P Require Import Prelude Bridge.
Open Scope Z_scope.

(** ** One call at a time

    [FlRPCState]: a unary call is repeated while it fails with a code that may
    pass and there are retries left. *)
Definition kMaxWorkerRpcRetries : nat := 1.
Definition may_pass (s : Status) : bool :=
  match s with Error UNAVAILABLE _ | Error UNKNOWN _ => true | _ => false end.

Section unary.
Context {R : Type}.
(** What becomes of each attempt: the answer, or the status of its failure. *)
Fixpoint rpc_attempts (outcomes : nat → R + Status) (num_retries left : nat) : R + Status :=
  match outcomes num_retries with
  | inl r => inl r
  | inr s =>
      match left with
      | O => inr s
      | S left' => if may_pass s then rpc_attempts outcomes (S num_retries) left' else inr s
      end
  end.
Definition IssueRequest (outcomes : nat → R + Status) : R + Status :=
  rpc_attempts outcomes 0 kMaxWorkerRpcRetries.
End unary.

(** ** The agent *)
Inductive ChannelState := kActive | kInactive.
#[export] Instance channel_state_eq_dec : EqDecision ChannelState.
Proof. solve_decision. Defined.

Section agent.
Context {D : Type}.
Abbreviation message := (TrainerWorkerMessage D).

(** Where a caller of [StreamingRequestEnqueue] is; it holds [dispatch_mu_] from
    the test of the channel on. *)
Inductive caller :=
  | NoCaller
  | Tested (m : message)
  | Queued (call : nat) (m : message).
(** Where the retry thread is. *)
Inductive retry_thread :=
  | Testing
  | SettingCallback
  | Waiting
  | Taking
  | Sending (m : message)
  | Awaiting (call : nat) (m : message)
  | Activating.

(** [msg_exchanges_] with [msg_exchanges_cache_], the priority queue
    [msg_reexchanges_] in its order, whether [retry_cb_] is set, and whether the
    notification it gives has been given. *)
Record agent := mkAgent {
  ag_channel_state : ChannelState;
  ag_msg_exchanges : list nat;
  ag_msg_exchanges_cache : gmap nat message;
  ag_msg_reexchanges : list message;
  ag_retry_cb : bool;
  ag_notified : bool;
  ag_caller : caller;
  ag_retry : retry_thread;
}.
Definition new_agent : agent := mkAgent kActive [] ∅ [] false false NoCaller Testing.

(** The queue of the messages to send again: the one with the least number first. *)
Fixpoint emplace (m : message) (l : list message) : list message :=
  match l with
  | [] => [m]
  | x :: l' => if seq_num m <? seq_num x then m :: l else x :: emplace m l'
  end.

Definition set_caller (c : caller) (a : agent) : agent :=
  mkAgent (ag_channel_state a) (ag_msg_exchanges a) (ag_msg_exchanges_cache a)
    (ag_msg_reexchanges a) (ag_retry_cb a) (ag_notified a) c (ag_retry a).
Definition set_retry (r : retry_thread) (a : agent) : agent :=
  mkAgent (ag_channel_state a) (ag_msg_exchanges a) (ag_msg_exchanges_cache a)
    (ag_msg_reexchanges a) (ag_retry_cb a) (ag_notified a) (ag_caller a) r.
Definition set_channel (c : ChannelState) (a : agent) : agent :=
  mkAgent c (ag_msg_exchanges a) (ag_msg_exchanges_cache a) (ag_msg_reexchanges a)
    (ag_retry_cb a) (ag_notified a) (ag_caller a) (ag_retry a).
Definition set_exchanges (l : list nat) (c : gmap nat message) (a : agent) : agent :=
  mkAgent (ag_channel_state a) l c (ag_msg_reexchanges a) (ag_retry_cb a) (ag_notified a)
    (ag_caller a) (ag_retry a).
Definition set_reexchanges (l : list message) (a : agent) : agent :=
  mkAgent (ag_channel_state a) (ag_msg_exchanges a) (ag_msg_exchanges_cache a) l
    (ag_retry_cb a) (ag_notified a) (ag_caller a) (ag_retry a).
Definition set_retry_cb (b notified : bool) (a : agent) : agent :=
  mkAgent (ag_channel_state a) (ag_msg_exchanges a) (ag_msg_exchanges_cache a)
    (ag_msg_reexchanges a) b notified (ag_caller a) (ag_retry a).

(** "trigger re-send": the last message of the exchanges has come back, and the
    retry thread is told if it waits. *)
Definition trigger (a : agent) : agent :=
  if bool_decide (ag_msg_exchanges a = []) && ag_retry_cb a then set_retry_cb true true a else a.

(** The test of [StreamingRequestEnqueue]; without an active channel the caller
    gets [Unavailable]. *)
Definition enqueue_test (m : message) (a : agent) : agent :=
  if bool_decide (ag_channel_state a = kActive) then set_caller (Tested m) a else a.
Definition enqueue_push (call : nat) (m : message) (a : agent) : agent :=
  set_caller (Queued call m)
    (set_exchanges (ag_msg_exchanges a ++ [call])
       (<[call := m]> (ag_msg_exchanges_cache a)) a).
(** The stream is dead: the message is taken out again and the caller gets the
    error. *)
Definition enqueue_failed (call : nat) (a : agent) : agent :=
  set_caller NoCaller
    (set_exchanges (removelast (ag_msg_exchanges a)) (delete call (ag_msg_exchanges_cache a)) a).

Definition is_done (r : TrainerWorkerResponse) : bool :=
  bool_decide (result_code (status r) = SUCCESS)
  || bool_decide (result_code (status r) = MESSAGE_DUPLICATED).

(** The callback of a call that has come back with an answer or with an error; all
    callbacks run in the polling thread.  It is one step: between its locks the
    message is in neither queue, and what another thread can do then it could as
    well have done before or after. *)
Definition on_completed (call : nat) (m : message) (r : option TrainerWorkerResponse) (a : agent)
    : agent :=
  let a1 := set_exchanges (tail (ag_msg_exchanges a)) (delete call (ag_msg_exchanges_cache a)) a in
  match r with
  | Some resp =>
      let a2 :=
        if is_done resp then a1
        else set_reexchanges (emplace m (ag_msg_reexchanges a1)) (set_channel kInactive a1) in
      if bool_decide (ag_msg_reexchanges a2 = []) then a2 else trigger a2
  | None => trigger (set_reexchanges (emplace m (ag_msg_reexchanges a1)) (set_channel kInactive a1))
  end.

(** ** The agent, the network and the other side

    [nt_calls]: calls that the service has not seen; [nt_answers]: what it has
    answered.  [nt_waiting]: the operators that wait for a message, one for each
    key.  The logs: the messages that the agent took, those that the service
    accepted, those that the operators took. *)
Record net := mkNet {
  nt_agent : agent;
  nt_next : nat;
  nt_calls : gmap nat message;
  nt_answers : list (nat * TrainerWorkerResponse);
  nt_bridge : bridge D;
  nt_waiting : gmap (string * string) nat;
  nt_sent : list message;
  nt_accepted : list message;
  nt_taken : list ((string * string) * message);
}.
Definition new_net (b : bridge D) : net := mkNet new_agent 0 ∅ [] b ∅ [] [] [].

Definition on_agent (f : agent → agent) (s : net) : net :=
  mkNet (f (nt_agent s)) (nt_next s) (nt_calls s) (nt_answers s) (nt_bridge s) (nt_waiting s)
    (nt_sent s) (nt_accepted s) (nt_taken s).
Definition add_sent (m : message) (s : net) : net :=
  mkNet (nt_agent s) (nt_next s) (nt_calls s) (nt_answers s) (nt_bridge s) (nt_waiting s)
    (nt_sent s ++ [m]) (nt_accepted s) (nt_taken s).
(** [SendNextRequest] on a stream that is alive. *)
Definition SendNextRequest (call : nat) (m : message) (s : net) : net :=
  mkNet (nt_agent s) (nt_next s) (<[call := m]> (nt_calls s)) (nt_answers s) (nt_bridge s)
    (nt_waiting s) (nt_sent s) (nt_accepted s) (nt_taken s).
Definition next_id (s : net) : net :=
  mkNet (nt_agent s) (S (nt_next s)) (nt_calls s) (nt_answers s) (nt_bridge s) (nt_waiting s)
    (nt_sent s) (nt_accepted s) (nt_taken s).

Inductive event :=
  | EnqueueTest (m : message)
  | EnqueuePush
  | EnqueueSend (alive : bool)
  | Completed (r : option TrainerWorkerResponse)
  | Retry (alive : bool)
  | RetryCompleted (r : option TrainerWorkerResponse)
  | Serve (call : nat)
  | Query (k : string * string)
  | QueryWoken (k : string * string) (ok : bool).

(** An answer can come back to a call only after the service gave it. *)
Definition answered (call : nat) (r : option TrainerWorkerResponse) (s : net) : Prop :=
  match r with Some resp => (call, resp) ∈ nt_answers s | None => True end.
#[export] Instance answered_dec call r s : Decision (answered call r s).
Proof. destruct r; simpl; apply _. Defined.

(** The retry thread; [ResetCall], which drops the stream, leaves it to the network
    what becomes of its calls. *)
Definition retry_step (alive : bool) (s : net) : option net :=
  let a := nt_agent s in
  let free := match ag_caller a with NoCaller => true | _ => false end in
  match ag_retry a with
  | Testing =>
      Some (on_agent (set_retry (if bool_decide (ag_msg_reexchanges a = []) then SettingCallback
                                 else Taking)) s)
  | SettingCallback =>
      if free then Some (on_agent (λ a, set_retry Waiting (set_retry_cb true false a)) s) else None
  | Waiting =>
      if ag_notified a then Some (on_agent (λ a, set_retry Taking (set_retry_cb false true a)) s)
      else None
  | Taking =>
      match ag_msg_reexchanges a with
      | [] => Some (on_agent (set_retry Activating) s)
      | m :: l => Some (on_agent (λ a, set_retry (Sending m) (set_reexchanges l a)) s)
      end
  | Sending m =>
      if negb free then None
      else if alive then
        Some (next_id (SendNextRequest (nt_next s) m
                         (on_agent (set_retry (Awaiting (nt_next s) m)) s)))
      else Some s
  | Awaiting _ _ => None
  | Activating => Some (on_agent (λ a, set_retry Testing (set_channel kActive a)) s)
  end.

(** The service answers a call. *)
Definition serve (call : nat) (m : message) (s : net) : option net :=
  match StreamTransmitHandler m (nt_bridge s) with
  | (Ret (Responded r), b) =>
      Some (mkNet (nt_agent s) (nt_next s) (delete call (nt_calls s))
              (nt_answers s ++ [(call, r)]) b (nt_waiting s) (nt_sent s)
              (if bool_decide (result_code (status r) = SUCCESS) then nt_accepted s ++ [m]
               else nt_accepted s) (nt_taken s))
  | (Ret Refused, b) =>
      Some (mkNet (nt_agent s) (nt_next s) (delete call (nt_calls s)) (nt_answers s) b
              (nt_waiting s) (nt_sent s) (nt_accepted s) (nt_taken s))
  | (Stop _, _) => None
  end.

(** An operator asks for the message of its key, and goes on after a wait. *)
Definition query (k : string * string) (s : net) : option net :=
  match on_cache (QueryResult (nt_next s) k.1 k.2) (nt_bridge s) with
  | (Ret (Some (m, _)), b) =>
      Some (mkNet (nt_agent s) (nt_next s) (nt_calls s) (nt_answers s) b (nt_waiting s)
              (nt_sent s) (nt_accepted s) (nt_taken s ++ [(k, m)]))
  | (Ret None, b) =>
      Some (mkNet (nt_agent s) (S (nt_next s)) (nt_calls s) (nt_answers s) b
              (<[k := nt_next s]> (nt_waiting s)) (nt_sent s) (nt_accepted s) (nt_taken s))
  | (Stop _, _) => None
  end.
Definition query_woken (k : string * string) (ok : bool) (s : net) : option net :=
  match on_cache (QueryResult_woken ok k.1 k.2) (nt_bridge s) with
  | (Ret (o, _), b) =>
      Some (mkNet (nt_agent s) (nt_next s) (nt_calls s) (nt_answers s) b (delete k (nt_waiting s))
              (nt_sent s) (nt_accepted s)
              (match o with Some m => nt_taken s ++ [(k, m)] | None => nt_taken s end))
  | (Stop _, _) => None
  end.

(** A call that is in the exchanges, but not yet given to the stream. *)
Definition is_queued (call : nat) (c : caller) : bool :=
  match c with Queued call' _ => bool_decide (call = call') | _ => false end.

(** One step, where it is possible. *)
Definition step (e : event) (s : net) : option net :=
  let a := nt_agent s in
  match e with
  | EnqueueTest m =>
      match ag_caller a with NoCaller => Some (on_agent (enqueue_test m) s) | _ => None end
  | EnqueuePush =>
      match ag_caller a with
      | Tested m => Some (next_id (on_agent (enqueue_push (nt_next s) m) s))
      | _ => None
      end
  | EnqueueSend alive =>
      match ag_caller a with
      | Queued call m =>
          Some (if alive then
                  add_sent m (SendNextRequest call m (on_agent (set_caller NoCaller) s))
                else on_agent (enqueue_failed call) s)
      | _ => None
      end
  | Completed r =>
      match ag_msg_exchanges a with
      | call :: _ =>
          if bool_decide (answered call r s) && negb (is_queued call (ag_caller a)) then
            m ← ag_msg_exchanges_cache a !! call;
            Some (on_agent (on_completed call m r) s)
          else None
      | [] => None
      end
  | Retry alive => retry_step alive s
  | RetryCompleted r =>
      match ag_retry a with
      | Awaiting call m =>
          if bool_decide (answered call r s) then
            Some (on_agent (set_retry
                    match r with
                    | Some resp => if is_done resp then Taking else Sending m
                    | None => Sending m
                    end) s)
          else None
      | _ => None
      end
  | Serve call => m ← nt_calls s !! call; serve call m s
  | Query k => match nt_waiting s !! k with None => query k s | Some _ => None end
  | QueryWoken k ok =>
      n ← nt_waiting s !! k;
      if negb ok || bool_decide (n ∈ rc_notified (br_cache (nt_bridge s))) then query_woken k ok s
      else None
  end.

Definition steps (es : list event) (s : net) : option net :=
  foldl (λ o e, o ≫= step e) (Some s) es.
End agent.

Arguments agent : clear implicits.
Arguments net : clear implicits.
Arguments event : clear implicits.
Arguments caller : clear implicits.
Arguments retry_thread : clear implicits.

(** ** How a request is given to the peer

    The sending methods of the agent: the stream with or without waiting, or one
    unary call; all but [RequestGradBpAsync] start the bridge. *)
Inductive request_method := RequestTrainStartAsync | RequestTrainCommitAsync | RequestGradBpAsync
  | RequestDateTransmitAsync.
Inductive transport := ByEnqueue | BySyncWrite | ByUnary.
Definition transport_of (StreamingCall CallSync : bool) : transport :=
  if StreamingCall then if CallSync then BySyncWrite else ByEnqueue else ByUnary.
Definition request {D} (r : request_method) (StreamingCall CallSync : bool) : M (bridge D) transport :=
  match r with RequestGradBpAsync => mret tt | _ => _ ← StateMove STARTED; mret tt end;;
  mret (transport_of StreamingCall CallSync).

(** [StreamingIssueRequest] under a caller that waits for its callback: an inactive
    channel is reset first.  On a dead stream the status of [SendNextRequest] is not
    looked at and the callback never comes: [None]. *)
Definition StreamingIssueRequest (alive : bool) (result : Status)
    : option (Status * ChannelState) :=
  if alive then Some (result, match result with OK => kActive | Error _ _ => kInactive end) else None.

(** ** The cache and the operators that read it *)
Section reading.
Context {D : Type}.
Abbreviation message := (TrainerWorkerMessage D).
Abbreviation cache := (RpcBridgeRecvCache D).

(** The messages of a log that go to slot [k], and those taken from it. *)
Definition at_key (k : string * string) (l : list message) : list message :=
  filter (λ m, fst <$> slot_of m = Some k) l.
Definition taken_of (k : string * string) (l : list ((string * string) * message)) : list message :=
  snd <$> filter (λ x, x.1 = k) l.
Definition data_key (name : string) : string * string :=
  (RpcAgentMethodRecvKey kRpcDataMessage, name).

Lemma at_key_snoc k l m :
  at_key k (l ++ [m]) = at_key k l ++ (if decide (fst <$> slot_of m = Some k) then [m] else []).
Proof. unfold at_key. rewrite filter_app. cbn. by case_decide. Qed.
Lemma taken_of_snoc k l k' m :
  taken_of k (l ++ [(k', m)]) = taken_of k l ++ (if decide (k' = k) then [m] else []).
Proof. unfold taken_of. rewrite filter_app, fmap_app. cbn. by case_decide. Qed.

Definition unread (k : string * string) (c : cache) : list message :=
  if bool_decide (ce_state (entry_at k c) = ACTIVE) then [ce_rdata (entry_at k c)] else [].

(** An operator that waits is the one its entry will notify, or its message is
    there; a data message stays until it is taken. *)
Record cache_ok (c : cache) (waiting : gmap (string * string) nat) (next : nat)
    (taken : list ((string * string) * message)) (accepted : list message) : Prop := mkCacheOk {
  co_wait k n : waiting !! k = Some n → (n < next)%nat ∧
    ((ce_state (entry_at k c) = WAIT ∧ ce_callback (entry_at k c) = Some n ∧ n ∉ rc_notified c)
     ∨ ce_state (entry_at k c) = ACTIVE);
  co_idle k : waiting !! k = None → ce_state (entry_at k c) ≠ WAIT;
  co_inj k k' n : waiting !! k = Some n → waiting !! k' = Some n → k = k';
  co_notified n : n ∈ rc_notified c → (n < next)%nat;
  co_log name :
    taken_of (data_key name) taken ++ unread (data_key name) c = at_key (data_key name) accepted;
}.

Lemma cache_ok_new : cache_ok new_cache ∅ 0 [] [].
Proof. split; cbn; try done; set_solver. Qed.

Lemma cache_ok_later c w n n' t a :
  (n ≤ n')%nat → cache_ok c w n t a → cache_ok c w n' t a.
Proof.
  intros Hn [I1 I2 I3 I4 I5]. split; [|done|done| |done].
  - intros k x Hk. destruct (I1 k x Hk). split; [lia|done].
  - intros x Hx. specialize (I4 x Hx). lia.
Qed.

Lemma data_slot (m : message) k wc name :
  slot_of m = Some (k, wc) → k = data_key name → wc = true.
Proof. unfold slot_of, data_key. destruct (msg m); naive_solver. Qed.

Lemma cache_ok_received c w n t a k m wc :
  cache_ok c w n t a → slot_of m = Some (k, wc) →
  (wc = true → ce_state (entry_at k c) ≠ ACTIVE) →
  cache_ok (received k m c) w n t (a ++ [m]).
Proof.
  intros [I1 I2 I3 I4 I5] Hk Hw. split.
  - intros k' x Hx. destruct (I1 k' x Hx) as [Hlt Hst]. split; [done|].
    rewrite !entry_received, notified_received. case_decide as Hkk; [by right|].
    destruct Hst as [(H1 & H2 & H3)|H]; [left|by right]. split_and!; [done..|].
    destruct (bool_decide _) eqn:Hb; [|done]. apply bool_decide_eq_true in Hb.
    destruct (ce_callback (entry_at k c)) as [y|] eqn:Hy; [|done].
    destruct (w !! k) as [z|] eqn:Hz; [|by destruct (I2 k Hz)].
    destruct (I1 k z Hz) as [_ [(_ & Hc & _)|Ha]]; [|congruence].
    assert (x ≠ y); [|set_solver]. intros ->. rewrite Hy in Hc. simplify_eq.
    by destruct (I3 k' k z).
  - intros k' Hx. rewrite entry_received. case_decide; [done|by apply I2].
  - done.
  - intros x. rewrite notified_received.
    destruct (bool_decide _) eqn:Hb; [|apply I4]. apply bool_decide_eq_true in Hb.
    destruct (ce_callback (entry_at k c)) as [y|] eqn:Hy; [|apply I4].
    intros [->%elem_of_singleton|Hx]%elem_of_union; [|by apply I4].
    destruct (w !! k) as [z|] eqn:Hz; [|by destruct (I2 k Hz)].
    destruct (I1 k z Hz) as [? [(_ & Hc & _)|Ha]]; [|congruence].
    rewrite Hy in Hc. by simplify_eq.
  - intros name. rewrite at_key_snoc, <- I5. unfold unread. rewrite entry_received, Hk.
    cbn [fmap option_fmap option_map fst]. case_decide as Hkk.
    + subst k. rewrite decide_True by done. 
      rewrite (bool_decide_false (ce_state (entry_at (data_key name) c) = ACTIVE)).
      * by rewrite app_nil_r.
      * apply Hw. by eapply data_slot.
    + rewrite decide_False by (intros [= ->]; done). by rewrite app_nil_r.
Qed.

(** An entry gives its message away. *)
Lemma cache_ok_taken c w w' n t a k cb :
  cache_ok c w n t a → ce_state (entry_at k c) = ACTIVE →
  w' = delete k w →
  cache_ok (set_entry k (mkEntry IDLE (ce_rdata (entry_at k c)) (ce_recv_status (entry_at k c)) cb) c)
    w' n (t ++ [(k, ce_rdata (entry_at k c))]) a.
Proof.
  intros [I1 I2 I3 I4 I5] Hk ->. split.
  - intros k' x [Hne Hx]%lookup_delete_Some. rewrite entry_set, decide_False by done. by apply I1.
  - intros k' Hx. rewrite entry_set. case_decide as Hkk; [done|].
    apply I2. rewrite lookup_delete_None in Hx. destruct Hx as [<-|]; done.
  - intros k1 k2 x [_ H1]%lookup_delete_Some [_ H2]%lookup_delete_Some. by eapply I3.
  - done.
  - intros name. rewrite <- I5, taken_of_snoc, <- app_assoc. f_equal. unfold unread.
    rewrite entry_set. case_decide as Hkk; case_decide as Hkk'; try congruence; [|done].
    subst k. by rewrite Hk.
Qed.

Lemma QueryResult_ok c w n t a k :
  cache_ok c w n t a → w !! k = None →
  ∃ c',
    (QueryResult n k.1 k.2 c = (Ret (Some (ce_rdata (entry_at k c), ce_recv_status (entry_at k c))), c')
     ∧ ce_state (entry_at k c) = ACTIVE ∧ ce_state (entry_at k c') = IDLE
     ∧ cache_ok c' w n (t ++ [(k, ce_rdata (entry_at k c))]) a)
    ∨ (QueryResult n k.1 k.2 c = (Ret None, c') ∧ ce_state (entry_at k c) ≠ ACTIVE ∧ cache_ok c' (<[k := n]> w) (S n) t a).
Proof.
  intros Hok Hn. unfold QueryResult. rewrite run_bind. cbn [gets].
  rewrite <- (surjective_pairing k).
  destruct (bool_decide _) eqn:Hb; eexists; [left|right].
  - apply bool_decide_eq_true in Hb. split_and!; [reflexivity|done| |].
    + by rewrite entry_set, decide_True.
    + apply cache_ok_taken with w; [done..|]. by rewrite delete_id.
  - apply bool_decide_eq_false in Hb. split_and!; [reflexivity|done|]. destruct Hok as [I1 I2 I3 I4 I5]. split.
    + intros k' x [[-> ->]|[Hne Hx]]%lookup_insert_Some.
      * split; [lia|]. left. rewrite entry_set, decide_True by done. split_and!; [done..|].
        intros Hx. apply I4 in Hx. lia.
      * rewrite entry_set, decide_False by done. destruct (I1 k' x Hx). split; [lia|done].
    + intros k' [Hx Hne]%lookup_insert_None. rewrite entry_set, decide_False by done. by apply I2.
    + intros k1 k2 x H1 H2. apply lookup_insert_Some in H1, H2.
      destruct H1 as [[? ?]|[? H1]], H2 as [[? ?]|[? H2]]; simplify_eq; try done.
      * apply I1 in H2. lia.
      * apply I1 in H1. lia.
      * by eapply I3.
    + intros x Hx. apply I4 in Hx. lia.
    + intros name. rewrite <- I5. f_equal. unfold unread. rewrite entry_set.
      case_decide as Hkk; [|done]. subst k. by rewrite !bool_decide_false by done.
Qed.

Lemma QueryResult_woken_ok c w n t a k x ok :
  cache_ok c w n t a → w !! k = Some x → (ok = true → x ∈ rc_notified c) →
  ∃ c',
    (QueryResult_woken ok k.1 k.2 c = (Ret (Some (ce_rdata (entry_at k c)), OK), c')
     ∧ ce_state (entry_at k c) = ACTIVE ∧ ce_state (entry_at k c') = IDLE
     ∧ cache_ok c' (delete k w) n (t ++ [(k, ce_rdata (entry_at k c))]) a)
    ∨ (QueryResult_woken ok k.1 k.2 c = (Ret (None, Error ABORTED "Timeout"), c') ∧
       ce_state (entry_at k c) ≠ ACTIVE ∧ cache_ok c' (delete k w) n t a).
Proof.
  intros Hok Hx Hn. destruct (co_wait _ _ _ _ _ Hok k x Hx) as [Hlt Hst].
  unfold QueryResult_woken. rewrite run_bind. cbn [gets]. rewrite run_bind. cbn [modify].
  rewrite <- (surjective_pairing k).
  destruct (bool_decide (ce_state (entry_at k c) = ACTIVE)) eqn:Hb; rewrite ?orb_true_r, ?orb_false_r.
  - apply bool_decide_eq_true in Hb. eexists. left. split_and!; [reflexivity|done| |].
    + by rewrite entry_set, decide_True.
    + by apply cache_ok_taken with w.
  - apply bool_decide_eq_false in Hb. destruct Hst as [(Hw & Hc & Hnn)|]; [|done].
    destruct ok; [by destruct Hnn; apply Hn|]. eexists. right. split_and!; [reflexivity|done|].
    destruct Hok as [I1 I2 I3 I4 I5]. split.
    + intros k' y [Hne Hy]%lookup_delete_Some. rewrite entry_set, decide_False by done. by apply I1.
    + intros k' Hy. rewrite entry_set. case_decide as Hkk; [done|]. apply I2.
      rewrite lookup_delete_None in Hy. destruct Hy as [<-|]; done.
    + intros k1 k2 y [_ H1]%lookup_delete_Some [_ H2]%lookup_delete_Some. by eapply I3.
    + done.
    + intros name. rewrite <- I5. f_equal. unfold unread. rewrite entry_set.
      case_decide as Hkk; [|done]. subst k. by rewrite !bool_decide_false by done.
Qed.
End reading.

(** ** The invariant of the agent *)
Section invariant.
Context {D : Type}.
Abbreviation message := (TrainerWorkerMessage D).
Implicit Types (m : message) (s : net D).

(** The messages that the agent took have the numbers 0, 1, 2, ... *)
Definition numbered (l : list message) : Prop :=
  ∀ i m, l !! i = Some m → seq_num m = Z.of_nat i.

(** The exchanges whose message is on its way, without one that is only queued. *)
Definition live (a : agent D) : list nat :=
  match ag_caller a with
  | Queued _ _ => removelast (ag_msg_exchanges a)
  | _ => ag_msg_exchanges a
  end.
Definition msgs_of (c : gmap nat message) (l : list nat) : list message := omap (λ x, c !! x) l.
Definition in_hand (r : retry_thread D) : list message :=
  match r with Sending m | Awaiting _ m => [m] | _ => [] end.
(** What is taken and not known to have arrived, in the order of its numbers. *)
Definition pending (a : agent D) : list message :=
  in_hand (ag_retry a) ++ ag_msg_reexchanges a ++ msgs_of (ag_msg_exchanges_cache a) (live a).

#[global] Arguments pending : simpl never.

Definition before m1 m2 : Prop := seq_num m1 < seq_num m2.
#[local] Instance before_trans : Transitive before.
Proof. intros x y z. unfold before. lia. Qed.

(** The calls of the agent that can come back. *)
Definition holds (a : agent D) (call : nat) m : Prop :=
  (call ∈ ag_msg_exchanges a ∧ ag_msg_exchanges_cache a !! call = Some m)
  ∨ ag_retry a = Awaiting call m.

Record agent_ok (a : agent D) (next : nat) : Prop := mkAgentOk {
  ao_exchanges call : call ∈ ag_msg_exchanges a →
    (call < next)%nat ∧ is_Some (ag_msg_exchanges_cache a !! call);
  ao_nodup : NoDup (ag_msg_exchanges a);
  ao_queued call m : ag_caller a = Queued call m →
    ag_msg_exchanges a = live a ++ [call] ∧ ag_msg_exchanges_cache a !! call = Some m;
  ao_awaiting call m : ag_retry a = Awaiting call m →
    (call < next)%nat ∧ call ∉ ag_msg_exchanges a;
  ao_callback : ag_retry a = Waiting → ag_retry_cb a = true;
}.

Record link_ok (a : agent D) (next : nat) (calls : gmap nat message)
    (answers : list (nat * TrainerWorkerResponse)) (want : Z) (sent : list message) : Prop := mkLinkOk {
  lo_calls call m : calls !! call = Some m → (call < next)%nat ∧ m ∈ sent;
  lo_answers call r : (call, r) ∈ answers → (call < next)%nat;
  lo_held call m m' : holds a call m → calls !! call = Some m' → m' = m;
  lo_done call m r : holds a call m → (call, r) ∈ answers → is_done r = true → seq_num m < want;
  lo_fresh call m : ag_caller a = Queued call m →
    calls !! call = None ∧ ∀ r, (call, r) ∉ answers;
}.

Record logs_ok (a : agent D) (sent accepted : list message) : Prop := mkLogsOk {
  lg_sorted : StronglySorted before (pending a);
  lg_sent m : m ∈ pending a → m ∈ sent;
  lg_all i m : sent !! i = Some m → (length accepted ≤ i)%nat → m ∈ pending a;
  lg_accepted : accepted `prefix_of` sent;
}.

Record inv s : Prop := mkInv {
  in_agent : agent_ok (nt_agent s) (nt_next s);
  in_link : link_ok (nt_agent s) (nt_next s) (nt_calls s) (nt_answers s) (br_want (nt_bridge s))
              (nt_sent s);
  in_logs : logs_ok (nt_agent s) (nt_sent s) (nt_accepted s);
  in_want : br_want (nt_bridge s) = Z.of_nat (length (nt_accepted s));
  in_cache : cache_ok (br_cache (nt_bridge s)) (nt_waiting s) (nt_next s) (nt_taken s) (nt_accepted s);
}.

(** A service that has not had a message yet. *)
Definition fresh_bridge (b : bridge D) : Prop := br_want b = 0 ∧ br_cache b = new_cache.

Lemma inv_new b : fresh_bridge b → inv (new_net b).
Proof.
  intros [Hw Hc]. split; cbn.
  - split; cbn; try done; [set_solver|constructor].
  - split; cbn; try done; set_solver.
  - split; cbn; [constructor|set_solver|done|done].
  - done.
  - rewrite Hc. apply cache_ok_new.
Qed.

(** *** Lists of messages *)
Lemma numbered_prefix l l' : numbered (l ++ l') → numbered l.
Proof. intros H i m Hm. apply H. by apply lookup_app_l_Some. Qed.
Lemma numbered_elem l m : numbered l → m ∈ l → l !! Z.to_nat (seq_num m) = Some m ∧ 0 ≤ seq_num m.
Proof.
  intros H [i Hi]%list_elem_of_lookup. pose proof (H i m Hi) as Hs. rewrite Hs, Nat2Z.id.
  split; [done|lia].
Qed.
Lemma msgs_of_app c l1 l2 : msgs_of c (l1 ++ l2) = msgs_of c l1 ++ msgs_of c l2.
Proof. apply omap_app. Qed.
Lemma msgs_of_ext c c' l : (∀ x, x ∈ l → c !! x = c' !! x) → msgs_of c l = msgs_of c' l.
Proof. intros H. apply list_omap_ext, Forall2_same_length_lookup_2; [done|].
  intros i x y Hx Hy. simplify_eq. apply H. by eapply list_elem_of_lookup_2. Qed.
Lemma emplace_last m l : Forall (λ x, before x m) l → emplace m l = l ++ [m].
Proof.
  induction 1 as [|x l Hx Hl IH]; [done|]. cbn. unfold before in Hx.
  rewrite (proj2 (Z.ltb_ge _ _)) by lia. by rewrite IH.
Qed.
Lemma sorted_last l m : StronglySorted before (l ++ [m]) → Forall (λ x, before x m) l.
Proof.
  intros H. apply Forall_forall. intros x Hx.
  apply (StronglySorted_app_1_elem_of before l [m]); [done|done|set_solver].
Qed.
Lemma sorted_snoc l m : StronglySorted before l → Forall (λ x, before x m) l →
  StronglySorted before (l ++ [m]).
Proof.
  intros Hl Hm. apply StronglySorted_app_2; [|done|by repeat constructor].
  intros x y Hx ->%list_elem_of_singleton. rewrite Forall_forall in Hm. by apply Hm.
Qed.
End invariant.

(** ** Every step keeps it *)
Section preservation.
Context {D : Type}.
Abbreviation message := (TrainerWorkerMessage D).
Implicit Types (m : message) (s : net D) (a : agent D).

Lemma holds_exchanges a a' call m :
  ag_msg_exchanges a' = ag_msg_exchanges a →
  ag_msg_exchanges_cache a' = ag_msg_exchanges_cache a →
  (∀ c m, ag_retry a' = Awaiting c m → ag_retry a = Awaiting c m) →
  holds a' call m → holds a call m.
Proof. unfold holds. intros -> -> Hr [?|Ha]; [by left|right; by apply Hr]. Qed.

(** The agent changes nothing but where its threads are. *)
Lemma inv_on_agent f s :
  let a := nt_agent s in let a' := f a in
  ag_msg_exchanges a' = ag_msg_exchanges a →
  ag_msg_exchanges_cache a' = ag_msg_exchanges_cache a →
  live a' = live a → pending a' = pending a →
  (∀ c m, ag_caller a' = Queued c m → ag_caller a = Queued c m) →
  (∀ c m, ag_retry a' = Awaiting c m → ag_retry a = Awaiting c m) →
  (ag_retry a' = Waiting → ag_retry_cb a' = true) →
  inv s → inv (on_agent f s).
Proof.
  intros a a' He Hc Hl Hp Hq Hr Hcb [[A1 A2 A3 A4 A5] [L1 L2 L3 L4 L5] [G1 G2 G3 G4] W C].
  split; [split|split|split|..]; cbn; fold a; fold a'; try done.
  - rewrite He, Hc. apply A1.
  - by rewrite He.
  - intros call m Hm. rewrite He, Hc, Hl. by apply A3, Hq.
  - intros call m Hm. rewrite He. by eapply A4, Hr.
  - intros call m m' Hm. eapply L3, holds_exchanges; done.
  - intros call m r Hm. eapply L4, holds_exchanges; done.
  - intros call m Hm. by eapply L5, Hq.
  - by rewrite Hp.
  - intros m. rewrite Hp. apply G2.
  - intros i m. rewrite Hp. apply G3.
Qed.

Lemma inv_enqueue_test m s : ag_caller (nt_agent s) = NoCaller → inv s →
  inv (on_agent (enqueue_test m) s).
Proof.
  intros Hn Hi. assert (live (enqueue_test m (nt_agent s)) = live (nt_agent s)) as Hl.
  { unfold enqueue_test. case_bool_decide; [|done]. unfold live. cbn. by rewrite Hn. }
  apply inv_on_agent; try done; unfold enqueue_test, pending in *;
    case_bool_decide; cbn in *; try done; [by rewrite Hl|..]; apply (in_agent _ Hi).
Qed.

Lemma live_free a : (∀ c m, ag_caller a ≠ Queued c m) → live a = ag_msg_exchanges a.
Proof. unfold live. destruct (ag_caller a); [done|done|]. intros H. by edestruct H. Qed.

Lemma inv_enqueue_push m s : ag_caller (nt_agent s) = Tested m → inv s →
  inv (next_id (on_agent (enqueue_push (nt_next s) m) s)).
Proof.
  intros Hc [[A1 A2 A3 A4 A5] [L1 L2 L3 L4 L5] [G1 G2 G3 G4] W C].
  set (a := nt_agent s) in *. set (n := nt_next s) in *.
  assert (n ∉ ag_msg_exchanges a) as Hn by (intros [? _]%A1; lia).
  assert (live a = ag_msg_exchanges a) as Hl by (apply live_free; congruence).
  assert (live (enqueue_push n m a) = live a) as Hl'.
  { rewrite Hl. unfold live. cbn. apply removelast_last. }
  assert (pending (enqueue_push n m a) = pending a) as Hp.
  { unfold pending. rewrite Hl'. cbn. do 2 f_equal. apply msgs_of_ext. intros x Hx.
    apply lookup_insert_ne. intros ->. by rewrite Hl in Hx. }
  assert (∀ call m', holds (enqueue_push n m a) call m' → call = n ∨ holds a call m') as Hh.
  { intros call m' [[H1 H2]|H]; [|by right; right]. cbn in H1, H2.
    destruct (decide (call = n)) as [->|Hne]; [by left|]. right. left.
    rewrite lookup_insert_ne in H2 by done. split; [set_solver|done]. }
  split; [split|split|split|..]; cbn; fold a; fold n; try done.
  - intros call [Hx| ->%list_elem_of_singleton]%elem_of_app.
    + destruct (A1 call Hx). rewrite lookup_insert_ne by set_solver. split; [lia|done].
    + rewrite lookup_insert_eq. split; [lia|done].
  - apply NoDup_app. split_and!; [done| |by apply NoDup_singleton].
    intros x Hx ->%list_elem_of_singleton. done.
  - intros call m' [= <- <-]. split; [|by rewrite lookup_insert_eq].
    f_equal. exact (eq_sym (eq_trans Hl' Hl)).
  - intros call m' Hm. destruct (A4 call m' Hm) as [? ?]. split; [lia|].
    rewrite not_elem_of_app. split; [done|]. rewrite list_elem_of_singleton. lia.
  - intros call m' Hm. destruct (L1 call m' Hm). split; [lia|done].
  - intros call r Hr. specialize (L2 call r Hr). lia.
  - intros call m1 m2 [-> |H1]%Hh H2; [apply L1 in H2; lia|by eapply L3].
  - intros call m1 r [-> |H1]%Hh H2; [apply L2 in H2; lia|by eapply L4].
  - intros call m' [= <- <-]. split.
    + destruct (nt_calls s !! n) as [x|] eqn:Hx; [apply L1 in Hx; lia|done].
    + intros r Hr. apply L2 in Hr. lia.
  - by rewrite Hp.
  - intros x. rewrite Hp. apply G2.
  - intros i x. rewrite Hp. apply G3.
  - eapply cache_ok_later; [|done]. lia.
Qed.
Lemma numbered_before l m x : numbered (l ++ [m]) → x ∈ l → before x m.
Proof.
  intros Hn Hx. pose proof (Hn (length l) m (list_lookup_middle _ _ _ _ eq_refl)) as Hm.
  apply list_elem_of_lookup in Hx as [i Hi].
  pose proof (numbered_prefix _ _ Hn i x Hi). apply lookup_lt_Some in Hi. unfold before. lia.
Qed.

Lemma inv_enqueue_sent call m s :
  ag_caller (nt_agent s) = Queued call m → inv s → numbered (nt_sent s ++ [m]) →
  inv (add_sent m (SendNextRequest call m (on_agent (set_caller NoCaller) s))).
Proof.
  intros Hc [[A1 A2 A3 A4 A5] [L1 L2 L3 L4 L5] [G1 G2 G3 G4] W C] Hnum.
  set (a := nt_agent s) in *. destruct (A3 call m Hc) as [Hex Hm].
  assert (call ∈ ag_msg_exchanges a) as Hin by (rewrite Hex; set_solver).
  assert (pending (set_caller NoCaller a) = pending a ++ [m]) as Hp.
  { unfold pending. change (live (set_caller NoCaller a)) with (ag_msg_exchanges a). cbn.
    rewrite Hex at 1. rewrite msgs_of_app, !(assoc_L (++)). f_equal. cbn. by rewrite Hm. }
  split; [split|split|split|..]; cbn; fold a; try done.
  - intros call' m' [[-> <-]|[_ H]]%lookup_insert_Some.
    + destruct (A1 _ Hin). set_solver.
    + destruct (L1 _ _ H). set_solver.
  - intros call' m1 m2 H1 [[-> <-]|[_ H]]%lookup_insert_Some; [|by eapply L3].
    destruct H1 as [[_ H1]|H1]; cbn in H1.
    + congruence.
    + by destruct (A4 _ _ H1).
  - rewrite Hp. apply sorted_snoc; [done|]. apply Forall_forall. intros x Hx.
    eapply numbered_before; [done|]. by apply G2.
  - intros x. rewrite Hp. set_solver.
  - intros i x Hx Hi. rewrite Hp. apply lookup_app_Some in Hx as [Hx|[_ Hx]].
    + apply elem_of_app. left. by eapply G3.
    + apply list_lookup_singleton_Some in Hx as [_ <-]. set_solver.
  - by apply prefix_app_r.
Qed.

Lemma msgs_of_delete call c l : call ∉ l → msgs_of (delete call c) l = msgs_of (D := D) c l.
Proof. intros H. apply msgs_of_ext. intros x Hx. apply lookup_delete_ne. by intros ->. Qed.
Lemma holds_delete a a' call call' m :
  (∀ x, x ∈ ag_msg_exchanges a' → x ∈ ag_msg_exchanges a) →
  ag_msg_exchanges_cache a' = delete call (ag_msg_exchanges_cache a) →
  ag_retry a' = ag_retry a → holds a' call' m → holds a call' m.
Proof.
  unfold holds. intros He -> -> [[H1 H2]|H]; [left|by right].
  apply lookup_delete_Some in H2. naive_solver.
Qed.

Lemma inv_enqueue_failed call m s :
  ag_caller (nt_agent s) = Queued call m → inv s → inv (on_agent (enqueue_failed call) s).
Proof.
  intros Hc [[A1 A2 A3 A4 A5] [L1 L2 L3 L4 L5] [G1 G2 G3 G4] W C].
  set (a := nt_agent s) in *. destruct (A3 call m Hc) as [Hex Hm].
  assert (removelast (ag_msg_exchanges a) = live a) as Hl by (unfold live; by rewrite Hc).
  rewrite Hex in A2. apply NoDup_app in A2 as (A2 & Hnin & _).
  assert (call ∉ live a) as Hnc by (intros H; apply (Hnin call H); set_solver).
  assert (∀ x, x ∈ live a → x ∈ ag_msg_exchanges a) as Hsub by (intros x; rewrite Hex; set_solver).
  assert (pending (enqueue_failed call a) = pending a) as Hp.
  { unfold pending. change (live (enqueue_failed call a)) with (removelast (ag_msg_exchanges a)).
    rewrite Hl. cbn. do 2 f_equal. by apply msgs_of_delete. }
  assert (∀ c x, holds (enqueue_failed call a) c x → holds a c x) as Hh.
  { intros c x. apply holds_delete with call; cbn; [by rewrite Hl|done..]. }
  split; [split|split|split|..]; cbn; fold a; rewrite ?Hl; try done.
  - intros x Hx. destruct (A1 x (Hsub x Hx)) as [? ?]. split; [done|].
    rewrite lookup_delete_ne; [done|]. by intros ->.
  - intros c x Hx. destruct (A4 c x Hx) as [? Hn]. split; [done|]. by intros Hy%Hsub.
  - intros c x y Hy%Hh. by apply L3.
  - intros c x r Hy%Hh. by apply L4.
  - by rewrite Hp.
  - intros x. rewrite Hp. apply G2.
  - intros i x. rewrite Hp. apply G3.
Qed.
(** The exchanges without the first. *)
Definition come_back (call : nat) a : agent D :=
  set_exchanges (tail (ag_msg_exchanges a)) (delete call (ag_msg_exchanges_cache a)) a.

Lemma live_come_back call rest a n :
  agent_ok a n → ag_msg_exchanges a = call :: rest → is_queued call (ag_caller a) = false →
  live a = call :: live (come_back call a).
Proof.
  intros [_ _ A3 _ _] He Hq. destruct (ag_caller a) as [|m|c m] eqn:Hc.
  1,2: unfold live, come_back; cbn; by rewrite Hc, He.
  destruct (A3 c m eq_refl) as [Hex _]. unfold live in *. cbn. rewrite Hc, He in *.
  cbn in Hq. apply bool_decide_eq_false in Hq. destruct rest as [|x rest]; [|done].
  cbn in Hex. by simplify_eq.
Qed.

Lemma sorted_sublist (l l' : list message) :
  sublist l l' → StronglySorted before l' → StronglySorted before l.
Proof.
  induction 1 as [|x l l' Hl IH|x l l' Hl IH]; intros Hs; [done|..];
    apply StronglySorted_inv in Hs as [Hs Hx]; [|by apply IH].
  constructor; [by apply IH|]. rewrite Forall_forall in *. intros y Hy. apply Hx.
  by eapply elem_of_sublist.
Qed.
(** A message that is known to have arrived is forgotten. *)
Lemma logs_drop m a a' sent accepted :
  logs_ok a sent accepted → numbered sent → seq_num m < Z.of_nat (length accepted) →
  sublist (pending a') (pending a) → (∀ x, x ∈ pending a → x = m ∨ x ∈ pending a') →
  logs_ok a' sent accepted.
Proof.
  intros [G1 G2 G3 G4] Hn Hm Hsub Hor. split; [| | |done].
  - by eapply sorted_sublist.
  - intros x Hx. apply G2. by eapply elem_of_sublist.
  - intros i x Hx Hi. destruct (Hor x) as [->|]; [by eapply G3| |done].
    pose proof (Hn i m Hx). lia.
Qed.

Lemma inv_come_back call rest m s re ch :
  let a := nt_agent s in
  ag_msg_exchanges a = call :: rest → is_queued call (ag_caller a) = false →
  ag_msg_exchanges_cache a !! call = Some m →
  (re = ag_msg_reexchanges a ∧ seq_num m < br_want (nt_bridge s)) ∨ re = ag_msg_reexchanges a ++ [m] →
  inv s → numbered (nt_sent s) →
  inv (on_agent (λ a, set_reexchanges re (set_channel ch (come_back call a))) s).
Proof.
  intros a He Hq Hm Hre [AO [L1 L2 L3 L4 L5] G W C] Hnum. fold a in AO, L3, L4, L5, G.
  pose proof (live_come_back call rest a _ AO He Hq) as Hl. destruct AO as [A1 A2 A3 A4 A5].
  set (a' := set_reexchanges re (set_channel ch (come_back call a))).
  assert (tail (ag_msg_exchanges a) = rest) as He' by by rewrite He.
  rewrite He in A1, A2. apply NoDup_cons in A2 as [Hnin A2].
  assert (∀ x, x ∈ rest → x ∈ ag_msg_exchanges a) as Hsub by (intros x; rewrite He; set_solver).
  assert (∀ x, x ∈ rest → delete call (ag_msg_exchanges_cache a) !! x = ag_msg_exchanges_cache a !! x)
    as Hcache by (intros x Hx; apply lookup_delete_ne; by intros ->).
  assert (call ∉ live (come_back call a)) as Hnl.
  { unfold live. cbn. rewrite He. cbn. destruct (ag_caller a) eqn:Hc; [done..|].
    intros Hx. apply Hnin. destruct (A3 _ _ eq_refl) as [Hex _].
    destruct rest as [|y l _] using rev_ind; [done|]. rewrite removelast_last in Hx. set_solver. }
  assert (∀ c x, holds a' c x → holds a c x) as Hh.
  { intros c x. apply holds_delete with call; [|done..]. cbn. by rewrite He'. }
  assert (pending a = in_hand (ag_retry a) ++ ag_msg_reexchanges a ++
            m :: msgs_of (delete call (ag_msg_exchanges_cache a)) (live a')) as Hp.
  { unfold pending. rewrite Hl. do 2 f_equal. cbn. rewrite Hm. f_equal. symmetry.
    by apply msgs_of_delete. }
  assert (pending a' = pending a ∨
          (seq_num m < br_want (nt_bridge s) ∧ sublist (pending a') (pending a) ∧
           ∀ x, x ∈ pending a → x = m ∨ x ∈ pending a')) as Hp'.
  { rewrite Hp. unfold pending. cbn. destruct Hre as [[-> Hlt]| ->]; [right|left].
    - split_and!; [done| |set_solver]. do 2 (apply sublist_app; [done|]). by apply sublist_cons.
    - by rewrite <- !(assoc_L (++)). }
  split; [split|split| |..]; cbn; fold a; fold a'; rewrite ?He'; try done.
  - intros x Hx. destruct (A1 x) as [? ?]; [set_solver|]. by rewrite Hcache.
  - intros c x Hx. destruct (A3 c x Hx) as [Hex Hcm]. rewrite Hl, He in Hex. cbn in Hex.
    injection Hex as Hex. split; [done|]. rewrite Hcache; [done|]. rewrite Hex. set_solver.
  - intros c x Hx. destruct (A4 c x Hx) as [? Hn]. split; [done|]. by intros Hy%Hsub.
  - intros c x y Hy%Hh. by apply L3.
  - intros c x r Hy%Hh. by apply L4.
  - destruct Hp' as [Hp'|(Hlt & Hsl & Hor)].
    + destruct G as [G1 G2 G3 G4]. split; [by rewrite Hp'|..|done].
      * intros x. rewrite Hp'. apply G2.
      * intros i x. rewrite Hp'. apply G3.
    + apply (logs_drop m a); try done. lia.
Qed.
Lemma inv_trigger s : inv s → inv (on_agent trigger s).
Proof.
  intros Hi. apply inv_on_agent; try done; unfold trigger; destruct (_ && _) eqn:Ht; try done.
  all: intros Hw; by apply (ao_callback _ _ (in_agent _ Hi)).
Qed.

Lemma inv_completed call rest m r s :
  let a := nt_agent s in
  ag_msg_exchanges a = call :: rest → is_queued call (ag_caller a) = false →
  ag_msg_exchanges_cache a !! call = Some m → answered call r s →
  inv s → numbered (nt_sent s) → inv (on_agent (on_completed call m r) s).
Proof.
  intros a He Hq Hm Hr Hi Hn.
  assert (Forall (λ x, before x m) (ag_msg_reexchanges a)) as Hb.
  { pose proof (lg_sorted _ _ _ (in_logs _ Hi)) as Hs. unfold pending in Hs.
    apply StronglySorted_app_1_r in Hs. apply Forall_forall. intros x Hx.
    eapply StronglySorted_app_1_elem_of; [done|done|].
    rewrite (live_come_back call rest (nt_agent s) (nt_next s)); [|apply Hi|done..].
    cbn. fold a. rewrite Hm. set_solver. }
  assert (∀ re ch, (re = ag_msg_reexchanges a ∧ seq_num m < br_want (nt_bridge s)) ∨
                   re = emplace m (ag_msg_reexchanges a) →
    inv (on_agent (λ a, set_reexchanges re (set_channel ch (come_back call a))) s)) as Hk.
  { intros re ch Hre. eapply inv_come_back; try done. by rewrite <- emplace_last. }
  assert (∀ a2 : agent D, inv (on_agent (λ _, a2) s) → inv (on_agent (λ _, trigger a2) s)) as Ht
    by (intros a2 H2; by apply (inv_trigger _ H2)).
  change (inv (on_agent (λ _, on_completed call m r a) s)).
  unfold on_completed. fold (come_back call a). destruct r as [resp|].
  - assert (inv (on_agent (λ _, if is_done resp then come_back call a
        else set_reexchanges (emplace m (ag_msg_reexchanges (come_back call a)))
               (set_channel kInactive (come_back call a))) s)) as H2.
    { destruct (is_done resp) eqn:Hd; [|apply Hk; by right].
      apply (Hk (ag_msg_reexchanges a) (ag_channel_state a)). left. split; [done|].
      apply (lo_done _ _ _ _ _ _ (in_link _ Hi) call m resp); [|done..].
      left. split; [|done]. fold a. rewrite He. set_solver. }
    destruct (bool_decide _); [done|by apply Ht].
  - apply Ht, (Hk _ kInactive). by right.
Qed.

(** The message in the hands of the retry thread is sent. *)
Lemma inv_resent m s :
  ag_retry (nt_agent s) = Sending m → inv s →
  inv (next_id (SendNextRequest (nt_next s) m (on_agent (set_retry (Awaiting (nt_next s) m)) s))).
Proof.
  intros Hr [[A1 A2 A3 A4 A5] [L1 L2 L3 L4 L5] [G1 G2 G3 G4] W C].
  set (a := nt_agent s) in *. set (n := nt_next s) in *.
  assert (pending (set_retry (Awaiting n m) a) = pending a) as Hp by (unfold pending; by rewrite Hr).
  assert (m ∈ nt_sent s) as Hm by (apply G2; unfold pending; rewrite Hr; set_solver).
  assert (∀ c x, holds (set_retry (Awaiting n m) a) c x → (c = n ∧ x = m) ∨ (holds a c x ∧ c ≠ n)) as Hh.
  { intros c x [[H1 H2]|[= <- <-]]; [|by left]. right. split; [by left|].
    destruct (A1 c H1). lia. }
  split; [split|split|split|..]; cbn; fold a n; try done.
  - intros c Hc. destruct (A1 c Hc). split; [lia|done].
  - intros c x [= <- <-]. split; [lia|]. intros [? _]%A1. lia.
  - intros c x [[<- <-]|[_ H]]%lookup_insert_Some; [split; [lia|done]|].
    destruct (L1 c x H). split; [lia|done].
  - intros c r H. specialize (L2 c r H). lia.
  - intros c x y [[-> ->]|[H Hc]]%Hh.
    + rewrite lookup_insert_eq. by intros [= ->].
    + rewrite lookup_insert_ne by done. by apply L3.
  - intros c x r [[-> ->]|[H Hc]]%Hh Hr'; [apply L2 in Hr'; lia|by eapply L4].
  - intros c x Hx. destruct (L5 c x Hx) as [H1 H2]. split; [|done].
    rewrite lookup_insert_ne; [done|]. intros <-. destruct (A3 _ _ Hx) as [Hex _].
    destruct (A1 n); [rewrite Hex; set_solver|lia].
  - by rewrite Hp.
  - intros x. rewrite Hp. apply G2.
  - intros i x. rewrite Hp. apply G3.
  - eapply cache_ok_later; [|done]. lia.
Qed.

(** It has arrived. *)
Lemma inv_resent_done call m r s :
  ag_retry (nt_agent s) = Awaiting call m → (call, r) ∈ nt_answers s → is_done r = true →
  inv s → numbered (nt_sent s) → inv (on_agent (set_retry Taking) s).
Proof.
  intros Hr Ha Hd [[A1 A2 A3 A4 A5] [L1 L2 L3 L4 L5] G W C] Hn. set (a := nt_agent s) in *.
  assert (seq_num m < br_want (nt_bridge s)) as Hm by (eapply L4; [by right|done..]).
  assert (pending a = m :: pending (set_retry Taking a)) as Hp by (unfold pending; by rewrite Hr).
  assert (∀ c x, holds (set_retry Taking a) c x → holds a c x) as Hh.
  { intros c x [Hx|Hx]; [by left|done]. }
  split; [split|split| |..]; cbn; fold a; try done.
  - intros c x y Hx%Hh. by apply L3.
  - intros c x y Hx%Hh. by apply L4.
  - apply (logs_drop m a); [done|done|lia|rewrite Hp; by constructor|].
    intros x. rewrite Hp. set_solver.
Qed.
Lemma inv_retry alive s s' : retry_step alive s = Some s' → inv s → inv s'.
Proof.
  intros Hs Hi. unfold retry_step in Hs.
  destruct (ag_retry (nt_agent s)) as [| | | |m|call m|] eqn:Hr.
  - destruct (bool_decide _); simplify_eq; apply inv_on_agent; try done;
      unfold pending; by rewrite Hr.
  - destruct (ag_caller _); simplify_eq. apply inv_on_agent; try done. unfold pending. by rewrite Hr.
  - destruct (ag_notified _); simplify_eq. apply inv_on_agent; try done. unfold pending. by rewrite Hr.
  - destruct (ag_msg_reexchanges _) as [|m l] eqn:Hl; simplify_eq;
      apply inv_on_agent; try done; unfold pending; cbn; by rewrite Hr, ?Hl.
  - destruct (negb _); [done|]. destruct alive; simplify_eq; [|done]. by apply inv_resent.
  - done.
  - simplify_eq. apply inv_on_agent; try done. unfold pending. by rewrite Hr.
Qed.

(** What an accepted, rejected or dropped message does to the logs. *)
Definition log_accepted (r : TrainerWorkerResponse) m (l : list message) : list message :=
  if bool_decide (result_code (status r) = SUCCESS) then l ++ [m] else l.
Lemma prefix_next (l l' : list message) m :
  l `prefix_of` l' → l' !! length l = Some m → (l ++ [m]) `prefix_of` l'.
Proof.
  intros [k ->] Hm. rewrite lookup_app_r, Nat.sub_diag in Hm by lia.
  destruct k as [|x k]; [done|]. cbn in Hm. simplify_eq. exists k. by rewrite <- (assoc_L (++)).
Qed.
Lemma served_log m s b r :
  served m (nt_bridge s) b r → m ∈ nt_sent s → inv s → numbered (nt_sent s) →
  br_want (nt_bridge s) ≤ br_want b ∧ (is_done r = true → seq_num m < br_want b) ∧
  br_want b = Z.of_nat (length (log_accepted r m (nt_accepted s))) ∧
  (length (nt_accepted s) ≤ length (log_accepted r m (nt_accepted s)))%nat ∧
  log_accepted r m (nt_accepted s) `prefix_of` nt_sent s ∧
  cache_ok (br_cache b) (nt_waiting s) (nt_next s) (nt_taken s) (log_accepted r m (nt_accepted s)).
Proof.
  intros Hserved Hin [_ _ [_ _ _ G4] W C] Hn.
  pose proof (numbered_elem _ _ Hn Hin) as [Hat Hpos]. unfold log_accepted, is_done.
  destruct Hserved as [r Hne Hc Hca Hwa|r He Hc _ Hca Hwa|r k w He Hc Hk Hw Hca Hwa];
    rewrite Hc, Hwa, Hca.
  - destruct (br_want (nt_bridge s) <? seq_num m) eqn:Hlt'; cbn; split_and!; try done; lia.
  - split_and!; done.
  - rewrite bool_decide_true by done. rewrite length_app. cbn. split_and!; try lia.
    + rewrite He, W, Nat2Z.id in Hat. by apply prefix_next.
    + by eapply cache_ok_received.
Qed.

Lemma inv_serve call m s s' :
  nt_calls s !! call = Some m → serve call m s = Some s' → inv s → numbered (nt_sent s) → inv s'.
Proof.
  intros Hm Hs Hi Hn. pose proof Hi as [AO [L1 L2 L3 L4 L5] [G1 G2 G3 G4] W C]. unfold serve in Hs.
  pose proof (StreamTransmitHandler_run m (nt_bridge s)) as Hrun.
  destruct (L1 call m Hm) as [Hlt Hin].
  assert (∀ c x, delete call (nt_calls s) !! c = Some x → nt_calls s !! c = Some x) as Hdel.
  { intros c x [_ H]%lookup_delete_Some. done. }
  destruct (br_link_up (nt_bridge s)).
  2: { rewrite Hrun in Hs. simplify_eq. split; [done|split|done..]; cbn; try done.
       - intros c x Hx%Hdel. by apply L1.
       - intros c x y Hx Hy%Hdel. by eapply L3.
       - intros c x Hx. destruct (L5 c x Hx). split; [|done]. rewrite lookup_delete_None. by right. }
  destruct Hrun as (r & b & Hrun & _ & Hserved). rewrite Hrun in Hs. fold (log_accepted r m (nt_accepted s)) in Hs.
  simplify_eq. destruct (served_log m s b r Hserved Hin Hi Hn) as (Hmono & Hdone & HW & Hlen & Hpre & HC).
  split; [done|split|split|done|done]; cbn; try done.
  - intros c x Hx%Hdel. by apply L1.
  - intros c x [Hx|Hx]%elem_of_app; [by eapply L2|]. apply list_elem_of_singleton in Hx. by simplify_eq.
  - intros c x y Hx Hy%Hdel. by eapply L3.
  - intros c x y Hx [Hy|Hy]%elem_of_app Hd; [specialize (L4 c x y Hx Hy Hd); lia|].
    apply list_elem_of_singleton in Hy. simplify_eq. rewrite <- (L3 _ _ _ Hx Hm). by apply Hdone.
  - intros c x Hx. destruct (L5 c x Hx) as [Hn1 Hn2]. split.
    + rewrite lookup_delete_None. by right.
    + intros y [Hy|Hy]%elem_of_app; [by apply (Hn2 y)|]. apply list_elem_of_singleton in Hy. simplify_eq.
  - intros i x Hx Hi'. apply (G3 i x Hx). lia.
Qed.

(** The other fields, when only the cache and its readers change. *)
Lemma inv_on_cache s c waiting next taken :
  (nt_next s ≤ next)%nat → inv s →
  cache_ok c waiting next taken (nt_accepted s) →
  inv (mkNet (nt_agent s) next (nt_calls s) (nt_answers s)
         (on_cache (putM c) (nt_bridge s)).2 waiting (nt_sent s) (nt_accepted s) taken).
Proof.
  intros Hn [[A1 A2 A3 A4 A5] [L1 L2 L3 L4 L5] G W C] Hc.
  split; [split|split|done|done|done]; cbn; try done.
  - intros call Hx. destruct (A1 call Hx). split; [lia|done].
  - intros call m Hx. destruct (A4 call m Hx). split; [lia|done].
  - intros call m Hx. destruct (L1 call m Hx). split; [lia|done].
  - intros call r Hx. specialize (L2 call r Hx). lia.
Qed.

Lemma inv_query k s s' :
  nt_waiting s !! k = None → query k s = Some s' → inv s → inv s'.
Proof.
  intros Hk Hs Hi. unfold query, on_cache, zoom in Hs.
  destruct (QueryResult_ok _ _ _ _ _ k (in_cache _ Hi) Hk) as (c & [(Hr & _ & _ & Hc)|(Hr & _ & Hc)]);
    rewrite Hr in Hs; simplify_eq.
  - by apply (inv_on_cache s c (nt_waiting s) (nt_next s)).
  - apply (inv_on_cache s c _ (S (nt_next s))); [lia|done|done].
Qed.

Lemma inv_query_woken k n ok s s' :
  nt_waiting s !! k = Some n → (ok = true → n ∈ rc_notified (br_cache (nt_bridge s))) →
  query_woken k ok s = Some s' → inv s → inv s'.
Proof.
  intros Hk Hok Hs Hi. unfold query_woken, on_cache, zoom in Hs.
  destruct (QueryResult_woken_ok _ _ _ _ _ k n ok (in_cache _ Hi) Hk Hok)
    as (c & [(Hr & _ & _ & Hc)|(Hr & _ & Hc)]); rewrite Hr in Hs; simplify_eq;
    by apply (inv_on_cache s c (delete k (nt_waiting s)) (nt_next s)).
Qed.

Lemma inv_step e s s' : step e s = Some s' → inv s → numbered (nt_sent s') → inv s'.
Proof.
  intros Hs Hi Hn. destruct e; cbn [step] in Hs.
  - destruct (ag_caller (nt_agent s)) eqn:Hc; simplify_eq. by apply inv_enqueue_test.
  - destruct (ag_caller (nt_agent s)) eqn:Hc; simplify_eq. by apply inv_enqueue_push.
  - destruct (ag_caller (nt_agent s)) eqn:Hc; simplify_eq. destruct alive.
    + by apply inv_enqueue_sent.
    + by eapply inv_enqueue_failed.
  - destruct (ag_msg_exchanges (nt_agent s)) as [|call rest] eqn:He; [done|].
    destruct (bool_decide _ && _) eqn:Hb; [|done]. apply andb_prop in Hb as [Ha Hq].
    apply bool_decide_eq_true in Ha. apply negb_true_iff in Hq.
    apply bind_Some in Hs as (m & Hm & [= <-]). by eapply inv_completed.
  - by eapply inv_retry.
  - destruct (ag_retry (nt_agent s)) as [| | | | |call m|] eqn:Hr; try done.
    destruct (bool_decide _) eqn:Ha; [|done]. apply bool_decide_eq_true in Ha.
    destruct (match r with Some resp => is_done resp | None => false end) eqn:Hd.
    + destruct r as [resp|]; [|done]. rewrite Hd in Hs. simplify_eq. by eapply inv_resent_done.
    + assert (s' = on_agent (set_retry (Sending m)) s) as ->
        by (destruct r; rewrite ?Hd in Hs; by simplify_eq).
      apply inv_on_agent; try done. unfold pending. by rewrite Hr.
  - apply bind_Some in Hs as (m & Hm & Hs). eapply inv_serve; [done..|].
    unfold serve in Hs. repeat case_match; by simplify_eq.
  - destruct (nt_waiting s !! k) eqn:Hk; [done|]. by eapply inv_query.
  - apply bind_Some in Hs as (n & Hk & Hs). destruct (negb ok || _) eqn:Hb; [|done].
    eapply inv_query_woken; [done| |done|done]. intros ->. by apply bool_decide_eq_true in Hb.
Qed.

(** *** Runs *)
Lemma step_sent e s s' : step e s = Some s' → nt_sent s `prefix_of` nt_sent s'.
Proof.
  intros Hs. destruct e; cbn [step] in Hs; unfold retry_step, serve, query, query_woken in Hs;
    repeat case_match; simplify_option_eq; try done; try (by apply prefix_app_r).
  all: repeat case_match; simplify_eq; done.
Qed.
Lemma steps_app es1 es2 s : steps (es1 ++ es2) s = steps es1 s ≫= steps es2.
Proof.
  unfold steps. rewrite foldl_app. destruct (foldl _ _ es1) as [s1|]; [done|]. cbn.
  by induction es2.
Qed.
Lemma steps_cons e es s : steps (e :: es) s = step e s ≫= steps es.
Proof. apply (steps_app [e]). Qed.

Lemma inv_steps es s s' : steps es s = Some s' → inv s → numbered (nt_sent s') → inv s'.
Proof.
  revert s'. induction es as [|e es IH] using rev_ind; intros s' Hs Hi Hn; [cbn in Hs; by simplify_eq|].
  rewrite steps_app in Hs. apply bind_Some in Hs as (s1 & H1 & H2).
  rewrite steps_cons in H2. apply bind_Some in H2 as (s2 & H2 & [= <-]).
  assert (numbered (nt_sent s1)) as Hn1.
  { destruct (step_sent _ _ _ H2) as [l Hl]. rewrite Hl in Hn. by eapply numbered_prefix. }
  eapply inv_step; [done|by apply IH|done].
Qed.
End preservation.

(** ** Progress *)
Section progress.
Context {D : Type}.
Abbreviation message := (TrainerWorkerMessage D).
Implicit Types (m : message) (s : net D) (a : agent D).

(** The link is up, no caller is inside, and every message has a slot. *)
Record calm s : Prop := mkCalm {
  ca_inv : inv s;
  ca_numbered : numbered (nt_sent s);
  ca_slots m : m ∈ nt_sent s → is_Some (slot_of m);
  ca_link : br_link_up (nt_bridge s) = true;
  ca_caller : ag_caller (nt_agent s) = NoCaller;
}.
(** [s'] can be reached from [s] without a new message. *)
Definition leads s s' : Prop := ∃ es, steps es s = Some s' ∧ nt_sent s' = nt_sent s ∧ calm s'.

Lemma leads_refl s : calm s → leads s s.
Proof. by exists []. Qed.
Lemma leads_trans s1 s2 s3 : leads s1 s2 → leads s2 s3 → leads s1 s3.
Proof.
  intros (es1 & H1 & E1 & _) (es2 & H2 & E2 & C). exists (es1 ++ es2).
  split_and!; [|congruence|done]. by rewrite steps_app, H1.
Qed.
Lemma leads_step e s s' :
  calm s → step e s = Some s' → nt_sent s' = nt_sent s →
  br_link_up (nt_bridge s') = true → ag_caller (nt_agent s') = NoCaller → leads s s'.
Proof.
  intros [Hi Hn Hsl Hl Hc] Hs Hsent Hl' Hc'. exists [e]. rewrite steps_cons, Hs.
  split_and!; [done|done|]. split; try done; try by rewrite Hsent.
  eapply inv_step; [done|done|]. by rewrite Hsent.
Qed.

(** Nothing is pending only when everything has arrived. *)
Lemma all_arrived s : calm s → pending (nt_agent s) = [] → nt_accepted s = nt_sent s.
Proof.
  intros [[_ _ [_ _ G3 [l Hl]] _ _] _ _ _ _] Hp. rewrite Hl. destruct l as [|m l]; [by rewrite app_nil_r|].
  destruct (not_elem_of_nil m). rewrite <- Hp. apply (G3 (length (nt_accepted s))); [|done].
  rewrite Hl. apply list_lookup_middle. done.
Qed.

(** The calls on their way fail one after the other; the last one wakes the retry
    thread if it waits. *)
Lemma drain s : calm s → ∃ s',
  leads s s' ∧ ag_msg_exchanges (nt_agent s') = [] ∧
  ag_retry (nt_agent s') = ag_retry (nt_agent s) ∧
  (ag_msg_exchanges (nt_agent s) ≠ [] → ag_retry_cb (nt_agent s) = true →
     ag_notified (nt_agent s') = true) ∧
  (ag_notified (nt_agent s) = true → ag_notified (nt_agent s') = true).
Proof.
  remember (ag_msg_exchanges (nt_agent s)) as l eqn:Hl. symmetry in Hl.
  revert s Hl. induction l as [|call l IH]; intros s Hl Hs.
  { exists s. split_and!; try done. by apply leads_refl. }
  destruct (ao_exchanges _ _ (in_agent _ (ca_inv _ Hs)) call) as [_ [m Hm]]; [rewrite Hl; set_solver|].
  set (s1 := on_agent (on_completed call m None) s).
  assert (step (Completed None) s = Some s1) as Hstep.
  { cbn [step]. rewrite Hl, (ca_caller _ Hs). cbn. by rewrite Hm. }
  assert (ag_msg_exchanges (nt_agent s1) = l ∧ ag_retry (nt_agent s1) = ag_retry (nt_agent s) ∧
          ag_caller (nt_agent s1) = ag_caller (nt_agent s) ∧
          ag_retry_cb (nt_agent s1) = ag_retry_cb (nt_agent s) ∧
          ag_notified (nt_agent s1) = bool_decide (l = []) && ag_retry_cb (nt_agent s)
                                      || ag_notified (nt_agent s)) as (E1 & E2 & E3 & E4 & E5).
  { cbn. unfold trigger. cbn. rewrite Hl. cbn.
    destruct (bool_decide (l = [])), (ag_retry_cb (nt_agent s)) eqn:Hcb; cbn; by rewrite ?Hl, ?Hcb. }
  assert (leads s s1) as H1.
  { eapply leads_step; try done; [apply Hs|]. rewrite E3. apply Hs. }
  destruct (IH s1 E1) as (s' & H2 & F1 & F2 & F3 & F4); [by destruct H1 as (? & _ & _ & ?)|].
  exists s'. split_and!; [by eapply leads_trans|done|congruence| |].
  - intros _ Hcb. destruct l as [|c l]; [|apply F3; [done|congruence]].
    apply F4. rewrite E5, Hcb. done.
  - intros Hn. apply F4. by rewrite E5, Hn, orb_true_r.
Qed.

(** The operator of a slot takes the message that is in the way. *)
Lemma take_active k s : inv s → ce_state (entry_at k (br_cache (nt_bridge s))) = ACTIVE →
  ∃ e s', step e s = Some s' ∧ ce_state (entry_at k (br_cache (nt_bridge s'))) ≠ ACTIVE ∧
    nt_agent s' = nt_agent s ∧ nt_calls s' = nt_calls s ∧ nt_sent s' = nt_sent s ∧
    nt_accepted s' = nt_accepted s ∧ br_want (nt_bridge s') = br_want (nt_bridge s) ∧
    br_link_up (nt_bridge s') = br_link_up (nt_bridge s).
Proof.
  intros Hi Ha. destruct (nt_waiting s !! k) as [n|] eqn:Hk.
  - destruct (QueryResult_woken_ok _ _ _ _ _ k n false (in_cache _ Hi) Hk)
      as (c & [(Hr & _ & Hidle & _)|(_ & Hna & _)]); [done| |done].
    exists (QueryWoken k false). eexists. split.
    + cbn. rewrite Hk. cbn. unfold query_woken, on_cache, zoom. by rewrite Hr.
    + cbn. by rewrite Hidle.
  - destruct (QueryResult_ok _ _ _ _ _ k (in_cache _ Hi) Hk)
      as (c & [(Hr & _ & Hidle & _)|(_ & Hna & _)]); [|done].
    exists (Query k). eexists. split.
    + cbn. rewrite Hk. unfold query, on_cache, zoom. by rewrite Hr.
    + cbn. by rewrite Hidle.
Qed.
Lemma free_slot k s : calm s → ∃ s',
  leads s s' ∧ ce_state (entry_at k (br_cache (nt_bridge s'))) ≠ ACTIVE ∧
  nt_agent s' = nt_agent s ∧ nt_calls s' = nt_calls s ∧ nt_accepted s' = nt_accepted s ∧
  br_want (nt_bridge s') = br_want (nt_bridge s).
Proof.
  intros Hs. destruct (decide (ce_state (entry_at k (br_cache (nt_bridge s))) = ACTIVE)) as [Ha|Hn].
  - destruct (take_active k s (ca_inv _ Hs) Ha) as (e & s' & Hst & ? & E1 & E2 & E3 & E4 & E5 & E6).
    exists s'. split_and!; try done. eapply leads_step; try done; [rewrite E6|rewrite E1]; apply Hs.
  - exists s. split_and!; try done. by apply leads_refl.
Qed.

(** The first pending message is one the service has already, or the one it wants. *)
Lemma pending_head m l s :
  inv s → numbered (nt_sent s) → pending (nt_agent s) = m :: l →
  seq_num m ≤ br_want (nt_bridge s).
Proof.
  intros [_ _ [G1 G2 G3 G4] W _] Hn Hp. rewrite W.
  assert (m ∈ nt_sent s) as Hm by (apply G2; rewrite Hp; by constructor).
  destruct (numbered_elem _ _ Hn Hm) as [Hat Hpos].
  destruct (decide (seq_num m ≤ Z.of_nat (length (nt_accepted s)))) as [|Hgt]; [done|].
  destruct (lookup_lt_is_Some_2 (nt_sent s) (length (nt_accepted s))) as [x Hx].
  { apply lookup_lt_Some in Hat. lia. }
  pose proof (Hn _ _ Hx) as Hxs. specialize (G3 _ _ Hx (le_n _)). rewrite Hp in G1, G3.
  apply elem_of_cons in G3 as [->|Hin]; [lia|].
  apply StronglySorted_inv in G1 as [_ G1]. rewrite Forall_forall in G1.
  specialize (G1 x Hin). unfold before in G1. lia.
Qed.

(** The retry thread gets the message in its hands through. *)
Lemma resend_one m s :
  calm s → ag_retry (nt_agent s) = Sending m → ag_msg_exchanges (nt_agent s) = [] → ∃ s',
  leads s s' ∧ ag_retry (nt_agent s') = Taking ∧ ag_msg_exchanges (nt_agent s') = [] ∧
  ag_msg_reexchanges (nt_agent s') = ag_msg_reexchanges (nt_agent s).
Proof.
  intros Hs Hr He.
  assert (pending (nt_agent s) = m :: ag_msg_reexchanges (nt_agent s)) as Hp.
  { unfold pending, live. by rewrite Hr, (ca_caller _ Hs), He, app_nil_r. }
  assert (m ∈ nt_sent s) as Hm
    by (apply (lg_sent _ _ _ (in_logs _ (ca_inv _ Hs))); rewrite Hp; by constructor).
  destruct (ca_slots _ Hs m Hm) as [[k w] Hk].
  destruct (free_slot k s Hs) as (s1 & H1 & Hfree & E1 & E2 & E3 & E4).
  assert (calm s1) as Hs1 by (by destruct H1 as (? & _ & _ & ?)).
  assert (nt_sent s1 = nt_sent s) as Hsent by (by destruct H1 as (? & _ & ? & _)).
  set (n := nt_next s1).
  set (s2 := next_id (SendNextRequest n m (on_agent (set_retry (Awaiting n m)) s1))).
  assert (leads s1 s2) as H2.
  { apply (leads_step (Retry true)); [done| |done|apply Hs1|apply Hs1].
    cbn [step]. unfold retry_step. rewrite E1, Hr, (ca_caller _ Hs). done. }
  assert (calm s2) as Hs2 by (by destruct H2 as (? & _ & _ & ?)).
  assert (seq_num m ≤ br_want (nt_bridge s1)) as Hle
    by (rewrite E4; eapply pending_head; [apply Hs|apply Hs|done]).
  pose proof (StreamTransmitHandler_run m (nt_bridge s1)) as Hrun. rewrite (ca_link _ Hs1) in Hrun.
  destruct Hrun as (r & b & Hrun & Hlink & Hserved).
  assert (is_done r = true) as Hd.
  { unfold is_done. destruct Hserved as [r Hne Hc _ _|r _ _ Hrej _ _|r k' w' _ Hc _ _ _ _].
    - rewrite Hc, (proj2 (Z.ltb_ge _ _)) by lia. done.
    - destruct (Hrej k w Hk) as [_ Ha]. done.
    - by rewrite Hc. }
  set (s3 := mkNet (nt_agent s2) (nt_next s2) (delete n (nt_calls s2))
               (nt_answers s2 ++ [(n, r)]) b (nt_waiting s2) (nt_sent s2)
               (if bool_decide (result_code (status r) = SUCCESS) then nt_accepted s2 ++ [m]
                else nt_accepted s2) (nt_taken s2)).
  assert (leads s2 s3) as H3.
  { apply (leads_step (Serve n)); [done| |done|done|apply Hs2].
    cbn. rewrite lookup_insert_eq. cbn. unfold serve. cbn. by rewrite Hrun. }
  assert (calm s3) as Hs3 by (by destruct H3 as (? & _ & _ & ?)).
  exists (on_agent (set_retry Taking) s3). split_and!; cbn; rewrite ?E1; try done.
  eapply leads_trans, leads_trans, leads_trans; [done..|].
  apply (leads_step (RetryCompleted (Some r))); [done| |done|done|cbn; rewrite E1; apply Hs].
  cbn. rewrite bool_decide_true by set_solver. by rewrite Hd.
Qed.

(** And so all of them. *)
Lemma resend_all l s :
  calm s → ag_retry (nt_agent s) = Taking → ag_msg_exchanges (nt_agent s) = [] →
  ag_msg_reexchanges (nt_agent s) = l → ∃ s', leads s s' ∧ pending (nt_agent s') = [].
Proof.
  revert s. induction l as [|m l IH]; intros s Hs Hr He Hl.
  { exists s. split; [by apply leads_refl|]. unfold pending, live.
    by rewrite Hr, (ca_caller _ Hs), He, Hl. }
  set (s1 := on_agent (λ a, set_retry (Sending m) (set_reexchanges l a)) s).
  assert (leads s s1) as H1.
  { apply (leads_step (Retry true)); [done| |done|apply Hs|apply Hs].
    cbn [step]. unfold retry_step. by rewrite Hr, Hl. }
  destruct (resend_one m s1) as (s2 & H2 & E1 & E2 & E3); [by destruct H1 as (? & _ & _ & ?)|done|done|].
  destruct (IH s2) as (s' & H3 & Hp); [by destruct H2 as (? & _ & _ & ?)|done|done|by rewrite E3|].
  exists s'. split; [|done]. by eapply leads_trans, leads_trans.
Qed.
(** The retry thread has seen, or will see, the messages it has to send again: it
    does not wait, or its wake-up is still to come. *)
Definition heard a : Prop :=
  ag_msg_reexchanges a = [] ∨ ag_msg_exchanges a ≠ [] ∨
  match ag_retry a with
  | SettingCallback => False
  | Waiting => ag_notified a = true
  | _ => True
  end.

Definition all_through s : Prop := ∃ s', leads s s' ∧ pending (nt_agent s') = [].
Lemma through_after s s' : leads s s' → (calm s' → all_through s') → all_through s.
Proof.
  intros Hl H. destruct H as (s2 & H2 & Hp); [by destruct Hl as (? & _ & _ & ?)|].
  exists s2. split; [by eapply leads_trans|done].
Qed.

(** A move of the retry thread that sends nothing. *)
Lemma leads_retry r s s' :
  calm s → ag_retry (nt_agent s) = r → (∀ m, r ≠ Sending m) → retry_step true s = Some s' →
  leads s s'.
Proof.
  intros Hs Hr Hm Hst. apply (leads_step (Retry true)); [done|done|..];
    unfold retry_step in Hst; rewrite Hr in Hst; destruct r; try done;
    repeat case_match; simplify_eq; cbn; try done; try apply Hs; by destruct (Hm m).
Qed.

Lemma through_taking s :
  calm s → ag_msg_exchanges (nt_agent s) = [] → ag_retry (nt_agent s) = Taking → all_through s.
Proof. intros Hs He Hr. by eapply resend_all. Qed.
Lemma through_waiting s :
  calm s → ag_msg_exchanges (nt_agent s) = [] → ag_retry (nt_agent s) = Waiting →
  ag_notified (nt_agent s) = true → all_through s.
Proof.
  intros Hs He Hr Hn. eapply through_after; [eapply leads_retry; [done|done|done|]|].
  { unfold retry_step. by rewrite Hr, Hn. }
  intros Hs'. by apply through_taking.
Qed.
Lemma through_sending s m :
  calm s → ag_msg_exchanges (nt_agent s) = [] → ag_retry (nt_agent s) = Sending m → all_through s.
Proof.
  intros Hs He Hr. destruct (resend_one m s Hs Hr He) as (s' & Hl & E1 & E2 & E3).
  eapply through_after; [done|]. intros Hs'. by apply through_taking.
Qed.
Lemma through_testing s :
  calm s → ag_msg_exchanges (nt_agent s) = [] → ag_retry (nt_agent s) = Testing → all_through s.
Proof.
  intros Hs He Hr. destruct (ag_msg_reexchanges (nt_agent s)) as [|m l] eqn:Hl.
  { exists s. split; [by apply leads_refl|]. unfold pending, live.
    by rewrite Hr, (ca_caller _ Hs), He, Hl. }
  eapply through_after; [eapply leads_retry; [done|done|done|]|].
  { unfold retry_step. by rewrite Hr. }
  intros Hs'. apply through_taking; [done|done|]. cbn. by rewrite Hl.
Qed.
Lemma through_activating s :
  calm s → ag_msg_exchanges (nt_agent s) = [] → ag_retry (nt_agent s) = Activating → all_through s.
Proof.
  intros Hs He Hr. eapply through_after; [eapply leads_retry; [done|done|done|]|].
  { unfold retry_step. by rewrite Hr. }
  intros Hs'. by apply through_testing.
Qed.

(** A state in which no call is on its way and the retry thread is not asleep. *)
Lemma through_drained s :
  calm s → ag_msg_exchanges (nt_agent s) = [] →
  ag_retry (nt_agent s) ≠ SettingCallback →
  (ag_retry (nt_agent s) = Waiting → ag_notified (nt_agent s) = true) → all_through s.
Proof.
  intros Hs He Hn Hw. destruct (ag_retry (nt_agent s)) as [| | | |m|call m|] eqn:Hr.
  - by apply through_testing.
  - done.
  - apply through_waiting; auto.
  - by apply through_taking.
  - by eapply through_sending.
  - eapply through_after; [apply (leads_step (RetryCompleted None) s (on_agent (set_retry (Sending m)) s))|];
      [done| |done|apply Hs|apply Hs|].
    + cbn [step]. by rewrite Hr.
    + intros Hs'. by eapply through_sending.
  - by apply through_activating.
Qed.

Lemma through_heard s : calm s → heard (nt_agent s) → all_through s.
Proof.
  intros Hs Hh.
  assert (pending (nt_agent s) = [] ∨ pending (nt_agent s) ≠ []) as [Hp|Hp]
    by (destruct (pending (nt_agent s)); naive_solver).
  { exists s. split; [by apply leads_refl|done]. }
  destruct (ag_retry (nt_agent s)) as [| | | |m|call m|] eqn:Hr;
    try (destruct (drain s Hs) as (s' & Hl & E1 & E2 & E3 & E4);
         eapply through_after; [done|]; intros Hs'; apply through_drained; congruence).
  - (* the callback is set first *)
    assert (ag_msg_exchanges (nt_agent s) ≠ []) as He.
    { unfold heard in Hh. rewrite Hr in Hh. destruct Hh as [Hx|[Hx|[]]]; [|done].
      intros He. apply Hp. unfold pending, live. by rewrite Hr, (ca_caller _ Hs), He, Hx. }
    eapply through_after; [eapply leads_retry; [done|done|done|]|].
    { unfold retry_step. by rewrite Hr, (ca_caller _ Hs). }
    intros Hs1. destruct (drain _ Hs1) as (s' & Hl & E1 & E2 & E3 & E4).
    eapply through_after; [done|]. intros Hs'. apply through_drained; [done|done|by rewrite E2|].
    intros _. by apply E3.
  - pose proof (ao_callback _ _ (in_agent _ (ca_inv _ Hs)) Hr) as Hcb.
    destruct (drain s Hs) as (s' & Hl & E1 & E2 & E3 & E4).
    eapply through_after; [done|]. intros Hs'. apply through_drained; [done|done|congruence|].
    intros _. unfold heard in Hh. rewrite Hr in Hh. destruct Hh as [Hx|[Hx|Hx]]; [|by apply E3|by apply E4].
    apply E3; [|done]. intros He. apply Hp. unfold pending, live.
    by rewrite Hr, (ca_caller _ Hs), He, Hx.
Qed.
End progress.

(** ** The properties *)
Section properties.
Context {D : Type}.
Abbreviation message := (TrainerWorkerMessage D).
Implicit Types (m : message) (s : net D).

(** The counters of the sender number its messages like that: after [n] commits the
    number at hand is [n]. *)
Lemma counters_number_consecutively n :
  ∃ st, forM (seq 0 n) (λ _, _ ← CommitToNextSeqNum; mret tt) new_stats = (Ret tt, st) ∧
        (CurrentSeqNum st).1 = Ret (Z.of_nat n) ∧ (NextSeqNum st).1 = Ret (Z.of_nat n + 1).
Proof.
  induction n as [|n (st & H1 & H2 & H3)]; [by eexists|].
  rewrite seq_S, forM_app, (run_bind_ret _ _ _ _ _ H1). eexists. split; [reflexivity|].
  cbn in *. simplify_eq. split; f_equal; lia.
Qed.

(** C12. The stream delivers every message once and in order.
    Whatever calls fail, come back late or are sent again, and however the threads
    of the agent, the network, the service and the operators interleave: the
    messages that the service accepted are the first ones that the agent took, in
    that order; what the operators took for a name are the first data messages of
    that name, in order and each once; and a message that is not accepted yet is
    still in the hands of the agent. *)
Theorem stream_delivers_in_order b es s :
  fresh_bridge b → steps es (new_net b) = Some s → numbered (nt_sent s) →
  nt_accepted s `prefix_of` nt_sent s ∧
  (∀ name, taken_of (data_key name) (nt_taken s) `prefix_of` at_key (data_key name) (nt_sent s)) ∧
  (∀ i m, nt_sent s !! i = Some m → nt_accepted s !! i = Some m ∨ m ∈ pending (nt_agent s)).
Proof.
  intros Hb Hs Hn. destruct (inv_steps _ _ _ Hs (inv_new b Hb) Hn) as [_ _ [_ _ G3 G4] _ C].
  split_and!; [done| |].
  - intros name. destruct G4 as [l Hl]. rewrite Hl. unfold at_key. rewrite filter_app.
    fold (at_key (data_key name) (nt_accepted s)). rewrite <- (co_log _ _ _ _ _ C), <- app_assoc.
    by eexists.
  - intros i m Hm. destruct (decide (length (nt_accepted s) ≤ i)%nat); [right; by eapply G3|left].
    destruct G4 as [l Hl]. rewrite Hl in Hm. by rewrite lookup_app_l in Hm by lia.
Qed.

Lemma step_link e s s' :
  step e s = Some s' → br_link_up (nt_bridge s') = br_link_up (nt_bridge s).
Proof.
  intros Hs. destruct e; cbn [step] in Hs.
  all: try (unfold retry_step in Hs; repeat case_match; simplify_option_eq; done).
  - apply bind_Some in Hs as (m & _ & Hs). unfold serve in Hs.
    pose proof (StreamTransmitHandler_run m (nt_bridge s)) as Hrun.
    destruct (br_link_up (nt_bridge s)) eqn:Hl.
    + destruct Hrun as (r & b & Hrun & Hb & _). rewrite Hrun in Hs. by simplify_eq.
    + rewrite Hrun in Hs. by simplify_eq.
  - destruct (nt_waiting s !! k); [done|]. unfold query, on_cache, zoom in Hs.
    destruct (QueryResult _ _ _ _) as [[[[? ?]|]|?] c]; by simplify_eq.
  - apply bind_Some in Hs as (n & _ & Hs). destruct (negb ok || _); [|done].
    unfold query_woken, on_cache, zoom in Hs.
    destruct (QueryResult_woken _ _ _ _) as [[[? ?]|?] c]; by simplify_eq.
Qed.
Lemma steps_link es s s' :
  steps es s = Some s' → br_link_up (nt_bridge s') = br_link_up (nt_bridge s).
Proof.
  revert s. induction es as [|e es IH]; intros s Hs; [cbn in Hs; by simplify_eq|].
  rewrite steps_cons in Hs. apply bind_Some in Hs as (s1 & H1 & H2).
  rewrite (IH _ H2). by eapply step_link.
Qed.

(** C13. What the agent has taken can always be brought to the other side.
    In every state that a run of the agent, the network and the service reaches,
    unless the retry thread sleeps while nobody will wake it ([heard]), the steps
    of the threads lead to a state in which the service has accepted all messages
    that the agent took, with no help of new ones. *)
Theorem taken_messages_get_through b es s :
  fresh_bridge b → br_link_up b = true → steps es (new_net b) = Some s →
  numbered (nt_sent s) → (∀ m, m ∈ nt_sent s → is_Some (slot_of m)) →
  ag_caller (nt_agent s) = NoCaller → heard (nt_agent s) →
  ∃ es' s', steps es' s = Some s' ∧ nt_sent s' = nt_sent s ∧ nt_accepted s' = nt_sent s.
Proof.
  intros Hb Hl Hs Hn Hsl Hc Hh.
  destruct (through_heard s) as (s' & (es' & H1 & H2 & H3) & Hp); [|done|].
  - split; try done; [by apply (inv_steps _ _ _ Hs (inv_new b Hb))|].
    by rewrite (steps_link _ _ _ Hs).
  - exists es', s'. split_and!; [done..|]. by rewrite (all_arrived _ H3 Hp).
Qed.

(** *** The wake-up that is lost *)

(** The retry thread waits for a notification that nobody will give. *)
Record asleep s : Prop := mkAsleep {
  as_channel : ag_channel_state (nt_agent s) = kInactive;
  as_exchanges : ag_msg_exchanges (nt_agent s) = [];
  as_caller : ag_caller (nt_agent s) = NoCaller;
  as_retry : ag_retry (nt_agent s) = Waiting;
  as_notified : ag_notified (nt_agent s) = false;
  as_calls : nt_calls s = ∅;
}.
Lemma asleep_step e s s' :
  asleep s → step e s = Some s' →
  asleep s' ∧ nt_sent s' = nt_sent s ∧ nt_accepted s' = nt_accepted s.
Proof.
  intros [A1 A2 A3 A4 A5 A6] Hs. destruct e; cbn [step] in Hs.
  - rewrite A3 in Hs. simplify_eq. split; [|done].
    assert (enqueue_test m (nt_agent s) = nt_agent s) as E by (unfold enqueue_test; by rewrite A1).
    unfold on_agent. rewrite E. done.
  - by rewrite A3 in Hs.
  - by rewrite A3 in Hs.
  - by rewrite A2 in Hs.
  - unfold retry_step in Hs. by rewrite A4, A5 in Hs.
  - by rewrite A4 in Hs.
  - by rewrite A6 in Hs.
  - destruct (nt_waiting s !! k); [done|]. unfold query in Hs.
    destruct (on_cache _ _) as [[[[? ?]|]|?] c]; by simplify_eq.
  - apply bind_Some in Hs as (n & _ & Hs). destruct (negb ok || _); [|done].
    unfold query_woken in Hs. destruct (on_cache _ _) as [[[? ?]|?] c]; by simplify_eq.
Qed.
Lemma asleep_steps es s s' :
  asleep s → steps es s = Some s' → nt_sent s' = nt_sent s ∧ nt_accepted s' = nt_accepted s.
Proof.
  revert s. induction es as [|e es IH]; intros s Ha Hs; [cbn in Hs; by simplify_eq|].
  rewrite steps_cons in Hs. apply bind_Some in Hs as (s1 & H1 & H2).
  destruct (asleep_step _ _ _ Ha H1) as (Ha1 & E1 & E2).
  destruct (IH _ Ha1 H2) as [E3 E4]. by rewrite E3, E4.
Qed.

(** A bridge whose other side has connected. *)
Definition connected : bridge D := mkBridge "app" 0 "follower" STARTED new_stats new_cache true 0.
Definition enqueue m : list (event D) := [EnqueueTest m; EnqueuePush; EnqueueSend true].
Definition ok_answer (next : Z) : TrainerWorkerResponse := mkResponse (mkResult SUCCESS "") next.

(** Two data messages of one name: the second is rejected while the first has not
    been taken, and its answer arrives after the retry thread has seen an empty
    queue and before it sets its callback. *)
Definition lost_wakeup (t1 t2 : D) : list (event D) :=
  enqueue (mkMessage 0 (DataMessage 0 "x" t1)) ++ [Serve 0; Completed (Some (ok_answer 1))] ++
  enqueue (mkMessage 1 (DataMessage 1 "x" t2)) ++ [Serve 1; Retry true;
    Completed (Some (mkResponse (mkResult UNKNOWN_ERROR "Reject.") 1)); Retry true].

(** C40. The retry thread can miss its wake-up.
    It tests the queue and sets its callback in two steps; the last answer of the
    exchanges can come between them, and its callback wakes nobody.  From then on
    no step of any thread delivers the message or lets the agent take another. *)
Theorem wake_up_can_be_lost (t1 t2 : D) : ∃ s,
  steps (lost_wakeup t1 t2) (new_net connected) = Some s ∧
  nt_accepted s ≠ nt_sent s ∧
  ∀ es s', steps es s = Some s' → nt_sent s' = nt_sent s ∧ nt_accepted s' = nt_accepted s.
Proof.
  eexists. split; [vm_compute; reflexivity|]. split; [vm_compute; congruence|].
  intros es s'. apply asleep_steps. split; vm_compute; reflexivity.
Qed.
End properties.

(** ** An example *)
Module TestBridge.

(** Two calls are lost and sent again, one of them arrives twice. *)
Definition first : list (event Z) :=
  [Retry true; Retry true] ++
  enqueue (mkMessage 0 (DataMessage 0 "x" 10)) ++ enqueue (mkMessage 1 (DataMessage 0 "y" 11)) ++
  [Query (data_key "x"); Serve 0; Completed None; Completed None].
Definition second : list (event Z) :=
  [Retry true; Retry true; Retry false; Retry true; Serve 3;
   RetryCompleted (Some (mkResponse (mkResult MESSAGE_DUPLICATED "") 1));
   Retry true; Retry true; Serve 4; Serve 1; RetryCompleted (Some (ok_answer 2));
   QueryWoken (data_key "x") true; Query (data_key "y")].
Definition after (es : list (event Z)) : net Z := default (new_net connected) (steps es (new_net connected)).

Lemma connected_fresh : fresh_bridge (D := Z) connected.
Proof. done. Qed.
Lemma numbered_after es : forallb (λ x, x.2 =? Z.of_nat x.1)
    (zip (seq 0 (length (nt_sent (after es)))) (seq_num <$> nt_sent (after es))) = true →
  numbered (nt_sent (after es)).
Proof.
  intros H i m Hm. rewrite forallb_forall in H.
  specialize (H (i, seq_num m)). cbn in H. apply Z.eqb_eq, H, list_elem_of_In.
  apply list_elem_of_lookup. exists i. rewrite lookup_zip_with.
  rewrite lookup_seq_lt by (by eapply lookup_lt_Some). cbn.
  by rewrite list_lookup_fmap, Hm.
Qed.
End TestBridge.

Section witnesses.
Import TestBridge.
Lemma stream_delivers_in_order_witness :
  steps (first ++ second) (new_net connected) = Some (after (first ++ second)) ∧
  nt_accepted (after (first ++ second)) `prefix_of` nt_sent (after (first ++ second)).
Proof.
  assert (steps (first ++ second) (new_net connected) = Some (after (first ++ second))) as Hs
    by (vm_compute; reflexivity).
  split; [exact Hs|].
  refine (proj1 (stream_delivers_in_order connected (first ++ second) _ connected_fresh Hs _)).
  apply numbered_after. vm_compute. reflexivity.
Defined.
Example both_arrive : nt_accepted (after (first ++ second)) = nt_sent (after (first ++ second)) ∧
  length (nt_taken (after (first ++ second))) = 2%nat.
Proof. vm_compute. split; reflexivity. Qed.

Lemma taken_messages_get_through_witness :
  ∃ es' s', steps es' (after first) = Some s' ∧ nt_accepted s' = nt_sent (after first).
Proof.
  assert (steps first (new_net connected) = Some (after first)) as Hs by (vm_compute; reflexivity).
  refine (match taken_messages_get_through connected first (after first) connected_fresh
            eq_refl Hs _ _ _ _ with
          | ex_intro _ es' (ex_intro _ s' (conj H1 (conj H2 H3))) => ex_intro _ es' (ex_intro _ s' (conj H1 H3))
          end).
  - apply numbered_after. vm_compute. reflexivity.
  - intros m Hm%list_elem_of_In. vm_compute in Hm. destruct Hm as [<-|[<-|[]]]; by eexists.
  - vm_compute. reflexivity.
  - right. right. vm_compute. reflexivity.
Defined.
End witnesses.
