(* ===== verification/Coordinator.v ===== *)
(** * The coordinator

    src/src/Coordinator: the service at which the workers of one side register and
    ask for their peers (services/internal_service_impl.cc, common.cc), the check of
    the running applications (check_app_status.cc) and the lock in redis that the
    registrations share (resource/hiredis_executor.cc).  Redis, the JSON form of a
    message, the other coordinator and the cluster are the outside.  Registrations
    that run at the same time are threads whose steps are the commands to redis. *)

From stdpp Require Import base tactics list gmap strings.
From Stdlib Require Import ZArith Lia Ascii Sorting.Sorted.
From S2P Require Import Prelude PyStd Threads.
Open Scope Z_scope.

(** ** Messages: the fields that the code reads or writes *)
Inductive Role := LEADER | FOLLOWER.
#[export] Instance role_eq_dec : EqDecision Role.
Proof. solve_decision. Defined.
Inductive AppStatus := RUNNING | FINISH | SHUTDOWN.
#[export] Instance app_status_eq_dec : EqDecision AppStatus.
Proof. solve_decision. Defined.

Record ConfInfo := mkConf {
  ci_app_id : string;
  ci_role : Role;
  ci_model_uri : string;
  ci_version : string;
  ci_worker_num : Z;
  ci_datacentor_num : Z;
  ci_data_source_name : string;
  ci_train_data_start : string;
  ci_train_data_end : string;
  ci_data_num_epoch : Z;
  ci_local_status : AppStatus;
  ci_remote_status : AppStatus;
}.
Record ServicePair := mkService { sp_local_uuid : string; sp_remote_uuid : string }.
Record PairInfo := mkPair { pr_ip_port : string; pr_service_pair : list ServicePair }.
Record AppInfo := mkApp { ai_conf_info : ConfInfo; ai_pair_infos : list PairInfo }.
Record Request := mkRequest { rq_uuid : list string; rq_ip_port : string }.

Definition set_pair_infos (l : list PairInfo) (a : AppInfo) : AppInfo := mkApp (ai_conf_info a) l.
Definition set_conf (c : ConfInfo) (a : AppInfo) : AppInfo := mkApp c (ai_pair_infos a).

Definition GetAppIdFromUUID (uuid : string) : string :=
  match Str.split "_" uuid with x :: _ => x | [] => uuid end.

(** ** Redis and the process

    [J]: the JSON form of an [AppInfo].  A key may have a time at which it expires;
    [rd_now] is the time of the server in milliseconds.  [rd_apps] are the
    applications that the coordinator checks, in the order of the [std::set].  The
    commands are texts with the words separated by blanks, and are the format of
    [redisCommand]; the keys and values are taken to have neither blanks nor [%]. *)
Inductive value (J : Type) := VText (s : string) | VJson (j : J).
Arguments VText {_}. Arguments VJson {_}.
Record redis (J : Type) := mkRedis {
  rd_data : gmap string (value J * option Z);
  rd_now : Z;
  rd_apps : list string;
}.
Arguments mkRedis {_}. Arguments rd_data {_}. Arguments rd_now {_}. Arguments rd_apps {_}.

(** What the conversions of protobuf promise: a message that was written is read
    back. *)
Class Json (J : Type) := {
  MessageToJsonString : AppInfo → option J;
  JsonStringToMessage : J → option AppInfo;
}.
Class JsonLaws (J : Type) `{!Json J} : Prop := {
  json_round_trip a j : MessageToJsonString a = Some j → JsonStringToMessage j = Some a;
}.

(** ** The flags *)
Definition FLAGS_lock_timeout_s : Z := 1.
Definition FLAGS_lock_times : nat := 20.
Definition lock_str : string := "fl_lock_".

Section coordinator.
Context {J : Type} `{!Json J}.
Abbreviation R := (redis J).

Definition lookup_key (k : string) (r : R) : option (value J) :=
  match rd_data r !! k with
  | Some (v, Some t) => if rd_now r <? t then Some v else None
  | Some (v, None) => Some v
  | None => None
  end.
Definition Get (k : string) : M R (option (value J)) := gets (lookup_key k).
Definition set_key (k : string) (v : value J) (t : option Z) (r : R) : R :=
  mkRedis (<[k := (v, t)]> (rd_data r)) (rd_now r) (rd_apps r).
Definition Set_ (k : string) (v : value J) : M R bool := λ r, (Ret true, set_key k v None r).
Definition SetEx (k : string) (v : value J) (time_s : Z) : M R bool := λ r,
  (Ret true, set_key k v (Some (rd_now r + 1000 * time_s)) r).
Definition Del (k : string) : M R unit :=
  modify (λ r, mkRedis (delete k (rd_data r)) (rd_now r) (rd_apps r)).
(** The keys are joined into one. *)
Definition Del_all (ks : list string) : M R unit := Del (Str.concat ks).
Definition Mset (keys values : list string) : M R bool :=
  if bool_decide (length keys = length values) then
    forM (zip keys values) (λ kv, modify (set_key kv.1 (VText kv.2) None));; mret true
  else mret false.
Definition usleep (us : Z) : M R unit :=
  modify (λ r, mkRedis (rd_data r) (rd_now r + us / 1000) (rd_apps r)).

Definition Lock (str : string) (lock_timeout_s : Z) : M R bool :=
  v ← Get (lock_str +:+ str);
  match v with
  | Some _ => mret false
  | None => SetEx (lock_str +:+ str) (VText lock_str) lock_timeout_s
  end.
Definition Unlock (str : string) : M R unit := Del (lock_str +:+ str).

(** ** common.cc *)
Definition CheckAppInfo (a : AppInfo) : bool :=
  let c := ai_conf_info a in
  negb (bool_decide (ci_model_uri c = "")) && negb (bool_decide (ci_data_source_name c = ""))
  && negb (bool_decide (ci_train_data_start c = "")) && negb (bool_decide (ci_train_data_end c = ""))
  && negb (ci_data_num_epoch c =? 0).
Definition CheckK8SParaInfo (a : AppInfo) : bool :=
  let c := ai_conf_info a in
  negb (ci_worker_num c =? 0) && negb (bool_decide (ci_train_data_start c = ""))
  && negb (bool_decide (ci_train_data_end c = "")) && negb (bool_decide (ci_data_source_name c = ""))
  && negb (ci_data_num_epoch c =? 0).

Definition SetAppInfoToRedis (a : AppInfo) : M R bool :=
  match MessageToJsonString a with
  | Some j => Set_ (ci_app_id (ai_conf_info a)) (VJson j)
  | None => mret false
  end.
Definition GetAppInfoFromRedis (app_id : string) : M R (option AppInfo) :=
  v ← Get app_id;
  mret match v with Some (VJson j) => JsonStringToMessage j | _ => None end.
Definition GetJsonConfFromRedis (model_uri version : string) : M R (option AppInfo) :=
  o ← GetAppInfoFromRedis (model_uri +:+ "-" +:+ version);
  mret match o with
       | Some a => if bool_decide (ci_model_uri (ai_conf_info a) = model_uri) then Some a else None
       | None => None
       end.
Definition DeleteAppInfoInRedis (app_id : string) : M R bool :=
  o ← GetAppInfoFromRedis app_id;
  match o with
  | None => mret false
  | Some a =>
      Del app_id;;
      Del_all (concat ((λ p, sp_local_uuid <$> pr_service_pair p) <$> ai_pair_infos a));;
      mret true
  end.
Definition is_over (s : AppStatus) : bool := match s with FINISH | SHUTDOWN => true | RUNNING => false end.

(** -2 when the application is gone or over, -1 while workers are missing. *)
Definition CheckRegisterNum (app_id : string) : M R (Z * option AppInfo) :=
  o ← GetAppInfoFromRedis app_id;
  mret match o with
       | None => (-2, None)
       | Some a =>
           let c := ai_conf_info a in
           if is_over (ci_local_status c) || is_over (ci_remote_status c) then (-2, Some a)
           else
             let total := if ci_worker_num c =? 0 then ci_datacentor_num c else ci_worker_num c in
             if total =? Z.of_nat (length (ai_pair_infos a)) then (total, Some a) else (-1, Some a)
       end.

(** ** The registration of a worker *)

(** The first pair that shares an id with the request gets the new address. *)
Definition shares (request : Request) (p : PairInfo) : bool :=
  existsb (λ s, bool_decide (sp_local_uuid s ∈ rq_uuid request)) (pr_service_pair p).
Fixpoint ReplaceUUIDForNewIp (request : Request) (l : list PairInfo) : option (list PairInfo) :=
  match l with
  | [] => None
  | p :: l' =>
      if shares request p then Some (mkPair (rq_ip_port request) (pr_service_pair p) :: l')
      else cons p <$> ReplaceUUIDForNewIp request l'
  end.
Definition new_pair (request : Request) : PairInfo :=
  mkPair (rq_ip_port request) ((λ k, mkService k "") <$> rq_uuid request).
Definition add_registration (request : Request) (a : AppInfo) : AppInfo :=
  set_pair_infos
    (default (ai_pair_infos a ++ [new_pair request])
       (ReplaceUUIDForNewIp request (ai_pair_infos a))) a.

Inductive grpc_status := GRPC_OK | UNAVAILABLE (err : string).

(** [while (index++ < lock_times)]: the index with which the loop is left. *)
Fixpoint lock_loop (app_id : string) (index left : nat) : M R nat :=
  match left with
  | O => mret (S index)
  | S left' =>
      b ← Lock app_id FLAGS_lock_timeout_s;
      if (b : bool) then mret (S index)
      else usleep (100 * 1000);; lock_loop app_id (S index) left'
  end.

Definition RegisterUUID (request : Request) : M R grpc_status :=
  match rq_uuid request with
  | [] => mret (UNAVAILABLE "uuid is empty")
  | uuid :: _ =>
      let app_id := GetAppIdFromUUID uuid in
      ok ← Mset (rq_uuid request) ((λ _, rq_ip_port request) <$> rq_uuid request);
      if negb ok then mret (UNAVAILABLE "set uuid fail!")
      else
        index ← lock_loop app_id 0 FLAGS_lock_times;
        if (FLAGS_lock_times <=? index)%nat then mret (UNAVAILABLE "lock fail for many times!")
        else
          o ← GetAppInfoFromRedis app_id;
          match o with
          | None => Unlock app_id;; mret (UNAVAILABLE "get app fail!")
          | Some a =>
              b ← SetAppInfoToRedis (add_registration request a);
              Unlock app_id;;
              mret (if (b : bool) then GRPC_OK else UNAVAILABLE "set app info fail!")
          end
  end.

(** The pairs of the address that asks; an answer only when each has its peer. *)
Definition pairs_at (ip_port : string) (a : AppInfo) : list ServicePair :=
  match filter (λ p, pr_ip_port p = ip_port) (ai_pair_infos a) with
  | p :: _ => pr_service_pair p
  | [] => []
  end.
Definition GetPairInfo (request : Request) : M R (grpc_status * list ServicePair) :=
  match rq_uuid request with
  | [] => mret (UNAVAILABLE "uuid is empty", [])
  | uuid :: _ =>
      o ← GetAppInfoFromRedis (GetAppIdFromUUID uuid);
      let l := match o with Some a => pairs_at (rq_ip_port request) a | None => [] end in
      mret (if bool_decide (l = []) then UNAVAILABLE "lack of pair uuid info"
            else if existsb (λ s, bool_decide (sp_remote_uuid s = "")) l
            then UNAVAILABLE "lack of remote uuid pair" else GRPC_OK, l)
  end.

(** ** Starting an application *)

(** [CheckAppInfo] and the call to the other coordinator, whose reply is its status
    and its application; then the application is stored. *)
Definition InvokeSubmitTrain (submit : AppInfo → option (Z * string)) (a : AppInfo)
    : M R grpc_status :=
  if negb (CheckAppInfo a) then mret (UNAVAILABLE "set SubmitTrain request error.")
  else
    match submit a with
    | None => mret (UNAVAILABLE "fail to invoke SubmitTrain.")
    | Some (st, id) =>
        if negb (st =? 0) || negb (bool_decide (id = ci_app_id (ai_conf_info a)))
        then mret (UNAVAILABLE "fail to verify ModelTrainMeta.")
        else
          b ← SetAppInfoToRedis a;
          mret (if (b : bool) then GRPC_OK else UNAVAILABLE "fail to save TrainMeta to redis.")
    end.
Definition StartK8S (start_job : AppInfo → Z) (app_id : string) : M R bool :=
  o ← GetAppInfoFromRedis app_id;
  mret match o with Some a => CheckK8SParaInfo a && (start_job a =? 0) | None => false end.

(** The ids that are sent to the follower, in the order of the pairs. *)
Definition SetSynRequest (a : AppInfo) : list string :=
  concat ((λ p, sp_local_uuid <$> pr_service_pair p) <$> ai_pair_infos a).

Definition set_apps (l : list string) (r : R) : R := mkRedis (rd_data r) (rd_now r) l.
Definition AddAppId (app_id : string) : M R unit :=
  modify (λ r, set_apps (if bool_decide (app_id ∈ rd_apps r) then rd_apps r
                         else insert_sorted Str.leb app_id (rd_apps r)) r).
Definition DeleteAppId (app_id_arr : list string) : M R unit :=
  modify (λ r, set_apps (filter (λ x, x ∉ app_id_arr) (rd_apps r)) r).
(** The entries under which the proxy finds this coordinator. *)
Definition RegisterCoodinator (coordinator_domain : string) : M R bool :=
  Mset ["Scheduler"; "StateSynService"] [coordinator_domain; coordinator_domain].

(** Asking every second whether all workers have registered; [others] is what
    happens to redis in the meantime. *)
Fixpoint wait_registered (syn : list string → bool) (app_id : string) (others : list (R → R))
    : M R grpc_status :=
  r ← CheckRegisterNum app_id;
  match r with
  | (n, Some a) =>
      if n =? -2 then mret (UNAVAILABLE "fail to get app_id from redis or finish or shutdown.")
      else if n =? -1 then
        match others with
        | [] => stopM NoFuel
        | f :: fs => modify f;; wait_registered syn app_id fs
        end
      else mret (if syn (SetSynRequest a) then GRPC_OK else UNAVAILABLE "fail to send UUID.")
  | (_, None) => mret (UNAVAILABLE "fail to get app_id from redis or finish or shutdown.")
  end.

Definition new_app_id (model_uri version : string) (tv_sec : Z) : string :=
  "flapp-jd-" +:+ model_uri +:+ "-" +:+ version +:+ "-" +:+ Str.of_int tv_sec.
Definition as_leader (app_id : string) (a : AppInfo) : AppInfo :=
  let c := ai_conf_info a in
  set_conf (mkConf app_id LEADER (ci_model_uri c) (ci_version c) (ci_worker_num c)
    (ci_datacentor_num c) (ci_data_source_name c) (ci_train_data_start c) (ci_train_data_end c)
    (ci_data_num_epoch c) (ci_local_status c) (ci_remote_status c)) a.
Definition StartApplication (submit : AppInfo → option (Z * string)) (start_job : AppInfo → Z)
    (syn : list string → bool) (tv_sec : Z) (others : list (R → R)) (model_uri version : string)
    : M R grpc_status :=
  o ← GetJsonConfFromRedis model_uri version;
  match o with
  | None => mret (UNAVAILABLE "model_uri conf error.")
  | Some a =>
      let app_id := new_app_id model_uri version tv_sec in
      st ← InvokeSubmitTrain submit (as_leader app_id a);
      match st with
      | UNAVAILABLE _ => mret st
      | GRPC_OK =>
          b ← StartK8S start_job app_id;
          if (b : bool) then AddAppId app_id;; wait_registered syn app_id others
          else mret (UNAVAILABLE "fail to start k8s.")
      end
  end.

(** ** The check of the running applications

    [check_job] is the exit code of the script that looks for the job of a role. *)
Definition with_local_status (s : AppStatus) (a : AppInfo) : AppInfo :=
  let c := ai_conf_info a in
  set_conf (mkConf (ci_app_id c) (ci_role c) (ci_model_uri c) (ci_version c) (ci_worker_num c)
    (ci_datacentor_num c) (ci_data_source_name c) (ci_train_data_start c) (ci_train_data_end c)
    (ci_data_num_epoch c) s (ci_remote_status c)) a.
Definition CheckK8S (check_job : option Role → string → Z) (app_id : string) : M R Z :=
  o ← GetAppInfoFromRedis app_id;
  mret (check_job ((λ a, ci_role (ai_conf_info a)) <$> o) app_id).

(** One pass over the applications: those that are over, or [None] when the thread
    has ended because the other coordinator could not be told. *)
Fixpoint check_pass (check_job : option Role → string → Z) (tell : string → AppStatus → bool)
    (app_ids : list string) : M R (option (list string)) :=
  match app_ids with
  | [] => mret (Some [])
  | app_id :: rest =>
      o ← GetAppInfoFromRedis app_id;
      match o with
      | None => check_pass check_job tell rest
      | Some a =>
          res ← CheckK8S check_job app_id;
          if res =? 0 then check_pass check_job tell rest
          else
            let st := if res =? 1 then FINISH else SHUTDOWN in
            _ ← SetAppInfoToRedis (with_local_status st a);
            if tell app_id st then
              l ← check_pass check_job tell rest;
              mret (cons app_id <$> l)
            else mret None
      end
  end.
(** A round of the thread: whether it goes on. *)
Definition DoCheckAppStatus (check_job : option Role → string → Z)
    (tell : string → AppStatus → bool) : M R bool :=
  usleep (60 * 1000 * 1000);;
  app_ids ← gets rd_apps;
  l ← check_pass check_job tell app_ids;
  match l with
  | Some over => DeleteAppId over;; mret true
  | None => mret false
  end.
End coordinator.

(** ** Registrations at the same time

    Each worker's call is a thread, and its steps are the commands to redis. *)
Inductive reg_pc :=
  | Setting
  | Asking (index left : nat)
  | Locking (index left : nat)
  | Reading
  | Writing (a : AppInfo)
  | Unlocking (s : grpc_status)
  | Done (s : grpc_status).

Record reg_state (J : Type) := mkReg { rs_redis : redis J; rs_threads : list reg_pc }.
Arguments mkReg {_}. Arguments rs_redis {_}. Arguments rs_threads {_}.

Inductive reg_event := Turn (i : nat) | Tick (ms : nat).

Section mset.
Context {J : Type}.
Abbreviation R := (redis J).
Lemma Mset_run keys values (r : R) :
  length keys = length values →
  ∃ r', Mset keys values r = (Ret true, r') ∧ rd_now r' = rd_now r ∧
        ∀ k, k ∉ keys → rd_data r' !! k = rd_data r !! k.
Proof.
  intros Hl. unfold Mset. rewrite bool_decide_true by done. rewrite run_bind.
  revert values r Hl. induction keys as [|k keys IH]; intros [|v values] r Hl; try done.
  - eexists. split; [reflexivity|done].
  - cbn [zip zip_with forM]. rewrite run_bind. cbn [modify].
    destruct (IH values (set_key k (VText v) None r)) as (r' & Hr & Hn & Hd); [cbn in Hl; lia|].
    exists r'. split; [exact Hr|]. split; [by rewrite Hn|].
    intros x Hx. rewrite Hd by set_solver. cbn. rewrite lookup_insert_ne; [done|]. set_solver.
Qed.
End mset.

Section threads.
Context {J : Type} `{!Json J}.
Abbreviation R := (redis J).
(** The application, and what the workers ask for. *)
Context (app_id : string) (requests : list Request).

Definition reg_step_pc (request : Request) (pc : reg_pc) : M R reg_pc :=
  match pc with
  | Setting =>
      ok ← Mset (rq_uuid request) ((λ _, rq_ip_port request) <$> rq_uuid request);
      mret (if (ok : bool) then Asking 0 FLAGS_lock_times else Done (UNAVAILABLE "set uuid fail!"))
  | Asking index O => mret (Done (UNAVAILABLE "lock fail for many times!"))
  | Asking index (S k) =>
      v ← Get (lock_str +:+ app_id);
      mret match v with Some _ => Asking (S index) k | None => Locking index k end
  | Locking index k =>
      _ ← SetEx (lock_str +:+ app_id) (VText lock_str) FLAGS_lock_timeout_s;
      mret (if (FLAGS_lock_times <=? S index)%nat then Done (UNAVAILABLE "lock fail for many times!")
            else Reading)
  | Reading =>
      o ← GetAppInfoFromRedis app_id;
      mret match o with
           | None => Unlocking (UNAVAILABLE "get app fail!")
           | Some a => Writing (add_registration request a)
           end
  | Writing a =>
      b ← SetAppInfoToRedis a;
      mret (Unlocking (if (b : bool) then GRPC_OK else UNAVAILABLE "set app info fail!"))
  | Unlocking s => Unlock app_id;; mret (Done s)
  | Done s => mret (Done s)
  end.

Definition reg_step (e : reg_event) (s : reg_state J) : option (reg_state J) :=
  match e with
  | Tick ms => Some (mkReg (mkRedis (rd_data (rs_redis s)) (rd_now (rs_redis s) + Z.of_nat ms)
                              (rd_apps (rs_redis s))) (rs_threads s))
  | Turn i =>
      pc ← rs_threads s !! i;
      request ← requests !! i;
      match reg_step_pc request pc (rs_redis s) with
      | (Ret pc', r) => Some (mkReg r (<[i := pc']> (rs_threads s)))
      | (Stop _, _) => None
      end
  end.
Definition reg_steps (es : list reg_event) (s : reg_state J) : option (reg_state J) :=
  foldl (λ o e, o ≫= reg_step e) (Some s) es.
Definition reg_start (r : R) : reg_state J := mkReg r (replicate (length requests) Setting).
End threads.

(** ** What the lock protects *)
Section linearization.
Context {J : Type} `{!Json J, !JsonLaws J}.
Abbreviation R := (redis J).
Context (app_id : string) (requests : list Request).
Abbreviation lock_key := (lock_str +:+ app_id).

(** The ids of the workers are keys of their own. *)
Context (Hkeys : ∀ i q k, requests !! i = Some q → k ∈ rq_uuid q → k ≠ app_id ∧ k ≠ lock_key).

(** Nobody takes a turn between the two commands of another one's [Lock]. *)
Definition undisturbed (e : reg_event) (s : reg_state J) : Prop :=
  ∀ j index k, rs_threads s !! j = Some (Locking index k) → e = Turn j.
Fixpoint unbroken (es : list reg_event) (s : reg_state J) : Prop :=
  match es with
  | [] => True
  | e :: es' =>
      undisturbed e s ∧
      match reg_step app_id requests e s with Some s' => unbroken es' s' | None => True end
  end.

(** The registrations of some workers, one after the other. *)
Definition register_one (a : AppInfo) (i : nat) : AppInfo :=
  match requests !! i with Some q => add_registration q a | None => a end.
Definition registered (a : AppInfo) (order : list nat) : AppInfo := foldl register_one a order.
Lemma registered_snoc a order i : registered a (order ++ [i]) = register_one (registered a order) i.
Proof. unfold registered. by rewrite foldl_app. Qed.

Definition holds_lock (pc : reg_pc) : bool :=
  match pc with Reading | Writing _ | Unlocking _ => true | _ => false end.
Definition is_locking (pc : reg_pc) : bool := match pc with Locking _ _ => true | _ => false end.
Definition is_registered (pc : reg_pc) : bool :=
  match pc with Unlocking GRPC_OK | Done GRPC_OK => true | _ => false end.

Definition app_in (r : R) (a : AppInfo) : Prop :=
  ∃ j, rd_data r !! app_id = Some (VJson j, None) ∧ MessageToJsonString a = Some j ∧
       ci_app_id (ai_conf_info a) = app_id.

(** The state in which the threads [pcs] and redis fit together; [t0] is the time at
    the start. *)
Record lock_ok (t0 : Z) (a0 : AppInfo) (pcs : list reg_pc) (r : R) (order : list nat) (a : AppInfo)
    : Prop := mkLockOk {
  lk_now : t0 ≤ rd_now r;
  lk_time v t : rd_data r !! lock_key = Some (v, t) → ∃ x, t = Some x ∧ t0 + 1000 ≤ x;
  lk_held i pc : pcs !! i = Some pc → holds_lock pc = true → is_Some (rd_data r !! lock_key);
  lk_one i j p q : pcs !! i = Some p → pcs !! j = Some q →
    holds_lock p = true → holds_lock q = true → i = j;
  lk_locking i pc : pcs !! i = Some pc → is_locking pc = true → rd_data r !! lock_key = None;
  lk_app : app_in r a;
  lk_writing i a' : pcs !! i = Some (Writing a') → a' = register_one a i;
  lk_order : NoDup order ∧ a = registered a0 order;
  lk_done i pc : pcs !! i = Some pc → (is_registered pc = true ↔ i ∈ order);
  lk_range : Forall (λ i, i < length pcs)%nat order;
}.

Lemma lock_key_ne : lock_key ≠ app_id.
Proof.
  intros H. apply (f_equal String.length) in H. rewrite Str.length_append in H.
  cbn in H. lia.
Qed.

(** A thread that moves without touching lock, application or log. *)
Lemma lock_ok_move t0 a0 pcs r r' order a i pc pc' :
  lock_ok t0 a0 pcs r order a → pcs !! i = Some pc →
  t0 ≤ rd_now r' → rd_data r' !! lock_key = rd_data r !! lock_key →
  rd_data r' !! app_id = rd_data r !! app_id →
  (holds_lock pc' = true → holds_lock pc = true) →
  (is_locking pc' = true → rd_data r !! lock_key = None) →
  (∀ a', pc' = Writing a' → a' = register_one a i) →
  is_registered pc' = is_registered pc →
  lock_ok t0 a0 (<[i := pc']> pcs) r' order a.
Proof.
  intros [I1 I2 I3 I4 I5 I6 I7 I8 I9 I10] Hi Hn Hl Ha Hh Hk Hw Hr.
  assert (∀ j q, <[i := pc']> pcs !! j = Some q → (j = i ∧ q = pc') ∨ (j ≠ i ∧ pcs !! j = Some q)) as Hq.
  { intros j q. rewrite list_lookup_insert_Some. naive_solver. }
  split; rewrite ?Hl, ?length_insert; try done.
  - intros j q [[-> ->]|[_ Hj]]%Hq Hx; [eapply I3; [done|by apply Hh]|by eapply I3].
  - intros j1 j2 p q [[-> ->]|[? H1]]%Hq [[-> ->]|[? H2]]%Hq Hp Hq'; try done.
    + eapply I4; [exact Hi|exact H2|by apply Hh|done].
    + eapply I4; [exact H1|exact Hi|done|by apply Hh].
    + by eapply I4.
  - intros j q [[-> ->]|[_ Hj]]%Hq Hx; [by apply Hk|by eapply I5].
  - destruct I6 as (j & H1 & H2). exists j. by rewrite Ha.
  - intros j x [[-> Hx]|[_ Hj]]%Hq; [by apply Hw|by apply I7].
  - intros j q [[-> ->]|[_ Hj]]%Hq; [rewrite Hr; by apply I9|by apply I9].
Qed.
Context (t0 : Z) (a0 : AppInfo).

(** The lock is there as long as it has not expired. *)
Lemma lock_visible pcs r order a :
  lock_ok t0 a0 pcs r order a → rd_now r < t0 + 1000 →
  lookup_key lock_key r = None → rd_data r !! lock_key = None.
Proof.
  intros I Hn. unfold lookup_key. destruct (rd_data r !! lock_key) as [[v t]|] eqn:Hv; [|done].
  destruct (lk_time _ _ _ _ _ _ I v t Hv) as (x & -> & Hx). rewrite (proj2 (Z.ltb_lt _ _)) by lia. done.
Qed.
Lemma app_read (r : R) a : app_in r a → GetAppInfoFromRedis app_id r = (Ret (Some a), r).
Proof.
  intros (j & Hd & Hj & _). unfold GetAppInfoFromRedis. rewrite run_bind. cbn [Get gets].
  unfold lookup_key. rewrite Hd. cbn. by rewrite (json_round_trip a j Hj).
Qed.

(** A thread takes the lock. *)
Lemma lock_ok_taken pcs r order a i index k pc' :
  lock_ok t0 a0 pcs r order a → pcs !! i = Some (Locking index k) →
  (∀ j x y, pcs !! j = Some (Locking x y) → j = i) →
  pc' = Reading ∨ pc' = Done (UNAVAILABLE "lock fail for many times!") →
  lock_ok t0 a0 (<[i := pc']> pcs)
    (set_key lock_key (VText lock_str) (Some (rd_now r + 1000)) r) order a.
Proof.
  intros [I1 I2 I3 I4 I5 I6 I7 I8 I9 I10] Hi Hone Hpc.
  pose proof (I5 i _ Hi eq_refl) as Hfree.
  assert (∀ j p, pcs !! j = Some p → holds_lock p = false) as Hnone.
  { intros j p Hj. destruct (holds_lock p) eqn:Hp; [|done].
    destruct (I3 j p Hj Hp). congruence. }
  assert (∀ j q, <[i := pc']> pcs !! j = Some q → (j = i ∧ q = pc') ∨ (j ≠ i ∧ pcs !! j = Some q)) as Hq.
  { intros j q. rewrite list_lookup_insert_Some. naive_solver. }
  split; cbn; rewrite ?length_insert; try done.
  - intros v t. rewrite lookup_insert_eq. intros [= <- <-]. eexists. split; [done|lia].
  - intros j q _ _. rewrite lookup_insert_eq. by eexists.
  - intros j1 j2 p q [[-> ->]|[? H1]]%Hq [[-> ->]|[? H2]]%Hq Hp Hq'; try done.
    + by rewrite (Hnone _ _ H2) in Hq'.
    + by rewrite (Hnone _ _ H1) in Hp.
    + by rewrite (Hnone _ _ H1) in Hp.
  - intros j q [[-> ->]|[Hne Hj]]%Hq Hx; [by destruct Hpc as [-> | ->]|].
    destruct q; try done. by destruct Hne; eapply Hone.
  - destruct I6 as (j & H1 & H2). exists j. cbn. rewrite lookup_insert_ne by apply lock_key_ne. done.
  - intros j x [[-> Hx]|[_ Hj]]%Hq; [by destruct Hpc; subst|by apply I7].
  - intros j q [[-> ->]|[_ Hj]]%Hq; [|by apply I9].
    rewrite <- (I9 i _ Hi). by destruct Hpc as [-> | ->].
Qed.

(** A thread that holds the lock writes the application. *)
Lemma lock_ok_written pcs r order a i j :
  lock_ok t0 a0 pcs r order a → pcs !! i = Some (Writing (register_one a i)) →
  MessageToJsonString (register_one a i) = Some j →
  lock_ok t0 a0 (<[i := Unlocking GRPC_OK]> pcs) (set_key app_id (VJson j) None r)
    (order ++ [i]) (register_one a i).
Proof.
  intros [I1 I2 I3 I4 I5 I6 I7 I8 I9 I10] Hi Hj.
  assert (∀ y q, <[i := Unlocking GRPC_OK]> pcs !! y = Some q →
    (y = i ∧ q = Unlocking GRPC_OK) ∨ (y ≠ i ∧ pcs !! y = Some q)) as Hq.
  { intros y q. rewrite list_lookup_insert_Some. naive_solver. }
  assert (i ∉ order) as Hni by (rewrite <- (I9 i _ Hi); done).
  assert (∀ k, k = lock_key → <[app_id := (VJson j, None)]> (rd_data r) !! k = rd_data r !! k) as Hk.
  { intros k ->. apply lookup_insert_ne. symmetry. apply lock_key_ne. }
  assert (ci_app_id (ai_conf_info (register_one a i)) = app_id) as Hid.
  { destruct I6 as (x & _ & _ & <-). unfold register_one. by destruct (requests !! i). }
  split; cbn; rewrite ?length_insert, ?Hk by done; try done.
  - intros y q [[-> ->]|[_ Hy]]%Hq Hx; by eapply I3.
  - intros y1 y2 p q [[-> ->]|[? H1]]%Hq [[-> ->]|[? H2]]%Hq Hp Hq'; try done.
    + eapply I4; [exact Hi|exact H2|done|done].
    + eapply I4; [exact H1|exact Hi|done|done].
    + by eapply I4.
  - intros y q [[-> ->]|[_ Hy]]%Hq Hx; [done|by eapply I5].
  - exists j. cbn. by rewrite lookup_insert_eq.
  - intros y x [[-> Hx]|[Hne Hy]]%Hq; [done|]. destruct Hne. by eapply I4.
  - destruct I8 as [H1 H2]. split.
    + apply NoDup_app. split_and!; [done| |by apply NoDup_singleton].
      intros x Hx ->%list_elem_of_singleton. done.
    + by rewrite registered_snoc, <- H2.
  - intros y q [[-> ->]|[Hne Hy]]%Hq; [set_solver|].
    rewrite (I9 y q Hy), elem_of_app, list_elem_of_singleton. naive_solver.
  - apply Forall_app. split; [done|]. constructor; [by eapply lookup_lt_Some|constructor].
Qed.

(** It gives the lock back. *)
Lemma lock_ok_released pcs r order a i s :
  lock_ok t0 a0 pcs r order a → pcs !! i = Some (Unlocking s) →
  lock_ok t0 a0 (<[i := Done s]> pcs)
    (mkRedis (delete lock_key (rd_data r)) (rd_now r) (rd_apps r)) order a.
Proof.
  intros [I1 I2 I3 I4 I5 I6 I7 I8 I9 I10] Hi.
  assert (∀ y q, <[i := Done s]> pcs !! y = Some q →
    (y = i ∧ q = Done s) ∨ (y ≠ i ∧ pcs !! y = Some q)) as Hq.
  { intros y q. rewrite list_lookup_insert_Some. naive_solver. }
  assert (∀ y q, pcs !! y = Some q → holds_lock q = true → y = i) as Hone
    by (intros y q Hy Hh; by eapply I4).
  split; cbn; rewrite ?length_insert, ?lookup_delete_eq; try done.
  - intros y q [[-> ->]|[Hne Hy]]%Hq Hx; [done|]. destruct Hne. by eapply Hone.
  - intros y1 y2 p q [[-> ->]|[? H1]]%Hq [[-> ->]|[? H2]]%Hq Hp Hq'; try done. by eapply I4.
  - destruct I6 as (j & H1 & H2). exists j. cbn. rewrite lookup_delete_ne by apply lock_key_ne. done.
  - intros y x [[-> Hx]|[Hne Hy]]%Hq; [done|by apply I7].
  - intros y q [[-> ->]|[Hne Hy]]%Hq; [|by apply I9]. by rewrite <- (I9 i _ Hi).
Qed.

Lemma lock_ok_turn pcs r order a i pc q :
  lock_ok t0 a0 pcs r order a → rd_now r < t0 + 1000 →
  pcs !! i = Some pc → requests !! i = Some q →
  (∀ j x y, pcs !! j = Some (Locking x y) → j = i) →
  ∃ pc' r' order' a', reg_step_pc app_id q pc r = (Ret pc', r') ∧ rd_now r' = rd_now r ∧
    lock_ok t0 a0 (<[i := pc']> pcs) r' order' a'.
Proof.
  intros I Hn Hi Hq Hone. destruct pc as [|index [|k]|index k| |a'|s|s]; cbn [reg_step_pc].
  - destruct (Mset_run (rq_uuid q) ((λ _, rq_ip_port q) <$> rq_uuid q) r) as (r' & Hr & Hnow & Hd);
      [by rewrite length_fmap|].
    eexists _, r', order, a. split; [by rewrite (run_bind_ret _ _ _ _ _ Hr)|]. split; [done|].
    eapply lock_ok_move; try done; [rewrite Hnow; apply I|..]; apply Hd; intros Hin;
      destruct (Hkeys i q _ Hq Hin); done.
  - eexists _, r, order, a. split_and!; [reflexivity|done|].
    eapply lock_ok_move; try done. apply I.
  - eexists _, r, order, a. rewrite run_bind. cbn [Get gets]. split_and!; [reflexivity|done|].
    eapply lock_ok_move; try done; [apply I|..]; destruct (lookup_key lock_key r) eqn:Hv; try done.
    intros _. by eapply lock_visible.
  - eexists _, _, order, a. rewrite run_bind. cbn [SetEx]. split_and!; [reflexivity|done|].
    eapply lock_ok_taken; [done|done|done|]. destruct (FLAGS_lock_times <=? S index)%nat; auto.
  - eexists _, r, order, a. rewrite (run_bind_ret _ _ _ _ _ (app_read r a (lk_app _ _ _ _ _ _ I))).
    split_and!; [reflexivity|done|]. eapply lock_ok_move; try done; [apply I|].
    intros a' [= <-]. unfold register_one. by rewrite Hq.
  - pose proof (lk_writing _ _ _ _ _ _ I i a' Hi) as ->. unfold SetAppInfoToRedis.
    destruct (MessageToJsonString (register_one a i)) as [j|] eqn:Hj.
    + assert (ci_app_id (ai_conf_info (register_one a i)) = app_id) as ->.
      { destruct (lk_app _ _ _ _ _ _ I) as (x & _ & _ & <-). unfold register_one. by rewrite Hq. }
      eexists _, _, (order ++ [i]), (register_one a i). split_and!; [reflexivity|done|].
      by apply lock_ok_written.
    + eexists _, r, order, a. split_and!; [reflexivity|done|]. eapply lock_ok_move; try done. apply I.
  - eexists _, _, order, a. split_and!; [reflexivity|done|]. by apply lock_ok_released.
  - eexists _, r, order, a. split_and!; [reflexivity|done|]. eapply lock_ok_move; try done. apply I.
Qed.

(** No command changes the clock. *)
Lemma reg_step_now q pc (r : R) : rd_now (reg_step_pc app_id q pc r).2 = rd_now r.
Proof.
  destruct pc as [|index [|k]|index k| |a'|s|s]; cbn [reg_step_pc]; try done.
  - destruct (Mset_run (rq_uuid q) ((λ _, rq_ip_port q) <$> rq_uuid q) r) as (r' & Hr & Hnow & _);
      [by rewrite length_fmap|]. by rewrite (run_bind_ret _ _ _ _ _ Hr).
  - rewrite run_bind. unfold SetAppInfoToRedis. by destruct (MessageToJsonString a').
Qed.

Lemma reg_step_ok e s order a s' :
  lock_ok t0 a0 (rs_threads s) (rs_redis s) order a → undisturbed e s →
  reg_step app_id requests e s = Some s' → rd_now (rs_redis s') < t0 + 1000 →
  rd_now (rs_redis s) ≤ rd_now (rs_redis s') ∧
  ∃ order' a', lock_ok t0 a0 (rs_threads s') (rs_redis s') order' a'.
Proof.
  intros I Hu Hs Hn. destruct e as [i|ms]; cbn [reg_step] in Hs.
  - apply bind_Some in Hs as (pc & Hpc & Hs). apply bind_Some in Hs as (q & Hq & Hs).
    pose proof (reg_step_now q pc (rs_redis s)) as Hnow.
    destruct (reg_step_pc app_id q pc (rs_redis s)) as [[pc'|] r'] eqn:Hr; [|done]. simplify_eq.
    cbn in Hnow, Hn |- *. split; [lia|].
    destruct (lock_ok_turn _ _ _ _ i pc q I) as (pc2 & r2 & order' & a' & Hr2 & _ & I');
      [lia|done|done| |].
    { intros j x y Hj. specialize (Hu j x y Hj). by simplify_eq. }
    rewrite Hr in Hr2. simplify_eq. by exists order', a'.
  - simplify_eq. cbn. split; [lia|]. exists order, a. destruct I as [I1 I2 I3 I4 I5 I6 I7 I8 I9 I10].
    split; cbn; try done. lia.
Qed.

Lemma reg_steps_cons e es s :
  reg_steps app_id requests (e :: es) s = reg_step app_id requests e s ≫= reg_steps app_id requests es.
Proof.
  unfold reg_steps. cbn. destruct (reg_step _ _ e s); [done|]. cbn. by induction es.
Qed.
Lemma reg_step_mono e s s' :
  reg_step app_id requests e s = Some s' → rd_now (rs_redis s) ≤ rd_now (rs_redis s').
Proof.
  destruct e as [i|ms]; cbn [reg_step]; intros Hs; [|simplify_eq; cbn; lia].
  apply bind_Some in Hs as (pc & _ & Hs). apply bind_Some in Hs as (q & _ & Hs).
  pose proof (reg_step_now q pc (rs_redis s)) as Hnow.
  destruct (reg_step_pc _ _ _ _) as [[pc'|] r']; [|done]. simplify_eq. cbn in *. lia.
Qed.
Lemma reg_steps_mono es s s' :
  reg_steps app_id requests es s = Some s' → rd_now (rs_redis s) ≤ rd_now (rs_redis s').
Proof.
  revert s. induction es as [|e es IH]; intros s Hs; [cbn in Hs; simplify_eq; lia|].
  rewrite reg_steps_cons in Hs. apply bind_Some in Hs as (s1 & H1 & H2).
  pose proof (reg_step_mono _ _ _ H1). specialize (IH _ H2). lia.
Qed.
Lemma reg_steps_ok es s order a s' :
  lock_ok t0 a0 (rs_threads s) (rs_redis s) order a → unbroken es s →
  reg_steps app_id requests es s = Some s' → rd_now (rs_redis s') < t0 + 1000 →
  ∃ order' a', lock_ok t0 a0 (rs_threads s') (rs_redis s') order' a'.
Proof.
  revert s order a. induction es as [|e es IH]; intros s order a I Hu Hs Hn.
  { cbn in Hs. simplify_eq. by exists order, a. }
  rewrite reg_steps_cons in Hs. apply bind_Some in Hs as (s1 & H1 & H2).
  cbn in Hu. rewrite H1 in Hu. destruct Hu as [Hu Hu'].
  pose proof (reg_steps_mono _ _ _ H2).
  destruct (reg_step_ok e s order a s1 I Hu H1) as (_ & order1 & a1 & I1); [lia|].
  by eapply IH.
Qed.
End linearization.

(** ** The properties *)
Section properties.
Context {J : Type} `{!Json J, !JsonLaws J}.
Abbreviation R := (redis J).

(** C18. Registrations at the same time are kept as if made one after the other.
    Workers register for an application at the same time, each call a thread whose
    steps are its commands to redis.  As long as nobody comes between the two
    commands of a [Lock] and all is over before the lock expires, the application
    in redis is the one that some order of registrations made from the first one,
    each worker at most once, and every worker that was told that it is registered
    is among them. *)
Theorem registrations_linearize app_id requests r a0 es s :
  (∀ i q k, requests !! i = Some q → k ∈ rq_uuid q → k ≠ app_id ∧ k ≠ lock_str +:+ app_id) →
  app_in app_id r a0 → rd_data r !! (lock_str +:+ app_id) = None →
  unbroken app_id requests es (reg_start requests r) →
  reg_steps app_id requests es (reg_start requests r) = Some s →
  rd_now (rs_redis s) < rd_now r + 1000 →
  ∃ order, NoDup order ∧ app_in app_id (rs_redis s) (registered requests a0 order) ∧
    ∀ i, (rs_threads s !! i = Some (Done GRPC_OK) → i ∈ order) ∧
         (i ∈ order → rs_threads s !! i = Some (Done GRPC_OK) ∨
                      rs_threads s !! i = Some (Unlocking GRPC_OK)).
Proof.
  intros Hkeys Ha Hl Hu Hs Hn.
  assert (lock_ok app_id requests (rd_now r) a0 (rs_threads (reg_start requests r)) r [] a0) as I.
  { assert (∀ i pc, replicate (length requests) Setting !! i = Some pc → pc = Setting) as Hpc
      by (intros i pc [? _]%lookup_replicate_1; done).
    split; cbn; try done.
    - intros v t. by rewrite Hl.
    - by intros i pc ->%Hpc.
    - by intros i j p q ->%Hpc.
    - by intros i a' [=]%Hpc.
    - split; [constructor|done].
    - intros i pc ->%Hpc. cbn. split; [done|]. by intros ?%not_elem_of_nil. }
  destruct (reg_steps_ok app_id requests Hkeys (rd_now r) a0 es _ _ _ _ I Hu Hs Hn)
    as (order & a & [I1 I2 I3 I4 I5 I6 I7 [I8 I9] I10 I11]).
  exists order. split_and!; [done|by rewrite <- I9|]. intros i. split.
  - intros Hi. by apply (I10 i _ Hi).
  - intros Hi. rewrite Forall_forall in I11.
    destruct (lookup_lt_is_Some_2 _ _ (I11 i Hi)) as [pc Hpc].
    apply (I10 i pc Hpc) in Hi. rewrite Hpc. destruct pc as [| | | | |[|]|[|]]; try done; auto.
Qed.
End properties.

(** ** The check of the applications *)
Section checking.
Context {J : Type} `{!Json J}.
Abbreviation R := (redis J).

(** The set keeps the order in which it is gone through. *)
Lemma AddAppId_sorted x (r : R) :
  Sorted (λ a b, Str.leb a b = true) (rd_apps r) →
  Sorted (λ a b, Str.leb a b = true) (rd_apps (AddAppId x r).2).
Proof.
  intros Hs. cbn. case_bool_decide; [done|]. apply insert_sorted_sorted; [|done].
  apply str_leb_total.
Qed.

(** As long as the other coordinator answers, a round looks at every application and
    drops those whose job is over. *)
Lemma check_pass_ret check_job tell app_ids (r : R) :
  (∀ x st, tell x st = true) →
  ∃ over r', check_pass check_job tell app_ids r = (Ret (Some over), r') ∧
    rd_apps r' = rd_apps r ∧ over ⊆ app_ids.
Proof.
  intros Ht. revert r. induction app_ids as [|x rest IH]; intros r; [by exists [], r|].
  assert (∀ y (r1 : R), ∃ o, GetAppInfoFromRedis y r1 = (Ret o, r1)) as Hget.
  { intros y r1. unfold GetAppInfoFromRedis. rewrite run_bind. cbn [Get gets]. by eexists. }
  cbn [check_pass]. destruct (Hget x r) as [o Ho]. rewrite (run_bind_ret _ _ _ _ _ Ho).
  destruct o as [a|]; [|destruct (IH r) as (over & r' & H1 & H2 & H3);
    exists over, r'; split_and!; [done|done|set_solver]].
  assert (CheckK8S check_job x r = (Ret (check_job (Some (ci_role (ai_conf_info a))) x), r)) as Hc
    by (unfold CheckK8S; by rewrite (run_bind_ret _ _ _ _ _ Ho)).
  rewrite (run_bind_ret _ _ _ _ _ Hc). destruct (_ =? 0).
  { destruct (IH r) as (over & r' & H1 & H2 & H3). exists over, r'. split_and!; [done|done|set_solver]. }
  set (st := if _ =? 1 then FINISH else SHUTDOWN).
  assert (∃ b r1, SetAppInfoToRedis (with_local_status st a) r = (Ret b, r1) ∧
    rd_apps r1 = rd_apps r) as (b & r1 & Hb & Hr1).
  { unfold SetAppInfoToRedis. destruct (MessageToJsonString _); by repeat eexists. }
  rewrite (run_bind_ret _ _ _ _ _ Hb), Ht. destruct (IH r1) as (over & r' & H1 & H2 & H3).
  rewrite (run_bind_ret _ _ _ _ _ H1). exists (x :: over), r'.
  split_and!; [done|congruence|set_solver].
Qed.
End checking.

(** ** A schedule that can be checked *)
Section schedules.
Context {J : Type} `{!Json J}.
Context (app_id : string) (requests : list Request).

Definition undisturbedb (e : reg_event) (s : reg_state J) : bool :=
  forallb (λ '(j, pc), negb (is_locking pc) ||
                       match e with Turn i => (i =? j)%nat | Tick _ => false end)
    (imap pair (rs_threads s)).
Fixpoint unbrokenb (es : list reg_event) (s : reg_state J) : bool :=
  match es with
  | [] => true
  | e :: es' =>
      undisturbedb e s &&
      match reg_step app_id requests e s with Some s' => unbrokenb es' s' | None => true end
  end.
Lemma undisturbedb_spec e s : undisturbedb e s = true → undisturbed e s.
Proof.
  intros H j index k Hj. unfold undisturbedb in H. rewrite forallb_forall in H.
  assert (In (j, Locking index k) (imap pair (rs_threads s))) as Hin.
  { apply list_elem_of_In, elem_of_lookup_imap. by exists j, (Locking index k). }
  specialize (H _ Hin). cbn in H. destruct e as [i|]; [|done].
  apply Nat.eqb_eq in H. by subst.
Qed.
Lemma unbrokenb_spec es s : unbrokenb es s = true → unbroken app_id requests es s.
Proof.
  revert s. induction es as [|e es IH]; intros s H; [done|]. cbn in H.
  apply andb_prop in H as [H1 H2]. split; [by apply undisturbedb_spec|].
  destruct (reg_step app_id requests e s); [by apply IH|done].
Qed.
End schedules.

(** ** A call on its own is one of the schedules *)
Section alone.
Context {J : Type} `{!Json J}.
Abbreviation R := (redis J).
Context (app_id : string) (q : Request).

Inductive runs : reg_pc → R → reg_pc → R → Prop :=
  | runs_refl pc r : runs pc r pc r
  | runs_turn pc r pc1 r1 pc2 r2 :
      reg_step_pc app_id q pc r = (Ret pc1, r1) → runs pc1 r1 pc2 r2 → runs pc r pc2 r2
  | runs_sleep pc r ms pc2 r2 :
      runs pc (mkRedis (rd_data r) (rd_now r + Z.of_nat ms) (rd_apps r)) pc2 r2 → runs pc r pc2 r2.

Lemma runs_schedule pc r pc' r' :
  runs pc r pc' r' →
  ∃ es, reg_steps app_id [q] es (mkReg r [pc]) = Some (mkReg r' [pc']).
Proof.
  induction 1 as [pc r|pc r pc1 r1 pc2 r2 H1 _ [es IH]|pc r ms pc2 r2 _ [es IH]].
  - by exists [].
  - exists (Turn 0 :: es). rewrite reg_steps_cons. cbn. by rewrite H1.
  - exists (Tick ms :: es). by rewrite reg_steps_cons.
Qed.

(** What is left of a call once it holds the lock. *)
Definition locked_part : M R grpc_status :=
  o ← GetAppInfoFromRedis app_id;
  match o with
  | None => Unlock app_id;; mret (UNAVAILABLE "get app fail!")
  | Some a =>
      b ← SetAppInfoToRedis (add_registration q a);
      Unlock app_id;;
      mret (if (b : bool) then GRPC_OK else UNAVAILABLE "set app info fail!")
  end.
Lemma locked_part_runs r : ∃ s r', locked_part r = (Ret s, r') ∧ runs Reading r (Done s) r'.
Proof.
  unfold locked_part. rewrite run_bind.
  assert (∃ o, GetAppInfoFromRedis app_id r = (Ret o, r)) as [o Ho].
  { unfold GetAppInfoFromRedis. rewrite run_bind. cbn [Get gets]. by eexists. }
  rewrite Ho. destruct o as [a|].
  - rewrite run_bind.
    assert (∃ b r1, SetAppInfoToRedis (add_registration q a) r = (Ret b, r1)) as (b & r1 & Hb).
    { unfold SetAppInfoToRedis. destruct (MessageToJsonString _); by repeat eexists. }
    rewrite Hb. eexists _, _. split; [reflexivity|].
    eapply runs_turn; [cbn; by rewrite (run_bind_ret _ _ _ _ _ Ho)|].
    eapply runs_turn; [cbn; by rewrite (run_bind_ret _ _ _ _ _ Hb)|].
    eapply runs_turn; [reflexivity|]. apply runs_refl.
  - eexists _, _. split; [reflexivity|].
    eapply runs_turn; [cbn; by rewrite (run_bind_ret _ _ _ _ _ Ho)|].
    eapply runs_turn; [reflexivity|]. apply runs_refl.
Qed.

Definition lock_part (index left : nat) : M R grpc_status :=
  index' ← lock_loop app_id index left;
  if (FLAGS_lock_times <=? index')%nat then mret (UNAVAILABLE "lock fail for many times!")
  else locked_part.
Lemma lock_part_runs left index r :
  (index + left = FLAGS_lock_times)%nat →
  ∃ s r', lock_part index left r = (Ret s, r') ∧ runs (Asking index left) r (Done s) r'.
Proof.
  revert index r. induction left as [|left IH]; intros index r Hi; unfold lock_part; cbn [lock_loop].
  - rewrite run_bind, run_ret. rewrite (proj2 (Nat.leb_le _ _)) by lia.
    eexists _, _. split; [reflexivity|]. eapply runs_turn; [reflexivity|]. apply runs_refl.
  - rewrite run_bind. unfold Lock. rewrite !run_bind. cbn [Get gets].
    destruct (lookup_key (lock_str +:+ app_id) r) as [v|] eqn:Hv.
    + rewrite run_ret, run_bind. cbn [usleep modify].
      destruct (IH (S index) (mkRedis (rd_data r) (rd_now r + Z.of_nat 100) (rd_apps r))) as (s & r' & Hs & Hr);
        [lia|].
      unfold lock_part in Hs. rewrite run_bind in Hs. exists s, r'. split; [exact Hs|].
      eapply runs_turn; [cbn [reg_step_pc]; rewrite run_bind; cbn [Get gets]; by rewrite Hv|].
      by eapply runs_sleep.
    + cbn [SetEx]. rewrite run_ret.
      assert (∀ pc2 r2, runs
        (if (FLAGS_lock_times <=? S index)%nat then Done (UNAVAILABLE "lock fail for many times!")
         else Reading)
        (set_key (lock_str +:+ app_id) (VText lock_str) (Some (rd_now r + 1000 * FLAGS_lock_timeout_s)) r)
        pc2 r2 → runs (Asking index (S left)) r pc2 r2) as Hruns.
      { intros pc2 r2 H2.
        eapply runs_turn; [cbn [reg_step_pc]; rewrite run_bind; cbn [Get gets]; by rewrite Hv|].
        eapply runs_turn; [reflexivity|]. exact H2. }
      destruct (FLAGS_lock_times <=? S index)%nat.
      * eexists _, _. split; [reflexivity|]. apply Hruns, runs_refl.
      * destruct (locked_part_runs (set_key (lock_str +:+ app_id) (VText lock_str)
          (Some (rd_now r + 1000 * FLAGS_lock_timeout_s)) r)) as (s & r' & Hs & Hr).
        exists s, r'. split; [exact Hs|]. by apply Hruns.
Qed.

(** [RegisterUUID] run on its own is a schedule of the thread, so that what is shown of
    the threads is shown of the handler. *)
Theorem RegisterUUID_is_a_schedule uuid uuids r :
  rq_uuid q = uuid :: uuids → GetAppIdFromUUID uuid = app_id →
  ∃ es s r', RegisterUUID q r = (Ret s, r') ∧
    reg_steps app_id [q] es (reg_start [q] r) = Some (mkReg r' [Done s]).
Proof.
  intros Hq Hid. unfold RegisterUUID. rewrite Hq, Hid.
  destruct (Mset_run (rq_uuid q) ((λ _, rq_ip_port q) <$> rq_uuid q) r) as (r1 & Hr & _);
    [by rewrite length_fmap|].
  destruct (lock_part_runs FLAGS_lock_times 0 r1 eq_refl) as (s & r' & Hs & Hruns).
  assert (runs Setting r (Done s) r') as Hall.
  { eapply runs_turn; [cbn [reg_step_pc]; by rewrite (run_bind_ret _ _ _ _ _ Hr)|]. exact Hruns. }
  destruct (runs_schedule _ _ _ _ Hall) as [es Hes]. exists es, s, r'.
  split; [|exact Hes]. rewrite Hq in Hr. rewrite (run_bind_ret _ _ _ _ _ Hr). exact Hs.
Qed.
End alone.

(** ** Waiting for workers that do not come *)
Section waiting.
Context {J : Type} `{!Json J}.
Abbreviation R := (redis J).

(** Nobody else writes the application. *)
Definition leaves_app (app_id : string) (f : R → R) : Prop :=
  ∀ r, rd_data (f r) !! app_id = rd_data r !! app_id.

Lemma GetAppInfo_stored app_id j (r : R) :
  rd_data r !! app_id = Some (VJson j, None) →
  GetAppInfoFromRedis app_id r = (Ret (JsonStringToMessage j), r).
Proof.
  intros Hd. unfold GetAppInfoFromRedis. rewrite run_bind. cbn [Get gets].
  unfold lookup_key. by rewrite Hd.
Qed.
Lemma wait_registered_polls syn app_id others j a (r : R) :
  rd_data r !! app_id = Some (VJson j, None) → JsonStringToMessage j = Some a →
  is_over (ci_local_status (ai_conf_info a)) = false →
  is_over (ci_remote_status (ai_conf_info a)) = false →
  ci_worker_num (ai_conf_info a) ≠ 0 →
  ci_worker_num (ai_conf_info a) ≠ Z.of_nat (length (ai_pair_infos a)) →
  Forall (leaves_app app_id) others →
  (wait_registered syn app_id others r).1 = Stop NoFuel.
Proof.
  intros Hd Hj Ho1 Ho2 Hn Hne Hf.
  assert (∀ r, rd_data r !! app_id = Some (VJson j, None) →
    CheckRegisterNum app_id r = (Ret (-1, Some a), r)) as Hc.
  { clear r Hd. intros r Hd. unfold CheckRegisterNum.
    rewrite (run_bind_ret _ _ _ _ _ (GetAppInfo_stored app_id j r Hd)), run_ret, Hj, Ho1, Ho2. cbn.
    by rewrite (proj2 (Z.eqb_neq _ 0) Hn), (proj2 (Z.eqb_neq _ _) Hne). }
  revert r Hd. induction Hf as [|f fs Hf _ IH]; intros r Hd; cbn [wait_registered];
    rewrite (run_bind_ret _ _ _ _ _ (Hc r Hd)); [done|].
  change (-1 =? -2) with false; change (-1 =? -1) with true; cbv iota. rewrite run_bind. cbn [modify]. apply IH. by rewrite Hf.
Qed.
End waiting.

(** ** Two workers at once *)
Section at_once.
Context {J : Type} `{!Json J, !JsonLaws J}.
Abbreviation R := (redis J).

(** A schedule of two workers: each command of the first one is followed by the
    same command of the second one, so both ask before either one sets the lock,
    and both read before either one writes. *)
Definition at_once : list reg_event :=
  [Turn 0; Turn 1; Turn 0; Turn 1; Turn 0; Turn 1; Turn 0; Turn 1; Turn 0; Turn 1; Turn 0; Turn 1].

Lemma reg_steps_turn app_id requests i q pc pc' (r r' : R) ths es :
  ths !! i = Some pc → requests !! i = Some q → reg_step_pc app_id q pc r = (Ret pc', r') →
  reg_steps app_id requests (Turn i :: es) (mkReg r ths)
  = reg_steps app_id requests es (mkReg r' (<[i := pc']> ths)).
Proof.
  intros Hi Hq Hr. unfold reg_steps. cbn [foldl]. f_equal.
  cbn. rewrite Hi. cbn. rewrite Hq. cbn. by rewrite Hr.
Qed.

Lemma ReplaceUUIDForNewIp_length q l l' :
  ReplaceUUIDForNewIp q l = Some l' → length l' = length l.
Proof.
  revert l'. induction l as [|p l IH]; intros l'; [done|]. cbn [ReplaceUUIDForNewIp].
  destruct (shares q p); [by intros [= <-]|].
  intros (x & Hx & ->)%fmap_Some. cbn. f_equal. by apply IH.
Qed.
Lemma add_registration_length q a :
  (length (ai_pair_infos (add_registration q a)) <= length (ai_pair_infos a) + 1)%nat.
Proof.
  unfold add_registration. cbn. destruct (ReplaceUUIDForNewIp q _) as [l|] eqn:E; cbn.
  - apply ReplaceUUIDForNewIp_length in E. lia.
  - rewrite length_app. cbn. lia.
Qed.

#[local] Ltac turn t :=
  erewrite reg_steps_turn; [cbn [insert list_insert]|reflexivity|reflexivity|cbn [reg_step_pc FLAGS_lock_times]; t].

(** The schedule, for any two workers. *)
Lemma at_once_run app_id q0 q1 (r : R) a j0 j1 :
  (∀ i q k, [q0; q1] !! i = Some q → k ∈ rq_uuid q → k ≠ app_id ∧ k ≠ lock_str +:+ app_id) →
  app_in app_id r a → lookup_key (lock_str +:+ app_id) r = None →
  MessageToJsonString (add_registration q0 a) = Some j0 →
  MessageToJsonString (add_registration q1 a) = Some j1 →
  ∃ s, reg_steps app_id [q0; q1] at_once (reg_start [q0; q1] r) = Some s ∧
    rs_threads s = [Done GRPC_OK; Done GRPC_OK] ∧
    lookup_key (lock_str +:+ app_id) (rs_redis s) = None ∧
    rd_data (rs_redis s) !! app_id = Some (VJson j1, None).
Proof.
  intros Hkeys Ha Hl Hj0 Hj1.
  assert (ci_app_id (ai_conf_info a) = app_id) as Hid by by destruct Ha as (? & _ & _ & ?).
  destruct (Mset_run (rq_uuid q0) ((λ _, rq_ip_port q0) <$> rq_uuid q0) r)
    as (r1 & Hr1 & Hn1 & Hd1); [by rewrite length_fmap|].
  destruct (Mset_run (rq_uuid q1) ((λ _, rq_ip_port q1) <$> rq_uuid q1) r1)
    as (r2 & Hr2 & Hn2 & Hd2); [by rewrite length_fmap|].
  assert (∀ k, k = app_id ∨ k = lock_str +:+ app_id → rd_data r2 !! k = rd_data r !! k) as Hd.
  { intros k Hk. rewrite Hd2, Hd1; [done|..]; intros Hin.
    - destruct (Hkeys 0%nat q0 k eq_refl Hin). naive_solver.
    - destruct (Hkeys 1%nat q1 k eq_refl Hin). naive_solver. }
  assert (app_in app_id r2 a) as Ha2.
  { destruct Ha as (j & H1 & H2). exists j. by rewrite Hd by by left. }
  assert (lookup_key (lock_str +:+ app_id) r2 = None) as Hl2.
  { unfold lookup_key in *. by rewrite Hd, Hn2, Hn1 by by right. }
  set (lock := set_key (J := J) (lock_str +:+ app_id) (VText lock_str)).
  set (r4 := lock (Some (rd_now r2 + 1000 * FLAGS_lock_timeout_s))
               (lock (Some (rd_now r2 + 1000 * FLAGS_lock_timeout_s)) r2)).
  assert (app_in app_id r4 a) as Ha4.
  { destruct Ha2 as (j & H1 & H2). exists j. split; [|done]. unfold r4, lock. cbn.
    by rewrite !lookup_insert_ne by apply lock_key_ne. }
  unfold at_once, reg_start. cbn [length replicate].
  turn ltac:(by rewrite (run_bind_ret _ _ _ _ _ Hr1)).
  turn ltac:(by rewrite (run_bind_ret _ _ _ _ _ Hr2)).
  do 2 turn ltac:(rewrite run_bind; cbn [Get gets]; by rewrite Hl2).
  do 2 turn ltac:(reflexivity).
  match goal with |- context [mkReg ?x ?y] =>
    change (mkReg x y) with (mkReg r4 [Reading; Reading]) end.
  do 2 turn ltac:(by rewrite (run_bind_ret _ _ _ _ _ (app_read app_id r4 a Ha4))).
  turn ltac:(unfold SetAppInfoToRedis; rewrite Hj0; reflexivity).
  turn ltac:(unfold SetAppInfoToRedis; rewrite Hj1; reflexivity).
  do 2 turn ltac:(reflexivity).
  eexists. split; [reflexivity|]. split; [reflexivity|]. cbn. rewrite Hid. split.
  - unfold lookup_key. cbn. by rewrite lookup_delete_eq.
  - rewrite !lookup_delete_ne by apply lock_key_ne. by rewrite lookup_insert_eq.
Qed.

(** C39. The lock of redis does not exclude.
    Two workers, any two, register for an application that misses exactly two.
    There is a schedule of their commands - each command of the one followed by the
    same command of the other, so that both ask for the lock before it is set -
    after which both are told that they are registered and nobody holds the lock,
    but the application in redis has the second one only: [CheckRegisterNum] says
    that workers are missing, and the start of the application asks once a second,
    for as long as nobody writes the application again. *)
Theorem lock_does_not_exclude app_id q0 q1 (r : R) a :
  (∀ i q k, [q0; q1] !! i = Some q → k ∈ rq_uuid q → k ≠ app_id ∧ k ≠ lock_str +:+ app_id) →
  app_in app_id r a → lookup_key (lock_str +:+ app_id) r = None →
  is_Some (MessageToJsonString (add_registration q0 a)) →
  is_Some (MessageToJsonString (add_registration q1 a)) →
  is_over (ci_local_status (ai_conf_info a)) = false →
  is_over (ci_remote_status (ai_conf_info a)) = false →
  ci_worker_num (ai_conf_info a) = Z.of_nat (length (ai_pair_infos a)) + 2 →
  ∃ s, reg_steps app_id [q0; q1] at_once (reg_start [q0; q1] r) = Some s ∧
    rs_threads s = [Done GRPC_OK; Done GRPC_OK] ∧
    lookup_key (lock_str +:+ app_id) (rs_redis s) = None ∧
    app_in app_id (rs_redis s) (add_registration q1 a) ∧
    fst (CheckRegisterNum app_id (rs_redis s)) = Ret (-1, Some (add_registration q1 a)) ∧
    ∀ syn others, Forall (leaves_app app_id) others →
      fst (wait_registered syn app_id others (rs_redis s)) = Stop NoFuel.
Proof.
  intros Hkeys Ha Hl [j0 Hj0] [j1 Hj1] Ho1 Ho2 Hn.
  destruct (at_once_run app_id q0 q1 r a j0 j1) as (s & Hs & Ht & Hk & Hd); [done..|].
  pose proof (add_registration_length q1 a) as Hlen.
  assert (ci_app_id (ai_conf_info a) = app_id) as Hid by by destruct Ha as (? & _ & _ & ?).
  assert (wait_fails : ∀ syn others, Forall (leaves_app app_id) others →
      fst (wait_registered syn app_id others (rs_redis s)) = Stop NoFuel).
  { intros syn others Hf. eapply wait_registered_polls; [exact Hd|by apply json_round_trip| | | | |done];
      change (ai_conf_info (add_registration q1 a)) with (ai_conf_info a); try done; lia. }
  exists s. split_and!; [done..|by exists j1| |done].
  unfold CheckRegisterNum. rewrite (run_bind_ret _ _ _ _ _ (GetAppInfo_stored app_id j1 _ Hd)), run_ret.
  rewrite (json_round_trip _ _ Hj1). cbn [fst]. cbv zeta. change (ai_conf_info (add_registration q1 a)) with (ai_conf_info a).
  rewrite Ho1, Ho2. cbn [orb]. rewrite (proj2 (Z.eqb_neq _ 0)) by lia.
  by rewrite (proj2 (Z.eqb_neq _ _)) by lia.
Qed.
End at_once.

(** ** Concrete registrations *)
Module TestCoordinator.
(** Messages that are their own JSON form. *)
#[export] Instance plain_json : Json AppInfo :=
  {| MessageToJsonString := Some; JsonStringToMessage := Some |}.
#[export] Instance plain_json_laws : JsonLaws AppInfo.
Proof. by split; intros a j [= ->]. Qed.

Definition conf : ConfInfo :=
  mkConf "flapp" LEADER "mnist" "1" 2 0 "source" "20200101" "20200102" 1 RUNNING RUNNING.
Definition empty_app : AppInfo := mkApp conf [].
Definition started : redis AppInfo := mkRedis {[ "flapp" := (VJson empty_app, None) ]} 0 [].
Definition worker (n ip : string) : Request := mkRequest ["flapp_" +:+ n] ip.
Definition both : list Request := [worker "0" "10.0.0.1:80"; worker "1" "10.0.0.2:80"].

(** The second worker asks for the lock while the first one holds it, sleeps and asks
    again. *)
Definition polite : list reg_event :=
  [Turn 0; Turn 1; Turn 0; Turn 0; Turn 1; Turn 0; Tick 100; Turn 1; Turn 0; Turn 0; Tick 100;
   Turn 1; Turn 1; Turn 1; Turn 1; Turn 1].
Definition after (es : list reg_event) : reg_state AppInfo :=
  default (reg_start both started) (reg_steps "flapp" both es (reg_start both started)).

Lemma worker_keys i q k :
  both !! i = Some q → k ∈ rq_uuid q → k ≠ "flapp" ∧ k ≠ lock_str +:+ "flapp".
Proof.
  intros Hi Hk. destruct i as [|[|i]]; [| |done]; cbn in Hi; injection Hi as <-;
    apply list_elem_of_singleton in Hk; by subst k.
Qed.
Lemma started_app : app_in "flapp" started empty_app.
Proof. by exists empty_app. Qed.

Lemma registrations_linearize_witness :
  ∃ order, NoDup order ∧ app_in "flapp" (rs_redis (after polite)) (registered both empty_app order) ∧
    ∀ i, (rs_threads (after polite) !! i = Some (Done GRPC_OK) → i ∈ order) ∧
         (i ∈ order → rs_threads (after polite) !! i = Some (Done GRPC_OK) ∨
                      rs_threads (after polite) !! i = Some (Unlocking GRPC_OK)).
Proof.
  apply (registrations_linearize "flapp" both started empty_app polite (after polite)).
  - exact worker_keys.
  - exact started_app.
  - reflexivity.
  - by apply unbrokenb_spec; vm_compute.
  - by vm_compute.
  - by vm_compute.
Defined.
Example both_are_registered :
  rs_threads (after polite) = [Done GRPC_OK; Done GRPC_OK] ∧
  fst (CheckRegisterNum "flapp" (rs_redis (after polite)))
  = Ret (2, Some (registered both empty_app [0; 1]%nat)).
Proof. by vm_compute. Qed.

(** Two workers for whom two more places are left. *)
Lemma lock_does_not_exclude_witness :
  ∃ s, reg_steps "flapp" both at_once (reg_start both started) = Some s ∧
    rs_threads s = [Done GRPC_OK; Done GRPC_OK] ∧
    lookup_key (lock_str +:+ "flapp") (rs_redis s) = None ∧
    app_in "flapp" (rs_redis s) (add_registration (worker "1" "10.0.0.2:80") empty_app) ∧
    fst (CheckRegisterNum "flapp" (rs_redis s))
    = Ret (-1, Some (add_registration (worker "1" "10.0.0.2:80") empty_app)) ∧
    ∀ syn others, Forall (leaves_app "flapp") others →
      fst (wait_registered syn "flapp" others (rs_redis s)) = Stop NoFuel.
Proof.
  apply (lock_does_not_exclude "flapp" (worker "0" "10.0.0.1:80") (worker "1" "10.0.0.2:80")
    started empty_app).
  - exact worker_keys.
  - exact started_app.
  - reflexivity.
  - by eexists.
  - by eexists.
  - reflexivity.
  - reflexivity.
  - reflexivity.
Defined.

(** The id of an application is what stands before the first underscore: when the
    name of the model has one, the workers' registration looks for another
    application. *)
Example underscore_cuts_the_id :
  GetAppIdFromUUID (new_app_id "mnist_v2" "1" 1600000000 +:+ "_worker_0") = "flapp-jd-mnist" ∧
  GetAppIdFromUUID (new_app_id "mnist" "1" 1600000000 +:+ "_worker_0") = "flapp-jd-mnist-1-1600000000".
Proof. by vm_compute. Qed.

(** The keys to delete become one word, so the ids of the workers stay. *)
Example delete_leaves_uuids :
  let r := (DeleteAppInfoInRedis "flapp" (rs_redis (after polite))).2 in
  lookup_key "flapp" r = None ∧ lookup_key "flapp_0" r = Some (VText "10.0.0.1:80").
Proof. by vm_compute. Qed.

(** The lock that is got at the last try is not used, and not given back. *)
Example last_try_is_wasted :
  let r := mkRedis (rd_data started ∪ {[ lock_str +:+ "flapp" := (VText lock_str, Some 1850) ]}) 0 [] in
  let '(res, r') := RegisterUUID (worker "0" "10.0.0.1:80") r in
  res = Ret (UNAVAILABLE "lock fail for many times!") ∧ rd_now r' = 1900 ∧
  rd_data r' !! (lock_str +:+ "flapp") = Some (VText lock_str, Some 2900).
Proof. by vm_compute. Qed.

(** A round finds that an application has failed; when the other coordinator is out of
    reach at that moment, the thread ends, and no application is checked again. *)
Example failed_tell_ends_the_check :
  let r := (AddAppId "flapp" started).2 in
  (DoCheckAppStatus (λ _ _, 2) (λ _ _, false) r).1 = Ret false ∧
  (DoCheckAppStatus (λ _ _, 2) (λ _ _, true) r).1 = Ret true ∧
  rd_apps (DoCheckAppStatus (λ _ _, 2) (λ _ _, true) r).2 = [].
Proof. by vm_compute. Qed.
End TestCoordinator.
