(* ===== verification/Start.v ===== *)
(** * From the configuration to the start of an application

    src/example/mnist_demo/write_redis.py puts the configuration of a model in redis;
    the coordinator's [StartApplication] reads it there, agrees with the other side,
    starts the jobs and waits for the workers to register.  The commands that
    common.cc gives to the shell are here too. *)

From stdpp Require Import base tactics list gmap strings pretty.
From Stdlib Require Import ZArith Lia Ascii.
From S2P Require Import Prelude PyStd Threads Coordinator.
Open Scope Z_scope.

Lemma bind_lift {S A B} (o : outcome A) a (f : A → M S B) s :
  o = Ret a → (liftO o ≫= f) s = f a s.
Proof. by intros ->. Qed.

(** ** write_redis.py *)
#[warnings="-register-all"]
Inductive pyjson :=
  | PNull
  | PBool (b : bool)
  | PInt (z : Z)
  | PText (s : string)
  | PList (l : list pyjson)
  | PObj (d : list (string * pyjson)).

(** [d[k]] *)
Definition getitem (k : string) (d : pyjson) : outcome pyjson :=
  match d with
  | PObj l => match Dict.get k l with Some x => Ret x | None => raise KeyError end
  | _ => raise TypeError
  end.
Definition is_empty (d : pyjson) : bool :=
  match d with
  | PNull | PBool false | PInt 0 | PText EmptyString | PList [] | PObj [] => true
  | _ => false
  end.

(** The module [json], with the form [J] in which a message is kept in redis. *)
Class PyJson (J : Type) := {
  json_dumps : pyjson → J;
  json_load : string → outcome pyjson;
  json_loads : value J → outcome pyjson;
  py_repr : pyjson → string;
}.

Section write_redis.
Context {J : Type} `{!Json J, !PyJson J}.
Abbreviation R := (redis J).

(** [%s] *)
Definition percent_s (d : pyjson) : string :=
  match d with PText s => s | PInt z => Str.of_int z | _ => py_repr d end.

(** [reply] is the answer of the server to SET, or the error of the client. *)
Definition redis_set_json (reply : outcome bool) (key : string) (data : pyjson) : M R unit :=
  if is_empty data then mret tt
  else
    code ← liftO reply;
    if (code : bool) then Set_ key (VJson (json_dumps data));; mret tt
    else raiseM GenericException.
Definition redis_get_json (key : string) : M R pyjson :=
  if bool_decide (key = "") then mret (PText key)
  else
    v ← Get key;
    match v with
    | None | Some (VText EmptyString) => mret (PText "")
    | Some v => liftO (json_loads v)
    end.
(** [content]: the text of the file [args.fname], or the error of [open]. *)
Definition load_model_json (reply : outcome bool) (content : outcome string) : M R unit :=
  text ← liftO content;
  data ← liftO (json_load text);
  uri ← liftO (getitem "conf_info" data ≫= getitem "model_uri");
  version ← liftO (getitem "conf_info" data ≫= getitem "version");
  redis_set_json reply (percent_s uri +:+ "-" +:+ percent_s version) data.

(** The file holds, in the JSON form of protobuf, the message [a]. *)
Record describes (content : outcome string) (data : pyjson) (a : AppInfo) : Prop := mkDescribes {
  ds_load : (text ← content; json_load text) = Ret data;
  ds_uri : (getitem "conf_info" data ≫= getitem "model_uri") = Ret (PText (ci_model_uri (ai_conf_info a)));
  ds_version : (getitem "conf_info" data ≫= getitem "version") = Ret (PText (ci_version (ai_conf_info a)));
  ds_message : JsonStringToMessage (json_dumps data) = Some a;
}.

Definition conf_key (a : AppInfo) : string :=
  ci_model_uri (ai_conf_info a) +:+ "-" +:+ ci_version (ai_conf_info a).

Lemma load_model_run content data a (r : R) :
  describes content data a →
  load_model_json (Ret true) content r = (Ret tt, set_key (conf_key a) (VJson (json_dumps data)) None r).
Proof.
  intros [H1 H2 H3 H4]. unfold load_model_json.
  destruct content as [text|]; [|done]. change (json_load text = Ret data) in H1.
  rewrite (bind_lift _ _ _ _ eq_refl), (bind_lift _ _ _ _ H1), (bind_lift _ _ _ _ H2),
    (bind_lift _ _ _ _ H3). unfold redis_set_json.
  assert (is_empty data = false) as ->; [|done].
  destruct data as [|[]| | | |l]; try done. by destruct l.
Qed.

(** What was put is got back. *)
Lemma redis_json_round_trip key data (r : R) :
  key ≠ "" → is_empty data = false → json_loads (VJson (json_dumps data)) = Ret data →
  (redis_set_json (Ret true) key data;; redis_get_json key) r
  = (Ret data, set_key key (VJson (json_dumps data)) None r).
Proof.
  intros Hk Hd Hl.
  assert (redis_set_json (Ret true) key data r
    = (Ret tt, set_key key (VJson (json_dumps data)) None r)) as Hs
    by (unfold redis_set_json; by rewrite Hd).
  rewrite (run_bind_ret _ _ _ _ _ Hs). unfold redis_get_json.
  rewrite bool_decide_false by done. rewrite run_bind. cbn [Get gets].
  unfold lookup_key, set_key. cbn. rewrite lookup_insert_eq. unfold liftO. by rewrite Hl.
Qed.
End write_redis.

(** ** The commands of common.cc

    [hash]: [std::hash], 64 bits wide; [role_number]: the numbers of the roles in the
    message, the one with number 0 being [zero_role]; [system]: the exit code of a
    command. *)
Section commands.
Context {J : Type} `{!Json J}.
Context (hash : string → N) (role_number : Role → Z) (zero_role : Role) (system : string → Z).
Abbreviation R := (redis J).

(** [int i = 31; while (i > 0)] *)
Fixpoint pad_loop (i : nat) (h : N) (re : string) : string :=
  match i with
  | O => re
  | S i' => if (0 <? h)%N then pad_loop i' (h / 10)%N re else pad_loop i' h (re +:+ "0")
  end.
Definition GetTaskId (str : string) : string :=
  pad_loop 31 (hash str) (Str.of_int (Z.of_N (hash str))).

Definition task_of (role : Role) (app_id : string) : string :=
  GetTaskId app_id +:+ (if bool_decide (role = FOLLOWER) then "0" else "1").
Definition job_command (script : string) (role : Role) (app_id : string) : string :=
  "python ../ResourceManager/" +:+ script +:+ " " +:+ Str.of_int (role_number role) +:+ " "
  +:+ task_of role app_id.
Definition create_command (a : AppInfo) : string :=
  let c := ai_conf_info a in
  job_command "create_job.py" (ci_role c) (ci_app_id c) +:+ " " +:+ ci_app_id c +:+ " "
  +:+ Str.of_int (ci_worker_num c) +:+ " " +:+ ci_train_data_start c +:+ " "
  +:+ ci_train_data_end c +:+ " " +:+ ci_data_source_name c +:+ " "
  +:+ Str.of_int (ci_data_num_epoch c).
Definition StartK8SFromAppInfo (a : AppInfo) : bool :=
  CheckK8SParaInfo a && (system (create_command a) =? 0).
(** A command that was killed counts as -1; [None]: not exited. *)
Definition check_job (exited : string → option Z) (role : option Role) (app_id : string) : Z :=
  default (-1) (exited (job_command "check_job.py" (default zero_role role) app_id)).
Definition StopK8S (app_id : string) : M R bool :=
  o ← GetAppInfoFromRedis app_id;
  let role := match o with Some a => ci_role (ai_conf_info a) | None => zero_role end in
  mret (system (job_command "delete_job.py" role app_id) =? 0).

Lemma pad_loop_S i h re :
  pad_loop (S i) h re = if (0 <? h)%N then pad_loop i (h / 10)%N re else pad_loop i h (re +:+ "0").
Proof. done. Qed.
Lemma pad_loop_more i h re : (h < 10 ^ N.of_nat i)%N → pad_loop (S i) h re = pad_loop i h (re +:+ "0").
Proof.
  revert h re. induction i as [|i IH]; intros h re Hh.
  - change (10 ^ N.of_nat 0)%N with 1%N in Hh. by assert (h = 0%N) as -> by lia.
  - rewrite (pad_loop_S (S i) h re), (pad_loop_S i h (re +:+ "0")).
    destruct (0 <? h)%N; [|done].
    apply IH. rewrite Nat2N.inj_succ, N.pow_succ_r' in Hh. by apply N.Div0.div_lt_upper_bound.
Qed.

(** The task ids are filled up with zeros behind, so that they do not tell a hash from
    ten times that hash. *)
Theorem task_ids_collide s t :
  (hash t = 10 * hash s)%N → (0 < hash s)%N → (hash t < 10 ^ 31)%N → GetTaskId t = GetTaskId s.
Proof.
  intros Ht Hs Hlt. unfold GetTaskId. rewrite Ht.
  assert (Str.of_int (Z.of_N (10 * hash s)) = Str.of_int (Z.of_N (hash s)) +:+ "0") as ->.
  { assert (∀ h u v, pretty_N_go h u +:+ v = pretty_N_go h (u +:+ v)) as Happ.
    { intros h. induction (N.lt_wf_0 h) as [h _ IH]; intros u v.
      destruct (N.eq_0_gt_0_cases h) as [->|Hh]; [by rewrite !pretty_N_go_0|].
      rewrite !(pretty_N_go_step h) by done. by rewrite IH by (by apply N.div_lt). }
    destruct (hash s) as [|p]; [done|].
    change (Str.of_int (Z.of_N (N.pos p))) with (pretty_N_go (N.pos p) "").
    change (Str.of_int (Z.of_N (10 * N.pos p))) with (pretty_N_go (10 * N.pos p) "").
    rewrite (pretty_N_go_step (10 * N.pos p)) by lia.
    rewrite (N.mul_comm 10), N.Div0.mod_mul, N.div_mul by done. rewrite Happ. done. }
  rewrite (pad_loop_S 30 (10 * hash s)), (proj2 (N.ltb_lt 0 _)) by lia.
  rewrite (N.mul_comm 10), N.div_mul by done. symmetry. apply pad_loop_more.
  assert (10 ^ 31 = 10 * 10 ^ N.of_nat 30)%N as Hp by (vm_compute; reflexivity).
  rewrite Hp in Hlt. clear Hp. lia.
Qed.
End commands.

(** ** Workers that register one after the other *)
Section workers.
Context {J : Type} `{!Json J, !JsonLaws J}.
Abbreviation R := (redis J).
Context (json_total : ∀ a, is_Some (MessageToJsonString a)).

(** The ids of a worker of the application. *)
Definition worker_of (app_id : string) (q : Request) : Prop :=
  rq_uuid q ≠ [] ∧ Forall (λ k, ∃ rest, k = app_id +:+ String "_" rest) (rq_uuid q).

Lemma worker_key app_id k rest :
  Str.mem "_" app_id = false → app_id ≠ "fl" → k = app_id +:+ String "_" rest →
  GetAppIdFromUUID k = app_id ∧ k ≠ app_id ∧ k ≠ lock_str +:+ app_id.
Proof.
  intros Hm Hfl ->.
  assert (GetAppIdFromUUID (app_id +:+ String "_" rest) = app_id) as Hg
    by (unfold GetAppIdFromUUID; by rewrite Str.split_app_sep).
  split_and!; [done| |].
  - intros H. apply (f_equal String.length) in H. rewrite Str.length_append in H. cbn in H. lia.
  - intros H. rewrite H in Hg. by destruct Hfl.
Qed.

Lemma Mset_frame keys values (r : R) :
  length keys = length values →
  ∃ r', Mset keys values r = (Ret true, r') ∧ rd_now r' = rd_now r ∧ rd_apps r' = rd_apps r ∧
        ∀ k, k ∉ keys → rd_data r' !! k = rd_data r !! k.
Proof.
  intros Hl. destruct (Mset_run keys values r Hl) as (r' & Hr & Hn & Hd).
  exists r'. split_and!; try done. revert Hr. unfold Mset. rewrite bool_decide_true by done.
  rewrite run_bind. clear. generalize (zip keys values). intros l. revert r.
  induction l as [|kv l IH]; intros r; [by intros [= <-]|].
  cbn [forM]. rewrite run_bind. cbn [modify]. intros H. by apply IH in H.
Qed.

(** The registration of a worker when nobody else is at the lock. *)
Lemma RegisterUUID_alone app_id q a (r : R) :
  Str.mem "_" app_id = false → app_id ≠ "fl" → worker_of app_id q →
  app_in app_id r a → rd_data r !! (lock_str +:+ app_id) = None →
  ∃ r', RegisterUUID q r = (Ret GRPC_OK, r') ∧ app_in app_id r' (add_registration q a) ∧
    rd_data r' !! (lock_str +:+ app_id) = None ∧ rd_apps r' = rd_apps r.
Proof.
  intros Hm Hfl [Hne Hk] Ha Hl. rewrite Forall_forall in Hk.
  assert (∀ k, k ∈ rq_uuid q → GetAppIdFromUUID k = app_id ∧ k ≠ app_id ∧ k ≠ lock_str +:+ app_id) as Hkey.
  { intros k Hin. destruct (Hk k Hin) as [rest Hr]. by eapply worker_key. }
  unfold RegisterUUID. destruct (rq_uuid q) as [|uuid uuids] eqn:Hq; [done|].
  assert (GetAppIdFromUUID uuid = app_id) as -> by (apply Hkey; set_solver).
  destruct (Mset_frame (uuid :: uuids) ((λ _, rq_ip_port q) <$> uuid :: uuids) r)
    as (r1 & Hr1 & Hn1 & Ha1 & Hd1); [by rewrite length_fmap|].
  rewrite (run_bind_ret _ _ _ _ _ Hr1). cbn [negb].
  assert (rd_data r1 !! (lock_str +:+ app_id) = None) as Hl1.
  { rewrite Hd1; [done|]. intros Hin. by apply Hkey in Hin as (_ & _ & ?). }
  destruct Ha as (j & Hj & Hm' & Hid).
  assert (rd_data r1 !! app_id = Some (VJson j, None)) as Hj1.
  { rewrite Hd1; [done|]. intros Hin. by apply Hkey in Hin as (_ & ? & _). }
  set (lk := lock_str +:+ app_id) in *.
  set (r2 := set_key lk (VText lock_str) (Some (rd_now r1 + 1000 * FLAGS_lock_timeout_s)) r1).
  assert (lock_loop app_id 0 FLAGS_lock_times r1 = (Ret 1%nat, r2)) as Hlock.
  { unfold FLAGS_lock_times. cbn [lock_loop]. rewrite run_bind. unfold Lock. rewrite run_bind.
    cbn [Get gets]. fold lk. unfold lookup_key. by rewrite Hl1. }
  rewrite (run_bind_ret _ _ _ _ _ Hlock). cbn [Nat.leb FLAGS_lock_times].
  assert (rd_data r2 !! app_id = Some (VJson j, None)) as Hj2.
  { cbn. rewrite lookup_insert_ne; [done|]. apply lock_key_ne. }
  rewrite (run_bind_ret _ _ _ _ _ (GetAppInfo_stored app_id j r2 Hj2)).
  rewrite (json_round_trip a j Hm').
  destruct (json_total (add_registration q a)) as [j' Hj'].
  set (r3 := set_key app_id (VJson j') None r2).
  assert (SetAppInfoToRedis (add_registration q a) r2 = (Ret true, r3)) as Hset.
  { unfold SetAppInfoToRedis. rewrite Hj'. unfold r3. by rewrite <- Hid. }
  rewrite (run_bind_ret _ _ _ _ _ Hset).
  eexists. split; [reflexivity|]. cbn. split_and!.
  - exists j'. cbn. rewrite lookup_delete_ne by apply lock_key_ne. by rewrite lookup_insert_eq.
  - by rewrite lookup_delete_eq.
  - done.
Qed.

Definition registrations (qs : list Request) (a : AppInfo) : AppInfo :=
  foldl (λ a q, add_registration q a) a qs.
Lemma add_registration_conf q a : ai_conf_info (add_registration q a) = ai_conf_info a.
Proof. done. Qed.

(** Workers with ids of their own are in the application one after the other. *)
Lemma registrations_disjoint qs a :
  NoDup (concat (rq_uuid <$> qs)) → Forall (λ q, rq_uuid q ≠ []) qs →
  (∀ p s k, p ∈ ai_pair_infos a → s ∈ pr_service_pair p → k = sp_local_uuid s →
     k ∉ concat (rq_uuid <$> qs)) →
  registrations qs a = set_pair_infos (ai_pair_infos a ++ (new_pair <$> qs)) a.
Proof.
  revert a. induction qs as [|q qs IH]; intros a Hnd Hne Hfresh.
  { cbn. rewrite app_nil_r. by destruct a. }
  cbn in Hnd, Hfresh. apply NoDup_app in Hnd as (Hq & Hdis & Hnd). inversion_clear Hne.
  assert (ReplaceUUIDForNewIp q (ai_pair_infos a) = None) as Hrep.
  { assert (∀ p, p ∈ ai_pair_infos a → shares q p = false) as Hsh.
    { intros p Hp. unfold shares. apply not_true_is_false. intros Hx.
      apply existsb_exists in Hx as (s & Hs%list_elem_of_In & Hin%bool_decide_eq_true).
      apply (Hfresh p s (sp_local_uuid s) Hp Hs eq_refl). set_solver. }
    clear -Hsh. induction (ai_pair_infos a) as [|p l IH]; [done|]. cbn.
    rewrite Hsh by set_solver. rewrite IH; [done|]. intros p' Hp'. apply Hsh. set_solver. }
  change (registrations (q :: qs) a) with (registrations qs (add_registration q a)).
  assert (add_registration q a = set_pair_infos (ai_pair_infos a ++ [new_pair q]) a) as ->
    by (unfold add_registration; by rewrite Hrep).
  rewrite IH; try done.
  - unfold set_pair_infos. cbn. by rewrite <- (assoc_L (++)).
  - intros p s k [Hp|Hp%list_elem_of_singleton]%elem_of_app Hs ->.
    + intros Hin. by eapply (Hfresh p s); [| |reflexivity|set_solver].
    + subst p. cbn in Hs. apply list_elem_of_fmap in Hs as (k' & -> & Hk'). cbn.
      intros Hin. by eapply Hdis.
Qed.

(** What happens while the start sleeps: a worker registers. *)
Definition registers (q : Request) : R → R := λ r, (RegisterUUID q r).2.

Lemma CheckRegisterNum_run app_id a (r : R) :
  app_in app_id r a →
  is_over (ci_local_status (ai_conf_info a)) = false →
  is_over (ci_remote_status (ai_conf_info a)) = false → ci_worker_num (ai_conf_info a) ≠ 0 →
  CheckRegisterNum app_id r
  = (Ret (if ci_worker_num (ai_conf_info a) =? zlen (ai_pair_infos a)
          then (ci_worker_num (ai_conf_info a), Some a) else (-1, Some a)), r).
Proof.
  intros (j & Hj & Hm & Hid) H1 H2 H3. unfold CheckRegisterNum.
  rewrite (run_bind_ret _ _ _ _ _ (GetAppInfo_stored app_id j r Hj)), run_ret.
  by rewrite (json_round_trip a j Hm), H1, H2, (proj2 (Z.eqb_neq _ 0) H3).
Qed.

(** The start waits for the last worker. *)
Lemma wait_for_workers app_id syn qs : ∀ a (r : R),
  Str.mem "_" app_id = false → app_id ≠ "fl" → Forall (worker_of app_id) qs →
  app_in app_id r a → rd_data r !! (lock_str +:+ app_id) = None →
  is_over (ci_local_status (ai_conf_info a)) = false →
  is_over (ci_remote_status (ai_conf_info a)) = false → 0 < ci_worker_num (ai_conf_info a) →
  ci_worker_num (ai_conf_info a) = zlen (ai_pair_infos (registrations qs a)) →
  (∀ qs1 q qs2, qs = qs1 ++ q :: qs2 →
     ci_worker_num (ai_conf_info a) ≠ zlen (ai_pair_infos (registrations qs1 a))) →
  ∃ r', wait_registered syn app_id (registers <$> qs) r
          = (Ret (if syn (SetSynRequest (registrations qs a)) then GRPC_OK
                  else UNAVAILABLE "fail to send UUID."), r') ∧
    app_in app_id r' (registrations qs a) ∧ rd_apps r' = rd_apps r.
Proof.
  induction qs as [|q qs IH]; intros a r Hm Hfl Hw Ha Hl H1 H2 Hn Hall Hmiss; cbn [fmap list_fmap wait_registered].
  - rewrite (run_bind_ret _ _ _ _ _ (CheckRegisterNum_run app_id a r Ha H1 H2 ltac:(lia))).
    cbn in Hall. rewrite (proj2 (Z.eqb_eq _ _) Hall).
    rewrite (proj2 (Z.eqb_neq _ (-2))), (proj2 (Z.eqb_neq _ (-1))) by lia.
    exists r. by split_and!.
  - rewrite (run_bind_ret _ _ _ _ _ (CheckRegisterNum_run app_id a r Ha H1 H2 ltac:(lia))).
    rewrite (proj2 (Z.eqb_neq _ _)) by (apply (Hmiss [] q qs); done).
    change (-1 =? -2) with false. change (-1 =? -1) with true. cbv iota.
    rewrite run_bind. cbn [modify]. inversion_clear Hw as [|? ? Hq Hqs].
    destruct (RegisterUUID_alone app_id q a r Hm Hfl Hq Ha Hl) as (r1 & Hr1 & Ha1 & Hl1 & Hap1).
    assert (registers q r = r1) as -> by (unfold registers; by rewrite Hr1).
    destruct (IH (add_registration q a) r1) as (r' & Hr' & Ha' & Hap'); try done.
    { intros qs1 q' qs2 ->. apply (Hmiss (q :: qs1) q' qs2). done. }
    exists r'. split_and!; [done|done|congruence].
Qed.
End workers.

(** ** Properties *)
Section properties.
Context {J : Type} `{!Json J, !JsonLaws J, !PyJson J}.
Abbreviation R := (redis J).

(** A configuration that can be started. *)
Record startable (a : AppInfo) : Prop := mkStartable {
  st_conf : CheckAppInfo a = true;
  st_workers : 0 < ci_worker_num (ai_conf_info a);
  st_local : ci_local_status (ai_conf_info a) = RUNNING;
  st_remote : ci_remote_status (ai_conf_info a) = RUNNING;
  st_pairs : ai_pair_infos a = [];
  st_uri : Str.mem "_" (ci_model_uri (ai_conf_info a)) = false;
  st_version : Str.mem "_" (ci_version (ai_conf_info a)) = false;
}.

Lemma startable_k8s app_id a : startable a → CheckK8SParaInfo (as_leader app_id a) = true.
Proof.
  intros [H1 H2 _ _ _ _ _]. unfold CheckAppInfo in H1. unfold CheckK8SParaInfo. cbn.
  rewrite !andb_true_iff in H1 |- *. rewrite (proj2 (Z.eqb_neq _ 0)) by lia. tauto.
Qed.
Lemma new_app_id_plain uri version tv :
  Str.mem "_" uri = false → Str.mem "_" version = false →
  Str.mem "_" (new_app_id uri version tv) = false ∧ new_app_id uri version tv ≠ "fl".
Proof.
  intros Hu Hv. split; [|done]. unfold new_app_id.
  rewrite !Str.mem_append, Hu, Hv, Str.mem_of_int_ne; [done|by right|done].
Qed.

Lemma get_conf content data a (r : R) :
  describes content data a → rd_data r !! conf_key a = Some (VJson (json_dumps data), None) →
  GetJsonConfFromRedis (ci_model_uri (ai_conf_info a)) (ci_version (ai_conf_info a)) r = (Ret (Some a), r).
Proof.
  intros [_ _ _ Hm] Hd. unfold GetJsonConfFromRedis.
  rewrite (run_bind_ret _ _ _ _ _ (GetAppInfo_stored _ _ r Hd)), run_ret, Hm.
  by rewrite bool_decide_true.
Qed.

(** The submission and the job: the application is in redis, as the leader's. *)
Lemma submit_run submit app_id a j (r : R) :
  startable a → submit (as_leader app_id a) = Some (0, app_id) →
  MessageToJsonString (as_leader app_id a) = Some j →
  InvokeSubmitTrain submit (as_leader app_id a) r = (Ret GRPC_OK, set_key app_id (VJson j) None r).
Proof.
  intros Hst Hsub Hj. unfold InvokeSubmitTrain.
  change (CheckAppInfo (as_leader app_id a)) with (CheckAppInfo a).
  rewrite (st_conf _ Hst), Hsub. cbn [negb].
  change (ci_app_id (ai_conf_info (as_leader app_id a))) with app_id.
  rewrite bool_decide_true by done. cbn [negb orb Z.eqb]. unfold SetAppInfoToRedis. by rewrite Hj.
Qed.
Lemma k8s_run start_job app_id a (r : R) :
  startable a → app_in app_id r (as_leader app_id a) → start_job (as_leader app_id a) = 0 →
  StartK8S start_job app_id r = (Ret true, r).
Proof.
  intros Hst (j & Hd & Hj & _) Hjob. unfold StartK8S.
  rewrite (run_bind_ret _ _ _ _ _ (GetAppInfo_stored app_id j r Hd)), run_ret.
  by rewrite (json_round_trip _ j Hj), Hjob, startable_k8s.
Qed.

(** The configuration is under a key that is no lock. *)
Lemma conf_key_ne a app_id : startable a → conf_key a ≠ lock_str +:+ app_id.
Proof.
  intros Hst Hk. assert (Str.mem "_" (conf_key a) = false) as Hc.
  { unfold conf_key. by rewrite !Str.mem_append, (st_uri _ Hst), (st_version _ Hst). }
  rewrite Hk in Hc. by rewrite Str.mem_append in Hc.
Qed.

(** The workers that have registered so far, with ids of their own. *)
Lemma registrations_first app_id workers a qs1 qs2 :
  (∀ x, is_Some (MessageToJsonString x)) → startable a → Forall (worker_of app_id) workers →
  NoDup (concat (rq_uuid <$> workers)) → workers = qs1 ++ qs2 →
  registrations qs1 (as_leader app_id a) = set_pair_infos (new_pair <$> qs1) (as_leader app_id a).
Proof.
  intros Htot Hst Hw Hnd ->.
  rewrite (registrations_disjoint Htot); change (ai_pair_infos (as_leader app_id a)) with (ai_pair_infos a).
  - by rewrite (st_pairs _ Hst).
  - rewrite fmap_app, concat_app in Hnd. by apply NoDup_app in Hnd as (? & _).
  - apply Forall_app in Hw as [Hw _]. eapply Forall_impl; [exact Hw|]. by intros q [? _].
  - intros p s k Hp. rewrite (st_pairs _ Hst) in Hp. by apply not_elem_of_nil in Hp.
Qed.
Lemma syn_request_uuids qs b :
  SetSynRequest (set_pair_infos (new_pair <$> qs) b) = concat (rq_uuid <$> qs).
Proof.
  unfold SetSynRequest. cbn. induction qs as [|q qs IH]; [done|]. cbn. rewrite IH.
  f_equal. rewrite <- list_fmap_compose. apply list_fmap_id.
Qed.

(** C17. An application that is configured starts.
    The configuration is uploaded by write_redis.py, and the coordinator is told to
    start the model.  When the other side agrees and the job is created, and the
    workers, as many as configured, each with ids of its own, register while the
    start waits, the start ends; it has sent the ids of all workers to the other
    side, in the order in which they registered, and its status is whether that
    succeeded.  The application in redis has the workers with their addresses in that
    order, and it is among those that are checked. *)
Theorem application_starts content data a workers submit start_job syn tv (r : R) :
  (∀ x, is_Some (MessageToJsonString x)) →
  describes content data a → startable a →
  let uri := ci_model_uri (ai_conf_info a) in
  let version := ci_version (ai_conf_info a) in
  let app_id := new_app_id uri version tv in
  submit (as_leader app_id a) = Some (0, app_id) → start_job (as_leader app_id a) = 0 →
  ci_worker_num (ai_conf_info a) = zlen workers → Forall (worker_of app_id) workers →
  NoDup (concat (rq_uuid <$> workers)) → rd_data r !! (lock_str +:+ app_id) = None →
  ∃ r', (load_model_json (Ret true) content;;
         StartApplication submit start_job syn tv (registers <$> workers) uri version) r
        = (Ret (if syn (concat (rq_uuid <$> workers)) then GRPC_OK
                else UNAVAILABLE "fail to send UUID."), r') ∧
    app_in app_id r' (set_pair_infos (new_pair <$> workers) (as_leader app_id a)) ∧
    app_id ∈ rd_apps r'.
Proof.
  intros Htot Hds Hst uri version app_id Hsub Hjob Hnum Hw Hnd Hlock.
  destruct (new_app_id_plain uri version tv (st_uri _ Hst) (st_version _ Hst)) as [Hm Hfl].
  fold app_id in Hm, Hfl.
  rewrite (run_bind_ret _ _ _ _ _ (load_model_run content data a r Hds)).
  set (r0 := set_key (conf_key a) (VJson (json_dumps data)) None r).
  unfold StartApplication.
  assert (rd_data r0 !! conf_key a = Some (VJson (json_dumps data), None)) as Hr0
    by (cbn; by rewrite lookup_insert_eq).
  rewrite (run_bind_ret _ _ _ _ _ (get_conf content data a r0 Hds Hr0)). fold uri version app_id.
  set (b := as_leader app_id a) in *. destruct (Htot b) as [j Hj].
  rewrite (run_bind_ret _ _ _ _ _ (submit_run submit app_id a j r0 Hst Hsub Hj)).
  set (r1 := set_key app_id (VJson j) None r0).
  assert (app_in app_id r1 b) as Hb by (exists j; cbn; by rewrite lookup_insert_eq).
  rewrite (run_bind_ret _ _ _ _ _ (k8s_run start_job app_id a r1 Hst Hb Hjob)), run_bind.
  cbn [AddAppId modify]. set (r2 := set_apps _ r1).
  assert (app_id ∈ rd_apps r2) as Happ
    by (cbn; case_bool_decide; [done|]; rewrite insert_sorted_perm; set_solver).
  assert (rd_data r2 !! (lock_str +:+ app_id) = None) as Hl2.
  { cbn. rewrite lookup_insert_ne by (symmetry; apply lock_key_ne).
    by rewrite lookup_insert_ne by (by apply conf_key_ne). }
  pose proof (registrations_first app_id workers a) as Hregs. fold b in Hregs.
  assert (registrations workers b = set_pair_infos (new_pair <$> workers) b) as Hall
    by (apply (Hregs workers []); try done; by rewrite app_nil_r).
  destruct (wait_for_workers Htot app_id syn workers b r2) as (r' & Hr' & Ha' & Hap'); try done.
  - cbn. by rewrite (st_local _ Hst).
  - cbn. by rewrite (st_remote _ Hst).
  - apply (st_workers _ Hst).
  - rewrite Hall. cbn. rewrite Hnum. unfold zlen. by rewrite length_fmap.
  - intros qs1 q qs2 Hqs. rewrite (Hregs qs1 (q :: qs2)) by done. cbn. rewrite Hnum, Hqs. unfold zlen.
    rewrite length_fmap, length_app. cbn. lia.
  - rewrite Hall, syn_request_uuids in Hr'. rewrite Hall in Ha'. exists r'. by rewrite Hap'.
Qed.
End properties.

(** ** A concrete start *)
Module TestStart.
Import TestCoordinator.

Definition demo : pyjson :=
  PObj [("conf_info", PObj [("model_uri", PText "mnist"); ("version", PText "1");
    ("worker_num", PInt 2); ("data_source_name", PText "source");
    ("train_data_start", PText "20200101"); ("train_data_end", PText "20200102");
    ("data_num_epoch", PInt 1)])].
Definition text_of (k : string) (d : pyjson) : string :=
  match getitem "conf_info" d ≫= getitem k with Ret (PText s) => s | _ => "" end.
Definition int_of (k : string) (d : pyjson) : Z :=
  match getitem "conf_info" d ≫= getitem k with Ret (PInt z) => z | _ => 0 end.
Definition message_of (d : pyjson) : AppInfo :=
  mkApp (mkConf "" LEADER (text_of "model_uri" d) (text_of "version" d) (int_of "worker_num" d) 0
    (text_of "data_source_name" d) (text_of "train_data_start" d) (text_of "train_data_end" d)
    (int_of "data_num_epoch" d) RUNNING RUNNING) [].
#[export] Instance plain_pyjson : PyJson AppInfo := {
  json_dumps := message_of;
  json_load text := if bool_decide (text = "demo") then Ret demo else raise ValueError;
  json_loads v := match v with VJson _ => Ret demo | VText _ => raise ValueError end;
  py_repr _ := "";
}.

Definition demo_id : string := "flapp-jd-mnist-1-1600000000".
Definition demo_worker (n ip : string) : Request := mkRequest [demo_id +:+ "_" +:+ n] ip.
Definition demo_workers : list Request := [demo_worker "1" "10.0.0.2:80"; demo_worker "0" "10.0.0.1:80"].
Definition agrees (a : AppInfo) : option (Z * string) := Some (0, ci_app_id (ai_conf_info a)).
Definition nothing : redis AppInfo := mkRedis ∅ 0 [].

Lemma application_starts_witness :
  ∃ r', (load_model_json (Ret true) (Ret "demo");;
         StartApplication agrees (λ _, 0) (λ _, true) 1600000000
           (registers <$> demo_workers) "mnist" "1") nothing
        = (Ret GRPC_OK, r') ∧
    app_in demo_id r' (set_pair_infos (new_pair <$> demo_workers) (as_leader demo_id (message_of demo))) ∧
    demo_id ∈ rd_apps r'.
Proof.
  apply (application_starts (Ret "demo") demo (message_of demo) demo_workers agrees (λ _, 0)
           (λ _, true) 1600000000 nothing).
  - intros x. by eexists.
  - split; reflexivity.
  - split; reflexivity.
  - reflexivity.
  - reflexivity.
  - reflexivity.
  - repeat (apply Forall_cons_2 || apply Forall_nil_2); split; try discriminate;
      (apply Forall_singleton; eexists; reflexivity).
  - apply (bool_decide_unpack _). vm_compute. exact I.
  - reflexivity.
Defined.

(** The two ids of a model whose name has the separator of the other's key have the
    same key; the second configuration then replaces the first one, and starting the
    first model is refused. *)
Example ambiguous_keys :
  (GetJsonConfFromRedis "mnist" "v-1"
     (set_key "mnist-v-1" (VJson (mkApp (mkConf "" LEADER "mnist-v" "1" 2 0 "" "" "" 0 RUNNING RUNNING) []))
        None nothing)).1 = Ret None.
Proof. by vm_compute. Qed.
End TestStart.
