(* ===== verification/LossyLink.v ===== *)
(** * The senders of the data join over a link that loses calls

    A call may be lost before the peer has it, or its answer may be lost after the
    peer has acted; the caller gets an [RpcError] in both cases.  The senders of
    example_id_producer.py and data_block_producer.py do not catch it: the round
    ends, and the next round begins anew.  The metas go on where the leader says,
    so each arrives once; the ids do not, so they arrive at least once. *)

From stdpp Require Import base tactics list gmap strings.
From Stdlib Require Import ZArith Lia.
From S2P Require Import Prelude Threads PyStd Messages Env RawData DataBlockManager.
From S2P Require Import DataBlockMaker DataJoiner DataBlockSaver Consumer DataBlockConsumer ExampleIdConsumer.
From S2P Require Import DataJoinServer ExampleIdProducer DataBlockProducer System.

Open Scope Z_scope.

(** ** The link *)
Inductive fate := Delivered | CallLost | AnswerLost.

Record lossy (P : Type) := mkLossy { ly_peer : P; ly_fates : list fate }.
Arguments mkLossy {_}. Arguments ly_peer {_}. Arguments ly_fates {_}.

(** The fates of the next calls; when they are used up the link is good. *)
Definition over_link {P A} (c : M P A) : M (lossy P) A := λ l,
  match ly_fates l with
  | CallLost :: fs => (raise RpcError, mkLossy (ly_peer l) fs)
  | AnswerLost :: fs => (raise RpcError, mkLossy (c (ly_peer l)).2 fs)
  | fs => ((c (ly_peer l)).1, mkLossy (c (ly_peer l)).2 (tail fs))
  end.

#[export] Instance lossy_peer {P} `{PeerClient P} : PeerClient (lossy P) := {
  rpc_StartPartition req := over_link (rpc_StartPartition req);
  rpc_SyncPartition req := over_link (rpc_SyncPartition req);
  rpc_FinishPartition req := over_link (rpc_FinishPartition req);
}.

(** A thread that makes [n] rounds; the exception of a round ends the round. *)
Definition rounds {S} (n : nat) (c : M S unit) : M S unit :=
  forM (replicate n tt) (λ _, catchM c (λ _, mret tt)).

Lemma rounds_S {S} n (c : M S unit) s o s' :
  c s = (o, s') → o = Ret tt ∨ o = raise RpcError → rounds (Datatypes.S n) c s = rounds n c s'.
Proof.
  intros Hc Ho. unfold rounds. cbn [replicate forM]. rewrite run_bind. unfold catchM.
  rewrite Hc. by destruct Ho as [-> | ->].
Qed.

(** How a call ends over the link: with the peer's answer, or lost. *)
Inductive crossed {P A} (fs : list fate) (c : M P A) (p : P) : outcome A → lossy P → Prop :=
  | crossed_delivered :
      crossed fs c p (c p).1 (mkLossy (c p).2 (tail fs))
  | crossed_call_lost fs' : fs = CallLost :: fs' →
      crossed fs c p (raise RpcError) (mkLossy p fs')
  | crossed_answer_lost fs' : fs = AnswerLost :: fs' →
      crossed fs c p (raise RpcError) (mkLossy (c p).2 fs').

Lemma over_link_crossed {P A} (c : M P A) (p : P) fs :
  let r := over_link c (mkLossy p fs) in crossed fs c p r.1 r.2.
Proof.
  unfold over_link. cbn. destruct fs as [|[| |] fs]; cbn.
  - apply (crossed_delivered []).
  - apply (crossed_delivered (Delivered :: fs)).
  - by apply crossed_call_lost.
  - by apply crossed_answer_lost.
Qed.
Lemma crossed_fates {P A} fs (c : M P A) p o l :
  crossed fs c p o l → ly_fates l = tail fs ∧ (fs = [] → o = (c p).1 ∧ ly_peer l = (c p).2).
Proof. by intros [| fs' -> | fs' ->]. Qed.

(** ** Sending the ids *)
Section ids.
Context `{UtilsLaws} `{TFExample}.
Local Abbreviation P := (data_join example_id_consumer).
Local Abbreviation S := (id_producer P).
Local Abbreviation L := (id_producer (lossy P)).

Definition with_link (fs : list fate) (s : S) : L :=
  mkIdProducer (mkLossy (ip_peer s) fs) (ip_rank_id s) (ip_init s) (ip_start s).

(** One call of the sender, when the peer would answer [a]. *)
Lemma call_lossy {A} (c : M P A) (s : S) fs a p' :
  c (ip_peer s) = (Ret a, p') →
  ∃ o p, call (over_link c) (with_link fs s) = (o, with_link (tail fs) (ip_set_peer p s)) ∧
    (o = Ret a ∧ p = p' ∨ o = raise RpcError ∧ fs ≠ [] ∧ (p = ip_peer s ∨ p = p')).
Proof.
  intros Hc. unfold call, zoom. cbn [with_link ip_peer].
  pose proof (over_link_crossed c (ip_peer s) fs) as Hx. cbv zeta in Hx.
  destruct (over_link c _) as [o l]. cbn in Hx.
  destruct Hx as [|fs' ->|fs' ->]; rewrite ?Hc; cbn.
  - exists (Ret a), p'. split; [done|]. by left.
  - exists (raise RpcError), (ip_peer s). split; [by destruct s|]. right. split_and!; auto.
  - exists (raise RpcError), p'. split; [done|]. right. split_and!; auto.
Qed.

Definition ap_of (s : S) : Z := ap_next (ec_appender (dj_consumer (ip_peer s))).
Definition ids_lite (s : S) (b : list (pyid * string)) (fin : bool) : LiteExampleIds :=
  lite_of (dj_partition_id (ip_peer s)) b fin.

Lemma send_lossy (s : S) fs q fin examples b :
  paired s → following (ip_peer s) q fin → sendable examples →
  ∃ o s' k, send_example_ids_to_consumer examples b (with_link fs s)
              = (o, with_link (tail fs) s') ∧
    following (ip_peer s') (q ++ take k [ids_lite s examples b]) fin ∧ ip_frame s s' ∧
    Z.abs (ap_of s' - ap_of s) ≤ zlen examples + 1 ∧
    (o = Ret tt ∧ k = 1%nat ∨ o = raise RpcError ∧ fs ≠ []).
Proof.
  intros [Hrank Hpid] Hf Hs. pose proof (zlen_nonneg examples).
  destruct (sync_ids_run (ip_peer s) q fin examples b Hf) as (d' & Hr & Hf' & [Hp Hk] & Hn).
  destruct (call_lossy _ s fs _ _ Hr) as (o & p & Hc & Ho).
  assert (∃ k, following p (q ++ take k [ids_lite s examples b]) fin ∧
    ip_frame s (ip_set_peer p s) ∧
    Z.abs (ap_next (ec_appender (dj_consumer p)) - ap_of s) ≤ zlen examples + 1 ∧
    (o = Ret status_ok → k = 1%nat)) as (k & Hk1 & Hk2 & Hk3 & Hk4).
  { destruct Ho as [(-> & ->)|(-> & _ & [-> | ->])];
      [exists 1%nat|exists 0%nat; rewrite app_nil_r|exists 1%nat];
      (split_and!; [done|by split_and!|unfold ap_of; lia|done]). }
  exists (match o with Ret _ => Ret tt | Stop r => Stop r end), (ip_set_peer p s), k.
  split_and!; [|exact Hk1|exact Hk2|exact Hk3|].
  - unfold send_example_ids_to_consumer. rewrite run_bind. cbn [getM]. rewrite run_bind.
    unfold liftO. change (ip_init (with_link fs s)) with (ip_init s).
    change (ip_rank_id (with_link fs s)) with (ip_rank_id s).
    rewrite collect_lite by done. rewrite Hrank, Hpid.
    rewrite run_bind. change (rpc_SyncPartition (PeerClient := lossy_peer) ?r)
      with (over_link (rpc_SyncPartition (P := P) r)). rewrite Hc.
    by destruct Ho as [(-> & _)|(-> & _ & _)].
  - destruct Ho as [(-> & _)|(-> & Hfs & _)]; [left; split; [done|by apply Hk4]|by right].
Qed.

Lemma tail_shorter {A} (l : list A) : (length (tail l) ≤ length l)%nat.
Proof. destruct l; simpl; lia. Qed.
Lemma tail_nonempty {A} (l l' : list A) : (length l' ≤ length (tail l))%nat → l' ≠ [] → l ≠ [].
Proof. by destruct l, l'; simpl; try lia. Qed.
Lemma take_ge_app {A} (k : nat) (l1 l2 : list A) :
  (length l1 ≤ k)%nat → take k (l1 ++ l2) = l1 ++ take (k - length l1) l2.
Proof. intros Hk. by rewrite take_app, take_ge. Qed.

(** The batches of a loop over the items: some first ones arrive, all of them when the
    loop returns. *)
Lemma send_items_lossy items : ∀ (s : S) fs q fin open,
  paired s → following (ip_peer s) q fin → sendable (open ++ items) →
  let r := id_batches sync_example_id_nums open items in
  ∃ o s' fs' k, send_items items open (with_link fs s) = (o, with_link fs' s') ∧
    following (ip_peer s') (q ++ take k ((λ b, ids_lite s b false) <$> r.1)) fin ∧
    ip_frame s s' ∧ Z.abs (ap_of s' - ap_of s) ≤ 2 * (zlen (open ++ items) - zlen r.2) ∧
    (length fs' ≤ length fs)%nat ∧
    (o = Ret r.2 ∧ (length r.1 ≤ k)%nat ∨ o = raise RpcError ∧ fs ≠ []).
Proof.
  induction items as [|x items IH]; intros s fs q fin open Hp Hf Hs.
  - exists (Ret open), s, fs, 0%nat. simpl. rewrite !app_nil_r.
    split_and!; [done|done|apply ip_frame_refl|lia|lia|left; split; [done|lia]].
  - cbn [send_items id_batches].
    assert (sendable ((open ++ [x]) ++ items)) as Hs' by (by rewrite <- (assoc_L (++))).
    replace (open ++ x :: items) with ((open ++ [x]) ++ items) by (by rewrite <- (assoc_L (++))).
    destruct (sync_example_id_nums <? zlen (open ++ [x])); [|by apply IH].
    apply sendable_app in Hs' as [Hs1 Hs2].
    destruct (send_lossy s fs q fin (open ++ [x]) false Hp Hf Hs1)
      as (o1 & s1 & k1 & Hr1 & Hf1 & Hfr1 & Hn1 & Ho1).
    assert (zlen (open ++ [x]) = zlen open + 1) as Hlen by (by rewrite zlen_app).
    assert (Z.abs (ap_of s1 - ap_of s) ≤ 2 * zlen (open ++ [x])) as Hn1'
      by (pose proof (zlen_nonneg open); lia).
    rewrite run_bind, Hr1. pose proof (tail_shorter fs) as Ht.
    pose proof (zlen_nonneg items).
    destruct Ho1 as [(-> & ->)|(-> & Hfs)].
    + destruct (IH s1 (tail fs) _ fin [] (ip_frame_paired _ _ Hfr1 Hp) Hf1 Hs2)
        as (o2 & s2 & fs2 & k2 & Hr2 & Hf2 & Hfr2 & Hn2 & Ht2 & Ho2).
      exists o2, s2, fs2, (Datatypes.S k2). split_and!; [exact Hr2| |by eapply ip_frame_trans| |lia|].
      * destruct Hfr1 as (_ & _ & _ & Epid & _). unfold ids_lite in *. rewrite Epid in Hf2. simpl.
        by rewrite <- (assoc_L (++)) in Hf2.
      * simpl in Hn2 |- *. rewrite zlen_app. lia.
      * destruct Ho2 as [(-> & Hk)|(-> & Hne)]; [left; split; [done|simpl; lia]|right].
        split; [done|]. by destruct fs.
    + exists (raise RpcError), s1, (tail fs), (k1 `min` 1)%nat.
      split_and!; [done| |done| |lia|by right].
      * simpl. destruct k1 as [|[|k1]]; simpl in Hf1 |- *; rewrite ?take_nil in Hf1; try done;
          by rewrite ?take_0.
      * simpl. rewrite zlen_app.
        assert (zlen (id_batches sync_example_id_nums [] items).2 ≤ zlen items); [|lia].
        rewrite <- (id_batches_concat sync_example_id_nums [] items) at 2. rewrite zlen_app.
        pose proof (zlen_nonneg (concat (id_batches sync_example_id_nums [] items).1)). lia.
Qed.

Definition ip_with_init (f : init_loading → init_loading) (s : S) : S :=
  mkIdProducer (ip_peer s) (ip_rank_id s) (f (ip_init s)) (ip_start s).
Lemma on_init_lossy f (s : S) fs :
  ip_on_init f (with_link fs s) = (Ret tt, with_link fs (ip_with_init f s)).
Proof. done. Qed.

Lemma start_lossy (s : S) fs q fin :
  paired s → following (ip_peer s) q fin → in_int64 (ap_of s) = true →
  ∃ o, start_notify_consumer_to_sync_partition (with_link fs s) = (o, with_link (tail fs) s) ∧
    (o = Ret (ap_of s, fin) ∨ o = raise RpcError ∧ fs ≠ []).
Proof.
  intros [Hrank Hpid] Hf H64.
  pose proof (start_ids_run (ip_peer s) q fin Hf H64) as Hr.
  destruct (call_lossy _ s fs _ _ Hr) as (o & p & Hc & Ho).
  assert (ip_set_peer p s = s) as Hs
    by (destruct Ho as [(_ & ->)|(_ & _ & [-> | ->])]; by destruct s).
  rewrite Hs in Hc.
  exists (match o with Ret _ => Ret (ap_of s, fin) | Stop r => Stop r end). split.
  - unfold start_notify_consumer_to_sync_partition. rewrite run_bind. cbn [getM].
    change (ip_init (with_link fs s)) with (ip_init s).
    change (ip_rank_id (with_link fs s)) with (ip_rank_id s). rewrite Hrank, Hpid, run_bind.
    change (rpc_StartPartition (PeerClient := lossy_peer) ?r)
      with (over_link (rpc_StartPartition (P := P) r)). rewrite Hc.
    by destruct Ho as [(-> & _)|(-> & _ & _)].
  - destruct Ho as [(-> & _)|(-> & ? & _)]; auto.
Qed.

(** A round until its end is told: some first batches of the round arrive. *)
Lemma sender_lossy (s : S) fs q :
  let items := il_item_dict (ip_init s) in
  let B := round_batches (dj_partition_id (ip_peer s)) items in
  paired s → following (ip_peer s) q false → in_int64 (ap_of s) = true → sendable items →
  ∃ o s' fs' k, sender (with_link fs s) = (o, with_link fs' s') ∧
    following (ip_peer s') (q ++ take k B) false ∧ same_server (ip_peer s) (ip_peer s') ∧
    paired s' ∧ (k ≤ length B)%nat ∧
    Z.abs (ap_of s' - ap_of s) ≤ 2 * zlen items + 1 ∧ (length fs' ≤ length (tail fs))%nat ∧
    (o = Ret false ∧ k = length B ∧ ip_init s' = il_set_partition_finished true (ip_init s) ∨
     o = raise RpcError ∧ fs ≠ [] ∧ ip_init s' = ip_init s).
Proof.
  intros items B Hp Hf H64 Hs. pose proof (zlen_nonneg items) as Hz.
  destruct (start_lossy s fs q false Hp Hf H64) as (o1 & Hst & Ho1).
  unfold sender. rewrite run_bind, Hst.
  destruct Ho1 as [-> |(-> & Hfs)].
  2:{ exists (raise RpcError), s, (tail fs), 0%nat. rewrite app_nil_r.
      split_and!; try done; try lia. by right. }
  cbn [snd]. rewrite run_bind. cbn [gets].
  change (il_item_dict (ip_init (with_link (tail fs) s))) with items.
  destruct (send_items_lossy items s (tail fs) q false [] Hp Hf Hs)
    as (o2 & s2 & fs2 & k2 & Hr2 & Hf2 & Hfr2 & Hn2 & Ht2 & Ho2).
  rewrite run_bind, Hr2. set (r := id_batches sync_example_id_nums [] items) in *.
  assert (B = ((λ b, ids_lite s b false) <$> r.1) ++ [ids_lite s r.2 true]) as HB by done.
  assert (length (fmap (M := list) (λ b, ids_lite s b false) r.1) = length r.1) as HlB
    by apply length_fmap.
  pose proof (ip_frame_paired _ _ Hfr2 Hp) as Hp2.
  assert (same_server (ip_peer s) (ip_peer s2) ∧ ip_init s2 = ip_init s) as [Hsrv2 Hi2]
    by (destruct Hfr2 as (_ & ? & _ & ? & ?); by split_and!).
  pose proof (zlen_nonneg r.2) as Hz2.
  destruct Ho2 as [(-> & Hk2)|(-> & Hfs)].
  2:{ exists (raise RpcError), s2, fs2, (k2 `min` length r.1)%nat.
      split_and!; try done.
      - rewrite HB, take_app_le by lia. rewrite <- HlB. 
        destruct (decide (k2 ≤ length r.1)%nat); [by rewrite HlB, Nat.min_l by lia|].
        rewrite HlB, Nat.min_r by lia. rewrite take_ge in Hf2 |- * by lia. done.
      - rewrite HB, length_app. lia.
      - simpl in Hn2. lia.
      - right. split_and!; [done| |done]. by destruct fs. }
  rewrite take_ge in Hf2 by lia.
  assert (sendable r.2) as Hs2.
  { pose proof (id_batches_concat sync_example_id_nums [] items) as Hc.
    fold r in Hc. simpl in Hc. rewrite <- Hc in Hs. by apply sendable_app in Hs as [_ ?]. }
  destruct (send_lossy s2 fs2 _ false r.2 true Hp2 Hf2 Hs2)
    as (o3 & s3 & k3 & Hr3 & Hf3 & Hfr3 & Hn3 & Ho3).
  rewrite run_bind, Hr3.
  assert (ids_lite s2 r.2 true = ids_lite s r.2 true) as Hlite
    by (unfold ids_lite; by destruct Hsrv2 as [-> _]).
  rewrite Hlite in Hf3.
  pose proof (ip_frame_paired _ _ Hfr3 Hp2) as Hp3.
  assert (same_server (ip_peer s) (ip_peer s3) ∧ ip_init s3 = ip_init s) as [Hsrv3 Hi3].
  { destruct Hfr3 as (_ & E1 & _ & E2 & E3), Hsrv2 as [E4 E5]. split; [split; congruence|congruence]. }
  pose proof (tail_shorter fs2) as Ht3.
  assert (∀ k, (k ≤ 1)%nat → take (length r.1 + k) B
    = ((λ b, ids_lite s b false) <$> r.1) ++ take k [ids_lite s r.2 true]) as Htake.
  { intros k Hk. rewrite HB, take_ge_app by (rewrite HlB; lia). f_equal. f_equal. lia. }
  destruct Ho3 as [(-> & ->)|(-> & Hfs3)].
  - rewrite run_bind, on_init_lossy.
    exists (Ret false), (ip_with_init (il_set_partition_finished true) s3), (tail fs2),
      (length r.1 + 1)%nat.
    split_and!; try done.
    + rewrite Htake by lia. by rewrite (assoc_L (++)).
    + rewrite HB, length_app. simpl. lia.
    + simpl in Hn2. unfold ap_of in *. simpl. lia.
    + lia.
    + left. split_and!; [done| |by rewrite <- Hi3]. rewrite HB, length_app. simpl. lia.
  - exists (raise RpcError), s3, (tail fs2), (length r.1 + k3 `min` 1)%nat.
    split_and!; try done.
    + rewrite Htake by lia. rewrite (assoc_L (++)).
      by destruct k3 as [|[|k3]]; simpl in Hf3 |- *; rewrite ?take_nil in Hf3.
    + rewrite HB, length_app. simpl. lia.
    + simpl in Hn2. lia.
    + lia.
    + right. split_and!; [done| |done]. destruct fs as [|? fs]; [|done].
      by destruct fs2; simpl in *; [|lia].
Qed.

Lemma finish_lossy (s : S) fs q fin :
  paired s → following (ip_peer s) q fin → q ≠ [] → il_follower_finished (ip_init s) = false →
  ∃ o s' fin', finish_send_example_id_to_consumer (with_link fs s) = (o, with_link (tail fs) s') ∧
    following (ip_peer s') q fin' ∧ same_server (ip_peer s) (ip_peer s') ∧ paired s' ∧
    ap_of s' = ap_of s ∧ il_item_dict (ip_init s') = il_item_dict (ip_init s) ∧
    il_follower_finished (ip_init s') = false ∧ (fin = true → fin' = true) ∧
    (o = Ret false ∧ fin' = true ∨ o = raise RpcError ∧ fs ≠ []).
Proof.
  intros [Hrank Hpid] Hf Hq Hff.
  destruct (finish_ids_run (ip_peer s) q fin Hf Hq) as (d' & Hr & Hf' & [Hp Hk] & Hn).
  destruct (call_lossy _ s fs _ _ Hr) as (o & p & Hc & Ho).
  unfold finish_send_example_id_to_consumer. rewrite run_bind. cbn [getM].
  change (ip_init (with_link fs s)) with (ip_init s).
  change (ip_rank_id (with_link fs s)) with (ip_rank_id s).
  rewrite Hff, Hrank, Hpid, run_bind, run_bind.
  change (rpc_FinishPartition (PeerClient := lossy_peer) ?r)
    with (over_link (rpc_FinishPartition (P := P) r)). rewrite Hc.
  destruct Ho as [(-> & ->)|(-> & Hfs & [-> | ->])].
  - exists (Ret false), (ip_with_init (il_set_follower_finished false) (ip_set_peer d' s)), true.
    split_and!; try done; [split; simpl; congruence|by left].
  - exists (raise RpcError), (ip_set_peer (ip_peer s) s), fin. split_and!; try done. by right.
  - exists (raise RpcError), (ip_set_peer d' s), true.
    split_and!; try done; [split; simpl; congruence|by right].
Qed.

(** ** The rounds of the sender

    [ks]: of how many batches the follower got a copy in each round. *)
Definition copies (B : list LiteExampleIds) (ks : list nat) : list LiteExampleIds :=
  concat ((λ k, take k B) <$> ks).
Lemma copies_snoc B ks k : copies B (ks ++ [k]) = copies B ks ++ take k B.
Proof. unfold copies. rewrite fmap_app, concat_app. simpl. by rewrite app_nil_r. Qed.

Record at_ids (pid : Z) (items : list (pyid * string)) (q : list LiteExampleIds) (a0 : Z)
    (s : S) (ks : list nat) (fin : bool) : Prop := mkAtIds {
  ai_paired : paired s;
  ai_pid : dj_partition_id (ip_peer s) = pid;
  ai_items : il_item_dict (ip_init s) = items;
  ai_queue : following (ip_peer s) (q ++ copies (round_batches pid items) ks) fin;
  ai_open : fin = false → il_follower_finished (ip_init s) = false;
  ai_copies : Forall (λ k, k ≤ length (round_batches pid items))%nat ks;
  ai_all : fin = true → last ks = Some (length (round_batches pid items));
  ai_next : Z.abs (ap_of s - a0) ≤ zlen ks * (2 * zlen items + 1);
}.

Lemma round_batches_ne pid items : round_batches pid items ≠ [].
Proof. destruct (round_batches_marks pid items) as (q' & l & -> & _). by destruct q'. Qed.

Lemma at_ids_init pid items q a0 s ks fin f :
  at_ids pid items q a0 s ks fin →
  il_item_dict (f (ip_init s)) = il_item_dict (ip_init s) →
  il_partition_id (f (ip_init s)) = il_partition_id (ip_init s) →
  (fin = false → il_follower_finished (f (ip_init s)) = false) →
  at_ids pid items q a0 (ip_with_init f s) ks fin.
Proof.
  intros [[A1 A2] A3 A4 A5 A6 A7 A8 A9] Hi Hp Hf. split; try done.
  - split; simpl; [done|]. by rewrite Hp.
  - simpl. by rewrite Hi.
Qed.

(** A round after the follower has been told of the end changes nothing there. *)
Lemma told_round pid items q a0 s fs ks :
  at_ids pid items q a0 s ks true → in_int64 (ap_of s) = true →
  ∃ o fs' s', send_example_id_processor (with_link fs s) = (o, with_link fs' s') ∧
    (o = Ret tt ∨ o = raise RpcError) ∧ at_ids pid items q a0 s' ks true.
Proof.
  intros Hi H64. unfold send_example_id_processor. rewrite run_bind. cbn [getM].
  change (ip_init (with_link fs s)) with (ip_init s).
  destruct (il_follower_finished (ip_init s)) eqn:Hff.
  - exists (Ret tt), fs, s. split_and!; [|by left|done].
    rewrite run_bind, run_ret. rewrite run_bind. cbn [getM].
    change (ip_init (with_link fs s)) with (ip_init s).
    destruct (il_partition_finished (ip_init s)); [|done].
    rewrite run_bind. unfold finish_send_example_id_to_consumer. rewrite run_bind. cbn [getM].
    change (ip_init (with_link fs s)) with (ip_init s). by rewrite Hff.
  - rewrite run_bind, run_bind, on_init_lossy, run_bind.
    set (s1 := ip_with_init acquire_stale_with_sender s).
    assert (at_ids pid items q a0 s1 ks true) as Hi1 by (by apply at_ids_init).
    destruct (start_lossy s1 fs _ true (ai_paired _ _ _ _ _ _ _ Hi1) (ai_queue _ _ _ _ _ _ _ Hi1) H64)
      as (o & Hst & Ho).
    unfold sender. rewrite run_bind, Hst. destruct Ho as [-> |(-> & _)].
    2:{ exists (raise RpcError), (tail fs), s1. split_and!; auto. }
    cbn [snd]. rewrite run_ret, run_bind, on_init_lossy. rewrite on_init_lossy, run_bind. cbn [getM].
    set (s2 := ip_with_init release_stale_with_sender _).
    assert (at_ids pid items q a0 s2 ks true) as Hi2 by (by repeat apply at_ids_init).
    exists (Ret tt), (tail fs), s2. split_and!; [|by left|done].
    destruct (il_partition_finished (ip_init (with_link (tail fs) s2))); [|done].
    rewrite run_bind. unfold finish_send_example_id_to_consumer. rewrite run_bind. cbn [getM]. done.
Qed.

(** A round before that: another copy of some first batches; of all of them, and the
    mark of the end, when no call is lost. *)
Lemma open_round pid items q a0 s fs ks :
  at_ids pid items q a0 s ks false → in_int64 (ap_of s) = true → sendable items →
  ∃ o fs' s' k fin, send_example_id_processor (with_link fs s) = (o, with_link fs' s') ∧
    (o = Ret tt ∨ o = raise RpcError) ∧ at_ids pid items q a0 s' (ks ++ [k]) fin ∧
    (length fs' ≤ length (tail fs))%nat ∧ (fs = [] → o = Ret tt ∧ fin = true).
Proof.
  intros Hi H64 Hs. unfold send_example_id_processor. rewrite run_bind. cbn [getM].
  change (ip_init (with_link fs s)) with (ip_init s).
  rewrite (ai_open _ _ _ _ _ _ _ Hi eq_refl), run_bind, run_bind, on_init_lossy, run_bind.
  set (s1 := ip_with_init acquire_stale_with_sender s).
  assert (at_ids pid items q a0 s1 ks false) as [B1 B2 B3 B4 B5 B6 B7 B8]
    by (apply at_ids_init; try done; apply Hi).
  set (B := round_batches pid items) in *.
  destruct (sender_lossy s1 fs _ B1 B4 H64) as (o & s2 & fs2 & k & Hr & Hf & [Hsp Hsk] & Hp & Hk & Hn & Ht & Ho).
  { by rewrite B3. }
  rewrite B2, B3 in Hf, Hk, Ho. rewrite B3 in Hn. fold B in Hf, Hk, Ho.
  rewrite <- (assoc_L (++)), <- copies_snoc in Hf.
  assert (Z.abs (ap_of s2 - a0) ≤ zlen (ks ++ [k]) * (2 * zlen items + 1)) as Hn2.
  { rewrite zlen_app. change (zlen [k]) with 1. pose proof (zlen_nonneg items). lia. }
  assert (Forall (λ k, k ≤ length B)%nat (ks ++ [k])) as Hks
    by (apply Forall_app; split; [done|by constructor]).
  rewrite Hr. destruct Ho as [(-> & -> & Hi2)|(-> & Hfs & Hi2)].
  2:{ exists (raise RpcError), fs2, s2, k, false. split_and!; [done|by right| |done|done].
      split; try done; [congruence|by rewrite Hi2|intros _; rewrite Hi2; by apply B5]. }
  rewrite run_bind, on_init_lossy. rewrite on_init_lossy, run_bind. cbn [getM].
  set (s3 := ip_with_init release_stale_with_sender
               (ip_with_init (il_set_follower_finished false) s2)).
  change (ip_init (with_link fs2 s3)) with (ip_init s3).
  assert (il_partition_finished (ip_init s3) = true) as -> by (simpl; by rewrite Hi2).
  assert (q ++ copies B (ks ++ [length B]) ≠ []) as Hne.
  { rewrite copies_snoc, take_ge by lia. pose proof (round_batches_ne pid items).
    intros Hx. by apply app_nil in Hx as [_ [_ ?]%app_nil]. }
  destruct (finish_lossy s3 fs2 (q ++ copies B (ks ++ [length B])) false) as (o3 & s4 & fin & Hr3 & Hf4 & [Hsp4 Hsk4] & Hp4 & Ha4 & Hi4 & Hff4 & _ & Ho4);
    [by destruct Hp; split|exact Hf|exact Hne|done|].
  rewrite run_bind, Hr3. pose proof (tail_shorter fs2).
  assert (at_ids pid items q a0 s4 (ks ++ [length B]) fin) as Hi'.
  { split; try done; [rewrite Hsp4; simpl; congruence| |intros _; by rewrite last_snoc|by rewrite Ha4].
    rewrite Hi4. simpl. by rewrite Hi2. }
  exists (match o3 with Ret _ => Ret tt | Stop r => Stop r end), (tail fs2), s4, (length B), fin.
  split_and!; [|destruct Ho4 as [(-> & _)|(-> & _)]; auto|done|lia|].
  - by destruct Ho4 as [(-> & _)|(-> & _)].
  - intros ->. destruct Ho4 as [(-> & ->)|(_ & Hx)]; [done|]. by destruct fs2; simpl in *; [|lia].
Qed.

(** Any number of rounds. *)
Lemma id_rounds pid items q a0 n : ∀ s fs ks fin,
  at_ids pid items q a0 s ks fin → sendable items →
  Z.abs a0 + (zlen ks + Z.of_nat n) * (2 * zlen items + 1) < 2 ^ 63 →
  ∃ fs' s' ks' fin', rounds n send_example_id_processor (with_link fs s) = (Ret tt, with_link fs' s') ∧
    at_ids pid items q a0 s' (ks ++ ks') fin' ∧
    (length ks' ≤ if fin then 0 else Datatypes.S (length fs))%nat ∧
    (fin = true ∨ (length fs < n)%nat → fin' = true).
Proof.
  pose proof (zlen_nonneg items) as Hz.
  induction n as [|n IH]; intros s fs ks fin Hi Hs Hb.
  - exists fs, s, [], fin. rewrite app_nil_r. split_and!; [done|done|simpl; lia|]. intros [|]; [done|lia].
  - assert (in_int64 (ap_of s) = true) as H64.
    { pose proof (ai_next _ _ _ _ _ _ _ Hi). pose proof (zlen_nonneg ks).
      unfold in_int64. apply andb_true_intro. split; [apply Z.leb_le|apply Z.ltb_lt]; nia. }
    destruct fin.
    + destruct (told_round _ _ _ _ _ fs _ Hi H64) as (o & fs1 & s1 & Hr & Ho & Hi1).
      rewrite (rounds_S _ _ _ _ _ Hr Ho).
      destruct (IH s1 fs1 ks true Hi1 Hs) as (fs' & s' & ks' & fin' & H1' & H2' & H3' & H4'); [nia|].
      exists fs', s', ks', fin'. split_and!; [done|done|done|]. intros _. apply H4'. by left.
    + destruct (open_round _ _ _ _ _ fs _ Hi H64 Hs) as (o & fs1 & s1 & k & fin1 & Hr & Ho & Hi1 & Ht & Hg).
      rewrite (rounds_S _ _ _ _ _ Hr Ho).
      destruct (IH s1 fs1 (ks ++ [k]) fin1 Hi1 Hs) as (fs' & s' & ks' & fin' & H1' & H2' & H3' & H4').
      { rewrite zlen_app. change (zlen [k]) with 1. lia. }
      exists fs', s', (k :: ks'), fin'. split_and!; [done| | |].
      * by rewrite <- (assoc_L (++)) in H2'.
      * destruct fs as [|f fs]; simpl in *; [|destruct fin1; lia].
        destruct (Hg eq_refl) as [_ ->]. lia.
      * intros [|Hlt]; [done|]. apply H4'. destruct fs as [|f fs]; simpl in *.
        { left. by apply Hg. } { right. lia. }
Qed.
End ids.

(** ** A round that is cut off *)
Section cut.
Context `{UtilsLaws} `{TFExample}.
Local Abbreviation P := (data_join example_id_consumer).
Local Abbreviation S := (id_producer P).

(** [k] calls get through after the first one, the next is lost. *)
Definition cut_after (k : nat) (rest : list fate) : list fate :=
  replicate k Delivered ++ CallLost :: rest.

Lemma send_delivered (s : S) fs q fin examples b :
  paired s → following (ip_peer s) q fin → sendable examples →
  ∃ s', send_example_ids_to_consumer examples b (with_link (Delivered :: fs) s)
          = (Ret tt, with_link fs s') ∧
    following (ip_peer s') (q ++ [ids_lite s examples b]) fin ∧ ip_frame s s' ∧
    Z.abs (ap_of s' - ap_of s) ≤ zlen examples + 1.
Proof.
  intros [Hrank Hpid] Hf Hs. pose proof (zlen_nonneg examples).
  destruct (sync_ids_run (ip_peer s) q fin examples b Hf) as (d' & Hr & Hf' & [Hp Hk] & Hn).
  exists (ip_set_peer d' s). split_and!; [|exact Hf'|by split_and!|unfold ap_of; simpl; lia].
  unfold send_example_ids_to_consumer. rewrite run_bind. cbn [getM]. rewrite run_bind.
  unfold liftO. change (ip_init (with_link (Delivered :: fs) s)) with (ip_init s).
  change (ip_rank_id (with_link (Delivered :: fs) s)) with (ip_rank_id s).
  rewrite collect_lite by done. rewrite Hrank, Hpid, run_bind. unfold call, zoom.
  cbn [with_link ip_peer rpc_SyncPartition lossy_peer]. unfold over_link.
  cbn [ly_fates ly_peer tail]. by rewrite Hr.
Qed.
Lemma send_call_lost (s : S) fs examples b :
  sendable examples →
  send_example_ids_to_consumer examples b (with_link (CallLost :: fs) s)
  = (raise RpcError, with_link fs s).
Proof.
  intros Hs. unfold send_example_ids_to_consumer. rewrite run_bind. cbn [getM].
  rewrite run_bind. unfold liftO. change (ip_init (with_link (CallLost :: fs) s)) with (ip_init s).
  rewrite collect_lite by done. rewrite run_bind. unfold call, zoom. cbn. by destruct s.
Qed.

Lemma send_items_cut items : ∀ (s : S) q fin open k rest,
  paired s → following (ip_peer s) q fin → sendable (open ++ items) →
  let r := id_batches sync_example_id_nums open items in
  (k ≤ length r.1)%nat →
  ∃ s', send_items items open (with_link (cut_after k rest) s)
          = (if decide (k = length r.1) then (Ret r.2, with_link (CallLost :: rest) s')
             else (raise RpcError, with_link rest s')) ∧
    following (ip_peer s') (q ++ take k ((λ b, ids_lite s b false) <$> r.1)) fin ∧
    ip_frame s s' ∧ Z.abs (ap_of s' - ap_of s) ≤ 2 * (zlen (open ++ items) - zlen r.2).
Proof.
  induction items as [|x items IH]; intros s q fin open k rest Hp Hf Hs r Hk.
  - simpl in Hk. assert (k = 0%nat) as -> by lia. exists s. simpl. rewrite !app_nil_r.
    split_and!; [done|done|apply ip_frame_refl|lia].
  - subst r. cbn [send_items id_batches] in *.
    assert (sendable ((open ++ [x]) ++ items)) as Hs' by (by rewrite <- (assoc_L (++))).
    replace (open ++ x :: items) with ((open ++ [x]) ++ items) in * by (by rewrite <- (assoc_L (++))).
    destruct (sync_example_id_nums <? zlen (open ++ [x])); [|by apply IH].
    apply sendable_app in Hs' as [Hs1 Hs2].
    assert (zlen (open ++ [x]) = zlen open + 1) as Hlen by (by rewrite zlen_app).
    pose proof (zlen_nonneg open).
    destruct k as [|k].
    + exists s. rewrite run_bind. unfold cut_after. cbn [replicate app].
      rewrite send_call_lost by done. rewrite decide_False by (simpl; lia). simpl. rewrite app_nil_r.
      split_and!; [done|done|apply ip_frame_refl|].
      rewrite zlen_app, Z.sub_diag.
      assert (zlen (id_batches sync_example_id_nums [] items).2 ≤ zlen items); [|lia].
      rewrite <- (id_batches_concat sync_example_id_nums [] items) at 2. rewrite zlen_app.
      pose proof (zlen_nonneg (concat (id_batches sync_example_id_nums [] items).1)). lia.
    + unfold cut_after. cbn [replicate app].
      destruct (send_delivered s (cut_after k rest) q fin (open ++ [x]) false Hp Hf Hs1)
        as (s1 & Hr1 & Hf1 & Hfr1 & Hn1).
      rewrite run_bind. unfold cut_after in Hr1. rewrite Hr1.
      destruct (IH s1 _ fin [] k rest (ip_frame_paired _ _ Hfr1 Hp) Hf1 Hs2)
        as (s2 & Hr2 & Hf2 & Hfr2 & Hn2); [simpl in Hk; lia|].
      exists s2. unfold cut_after in Hr2. rewrite Hr2. split_and!.
      * cbn [fst snd length].
        destruct (decide (k = _)) as [Hd|Hd];
          [by rewrite decide_True by lia|by rewrite decide_False by lia].
      * destruct Hfr1 as (_ & _ & _ & Epid & _). unfold ids_lite in *. rewrite Epid in Hf2. simpl.
        by rewrite <- (assoc_L (++)) in Hf2.
      * by eapply ip_frame_trans.
      * simpl in Hn2 |- *. rewrite zlen_app. lia.
Qed.

(** The round: the follower has the first [k] batches. *)
Lemma cut_round (s : S) q k :
  let items := il_item_dict (ip_init s) in
  let pid := dj_partition_id (ip_peer s) in
  paired s → following (ip_peer s) q false → il_follower_finished (ip_init s) = false →
  in_int64 (ap_of s) = true → sendable items →
  (k < length (round_batches pid items))%nat →
  ∃ s', send_example_id_processor (with_link (Delivered :: cut_after k []) s)
          = (raise RpcError, with_link [] s') ∧
    at_ids pid items q (ap_of s) s' [k] false.
Proof.
  intros items pid Hp Hf Hff H64 Hs Hk.
  unfold send_example_id_processor. rewrite run_bind. cbn [getM].
  change (ip_init (with_link (Delivered :: cut_after k []) s)) with (ip_init s).
  rewrite Hff, run_bind, run_bind, on_init_lossy, run_bind.
  set (s1 := ip_with_init acquire_stale_with_sender s).
  assert (paired s1) as Hp1 by (destruct Hp; by split).
  unfold sender. rewrite run_bind.
  assert (start_notify_consumer_to_sync_partition (with_link (Delivered :: cut_after k []) s1)
    = (Ret (ap_of s, false), with_link (cut_after k []) s1)) as ->.
  { unfold start_notify_consumer_to_sync_partition. rewrite run_bind. cbn [getM].
    rewrite run_bind. unfold call, zoom. destruct Hp1 as [Hrank Hpid].
    change (ip_init (with_link (Delivered :: cut_after k []) s1)) with (ip_init s1).
    change (ip_rank_id (with_link (Delivered :: cut_after k []) s1)) with (ip_rank_id s1).
    rewrite Hrank, Hpid. cbn [with_link ip_peer rpc_StartPartition lossy_peer].
    unfold over_link. cbn [ly_fates ly_peer tail].
    rewrite (start_ids_run (ip_peer s1) q false Hf H64). done. }
  cbn [snd]. rewrite run_bind. cbn [gets].
  change (il_item_dict (ip_init (with_link (cut_after k []) s1))) with items.
  set (r := id_batches sync_example_id_nums [] items).
  set (full := (λ b, ids_lite s1 b false) <$> r.1).
  assert (round_batches pid items = full ++ [ids_lite s1 r.2 true]) as HB by done.
  assert (length full = length r.1) as Hfull by (unfold full; apply length_fmap).
  rewrite HB, length_app in Hk. simpl in Hk.
  destruct (send_items_cut items s1 q false [] k [] Hp1 Hf Hs) as (s2 & Hr2 & Hf2 & Hfr2 & Hn2);
    [fold r; lia|].
  fold r in Hr2, Hf2, Hn2. fold full in Hf2.
  rewrite run_bind, Hr2.
  assert (at_ids pid items q (ap_of s) s2 [k] false) as Hat.
  { destruct Hfr2 as (E1 & E2 & E3 & E4 & E5). pose proof (zlen_nonneg r.2). split.
    - eapply ip_frame_paired; [by split_and!|done].
    - done.
    - by rewrite E2.
    - unfold copies. simpl. by rewrite app_nil_r, HB, take_app_le by lia.
    - intros _. rewrite E2. done.
    - constructor; [|constructor]. rewrite HB, length_app. simpl. lia.
    - done.
    - change (ap_of s1) with (ap_of s) in Hn2. change (zlen [k]) with 1. simpl in Hn2. lia. }
  exists s2. split; [|done]. case_decide as Hd; [|done].
  assert (sendable r.2) as Hs2.
  { pose proof (id_batches_concat sync_example_id_nums [] items) as Hc.
    fold r in Hc. simpl in Hc. rewrite <- Hc in Hs. by apply sendable_app in Hs as [_ ?]. }
  by rewrite run_bind, send_call_lost.
Qed.

(** The first [k] batches have the first [2049 k] ids. *)
Lemma take_concat {A} (n : nat) (bs : list (list A)) l k :
  Forall (λ b, length b = n) bs → (k ≤ length bs)%nat →
  concat (take k bs) = take (k * n) (concat bs ++ l).
Proof.
  intros Hsz. revert k. induction Hsz as [|b bs Hb _ IH]; intros [|k] Hk; simpl in *; try done; try lia.
  rewrite <- (assoc_L (++)), (IH k) by lia. symmetry. by apply take_app_add'.
Qed.
Lemma batches_ids_lite pid (bs : list (list (pyid * string))) fin :
  batches_ids ((λ b, lite_of pid b fin) <$> bs) = id_bytes <$> concat bs.
Proof.
  unfold batches_ids. induction bs as [|b bs IH]; [done|]. simpl. rewrite fmap_app, <- IH. done.
Qed.
Lemma take_batches pid items k :
  (k < length (round_batches pid items))%nat →
  batches_ids (take k (round_batches pid items)) = id_bytes <$> take (k * 2049) items.
Proof.
  unfold round_batches. set (r := id_batches sync_example_id_nums [] items). cbv zeta.
  rewrite length_app, length_fmap. simpl. intros Hk.
  rewrite take_app_le by (rewrite length_fmap; lia). rewrite <- fmap_take, batches_ids_lite.
  destruct (id_batches_sizes sync_example_id_nums [] items) as [Hsz _]; [done|done|]. fold r in Hsz.
  pose proof (id_batches_concat sync_example_id_nums [] items) as Hc. fold r in Hc. simpl in Hc.
  f_equal. rewrite <- Hc. apply take_concat; [|lia].
  eapply Forall_impl; [exact Hsz|]. intros b Hb. cbn in Hb. unfold zlen in Hb.
  change (sync_example_id_nums + 1) with 2049 in Hb. lia.
Qed.
End cut.

(** ** Sending the metas *)
Section metas.
Context {F G : Type} `{GFileLaws F} `{GFileLaws G} `{UtilsLaws} `{TFExample} `{Clock}.
Local Abbreviation P := (data_join (data_block_consumer G)).
Local Abbreviation S := (block_producer F P).

Definition metas_over (fs : list fate) (s : S) : block_producer F (lossy P) :=
  mkProducer (mkLossy (bp_peer s) fs) (bp_rank_id s) (bp_partition_id s) (bp_wrap s).

Lemma bp_call_lossy {A} (c : M P A) (s : S) fs a p' :
  c (bp_peer s) = (Ret a, p') →
  ∃ o p, bp_call (over_link c) (metas_over fs s) = (o, metas_over (tail fs) (bp_set_peer p s)) ∧
    (o = Ret a ∧ p = p' ∨ o = raise RpcError ∧ fs ≠ [] ∧ (p = bp_peer s ∨ p = p')).
Proof.
  intros Hc. unfold bp_call, zoom. cbn [metas_over bp_peer].
  pose proof (over_link_crossed c (bp_peer s) fs) as Hx. cbv zeta in Hx.
  destruct (over_link c _) as [o l]. cbn in Hx.
  destruct Hx as [|fs' ->|fs' ->]; rewrite ?Hc; cbn.
  - exists (Ret a), p'. split; [done|]. by left.
  - exists (raise RpcError), (bp_peer s). split; [by destruct s|]. right. split_and!; auto.
  - exists (raise RpcError), p'. split; [done|]. right. split_and!; auto.
Qed.

(** Reading the store does not use the link. *)
Lemma get_next_lossy (s : S) fs :
  get_next_data_block_meta (metas_over fs s)
  = ((get_next_data_block_meta s).1, metas_over fs (get_next_data_block_meta s).2).
Proof.
  unfold get_next_data_block_meta. rewrite !run_bind. cbn [gets metas_over bp_wrap].
  unfold assertM, require. destruct (0 <=? dw_next (bp_wrap s)); [|done].
  rewrite !run_bind. cbn. unfold in_joiner, zoom. cbn.
  by destruct (joiner_meta_by_index _ _).
Qed.

Lemma status_lossy (s : S) fs log v logL :
  producing s log → leading (bp_peer s) v logL → in_int64 (sv_next v) = true →
  ∃ o, sync_data_block_meta_sender_status (metas_over fs s) = (o, metas_over (tail fs) s) ∧
    (o = Ret (sv_next v, sv_finish v) ∨ o = raise RpcError ∧ fs ≠ []).
Proof.
  intros [P1 P2 P3 P4 P5] Hl H64.
  pose proof (start_metas_run _ _ _ Hl H64) as Hr.
  destruct (bp_call_lossy _ s fs _ _ Hr) as (o & p & Hc & Ho).
  assert (bp_set_peer p s = s) as Hs
    by (destruct Ho as [(_ & ->)|(_ & _ & [-> | ->])]; by destruct s).
  rewrite Hs in Hc.
  exists (match o with Ret _ => Ret (sv_next v, sv_finish v) | Stop r => Stop r end). split.
  - unfold sync_data_block_meta_sender_status. rewrite run_bind. cbn [getM].
    change (bp_wrap (metas_over fs s)) with (bp_wrap s).
    change (bp_rank_id (metas_over fs s)) with (bp_rank_id s). rewrite P1, P3, run_bind.
    change (rpc_StartPartition (PeerClient := lossy_peer) ?r)
      with (over_link (rpc_StartPartition (P := P) r)). rewrite Hc.
    by destruct Ho as [(-> & _)|(-> & _ & _)].
  - destruct Ho as [(-> & _)|(-> & ? & _)]; auto.
Qed.

(** One meta: the leader has it or not, and it has it when the call returns. *)
Lemma send_meta_lossy (s : S) fs log v logL x :
  producing s log → leading (bp_peer s) v logL → sv_finish v = false →
  data_block_index x = sv_next v → x ∈ log →
  ∃ o p sent, send_data_block_meta_to_consumer x (metas_over fs s)
                = (o, metas_over (tail fs) (bp_set_peer p s)) ∧
    leading p (v_with v sent) logL ∧ producing (bp_set_peer p s) log ∧
    (sent = [] ∨ sent = [x]) ∧ (o = Ret tt ∧ sent = [x] ∨ o = raise RpcError ∧ fs ≠ []).
Proof.
  intros [P1 P2 P3 P4 P5] Hl Hf Hx Hin.
  destruct (sync_meta_run (bp_peer s) v logL x Hl Hf Hx) as (d' & Hr & Hl' & Hp' & Hk').
  { rewrite <- P2. by apply P5. }
  cbv zeta in Hr. destruct (bp_call_lossy _ s fs _ _ Hr) as (o & p & Hc & Ho).
  assert (send_data_block_meta_to_consumer x (metas_over fs s)
    = (match o with Ret _ => Ret tt | Stop r => Stop r end, metas_over (tail fs) (bp_set_peer p s))) as Hs.
  { unfold send_data_block_meta_to_consumer. rewrite run_bind. cbn [getM].
    change (bp_rank_id (metas_over fs s)) with (bp_rank_id s).
    change (bp_partition_id (metas_over fs s)) with (bp_partition_id s).
    rewrite P1, P2, run_bind. change (rpc_SyncPartition (PeerClient := lossy_peer) ?r)
      with (over_link (rpc_SyncPartition (P := P) r)). rewrite Hc.
    by destruct Ho as [(-> & _)|(-> & _ & _)]. }
  rewrite Hs. assert (producing (bp_set_peer d' s) log) as Hpr by (split; simpl; congruence || done).
  assert (bp_set_peer (bp_peer s) s = s) as Hself by (by destruct s).
  destruct Ho as [(-> & ->)|(-> & Hfs & [-> | ->])].
  - exists (Ret tt), d', [x]. split_and!; auto.
  - exists (raise RpcError), (bp_peer s), []. rewrite v_with_nil, Hself. split_and!; auto. by split.
  - exists (raise RpcError), d', [x]. split_and!; auto.
Qed.

(** The loop: some first ones of the metas that the leader lacks. *)
Lemma send_loop_lossy k : ∀ (s : S) fs log v logL fuel,
  producing s log → leading (bp_peer s) v logL → sv_finish v = false →
  dw_finished (bp_wrap s) = false → dw_next (bp_wrap s) = sv_next v → 0 ≤ sv_next v →
  sv_next v + Z.of_nat k = zlen log → zlen log ≤ removed_items_nums_from_buffer → (k < fuel)%nat →
  ∃ o s' fs' sent, send_loop fuel (metas_over fs s) = (o, metas_over fs' s') ∧
    leading (bp_peer s') (v_with v sent) logL ∧ producing s' log ∧
    follower_view s' = follower_view s ∧ (length fs' ≤ length fs)%nat ∧
    sent `prefix_of` drop (Z.to_nat (sv_next v)) log ∧
    (o = Ret tt ∧ sent = drop (Z.to_nat (sv_next v)) log ∨ o = raise RpcError ∧ fs ≠ []).
Proof.
  induction k as [|k IH]; intros s fs log v logL [|fuel] Hp Hl Hf Hd Hn Hpos Hlen Hbuf Hfuel;
    try lia; cbn [send_loop]; rewrite run_bind; cbn [gets];
    change (bp_wrap (metas_over fs s)) with (bp_wrap s); rewrite Hd, run_bind, get_next_lossy.
  - rewrite (no_more_meta_run s log Hp) by lia. exists (Ret tt), s, fs, [].
    rewrite v_with_nil, drop_ge by (unfold zlen in *; lia).
    split_and!; try done. by left.
  - destruct (lookup_lt_is_Some_2 log (Z.to_nat (sv_next v))) as [x Hx].
    { unfold zlen in *. lia. }
    destruct (next_meta_run s log x) as (m' & Hrun & Hp1 & _); try done.
    { lia. } { by rewrite Hn. }
    rewrite Hrun. cbn [fst snd]. set (s1 := bp_set_wrap _ s) in *.
    assert (data_block_index x = sv_next v) as Hxi.
    { rewrite (rep_index _ _ _ (pd_rep _ _ Hp) _ _ Hx). lia. }
    destruct (send_meta_lossy s1 fs log v logL x Hp1 Hl Hf Hxi) as (o & p & sent & Hs & Hl2 & Hp2 & Hsent & Ho).
    { by eapply list_elem_of_lookup_2. }
    rewrite run_bind, Hs. rewrite (drop_S _ x) by done.
    assert (follower_view (bp_set_peer p s1) = follower_view s) as Hv1 by done.
    destruct Ho as [(-> & ->)|(-> & Hfs)].
    2:{ exists (raise RpcError), (bp_set_peer p s1), (tail fs), sent.
        split_and!; try done; [apply tail_shorter| |by right].
        destruct Hsent as [-> | ->]; [apply prefix_nil|]. by exists (drop (Datatypes.S (Z.to_nat (sv_next v))) log). }
    rewrite run_bind. cbn [gets]. rewrite run_bind. unfold set_status, modify.
    change (dw_finished (bp_wrap (metas_over (tail fs) (bp_set_peer p s1))))
      with (dw_finished (bp_wrap s)). rewrite Hd.
    change (dw_next (bp_wrap (metas_over (tail fs) (bp_set_peer p s1)))) with (dw_next (bp_wrap s)).
    set (s2 := bp_set_wrap (dw_set_status (dw_next (bp_wrap s) + 1) false (bp_wrap s1)) (bp_set_peer p s1)).
    change (bp_set_wrap _ _) with (metas_over (tail fs) s2).
    assert (zlen [x] = 1) as Hx1 by done.
    assert (Z.to_nat (sv_next (v_with v [x])) = Datatypes.S (Z.to_nat (sv_next v))) as Hnext
      by (simpl; rewrite Hx1; lia).
    destruct (IH s2 (tail fs) log (v_with v [x]) logL fuel)
      as (o & s3 & fs3 & sent & Hr3 & Hl3 & Hp3 & Hv3 & Ht3 & Hpre & Ho3); try done.
    { destruct Hp2. by split. } { simpl. rewrite Hn, Hx1. done. } { simpl. lia. } { simpl. lia. } { lia. }
    rewrite Hnext in Hpre, Ho3. exists o, s3, fs3, (x :: sent). split_and!; try done.
    + by rewrite v_with_app in Hl3.
    + rewrite Hv3. unfold follower_view. simpl. by rewrite Hd.
    + pose proof (tail_shorter fs). lia.
    + by apply prefix_cons.
    + destruct Ho3 as [(-> & ->)|(-> & Hfs)]; [by left|right]. split; [done|by destruct fs].
Qed.

(** A round, and any number of them. *)
Lemma metas_round (s : S) fs log v logL fuel :
  producing s log → leading (bp_peer s) v logL → sv_finish v = false →
  dw_finished (bp_wrap s) = false → 0 ≤ sv_next v ≤ zlen log →
  zlen log ≤ removed_items_nums_from_buffer → zlen log - sv_next v < Z.of_nat fuel →
  ∃ o s' fs' sent, send_data_block_meta_processor fuel (metas_over fs s) = (o, metas_over fs' s') ∧
    (o = Ret tt ∨ o = raise RpcError) ∧
    leading (bp_peer s') (v_with v sent) logL ∧ producing s' log ∧
    follower_view s' = follower_view s ∧ (length fs' ≤ length (tail fs))%nat ∧
    sent `prefix_of` drop (Z.to_nat (sv_next v)) log ∧
    (fs = [] → sent = drop (Z.to_nat (sv_next v)) log).
Proof.
  intros Hp Hl Hf Hd Hn Hbuf Hfuel.
  pose proof (rep_bound _ _ _ (pd_rep _ _ Hp)) as Hb.
  unfold send_data_block_meta_processor. rewrite run_bind. cbn [gets].
  change (bp_wrap (metas_over fs s)) with (bp_wrap s). rewrite Hd.
  rewrite run_bind. unfold send_executor. rewrite run_bind.
  destruct (status_lossy s fs log v logL Hp Hl) as (o1 & Hst & Ho1); [apply in_int64_small; lia|].
  rewrite Hst. destruct Ho1 as [-> |(-> & Hfs)].
  2:{ exists (raise RpcError), s, (tail fs), []. rewrite v_with_nil.
      split_and!; auto using prefix_nil. by intros ->. }
  rewrite run_bind. unfold set_status, modify. cbn [fst snd]. rewrite Hf.
  set (s1 := bp_set_wrap (dw_set_status (sv_next v) false (bp_wrap s)) s).
  change (bp_set_wrap _ _) with (metas_over (tail fs) s1).
  destruct (send_loop_lossy (Z.to_nat (zlen log - sv_next v)) s1 (tail fs) log v logL fuel)
    as (o & s' & fs' & sent & Hr & Hl' & Hp' & Hv' & Ht & Hpre & Ho); try done; try (simpl; lia).
  { destruct Hp. by split. }
  assert (follower_view s' = follower_view s) as Hv by (rewrite Hv'; unfold follower_view; simpl; by rewrite Hd).
  rewrite run_bind, Hr. destruct Ho as [(-> & ->)|(-> & Hfs)].
  - rewrite run_ret, run_bind. cbn [gets].
    assert (dw_finished (bp_wrap (metas_over fs' s')) = false) as ->
      by (unfold follower_view in Hv; simpl in Hv |- *; congruence).
    exists (Ret tt), s', fs', (drop (Z.to_nat (sv_next v)) log). split_and!; auto.
  - exists (raise RpcError), s', fs', sent. split_and!; auto. by intros ->.
Qed.

Lemma v_with_next (v : saver G) b : sv_next (v_with v b) = sv_next v + zlen b.
Proof. done. Qed.
Lemma prefix_of_drop {A} (a b l : list A) :
  a `prefix_of` l → b `prefix_of` drop (length a) l → a ++ b `prefix_of` l.
Proof.
  intros [r ->] [r' Hr]. rewrite drop_app_length in Hr. subst r. exists r'. by rewrite (assoc_L (++)).
Qed.

Lemma metas_rounds n : ∀ (s : S) fs log v logL fuel,
  producing s log → leading (bp_peer s) v logL → sv_finish v = false →
  dw_finished (bp_wrap s) = false → 0 ≤ sv_next v ≤ zlen log →
  zlen log ≤ removed_items_nums_from_buffer → zlen log - sv_next v < Z.of_nat fuel →
  ∃ s' fs' sent,
    rounds n (send_data_block_meta_processor fuel) (metas_over fs s) = (Ret tt, metas_over fs' s') ∧
    leading (bp_peer s') (v_with v sent) logL ∧ producing s' log ∧
    follower_view s' = follower_view s ∧
    sent `prefix_of` drop (Z.to_nat (sv_next v)) log ∧
    ((length fs < n)%nat → sent = drop (Z.to_nat (sv_next v)) log).
Proof.
  induction n as [|n IH]; intros s fs log v logL fuel Hp Hl Hf Hd Hn Hbuf Hfuel.
  { exists s, fs, []. rewrite v_with_nil. split_and!; try done; [apply prefix_nil|lia]. }
  destruct (metas_round s fs log v logL fuel) as (o & s1 & fs1 & sent1 & Hr1 & Ho1 & Hl1 & Hp1 & Hv1 & Ht1 & Hpre1 & Hall1);
    try done.
  rewrite (rounds_S _ _ _ _ _ Hr1 Ho1).
  assert (sv_next v + zlen sent1 ≤ zlen log) as Hle.
  { apply prefix_length in Hpre1. rewrite length_drop in Hpre1. unfold zlen in *. lia. }
  pose proof (zlen_nonneg sent1) as Hz.
  assert (Z.to_nat (sv_next (v_with v sent1)) = (Z.to_nat (sv_next v) + length sent1)%nat) as Hnext
    by (rewrite v_with_next; unfold zlen; lia).
  destruct (IH s1 fs1 log (v_with v sent1) logL fuel)
    as (s' & fs' & sent2 & Hr2 & Hl2 & Hp2 & Hv2 & Hpre2 & Hall2); try done.
  { unfold follower_view in Hv1. congruence. } { rewrite v_with_next. lia. } { rewrite v_with_next. lia. }
  rewrite Hnext, <- drop_drop in Hpre2, Hall2. rewrite v_with_app in Hl2.
  exists s', fs', (sent1 ++ sent2). split_and!; try done; [congruence|by apply prefix_of_drop|].
  intros Hlt. destruct fs as [|f fs].
  - rewrite Hall1 in Hpre2 |- * by done. rewrite drop_ge in Hpre2 by lia.
    apply prefix_nil_inv in Hpre2 as ->. by rewrite app_nil_r.
  - destruct Hpre1 as [r Hr]. rewrite Hr in Hall2 |- *. rewrite drop_app_length in Hall2. f_equal. apply Hall2.
    simpl in *. lia.
Qed.
End metas.

(** ** Properties *)
Section properties.
Context `{UtilsLaws} `{TFExample}.

(** C15. Over a link that loses calls the ids arrive at least once.
    However calls and answers are lost, the queue of the follower holds, after any
    number of rounds of the leader's sender, copies of the batches of a round: in
    each round some first ones, at most one round more than the calls that can be
    lost.  When the follower is told that the sending is over, the last copy is
    complete, and this is so after more rounds than calls that can be lost.  Without
    a loss there is exactly one copy. *)
Theorem ids_arrive_at_least_once (s : id_producer (data_join example_id_consumer)) fs q n :
  let items := il_item_dict (ip_init s) in
  let B := round_batches (dj_partition_id (ip_peer s)) items in
  paired s → following (ip_peer s) q false → il_follower_finished (ip_init s) = false →
  sendable items → Z.abs (ap_of s) + Z.of_nat n * (2 * zlen items + 1) < 2 ^ 63 →
  ∃ fs' s' ks fin, rounds n send_example_id_processor (with_link fs s) = (Ret tt, with_link fs' s') ∧
    following (ip_peer s') (q ++ copies B ks) fin ∧
    Forall (λ k, k ≤ length B)%nat ks ∧ (length ks ≤ Datatypes.S (length fs))%nat ∧
    (fin = true → last ks = Some (length B)) ∧ ((length fs < n)%nat → fin = true) ∧
    (fs = [] → (0 < n)%nat → copies B ks = B) ∧
    B ≫= le_example_id = id_bytes <$> items ∧
    B ≫= le_event_time = (λ x, record_event_time x.2) <$> items.
Proof.
  intros items B Hp Hf Hff Hs Hb.
  assert (at_ids (dj_partition_id (ip_peer s)) items q (ap_of s) s [] false) as Hi.
  { split; try done; [by rewrite app_nil_r|change (zlen []) with 0; lia]. }
  destruct (id_rounds _ _ _ _ n s fs [] false Hi Hs) as (fs' & s' & ks & fin & Hr & Hi' & Hlen & Hfin);
    [change (zlen []) with 0; lia|].
  exists fs', s', ks, fin.
  split_and!; [done|apply Hi'|apply Hi'|done|apply Hi'|by auto| |apply round_batches_ids|
    apply round_batches_times].
  intros -> Hn. simpl in Hlen.
  pose proof (ai_all _ _ _ _ _ _ _ Hi' (Hfin (or_intror Hn))) as Hlast. simpl in Hlast.
  destruct ks as [|k [|k' ks]]; simpl in *; [done| |lia]. injection Hlast as ->.
  unfold copies. simpl. by rewrite app_nil_r, take_ge.
Qed.


(** A round cut after [k] batches, and a round without a loss: the queue has the first
    [k] batches twice. *)
Lemma cut_and_open_rounds (ld : id_producer (data_join example_id_consumer)) k :
  let items := il_item_dict (ip_init ld) in
  let B := round_batches (dj_partition_id (ip_peer ld)) items in
  paired ld → following (ip_peer ld) [] false → il_follower_finished (ip_init ld) = false →
  sendable items → Z.abs (ap_of ld) + 2 * (2 * zlen items + 1) < 2 ^ 63 → (k < length B)%nat →
  ∃ ld', rounds 2 send_example_id_processor (with_link (Delivered :: cut_after k []) ld)
           = (Ret tt, with_link [] ld') ∧
    following (ip_peer ld') (take k B ++ B) true.
Proof.
  intros items B Hp Hf Hff Hs Hb Hk. pose proof (zlen_nonneg items) as Hz.
  assert (in_int64 (ap_of ld) = true) as H64.
  { unfold in_int64. apply andb_true_intro. split; [apply Z.leb_le|apply Z.ltb_lt]; lia. }
  destruct (cut_round ld [] k Hp Hf Hff H64 Hs Hk) as (s1 & Hr1 & Hi1).
  assert (in_int64 (ap_of s1) = true) as H641.
  { pose proof (ai_next _ _ _ _ _ _ _ Hi1) as Hn. fold items in Hn. change (zlen [k]) with 1 in Hn.
    unfold in_int64. apply andb_true_intro. split; [apply Z.leb_le|apply Z.ltb_lt]; lia. }
  destruct (open_round _ _ _ _ s1 [] _ Hi1 H641 Hs) as (o & fs2 & s2 & k2 & fin & Hr2 & Ho & Hi2 & Ht & Hg).
  destruct (Hg eq_refl) as [-> ->]. destruct fs2; [|simpl in Ht; lia].
  pose proof (ai_all _ _ _ _ _ _ _ Hi2 eq_refl) as Hk2. fold items B in Hk2.
  rewrite last_snoc in Hk2. injection Hk2 as ->.
  pose proof (ai_queue _ _ _ _ _ _ _ Hi2) as Hq2. fold items B in Hq2.
  assert ([] ++ copies B ([k] ++ [length B]) = take k B ++ B) as Hcop.
  { unfold copies. simpl. by rewrite app_nil_r, (take_ge B (length B)) by lia. }
  rewrite Hcop in Hq2. exists s2. split; [|exact Hq2].
  rewrite (rounds_S 1 _ _ _ _ Hr1 (or_intror eq_refl)).
  by rewrite (rounds_S 0 _ _ _ _ Hr2 (or_introl eq_refl)).
Qed.

(** C38. A lost call makes the follower join ids twice.
    The leader's sender loses a call after [k] batches, and its next round is without a
    loss.  The joiner then finds the first [k] batches twice in its queue, and its
    blocks have the common ones of the first [2049 k] ids of the leader, and after
    them all common ids. *)
Theorem lost_call_joins_ids_twice {F} `{GFileLaws F} `{Clock} (post_ok : ∀ u l, http_post u l = Ret tt)
    (ld : id_producer (data_join example_id_consumer)) (j : joiner F) k fuel :
  let items := il_item_dict (ip_init ld) in
  let B := round_batches (dj_partition_id (ip_peer ld)) items in
  let thr := dump_data_block_threshold (jn_options j) in
  let kn := known (jn_items j) in
  paired ld → following (ip_peer ld) [] false → il_follower_finished (ip_init ld) = false →
  sendable items → Z.abs (ap_of ld) + 2 * (2 * zlen items + 1) < 2 ^ 63 →
  (k < length B)%nat →
  jrep j [] [] [] → jn_maker j = None → jn_finished j = false →
  dump_data_block_time_span (jn_options j) ≤ 0 →
  2 * zlen items + 4 * zlen B < 2 ^ 53 → last_batch_writes thr kn (take k B ++ B) →
  (length (take k B ++ B) + 1 ≤ fuel)%nat →
  ∃ ld' j' blocks,
    rounds 2 send_example_id_processor (with_link (Delivered :: cut_after k []) ld)
      = (Ret tt, with_link [] ld') ∧
    memory_joiner_algo fuel
      (jn_set_queue (ap_queue (ec_appender (dj_consumer (ip_peer ld')))) None j) = (Ret tt, j') ∧
    rep (w_mgr (jn_world j')) (w_fs (jn_world j')) blocks ∧
    concat (example_ids <$> blocks)
    = common_ids (take (k * 2049) items) (jn_items j) ++ common_ids items (jn_items j).
Proof.
  intros items B thr kn Hp Hf Hff Hs Hb Hk Hj Hm Hnf Hspan Hb2 Hlast Hfuel.
  pose proof (zlen_nonneg items) as Hz.
  destruct (cut_and_open_rounds ld k Hp Hf Hff Hs Hb Hk) as (s2 & Hr2 & Hq2). fold items B in Hq2.
  destruct (round_batches_marks (dj_partition_id (ip_peer ld)) items) as (full & l & HB & Hunf & Hfin).
  fold B in HB.
  assert (take k B = take k full) as Htk
    by (rewrite HB, length_app in Hk; simpl in Hk; by rewrite HB, take_app_le by lia).
  assert (take k B ++ B = (take k full ++ full) ++ [l]) as Hq by (by rewrite Htk, HB, (assoc_L (++))).
  assert (batches_ids (take k B ++ B) = (id_bytes <$> take (k * 2049) items) ++ (id_bytes <$> items)) as Hids.
  { unfold batches_ids. rewrite bind_app. f_equal; [by apply take_batches|apply round_batches_ids]. }
  assert (zlen (batches_ids (take k B ++ B)) ≤ 2 * zlen items) as Hlen.
  { rewrite Hids, zlen_app. unfold zlen. rewrite !length_fmap, length_take. lia. }
  assert (zlen (take k B ++ B) ≤ 2 * zlen B) as HlenB
    by (unfold zlen; rewrite length_app, length_take; lia).
  destruct (memory_joiner_queue_aux post_ok (take k full ++ full) l [] fuel
    (jn_set_queue (take k B ++ B) None j) [] [] [])
    as (blocks & j' & Hrun & Hblk & Hj' & _ & _ & _ & _); try done.
  { by apply (jrep_settings j). }
  { apply Forall_app. split; [by apply Forall_take|done]. }
  { rewrite <- Hq. change (zlen ([] ++ [])) with 0. lia. }
  { by apply Hlast. }
  { rewrite Hq, length_app in Hfuel. simpl in Hfuel. lia. }
  exists s2, j', blocks. split_and!.
  - done.
  - by rewrite (fo_queue _ _ _ Hq2).
  - apply Hj'.
  - rewrite Hblk, <- Hq. unfold common_ids.
    pose proof (queue_spec_concat thr kn [] (take k B ++ B)) as Hc.
    rewrite Hq in Hc at 2. rewrite queue_spec_finished, app_nil_r in Hc by done.
    rewrite Hids, matched_app in Hc. exact Hc.
Qed.
End properties.

(** ** Concrete losses *)
Module TestLoss.
Import TestUtils TestStore TestRecords TestWorld TestJoiner TestSaver TestProducer.

(** 2050 ids, of which the follower knows the first two and the last. *)
Definition filler : list (pyid * string) :=
  (λ i, (PyBytes ("n" +:+ Str.of_int (Z.of_nat i)), "n")) <$> seq 0 2047.
Definition many : list (pyid * string) :=
  [(PyBytes "a", "a"); (PyBytes "b", "b")] ++ filler ++ [(PyBytes "c", "c")].
Definition many_leader : id_producer (data_join example_id_consumer) :=
  mkIdProducer (mkDataJoin 0 7 (new_example_id_consumer 0 [])) 7
    (new_init_loading (mkLoader "raw" tf_options "local" "raw" ["raw/a"] many true) 0) true.

Lemma many_sendable : sendable many.
Proof.
  assert (∀ c, has_event_time (String c "")) as Hone by (intros c; eexists; split; reflexivity).
  assert (∀ b c, sendable [(PyBytes b, String c "")]) as Hx.
  { intros b c. apply Forall_singleton. split; [by eexists|apply Hone]. }
  unfold many. change [(PyBytes "a", "a"); (PyBytes "b", "b")]
    with ([(PyBytes "a", "a")] ++ [(PyBytes "b", "b")]).
  rewrite !sendable_app. split_and!; try apply Hx.
  apply Forall_fmap, Forall_true. intros i. split; [by eexists|apply Hone].
Qed.

Definition last_batch_writesb (thr : Z) (kn : string → bool) (q : list LiteExampleIds) : bool :=
  match rev q with
  | [] => true
  | l :: q' =>
      match (batch_spec thr kn (queue_spec thr kn [] (rev q')).2 (le_example_id l) true).1 with
      | [] => false
      | _ => true
      end
  end.
Lemma last_batch_writesb_spec thr kn q :
  last_batch_writesb thr kn q = true → last_batch_writes thr kn q.
Proof.
  intros H q' l ->. unfold last_batch_writesb in H. rewrite rev_app_distr in H. cbn in H.
  rewrite rev_involutive in H. by destruct (batch_spec _ _ _ _ _).1.
Qed.

Lemma ids_arrive_at_least_once_witness :
  let B := round_batches 0 many in
  ∃ fs' s' ks fin,
    rounds 4 send_example_id_processor (with_link [Delivered; AnswerLost; CallLost] many_leader)
      = (Ret tt, with_link fs' s') ∧
    following (ip_peer s') ([] ++ copies B ks) fin ∧
    Forall (λ k, k ≤ length B)%nat ks ∧ (length ks ≤ 4)%nat ∧
    (fin = true → last ks = Some (length B)) ∧ ((3 < 4)%nat → fin = true) ∧
    ([Delivered; AnswerLost; CallLost] = [] → (0 < 4)%nat → copies B ks = B) ∧
    B ≫= le_example_id = id_bytes <$> many ∧
    B ≫= le_event_time = (λ x, record_event_time x.2) <$> many.
Proof.
  apply (ids_arrive_at_least_once many_leader [Delivered; AnswerLost; CallLost] [] 4).
  - split; reflexivity.
  - split; try reflexivity; by simpl.
  - reflexivity.
  - exact many_sendable.
  - vm_compute. reflexivity.
Defined.


Lemma lost_call_joins_ids_twice_witness :
  ∃ ld' j' blocks,
    rounds 2 send_example_id_processor (with_link (Delivered :: cut_after 1 []) many_leader)
      = (Ret tt, with_link [] ld') ∧
    memory_joiner_algo 5
      (jn_set_queue (ap_queue (ec_appender (dj_consumer (ip_peer ld')))) None join_follower)
      = (Ret tt, j') ∧
    rep (w_mgr (jn_world j')) (w_fs (jn_world j')) blocks ∧
    concat (example_ids <$> blocks)
    = common_ids (take 2049 many) (jn_items join_follower) ++ common_ids many (jn_items join_follower).
Proof.
  apply (lost_call_joins_ids_twice test_post_ok many_leader join_follower 1 5).
  - split; reflexivity.
  - split; try reflexivity; by simpl.
  - reflexivity.
  - exact many_sendable.
  - vm_compute. reflexivity.
  - vm_compute. lia.
  - apply join_follower_rep.
  - reflexivity.
  - reflexivity.
  - vm_compute. discriminate.
  - vm_compute. reflexivity.
  - apply last_batch_writesb_spec. vm_compute. reflexivity.
  - vm_compute. lia.
Defined.
Example joined_twice :
  common_ids (take 2049 many) (jn_items join_follower) ++ common_ids many (jn_items join_follower)
  = ["a"; "b"; "a"; "b"; "c"].
Proof. vm_compute. reflexivity. Qed.
End TestLoss.
