(* ===== verification/Federation.v ===== *)
(** * The data join and the training on it

    The parts of the system one after the other: the data join of [Interleaving],
    under any schedule of its threads, leaves blocks on both sides; the two
    processes of the MNIST demo ([MnistInput]) are handed the files of these
    blocks and train the two halves of the model on them.  What they learn is what
    one process with both companies' data would learn. *)

From stdpp Require Import base tactics list gmap strings.
From Stdlib Require Import ZArith Lia Ascii.
From S2P Require Import Prelude Threads PyStd Messages Env DataBlockManager RawData DataBlockMaker DataJoiner DataBlockSaver Consumer DataBlockConsumer ExampleIdConsumer DataJoinServer ExampleIdProducer DataBlockProducer System JoinSteps Interleaving Trainer TrainerRun MnistModel MnistInput.

Open Scope Z_scope.

Section federation.
(** The data join: the follower's files [F], the leader's [G]. *)
Context {F G : Type} `{GFileLaws F} `{GFileLaws G} `{UtilsLaws} `{TFExample} `{Clock}.
Context (post_ok : ∀ u l, http_post u l = Ret tt).
(** The training on the same files, and the baseline elsewhere. *)
Context {D : Type → Type} {T Slot : Type}.
Context `{TfDataLaws D} `{!TfParse T} `{!TfParseLaws T} `{!TF T Slot} `{!TFLaws T Slot}.
Context (tf_assert_equal_refl : ∀ x : T, tf_assert_equal x x = true).
Context {WB X : Type} `{!GFile WB} `{!RunFs X}.
Context `{!FlOpsLib D G} `{!FlOpsLib D F} `{!FlOpsLib D WB}.
Context `{!FlOpsLaws D G} `{!FlOpsLaws D F} `{!FlOpsLaws D WB}.

Definition follower_world (n : net F G) : F := w_fs (jn_world (dw_joiner (bp_wrap (nt_metas n)))).
Definition leader_world (v : saver G) : G := w_fs (sv_world v).

(** The data center hands a role the files [paths], once for each epoch. *)
Definition hands_out {W} `{FlOpsLib D W} (role : string) (paths : list string) (n_epoch : Z) (w : W) : Prop :=
  ds_stream (fl_grpc_fetch_dataset role w) = mkStream (concat (replicate (Z.to_nat n_epoch) paths)) None.
Definition leader_paths (v0 : saver G) (blocks : list DataBlockMeta) : list string :=
  (λ x, block_file v0 (with_id v0 x)) <$> blocks.
Definition follower_paths (j0 : joiner F) (blocks : list DataBlockMeta) : list string :=
  data_path (jn_dir j0) (jn_source j0) (jn_partition_id j0) <$> blocks.

(** The files of the joined blocks hold the two sides' records of their ids. *)
Lemma joined_leader_handed items (j0 : joiner F) (v0 : saver G) (n : net F G) v blocks n_epoch :
  joined items j0 v0 n v blocks blocks →
  hands_out "leader" (leader_paths v0 blocks) n_epoch (leader_world v) →
  handed (D := D) "leader" items n_epoch (example_ids <$> blocks) (leader_world v).
Proof.
  intros Hj Hh. exists (leader_paths v0 blocks). split; [exact Hh|].
  unfold leader_paths. apply Forall2_fmap, Forall_Forall2_diag, Forall_forall.
  intros x Hx. exact (jd_leader_files _ _ _ _ _ _ _ Hj x Hx).
Qed.
Lemma joined_follower_handed items (j0 : joiner F) (v0 : saver G) (n : net F G) v blocks n_epoch :
  joined items j0 v0 n v blocks blocks →
  hands_out "follower" (follower_paths j0 blocks) n_epoch (follower_world n) →
  handed (D := D) "follower" (jn_items j0) n_epoch (example_ids <$> blocks) (follower_world n).
Proof.
  intros Hj Hh. exists (follower_paths j0 blocks). split; [exact Hh|].
  unfold follower_paths. apply Forall2_fmap, Forall_Forall2_diag, Forall_forall.
  intros x Hx. exact (jd_follower_files _ _ _ _ _ _ _ Hj x Hx).
Qed.

(** C1.  The federation learns what one company with the data of both would
    learn from the same full batches.  Let the threads of the data join take their steps
    in any order until each has had [rounds_needed] turns; no step fails and both sides
    have the same blocks, of all common ids.  If the two training processes are then
    handed the files of these blocks, for any number of epochs, both train to the end,
    one step for each full batch of 128 examples, and the variables of their halves are
    those of the model that the baseline has after as many steps on the records of the
    common ids of both companies in one place; what the two sides exchange are ids,
    activations and gradients.  When the examples of all epochs are a multiple of 128
    this is the model that the baseline ends with; otherwise the baseline takes one step
    more, on the examples that do not fill a batch, which the two sides drop. *)
Theorem federated_run_is_central_training items pid (j0 : joiner F) (v0 : saver G) (n : net F G) sched
    c n_epoch data_dir (d : driver (W := WB) X) x' :
  join_bounds items pid j0 v0 → join_start items pid j0 v0 n →
  rounds (rounds_needed items pid j0) sched → 0 ≤ n_epoch →
  let ids := common_ids items (jn_items j0) in
  (∀ id, id ∈ ids → trainable (T := T) leader_feature_map items id ∧
                    trainable (T := T) follower_feature_map (jn_items j0) id) →
  holds_records (dr_data d) (Str.path_join data_dir "leader_train") (record_of items <$> ids) →
  holds_records (dr_data d) (Str.path_join data_dir "follower_train") (record_of (jn_items j0) <$> ids) →
  rm_dir "model_baseline" (dr_dirs d) = (Ret tt, x') →
  ∃ n' v blocks, Threads.run thread_step sched n = (Ret tt, n') ∧
    joined items j0 v0 n' v blocks blocks ∧ concat (example_ids <$> blocks) = ids ∧
    (hands_out "leader" (leader_paths v0 blocks) n_epoch (leader_world v) →
     hands_out "follower" (follower_paths j0 blocks) n_epoch (follower_world n') →
     trains_like_the_baseline (D := D) (T := T) (Slot := Slot) c n_epoch
       (Z.to_nat n_epoch * length ids) (leader_world v) (follower_world n') data_dir d x').
Proof.
  intros Hb Hs Hr Hn ids Ht Dl Df Hx.
  destruct (join_drained post_ok items pid j0 v0 n sched Hb Hs Hr)
    as (n' & x & Hrun & _ & _ & _ & Hj & Hids).
  exists n', (gh_saver x), (gh_blocks x). split_and!; [done|done|done|]. intros Hl Hf.
  unfold ids in *. rewrite <- Hids.
  apply (joined_blocks_train_like_the_baseline tf_assert_equal_refl c n_epoch items (jn_items j0)
    (example_ids <$> gh_blocks x)); rewrite ?Hids; try done.
  - exact (joined_leader_handed items j0 v0 n' _ _ _ Hj Hl).
  - exact (joined_follower_handed items j0 v0 n' _ _ _ Hj Hf).
Qed.
End federation.

(** ** Witness: three common ids, 128 epochs *)
Section witnesses.
Import TestUtils TestStore TestRecords TestWorld TestJoiner TestSaver TestProducer.

(** A data center that hands out the data files of a side, in the order of their
    names, once for each of 128 epochs. *)
Definition data_files (w : MemFs) : list string :=
  py_sort Str.leb (filter (λ p, contains "data.src" p = true) (map_to_list (mf_files w)).*1).
#[local] Instance center_ops : FlOpsLib stream MemFs := {
  fl_grpc_fetch_dataset role w := mkStream (concat (replicate 128 (data_files w))) None;
  fl_tf_record_dataset d _ _ w := read_files (st_items d) (st_error d) w;
  fl_text_line_dataset d _ _ w := read_files (st_items d) (st_error d) w;
  TFRecordDataset paths w := read_files paths None w;
}.
#[local] Instance center_ops_laws : FlOpsLaws stream MemFs.
Proof.
  split; cbn.
  - intros d w paths rss ->. apply read_files_all.
  - intros w paths rss. apply read_files_all.
Qed.

Definition common : list string := ["a"; "b"; "c"].
Definition central_files : MemFs :=
  mkMemFs (<["data/leader_train/0.tfrecord" := common]> (<["data/follower_train/0.tfrecord" := common]> ∅))
    {["data/leader_train"; "data/follower_train"]}.
Definition central : driver (W := MemFs) Tree := mkDriver (mkTree [] []) central_files.
Definition sched0 : list thread := concat (repeat turns (rounds_needed TestSaver.items 0 join_follower)).

Lemma federated_run_is_central_training_witness :
  ∃ n' v blocks, Threads.run thread_step sched0 start_net = (Ret tt, n') ∧
    joined TestSaver.items join_follower (saver_of 0 [] false) n' v blocks blocks ∧
    concat (example_ids <$> blocks) = common_ids TestSaver.items (jn_items join_follower) ∧
    (hands_out (D := stream) "leader" (leader_paths (saver_of 0 [] false) blocks) 128 (leader_world v) →
     hands_out (D := stream) "follower" (follower_paths join_follower blocks) 128 (follower_world n') →
     trains_like_the_baseline (D := stream) (T := Z) (Slot := Z) 1 128
       (Z.to_nat 128 * length (common_ids TestSaver.items (jn_items join_follower)))
       (leader_world v) (follower_world n') "data" central (mkTree ["model_baseline"] [])).
Proof.
  apply (federated_run_is_central_training test_post_ok (D := stream) (TF0 := num_tf) Z.eqb_refl
    TestSaver.items 0 join_follower (saver_of 0 [] false) start_net sched0 1 128 "data" central).
  - exact start_net_bounds.
  - exact start_net_start.
  - apply rounds_repeat. intros []; vm_compute; set_solver.
  - done.
  - assert (common_ids TestSaver.items (jn_items join_follower) = common) as -> by by vm_compute.
    assert (Forall (λ id, trainable leader_feature_map TestSaver.items id ∧
      trainable follower_feature_map (jn_items join_follower) id) common) as Ht.
    { repeat constructor; try (eexists; by vm_compute); eexists; (split; [by vm_compute|done]). }
    intros id Hid. exact (proj1 (Forall_forall _ _) Ht id Hid).
  - exists ["data/leader_train/0.tfrecord"], [common].
    split_and!; [by vm_compute|by repeat constructor|by vm_compute].
  - exists ["data/follower_train/0.tfrecord"], [common].
    split_and!; [by vm_compute|by repeat constructor|by vm_compute].
  - reflexivity.
Defined.

(** The data center does hand out the files of these blocks; the 384 examples are three
    full batches, so both sessions take three steps, and the baseline no more. *)
Definition trained_values : list Z :=
  let n := (Threads.run thread_step sched0 start_net).2 in
  match dc_wrap (the_consumer n) with
  | Some v =>
      let blocks := (mg_buffer (w_mgr (jn_world (dw_joiner (bp_wrap (nt_metas n)))))).*2 in
      let handed_out paths w :=
        bool_decide (st_items (fl_grpc_fetch_dataset (D := stream) "leader" w) = concat (replicate 128 paths)) in
      if handed_out (leader_paths (saver_of 0 [] false) blocks) (leader_world v)
         && handed_out (follower_paths join_follower blocks) (follower_world n)
      then
        match fl_train (D := stream) (T := Z) (Slot := Z) (graph_l (SendIds true)) (graph_f (CompareIds true))
                (leader_input_fn "leader" (leader_world v))
                (follower_input_fn "follower" (follower_world n))
                (start_party [w1l; b1l; w2; b2; fake], start_party [w1f; b1f]) with
        | Ret (l, f) => [Z.of_nat (p_steps l); Z.of_nat (p_steps f)]
        | Stop _ => []
        end
      else []
  | None => []
  end.
Example trained_three_times : trained_values = [3; 3].
Proof. vm_compute. reflexivity. Qed.
End witnesses.
